(* ===== verification/_CoqProject ===== *)
-Q . S2P
Prelude.v
Text.v
Float64.v
BTree.v
Json.v
RuleTypes.v
MetricNumber.v
Geo.v
RuleCache.v
RuleEvaluate.v
Errors.v
RuleSnapshot.v
Topics.v
Access.v
Shadows.v
Firmware.v
ContractModel.v
Schema.v
Validation.v
ColdRoom.v
ContractCompiler.v
Compatibility.v
Alerts.v
Outbox.v
Commands.v
CommandTasks.v
RuleDelivery.v
IdentityStore.v
Identity.v
RateLimit.v
LimiterThreads.v
RuleAdminStore.v
RuleAdmin.v
RuleAdminHistory.v
DeviceIngress.v
EventStore.v
Events.v
EventHistory.v
EventReads.v
BlueprintStore.v
Blueprints.v
BlueprintHistory.v
ProvisionStore.v
Certificates.v
Devices.v
DeviceHistory.v
DeviceBatches.v
AnalyticsStore.v
Analytics.v
AnalyticsHistory.v
AnalyticsBudget.v
FirmwareStore.v
FirmwareCatalog.v
FirmwareHistory.v
UrlPolicy.v
ThreadDataset.v
ThreadBus.v
ThreadController.v
ThreadScans.v
ThreadRuntime.v
NativeUpdate.v
ClientContract.v
DeviceClient.v
