(* ===== verification/Prelude.v ===== *)
(** * Extrittio: a verification development of the platform core

    Extrittio is an IoT platform.  Devices publish telemetry, status and logs
    on topics; a rule engine turns observations into actions; actions are
    written to an outbox in the ingress transaction and delivered later as
    alerts, webhooks or device commands; desired device state is kept in
    shadows, which also carry firmware commands; and a device's interface is
    a declarative blueprint that is validated, compiled into a contract and
    compared with its successors.  The development models these parts of the
    Rust workspace (crates/rule-engine, backend-core, common,
    device-contract, the Turso adapter backend-turso whose transactions
    give the services their meaning, openthread-runtime, which runs a Thread
    border router on a gateway, and the device side under clients/rust) as
    executable definitions and proves what they promise.  Paths below are relative to src/.

    ** Conventions

    Pure functions are functions; a fallible one returns [result E A], with
    [?] as the monadic bind; a service or transaction takes the state and
    returns its result with the new state, so that every early return shows
    what has been written by then.  A database table is a [gmap] from its
    primary key, or a list when the query order matters, and SQL statements
    are written out on it, constraints included.  An [i32], [i64], [u32] or
    [u64] is a [Z] with its range or wrap-around written at the operation; an
    [f64] is Stdlib's executable IEEE 754 [spec_float]; a [String] is its
    bytes; a [BTreeMap] is its ordered association list.  Clock readings and
    fresh identifiers are arguments.  The adapter runs each
    transaction under the writer lock, so a transaction is one step, and
    interleavings are runs of step relations.  A service that reads, decides
    and writes in several transactions takes what its earlier reads answered
    as an argument, or is a task whose steps are the spans between its
    awaits, wherever a theorem speaks of concurrent use.

    ** Files

    - Prelude (this file): results, machine integers, lists, the hint database
      [rust] and shared tactics; Text: Rust's string operations on UTF-8
      bytes; Float64: doubles, their exact values, parsing and printing;
      BTree: ordered maps; Json: serde_json's values.
    - RuleTypes (crates/rule-engine/src/types.rs, model.rs, compiler.rs),
      MetricNumber (number.rs, metric.rs), Geo (geo.rs), RuleCache
      (cache.rs), RuleEvaluate (evaluate.rs): the rule engine.
    - RuleSnapshot (crates/backend-core/src/rule_snapshots.rs, rules.rs,
      crates/backend-turso/src/rule_runtime.rs): decisions taken in the
      ingress transaction, with cooldown and zone-entry rows.
    - DeviceIngress (device_identity.rs, device_ingress.rs,
      application/device_ingress.rs, backend-turso device_ingress.rs):
      heartbeats and the offline sweep.
    - EventStore (events.rs, backend-turso events.rs): the event tables, the
      recording transaction and pruning; Events (application/events.rs,
      application/metric_maintenance.rs): admission, extraction, routing,
      retention; EventHistory: histories of recordings and prunes;
      EventReads: the metric listing and the latest location.
    - Outbox (backend-core outbox.rs, rule_actions.rs, application/outbox.rs,
      backend-turso outbox.rs), Alerts (alerts.rs, application/alerts.rs,
      backend-turso alerts.rs), Commands (commands.rs,
      application/commands.rs, backend-turso commands.rs), CommandTasks (the
      same application/commands.rs, interleaved at its awaits), RuleDelivery
      (application/rule_delivery.rs): what happens to a decided action.
    - RuleAdminStore (zones.rs, backend-turso rules.rs and zones.rs),
      RuleAdmin (application/rules.rs, application/zones.rs),
      RuleAdminHistory: administration of rules and zones.
    - IdentityStore (users.rs, roles.rs, bootstrap.rs, backend-turso users.rs,
      roles.rs, bootstrap.rs), Identity (application/users.rs, roles.rs,
      bootstrap.rs): users, roles, passwords, sessions, the first owner.
    - RateLimit (crates/backend/src/rate_limit.rs): the request limiter, one
      check after the other, and the client address behind proxies;
      LimiterThreads: the limiter under concurrent checks.
    - Topics (crates/common/src/topics.rs, device_status.rs, ota.rs), Errors
      (backend-core error.rs), Access (context.rs, application/mod.rs).
    - Shadows (shadows.rs, application/shadows.rs, backend-turso shadows.rs)
      and Firmware (firmware.rs, application/firmware.rs, backend-turso
      firmware.rs): device state and over-the-air updates.
    - ContractModel, Schema, Validation, ContractCompiler, Compatibility
      (crates/device-contract/src/model.rs, schema.rs, validation.rs,
      compiler.rs and canonical.rs, compatibility.rs); ColdRoom is the
      blueprint of the crate's own tests, used as the concrete input.
    - BlueprintStore (blueprints.rs, backend-turso blueprints.rs), Blueprints
      (application/blueprints.rs), BlueprintHistory: drafts, published
      revisions and the contracts of devices.
    - ProvisionStore (devices.rs, certificates.rs, fleets.rs and their Turso
      transactions), Certificates (application/certificates.rs), Devices
      (application/devices.rs, fleets.rs), DeviceHistory and DeviceBatches:
      provisioning, certificates and private keys, fleets, bulk operations.
    - AnalyticsStore (backend-turso analytics.rs), Analytics (analytics.rs,
      application/analytics.rs), AnalyticsHistory, AnalyticsBudget: metric
      queries over raw samples and rollups, and the points of their series.
    - FirmwareStore (firmware.rs, api_keys.rs, ci_ingest.rs and their Turso
      transactions), FirmwareCatalog (application/firmware.rs,
      application/api_keys.rs, application/ci_ingest.rs and the object store
      of crates/backend/src/domains/firmware), FirmwareHistory: the firmware
      catalogue, its files, API keys and CI ingestion.
    - UrlPolicy (crates/backend/src/security.rs, outbound/webhook.rs,
      error.rs): which targets a server-side request may reach, and the
      responses to failures.
    - ThreadDataset (crates/openthread-runtime/src/dataset.rs, error.rs):
      Thread operational datasets; ThreadBus (dbus.rs): the border router's
      bus, typed; ThreadController (controller.rs): status, scans and the
      network changes with their rollback; ThreadScans and ThreadRuntime
      (runtime.rs): the scan cache under concurrent callers, and the
      supervision of the border-router process.
    - NativeUpdate (clients/rust/sdk/src/ota.rs, native_ota.rs): a device
      replaces its own executable, over a disk whose calls may fail or stop
      the process; ClientContract (clients/rust/contract/src/lib.rs and the
      contract ingress of crates/backend/src/zenoh_handler): events from the
      device to the server; DeviceClient (clients/rust/runtime/src/lib.rs,
      zenoh_handler/handlers/shadow.rs): the embedded device id, shadow deltas,
      and updates as the server hears of them.

    ** Theorems

    - Rules: the three evaluators refine one abstract alert machine
      ([evaluators_refine_alert_machine]); every action is the
      contribution of one selected rule, within its tenant, device and alert,
      and fires only out of that rule's cooldown ([evaluation_isolated]); the bucket index
      selects exactly the applicable rules ([rule_index_correct]); metrics
      compare by exact value ([compare_exact]).  Across transactions, firings
      are spaced by the cooldown ([cooldown_spacing]), retention does not
      shorten it ([prune_preserves_cooldowns]), and zone entries follow
      presence ([zone_entry_tracks_presence]).
    - Ingress: the status rules are evaluated on every change of a device's
      status, once and in order ([status_changes_evaluated]), heartbeats settle within
      their retries ([heartbeat_settles]) and the sweep never overwrites one
      ([offline_sweep_exact]).  Only events their contract allows are stored
      ([recorded_events_conform]), once ([event_processed_once]); extraction
      takes exactly the declared fields ([extraction_exact]); rollups are the
      aggregates of all that was accepted ([rollups_exact]), retention keeps
      whole hours ([retention_marks]), listings give back what was recorded
      ([listing_complete]) and the latest location is the newest position of
      one event ([latest_location_exact]).
    - Delivery: the outbox accounts for every event and fences lost claims
      ([outbox_accounting], [outbox_fencing], [claim_fair]); a delivery
      settles its event ([delivery_settles]) and may be repeated safely, also
      after other work ([redelivery_idempotent], [alert_delivered_once],
      [delivery_retry]); a
      rule has one open alert per device ([one_open_alert]); commands on the
      bus were authorized, admitted by a contract and recorded, however
      requests interleave with deletions of devices
      ([publications_accounted], [command_lifecycle]).
    - Administration: rules are accepted exactly when they are valid
      ([validate_rule_exact]); a snapshot compiles in every concurrent history
      ([snapshot_ready]); and rules stay valid, their zones present, where an
      update is written to what it had read ([stored_rules_valid],
      [snapshot_ready]).
    - Identity: the tables stay well formed ([identity_wellformed]), a tenant
      keeps an owner ([tenant_keeps_owner]), a session is bound to the
      password and roles it was opened with ([session_bound]); requests are
      limited under concurrent checks ([concurrent_limits]), one after the
      other as by an abstract log ([limiter_refines_window],
      [window_bound]), and by the address a trusted proxy reports
      ([client_ip_trusted]); permissions are exact ([authorization_exact]).
    - Device state: shadow invariants, exactness and convergence; the OTA
      command in the shadow and the deployment in flight always agree, and
      deployments only advance ([ota_commands_consistent],
      [ota_deployments_advance]).
    - Contracts: validation of instances and blueprints is equivalent to
      declarative conformance ([validate_instance_exact],
      [validate_blueprint_exact]); a compiled contract is closed and hashes
      verify ([compile_sound]), compilation never panics and fails only for
      the stated reasons ([compile_total]); what the comparison of blueprints
      covers is exact and a preorder ([breaking_exact],
      [non_breaking_preorder]), and is less than a device relies on
      ([unreported_changes]).
      Published revisions are numbered without gaps, unchanged and linked
      ([publication_linear]); a valid draft can be published
      ([publish_live]); the contract of a device is the compilation of the
      published revision it names ([device_contract_exact]).
    - Devices: every device has its shadow, certificate and configuration and
      nothing is left of a deleted one ([devices_complete]); provisioning
      stores all or nothing ([provision_exact]), and so do batches
      ([bulk_delete_exact], [selection_exact]); a private key is handed out
      at most once ([private_key_handed_once]).
    - Analytics: a query counts every accepted number in its range exactly
      once, whatever part of it is in rollups ([analytics_exact]), and its
      series have at most two points more than the estimate that is held
      within the budget ([series_points_bounded]).
    - Firmware files: recorded uploads keep their object
      ([uploaded_firmware_kept]), deployed firmware stays as it was
      ([deployed_firmware_stable]), CI ingestion is bound to the scope of its
      key ([ci_ingest_exact]).
    - Outbound requests: webhooks reach public addresses only
      ([webhook_targets_public]); responses to failures do not depend on
      internal texts ([responses_disclose_nothing]).
    - Thread: a dataset is imported exactly when it is well formed and
      complete ([import_dataset_exact]) and its credentials are read back
      ([imported_dataset_roundtrip]); a network change takes effect or the
      previous network is restored ([network_change_atomic]); the scan cache
      holds no results from before an announced network change
      ([scan_cache_coherent]); the runtime owns every border router that runs
      and starts none beside it ([one_border_router]), waits between restarts
      ([backoff_waits]) and tolerates short outages ([failures_tolerated]).
    - Devices and the server together: a device sends exactly the events the
      server admits and they reach the recording ([client_events_admitted]); a
      device that is sent its delta settles it ([client_converges]); an update
      is safe at every point of failure ([native_update_safe]) and the server's
      firmware bookkeeping follows it ([ota_reports_accepted]); a device id survives it
      up to 64 bytes ([embedded_id_roundtrip]).
    - Some theorems prove what the code does not do as its comments say or as
      its neighbours do: [insert_rule_retarget_keeps_old],
      [unreported_changes], [increment_version_spec],
      [resolve_redelivery_refused], [late_value_overwrites],
      [replay_all_blocked], [count_overshoots], [budget_exceeded_by_one],
      [budget_exceeded_by_two],
      [concurrent_updates_unvalidated], [alerted_rule_undeletable],
      [pan_zero_never_created], [shared_address_misroutes],
      [stale_temporary_blocks], [long_id_refused], [truncated_slot_panics].

    ** Interfaces

    Code that is not in the repository is the operations of a type class, an
    argument of what uses it: [Libm] (sin, cos, asin), [Chrono],
    [ChronoMicros] and [ChronoSpans] (printing, range and checked arithmetic
    of times), [SerdeJson], [ActionCodec] and [ContractCodec] (serializers,
    SHA-256), [CommandHost], [DeliveryHost], [EventHost] and [RuleHost] (the
    device bus, webhooks, derived readers, UUIDs, error texts),
    [PasswordHasher], [FieldReader] and [SqlText] (SQL's JSON functions and
    messages), [BlueprintCodec], [JsonExtract] and [JsonDisplay] (documents
    and their texts), [KeyProtector] (encryption of private keys),
    [SqlAggregates] (floating-point sums), [ObjectPaths] (file names),
    [WebHost] (URL parsing, name resolution), [OtbrBus], [OtbrRestControl] and
    [ThreadHost] (the border router's buses, its clock), [MessageCodec] and
    [ImageDigest] (message formats, SHA-256 of images).  Laws of them are separate classes
    or hypotheses ([SerdeJsonLaws], [SerdeTextLaws], [SerdeShape], [ContractCodecTotal],
    [PublicationLaws]).  [ShadowRepository] with
    [ShadowRepositoryLaws] is an interface between components: the
    application is proved against it and the Turso repository is an instance.
    Likewise the Thread controller is proved against [OtbrDbusControl] with
    [OtbrControlLaws], of which the typed bus is an instance whenever the raw
    bus has [OtbrBusLaws], and the supervision against [RuntimeBackend] with
    [RuntimeLaws].

    ** Bounds and fuel

    The only fuels are those of non-structural recursions.  Schema inspection
    and instance validation recurse with the code's own depth counters, so
    fuel 33 and 65 are depth limits 32 and 64 and reaching 0 is the code's
    own issue; [validate_instance_exact] shows that the instance limit is
    never what rejects.  The three attempts of a heartbeat are the code's own
    bound.  Printing a number takes its number of bits as fuel, which bounds
    the digits, trimming takes the length of the string and splitting a
    dataset the number of its bytes, each entry taking two at least.  All other
    recursions are structural.

    ** Not modelled

    The PostgreSQL adapter (the same contracts over a third-party query
    builder), the HTTP handlers and workers around the services, the
    discovery of serial devices, child processes and REST client of the
    OpenThread runtime, the platform-specific device programs, sensors and
    simulators (I/O over hardware and sockets), system metrics, logs and audit
    rows, the process configuration, the tools, the front ends.  The unsynced
    part of a disk is not modelled: a completed rename is durable.  Deleting a
    device, which cascades over its tables, is a step of the histories of
    DeviceHistory and CommandTasks and not of those of other components. *)
From stdpp Require Export base gmap strings list sets fin_maps options.
From Stdlib Require Export ZArith Lia.

(** ** Results

    Fallible Rust code returns [Result<A, E>]; the error type comes first so
    that [result E] is a monad and stdpp's [x ← e; k] is Rust's [?]. *)
Inductive result (E A : Type) : Type :=
| Ok (a : A)
| Err (e : E).
Arguments Ok {E A} a.
Arguments Err {E A} e.

#[export] Instance result_ret E : MRet (result E) := fun _ a => Ok a.
#[export] Instance result_bind E : MBind (result E) := fun _ _ k r =>
  match r with Ok a => k a | Err e => Err e end.
#[export] Instance result_fmap E : FMap (result E) := fun _ _ f r =>
  match r with Ok a => Ok (f a) | Err e => Err e end.

(** [Option::ok_or] and [Result::map_err]. *)
Definition ok_or {E A} (o : option A) (e : E) : result E A :=
  match o with Some a => Ok a | None => Err e end.
Definition map_err {E F A} (f : E -> F) (r : result E A) : result F A :=
  match r with Ok a => Ok a | Err e => Err (f e) end.
Definition is_ok {E A} (r : result E A) : bool :=
  match r with Ok _ => true | Err _ => false end.

Lemma bind_ok {E A B} (r : result E A) (k : A -> result E B) b :
  (r ≫= k) = Ok b <-> exists a, r = Ok a /\ k a = Ok b.
Proof. destruct r; simpl; [naive_solver|]. split; [done|]. by intros (? & ? & _). Qed.

Lemma ok_or_ok {E A} (o : option A) (e : E) a : ok_or o e = Ok a <-> o = Some a.
Proof. destruct o; naive_solver. Qed.

Lemma map_err_inv {E F A} (f : E -> F) (x : result E A) a : map_err f x = Ok a -> x = Ok a.
Proof. destruct x; simpl; congruence. Qed.
Lemma bind_err {E A B} (m : result E A) (f : A -> result E B) e :
  (m ≫= f) = Err e -> m = Err e \/ exists a, m = Ok a /\ f a = Err e.
Proof. destruct m as [a|]; simpl; [right; by exists a|left; congruence]. Qed.
Lemma map_err_err {E F A} (f : E -> F) (x : result E A) e : map_err f x = Err e -> exists e', e = f e'.
Proof. destruct x; simpl; [done|]. intros [= <-]. eauto. Qed.
Lemma ok_or_err {E A} (x : option A) (e e' : E) : ok_or x e = Err e' -> e' = e.
Proof. destruct x; simpl; congruence. Qed.

(** ** Machine integers

    A w-bit integer is a [Z] together with the range it is kept in. *)
Module Int.
Local Open Scope Z_scope.
Definition i32_min := - 2 ^ 31.
Definition i32_max := 2 ^ 31 - 1.
Definition i64_min := - 2 ^ 63.
Definition i64_max := 2 ^ 63 - 1.
Definition u32_max := 2 ^ 32 - 1.
Definition u64_max := 2 ^ 64 - 1.
Definition in_i32 (z : Z) : bool := (i32_min <=? z) && (z <=? i32_max).
Definition in_i64 (z : Z) : bool := (i64_min <=? z) && (z <=? i64_max).
Definition in_u32 (z : Z) : bool := (0 <=? z) && (z <=? u32_max).
Definition in_u64 (z : Z) : bool := (0 <=? z) && (z <=? u64_max).

(** [u64::wrapping_add], [u32::wrapping_add], [i32::checked_add], [u64::checked_mul]. *)
Definition wrapping_add_u64 (a b : Z) : Z := (a + b) mod 2 ^ 64.
Definition wrapping_add_u32 (a b : Z) : Z := (a + b) mod 2 ^ 32.
Definition checked_add_i32 (a b : Z) : option Z :=
  if in_i32 (a + b) then Some (a + b) else None.
Definition checked_mul_u64 (a b : Z) : option Z :=
  if in_u64 (a * b) then Some (a * b) else None.

Lemma in_i64_spec z : in_i64 z = true <-> i64_min <= z <= i64_max.
Proof. unfold in_i64. rewrite andb_true_iff, !Z.leb_le. done. Qed.
Lemma in_u64_spec z : in_u64 z = true <-> 0 <= z <= u64_max.
Proof. unfold in_u64. rewrite andb_true_iff, !Z.leb_le. done. Qed.
Lemma in_u32_spec z : in_u32 z = true <-> 0 <= z <= u32_max.
Proof. unfold in_u32. rewrite andb_true_iff, !Z.leb_le. done. Qed.
Lemma in_i32_spec z : in_i32 z = true <-> i32_min <= z <= i32_max.
Proof. unfold in_i32. rewrite andb_true_iff, !Z.leb_le. done. Qed.
End Int.

(** ** Notations and automation *)
Declare Scope rust_scope.
Delimit Scope rust_scope with rust.
Notation "a =s? b" := (String.eqb a b) (at level 70, no associativity) : rust_scope.
Notation "a !=s b" := (negb (String.eqb a b)) (at level 70, no associativity) : rust_scope.
#[global] Open Scope rust_scope.
#[global] Arguments String.eqb : simpl never.

(** Hint databases: [rust] resolves goals about the model, [rust_simpl]
    rewrites boolean tests of the code into propositions. *)
Create HintDb rust.
Create Rewrite HintDb rust_simpl.
Create Rewrite HintDb rust_list.
#[export] Hint Rewrite andb_true_iff orb_true_iff andb_false_iff orb_false_iff
  negb_true_iff negb_false_iff Z.leb_le Z.ltb_lt Z.eqb_eq Z.leb_gt Z.ltb_ge Z.eqb_neq
  String.eqb_eq String.eqb_neq bool_decide_eq_true bool_decide_eq_false
  forallb_forall existsb_exists Nat.eqb_eq Nat.leb_le Nat.ltb_lt : rust_simpl.

(** [bool_prop] turns every boolean test in the context into a proposition. *)
Ltac bool_prop :=
  repeat (progress (autorewrite with rust_simpl in *)); destruct_and?.

(** [split_match] splits the innermost [match] or [if] of the goal or of a
    hypothesis and simplifies with the equation it yields. *)
Ltac split_match :=
  match goal with
  | |- context [match ?x with _ => _ end] =>
      lazymatch x with context [match _ with _ => _ end] => fail | _ => idtac end;
      destruct x eqn:?
  | H : context [match ?x with _ => _ end] |- _ =>
      lazymatch x with context [match _ with _ => _ end] => fail | _ => idtac end;
      destruct x eqn:?
  end; simplify_eq/=.
Ltac split_matches := repeat split_match.

(** ** Generic lemmas on lists *)
Section list_facts.
Context {A B : Type}.
Implicit Types (l : list A) (p q : A -> bool).

Lemma elem_of_concat_map (f : A -> list B) l b :
  b ∈ concat (map f l) <-> exists a, a ∈ l /\ b ∈ f a.
Proof.
  rewrite list_elem_of_In, in_concat. split.
  - intros (bs & Hbs & Hb). apply in_map_iff in Hbs as (a & <- & Ha).
    exists a. split; by apply list_elem_of_In.
  - intros (a & Ha & Hb). exists (f a). rewrite in_map_iff.
    apply list_elem_of_In in Ha. apply list_elem_of_In in Hb. eauto.
Qed.

Lemma existsb_elem p l : existsb p l = true <-> exists a, a ∈ l /\ p a = true.
Proof. rewrite existsb_exists. by setoid_rewrite list_elem_of_In. Qed.

Lemma forallb_elem p l : forallb p l = true <-> forall a, a ∈ l -> p a = true.
Proof. rewrite forallb_forall. by setoid_rewrite list_elem_of_In. Qed.

Lemma existsb_false_elem p l : existsb p l = false <-> forall a, a ∈ l -> p a = false.
Proof.
  rewrite <- not_true_iff_false, existsb_elem. split.
  - intros H a Ha. apply not_true_iff_false. eauto.
  - intros H (a & Ha & Hp). rewrite (H a Ha) in Hp. done.
Qed.

Lemma elem_of_filterb p l a : a ∈ List.filter p l <-> a ∈ l /\ p a = true.
Proof. rewrite !list_elem_of_In. apply filter_In. Qed.

#[export] Instance filterb_Permutation p : Proper ((≡ₚ) ==> (≡ₚ)) (List.filter p).
Proof.
  intros l l' H. induction H as [|x l l' H IH|x y l|]; simpl.
  - done.
  - destruct (p x); by rewrite IH.
  - destruct (p x), (p y); try done. apply perm_swap.
  - by etrans.
Qed.
End list_facts.
#[export] Hint Rewrite @existsb_elem @forallb_elem @elem_of_filterb : rust_list.

(** [mapM] in the error monad: a fallible map that stops at the first error. *)
Lemma mapM_fmap {E A B C} (f : A -> result E B) (g : B -> C) (h : A -> C) l l' :
  (forall a b, f a = Ok b -> g b = h a) -> mapM f l = Ok l' -> map g l' = map h l.
Proof.
  intros Hf. revert l'. induction l as [|a l IH]; intros l'; [by intros [= <-]|]. simpl.
  intros (b & Hb & (bs & Hbs & [= <-])%bind_ok)%bind_ok. simpl. by rewrite (Hf a b Hb), (IH _ Hbs).
Qed.
Lemma mapM_elem {E A B} (f : A -> result E B) l l' b :
  mapM f l = Ok l' -> b ∈ l' -> exists a, a ∈ l /\ f a = Ok b.
Proof.
  revert l'. induction l as [|a l IH]; intros l'; simpl; [intros [= <-] H; by apply elem_of_nil in H|].
  intros (x & Hx & (xs & Hxs & [= <-])%bind_ok)%bind_ok [->|Hb]%elem_of_cons; [exists a; set_solver|].
  destruct (IH _ Hxs Hb) as (a' & Ha & Hf). exists a'. set_solver.
Qed.
Lemma mapM_elem_inv {E A B} (f : A -> result E B) l l' a :
  mapM f l = Ok l' -> a ∈ l -> exists b, b ∈ l' /\ f a = Ok b.
Proof.
  revert l'. induction l as [|x l IH]; intros l'; simpl; [intros _ H; by apply elem_of_nil in H|].
  intros (y & Hy & (ys & Hys & [= <-])%bind_ok)%bind_ok [->|Ha]%elem_of_cons; [exists y; set_solver|].
  destruct (IH _ Hys Ha) as (b & Hb & Hf). exists b. set_solver.
Qed.

(** ** Tables

    The rowid of a new row of a table with an [INTEGER PRIMARY KEY] (without
    AUTOINCREMENT): one more than the largest. *)
Definition next_rowid {A} (m : gmap Z A) : Z := (1 + map_fold (fun k _ acc => Z.max k acc) 0 m)%Z.
Lemma next_rowid_fresh {A} (m : gmap Z A) : m !! next_rowid m = None.
Proof.
  assert (forall k a, m !! k = Some a -> (k < next_rowid m)%Z) as H.
  { unfold next_rowid. apply (map_fold_weak_ind (fun acc (m : gmap Z A) => forall k a, m !! k = Some a -> (k < 1 + acc)%Z)).
    - intros k a. by rewrite lookup_empty.
    - intros i x m' acc _ IH k a [[<- <-]|[_ Hk]]%lookup_insert_Some; [lia|]. specialize (IH _ _ Hk). lia. }
  destruct (m !! next_rowid m) as [a|] eqn:E; [|done]. apply H in E. lia.
Qed.
