(* ===== verification/Text.v ===== *)
(** * Rust strings and integer text

    A Rust [String] or [&str] is its UTF-8 byte sequence: a Stdlib [string],
    whose [ascii] characters are bytes.  This file models the part of the
    standard library's [str] and integer parsing the sources use, with the
    lemmas the components share. *)
From S2P Require Import Prelude.
From Stdlib Require Import Ascii.

Local Open Scope Z_scope.

(** ** Bytes *)
Definition code (c : ascii) : Z := Z.of_N (N_of_ascii c).
Definition between (lo hi z : Z) : bool := (lo <=? z) && (z <=? hi).
Definition is_ascii_lowercase (c : ascii) : bool := between 97 122 (code c).
Definition is_ascii_uppercase (c : ascii) : bool := between 65 90 (code c).
Definition is_ascii_digit (c : ascii) : bool := between 48 57 (code c).
Definition is_ascii_alphanumeric (c : ascii) : bool :=
  is_ascii_lowercase c || is_ascii_uppercase c || is_ascii_digit c.
Definition is_ascii_hexdigit (c : ascii) : bool :=
  is_ascii_digit c || between 97 102 (code c) || between 65 70 (code c).
Definition to_ascii_lowercase (c : ascii) : ascii :=
  if is_ascii_uppercase c then ascii_of_N (Z.to_N (code c + 32)) else c.
Definition one_of (set : string) (c : ascii) : bool :=
  existsb (Ascii.eqb c) (String.list_ascii_of_string set).

(** ** str *)
(** [str::len] counts bytes. *)
Definition str_len (s : string) : Z := Z.of_nat (String.length s).
Definition str_is_empty (s : string) : bool :=
  match s with EmptyString => true | _ => false end.
(** [str::chars().count()]: the bytes that do not continue a UTF-8 sequence. *)
Fixpoint chars_count (s : string) : Z :=
  match s with
  | EmptyString => 0
  | String c r => (if between 128 191 (code c) then 0 else 1) + chars_count r
  end.
(** [str::bytes().all(p)]. *)
Fixpoint str_forall (p : ascii -> bool) (s : string) : bool :=
  match s with EmptyString => true | String c r => p c && str_forall p r end.
(** [str::bytes().next()]. *)
Definition str_head (s : string) : option ascii :=
  match s with EmptyString => None | String c _ => Some c end.
(** [str::contains(char)]. *)
Definition contains_char (c : ascii) (s : string) : bool :=
  negb (str_forall (fun x => negb (Ascii.eqb x c)) s).

Fixpoint strip_prefix (p s : string) : option string :=
  match p, s with
  | EmptyString, _ => Some s
  | String a p', String b s' => if Ascii.eqb a b then strip_prefix p' s' else None
  | String _ _, EmptyString => None
  end.
Definition starts_with (p s : string) : bool :=
  match strip_prefix p s with Some _ => true | None => false end.
Fixpoint strip_suffix (suf s : string) : option string :=
  if s =s? suf then Some "" else
  match s with
  | EmptyString => None
  | String c r => String c <$> strip_suffix suf r
  end.

(** [str::split_once(pat)]: around the first occurrence of the pattern. *)
Fixpoint split_once (pat s : string) : option (string * string) :=
  match strip_prefix pat s with
  | Some rest => Some ("", rest)
  | None =>
    match s with
    | EmptyString => None
    | String c r =>
      match split_once pat r with
      | Some (a, b) => Some (String c a, b)
      | None => None
      end
    end
  end.
Definition contains (pat s : string) : bool :=
  match split_once pat s with Some _ => true | None => false end.
(** [str::rsplit_once(char)]: around the last occurrence. *)
Fixpoint rsplit_once (c : ascii) (s : string) : option (string * string) :=
  match s with
  | EmptyString => None
  | String x r =>
    match rsplit_once c r with
    | Some (a, b) => Some (String x a, b)
    | None => if Ascii.eqb x c then Some ("", r) else None
    end
  end.
(** [str::split(char).collect::<Vec<_>>()]. *)
Fixpoint split_char (c : ascii) (s : string) : list string :=
  match s with
  | EmptyString => [""]
  | String x r =>
    if Ascii.eqb x c then "" :: split_char c r
    else match split_char c r with
         | [] => [String x ""]
         | w :: ws => String x w :: ws
         end
  end.

(** [str::replace(pat, by)] for a non-empty pattern: left to right, without
    overlap; [skip] counts the bytes of a match still to be dropped. *)
Fixpoint replace_go (pat by_ : string) (skip : nat) (s : string) : string :=
  match s with
  | EmptyString => ""
  | String c r =>
    match skip with
    | S k => replace_go pat by_ k r
    | O => if starts_with pat s
           then by_ +:+ replace_go pat by_ (pred (String.length pat)) r
           else String c (replace_go pat by_ 0 r)
    end
  end.
Definition replace (pat by_ s : string) : string := replace_go pat by_ 0 s.
(** [str::replace(char, by)]. *)
Fixpoint replace_char (c : ascii) (by_ s : string) : string :=
  match s with
  | EmptyString => ""
  | String x r => (if Ascii.eqb x c then by_ else String x "") +:+ replace_char c by_ r
  end.

(** [str::trim_end_matches(char)] and [str::trim_start_matches(char)]. *)
Fixpoint trim_start_matches (c : ascii) (s : string) : string :=
  match s with
  | String x r => if Ascii.eqb x c then trim_start_matches c r else s
  | EmptyString => ""
  end.
Fixpoint trim_end_matches (c : ascii) (s : string) : string :=
  match s with
  | EmptyString => ""
  | String x r =>
    let t := trim_end_matches c r in
    if str_is_empty t && Ascii.eqb x c then "" else String x t
  end.

(** One leading Unicode [White_Space] character, and what follows it. *)
Definition strip_space (s : string) : option string :=
  let byte := fun c => code c in
  match s with
  | String a r =>
    if between 9 13 (byte a) || (byte a =? 32) then Some r else
    match r with
    | String b r2 =>
      if (byte a =? 194) && ((byte b =? 133) || (byte b =? 160)) then Some r2 else
      match r2 with
      | String c r3 =>
        let abc := (byte a, byte b, byte c) in
        if bool_decide (abc ∈ [(225, 154, 128); (226, 128, 168); (226, 128, 169);
                               (226, 128, 175); (226, 129, 159); (227, 128, 128)])
           || ((byte a =? 226) && (byte b =? 128) && between 128 138 (byte c))
        then Some r3 else None
      | EmptyString => None
      end
    | EmptyString => None
    end
  | EmptyString => None
  end.
Fixpoint all_space (fuel : nat) (s : string) : bool :=
  match fuel with
  | O => str_is_empty s
  | S k => match strip_space s with
           | Some r => all_space k r
           | None => str_is_empty s
           end
  end.
(** [s.trim().is_empty()]: every character of [s] is white space.  Each step
    drops at least one byte, so the length of [s] is enough fuel. *)
Definition trim_is_empty (s : string) : bool := all_space (String.length s) s.

(** [str::trim]: leading white space, then every suffix that is white space. *)
Fixpoint trim_start_go (fuel : nat) (s : string) : string :=
  match fuel with
  | O => s
  | S k => match strip_space s with Some r => trim_start_go k r | None => s end
  end.
Fixpoint trim_end (s : string) : string :=
  match s with
  | EmptyString => ""
  | String c r => if trim_is_empty s then "" else String c (trim_end r)
  end.
Definition trim (s : string) : string := trim_end (trim_start_go (String.length s) s).

Fixpoint str_map (f : ascii -> ascii) (s : string) : string :=
  match s with EmptyString => "" | String c r => String (f c) (str_map f r) end.
(** [str::eq_ignore_ascii_case]. *)
Definition eq_ignore_ascii_case (a b : string) : bool :=
  str_map to_ascii_lowercase a =s? str_map to_ascii_lowercase b.

(** [[String]::join(sep)]. *)
Fixpoint join (sep : string) (parts : list string) : string :=
  match parts with
  | [] => ""
  | [p] => p
  | p :: ps => p +:+ sep +:+ join sep ps
  end.

(** ** Integers as text *)
Definition digit_char (d : Z) : ascii := ascii_of_N (Z.to_N (48 + d)).
Definition digit_value (c : ascii) : option Z :=
  if is_ascii_digit c then Some (code c - 48) else None.

Fixpoint digits_go (fuel : nat) (n : Z) (acc : string) : string :=
  match fuel with
  | O => acc
  | S k =>
    let acc' := String (digit_char (n mod 10)) acc in
    if n <? 10 then acc' else digits_go k (n / 10) acc'
  end.
(** Decimal digits of a non-negative integer; a number has at most as many
    decimal digits as binary ones, which is the fuel. *)
Definition digits (n : Z) : string := digits_go (S (Z.to_nat (Z.log2 n))) n "".
(** [Display] of an integer. *)
Definition int_to_string (z : Z) : string :=
  if z <? 0 then String "-" (digits (- z)) else digits z.

Fixpoint parse_digits (acc : Z) (s : string) : option Z :=
  match s with
  | EmptyString => Some acc
  | String c r => d ← digit_value c; parse_digits (acc * 10 + d) r
  end.
Definition parse_nat (s : string) : option Z :=
  match s with EmptyString => None | _ => parse_digits 0 s end.
(** [str::parse::<iN>]: an optional sign, digits, and the range check that
    Rust makes digit by digit (the accumulated value is monotone). *)
Definition parse_signed (lo hi : Z) (s : string) : option Z :=
  v ← match s with
      | String "+" r => parse_nat r
      | String "-" r => Z.opp <$> parse_nat r
      | _ => parse_nat s
      end;
  if (lo <=? v) && (v <=? hi) then Some v else None.
(** [str::parse::<uN>]: an optional [+], digits, and the range check. *)
Definition parse_unsigned (hi : Z) (s : string) : option Z :=
  v ← match s with String "+" r => parse_nat r | _ => parse_nat s end;
  if v <=? hi then Some v else None.
Definition parse_i64 : string -> option Z := parse_signed Int.i64_min Int.i64_max.
Definition parse_u64 : string -> option Z := parse_unsigned Int.u64_max.
Definition parse_u32 : string -> option Z := parse_unsigned Int.u32_max.

(** ** Lemmas *)
Lemma app_empty_l s : "" +:+ s = s.
Proof. done. Qed.
Lemma app_cons c a b : String c a +:+ b = String c (a +:+ b).
Proof. done. Qed.
Lemma str_app_assoc a b c : (a +:+ b) +:+ c = a +:+ (b +:+ c).
Proof. induction a; [done|]. rewrite !app_cons. by f_equal. Qed.
Lemma str_app_length a b : String.length (a +:+ b) = (String.length a + String.length b)%nat.
Proof. induction a; [done|]. rewrite app_cons. simpl. by f_equal. Qed.

Lemma ascii_eqb_spec a b : Ascii.eqb a b = true <-> a = b.
Proof. apply Ascii.eqb_eq. Qed.
#[export] Hint Rewrite ascii_eqb_spec Ascii.eqb_neq : rust_simpl.

Lemma strip_prefix_app p s : strip_prefix p (p +:+ s) = Some s.
Proof. induction p; [done|]. rewrite app_cons. simpl. by rewrite Ascii.eqb_refl. Qed.
Lemma strip_prefix_Some p s r : strip_prefix p s = Some r -> s = p +:+ r.
Proof.
  revert s. induction p as [|a p IH]; intros s H; simplify_eq/=; [done|].
  destruct s as [|b s]; [done|]. destruct (Ascii.eqb_spec a b); simplify_eq.
  rewrite app_cons. f_equal. eauto.
Qed.
Lemma starts_with_true p s : starts_with p s = true <-> exists r, s = p +:+ r.
Proof.
  unfold starts_with. destruct (strip_prefix p s) as [r|] eqn:E; split.
  - intros _. exists r. by apply strip_prefix_Some.
  - done.
  - done.
  - intros [r ->]. by rewrite strip_prefix_app in E.
Qed.

Lemma strip_suffix_app suf s : strip_suffix suf (s +:+ suf) = Some s.
Proof.
  induction s as [|c s IH].
  - rewrite app_empty_l. destruct suf; simpl; [done|]. by rewrite String.eqb_refl.
  - rewrite app_cons. simpl. rewrite IH. simpl. case_match eqn:E; [|done].
    apply String.eqb_eq in E. apply (f_equal String.length) in E. simpl in E.
    rewrite str_app_length in E. lia.
Qed.
Lemma strip_suffix_Some suf s r : strip_suffix suf s = Some r -> s = r +:+ suf.
Proof.
  revert r. induction s as [|c s IH]; intros r H; cbn in H.
  - destruct ("" =s? suf) eqn:E; [|done]. apply String.eqb_eq in E. by simplify_eq.
  - destruct (String c s =s? suf) eqn:E.
    + apply String.eqb_eq in E. by simplify_eq.
    + apply fmap_Some in H as (r' & H & ->). rewrite app_cons. f_equal. eauto.
Qed.

Lemma split_once_Some pat s a b : split_once pat s = Some (a, b) -> s = a +:+ pat +:+ b.
Proof.
  revert a. induction s as [|c s IH]; intros a H; simpl in H.
  - destruct (strip_prefix pat "") as [r|] eqn:E; simplify_eq.
    by apply strip_prefix_Some in E.
  - destruct (strip_prefix pat (String c s)) as [r|] eqn:E; simplify_eq.
    + by apply strip_prefix_Some in E.
    + destruct (split_once pat s) as [[a' b']|]; simplify_eq.
      rewrite app_cons. f_equal. eauto.
Qed.
(** The split is at the first occurrence: a left part that avoids the
    pattern's first byte is returned whole. *)
Lemma split_once_app c pat a b :
  str_forall (fun x => negb (Ascii.eqb x c)) a = true ->
  split_once (String c pat) (a +:+ String c pat +:+ b) = Some (a, b).
Proof.
  induction a as [|x a IH]; intros Ha.
  - rewrite app_empty_l. pose proof (strip_prefix_app (String c pat) b) as E.
    rewrite app_cons in *. cbn [split_once]. by rewrite E.
  - simpl in Ha. apply andb_true_iff in Ha as [Hx Ha]. rewrite app_cons.
    cbn [split_once strip_prefix]. rewrite Ascii.eqb_sym.
    destruct (Ascii.eqb x c); [done|]. by rewrite (IH Ha).
Qed.

Lemma str_forall_app p a b : str_forall p (a +:+ b) = str_forall p a && str_forall p b.
Proof.
  induction a; [done|]. rewrite app_cons. simpl. by rewrite IHa, andb_assoc.
Qed.
Lemma str_forall_impl (p q : ascii -> bool) s :
  (forall c, p c = true -> q c = true) -> str_forall p s = true -> str_forall q s = true.
Proof. intros Hpq. induction s; simpl; [done|]. bool_prop. naive_solver. Qed.
Lemma contains_char_false c s :
  contains_char c s = false <-> str_forall (fun x => negb (Ascii.eqb x c)) s = true.
Proof. unfold contains_char. by rewrite negb_false_iff. Qed.

(** Two strings split at the same separator byte have the same parts when
    both left parts avoid it. *)
Lemma str_split_unique c a b a' b' :
  contains_char c a = false -> contains_char c a' = false ->
  a +:+ String c b = a' +:+ String c b' -> a = a' /\ b = b'.
Proof.
  rewrite !contains_char_false. revert a'. induction a as [|x a IH]; intros [|y a'] Ha Ha' E.
  - rewrite !app_empty_l in E. by simplify_eq.
  - rewrite app_empty_l, app_cons in E. simplify_eq. simpl in Ha'.
    by rewrite Ascii.eqb_refl in Ha'.
  - rewrite app_empty_l, app_cons in E. simplify_eq. simpl in Ha.
    by rewrite Ascii.eqb_refl in Ha.
  - rewrite !app_cons in E. simplify_eq. simpl in Ha, Ha'. bool_prop.
    destruct (IH a') as [-> ->]; done.
Qed.

(** ** Printing and parsing integers *)
Lemma code_digit_char d : 0 <= d <= 9 -> code (digit_char d) = 48 + d.
Proof.
  intros. unfold code, digit_char. rewrite N_ascii_embedding by lia. lia.
Qed.
Lemma digit_value_char d : 0 <= d <= 9 -> digit_value (digit_char d) = Some d.
Proof.
  intros H. unfold digit_value, is_ascii_digit, between. rewrite code_digit_char by done.
  destruct (Z.leb_spec 48 (48 + d)), (Z.leb_spec (48 + d) 57); [|lia..].
  simpl. f_equal. lia.
Qed.

Lemma parse_digits_app acc a b v :
  parse_digits acc a = Some v -> parse_digits acc (a +:+ b) = parse_digits v b.
Proof.
  revert acc. induction a as [|c a IH]; intros acc H; [by simplify_eq/=|].
  rewrite app_cons. cbn in *. destruct (digit_value c); simplify_eq/=. eauto.
Qed.

Lemma digits_go_app fuel n acc : digits_go fuel n acc = digits_go fuel n "" +:+ acc.
Proof.
  revert n acc. induction fuel as [|k IH]; intros n acc; [done|]. simpl.
  destruct (n <? 10); [done|].
  rewrite IH, (IH _ (String _ "")), str_app_assoc. done.
Qed.
Lemma parse_digits_go fuel n :
  0 <= n < 2 ^ Z.of_nat fuel -> parse_digits 0 (digits_go fuel n "") = Some n.
Proof.
  revert n. induction fuel as [|k IH]; intros n Hn; simpl.
  - f_equal. change (2 ^ Z.of_nat 0) with 1 in Hn. lia.
  - assert (0 <= n mod 10 <= 9) by (pose proof (Z.mod_pos_bound n 10); lia).
    destruct (Z.ltb_spec n 10).
    + simpl. rewrite digit_value_char by done. simpl. f_equal. rewrite Z.mod_small; lia.
    + rewrite digits_go_app, (parse_digits_app _ _ _ (n / 10)).
      * simpl. rewrite digit_value_char by done. simpl. f_equal.
        pose proof (Z.div_mod n 10). lia.
      * apply IH. rewrite Nat2Z.inj_succ, Z.pow_succ_r in Hn by lia.
        split; [apply Z.div_pos; lia|]. apply Z.div_lt_upper_bound; lia.
Qed.
Lemma digits_nonempty n : exists c r, digits n = String c r.
Proof.
  unfold digits. simpl. destruct (n <? 10); [eauto|]. rewrite digits_go_app.
  destruct (digits_go _ _ _) as [|c r]; [|rewrite app_cons]; eauto.
Qed.
Lemma parse_nat_digits n : 0 <= n -> parse_nat (digits n) = Some n.
Proof.
  intros Hn. destruct (digits_nonempty n) as (c & r & E). unfold parse_nat. rewrite E, <- E.
  apply parse_digits_go. split; [done|]. rewrite Nat2Z.inj_succ.
  destruct (Z.eq_dec n 0) as [->|]; [done|].
  rewrite Z2Nat.id by apply Z.log2_nonneg. apply Z.log2_spec. lia.
Qed.

Lemma digits_go_forall fuel n acc :
  0 <= n -> str_forall is_ascii_digit acc = true ->
  str_forall is_ascii_digit (digits_go fuel n acc) = true.
Proof.
  revert n acc. induction fuel as [|k IH]; intros n acc Hn Hacc; simpl; [done|].
  assert (is_ascii_digit (digit_char (n mod 10)) = true) as Hd.
  { unfold is_ascii_digit, between. rewrite code_digit_char;
      pose proof (Z.mod_pos_bound n 10); bool_prop; lia. }
  destruct (n <? 10); [simpl; by rewrite Hd|].
  apply IH; [apply Z.div_pos; lia|]. simpl. by rewrite Hd.
Qed.
Lemma digits_forall n : 0 <= n -> str_forall is_ascii_digit (digits n) = true.
Proof. intros. by apply digits_go_forall. Qed.

(** Reading back a printed integer of the type gives the integer. *)
Lemma parse_signed_to_string lo hi z :
  lo <= z <= hi -> parse_signed lo hi (int_to_string z) = Some z.
Proof.
  intros Hz. unfold parse_signed, int_to_string. destruct (Z.ltb_spec z 0).
  - rewrite parse_nat_digits by lia. simpl. rewrite Z.opp_involutive.
    rewrite (proj2 (andb_true_iff _ _)); [done|]. split; apply Z.leb_le; lia.
  - pose proof (digits_forall z) as Hd. pose proof (parse_nat_digits z) as Hp.
    destruct (digits_nonempty z) as (c & r & E). rewrite E in *.
    specialize (Hd ltac:(lia)). simpl in Hd. apply andb_true_iff in Hd as [Hc _].
    assert ((lo <=? z) && (z <=? hi) = true) as Hr.
    { apply andb_true_iff. split; apply Z.leb_le; lia. }
    assert (c <> "+"%char /\ c <> "-"%char) as [? ?] by (by split; intros ->).
    repeat case_match; simplify_eq; rewrite Hp by lia; simpl; by rewrite Hr.
Qed.
Lemma parse_i64_to_string z : Int.in_i64 z = true -> parse_i64 (int_to_string z) = Some z.
Proof. rewrite Int.in_i64_spec. apply parse_signed_to_string. Qed.

Lemma parse_unsigned_to_string hi z :
  0 <= z <= hi -> parse_unsigned hi (int_to_string z) = Some z.
Proof.
  intros Hz. unfold parse_unsigned, int_to_string. destruct (Z.ltb_spec z 0); [lia|].
  assert (str_forall is_ascii_digit (digits z) = true) as Hd by (apply digits_forall; lia).
  assert (match digits z with String "+" r => parse_nat r | _ => parse_nat (digits z) end = Some z) as ->.
  { rewrite <- (parse_nat_digits z) by lia. destruct (digits z) as [|c r]; [done|].
    simpl in Hd. apply andb_true_iff in Hd as [Hc _].
    destruct (Ascii.eqb_spec c "+") as [->|Hne]; [by vm_compute in Hc|].
    destruct c as [[] [] [] [] [] [] [] []]; done. }
  simpl. by destruct (Z.leb_spec z hi); [|lia].
Qed.
Lemma split_char_none c a : contains_char c a = false -> split_char c a = [a].
Proof.
  rewrite contains_char_false. induction a as [|x a IH]; simpl; [done|]. intros [Hx Ha]%andb_true_iff.
  apply negb_true_iff in Hx. rewrite Hx, IH by done. done.
Qed.
Lemma split_char_app c a b :
  contains_char c a = false -> split_char c (a +:+ String c b) = a :: split_char c b.
Proof.
  rewrite contains_char_false. induction a as [|x a IH].
  - intros _. simpl. by rewrite Ascii.eqb_refl.
  - rewrite app_cons. simpl. intros [Hx Ha]%andb_true_iff. apply negb_true_iff in Hx.
    rewrite Hx, IH by done. done.
Qed.

(** ** Trimming twice *)
Lemma strip_space_app a b r : strip_space a = Some r -> strip_space (a +:+ b) = Some (r +:+ b).
Proof.
  destruct a as [|x a]; [done|]. rewrite app_cons. simpl. destruct (_ || _); [by intros [= ->]|].
  destruct a as [|y a]; [done|]. rewrite app_cons. simpl. destruct (_ && _); [by intros [= ->]|].
  destruct a as [|z a]; [done|]. rewrite app_cons. simpl. destruct (_ || _); [by intros [= ->]|done].
Qed.
Lemma strip_space_length s r : strip_space s = Some r -> (String.length r < String.length s)%nat.
Proof.
  destruct s as [|x s]; [done|]. simpl. destruct (_ || _); [intros [= ->]; lia|].
  destruct s as [|y s]; [done|]. simpl. destruct (_ && _); [intros [= ->]; lia|].
  destruct s as [|z s]; [done|]. simpl. destruct (_ || _); [intros [= ->]; lia|done].
Qed.
(** More fuel changes nothing. *)
Lemma all_space_fuel n s : (String.length s <= n)%nat -> all_space n s = all_space (String.length s) s.
Proof.
  revert s. induction n as [n IH] using lt_wf_ind. intros s Hs.
  destruct n as [|n]; [destruct s; [done|simpl in Hs; lia]|]. destruct s as [|c s]; [done|].
  change (String.length (String c s)) with (S (String.length s)) in *. cbn [all_space].
  destruct (strip_space (String c s)) as [r|] eqn:E; [|done]. apply strip_space_length in E. simpl in E.
  rewrite (IH n ltac:(lia) r ltac:(lia)). symmetry. apply IH; lia.
Qed.
Lemma trim_is_empty_step s : trim_is_empty s = match strip_space s with Some r => trim_is_empty r | None => str_is_empty s end.
Proof.
  unfold trim_is_empty. destruct s as [|c s]; [done|]. cbn [String.length all_space].
  destruct (strip_space (String c s)) as [r|] eqn:E; [|done]. apply strip_space_length in E. simpl in E. apply all_space_fuel. lia.
Qed.
Lemma trim_is_empty_app a b : trim_is_empty a = true -> trim_is_empty b = true -> trim_is_empty (a +:+ b) = true.
Proof.
  remember (String.length a) as n eqn:Hn. revert a Hn. induction n as [n IH] using lt_wf_ind. intros a -> Ha Hb.
  rewrite trim_is_empty_step in Ha. destruct (strip_space a) as [r|] eqn:E; [|by destruct a].
  rewrite trim_is_empty_step, (strip_space_app _ _ _ E). eapply IH; [|done|done|done]. by apply strip_space_length.
Qed.
Lemma trim_end_split s : exists q, s = trim_end s +:+ q /\ trim_is_empty q = true.
Proof.
  induction s as [|c s (q & E & Hq)]; [by exists ""|]. cbn [trim_end].
  destruct (trim_is_empty (String c s)) eqn:Et; [by exists (String c s)|].
  exists q. split; [|done]. rewrite app_cons. by f_equal.
Qed.
Lemma trim_end_trim_end s : trim_end (trim_end s) = trim_end s.
Proof.
  induction s as [|c s IH]; [done|]. cbn [trim_end]. destruct (trim_is_empty (String c s)) eqn:Et; [done|].
  cbn [trim_end]. rewrite IH. destruct (trim_is_empty (String c (trim_end s))) eqn:E; [|done].
  destruct (trim_end_split s) as (q & Es & Hq). rewrite Es in Et at 1. rewrite <- app_cons in Et.
  by rewrite trim_is_empty_app in Et.
Qed.
Lemma trim_start_none fuel s : strip_space s = None -> trim_start_go fuel s = s.
Proof. destruct fuel; [done|]. simpl. by intros ->. Qed.
Lemma trim_start_stops fuel s : (String.length s <= fuel)%nat -> strip_space (trim_start_go fuel s) = None.
Proof.
  revert s. induction fuel as [|k IH]; intros s H; [destruct s; [done|simpl in H; lia]|]. simpl.
  destruct (strip_space s) as [r|] eqn:E; [|done]. apply IH. apply strip_space_length in E. lia.
Qed.
Lemma trim_trim s : trim (trim s) = trim s.
Proof.
  unfold trim at 1. set (t := trim s). assert (strip_space t = None) as Ht.
  { unfold t, trim. set (u := trim_start_go _ s). destruct (strip_space (trim_end u)) as [r|] eqn:E; [|done].
    destruct (trim_end_split u) as (q & Eu & _). apply (strip_space_app _ q) in E. rewrite <- Eu in E.
    unfold u in E. by rewrite trim_start_stops in E. }
  rewrite trim_start_none by done. apply trim_end_trim_end.
Qed.
