(* ===== verification/Float64.v ===== *)
(** * IEEE 754 binary64 as the sources use it

    A Rust [f64] is a value of Stdlib's [spec_float], the executable IEEE 754
    specification, at precision 53 and maximal exponent 1024.  The file adds
    the Rust operations that specification lacks (truncation, casts, parsing,
    formatting) and relates comparison to exact integer arithmetic: every
    finite double is an integer multiple of [2^-1074], its [units]. *)
From S2P Require Import Prelude Text.
From Stdlib Require Export SpecFloat.
From Stdlib Require Import Ascii.

Local Open Scope Z_scope.

Abbreviation f64 := spec_float.
Definition prec64 : Z := 53.
Definition emax64 : Z := 1024.
Definition valid (x : f64) : bool := valid_binary prec64 emax64 x.

(** ** Arithmetic and comparison *)
Definition f64_add : f64 -> f64 -> f64 := SFadd prec64 emax64.
Definition f64_sub : f64 -> f64 -> f64 := SFsub prec64 emax64.
Definition f64_mul : f64 -> f64 -> f64 := SFmul prec64 emax64.
Definition f64_div : f64 -> f64 -> f64 := SFdiv prec64 emax64.
Definition f64_sqrt : f64 -> f64 := SFsqrt prec64 emax64.
Definition f64_lt (x y : f64) : bool := SFltb x y.
Definition f64_le (x y : f64) : bool := SFleb x y.
Definition f64_gt (x y : f64) : bool := SFltb y x.
Definition f64_ge (x y : f64) : bool := SFleb y x.
Definition f64_eq (x y : f64) : bool := SFeqb x y.
Definition is_finite (x : f64) : bool :=
  match x with S754_zero _ | S754_finite _ _ _ => true | _ => false end.
Definition f64_zero : f64 := S754_zero false.

(** [n as f64] for an integer: correctly rounded. *)
Definition f64_of_Z (n : Z) : f64 := binary_normalize prec64 emax64 n 0 false.
(** The range [lo..=hi] contains [x]. *)
Definition in_range (lo hi x : f64) : bool := f64_le lo x && f64_le x hi.

(** [f64::trunc]: the bits below the binary point are cleared. *)
Definition f64_trunc (x : f64) : f64 :=
  match x with
  | S754_finite s m e =>
    if 0 <=? e then x
    else match Zpos m - Zpos m mod 2 ^ (- e) with
         | Zpos p => S754_finite s p e
         | _ => S754_zero s
         end
  | _ => x
  end.
(** [f64::fract] is [self - self.trunc()]. *)
Definition f64_fract (x : f64) : f64 := f64_sub x (f64_trunc x).
(** [x as i64]: toward zero, saturating, NaN to zero. *)
Definition f64_to_i64 (x : f64) : Z :=
  match x with
  | S754_nan | S754_zero _ => 0
  | S754_infinity s => if s then Int.i64_min else Int.i64_max
  | S754_finite s m e =>
    let a := if 0 <=? e then Zpos m * 2 ^ e else Zpos m / 2 ^ (- e) in
    Z.max Int.i64_min (Z.min Int.i64_max (if s then - a else a))
  end.

(** ** Parsing: [str::parse::<f64>] is correctly rounded *)
Definition f64_of_decimal (neg : bool) (m e : Z) : f64 :=
  match m with
  | Zpos p =>
    let nd := str_len (digits m) in
    if 310 <? nd + e then S754_infinity neg
    else if nd + e <? -330 then S754_zero neg
    else if 0 <=? e then
      match m * 10 ^ e with
      | Zpos q => binary_round prec64 emax64 neg q 0
      | _ => S754_zero neg
      end
    else
      let '(q, e', l) := SFdiv_core_binary prec64 emax64 m 0 (10 ^ (- e)) 0 in
      binary_round_aux prec64 emax64 neg q e' l
  | _ => S754_zero neg
  end.

Fixpoint scan_digits (acc cnt : Z) (s : string) : Z * Z * string :=
  match s with
  | String c r =>
    match digit_value c with
    | Some d => scan_digits (acc * 10 + d) (cnt + 1) r
    | None => (acc, cnt, s)
    end
  | EmptyString => (acc, cnt, s)
  end.
Definition parse_exponent (s : string) : option Z :=
  match s with
  | EmptyString => Some 0
  | String c r =>
    if Ascii.eqb (to_ascii_lowercase c) "e" then
      match r with
      | String "-" r' => Z.opp <$> parse_nat r'
      | String "+" r' => parse_nat r'
      | _ => parse_nat r
      end
    else None
  end.
Definition parse_f64 (s : string) : option f64 :=
  let '(neg, r) :=
    match s with
    | String "-" r => (true, r)
    | String "+" r => (false, r)
    | _ => (false, s)
    end in
  if eq_ignore_ascii_case r "inf" || eq_ignore_ascii_case r "infinity"
  then Some (S754_infinity neg)
  else if eq_ignore_ascii_case r "nan" then Some S754_nan
  else
    let '(i, ni, r1) := scan_digits 0 0 r in
    let '(m, nf, r2) :=
      match r1 with
      | String "." r' => scan_digits i 0 r'
      | _ => (i, 0, r1)
      end in
    if ni + nf =? 0 then None
    else e ← parse_exponent r2; Some (f64_of_decimal neg m (e - nf)).

(** ** Formatting *)
Definition sign_str (s : bool) : string := if s then "-" else "".
Fixpoint zeros (n : nat) : string :=
  match n with O => "" | S k => String "0" (zeros k) end.
(** The integer [n] scaled by [10^-p], written with [p] fractional digits. *)
Definition fixed_point (n : Z) (p : nat) : string :=
  match p with
  | O => digits n
  | _ =>
    let q := n / 10 ^ Z.of_nat p in
    let f := digits (n mod 10 ^ Z.of_nat p) in
    digits q +:+ "." +:+ zeros (p - String.length f) +:+ f
  end.
(** Round the quotient of non-negative integers to nearest, ties to even. *)
Definition div_half_even (num den : Z) : Z :=
  let q := num / den in
  match Z.compare (2 * (num mod den)) den with
  | Lt => q
  | Gt => q + 1
  | Eq => if Z.even q then q else q + 1
  end.
(** [format!("{:.p$}", x)]. *)
Definition format_fixed (p : nat) (x : f64) : string :=
  match x with
  | S754_nan => "NaN"
  | S754_infinity s => sign_str s +:+ "inf"
  | S754_zero s => sign_str s +:+ fixed_point 0 p
  | S754_finite s m e =>
    let num := Zpos m * 10 ^ Z.of_nat p in
    let n := if 0 <=? e then num * 2 ^ e else div_half_even num (2 ^ (- e)) in
    sign_str s +:+ fixed_point n p
  end.

(** [Display]: the shortest decimal that reads back as the same double, the
    closest of them to the exact value, in positional notation.  17
    significant digits always suffice for binary64. *)
Definition decimal_exponent (num den : Z) : Z :=
  str_len (digits (num * 10 ^ 400 / den)) - 400.
Definition shortest_at (x : f64) (num den k : Z) (n : Z) : option (Z * Z) :=
  let '(a, b) := if k <=? n then (num * 10 ^ (n - k), den) else (num, den * 10 ^ (k - n)) in
  let d := a / b in
  let down := f64_eq (f64_of_decimal false d (k - n)) x in
  let up := f64_eq (f64_of_decimal false (d + 1) (k - n)) x in
  if up && (negb down || (b <=? 2 * (a mod b))) then Some (d + 1, k - n)
  else if down then Some (d, k - n) else None.
Fixpoint shortest_from (fuel : nat) (x : f64) (num den k n : Z) : Z * Z :=
  match shortest_at x num den k n, fuel with
  | Some r, _ => r
  | None, S f => shortest_from f x num den k (n + 1)
  | None, O => (num / den, 0)
  end.
Definition positional (d e : Z) : string :=
  if 0 <=? e then digits (d * 10 ^ e)
  else trim_end_matches "." (trim_end_matches "0" (fixed_point d (Z.to_nat (- e)))).
Definition f64_display (x : f64) : string :=
  match x with
  | S754_nan => "NaN"
  | S754_infinity s => sign_str s +:+ "inf"
  | S754_zero s => sign_str s +:+ "0"
  | S754_finite s m e =>
    let '(num, den) := if 0 <=? e then (Zpos m * 2 ^ e, 1) else (Zpos m, 2 ^ (- e)) in
    let '(d, k) := shortest_from 17 (S754_finite false m e) num den
                     (decimal_exponent num den) 1 in
    sign_str s +:+ positional d k
  end.

(** The model on the standard library's documented cases. *)
Example parse_f64_ok :
  option_map f64_display (parse_f64 "85.2") = Some "85.2"
  /\ option_map f64_display (parse_f64 "-1.5e-7") = Some "-0.00000015"
  /\ option_map f64_display (parse_f64 "1e21") = Some "1000000000000000000000"
  /\ option_map f64_display (parse_f64 "0.1") = Some "0.1"
  /\ option_map f64_display (parse_f64 "5e-324") <> None
  /\ parse_f64 "." = None /\ parse_f64 "1e" = None /\ parse_f64 "" = None
  /\ parse_f64 "INF" = Some (S754_infinity false) /\ parse_f64 "1e400" = Some (S754_infinity false).
Proof. vm_compute. done. Qed.
Example format_fixed_ok :
  option_map (format_fixed 4) (parse_f64 "85.19999694824219") = Some "85.2000"
  /\ option_map (format_fixed 0) (parse_f64 "2.5") = Some "2"
  /\ option_map (format_fixed 6) (parse_f64 "-0.0000001") = Some "-0.000000".
Proof. vm_compute. done. Qed.

(** ** Exact values

    [units x] is the value of a finite double in multiples of [2^-1074]. *)
Definition unit_exp : Z := 1074.
Definition one_units : Z := 2 ^ unit_exp.
Definition units (x : f64) : Z :=
  match x with
  | S754_finite s m e => (if s then -1 else 1) * (Zpos m * 2 ^ (e + unit_exp))
  | _ => 0
  end.
Lemma one_units_eq : one_units = 2 ^ 1074.
Proof. done. Qed.
Lemma one_units_pos : 0 < one_units.
Proof. done. Qed.
#[global] Opaque one_units.

Lemma digits2_pos_bounds m : 2 ^ (Zpos (digits2_pos m) - 1) <= Zpos m < 2 ^ Zpos (digits2_pos m).
Proof.
  induction m as [m IH|m IH|]; simpl digits2_pos.
  - rewrite Pos2Z.inj_succ, Z.pow_succ_r by lia.
    replace (Z.succ (Zpos (digits2_pos m)) - 1) with (Z.succ (Zpos (digits2_pos m) - 1)) by lia.
    rewrite Z.pow_succ_r by lia. lia.
  - rewrite Pos2Z.inj_succ, Z.pow_succ_r by lia.
    replace (Z.succ (Zpos (digits2_pos m)) - 1) with (Z.succ (Zpos (digits2_pos m) - 1)) by lia.
    rewrite Z.pow_succ_r by lia. lia.
  - done.
Qed.
Lemma digits2_pos_unique m d : 0 < d -> 2 ^ (d - 1) <= Zpos m < 2 ^ d -> Zpos (digits2_pos m) = d.
Proof.
  intros Hd H. pose proof (digits2_pos_bounds m) as Hm.
  destruct (Z.lt_trichotomy (Zpos (digits2_pos m)) d) as [Hl|[He|Hl]]; [|done|].
  - pose proof (Z.pow_le_mono_r 2 (Zpos (digits2_pos m)) (d - 1)). lia.
  - pose proof (Z.pow_le_mono_r 2 d (Zpos (digits2_pos m) - 1)). lia.
Qed.

(** What [bounded] says of a canonical double. *)
Lemma bounded_facts m e :
  bounded prec64 emax64 m e = true ->
  -1074 <= e <= 971 /\ Zpos m < 2 ^ 53 /\ (-1074 < e -> 2 ^ 52 <= Zpos m).
Proof.
  unfold bounded, canonical_mantissa, fexp, emin, prec64, emax64. intros H. bool_prop.
  pose proof (digits2_pos_bounds m) as Hm.
  assert (Zpos (digits2_pos m) <= 53) by lia.
  pose proof (Z.pow_le_mono_r 2 (Zpos (digits2_pos m)) 53).
  repeat split; [lia..|]. intros He.
  assert (Zpos (digits2_pos m) = 53) as Hd by lia. rewrite Hd in Hm. simpl in *. lia.
Qed.

Lemma pos_lt_shift a b k : a < 2 ^ 53 -> 2 ^ 52 <= b -> 0 < k -> a < b * 2 ^ k.
Proof.
  intros Ha Hb Hk. pose proof (Z.pow_le_mono_r 2 1 k).
  assert (2 ^ 52 * 2 <= b * 2 ^ k) by (apply Z.mul_le_mono_nonneg; lia). lia.
Qed.

Lemma finite_compare_units m1 e1 m2 e2 :
  bounded prec64 emax64 m1 e1 = true -> bounded prec64 emax64 m2 e2 = true ->
  match Z.compare e1 e2 with
  | Lt => Lt | Gt => Gt | Eq => Pos.compare_cont Eq m1 m2
  end = Z.compare (Zpos m1 * 2 ^ (e1 + unit_exp)) (Zpos m2 * 2 ^ (e2 + unit_exp)).
Proof.
  intros [He1 [Hm1 Hn1]]%bounded_facts [He2 [Hm2 Hn2]]%bounded_facts. unfold unit_exp in *.
  destruct (Z.compare_spec e1 e2) as [->|Hlt|Hlt].
  - change (Pos.compare_cont Eq m1 m2) with (Zpos m1 ?= Zpos m2).
    assert (0 < 2 ^ (e2 + 1074)) by (apply Z.pow_pos_nonneg; lia).
    destruct (Z.compare_spec (Zpos m1) (Zpos m2)) as [->|?|?]; symmetry.
    + apply Z.compare_refl.
    + apply Z.compare_lt_iff. by apply Z.mul_lt_mono_pos_r.
    + apply Z.compare_gt_iff. by apply Z.mul_lt_mono_pos_r.
  - symmetry. apply Z.compare_lt_iff.
    replace (e2 + 1074) with ((e2 - e1) + (e1 + 1074)) by lia.
    rewrite (Z.pow_add_r 2 (e2 - e1)), Z.mul_assoc by lia.
    apply Z.mul_lt_mono_pos_r; [apply Z.pow_pos_nonneg; lia|].
    apply pos_lt_shift; [done|apply Hn2; lia|lia].
  - symmetry. apply Z.compare_gt_iff.
    replace (e1 + 1074) with ((e1 - e2) + (e2 + 1074)) by lia.
    rewrite (Z.pow_add_r 2 (e1 - e2)), Z.mul_assoc by lia.
    apply Z.mul_lt_mono_pos_r; [apply Z.pow_pos_nonneg; lia|].
    apply pos_lt_shift; [done|apply Hn1; lia|lia].
Qed.

Lemma units_pos m e : bounded prec64 emax64 m e = true -> 0 < Zpos m * 2 ^ (e + unit_exp).
Proof.
  intros [? _]%bounded_facts. apply Z.mul_pos_pos; [lia|].
  apply Z.pow_pos_nonneg; unfold unit_exp; lia.
Qed.

(** Comparison of finite doubles is comparison of their exact values. *)
Lemma compare_units x y :
  valid x = true -> valid y = true -> is_finite x = true -> is_finite y = true ->
  SFcompare x y = Some (Z.compare (units x) (units y)).
Proof.
  intros Hx Hy Fx Fy.
  destruct x as [sx| | |sx mx ex], y as [sy| | |sy my ey]; try done; cbn [units SFcompare]; f_equal.
  - pose proof (units_pos _ _ Hy). destruct sy; symmetry.
    + apply Z.compare_gt_iff. lia.
    + apply Z.compare_lt_iff. lia.
  - pose proof (units_pos _ _ Hx). destruct sx; symmetry.
    + apply Z.compare_lt_iff. lia.
    + apply Z.compare_gt_iff. lia.
  - pose proof (units_pos _ _ Hx). pose proof (units_pos _ _ Hy).
    pose proof (finite_compare_units _ _ _ _ Hx Hy) as Hc.
    destruct sx, sy; rewrite ?Z.mul_1_l.
    + replace (-1 * (Zpos mx * 2 ^ (ex + unit_exp))) with (- (Zpos mx * 2 ^ (ex + unit_exp))) by lia.
      replace (-1 * (Zpos my * 2 ^ (ey + unit_exp))) with (- (Zpos my * 2 ^ (ey + unit_exp))) by lia.
      rewrite Z.compare_opp, (Z.compare_antisym (Zpos mx * 2 ^ (ex + unit_exp))), <- Hc. by destruct (ex ?= ey).
    + symmetry. apply Z.compare_lt_iff. lia.
    + symmetry. apply Z.compare_gt_iff. lia.
    + done.
Qed.

(** ** Exactness of rounding and truncation *)
Lemma iter_xO m d : Zpos (Pos.iter xO m d) = Zpos m * 2 ^ Zpos d.
Proof.
  induction d as [|d IH] using Pos.peano_ind; [simpl; lia|].
  rewrite Pos.iter_succ, Pos2Z.inj_succ, Z.pow_succ_r by lia.
  rewrite (Pos2Z.inj_xO (Pos.iter _ _ _)), IH. lia.
Qed.
Lemma digits2_shift m d : Zpos (digits2_pos (Pos.iter xO m d)) = Zpos (digits2_pos m) + Zpos d.
Proof.
  pose proof (digits2_pos_bounds m) as Hm.
  apply digits2_pos_unique; [lia|]. rewrite iter_xO.
  replace (Zpos (digits2_pos m) + Zpos d - 1) with ((Zpos (digits2_pos m) - 1) + Zpos d) by lia.
  rewrite !Z.pow_add_r by lia.
  pose proof (Z.pow_pos_nonneg 2 (Zpos d)). nia.
Qed.
Lemma round_aux_canonical s m e :
  fexp prec64 emax64 (Zpos (digits2_pos m) + e) = e -> e <= 971 ->
  binary_round_aux prec64 emax64 s (Zpos m) e loc_Exact = S754_finite s m e.
Proof.
  intros Hf He. unfold binary_round_aux, shr_fexp, Zdigits2. rewrite Hf, Z.sub_diag. simpl.
  unfold shr_fexp, Zdigits2. rewrite Hf, Z.sub_diag. simpl.
  replace (e <=? emax64 - prec64) with true; [done|]. symmetry. by apply Z.leb_le.
Qed.
(** A mantissa of at most 53 bits at an exponent in range needs no rounding. *)
Lemma binary_round_exact s p e :
  Zpos p < 2 ^ 53 -> -1074 <= e <= 971 ->
  exists p' e', binary_round prec64 emax64 s p e = S754_finite s p' e'
                /\ bounded prec64 emax64 p' e' = true
                /\ Zpos p' * 2 ^ (e' + unit_exp) = Zpos p * 2 ^ (e + unit_exp).
Proof.
  intros Hp He. pose proof (digits2_pos_bounds p) as Hd.
  assert (Zpos (digits2_pos p) <= 53) as Hd53.
  { destruct (Z.le_gt_cases (Zpos (digits2_pos p)) 53) as [|Hg]; [done|].
    pose proof (Z.pow_le_mono_r 2 53 (Zpos (digits2_pos p) - 1)). lia. }
  unfold binary_round, shl_align.
  set (f := fexp prec64 emax64 (Zpos (digits2_pos p) + e)).
  assert (-1074 <= f <= e) as Hf by (unfold f, fexp, emin, prec64, emax64; lia).
  assert (exists p' e', match f - e with
             | Zneg d => (Pos.iter xO p d, f) | _ => (p, e) end = (p', e')
           /\ Zpos (digits2_pos p') + e' = Zpos (digits2_pos p) + e /\ e' = f
           /\ Zpos p' * 2 ^ (e' + unit_exp) = Zpos p * 2 ^ (e + unit_exp))
    as (p' & e' & -> & Hdig & -> & Hv).
  { destruct (f - e) as [|d|d] eqn:E; [|lia|].
    - exists p, e. repeat split; lia.
    - exists (Pos.iter xO p d), f. rewrite digits2_shift, iter_xO.
      repeat split; [lia|]. replace (e + unit_exp) with (Zpos d + (f + unit_exp)) by lia.
      rewrite (Z.pow_add_r 2 (Zpos d)) by (unfold unit_exp; lia). lia. }
  assert (fexp prec64 emax64 (Zpos (digits2_pos p') + f) = f) as Hcan by (by rewrite Hdig).
  exists p', f. split; [apply round_aux_canonical; [done|lia]|].
  split; [|done]. unfold bounded, canonical_mantissa. rewrite Hcan, Z.eqb_refl. simpl.
  apply Z.leb_le. unfold emax64, prec64. lia.
Qed.

(** The integer part of a finite double, in units. *)
Definition trunc_int (x : f64) : Z :=
  match x with
  | S754_finite s m e =>
    (if s then -1 else 1) * (if 0 <=? e then Zpos m * 2 ^ e else Zpos m / 2 ^ (- e))
  | _ => 0
  end.
Lemma trunc_units s m e :
  bounded prec64 emax64 m e = true ->
  Zpos m * 2 ^ (e + unit_exp)
  = (if 0 <=? e then Zpos m * 2 ^ e else Zpos m / 2 ^ (- e)) * one_units
    + (if 0 <=? e then 0 else (Zpos m mod 2 ^ (- e)) * 2 ^ (e + unit_exp))
  /\ units (S754_finite s m e) = (if s then -1 else 1) * (Zpos m * 2 ^ (e + unit_exp)).
Proof.
  intros [He _]%bounded_facts. split; [|done]. unfold unit_exp in *.
  rewrite one_units_eq.
  destruct (Z.leb_spec 0 e).
  - rewrite Z.pow_add_r by lia. lia.
  - assert (2 ^ 1074 = 2 ^ (- e) * 2 ^ (e + 1074)) as ->.
    { rewrite <- Z.pow_add_r by lia. f_equal. lia. }
    pose proof (Z.div_mod (Zpos m) (2 ^ (- e))). pose proof (Z.pow_pos_nonneg 2 (- e)).
    rewrite Z.mul_assoc, <- Z.mul_add_distr_r. f_equal. lia.
Qed.

Lemma compare_zero_finite s m e :
  SFcompare (S754_finite s m e) f64_zero = Some (if s then Lt else Gt).
Proof. done. Qed.
Lemma compare_zero_swap x : SFcompare f64_zero x = CompOpp <$> SFcompare x f64_zero.
Proof. by destruct x as [| [] | | []]. Qed.
Lemma sub_same_exp s m p e :
  f64_sub (S754_finite s m e) (S754_finite s p e)
  = binary_normalize prec64 emax64 ((if s then -1 else 1) * (Zpos m - Zpos p)) e false.
Proof.
  unfold f64_sub, SFsub, shl_align. rewrite Z.min_id, Z.sub_diag. simpl fst. f_equal.
  unfold cond_Zopp. destruct s; lia.
Qed.
Lemma signed_compare (s : bool) (a b : Z) :
  Z.compare ((if s then -1 else 1) * (b + a)) ((if s then -1 else 1) * b)
  = Z.compare ((if s then -1 else 1) * a) 0.
Proof.
  destruct s.
  - destruct (Z.compare_spec (-1 * a) 0);
      [apply Z.compare_eq_iff | apply Z.compare_lt_iff | apply Z.compare_gt_iff]; lia.
  - destruct (Z.compare_spec (1 * a) 0);
      [apply Z.compare_eq_iff | apply Z.compare_lt_iff | apply Z.compare_gt_iff]; lia.
Qed.

(** The sign of the fractional part tells on which side of its integer part a
    double lies. *)
Lemma fract_compare x :
  valid x = true -> is_finite x = true ->
  SFcompare (f64_fract x) f64_zero = Some (Z.compare (units x) (trunc_int x * one_units)).
Proof.
  intros Hv Hf. destruct x as [s| | |s m e]; try done; [by destruct s|].
  destruct (trunc_units s m e Hv) as [Hu _]. pose proof (bounded_facts _ _ Hv) as (He & Hm & _).
  unfold units, trunc_int, f64_fract, f64_trunc. rewrite Hu, <- Z.mul_assoc, signed_compare. clear Hu.
  destruct (Z.leb_spec 0 e) as [|Hneg].
  { rewrite sub_same_exp, Z.sub_diag, !Z.mul_0_r. done. }
  pose proof (Z.pow_pos_nonneg 2 (- e)) as Hp2. pose proof (Z.pow_pos_nonneg 2 (e + unit_exp)) as Hpu.
  unfold unit_exp in Hpu.
  pose proof (Z.mod_pos_bound (Zpos m) (2 ^ (- e))) as Hr.
  pose proof (Z.mod_le (Zpos m) (2 ^ (- e))) as Hrm.
  remember (Zpos m mod 2 ^ (- e)) as r eqn:Hrd. clear Hrd.
  destruct (Zpos m - r) as [|p|p] eqn:Ep; [| |lia].
  - change (f64_sub (S754_finite s m e) (S754_zero s)) with (S754_finite s m e).
    rewrite compare_zero_finite. f_equal. symmetry.
    destruct s; [apply Z.compare_lt_iff | apply Z.compare_gt_iff]; unfold unit_exp; nia.
  - rewrite sub_same_exp. replace (Zpos m - Zpos p) with r by lia.
    destruct r as [|r'|r']; [by destruct s| |lia].
    destruct (binary_round_exact s r' e) as (p' & e' & Hb & _ & _); [lia|lia|].
    destruct s; cbv beta iota zeta;
      [change (-1 * Zpos r') with (Zneg r') | change (1 * Zpos r') with (Zpos r')];
      unfold binary_normalize; rewrite Hb, compare_zero_finite; f_equal; symmetry.
    + apply Z.compare_lt_iff. unfold unit_exp. nia.
    + apply Z.compare_gt_iff. unfold unit_exp. nia.
Qed.

Lemma f64_to_i64_trunc x :
  is_finite x = true -> Int.i64_min <= trunc_int x <= Int.i64_max -> f64_to_i64 x = trunc_int x.
Proof.
  destruct x as [| | |s m e]; try done. unfold f64_to_i64, trunc_int. intros _ H.
  destruct s; lia.
Qed.
(** Truncation is toward zero, within one unit of the value. *)
Lemma trunc_bounds x :
  valid x = true -> is_finite x = true ->
  (0 <= units x -> trunc_int x * one_units <= units x < (trunc_int x + 1) * one_units)
  /\ (units x <= 0 -> (trunc_int x - 1) * one_units < units x <= trunc_int x * one_units).
Proof.
  intros Hv Hf. pose proof one_units_pos.
  destruct x as [s| | |s m e]; [simpl; lia|done|done|].
  destruct (trunc_units s m e Hv) as [Hu _]. pose proof (units_pos _ _ Hv).
  pose proof (bounded_facts _ _ Hv) as (He & Hm & _).
  unfold units, trunc_int. rewrite Hu in *.
  set (q := if 0 <=? e then _ else _) in *. set (t := if 0 <=? e then 0 else _) in *.
  assert (0 <= q) by (unfold q; case_match; [|apply Z.div_pos; [|apply Z.pow_pos_nonneg]]; lia).
  assert (0 <= t < one_units).
  { unfold t. destruct (Z.leb_spec 0 e); [lia|].
    rewrite one_units_eq.
    assert (2 ^ 1074 = 2 ^ (- e) * 2 ^ (e + 1074)) as ->.
    { rewrite <- Z.pow_add_r by lia. f_equal. lia. }
    pose proof (Z.mod_pos_bound (Zpos m) (2 ^ (- e))). pose proof (Z.pow_pos_nonneg 2 (e + 1074)).
    pose proof (Z.pow_pos_nonneg 2 (- e)).
    split; [apply Z.mul_nonneg_nonneg; lia|]. apply Z.mul_lt_mono_pos_r; lia. }
  destruct s; nia.
Qed.
