(* ===== verification/BTree.v ===== *)
(** * BTreeMap<String, V>

    The sources iterate their [BTreeMap]s (and serde_json's [Map], which is a
    [BTreeMap] without the [preserve_order] feature), so the order of the keys
    is observable: a map is the association list of its entries in increasing
    key order.  Keys are compared bytewise, like [str]. *)
From S2P Require Import Prelude.
From Stdlib Require Import Sorted Ascii.

Definition str_lt (a b : string) : Prop := String.compare a b = Lt.

Lemma ascii_compare_lt a b : Ascii.compare a b = Lt <-> (N_of_ascii a < N_of_ascii b)%N.
Proof. unfold Ascii.compare. apply N.compare_lt_iff. Qed.
Lemma str_compare_refl s : String.compare s s = Eq.
Proof. induction s as [|c s IH]; [done|]. simpl. unfold Ascii.compare. by rewrite N.compare_refl. Qed.
Lemma str_lt_irrefl s : ~ str_lt s s.
Proof. unfold str_lt. by rewrite str_compare_refl. Qed.
Lemma str_lt_trans a b c : str_lt a b -> str_lt b c -> str_lt a c.
Proof.
  unfold str_lt. revert b c.
  induction a as [|x a IH]; intros [|y b] [|z c]; simpl; try done.
  destruct (Ascii.compare x y) eqn:Exy; try done; intros Hab.
  - apply Ascii.compare_eq_iff in Exy as ->.
    destruct (Ascii.compare y z); try done. by apply IH.
  - destruct (Ascii.compare y z) eqn:Eyz; try done; intros _.
    + apply Ascii.compare_eq_iff in Eyz as ->. by rewrite Exy.
    + assert (Ascii.compare x z = Lt) as ->; [|done].
      rewrite ascii_compare_lt in *. lia.
Qed.
Lemma str_compare_gt a b : String.compare a b = Gt -> str_lt b a.
Proof. intros H. unfold str_lt. by rewrite String.compare_antisym, H. Qed.

Section btree.
Context {V : Type}.
Implicit Types (m : list (string * V)) (k : string) (v : V).

(** ** Operations *)
Fixpoint bt_get k m : option V :=
  match m with
  | [] => None
  | (k', v) :: r => if k =s? k' then Some v else bt_get k r
  end.
Definition bt_contains_key k m : bool :=
  match bt_get k m with Some _ => true | None => false end.
(** [BTreeMap::insert]: replaces the value of an equal key. *)
Fixpoint bt_insert k v m : list (string * V) :=
  match m with
  | [] => [(k, v)]
  | (k', v') :: r =>
    match String.compare k k' with
    | Lt => (k, v) :: m
    | Eq => (k, v) :: r
    | Gt => (k', v') :: bt_insert k v r
    end
  end.
Definition bt_remove k m : list (string * V) := List.filter (fun e => k !=s e.1) m.
Definition bt_keys m : list string := m.*1.
Definition bt_values m : list V := m.*2.
(** [iter.collect::<BTreeMap<_, _>>()]: later entries win. *)
Definition bt_collect (l : list (string * V)) : list (string * V) :=
  fold_left (fun m e => bt_insert e.1 e.2 m) l [].

(** The representation invariant: keys strictly increase. *)
Definition bt_sorted m : Prop := StronglySorted (fun a b => str_lt a.1 b.1) m.

(** ** Lookup *)
Lemma bt_get_insert k k' v m :
  bt_get k' (bt_insert k v m) = if k =s? k' then Some v else bt_get k' m.
Proof.
  induction m as [|[k0 v0] m IH]; simpl.
  - rewrite String.eqb_sym. by destruct (k =s? k').
  - destruct (String.compare k k0) eqn:E; simpl.
    + apply String.compare_eq_iff in E as ->. rewrite (String.eqb_sym k' k0).
      by destruct (k0 =s? k').
    + rewrite (String.eqb_sym k' k). by destruct (k =s? k').
    + rewrite IH. destruct (k' =s? k0) eqn:E0; [|done].
      apply String.eqb_eq in E0 as ->. destruct (k =s? k0) eqn:E1; [|done].
      apply String.eqb_eq in E1 as ->. by rewrite str_compare_refl in E.
Qed.
Lemma bt_get_remove k k' m :
  bt_get k' (bt_remove k m) = if k =s? k' then None else bt_get k' m.
Proof.
  induction m as [|[k0 v0] m IH]; simpl; [by destruct (k =s? k')|].
  destruct (k =s? k0) eqn:E; simpl.
  - apply String.eqb_eq in E as ->. rewrite IH, (String.eqb_sym k' k0).
    by destruct (k0 =s? k').
  - rewrite IH. destruct (k' =s? k0) eqn:E0; [|done].
    apply String.eqb_eq in E0 as ->. by rewrite E.
Qed.
Lemma bt_get_Some_elem k v m : bt_get k m = Some v -> (k, v) ∈ m.
Proof.
  induction m as [|[k0 v0] m IH]; simpl; [done|].
  destruct (k =s? k0) eqn:E; intros; simplify_eq.
  - apply String.eqb_eq in E as ->. left.
  - right. auto.
Qed.
Lemma bt_get_elem k v m : bt_sorted m -> (k, v) ∈ m -> bt_get k m = Some v.
Proof.
  induction 1 as [|[k0 v0] m Hs IH Hall]; intros Hin; [by inversion Hin|]. simpl.
  apply elem_of_cons in Hin as [Heq|Hin]; simplify_eq.
  - by rewrite String.eqb_refl.
  - rewrite Forall_forall in Hall.
    destruct (k =s? k0) eqn:E; [|auto]. apply String.eqb_eq in E as ->.
    by apply Hall, str_lt_irrefl in Hin.
Qed.
Lemma bt_get_None k m : bt_get k m = None <-> k ∉ bt_keys m.
Proof.
  unfold bt_keys. induction m as [|[k0 v0] m IH]; simpl; [set_solver|].
  destruct (k =s? k0) eqn:E.
  - apply String.eqb_eq in E as ->. set_solver.
  - apply String.eqb_neq in E. set_solver.
Qed.

(** ** The invariant *)
Lemma bt_sorted_nil : bt_sorted [].
Proof. constructor. Qed.
Lemma bt_insert_keys k v m e : e ∈ bt_insert k v m -> e = (k, v) \/ e ∈ m.
Proof.
  induction m as [|[k0 v0] m IH]; simpl.
  - set_solver.
  - destruct (String.compare k k0); set_solver.
Qed.
Lemma bt_insert_sorted k v m : bt_sorted m -> bt_sorted (bt_insert k v m).
Proof.
  induction 1 as [|[k0 v0] m Hs IH Hall]; simpl; [repeat constructor|].
  destruct (String.compare k k0) eqn:E.
  - apply String.compare_eq_iff in E as ->. by constructor.
  - constructor; [by constructor|]. constructor; [done|].
    eapply Forall_impl; [done|]. intros x Hx. simpl in *. by eapply str_lt_trans.
  - constructor; [done|]. apply Forall_forall. intros x Hx.
    apply bt_insert_keys in Hx as [->|Hx]; [by apply str_compare_gt|].
    rewrite Forall_forall in Hall. by apply Hall.
Qed.
Lemma bt_remove_sorted k m : bt_sorted m -> bt_sorted (bt_remove k m).
Proof.
  induction 1 as [|e m Hs IH Hall]; simpl; [constructor|].
  destruct (k !=s e.1); [|done]. constructor; [done|].
  apply Forall_forall. intros x Hx. apply elem_of_filterb in Hx as [Hx _].
  rewrite Forall_forall in Hall. auto.
Qed.
Lemma bt_sorted_keys_NoDup m : bt_sorted m -> NoDup (bt_keys m).
Proof.
  induction 1 as [|[k v] m Hs IH Hall]; simpl; constructor; [|done].
  intros ([k' v'] & -> & Hin)%list_elem_of_fmap. rewrite Forall_forall in Hall.
  by apply Hall, str_lt_irrefl in Hin.
Qed.

Lemma bt_collect_app l1 l2 :
  bt_collect (l1 ++ l2) = fold_left (fun m e => bt_insert e.1 e.2 m) l2 (bt_collect l1).
Proof. unfold bt_collect. by rewrite fold_left_app. Qed.
Lemma bt_collect_sorted l : bt_sorted (bt_collect l).
Proof.
  induction l as [|e l IH] using rev_ind; [constructor|].
  rewrite bt_collect_app. simpl. by apply bt_insert_sorted.
Qed.
Lemma bt_collect_get k v l :
  NoDup l.*1 -> (k, v) ∈ l -> bt_get k (bt_collect l) = Some v.
Proof.
  induction l as [|[k0 v0] l IH] using rev_ind; intros Hnd Hin; [by inversion Hin|].
  rewrite fmap_app in Hnd. apply NoDup_app in Hnd as (Hnd & Hdisj & _).
  rewrite bt_collect_app. simpl. rewrite bt_get_insert.
  apply elem_of_app in Hin as [Hin|Hin].
  - rewrite (proj2 (String.eqb_neq _ _)); [auto|]. intros ->.
    apply (Hdisj k); [|set_solver]. apply list_elem_of_fmap. by exists (k, v).
  - apply list_elem_of_singleton in Hin. simplify_eq. by rewrite String.eqb_refl.
Qed.
Lemma bt_collect_elem k v l : bt_get k (bt_collect l) = Some v -> (k, v) ∈ l.
Proof.
  induction l as [|[k0 v0] l IH] using rev_ind; [done|].
  rewrite bt_collect_app. simpl. rewrite bt_get_insert.
  destruct (k0 =s? k) eqn:E; intros; simplify_eq.
  - apply String.eqb_eq in E as ->. set_solver.
  - set_solver.
Qed.
Lemma bt_collect_contains k l : bt_contains_key k (bt_collect l) = true <-> k ∈ l.*1.
Proof.
  unfold bt_contains_key. induction l as [|[k0 v0] l IH] using rev_ind; [set_solver|].
  rewrite bt_collect_app. simpl. rewrite bt_get_insert, fmap_app, elem_of_app.
  destruct (k0 =s? k) eqn:E.
  - apply String.eqb_eq in E as ->. set_solver.
  - apply String.eqb_neq in E. rewrite IH. set_solver.
Qed.

(** Two maps with the same lookups are the same list of entries. *)
Lemma bt_ext m1 m2 :
  bt_sorted m1 -> bt_sorted m2 -> (forall k, bt_get k m1 = bt_get k m2) -> m1 = m2.
Proof.
  intros H1. revert m2. induction H1 as [|[k1 v1] m1 Hs1 IH Hall1];
    intros m2 H2 Hext; destruct H2 as [|[k2 v2] m2 Hs2 Hall2].
  - done.
  - specialize (Hext k2). simpl in Hext. by rewrite String.eqb_refl in Hext.
  - specialize (Hext k1). simpl in Hext. by rewrite String.eqb_refl in Hext.
  - rewrite Forall_forall in Hall1, Hall2.
    assert (k1 = k2 /\ v1 = v2) as [-> ->].
    { pose proof (Hext k1) as E1. pose proof (Hext k2) as E2. simpl in E1, E2.
      rewrite String.eqb_refl in E1, E2. rewrite (String.eqb_sym k2 k1) in E2.
      destruct (k1 =s? k2) eqn:E; [apply String.eqb_eq in E; by simplify_eq|].
      symmetry in E1. apply bt_get_Some_elem, Hall2 in E1.
      apply bt_get_Some_elem, Hall1 in E2. simpl in *.
      exfalso. eapply str_lt_irrefl, str_lt_trans; done. }
    f_equal. apply IH; [done|]. intros k. specialize (Hext k). simpl in Hext.
    destruct (k =s? k2) eqn:E; [|done]. apply String.eqb_eq in E as ->.
    transitivity (@None V); [|symmetry]; apply eq_None_not_Some; intros [v Hv];
      apply bt_get_Some_elem in Hv; [apply Hall1 in Hv | apply Hall2 in Hv];
      by apply str_lt_irrefl in Hv.
Qed.
End btree.
#[export] Hint Resolve bt_sorted_nil bt_insert_sorted bt_remove_sorted bt_collect_sorted : rust.

(** A list of strings sorted bytewise and deduplicated, like the keys of a
    [BTreeSet] or [sort] followed by [dedup]. *)
Definition sorted_set (l : list string) : list string := bt_keys (bt_collect (map (fun k => (k, ())) l)).
Lemma bt_contains_keys {W} k (m : list (string * W)) : bt_contains_key k m = true <-> k ∈ bt_keys m.
Proof.
  pose proof (bt_get_None k m) as H. unfold bt_contains_key. destruct (bt_get k m); [|naive_solver].
  split; [intros _|done]. destruct (decide (k ∈ bt_keys m)) as [|Hn]; [done|]. by apply H in Hn.
Qed.
Lemma elem_of_sorted_set l k : k ∈ sorted_set l <-> k ∈ l.
Proof.
  unfold sorted_set. rewrite <- bt_contains_keys, bt_collect_contains. rewrite <- list_fmap_compose.
  unfold compose. simpl. by rewrite list_fmap_id.
Qed.
(** The result depends on the elements only. *)
Lemma sorted_set_ext l1 l2 : (forall k, k ∈ l1 <-> k ∈ l2) -> sorted_set l1 = sorted_set l2.
Proof.
  intros H. unfold sorted_set. f_equal. apply bt_ext; [apply bt_collect_sorted..|]. intros k.
  pose proof (elem_of_sorted_set l1 k) as H1. pose proof (elem_of_sorted_set l2 k) as H2.
  unfold sorted_set in H1, H2. rewrite <- bt_contains_keys in H1, H2. unfold bt_contains_key in H1, H2.
  destruct (bt_get k (bt_collect (map _ l1))) as [[]|], (bt_get k (bt_collect (map _ l2))) as [[]|]; naive_solver.
Qed.
