(* ===== verification/Json.v ===== *)
(** * serde_json values

    [serde_json::Value] (serde_json 1.0.149 without optional features): numbers
    are a [u64], a negative [i64] or a finite [f64]; an object is a [BTreeMap].
    [value_eqb] is the crate's [PartialEq], coarser than Leibniz equality only
    on the two zeros of [f64]. *)
From S2P Require Import Prelude Text Float64 BTree.
From Stdlib Require Import Ascii Sorted.

Local Open Scope Z_scope.

Inductive number :=
| PosInt (n : Z)   (* u64 *)
| NegInt (n : Z)   (* i64, negative *)
| Float (x : f64). (* finite *)

Unset Elimination Schemes.
Inductive value :=
| Null
| Bool (b : bool)
| Number (n : number)
| VString (s : string)
| Array (vs : list value)
| Object (m : list (string * value)).
Set Elimination Schemes.

(** Induction with the hypotheses for array items and object members. *)
Section value_ind.
Variable P : value -> Prop.
Hypothesis HNull : P Null.
Hypothesis HBool : forall b, P (Bool b).
Hypothesis HNumber : forall n, P (Number n).
Hypothesis HString : forall s, P (VString s).
Hypothesis HArray : forall vs, Forall P vs -> P (Array vs).
Hypothesis HObject : forall m, Forall (fun e => P e.2) m -> P (Object m).
Fixpoint value_ind (v : value) : P v :=
  match v with
  | Null => HNull
  | Bool b => HBool b
  | Number n => HNumber n
  | VString s => HString s
  | Array vs => HArray vs ((fix go vs := match vs return Forall P vs with
      | [] => Forall_nil_2 P
      | v :: vs => Forall_cons_2 P v vs (value_ind v) (go vs) end) vs)
  | Object m => HObject m ((fix go m := match m return Forall (fun e => P e.2) m with
      | [] => Forall_nil_2 _
      | e :: m => Forall_cons_2 (fun e => P e.2) e m (value_ind e.2) (go m) end) m)
  end.
End value_ind.

(** ** Accessors *)
Definition is_object (v : value) : bool := match v with Object _ => true | _ => false end.
Definition is_array (v : value) : bool := match v with Array _ => true | _ => false end.
Definition is_string (v : value) : bool := match v with VString _ => true | _ => false end.
Definition is_number (v : value) : bool := match v with Number _ => true | _ => false end.
Definition is_boolean (v : value) : bool := match v with Bool _ => true | _ => false end.
Definition is_null (v : value) : bool := match v with Null => true | _ => false end.
Definition as_object (v : value) : option (list (string * value)) :=
  match v with Object m => Some m | _ => None end.
Definition as_array (v : value) : option (list value) :=
  match v with Array vs => Some vs | _ => None end.
Definition as_str (v : value) : option string :=
  match v with VString s => Some s | _ => None end.
Definition as_bool (v : value) : option bool :=
  match v with Bool b => Some b | _ => None end.
Definition as_u64 (v : value) : option Z :=
  match v with Number (PosInt n) => Some n | _ => None end.
Definition as_i64 (v : value) : option Z :=
  match v with
  | Number (PosInt n) => if n <=? Int.i64_max then Some n else None
  | Number (NegInt n) => Some n
  | _ => None
  end.
Definition as_f64 (v : value) : option f64 :=
  match v with
  | Number (PosInt n) | Number (NegInt n) => Some (f64_of_Z n)
  | Number (Float x) => Some x
  | _ => None
  end.
(** [Value::get(&str)]. *)
Definition get (k : string) (v : value) : option value :=
  match v with Object m => bt_get k m | _ => None end.

(** Build an object literal ([json!]). *)
Definition object (l : list (string * value)) : value := Object (bt_collect l).
(** [serde_json::to_value] of an [i64], a [u64] and an [f64]. *)
Definition of_int (z : Z) : value := Number (if 0 <=? z then PosInt z else NegInt z).
Definition of_f64 (x : f64) : value := if is_finite x then Number (Float x) else Null.

(** ** JSON pointers: [Value::pointer] *)
Fixpoint unescape (s : string) : string :=
  match s with
  | String "~" (String "1" r) => String "/" (unescape r)
  | String "~" (String "0" r) => String "~" (unescape r)
  | String c r => String c (unescape r)
  | EmptyString => ""
  end.
(** serde_json's [parse_index]: no leading [+] and no leading zero. *)
Definition parse_index (s : string) : option nat :=
  if starts_with "+" s || (starts_with "0" s && negb (str_len s =? 1)) then None
  else Z.to_nat <$> parse_u64 s.
Definition pointer_step (v : value) (token : string) : option value :=
  match v with
  | Object m => bt_get token m
  | Array vs => i ← parse_index token; vs !! i
  | _ => None
  end.
Definition pointer (p : string) (v : value) : option value :=
  match p with
  | EmptyString => Some v
  | String "/" rest =>
    fold_left (fun acc token => v ← acc; pointer_step v (unescape token))
      (split_char "/" rest) (Some v)
  | _ => None
  end.

(** ** Equality *)
Definition number_eqb (a b : number) : bool :=
  match a, b with
  | PosInt x, PosInt y | NegInt x, NegInt y => x =? y
  | Float x, Float y => f64_eq x y
  | _, _ => false
  end.
Section list_eqb.
Context {A : Type} (eqb : A -> A -> bool).
Fixpoint list_eqb (l1 l2 : list A) : bool :=
  match l1, l2 with
  | [], [] => true
  | a :: l1, b :: l2 => eqb a b && list_eqb l1 l2
  | _, _ => false
  end.
End list_eqb.
Fixpoint value_eqb (a b : value) {struct a} : bool :=
  match a, b with
  | Null, Null => true
  | Bool x, Bool y => Bool.eqb x y
  | Number x, Number y => number_eqb x y
  | VString x, VString y => x =s? y
  | Array xs, Array ys =>
    (fix go xs ys := match xs, ys with
       | [], [] => true
       | x :: xs, y :: ys => value_eqb x y && go xs ys
       | _, _ => false end) xs ys
  | Object xs, Object ys =>
    (fix go xs ys := match xs, ys with
       | [], [] => true
       | (k, x) :: xs, (k', y) :: ys => (k =s? k') && value_eqb x y && go xs ys
       | _, _ => false end) xs ys
  | _, _ => false
  end.

(** ** Well-formed values

    What the crate guarantees of every [Value]: numbers in their ranges,
    floats finite, object keys strictly increasing. *)
Definition number_ok (n : number) : bool :=
  match n with
  | PosInt z => Int.in_u64 z
  | NegInt z => Int.in_i64 z && (z <? 0)
  | Float x => valid x && is_finite x
  end.
Inductive wf_value : value -> Prop :=
| wf_null : wf_value Null
| wf_bool b : wf_value (Bool b)
| wf_number n : number_ok n = true -> wf_value (Number n)
| wf_string s : wf_value (VString s)
| wf_array vs : Forall wf_value vs -> wf_value (Array vs)
| wf_object m : bt_sorted m -> Forall (fun e => wf_value e.2) m -> wf_value (Object m).
#[export] Hint Constructors wf_value : rust.

(** An executable check of well-formedness. *)
Fixpoint keys_increase (m : list (string * value)) : bool :=
  match m with
  | e :: r => match r with
              | e' :: _ => match String.compare e.1 e'.1 with Lt => keys_increase r | _ => false end
              | [] => true
              end
  | [] => true
  end.
Fixpoint wf_valueb (v : value) : bool :=
  match v with
  | Number n => number_ok n
  | Array vs => forallb wf_valueb vs
  | Object m => keys_increase m && forallb (fun e : string * value => let (_, x) := e in wf_valueb x) m
  | _ => true
  end.
Lemma keys_increase_sorted m : keys_increase m = true -> bt_sorted m.
Proof.
  intros H. apply Sorted_StronglySorted; [intros a b c; apply str_lt_trans|].
  induction m as [|e m IH]; [constructor|]. simpl in H. destruct m as [|e' m]; [repeat constructor|].
  destruct (String.compare e.1 e'.1) eqn:E; try done. constructor; [auto|by constructor].
Qed.
Lemma wf_valueb_sound v : wf_valueb v = true -> wf_value v.
Proof.
  induction v as [| | | |vs IH|m IH] using value_ind; intros H; try by constructor.
  - constructor. apply Forall_forall. intros x Hx. rewrite Forall_forall in IH. apply IH; [done|].
    simpl in H. rewrite forallb_elem in H. auto.
  - simpl in H. apply andb_true_iff in H as [Hk Hm]. constructor; [by apply keys_increase_sorted|].
    apply Forall_forall. intros [k x] Hx. rewrite Forall_forall in IH. apply (IH _ Hx).
    rewrite forallb_elem in Hm. exact (Hm _ Hx).
Qed.

(** ** [value_eqb] is an equivalence on well-formed values *)
Lemma f64_eq_units x y :
  valid x = true -> valid y = true -> is_finite x = true -> is_finite y = true ->
  f64_eq x y = true <-> units x = units y.
Proof.
  intros. unfold f64_eq, SFeqb. rewrite compare_units by done.
  rewrite <- Z.compare_eq_iff. by destruct (_ ?= _).
Qed.
Lemma number_eqb_refl n : number_ok n = true -> number_eqb n n = true.
Proof.
  destruct n; simpl; intros; bool_prop; [done..|]. by apply f64_eq_units.
Qed.
Lemma number_eqb_trans a b c :
  number_ok a = true -> number_ok b = true -> number_ok c = true ->
  number_eqb a b = true -> number_eqb b c = true -> number_eqb a c = true.
Proof.
  destruct a, b, c; simpl; intros; bool_prop; try done; try congruence.
  rewrite f64_eq_units in * by done. congruence.
Qed.
Lemma value_eqb_refl v : wf_value v -> value_eqb v v = true.
Proof.
  induction v as [| | | |vs IH|m IH] using value_ind; intros Hwf; inversion Hwf; subst; simpl; try done.
  - by destruct b.
  - by apply number_eqb_refl.
  - apply String.eqb_refl.
  - match goal with H : Forall wf_value _ |- _ => clear Hwf; rename H into Hvs end.
    induction IH as [|v vs Hv _ IHvs]; [done|]. inversion_clear Hvs. rewrite Hv by done. auto.
  - match goal with H : Forall _ m, S : bt_sorted m |- _ => clear Hwf S; rename H into Hm end.
    induction IH as [|[k v] m Hv _ IHm]; [done|]. inversion_clear Hm. simpl in *.
    rewrite String.eqb_refl, Hv by done. auto.
Qed.
Lemma value_eqb_trans a b c :
  wf_value a -> wf_value b -> wf_value c ->
  value_eqb a b = true -> value_eqb b c = true -> value_eqb a c = true.
Proof.
  revert b c. induction a as [|x|x|x|xs IH|xs IH] using value_ind; intros b c Ha Hb Hc;
    destruct b as [|y|y|y|ys|ys]; try done; destruct c as [|z|z|z|zs|zs]; try done; simpl.
  - destruct x, y, z; done.
  - inversion Ha; inversion Hb; inversion Hc; subst. by apply number_eqb_trans.
  - rewrite !String.eqb_eq. congruence.
  - inversion_clear Ha as [| | | |? Hxs|]. inversion_clear Hb as [| | | |? Hys|].
    inversion_clear Hc as [| | | |? Hzs|]. revert ys zs Hys Hzs.
    induction IH as [|x xs Hx _ IHxs]; intros [|y ys] [|z zs] Hys Hzs; try done.
    inversion_clear Hxs. inversion_clear Hys. inversion_clear Hzs. rewrite !andb_true_iff. intros [] []. eauto.
  - inversion_clear Ha as [| | | | |? _ Hxs]. inversion_clear Hb as [| | | | |? _ Hys].
    inversion_clear Hc as [| | | | |? _ Hzs]. revert ys zs Hys Hzs.
    induction IH as [|[kx x] xs Hx _ IHxs]; intros [|[ky y] ys] [|[kz z] zs] Hys Hzs; try done.
    inversion_clear Hxs. inversion_clear Hys. inversion_clear Hzs. simpl in *.
    rewrite !andb_true_iff, !String.eqb_eq. intros [[-> ?] ?] [[-> ?] ?]. split_and!; eauto.
Qed.
