(* ===== verification/RuleTypes.v ===== *)
(** * Rule definitions and their compilation (crates/rule-engine)

    The cached rule structures, the events and the actions of
    [types.rs], the compiled vocabulary of [model.rs] and the decoding
    functions of [compiler.rs].  A [chrono::NaiveDateTime] is its number of
    nanoseconds since the epoch. *)
From S2P Require Import Prelude Text Float64 BTree Json.

Definition NaiveDateTime : Type := Z.

(** ** model.rs *)
Inductive RuleTrigger := Telemetry | DeviceStatus | Geofence.
Inductive RuleTargetType := Global | Blueprint | Fleet | Device.
Inductive ConditionField := FieldMetric | FieldStatus | FieldZone.
Inductive ConditionOperator := Gt_ | Gte | Lt_ | Lte | Eq_ | Neq.
Inductive RuleActionKind := Alert | Webhook | Command.
#[export] Instance RuleTrigger_eq_dec : EqDecision RuleTrigger.
Proof. solve_decision. Defined.
#[export] Instance RuleTargetType_eq_dec : EqDecision RuleTargetType.
Proof. solve_decision. Defined.
#[export] Instance ConditionField_eq_dec : EqDecision ConditionField.
Proof. solve_decision. Defined.
#[export] Instance ConditionOperator_eq_dec : EqDecision ConditionOperator.
Proof. solve_decision. Defined.
#[export] Instance RuleActionKind_eq_dec : EqDecision RuleActionKind.
Proof. solve_decision. Defined.

Record CompiledCondition := {
  cc_field : ConditionField;
  cc_operator : ConditionOperator;
  cc_value : string;
  cc_numeric_value : option f64;
  cc_zone_id : option string;
}.
Record CompiledAction := { ca_kind : RuleActionKind; ca_config : value }.

(** ** number.rs: the observation type (its operations are in MetricNumber) *)
Inductive MetricNumber := MInteger (z : Z) | MFloat (x : f64).

(** ** types.rs *)
Record CachedCondition := {
  field : string;
  blueprint_id : option string;
  blueprint_revision_id : option string;
  operator : string;
  cond_value : string;
  zone_id : option string;
}.
Record CachedAction := { action_type : string; config : value }.
Record CachedRule := {
  tenant_id : string;
  rule_id : string;
  name : string;
  trigger_type : string;
  target_type : string;
  target_id : option string;
  cooldown_seconds : Z; (* i32 *)
  conditions : list CachedCondition;
  actions : list CachedAction;
}.

Inductive PendingAction :=
| CreateAlert (tenant rule device severity message : string) (triggered_value : option string)
| UpdateAlertValue (tenant alert triggered_value : string)
| ResolveAlert (tenant alert : string)
| SendWebhook (tenant url : string) (headers : gmap string string) (payload : value)
| SendCommand (tenant device command : string) (params : value)
| UpdateCooldown (tenant rule device : string) (fired_at : NaiveDateTime)
| UpdateZoneEntry (tenant rule device : string) (entered_at : option NaiveDateTime).

Record TelemetryData := {
  latitude : option f64;
  longitude : option f64;
  metrics : list (string * MetricNumber); (* BTreeMap *)
}.
Record StatusChange := { old_status : string; new_status : string }.

Inductive ZoneGeometry :=
| Circle (center_lat center_lon radius_meters : f64)
| Polygon (points : list (f64 * f64)).
Record CachedZone := { zone_key : string; zone_name : string; geometry : ZoneGeometry }.

(** ** compiler.rs *)
Definition compile_trigger (v : string) : option RuleTrigger :=
  if v =s? "telemetry" then Some Telemetry
  else if v =s? "device_status" then Some DeviceStatus
  else if v =s? "geofence" then Some Geofence
  else None.
Definition compile_target_type (v : string) : option RuleTargetType :=
  if v =s? "global" then Some Global
  else if v =s? "blueprint" then Some Blueprint
  else if v =s? "fleet" then Some Fleet
  else if v =s? "device" then Some Device
  else None.
Definition compile_operator (v : string) : option ConditionOperator :=
  if v =s? "gt" then Some Gt_
  else if v =s? "gte" then Some Gte
  else if v =s? "lt" then Some Lt_
  else if v =s? "lte" then Some Lte
  else if v =s? "eq" then Some Eq_
  else if v =s? "neq" then Some Neq
  else None.
Definition compile_action_kind (v : string) : option RuleActionKind :=
  if v =s? "alert" then Some Alert
  else if v =s? "webhook" then Some Webhook
  else if v =s? "command" then Some Command
  else None.
Definition compile_condition (c : CachedCondition) : option CompiledCondition :=
  f ← (if field c =s? "status" then Some FieldStatus
       else if bool_decide (is_Some (zone_id c)) then Some FieldZone
       else if negb (str_is_empty (field c)) then Some FieldMetric
       else None);
  op ← compile_operator (operator c);
  Some {| cc_field := f; cc_operator := op; cc_value := cond_value c;
          cc_numeric_value := parse_f64 (cond_value c); cc_zone_id := zone_id c |}.
Definition compile_action (a : CachedAction) : option CompiledAction :=
  k ← compile_action_kind (action_type a);
  Some {| ca_kind := k; ca_config := config a |}.

(** The tenant an action acts for. *)
Definition action_tenant (a : PendingAction) : string :=
  match a with
  | CreateAlert t _ _ _ _ _ | UpdateAlertValue t _ _ | ResolveAlert t _
  | SendWebhook t _ _ _ | SendCommand t _ _ _ | UpdateCooldown t _ _ _
  | UpdateZoneEntry t _ _ _ => t
  end.
