(* ===== verification/MetricNumber.v ===== *)
(** * Metric observations (crates/rule-engine/src/number.rs, metric.rs)

    [MetricNumber] keeps integer counters exact next to floating-point
    readings; [compare] orders the two kinds by their exact values.
    [MetricSelector] is the textual identity of a metric. *)
From S2P Require Import Prelude Text Float64 BTree Json RuleTypes.
From Stdlib Require Import Ascii.

Local Open Scope Z_scope.

Module Number.
(** [MetricNumber::is_finite]. *)
Definition is_finite (n : MetricNumber) : bool :=
  match n with MInteger _ => true | MFloat x => Float64.is_finite x end.

(** [MetricNumber::parse]. *)
Definition parse (s : string) : option MetricNumber :=
  match parse_i64 s with
  | Some z => Some (MInteger z)
  | None =>
    x ← parse_f64 s;
    if Float64.is_finite x then Some (MFloat x) else None
  end.

(** The literals [9_223_372_036_854_775_808.0] and its opposite. *)
Definition two63 : f64 := S754_finite false 4503599627370496 11.
Definition neg_two63 : f64 := S754_finite true 4503599627370496 11.

(** [compare_integer_float]. *)
Definition compare_integer_float (integer : Z) (float : f64) : comparison :=
  if f64_ge float two63 then Lt
  else if f64_lt float neg_two63 then Gt
  else match Z.compare integer (f64_to_i64 float) with
       | Eq => if f64_gt (f64_fract float) f64_zero then Lt
               else if f64_lt (f64_fract float) f64_zero then Gt
               else Eq
       | result => result
       end.

(** [MetricNumber::compare]. *)
Definition compare (a b : MetricNumber) : option comparison :=
  if negb (is_finite a) || negb (is_finite b) then None
  else match a, b with
       | MInteger l, MInteger r => Some (Z.compare l r)
       | MFloat l, MFloat r => SFcompare l r
       | MInteger l, MFloat r => Some (compare_integer_float l r)
       | MFloat l, MInteger r => Some (CompOpp (compare_integer_float r l))
       end.

(** [evaluate::format_value]. *)
Definition format_value (x : f64) : string :=
  if f64_eq (f64_fract x) f64_zero then format_fixed 0 x
  else trim_end_matches "." (trim_end_matches "0" (format_fixed 4 x)).

(** [Display for MetricNumber]. *)
Definition to_string (n : MetricNumber) : string :=
  match n with MInteger z => int_to_string z | MFloat x => format_value x end.

(** [Serialize for MetricNumber] (untagged), as [serde_json::to_value]. *)
Definition to_value (n : MetricNumber) : value :=
  match n with MInteger z => of_int z | MFloat x => of_f64 x end.

(** ** Correctness of the comparison *)

(** What the type guarantees of a number: an [i64], or a valid double. *)
Definition number_valid (n : MetricNumber) : bool :=
  match n with MInteger z => Int.in_i64 z | MFloat x => valid x end.
(** The exact value of a finite number, in multiples of [2^-1074]. *)
Definition exact (n : MetricNumber) : Z :=
  match n with MInteger z => z * one_units | MFloat x => units x end.

Lemma units_two63 : units two63 = 2 ^ 63 * one_units.
Proof. rewrite one_units_eq. vm_compute. done. Qed.
Lemma units_neg_two63 : units neg_two63 = - 2 ^ 63 * one_units.
Proof. rewrite one_units_eq. vm_compute. done. Qed.
Lemma two63_valid : valid two63 = true /\ valid neg_two63 = true.
Proof. done. Qed.

(** Comparing an integer with the integer part, then the fraction, is
    comparing exactly. *)
Lemma compare_by_parts (z q u o : Z) :
  0 < o ->
  (0 <= u -> q * o <= u < (q + 1) * o) -> (u <= 0 -> (q - 1) * o < u <= q * o) ->
  match Z.compare z q with
  | Eq => match Z.compare u (q * o) with Gt => Lt | Lt => Gt | Eq => Eq end
  | r => r
  end = Z.compare (z * o) u.
Proof.
  intros Ho Hp Hn. destruct (Z.compare_spec z q) as [->|Hlt|Hgt].
  - rewrite (Z.compare_antisym (q * o) u). by destruct (q * o ?= u).
  - symmetry. apply Z.compare_lt_iff. nia.
  - symmetry. apply Z.compare_gt_iff. nia.
Qed.

Lemma compare_integer_float_exact z x :
  Int.in_i64 z = true -> valid x = true -> Float64.is_finite x = true ->
  compare_integer_float z x = Z.compare (z * one_units) (units x).
Proof.
  intros Hz Hv Hf. apply Int.in_i64_spec in Hz. unfold Int.i64_min, Int.i64_max in Hz.
  pose proof one_units_pos as Ho. destruct two63_valid as [V1 V2].
  unfold compare_integer_float, f64_ge, f64_lt, SFleb, SFltb.
  rewrite !compare_units by done. rewrite units_two63, units_neg_two63.
  destruct (Z.compare_spec (2 ^ 63 * one_units) (units x)) as [E|E|E].
  1,2: symmetry; apply Z.compare_lt_iff; nia.
  destruct (Z.compare_spec (units x) (- 2 ^ 63 * one_units)) as [E'|E'|E'].
  2: symmetry; apply Z.compare_gt_iff; nia.
  all: destruct (trunc_bounds x Hv Hf) as [Hp Hn];
    assert (Int.i64_min <= trunc_int x <= Int.i64_max)
      by (unfold Int.i64_min, Int.i64_max; nia);
    rewrite f64_to_i64_trunc by done;
    rewrite <- (compare_by_parts z (trunc_int x) (units x) one_units) by done;
    unfold f64_gt, SFltb; pose proof (fract_compare x Hv Hf) as Hc;
    rewrite compare_zero_swap, Hc; simpl;
    destruct (z ?= trunc_int x); try done;
    destruct (units x ?= trunc_int x * one_units); done.
Qed.

Lemma compare_exact_aux a b :
  number_valid a = true -> number_valid b = true ->
  is_finite a = true -> is_finite b = true ->
  compare a b = Some (Z.compare (exact a) (exact b)).
Proof.
  intros Va Vb Fa Fb. unfold compare. rewrite Fa, Fb. simpl.
  pose proof one_units_pos as Ho.
  destruct a as [l|l], b as [r|r]; simpl in *.
  - f_equal. destruct (Z.compare_spec l r); symmetry;
      [apply Z.compare_eq_iff | apply Z.compare_lt_iff | apply Z.compare_gt_iff]; nia.
  - by rewrite compare_integer_float_exact.
  - rewrite compare_integer_float_exact by done. by rewrite <- Z.compare_antisym.
  - by apply compare_units.
Qed.

(** On values the types allow, [MetricNumber::compare] is the exact
    mathematical comparison of the two numbers, whatever mix of integers and
    floats they are: no precision is lost above 2^53, no bound overflows, and
    the answer is [None] exactly when an operand is not finite. *)
Theorem compare_exact a b :
  number_valid a = true -> number_valid b = true ->
  compare a b =
    if is_finite a && is_finite b then Some (Z.compare (exact a) (exact b)) else None.
Proof.
  intros Va Vb. destruct (is_finite a) eqn:Fa, (is_finite b) eqn:Fb; simpl.
  - by apply compare_exact_aux.
  - unfold compare. by rewrite Fa, Fb.
  - unfold compare. by rewrite Fa, Fb.
  - unfold compare. by rewrite Fa, Fb.
Qed.

(** The adjacent counters of the source's own test, and the [i64] bounds. *)
Lemma compare_exact_witness :
  compare (MInteger 9007199254740993) (MFloat (f64_of_Z 9007199254740992)) = Some Gt
  /\ compare (MInteger Int.i64_max) (MFloat two63) = Some Lt.
Proof.
  split.
  - rewrite (compare_exact (MInteger 9007199254740993) (MFloat (f64_of_Z 9007199254740992)));
      vm_compute; reflexivity.
  - rewrite (compare_exact (MInteger Int.i64_max) (MFloat two63)); vm_compute; reflexivity.
Defined.

(** An integer observation printed into an alert reads back, through the
    threshold parser, as the same integer. *)
Theorem integer_roundtrip z :
  Int.in_i64 z = true -> parse (to_string (MInteger z)) = Some (MInteger z).
Proof. intros Hz. unfold parse, to_string. by rewrite parse_i64_to_string. Qed.
Lemma integer_roundtrip_witness :
  parse (to_string (MInteger (-9223372036854775808))) = Some (MInteger (-9223372036854775808)).
Proof. apply integer_roundtrip. vm_compute. reflexivity. Defined.
End Number.

(** ** metric.rs *)
Module Selector.
Record MetricSelector := { stream_key : string; field_path : string }.

(** The byte class of stream keys ([matches!] in [MetricSelector::parse]). *)
Definition key_byte (c : ascii) : bool :=
  is_ascii_lowercase c || is_ascii_digit c || one_of "-_." c.
Definition stream_ok (stream : string) : bool :=
  between 1 64 (str_len stream)
  && match str_head stream with Some c => is_ascii_lowercase c | None => false end
  && str_forall key_byte stream.
(** The [while let Some(character) = chars.next()] loop: every [~] is
    followed by [0] or [1]. *)
Fixpoint escapes_ok (path : string) : bool :=
  match path with
  | EmptyString => true
  | String "~" (String "0" r) | String "~" (String "1" r) => escapes_ok r
  | String "~" _ => false
  | String _ r => escapes_ok r
  end.
Definition parse (field : string) : option MetricSelector :=
  '(stream, path) ← split_once "./" field;
  if negb (stream_ok stream) then None
  else if negb (escapes_ok path) then None
  else Some {| stream_key := stream; field_path := "/" +:+ path |}.
Definition field_key (s : MetricSelector) : string :=
  stream_key s +:+ "." +:+ field_path s.

Lemma key_byte_not_slash c : key_byte c = true -> negb (Ascii.eqb c "/") = true.
Proof. intros H. apply negb_true_iff, Ascii.eqb_neq. by intros ->. Qed.
Lemma stream_ok_no_slash stream : stream_ok stream = true -> contains_char "/" stream = false.
Proof.
  unfold stream_ok. intros H. bool_prop. apply contains_char_false.
  by eapply str_forall_impl; [apply key_byte_not_slash|].
Qed.

(** Splitting at the first ["./"] recovers a slash-free stream key. *)
Lemma split_field stream path :
  contains_char "/" stream = false ->
  split_once "./" (stream +:+ "./" +:+ path) = Some (stream, path).
Proof.
  rewrite contains_char_false. induction stream as [|x stream IH]; intros Hs.
  - rewrite app_empty_l. done.
  - simpl in Hs. apply andb_true_iff in Hs as [Hx Hs]. specialize (IH Hs).
    rewrite app_cons. cbn [split_once]. rewrite IH.
    cbn [strip_prefix]. destruct (Ascii.eqb "." x); [|done].
    destruct stream as [|y stream].
    + rewrite app_empty_l. done.
    + rewrite app_cons. cbn [strip_prefix]. simpl in Hs. bool_prop.
      rewrite (proj2 (Ascii.eqb_neq _ _)); [done|]. congruence.
Qed.

(** The textual key of a metric identifies it: [field_key] and [parse] are
    inverse to each other on valid selectors and on accepted texts. *)
Theorem selector_roundtrip :
  (forall stream path, stream_ok stream = true -> escapes_ok path = true ->
     let s := {| stream_key := stream; field_path := "/" +:+ path |} in
     parse (field_key s) = Some s)
  /\ (forall text s, parse text = Some s ->
        field_key s = text /\ stream_ok (stream_key s) = true).
Proof.
  split.
  - intros stream path Hs Hp. unfold parse, field_key. simpl.
    change ("." +:+ "/" +:+ path) with ("./" +:+ path).
    rewrite split_field by (by apply stream_ok_no_slash). simpl. by rewrite Hs, Hp.
  - intros text s Hp. unfold parse in Hp.
    apply bind_Some in Hp as ([stream path] & Hsplit & Hp).
    apply split_once_Some in Hsplit as ->.
    destruct (stream_ok stream) eqn:Hs; [|done]. destruct (escapes_ok path); simplify_eq/=. done.
Qed.

Lemma selector_roundtrip_witness :
  parse "env.v2./a~1b" = Some {| stream_key := "env.v2"; field_path := "/a~1b" |}.
Proof. apply (proj1 selector_roundtrip "env.v2" "a~1b"); vm_compute; reflexivity. Defined.

(** Distinct (stream, field) declarations never share a rule key: the key
    is injective as soon as the stream keys are valid, which keeps
    [environment./a/b] and [environment./a.b] apart. *)
Theorem field_key_injective s1 s2 p1 p2 :
  stream_ok s1 = true -> stream_ok s2 = true ->
  field_key {| stream_key := s1; field_path := String "/" p1 |}
  = field_key {| stream_key := s2; field_path := String "/" p2 |} ->
  s1 = s2 /\ p1 = p2.
Proof.
  intros H1 H2 E. apply stream_ok_no_slash in H1. apply stream_ok_no_slash in H2.
  unfold field_key in E. simpl in E.
  change ("." +:+ String "/" p1) with ("./" +:+ p1) in E.
  change ("." +:+ String "/" p2) with ("./" +:+ p2) in E.
  apply (f_equal (split_once "./")) in E. rewrite !split_field in E by done. by simplify_eq.
Qed.
Lemma field_key_injective_witness :
  stream_ok "environment" = true
  /\ ("environment" = "environment" /\ "a/b" = "a/b").
Proof. split; [reflexivity|]. by apply (field_key_injective "environment" "environment" "a/b" "a/b"). Defined.
End Selector.
