(* ===== verification/Geo.v ===== *)
(** * Zone geometry (crates/rule-engine/src/geo.rs)

    The haversine distance and ray casting, on IEEE doubles.  The platform's
    [sin], [cos] and [asin] have no specified precision, so they are the
    operations of a [Libm] instance. *)
From S2P Require Import Prelude Text Float64 BTree Json RuleTypes.
From Stdlib Require Import Permutation.

Class Libm := {
  f64_sin : f64 -> f64;
  f64_cos : f64 -> f64;
  f64_asin : f64 -> f64;
}.

(** [std::f64::consts::PI] and the integer literals of the file. *)
Definition PI : f64 := S754_finite false 7074237752028440 (-51).
Definition EARTH_RADIUS_METERS : f64 := f64_of_Z 6371000.
Definition lit (n : Z) : f64 := f64_of_Z n.

Section geo.
Context `{!Libm}.

Definition to_radians (degrees : f64) : f64 := f64_div (f64_mul degrees PI) (lit 180).
(** [f64::powi(2)]. *)
Definition square (x : f64) : f64 := f64_mul x x.

Definition haversine_distance (lat1 lon1 lat2 lon2 : f64) : f64 :=
  let d_lat := to_radians (f64_sub lat2 lat1) in
  let d_lon := to_radians (f64_sub lon2 lon1) in
  let lat1_rad := to_radians lat1 in
  let lat2_rad := to_radians lat2 in
  let a := f64_add (square (f64_sin (f64_div d_lat (lit 2))))
             (f64_mul (f64_mul (f64_cos lat1_rad) (f64_cos lat2_rad))
                      (square (f64_sin (f64_div d_lon (lit 2))))) in
  let c := f64_mul (lit 2) (f64_asin (f64_sqrt a)) in
  f64_mul EARTH_RADIUS_METERS c.

Definition point_in_circle (lat lon center_lat center_lon radius_meters : f64) : bool :=
  f64_le (haversine_distance lat lon center_lat center_lon) radius_meters.
End geo.

Section polygon.
Variables lat lon : f64.

(** One edge test of the loop body, from vertex [i] and the previous vertex. *)
Definition crosses (vi vj : f64 * f64) : bool :=
  let '(lati, loni) := vi in
  let '(latj, lonj) := vj in
  negb (Bool.eqb (f64_gt lati lat) (f64_gt latj lat))
  && f64_lt lon (f64_add (f64_div (f64_mul (f64_sub lonj loni) (f64_sub lat lati))
                                  (f64_sub latj lati)) loni).

(** The [for i in 0..n] loop with its trailing index [j]. *)
Fixpoint ray_cast (polygon : list (f64 * f64)) (j : f64 * f64) (inside : bool) : bool :=
  match polygon with
  | [] => inside
  | vi :: rest =>
    ray_cast rest vi (if crosses vi j then negb inside else inside)
  end.

Definition point_in_polygon (polygon : list (f64 * f64)) : bool :=
  if Nat.ltb (length polygon) 3 then false
  else match last polygon with
       | Some vn => ray_cast polygon vn false
       | None => false
       end.
End polygon.

(** ** Reference definition: parity of the crossed edges of the closed polygon *)
Fixpoint edges_from (j : f64 * f64) (polygon : list (f64 * f64)) : list ((f64 * f64) * (f64 * f64)) :=
  match polygon with
  | [] => []
  | vi :: rest => (vi, j) :: edges_from vi rest
  end.
Definition closed_edges (polygon : list (f64 * f64)) : list ((f64 * f64) * (f64 * f64)) :=
  match last polygon with Some vn => edges_from vn polygon | None => [] end.
Definition crossings (lat lon : f64) (polygon : list (f64 * f64)) : nat :=
  length (List.filter (fun e => crosses lat lon e.1 e.2) (closed_edges polygon)).

Lemma ray_cast_parity lat lon polygon j inside :
  ray_cast lat lon polygon j inside
  = xorb inside (Nat.odd (length (List.filter (fun e => crosses lat lon e.1 e.2) (edges_from j polygon)))).
Proof.
  revert j inside. induction polygon as [|v polygon IH]; intros j inside; simpl.
  - by destruct inside.
  - rewrite IH. destruct (crosses lat lon v j); cbn [length]; [|done].
    rewrite Nat.odd_succ, <- Nat.negb_odd. by destruct inside, (Nat.odd _).
Qed.
Lemma point_in_polygon_parity lat lon polygon :
  (3 <= length polygon)%nat ->
  point_in_polygon lat lon polygon = Nat.odd (crossings lat lon polygon).
Proof.
  intros H. unfold point_in_polygon, crossings, closed_edges.
  rewrite (proj2 (Nat.ltb_ge _ _)) by done. destruct (last polygon) eqn:E; [|done].
  by rewrite ray_cast_parity.
Qed.
Lemma edges_from_app j l1 l2 k :
  edges_from j (l1 ++ [k] ++ l2) = edges_from j (l1 ++ [k]) ++ edges_from k l2.
Proof. revert j. induction l1 as [|v l1 IH]; intros j; simpl; [done|]. f_equal. apply IH. Qed.

Lemma closed_edges_rotate v l : closed_edges (l ++ [v]) ≡ₚ closed_edges (v :: l).
Proof.
  unfold closed_edges. rewrite last_snoc, last_cons.
  destruct l as [|w l] using rev_ind; [done|]. clear IHl.
  rewrite last_snoc. rewrite <- app_assoc.
  rewrite (edges_from_app v l [v] w). simpl edges_from at 3.
  simpl. by rewrite Permutation_app_comm.
Qed.

(** Ray casting computes the even-odd rule over the closed polygon, so the
    answer does not depend on the vertex the zone's point list starts with. *)
Theorem point_in_polygon_spec lat lon polygon :
  point_in_polygon lat lon polygon
  = (Nat.leb 3 (length polygon) && Nat.odd (crossings lat lon polygon))
  /\ forall v rest, polygon = v :: rest ->
       point_in_polygon lat lon (rest ++ [v]) = point_in_polygon lat lon polygon.
Proof.
  assert (forall p, point_in_polygon lat lon p
            = (Nat.leb 3 (length p) && Nat.odd (crossings lat lon p))) as H.
  { intros p. destruct (Nat.leb_spec 3 (length p)); simpl.
    - by apply point_in_polygon_parity.
    - unfold point_in_polygon. by rewrite (proj2 (Nat.ltb_lt _ _)). }
  split; [done|]. intros v rest ->. rewrite !H. f_equal.
  - rewrite length_app. simpl. by rewrite Nat.add_1_r.
  - unfold crossings. f_equal. apply Permutation_length.
    by rewrite closed_edges_rotate.
Qed.
Lemma point_in_polygon_spec_witness :
  let square := [(lit 0, lit 0); (lit 0, lit 2); (lit 2, lit 2); (lit 2, lit 0)] in
  point_in_polygon (lit 1) (lit 1) square = true
  /\ point_in_polygon (lit 1) (lit 1) ([(lit 0, lit 2); (lit 2, lit 2); (lit 2, lit 0)] ++ [(lit 0, lit 0)]) = true.
Proof.
  split; [vm_compute; reflexivity|].
  rewrite (proj2 (point_in_polygon_spec (lit 1) (lit 1)
    [(lit 0, lit 0); (lit 0, lit 2); (lit 2, lit 2); (lit 2, lit 0)]) (lit 0, lit 0) _ eq_refl).
  vm_compute. reflexivity.
Defined.
