(* ===== verification/RuleCache.v ===== *)
(** * The rule index (crates/rule-engine/src/cache.rs)

    [RuleDefinitions] is the immutable index shared through an [Arc];
    [RuleCache] adds the runtime hints.  [DerefMut] copies a shared index
    before writing ([Arc::make_mut]), so the model's record values behave as
    the code's: no two caches observe each other's writes. *)
From S2P Require Import Prelude Text Float64 BTree Json RuleTypes.

Definition RuleDeviceKey : Type := string * string * string.

Record RuleDefinitions := {
  global_rules : list CachedRule;
  by_blueprint : list CachedRule;
  by_fleet : list CachedRule;
  by_device : list CachedRule;
  zones : gmap string CachedZone;
}.
Record RuleCache := {
  definitions : RuleDefinitions;
  rule_allowlist : option (gset string);
  active_alerts : gmap RuleDeviceKey string;
  cooldowns : gmap RuleDeviceKey NaiveDateTime;
  zone_entry_times : gmap RuleDeviceKey NaiveDateTime;
  version : Z; (* u64 *)
}.
Definition definitions_default : RuleDefinitions :=
  {| global_rules := []; by_blueprint := []; by_fleet := []; by_device := []; zones := ∅ |}.
Definition cache_default : RuleCache :=
  {| definitions := definitions_default; rule_allowlist := None; active_alerts := ∅;
     cooldowns := ∅; zone_entry_times := ∅; version := 0 |}.

(** [RuleCache::restrict_to_rule_ids]. *)
Definition restrict_to_rule_ids (c : RuleCache) (ids : gset string) : RuleCache :=
  {| definitions := definitions c; rule_allowlist := Some ids; active_alerts := active_alerts c;
     cooldowns := cooldowns c; zone_entry_times := zone_entry_times c; version := version c |}.
(** [RuleCache::definitions_only]. *)
Definition definitions_only (c : RuleCache) : RuleCache :=
  {| definitions := definitions c; rule_allowlist := None; active_alerts := ∅;
     cooldowns := ∅; zone_entry_times := ∅; version := 0 |}.

(** [RuleCache::rules_for_tenant_device]. *)
Definition targets (t : string) (r : CachedRule) (tenant : string) : bool :=
  (tenant_id r =s? tenant) && bool_decide (target_id r = Some t).
Definition rules_for_tenant_device (c : RuleCache) (tenant device : string)
    (fleet blueprint : option string) : list CachedRule :=
  let d := definitions c in
  let applicable :=
    List.filter (fun r => tenant_id r =s? tenant) (global_rules d)
    ++ match blueprint with
       | Some b => List.filter (fun r => targets b r tenant) (by_blueprint d)
       | None => []
       end
    ++ match fleet with
       | Some f => List.filter (fun r => targets f r tenant) (by_fleet d)
       | None => []
       end
    ++ List.filter (fun r => targets device r tenant) (by_device d) in
  match rule_allowlist c with
  | Some ids => List.filter (fun r => bool_decide (rule_id r ∈ ids)) applicable
  | None => applicable
  end.

(** Replace the first rule with the same identity, or append. *)
Definition same_rule (a b : CachedRule) : bool :=
  (tenant_id a =s? tenant_id b) && (rule_id a =s? rule_id b).
Fixpoint upsert (rule : CachedRule) (bucket : list CachedRule) : list CachedRule :=
  match bucket with
  | [] => [rule]
  | r :: rest => if same_rule r rule then rule :: rest else r :: upsert rule rest
  end.
Definition bucket_of (t : RuleTargetType) (d : RuleDefinitions) : list CachedRule :=
  match t with
  | Global => global_rules d
  | Blueprint => by_blueprint d
  | Fleet => by_fleet d
  | Device => by_device d
  end.
Definition set_bucket (t : RuleTargetType) (b : list CachedRule) (d : RuleDefinitions) : RuleDefinitions :=
  match t with
  | Global => {| global_rules := b; by_blueprint := by_blueprint d; by_fleet := by_fleet d;
                 by_device := by_device d; zones := zones d |}
  | Blueprint => {| global_rules := global_rules d; by_blueprint := b; by_fleet := by_fleet d;
                    by_device := by_device d; zones := zones d |}
  | Fleet => {| global_rules := global_rules d; by_blueprint := by_blueprint d; by_fleet := b;
                by_device := by_device d; zones := zones d |}
  | Device => {| global_rules := global_rules d; by_blueprint := by_blueprint d;
                 by_fleet := by_fleet d; by_device := b; zones := zones d |}
  end.
(** [RuleCache::insert_rule]. *)
Definition insert_rule (c : RuleCache) (rule : CachedRule) : RuleCache :=
  match compile_target_type (target_type rule) with
  | None => c
  | Some t =>
    {| definitions := set_bucket t (upsert rule (bucket_of t (definitions c))) (definitions c);
       rule_allowlist := rule_allowlist c; active_alerts := active_alerts c;
       cooldowns := cooldowns c; zone_entry_times := zone_entry_times c;
       version := Int.wrapping_add_u64 (version c) 1 |}
  end.
(** Replace the zones of the definition index ([cache.zones = zones]). *)
Definition set_zones (c : RuleCache) (z : gmap string CachedZone) : RuleCache :=
  let d := definitions c in
  {| definitions := {| global_rules := global_rules d; by_blueprint := by_blueprint d;
                       by_fleet := by_fleet d; by_device := by_device d; zones := z |};
     rule_allowlist := rule_allowlist c; active_alerts := active_alerts c;
     cooldowns := cooldowns c; zone_entry_times := zone_entry_times c; version := version c |}.

(** ** Abstract selection

    What "applies to the device" means, independently of the buckets. *)
Definition selects (tenant device : string) (fleet blueprint : option string) (r : CachedRule) : Prop :=
  tenant_id r = tenant /\
  match compile_target_type (target_type r) with
  | Some Global => True
  | Some Blueprint => is_Some blueprint /\ target_id r = blueprint
  | Some Fleet => is_Some fleet /\ target_id r = fleet
  | Some Device => target_id r = Some device
  | None => False
  end.

(** The index invariant: every rule sits in the bucket of its target type and
    a bucket holds one rule per (tenant, id). *)
Definition rule_key (r : CachedRule) : string * string := (tenant_id r, rule_id r).
Definition bucket_ok (t : RuleTargetType) (b : list CachedRule) : Prop :=
  (forall r, r ∈ b -> compile_target_type (target_type r) = Some t) /\ NoDup (rule_key <$> b).
Definition definitions_ok (d : RuleDefinitions) : Prop :=
  forall t, bucket_ok t (bucket_of t d).
Definition cache_ok (c : RuleCache) : Prop :=
  definitions_ok (definitions c) /\ Int.in_u64 (version c) = true.

Lemma same_rule_spec a b : same_rule a b = true <-> rule_key a = rule_key b.
Proof.
  unfold same_rule, rule_key. rewrite andb_true_iff, !String.eqb_eq.
  split; [by intros [-> ->]|by intros [= -> ->]].
Qed.
Lemma upsert_elem rule b r :
  NoDup (rule_key <$> b) ->
  r ∈ upsert rule b <-> r = rule \/ (r ∈ b /\ rule_key r <> rule_key rule).
Proof.
  induction b as [|r0 b IH]; intros Hnd; simpl; [set_solver|].
  apply NoDup_cons in Hnd as [Hn Hnd].
  destruct (same_rule r0 rule) eqn:E.
  - apply same_rule_spec in E. rewrite !elem_of_cons.
    split; [intros [->|Hin]; [by left|right]|].
    2: { intros [->|[[->|Hin] Hne]]; [by left|done|by right]. }
    split; [by right|]. intros E2. apply Hn. rewrite E, <- E2. set_solver.
  - apply not_true_iff_false in E. rewrite same_rule_spec in E.
    rewrite !elem_of_cons, (IH Hnd). split.
    + intros [->|[->|[Hr Hk]]]; auto.
    + intros [->|[[->|Hr] Hk]]; auto.
Qed.
Lemma upsert_keys rule b k : k ∈ rule_key <$> upsert rule b -> k = rule_key rule \/ k ∈ rule_key <$> b.
Proof.
  induction b as [|r0 b IH]; simpl; [set_solver|].
  destruct (same_rule r0 rule); simpl; rewrite !elem_of_cons; [tauto|].
  intros [->|Hk]; [tauto|]. destruct (IH Hk); tauto.
Qed.
Lemma upsert_NoDup rule b : NoDup (rule_key <$> b) -> NoDup (rule_key <$> upsert rule b).
Proof.
  induction b as [|r0 b IH]; intros Hnd; simpl; [constructor; [set_solver|constructor]|].
  apply NoDup_cons in Hnd as [Hn Hnd]. destruct (same_rule r0 rule) eqn:E; simpl; constructor; auto.
  - by apply same_rule_spec in E as <-.
  - intros [Hk|Hk]%upsert_keys; [|done].
    apply not_true_iff_false in E. by rewrite same_rule_spec in E.
Qed.
Lemma bucket_set t t' b d :
  bucket_of t' (set_bucket t b d) = if decide (t = t') then b else bucket_of t' d.
Proof. by destruct t, t'. Qed.
Lemma upsert_bucket_ok t rule b :
  compile_target_type (target_type rule) = Some t -> bucket_ok t b -> bucket_ok t (upsert rule b).
Proof.
  intros Ht [Hall Hnd]. split; [|by apply upsert_NoDup].
  intros r [->|[Hr _]]%upsert_elem; auto.
Qed.

(** Membership in the selected rules, for a cache that satisfies the invariant. *)
Lemma elem_rules_for c tenant device fleet blueprint r :
  definitions_ok (definitions c) ->
  r ∈ rules_for_tenant_device c tenant device fleet blueprint
  <-> (exists t, r ∈ bucket_of t (definitions c)) /\ selects tenant device fleet blueprint r
      /\ match rule_allowlist c with Some ids => rule_id r ∈ ids | None => True end.
Proof.
  intros Hok. unfold rules_for_tenant_device, selects.
  pose proof (proj1 (Hok Global) r) as HG. pose proof (proj1 (Hok Blueprint) r) as HB.
  pose proof (proj1 (Hok Fleet) r) as HF. pose proof (proj1 (Hok Device) r) as HD.
  simpl in *.
  assert (forall x l, r ∈ List.filter (fun r => targets x r tenant) l
            <-> r ∈ l /\ tenant_id r = tenant /\ target_id r = Some x) as Htg.
  { intros x l. rewrite elem_of_filterb. unfold targets. bool_prop. done. }
  assert (forall (l : list CachedRule), r ∈ match rule_allowlist c with
             | Some ids => List.filter (fun r => bool_decide (rule_id r ∈ ids)) l
             | None => l end
           <-> r ∈ l /\ match rule_allowlist c with Some ids => rule_id r ∈ ids | None => True end) as ->.
  { intros l. destruct (rule_allowlist c); [|tauto]. rewrite elem_of_filterb.
    by rewrite bool_decide_eq_true. }
  rewrite !elem_of_app, elem_of_filterb, Htg, String.eqb_eq.
  rewrite (and_assoc (exists _, _)). apply Morphisms_Prop.and_iff_morphism; [|done].
  split.
  - intros [[Hr Ht]|[Hr|[Hr|(Hr & Ht & Hx)]]].
    + split; [by exists Global|]. rewrite HG by done. done.
    + destruct blueprint as [b|]; [|set_solver]. apply Htg in Hr as (Hr & Ht & Hx).
      split; [by exists Blueprint|]. rewrite HB by done. eauto.
    + destruct fleet as [f|]; [|set_solver]. apply Htg in Hr as (Hr & Ht & Hx).
      split; [by exists Fleet|]. rewrite HF by done. eauto.
    + split; [by exists Device|]. rewrite HD by done. done.
  - intros [[t Hr] [Ht Hx]]. destruct t; simpl in Hr.
    + left. done.
    + rewrite HB in Hx by done. destruct Hx as [[b ->] Hx]. right; left. by apply Htg.
    + rewrite HF in Hx by done. destruct Hx as [[f ->] Hx]. right; right; left. by apply Htg.
    + rewrite HD in Hx by done. do 3 right. done.
Qed.

Lemma insert_rule_ok c rule : cache_ok c -> cache_ok (insert_rule c rule).
Proof.
  intros [Hd Hv]. unfold insert_rule.
  destruct (compile_target_type (target_type rule)) as [t|] eqn:Et; [|done]. split; simpl.
  - intros t'. rewrite bucket_set. case_decide; [subst|apply Hd]. by apply upsert_bucket_ok.
  - apply Int.in_u64_spec. unfold Int.wrapping_add_u64, Int.u64_max.
    pose proof (Z.mod_pos_bound (version c + 1) (2 ^ 64)). lia.
Qed.

(** Inserting a rule keeps the index well formed, and in a well-formed
    index selection returns exactly the rules that apply to the device: the
    tenant's own rules whose target is global, the device's blueprint, its
    fleet or itself, cut down to the allowlist when there is one. *)
Theorem rule_index_correct c rule tenant device fleet blueprint r :
  cache_ok c ->
  cache_ok (insert_rule c rule)
  /\ (r ∈ rules_for_tenant_device c tenant device fleet blueprint
      <-> (exists t, r ∈ bucket_of t (definitions c))
          /\ selects tenant device fleet blueprint r
          /\ match rule_allowlist c with Some ids => rule_id r ∈ ids | None => True end).
Proof. intros Hc. split; [by apply insert_rule_ok|]. apply elem_rules_for, Hc. Qed.

Definition demo_rule (id target : string) (t : option string) : CachedRule :=
  {| tenant_id := "default"; rule_id := id; name := "Rule"; trigger_type := "telemetry";
     target_type := target; target_id := t; cooldown_seconds := 0; conditions := []; actions := [] |}.
Lemma cache_default_ok : cache_ok cache_default.
Proof. split; [|done]. intros []; (split; [set_solver|constructor]). Qed.
Lemma rule_index_correct_witness :
  cache_ok (insert_rule (insert_rule cache_default (demo_rule "r1" "global" None))
                        (demo_rule "r2" "device" (Some "dev-1")))
  /\ (demo_rule "r1" "global" None
        ∈ rules_for_tenant_device (insert_rule cache_default (demo_rule "r1" "global" None))
            "default" "dev-1" None None
      <-> (exists t, demo_rule "r1" "global" None
             ∈ bucket_of t (definitions (insert_rule cache_default (demo_rule "r1" "global" None))))
          /\ selects "default" "dev-1" None None (demo_rule "r1" "global" None) /\ True).
Proof.
  apply (rule_index_correct (insert_rule cache_default (demo_rule "r1" "global" None))).
  apply insert_rule_ok, cache_default_ok.
Defined.

(** Re-inserting a rule under the same target type replaces it in place:
    afterwards its bucket holds the new version, no other rule of that
    identity, and every rule of another identity as before; an unknown target
    type changes nothing, and the version counter advances modulo 2^64. *)
Theorem insert_rule_replaces c rule :
  cache_ok c ->
  match compile_target_type (target_type rule) with
  | None => insert_rule c rule = c
  | Some t =>
    version (insert_rule c rule) = ((version c + 1) mod 2 ^ 64)%Z
    /\ (forall r, r ∈ bucket_of t (definitions (insert_rule c rule))
                  <-> r = rule \/ (r ∈ bucket_of t (definitions c) /\ rule_key r <> rule_key rule))
    /\ (forall t', t' <> t ->
          bucket_of t' (definitions (insert_rule c rule)) = bucket_of t' (definitions c))
  end.
Proof.
  intros [Hd Hv]. unfold insert_rule.
  destruct (compile_target_type (target_type rule)) as [t|]; [|done].
  split; [done|]. simpl. split.
  - intros r. rewrite bucket_set, decide_True by done. apply upsert_elem, (Hd t).
  - intros t' Ht. by rewrite bucket_set, decide_False.
Qed.
Lemma insert_rule_replaces_witness :
  version (insert_rule cache_default (demo_rule "r1" "global" None)) = 1%Z
  /\ insert_rule cache_default (demo_rule "r1" "device_type" None) = cache_default.
Proof.
  split.
  - apply (insert_rule_replaces cache_default (demo_rule "r1" "global" None) cache_default_ok).
  - apply (insert_rule_replaces cache_default (demo_rule "r1" "device_type" None) cache_default_ok).
Defined.

(** The replacement is per bucket: a rule re-inserted with another target
    type leaves its previous version in the old bucket, and both are then
    selected for a device, although the method is documented to replace an
    existing rule with the same id. *)
Theorem insert_rule_retarget_keeps_old :
  exists old new : CachedRule,
    rule_key old = rule_key new /\ old <> new
    /\ let c := insert_rule (insert_rule cache_default old) new in
       rules_for_tenant_device c "default" "dev-1" None None = [old; new].
Proof.
  exists (demo_rule "r1" "global" None), (demo_rule "r1" "device" (Some "dev-1")).
  split; [done|]. split; [done|]. vm_compute. reflexivity.
Qed.
