(* ===== verification/RuleEvaluate.v ===== *)
(** * Rule evaluation (crates/rule-engine/src/evaluate.rs)

    Evaluation is a pure function from the rule index, the runtime hints and
    one observation to the list of pending actions, in the order the code
    pushes them: each rule contributes its actions, in selection order.
    chrono's RFC 3339 printer is the operation of a [Chrono] instance. *)
From S2P Require Import Prelude Text Float64 BTree Json RuleTypes MetricNumber Geo RuleCache.

Local Open Scope Z_scope.

Class Chrono := { to_rfc3339 : NaiveDateTime -> string }.

(** [now.signed_duration_since(t).num_seconds()]: whole seconds, toward zero. *)
Definition elapsed_seconds (now t : NaiveDateTime) : Z := Z.quot (now - t) 1000000000.

(** ** Fields and conditions *)
Definition get_field_value (f : string) (data : TelemetryData) : option MetricNumber :=
  match bt_get f (metrics data) with
  | Some v => if Number.is_finite v then Some v else None
  | None => None
  end.

Definition evaluate_condition (c : CachedCondition) (data : TelemetryData) : bool :=
  match get_field_value (field c) data with
  | None => false
  | Some v =>
    match compile_operator (operator c) with
    | None => false
    | Some op =>
      match Number.parse (cond_value c) with
      | None => false
      | Some threshold =>
        match Number.compare v threshold with
        | None => false
        | Some ordering =>
          match op, ordering with
          | Gt_, Gt => true
          | Gte, (Gt | Eq) => true
          | Lt_, Lt => true
          | Lte, (Lt | Eq) => true
          | Eq_, Eq => true
          | Neq, (Lt | Gt) => true
          | _, _ => false
          end
        end
      end
    end
  end.

Definition evaluate_status_condition (c : CachedCondition) (status : string) : bool :=
  match compile_condition c with
  | None => false
  | Some cc =>
    if bool_decide (cc_field cc <> FieldStatus) then false
    else match cc_operator cc with
         | Eq_ => cc_value cc =s? status
         | Neq => cc_value cc !=s status
         | _ => false
         end
  end.

(** ** Cooldown *)
Definition is_in_cooldown_for_tenant_at (c : RuleCache) (tenant rule device : string)
    (cooldown : Z) (now : NaiveDateTime) : bool :=
  if cooldown <=? 0 then false
  else match cooldowns c !! (tenant, rule, device) with
       | Some last_fired => elapsed_seconds now last_fired <? cooldown
       | None => false
       end.

(** ** Messages *)
Definition operator_phrase (op : string) : string :=
  match compile_operator op with
  | Some (Gt_ | Gte) => "exceeded"
  | Some (Lt_ | Lte) => "dropped below"
  | Some Eq_ => "equals"
  | Some Neq => "is not"
  | None => "triggered"
  end.
Definition build_alert_message (cs : list CachedCondition) (data : TelemetryData) : string :=
  join " AND " (map (fun c =>
    let phrase := operator_phrase (operator c) in
    match get_field_value (field c) data with
    | Some v => field c +:+ " (" +:+ Number.to_string v +:+ ") " +:+ phrase +:+ " " +:+ cond_value c
    | None => field c +:+ " " +:+ phrase +:+ " " +:+ cond_value c
    end) cs).
Definition build_status_alert_message (status : string) : string :=
  "status changed to " +:+ status.
Definition triggered_value_for (cs : list CachedCondition) (data : TelemetryData) : option string :=
  match cs with
  | [] => None
  | c :: _ => Number.to_string <$> get_field_value (field c) data
  end.

(** [config.get(key).and_then(|v| v.as_str()).unwrap_or(default)]. *)
Definition config_str (key default : string) (cfg : value) : string :=
  match get key cfg ≫= as_str with Some s => s | None => default end.
(** [config.get("params").cloned().unwrap_or(Value::Null)]. *)
Definition config_params (cfg : value) : value := default Null (get "params" cfg).
Definition event_headers (event : string) : gmap string string :=
  {[ "X-Extrittio-Event" := event ]}.
Definition metrics_value (m : list (string * MetricNumber)) : value :=
  Object (map (fun e => (e.1, Number.to_value e.2)) m).
Definition rule_ref (r : CachedRule) : value :=
  object [("id", VString (rule_id r)); ("name", VString (name r))].
Definition device_ref (device : string) : value := object [("id", VString device)].

(** [fleet_id.map(|f| f.to_string())]. *)
Definition fleet_ref (fleet_id : option Z) : option string := int_to_string <$> fleet_id.

Section evaluate.
Context `{!Chrono}.

(** ** evaluate_telemetry *)

(** The actions a telemetry rule fires, before the cooldown record. *)
Definition telemetry_action (r : CachedRule) (device : string) (data : TelemetryData)
    (now : NaiveDateTime) (a : CachedAction) : list PendingAction :=
  match compile_action a with
  | None => []
  | Some ca =>
    let cfg := ca_config ca in
    match ca_kind ca with
    | Alert =>
      [CreateAlert (tenant_id r) (rule_id r) device (config_str "severity" "warning" cfg)
         (build_alert_message (conditions r) data) (triggered_value_for (conditions r) data)]
    | Webhook =>
      [SendWebhook (tenant_id r) (config_str "url" "" cfg) (event_headers "rule_triggered")
         (object [("event", VString "rule_triggered"); ("timestamp", VString (to_rfc3339 now));
                  ("rule", rule_ref r); ("device", device_ref device);
                  ("trigger", VString "telemetry");
                  ("triggered_values", metrics_value (metrics data))])]
    | Command =>
      [SendCommand (tenant_id r) device (config_str "command" "" cfg) (config_params cfg)]
    end
  end.

(** A condition pinned to another blueprint or revision. *)
Definition foreign_condition (blueprint revision : option string) (c : CachedCondition) : bool :=
  match blueprint_id c with Some id => bool_decide (Some id <> blueprint) | None => false end
  || match blueprint_revision_id c with
     | Some id => bool_decide (Some id <> revision) | None => false end.

Definition unobserved_condition (data : TelemetryData) (c : CachedCondition) : bool :=
  match get_field_value (field c) data with None => true | Some _ => false end.

Definition evaluate_telemetry_rule (device : string) (blueprint revision : option string)
    (data : TelemetryData) (c : RuleCache) (now : NaiveDateTime) (r : CachedRule) : list PendingAction :=
  if bool_decide (compile_trigger (trigger_type r) <> Some Telemetry) then []
  else if existsb (foreign_condition blueprint revision) (conditions r) then []
  else if bool_decide (conditions r = []) || existsb (unobserved_condition data) (conditions r) then []
  else
    let conditions_met := forallb (fun cd => evaluate_condition cd data) (conditions r) in
    let existing_alert_id := active_alerts c !! (tenant_id r, rule_id r, device) in
    if conditions_met then
      match existing_alert_id with
      | Some alert_id =>
        if negb (str_is_empty alert_id)
        then [UpdateAlertValue (tenant_id r) alert_id
                (default "" (triggered_value_for (conditions r) data))]
        else []
      | None =>
        if is_in_cooldown_for_tenant_at c (tenant_id r) (rule_id r) device (cooldown_seconds r) now
        then []
        else concat (map (telemetry_action r device data now) (actions r))
             ++ [UpdateCooldown (tenant_id r) (rule_id r) device now]
      end
    else
      match existing_alert_id with
      | Some alert_id =>
        if negb (str_is_empty alert_id) then [ResolveAlert (tenant_id r) alert_id] else []
      | None => []
      end.

Definition evaluate_telemetry_for_tenant_revision_at (tenant device : string) (fleet_id : option Z)
    (blueprint revision : option string) (data : TelemetryData) (c : RuleCache)
    (now : NaiveDateTime) : list PendingAction :=
  concat (map (evaluate_telemetry_rule device blueprint revision data c now)
    (rules_for_tenant_device c tenant device (fleet_ref fleet_id) blueprint)).
Definition evaluate_telemetry_for_tenant_at (tenant device : string) (fleet_id : option Z)
    (blueprint : option string) (data : TelemetryData) (c : RuleCache)
    (now : NaiveDateTime) : list PendingAction :=
  evaluate_telemetry_for_tenant_revision_at tenant device fleet_id blueprint None data c now.

(** ** evaluate_status_change *)
Definition status_action (r : CachedRule) (device status : string) (now : NaiveDateTime)
    (a : CachedAction) : list PendingAction :=
  match compile_action a with
  | None => []
  | Some ca =>
    let cfg := ca_config ca in
    match ca_kind ca with
    | Alert =>
      [CreateAlert (tenant_id r) (rule_id r) device (config_str "severity" "warning" cfg)
         (build_status_alert_message status) (Some status)]
    | Webhook =>
      [SendWebhook (tenant_id r) (config_str "url" "" cfg) (event_headers "rule_triggered")
         (object [("event", VString "rule_triggered"); ("timestamp", VString (to_rfc3339 now));
                  ("rule", rule_ref r); ("device", device_ref device);
                  ("trigger", VString "device_status");
                  ("triggered_values", object [("status", VString status)])])]
    | Command =>
      [SendCommand (tenant_id r) device (config_str "command" "" cfg) (config_params cfg)]
    end
  end.

Definition evaluate_status_rule (device status : string) (c : RuleCache) (now : NaiveDateTime)
    (r : CachedRule) : list PendingAction :=
  if bool_decide (compile_trigger (trigger_type r) <> Some DeviceStatus) then []
  else
    let conditions_met := forallb (fun cd => evaluate_status_condition cd status) (conditions r) in
    let existing_alert_id := active_alerts c !! (tenant_id r, rule_id r, device) in
    if conditions_met then
      match existing_alert_id with
      | Some alert_id =>
        if negb (str_is_empty alert_id) then [UpdateAlertValue (tenant_id r) alert_id status] else []
      | None =>
        if is_in_cooldown_for_tenant_at c (tenant_id r) (rule_id r) device (cooldown_seconds r) now
        then []
        else concat (map (status_action r device status now) (actions r))
             ++ [UpdateCooldown (tenant_id r) (rule_id r) device now]
      end
    else
      match existing_alert_id with
      | Some alert_id =>
        if negb (str_is_empty alert_id) then [ResolveAlert (tenant_id r) alert_id] else []
      | None => []
      end.

Definition evaluate_status_change_for_tenant_at (tenant device : string) (fleet_id : option Z)
    (blueprint : option string) (change : StatusChange) (c : RuleCache)
    (now : NaiveDateTime) : list PendingAction :=
  concat (map (evaluate_status_rule device (new_status change) c now)
    (rules_for_tenant_device c tenant device (fleet_ref fleet_id) blueprint)).

(** ** evaluate_geofence *)
Context `{!Libm}.

Definition point_in_zone (lat lon : f64) (g : ZoneGeometry) : bool :=
  match g with
  | Circle center_lat center_lon radius => point_in_circle lat lon center_lat center_lon radius
  | Polygon points => point_in_polygon lat lon points
  end.

Definition valid_location (data : TelemetryData) : option (f64 * f64) :=
  lat ← latitude data;
  lon ← longitude data;
  if is_finite lat && is_finite lon
     && in_range (lit (-90)) (lit 90) lat && in_range (lit (-180)) (lit 180) lon
  then Some (lat, lon) else None.

Definition geofence_event (target_inside : bool) : string :=
  if target_inside then "geofence_entered" else "geofence_exited".
Definition location_text (lat lon : f64) : string := f64_display lat +:+ "," +:+ f64_display lon.

Definition geofence_action (r : CachedRule) (device : string) (zone : CachedZone)
    (target_inside : bool) (lat lon : f64) (now : NaiveDateTime) (a : CachedAction) : list PendingAction :=
  match compile_action a with
  | None => []
  | Some ca =>
    let cfg := ca_config ca in
    match ca_kind ca with
    | Alert =>
      [CreateAlert (tenant_id r) (rule_id r) device (config_str "severity" "warning" cfg)
         ("device " +:+ (if target_inside then "entered" else "exited") +:+ " zone '"
          +:+ zone_name zone +:+ "' at " +:+ format_fixed 6 lat +:+ "," +:+ format_fixed 6 lon)
         (Some (location_text lat lon))]
    | Webhook =>
      [SendWebhook (tenant_id r) (config_str "url" "" cfg)
         (event_headers (geofence_event target_inside))
         (object [("event", VString (geofence_event target_inside));
                  ("timestamp", VString (to_rfc3339 now));
                  ("rule", rule_ref r); ("device", device_ref device);
                  ("location", object [("latitude", of_f64 lat); ("longitude", of_f64 lon)])])]
    | Command =>
      [SendCommand (tenant_id r) device (config_str "command" "" cfg) (config_params cfg)]
    end
  end.

(** [rule.conditions.iter().find(|c| c.field == name)]. *)
Definition find_condition (f : string) (cs : list CachedCondition) : option CachedCondition :=
  List.find (fun c => field c =s? f) cs.
Definition rule_zone (c : RuleCache) (r : CachedRule) : option CachedZone :=
  first ← head (conditions r); id ← zone_id first; zones (definitions c) !! id.
Definition rule_target_inside (r : CachedRule) : bool :=
  match find_condition "zone_state" (conditions r) with
  | Some cd => cond_value cd =s? "inside" | None => false end.
Definition rule_dwell_seconds (r : CachedRule) : Z :=
  default 0 (cd ← find_condition "dwell_seconds" (conditions r); parse_i64 (cond_value cd)).

(** The [conditions_met] test of the loop body. *)
Definition geofence_met (r : CachedRule) (inside was_inside has_alert : bool)
    (entered : option NaiveDateTime) (now : NaiveDateTime) : bool :=
  let dwell := rule_dwell_seconds r in
  let inside_long_enough :=
    (dwell =? 0)
    || match entered with
       | Some entered_at => dwell <=? elapsed_seconds now entered_at
       | None => false
       end in
  Bool.eqb inside (rule_target_inside r)
  && (if rule_target_inside r then inside_long_enough else was_inside || has_alert).

(** The zone-entry bookkeeping of the loop body. *)
Definition zone_transition (r : CachedRule) (device : string) (inside was_inside : bool)
    (now : NaiveDateTime) : list PendingAction :=
  if inside && negb was_inside
  then [UpdateZoneEntry (tenant_id r) (rule_id r) device (Some now)]
  else if negb inside && was_inside
  then [UpdateZoneEntry (tenant_id r) (rule_id r) device None]
  else [].

Definition evaluate_geofence_rule (device : string) (lat lon : f64) (c : RuleCache)
    (now : NaiveDateTime) (r : CachedRule) : list PendingAction :=
  if bool_decide (compile_trigger (trigger_type r) <> Some Geofence) then []
  else
    match rule_zone c r with
    | None => []
    | Some zone =>
      let inside := point_in_zone lat lon (geometry zone) in
      let target_inside := rule_target_inside r in
      let key := (tenant_id r, rule_id r, device) in
      let existing_alert_id := active_alerts c !! key in
      let entered := zone_entry_times c !! key in
      let was_inside := bool_decide (is_Some entered) in
      let active_state := Bool.eqb inside target_inside in
      zone_transition r device inside was_inside now ++
      if geofence_met r inside was_inside (bool_decide (is_Some existing_alert_id)) entered now then
        match existing_alert_id with
        | Some alert_id =>
          if negb (str_is_empty alert_id)
          then [UpdateAlertValue (tenant_id r) alert_id (location_text lat lon)] else []
        | None =>
          if is_in_cooldown_for_tenant_at c (tenant_id r) (rule_id r) device (cooldown_seconds r) now
          then []
          else concat (map (geofence_action r device zone target_inside lat lon now) (actions r))
               ++ [UpdateCooldown (tenant_id r) (rule_id r) device now]
        end
      else if negb active_state then
        match existing_alert_id with
        | Some alert_id =>
          if negb (str_is_empty alert_id) then [ResolveAlert (tenant_id r) alert_id] else []
        | None => []
        end
      else []
    end.

Definition evaluate_geofence_for_tenant_at (tenant device : string) (fleet_id : option Z)
    (blueprint : option string) (data : TelemetryData) (c : RuleCache)
    (now : NaiveDateTime) : list PendingAction :=
  match valid_location data with
  | None => []
  | Some (lat, lon) =>
    concat (map (evaluate_geofence_rule device lat lon c now)
      (rules_for_tenant_device c tenant device (fleet_ref fleet_id) blueprint))
  end.
End evaluate.

(** ** What an action is about *)
Definition action_rule (a : PendingAction) : option string :=
  match a with
  | CreateAlert _ r _ _ _ _ | UpdateCooldown _ r _ _ | UpdateZoneEntry _ r _ _ => Some r
  | _ => None
  end.
Definition action_device (a : PendingAction) : option string :=
  match a with
  | CreateAlert _ _ d _ _ _ | SendCommand _ d _ _ | UpdateCooldown _ _ d _
  | UpdateZoneEntry _ _ d _ => Some d
  | _ => None
  end.
(** The alert an action changes. *)
Definition action_alert (a : PendingAction) : option string :=
  match a with UpdateAlertValue _ i _ | ResolveAlert _ i => Some i | _ => None end.
(** An effect outside the rule engine's own bookkeeping that a firing rule
    produces: a new alert, a webhook or a command. *)
Definition fires (a : PendingAction) : bool :=
  match a with CreateAlert _ _ _ _ _ _ | SendWebhook _ _ _ _ | SendCommand _ _ _ _ => true | _ => false end.

(** ** The abstract alert machine

    For one (rule, device) pair the three evaluators implement the same
    machine: its state is the active alert ([Some ""] is a reservation whose
    alert is still being created) and whether the cooldown is running; its
    inputs are whether the rule's conditions hold and whether the observation
    is evidence of recovery. *)
Inductive AlertDecision := Stay | Fire | Refresh (alert : string) | Recover (alert : string).
Definition alert_machine (alert : option string) (cooling met recovered : bool) : AlertDecision :=
  match alert with
  | None => if met && negb cooling then Fire else Stay
  | Some id =>
    if str_is_empty id then Stay
    else if met then Refresh id
    else if recovered then Recover id
    else Stay
  end.
(** The actions a decision stands for, given what the rule fires and the value
    an update carries. *)
Definition render (r : CachedRule) (device : string) (now : NaiveDateTime)
    (fired : list PendingAction) (shown : string) (d : AlertDecision) : list PendingAction :=
  match d with
  | Stay => []
  | Fire => fired ++ [UpdateCooldown (tenant_id r) (rule_id r) device now]
  | Refresh id => [UpdateAlertValue (tenant_id r) id shown]
  | Recover id => [ResolveAlert (tenant_id r) id]
  end.

Section refinement.
Context `{!Chrono} `{!Libm}.
Implicit Types (c : RuleCache) (r : CachedRule) (now : NaiveDateTime) (a : PendingAction).

Definition alert_of c r device : option string := active_alerts c !! (tenant_id r, rule_id r, device).
Definition cooling c r device now : bool :=
  is_in_cooldown_for_tenant_at c (tenant_id r) (rule_id r) device (cooldown_seconds r) now.

(** The observation bears on a telemetry rule: right trigger, right contract
    revision, at least one condition and every metric observed. *)
Definition telemetry_relevant (blueprint revision : option string) (data : TelemetryData) r : bool :=
  bool_decide (compile_trigger (trigger_type r) = Some Telemetry)
  && negb (existsb (foreign_condition blueprint revision) (conditions r))
  && negb (bool_decide (conditions r = []))
  && forallb (fun cd => negb (unobserved_condition data cd)) (conditions r).

Lemma existsb_negb {A} (p : A -> bool) l : existsb p l = negb (forallb (fun x => negb (p x)) l).
Proof. induction l as [|x l IH]; [done|]. simpl. rewrite IH. by destruct (p x). Qed.

Lemma telemetry_rule_refines device blueprint revision data c now r :
  evaluate_telemetry_rule device blueprint revision data c now r
  = if telemetry_relevant blueprint revision data r then
      let met := forallb (fun cd => evaluate_condition cd data) (conditions r) in
      render r device now (concat (map (telemetry_action r device data now) (actions r)))
        (default "" (triggered_value_for (conditions r) data))
        (alert_machine (alert_of c r device) (cooling c r device now) met (negb met))
    else [].
Proof.
  unfold evaluate_telemetry_rule, telemetry_relevant, alert_of, cooling.
  rewrite (existsb_negb (unobserved_condition data)).
  destruct (decide (compile_trigger (trigger_type r) = Some Telemetry)) as [Ht|Ht].
  2: { by rewrite (bool_decide_true (_ <> _)), (bool_decide_false (_ = Some Telemetry)). }
  rewrite (bool_decide_false (_ <> _)), (bool_decide_true (_ = Some Telemetry)) by tauto.
  destruct (existsb (foreign_condition blueprint revision) (conditions r)); [done|].
  destruct (bool_decide (conditions r = [])); [done|]. simpl.
  destruct (forallb _ (conditions r)); [simpl|done].
  destruct (forallb (fun cd => evaluate_condition cd data) (conditions r)), (active_alerts c !! _)
    as [id|]; simpl; try destruct (str_is_empty id); try done.
  by destruct (is_in_cooldown_for_tenant_at _ _ _ _ _ _).
Qed.

Lemma status_rule_refines device status c now r :
  evaluate_status_rule device status c now r
  = if bool_decide (compile_trigger (trigger_type r) = Some DeviceStatus) then
      let met := forallb (fun cd => evaluate_status_condition cd status) (conditions r) in
      render r device now (concat (map (status_action r device status now) (actions r))) status
        (alert_machine (alert_of c r device) (cooling c r device now) met (negb met))
    else [].
Proof.
  unfold evaluate_status_rule, alert_of, cooling.
  destruct (decide (compile_trigger (trigger_type r) = Some DeviceStatus)) as [Ht|Ht].
  2: { by rewrite (bool_decide_true (_ <> _)), (bool_decide_false (_ = Some DeviceStatus)). }
  rewrite (bool_decide_false (_ <> _)), (bool_decide_true (_ = Some DeviceStatus)) by tauto.
  destruct (forallb _ (conditions r)), (active_alerts c !! _)
    as [id|]; simpl; try destruct (str_is_empty id); try done.
  by destruct (is_in_cooldown_for_tenant_at _ _ _ _ _ _).
Qed.

Lemma geofence_rule_refines device lat lon c now r :
  evaluate_geofence_rule device lat lon c now r
  = match rule_zone c r with
    | Some zone =>
      if bool_decide (compile_trigger (trigger_type r) = Some Geofence) then
        let inside := point_in_zone lat lon (geometry zone) in
        let entered := zone_entry_times c !! (tenant_id r, rule_id r, device) in
        let was_inside := bool_decide (is_Some entered) in
        let met := geofence_met r inside was_inside (bool_decide (is_Some (alert_of c r device))) entered now in
        zone_transition r device inside was_inside now
        ++ render r device now
             (concat (map (geofence_action r device zone (rule_target_inside r) lat lon now) (actions r)))
             (location_text lat lon)
             (alert_machine (alert_of c r device) (cooling c r device now) met
                (negb (Bool.eqb inside (rule_target_inside r))))
      else []
    | None => []
    end.
Proof.
  unfold evaluate_geofence_rule, alert_of, cooling.
  destruct (decide (compile_trigger (trigger_type r) = Some Geofence)) as [Ht|Ht].
  2: { rewrite (bool_decide_true (_ <> _)), (bool_decide_false (_ = Some Geofence)) by done.
       by destruct (rule_zone c r). }
  rewrite (bool_decide_false (_ <> _)), (bool_decide_true (_ = Some Geofence)) by tauto.
  destruct (rule_zone c r) as [zone|]; [|done]. cbv zeta. f_equal.
  destruct (geofence_met _ _ _ _ _ _), (active_alerts c !! _) as [id|]; simpl.
  all: try destruct (str_is_empty id); simpl; try done.
  all: try by destruct (Bool.eqb _ _).
  by destruct (is_in_cooldown_for_tenant_at _ _ _ _ _ _).
Qed.

(** C1. Refinement: each of the three evaluators produces, rule by rule over
    the rules selected for the device, exactly the actions of the abstract
    alert machine (geofences preceded by the zone-entry bookkeeping), and
    nothing for a rule whose trigger, contract revision, metrics or zone make
    the observation irrelevant, nor for a location that is absent, not finite
    or outside the coordinate ranges. *)
Theorem evaluators_refine_alert_machine :
  (forall tenant device fleet blueprint revision data c now,
     evaluate_telemetry_for_tenant_revision_at tenant device fleet blueprint revision data c now
     = concat (map (fun r =>
         if telemetry_relevant blueprint revision data r then
           let met := forallb (fun cd => evaluate_condition cd data) (conditions r) in
           render r device now (concat (map (telemetry_action r device data now) (actions r)))
             (default "" (triggered_value_for (conditions r) data))
             (alert_machine (alert_of c r device) (cooling c r device now) met (negb met))
         else []) (rules_for_tenant_device c tenant device (fleet_ref fleet) blueprint)))
  /\ (forall tenant device fleet blueprint change c now,
     evaluate_status_change_for_tenant_at tenant device fleet blueprint change c now
     = concat (map (fun r =>
         if bool_decide (compile_trigger (trigger_type r) = Some DeviceStatus) then
           let met := forallb (fun cd => evaluate_status_condition cd (new_status change)) (conditions r) in
           render r device now (concat (map (status_action r device (new_status change) now) (actions r)))
             (new_status change)
             (alert_machine (alert_of c r device) (cooling c r device now) met (negb met))
         else []) (rules_for_tenant_device c tenant device (fleet_ref fleet) blueprint)))
  /\ (forall tenant device fleet blueprint data c now,
     evaluate_geofence_for_tenant_at tenant device fleet blueprint data c now
     = match valid_location data with
       | None => []
       | Some (lat, lon) =>
         concat (map (fun r =>
           match rule_zone c r with
           | Some zone =>
             if bool_decide (compile_trigger (trigger_type r) = Some Geofence) then
               let inside := point_in_zone lat lon (geometry zone) in
               let entered := zone_entry_times c !! (tenant_id r, rule_id r, device) in
               let was_inside := bool_decide (is_Some entered) in
               let met := geofence_met r inside was_inside
                            (bool_decide (is_Some (alert_of c r device))) entered now in
               zone_transition r device inside was_inside now
               ++ render r device now
                    (concat (map (geofence_action r device zone (rule_target_inside r) lat lon now) (actions r)))
                    (location_text lat lon)
                    (alert_machine (alert_of c r device) (cooling c r device now) met
                       (negb (Bool.eqb inside (rule_target_inside r))))
             else []
           | None => []
           end) (rules_for_tenant_device c tenant device (fleet_ref fleet) blueprint))
       end).
Proof.
  split; [|split].
  - intros. unfold evaluate_telemetry_for_tenant_revision_at. f_equal. apply map_ext.
    intros r. apply telemetry_rule_refines.
  - intros. unfold evaluate_status_change_for_tenant_at. f_equal. apply map_ext.
    intros r. apply status_rule_refines.
  - intros. unfold evaluate_geofence_for_tenant_at.
    destruct (valid_location data) as [[lat lon]|]; [|done]. f_equal. apply map_ext.
    intros r. apply geofence_rule_refines.
Qed.
End refinement.

(** ** Safety *)

(** Everything one rule may do for one device, given the runtime hints. *)
Record action_scoped (c : RuleCache) (device : string) (now : NaiveDateTime) (r : CachedRule)
    (a : PendingAction) : Prop := {
  scoped_tenant : action_tenant a = tenant_id r;
  scoped_rule : forall x, action_rule a = Some x -> x = rule_id r;
  scoped_device : forall d, action_device a = Some d -> d = device;
  scoped_alert : forall i, action_alert a = Some i -> alert_of c r device = Some i /\ i <> "";
  scoped_fires : fires a = true -> alert_of c r device = None /\ cooling c r device now = false;
  scoped_cooldown : forall t x d at_, a = UpdateCooldown t x d at_ ->
    at_ = now /\ alert_of c r device = None /\ cooling c r device now = false;
}.

(** What the per-action functions may return. *)
Definition fired_by (r : CachedRule) (device : string) (a : PendingAction) : Prop :=
  fires a = true /\ action_tenant a = tenant_id r
  /\ (forall x, action_rule a = Some x -> x = rule_id r)
  /\ (forall d, action_device a = Some d -> d = device).

Section safety.
Context `{!Chrono} `{!Libm}.
Implicit Types (c : RuleCache) (r : CachedRule) (now : NaiveDateTime) (a : PendingAction).

Ltac fired := unfold fired_by; split_matches;
  repeat match goal with H : _ ∈ [] |- _ => by apply not_elem_of_nil in H
                  | H : _ ∈ [_] |- _ => apply list_elem_of_singleton in H as -> end;
  split_and!; naive_solver.
Lemma telemetry_action_fired r device data now act a :
  a ∈ telemetry_action r device data now act -> fired_by r device a.
Proof. unfold telemetry_action. intros Hin. fired. Qed.
Lemma status_action_fired r device status now act a :
  a ∈ status_action r device status now act -> fired_by r device a.
Proof. unfold status_action. intros Hin. fired. Qed.
Lemma geofence_action_fired r device zone target lat lon now act a :
  a ∈ geofence_action r device zone target lat lon now act -> fired_by r device a.
Proof. unfold geofence_action. intros Hin. fired. Qed.

Lemma alert_machine_fire alert cool met rec :
  alert_machine alert cool met rec = Fire -> alert = None /\ cool = false /\ met = true.
Proof. unfold alert_machine. destruct alert, met, cool; split_matches; naive_solver. Qed.
Lemma alert_machine_some alert cool met rec i :
  alert_machine alert cool met rec = Refresh i \/ alert_machine alert cool met rec = Recover i ->
  alert = Some i /\ i <> "".
Proof.
  unfold alert_machine. destruct alert as [id|], met, cool, rec; simpl; split_matches;
    intros [Hd|Hd]; simplify_eq; (split; [done|]; by intros ->).
Qed.

Lemma render_scoped c device now r fired shown met rec a :
  (forall x, x ∈ fired -> fired_by r device x) ->
  a ∈ render r device now fired shown
        (alert_machine (alert_of c r device) (cooling c r device now) met rec) ->
  action_scoped c device now r a.
Proof.
  intros Hf Ha.
  destruct (alert_machine _ _ _ _) as [| |i|i] eqn:E; simpl in Ha.
  - by apply not_elem_of_nil in Ha.
  - apply alert_machine_fire in E as (E1 & E2 & _).
    apply elem_of_app in Ha as [Ha|Ha].
    + destruct (Hf a Ha) as (Hf1 & Hf2 & Hf3 & Hf4). split; try done.
      * intros i Hi. by destruct a.
      * by intros ? ? ? ? ->.
    + apply list_elem_of_singleton in Ha as ->. split; naive_solver.
  - apply list_elem_of_singleton in Ha as ->.
    destruct (alert_machine_some _ _ _ _ i (or_introl E)). split; naive_solver.
  - apply list_elem_of_singleton in Ha as ->.
    destruct (alert_machine_some _ _ _ _ i (or_intror E)). split; naive_solver.
Qed.
Lemma zone_transition_scoped c device now r inside was a :
  a ∈ zone_transition r device inside was now -> action_scoped c device now r a.
Proof.
  unfold zone_transition. intros Ha. split_matches;
    [apply list_elem_of_singleton in Ha as ->..|by apply not_elem_of_nil in Ha]; split; naive_solver.
Qed.

Lemma telemetry_rule_scoped device blueprint revision data c now r a :
  a ∈ evaluate_telemetry_rule device blueprint revision data c now r -> action_scoped c device now r a.
Proof.
  rewrite telemetry_rule_refines. case_match; [|by intros Hx%not_elem_of_nil].
  apply render_scoped. intros x (act & _ & Hx)%elem_of_concat_map.
  by eapply telemetry_action_fired.
Qed.
Lemma status_rule_scoped device status c now r a :
  a ∈ evaluate_status_rule device status c now r -> action_scoped c device now r a.
Proof.
  rewrite status_rule_refines. case_match; [|by intros Hx%not_elem_of_nil].
  apply render_scoped. intros x (act & _ & Hx)%elem_of_concat_map.
  by eapply status_action_fired.
Qed.
Lemma geofence_rule_scoped device lat lon c now r a :
  a ∈ evaluate_geofence_rule device lat lon c now r -> action_scoped c device now r a.
Proof.
  rewrite geofence_rule_refines. repeat case_match; try by intros Hx%not_elem_of_nil.
  intros [Hz|Hz]%elem_of_app; [by eapply zone_transition_scoped|]. revert Hz.
  apply render_scoped. intros x (act & _ & Hx)%elem_of_concat_map.
  by eapply geofence_action_fired.
Qed.

Lemma rules_for_tenant c tenant device fleet blueprint r :
  r ∈ rules_for_tenant_device c tenant device fleet blueprint ->
  tenant_id r = tenant /\ match rule_allowlist c with Some ids => rule_id r ∈ ids | None => True end.
Proof.
  unfold rules_for_tenant_device. intros Hr.
  assert (forall l, r ∈ match rule_allowlist c with
             | Some ids => List.filter (fun r => bool_decide (rule_id r ∈ ids)) l
             | None => l end
           -> r ∈ l /\ match rule_allowlist c with Some ids => rule_id r ∈ ids | None => True end) as Hl.
  { intros l. destruct (rule_allowlist c); [|done]. rewrite elem_of_filterb.
    by rewrite bool_decide_eq_true. }
  apply Hl in Hr as [Hr Hids]. split; [|done].
  assert (forall x l, r ∈ List.filter (fun r => targets x r tenant) l -> tenant_id r = tenant) as Ht.
  { intros x l [_ Hx]%elem_of_filterb. unfold targets in Hx. by bool_prop. }
  rewrite !elem_of_app in Hr. destruct Hr as [Hr|[Hr|[Hr|Hr]]].
  - apply elem_of_filterb in Hr as [_ Hr]. by apply String.eqb_eq.
  - destruct blueprint; [eauto|by apply not_elem_of_nil in Hr].
  - destruct fleet; [eauto|by apply not_elem_of_nil in Hr].
  - eauto.
Qed.

(** One observation, whichever of the three evaluators it goes to, and what
    one rule contributes to its evaluation. *)
Inductive Observation :=
| ObservedTelemetry (revision : option string) (data : TelemetryData)
| ObservedStatus (change : StatusChange)
| ObservedLocation (data : TelemetryData).
Definition evaluate_observation (tenant device : string) (fleet : option Z) (blueprint : option string)
    (obs : Observation) c now : list PendingAction :=
  match obs with
  | ObservedTelemetry revision data =>
    evaluate_telemetry_for_tenant_revision_at tenant device fleet blueprint revision data c now
  | ObservedStatus change => evaluate_status_change_for_tenant_at tenant device fleet blueprint change c now
  | ObservedLocation data => evaluate_geofence_for_tenant_at tenant device fleet blueprint data c now
  end.
Definition rule_contribution (device : string) (blueprint : option string) (obs : Observation) c now r
    : list PendingAction :=
  match obs with
  | ObservedTelemetry revision data => evaluate_telemetry_rule device blueprint revision data c now r
  | ObservedStatus change => evaluate_status_rule device (new_status change) c now r
  | ObservedLocation data =>
    match valid_location data with
    | Some (lat, lon) => evaluate_geofence_rule device lat lon c now r
    | None => []
    end
  end.

Lemma elem_of_evaluation tenant device fleet blueprint obs c now a :
  a ∈ evaluate_observation tenant device fleet blueprint obs c now <->
  exists r, r ∈ rules_for_tenant_device c tenant device (fleet_ref fleet) blueprint
    /\ a ∈ rule_contribution device blueprint obs c now r.
Proof.
  destruct obs as [revision data|change|data]; simpl; [apply elem_of_concat_map..|].
  unfold evaluate_geofence_for_tenant_at.
  destruct (valid_location data) as [[lat lon]|]; [apply elem_of_concat_map|].
  split; [by intros ?%not_elem_of_nil|by intros (? & _ & ?%not_elem_of_nil)].
Qed.
Lemma contribution_scoped device blueprint obs c now r a :
  a ∈ rule_contribution device blueprint obs c now r -> action_scoped c device now r a.
Proof.
  destruct obs as [revision data|change|data]; simpl;
    [apply telemetry_rule_scoped|apply status_rule_scoped|].
  destruct (valid_location data) as [[lat lon]|]; [apply geofence_rule_scoped|by intros ?%not_elem_of_nil].
Qed.

(** What fires a rule: an alert, a webhook or a command, or the cooldown
    record that every firing leaves. *)
Definition fires_or_cools (a : PendingAction) : bool :=
  match a with
  | CreateAlert _ _ _ _ _ _ | SendWebhook _ _ _ _ | SendCommand _ _ _ _ | UpdateCooldown _ _ _ _ => true
  | _ => false
  end.
Lemma render_cools r device now fired shown d a :
  a ∈ render r device now fired shown d -> fires_or_cools a = true ->
  UpdateCooldown (tenant_id r) (rule_id r) device now ∈ render r device now fired shown d.
Proof.
  destruct d; simpl; [by intros ?%not_elem_of_nil| |by intros ->%list_elem_of_singleton..].
  intros _ _. apply elem_of_app. right. by apply list_elem_of_singleton.
Qed.
(** A rule that fires records its cooldown in the same evaluation. *)
Lemma contribution_cools device blueprint obs c now r a :
  a ∈ rule_contribution device blueprint obs c now r -> fires_or_cools a = true ->
  UpdateCooldown (tenant_id r) (rule_id r) device now ∈ rule_contribution device blueprint obs c now r.
Proof.
  destruct obs as [revision data|change|data]; simpl.
  - rewrite telemetry_rule_refines. case_match; [apply render_cools|by intros ?%not_elem_of_nil].
  - rewrite status_rule_refines. case_match; [apply render_cools|by intros ?%not_elem_of_nil].
  - destruct (valid_location data) as [[lat lon]|]; [|by intros ?%not_elem_of_nil].
    rewrite geofence_rule_refines. repeat case_match; try by intros ?%not_elem_of_nil.
    rewrite !elem_of_app. intros [Ha|Ha] Hf; [|right; by eapply render_cools].
    unfold zone_transition in Ha. split_matches;
      [apply list_elem_of_singleton in Ha as ->; done..|by apply not_elem_of_nil in Ha].
Qed.

(** C5. Isolation: the actions of an evaluation are exactly those that the
    rules selected for the device contribute, and whatever a selected rule
    contributes carries the tenant of the evaluation and that rule's id, names
    only the evaluated device, and only changes the alert that is active for
    that very rule and device (never an in-flight reservation); the rule
    itself is the tenant's and, where the cache is restricted, live; and it
    creates alerts, webhooks or commands, or records a cooldown, only when it
    has no active alert for the device and its own cooldown is not running. *)
Theorem evaluation_isolated tenant device fleet blueprint obs c now :
  let selected := rules_for_tenant_device c tenant device (fleet_ref fleet) blueprint in
  let own := rule_contribution device blueprint obs c now in
  (forall a, a ∈ evaluate_observation tenant device fleet blueprint obs c now <->
     exists r, r ∈ selected /\ a ∈ own r)
  /\ (forall r a, r ∈ selected -> a ∈ own r ->
        tenant_id r = tenant
        /\ match rule_allowlist c with Some ids => rule_id r ∈ ids | None => True end
        /\ action_tenant a = tenant
        /\ (forall x, action_rule a = Some x -> x = rule_id r)
        /\ (forall d, action_device a = Some d -> d = device)
        /\ (forall i, action_alert a = Some i ->
              i <> "" /\ active_alerts c !! (tenant, rule_id r, device) = Some i)
        /\ (fires_or_cools a = true ->
              active_alerts c !! (tenant, rule_id r, device) = None
              /\ is_in_cooldown_for_tenant_at c tenant (rule_id r) device (cooldown_seconds r) now = false)).
Proof.
  cbv zeta. split; [intros a; apply elem_of_evaluation|]. intros r a Hr Ha.
  apply rules_for_tenant in Hr as [<- Hids]. apply contribution_scoped in Ha as [S1 S2 S3 S4 S5 S6].
  split_and!; try done.
  - intros i Hi. by destruct (S4 i Hi).
  - intros Hf. destruct (fires a) eqn:E; [by apply S5|].
    destruct a; try done. by destruct (S6 _ _ _ _ eq_refl).
Qed.
End safety.

(** A concrete host for the witnesses: a fixed clock text and the small-angle
    approximation of the trigonometric functions. *)
Definition demo_chrono : Chrono := {| to_rfc3339 := fun _ => "1970-01-01T00:00:00+00:00" |}.
Definition demo_libm : Libm :=
  {| f64_sin := fun x => x; f64_cos := fun _ => lit 1; f64_asin := fun x => x |}.
Definition demo_condition (f op v : string) : CachedCondition :=
  {| field := f; blueprint_id := None; blueprint_revision_id := None; operator := op;
     cond_value := v; zone_id := None |}.
Definition demo_alert_rule : CachedRule :=
  {| tenant_id := "default"; rule_id := "hot"; name := "Hot"; trigger_type := "telemetry";
     target_type := "global"; target_id := None; cooldown_seconds := 60;
     conditions := [demo_condition "env./temperature" "gt" "80"];
     actions := [{| action_type := "alert"; config := object [("severity", VString "critical")] |}] |}.
Definition demo_data (t : Z) : TelemetryData :=
  {| latitude := None; longitude := None; metrics := [("env./temperature", MInteger t)] |}.
Definition demo_cache : RuleCache := insert_rule cache_default demo_alert_rule.

Example telemetry_fires :
  evaluate_telemetry_for_tenant_at (H := demo_chrono) "default" "dev-1" None None (demo_data 85) demo_cache 0
  = [CreateAlert "default" "hot" "dev-1" "critical" "env./temperature (85) exceeded 80" (Some "85");
     UpdateCooldown "default" "hot" "dev-1" 0].
Proof. vm_compute. reflexivity. Qed.

(** The rule that fires here is selected, has no alert and is not cooling. *)
Lemma evaluation_isolated_witness :
  demo_alert_rule ∈ rules_for_tenant_device demo_cache "default" "dev-1" (fleet_ref None) None
  /\ is_in_cooldown_for_tenant_at demo_cache "default" "hot" "dev-1" 60 0 = false.
Proof.
  assert (demo_alert_rule ∈ rules_for_tenant_device demo_cache "default" "dev-1" (fleet_ref None) None) as Hr.
  { apply list_elem_of_In. vm_compute. left. reflexivity. }
  split; [exact Hr|].
  destruct (evaluation_isolated (H := demo_chrono) (H0 := demo_libm) "default" "dev-1" None None
              (ObservedTelemetry None (demo_data 85)) demo_cache 0) as [_ Hown].
  apply (Hown demo_alert_rule (UpdateCooldown "default" "hot" "dev-1" 0) Hr); [|reflexivity].
  apply list_elem_of_In. vm_compute. right. left. reflexivity.
Defined.
