(* ===== verification/Errors.v ===== *)
(** * Failures (crates/backend-core/src/error.rs)

    The stable persistence and application error values. *)
From S2P Require Import Prelude.

Inductive PersistenceError :=
| PNotFound
| HistoryExpired
| UniqueViolation (constraint : string)
| ForeignKeyViolation (constraint : string)
| CheckViolation (constraint : string)
| Busy (retry_after : option Z)
| Unavailable (message : string)
| CorruptData (message : string)
| PInternal (message : string).

Inductive ApplicationError :=
| DeviceCommunication (message : string)
| NotFound (message : string)
| Conflict (message : string)
| InvalidInput (message : string)
| InvalidOperation (message : string)
| Unauthorized
| Forbidden (message : string)
| Authentication (message : string)
| Persistence (error : PersistenceError)
| Internal (message : string).

(** The texts of the errors. *)
Definition persistence_text (e : PersistenceError) : string :=
  match e with
  | PNotFound => "resource was not found"
  | HistoryExpired => "requested metric history is outside the retained range"
  | UniqueViolation c => "unique constraint violated: " +:+ c
  | ForeignKeyViolation c => "foreign-key constraint violated: " +:+ c
  | CheckViolation c => "check constraint violated: " +:+ c
  | Busy _ => "database is busy"
  | Unavailable m => "database is unavailable: " +:+ m
  | CorruptData m => "database returned corrupt data: " +:+ m
  | PInternal m => "internal persistence failure: " +:+ m
  end.
Definition application_text (e : ApplicationError) : string :=
  match e with
  | DeviceCommunication m | NotFound m | Conflict m | InvalidInput m | InvalidOperation m | Forbidden m
  | Authentication m | Internal m => m
  | Unauthorized => "Unauthorized"
  | Persistence e => persistence_text e
  end.
