(* ===== verification/RuleSnapshot.v ===== *)
(** * Decisions under the ingress transaction
    (crates/backend-core/src/rule_snapshots.rs, rules.rs;
     crates/backend-turso/src/rule_runtime.rs, alerts.rs)

    A snapshot pairs immutable rule definitions with one observation;
    [DeviceRuleEvaluation::decide] ([device_decide] here) evaluates it against the runtime rows read under the device
    lock and splits the actions into deliveries and bookkeeping.  The Turso
    adapter's transaction is modelled on the tables it reads and writes. *)
From S2P Require Import Prelude Text Float64 BTree Json Errors RuleTypes MetricNumber Geo.
From S2P Require Import RuleCache RuleEvaluate.

Local Open Scope Z_scope.

(** ** Snapshots *)
Record RuleSnapshotRecords := {
  rsr_rules : list CachedRule;
  rsr_zones : gmap string CachedZone;
}.
(** [RuleSnapshotRecords::compile]. *)
Definition compile (records : RuleSnapshotRecords) : RuleCache :=
  set_zones (fold_left insert_rule (rsr_rules records) cache_default) (rsr_zones records).

(** [parse_zone_geometry] and [merge_zone_snapshots] of rules.rs. *)
Definition parse_point (point : value) : option (f64 * f64) :=
  coordinates ← as_array point;
  match coordinates with
  | [x; y] => a ← as_f64 x; b ← as_f64 y; Some (a, b)
  | _ => None
  end.
Definition parse_zone_geometry (geometry_type : string) (geometry_json : value) : option ZoneGeometry :=
  if geometry_type =s? "circle" then
    center ← get "center" geometry_json ≫= as_array;
    match center with
    | [x; y] =>
      lat ← as_f64 x; lon ← as_f64 y;
      radius ← get "radius_meters" geometry_json ≫= as_f64;
      Some (Circle lat lon radius)
    | _ => None
    end
  else if geometry_type =s? "polygon" then
    points ← get "points" geometry_json ≫= as_array;
    points ← mapM parse_point points;
    Some (Polygon points)
  else None.
Record Zone := {
  z_id : string;
  z_name : string;
  z_geometry_type : string;
  z_geometry_json : value;
}.
Definition merge_zone (zs : gmap string CachedZone) (zone : Zone) : gmap string CachedZone :=
  match parse_zone_geometry (z_geometry_type zone) (z_geometry_json zone) with
  | Some g => <[z_id zone := {| zone_key := z_id zone; zone_name := z_name zone; geometry := g |}]> zs
  | None => zs
  end.
Definition merge_zone_snapshots (records : RuleSnapshotRecords) (zs : list Zone) : RuleSnapshotRecords :=
  {| rsr_rules := rsr_rules records; rsr_zones := fold_left merge_zone zs (rsr_zones records) |}.

(** ** Decisions *)
Record DeviceRuleRuntime := {
  live_rule_ids : gset string;
  rt_active_alerts : gmap RuleDeviceKey string;
  rt_cooldowns : gmap RuleDeviceKey NaiveDateTime;
  rt_zone_entries : gmap RuleDeviceKey NaiveDateTime;
}.
Inductive RuleEvaluationInput :=
| InputStatus (change : StatusChange)
| InputTelemetry (data : TelemetryData) (geofence : bool).
Record DeviceRuleEvaluation := {
  snapshot : RuleCache;
  dre_tenant : string;
  dre_device : string;
  dre_fleet_id : option Z;
  dre_blueprint_id : option string;
  dre_blueprint_revision_id : option string;
  input : RuleEvaluationInput;
  observed_at : NaiveDateTime;
}.
Record CooldownRecord := {
  cd_tenant : string; cd_rule : string; cd_device : string; last_fired_at : NaiveDateTime;
}.
Record ZoneEntryMutation := {
  ze_tenant : string; ze_rule : string; ze_device : string; ze_entered_at : option NaiveDateTime;
}.
Record DeviceRuleDecision := {
  deliveries : list PendingAction;
  d_cooldowns : list CooldownRecord;
  d_zone_entries : list ZoneEntryMutation;
}.

(** [DeviceRuleEvaluation::candidate_rule_ids]. *)
Definition candidate_rule_ids (p : DeviceRuleEvaluation) : list string :=
  map rule_id (rules_for_tenant_device (snapshot p) (dre_tenant p) (dre_device p)
                 (fleet_ref (dre_fleet_id p)) (dre_blueprint_id p)).

(** The cache [device_decide] evaluates with: the snapshot's definitions, cut down
    to the live rules, with the runtime rows. *)
Definition runtime_cache (p : DeviceRuleEvaluation) (rt : DeviceRuleRuntime) : RuleCache :=
  let c := restrict_to_rule_ids (definitions_only (snapshot p)) (live_rule_ids rt) in
  {| definitions := definitions c; rule_allowlist := rule_allowlist c;
     active_alerts := rt_active_alerts rt; cooldowns := rt_cooldowns rt;
     zone_entry_times := rt_zone_entries rt; version := version c |}.

Section decide.
Context `{!Chrono} `{!Libm}.

Definition decide_actions (p : DeviceRuleEvaluation) (rt : DeviceRuleRuntime) : list PendingAction :=
  let cache := runtime_cache p rt in
  match input p with
  | InputStatus change =>
    evaluate_status_change_for_tenant_at (dre_tenant p) (dre_device p) (dre_fleet_id p)
      (dre_blueprint_id p) change cache (observed_at p)
  | InputTelemetry data geofence =>
    evaluate_telemetry_for_tenant_revision_at (dre_tenant p) (dre_device p) (dre_fleet_id p)
      (dre_blueprint_id p) (dre_blueprint_revision_id p) data cache (observed_at p)
    ++ (if geofence
        then evaluate_geofence_for_tenant_at (dre_tenant p) (dre_device p) (dre_fleet_id p)
               (dre_blueprint_id p) data cache (observed_at p)
        else [])
  end.

(** One iteration of the partitioning loop: a push onto one of three vectors. *)
Definition route_action (d : DeviceRuleDecision) (a : PendingAction) : DeviceRuleDecision :=
  match a with
  | UpdateCooldown t r dev at_ =>
    {| deliveries := deliveries d;
       d_cooldowns := d_cooldowns d ++ [{| cd_tenant := t; cd_rule := r; cd_device := dev; last_fired_at := at_ |}];
       d_zone_entries := d_zone_entries d |}
  | UpdateZoneEntry t r dev at_ =>
    {| deliveries := deliveries d; d_cooldowns := d_cooldowns d;
       d_zone_entries := d_zone_entries d
         ++ [{| ze_tenant := t; ze_rule := r; ze_device := dev; ze_entered_at := at_ |}] |}
  | delivery =>
    {| deliveries := deliveries d ++ [delivery]; d_cooldowns := d_cooldowns d;
       d_zone_entries := d_zone_entries d |}
  end.
Definition device_decide (p : DeviceRuleEvaluation) (rt : DeviceRuleRuntime) : DeviceRuleDecision :=
  fold_left route_action (decide_actions p rt)
    {| deliveries := []; d_cooldowns := []; d_zone_entries := [] |}.
End decide.

(** ** The partition *)
Definition is_bookkeeping (a : PendingAction) : bool :=
  match a with UpdateCooldown _ _ _ _ | UpdateZoneEntry _ _ _ _ => true | _ => false end.
Definition to_cooldown (a : PendingAction) : list CooldownRecord :=
  match a with
  | UpdateCooldown t r d at_ => [{| cd_tenant := t; cd_rule := r; cd_device := d; last_fired_at := at_ |}]
  | _ => []
  end.
Definition to_zone_entry (a : PendingAction) : list ZoneEntryMutation :=
  match a with
  | UpdateZoneEntry t r d at_ => [{| ze_tenant := t; ze_rule := r; ze_device := d; ze_entered_at := at_ |}]
  | _ => []
  end.
Lemma route_fold acts d :
  fold_left route_action acts d
  = {| deliveries := deliveries d ++ List.filter (fun a => negb (is_bookkeeping a)) acts;
       d_cooldowns := d_cooldowns d ++ concat (map to_cooldown acts);
       d_zone_entries := d_zone_entries d ++ concat (map to_zone_entry acts) |}.
Proof.
  revert d. induction acts as [|a acts IH]; intros d; simpl.
  - rewrite !app_nil_r. by destruct d.
  - rewrite IH. destruct a; simpl; f_equal; by rewrite <- ?app_assoc.
Qed.

(** ** The adapter's transaction

    The rows [evaluate_rules_in_transaction] reads and writes.  Alert rows are
    kept in the query's order ([created_at], [id]); timestamps are stored in
    microseconds, and chrono's range check on reading them back is the
    operation of a [ChronoMicros] instance. *)
Class ChronoMicros := { micros_in_range : Z -> bool }.

Record AlertRow := {
  al_tenant : string; al_device : string; al_rule : option string; al_id : string; al_status : string;
}.
Record RuleStore := {
  (** devices joined with their assigned contract's blueprint: (tenant, device) *)
  device_targets : gmap (string * string) (option Z * option string);
  (** enabled rules, by (tenant, id) *)
  enabled_rules : gset (string * string);
  alert_rows : list AlertRow;
  rule_cooldowns : gmap RuleDeviceKey Z;
  rule_zone_entries : gmap RuleDeviceKey Z;
}.
(** [and_utc().timestamp_micros()] and [row::datetime]. *)
Definition timestamp_micros (t : NaiveDateTime) : Z := t / 1000.
Definition datetime `{!ChronoMicros} (micros : Z) : result PersistenceError NaiveDateTime :=
  if micros_in_range micros then Ok (micros * 1000)
  else Err (CorruptData ("invalid UTC timestamp in database: " +:+ int_to_string micros)).
(** [row::i32]. *)
Definition narrow_i32 (v : Z) (column : string) : result PersistenceError Z :=
  if Int.in_i32 v then Ok v
  else Err (CorruptData (column +:+ " is outside the supported i32 range")).

(** [upsert_cooldown]: ON CONFLICT keeps the later of the two times. *)
Definition upsert_cooldown (m : gmap RuleDeviceKey Z) (key : RuleDeviceKey) (fired_at : Z) : gmap RuleDeviceKey Z :=
  <[key := match m !! key with Some old => Z.max old fired_at | None => fired_at end]> m.
Definition write_cooldown (m : gmap RuleDeviceKey Z) (c : CooldownRecord) : gmap RuleDeviceKey Z :=
  upsert_cooldown m (cd_tenant c, cd_rule c, cd_device c) (timestamp_micros (last_fired_at c)).
Definition write_zone_entry (m : gmap RuleDeviceKey Z) (e : ZoneEntryMutation) : gmap RuleDeviceKey Z :=
  let key := (ze_tenant e, ze_rule e, ze_device e) in
  match ze_entered_at e with
  | Some time => <[key := timestamp_micros time]> m
  | None => delete key m
  end.

(** The rows of one device, read back as datetimes. *)
Definition read_times `{!ChronoMicros} (m : gmap RuleDeviceKey Z) (tenant device : string)
    : result PersistenceError (gmap RuleDeviceKey NaiveDateTime) :=
  map_fold (fun (k : RuleDeviceKey) micros acc =>
      out ← acc;
      if (k.1.1 =s? tenant) && (k.2 =s? device)
      then t ← datetime micros; Ok (<[k := t]> out)
      else Ok out) (Ok ∅) m.
Definition live_status (s : string) : bool := (s =s? "active") || (s =s? "acknowledged").
Definition read_alerts (rows : list AlertRow) (tenant device : string) : gmap RuleDeviceKey string :=
  fold_left (fun m row =>
      if (al_tenant row =s? tenant) && (al_device row =s? device) && live_status (al_status row)
      then match al_rule row with
           | Some rule => <[(tenant, rule, device) := al_id row]> m
           | None => m
           end
      else m) rows ∅.

Section transaction.
Context `{!Chrono} `{!Libm} `{!ChronoMicros}.

(** The plan, with the device's current fleet and blueprint. *)
Definition refresh_plan (s : RuleStore) (tenant device : string) (plan : DeviceRuleEvaluation)
    : result PersistenceError DeviceRuleEvaluation :=
  target ← ok_or (device_targets s !! (tenant, device)) PNotFound;
  fleet ← match target.1 with
          | Some f => Some <$> narrow_i32 f "fleet_id"
          | None => Ok None
          end;
  Ok {| snapshot := snapshot plan; dre_tenant := dre_tenant plan; dre_device := dre_device plan;
        dre_fleet_id := fleet; dre_blueprint_id := target.2;
        dre_blueprint_revision_id := dre_blueprint_revision_id plan;
        input := input plan; observed_at := observed_at plan |}.
Definition read_runtime (s : RuleStore) (tenant device : string) (plan : DeviceRuleEvaluation)
    : result PersistenceError DeviceRuleRuntime :=
  cooldowns ← read_times (rule_cooldowns s) tenant device;
  entries ← read_times (rule_zone_entries s) tenant device;
  Ok {| live_rule_ids := list_to_set
          (List.filter (fun id => bool_decide ((tenant, id) ∈ enabled_rules s)) (candidate_rule_ids plan));
        rt_active_alerts := read_alerts (alert_rows s) tenant device;
        rt_cooldowns := cooldowns; rt_zone_entries := entries |}.
Definition commit_decision (s : RuleStore) (d : DeviceRuleDecision) : RuleStore :=
  {| device_targets := device_targets s; enabled_rules := enabled_rules s; alert_rows := alert_rows s;
     rule_cooldowns := fold_left write_cooldown (d_cooldowns d) (rule_cooldowns s);
     rule_zone_entries := fold_left write_zone_entry (d_zone_entries d) (rule_zone_entries s) |}.

Definition evaluate_rules_in_transaction (s : RuleStore) (tenant device : string)
    (plan : option DeviceRuleEvaluation) : result PersistenceError (RuleStore * list PendingAction) :=
  match plan with
  | None => Ok (s, [])
  | Some plan =>
    if (dre_tenant plan !=s tenant) || (dre_device plan !=s device)
    then Err (CorruptData "rule evaluation scope does not match ingress")
    else
      plan ← refresh_plan s tenant device plan;
      runtime ← read_runtime s tenant device plan;
      let decision := device_decide plan runtime in
      Ok (commit_decision s decision, deliveries decision)
  end.
End transaction.

(** ** Reading the rows back *)
Section rows.
Context `{!ChronoMicros}.
Definition row_of (tenant device : string) (k : RuleDeviceKey) : bool :=
  (k.1.1 =s? tenant) && (k.2 =s? device).

Lemma read_times_lookup m tenant device out k :
  read_times m tenant device = Ok out ->
  out !! k = if row_of tenant device k then (fun v => v * 1000) <$> m !! k else None.
Proof.
  unfold read_times. revert out. revert k.
  apply (map_fold_weak_ind (fun acc (m : gmap RuleDeviceKey Z) => forall k out, acc = Ok out ->
    out !! k = if row_of tenant device k then (fun v => v * 1000) <$> m !! k else None)).
  - intros k out [= <-]. rewrite !lookup_empty. by destruct (row_of tenant device k).
  - intros i micros m' acc Hi IH k out (acc' & -> & Hout)%bind_ok.
    specialize (IH k acc' eq_refl). rewrite lookup_insert. unfold row_of in *.
    destruct ((i.1.1 =s? tenant) && (i.2 =s? device)) eqn:Ei.
    + apply bind_ok in Hout as (t & Ht & [= <-]). unfold datetime in Ht.
      destruct (micros_in_range micros); simplify_eq. rewrite lookup_insert.
      destruct (base.decide (i = k)) as [->|]; [by rewrite Ei|done].
    + simplify_eq. destruct (base.decide (i = k)) as [->|]; [|done]. rewrite Ei in *. done.
Qed.
End rows.

Lemma write_cooldowns_mono cs m k v :
  m !! k = Some v ->
  exists v', fold_left write_cooldown cs m !! k = Some v' /\ v <= v'.
Proof.
  revert m v. induction cs as [|c cs IH]; intros m v Hv; simpl; [by exists v|].
  assert (exists w, write_cooldown m c !! k = Some w /\ v <= w) as (w & Hw & Hle).
  { unfold write_cooldown, upsert_cooldown. rewrite lookup_insert.
    case_decide as E; [|by exists v]. rewrite E, Hv. eexists. split; [done|]. lia. }
  destruct (IH _ _ Hw) as (v' & Hv' & ?). exists v'. split; [done|lia].
Qed.
Lemma write_cooldowns_covers cs m c :
  c ∈ cs ->
  exists v, fold_left write_cooldown cs m !! (cd_tenant c, cd_rule c, cd_device c) = Some v
            /\ timestamp_micros (last_fired_at c) <= v.
Proof.
  intros Hc. revert m. induction cs as [|c' cs IH]; intros m; [by apply not_elem_of_nil in Hc|].
  apply elem_of_cons in Hc as [->|Hc]; simpl; [|by apply IH].
  assert (exists w, write_cooldown m c' !! (cd_tenant c', cd_rule c', cd_device c') = Some w
                    /\ timestamp_micros (last_fired_at c') <= w) as (w & Hw & Hle).
  { unfold write_cooldown, upsert_cooldown. rewrite lookup_insert_eq. eexists. split; [done|].
    case_match; lia. }
  destruct (write_cooldowns_mono cs _ _ _ Hw) as (v & Hv & ?). exists v. split; [done|lia].
Qed.

(** ** Histories of the store

    Ingress transactions interleaved with any other writer that, like
    [upsert_cooldown], never moves a recorded cooldown back. *)
Definition cooldowns_grow (s s' : RuleStore) : Prop :=
  forall k v, rule_cooldowns s !! k = Some v ->
    exists v', rule_cooldowns s' !! k = Some v' /\ v <= v'.

Section histories.
Context `{!Chrono} `{!Libm} `{!ChronoMicros}.

(** The decision a successful transaction commits. *)
Definition transaction_decision (s : RuleStore) (tenant device : string) (plan : DeviceRuleEvaluation)
    : result PersistenceError DeviceRuleDecision :=
  plan ← refresh_plan s tenant device plan;
  runtime ← read_runtime s tenant device plan;
  Ok (device_decide plan runtime).

Inductive store_step (s : RuleStore) : RuleStore -> Prop :=
| step_transaction tenant device plan s' ds :
    evaluate_rules_in_transaction s tenant device plan = Ok (s', ds) -> store_step s s'
| step_other s' : cooldowns_grow s s' -> store_step s s'.

Lemma transaction_commits s tenant device plan s' ds :
  evaluate_rules_in_transaction s tenant device (Some plan) = Ok (s', ds) ->
  exists d, transaction_decision s tenant device plan = Ok d
    /\ s' = commit_decision s d /\ ds = deliveries d
    /\ dre_tenant plan = tenant /\ dre_device plan = device.
Proof.
  unfold evaluate_rules_in_transaction, transaction_decision. case_match eqn:E; [done|].
  intros (p & Hp & (rt & Hrt & [= <- <-])%bind_ok)%bind_ok.
  exists (device_decide p rt). rewrite Hp. simpl. rewrite Hrt. by bool_prop.
Qed.

Lemma store_step_grows s s' : store_step s s' -> cooldowns_grow s s'.
Proof.
  intros [tenant device [plan|] s1 ds Htx|s1 Hg]; [| |done].
  - apply transaction_commits in Htx as (d & _ & -> & _). intros k v Hv. by apply write_cooldowns_mono.
  - simplify_eq/=. intros k v Hv. eauto with lia.
Qed.
Lemma store_steps_grow s s' : rtc store_step s s' -> cooldowns_grow s s'.
Proof.
  induction 1 as [s|s1 s2 s3 Hs _ IH]; intros k v Hv; [eauto with lia|].
  destruct (store_step_grows _ _ Hs k v Hv) as (w & Hw & ?).
  destruct (IH k w Hw) as (v' & Hv' & ?). eauto with lia.
Qed.

Lemma not_cooling c r device now t :
  cooling c r device now = false ->
  cooldowns c !! (tenant_id r, rule_id r, device) = Some t ->
  cooldown_seconds r <= 0 \/ cooldown_seconds r <= elapsed_seconds now t.
Proof.
  unfold cooling, is_in_cooldown_for_tenant_at. intros Hc Ht. rewrite Ht in Hc.
  destruct (Z.leb_spec (cooldown_seconds r) 0); [by left|right]. by apply Z.ltb_ge in Hc.
Qed.

(** The rules evaluated under the lock, and what one of them contributes to
    the decision: its status change, or its telemetry and then, where the plan
    asks for it, its geofence. *)
Definition locked_rules (p : DeviceRuleEvaluation) (rt : DeviceRuleRuntime) : list CachedRule :=
  rules_for_tenant_device (runtime_cache p rt) (dre_tenant p) (dre_device p)
    (fleet_ref (dre_fleet_id p)) (dre_blueprint_id p).
Definition plan_observations (p : DeviceRuleEvaluation) : list Observation :=
  match input p with
  | InputStatus change => [ObservedStatus change]
  | InputTelemetry data geofence =>
    ObservedTelemetry (dre_blueprint_revision_id p) data :: (if geofence then [ObservedLocation data] else [])
  end.
Definition rule_share (p : DeviceRuleEvaluation) (rt : DeviceRuleRuntime) (r : CachedRule) : list PendingAction :=
  concat (map (fun obs => rule_contribution (dre_device p) (dre_blueprint_id p) obs (runtime_cache p rt)
                            (observed_at p) r) (plan_observations p)).

Lemma decide_actions_observations p rt :
  decide_actions p rt
  = concat (map (fun obs => evaluate_observation (dre_tenant p) (dre_device p) (dre_fleet_id p)
                              (dre_blueprint_id p) obs (runtime_cache p rt) (observed_at p))
       (plan_observations p)).
Proof.
  unfold decide_actions, plan_observations. destruct (input p) as [change|data []]; simpl;
    by rewrite ?app_nil_r.
Qed.
Lemma elem_of_decide p rt a :
  a ∈ decide_actions p rt <-> exists r, r ∈ locked_rules p rt /\ a ∈ rule_share p rt r.
Proof.
  rewrite decide_actions_observations, elem_of_concat_map. split.
  - intros (obs & Ho & (r & Hr & Ha)%elem_of_evaluation). exists r. split; [done|].
    apply elem_of_concat_map. eauto.
  - intros (r & Hr & (obs & Ho & Ha)%elem_of_concat_map). exists obs. split; [done|].
    apply elem_of_evaluation. eauto.
Qed.
Lemma share_scoped p rt r a :
  a ∈ rule_share p rt r -> action_scoped (runtime_cache p rt) (dre_device p) (observed_at p) r a.
Proof. intros (obs & _ & Ha)%elem_of_concat_map. by eapply contribution_scoped. Qed.
Lemma share_cools p rt r a :
  a ∈ rule_share p rt r -> fires_or_cools a = true ->
  UpdateCooldown (tenant_id r) (rule_id r) (dre_device p) (observed_at p) ∈ rule_share p rt r.
Proof.
  intros (obs & Ho & Ha)%elem_of_concat_map Hf. apply elem_of_concat_map. exists obs.
  split; [done|]. by eapply contribution_cools.
Qed.

(** Bookkeeping records come from the actions, so they inherit their scope. *)
Lemma decided_action p rt a :
  a ∈ decide_actions p rt ->
  exists r, tenant_id r = dre_tenant p /\ rule_id r ∈ live_rule_ids rt
    /\ action_scoped (runtime_cache p rt) (dre_device p) (observed_at p) r a.
Proof.
  intros (r & Hr & Ha)%elem_of_decide. apply rules_for_tenant in Hr as [Ht Hl].
  exists r. eauto using share_scoped.
Qed.
Lemma decided_cooldown p rt cd :
  cd ∈ d_cooldowns (device_decide p rt) ->
  UpdateCooldown (cd_tenant cd) (cd_rule cd) (cd_device cd) (last_fired_at cd) ∈ decide_actions p rt.
Proof.
  unfold device_decide. rewrite route_fold. simpl.
  intros (a & Ha & Hcd)%elem_of_concat_map.
  destruct a; simpl in Hcd; try by apply not_elem_of_nil in Hcd.
  apply list_elem_of_singleton in Hcd as ->. done.
Qed.

Lemma cooldown_decided p rt t r d at_ :
  UpdateCooldown t r d at_ ∈ decide_actions p rt ->
  {| cd_tenant := t; cd_rule := r; cd_device := d; last_fired_at := at_ |} ∈ d_cooldowns (device_decide p rt).
Proof.
  intros Ha. unfold device_decide. rewrite route_fold. simpl. apply elem_of_concat_map.
  eexists. split; [exact Ha|]. by apply list_elem_of_singleton.
Qed.

(** Rule [r] contributes [a] to the transaction of this plan on this store:
    the rule is one the transaction selects for the device under the lock, and
    the action is in what it makes of the plan's observation. *)
Definition rule_acts (s : RuleStore) (tenant device : string) (plan : DeviceRuleEvaluation)
    (r : CachedRule) (a : PendingAction) : Prop :=
  exists p rt, refresh_plan s tenant device plan = Ok p /\ read_runtime s tenant device p = Ok rt
    /\ r ∈ locked_rules p rt /\ a ∈ rule_share p rt r.

Lemma refreshed s tenant device plan p :
  refresh_plan s tenant device plan = Ok p ->
  dre_tenant p = dre_tenant plan /\ dre_device p = dre_device plan /\ observed_at p = observed_at plan.
Proof. by intros (tg & _ & (fl & _ & [= <-])%bind_ok)%bind_ok. Qed.
(** A firing leaves a cooldown row no older than the observation. *)
Lemma firing_recorded s tenant device plan s' ds r a :
  evaluate_rules_in_transaction s tenant device (Some plan) = Ok (s', ds) ->
  rule_acts s tenant device plan r a -> fires_or_cools a = true ->
  exists v, rule_cooldowns s' !! (tenant, rule_id r, device) = Some v
    /\ timestamp_micros (observed_at plan) <= v.
Proof.
  intros (d & Hd & -> & _ & Ht & Hdev)%transaction_commits (p & rt & Hp & Hrt & Hr & Ha) Hf.
  destruct (refreshed _ _ _ _ _ Hp) as (Ept & Epd & Epo).
  unfold transaction_decision in Hd. rewrite Hp in Hd. simpl in Hd. rewrite Hrt in Hd. injection Hd as <-.
  assert (Hc := share_cools _ _ _ _ Ha Hf). rewrite Epd, Hdev in Hc.
  assert (tenant_id r = tenant) as Etr by (apply rules_for_tenant in Hr as [-> _]; congruence).
  assert (Hin := cooldown_decided p rt _ _ _ _ (proj2 (elem_of_decide _ _ _) (ex_intro _ r (conj Hr Hc)))).
  destruct (write_cooldowns_covers _ (rule_cooldowns s) _ Hin) as (v & Hv & Hle). simpl in Hv, Hle.
  exists v. rewrite <- Etr, <- Epo. done.
Qed.
(** A rule that acts again has no running cooldown in the row it reads. *)
Lemma firing_not_cooling s tenant device plan r a w :
  dre_tenant plan = tenant -> dre_device plan = device ->
  rule_acts s tenant device plan r a -> fires_or_cools a = true ->
  rule_cooldowns s !! (tenant, rule_id r, device) = Some w ->
  cooldown_seconds r <= 0 \/ cooldown_seconds r <= elapsed_seconds (observed_at plan) (w * 1000).
Proof.
  intros Ht Hdev (p & rt & Hp & Hrt & Hr & Ha) Hf Hw.
  destruct (refreshed _ _ _ _ _ Hp) as (Ept & Epd & Epo).
  assert (tenant_id r = tenant) as Etr by (apply rules_for_tenant in Hr as [-> _]; congruence).
  assert (Hc := share_cools _ _ _ _ Ha Hf).
  destruct (scoped_cooldown _ _ _ _ _ (share_scoped _ _ _ _ Hc) _ _ _ _ eq_refl) as (_ & _ & Hcool).
  rewrite Epd, Hdev, Epo in Hcool.
  assert (rt_cooldowns rt !! (tenant, rule_id r, device) = Some (w * 1000)) as Hrow.
  { apply bind_ok in Hrt as (cds & Hcds & (es & _ & [= <-])%bind_ok). simpl.
    rewrite (read_times_lookup _ _ _ _ _ Hcds). unfold row_of. simpl.
    rewrite !String.eqb_refl. exact (f_equal (fmap (fun v => v * 1000)) Hw). }
  rewrite <- Etr in Hrow. exact (not_cooling _ _ _ _ _ Hcool Hrow).
Qed.

(** C2. Cooldown spacing: whatever a transaction delivers to be created or
    sent was contributed by one of the rules it selected for the device; and
    once a rule has fired for a device in one transaction then, after any
    interleaving of transactions and other writers, a rule with the same id
    fires again for that device only if that rule's own cooldown is not
    positive or has wholly elapsed since the first firing's observation. *)
Theorem cooldown_spacing s1 tenant device plan1 s1' ds1 s2 plan2 s2' ds2 :
  evaluate_rules_in_transaction s1 tenant device (Some plan1) = Ok (s1', ds1) ->
  rtc store_step s1' s2 ->
  evaluate_rules_in_transaction s2 tenant device (Some plan2) = Ok (s2', ds2) ->
  (forall a, a ∈ ds2 -> exists r, rule_acts s2 tenant device plan2 r a)
  /\ (forall r1 a1 r2 a2,
        rule_acts s1 tenant device plan1 r1 a1 -> fires_or_cools a1 = true ->
        rule_acts s2 tenant device plan2 r2 a2 -> fires_or_cools a2 = true ->
        rule_id r1 = rule_id r2 ->
        cooldown_seconds r2 <= 0
        \/ cooldown_seconds r2
           <= elapsed_seconds (observed_at plan2) (timestamp_micros (observed_at plan1) * 1000)).
Proof.
  intros Htx1 Hsteps Htx2. split.
  - intros a Ha. apply transaction_commits in Htx2 as (d & Hd & _ & -> & _).
    apply bind_ok in Hd as (p & Hp & (rt & Hrt & [= <-])%bind_ok).
    unfold device_decide in Ha. rewrite route_fold in Ha. apply elem_of_filterb in Ha as [Ha _].
    apply elem_of_decide in Ha as (r & Hr & Ha). exists r, p, rt. done.
  - intros r1 a1 r2 a2 Ha1 Hf1 Ha2 Hf2 Hid.
    destruct (firing_recorded _ _ _ _ _ _ _ _ Htx1 Ha1 Hf1) as (v & Hv & Hle).
    destruct (store_steps_grow _ _ Hsteps _ _ Hv) as (w & Hw & Hvw). rewrite Hid in Hw.
    apply transaction_commits in Htx2 as (_ & _ & _ & _ & Ht & Hdev).
    destruct (firing_not_cooling _ _ _ _ _ _ _ Ht Hdev Ha2 Hf2 Hw) as [|Hc]; [by left|right].
    etrans; [exact Hc|]. unfold elapsed_seconds. apply Z.quot_le_mono; lia.
Qed.

Lemma decided_zone_entry p rt e :
  e ∈ d_zone_entries (device_decide p rt) ->
  UpdateZoneEntry (ze_tenant e) (ze_rule e) (ze_device e) (ze_entered_at e) ∈ decide_actions p rt.
Proof.
  unfold device_decide. rewrite route_fold. simpl.
  intros (a & Ha & He)%elem_of_concat_map.
  destruct a; simpl in He; try by apply not_elem_of_nil in He.
  apply list_elem_of_singleton in He as ->. done.
Qed.
Lemma route_lengths acts :
  (length (List.filter (fun a => negb (is_bookkeeping a)) acts)
   + length (concat (map to_cooldown acts)) + length (concat (map to_zone_entry acts)))%nat
  = length acts.
Proof.
  induction acts as [|a acts IH]; [done|].
  destruct a; simpl; rewrite ?length_app; simpl; lia.
Qed.

(** A decision routes every action exactly once: deliveries never contain
    bookkeeping and carry the plan's tenant; every cooldown and zone-entry
    record is for the plan's tenant and device and for a rule that was live
    under the lock; cooldowns are stamped with the observation time. *)
Theorem decision_routes_actions p rt :
  let d := device_decide p rt in
  (length (deliveries d) + length (d_cooldowns d) + length (d_zone_entries d))%nat
    = length (decide_actions p rt)
  /\ (forall a, a ∈ deliveries d ->
        a ∈ decide_actions p rt /\ is_bookkeeping a = false /\ action_tenant a = dre_tenant p)
  /\ (forall c, c ∈ d_cooldowns d ->
        cd_tenant c = dre_tenant p /\ cd_rule c ∈ live_rule_ids rt
        /\ cd_device c = dre_device p /\ last_fired_at c = observed_at p)
  /\ (forall e, e ∈ d_zone_entries d ->
        ze_tenant e = dre_tenant p /\ ze_rule e ∈ live_rule_ids rt /\ ze_device e = dre_device p).
Proof.
  cbv zeta. split_and!.
  - unfold device_decide. rewrite route_fold. apply route_lengths.
  - intros a Ha. unfold device_decide in Ha. rewrite route_fold in Ha. simpl in Ha.
    apply elem_of_filterb in Ha as [Ha Hb]. apply negb_true_iff in Hb.
    destruct (decided_action _ _ _ Ha) as (r & Hr & _ & Hs). split_and!; [done|done|].
    by rewrite (scoped_tenant _ _ _ _ _ Hs).
  - intros c Hc%decided_cooldown. destruct (decided_action _ _ _ Hc) as (r & Hr & Hl & [S1 S2 S3 _ _ S6]).
    simpl in *. rewrite (S2 _ eq_refl), S1, (S3 _ eq_refl). by destruct (S6 _ _ _ _ eq_refl).
  - intros e He%decided_zone_entry. destruct (decided_action _ _ _ He) as (r & Hr & Hl & [S1 S2 S3 _ _ _]).
    simpl in *. by rewrite (S2 _ eq_refl), S1, (S3 _ eq_refl).
Qed.
End histories.

(** ** Presence tracking *)
Lemma concat_map_unique {A B} (f : A -> list B) l x :
  NoDup l -> x ∈ l -> (forall y, y ∈ l -> y <> x -> f y = []) -> concat (map f l) = f x.
Proof.
  induction l as [|y l IH]; intros Hnd Hx Hf; [by apply not_elem_of_nil in Hx|].
  apply NoDup_cons in Hnd as [Hy Hnd]. simpl. apply elem_of_cons in Hx as [->|Hx].
  - assert (concat (map f l) = []) as ->; [|by rewrite app_nil_r].
    clear IH Hnd. induction l as [|z l IH]; [done|]. simpl. rewrite (Hf z), IH; set_solver.
  - rewrite (Hf y); [|set_solver|set_solver]. apply IH; [done|done|set_solver].
Qed.

Definition writes_key (k : RuleDeviceKey) (e : ZoneEntryMutation) : bool :=
  bool_decide ((ze_tenant e, ze_rule e, ze_device e) = k).
(** Only the mutations of its own key matter to a row. *)
Lemma write_zone_entries_local es m m' k :
  m !! k = m' !! k ->
  fold_left write_zone_entry es m !! k
  = fold_left write_zone_entry (List.filter (writes_key k) es) m' !! k.
Proof.
  revert m m'. induction es as [|e es IH]; intros m m' Hm; [done|]. simpl. unfold writes_key at 1.
  case_bool_decide as E; simpl; apply IH; unfold write_zone_entry; case_match.
  - rewrite E. by rewrite !lookup_insert_eq.
  - rewrite E. by rewrite !lookup_delete_eq.
  - by rewrite lookup_insert_ne.
  - by rewrite lookup_delete_ne.
Qed.

Section presence.
Context `{!Chrono} `{!Libm} `{!ChronoMicros}.

(** The zone-entry mutations of one action list that concern one row. *)
Definition zone_writes (k : RuleDeviceKey) (acts : list PendingAction) : list ZoneEntryMutation :=
  List.filter (writes_key k) (concat (map to_zone_entry acts)).
Lemma zone_writes_app k l l' : zone_writes k (l ++ l') = zone_writes k l ++ zone_writes k l'.
Proof. unfold zone_writes. by rewrite map_app, concat_app, List.filter_app. Qed.
Lemma zone_writes_concat {A} k (f : A -> list PendingAction) l :
  zone_writes k (concat (map f l)) = concat (map (fun x => zone_writes k (f x)) l).
Proof. induction l as [|x l IH]; [done|]. simpl. by rewrite zone_writes_app, IH. Qed.
Lemma zone_writes_none k acts :
  (forall a, a ∈ acts -> to_zone_entry a = []) -> zone_writes k acts = [].
Proof.
  unfold zone_writes. induction acts as [|a acts IH]; intros Ha; [done|]. simpl.
  rewrite (Ha a) by set_solver. simpl. apply IH. set_solver.
Qed.
Lemma zone_writes_fires k acts :
  (forall a, a ∈ acts -> fires a = true) -> zone_writes k acts = [].
Proof. intros Hf. apply zone_writes_none. intros a Ha. specialize (Hf a Ha). by destruct a. Qed.
Lemma zone_writes_render k r device now fired shown d :
  (forall x, x ∈ fired -> fired_by r device x) ->
  zone_writes k (render r device now fired shown d) = [].
Proof.
  intros Hf. destruct d; [done| |done|done]. simpl. rewrite zone_writes_app.
  rewrite (zone_writes_fires k fired); [done|]. intros a Ha. by destruct (Hf a Ha).
Qed.
Lemma telemetry_writes_no_zone k tenant device fleet blueprint revision data c now :
  zone_writes k (evaluate_telemetry_for_tenant_revision_at tenant device fleet blueprint revision data c now) = [].
Proof.
  unfold evaluate_telemetry_for_tenant_revision_at. rewrite zone_writes_concat.
  induction (rules_for_tenant_device _ _ _ _ _) as [|r rs IH]; [done|]. simpl. rewrite IH, app_nil_r.
  rewrite telemetry_rule_refines. case_match; [|done]. apply zone_writes_render.
  intros x (act & _ & Hx)%elem_of_concat_map. by eapply telemetry_action_fired.
Qed.
Lemma zone_writes_transition tenant rule device r inside was now :
  tenant_id r = tenant ->
  zone_writes (tenant, rule, device) (zone_transition r device inside was now)
  = if rule_id r =s? rule then concat (map to_zone_entry (zone_transition r device inside was now)) else [].
Proof.
  intros <-. unfold zone_writes, zone_transition.
  destruct (String.eqb_spec (rule_id r) rule) as [<-|Hne]; destruct inside, was; simpl; try done.
  all: unfold writes_key; simpl; case_bool_decide; congruence.
Qed.
Lemma geofence_rule_writes tenant rule device lat lon c now r :
  tenant_id r = tenant ->
  zone_writes (tenant, rule, device) (evaluate_geofence_rule device lat lon c now r)
  = match rule_zone c r with
    | Some zone =>
      if bool_decide (compile_trigger (trigger_type r) = Some Geofence) && (rule_id r =s? rule) then
        concat (map to_zone_entry
          (zone_transition r device (point_in_zone lat lon (geometry zone))
             (bool_decide (is_Some (zone_entry_times c !! (tenant, rule_id r, device)))) now))
      else []
    | None => []
    end.
Proof.
  intros Ht. rewrite geofence_rule_refines. destruct (rule_zone c r) as [zone|]; [|done].
  case_bool_decide; [|done]. simpl. rewrite zone_writes_app, zone_writes_transition by done.
  rewrite zone_writes_render; [by rewrite app_nil_r, Ht|].
  intros x (act & _ & Hx)%elem_of_concat_map. by eapply geofence_action_fired.
Qed.

(** The rules evaluated under the lock are the live candidates. *)
Definition plan_rules (p : DeviceRuleEvaluation) : list CachedRule :=
  rules_for_tenant_device (snapshot p) (dre_tenant p) (dre_device p)
    (fleet_ref (dre_fleet_id p)) (dre_blueprint_id p).
Lemma runtime_rules p rt :
  (forall id, id ∈ live_rule_ids rt -> id ∈ candidate_rule_ids p) ->
  rules_for_tenant_device (runtime_cache p rt) (dre_tenant p) (dre_device p)
    (fleet_ref (dre_fleet_id p)) (dre_blueprint_id p)
  = List.filter (fun r => bool_decide (rule_id r ∈ live_rule_ids rt)) (plan_rules p).
Proof.
  unfold candidate_rule_ids, plan_rules, rules_for_tenant_device. simpl. intros Hlive.
  destruct (rule_allowlist (snapshot p)) as [ids|]; [|done].
  generalize dependent (List.filter (fun r => tenant_id r =s? dre_tenant p) (global_rules (definitions (snapshot p)))
    ++ match dre_blueprint_id p with
       | Some b => List.filter (fun r => targets b r (dre_tenant p)) (by_blueprint (definitions (snapshot p)))
       | None => [] end
    ++ match fleet_ref (dre_fleet_id p) with
       | Some f => List.filter (fun r => targets f r (dre_tenant p)) (by_fleet (definitions (snapshot p)))
       | None => [] end
    ++ List.filter (fun r => targets (dre_device p) r (dre_tenant p)) (by_device (definitions (snapshot p)))).
  intros l Hlive.
  assert (forall id, id ∈ live_rule_ids rt -> id ∈ ids) as Hids.
  { intros id Hid. apply Hlive, list_elem_of_In, in_map_iff in Hid as (r & <- & Hr%list_elem_of_In).
    apply elem_of_filterb in Hr as [_ Hr]. by apply bool_decide_eq_true in Hr. }
  clear Hlive. induction l as [|r l IH]; [done|]. simpl.
  destruct (decide (rule_id r ∈ ids)) as [Hi|Hi].
  - rewrite (bool_decide_true (_ ∈ ids)) by done. simpl. by rewrite IH.
  - rewrite (bool_decide_false (_ ∈ ids)) by done. rewrite bool_decide_false by eauto. done.
Qed.

(** The mutations a plan writes to one rule's row. *)
Lemma decided_zone_writes p rt data lat lon r :
  (forall id, id ∈ live_rule_ids rt -> id ∈ candidate_rule_ids p) ->
  input p = InputTelemetry data true -> valid_location data = Some (lat, lon) ->
  NoDup (candidate_rule_ids p) -> r ∈ plan_rules p -> rule_id r ∈ live_rule_ids rt ->
  List.filter (writes_key (dre_tenant p, rule_id r, dre_device p)) (d_zone_entries (device_decide p rt))
  = zone_writes (dre_tenant p, rule_id r, dre_device p)
      (evaluate_geofence_rule (dre_device p) lat lon (runtime_cache p rt) (observed_at p) r).
Proof.
  intros Hsub Hin Hloc Hnd Hr Hlive. unfold device_decide. rewrite route_fold. simpl.
  change (List.filter (writes_key ?k) (concat (map to_zone_entry ?l))) with (zone_writes k l).
  unfold decide_actions. rewrite Hin, zone_writes_app, telemetry_writes_no_zone. simpl.
  unfold evaluate_geofence_for_tenant_at. rewrite Hloc, zone_writes_concat, runtime_rules by done.
  unfold candidate_rule_ids in Hnd. fold (plan_rules p) in Hnd.
  apply (concat_map_unique (fun r' => zone_writes _ (evaluate_geofence_rule _ lat lon _ _ r'))).
  - apply NoDup_ListNoDup, List.NoDup_filter, NoDup_ListNoDup. by eapply NoDup_fmap_1.
  - apply elem_of_filterb. by rewrite bool_decide_eq_true.
  - intros r' [Hr' _]%elem_of_filterb Hne. destruct (rules_for_tenant _ _ _ _ _ _ Hr') as [Ht _].
    rewrite geofence_rule_writes by done. case_match; [|done].
    destruct (String.eqb_spec (rule_id r') (rule_id r)) as [E|]; [|by rewrite andb_false_r].
    destruct Hne. apply list_elem_of_lookup in Hr' as [i Hi], Hr as [j Hj].
    assert (i = j) as <-; [|congruence].
    eapply (NoDup_lookup _ _ _ (rule_id r) Hnd);
      rewrite list_lookup_fmap; [by rewrite Hi; simpl; rewrite E|by rewrite Hj].
Qed.

(** Presence: a committed geofence observation leaves a zone-entry row
    for the rule exactly when the device is inside the zone; the row keeps
    the time the stay began, and a new stay begins at the observation. *)
Theorem zone_entry_tracks_presence s tenant device plan p s' ds data lat lon r zone :
  evaluate_rules_in_transaction s tenant device (Some plan) = Ok (s', ds) ->
  refresh_plan s tenant device plan = Ok p ->
  input plan = InputTelemetry data true -> valid_location data = Some (lat, lon) ->
  NoDup (candidate_rule_ids p) -> r ∈ plan_rules p -> (tenant, rule_id r) ∈ enabled_rules s ->
  compile_trigger (trigger_type r) = Some Geofence -> rule_zone (snapshot p) r = Some zone ->
  rule_zone_entries s' !! (tenant, rule_id r, device)
  = if point_in_zone lat lon (geometry zone)
    then Some (default (timestamp_micros (observed_at plan))
                 (rule_zone_entries s !! (tenant, rule_id r, device)))
    else None.
Proof.
  intros Htx Hp Hin Hloc Hnd Hr Hen Htr Hz.
  apply transaction_commits in Htx as (d & Hd & -> & _ & Ht & Hdev).
  unfold transaction_decision in Hd. rewrite Hp in Hd. simpl in Hd.
  apply bind_ok in Hd as (rt & Hrt & [= <-]).
  assert (dre_tenant p = tenant /\ dre_device p = device /\ observed_at p = observed_at plan
          /\ input p = input plan) as (Hpt & Hpd & Hpo & Hpi).
  { apply bind_ok in Hp as (tg & _ & (fl & _ & [= <-])%bind_ok). done. }
  apply bind_ok in Hrt as (cds & _ & (es & Hes & Hrt)%bind_ok).
  assert (forall id, id ∈ live_rule_ids rt <-> id ∈ candidate_rule_ids p /\ (tenant, id) ∈ enabled_rules s)
    as Hlive.
  { injection Hrt as <-. simpl. intros id. rewrite elem_of_list_to_set, elem_of_filterb.
    by rewrite bool_decide_eq_true. }
  assert (rule_id r ∈ candidate_rule_ids p) as Hc by by apply list_elem_of_fmap_2.
  simpl. rewrite (write_zone_entries_local _ _ _ _ eq_refl).
  assert (Hw := decided_zone_writes p rt data lat lon r). rewrite Hpt, Hpd in Hw.
  rewrite Hw; [|by intros id [? _]%Hlive|by rewrite Hpi|done|done|done|by apply Hlive]. clear Hw.
  destruct (rules_for_tenant _ _ _ _ _ _ Hr) as [Htr' _]. rewrite Hpt in Htr'.
  rewrite geofence_rule_writes by done.
  change (rule_zone (runtime_cache p rt) r) with (rule_zone (snapshot p) r).
  rewrite Hz, bool_decide_true, String.eqb_refl by done. simpl.
  assert (@eq (option NaiveDateTime) (rt_zone_entries rt !! (tenant, rule_id r, device))
            ((fun v => v * 1000) <$> rule_zone_entries s !! (tenant, rule_id r, device))) as ->.
  { injection Hrt as <-. simpl. rewrite (read_times_lookup _ _ _ _ _ Hes). unfold row_of. simpl.
    by rewrite !String.eqb_refl. }
  unfold zone_transition. rewrite Hpo, Htr'.
  destruct (rule_zone_entries s !! (tenant, rule_id r, device)) as [v|] eqn:Ev; simpl;
    destruct (point_in_zone _ _ _); simpl; try done.
  - unfold write_zone_entry. simpl. by rewrite lookup_delete_eq.
  - unfold write_zone_entry. simpl. by rewrite lookup_insert_eq.
Qed.
End presence.

(** ** A concrete store *)
Definition demo_micros : ChronoMicros := {| micros_in_range := fun _ => true |}.
Definition demo_store : RuleStore :=
  {| device_targets := {[("default", "dev-1") := (None, None)]};
     enabled_rules := {[("default", "hot")]}; alert_rows := [];
     rule_cooldowns := ∅; rule_zone_entries := ∅ |}.
Definition demo_plan (t : NaiveDateTime) : DeviceRuleEvaluation :=
  {| snapshot := demo_cache; dre_tenant := "default"; dre_device := "dev-1"; dre_fleet_id := None;
     dre_blueprint_id := None; dre_blueprint_revision_id := None;
     input := InputTelemetry (demo_data 85) false; observed_at := t |}.
Definition demo_transaction (s : RuleStore) (t : NaiveDateTime) :=
  evaluate_rules_in_transaction (H := demo_chrono) (H0 := demo_libm) (H1 := demo_micros)
    s "default" "dev-1" (Some (demo_plan t)).
Definition demo_cooled : RuleStore :=
  {| device_targets := device_targets demo_store; enabled_rules := enabled_rules demo_store; alert_rows := [];
     rule_cooldowns := {[("default", "hot", "dev-1") := 1000000]}; rule_zone_entries := ∅ |}.

Lemma cooldown_spacing_witness :
  cooldown_seconds demo_alert_rule <= 0
  \/ cooldown_seconds demo_alert_rule <= elapsed_seconds 61000000000 (1000000 * 1000).
Proof.
  assert (forall s t, s = demo_store \/ s = demo_cooled ->
    t = 1000000000 /\ s = demo_store \/ t = 61000000000 /\ s = demo_cooled ->
    rule_acts (H := demo_chrono) (H0 := demo_libm) (H1 := demo_micros) s "default" "dev-1" (demo_plan t)
      demo_alert_rule (UpdateCooldown "default" "hot" "dev-1" t)) as Hacts.
  { intros s t _ [[-> ->]|[-> ->]]; eexists (demo_plan _), _;
      (split; [vm_compute; reflexivity|split; [vm_compute; reflexivity|split]];
       apply list_elem_of_In; vm_compute; auto). }
  destruct (cooldown_spacing (H := demo_chrono) (H0 := demo_libm) (H1 := demo_micros)
    demo_store "default" "dev-1" (demo_plan 1000000000) demo_cooled
    [CreateAlert "default" "hot" "dev-1" "critical" "env./temperature (85) exceeded 80" (Some "85")]
    demo_cooled (demo_plan 61000000000)
    {| device_targets := device_targets demo_store; enabled_rules := enabled_rules demo_store;
       alert_rows := []; rule_cooldowns := {[("default", "hot", "dev-1") := 61000000]};
       rule_zone_entries := ∅ |}
    [CreateAlert "default" "hot" "dev-1" "critical" "env./temperature (85) exceeded 80" (Some "85")])
    as [_ Hspaced].
  - vm_compute. reflexivity.
  - apply rtc_refl.
  - vm_compute. reflexivity.
  - exact (Hspaced demo_alert_rule _ demo_alert_rule _
             (Hacts demo_store 1000000000 (or_introl eq_refl) (or_introl (conj eq_refl eq_refl))) eq_refl
             (Hacts demo_cooled 61000000000 (or_intror eq_refl) (or_intror (conj eq_refl eq_refl))) eq_refl
             eq_refl).
Defined.

Definition demo_fence_rule : CachedRule :=
  {| tenant_id := "default"; rule_id := "fence"; name := "Fence"; trigger_type := "geofence";
     target_type := "global"; target_id := None; cooldown_seconds := 0;
     conditions := [{| field := "zone_state"; blueprint_id := None; blueprint_revision_id := None;
                       operator := "eq"; cond_value := "inside"; zone_id := Some "yard" |}];
     actions := [{| action_type := "alert"; config := object [] |}] |}.
Definition demo_zone : CachedZone :=
  {| zone_key := "yard"; zone_name := "Yard";
     geometry := Polygon [(lit 0, lit 0); (lit 0, lit 10); (lit 10, lit 10); (lit 10, lit 0)] |}.
Definition demo_fence_plan : DeviceRuleEvaluation :=
  {| snapshot := set_zones (insert_rule cache_default demo_fence_rule) {["yard" := demo_zone]};
     dre_tenant := "default"; dre_device := "dev-1"; dre_fleet_id := None; dre_blueprint_id := None;
     dre_blueprint_revision_id := None;
     input := InputTelemetry {| latitude := Some (lit 5); longitude := Some (lit 5); metrics := [] |} true;
     observed_at := 7000000 |}.
Definition demo_fence_store : RuleStore :=
  {| device_targets := {[("default", "dev-1") := (None, None)]};
     enabled_rules := {[("default", "fence")]}; alert_rows := [];
     rule_cooldowns := ∅; rule_zone_entries := ∅ |}.

Lemma zone_entry_tracks_presence_witness :
  exists s' ds,
    evaluate_rules_in_transaction (H := demo_chrono) (H0 := demo_libm) (H1 := demo_micros)
      demo_fence_store "default" "dev-1" (Some demo_fence_plan) = Ok (s', ds)
    /\ rule_zone_entries s' !! ("default", "fence", "dev-1") = Some 7000.
Proof.
  eexists _, _. split; [vm_compute; reflexivity|].
  eapply (zone_entry_tracks_presence (H := demo_chrono) (H0 := demo_libm) (H1 := demo_micros)
    demo_fence_store "default" "dev-1" demo_fence_plan demo_fence_plan _ _ _ (lit 5) (lit 5)
    demo_fence_rule demo_zone).
  - vm_compute. reflexivity.
  - vm_compute. reflexivity.
  - reflexivity.
  - vm_compute. reflexivity.
  - apply (bool_decide_unpack _). vm_compute. exact I.
  - apply list_elem_of_In. vm_compute. left. reflexivity.
  - apply (bool_decide_unpack _). vm_compute. exact I.
  - reflexivity.
  - vm_compute. reflexivity.
Defined.
