(* ===== verification/Topics.v ===== *)
(** * Device topics and status words (crates/common/src/topics.rs,
    device_status.rs, ota.rs)

    The topic builders, the extractors that recover a device (and a route)
    from a topic, and the status words devices report. *)
From Stdlib Require Import Ascii.
From S2P Require Import Prelude Text.

Local Open Scope Z_scope.
Local Open Scope string_scope.

(** ** Builders *)
Definition DEVICE_TOPIC_PREFIX : string := "extrittio/devices/".
Definition telemetry (device_id : string) : string := "extrittio/devices/" +:+ device_id +:+ "/telemetry".
Definition event (device_id route_key : string) : string :=
  "extrittio/devices/" +:+ device_id +:+ "/events/" +:+ route_key.
Definition heartbeat (device_id : string) : string := "extrittio/devices/" +:+ device_id +:+ "/heartbeat".
Definition shadow_get (device_id : string) : string := "extrittio/devices/" +:+ device_id +:+ "/shadow/get".
Definition shadow_delta (device_id : string) : string := "extrittio/devices/" +:+ device_id +:+ "/shadow/delta".
Definition shadow_report (device_id : string) : string := "extrittio/devices/" +:+ device_id +:+ "/shadow/report".
Definition logs (device_id : string) : string := "extrittio/devices/" +:+ device_id +:+ "/logs".
Definition commands (device_id : string) : string := "extrittio/devices/" +:+ device_id +:+ "/commands".
Definition commands_response (device_id : string) : string :=
  "extrittio/devices/" +:+ device_id +:+ "/commands/response".

(** ** Validation *)
Definition device_id_byte (byte : ascii) : bool :=
  is_ascii_lowercase byte || is_ascii_uppercase byte || is_ascii_digit byte || one_of "-_.:" byte.
Definition is_valid_device_id (device_id : string) : bool :=
  between 1 128 (str_len device_id) && str_forall device_id_byte device_id.
Definition route_key_byte (byte : ascii) : bool :=
  is_ascii_lowercase byte || is_ascii_digit byte || one_of "-_." byte.
Definition is_valid_route_key (route_key : string) : bool :=
  between 1 64 (str_len route_key) && str_forall route_key_byte route_key.

(** ** Extractors *)
Definition device_id_for_suffix (topic suffix : string) : option string :=
  rest ← strip_prefix DEVICE_TOPIC_PREFIX topic;
  device_id ← strip_suffix suffix rest;
  if is_valid_device_id device_id then Some device_id else None.
Definition telemetry_device_id (topic : string) : option string := device_id_for_suffix topic "/telemetry".
Definition heartbeat_device_id (topic : string) : option string := device_id_for_suffix topic "/heartbeat".
Definition shadow_report_device_id (topic : string) : option string := device_id_for_suffix topic "/shadow/report".
Definition shadow_get_device_id (topic : string) : option string := device_id_for_suffix topic "/shadow/get".
Definition logs_device_id (topic : string) : option string := device_id_for_suffix topic "/logs".
Definition commands_response_device_id (topic : string) : option string :=
  device_id_for_suffix topic "/commands/response".
Definition event_device_and_route (topic : string) : option (string * string) :=
  rest ← strip_prefix DEVICE_TOPIC_PREFIX topic;
  '(device_id, route_key) ← split_once "/events/" rest;
  if negb (is_valid_device_id device_id) || negb (is_valid_route_key route_key) then None
  else Some (device_id, route_key).
Definition contract_device_id (topic : string) : option string :=
  rest ← strip_prefix DEVICE_TOPIC_PREFIX topic;
  '(device_id, _) ← split_once "/" rest;
  if is_valid_device_id device_id then Some device_id else None.

(** ** Status words *)
Definition VALID_STATUSES : list string := ["online"; "offline"; "warning"].
Definition is_valid_status (status : string) : bool :=
  existsb (fun s => eq_ignore_ascii_case s status) VALID_STATUSES.
Definition ota_is_terminal (status : string) : bool :=
  eq_ignore_ascii_case status "success" || eq_ignore_ascii_case status "failed".

(** ** The channels a device publishes on

    What a topic means: the device, and the channel with its route. *)
Inductive Channel :=
| ChTelemetry | ChHeartbeat | ChShadowReport | ChShadowGet | ChLogs | ChCommandsResponse
| ChEvent (route_key : string).
#[global] Instance Channel_eq_dec : EqDecision Channel.
Proof. solve_decision. Defined.

Definition channel_topic (ch : Channel) (device_id : string) : string :=
  match ch with
  | ChTelemetry => telemetry device_id
  | ChHeartbeat => heartbeat device_id
  | ChShadowReport => shadow_report device_id
  | ChShadowGet => shadow_get device_id
  | ChLogs => logs device_id
  | ChCommandsResponse => commands_response device_id
  | ChEvent k => event device_id k
  end.
Definition channel_device (ch : Channel) (topic : string) : option string :=
  match ch with
  | ChTelemetry => telemetry_device_id topic
  | ChHeartbeat => heartbeat_device_id topic
  | ChShadowReport => shadow_report_device_id topic
  | ChShadowGet => shadow_get_device_id topic
  | ChLogs => logs_device_id topic
  | ChCommandsResponse => commands_response_device_id topic
  | ChEvent k => '(d, k') ← event_device_and_route topic; if k' =s? k then Some d else None
  end.
Definition channel_valid (ch : Channel) : bool :=
  match ch with ChEvent k => is_valid_route_key k | _ => true end.

(** ** Lemmas *)
Lemma valid_device_no_slash d : is_valid_device_id d = true -> contains_char "/" d = false.
Proof.
  unfold is_valid_device_id. rewrite andb_true_iff. intros [_ H]. apply contains_char_false.
  revert H. apply str_forall_impl. intros c. destruct (Ascii.eqb_spec c "/") as [->|]; [|done].
  by vm_compute.
Qed.
Lemma suffix_spec topic suffix d :
  device_id_for_suffix topic suffix = Some d
  <-> is_valid_device_id d = true /\ topic = DEVICE_TOPIC_PREFIX +:+ d +:+ suffix.
Proof.
  unfold device_id_for_suffix. split.
  - intros (rest & Hr & (d' & Hd & H)%bind_Some)%bind_Some. case_match; simplify_eq. split; [done|].
    apply strip_prefix_Some in Hr as ->. by apply strip_suffix_Some in Hd as ->.
  - intros [Hv ->]. rewrite strip_prefix_app. simpl. rewrite strip_suffix_app. simpl. by rewrite Hv.
Qed.
Lemma event_spec topic d k :
  event_device_and_route topic = Some (d, k)
  <-> is_valid_device_id d = true /\ is_valid_route_key k = true /\ topic = event d k.
Proof.
  unfold event_device_and_route. split.
  - intros (rest & Hr & ([d' k'] & Hd & H)%bind_Some)%bind_Some. case_match eqn:E; simplify_eq.
    apply orb_false_iff in E as [E1%negb_false_iff E2%negb_false_iff]. split_and!; [done|done|].
    apply strip_prefix_Some in Hr as ->. by apply split_once_Some in Hd as ->.
  - intros (Hd & Hk & ->). unfold event.
    change "extrittio/devices/" with DEVICE_TOPIC_PREFIX. rewrite strip_prefix_app. simpl.
    rewrite split_once_app.
    + simpl. by rewrite Hd, Hk.
    + by apply contains_char_false, valid_device_no_slash.
Qed.
Lemma channel_spec ch topic d :
  channel_device ch topic = Some d
  <-> is_valid_device_id d = true /\ channel_valid ch = true /\ topic = channel_topic ch d.
Proof.
  destruct ch as [| | | | | |k]; simpl; try (etrans; [apply suffix_spec|]; by intuition).
  split.
  - intros ([d' k'] & Ht & H)%bind_Some. case_match eqn:E; simplify_eq. bool_prop. subst k'.
    by apply event_spec.
  - intros H. apply event_spec in H as ->. simpl. by rewrite String.eqb_refl.
Qed.
(** Every channel topic is the device followed by a slash and a tail that
    identifies the channel. *)
Definition channel_tail (ch : Channel) : string :=
  match ch with
  | ChTelemetry => "telemetry" | ChHeartbeat => "heartbeat" | ChShadowReport => "shadow/report"
  | ChShadowGet => "shadow/get" | ChLogs => "logs" | ChCommandsResponse => "commands/response"
  | ChEvent k => "events/" +:+ k
  end.
Lemma channel_topic_tail ch d :
  channel_topic ch d = DEVICE_TOPIC_PREFIX +:+ d +:+ String "/" (channel_tail ch).
Proof. by destruct ch. Qed.
Lemma channel_tail_inj ch ch' : channel_tail ch = channel_tail ch' -> ch = ch'.
Proof. destruct ch, ch'; simpl; intros H; try discriminate H; try done. by simplify_eq. Qed.
Lemma prefix_inj a b : DEVICE_TOPIC_PREFIX +:+ a = DEVICE_TOPIC_PREFIX +:+ b -> a = b.
Proof. intros H. apply (f_equal (strip_prefix DEVICE_TOPIC_PREFIX)) in H.
  rewrite !strip_prefix_app in H. by simplify_eq. Qed.

(** The extractors invert the builders: a channel's extractor accepts a
    topic exactly when the topic is what the builder makes of a valid device
    id (and, for events, a valid route key), and returns that device. *)
Theorem topic_extractors_invert_builders ch topic d :
  channel_device ch topic = Some d
  <-> is_valid_device_id d = true /\ channel_valid ch = true /\ topic = channel_topic ch d.
Proof. apply channel_spec. Qed.

(** No confusion: a topic names at most one channel and one device, so no
    device id or route key a client chooses can make a message be read on
    another channel or for another device; and the generic contract ingress
    agrees on the device. *)
Theorem topics_unambiguous ch ch' topic d d' :
  channel_device ch topic = Some d -> channel_device ch' topic = Some d' ->
  ch = ch' /\ d = d' /\ contract_device_id topic = Some d.
Proof.
  rewrite !channel_spec. intros (Hd & _ & ->) (Hd' & _ & H). rewrite !channel_topic_tail in *.
  apply prefix_inj in H.
  destruct (str_split_unique "/" d (channel_tail ch) d' (channel_tail ch')) as [-> Htail];
    [by apply valid_device_no_slash..|done|].
  split; [by apply channel_tail_inj|]. split; [done|].
  unfold contract_device_id. rewrite strip_prefix_app. simpl.
  change (String "/" (channel_tail ch)) with ("/" +:+ channel_tail ch).
  rewrite (split_once_app "/" "" d' (channel_tail ch)).
  - simpl. by rewrite Hd'.
  - by apply contains_char_false, valid_device_no_slash.
Qed.
Lemma topics_unambiguous_witness :
  contract_device_id "extrittio/devices/dev-1/events/env.raw" = Some "dev-1".
Proof.
  apply (topics_unambiguous (ChEvent "env.raw") (ChEvent "env.raw") _ "dev-1" "dev-1");
    vm_compute; reflexivity.
Defined.
