(* ===== verification/Access.v ===== *)
(** * Tenants, actors and permissions (crates/backend-core/src/context.rs,
    application/mod.rs)

    The authenticated context every use case receives and the permission
    check that guards it. *)
From S2P Require Import Prelude Text Errors.

(** ** Tenants *)
Inductive TenantIdError := TenantIdEmpty.
(** [TenantId::new]; the identifier is kept as its string. *)
Definition tenant_id_new (value : string) : result TenantIdError string :=
  if trim_is_empty value then Err TenantIdEmpty else Ok value.

Inductive Actor :=
| User (id : Z) (username role : string)
| ApiKey (id : string)
| DeviceActor (id : string)
| System (name : string).

(** ** Permissions *)
Inductive Permission :=
| DeployFirmware | ManageAlerts | ManageApiKeys | ManageDeviceBlueprints | ManageDevices
| ManageFirmware | ManageFleets | ManageRoles | ManageRules | ManageShadows | ManageUsers
| ManageZones | ReadAlerts | ReadCommands | ReadDeviceBlueprints | ReadDevices | ReadFirmware
| ReadFleets | ReadLogs | ReadRoles | ReadRules | ReadServerMetrics | ReadShadows | ReadTelemetry
| ReadUsers | ReadZones | SendCommands.
#[global] Instance Permission_eq_dec : EqDecision Permission.
Proof. solve_decision. Defined.

Definition permission_key (p : Permission) : string :=
  match p with
  | DeployFirmware => "firmware.deploy"
  | ManageAlerts => "alerts.manage"
  | ManageApiKeys => "api_keys.manage"
  | ManageDeviceBlueprints => "device_blueprints.manage"
  | ManageDevices => "devices.manage"
  | ManageFirmware => "firmware.manage"
  | ManageFleets => "fleets.manage"
  | ManageRoles => "roles.manage"
  | ManageRules => "rules.manage"
  | ManageShadows => "shadows.manage"
  | ManageUsers => "users.manage"
  | ManageZones => "zones.manage"
  | ReadAlerts => "alerts.read"
  | ReadCommands => "commands.read"
  | ReadDeviceBlueprints => "device_blueprints.read"
  | ReadDevices => "devices.read"
  | ReadFirmware => "firmware.read"
  | ReadFleets => "fleets.read"
  | ReadLogs => "logs.read"
  | ReadRoles => "roles.read"
  | ReadRules => "rules.read"
  | ReadServerMetrics => "server_metrics.read"
  | ReadShadows => "shadows.read"
  | ReadTelemetry => "telemetry.read"
  | ReadUsers => "users.read"
  | ReadZones => "zones.read"
  | SendCommands => "commands.send"
  end.
Definition ALL_PERMISSIONS : list Permission :=
  [DeployFirmware; ManageAlerts; ManageDeviceBlueprints; ManageDevices; ManageApiKeys;
   ManageFirmware; ManageFleets; ManageRules; ManageRoles; ManageShadows; ManageUsers;
   ManageZones; ReadCommands; ReadAlerts; ReadDeviceBlueprints; ReadDevices; ReadFleets;
   ReadFirmware; ReadLogs; ReadRules; ReadRoles; ReadServerMetrics; ReadShadows;
   ReadTelemetry; ReadUsers; ReadZones; SendCommands].
Definition permission_from_key (key : string) : option Permission :=
  List.find (fun p => permission_key p =s? key) ALL_PERMISSIONS.
Definition implied_permissions (p : Permission) : list Permission :=
  match p with
  | ReadAlerts => [ManageAlerts]
  | ReadCommands => [SendCommands]
  | ReadDeviceBlueprints => [ManageDeviceBlueprints]
  | ReadDevices => [ManageDevices]
  | ReadFirmware => [ManageFirmware; DeployFirmware]
  | ReadFleets => [ManageFleets]
  | ReadRoles => [ManageRoles]
  | ReadRules => [ManageRules]
  | ReadShadows => [ManageShadows]
  | ReadUsers => [ManageUsers]
  | ReadZones => [ManageZones]
  | _ => []
  end.
Definition satisfies (self required : Permission) : bool :=
  bool_decide (self = required) || bool_decide (self ∈ implied_permissions required).

(** A [PermissionSet] is its members; only membership is observed. *)
Definition PermissionSet : Type := list Permission.
Definition permission_set_from_keys (keys : list string) : PermissionSet :=
  omap permission_from_key keys.
Definition permission_set_all : PermissionSet := ALL_PERMISSIONS.
Definition permission_set_contains (s : PermissionSet) (required : Permission) : bool :=
  existsb (fun p => satisfies p required) s.

Record TenantContext := {
  ctx_tenant : string;
  ctx_actor : Actor;
  ctx_permissions : PermissionSet;
}.
(** [require_permission]. *)
Definition require_permission (context : TenantContext) (p : Permission) : result ApplicationError unit :=
  if permission_set_contains (ctx_permissions context) p then Ok tt
  else Err (Forbidden ("Missing permission '" +:+ permission_key p +:+ "'")).

(** ** Lemmas *)
Lemma from_key_spec key p : permission_from_key key = Some p <-> key = permission_key p.
Proof.
  split.
  - intros [_ H]%List.find_some. by apply String.eqb_eq in H.
  - intros ->. by destruct p.
Qed.
Lemma satisfies_spec p q : satisfies p q = true <-> p = q \/ p ∈ implied_permissions q.
Proof. unfold satisfies. by rewrite orb_true_iff, !bool_decide_eq_true. Qed.
(** No other permission implies it: the rights to manage, deploy or send, and the
    unimplied reads. *)
Definition is_write (p : Permission) : bool := bool_decide (implied_permissions p = []).
Lemma require_permission_ok ctx p u :
  require_permission ctx p = Ok u -> permission_set_contains (ctx_permissions ctx) p = true.
Proof. unfold require_permission. by case_match. Qed.
Lemma require_permission_err ctx p e :
  require_permission ctx p = Err e ->
  permission_set_contains (ctx_permissions ctx) p = false
  /\ e = Forbidden ("Missing permission '" +:+ permission_key p +:+ "'").
Proof. unfold require_permission. case_match; intros; by simplify_eq. Qed.

(** Keys and permissions correspond: decoding a key finds exactly the
    permission with that key, for every permission. *)
Theorem permission_key_roundtrip key p :
  permission_from_key key = Some p <-> key = permission_key p.
Proof. apply from_key_spec. Qed.

(** Authorization is exact: a context decoded from stored keys passes a
    check exactly when the keys hold the required permission or one that
    implies it.  The implication is transitive and never grants the right to
    manage, deploy or send from any other right, so unknown and unrelated keys
    authorize nothing. *)
Theorem authorization_exact tenant actor keys required :
  let ctx := {| ctx_tenant := tenant; ctx_actor := actor;
                ctx_permissions := permission_set_from_keys keys |} in
  (require_permission ctx required = Ok tt
   <-> exists p, permission_key p ∈ keys /\ satisfies p required = true)
  /\ (forall p q, satisfies p q = true -> satisfies q required = true -> satisfies p required = true)
  /\ (is_write required = true -> forall p, satisfies p required = true -> p = required).
Proof.
  cbv zeta. split_and!.
  - unfold require_permission. simpl. destruct (permission_set_contains _ _) eqn:E.
    + split; [intros _|done]. apply existsb_elem in E as (p & Hp & Hs).
      apply list_elem_of_omap in Hp as (k & Hk & ->%from_key_spec). eauto.
    + split; [done|]. intros (p & Hp & Hs). exfalso. revert E. apply not_false_iff_true.
      apply existsb_elem. exists p. split; [|done]. apply list_elem_of_omap.
      exists (permission_key p). split; [done|]. by apply from_key_spec.
  - intros p q. rewrite !satisfies_spec. intros [->|Hp] [->|Hq]; auto.
    exfalso. destruct required; simpl in Hq; rewrite ?elem_of_cons, ?elem_of_nil in Hq;
      naive_solver (simpl in *; set_solver).
  - unfold is_write. rewrite bool_decide_eq_true. intros E p. rewrite satisfies_spec, E. set_solver.
Qed.
