(* ===== verification/Shadows.v ===== *)
(** * Device shadows (crates/backend-core/src/shadows.rs, application/shadows.rs;
    crates/backend-turso/src/shadows.rs)

    A shadow pairs the desired and the reported state of a device; the delta is
    what the device still has to apply.  The record mutations are pure; the
    repository runs them in a write transaction; the application guards them. *)
From S2P Require Import Prelude Text BTree Json Errors Access.
From Stdlib Require Import Sorted.

Local Open Scope Z_scope.

(** ** Records *)
Definition Map : Type := list (string * value).
Record ShadowRecord := {
  sh_device_id : string;
  desired : value;
  reported : value;
  delta : value;
  sh_version : Z; (* i32 *)
  updated_at : Z; (* nanoseconds since the epoch *)
}.
Inductive ShadowMutationError := VersionOverflow.
Definition mutation_error_text (e : ShadowMutationError) : string :=
  match e with VersionOverflow => "shadow version overflow" end.

Definition object_or_empty (v : value) : value := if is_object v then v else Object [].
Definition next_version (version : Z) : result ShadowMutationError Z :=
  ok_or (Int.checked_add_i32 version 1) VersionOverflow.

(** The delta loop: the members of [desired] whose reported value is missing or
    different, in key order. *)
Definition compute_delta (desired reported : value) : value :=
  match as_object desired, as_object reported with
  | Some d, Some r =>
    Object (fold_left (fun delta e =>
        match bt_get e.1 r with
        | Some reported_val => if value_eqb reported_val e.2 then delta else bt_insert e.1 e.2 delta
        | None => bt_insert e.1 e.2 delta
        end) d [])
  | Some _, None => desired
  | _, _ => Object []
  end.
Definition merge_json (existing : value) (patch : Map) : value :=
  let obj := match existing with Object m => m | _ => [] end in
  Object (fold_left (fun obj e =>
      if is_null e.2 then bt_remove e.1 obj else bt_insert e.1 e.2 obj) patch obj).

Definition apply_desired_patch (shadow : ShadowRecord) (patch : Map) (now : Z)
    : result ShadowMutationError ShadowRecord :=
  let desired' := merge_json (object_or_empty (desired shadow)) patch in
  let reported' := object_or_empty (reported shadow) in
  v ← next_version (sh_version shadow);
  Ok {| sh_device_id := sh_device_id shadow; desired := desired'; reported := reported';
        delta := compute_delta desired' reported'; sh_version := v; updated_at := now |}.
Definition apply_reported_patch (shadow : ShadowRecord) (patch : Map) (now : Z)
    : result ShadowMutationError ShadowRecord :=
  let desired' := object_or_empty (desired shadow) in
  let reported' := merge_json (object_or_empty (reported shadow)) patch in
  v ← next_version (sh_version shadow);
  Ok {| sh_device_id := sh_device_id shadow; desired := desired'; reported := reported';
        delta := compute_delta desired' reported'; sh_version := v; updated_at := now |}.
Definition reset_shadow (shadow : ShadowRecord) (now : Z) : result ShadowMutationError ShadowRecord :=
  v ← next_version (sh_version shadow);
  Ok {| sh_device_id := sh_device_id shadow; desired := Object []; reported := Object [];
        delta := Object []; sh_version := v; updated_at := now |}.
(** [desired["ota"]["deployment_id"].as_i64()]: indexing a missing key is null. *)
Definition command_of (desired : value) : option Z :=
  ota ← get "ota" desired; id ← get "deployment_id" ota; as_i64 id.
Definition ota_deployment (shadow : ShadowRecord) : option Z := command_of (desired shadow).
Definition clear_ota_for_deployment (shadow : ShadowRecord) (deployment_id now : Z)
    : result ShadowMutationError (option ShadowRecord) :=
  if bool_decide (ota_deployment shadow <> Some deployment_id) then Ok None
  else Some <$> apply_desired_patch shadow [("ota", Null)] now.

(** ** Repository *)

(** What the application relies on: operations on some store [St], each
    answering with the new record, [None] for an unknown device, or an error. *)
Class ShadowRepository (St : Type) := {
  repo_get : St -> string -> string -> result PersistenceError (option ShadowRecord);
  repo_update_desired : St -> string -> string -> Map -> Z ->
    result PersistenceError (option ShadowRecord) * St;
  repo_update_reported : St -> string -> string -> Map -> Z ->
    result PersistenceError (option ShadowRecord) * St;
  repo_reset : St -> string -> string -> Z -> result PersistenceError bool * St;
}.
(** One record-level mutation, run atomically: it changes the store only when
    it answers with the mutated record, and only for that tenant and device. *)
Definition atomic_mutation `{!ShadowRepository St} (s : St) (tenant device : string)
    (mutate : ShadowRecord -> result ShadowMutationError ShadowRecord)
    (answer : result PersistenceError (option ShadowRecord)) (s' : St) : Prop :=
  match answer with
  | Ok (Some r) =>
    (exists current, repo_get s tenant device = Ok (Some current) /\ mutate current = Ok r)
    /\ forall tenant' device', (tenant', device') <> (tenant, device) ->
         repo_get s' tenant' device' = repo_get s tenant' device'
  | Ok None => repo_get s tenant device = Ok None /\ s' = s
  | Err _ => s' = s
  end.
Class ShadowRepositoryLaws (St : Type) `{!ShadowRepository St} := {
  law_update_desired s tenant device patch now :
    let (answer, s') := repo_update_desired s tenant device patch now in
    atomic_mutation s tenant device (fun sh => apply_desired_patch sh patch now) answer s';
  law_update_reported s tenant device patch now :
    let (answer, s') := repo_update_reported s tenant device patch now in
    atomic_mutation s tenant device (fun sh => apply_reported_patch sh patch now) answer s';
  law_reset s tenant device now :
    let (answer, s') := repo_reset s tenant device now in
    exists a, atomic_mutation s tenant device (fun sh => reset_shadow sh now) a s'
      /\ answer = (r ← a; Ok (bool_decide (is_Some r)));
}.

(** ** The Turso repository

    Rows hold JSON text and a microsecond timestamp; the text codec is
    serde_json's and the timestamp range is chrono's. *)
Class SerdeJson := {
  to_string : value -> result string string;
  from_str : string -> result string value;
  utc_in_range : Z -> bool;
}.
Record ShadowRow := {
  row_desired : string; row_reported : string; row_delta : string;
  row_version : Z; (* i64 *) row_updated_at : Z; (* i64 *)
}.
Definition ShadowTable : Type := gmap (string * string) ShadowRow.

Section turso.
Context `{!SerdeJson}.
Definition column_json (text : string) : result PersistenceError value :=
  map_err CorruptData (from_str text).
Definition row_i32 (v : Z) (column : string) : result PersistenceError Z :=
  if Int.in_i32 v then Ok v else Err (CorruptData (column +:+ " is outside the supported i32 range")).
Definition row_datetime (micros : Z) : result PersistenceError Z :=
  if utc_in_range micros then Ok (micros * 1000)
  else Err (CorruptData ("invalid UTC timestamp in database: " +:+ int_to_string micros)).
(** [decode]. *)
Definition decode (device : string) (row : ShadowRow) : result PersistenceError ShadowRecord :=
  d ← column_json (row_desired row);
  r ← column_json (row_reported row);
  dl ← column_json (row_delta row);
  v ← row_i32 (row_version row) "device_shadows.version";
  u ← row_datetime (row_updated_at row);
  Ok {| sh_device_id := device; desired := d; reported := r; delta := dl; sh_version := v; updated_at := u |}.
(** [get_from]. *)
Definition get_from (t : ShadowTable) (tenant device : string)
    : result PersistenceError (option ShadowRecord) :=
  match t !! (tenant, device) with
  | None => Ok None
  | Some row => Some <$> decode device row
  end.
Definition column_text (v : value) : result PersistenceError string := map_err PInternal (to_string v).
(** [store]: an UPDATE, so a missing row stays missing. *)
Definition store (t : ShadowTable) (tenant : string) (sh : ShadowRecord)
    : result PersistenceError ShadowTable :=
  d ← column_text (desired sh);
  r ← column_text (reported sh);
  dl ← column_text (delta sh);
  Ok (match t !! (tenant, sh_device_id sh) with
      | None => t
      | Some _ => <[(tenant, sh_device_id sh) :=
          {| row_desired := d; row_reported := r; row_delta := dl;
             row_version := sh_version sh; row_updated_at := updated_at sh / 1000 |}]> t
      end).
(** [mutate]: under the writer lock; every early return drops the transaction. *)
Definition mutate (t : ShadowTable) (tenant device : string)
    (f : ShadowRecord -> result ShadowMutationError ShadowRecord)
    : result PersistenceError (option ShadowRecord) * ShadowTable :=
  match get_from t tenant device with
  | Err e => (Err e, t)
  | Ok None => (Ok None, t)
  | Ok (Some current) =>
    match f current with
    | Err e => (Err (CorruptData (mutation_error_text e)), t)
    | Ok updated =>
      match store t tenant updated with
      | Err e => (Err e, t)
      | Ok t' => (Ok (Some updated), t')
      end
    end
  end.

#[global] Instance turso_shadows : ShadowRepository ShadowTable := {
  repo_get := get_from;
  repo_update_desired t tenant device patch now :=
    mutate t tenant device (fun sh => apply_desired_patch sh patch now);
  repo_update_reported t tenant device patch now :=
    mutate t tenant device (fun sh => apply_reported_patch sh patch now);
  repo_reset t tenant device now :=
    let (r, t') := mutate t tenant device (fun sh => reset_shadow sh now) in
    (o ← r; Ok (bool_decide (is_Some o)), t');
}.
End turso.

(** ** Application *)
Definition missing (device : string) : ApplicationError :=
  NotFound ("Shadow for device '" +:+ device +:+ "' not found").
Section application.
Context {St : Type} `{!ShadowRepository St}.
Definition answer_or_missing (device : string) (r : result PersistenceError (option ShadowRecord))
    : result ApplicationError ShadowRecord :=
  o ← map_err Persistence r; ok_or o (missing device).
(** [DeviceShadowApplication::get], [::update_reported]. *)
Definition device_get (s : St) (tenant device : string) : result ApplicationError ShadowRecord :=
  answer_or_missing device (repo_get s tenant device).
Definition device_update_reported (s : St) (tenant device : string) (patch : Map) (now : Z)
    : result ApplicationError ShadowRecord * St :=
  let (r, s') := repo_update_reported s tenant device patch now in (answer_or_missing device r, s').
(** [ShadowApplication::get], [::update_desired], [::update_reported], [::reset]. *)
Definition app_get (s : St) (ctx : TenantContext) (device : string) : result ApplicationError ShadowRecord :=
  _ ← require_permission ctx ReadShadows; device_get s (ctx_tenant ctx) device.
Definition app_update_desired (s : St) (ctx : TenantContext) (device : string) (patch : Map) (now : Z)
    : result ApplicationError ShadowRecord * St :=
  match require_permission ctx ManageShadows with
  | Err e => (Err e, s)
  | Ok _ =>
    if bt_contains_key "ota" patch
    then (Err (InvalidInput "The ota shadow key is reserved; use the firmware deployment endpoint"), s)
    else let (r, s') := repo_update_desired s (ctx_tenant ctx) device patch now in
         (answer_or_missing device r, s')
  end.
Definition app_update_reported (s : St) (ctx : TenantContext) (device : string) (patch : Map) (now : Z)
    : result ApplicationError ShadowRecord * St :=
  match require_permission ctx ManageShadows with
  | Err e => (Err e, s)
  | Ok _ => device_update_reported s (ctx_tenant ctx) device patch now
  end.
Definition app_reset (s : St) (ctx : TenantContext) (device : string) (now : Z)
    : result ApplicationError unit * St :=
  match require_permission ctx ManageShadows with
  | Err e => (Err e, s)
  | Ok _ =>
    let (r, s') := repo_reset s (ctx_tenant ctx) device now in
    (b ← map_err Persistence r; (if b : bool then Ok tt else Err (missing device)), s')
  end.
End application.

(** ** Merging and deltas *)
Definition members (v : value) : Map := match v with Object m => m | _ => [] end.
Lemma get_members k v : get k v = bt_get k (members v).
Proof. by destruct v. Qed.
Lemma sorted_tail_get (k : string) (v : value) (m : Map) : bt_sorted ((k, v) :: m) -> bt_get k m = None.
Proof.
  intros Hs%bt_sorted_keys_NoDup. apply bt_get_None. by apply NoDup_cons in Hs as [? _].
Qed.
Lemma bt_sorted_tail {V} e (m : list (string * V)) : bt_sorted (e :: m) -> bt_sorted m.
Proof. by inversion_clear 1. Qed.

Lemma merge_fold_get patch obj k :
  bt_sorted patch ->
  bt_get k (fold_left (fun obj e => if is_null e.2 then bt_remove e.1 obj else bt_insert e.1 e.2 obj) patch obj)
  = match bt_get k patch with
    | Some v => if is_null v then None else Some v
    | None => bt_get k obj
    end.
Proof.
  revert obj. induction patch as [|[k0 v0] patch IH]; intros obj Hs; [done|]. simpl.
  rewrite IH by (by eapply bt_sorted_tail). destruct (String.eqb_spec k k0) as [->|Hne].
  - rewrite (sorted_tail_get _ _ _ Hs). destruct (is_null v0);
      rewrite ?bt_get_remove, ?bt_get_insert; by rewrite String.eqb_refl.
  - destruct (bt_get k patch); [done|].
    destruct (is_null v0); rewrite ?bt_get_remove, ?bt_get_insert;
      by rewrite (proj2 (String.eqb_neq k0 k)).
Qed.
Lemma merge_get existing patch k :
  bt_sorted patch ->
  get k (merge_json existing patch)
  = match bt_get k patch with
    | Some v => if is_null v then None else Some v
    | None => get k existing
    end.
Proof. intros Hs. simpl. rewrite merge_fold_get by done. by rewrite get_members. Qed.

(** A reported value settles a desired one. *)
Definition settled (r : Map) (k : string) (v : value) : bool :=
  match bt_get k r with Some rv => value_eqb rv v | None => false end.
Lemma delta_fold_get r d acc k :
  bt_sorted d ->
  bt_get k (fold_left (fun delta e =>
        match bt_get e.1 r with
        | Some rv => if value_eqb rv e.2 then delta else bt_insert e.1 e.2 delta
        | None => bt_insert e.1 e.2 delta
        end) d acc)
  = match bt_get k d with
    | Some v => if settled r k v then bt_get k acc else Some v
    | None => bt_get k acc
    end.
Proof.
  revert acc. induction d as [|[k0 v0] d IH]; intros acc Hs; [done|]. simpl.
  rewrite IH by (by eapply bt_sorted_tail). unfold settled.
  destruct (String.eqb_spec k k0) as [->|Hne].
  - rewrite (sorted_tail_get _ _ _ Hs). repeat case_match; try done;
      by rewrite bt_get_insert, String.eqb_refl.
  - assert (bt_get k (bt_insert k0 v0 acc) = bt_get k acc) as Hi
      by (rewrite bt_get_insert; by rewrite (proj2 (String.eqb_neq k0 k))).
    repeat case_match; by rewrite ?Hi.
Qed.
Lemma delta_fold_sorted r d acc :
  bt_sorted acc ->
  bt_sorted (fold_left (fun delta e =>
        match bt_get e.1 r with
        | Some rv => if value_eqb rv e.2 then delta else bt_insert e.1 e.2 delta
        | None => bt_insert e.1 e.2 delta
        end) d acc : Map).
Proof.
  revert acc. induction d as [|e d IH]; intros acc Hacc; [done|]. simpl. apply IH.
  repeat case_match; auto with rust.
Qed.
Lemma delta_get d r k :
  bt_sorted d ->
  get k (compute_delta (Object d) (Object r))
  = match bt_get k d with
    | Some v => if settled r k v then None else Some v
    | None => None
    end.
Proof. intros Hs. simpl. by rewrite delta_fold_get. Qed.
Lemma delta_empty d r :
  bt_sorted d -> (forall k v, bt_get k d = Some v -> settled r k v = true) ->
  compute_delta (Object d) (Object r) = Object [].
Proof.
  intros Hs Hall. unfold compute_delta. cbn [as_object]. f_equal. apply bt_ext; [by apply delta_fold_sorted, bt_sorted_nil|constructor|].
  intros k. rewrite delta_fold_get by done. destruct (bt_get k d) as [v|] eqn:E; [|done].
  by rewrite (Hall _ _ E).
Qed.

(** ** The record invariant

    Both states are JSON objects without null members. *)
Record state_ok (v : value) : Prop := {
  state_object : is_object v = true;
  state_wf : wf_value v;
  state_no_null : forall k, get k v <> Some Null;
}.
Record shadow_ok (sh : ShadowRecord) : Prop := {
  ok_desired : state_ok (desired sh);
  ok_reported : state_ok (reported sh);
  ok_delta : delta sh = compute_delta (desired sh) (reported sh);
  ok_version : Int.in_i32 (sh_version sh) = true;
}.
Lemma state_ok_empty : state_ok (Object []).
Proof. split; [done| |done]. constructor; [apply bt_sorted_nil|constructor]. Qed.
Lemma state_ok_cases v : state_ok v -> exists m, v = Object m /\ bt_sorted m /\ Forall (fun e => wf_value e.2) m.
Proof. intros [Hobj Hwf _]. destruct v; try done. inversion Hwf; subst. eauto. Qed.
Lemma wf_members_get (m : Map) k v :
  Forall (fun e => wf_value e.2) m -> bt_get k m = Some v -> wf_value v.
Proof. rewrite Forall_forall. intros Hm Hk%bt_get_Some_elem. exact (Hm _ Hk). Qed.
Lemma wf_members_insert k v (m : Map) :
  wf_value v -> Forall (fun e => wf_value e.2) m -> Forall (fun e => wf_value e.2) (bt_insert k v m).
Proof.
  rewrite !Forall_forall. intros Hv Hm e [->|He]%bt_insert_keys; [done|auto].
Qed.
Lemma object_or_empty_ok v : state_ok v -> object_or_empty v = v.
Proof. intros [Hobj _ _]. unfold object_or_empty. by rewrite Hobj. Qed.
Lemma merge_wf v patch :
  wf_value v -> wf_value (Object patch) -> wf_value (merge_json v patch).
Proof.
  intros Hv Hp. inversion Hp as [| | | | |? _ Hwf]; subst. clear Hp.
  assert (exists m, merge_json v patch = merge_json (Object m) patch
                    /\ bt_sorted m /\ Forall (fun e => wf_value e.2) m) as (m & -> & Hm & Hmw).
  { destruct v as [| | | | |m]; [exists []; eauto using bt_sorted_nil..|].
    inversion Hv; subst. eauto. }
  clear Hv. revert m Hm Hmw.
  induction Hwf as [|[k x] patch Hx _ IH]; intros m Hm Hmw; [by constructor|].
  change (wf_value (merge_json (Object (if is_null x then bt_remove k m else bt_insert k x m)) patch)).
  destruct (is_null x); apply IH.
  - by apply bt_remove_sorted.
  - rewrite Forall_forall in *. intros e [He _]%elem_of_filterb. auto.
  - by apply bt_insert_sorted.
  - by apply wf_members_insert.
Qed.
Lemma object_or_empty_wf v : wf_value v -> wf_value (object_or_empty v).
Proof.
  unfold object_or_empty. destruct v; try done; intros _; constructor; eauto using bt_sorted_nil.
Qed.
Lemma merge_state_ok v patch :
  state_ok v -> wf_value (Object patch) -> state_ok (merge_json v patch).
Proof.
  intros Hv Hp. inversion Hp as [| | | | |? Hs _]; subst. split; [done|..].
  - apply merge_wf; [apply Hv|done].
  - intros k. rewrite merge_get by done. destruct (bt_get k patch) as [x|].
    + by destruct x.
    + apply (state_no_null _ Hv).
Qed.

Lemma next_version_ok v v' : next_version v = Ok v' -> v' = v + 1 /\ Int.in_i32 v' = true.
Proof.
  unfold next_version, Int.checked_add_i32. rewrite ok_or_ok. case_match eqn:E; intros; by simplify_eq.
Qed.
Lemma next_version_total v :
  Int.in_i32 v = true -> v <> Int.i32_max -> next_version v = Ok (v + 1).
Proof.
  rewrite Int.in_i32_spec. intros Hv Hne. unfold next_version, Int.checked_add_i32.
  rewrite (proj2 (Int.in_i32_spec (v + 1))); [done|lia].
Qed.
Lemma next_version_overflow : next_version Int.i32_max = Err VersionOverflow.
Proof. reflexivity. Qed.

(** The three record mutations, as one relation. *)
Inductive shadow_step (sh : ShadowRecord) : ShadowRecord -> Prop :=
| step_desired patch now sh' :
    wf_value (Object patch) -> apply_desired_patch sh patch now = Ok sh' -> shadow_step sh sh'
| step_reported patch now sh' :
    wf_value (Object patch) -> apply_reported_patch sh patch now = Ok sh' -> shadow_step sh sh'
| step_reset now sh' : reset_shadow sh now = Ok sh' -> shadow_step sh sh'
| step_clear_ota id now sh' :
    clear_ota_for_deployment sh id now = Ok (Some sh') -> shadow_step sh sh'.

Lemma desired_patch_ok sh patch now sh' :
  shadow_ok sh -> wf_value (Object patch) -> apply_desired_patch sh patch now = Ok sh' ->
  shadow_ok sh' /\ sh_version sh' = sh_version sh + 1.
Proof.
  intros [Hd Hr _ _] Hp (v & [-> Hv]%next_version_ok & [= <-])%bind_ok.
  rewrite !object_or_empty_ok in * by done. split; [|done]. split; simpl; auto using merge_state_ok.
Qed.
Lemma reported_patch_ok sh patch now sh' :
  shadow_ok sh -> wf_value (Object patch) -> apply_reported_patch sh patch now = Ok sh' ->
  shadow_ok sh' /\ sh_version sh' = sh_version sh + 1.
Proof.
  intros [Hd Hr _ _] Hp (v & [-> Hv]%next_version_ok & [= <-])%bind_ok.
  rewrite !object_or_empty_ok in * by done. split; [|done]. split; simpl; auto using merge_state_ok.
Qed.
Lemma clear_ota_patch sh id now sh' :
  clear_ota_for_deployment sh id now = Ok (Some sh') ->
  ota_deployment sh = Some id /\ apply_desired_patch sh [("ota", Null)] now = Ok sh'.
Proof.
  unfold clear_ota_for_deployment. case_bool_decide as E; [done|]. intros H.
  split; [by destruct (decide (ota_deployment sh = Some id))|]. destruct (apply_desired_patch _ _ _); by simplify_eq/=.
Qed.
Lemma wf_clear_patch : wf_value (Object [("ota", Null)]).
Proof. repeat constructor. Qed.

(** Invariant: every sequence of desired, reported, reset and OTA-clearing
    mutations keeps both states well-formed objects without null members,
    keeps the stored delta equal to the difference of the two states, and
    increases the version by exactly one each time. *)
Theorem shadow_mutations_preserve sh n sh' :
  shadow_ok sh -> nsteps shadow_step n sh sh' ->
  shadow_ok sh' /\ sh_version sh' = sh_version sh + Z.of_nat n.
Proof.
  intros Hok Hn. induction Hn as [sh|n sh sh1 sh2 Hs _ IH]; [split; [done|lia]|].
  assert (shadow_ok sh1 /\ sh_version sh1 = sh_version sh + 1) as [Hok1 Hv1].
  { destruct Hs as [patch now sh1 Hp Hs|patch now sh1 Hp Hs|now sh1 Hs|id now sh1 Hs].
    - by eapply desired_patch_ok.
    - by eapply reported_patch_ok.
    - apply bind_ok in Hs as (v & [-> Hv]%next_version_ok & [= <-]). split; [|done].
      split; simpl; auto using state_ok_empty.
    - apply clear_ota_patch in Hs as [_ Hs]. eapply desired_patch_ok; eauto using wf_clear_patch. }
  destruct (IH Hok1) as [? ->]. split; [done|lia].
Qed.

(** Deltas are exact: after any patch, on either side, a key is in the delta
    with a value exactly when that value is desired and not the reported one;
    the patch itself removes null members, sets the others and leaves every
    other key alone. *)
Theorem shadow_patch_exact sh patch now k :
  shadow_ok sh -> wf_value (Object patch) -> sh_version sh <> Int.i32_max ->
  let merged old := match bt_get k patch with
                    | Some v => if is_null v then None else Some v
                    | None => get k old end in
  let owed d r := match d with
                  | Some v => match r with
                              | Some rv => if value_eqb rv v then None else Some v
                              | None => Some v end
                  | None => None end in
  (exists sh', apply_desired_patch sh patch now = Ok sh'
     /\ get k (desired sh') = merged (desired sh) /\ reported sh' = reported sh
     /\ get k (delta sh') = owed (merged (desired sh)) (get k (reported sh)))
  /\ (exists sh', apply_reported_patch sh patch now = Ok sh'
     /\ desired sh' = desired sh /\ get k (reported sh') = merged (reported sh)
     /\ get k (delta sh') = owed (get k (desired sh)) (merged (reported sh))).
Proof.
  intros Hok Hp Hv. cbv zeta. inversion Hp as [| | | | |? Hs _]; subst.
  assert (forall d r, state_ok d -> is_object r = true ->
    get k (compute_delta d r)
    = match get k d with
      | Some v => match get k r with
                  | Some rv => if value_eqb rv v then None else Some v
                  | None => Some v end
      | None => None end) as Hdelta.
  { intros d r (md & -> & Hmd & _)%state_ok_cases Hr. destruct r as [| | | | |mr]; try done.
    rewrite delta_get by done. unfold settled. simpl. by repeat case_match. }
  destruct Hok as [Hd Hr _ Hver].
  unfold apply_desired_patch, apply_reported_patch.
  rewrite next_version_total by done. rewrite !object_or_empty_ok by done. simpl.
  split; eexists; (split; [done|]); simpl.
  - split_and!; [by apply merge_get|done|]. rewrite Hdelta by (by apply merge_state_ok || apply Hr).
    by rewrite merge_get.
  - split_and!; [done|by apply merge_get|]. rewrite Hdelta by done. by rewrite merge_get.
Qed.

(** Convergence: a device that reports back the delta it was sent brings
    the shadow in sync: the new delta is empty and the desired state stands. *)
Theorem shadow_converges sh now sh' :
  shadow_ok sh -> apply_reported_patch sh (members (delta sh)) now = Ok sh' ->
  delta sh' = Object [] /\ desired sh' = desired sh.
Proof.
  intros [Hd Hr Hdl _] (v & _ & [= <-])%bind_ok. simpl. rewrite !object_or_empty_ok by done.
  split; [|done]. rewrite Hdl.
  destruct (state_ok_cases _ Hd) as (d & Ed & Hs & Hw), (state_ok_cases _ Hr) as (r & Er & _ & _).
  assert (Hnn := state_no_null _ Hd). rewrite Ed, Er in *.
  unfold merge_json. apply delta_empty; [done|]. intros k x Hk.
  unfold settled. rewrite merge_fold_get by (apply delta_fold_sorted, bt_sorted_nil).
  rewrite <- get_members, delta_get, Hk by done.
  destruct (settled r k x) eqn:Es; [done|].
  destruct (is_null x) eqn:En; [destruct x; try done; by destruct (Hnn k)|].
  by eapply value_eqb_refl, wf_members_get.
Qed.

(** Fencing: clearing the OTA command of a finished deployment changes
    nothing unless the desired command is that deployment's; then it removes
    the [ota] member and no other. *)
Theorem clear_ota_fenced sh id now k :
  shadow_ok sh -> sh_version sh <> Int.i32_max ->
  if decide (ota_deployment sh = Some id) then
    exists sh', clear_ota_for_deployment sh id now = Ok (Some sh')
      /\ get k (desired sh') = (if k =s? "ota" then None else get k (desired sh))
      /\ reported sh' = reported sh
  else clear_ota_for_deployment sh id now = Ok None.
Proof.
  intros [Hd Hr _ Hver] Hv. unfold clear_ota_for_deployment. case_decide as E.
  - rewrite bool_decide_false by tauto. unfold apply_desired_patch.
    rewrite next_version_total by done. eexists. split; [done|]. simpl.
    rewrite !object_or_empty_ok by done. split; [|done]. rewrite bt_get_remove.
    rewrite String.eqb_sym, get_members. by destruct (desired sh).
  - by rewrite bool_decide_true.
Qed.

(** ** The Turso repository keeps the contract *)
Section turso_laws.
Context `{!SerdeJson}.
Lemma decode_device device row r : decode device row = Ok r -> sh_device_id r = device.
Proof.
  by intros (? & _ & (? & _ & (? & _ & (? & _ & (? & _ & [= <-])%bind_ok)%bind_ok)%bind_ok)%bind_ok)%bind_ok.
Qed.
Lemma store_frame t tenant sh t' tenant' device' :
  store t tenant sh = Ok t' -> (tenant', device') <> (tenant, sh_device_id sh) ->
  get_from t' tenant' device' = get_from t tenant' device'.
Proof.
  intros (? & _ & (? & _ & (? & _ & [= <-])%bind_ok)%bind_ok)%bind_ok Hne.
  unfold get_from, ShadowTable in *. destruct (t !! (tenant, sh_device_id sh)); [|done]. by rewrite lookup_insert_ne.
Qed.
Lemma mutate_atomic t tenant device f :
  (forall sh r, f sh = Ok r -> sh_device_id r = sh_device_id sh) ->
  let (answer, t') := mutate t tenant device f in atomic_mutation t tenant device f answer t'.
Proof.
  intros Hf. unfold mutate. destruct (get_from t tenant device) as [[cur|]|e] eqn:Eg; [|done|done].
  destruct (f cur) as [r|e] eqn:Ef; [|done].
  destruct (store t tenant r) as [t'|e] eqn:Es; [|done]. split; [eauto|].
  assert (sh_device_id r = device) as Hdev.
  { rewrite (Hf _ _ Ef). unfold get_from in Eg. case_match; [|done].
    destruct (decode device _) eqn:Ed; simplify_eq/=. by eapply decode_device. }
  intros tenant' device' Hne. eapply store_frame; [done|]. by rewrite Hdev.
Qed.
Lemma patch_keeps_device sh patch now r :
  apply_desired_patch sh patch now = Ok r \/ apply_reported_patch sh patch now = Ok r
  \/ reset_shadow sh now = Ok r -> sh_device_id r = sh_device_id sh.
Proof. by intros [(? & _ & [= <-])%bind_ok|[(? & _ & [= <-])%bind_ok|(? & _ & [= <-])%bind_ok]]. Qed.

#[global] Instance turso_shadow_laws : ShadowRepositoryLaws ShadowTable.
Proof.
  split; intros; simpl.
  - apply mutate_atomic. eauto using patch_keeps_device.
  - apply mutate_atomic. eauto using patch_keeps_device.
  - assert (Hm := mutate_atomic s tenant device (fun sh => reset_shadow sh now)).
    destruct (mutate s tenant device _) as [a t'] eqn:E. exists a. split; [|done]. apply Hm.
    intros sh r Hr. eapply (patch_keeps_device _ []). eauto.
Qed.
End turso_laws.

(** ** The application *)
Section application_laws.
Context {St : Type} {repository : ShadowRepository St} {laws : ShadowRepositoryLaws St}.

(** Over any repository that keeps the contract, a user's desired-state
    patch is authorized, applied atomically to the current record of the
    caller's own tenant, never touches the OTA command, and leaves every
    other shadow alone; every refusal leaves the store unchanged. *)
Theorem user_patch_guarded s ctx device patch now :
  bt_sorted patch ->
  let (answer, s') := app_update_desired s ctx device patch now in
  match answer with
  | Ok r =>
    permission_set_contains (ctx_permissions ctx) ManageShadows = true
    /\ (exists cur, repo_get s (ctx_tenant ctx) device = Ok (Some cur)
          /\ apply_desired_patch cur patch now = Ok r
          /\ get "ota" (desired r) = get "ota" (desired cur))
    /\ (forall tenant' device', (tenant', device') <> (ctx_tenant ctx, device) ->
          repo_get s' tenant' device' = repo_get s tenant' device')
  | Err _ => s' = s
  end.
Proof using laws.
  intros Hs. unfold app_update_desired.
  destruct (require_permission ctx ManageShadows) as [u|e] eqn:Ep; [|done].
  destruct (bt_contains_key "ota" patch) eqn:Eo; [done|].
  assert (Hl := law_update_desired s (ctx_tenant ctx) device patch now).
  destruct (repo_update_desired _ _ _ _ _) as [answer s'].
  destruct answer as [[r|]|e]; simpl in *; [|naive_solver|done].
  destruct Hl as [(cur & Hg & Ha) Hframe]. split; [by eapply require_permission_ok|].
  split; [|done]. exists cur. split_and!; [done|done|].
  apply bind_ok in Ha as (v & _ & [= <-]). cbn [desired]. rewrite merge_get by done.
  unfold bt_contains_key in Eo. destruct (bt_get "ota" patch); [done|].
  by destruct (desired cur).
Qed.
End application_laws.

(** ** A concrete shadow *)
Definition demo_shadow : ShadowRecord :=
  {| sh_device_id := "dev-1";
     desired := object [("mode", VString "eco"); ("ota", object [("deployment_id", of_int 7)])];
     reported := object [("mode", VString "max")];
     delta := object [("mode", VString "eco"); ("ota", object [("deployment_id", of_int 7)])];
     sh_version := 3; updated_at := 0 |}.
Lemma no_null_members v :
  forallb (fun e => negb (is_null e.2)) (members v) = true -> forall k, get k v <> Some Null.
Proof.
  rewrite forallb_elem. intros H k. rewrite get_members. intros Hk%bt_get_Some_elem%H. done.
Qed.
Lemma demo_shadow_ok : shadow_ok demo_shadow.
Proof.
  split; [| |reflexivity..];
    (split; [reflexivity|repeat constructor|by apply no_null_members]).
Qed.

Lemma shadow_mutations_preserve_witness : exists sh', sh_version sh' = 4 /\ shadow_ok sh'.
Proof.
  assert (nsteps shadow_step 1 demo_shadow
    {| sh_device_id := "dev-1"; desired := Object []; reported := Object []; delta := Object [];
       sh_version := 4; updated_at := 9 |}) as Hstep.
  { eapply nsteps_l; [|constructor]. eapply (step_reset _ 9). reflexivity. }
  eexists. split; [|apply (shadow_mutations_preserve _ _ _ demo_shadow_ok Hstep)]. reflexivity.
Defined.
Lemma shadow_patch_exact_witness :
  exists sh', apply_reported_patch demo_shadow [("mode", VString "eco")] 9 = Ok sh'
    /\ get "mode" (delta sh') = None.
Proof.
  destruct (shadow_patch_exact demo_shadow [("mode", VString "eco")] 9 "mode" demo_shadow_ok)
    as [_ (sh' & H1 & _ & _ & H2)]; [repeat constructor|done|].
  exists sh'. split; [exact H1|]. rewrite H2. reflexivity.
Defined.
Lemma shadow_converges_witness :
  exists sh', apply_reported_patch demo_shadow (members (delta demo_shadow)) 9 = Ok sh'
    /\ delta sh' = Object [].
Proof.
  eexists. split; [reflexivity|].
  eapply (shadow_converges demo_shadow 9 _ demo_shadow_ok). reflexivity.
Defined.
Lemma clear_ota_fenced_witness : clear_ota_for_deployment demo_shadow 8 9 = Ok None.
Proof. exact (clear_ota_fenced demo_shadow 8 9 "mode" demo_shadow_ok ltac:(done)). Defined.

Definition demo_serde : SerdeJson :=
  {| to_string := fun v => Ok (if value_eqb v (Object []) then "{}" else "{mode}");
     from_str := fun s => if s =s? "{}" then Ok (Object []) else Err "unsupported";
     utc_in_range := fun _ => true |}.
Definition demo_row : ShadowRow :=
  {| row_desired := "{}"; row_reported := "{}"; row_delta := "{}"; row_version := 1; row_updated_at := 0 |}.
Definition demo_ctx : TenantContext :=
  {| ctx_tenant := "default"; ctx_actor := System "test"; ctx_permissions := permission_set_all |}.
Definition demo_table : ShadowTable := {[("default", "dev-1") := demo_row]}.
Lemma user_patch_guarded_witness :
  exists r s', app_update_desired (ShadowRepository0 := turso_shadows (H := demo_serde))
      demo_table demo_ctx "dev-1" [("mode", VString "eco")] 5 = (Ok r, s')
    /\ get "ota" (desired r) = None.
Proof.
  assert (Hs : bt_sorted [("mode", VString "eco")]) by repeat constructor.
  assert (Hg := user_patch_guarded (repository := turso_shadows (H := demo_serde))
    demo_table demo_ctx "dev-1" [("mode", VString "eco")] 5 Hs).
  destruct (app_update_desired demo_table demo_ctx "dev-1" _ 5) as [answer s'] eqn:E.
  destruct answer as [r|e]; [|apply (f_equal fst) in E; vm_compute in E; discriminate E].
  exists r, s'. split; [reflexivity|]. destruct Hg as (_ & (cur & Hc & _ & Ho) & _).
  vm_compute in Hc. injection Hc as <-. exact Ho.
Defined.
