(* ===== verification/Firmware.v ===== *)
(** * Firmware deployments (crates/backend-core/src/firmware.rs,
    application/firmware.rs; crates/backend-turso/src/firmware.rs)

    The OTA status machine, the artifact policy, the download grants, and the
    transactions that create and advance a deployment together with the
    [ota] command in the device's shadow. *)
From S2P Require Import Prelude Text BTree Json Errors Access Shadows.
From Stdlib Require Import Ascii.

Local Open Scope Z_scope.

(** ** Status machine *)
Definition ota_status_is_terminal (status : string) : bool :=
  eq_ignore_ascii_case status "success" || eq_ignore_ascii_case status "failed".
Definition ota_rank (status : string) : option Z :=
  if status =s? "pending" then Some 0
  else if status =s? "downloading" then Some 1
  else if status =s? "verifying" then Some 2
  else if status =s? "installing" then Some 3
  else if status =s? "rebooting" then Some 4
  else if (status =s? "success") || (status =s? "failed") then Some 5
  else None.
Definition ota_transition_allowed (previous next : string) : bool :=
  negb (ota_status_is_terminal previous)
  && match ota_rank previous, ota_rank next with
     | Some a, Some b => a <=? b
     | _, _ => false
     end.

(** ** Artifacts *)
Definition ota_revision_matches (assigned : option string) (artifact : string) : bool :=
  match assigned with
  | Some a => negb (str_is_empty a) && (a =s? artifact)
  | None => false
  end.
Definition valid_ota_artifact (version : string) (hash : option string) (url : string) : bool :=
  negb (str_is_empty version) && (str_len version <=? 63) && (str_len url <=? 1023)
  && (starts_with "https://" url || starts_with "http://" url)
  && match hash with
     | Some h => (str_len h =? 64) && str_forall is_ascii_hexdigit h
     | None => false
     end.
Record PreparedOtaArtifact := { po_version : string; po_url : string; po_sha256 : string }.
Definition prepare (version : string) (hash : option string) (stored_url grant_url : string)
    : option PreparedOtaArtifact :=
  let url := if starts_with "https://" stored_url then stored_url else grant_url in
  if negb (valid_ota_artifact version hash url) then None
  else h ← hash; Some {| po_version := version; po_url := url; po_sha256 := h |}.
Definition desired_patch (a : PreparedOtaArtifact) (firmware_id deployment_id : Z) : Map :=
  bt_insert "ota"
    (object [("firmware_version", VString (po_version a)); ("firmware_url", VString (po_url a));
             ("firmware_update_id", of_int firmware_id); ("deployment_id", of_int deployment_id);
             ("sha256", VString (po_sha256 a))]) [].
(** [increment_firmware_version]; [patch + 1] is a [u32] addition, which wraps
    in the release profile. *)
Definition increment_firmware_version (version : string) : string :=
  match split_char "." version with
  | [a; b; c] =>
    match parse_u32 c with
    | Some patch => a +:+ "." +:+ b +:+ "." +:+ int_to_string (Int.wrapping_add_u32 patch 1)
    | None => version +:+ ".1"
    end
  | _ => version +:+ ".1"
  end.

(** ** Download grants *)
Record VerifiedFirmwareDownload := { vd_tenant : string; vd_firmware_id : Z }.
Definition from_verified_claims (tenant : string) (firmware_id : Z)
    : result ApplicationError VerifiedFirmwareDownload :=
  if firmware_id <=? 0 then Err Unauthorized
  else t ← map_err (fun _ => Unauthorized) (tenant_id_new tenant);
       Ok {| vd_tenant := t; vd_firmware_id := firmware_id |}.
Record FirmwareDownloadGrant := {
  fg_tenant : string; fg_firmware_id : Z; fg_audience : string; fg_expires_at : Z; (* u64 *)
}.
(** [FirmwareDownloadGrant::new]; [now] is the clock's Unix time in seconds. *)
Definition grant_new (tenant : string) (firmware_id now : Z) : result ApplicationError FirmwareDownloadGrant :=
  let expires := now + 7 * 24 * 3600 in
  if Int.in_i64 expires && (0 <=? expires)
  then Ok {| fg_tenant := tenant; fg_firmware_id := firmware_id;
             fg_audience := "extrittio:firmware-download"; fg_expires_at := expires |}
  else Err (Internal "Failed to authorize firmware download").

(** ** Stored objects *)
Record FirmwareBlobRecord := {
  blob_size : Z; (* i32 *) blob_filename : string; storage_key : string; storage_backend : string;
}.
Record FirmwareDownload := { dl_data : string; dl_filename : string; dl_size : Z }.
(** [data.len() != blob.size as usize]: an [i32] cast to 64 bits. *)
Definition as_usize (z : Z) : Z := z mod 2 ^ 64.
Definition read_download (blob : FirmwareBlobRecord) (backend : string)
    (get_object : string -> result string string) : result ApplicationError FirmwareDownload :=
  if storage_backend blob !=s backend
  then Err (Internal "Firmware storage configuration does not match stored metadata")
  else
    data ← map_err (fun _ => Internal "Firmware storage is unavailable") (get_object (storage_key blob));
    if negb (str_len data =? as_usize (blob_size blob))
    then Err (Internal "Firmware object failed integrity validation")
    else Ok {| dl_data := data; dl_filename := blob_filename blob; dl_size := blob_size blob |}.

(** ** Tables *)
Record FirmwareRow := {
  fu_version : string; fu_url : string; fu_sha256 : option string; fu_revision : string;
}.
Record Deployment := {
  dep_tenant : string; dep_device : string; dep_firmware : Z; dep_status : string;
  dep_error : option string; dep_initiated : Z; dep_completed : option Z;
}.
Record OtaStore := {
  ota_devices : gset (string * string);
  firmware_updates : gmap (string * Z) FirmwareRow;
  (** the revision of the contract a device is assigned *)
  assigned_revisions : gmap (string * string) string;
  ota_deployments : gmap Z Deployment;
  device_shadows : ShadowTable;
}.
Definition set_ota (s : OtaStore) (deps : gmap Z Deployment) (sh : ShadowTable) : OtaStore :=
  {| ota_devices := ota_devices s; firmware_updates := firmware_updates s;
     assigned_revisions := assigned_revisions s; ota_deployments := deps; device_shadows := sh |}.
(** [status NOT IN ('success','failed')]. *)
Definition live (d : Deployment) : bool := (dep_status d !=s "success") && (dep_status d !=s "failed").
Definition supersede (tenant device : string) (now : Z) (d : Deployment) : Deployment :=
  if (dep_tenant d =s? tenant) && (dep_device d =s? device) && live d
  then {| dep_tenant := dep_tenant d; dep_device := dep_device d; dep_firmware := dep_firmware d;
          dep_status := "failed"; dep_error := Some "Superseded by a new deployment";
          dep_initiated := dep_initiated d; dep_completed := Some now |}
  else d.
Inductive TriggerOtaOutcome :=
| DeviceNotFound | FirmwareNotFound | Incompatible | InvalidArtifact
| Ready (ready_delta : value) (ready_version : Z).
Record OtaStatusUpdate := {
  ou_deployment_id : Z; ou_firmware_update_id : option Z; ou_status : string;
  ou_error_message : option string; ou_completed_at : option Z; (* nanoseconds *)
}.

Section transactions.
Context `{!SerdeJson}.

(** [TursoFirmwareRepository::trigger_ota]: [rowid] is the key the database
    gives the inserted row, [now] (microseconds) and [now'] (nanoseconds) the
    two clock readings. *)
Definition trigger_ota (s : OtaStore) (tenant device : string) (id : Z) (public_url : string)
    (rowid now now' : Z) : result PersistenceError TriggerOtaOutcome * OtaStore :=
  if negb (bool_decide ((tenant, device) ∈ ota_devices s)) then (Ok DeviceNotFound, s) else
  match firmware_updates s !! (tenant, id) with
  | None => (Ok FirmwareNotFound, s)
  | Some f =>
    if negb (ota_revision_matches (assigned_revisions s !! (tenant, device)) (fu_revision f))
    then (Ok Incompatible, s) else
    match prepare (fu_version f) (fu_sha256 f) (fu_url f) public_url with
    | None => (Ok InvalidArtifact, s)
    | Some artifact =>
      match get_from (device_shadows s) tenant device with
      | Err e => (Err e, s)
      | Ok None => (Err PNotFound, s)
      | Ok (Some shadow) =>
        let deps := <[rowid := {| dep_tenant := tenant; dep_device := device; dep_firmware := id;
                                  dep_status := "pending"; dep_error := None;
                                  dep_initiated := now; dep_completed := None |}]>
                      (supersede tenant device now <$> ota_deployments s) in
        match apply_desired_patch shadow (desired_patch artifact id rowid) now' with
        | Err e => (Err (CorruptData (mutation_error_text e)), s)
        | Ok updated =>
          match store (device_shadows s) tenant updated with
          | Err e => (Err e, s)
          | Ok shadows' => (Ok (Ready (delta updated) (sh_version updated)), set_ota s deps shadows')
          end
        end
      end
    end
  end.

(** [TursoFirmwareRepository::apply_ota_status]. *)
Definition with_status (d : Deployment) (u : OtaStatusUpdate) : Deployment :=
  {| dep_tenant := dep_tenant d; dep_device := dep_device d; dep_firmware := dep_firmware d;
     dep_status := ou_status u; dep_error := ou_error_message u;
     dep_initiated := dep_initiated d; dep_completed := (fun t => t / 1000) <$> ou_completed_at u |}.
Definition clear_command (t : ShadowTable) (tenant device : string) (id now : Z)
    : result PersistenceError ShadowTable :=
  sh ← get_from t tenant device;
  match sh with
  | None => Ok t
  | Some shadow =>
    updated ← map_err (fun e => CorruptData (mutation_error_text e)) (clear_ota_for_deployment shadow id now);
    match updated with
    | None => Ok t
    | Some updated => store t tenant updated
    end
  end.
Definition apply_ota_status (s : OtaStore) (tenant device : string) (u : OtaStatusUpdate) (now : Z)
    : result PersistenceError bool * OtaStore :=
  match ota_deployments s !! ou_deployment_id u with
  | None => (Ok false, s)
  | Some d =>
    if negb ((dep_tenant d =s? tenant) && (dep_device d =s? device)) then (Ok false, s)
    else if bool_decide (ou_firmware_update_id u <> Some (dep_firmware d))
            || negb (ota_transition_allowed (dep_status d) (ou_status u)) then (Ok false, s)
    else
      let deps := <[ou_deployment_id u := with_status d u]> (ota_deployments s) in
      if ota_status_is_terminal (ou_status u) then
        match clear_command (device_shadows s) tenant device (ou_deployment_id u) now with
        | Err e => (Err e, s)
        | Ok shadows' => (Ok true, set_ota s deps shadows')
        end
      else (Ok true, set_ota s deps (device_shadows s))
  end.

(** [FirmwareReportApplication::process_report]; [to_lowercase] is the
    standard library's Unicode mapping. *)
Definition report_update (to_lowercase : string -> string) (reported : value) (now : Z) : option OtaStatusUpdate :=
  ota ← get "ota" reported;
  ota ← as_object ota;
  status_raw ← bt_get "status" ota ≫= as_str;
  let status := to_lowercase status_raw in
  id ← bt_get "deployment_id" ota ≫= as_i64;
  if Int.in_i32 id && (0 <? id) then
    Some {| ou_deployment_id := id;
            ou_firmware_update_id :=
              (f ← bt_get "firmware_update_id" ota ≫= as_i64; if Int.in_i32 f then Some f else None);
            ou_status := status;
            ou_error_message := bt_get "error" ota ≫= as_str;
            ou_completed_at := if ota_status_is_terminal status then Some now else None |}
  else None.
Definition process_report (to_lowercase : string -> string) (s : OtaStore) (tenant device : string)
    (reported : value) (now now' : Z) : result ApplicationError unit * OtaStore :=
  match report_update to_lowercase reported now with
  | None => (Ok tt, s)
  | Some u =>
    let (r, s') := apply_ota_status s tenant device u now' in
    ((fun _ => tt) <$> map_err Persistence r, s')
  end.

(** [FirmwareApplication::trigger_ota]; [sign] is the host's token signer. *)
Definition app_trigger_ota (s : OtaStore) (ctx : TenantContext) (device : string) (id : Z)
    (public_url : string) (clock : Z) (sign : FirmwareDownloadGrant -> result ApplicationError string)
    (rowid now now' : Z) : result ApplicationError (value * Z) * OtaStore :=
  match require_permission ctx DeployFirmware with
  | Err e => (Err e, s)
  | Ok _ =>
    match (grant ← grant_new (ctx_tenant ctx) id clock; sign grant) with
    | Err e => (Err e, s)
    | Ok token =>
      let url := trim_end_matches "/" public_url +:+ "/api/v1/ota-downloads/" +:+ token in
      let (r, s') := trigger_ota s (ctx_tenant ctx) device id url rowid now now' in
      (match r with
       | Err e => Err (Persistence e)
       | Ok DeviceNotFound => Err (NotFound ("Device '" +:+ device +:+ "' not found"))
       | Ok FirmwareNotFound => Err (NotFound ("Firmware update " +:+ int_to_string id +:+ " not found"))
       | Ok Incompatible => Err (InvalidInput "Firmware blueprint revision does not match the device contract")
       | Ok InvalidArtifact =>
         Err (InvalidInput "Firmware requires a valid SHA-256, a version of at most 63 bytes and a download URL of at most 1023 bytes")
       | Ok (Ready d v) => Ok (d, v)
       end, s')
    end
  end.
End transactions.

(** ** Statuses *)
Lemma terminal_ranked st :
  is_Some (ota_rank st) -> ota_status_is_terminal st = (st =s? "success") || (st =s? "failed").
Proof.
  unfold ota_rank. intros [r Hr].
  repeat match type of Hr with
  | context [if ?st =s? ?w then _ else _] => destruct (String.eqb_spec st w) as [->|]; [reflexivity|]
  end.
  destruct (String.eqb_spec st "success") as [->|]; [reflexivity|].
  destruct (String.eqb_spec st "failed") as [->|]; [reflexivity|]. done.
Qed.
Lemma live_terminal d :
  is_Some (ota_rank (dep_status d)) -> live d = negb (ota_status_is_terminal (dep_status d)).
Proof. intros Hr. by rewrite terminal_ranked, negb_orb. Qed.
Lemma rank_bounds st r : ota_rank st = Some r -> 0 <= r <= 5.
Proof. unfold ota_rank. repeat case_match; intros; simplify_eq; lia. Qed.
Lemma transition_spec previous next :
  ota_transition_allowed previous next = true ->
  exists a b, ota_rank previous = Some a /\ ota_rank next = Some b /\ a <= b
    /\ ota_status_is_terminal previous = false.
Proof. unfold ota_transition_allowed. repeat case_match; bool_prop; naive_solver. Qed.

(** ** What the shadow table says is commanded

    serde_json prints integers exactly and an object's members by key, so the
    integers at any path survive being written and read back; what it parses
    is a well-formed value. *)
Fixpoint get_path (path : list string) (v : value) : option value :=
  match path with [] => Some v | k :: p => get k v ≫= get_path p end.
Class SerdeJsonLaws `{!SerdeJson} := {
  from_str_wf t v : from_str t = Ok v -> wf_value v;
  integers_survive v t v' path :
    wf_value v -> to_string v = Ok t -> from_str t = Ok v' ->
    (get_path path v' ≫= as_i64) = (get_path path v ≫= as_i64);
}.

Section commands.
Context {codec : SerdeJson} {codec_laws : SerdeJsonLaws}.
Definition row_command (row : ShadowRow) : option Z :=
  match from_str (row_desired row) with Ok v => command_of v | Err _ => None end.

Lemma command_path v : command_of v = get_path ["ota"; "deployment_id"] v ≫= as_i64.
Proof.
  unfold command_of. simpl. destruct (get "ota" v) as [o|]; [|done]. simpl.
  by destruct (get "deployment_id" o).
Qed.
Lemma shadow_row_get t tenant device sh :
  get_from t tenant device = Ok (Some sh) ->
  exists row, t !! (tenant, device) = Some row /\ row_command row = ota_deployment sh
    /\ wf_value (desired sh) /\ sh_device_id sh = device.
Proof using codec_laws.
  unfold get_from. destruct (t !! (tenant, device)) as [row|]; [|done]. intros Hd.
  destruct (decode device row) as [sh'|] eqn:Ed; simplify_eq/=. exists row. split; [done|].
  assert (Hdev := decode_device _ _ _ Ed).
  apply bind_ok in Ed as (d & Hd & (? & _ & (? & _ & (? & _ & (? & _ & [= <-])%bind_ok)%bind_ok)%bind_ok)%bind_ok).
  unfold column_json in Hd. unfold row_command, ota_deployment. simpl.
  destruct (from_str (row_desired row)) as [v|] eqn:Ef; simplify_eq/=. eauto using from_str_wf.
Qed.
Lemma store_rows t tenant sh t' k row :
  store t tenant sh = Ok t' -> wf_value (desired sh) -> t' !! k = Some row ->
  if decide (k = (tenant, sh_device_id sh))
  then forall id, row_command row = Some id -> ota_deployment sh = Some id
  else t !! k = Some row.
Proof using codec_laws.
  intros (d & Hd & (r & _ & (dl & _ & [= <-])%bind_ok)%bind_ok)%bind_ok Hwf Hk.
  unfold ShadowTable in *. case_decide as E.
  - subst k. destruct (t !! (tenant, sh_device_id sh)) as [row0|] eqn:Et; [|congruence].
    rewrite lookup_insert_eq in Hk. simplify_eq. intros id. unfold row_command. simpl.
    destruct (from_str d) as [v|] eqn:Ef; [|done]. unfold column_text in Hd.
    destruct (to_string (desired sh)) as [txt|] eqn:Et'; simplify_eq/=.
    unfold ota_deployment. rewrite !command_path. by erewrite integers_survive.
  - destruct (t !! (tenant, sh_device_id sh)); [|done]. by rewrite lookup_insert_ne in Hk.
Qed.

(** No command appears that was not there. *)
Definition commands_from (t t' : ShadowTable) : Prop :=
  forall k row id, t' !! k = Some row -> row_command row = Some id ->
    exists row0, t !! k = Some row0 /\ row_command row0 = Some id.
Lemma commands_from_refl t : commands_from t t.
Proof. intros k row id ? ?. eauto. Qed.
Lemma mutate_commands t tenant device f :
  (forall sh r, f sh = Ok r -> wf_value (desired sh) ->
     sh_device_id r = sh_device_id sh /\ wf_value (desired r)
     /\ (forall id, ota_deployment r = Some id -> ota_deployment sh = Some id)) ->
  commands_from t (mutate t tenant device f).2.
Proof using codec_laws.
  intros Hf. unfold mutate.
  destruct (get_from t tenant device) as [[cur|]|e] eqn:Eg; [|apply commands_from_refl..].
  destruct (f cur) as [r|e] eqn:Ef; [|apply commands_from_refl].
  destruct (store t tenant r) as [t'|e] eqn:Es; [|apply commands_from_refl]. simpl.
  apply shadow_row_get in Eg as (row0 & Hrow0 & Hcmd & Hwf & Hdev).
  destruct (Hf _ _ Ef Hwf) as (Hd & Hwf' & Hk). intros k row id Hrow Hid.
  assert (Hs := store_rows _ _ _ _ _ _ Es Hwf' Hrow). case_decide; [|eauto].
  subst k. exists row0. rewrite Hd, Hdev. split; [done|]. rewrite Hcmd. auto.
Qed.
End commands.

(** ** Deployments and commands agree *)
Definition dep_key (d : Deployment) : string * string := (dep_tenant d, dep_device d).

Section invariant.
Context {codec : SerdeJson} {codec_laws : SerdeJsonLaws}.
Implicit Types (s : OtaStore) (d : Deployment).

Record ota_inv s : Prop := {
  (** every status is one of the machine's *)
  inv_status id d : ota_deployments s !! id = Some d -> is_Some (ota_rank (dep_status d));
  (** a device has at most one deployment in flight *)
  inv_single id1 id2 d1 d2 :
    ota_deployments s !! id1 = Some d1 -> ota_deployments s !! id2 = Some d2 ->
    dep_key d1 = dep_key d2 -> live d1 = true -> live d2 = true -> id1 = id2;
  (** the command in a device's shadow is its deployment in flight *)
  inv_command k row id :
    device_shadows s !! k = Some row -> row_command row = Some id ->
    exists d, ota_deployments s !! id = Some d /\ dep_key d = k /\ live d = true;
}.

(** The operations that write deployments or shadows, whatever they answer. *)
Inductive ota_step s : OtaStore -> Prop :=
| ota_step_trigger tenant device id url rowid now now' answer s' :
    ota_deployments s !! rowid = None -> 0 < rowid <= Int.i64_max -> Int.in_i32 id = true ->
    trigger_ota s tenant device id url rowid now now' = (answer, s') -> ota_step s s'
| ota_step_report lower tenant device reported now now' answer s' :
    process_report lower s tenant device reported now now' = (answer, s') -> ota_step s s'
| ota_step_user_patch ctx device patch now answer sh :
    wf_value (Object patch) ->
    app_update_desired (device_shadows s) ctx device patch now = (answer, sh) ->
    ota_step s (set_ota s (ota_deployments s) sh)
| ota_step_device_report tenant device patch now answer sh :
    wf_value (Object patch) ->
    device_update_reported (device_shadows s) tenant device patch now = (answer, sh) ->
    ota_step s (set_ota s (ota_deployments s) sh)
| ota_step_reset ctx device now answer sh :
    app_reset (device_shadows s) ctx device now = (answer, sh) ->
    ota_step s (set_ota s (ota_deployments s) sh)
(** any change of devices, firmware and assignments *)
| ota_step_admin s' :
    ota_deployments s' = ota_deployments s -> device_shadows s' = device_shadows s -> ota_step s s'.

Lemma inv_no_new_commands s t :
  ota_inv s -> commands_from (device_shadows s) t -> ota_inv (set_ota s (ota_deployments s) t).
Proof.
  intros [H1 H2 H3] Hc. split; [done|done|]. simpl. intros k row id Hr Hid.
  destruct (Hc _ _ _ Hr Hid) as (row0 & ? & ?). eauto.
Qed.

(** Desired patches without the reserved key, reports and resets command nothing. *)
Lemma user_patch_commands t tenant device patch now :
  wf_value (Object patch) -> bt_get "ota" patch = None ->
  commands_from t (mutate t tenant device (fun sh => apply_desired_patch sh patch now)).2.
Proof using codec_laws.
  intros Hp Ho. apply mutate_commands. intros sh r (v & _ & [= <-])%bind_ok Hwf.
  inversion Hp as [| | | | |? Hs _]; subst.
  split_and!; [done|by apply merge_wf, Hp; apply object_or_empty_wf|].
  intros id. unfold ota_deployment, command_of. cbn [desired]. rewrite merge_get, Ho by done.
  by destruct (desired sh).
Qed.
Lemma reported_patch_commands t tenant device patch now :
  commands_from t (mutate t tenant device (fun sh => apply_reported_patch sh patch now)).2.
Proof using codec_laws.
  apply mutate_commands. intros sh r (v & _ & [= <-])%bind_ok Hwf.
  split_and!; [done|by apply object_or_empty_wf|].
  intros id. unfold ota_deployment, command_of. cbn [desired]. by destruct (desired sh).
Qed.
Lemma reset_commands t tenant device now :
  commands_from t (mutate t tenant device (fun sh => reset_shadow sh now)).2.
Proof using codec_laws.
  apply mutate_commands. intros sh r (v & _ & [= <-])%bind_ok Hwf.
  split_and!; [done|constructor; [apply bt_sorted_nil|constructor]|done].
Qed.

(** *** Triggering *)
Lemma supersede_key tenant device now d : dep_key (supersede tenant device now d) = dep_key d.
Proof. unfold supersede. by case_match. Qed.
Lemma supersede_live tenant device now d :
  live (supersede tenant device now d) = true ->
  supersede tenant device now d = d /\ dep_key d <> (tenant, device) /\ live d = true.
Proof.
  unfold supersede. case_match eqn:E; [done|]. intros Hl. split_and!; [done| |done].
  unfold dep_key. intros [= <- <-]. by rewrite !String.eqb_refl, Hl in E.
Qed.
Lemma supersede_other tenant device now d :
  dep_key d <> (tenant, device) -> supersede tenant device now d = d.
Proof.
  unfold supersede, dep_key. intros Hne. case_match eqn:E; [|done]. bool_prop. naive_solver.
Qed.
Lemma supersede_rank tenant device now d :
  is_Some (ota_rank (dep_status d)) -> is_Some (ota_rank (dep_status (supersede tenant device now d))).
Proof. unfold supersede. by case_match. Qed.

Lemma of_int_ok z : Int.in_i64 z = true -> wf_value (of_int z) /\ as_i64 (of_int z) = Some z.
Proof.
  rewrite Int.in_i64_spec. unfold of_int, Int.i64_min, Int.i64_max. intros Hz.
  destruct (Z.leb_spec 0 z); simpl.
  - split; [constructor; apply Int.in_u64_spec; unfold Int.u64_max; lia|].
    destruct (Z.leb_spec z Int.i64_max); [done|]. unfold Int.i64_max in *. lia.
  - split; [|done]. constructor. simpl. rewrite andb_true_iff, Int.in_i64_spec, Z.ltb_lt.
    unfold Int.i64_min, Int.i64_max. lia.
Qed.
Lemma object_wf l : Forall (fun e => wf_value e.2) l -> wf_value (object l).
Proof.
  intros Hl. constructor; [apply bt_collect_sorted|]. unfold bt_collect.
  assert (forall m, Forall (fun e => wf_value e.2) m ->
    Forall (fun e => wf_value e.2) (fold_left (fun m e => bt_insert e.1 e.2 m) l m)) as Hf.
  { induction Hl as [|e l He _ IH]; intros m Hm; [done|]. simpl. by apply IH, wf_members_insert. }
  by apply Hf.
Qed.
Lemma desired_patch_wf a firmware_id deployment_id :
  Int.in_i64 firmware_id = true -> Int.in_i64 deployment_id = true ->
  wf_value (Object (desired_patch a firmware_id deployment_id)).
Proof.
  intros Hf Hd. constructor; [repeat constructor|]. constructor; [|constructor]. simpl.
  apply object_wf.
  repeat apply Forall_cons_2; simpl; try apply wf_string; try apply Forall_nil_2; by apply of_int_ok.
Qed.
Lemma desired_patch_command a firmware_id deployment_id v :
  Int.in_i64 deployment_id = true ->
  command_of (merge_json v (desired_patch a firmware_id deployment_id)) = Some deployment_id.
Proof.
  intros Hd. unfold command_of. rewrite merge_get by repeat constructor.
  cbn [desired_patch bt_insert bt_get]. rewrite String.eqb_refl.
  cbn [is_null object mbind option_bind]. simpl. by apply of_int_ok.
Qed.

(** Everything a successful trigger did. *)
Lemma trigger_ready s tenant device id url rowid now now' dl v s' :
  trigger_ota s tenant device id url rowid now now' = (Ok (Ready dl v), s') ->
  exists f artifact shadow updated shadows',
    (tenant, device) ∈ ota_devices s
    /\ firmware_updates s !! (tenant, id) = Some f
    /\ ota_revision_matches (assigned_revisions s !! (tenant, device)) (fu_revision f) = true
    /\ prepare (fu_version f) (fu_sha256 f) (fu_url f) url = Some artifact
    /\ get_from (device_shadows s) tenant device = Ok (Some shadow)
    /\ apply_desired_patch shadow (desired_patch artifact id rowid) now' = Ok updated
    /\ store (device_shadows s) tenant updated = Ok shadows'
    /\ dl = delta updated /\ v = sh_version updated
    /\ s' = set_ota s (<[rowid := {| dep_tenant := tenant; dep_device := device; dep_firmware := id;
                                  dep_status := "pending"; dep_error := None;
                                  dep_initiated := now; dep_completed := None |}]>
                      (supersede tenant device now <$> ota_deployments s)) shadows'.
Proof.
  unfold trigger_ota. intros H.
  destruct (bool_decide _) eqn:E1; [|done]. apply bool_decide_eq_true in E1. simpl in H.
  destruct (firmware_updates s !! (tenant, id)) as [f|]; [|done].
  destruct (ota_revision_matches _ _) eqn:E2; [|done]. simpl in H.
  destruct (prepare _ _ _ _) as [a|] eqn:E3; [|done].
  destruct (get_from _ _ _) as [[sh|]|] eqn:E4; [|done|done].
  destruct (apply_desired_patch _ _ _) as [upd|] eqn:E5; [|done].
  destruct (store _ _ _) as [t|] eqn:E6; [|done]. simplify_eq. eauto 20.
Qed.
(** Every other answer of a trigger leaves the store alone. *)
Lemma trigger_refused s tenant device id url rowid now now' answer s' :
  trigger_ota s tenant device id url rowid now now' = (answer, s') ->
  (forall dl v, answer <> Ok (Ready dl v)) -> s' = s.
Proof.
  unfold trigger_ota. intros H Hn. repeat case_match; simplify_eq; try done. by destruct (Hn _ _ eq_refl).
Qed.

Lemma trigger_inv s tenant device id url rowid now now' answer s' :
  ota_inv s -> ota_deployments s !! rowid = None -> 0 < rowid <= Int.i64_max -> Int.in_i32 id = true ->
  trigger_ota s tenant device id url rowid now now' = (answer, s') -> ota_inv s'.
Proof using codec_laws.
  intros Hinv Hfresh Hid Hfw Htr.
  assert ((exists dl v, answer = Ok (Ready dl v)) \/ forall dl v, answer <> Ok (Ready dl v))
    as [(dl & v & ->)|Hn] by (destruct answer as [[]|]; naive_solver).
  2: { by apply trigger_refused in Htr as ->. }
  apply trigger_ready in Htr as (f & a & sh & upd & t' & _ & _ & _ & _ & Hg & Hap & Hst & _ & _ & ->).
  assert (Int.in_i64 rowid = true) as Hr by (apply Int.in_i64_spec; unfold Int.i64_min; lia).
  assert (Int.in_i64 id = true) as Hi.
  { apply Int.in_i32_spec in Hfw. apply Int.in_i64_spec.
    unfold Int.i32_min, Int.i32_max, Int.i64_min, Int.i64_max in *. lia. }
  apply shadow_row_get in Hg as (row0 & _ & _ & Hwf & Hdev).
  apply bind_ok in Hap as (ver & _ & [= <-]). simpl in Hst.
  split; simpl.
  - intros id0 d0 [[<- <-]|[_ (d & <- & Hd)%lookup_fmap_Some]]%lookup_insert_Some; [done|].
    eapply supersede_rank, inv_status; eauto.
  - intros id1 id2 d1 d2 H1 H2 Hkey L1 L2.
    apply lookup_insert_Some in H1 as [[<- <-]|[Hne1 (e1 & <- & He1)%lookup_fmap_Some]],
      H2 as [[<- <-]|[Hne2 (e2 & <- & He2)%lookup_fmap_Some]]; [done|..].
    + rewrite supersede_key in Hkey. by apply supersede_live in L2 as (_ & [] & _).
    + rewrite supersede_key in Hkey. by apply supersede_live in L1 as (_ & [] & _).
    + rewrite !supersede_key in Hkey. apply supersede_live in L1 as (_ & _ & ?), L2 as (_ & _ & ?).
      by eapply inv_single.
  - intros k row cmd Hrow Hcmd. eapply store_rows in Hst; [..|exact Hrow].
    2: { simpl. apply merge_wf; [by apply object_or_empty_wf|by apply desired_patch_wf]. }
    simpl in Hst. rewrite Hdev in Hst. case_decide as E.
    + apply Hst in Hcmd. unfold ota_deployment in Hcmd. simpl in Hcmd.
      rewrite desired_patch_command in Hcmd by done. simplify_eq.
      eexists. rewrite lookup_insert_eq. done.
    + destruct (inv_command _ Hinv _ _ _ Hst Hcmd) as (d & Hd & Hk & Hl).
      exists d. rewrite lookup_insert_ne by congruence. rewrite lookup_fmap, Hd. simpl.
      by rewrite supersede_other by congruence.
Qed.

(** *** Reporting *)
Lemma clear_command_rows t tenant device id now t' k row cmd :
  clear_command t tenant device id now = Ok t' -> t' !! k = Some row -> row_command row = Some cmd ->
  t !! k = Some row /\ (k = (tenant, device) -> cmd <> id).
Proof using codec_laws.
  intros (sh & Hg & Hc)%bind_ok Hrow Hcmd. destruct sh as [sh|].
  2: { simplify_eq. split; [done|]. intros ->. unfold get_from in Hg. rewrite Hrow in Hg.
       by destruct (decode device row). }
  apply shadow_row_get in Hg as (row0 & Hrow0 & Hcmd0 & Hwf & Hdev).
  apply bind_ok in Hc as ([upd|] & Hu & Hc).
  - destruct (clear_ota_for_deployment sh id now) as [o|] eqn:Eo; simplify_eq/=.
    apply clear_ota_patch in Eo as [Hdep (ver & _ & [= <-])%bind_ok].
    eapply store_rows in Hc; [..|exact Hrow].
    2: { simpl. by apply merge_wf, wf_clear_patch; apply object_or_empty_wf. }
    case_decide as E; [|split; [done|simpl in E; congruence]].
    apply Hc in Hcmd. unfold ota_deployment, command_of in Hcmd. cbn [desired] in Hcmd.
    by rewrite merge_get in Hcmd by repeat constructor.
  - simplify_eq. split; [done|]. intros -> ->. rewrite Hrow0 in Hrow. simplify_eq.
    destruct (clear_ota_for_deployment sh id now) as [o|] eqn:Eo; simplify_eq/=.
    unfold clear_ota_for_deployment in Eo. rewrite bool_decide_false in Eo by congruence.
    by destruct (apply_desired_patch _ _ _).
Qed.
Lemma apply_true s tenant device u now answer s' :
  apply_ota_status s tenant device u now = (answer, s') ->
  s' = s \/
  exists d t', ota_deployments s !! ou_deployment_id u = Some d /\ dep_key d = (tenant, device)
    /\ ou_firmware_update_id u = Some (dep_firmware d)
    /\ ota_transition_allowed (dep_status d) (ou_status u) = true
    /\ s' = set_ota s (<[ou_deployment_id u := with_status d u]> (ota_deployments s)) t'
    /\ (if ota_status_is_terminal (ou_status u)
        then clear_command (device_shadows s) tenant device (ou_deployment_id u) now = Ok t'
        else t' = device_shadows s).
Proof.
  unfold apply_ota_status. intros H. destruct (ota_deployments s !! _) as [d|] eqn:Ed; [|simplify_eq; by left].
  destruct ((dep_tenant d =s? tenant) && (dep_device d =s? device)) eqn:E1; [|simplify_eq/=; by left].
  simpl in H. case_match eqn:E2; [simplify_eq; by left|].
  apply orb_false_iff in E2 as [E2 E3%negb_false_iff]. apply bool_decide_eq_false in E2.
  apply dec_stable in E2. bool_prop.
  destruct (ota_status_is_terminal (ou_status u)).
  - destruct (clear_command _ _ _ _ _) eqn:Ec; simplify_eq; [right|by left].
    eexists d, _. unfold dep_key. split_and!; naive_solver.
  - simplify_eq. right. eexists d, _. unfold dep_key. split_and!; naive_solver.
Qed.
Lemma apply_inv s tenant device u now answer s' :
  ota_inv s -> apply_ota_status s tenant device u now = (answer, s') -> ota_inv s'.
Proof using codec_laws.
  intros Hinv [->|(d & t' & Hd & Hkey & _ & Htr & -> & Ht)]%apply_true; [done|].
  apply transition_spec in Htr as (ra & rb & Ha & Hb & _ & Hnt).
  assert (live d = true) as Hl by (rewrite live_terminal, Hnt; eauto).
  split; simpl.
  - intros id0 d0 [[<- <-]|[_ H0]]%lookup_insert_Some; [by eexists|]. by eapply inv_status.
  - intros id1 id2 d1 d2 H1 H2 Hk L1 L2.
    apply lookup_insert_Some in H1 as [[<- <-]|[Hne1 He1]], H2 as [[<- <-]|[Hne2 He2]]; [done|..].
    + by eapply inv_single.
    + by eapply inv_single.
    + by eapply inv_single.
  - intros k row cmd Hrow Hcmd.
    destruct (ota_status_is_terminal (ou_status u)) eqn:Et.
    + destruct (clear_command_rows _ _ _ _ _ _ _ _ _ Ht Hrow Hcmd) as [Hrow0 Hne].
      destruct (inv_command _ Hinv _ _ _ Hrow0 Hcmd) as (d0 & Hd0 & Hk & Hl0).
      exists d0. split; [|done]. rewrite lookup_insert_ne; [done|]. intros <-.
      assert (d0 = d) as -> by congruence. apply Hne; congruence.
    + subst t'. destruct (inv_command _ Hinv _ _ _ Hrow Hcmd) as (d0 & Hd0 & Hk & Hl0).
      destruct (decide (cmd = ou_deployment_id u)) as [->|Hne]; [|exists d0; by rewrite lookup_insert_ne].
      assert (d0 = d) as -> by congruence. eexists. rewrite lookup_insert_eq. split_and!; [done|done|].
      rewrite live_terminal; simpl; [by rewrite Et|eauto].
Qed.

(** *** Histories *)
Lemma process_report_apply lower s tenant device reported now now' answer s' :
  process_report lower s tenant device reported now now' = (answer, s') ->
  s' = s \/ exists u r, apply_ota_status s tenant device u now' = (r, s').
Proof.
  unfold process_report. destruct (report_update _ _ _) as [u|]; [|intros; simplify_eq; by left].
  destruct (apply_ota_status s tenant device u now') as [r s1] eqn:E. intros. simplify_eq. eauto.
Qed.
Lemma user_patch_step t ctx device patch now answer t' :
  wf_value (Object patch) -> app_update_desired t ctx device patch now = (answer, t') -> commands_from t t'.
Proof using codec_laws.
  intros Hp. unfold app_update_desired. destruct (require_permission _ _); [|intros; simplify_eq; apply commands_from_refl].
  destruct (bt_contains_key "ota" patch) eqn:Eo; [intros; simplify_eq; apply commands_from_refl|].
  unfold bt_contains_key in Eo. destruct (bt_get "ota" patch) eqn:Eg; [done|].
  assert (Hc := user_patch_commands t (ctx_tenant ctx) device patch now Hp Eg). simpl.
  destruct (mutate _ _ _ _). intros. by simplify_eq.
Qed.
Lemma device_report_step t tenant device patch now answer t' :
  device_update_reported t tenant device patch now = (answer, t') -> commands_from t t'.
Proof using codec_laws.
  unfold device_update_reported. assert (Hc := reported_patch_commands t tenant device patch now). simpl.
  destruct (mutate _ _ _ _). intros. by simplify_eq.
Qed.
Lemma reset_step t ctx device now answer t' :
  app_reset t ctx device now = (answer, t') -> commands_from t t'.
Proof using codec_laws.
  unfold app_reset. destruct (require_permission _ _); [|intros; simplify_eq; apply commands_from_refl].
  assert (Hc := reset_commands t (ctx_tenant ctx) device now). simpl.
  destruct (mutate _ _ _ _). intros. by simplify_eq.
Qed.
Lemma ota_step_inv s s' : ota_inv s -> ota_step s s' -> ota_inv s'.
Proof using codec_laws.
  intros Hinv [].
  - by eapply trigger_inv.
  - destruct (process_report_apply _ _ _ _ _ _ _ _ _ ltac:(eassumption)) as [->|(u & r & Ha)]; [done|].
    by eapply apply_inv.
  - eapply inv_no_new_commands; [done|]. by eapply user_patch_step.
  - eapply inv_no_new_commands; [done|]. by eapply device_report_step.
  - eapply inv_no_new_commands; [done|]. by eapply reset_step.
  - destruct Hinv as [H1 H2 H3].
    split; repeat match goal with E : _ = _ s |- _ => rewrite E; clear E end; done.
Qed.

(** One deployment after one step. *)
Definition advances (d d' : Deployment) : Prop :=
  dep_key d' = dep_key d /\ dep_firmware d' = dep_firmware d /\ dep_initiated d' = dep_initiated d
  /\ (live d = false -> d' = d)
  /\ exists a b, ota_rank (dep_status d) = Some a /\ ota_rank (dep_status d') = Some b /\ a <= b.
Lemma advances_refl d : is_Some (ota_rank (dep_status d)) -> advances d d.
Proof. intros [r Hr]. repeat split. exists r, r. split_and!; [done|done|lia]. Qed.
Lemma advances_trans d1 d2 d3 : advances d1 d2 -> advances d2 d3 -> advances d1 d3.
Proof.
  intros (K1 & F1 & I1 & L1 & a & b & Ha & Hb & Hab) (K2 & F2 & I2 & L2 & b' & c & Hb' & Hc & Hbc).
  split_and!; [congruence..| |].
  - intros Hl. specialize (L1 Hl). subst d2. auto.
  - exists a, c. split_and!; [done|done|]. rewrite Hb in Hb'. simplify_eq. lia.
Qed.
Lemma supersede_advances tenant device now d :
  is_Some (ota_rank (dep_status d)) -> advances d (supersede tenant device now d).
Proof.
  intros Hr. unfold supersede. case_match eqn:E; [|by apply advances_refl].
  apply andb_true_iff in E as [_ E]. repeat split; simpl; [congruence|].
  destruct Hr as [r Hr]. exists r, 5. apply rank_bounds in Hr as ?. split_and!; [done|done|lia].
Qed.
Lemma ota_step_advances s s' id d :
  ota_inv s -> ota_step s s' -> ota_deployments s !! id = Some d ->
  exists d', ota_deployments s' !! id = Some d' /\ advances d d'.
Proof.
  intros Hinv Hstep Hd. assert (Hr := inv_status _ Hinv _ _ Hd).
  assert (Hsame : exists d', ota_deployments s !! id = Some d' /\ advances d d') by eauto using advances_refl.
  destruct Hstep as [tenant device fw url rowid now now' answer s' Hfresh _ _ Htr
                    |lower tenant device reported now now' answer s' Hrep|?|?|?|s' E _]; simpl; try done.
  - assert ((exists dl v, answer = Ok (Ready dl v)) \/ forall dl v, answer <> Ok (Ready dl v))
      as [(dl & v & ->)|Hn] by (destruct answer as [[]|]; naive_solver).
    2: { by apply trigger_refused in Htr as ->. }
    apply trigger_ready in Htr as (f & a & sh & upd & t' & _ & _ & _ & _ & _ & _ & _ & _ & _ & ->). simpl.
    exists (supersede tenant device now d). rewrite lookup_insert_ne by congruence.
    rewrite lookup_fmap, Hd. split; [done|]. by apply supersede_advances.
  - apply process_report_apply in Hrep as [->|(u & r & Ha)]; [done|].
    apply apply_true in Ha as [->|(d0 & t' & Hd0 & _ & _ & Ht & -> & _)]; [done|]. simpl.
    apply transition_spec in Ht as (a & b & Ha & Hb & Hab & Hnt).
    destruct (decide (id = ou_deployment_id u)) as [->|Hne]; [|by rewrite lookup_insert_ne].
    assert (d0 = d) as -> by congruence. eexists. rewrite lookup_insert_eq. split; [done|].
    split_and!; [done|done|done| |by exists a, b].
    rewrite live_terminal by done. by rewrite Hnt.
  - by rewrite E.
Qed.

(** C4. Deployments and commands agree: in every history of triggers, device
    reports, shadow patches and resets, a device has at most one deployment
    in flight, and an [ota] command in its shadow always names exactly that
    deployment, so a device is never told to install a finished or foreign
    deployment. *)
Theorem ota_commands_consistent s s' :
  ota_inv s -> rtc ota_step s s' -> ota_inv s'.
Proof using codec_laws. intros Hinv. induction 1; eauto using ota_step_inv. Qed.

(** The status machine only moves forward: over any history a deployment
    keeps its device, firmware and start time, its status never moves back,
    and a finished deployment never changes at all. *)
Theorem ota_deployments_advance s s' id d :
  ota_inv s -> rtc ota_step s s' -> ota_deployments s !! id = Some d ->
  exists d', ota_deployments s' !! id = Some d' /\ advances d d'.
Proof using codec_laws.
  intros Hinv Hs. revert d Hinv. induction Hs as [s|s1 s2 s3 Hs _ IH]; intros d Hinv Hd.
  - exists d. split; [done|]. by eapply advances_refl, inv_status.
  - destruct (ota_step_advances _ _ _ _ Hinv Hs Hd) as (d2 & Hd2 & A1).
    destruct (IH d2 (ota_step_inv _ _ Hinv Hs) Hd2) as (d3 & Hd3 & A2).
    exists d3. split; [done|]. by eapply advances_trans.
Qed.
End invariant.

(** ** Triggering is guarded *)

(** A trigger succeeds only for a known device whose assigned contract
    revision is exactly the artifact's, with an artifact that satisfies the
    download policy; it then records one pending deployment and puts that
    artifact's command in the desired state.  Any other answer changes
    nothing. *)
Theorem trigger_ota_guarded `{!SerdeJson} s tenant device id url rowid now now' :
  let (answer, s') := trigger_ota s tenant device id url rowid now now' in
  match answer with
  | Ok (Ready dl v) =>
    exists f artifact shadow updated,
      (tenant, device) ∈ ota_devices s
      /\ firmware_updates s !! (tenant, id) = Some f
      /\ assigned_revisions s !! (tenant, device) = Some (fu_revision f) /\ fu_revision f <> ""
      /\ valid_ota_artifact (po_version artifact) (Some (po_sha256 artifact)) (po_url artifact) = true
      /\ po_version artifact = fu_version f /\ fu_sha256 f = Some (po_sha256 artifact)
      /\ po_url artifact = (if starts_with "https://" (fu_url f) then fu_url f else url)
      /\ get_from (device_shadows s) tenant device = Ok (Some shadow)
      /\ apply_desired_patch shadow (desired_patch artifact id rowid) now' = Ok updated
      /\ dl = delta updated /\ v = sh_version updated
      /\ (dep_status <$> ota_deployments s' !! rowid) = Some "pending"
      /\ (dep_key <$> ota_deployments s' !! rowid) = Some (tenant, device)
  | _ => s' = s
  end.
Proof.
  destruct (trigger_ota _ _ _ _ _ _ _ _) as [answer s'] eqn:E.
  destruct answer as [[| | | |dl v]|e]; try (by eapply trigger_refused).
  apply trigger_ready in E
    as (f & a & sh & upd & t' & Hdev & Hf & Hrev & Hprep & Hg & Hap & Hst & -> & -> & ->).
  unfold ota_revision_matches in Hrev. destruct (assigned_revisions s !! (tenant, device)) as [r|]; [|done].
  apply andb_true_iff in Hrev as [Hne%negb_true_iff Heq%String.eqb_eq]. subst r.
  unfold prepare in Hprep. case_match eqn:Ev; [done|]. apply negb_false_iff in Ev.
  destruct (fu_sha256 f) as [h|] eqn:Eh; simplify_eq/=.
  exists f, {| po_version := fu_version f;
               po_url := if starts_with "https://" (fu_url f) then fu_url f else url; po_sha256 := h |}, sh, upd.
  cbn [set_ota ota_deployments]. rewrite !lookup_insert_eq.
  split_and!; try done. intros E. by rewrite E in Hne.
Qed.

(** ** Version numbering *)
Lemma split_version a b n :
  contains_char "." a = false -> contains_char "." b = false -> 0 <= n ->
  split_char "." (a +:+ "." +:+ b +:+ "." +:+ int_to_string n) = [a; b; int_to_string n].
Proof.
  intros Ha Hb Hn. rewrite !app_cons, !app_empty_l, split_char_app by done. f_equal.
  rewrite split_char_app by done. f_equal. apply split_char_none, contains_char_false.
  unfold int_to_string. destruct (Z.ltb_spec n 0); [lia|]. generalize (digits_forall n Hn).
  apply str_forall_impl. intros c Hc. destruct (Ascii.eqb_spec c ".") as [->|]; [by vm_compute in Hc|done].
Qed.

(** The next version of [a.b.n] is [a.b.(n+1)] for every patch number
    below the [u32] maximum, and at the maximum the release build wraps to
    [a.b.0], an older version. *)
Theorem increment_version_spec a b n :
  contains_char "." a = false -> contains_char "." b = false -> Int.in_u32 n = true ->
  increment_firmware_version (a +:+ "." +:+ b +:+ "." +:+ int_to_string n)
  = a +:+ "." +:+ b +:+ "." +:+ int_to_string (if n =? Int.u32_max then 0 else n + 1).
Proof.
  intros Ha Hb Hn%Int.in_u32_spec. unfold increment_firmware_version.
  rewrite split_version by (done || lia). unfold parse_u32. rewrite parse_unsigned_to_string by lia.
  unfold Int.wrapping_add_u32. do 5 f_equal. unfold Int.u32_max in *.
  destruct (Z.eqb_spec n (2 ^ 32 - 1)) as [->|]; [done|]. apply Z.mod_small. lia.
Qed.
Lemma increment_version_spec_witness :
  increment_firmware_version "2.0.4294967295" = "2.0.0".
Proof. exact (increment_version_spec "2" "0" 4294967295 eq_refl eq_refl eq_refl). Defined.

(** ** A concrete codec

    A table of texts and values; equal values share a text. *)
Definition rel_option {A} (R : A -> A -> Prop) (a b : option A) : Prop :=
  match a, b with Some x, Some y => R x y | None, None => True | _, _ => False end.
Lemma get_eqb k a b :
  value_eqb a b = true -> rel_option (fun x y => value_eqb x y = true) (get k a) (get k b).
Proof.
  destruct a, b; try done. simpl. revert m0. induction m as [|[k1 x] m IH]; intros [|[k2 y] m2]; try done.
  intros [[->%String.eqb_eq Hxy]%andb_true_iff Hm]%andb_true_iff. simpl.
  destruct (k =s? k2); [done|by apply IH].
Qed.
Lemma get_path_eqb path a b :
  value_eqb a b = true -> (get_path path a ≫= as_i64) = (get_path path b ≫= as_i64).
Proof.
  revert a b. induction path as [|k path IH]; intros a b Hab; simpl.
  - destruct a as [| |[]| | |], b as [| |[]| | |]; try done; simpl in *;
      apply Z.eqb_eq in Hab; by subst.
  - assert (Hk := get_eqb k _ _ Hab). destruct (get k a), (get k b); simpl in *; try done. by apply IH.
Qed.
Definition table_codec (table : list (string * value)) : SerdeJson :=
  {| to_string := fun v => ok_or (fst <$> List.find (fun e => value_eqb v e.2) table) "unsupported";
     from_str := fun t => ok_or (bt_get t table) "unsupported";
     utc_in_range := fun _ => true |}.
Lemma table_codec_laws table :
  Forall (fun e => wf_value e.2) table -> NoDup table.*1 -> @SerdeJsonLaws (table_codec table).
Proof.
  intros Hwf Hnd. split; simpl.
  - intros t v Hv%ok_or_ok%bt_get_Some_elem. rewrite Forall_forall in Hwf. exact (Hwf _ Hv).
  - intros v t v' path _ Ht%ok_or_ok Hv%ok_or_ok%bt_get_Some_elem.
    destruct (List.find _ table) as [[t0 w]|] eqn:E; simplify_eq/=.
    apply List.find_some in E as [Hin%list_elem_of_In Heq]. simpl in Heq.
    assert (v' = w) as ->; [|symmetry; by apply get_path_eqb].
    apply list_elem_of_lookup in Hin as [i Hi], Hv as [j Hj].
    assert (i = j) as <-; [|congruence].
    eapply (NoDup_lookup _ _ _ t Hnd); rewrite list_lookup_fmap; [by rewrite Hi|by rewrite Hj].
Qed.

Definition demo_hash : string := "0123456789abcdef0123456789abcdef0123456789abcdef0123456789abcdef".
Definition demo_command (rowid : Z) : value :=
  object [("ota", object [("firmware_version", VString "1.0.1");
    ("firmware_url", VString "https://example.test/fw.bin"); ("firmware_update_id", of_int 3);
    ("deployment_id", of_int rowid); ("sha256", VString demo_hash)])].
Definition demo_texts : list (string * value) := [("{}", Object []); ("deployment 7", demo_command 7)].
Definition demo_codec : SerdeJson := table_codec demo_texts.
Lemma demo_codec_laws : @SerdeJsonLaws demo_codec.
Proof.
  apply table_codec_laws.
  - repeat apply Forall_cons_2; [| |apply Forall_nil_2]; by apply wf_valueb_sound.
  - apply (bool_decide_unpack _). vm_compute. exact I.
Qed.
Definition demo_ota_store : OtaStore :=
  {| ota_devices := {[("default", "dev-1")]};
     firmware_updates := {[("default", 3) := {| fu_version := "1.0.1";
       fu_url := "https://example.test/fw.bin"; fu_sha256 := Some demo_hash; fu_revision := "rev-1" |}]};
     assigned_revisions := {[("default", "dev-1") := "rev-1"]};
     ota_deployments := ∅; device_shadows := {[("default", "dev-1") := demo_row]} |}.
Definition demo_triggered : OtaStore := (trigger_ota (H := demo_codec) demo_ota_store "default" "dev-1" 3 "" 7 5 5000).2.

Lemma demo_ota_inv : ota_inv (codec := demo_codec) demo_ota_store.
Proof.
  split; simpl.
  - by intros id d ?%lookup_empty_Some.
  - by intros id1 id2 d1 d2 ?%lookup_empty_Some.
  - intros k row id Hr Hc. unfold ShadowTable in Hr.
    apply lookup_singleton_Some in Hr as [<- <-]. vm_compute in Hc. discriminate Hc.
Qed.
Lemma demo_trigger_step : ota_step (codec := demo_codec) demo_ota_store demo_triggered.
Proof.
  eapply (ota_step_trigger _ "default" "dev-1" 3 "" 7 5 5000); [done|done|done|].
  apply surjective_pairing.
Qed.

Lemma ota_commands_consistent_witness :
  ota_inv (codec := demo_codec) demo_triggered
  /\ (dep_status <$> ota_deployments demo_triggered !! 7) = Some "pending".
Proof.
  split; [|vm_compute; reflexivity].
  exact (ota_commands_consistent (codec_laws := demo_codec_laws) _ _ demo_ota_inv
           (rtc_once _ _ demo_trigger_step)).
Defined.
Definition demo_deployment : Deployment :=
  {| dep_tenant := "default"; dep_device := "dev-1"; dep_firmware := 3; dep_status := "pending";
     dep_error := None; dep_initiated := 5; dep_completed := None |}.
Lemma ota_deployments_advance_witness :
  exists s' d', rtc (ota_step (codec := demo_codec)) demo_triggered s'
    /\ ota_deployments s' !! 7 = Some d' /\ advances demo_deployment d'.
Proof.
  destruct (process_report (H := demo_codec) (fun s => s) demo_triggered "default" "dev-1"
    (object [("ota", object [("status", VString "failed"); ("deployment_id", of_int 7);
                             ("firmware_update_id", of_int 3)])]) 9000 9000) as [answer s'] eqn:E.
  assert (Hs : rtc (ota_step (codec := demo_codec)) demo_triggered s').
  { apply rtc_once. by eapply ota_step_report. }
  exists s'.
  destruct (ota_deployments_advance (codec_laws := demo_codec_laws) demo_triggered s' 7 demo_deployment)
    as (d' & Hd' & Ha).
  - exact (ota_step_inv (codec_laws := demo_codec_laws) _ _ demo_ota_inv demo_trigger_step).
  - exact Hs.
  - vm_compute. reflexivity.
  - exists d'. split_and!; [exact Hs|exact Hd'|exact Ha].
Defined.
