(* ===== verification/ContractModel.v ===== *)
(** * Device blueprints (crates/device-contract/src/model.rs, error.rs, lib.rs)

    The declarative document that a device type is described by.  Every
    struct and enum of the crate's model, with its fields; a [u32] or [u64]
    field is a [Z]. *)
From S2P Require Import Prelude Text Json.

Definition BLUEPRINT_API_VERSION : string := "extrittio.io/v1alpha1".
Definition BLUEPRINT_KIND : string := "DeviceBlueprint".
Definition CONTRACT_API_VERSION : Z := 1.

(** ** Enumerations *)
Inductive TransportProtocol := Zenoh | Mqtt | Http.
Inductive DeliverySemantics := AtMostOnce | AtLeastOnce.
Inductive OrderingSemantics := OrderingNone | PerDeviceStream.
Inductive RouteDirection := DeviceToCloud | CloudToDevice.
Inductive PayloadEncoding := EncJson | EncCbor | EncProtobuf | EncProtobufDynamic | EncRaw.
Inductive SchemaFormat := JsonSchema | ProtobufDescriptor | Opaque.
Inductive CoordinateSystem := Wgs84.
Inductive CoordinateUnit := Degrees.
Inductive FieldValueType := Float64 | Int64 | FString | FBoolean | FJson.
Inductive AggregateKind := AggMin | AggMax | AggAvg | AggSum | AggCount | AggLast.
Inductive ChartKind := ChartLine | ChartStep | ChartBar | ChartNone.
Inductive CommandDanger := DangerNormal | DangerConfirm | DangerCritical.
Inductive CommandIdempotency := NonIdempotent | Idempotent.
Inductive ConfigurationMode := DesiredReported.
Inductive HealthSignalSource := SourceMetric | SourceReportedState.
Inductive ComparisonOperator := CmpGt | CmpGte | CmpLt | CmpLte | CmpEq | CmpNeq.
Inductive HealthSeverity := SevInfo | SevWarning | SevCritical.
Inductive FirmwareStrategy := BinaryReplacement | PartitionSwap | Package | External.
Inductive PresentationTab :=
| TabOverview | TabTelemetry | TabCommands | TabConfiguration | TabLogs | TabFirmware | TabRelationships.

#[global] Instance TransportProtocol_eq_dec : EqDecision TransportProtocol. Proof. solve_decision. Defined.
#[global] Instance DeliverySemantics_eq_dec : EqDecision DeliverySemantics. Proof. solve_decision. Defined.
#[global] Instance OrderingSemantics_eq_dec : EqDecision OrderingSemantics. Proof. solve_decision. Defined.
#[global] Instance RouteDirection_eq_dec : EqDecision RouteDirection. Proof. solve_decision. Defined.
#[global] Instance PayloadEncoding_eq_dec : EqDecision PayloadEncoding. Proof. solve_decision. Defined.
#[global] Instance SchemaFormat_eq_dec : EqDecision SchemaFormat. Proof. solve_decision. Defined.
#[global] Instance CoordinateSystem_eq_dec : EqDecision CoordinateSystem. Proof. solve_decision. Defined.
#[global] Instance CoordinateUnit_eq_dec : EqDecision CoordinateUnit. Proof. solve_decision. Defined.
#[global] Instance FieldValueType_eq_dec : EqDecision FieldValueType. Proof. solve_decision. Defined.
#[global] Instance AggregateKind_eq_dec : EqDecision AggregateKind. Proof. solve_decision. Defined.
#[global] Instance ChartKind_eq_dec : EqDecision ChartKind. Proof. solve_decision. Defined.
#[global] Instance CommandDanger_eq_dec : EqDecision CommandDanger. Proof. solve_decision. Defined.
#[global] Instance CommandIdempotency_eq_dec : EqDecision CommandIdempotency. Proof. solve_decision. Defined.
#[global] Instance HealthSignalSource_eq_dec : EqDecision HealthSignalSource. Proof. solve_decision. Defined.
#[global] Instance PresentationTab_eq_dec : EqDecision PresentationTab. Proof. solve_decision. Defined.

Definition is_numeric (t : FieldValueType) : bool :=
  match t with Float64 | Int64 => true | _ => false end.

(** ** Declarations *)
Record BlueprintMetadata := {
  md_key : string; md_name : string; md_description : option string; md_icon : option string;
  md_color : option string; md_labels : list (string * string);
}.
Record HeartbeatDefinition := { hb_interval : string; hb_offline_after : string }.
Record RuntimeLimits := {
  max_message_bytes : Z; max_messages_per_minute : Z; max_metric_cardinality : Z;
}.
Definition default_max_metric_cardinality : Z := 128.
Record RuntimeDefinition := {
  minimum_contract_api : Z; heartbeat : HeartbeatDefinition; limits : RuntimeLimits;
}.
Record TransportQos := { delivery : DeliverySemantics; ordering : OrderingSemantics }.
Definition default_qos : TransportQos := {| delivery := AtLeastOnce; ordering := PerDeviceStream |}.
Record TransportDefinition := {
  tr_key : string; tr_binding : string; tr_protocol : TransportProtocol; tr_qos : TransportQos;
}.
Record RouteDefinition := {
  rt_key : string; rt_transport : string; rt_direction : RouteDirection; rt_address : string;
  rt_message_schema : string; rt_encoding : PayloadEncoding;
}.
Record SchemaDefinition := { sc_key : string; sc_format : SchemaFormat; sc_schema : value }.
Record FieldPresentation := {
  fp_color : option string; fp_chart : option ChartKind; fp_precision : option Z;
}.
Record FieldDefinition := {
  fd_path : string; fd_value_type : FieldValueType; fd_label : string; fd_unit : option string;
  fd_semantic : option string; fd_index : bool; fd_aggregates : list AggregateKind;
  fd_presentation : option FieldPresentation;
}.
Record RetentionDefinition := {
  raw_days : option Z; points_days : option Z; rollup_days : option Z;
}.
Definition default_timestamp_source : string := "envelope.occurred_at".
Record StreamDefinition := {
  st_key : string; st_route : string; st_timestamp : string; st_fields : list FieldDefinition;
  st_retention : option RetentionDefinition;
}.
Record LocationDefinition := {
  loc_stream : string; latitude_path : string; longitude_path : string;
  coordinate_system : CoordinateSystem; coord_unit : CoordinateUnit; max_age : string;
}.
Record CommandDefinition := {
  cm_key : string; request_route : string; response_route : string; cm_label : string;
  cm_description : option string; cm_danger : CommandDanger; cm_timeout : string;
  input_schema : value; result_schema : value; cm_availability : option string;
  cm_idempotency : CommandIdempotency;
}.
Record ConfigurationApply := {
  ap_mode : ConfigurationMode; acknowledgement_timeout : string; ap_atomic : bool;
}.
Record ConfigurationDefinition := {
  cf_schema : value; cf_defaults : value; cf_apply : ConfigurationApply;
}.
Record ReportedStateDefinition := { rs_schema : value }.
Record HealthSignalDefinition := {
  hs_key : string; hs_source : HealthSignalSource; hs_path : string;
  hs_operator : ComparisonOperator; hs_value : value; hs_severity : HealthSeverity;
}.
Record HealthDefinition := { signals : list HealthSignalDefinition }.
Record FirmwareDefinition := {
  fw_strategy : FirmwareStrategy; fw_compatibility : list (string * value);
}.
Record RelationshipDefinition := {
  rel_key : string; rel_stream : string; target_key_path : string; target_kind : string;
}.
Record MetricReference := { metric_ref : string }.
Record PresentationDefinition := { summary : list MetricReference; tabs : list PresentationTab }.
Record BlueprintSpec := {
  runtime : RuntimeDefinition;
  transports : list TransportDefinition;
  routes : list RouteDefinition;
  schemas : list SchemaDefinition;
  streams : list StreamDefinition;
  location : option LocationDefinition;
  bp_commands : list CommandDefinition;
  configuration : option ConfigurationDefinition;
  reported_state : option ReportedStateDefinition;
  health : option HealthDefinition;
  bp_firmware : option FirmwareDefinition;
  relationships : list RelationshipDefinition;
  presentation : option PresentationDefinition;
}.
Record DeviceBlueprint := {
  api_version : string; bp_kind : string; metadata : BlueprintMetadata; spec : BlueprintSpec;
}.

#[global] Instance TransportQos_eq_dec : EqDecision TransportQos. Proof. solve_decision. Defined.
#[global] Instance TransportDefinition_eq_dec : EqDecision TransportDefinition. Proof. solve_decision. Defined.
#[global] Instance RouteDefinition_eq_dec : EqDecision RouteDefinition. Proof. solve_decision. Defined.
#[global] Instance FieldPresentation_eq_dec : EqDecision FieldPresentation. Proof. solve_decision. Defined.
#[global] Instance FieldDefinition_eq_dec : EqDecision FieldDefinition. Proof. solve_decision. Defined.
#[global] Instance LocationDefinition_eq_dec : EqDecision LocationDefinition. Proof. solve_decision. Defined.
#[global] Instance BlueprintMetadata_eq_dec : EqDecision BlueprintMetadata. Proof. solve_decision. Defined.
#[global] Instance MetricReference_eq_dec : EqDecision MetricReference. Proof. solve_decision. Defined.
#[global] Instance PresentationDefinition_eq_dec : EqDecision PresentationDefinition. Proof. solve_decision. Defined.

(** ** Errors *)
Record ValidationIssue := { issue_path : string; issue_message : string }.
Definition issue (path message : string) : ValidationIssue :=
  {| issue_path := path; issue_message := message |}.
Inductive ContractError :=
| InvalidBlueprint (count : Z) (issues : list ValidationIssue)
| InvalidInstance (count : Z) (issues : list ValidationIssue)
| Serialization (message : string)
| MissingTransportBinding (binding : string)
| InvalidContext (message : string).
(** [ContractError::validation_issues]. *)
Definition validation_issues (e : ContractError) : option (list ValidationIssue) :=
  match e with
  | InvalidBlueprint _ issues | InvalidInstance _ issues => Some issues
  | _ => None
  end.
