(* ===== verification/Schema.v ===== *)
(** * Schemas (crates/device-contract/src/schema.rs)

    The bounded JSON Schema profile: checking a schema document and
    validating an instance against it.  The fuel of both recursions is the
    code's own depth counter: [inspect_schema] reports and stops below depth
    32 and [validate_node] below depth 64, so fuel [n] stands for depth
    [33 - n] and [65 - n]. *)
From S2P Require Import Prelude Text Float64 BTree Json ContractModel.
From Stdlib Require Import Ascii.

Local Open Scope Z_scope.

Definition SUPPORTED_KEYWORDS : list string :=
  ["$id"; "$schema"; "additionalProperties"; "const"; "default"; "description"; "enum"; "examples";
   "exclusiveMaximum"; "exclusiveMinimum"; "items"; "maximum"; "maxItems"; "maxLength"; "minimum";
   "minItems"; "minLength"; "properties"; "required"; "title"; "type"].
Definition TYPE_NAMES : list string :=
  ["object"; "array"; "string"; "number"; "integer"; "boolean"; "null"].
Definition one_of_str (l : list string) (s : string) : bool := existsb (String.eqb s) l.
Definition escape_pointer (v : string) : string := replace_char "/" "~1" (replace_char "~" "~0" v).
Definition index_str (i : nat) : string := int_to_string (Z.of_nat i).

(** ** Schema documents *)

(** The [required] loop; [seen] is the [BTreeSet] of names. *)
Fixpoint inspect_required (path : string) (i : nat) (seen : list string) (entries : list value)
    : list ValidationIssue :=
  match entries with
  | [] => []
  | e :: rest =>
    match as_str e with
    | None =>
      issue (path +:+ "/required/" +:+ index_str i) "required entry must be a string"
      :: inspect_required path (S i) seen rest
    | Some name =>
      (if one_of_str seen name
       then [issue (path +:+ "/required/" +:+ index_str i) "required entries must be unique"] else [])
      ++ inspect_required path (S i) (name :: seen) rest
    end
  end.
Definition inspect_keywords (path : string) (m : list (string * value)) : list ValidationIssue :=
  concat (map (fun keyword =>
    if one_of_str SUPPORTED_KEYWORDS keyword then []
    else [issue (path +:+ "/" +:+ keyword) "keyword is not supported by the extrittio-v1 schema profile"])
    (bt_keys m)).
Definition inspect_type (path : string) (m : list (string * value)) : list ValidationIssue :=
  match bt_get "type" m with
  | None => []
  | Some t =>
    if match as_str t with Some s => one_of_str TYPE_NAMES s | None => false end then []
    else [issue (path +:+ "/type") "type must be one supported scalar type name"]
  end.
Definition inspect_bounds (path : string) (m : list (string * value)) : list ValidationIssue :=
  concat (map (fun keyword =>
    match bt_get keyword m with
    | Some bound => if is_number bound then [] else [issue (path +:+ "/" +:+ keyword) (keyword +:+ " must be numeric")]
    | None => []
    end) ["minimum"; "maximum"; "exclusiveMinimum"; "exclusiveMaximum"]).
Definition inspect_lengths (path : string) (m : list (string * value)) : list ValidationIssue :=
  concat (map (fun keyword =>
    match bt_get keyword m with
    | Some bound =>
      match as_u64 bound with
      | Some _ => []
      | None => [issue (path +:+ "/" +:+ keyword) (keyword +:+ " must be a non-negative integer")]
      end
    | None => []
    end) ["minLength"; "maxLength"; "minItems"; "maxItems"]).
Definition inspect_enum (path : string) (m : list (string * value)) : list ValidationIssue :=
  match bt_get "enum" m with
  | Some values =>
    match as_array values with
    | Some (_ :: _) => []
    | _ => [issue (path +:+ "/enum") "enum must be a non-empty array"]
    end
  | None => []
  end.

Fixpoint inspect_schema (fuel : nat) (schema : value) (path : string) : list ValidationIssue :=
  match fuel with
  | O => [issue path "schema nesting exceeds 32 levels"]
  | S n =>
    match schema with
    | Object m =>
      let properties :=
        match bt_get "properties" m with
        | None => []
        | Some (Object ps) =>
          (if 256 <? Z.of_nat (length ps)
           then [issue (path +:+ "/properties") "schema object exceeds 256 properties"] else [])
          ++ concat (map (fun e => inspect_schema n e.2 (path +:+ "/properties/" +:+ escape_pointer e.1)) ps)
        | Some _ => [issue (path +:+ "/properties") "properties must be an object"]
        end in
      let rest :=
        match bt_get "additionalProperties" m with
        | Some additional =>
          if is_boolean additional then []
          else inspect_schema n additional (path +:+ "/additionalProperties")
        | None => []
        end
        ++ match bt_get "items" m with
           | Some items => inspect_schema n items (path +:+ "/items")
           | None => []
           end
        ++ inspect_bounds path m ++ inspect_lengths path m ++ inspect_enum path m in
      inspect_keywords path m ++ inspect_type path m ++ properties
      ++ match bt_get "required" m with
         | None => rest
         | Some required =>
           match as_array required with
           | None => [issue (path +:+ "/required") "required must be an array of unique strings"]
           | Some entries => inspect_required path 0 [] entries ++ rest
           end
         end
    | _ => if is_boolean schema then [] else [issue path "schema must be an object or boolean"]
    end
  end.
Definition SCHEMA_FUEL : nat := 33.
Definition validate_schema_document (schema : value) (path : string) : list ValidationIssue :=
  inspect_schema SCHEMA_FUEL schema path.

(** ** Instances *)
Definition matches_type (expected : string) (v : value) : bool :=
  if expected =s? "object" then is_object v
  else if expected =s? "array" then is_array v
  else if expected =s? "string" then is_string v
  else if expected =s? "number" then is_number v
  else if expected =s? "integer" then bool_decide (is_Some (as_i64 v)) || bool_decide (is_Some (as_u64 v))
  else if expected =s? "boolean" then is_boolean v
  else if expected =s? "null" then is_null v
  else false.
Definition instance_kind (v : value) : string :=
  match v with
  | Null => "null"
  | Bool _ => "boolean"
  | Number (PosInt _) | Number (NegInt _) => "integer"
  | Number (Float _) => "number"
  | VString _ => "string"
  | Array _ => "array"
  | Object _ => "object"
  end.
Definition check_numeric_bound (m : list (string * value)) (keyword : string) (number : f64)
    (exclusive : bool) (path : string) : list ValidationIssue :=
  match bt_get keyword m ≫= as_f64 with
  | None => []
  | Some bound =>
    let violates :=
      if (keyword =s? "minimum") || (keyword =s? "exclusiveMinimum")
      then if exclusive then f64_le number bound else f64_lt number bound
      else if exclusive then f64_le bound number else f64_lt bound number in
    if violates
    then [issue path ("numeric value violates " +:+ keyword +:+ " " +:+ f64_display bound)] else []
  end.
Definition check_length (m : list (string * value)) (keyword : string) (length : Z) (minimum : bool)
    (path : string) : list ValidationIssue :=
  match bt_get keyword m ≫= as_u64 with
  | None => []
  | Some bound =>
    if (minimum && (length <? bound)) || (negb minimum && (bound <? length))
    then [issue path ("length " +:+ int_to_string length +:+ " violates " +:+ keyword +:+ " " +:+ int_to_string bound)]
    else []
  end.

(** The four checks that do not recurse. *)
Definition check_values (m : list (string * value)) (v : value) (path : string) : list ValidationIssue :=
  match bt_get "const" m with
  | Some expected => if value_eqb expected v then [] else [issue path "value does not equal const"]
  | None => []
  end
  ++ match bt_get "enum" m ≫= as_array with
     | Some allowed => if existsb (fun a => value_eqb a v) allowed then [] else [issue path "value is not in enum"]
     | None => []
     end
  ++ match as_f64 v with
     | Some number =>
       check_numeric_bound m "minimum" number false path
       ++ check_numeric_bound m "maximum" number false path
       ++ check_numeric_bound m "exclusiveMinimum" number true path
       ++ check_numeric_bound m "exclusiveMaximum" number true path
     | None => []
     end
  ++ match as_str v with
     | Some s =>
       check_length m "minLength" (chars_count s) true path
       ++ check_length m "maxLength" (chars_count s) false path
     | None => []
     end.
Definition check_required (m o : list (string * value)) (path : string) : list ValidationIssue :=
  match bt_get "required" m ≫= as_array with
  | Some required =>
    concat (map (fun name =>
      if bt_contains_key name o then []
      else [issue (path +:+ "/" +:+ escape_pointer name) "required property is missing"])
      (omap as_str required))
  | None => []
  end.

Fixpoint validate_node (fuel : nat) (schema v : value) (path : string) : list ValidationIssue :=
  match fuel with
  | O => [issue path "instance nesting exceeds 64 levels"]
  | S n =>
    match schema with
    | Bool accept => if accept then [] else [issue path "value is rejected by schema"]
    | Object m =>
      match (expected ← bt_get "type" m ≫= as_str; if matches_type expected v then None else Some expected) with
      | Some expected => [issue path ("expected " +:+ expected +:+ ", found " +:+ instance_kind v)]
      | None =>
        check_values m v path
        ++ match v with
           | Array vs =>
             check_length m "minItems" (Z.of_nat (length vs)) true path
             ++ check_length m "maxItems" (Z.of_nat (length vs)) false path
             ++ match bt_get "items" m with
                | Some item_schema =>
                  concat (imap (fun i item => validate_node n item_schema item (path +:+ "/" +:+ index_str i)) vs)
                | None => []
                end
           | Object o =>
             check_required m o path
             ++ concat (map (fun e =>
                  let property_path := path +:+ "/" +:+ escape_pointer e.1 in
                  match (bt_get "properties" m ≫= as_object) ≫= bt_get e.1 with
                  | Some property_schema => validate_node n property_schema e.2 property_path
                  | None =>
                    match bt_get "additionalProperties" m with
                    | Some (Bool false) => [issue property_path "additional property is not allowed"]
                    | Some (Object a) => validate_node n (Object a) e.2 property_path
                    | _ => []
                    end
                  end) o)
           | _ => []
           end
      end
    | _ => []
    end
  end.
Definition INSTANCE_FUEL : nat := 65.
Definition issues_result {A} (err : Z -> list ValidationIssue -> ContractError) (issues : list ValidationIssue)
    (ok : A) : result ContractError A :=
  match issues with [] => Ok ok | _ => Err (err (Z.of_nat (length issues)) issues) end.
(** [validate_instance]. *)
Definition validate_instance (schema v : value) : result ContractError unit :=
  _ ← issues_result InvalidBlueprint (validate_schema_document schema "$schema") tt;
  issues_result InvalidInstance (validate_node INSTANCE_FUEL schema v "$") tt.

(** ** What a schema means

    A declarative reading of the profile, without paths, depths or issues. *)
Inductive has_type : string -> value -> Prop :=
| ty_object m : has_type "object" (Object m)
| ty_array vs : has_type "array" (Array vs)
| ty_string s : has_type "string" (VString s)
| ty_number n : has_type "number" (Number n)
| ty_pos_integer z : has_type "integer" (Number (PosInt z))
| ty_neg_integer z : has_type "integer" (Number (NegInt z))
| ty_boolean b : has_type "boolean" (Bool b)
| ty_null : has_type "null" Null.

Definition number_at (k : string) (m : list (string * value)) : option f64 := bt_get k m ≫= as_f64.
Definition count_at (k : string) (m : list (string * value)) : option Z := bt_get k m ≫= as_u64.
Definition within_bounds (m : list (string * value)) (x : f64) : Prop :=
  (forall b, number_at "minimum" m = Some b -> f64_lt x b = false)
  /\ (forall b, number_at "maximum" m = Some b -> f64_lt b x = false)
  /\ (forall b, number_at "exclusiveMinimum" m = Some b -> f64_le x b = false)
  /\ (forall b, number_at "exclusiveMaximum" m = Some b -> f64_le b x = false).
Definition within_length (lo hi : string) (m : list (string * value)) (n : Z) : Prop :=
  (forall b, count_at lo m = Some b -> b <= n) /\ (forall b, count_at hi m = Some b -> n <= b).
Definition property_schema (m : list (string * value)) (k : string) : option value :=
  (bt_get "properties" m ≫= as_object) ≫= bt_get k.

Inductive conforms : value -> value -> Prop :=
| conforms_any v : conforms (Bool true) v
| conforms_object m v :
    (forall t, bt_get "type" m = Some (VString t) -> has_type t v) ->
    (forall c, bt_get "const" m = Some c -> value_eqb c v = true) ->
    (forall vs, bt_get "enum" m = Some (Array vs) -> exists a, a ∈ vs /\ value_eqb a v = true) ->
    (forall x, as_f64 v = Some x -> within_bounds m x) ->
    (forall s, v = VString s -> within_length "minLength" "maxLength" m (chars_count s)) ->
    (forall vs, v = Array vs -> within_length "minItems" "maxItems" m (Z.of_nat (length vs))) ->
    (forall vs items x, v = Array vs -> bt_get "items" m = Some items -> x ∈ vs -> conforms items x) ->
    (forall o names name, v = Object o -> bt_get "required" m = Some (Array names) ->
       VString name ∈ names -> is_Some (bt_get name o)) ->
    (forall o k x s, v = Object o -> (k, x) ∈ o -> property_schema m k = Some s -> conforms s x) ->
    (forall o k x, v = Object o -> (k, x) ∈ o -> property_schema m k = None ->
       bt_get "additionalProperties" m <> Some (Bool false)) ->
    (forall o k x a, v = Object o -> (k, x) ∈ o -> property_schema m k = None ->
       bt_get "additionalProperties" m = Some (Object a) -> conforms (Object a) x) ->
    conforms (Object m) v.

(** ** Empty reports *)
Lemma concat_map_nil {A B} (f : A -> list B) l :
  concat (map f l) = [] <-> forall x, x ∈ l -> f x = [].
Proof.
  induction l as [|a l IH]; simpl; [set_solver|].
  rewrite app_nil, IH. setoid_rewrite elem_of_cons. naive_solver.
Qed.
Lemma concat_imap_nil {A B} (f : nat -> A -> list B) l :
  concat (imap f l) = [] <-> forall i x, l !! i = Some x -> f i x = [].
Proof.
  revert f. induction l as [|a l IH]; intros f; simpl; [naive_solver|].
  rewrite app_nil, IH. split.
  - intros [Ha Hl] [|i] x Hx; simpl in Hx; [by simplify_eq|by apply Hl].
  - intros H. split; [by apply (H 0%nat)|]. intros i x Hx. by apply (H (S i)).
Qed.
Lemma and_iff (A A' B B' : Prop) : (A <-> A') -> (B <-> B') -> (A /\ B <-> A' /\ B').
Proof. tauto. Qed.
Lemma if_nil {A} (b : bool) (x : A) : (if b then [] else [x]) = [] <-> b = true.
Proof. by destruct b. Qed.
Lemma if_nil' {A} (b : bool) (x : A) : (if b then [x] else []) = [] <-> b = false.
Proof. by destruct b. Qed.

Lemma matches_type_spec t v : t ∈ TYPE_NAMES -> matches_type t v = true <-> has_type t v.
Proof.
  intros Ht. split.
  - unfold TYPE_NAMES in Ht. rewrite !elem_of_cons, elem_of_nil in Ht.
    destruct Ht as [->|[->|[->|[->|[->|[->|[->|[]]]]]]]];
      [change (is_object v = true -> has_type "object" v)
      |change (is_array v = true -> has_type "array" v)
      |change (is_string v = true -> has_type "string" v)
      |change (is_number v = true -> has_type "number" v)
      |change (bool_decide (is_Some (as_i64 v)) || bool_decide (is_Some (as_u64 v)) = true -> has_type "integer" v)
      |change (is_boolean v = true -> has_type "boolean" v)
      |change (is_null v = true -> has_type "null" v)];
      destruct v as [| |[]| | |]; intros H; try discriminate H; constructor.
  - intros []; try reflexivity.
    change (bool_decide (is_Some (as_i64 (Number (PosInt z)))) || true = true). apply orb_true_r.
Qed.
Lemma numeric_bound_nil m keyword x exclusive path :
  check_numeric_bound m keyword x exclusive path = []
  <-> forall b, number_at keyword m = Some b ->
      (if (keyword =s? "minimum") || (keyword =s? "exclusiveMinimum")
       then if exclusive then f64_le x b else f64_lt x b
       else if exclusive then f64_le b x else f64_lt b x) = false.
Proof.
  unfold check_numeric_bound, number_at. destruct (bt_get keyword m ≫= as_f64) as [b|]; [|done].
  rewrite if_nil'. naive_solver.
Qed.
Lemma length_nil m keyword n minimum path :
  check_length m keyword n minimum path = []
  <-> forall b, count_at keyword m = Some b -> if minimum then b <= n else n <= b.
Proof.
  unfold check_length, count_at. destruct (bt_get keyword m ≫= as_u64) as [b|]; [|done].
  rewrite if_nil'. destruct minimum; simpl; rewrite ?orb_false_r, Z.ltb_ge; naive_solver.
Qed.
Lemma check_values_nil m v path :
  check_values m v path = []
  <-> (forall c, bt_get "const" m = Some c -> value_eqb c v = true)
      /\ (forall vs, bt_get "enum" m = Some (Array vs) -> exists a, a ∈ vs /\ value_eqb a v = true)
      /\ (forall x, as_f64 v = Some x -> within_bounds m x)
      /\ (forall s, v = VString s -> within_length "minLength" "maxLength" m (chars_count s)).
Proof.
  unfold check_values. rewrite !app_nil. repeat apply and_iff.
  - destruct (bt_get "const" m); [rewrite if_nil|]; naive_solver.
  - destruct (bt_get "enum" m) as [e|]; [|naive_solver]. destruct e; simpl; try naive_solver.
    rewrite if_nil, existsb_elem. naive_solver.
  - destruct (as_f64 v) as [x|]; [|naive_solver]. rewrite !app_nil, !numeric_bound_nil.
    split; [intros H x' [= <-]; exact H|intros H; exact (H x eq_refl)].
  - destruct v; simpl; try naive_solver. rewrite app_nil, !length_nil. unfold within_length. naive_solver.
Qed.

(** ** Accepted documents *)

(** What an empty report says about an object schema and its children. *)
Record schema_node_ok (n : nat) (m : list (string * value)) : Prop := {
  node_type t : bt_get "type" m = Some t -> exists s, t = VString s /\ s ∈ TYPE_NAMES;
  node_properties ps : bt_get "properties" m = Some ps -> exists pm, ps = Object pm;
  node_property pm k s : bt_get "properties" m = Some (Object pm) -> (k, s) ∈ pm ->
    exists q, inspect_schema n s q = [];
  node_required r : bt_get "required" m = Some r ->
    exists names, r = Array names /\ forall e, e ∈ names -> is_Some (as_str e);
  node_additional a : bt_get "additionalProperties" m = Some (Object a) ->
    exists q, inspect_schema n (Object a) q = [];
  node_items items : bt_get "items" m = Some items -> exists q, inspect_schema n items q = [];
}.
Lemma inspect_required_nil path i seen entries e :
  inspect_required path i seen entries = [] -> e ∈ entries -> is_Some (as_str e).
Proof.
  revert i seen. induction entries as [|x entries IH]; intros i seen H He; [by apply not_elem_of_nil in He|].
  simpl in H. destruct (as_str x) as [name|] eqn:Ex; [|done]. apply app_nil in H as [_ H].
  apply elem_of_cons in He as [->|He]; [by eexists|eauto].
Qed.
Lemma inspect_object n m q :
  inspect_schema (S n) (Object m) q = [] -> schema_node_ok n m.
Proof.
  cbn [inspect_schema]. cbv zeta. rewrite !app_nil. intros (_ & Htype & Hprops & Hreq).
  assert (forall rest : list ValidationIssue,
    match bt_get "required" m with
    | None => rest
    | Some required =>
      match as_array required with
      | None => [issue (q +:+ "/required") "required must be an array of unique strings"]
      | Some entries => inspect_required q 0 [] entries ++ rest
      end
    end = [] ->
    rest = [] /\ forall r, bt_get "required" m = Some r ->
      exists names, r = Array names /\ forall e, e ∈ names -> is_Some (as_str e)) as Hr.
  { intros rest. destruct (bt_get "required" m) as [r|]; [|naive_solver].
    destruct r; simpl; try done. rewrite app_nil. intros [H1 H2]. split; [done|]. intros r [= <-].
    eexists. split; [done|]. intros e. by apply (inspect_required_nil _ _ _ _ _ H1). }
  apply Hr in Hreq as [Hrest Hreq]. rewrite !app_nil in Hrest. destruct Hrest as (Hadd & Hitems & _).
  split.
  - intros t Ht. unfold inspect_type in Htype. rewrite Ht in Htype. apply if_nil in Htype.
    destruct t as [| | |s| |]; try done. exists s. split; [done|].
    change (existsb (String.eqb s) TYPE_NAMES = true) in Htype.
    apply existsb_elem in Htype as (x & Hx & ->%String.eqb_eq). done.
  - intros ps Hp. rewrite Hp in Hprops. destruct ps; try done. eauto.
  - intros pm k s Hp Hin. rewrite Hp in Hprops. apply app_nil in Hprops as [_ Hprops].
    rewrite concat_map_nil in Hprops. specialize (Hprops _ Hin). eauto.
  - done.
  - intros a Ha. rewrite Ha in Hadd. simpl in Hadd. eauto.
  - intros items Hi. rewrite Hi in Hitems. eauto.
Qed.

Lemma check_required_nil m o path :
  (forall r, bt_get "required" m = Some r ->
     exists names, r = Array names /\ forall e, e ∈ names -> is_Some (as_str e)) ->
  check_required m o path = []
  <-> forall names name, bt_get "required" m = Some (Array names) -> VString name ∈ names -> is_Some (bt_get name o).
Proof.
  intros Hok. unfold check_required. destruct (bt_get "required" m) as [r|]; [|naive_solver].
  destruct (Hok r eq_refl) as (names & -> & _). simpl. rewrite concat_map_nil. split.
  - intros H names' name [= <-] Hin. specialize (H name). rewrite if_nil in H.
    unfold bt_contains_key in H. destruct (bt_get name o); [by eexists|].
    discriminate H. apply list_elem_of_omap. by exists (VString name).
  - intros H name (e & He & Hn)%list_elem_of_omap. destruct e; simplify_eq/=.
    destruct (H names name eq_refl He) as [x Hx]. unfold bt_contains_key. by rewrite Hx.
Qed.

(** The type check, for a checked schema. *)
Lemma type_check m v :
  (forall t, bt_get "type" m = Some t -> exists s, t = VString s /\ s ∈ TYPE_NAMES) ->
  (expected ← bt_get "type" m ≫= as_str; if matches_type expected v then None else Some expected) = None
  <-> forall t, bt_get "type" m = Some (VString t) -> has_type t v.
Proof.
  intros Hok. destruct (bt_get "type" m) as [t|]; [|naive_solver].
  destruct (Hok t eq_refl) as (s & -> & Hs). simpl. split.
  - intros H t [= <-]. apply matches_type_spec; [done|]. by destruct (matches_type s v).
  - intros H. by rewrite (proj2 (matches_type_spec s v Hs) (H s eq_refl)).
Qed.

(** One level: if the children mean what they should, so does the node. *)
Section node.
Variables (n k : nat) (m : list (string * value)).
Hypothesis node : schema_node_ok n m.
Hypothesis child : forall s q v p, inspect_schema n s q = [] -> validate_node k s v p = [] <-> conforms s v.

Definition member_ok (o : list (string * value)) : Prop :=
  (forall key x s, (key, x) ∈ o -> property_schema m key = Some s -> conforms s x)
  /\ (forall key x, (key, x) ∈ o -> property_schema m key = None ->
        bt_get "additionalProperties" m <> Some (Bool false))
  /\ (forall key x a, (key, x) ∈ o -> property_schema m key = None ->
        bt_get "additionalProperties" m = Some (Object a) -> conforms (Object a) x).
Lemma property_child key s : property_schema m key = Some s -> exists q, inspect_schema n s q = [].
Proof using node.
  unfold property_schema. intros (pm & (ps & Hps & Hpm)%bind_Some & Hs)%bind_Some.
  destruct ps; simplify_eq/=. eapply node_property; [done..|]. by apply bt_get_Some_elem.
Qed.
Lemma members_nil o path :
  concat (map (fun e : string * value =>
    let property_path := path +:+ "/" +:+ escape_pointer e.1 in
    match (bt_get "properties" m ≫= as_object) ≫= bt_get e.1 with
    | Some property_schema => validate_node k property_schema e.2 property_path
    | None =>
      match bt_get "additionalProperties" m with
      | Some (Bool false) => [issue property_path "additional property is not allowed"]
      | Some (Object a) => validate_node k (Object a) e.2 property_path
      | _ => []
      end
    end) o) = [] <-> member_ok o.
Proof using node child.
  rewrite concat_map_nil. unfold member_ok. split.
  - intros H. split_and!.
    + intros key x s Hin Hs. specialize (H _ Hin). simpl in H.
      unfold property_schema in Hs. rewrite Hs in H. destruct (property_child key s Hs) as [q Hq].
      by apply (child _ _ _ _ Hq) in H.
    + intros key x Hin Hn Ha. specialize (H _ Hin). simpl in H. unfold property_schema in Hn.
      by rewrite Hn, Ha in H.
    + intros key x a Hin Hn Ha. specialize (H _ Hin). simpl in H. unfold property_schema in Hn.
      rewrite Hn, Ha in H. destruct (node_additional _ _ node a Ha) as [q Hq].
      by apply (child _ _ _ _ Hq) in H.
  - intros (H1 & H2 & H3) [key x] Hin. simpl. fold (property_schema m key).
    destruct (property_schema m key) as [s|] eqn:Hs.
    + destruct (property_child key s Hs) as [q Hq]. apply (child _ _ _ _ Hq). eauto.
    + destruct (bt_get "additionalProperties" m) as [[|[]| | | |a]|] eqn:Ha; try done.
      * by destruct (H2 _ _ Hin Hs).
      * destruct (node_additional _ _ node a Ha) as [q Hq]. apply (child _ _ _ _ Hq). eauto.
Qed.
Lemma items_nil vs path :
  match bt_get "items" m with
  | Some item_schema =>
    concat (imap (fun i item => validate_node k item_schema item (path +:+ "/" +:+ index_str i)) vs)
  | None => []
  end = [] <-> forall items x, bt_get "items" m = Some items -> x ∈ vs -> conforms items x.
Proof using node child.
  destruct (bt_get "items" m) as [s|] eqn:Hs; [|naive_solver].
  destruct (node_items _ _ node s Hs) as [q Hq]. rewrite concat_imap_nil. split.
  - intros H items x [= <-] [i Hi]%list_elem_of_lookup. specialize (H _ _ Hi).
    by apply (child _ _ _ _ Hq) in H.
  - intros H i x Hi. apply (child _ _ _ _ Hq), H; [done|]. by eapply list_elem_of_lookup_2.
Qed.

Lemma node_conforms v path :
  validate_node (S k) (Object m) v path = [] <-> conforms (Object m) v.
Proof using node child.
  cbn [validate_node]. split.
  - intros H.
    destruct (expected ← bt_get "type" m ≫= as_str; if matches_type expected v then None else Some expected)
      eqn:Et; [done|]. assert (Ht := proj1 (type_check m v (node_type _ _ node)) Et).
    apply app_nil in H as [Hv Hrest]. apply check_values_nil in Hv as (Hc & He & Hb & Hl).
    constructor; try done; intros; subst v; simpl in Hrest.
    + rewrite !app_nil, !length_nil in Hrest. by destruct Hrest as (? & ? & _).
    + rewrite !app_nil in Hrest. destruct Hrest as (_ & _ & Hi). by eapply (proj1 (items_nil vs path) Hi).
    + apply app_nil in Hrest as [Hr _].
      by eapply (proj1 (check_required_nil m o path (node_required _ _ node)) Hr).
    + apply app_nil in Hrest as [_ Hm]. apply members_nil in Hm as (? & _ & _). eauto.
    + apply app_nil in Hrest as [_ Hm]. apply members_nil in Hm as (_ & ? & _). eauto.
    + apply app_nil in Hrest as [_ Hm]. apply members_nil in Hm as (_ & _ & ?). eauto.
  - inversion 1 as [|m' v' Ht Hc He Hb Hs Hvs Hi Hr Hp Hn Ha]; subst.
    rewrite (proj2 (type_check m v (node_type _ _ node)) Ht).
    apply app_nil. split; [by apply check_values_nil|].
    destruct v as [| | | |vs|o]; try done.
    + rewrite !app_nil, !length_nil. destruct (Hvs vs eq_refl). split_and!; [done|done|].
      apply items_nil. eauto.
    + rewrite app_nil. split; [apply check_required_nil; [apply node|eauto]|].
      apply members_nil. unfold member_ok. split_and!; eauto.
Qed.
End node.

Lemma validate_node_conforms n k s q v p :
  (n <= k)%nat -> inspect_schema n s q = [] -> validate_node k s v p = [] <-> conforms s v.
Proof.
  revert k s q v p. induction n as [|n IH]; intros k s q v p Hnk Hs; [done|].
  destruct k as [|k]; [lia|]. destruct s as [|b| | | |m]; try done.
  - destruct b; simpl; [split; [constructor|done]|]. split; [done|]. by inversion 1.
  - apply (node_conforms n k m); [by eapply inspect_object|].
    intros s q' v' p' Hs'. eapply IH; [lia|done].
Qed.
Lemma issues_result_ok {A} err issues (a a' : A) :
  issues_result err issues a = Ok a' <-> issues = [] /\ a = a'.
Proof. unfold issues_result. destruct issues; naive_solver. Qed.

Lemma validate_instance_spec schema v :
  validate_instance schema v = Ok tt
  <-> validate_schema_document schema "$schema" = [] /\ conforms schema v.
Proof.
  assert (SCHEMA_FUEL <= INSTANCE_FUEL)%nat as Hle by (apply Nat.leb_le; reflexivity).
  unfold validate_instance, validate_schema_document. revert Hle.
  generalize SCHEMA_FUEL, INSTANCE_FUEL. intros n k Hle.
  rewrite bind_ok. setoid_rewrite issues_result_ok. split.
  - intros ([] & [Hs _] & Hv & _). split; [done|]. by apply (validate_node_conforms n k _ _ _ "$" Hle Hs).
  - intros [Hs Hv]. exists tt. split; [done|]. split; [|done].
    by apply (validate_node_conforms n k _ _ _ "$" Hle Hs).
Qed.

(** C33. Validation is conformance: [validate_instance] accepts an instance
    exactly when the schema document is accepted and the instance conforms to
    its declarative meaning.  In particular the instance depth limit of 64 is
    never what rejects an instance, because accepted schemas are at most 32
    levels deep. *)
Theorem validate_instance_exact schema v :
  validate_instance schema v = Ok tt
  <-> validate_schema_document schema "$schema" = [] /\ conforms schema v.
Proof. exact (validate_instance_spec schema v). Qed.

(** ** Acceptance does not depend on where the schema stands *)
Lemma inspect_required_path p p' i i' seen entries :
  inspect_required p i seen entries = [] -> inspect_required p' i' seen entries = [].
Proof.
  revert i i' seen. induction entries as [|e entries IH]; intros i i' seen H; [done|]. simpl in *.
  destruct (as_str e); [|done]. apply app_nil in H as [H1 H2]. apply app_nil.
  split; [by apply if_nil' in H1; apply if_nil'|by eapply IH].
Qed.
Lemma inspect_leaves_path p p' m :
  (inspect_keywords p m = [] -> inspect_keywords p' m = [])
  /\ (inspect_type p m = [] -> inspect_type p' m = [])
  /\ (inspect_bounds p m = [] -> inspect_bounds p' m = [])
  /\ (inspect_lengths p m = [] -> inspect_lengths p' m = [])
  /\ (inspect_enum p m = [] -> inspect_enum p' m = []).
Proof.
  unfold inspect_keywords, inspect_type, inspect_bounds, inspect_lengths, inspect_enum.
  rewrite !concat_map_nil. split_and!.
  - intros H k Hk. specialize (H k Hk). by rewrite if_nil in *.
  - destruct (bt_get "type" m); [|done]. by rewrite !if_nil.
  - intros H k Hk. specialize (H k Hk). destruct (bt_get k m); [|done]. by rewrite if_nil in *.
  - intros H k Hk. specialize (H k Hk). destruct (bt_get k m) as [v|]; [|done]. by destruct (as_u64 v).
  - destruct (bt_get "enum" m) as [v|]; [|done]. destruct (as_array v) as [[]|]; done.
Qed.
Lemma inspect_schema_path n s p p' : inspect_schema n s p = [] -> inspect_schema n s p' = [].
Proof.
  revert s p p'. induction n as [|n IH]; intros s p p' H; [done|].
  destruct s as [|b| | | |m]; try done. destruct (inspect_leaves_path p p' m) as (L1 & L2 & L3 & L4 & L5).
  cbn [inspect_schema] in *. cbv zeta in *. rewrite !app_nil in *.
  destruct H as (H1 & H2 & H3 & H4). split_and!; [auto|auto|..].
  - destruct (bt_get "properties" m) as [[| | | | |ps]|]; try done. rewrite app_nil, !concat_map_nil in *.
    destruct H3 as [Hlen Hps]. split; [by rewrite if_nil' in *|]. intros e He. by eapply IH, Hps.
  - assert (forall p rest, match bt_get "required" m with
        | None => rest
        | Some required => match as_array required with
          | None => [issue (p +:+ "/required") "required must be an array of unique strings"]
          | Some entries => inspect_required p 0 [] entries ++ rest end
        end = [] <-> rest = [] /\ match bt_get "required" m with
          | Some r => match as_array r with Some es => inspect_required p 0 [] es = [] | None => False end
          | None => True end) as Hr.
    { intros p0 rest. destruct (bt_get "required" m) as [r|]; [|naive_solver].
      destruct (as_array r); [rewrite app_nil|]; naive_solver. }
    apply Hr in H4 as [Hrest Hreq]. apply Hr. rewrite !app_nil in *.
    destruct Hrest as (Ha & Hi & Hb & Hl & He). split_and!; auto.
    + destruct (bt_get "additionalProperties" m) as [a|]; [|done]. destruct (is_boolean a); [done|]. by eapply IH.
    + destruct (bt_get "items" m); [|done]. by eapply IH.
    + destruct (bt_get "required" m) as [r|]; [|done]. destruct (as_array r); [|done].
      by eapply inspect_required_path.
Qed.
Lemma schema_document_path s p p' : validate_schema_document s p = [] <-> validate_schema_document s p' = [].
Proof. unfold validate_schema_document. split; apply inspect_schema_path. Qed.

(** The fuels are literals: never unfold the recursions by accident. *)
#[global] Arguments inspect_schema : simpl never.
#[global] Arguments validate_node : simpl never.
#[global] Arguments validate_schema_document : simpl never.
#[global] Arguments validate_instance : simpl never.
