(* ===== verification/Validation.v ===== *)
(** * Blueprint validation (crates/device-contract/src/validation.rs)

    [validate_blueprint] collects every issue of a blueprint document in
    order.  Each block of the function is a definition that returns the
    issues it pushes; the whole is their concatenation. *)
From S2P Require Import Prelude Text BTree Json ContractModel Schema.
From Stdlib Require Import Ascii.

Local Open Scope Z_scope.

(** ** Helpers of the module *)

(** [keyed]: the map from keys to items, and an issue per repeated key. *)
Section keyed.
Context {T : Type} (key : T -> string).
Definition keyed (items : list T) : list (string * T) := bt_collect (map (fun x => (key x, x)) items).
Fixpoint keyed_issues (path : string) (i : nat) (seen : list string) (items : list T) : list ValidationIssue :=
  match items with
  | [] => []
  | x :: rest =>
    (if one_of_str seen (key x)
     then [issue (path +:+ "/" +:+ index_str i +:+ "/key") ("duplicate key '" +:+ key x +:+ "'")] else [])
    ++ keyed_issues path (S i) (key x :: seen) rest
  end.
End keyed.

Definition key_ok (v : string) : bool :=
  between 1 64 (str_len v)
  && match str_head v with Some c => is_ascii_lowercase c | None => false end
  && str_forall (fun c => is_ascii_lowercase c || is_ascii_digit c || one_of "-_." c) v.
Definition validate_key (v path : string) : list ValidationIssue :=
  if key_ok v then []
  else [issue path "key must start with a lowercase letter and contain 1-64 lowercase letters, digits, '-', '_', or '.'"].
Definition validate_schema_key (v path : string) : list ValidationIssue :=
  match rsplit_once "@" v with
  | None => [issue path "schema key must end in '@<version>'"]
  | Some (name, version) =>
    validate_key name path
    ++ (if match parse_u32 version with Some n => n =? 0 | None => true end
        then [issue path "schema version must be a positive integer"] else [])
  end.
Definition parse_duration_ms (v : string) : option Z :=
  '(number, multiplier) ←
    match strip_suffix "ms" v with
    | Some number => Some (number, 1)
    | None =>
      match strip_suffix "s" v with
      | Some number => Some (number, 1000)
      | None =>
        match strip_suffix "m" v with
        | Some number => Some (number, 60000)
        | None =>
          match strip_suffix "h" v with
          | Some number => Some (number, 3600000)
          | None => None
          end
        end
      end
    end;
  n ← parse_u64 number; Int.checked_mul_u64 n multiplier.
Definition validate_duration (v path : string) : list ValidationIssue :=
  if match parse_duration_ms v with Some d => d =? 0 | None => true end
  then [issue path "duration must be a positive integer followed by ms, s, m, or h"] else [].
Definition validate_address (v : string) (index : nat) : list ValidationIssue :=
  let path := "/spec/routes/" +:+ index_str index +:+ "/address" in
  (if str_is_empty v || (512 <? str_len v) then [issue path "address must contain 1-512 bytes"] else [])
  ++ (let without_device := replace "{device.id}" "" v in
      if contains_char "{" without_device || contains_char "}" without_device
      then [issue path "only the {device.id} template variable is allowed"] else [])
  ++ (if contains_char "*" v || contains_char "#" v
      then [issue path "wildcards are not allowed in device route addresses"] else []).
Definition encoding_compatible (e : PayloadEncoding) (f : SchemaFormat) : bool :=
  match e, f with
  | EncJson, JsonSchema | EncCbor, JsonSchema => true
  | EncProtobufDynamic, ProtobufDescriptor => true
  | EncRaw, Opaque => true
  | _, _ => false
  end.
Definition validate_encoding_schema (e : PayloadEncoding) (f : SchemaFormat) (index : nat) : list ValidationIssue :=
  if encoding_compatible e f then []
  else [issue ("/spec/routes/" +:+ index_str index +:+ "/encoding")
          "encoding is incompatible with the referenced schema format"].
Definition is_json_pointer (v : string) : bool := starts_with "/" v && negb (contains "//" v).
Definition is_color (v : string) : bool :=
  (str_len v =? 7)
  && match v with String "#" rest => str_forall is_ascii_hexdigit rest | _ => false end.

(** ** The blocks of [validate_blueprint] *)
Definition at_ (prefix : string) (i : nat) (suffix : string) : string := prefix +:+ index_str i +:+ suffix.

Definition check_header (b : DeviceBlueprint) : list ValidationIssue :=
  (if api_version b =s? BLUEPRINT_API_VERSION then []
   else [issue "/apiVersion" ("must equal '" +:+ BLUEPRINT_API_VERSION +:+ "'")])
  ++ (if bp_kind b =s? BLUEPRINT_KIND then []
      else [issue "/kind" ("must equal '" +:+ BLUEPRINT_KIND +:+ "'")])
  ++ validate_key (md_key (metadata b)) "/metadata/key"
  ++ (if trim_is_empty (md_name (metadata b)) || (128 <? str_len (md_name (metadata b)))
      then [issue "/metadata/name" "name must contain 1-128 bytes"] else [])
  ++ match md_color (metadata b) with
     | Some color => if is_color color then [] else [issue "/metadata/color" "color must be a #RRGGBB value"]
     | None => []
     end.
Definition check_runtime (r : RuntimeDefinition) : list ValidationIssue :=
  (if (minimum_contract_api r =? 0) || (CONTRACT_API_VERSION <? minimum_contract_api r)
   then [issue "/spec/runtime/minimumContractApi" ("must be between 1 and " +:+ int_to_string CONTRACT_API_VERSION)]
   else [])
  ++ validate_duration (hb_interval (heartbeat r)) "/spec/runtime/heartbeat/interval"
  ++ validate_duration (hb_offline_after (heartbeat r)) "/spec/runtime/heartbeat/offlineAfter"
  ++ match parse_duration_ms (hb_interval (heartbeat r)), parse_duration_ms (hb_offline_after (heartbeat r)) with
     | Some heartbeat_ms, Some offline_ms =>
       if offline_ms <=? heartbeat_ms
       then [issue "/spec/runtime/heartbeat/offlineAfter" "must be greater than the heartbeat interval"] else []
     | _, _ => []
     end
  ++ (if max_message_bytes (limits r) =? 0
      then [issue "/spec/runtime/limits/maxMessageBytes" "must be greater than zero"] else [])
  ++ (if max_messages_per_minute (limits r) =? 0
      then [issue "/spec/runtime/limits/maxMessagesPerMinute" "must be greater than zero"] else [])
  ++ (if max_metric_cardinality (limits r) =? 0
      then [issue "/spec/runtime/limits/maxMetricCardinality" "must be greater than zero"] else []).
Definition check_transport (i : nat) (t : TransportDefinition) : list ValidationIssue :=
  validate_key (tr_key t) (at_ "/spec/transports/" i "/key")
  ++ validate_key (tr_binding t) (at_ "/spec/transports/" i "/binding").
Definition check_transports (s : BlueprintSpec) : list ValidationIssue :=
  keyed_issues tr_key "/spec/transports" 0 [] (transports s) ++ concat (imap check_transport (transports s)).
Definition check_schema (i : nat) (sc : SchemaDefinition) : list ValidationIssue :=
  validate_schema_key (sc_key sc) (at_ "/spec/schemas/" i "/key")
  ++ (if bool_decide (sc_format sc = JsonSchema)
      then validate_schema_document (sc_schema sc) (at_ "/spec/schemas/" i "/schema") else []).
Definition check_schemas (s : BlueprintSpec) : list ValidationIssue :=
  keyed_issues sc_key "/spec/schemas" 0 [] (schemas s) ++ concat (imap check_schema (schemas s)).

Definition check_route (s : BlueprintSpec) (i : nat) (r : RouteDefinition) : list ValidationIssue :=
  let ts := keyed tr_key (transports s) in
  let ss := keyed sc_key (schemas s) in
  validate_key (rt_key r) (at_ "/spec/routes/" i "/key")
  ++ (if bt_contains_key (rt_transport r) ts then []
      else [issue (at_ "/spec/routes/" i "/transport") ("unknown transport '" +:+ rt_transport r +:+ "'")])
  ++ (if negb (starts_with "extrittio." (rt_message_schema r)) && negb (bt_contains_key (rt_message_schema r) ss)
      then [issue (at_ "/spec/routes/" i "/messageSchema") ("unknown schema '" +:+ rt_message_schema r +:+ "'")]
      else [])
  ++ validate_address (rt_address r) i
  ++ (if match bt_get (rt_transport r) ts with
         | Some t => bool_decide (tr_protocol t = Zenoh) | None => false end
         && negb (starts_with "extrittio/devices/{device.id}/" (rt_address r))
      then [issue (at_ "/spec/routes/" i "/address")
              "Zenoh route addresses must start with 'extrittio/devices/{device.id}/'"] else [])
  ++ match bt_get (rt_message_schema r) ss with
     | Some sc => validate_encoding_schema (rt_encoding r) (sc_format sc) i
     | None => []
     end.
Definition check_routes (s : BlueprintSpec) : list ValidationIssue :=
  keyed_issues rt_key "/spec/routes" 0 [] (routes s) ++ concat (imap (check_route s) (routes s)).

(** One field; [seen] holds the paths of the stream's earlier fields. *)
Definition check_field (i fi : nat) (seen : list string) (f : FieldDefinition) : list ValidationIssue :=
  let path := at_ "/spec/streams/" i ("/fields/" +:+ index_str fi) in
  (if is_json_pointer (fd_path f) then []
   else [issue (path +:+ "/path") "field path must be an absolute JSON pointer"])
  ++ (if one_of_str seen (fd_path f)
      then [issue (path +:+ "/path") "field path must be unique within its stream"] else [])
  ++ (if trim_is_empty (fd_label f) then [issue (path +:+ "/label") "label must not be empty"] else [])
  ++ (if negb (is_numeric (fd_value_type f))
         && existsb (fun a => negb (bool_decide (a = AggCount) || bool_decide (a = AggLast))) (fd_aggregates f)
      then [issue (path +:+ "/aggregates") "non-numeric fields support only count and last aggregates"] else []).
Fixpoint check_fields (i fi : nat) (seen : list string) (fs : list FieldDefinition) : list ValidationIssue :=
  match fs with
  | [] => []
  | f :: rest => check_field i fi seen f ++ check_fields i (S fi) (fd_path f :: seen) rest
  end.
Definition check_stream (s : BlueprintSpec) (i : nat) (st : StreamDefinition) : list ValidationIssue :=
  validate_key (st_key st) (at_ "/spec/streams/" i "/key")
  ++ match bt_get (st_route st) (keyed rt_key (routes s)) with
     | None => [issue (at_ "/spec/streams/" i "/route") ("unknown route '" +:+ st_route st +:+ "'")]
     | Some r =>
       if bool_decide (rt_direction r = DeviceToCloud) then []
       else [issue (at_ "/spec/streams/" i "/route") "stream route must have device_to_cloud direction"]
     end
  ++ check_fields i 0 [] (st_fields st).
Definition check_streams (s : BlueprintSpec) : list ValidationIssue :=
  keyed_issues st_key "/spec/streams" 0 [] (streams s) ++ concat (imap (check_stream s) (streams s)).
(** [metric_paths]. *)
Definition metric_paths (s : BlueprintSpec) : list string :=
  concat (map (fun st => map (fun f => st_key st +:+ "." +:+ fd_path f) (st_fields st)) (streams s)).

Definition numeric_field (st : StreamDefinition) (pointer : string) : bool :=
  existsb (fun f => (fd_path f =s? pointer) && is_numeric (fd_value_type f)) (st_fields st).
Definition check_location (s : BlueprintSpec) : list ValidationIssue :=
  match location s with
  | None => []
  | Some loc =>
    validate_duration (max_age loc) "/spec/location/maxAge"
    ++ (if latitude_path loc =s? longitude_path loc
        then [issue "/spec/location/longitudePath" "coordinates must reference distinct fields"] else [])
    ++ match bt_get (loc_stream loc) (keyed st_key (streams s)) with
       | Some st =>
         (if numeric_field st (latitude_path loc) then []
          else [issue "/spec/location/latitudePath" "must reference a declared numeric field in the location stream"])
         ++ (if numeric_field st (longitude_path loc) then []
             else [issue "/spec/location/longitudePath" "must reference a declared numeric field in the location stream"])
       | None => [issue "/spec/location/stream" "unknown location stream"]
       end
  end.

Definition check_command_route (s : BlueprintSpec) (i : nat) (side name : string) (d : RouteDirection)
    (wrong : string) : list ValidationIssue :=
  match bt_get name (keyed rt_key (routes s)) with
  | Some r => if bool_decide (rt_direction r = d) then [] else [issue (at_ "/spec/commands/" i side) wrong]
  | None => [issue (at_ "/spec/commands/" i side) ("unknown route '" +:+ name +:+ "'")]
  end.
Definition check_command (s : BlueprintSpec) (i : nat) (c : CommandDefinition) : list ValidationIssue :=
  validate_key (cm_key c) (at_ "/spec/commands/" i "/key")
  ++ validate_duration (cm_timeout c) (at_ "/spec/commands/" i "/timeout")
  ++ check_command_route s i "/requestRoute" (request_route c) CloudToDevice
       "command request route must be cloud_to_device"
  ++ check_command_route s i "/responseRoute" (response_route c) DeviceToCloud
       "command response route must be device_to_cloud"
  ++ validate_schema_document (input_schema c) (at_ "/spec/commands/" i "/inputSchema")
  ++ validate_schema_document (result_schema c) (at_ "/spec/commands/" i "/resultSchema").
Definition check_commands (s : BlueprintSpec) : list ValidationIssue :=
  keyed_issues cm_key "/spec/commands" 0 [] (bp_commands s) ++ concat (imap (check_command s) (bp_commands s)).

Definition check_defaults (c : ConfigurationDefinition) (schema_issues : list ValidationIssue) : list ValidationIssue :=
  if bool_decide (schema_issues = []) && negb (is_null (cf_defaults c)) then
    match validate_instance (cf_schema c) (cf_defaults c) with
    | Ok _ => []
    | Err e =>
      match validation_issues e with
      | Some issues =>
        map (fun x => issue ("/spec/configuration/defaults" +:+ trim_start_matches "$" (issue_path x))
                        (issue_message x)) issues
      | None => []
      end
    end
  else [].
Definition check_configuration (s : BlueprintSpec) : list ValidationIssue :=
  match configuration s with
  | None => []
  | Some c =>
    let schema_issues := validate_schema_document (cf_schema c) "/spec/configuration/schema" in
    check_defaults c schema_issues
    ++ schema_issues
    ++ validate_duration (acknowledgement_timeout (cf_apply c)) "/spec/configuration/apply/acknowledgementTimeout"
  end.
Definition check_reported_state (s : BlueprintSpec) : list ValidationIssue :=
  match reported_state s with
  | Some r => validate_schema_document (rs_schema r) "/spec/reportedState/schema"
  | None => []
  end.
Definition check_signal (s : BlueprintSpec) (i : nat) (h : HealthSignalDefinition) : list ValidationIssue :=
  validate_key (hs_key h) (at_ "/spec/health/signals/" i "/key")
  ++ (if bool_decide (hs_source h = SourceMetric) && negb (one_of_str (metric_paths s) (hs_path h))
      then [issue (at_ "/spec/health/signals/" i "/path") ("unknown metric '" +:+ hs_path h +:+ "'")] else []).
Definition check_health (s : BlueprintSpec) : list ValidationIssue :=
  match health s with
  | None => []
  | Some h => keyed_issues hs_key "/spec/health/signals" 0 [] (signals h) ++ concat (imap (check_signal s) (signals h))
  end.
Definition check_relationship (s : BlueprintSpec) (i : nat) (r : RelationshipDefinition) : list ValidationIssue :=
  validate_key (rel_key r) (at_ "/spec/relationships/" i "/key")
  ++ (if bt_contains_key (rel_stream r) (keyed st_key (streams s)) then []
      else [issue (at_ "/spec/relationships/" i "/stream") ("unknown stream '" +:+ rel_stream r +:+ "'")])
  ++ (if is_json_pointer (target_key_path r) then []
      else [issue (at_ "/spec/relationships/" i "/targetKeyPath") "target key path must be an absolute JSON pointer"]).
Definition check_summary (s : BlueprintSpec) (i : nat) (r : MetricReference) : list ValidationIssue :=
  if one_of_str (metric_paths s) (metric_ref r) then []
  else [issue (at_ "/spec/presentation/summary/" i "/metric") ("unknown metric '" +:+ metric_ref r +:+ "'")].
Definition check_presentation (s : BlueprintSpec) : list ValidationIssue :=
  match presentation s with
  | Some p => concat (imap (check_summary s) (summary p))
  | None => []
  end.
Definition field_count (s : BlueprintSpec) : Z := fold_right (fun st n => Z.of_nat (length (st_fields st)) + n) 0 (streams s).
Definition check_cardinality (s : BlueprintSpec) : list ValidationIssue :=
  if max_metric_cardinality (limits (runtime s)) <? field_count s
  then [issue "/spec/streams" "declared field count exceeds runtime maxMetricCardinality"] else [].

Definition blueprint_issues (b : DeviceBlueprint) : list ValidationIssue :=
  let s := spec b in
  check_header b ++ check_runtime (runtime s) ++ check_transports s ++ check_schemas s ++ check_routes s
  ++ check_streams s ++ check_location s ++ check_commands s ++ check_configuration s
  ++ check_reported_state s ++ check_health s
  ++ concat (imap (check_relationship s) (relationships s)) ++ check_presentation s ++ check_cardinality s.
(** A [ValidatedBlueprint] is the blueprint it wraps. *)
Definition validate_blueprint (b : DeviceBlueprint) : result ContractError DeviceBlueprint :=
  issues_result InvalidBlueprint (blueprint_issues b) b.

(** ** What a valid blueprint is

    The same conditions without paths, indices, maps or issues. *)
Definition schema_accepted (s : value) : Prop := validate_schema_document s "$schema" = [].
Definition duration_ok (v : string) : Prop := exists d, parse_duration_ms v = Some d /\ 0 < d.
Definition schema_key_ok (v : string) : Prop :=
  exists name version n, rsplit_once "@" v = Some (name, version)
    /\ key_ok name = true /\ parse_u32 version = Some n /\ n <> 0.
Definition address_ok (a : string) : Prop :=
  a <> "" /\ str_len a <= 512
  /\ contains_char "{" (replace "{device.id}" "" a) = false
  /\ contains_char "}" (replace "{device.id}" "" a) = false
  /\ contains_char "*" a = false /\ contains_char "#" a = false.
Definition header_ok (b : DeviceBlueprint) : Prop :=
  api_version b = BLUEPRINT_API_VERSION /\ bp_kind b = BLUEPRINT_KIND
  /\ key_ok (md_key (metadata b)) = true
  /\ trim_is_empty (md_name (metadata b)) = false /\ str_len (md_name (metadata b)) <= 128
  /\ (forall color, md_color (metadata b) = Some color -> is_color color = true).
Definition runtime_ok (r : RuntimeDefinition) : Prop :=
  minimum_contract_api r <> 0 /\ minimum_contract_api r <= CONTRACT_API_VERSION
  /\ (exists h o, parse_duration_ms (hb_interval (heartbeat r)) = Some h
        /\ parse_duration_ms (hb_offline_after (heartbeat r)) = Some o /\ 0 < h < o)
  /\ max_message_bytes (limits r) <> 0 /\ max_messages_per_minute (limits r) <> 0
  /\ max_metric_cardinality (limits r) <> 0.
Definition transport_ok (t : TransportDefinition) : Prop :=
  key_ok (tr_key t) = true /\ key_ok (tr_binding t) = true.
Definition schema_ok (sc : SchemaDefinition) : Prop :=
  schema_key_ok (sc_key sc) /\ (sc_format sc = JsonSchema -> schema_accepted (sc_schema sc)).
Definition route_ok (s : BlueprintSpec) (r : RouteDefinition) : Prop :=
  key_ok (rt_key r) = true
  /\ (exists t, t ∈ transports s /\ tr_key t = rt_transport r
        /\ (tr_protocol t = Zenoh -> starts_with "extrittio/devices/{device.id}/" (rt_address r) = true))
  /\ (starts_with "extrittio." (rt_message_schema r) = true
      \/ exists sc, sc ∈ schemas s /\ sc_key sc = rt_message_schema r)
  /\ (forall sc, sc ∈ schemas s -> sc_key sc = rt_message_schema r ->
        encoding_compatible (rt_encoding r) (sc_format sc) = true)
  /\ address_ok (rt_address r).
Definition field_ok (f : FieldDefinition) : Prop :=
  is_json_pointer (fd_path f) = true /\ trim_is_empty (fd_label f) = false
  /\ (is_numeric (fd_value_type f) = true
      \/ forall a, a ∈ fd_aggregates f -> a = AggCount \/ a = AggLast).
Definition directed (s : BlueprintSpec) (name : string) (d : RouteDirection) : Prop :=
  exists r, r ∈ routes s /\ rt_key r = name /\ rt_direction r = d.
Definition stream_ok (s : BlueprintSpec) (st : StreamDefinition) : Prop :=
  key_ok (st_key st) = true /\ directed s (st_route st) DeviceToCloud
  /\ NoDup (map fd_path (st_fields st)) /\ (forall f, f ∈ st_fields st -> field_ok f).
Definition location_ok (s : BlueprintSpec) (loc : LocationDefinition) : Prop :=
  duration_ok (max_age loc) /\ latitude_path loc <> longitude_path loc
  /\ exists st, st ∈ streams s /\ st_key st = loc_stream loc
       /\ numeric_field st (latitude_path loc) = true /\ numeric_field st (longitude_path loc) = true.
Definition command_ok (s : BlueprintSpec) (c : CommandDefinition) : Prop :=
  key_ok (cm_key c) = true /\ duration_ok (cm_timeout c)
  /\ directed s (request_route c) CloudToDevice /\ directed s (response_route c) DeviceToCloud
  /\ schema_accepted (input_schema c) /\ schema_accepted (result_schema c).
Definition configuration_ok (c : ConfigurationDefinition) : Prop :=
  schema_accepted (cf_schema c) /\ (cf_defaults c = Null \/ conforms (cf_schema c) (cf_defaults c))
  /\ duration_ok (acknowledgement_timeout (cf_apply c)).
Definition signal_ok (s : BlueprintSpec) (h : HealthSignalDefinition) : Prop :=
  key_ok (hs_key h) = true /\ (hs_source h = SourceMetric -> hs_path h ∈ metric_paths s).
Definition relationship_ok (s : BlueprintSpec) (r : RelationshipDefinition) : Prop :=
  key_ok (rel_key r) = true /\ (exists st, st ∈ streams s /\ st_key st = rel_stream r)
  /\ is_json_pointer (target_key_path r) = true.

Record blueprint_ok (b : DeviceBlueprint) : Prop := {
  bp_header : header_ok b;
  bp_runtime : runtime_ok (runtime (spec b));
  bp_transport_keys : NoDup (map tr_key (transports (spec b)));
  bp_transports : forall t, t ∈ transports (spec b) -> transport_ok t;
  bp_schema_keys : NoDup (map sc_key (schemas (spec b)));
  bp_schemas : forall sc, sc ∈ schemas (spec b) -> schema_ok sc;
  bp_route_keys : NoDup (map rt_key (routes (spec b)));
  bp_routes : forall r, r ∈ routes (spec b) -> route_ok (spec b) r;
  bp_stream_keys : NoDup (map st_key (streams (spec b)));
  bp_streams : forall st, st ∈ streams (spec b) -> stream_ok (spec b) st;
  bp_location : forall loc, location (spec b) = Some loc -> location_ok (spec b) loc;
  bp_command_keys : NoDup (map cm_key (bp_commands (spec b)));
  bp_commands_ok : forall c, c ∈ bp_commands (spec b) -> command_ok (spec b) c;
  bp_configuration : forall c, configuration (spec b) = Some c -> configuration_ok c;
  bp_reported : forall r, reported_state (spec b) = Some r -> schema_accepted (rs_schema r);
  bp_signal_keys : forall h, health (spec b) = Some h -> NoDup (map hs_key (signals h));
  bp_signals : forall h x, health (spec b) = Some h -> x ∈ signals h -> signal_ok (spec b) x;
  bp_relationships : forall r, r ∈ relationships (spec b) -> relationship_ok (spec b) r;
  bp_summary : forall p r, presentation (spec b) = Some p -> r ∈ summary p ->
    metric_ref r ∈ metric_paths (spec b);
  bp_cardinality : field_count (spec b) <= max_metric_cardinality (limits (runtime (spec b)));
}.

(** ** Helper lemmas *)
Lemma one_of_str_spec l x : one_of_str l x = true <-> x ∈ l.
Proof.
  unfold one_of_str. rewrite existsb_elem. setoid_rewrite String.eqb_eq. naive_solver.
Qed.
Lemma one_of_str_false l x : one_of_str l x = false <-> x ∉ l.
Proof. rewrite <- one_of_str_spec. by destruct (one_of_str l x). Qed.
Lemma keyed_issues_nil {T} (key : T -> string) path i seen items :
  keyed_issues key path i seen items = []
  <-> NoDup (map key items) /\ forall x, x ∈ items -> key x ∉ seen.
Proof.
  revert i seen. induction items as [|x items IH]; intros i seen; simpl.
  - split; [intros _; split; [constructor|set_solver]|done].
  - rewrite app_nil, if_nil', one_of_str_false, IH, NoDup_cons. split.
    + intros (Hx & Hnd & Hs). split_and!; [|done|].
      * intros (y & Hy & Hin)%list_elem_of_fmap. specialize (Hs y Hin). set_solver.
      * intros y [->|Hy]%elem_of_cons; [done|]. specialize (Hs y Hy). set_solver.
    + intros ((Hx & Hnd) & Hs). split_and!; [apply Hs; set_solver|done|].
      intros y Hy. rewrite not_elem_of_cons. split; [|apply Hs; set_solver].
      intros E. apply Hx. rewrite <- E. by apply list_elem_of_fmap_2.
Qed.
Lemma keyed_nodup {T} (key : T -> string) path items :
  keyed_issues key path 0 [] items = [] <-> NoDup (map key items).
Proof. rewrite keyed_issues_nil. split; [naive_solver|]. intros H. split; [done|set_solver]. Qed.
Lemma keyed_get {T} (key : T -> string) items k x :
  NoDup (map key items) -> bt_get k (keyed key items) = Some x <-> x ∈ items /\ key x = k.
Proof.
  intros Hnd. unfold keyed. split.
  - intros H%bt_collect_elem. apply list_elem_of_fmap in H as (y & [= -> ->] & Hy). done.
  - intros [Hx <-]. apply bt_collect_get.
    + rewrite <- list_fmap_compose. done.
    + apply list_elem_of_fmap. eauto.
Qed.
Lemma keyed_contains {T} (key : T -> string) items k :
  bt_contains_key k (keyed key items) = true <-> exists x, x ∈ items /\ key x = k.
Proof.
  unfold keyed. rewrite bt_collect_contains, <- list_fmap_compose, list_elem_of_fmap.
  simpl. naive_solver.
Qed.
Lemma concat_imap_elem {A B} (f : nat -> A -> list B) (P : A -> Prop) l :
  (forall i x, x ∈ l -> f i x = [] <-> P x) -> concat (imap f l) = [] <-> forall x, x ∈ l -> P x.
Proof.
  intros Hf. rewrite concat_imap_nil. split.
  - intros H x Hx. apply list_elem_of_lookup in Hx as Hl. destruct Hl as [i Hi]. apply (Hf i x Hx). eauto.
  - intros H i x Hi. apply list_elem_of_lookup_2 in Hi as Hx. apply (Hf i x Hx). eauto.
Qed.
Lemma validate_key_nil v path : validate_key v path = [] <-> key_ok v = true.
Proof. unfold validate_key. apply if_nil. Qed.
Lemma duration_nonneg v d : parse_duration_ms v = Some d -> 0 <= d.
Proof.
  unfold parse_duration_ms. intros ([number multiplier] & _ & (n & _ & H)%bind_Some)%bind_Some.
  unfold Int.checked_mul_u64 in H. case_match eqn:E; simplify_eq. apply Int.in_u64_spec in E. lia.
Qed.
Lemma validate_duration_nil v path : validate_duration v path = [] <-> duration_ok v.
Proof.
  unfold validate_duration, duration_ok. rewrite if_nil'.
  destruct (parse_duration_ms v) as [d|] eqn:E; [|naive_solver].
  apply duration_nonneg in E. rewrite Z.eqb_neq. split.
  - intros Hd. exists d. split; [done|lia].
  - intros (d' & [= <-] & Hd). lia.
Qed.
Lemma validate_schema_key_nil v path : validate_schema_key v path = [] <-> schema_key_ok v.
Proof.
  unfold validate_schema_key, schema_key_ok.
  destruct (rsplit_once "@" v) as [[name version]|]; [|split; [done|by intros (? & ? & ? & ? & _)]].
  rewrite app_nil, validate_key_nil, if_nil'. destruct (parse_u32 version) as [n|] eqn:E.
  - rewrite Z.eqb_neq. split; [intros [? ?]; by exists name, version, n|].
    intros (? & ? & ? & [= <- <-] & ? & ? & ?). split; [done|congruence].
  - split; [by intros [_ ?]|]. intros (? & ? & ? & [= <- <-] & _ & ? & _). congruence.
Qed.
Lemma validate_address_nil a i : validate_address a i = [] <-> address_ok a.
Proof.
  unfold validate_address, address_ok. cbv zeta. rewrite !app_nil, !if_nil', !orb_false_iff, Z.ltb_ge.
  assert (str_is_empty a = false <-> a <> "") as -> by (destruct a; naive_solver). tauto.
Qed.
Lemma and_imp_iff (A B C : Prop) : (A /\ B -> C) <-> (A -> B -> C).
Proof. tauto. Qed.
Lemma document_nil s p : validate_schema_document s p = [] <-> schema_accepted s.
Proof. unfold schema_accepted. exact (schema_document_path s p "$schema"). Qed.

(** ** Block by block *)
Lemma header_nil b : check_header b = [] <-> header_ok b.
Proof.
  unfold check_header, header_ok. rewrite !app_nil, !if_nil, validate_key_nil, if_nil', orb_false_iff, Z.ltb_ge.
  rewrite !String.eqb_eq. destruct (md_color (metadata b)) as [color|]; [rewrite if_nil|]; naive_solver.
Qed.
Lemma runtime_nil r : check_runtime r = [] <-> runtime_ok r.
Proof.
  unfold check_runtime, runtime_ok. rewrite !app_nil, !if_nil', !validate_duration_nil, orb_false_iff.
  rewrite Z.ltb_ge, !Z.eqb_neq. unfold duration_ok. split.
  - intros ([H1 H2] & (h & Hh & Hh0) & (o & Ho & Ho0) & Hho & H5 & H6 & H7).
    rewrite Hh, Ho, if_nil', Z.leb_gt in Hho. split_and!; try done. exists h, o. auto.
  - intros (H1 & H2 & (h & o & Hh & Ho & Hho) & H5 & H6 & H7). rewrite Hh, Ho, if_nil', Z.leb_gt.
    split_and!; try done; [exists h|exists o|lia]; split; try done; lia.
Qed.
Lemma transport_nil i t : check_transport i t = [] <-> transport_ok t.
Proof. unfold check_transport, transport_ok. by rewrite app_nil, !validate_key_nil. Qed.
Lemma schema_nil i sc : check_schema i sc = [] <-> schema_ok sc.
Proof.
  unfold check_schema, schema_ok. rewrite app_nil, validate_schema_key_nil.
  case_bool_decide; [rewrite document_nil|]; naive_solver.
Qed.
Lemma route_nil s i r :
  NoDup (map tr_key (transports s)) -> NoDup (map sc_key (schemas s)) ->
  check_route s i r = [] <-> route_ok s r.
Proof.
  intros Ht Hs. unfold check_route, route_ok. cbv zeta.
  rewrite !app_nil, validate_key_nil, validate_address_nil, if_nil, if_nil', keyed_contains.
  rewrite andb_false_iff, !negb_false_iff, keyed_contains, if_nil', andb_false_iff, negb_false_iff.
  assert (match bt_get (rt_message_schema r) (keyed sc_key (schemas s)) with
          | Some sc => validate_encoding_schema (rt_encoding r) (sc_format sc) i
          | None => [] end = []
          <-> forall sc, sc ∈ schemas s -> sc_key sc = rt_message_schema r ->
              encoding_compatible (rt_encoding r) (sc_format sc) = true) as ->.
  { setoid_rewrite <- (fun sc => and_imp_iff (sc ∈ schemas s) (sc_key sc = rt_message_schema r)
      (encoding_compatible (rt_encoding r) (sc_format sc) = true)).
    setoid_rewrite <- (keyed_get sc_key (schemas s) (rt_message_schema r)); [|done].
    destruct (bt_get _ _) as [sc|]; [unfold validate_encoding_schema; rewrite if_nil|]; naive_solver. }
  split.
  - intros (H1 & (t & Hin & Hk) & H3 & H4 & H5 & H6). split_and!; try done. exists t. split_and!; try done.
    intros Hz. rewrite (proj2 (keyed_get tr_key (transports s) (rt_transport r) t Ht)) in H5 by done.
    rewrite bool_decide_true in H5 by done. naive_solver.
  - intros (H1 & (t & Hin & Hk & Hz) & H3 & H4 & H5). split_and!; try done; [eauto|].
    rewrite (proj2 (keyed_get tr_key (transports s) (rt_transport r) t Ht)) by done.
    case_bool_decide; [right; auto|by left].
Qed.
Lemma field_nil i fi seen f :
  check_field i fi seen f = [] <-> field_ok f /\ fd_path f ∉ seen.
Proof.
  unfold check_field, field_ok. cbv zeta.
  rewrite !app_nil, if_nil, !if_nil', one_of_str_false, andb_false_iff, negb_false_iff, existsb_false_elem.
  assert ((forall a, a ∈ fd_aggregates f -> negb (bool_decide (a = AggCount) || bool_decide (a = AggLast)) = false)
    <-> forall a, a ∈ fd_aggregates f -> a = AggCount \/ a = AggLast) as ->.
  { setoid_rewrite negb_false_iff. setoid_rewrite orb_true_iff. by setoid_rewrite bool_decide_eq_true. }
  tauto.
Qed.
Lemma fields_nil i fi seen fs :
  check_fields i fi seen fs = []
  <-> (forall f, f ∈ fs -> field_ok f) /\ NoDup (map fd_path fs) /\ forall f, f ∈ fs -> fd_path f ∉ seen.
Proof.
  revert fi seen. induction fs as [|f fs IH]; intros fi seen; simpl.
  - split; [intros _; split_and!; [set_solver|constructor|set_solver]|done].
  - rewrite app_nil, field_nil, IH, NoDup_cons. split.
    + intros ((Hf & Hs) & Hfs & Hnd & Hs'). split_and!; [|..|done|].
      * intros g [->|Hg]%elem_of_cons; [done|auto].
      * intros (g & Hg & Hin)%list_elem_of_fmap. specialize (Hs' g Hin). set_solver.
      * intros g [->|Hg]%elem_of_cons; [done|]. specialize (Hs' g Hg). set_solver.
    + intros (Hf & [Hx Hnd] & Hs). split_and!; [apply Hf; set_solver|apply Hs; set_solver| |done|].
      * intros g Hg. apply Hf. set_solver.
      * intros g Hg. rewrite not_elem_of_cons. split; [|apply Hs; set_solver].
        intros E. apply Hx. rewrite <- E. by apply list_elem_of_fmap_2.
Qed.
Lemma directed_nil s name d (wrong unknown : ValidationIssue) :
  NoDup (map rt_key (routes s)) ->
  match bt_get name (keyed rt_key (routes s)) with
  | Some r => if bool_decide (rt_direction r = d) then [] else [wrong]
  | None => [unknown]
  end = [] <-> directed s name d.
Proof.
  intros Hnd. unfold directed.
  assert ((exists r, r ∈ routes s /\ rt_key r = name /\ rt_direction r = d)
    <-> exists r, bt_get name (keyed rt_key (routes s)) = Some r /\ rt_direction r = d) as ->.
  { setoid_rewrite (keyed_get rt_key); [|done]. naive_solver. }
  destruct (bt_get _ _) as [r|]; [rewrite if_nil, bool_decide_eq_true|]; naive_solver.
Qed.
Lemma stream_nil s i st :
  NoDup (map rt_key (routes s)) -> check_stream s i st = [] <-> stream_ok s st.
Proof.
  intros Hnd. unfold check_stream, stream_ok. rewrite !app_nil, validate_key_nil, fields_nil.
  assert (forall name, match bt_get (st_route st) (keyed rt_key (routes s)) with
     | None => [issue name ("unknown route '" +:+ st_route st +:+ "'")]
     | Some r => if bool_decide (rt_direction r = DeviceToCloud) then []
       else [issue name "stream route must have device_to_cloud direction"] end = []
     <-> directed s (st_route st) DeviceToCloud) as Hd.
  { intros name. rewrite <- (directed_nil s (st_route st) DeviceToCloud
      (issue name "stream route must have device_to_cloud direction")
      (issue name ("unknown route '" +:+ st_route st +:+ "'")) Hnd). by destruct (bt_get _ _). }
  rewrite Hd. set_solver.
Qed.
Lemma location_nil s :
  NoDup (map st_key (streams s)) ->
  check_location s = [] <-> forall loc, location s = Some loc -> location_ok s loc.
Proof.
  intros Hnd. unfold check_location. destruct (location s) as [loc|]; [|naive_solver].
  rewrite !app_nil, validate_duration_nil, if_nil', String.eqb_neq.
  assert ((exists st, st ∈ streams s /\ st_key st = loc_stream loc
       /\ numeric_field st (latitude_path loc) = true /\ numeric_field st (longitude_path loc) = true)
    <-> exists st, bt_get (loc_stream loc) (keyed st_key (streams s)) = Some st
       /\ numeric_field st (latitude_path loc) = true /\ numeric_field st (longitude_path loc) = true) as Hst.
  { setoid_rewrite (keyed_get st_key); [|done]. naive_solver. }
  assert (location_ok s loc <-> duration_ok (max_age loc) /\ latitude_path loc <> longitude_path loc
    /\ exists st, bt_get (loc_stream loc) (keyed st_key (streams s)) = Some st
       /\ numeric_field st (latitude_path loc) = true /\ numeric_field st (longitude_path loc) = true) as Hl.
  { unfold location_ok. by rewrite Hst. }
  transitivity (location_ok s loc); [rewrite Hl|naive_solver].
  destruct (bt_get _ _) as [st|]; [rewrite app_nil, !if_nil|]; naive_solver.
Qed.
Lemma command_nil s i c :
  NoDup (map rt_key (routes s)) -> check_command s i c = [] <-> command_ok s c.
Proof.
  intros Hnd. unfold check_command, command_ok, check_command_route.
  rewrite !app_nil, validate_key_nil, validate_duration_nil, !document_nil.
  by rewrite !directed_nil.
Qed.
Lemma instance_conforms s v : schema_accepted s -> validate_instance s v = Ok tt <-> conforms s v.
Proof. intros Hs. rewrite validate_instance_spec. unfold schema_accepted in Hs. tauto. Qed.
Lemma instance_error s v e :
  schema_accepted s -> validate_instance s v = Err e ->
  exists x xs, validation_issues e = Some (x :: xs).
Proof.
  unfold schema_accepted, validate_instance. intros ->. simpl. unfold issues_result.
  destruct (validate_node INSTANCE_FUEL s v "$") as [|x xs]; [done|]. intros [= <-]. simpl. eauto.
Qed.
Lemma defaults_nil c :
  schema_accepted (cf_schema c) ->
  check_defaults c [] = [] <-> cf_defaults c = Null \/ conforms (cf_schema c) (cf_defaults c).
Proof.
  intros Hs. unfold check_defaults. rewrite bool_decide_true by done.
  rewrite <- (instance_conforms _ _ Hs). simpl.
  destruct (is_null (cf_defaults c)) eqn:En; simpl.
  - split; [intros _; left; by destruct (cf_defaults c)|done].
  - assert (cf_defaults c <> Null) as Hne by (intros E; by rewrite E in En).
    destruct (validate_instance _ _) as [[]|e] eqn:Ei; [naive_solver|].
    destruct (instance_error _ _ _ Hs Ei) as (x & xs & ->). simpl. naive_solver.
Qed.
Lemma configuration_nil s :
  check_configuration s = [] <-> forall c, configuration s = Some c -> configuration_ok c.
Proof.
  unfold check_configuration. destruct (configuration s) as [c|]; [|naive_solver].
  transitivity (configuration_ok c); [|naive_solver]. unfold configuration_ok. cbv zeta.
  rewrite <- (document_nil (cf_schema c) "/spec/configuration/schema"), !app_nil, validate_duration_nil.
  destruct (validate_schema_document (cf_schema c) "/spec/configuration/schema") as [|x l] eqn:E; [|naive_solver].
  assert (Ha := proj1 (document_nil _ _) E). rewrite (defaults_nil c Ha). tauto.
Qed.
Lemma signal_nil s i h : check_signal s i h = [] <-> signal_ok s h.
Proof.
  unfold check_signal, signal_ok. rewrite app_nil, validate_key_nil, if_nil', andb_false_iff, negb_false_iff.
  rewrite one_of_str_spec, bool_decide_eq_false.
  destruct (decide (hs_source h = SourceMetric)); naive_solver.
Qed.
Lemma health_nil s :
  check_health s = []
  <-> (forall h, health s = Some h -> NoDup (map hs_key (signals h)))
      /\ (forall h x, health s = Some h -> x ∈ signals h -> signal_ok s x).
Proof.
  unfold check_health. destruct (health s) as [h|]; [|naive_solver].
  rewrite app_nil, keyed_nodup, (concat_imap_elem _ (signal_ok s)) by (intros; apply signal_nil).
  naive_solver.
Qed.
Lemma relationship_nil s i r : check_relationship s i r = [] <-> relationship_ok s r.
Proof.
  unfold check_relationship, relationship_ok. by rewrite !app_nil, validate_key_nil, !if_nil, keyed_contains.
Qed.
Lemma presentation_nil s :
  check_presentation s = []
  <-> forall p r, presentation s = Some p -> r ∈ summary p -> metric_ref r ∈ metric_paths s.
Proof.
  unfold check_presentation. destruct (presentation s) as [p|]; [|naive_solver].
  rewrite (concat_imap_elem _ (fun r => metric_ref r ∈ metric_paths s)); [naive_solver|].
  intros i r _. unfold check_summary. by rewrite if_nil, one_of_str_spec.
Qed.
Lemma reported_nil s :
  check_reported_state s = [] <-> forall r, reported_state s = Some r -> schema_accepted (rs_schema r).
Proof.
  unfold check_reported_state. destruct (reported_state s) as [r|]; [rewrite document_nil|]; naive_solver.
Qed.
Lemma blueprint_nil b : blueprint_issues b = [] <-> blueprint_ok b.
Proof.
  unfold blueprint_issues, check_transports, check_schemas, check_routes, check_streams, check_commands,
    check_cardinality. cbv zeta.
  rewrite !app_nil, header_nil, runtime_nil, !keyed_nodup, configuration_nil, reported_nil, health_nil,
    presentation_nil, if_nil', Z.ltb_ge.
  rewrite (concat_imap_elem _ transport_ok) by (intros; apply transport_nil).
  rewrite (concat_imap_elem _ schema_ok) by (intros; apply schema_nil).
  rewrite (concat_imap_elem _ (relationship_ok (spec b))) by (intros; apply relationship_nil).
  split.
  - intros (H1 & H2 & (H3 & H4) & (H5 & H6) & (H7 & H8) & (H9 & H10) & H11 & (H12 & H13) & H14 & H15
      & (H16 & H17) & H18 & H19 & H20).
    rewrite (concat_imap_elem _ (route_ok (spec b))) in H8 by (intros; by apply route_nil).
    rewrite (concat_imap_elem _ (stream_ok (spec b))) in H10 by (intros; by apply stream_nil).
    rewrite (concat_imap_elem _ (command_ok (spec b))) in H13 by (intros; by apply command_nil).
    rewrite location_nil in H11 by done. by split.
  - intros [H1 H2 H3 H4 H5 H6 H7 H8 H9 H10 H11 H12 H13 H14 H15 H16 H17 H18 H19 H20].
    rewrite (concat_imap_elem _ (route_ok (spec b))) by (intros; by apply route_nil).
    rewrite (concat_imap_elem _ (stream_ok (spec b))) by (intros; by apply stream_nil).
    rewrite (concat_imap_elem _ (command_ok (spec b))) by (intros; by apply command_nil).
    rewrite location_nil by done. by split_and!.
Qed.
Lemma validate_blueprint_ok b b' : validate_blueprint b = Ok b' <-> blueprint_ok b /\ b' = b.
Proof. unfold validate_blueprint. rewrite issues_result_ok, blueprint_nil. naive_solver. Qed.

(** C31. Validation is sound and complete: [validate_blueprint] accepts a
    blueprint, unchanged, exactly when it satisfies every declarative
    condition: unique keys, references to declared transports, schemas,
    routes, streams and metrics with the right directions and encodings,
    positive durations with the offline timeout above the heartbeat, schemas
    of the profile, configuration defaults that conform, and the limits. *)
Theorem validate_blueprint_exact b b' :
  validate_blueprint b = Ok b' <-> blueprint_ok b /\ b' = b.
Proof. apply validate_blueprint_ok. Qed.
