(* ===== verification/ColdRoom.v ===== *)
(** * The cold-room blueprint (crates/device-contract/tests/fixtures/cold-room.yaml)

    The blueprint the crate's own tests use, the concrete input of the
    examples and witnesses on contracts. *)
From S2P Require Import Prelude Text Json ContractModel.

Local Open Scope Z_scope.

Definition object_schema (required : list string) (properties : list (string * value)) : value :=
  object ([("type", VString "object"); ("additionalProperties", Bool false)]
    ++ match required with [] => [] | _ => [("required", Array (map VString required))] end
    ++ [("properties", object properties)]).
Definition number_schema (type : string) (lo hi : Z) (dflt : list (string * value)) : value :=
  object ([("type", VString type); ("minimum", of_int lo); ("maximum", of_int hi)] ++ dflt).
Definition environment_route (key direction_path message_schema : string) (d : RouteDirection) (e : PayloadEncoding)
    : RouteDefinition :=
  {| rt_key := key; rt_transport := "primary"; rt_direction := d;
     rt_address := "extrittio/devices/{device.id}/" +:+ direction_path;
     rt_message_schema := message_schema; rt_encoding := e |}.
Definition environment_field (path label unit_ semantic : string) (aggregates : list AggregateKind)
    (presentation : option FieldPresentation) : FieldDefinition :=
  {| fd_path := path; fd_value_type := Float64; fd_label := label; fd_unit := Some unit_;
     fd_semantic := Some semantic; fd_index := true; fd_aggregates := aggregates;
     fd_presentation := presentation |}.
Definition cold_room_configuration : ConfigurationDefinition :=
  {| cf_schema := object_schema ["sample_interval_seconds"; "temperature_offset"]
       [("sample_interval_seconds", number_schema "integer" 5 3600 [("default", of_int 60)]);
        ("temperature_offset", number_schema "number" (-10) 10 [("default", of_int 0)])];
     cf_defaults := Null;
     cf_apply := {| ap_mode := DesiredReported; acknowledgement_timeout := "60s"; ap_atomic := true |} |}.
Definition cold_room_command : CommandDefinition :=
  {| cm_key := "identify"; request_route := "command_requests"; response_route := "command_results";
     cm_label := "Identify device"; cm_description := Some "Blink the status LED.";
     cm_danger := DangerNormal; cm_timeout := "10s";
     input_schema := object_schema [] [("duration_seconds", number_schema "integer" 1 30 [("default", of_int 5)])];
     result_schema := object_schema ["completed"] [("completed", object [("type", VString "boolean")])];
     cm_availability := Some "reported.features.identify == true"; cm_idempotency := Idempotent |}.
Definition cold_room_stream : StreamDefinition :=
  {| st_key := "environment"; st_route := "environment"; st_timestamp := "envelope.occurred_at";
     st_fields :=
       [environment_field "/temperature" "Temperature" "Cel" "temperature" [AggMin; AggMax; AggAvg]
          (Some {| fp_color := Some "#4C90F0"; fp_chart := Some ChartLine; fp_precision := Some 1 |});
        environment_field "/humidity" "Humidity" "%RH" "relative_humidity" [AggMin; AggMax; AggAvg] None;
        environment_field "/battery_percent" "Battery" "%" "battery_level" [AggMin; AggAvg] None];
     st_retention := None |}.
Definition cold_room_spec : BlueprintSpec :=
  {| runtime := {| minimum_contract_api := 1;
                   heartbeat := {| hb_interval := "30s"; hb_offline_after := "95s" |};
                   limits := {| max_message_bytes := 8192; max_messages_per_minute := 120;
                                max_metric_cardinality := default_max_metric_cardinality |} |};
     transports := [{| tr_key := "primary"; tr_binding := "primary_zenoh"; tr_protocol := Zenoh;
                       tr_qos := {| delivery := AtLeastOnce; ordering := PerDeviceStream |} |}];
     routes := [environment_route "environment" "events/environment" "environment@1" DeviceToCloud EncJson;
                environment_route "command_requests" "commands/request" "extrittio.command-request@1"
                  CloudToDevice EncProtobuf;
                environment_route "command_results" "commands/result" "extrittio.command-result@1"
                  DeviceToCloud EncProtobuf];
     schemas := [{| sc_key := "environment@1"; sc_format := JsonSchema;
                    sc_schema := object_schema ["temperature"; "humidity"]
                      [("temperature", number_schema "number" (-80) 120 []);
                       ("humidity", number_schema "number" 0 100 []);
                       ("battery_percent", number_schema "number" 0 100 [])] |}];
     streams := [cold_room_stream];
     location := None;
     bp_commands := [cold_room_command];
     configuration := Some cold_room_configuration;
     reported_state := Some {| rs_schema := object
       [("type", VString "object");
        ("properties", object [("contract_hash",
           object [("type", VString "string"); ("minLength", of_int 64); ("maxLength", of_int 64)])])] |};
     health := Some {| signals := [{| hs_key := "battery_low"; hs_source := SourceMetric;
       hs_path := "environment./battery_percent"; hs_operator := CmpLt; hs_value := of_int 15;
       hs_severity := SevWarning |}] |};
     bp_firmware := Some {| fw_strategy := BinaryReplacement; fw_compatibility := [("contractApi", of_int 1)] |};
     relationships := [];
     presentation := Some {|
       summary := [{| metric_ref := "environment./temperature" |}; {| metric_ref := "environment./humidity" |}];
       tabs := [TabOverview; TabTelemetry; TabCommands; TabConfiguration; TabLogs; TabFirmware] |} |}.
Definition cold_room : DeviceBlueprint :=
  {| api_version := BLUEPRINT_API_VERSION; bp_kind := BLUEPRINT_KIND;
     metadata := {| md_key := "cold-room-sensor"; md_name := "Cold-room sensor"; md_description := None;
                    md_icon := Some "thermometer"; md_color := Some "#4C90F0"; md_labels := [] |};
     spec := cold_room_spec |}.
