(* ===== verification/ContractCompiler.v ===== *)
(** * Contract compilation (crates/device-contract/src/compiler.rs, canonical.rs)

    A validated blueprint and a deployment context are compiled into the
    contract document a device runs, with every reference resolved, and its
    hash.  The derived serializers, serde_json's writer and SHA-256 are the
    operations of a [ContractCodec]. *)
From S2P Require Import Prelude Text Float64 BTree Json ContractModel Schema Validation Topics ColdRoom.
From Stdlib Require Import Ascii.

Local Open Scope Z_scope.

(** ** Canonical form *)
(** [sort_value]: keys are inserted in order; a [Map] iterates in key order. *)
Fixpoint sort_value (v : value) : value :=
  match v with
  | Array vs => Array (map sort_value vs)
  | Object m => Object (bt_collect ((fix go m := match m with
      | [] => []
      | (k, x) :: r => (k, sort_value x) :: go r end) m))
  | _ => v
  end.

(** ** Hashes *)
Definition hex_digit (n : Z) : ascii := ascii_of_N (Z.to_N (if n <? 10 then 48 + n else 87 + n)).
Definition hex_value (c : ascii) : option Z :=
  let z := code c in
  if between 48 57 z then Some (z - 48)
  else if between 97 102 z then Some (z - 87)
  else if between 65 70 z then Some (z - 55)
  else None.
(** [ContractHash]: 32 bytes. *)
Definition ContractHash : Type := list Z.
Definition as_hex (h : ContractHash) : string :=
  fold_right (fun b s => String (hex_digit (b / 16)) (String (hex_digit (b mod 16)) s)) "" h.
(** [chunks_exact(2)] with [u8::from_str_radix(pair, 16)]. *)
Fixpoint hex_pairs (s : string) : option (list Z) :=
  match s with
  | String a (String b r) => x ← hex_value a; y ← hex_value b; rest ← hex_pairs r; Some (16 * x + y :: rest)
  | _ => Some []
  end.
(** [ContractHash::from_str]. *)
Definition hash_from_str (s : string) : result ContractError ContractHash :=
  if negb (str_len s =? 64) || negb (str_forall is_ascii_hexdigit s)
  then Err (InvalidContext "contract hash must contain 64 hexadecimal characters")
  else ok_or (hex_pairs s) (InvalidContext "contract hash is not hexadecimal").

(** ** Contexts and documents *)
Record ResolvedTransport := {
  rv_protocol : TransportProtocol; rv_endpoint : string; rv_server_ca_pem : option string;
  rv_credential_ref : option string;
}.
Record CompileContext := {
  ctx_contract_id : string; ctx_tenant_id : string; ctx_device_id : string;
  ctx_revision_id : string; ctx_revision : Z;
  transport_bindings : list (string * ResolvedTransport);
  configuration_layers : list value;
}.
Record CompiledRuntime := {
  heartbeat_interval_ms : Z; offline_after_ms : Z; cr_max_message_bytes : Z;
  cr_max_messages_per_minute : Z; cr_max_metric_cardinality : Z;
}.
Record CompiledLocation := {
  cl_stream : string; cl_latitude_path : string; cl_longitude_path : string;
  cl_coordinate_system : CoordinateSystem; cl_unit : CoordinateUnit; max_age_ms : Z;
}.
Record CompiledTransport := {
  ct_protocol : TransportProtocol; ct_endpoint : string; ct_delivery : DeliverySemantics;
  ct_ordering : OrderingSemantics; ct_server_ca_pem : option string; ct_credential_ref : option string;
}.
Record CompiledRoute := {
  cr_transport : string; cr_direction : RouteDirection; cr_address : string;
  cr_message_schema : string; cr_encoding : PayloadEncoding;
}.
Record CompiledSchema := { cs_format : SchemaFormat; cs_schema : value }.
Record CompiledField := {
  cfd_value_type : FieldValueType; cfd_label : string; cfd_unit : option string;
  cfd_semantic : option string; cfd_index : bool; cfd_aggregates : list AggregateKind;
  cfd_presentation : option FieldPresentation;
}.
Record CompiledStream := {
  cst_route : string; cst_timestamp : string; cst_fields : list (string * CompiledField);
}.
Record CompiledCommand := {
  cc_request_route : string; cc_response_route : string; cc_label : string;
  cc_description : option string; cc_danger : CommandDanger; timeout_ms : Z;
  cc_input_schema : value; cc_result_schema : value; cc_availability : option string;
  cc_idempotency : CommandIdempotency;
}.
Record CompiledConfiguration := {
  ccf_schema : value; ccf_desired : value; ccf_mode : ConfigurationMode;
  acknowledgement_timeout_ms : Z; ccf_atomic : bool;
}.
Record CompiledContractDocument := {
  contract_api : Z; contract_id : string; doc_tenant_id : string; doc_device_id : string;
  doc_revision_id : string; doc_revision : Z; blueprint_key : string; blueprint_name : string;
  doc_runtime : CompiledRuntime;
  doc_transports : list (string * CompiledTransport);
  doc_routes : list (string * CompiledRoute);
  doc_schemas : list (string * CompiledSchema);
  doc_streams : list (string * CompiledStream);
  doc_location : option CompiledLocation;
  doc_commands : list (string * CompiledCommand);
  doc_configuration : option CompiledConfiguration;
  doc_reported_state : option ReportedStateDefinition;
  doc_health : option HealthDefinition;
  doc_firmware : option FirmwareDefinition;
  doc_relationships : list RelationshipDefinition;
  doc_presentation : option PresentationDefinition;
}.
Record CompiledContract := { hash : ContractHash; document : CompiledContractDocument }.

(** Code that may panic: [expect] on a missing value. *)
Inductive run (A : Type) : Type :=
| Return (a : A)
| Fail (e : ContractError)
| Panic (message : string).
Arguments Return {A} a.
Arguments Fail {A} e.
Arguments Panic {A} message.
#[export] Instance run_ret : MRet run := fun _ a => Return a.
#[export] Instance run_bind : MBind run := fun _ _ k r =>
  match r with Return a => k a | Fail e => Fail e | Panic m => Panic m end.
Definition lift {A} (r : result ContractError A) : run A :=
  match r with Ok a => Return a | Err e => Fail e end.
Definition expect {A} (o : option A) (message : string) : run A :=
  match o with Some a => Return a | None => Panic message end.
(** [iter().map(f).collect()] when [f] may panic. *)
Fixpoint run_map {A B} (f : A -> run B) (l : list A) : run (list B) :=
  match l with
  | [] => Return []
  | a :: rest => b ← f a; bs ← run_map f rest; Return (b :: bs)
  end.

(** ** The steps of [BlueprintCompiler::compile] *)
Definition context_text_ok (v : string) : bool := negb (trim_is_empty v) && (str_len v <=? 128).
Definition context_device_byte (c : ascii) : bool := is_ascii_alphanumeric c || one_of "-_.:" c.
Definition validate_context (c : CompileContext) : result ContractError unit :=
  let text name v k :=
    if context_text_ok v then k else Err (InvalidContext (name +:+ " must contain 1-128 bytes")) in
  text "contract_id" (ctx_contract_id c)
    (text "tenant_id" (ctx_tenant_id c)
      (text "device_id" (ctx_device_id c)
        (text "blueprint_revision_id" (ctx_revision_id c)
          (if ctx_revision c =? 0 then Err (InvalidContext "blueprint_revision must be positive")
           else if negb (str_forall context_device_byte (ctx_device_id c))
           then Err (InvalidContext "device_id contains characters unsafe for route expansion")
           else Ok tt)))).
Definition protocol_debug (p : TransportProtocol) : string :=
  match p with Zenoh => "Zenoh" | Mqtt => "Mqtt" | Http => "Http" end.
Definition compile_transport (c : CompileContext) (t : TransportDefinition)
    : result ContractError (string * CompiledTransport) :=
  resolved ← ok_or (bt_get (tr_binding t) (transport_bindings c)) (MissingTransportBinding (tr_binding t));
  if negb (bool_decide (rv_protocol resolved = tr_protocol t))
  then Err (InvalidContext ("binding '" +:+ tr_binding t +:+ "' uses " +:+ protocol_debug (rv_protocol resolved)
              +:+ ", expected " +:+ protocol_debug (tr_protocol t)))
  else if trim_is_empty (rv_endpoint resolved)
  then Err (InvalidContext ("binding '" +:+ tr_binding t +:+ "' has an empty endpoint"))
  else Ok (tr_key t,
    {| ct_protocol := rv_protocol resolved; ct_endpoint := rv_endpoint resolved;
       ct_delivery := delivery (tr_qos t); ct_ordering := ordering (tr_qos t);
       ct_server_ca_pem := rv_server_ca_pem resolved; ct_credential_ref := rv_credential_ref resolved |}).
Fixpoint compile_transports (c : CompileContext) (acc : list (string * CompiledTransport))
    (ts : list TransportDefinition) : result ContractError (list (string * CompiledTransport)) :=
  match ts with
  | [] => Ok acc
  | t :: rest => e ← compile_transport c t; compile_transports c (bt_insert e.1 e.2 acc) rest
  end.
Definition compile_route (c : CompileContext) (r : RouteDefinition) : string * CompiledRoute :=
  (rt_key r,
   {| cr_transport := rt_transport r; cr_direction := rt_direction r;
      cr_address := replace "{device.id}" (ctx_device_id c) (rt_address r);
      cr_message_schema := rt_message_schema r; cr_encoding := rt_encoding r |}).
Definition compile_schema (s : SchemaDefinition) : string * CompiledSchema :=
  (sc_key s, {| cs_format := sc_format s; cs_schema := sc_schema s |}).
Definition compile_field (f : FieldDefinition) : string * CompiledField :=
  (fd_path f,
   {| cfd_value_type := fd_value_type f; cfd_label := fd_label f; cfd_unit := fd_unit f;
      cfd_semantic := fd_semantic f; cfd_index := fd_index f; cfd_aggregates := fd_aggregates f;
      cfd_presentation := fd_presentation f |}).
Definition compile_stream (s : StreamDefinition) : string * CompiledStream :=
  (st_key s,
   {| cst_route := st_route s; cst_timestamp := st_timestamp s;
      cst_fields := bt_collect (map compile_field (st_fields s)) |}).
Definition compile_command (c : CommandDefinition) : run (string * CompiledCommand) :=
  timeout ← expect (parse_duration_ms (cm_timeout c)) "validated command duration";
  Return (cm_key c,
   {| cc_request_route := request_route c; cc_response_route := response_route c; cc_label := cm_label c;
      cc_description := cm_description c; cc_danger := cm_danger c; timeout_ms := timeout;
      cc_input_schema := input_schema c; cc_result_schema := result_schema c;
      cc_availability := cm_availability c; cc_idempotency := cm_idempotency c |}).

(** [defaults_from_schema]: the declared default, or an object of the
    properties' defaults. *)
Section with_member.
Context {A : Type} (key : string) (none : A) (f : value -> A).
Fixpoint with_member (m : list (string * value)) : A :=
  match m with
  | [] => none
  | (k, v) :: r => if key =s? k then f v else with_member r
  end.
End with_member.
Fixpoint defaults_from_schema (schema : value) : option value :=
  match schema with
  | Object m =>
    match bt_get "default" m with
    | Some d => Some d
    | None =>
      if bool_decide (bt_get "type" m ≫= as_str = Some "object") then
        Some (Object (with_member "properties" [] (fun ps =>
          match ps with
          | Object pm =>
            (fix go acc pm := match pm with
              | [] => acc
              | (k, child) :: r =>
                go (match defaults_from_schema child with Some d => bt_insert k d acc | None => acc end) r
              end) [] pm
          | _ => []
          end) m))
      else None
    end
  | _ => None
  end.
(** [merge_value]: objects merge member by member, anything else is replaced. *)
Fixpoint merge_value (target overlay : value) {struct overlay} : value :=
  match target, overlay with
  | Object t, Object o =>
    Object ((fix go (t o : list (string * value)) {struct o} := match o with
      | [] => t
      | (k, v) :: r => go (bt_insert k (merge_value (default Null (bt_get k t)) v) t) r
      end) t o)
  | _, _ => overlay
  end.
(** The desired value [compile_configuration] validates. *)
Definition layered (c : ConfigurationDefinition) (layers : list value) : value :=
  let desired := default Null (defaults_from_schema (cf_schema c)) in
  let desired := if is_null (cf_defaults c) then desired else merge_value desired (cf_defaults c) in
  fold_left merge_value layers desired.
Definition compile_configuration (c : ConfigurationDefinition) (context : CompileContext)
    : run CompiledConfiguration :=
  let desired := layered c (configuration_layers context) in
  _ ← lift (validate_instance (cf_schema c) desired);
  timeout ← expect (parse_duration_ms (acknowledgement_timeout (cf_apply c))) "validated acknowledgement timeout";
  Return {| ccf_schema := cf_schema c; ccf_desired := desired; ccf_mode := ap_mode (cf_apply c);
            acknowledgement_timeout_ms := timeout; ccf_atomic := ap_atomic (cf_apply c) |}.
Definition compile_location (l : LocationDefinition) : run CompiledLocation :=
  age ← expect (parse_duration_ms (max_age l)) "validated location freshness";
  Return {| cl_stream := loc_stream l; cl_latitude_path := latitude_path l;
            cl_longitude_path := longitude_path l; cl_coordinate_system := coordinate_system l;
            cl_unit := coord_unit l; max_age_ms := age |}.
Definition run_option {A B} (f : A -> run B) (o : option A) : run (option B) :=
  match o with Some a => b ← f a; Return (Some b) | None => Return None end.

(** The document literal of [compile], from the values computed before it. *)
Definition assemble (b : DeviceBlueprint) (c : CompileContext) (ts : list (string * CompiledTransport))
    (cmds : list (string * CompiledCommand)) (config : option CompiledConfiguration)
    (interval offline : Z) (loc : option CompiledLocation) : CompiledContractDocument :=
  let s := spec b in
  {| contract_api := CONTRACT_API_VERSION; contract_id := ctx_contract_id c;
     doc_tenant_id := ctx_tenant_id c; doc_device_id := ctx_device_id c;
     doc_revision_id := ctx_revision_id c; doc_revision := ctx_revision c;
     blueprint_key := md_key (metadata b); blueprint_name := md_name (metadata b);
     doc_runtime :=
       {| heartbeat_interval_ms := interval; offline_after_ms := offline;
          cr_max_message_bytes := max_message_bytes (limits (runtime s));
          cr_max_messages_per_minute := max_messages_per_minute (limits (runtime s));
          cr_max_metric_cardinality := max_metric_cardinality (limits (runtime s)) |};
     doc_transports := ts;
     doc_routes := bt_collect (map (compile_route c) (routes s));
     doc_schemas := bt_collect (map compile_schema (schemas s));
     doc_streams := bt_collect (map compile_stream (streams s));
     doc_location := loc;
     doc_commands := bt_collect cmds;
     doc_configuration := config;
     doc_reported_state := reported_state s; doc_health := health s; doc_firmware := bp_firmware s;
     doc_relationships := relationships s; doc_presentation := presentation s |}.
(** [BlueprintCompiler::compile] up to the hash. *)
Definition compile_document (b : DeviceBlueprint) (c : CompileContext) : run CompiledContractDocument :=
  _ ← lift (validate_context c);
  let s := spec b in
  ts ← lift (compile_transports c [] (transports s));
  cmds ← run_map compile_command (bp_commands s);
  config ← run_option (fun cf => compile_configuration cf c) (configuration s);
  _ ← (if bool_decide (config = None) && negb (bool_decide (configuration_layers c = []))
       then Fail (InvalidContext "configuration layers were provided for a blueprint without configuration")
       else Return tt);
  interval ← expect (parse_duration_ms (hb_interval (ContractModel.heartbeat (runtime s)))) "validated heartbeat interval";
  offline ← expect (parse_duration_ms (hb_offline_after (ContractModel.heartbeat (runtime s)))) "validated offline timeout";
  loc ← run_option compile_location (location s);
  Return (assemble b c ts cmds config interval offline loc).

(** Serialization and hashing. *)
Class ContractCodec := {
  document_value : CompiledContractDocument -> result string value;
  to_vec : value -> result string string;
  sha256 : string -> list Z;
}.
Section hashed.
Context `{!ContractCodec}.
(** [canonical_json] of a document. *)
Definition canonical_document (d : CompiledContractDocument) : result ContractError string :=
  v ← map_err Serialization (document_value d); map_err Serialization (to_vec (sort_value v)).
Definition contract_hash (d : CompiledContractDocument) : result ContractError ContractHash :=
  sha256 <$> canonical_document d.
Definition verify_hash (c : CompiledContract) : result ContractError bool :=
  h ← contract_hash (document c); Ok (bool_decide (hash c = h)).
Definition compile (b : DeviceBlueprint) (c : CompileContext) : run CompiledContract :=
  d ← compile_document b c;
  h ← lift (contract_hash d);
  Return {| hash := h; document := d |}.
End hashed.

(** [CompiledContractDocument::event_location]. *)
Definition event_location (d : CompiledContractDocument) (route_key : string) (payload : value) (age : Z)
    : option (f64 * f64) :=
  binding ← doc_location d;
  if age <? 0 then None
  else if max_age_ms binding <? age then None
  else
    st ← bt_get (cl_stream binding) (doc_streams d);
    if cst_route st !=s route_key then None
    else
      latitude ← pointer (cl_latitude_path binding) payload ≫= as_f64;
      longitude ← pointer (cl_longitude_path binding) payload ≫= as_f64;
      if negb (is_finite latitude) || negb (is_finite longitude)
         || negb (in_range (f64_of_Z (-90)) (f64_of_Z 90) latitude)
         || negb (in_range (f64_of_Z (-180)) (f64_of_Z 180) longitude)
      then None
      else Some (latitude, longitude).


(** ** Canonical form and hashes *)
Lemma sort_members_fst m :
  ((fix go m := match m with [] => [] | (k, x) :: r => (k, sort_value x) :: go r end) m : list (string * value))
  = map (fun e => (e.1, sort_value e.2)) m.
Proof. induction m as [|[k v] m IH]; [done|]. simpl. by rewrite IH. Qed.
Lemma bt_collect_sorted_id {V} (m : list (string * V)) : bt_sorted m -> bt_collect m = m.
Proof.
  intros Hm. apply bt_ext; [apply bt_collect_sorted|done|]. intros k.
  destruct (bt_get k m) as [v|] eqn:E.
  - apply bt_collect_get; [by apply bt_sorted_keys_NoDup|by apply bt_get_Some_elem].
  - destruct (bt_get k (bt_collect m)) as [v|] eqn:E'; [|done].
    apply bt_collect_elem, bt_get_elem in E'; [congruence|done].
Qed.
(** A well-formed value is already canonical. *)
Lemma sort_value_id v : wf_value v -> sort_value v = v.
Proof.
  induction v as [| | | |vs IH|m IH] using value_ind; intros Hwf; inversion Hwf as [| | | |? Hvs|? Hs Hm]; subst;
    simpl; try done.
  - f_equal. clear Hwf. induction IH as [|v vs Hv _ IHvs]; [done|]. inversion_clear Hvs. simpl.
    rewrite Hv by done. f_equal. auto.
  - rewrite sort_members_fst. f_equal. rewrite <- (bt_collect_sorted_id m) at 2 by done. f_equal.
    clear Hwf Hs. induction IH as [|[k v] m Hv _ IHm]; [done|]. inversion_clear Hm. simpl in *.
    rewrite Hv by done. f_equal. auto.
Qed.
Definition byte_ok (b : Z) : Prop := 0 <= b < 256.
Lemma hex_digits_checked :
  forallb (fun n => bool_decide (hex_value (hex_digit n) = Some n) && is_ascii_hexdigit (hex_digit n)) (seqZ 0 16)
  = true.
Proof. vm_compute. reflexivity. Qed.
Lemma hex_value_digit n : 0 <= n < 16 ->
  hex_value (hex_digit n) = Some n /\ is_ascii_hexdigit (hex_digit n) = true.
Proof.
  intros H. pose proof (proj1 (forallb_elem _ _) hex_digits_checked n) as Hn.
  rewrite andb_true_iff, bool_decide_eq_true in Hn. apply Hn, elem_of_seqZ. lia.
Qed.
Lemma byte_nibbles b : byte_ok b -> 0 <= b / 16 < 16 /\ 0 <= b mod 16 < 16.
Proof. intros [? ?]. split; [split; [apply Z.div_pos; lia|apply Z.div_lt_upper_bound; lia]|apply Z.mod_pos_bound; lia]. Qed.
Lemma hex_pairs_as_hex h : Forall byte_ok h ->
  hex_pairs (as_hex h) = Some h /\ str_forall is_ascii_hexdigit (as_hex h) = true
  /\ str_len (as_hex h) = 2 * Z.of_nat (length h).
Proof.
  induction 1 as [|b h Hb _ (IH1 & IH2 & IH3)]; [done|]. cbn [as_hex fold_right] in *.
  destruct (byte_nibbles b Hb) as [[Hh Eh]%hex_value_digit [Hl El]%hex_value_digit].
  cbn [hex_pairs str_forall]. unfold as_hex in *. rewrite Hh, Hl, Eh, El, IH1, IH2.
  split_and!; [|done|].
  - simpl. do 2 f_equal. symmetry. rewrite (Z.div_mod b 16) at 1 by lia. done.
  - unfold str_len in *. cbn [String.length length]. lia.
Qed.
Lemma hash_roundtrip h : length h = 32%nat -> Forall byte_ok h -> hash_from_str (as_hex h) = Ok h.
Proof.
  intros Hl Hb. destruct (hex_pairs_as_hex h Hb) as (H1 & H2 & H3). unfold hash_from_str.
  by rewrite H1, H2, H3, Hl.
Qed.

(** Hexadecimal digits, in either case. *)
Lemma hex_value_spec c n : hex_value c = Some n <-> 0 <= n < 16 /\ hex_digit n = to_ascii_lowercase c.
Proof.
  split.
  - destruct c as [[] [] [] [] [] [] [] []]; vm_compute; intros [= <-]; by split_and!.
  - intros [Hn E]. assert (hex_value c = hex_value (to_ascii_lowercase c)) as -> by
      (destruct c as [[] [] [] [] [] [] [] []]; by vm_compute).
    rewrite <- E. by apply hex_value_digit.
Qed.
Lemma hex_pairs_spec (n : nat) s h : String.length s = (2 * n)%nat ->
  hex_pairs s = Some h <-> length h = n /\ Forall byte_ok h /\ as_hex h = str_map to_ascii_lowercase s.
Proof.
  revert s h. induction n as [|n IH]; intros s h Hs.
  { destruct s; [|done]. destruct h as [|b h]; simpl; naive_solver. }
  destruct s as [|a [|b s]]; simpl in Hs; [lia..|].
  assert (String.length s = 2 * n)%nat as Hl by lia. simpl. split.
  - intros (x & Hx & (y & Hy & (r & Hr & [= <-])%bind_Some)%bind_Some)%bind_Some.
    apply hex_value_spec in Hx as [Hx Ex], Hy as [Hy Ey]. apply (IH s r Hl) in Hr as (Hr1 & Hr2 & Hr3).
    assert ((16 * x + y) / 16 = x /\ (16 * x + y) mod 16 = y) as [Ed Em]
      by (split; [rewrite Z.mul_comm, Z.div_add_l by lia; rewrite (Z.div_small y) by lia; lia
                 |rewrite Z.add_comm, Z.mul_comm, Z_mod_plus_full; apply Z.mod_small; lia]).
    split_and!; [simpl; lia|constructor; [unfold byte_ok; lia|done]|].
    cbn [as_hex fold_right]. rewrite Ed, Em, Ex, Ey. unfold as_hex in Hr3. by rewrite Hr3.
  - intros (Hlen & Hb & Eq). destruct h as [|z h]; [done|]. inversion_clear Hb as [|? ? Hz Hh].
    cbn [as_hex fold_right] in Eq. injection Eq as E1 E2 E3.
    destruct (byte_nibbles z Hz) as [Hz1 Hz2].
    rewrite (proj2 (hex_value_spec a (z / 16)) (conj Hz1 E1)). simpl.
    rewrite (proj2 (hex_value_spec b (z mod 16)) (conj Hz2 E2)). simpl.
    rewrite (proj2 (IH s h Hl)). 2:{ split_and!; [simpl in Hlen; lia|done|exact E3]. }
    simpl. do 2 f_equal. symmetry. rewrite (Z.div_mod z 16) at 1 by lia. done.
Qed.
Lemma str_forall_hex_lower s :
  str_forall is_ascii_hexdigit (str_map to_ascii_lowercase s) = str_forall is_ascii_hexdigit s.
Proof.
  induction s as [|c s IH]; [done|]. cbn [str_map str_forall]. rewrite IH. f_equal.
  destruct c as [[] [] [] [] [] [] [] []]; by vm_compute.
Qed.
Lemma str_map_length f s : String.length (str_map f s) = String.length s.
Proof. induction s; simpl; auto. Qed.
Lemma hash_from_str_spec s h :
  hash_from_str s = Ok h
  <-> length h = 32%nat /\ Forall byte_ok h /\ as_hex h = str_map to_ascii_lowercase s.
Proof.
  unfold hash_from_str. destruct (str_len s =? 64) eqn:El; simpl.
  - apply Z.eqb_eq in El. unfold str_len in El. assert (String.length s = 2 * 32)%nat as Hs by lia.
    rewrite <- (hex_pairs_spec 32 s h Hs).
    destruct (str_forall is_ascii_hexdigit s) eqn:Ef; simpl; [apply ok_or_ok|].
    split; [done|]. intros Hp. destruct (proj1 (hex_pairs_spec 32 s h Hs) Hp) as (_ & Hb & E).
    rewrite <- str_forall_hex_lower, <- E in Ef. destruct (hex_pairs_as_hex h Hb) as (_ & H & _). congruence.
  - split; [done|]. intros (Hl & Hb & E). apply Z.eqb_neq in El.
    destruct (hex_pairs_as_hex h Hb) as (_ & _ & H). unfold str_len in *. rewrite E, str_map_length in H. lia.
Qed.

(** ** Layered configuration *)

(** The member at a path of object keys. *)
Fixpoint path_get (p : list string) (v : value) : option value :=
  match p with
  | [] => Some v
  | k :: r => x ← get k v; path_get r x
  end.
(** An overlay leaves a path alone when one of the objects on the way lacks
    the next key. *)
Fixpoint path_unset (p : list string) (v : value) : Prop :=
  match p, v with
  | k :: r, Object m => match bt_get k m with Some x => path_unset r x | None => True end
  | _, _ => False
  end.
Section merge_members.
Context (merge : value -> value -> value).
Definition merge_step (t : list (string * value)) (e : string * value) : list (string * value) :=
  bt_insert e.1 (merge (default Null (bt_get e.1 t)) e.2) t.
Lemma merge_members_get t o k :
  NoDup (bt_keys o) ->
  bt_get k (fold_left merge_step o t)
  = match bt_get k o with Some v => Some (merge (default Null (bt_get k t)) v) | None => bt_get k t end.
Proof.
  revert t. induction o as [|[k0 v0] o IH]; intros t Hnd; [done|]. simpl in Hnd.
  apply NoDup_cons in Hnd as [Hk Hnd]. simpl. rewrite IH by done. unfold merge_step. simpl.
  rewrite !bt_get_insert. rewrite (String.eqb_sym k k0).
  destruct (k0 =s? k) eqn:E; [|done]. apply String.eqb_eq in E as ->.
  by rewrite (proj2 (bt_get_None k o)).
Qed.
End merge_members.
Lemma merge_object t o : merge_value (Object t) (Object o) = Object (fold_left (merge_step merge_value) o t).
Proof.
  simpl. f_equal. revert t. induction o as [|[k v] o IH]; intros t; [done|]. simpl. apply IH.
Qed.
Lemma overlay_get t o k :
  wf_value (Object o) ->
  get k (merge_value t (Object o))
  = match bt_get k o with
    | Some v => Some (match t with Object tm => merge_value (default Null (bt_get k tm)) v | _ => v end)
    | None => get k t
    end.
Proof.
  intros Hwf. inversion Hwf as [| | | | |? Hs Hm]; subst. destruct t as [| | | | |tm].
  6:{ rewrite merge_object. simpl. apply merge_members_get, bt_sorted_keys_NoDup, Hs. }
  all: simpl; by destruct (bt_get k o).
Qed.
Lemma merge_leaf t o : is_object o = false -> merge_value t o = o.
Proof. by destruct o, t. Qed.
Lemma merge_null o : merge_value Null o = o.
Proof. by destruct o. Qed.
#[local] Arguments merge_value : simpl never.
Lemma wf_member k o v : wf_value (Object o) -> bt_get k o = Some v -> wf_value v.
Proof.
  inversion 1 as [| | | | |? _ Hm]; subst. intros E%bt_get_Some_elem.
  rewrite Forall_forall in Hm. exact (Hm _ E).
Qed.
(** What a merge makes of a path: a leaf of the overlay wins, a path the
    overlay leaves alone keeps the target's value. *)
Lemma merge_path_leaf p t o v :
  wf_value o -> path_get p o = Some v -> is_object v = false -> path_get p (merge_value t o) = Some v.
Proof.
  revert t o. induction p as [|k p IH]; intros t o Hwf; simpl.
  - intros [= ->] Hv. by rewrite merge_leaf.
  - intros (x & Hx & Hp)%bind_Some Hv. destruct o as [| | | | |m]; try done. simpl in Hx.
    rewrite (overlay_get t m k Hwf), Hx. simpl. assert (wf_value x) by eauto using wf_member.
    destruct t as [| | | | |tm]; try done. by apply IH.
Qed.
Lemma merge_path_unset p t o : wf_value o -> path_unset p o -> path_get p (merge_value t o) = path_get p t.
Proof.
  revert t o. induction p as [|k p IH]; intros t o Hwf; [by destruct o|].
  destruct o as [| | | | |m]; try done. simpl. intros Hu. rewrite (overlay_get t m k Hwf).
  destruct (bt_get k m) as [x|] eqn:E; [|done]. assert (wf_value x) as Hx by eauto using wf_member. simpl.
  destruct t as [| | | | |tm]; simpl; try (rewrite <- (merge_null x), IH by done; by destruct p, x).
  rewrite IH by done. destruct (bt_get k tm); [done|]. simpl. by destruct p, x.
Qed.
Lemma fold_merge_unset p ls v :
  Forall wf_value ls -> (forall l, l ∈ ls -> path_unset p l) ->
  path_get p (fold_left merge_value ls v) = path_get p v.
Proof.
  intros Hwf. revert v. induction Hwf as [|l ls Hl _ IH]; intros v Hu; [done|]. simpl.
  rewrite IH by set_solver. apply merge_path_unset; [done|]. apply Hu. set_solver.
Qed.

(** Configuration layers are applied from least to most specific: a value
    (other than an object) that a layer sets is what the compiled
    configuration asks the device for, whatever the defaults and the layers
    before it say, unless a later layer sets something at or above its path;
    and a path no layer sets keeps the blueprint's default. *)
Theorem configuration_layers_override c ls l ls' p v :
  wf_value l -> Forall wf_value ls' -> (forall l', l' ∈ ls' -> path_unset p l') ->
  path_get p l = Some v -> is_object v = false ->
  path_get p (layered c (ls ++ l :: ls')) = Some v
  /\ path_get p (layered c ls') = path_get p (layered c []).
Proof.
  intros Hl Hls' Hu Hp Hv. unfold layered. cbv zeta. rewrite fold_left_app. cbn [fold_left]. split.
  - rewrite fold_merge_unset by done. by apply merge_path_leaf.
  - by rewrite fold_merge_unset.
Qed.

(** ** What compilation yields *)
Lemma run_bind_return {A B} (r : run A) (k : A -> run B) y :
  (r ≫= k) = Return y <-> exists x, r = Return x /\ k x = Return y.
Proof. destruct r; simpl; naive_solver. Qed.
Lemma lift_return {A} (r : result ContractError A) a : lift r = Return a <-> r = Ok a.
Proof. destruct r; simpl; naive_solver. Qed.
Lemma expect_return {A} (o : option A) m a : expect o m = Return a <-> o = Some a.
Proof. destruct o; simpl; naive_solver. Qed.
Lemma run_map_return {A B} (f : A -> run B) l ys :
  run_map f l = Return ys <-> Forall2 (fun a b => f a = Return b) l ys.
Proof.
  revert ys. induction l as [|a l IH]; intros ys; simpl.
  - split; [by intros [= <-]|]. by inversion 1.
  - rewrite run_bind_return. setoid_rewrite run_bind_return. split.
    + intros (b & Hb & bs & Hbs%IH & [= <-]). by constructor.
    + inversion 1 as [|? b ? bs Hb Hbs]; subst. exists b. split; [done|]. exists bs.
      split; [by apply IH|done].
Qed.
Lemma run_option_return {A B} (f : A -> run B) o y :
  run_option f o = Return y
  <-> match o with Some a => exists b, f a = Return b /\ y = Some b | None => y = None end.
Proof. destruct o; simpl; [rewrite run_bind_return|]; naive_solver. Qed.
Lemma compile_transports_ok c acc ts m :
  compile_transports c acc ts = Ok m
  <-> exists es, Forall2 (fun t e => compile_transport c t = Ok e) ts es
        /\ m = fold_left (fun m e => bt_insert e.1 e.2 m) es acc.
Proof.
  revert acc. induction ts as [|t ts IH]; intros acc; simpl.
  - split; [intros [= <-]; by exists []|]. intros (es & Hes & ->). by inversion Hes.
  - rewrite bind_ok. setoid_rewrite IH. split.
    + intros (e & He & es & Hes & ->). exists (e :: es). split; [by constructor|done].
    + intros (es & Hes & ->). inversion Hes as [|? e ? es' He Hes']; subst. exists e. split; [done|].
      by exists es'.
Qed.
(** Entries made one per declaration, under its key. *)
Section entries.
Context {A B : Type} (key : A -> string) (rel : A -> string * B -> Prop).
Hypothesis rel_key : forall a e, rel a e -> e.1 = key a.
Hypothesis rel_fun : forall a e e', rel a e -> rel a e' -> e = e'.
Lemma entries_keys l es : Forall2 rel l es -> es.*1 = map key l.
Proof using rel_key. induction 1 as [|a e l es Ha _ IH]; [done|]. csimpl. by rewrite (rel_key a e Ha), IH. Qed.
Lemma entries_get l es k y :
  NoDup (map key l) -> Forall2 rel l es ->
  bt_get k (bt_collect es) = Some y <-> exists a, a ∈ l /\ rel a (k, y).
Proof using rel_key rel_fun.
  intros Hnd HF. rewrite <- (entries_keys l es HF) in Hnd. split.
  - intros H%bt_collect_elem. apply list_elem_of_lookup in H as [i Hi].
    destruct (Forall2_lookup_r _ _ _ _ _ HF Hi) as (a & Ha & Hr). exists a. split; [|done].
    by eapply list_elem_of_lookup_2.
  - intros (a & Ha & Hr). apply list_elem_of_lookup in Ha as [i Hi].
    destruct (Forall2_lookup_l _ _ _ _ _ HF Hi) as ([k' y'] & Hy & Hr').
    assert ((k', y') ∈ es) as Hin by (by eapply list_elem_of_lookup_2).
    pose proof (rel_fun _ _ _ Hr Hr') as [= <- <-]. by apply bt_collect_get.
Qed.
End entries.
Lemma collect_map_get {A B} (key : A -> string) (f : A -> string * B) l k y :
  (forall a, (f a).1 = key a) -> NoDup (map key l) ->
  bt_get k (bt_collect (map f l)) = Some y <-> exists a, a ∈ l /\ f a = (k, y).
Proof.
  intros Hk Hnd. apply (entries_get key (fun a e => f a = e)); [|congruence|done|].
  - intros a e <-. apply Hk.
  - clear. induction l; constructor; auto.
Qed.

(** What the context must provide. *)
Definition context_ok (c : CompileContext) : Prop :=
  context_text_ok (ctx_contract_id c) = true /\ context_text_ok (ctx_tenant_id c) = true
  /\ is_valid_device_id (ctx_device_id c) = true /\ trim_is_empty (ctx_device_id c) = false
  /\ context_text_ok (ctx_revision_id c) = true /\ ctx_revision c <> 0.
Definition binding_ok (c : CompileContext) (t : TransportDefinition) : Prop :=
  exists r, bt_get (tr_binding t) (transport_bindings c) = Some r
    /\ rv_protocol r = tr_protocol t /\ trim_is_empty (rv_endpoint r) = false.
Definition layers_ok (b : DeviceBlueprint) (c : CompileContext) : Prop :=
  match configuration (spec b) with
  | Some cf => conforms (cf_schema cf) (layered cf (configuration_layers c))
  | None => configuration_layers c = []
  end.
Lemma device_byte_eq ch : context_device_byte ch = device_id_byte ch.
Proof.
  unfold context_device_byte, device_id_byte, is_ascii_alphanumeric.
  destruct (is_ascii_lowercase ch), (is_ascii_uppercase ch), (is_ascii_digit ch); done.
Qed.
Lemma str_forall_ext p q s : (forall ch, p ch = q ch) -> str_forall p s = str_forall q s.
Proof. intros H. induction s as [|ch s IH]; simpl; [done|]. by rewrite H, IH. Qed.
Lemma nonblank_len s : trim_is_empty s = false -> 1 <= str_len s.
Proof. destruct s; [done|]. unfold str_len. simpl. lia. Qed.
Lemma guard_ok {E A} (g : bool) (k : result E A) e a :
  (if g then k else Err e) = Ok a <-> g = true /\ k = Ok a.
Proof. destruct g; naive_solver. Qed.
Lemma guard_err {E A} (g : bool) (k : result E A) e a :
  (if g then Err e else k) = Ok a <-> g = false /\ k = Ok a.
Proof. destruct g; naive_solver. Qed.
Lemma validate_context_ok c : validate_context c = Ok tt <-> context_ok c.
Proof.
  unfold validate_context, context_ok. cbv zeta. rewrite !guard_ok, !guard_err, Z.eqb_neq, negb_false_iff.
  rewrite (str_forall_ext context_device_byte device_id_byte) by apply device_byte_eq.
  pose proof (nonblank_len (ctx_device_id c)) as Hl.
  assert (context_text_ok (ctx_device_id c) = true /\ str_forall device_id_byte (ctx_device_id c) = true
    <-> is_valid_device_id (ctx_device_id c) = true /\ trim_is_empty (ctx_device_id c) = false) as Hd.
  { unfold context_text_ok, is_valid_device_id, between.
    rewrite !andb_true_iff, negb_true_iff, !Z.leb_le. naive_solver. }
  tauto.
Qed.
Lemma compile_transport_ok c t e :
  compile_transport c t = Ok e -> binding_ok c t /\ e.1 = tr_key t /\ ct_protocol e.2 = tr_protocol t
    /\ trim_is_empty (ct_endpoint e.2) = false.
Proof.
  unfold compile_transport. rewrite bind_ok. setoid_rewrite ok_or_ok. intros (r & Hr & H).
  case_bool_decide; [|done]. simpl in H. destruct (trim_is_empty (rv_endpoint r)) eqn:E; [done|].
  simplify_eq. simpl. split_and!; try done. by exists r.
Qed.
Lemma compile_transport_total c t : binding_ok c t -> exists e, compile_transport c t = Ok e.
Proof.
  intros (r & Hr & Hp & He). unfold compile_transport. rewrite Hr. simpl.
  rewrite bool_decide_true by done. simpl. rewrite He. by eexists.
Qed.
(** A document is compiled exactly when the context is sound, the commands,
    configuration and location compile and the durations parse. *)
Lemma compile_document_inv b c d :
  compile_document b c = Return d
  <-> context_ok c
      /\ exists es cmds config interval offline loc,
           Forall2 (fun t e => compile_transport c t = Ok e) (transports (spec b)) es
           /\ Forall2 (fun m e => compile_command m = Return e) (bp_commands (spec b)) cmds
           /\ run_option (fun cf => compile_configuration cf c) (configuration (spec b)) = Return config
           /\ (config = None -> configuration_layers c = [])
           /\ parse_duration_ms (hb_interval (ContractModel.heartbeat (runtime (spec b)))) = Some interval
           /\ parse_duration_ms (hb_offline_after (ContractModel.heartbeat (runtime (spec b)))) = Some offline
           /\ run_option compile_location (location (spec b)) = Return loc
           /\ d = assemble b c (bt_collect es) cmds config interval offline loc.
Proof.
  unfold compile_document. cbv zeta. split.
  - intros ([] & Hc%lift_return%validate_context_ok & H)%run_bind_return.
    apply run_bind_return in H as (ts & Hts%lift_return & H).
    apply compile_transports_ok in Hts as (es & Hes & ->).
    apply run_bind_return in H as (cmds & Hcmds%run_map_return & H).
    apply run_bind_return in H as (config & Hconf & H).
    apply run_bind_return in H as (u & Hg & H).
    apply run_bind_return in H as (i & Hi%expect_return & H).
    apply run_bind_return in H as (o & Ho%expect_return & H).
    apply run_bind_return in H as (loc & Hloc & [= <-]).
    split; [done|]. exists es, cmds, config, i, o, loc. split_and!; try done.
    intros ->. destruct (decide (configuration_layers c = [])) as [|Hne]; [done|].
    rewrite (bool_decide_false (configuration_layers c = [])) in Hg by done. done.
  - intros (Hc%validate_context_ok & es & cmds & config & i & o & loc & Hes & Hcmds%run_map_return
      & Hconf & Hg & Hi & Ho & Hloc & ->).
    rewrite Hc, Hcmds, Hconf, Hi, Ho, Hloc. simpl.
    rewrite (proj2 (compile_transports_ok c [] _ (bt_collect es))) by (by exists es). simpl.
    case_bool_decide; simpl; [rewrite bool_decide_true by auto|]; done.
Qed.
Lemma compile_command_inv m e :
  compile_command m = Return e ->
  e.1 = cm_key m /\ cc_request_route e.2 = request_route m /\ cc_response_route e.2 = response_route m
  /\ parse_duration_ms (cm_timeout m) = Some (timeout_ms e.2).
Proof.
  unfold compile_command. rewrite run_bind_return. setoid_rewrite expect_return.
  intros (t & Ht & [= <-]). done.
Qed.
Lemma compile_configuration_inv cf c y :
  compile_configuration cf c = Return y
  <-> validate_instance (cf_schema cf) (layered cf (configuration_layers c)) = Ok tt
      /\ exists t, parse_duration_ms (acknowledgement_timeout (cf_apply cf)) = Some t
      /\ y = {| ccf_schema := cf_schema cf; ccf_desired := layered cf (configuration_layers c);
                ccf_mode := ap_mode (cf_apply cf); acknowledgement_timeout_ms := t;
                ccf_atomic := ap_atomic (cf_apply cf) |}.
Proof.
  unfold compile_configuration. cbv zeta. rewrite run_bind_return. setoid_rewrite lift_return.
  setoid_rewrite run_bind_return. setoid_rewrite expect_return. split.
  - intros ([] & Hv & t & Ht & [= <-]). eauto.
  - intros (Hv & t & Ht & ->). exists tt. split; [done|]. by exists t.
Qed.
Lemma compile_location_inv l y :
  compile_location l = Return y
  <-> exists a, parse_duration_ms (max_age l) = Some a
      /\ y = {| cl_stream := loc_stream l; cl_latitude_path := latitude_path l;
                cl_longitude_path := longitude_path l; cl_coordinate_system := coordinate_system l;
                cl_unit := coord_unit l; max_age_ms := a |}.
Proof.
  unfold compile_location. rewrite run_bind_return. setoid_rewrite expect_return. naive_solver.
Qed.

(** A compiled address starts with the device the contract is for. *)
Lemma replace_device_prefix d rest :
  replace "{device.id}" d ("extrittio/devices/{device.id}/" +:+ rest)
  = DEVICE_TOPIC_PREFIX +:+ d +:+ "/" +:+ replace "{device.id}" d rest.
Proof. reflexivity. Qed.
Lemma zenoh_address_device d a :
  is_valid_device_id d = true -> starts_with "extrittio/devices/{device.id}/" a = true ->
  contract_device_id (replace "{device.id}" d a) = Some d.
Proof.
  intros Hd (rest & ->)%starts_with_true. rewrite replace_device_prefix. unfold contract_device_id.
  rewrite strip_prefix_app. simpl.
  pose proof (split_once_app "/" "" d (replace "{device.id}" d rest)) as Hs. simpl in Hs. rewrite Hs.
  - simpl. by rewrite Hd.
  - by apply contains_char_false, valid_device_no_slash.
Qed.

(** The references of a compiled document are closed: they name entries of
    the same document, with the directions and types their uses need. *)
Record contract_sound (d : CompiledContractDocument) : Prop := {
  cs_heartbeat : 0 < heartbeat_interval_ms (doc_runtime d) < offline_after_ms (doc_runtime d);
  cs_routes : forall k r, bt_get k (doc_routes d) = Some r ->
    exists t, bt_get (cr_transport r) (doc_transports d) = Some t
      /\ trim_is_empty (ct_endpoint t) = false
      /\ (ct_protocol t = Zenoh -> contract_device_id (cr_address r) = Some (doc_device_id d));
  cs_messages : forall k r, bt_get k (doc_routes d) = Some r ->
    starts_with "extrittio." (cr_message_schema r) = true
    \/ exists s, bt_get (cr_message_schema r) (doc_schemas d) = Some s
       /\ encoding_compatible (cr_encoding r) (cs_format s) = true;
  cs_streams : forall k s, bt_get k (doc_streams d) = Some s ->
    exists r, bt_get (cst_route s) (doc_routes d) = Some r /\ cr_direction r = DeviceToCloud;
  cs_commands : forall k m, bt_get k (doc_commands d) = Some m ->
    0 < timeout_ms m
    /\ (exists r, bt_get (cc_request_route m) (doc_routes d) = Some r /\ cr_direction r = CloudToDevice)
    /\ exists r, bt_get (cc_response_route m) (doc_routes d) = Some r /\ cr_direction r = DeviceToCloud;
  cs_location : forall l, doc_location d = Some l ->
    0 < max_age_ms l /\ cl_latitude_path l <> cl_longitude_path l
    /\ exists s f g, bt_get (cl_stream l) (doc_streams d) = Some s
       /\ bt_get (cl_latitude_path l) (cst_fields s) = Some f /\ is_numeric (cfd_value_type f) = true
       /\ bt_get (cl_longitude_path l) (cst_fields s) = Some g /\ is_numeric (cfd_value_type g) = true;
  cs_configuration : forall f, doc_configuration d = Some f ->
    conforms (ccf_schema f) (ccf_desired f) /\ 0 < acknowledgement_timeout_ms f;
}.
Section compiled.
Context (b : DeviceBlueprint) (c : CompileContext) (Hb : blueprint_ok b) (Hc : context_ok c).
Lemma compiled_route_get k y :
  bt_get k (bt_collect (map (compile_route c) (routes (spec b)))) = Some y
  <-> exists r, r ∈ routes (spec b) /\ compile_route c r = (k, y).
Proof using Hb. apply (collect_map_get rt_key); [done|]. apply (bp_route_keys _ Hb). Qed.
Lemma compiled_directed name dir :
  directed (spec b) name dir ->
  exists r, bt_get name (bt_collect (map (compile_route c) (routes (spec b)))) = Some r /\ cr_direction r = dir.
Proof using Hb.
  intros (r & Hr & <- & <-). exists (compile_route c r).2. split; [|done].
  apply compiled_route_get. by exists r.
Qed.
Lemma compiled_transport_get es t :
  Forall2 (fun t e => compile_transport c t = Ok e) (transports (spec b)) es -> t ∈ transports (spec b) ->
  exists y, bt_get (tr_key t) (bt_collect es) = Some y /\ ct_protocol y = tr_protocol t
    /\ trim_is_empty (ct_endpoint y) = false.
Proof using Hb.
  intros HF Ht. apply list_elem_of_lookup in Ht as Hi. destruct Hi as [i Hi].
  destruct (Forall2_lookup_l _ _ _ _ _ HF Hi) as (e & _ & He).
  destruct (compile_transport_ok c t e He) as (_ & Hk & Hp & He'). exists e.2. split; [|done].
  apply (entries_get tr_key (fun t e => compile_transport c t = Ok e) (fun a e H => proj1 (proj2 (compile_transport_ok c a e H)))
    ltac:(intros; congruence) _ _ _ _ (bp_transport_keys _ Hb) HF).
  exists t. split; [done|]. rewrite He, <- Hk. by destruct e.
Qed.
Lemma compiled_field_get st p :
  stream_ok (spec b) st -> numeric_field st p = true ->
  exists f, bt_get p (cst_fields (compile_stream st).2) = Some f /\ is_numeric (cfd_value_type f) = true.
Proof using.
  intros (_ & _ & Hnd & _) Hn. apply existsb_elem in Hn as (f & Hf & Hp). bool_prop. subst p.
  exists (compile_field f).2. split; [|done].
  apply (collect_map_get fd_path); [done|done|]. by exists f.
Qed.
End compiled.
Lemma route_sound b c es k r :
  blueprint_ok b -> context_ok c ->
  Forall2 (fun t e => compile_transport c t = Ok e) (transports (spec b)) es ->
  bt_get k (bt_collect (map (compile_route c) (routes (spec b)))) = Some r ->
  exists t, bt_get (cr_transport r) (bt_collect es) = Some t /\ trim_is_empty (ct_endpoint t) = false
    /\ (ct_protocol t = Zenoh -> contract_device_id (cr_address r) = Some (ctx_device_id c)).
Proof.
  intros Hb (_ & _ & Hd & _) HF (rt & Hrt & [= <- <-])%(compiled_route_get b c Hb). simpl.
  destruct (bp_routes _ Hb rt Hrt) as (_ & (t & Ht & <- & Hz) & _).
  destruct (compiled_transport_get b c Hb es t HF Ht) as (y & Hy & Hp & He). exists y. split_and!; try done.
  intros Hpz. apply zenoh_address_device; [done|]. apply Hz. congruence.
Qed.
Lemma message_sound b c k r :
  blueprint_ok b -> bt_get k (bt_collect (map (compile_route c) (routes (spec b)))) = Some r ->
  starts_with "extrittio." (cr_message_schema r) = true
  \/ exists s, bt_get (cr_message_schema r) (bt_collect (map compile_schema (schemas (spec b)))) = Some s
     /\ encoding_compatible (cr_encoding r) (cs_format s) = true.
Proof.
  intros Hb (rt & Hrt & [= <- <-])%(compiled_route_get b c Hb).
  destruct (bp_routes _ Hb rt Hrt) as (_ & _ & [Hx|(sc & Hsc & Hk)] & He & _); [by left|right]. simpl.
  exists (compile_schema sc).2. split; [|simpl; by apply He].
  apply (collect_map_get sc_key); [done|apply (bp_schema_keys _ Hb)|]. exists sc. split; [done|].
  rewrite <- Hk. done.
Qed.
Lemma stream_get b k s :
  blueprint_ok b -> bt_get k (bt_collect (map compile_stream (streams (spec b)))) = Some s
  <-> exists st, st ∈ streams (spec b) /\ compile_stream st = (k, s).
Proof. intros Hb. apply (collect_map_get st_key); [done|apply (bp_stream_keys _ Hb)]. Qed.
Lemma command_sound b c cmds k m :
  blueprint_ok b -> Forall2 (fun m e => compile_command m = Return e) (bp_commands (spec b)) cmds ->
  bt_get k (bt_collect cmds) = Some m ->
  0 < timeout_ms m
  /\ (exists r, bt_get (cc_request_route m) (bt_collect (map (compile_route c) (routes (spec b)))) = Some r
        /\ cr_direction r = CloudToDevice)
  /\ exists r, bt_get (cc_response_route m) (bt_collect (map (compile_route c) (routes (spec b)))) = Some r
        /\ cr_direction r = DeviceToCloud.
Proof.
  intros Hb HF Hm%bt_collect_elem. apply list_elem_of_lookup in Hm as [i Hi].
  destruct (Forall2_lookup_r _ _ _ _ _ HF Hi) as (cm & Hcm & He).
  apply list_elem_of_lookup_2 in Hcm. destruct (bp_commands_ok _ Hb cm Hcm) as (_ & (t & Ht & Ht0) & Hq & Hs & _).
  destruct (compile_command_inv _ _ He) as (_ & E1 & E2 & E3). simpl in *. rewrite E1, E2.
  split_and!; [simplify_eq; lia|by apply compiled_directed..].
Qed.
Lemma location_sound b y :
  blueprint_ok b -> run_option compile_location (location (spec b)) = Return y ->
  forall l, y = Some l ->
  0 < max_age_ms l /\ cl_latitude_path l <> cl_longitude_path l
  /\ exists s f g, bt_get (cl_stream l) (bt_collect (map compile_stream (streams (spec b)))) = Some s
     /\ bt_get (cl_latitude_path l) (cst_fields s) = Some f /\ is_numeric (cfd_value_type f) = true
     /\ bt_get (cl_longitude_path l) (cst_fields s) = Some g /\ is_numeric (cfd_value_type g) = true.
Proof.
  intros Hb Hy l ->. apply run_option_return in Hy. destruct (location (spec b)) as [loc|] eqn:El; [|done].
  destruct Hy as (l' & (a & Ha & ->)%compile_location_inv & [= ->]). simpl.
  destruct (bp_location _ Hb loc El) as ((a' & Ha' & H0) & Hne & st & Hst & Hk & Hlat & Hlon).
  split_and!; [simplify_eq; lia|done|]. pose proof (bp_streams _ Hb st Hst) as Hok.
  destruct (compiled_field_get b st _ Hok Hlat) as (f & Hf & Hfn).
  destruct (compiled_field_get b st _ Hok Hlon) as (g & Hg & Hgn).
  exists (compile_stream st).2, f, g. split_and!; try done. apply stream_get; [done|].
  exists st. split; [done|]. by rewrite <- Hk.
Qed.
Lemma configuration_sound b c y :
  blueprint_ok b -> run_option (fun cf => compile_configuration cf c) (configuration (spec b)) = Return y ->
  forall f, y = Some f -> conforms (ccf_schema f) (ccf_desired f) /\ 0 < acknowledgement_timeout_ms f.
Proof.
  intros Hb Hy f ->. apply run_option_return in Hy. destruct (configuration (spec b)) as [cf|] eqn:E; [|done].
  destruct Hy as (f' & (Hv & t & Ht & ->)%compile_configuration_inv & [= ->]). simpl.
  destruct (bp_configuration _ Hb cf E) as (Hs & _ & t' & Ht' & H0).
  split; [by apply instance_conforms|simplify_eq; lia].
Qed.
Lemma document_sound b c d : blueprint_ok b -> compile_document b c = Return d -> contract_sound d.
Proof.
  intros Hb (Hc & es & cmds & config & i & o & loc & Hes & Hcm & Hconf & _ & Hi & Ho & Hloc & ->)%compile_document_inv.
  split; unfold assemble; cbn [doc_runtime doc_routes doc_transports doc_streams doc_schemas doc_commands
    doc_location doc_configuration doc_device_id heartbeat_interval_ms offline_after_ms].
  - destruct (bp_runtime _ Hb) as (_ & _ & (h & o' & Hh & Ho' & Hlt) & _). simplify_eq. lia.
  - intros k r. by apply route_sound.
  - intros k r. by apply message_sound.
  - intros k s (st & Hst & [= <- <-])%stream_get; [|done]. simpl. apply compiled_directed; [done|].
    by destruct (bp_streams _ Hb st Hst) as (_ & Hd & _).
  - intros k m. by apply command_sound.
  - by apply location_sound.
  - by apply (configuration_sound b c).
Qed.

(** [expect] cannot fire on a validated blueprint. *)
Definition no_panic {A} (r : run A) : Prop := forall m, r <> Panic m.
Lemma no_panic_bind {A B} (r : run A) (k : A -> run B) :
  no_panic r -> (forall a, r = Return a -> no_panic (k a)) -> no_panic (r ≫= k).
Proof. unfold no_panic. destruct r; simpl; naive_solver. Qed.
Lemma no_panic_return {A} (a : A) : no_panic (Return a).
Proof. done. Qed.
Lemma no_panic_lift {A} (r : result ContractError A) : no_panic (lift r).
Proof. by destruct r. Qed.
Lemma no_panic_expect v m : duration_ok v -> no_panic (expect (parse_duration_ms v) m).
Proof. by intros (d & -> & _). Qed.
Lemma no_panic_map {A B} (f : A -> run B) l : (forall a, a ∈ l -> no_panic (f a)) -> no_panic (run_map f l).
Proof.
  induction l as [|a l IH]; intros H; [done|]. simpl. apply no_panic_bind; [apply H; set_solver|].
  intros b _. apply no_panic_bind; [apply IH; set_solver|]. done.
Qed.
Lemma no_panic_option {A B} (f : A -> run B) o : (forall a, o = Some a -> no_panic (f a)) -> no_panic (run_option f o).
Proof. destruct o; intros H; [|done]. simpl. apply no_panic_bind; [by apply H|]. done. Qed.
Create HintDb panics.
#[local] Hint Resolve no_panic_return no_panic_lift no_panic_expect no_panic_bind : panics.
Lemma document_no_panic b c : blueprint_ok b -> no_panic (compile_document b c).
Proof.
  intros Hb. unfold compile_document. cbv zeta.
  assert (exists h o, duration_ok h /\ duration_ok o /\ h = hb_interval (ContractModel.heartbeat (runtime (spec b)))
    /\ o = hb_offline_after (ContractModel.heartbeat (runtime (spec b)))) as (h & o & Hh & Ho & <- & <-).
  { destruct (bp_runtime _ Hb) as (_ & _ & (h & o & Hh & Ho & ?) & _). do 2 eexists.
    split_and!; [exists h|exists o|done|done]; (split; [done|lia]). }
  apply no_panic_bind; [auto with panics|intros _ _].
  apply no_panic_bind; [auto with panics|intros ts _].
  apply no_panic_bind; [apply no_panic_map|intros cmds _].
  { intros m Hm. apply no_panic_bind; [|auto with panics].
    apply no_panic_expect. by destruct (bp_commands_ok _ Hb m Hm) as (_ & ? & _). }
  apply no_panic_bind; [apply no_panic_option|intros config _].
  { intros cf Hcf. unfold compile_configuration. cbv zeta. apply no_panic_bind; [auto with panics|intros _ _].
    apply no_panic_bind; [|auto with panics]. apply no_panic_expect.
    by destruct (bp_configuration _ Hb cf Hcf) as (_ & _ & ?). }
  apply no_panic_bind; [by case_match|intros _ _].
  apply no_panic_bind; [auto with panics|intros i _].
  apply no_panic_bind; [auto with panics|intros o' _].
  apply no_panic_bind; [apply no_panic_option|auto with panics].
  intros l Hl. apply no_panic_bind; [|auto with panics]. apply no_panic_expect.
  by destruct (bp_location _ Hb l Hl) as (? & _).
Qed.
Lemma forall2_exists {A B} (R : A -> B -> Prop) l : (forall a, a ∈ l -> exists b, R a b) -> exists bs, Forall2 R l bs.
Proof.
  induction l as [|a l IH]; intros H; [by exists []|]. destruct (H a) as [b Hb]; [set_solver|].
  destruct IH as [bs Hbs]; [set_solver|]. exists (b :: bs). by constructor.
Qed.
Lemma document_complete b c :
  blueprint_ok b -> context_ok c -> (forall t, t ∈ transports (spec b) -> binding_ok c t) -> layers_ok b c ->
  exists d, compile_document b c = Return d.
Proof.
  intros Hb Hc Ht Hl.
  destruct (forall2_exists (fun t e => compile_transport c t = Ok e) (transports (spec b))) as [es Hes].
  { intros t Hin. by apply compile_transport_total, Ht. }
  destruct (forall2_exists (fun m e => compile_command m = Return e) (bp_commands (spec b))) as [cmds Hcmds].
  { intros m Hm. destruct (bp_commands_ok _ Hb m Hm) as (_ & (t & Hd & _) & _).
    unfold compile_command. rewrite Hd. by eexists. }
  assert (exists config, run_option (fun cf => compile_configuration cf c) (configuration (spec b)) = Return config
    /\ (config = None -> configuration_layers c = [])) as (config & Hconf & Hnone).
  { unfold layers_ok in Hl. destruct (configuration (spec b)) as [cf|] eqn:E; [|by exists None].
    destruct (bp_configuration _ Hb cf E) as (Hs & _ & t & Hd & _).
    assert (exists y, compile_configuration cf c = Return y) as [y Hy].
    { eexists. apply compile_configuration_inv. split; [by apply instance_conforms|].
      eexists. split; [exact Hd|reflexivity]. }
    exists (Some y). simpl. by rewrite Hy. }
  destruct (bp_runtime _ Hb) as (_ & _ & (h & o & Hh & Ho & _) & _).
  assert (exists loc, run_option compile_location (location (spec b)) = Return loc) as [loc Hloc].
  { destruct (location (spec b)) as [l|] eqn:E; [|by exists None].
    destruct (bp_location _ Hb l E) as ((a & Ha & _) & _). simpl. unfold compile_location. rewrite Ha. by eexists. }
  eexists. apply compile_document_inv. split; [done|]. exists es, cmds, config, h, o, loc. by split_and!.
Qed.
Lemma document_needs b c d :
  blueprint_ok b -> compile_document b c = Return d ->
  context_ok c /\ (forall t, t ∈ transports (spec b) -> binding_ok c t) /\ layers_ok b c.
Proof.
  intros Hb (Hc & es & cmds & config & i & o & loc & Hes & _ & Hconf & Hnone & _)%compile_document_inv.
  split_and!; [done| |].
  - intros t Ht. apply list_elem_of_lookup in Ht as [j Hj].
    destruct (Forall2_lookup_l _ _ _ _ _ Hes Hj) as (e & _ & He). exact (proj1 (compile_transport_ok _ _ _ He)).
  - unfold layers_ok. apply run_option_return in Hconf. destruct (configuration (spec b)) as [cf|] eqn:E; [|auto].
    destruct Hconf as (y & (Hv & _)%compile_configuration_inv & _).
    destruct (bp_configuration _ Hb cf E) as (Hs & _). by apply instance_conforms.
Qed.

(** ** The crate's tests, evaluated *)
Definition cold_room_context : CompileContext :=
  {| ctx_contract_id := "dc_1"; ctx_tenant_id := "tenant-a"; ctx_device_id := "device-1";
     ctx_revision_id := "dbr_1"; ctx_revision := 1;
     transport_bindings := [("primary_zenoh",
       {| rv_protocol := Zenoh; rv_endpoint := "tcp/example.internal:7447"; rv_server_ca_pem := None;
          rv_credential_ref := Some "device-certificate" |})];
     configuration_layers := [object [("sample_interval_seconds", of_int 30)]] |}.
Lemma cold_room_valid : validate_blueprint cold_room = Ok cold_room.
Proof. vm_compute. reflexivity. Qed.
(** The addresses and the desired configuration of the compiled fixture. *)
Example cold_room_compiles :
  match compile_document cold_room cold_room_context with
  | Return d => cr_address <$> bt_get "environment" (doc_routes d)
                  = Some "extrittio/devices/device-1/events/environment"
      /\ ccf_desired <$> doc_configuration d
         = Some (object [("sample_interval_seconds", of_int 30); ("temperature_offset", of_int 0)])
  | _ => False
  end.
Proof. vm_compute. by split. Qed.

(** ** Claims on compilation *)

(** Serializing a document does not fail: its derived serializers cannot, and
    every map of it has string keys. *)
Class ContractCodecTotal `{!ContractCodec} := {
  document_value_total : forall d, exists v, document_value d = Ok v;
  to_vec_total : forall v, exists s, to_vec v = Ok s;
}.
(** A codec of its own kind: identity fields only, hashed by their length. *)
Definition sample_codec : ContractCodec :=
  {| document_value := fun d => Ok (object [("contractId", VString (contract_id d));
                                            ("deviceId", VString (doc_device_id d))]);
     to_vec := fun v => Ok (match get "deviceId" v ≫= as_str with Some s => s | None => "" end);
     sha256 := fun s => repeat (str_len s mod 256) 32 |}.
Lemma sample_codec_total : @ContractCodecTotal sample_codec.
Proof. split; intros; by eexists. Qed.
Section compile_claims.
Context {codec : ContractCodec} {total : ContractCodecTotal}.
Lemma contract_hash_total d : exists h, contract_hash d = Ok h.
Proof using total.
  unfold contract_hash, canonical_document. destruct (document_value_total d) as [v ->]. simpl.
  destruct (to_vec_total (sort_value v)) as [s ->]. by eexists.
Qed.
Lemma compile_return b c k :
  compile b c = Return k
  <-> compile_document b c = Return (document k) /\ contract_hash (document k) = Ok (hash k).
Proof using.
  unfold compile. rewrite run_bind_return. split.
  - intros (d & Hd & (h & Hh%lift_return & [= <-])%run_bind_return). done.
  - intros [Hd Hh]. exists (document k). split; [done|]. rewrite Hh. by destruct k.
Qed.

Lemma compile_succeeds b0 b c :
  validate_blueprint b0 = Ok b ->
  (forall message, compile b c <> Panic message)
  /\ ((exists k, compile b c = Return k)
      <-> context_ok c /\ (forall t, t ∈ transports (spec b) -> binding_ok c t) /\ layers_ok b c).
Proof using total.
  intros [Hb ->]%validate_blueprint_ok. split.
  - apply no_panic_bind; [by apply document_no_panic|]. intros d _.
    apply no_panic_bind; [apply no_panic_lift|done].
  - split.
    + intros (k & [Hd _]%compile_return). by apply (document_needs b0 c (document k)).
    + intros (Hc & Ht & Hl). destruct (document_complete b0 c Hb Hc Ht Hl) as [d Hd].
      destruct (contract_hash_total d) as [h Hh]. exists {| hash := h; document := d |}.
      by apply compile_return.
Qed.
Lemma compile_closed b0 b c k :
  validate_blueprint b0 = Ok b -> compile b c = Return k ->
  contract_sound (document k)
  /\ doc_device_id (document k) = ctx_device_id c /\ doc_tenant_id (document k) = ctx_tenant_id c
  /\ verify_hash k = Ok true.
Proof using.
  intros [Hb ->]%validate_blueprint_ok [Hd Hh]%compile_return. split; [by apply (document_sound b0 c)|].
  apply compile_document_inv in Hd as Hi.
  destruct Hi as (_ & es & cmds & config & i & o & loc & _ & _ & _ & _ & _ & _ & _ & E).
  unfold verify_hash. rewrite Hh, E. split_and!; try done. simpl. by rewrite bool_decide_true.
Qed.

(** C32. Compilation is total on validated blueprints: none of its [expect]s
    can fire, and it succeeds exactly when the context is sound (non-blank
    ids of at most 128 bytes, a device id safe for topics, a positive
    revision), every transport's binding is provided with the declared
    protocol and a non-blank endpoint, and the layered configuration conforms
    to the blueprint's configuration schema (no layers where there is no
    configuration). *)
Theorem compile_total b0 b c :
  validate_blueprint b0 = Ok b ->
  (forall message, compile b c <> Panic message)
  /\ ((exists k, compile b c = Return k)
      <-> context_ok c /\ (forall t, t ∈ transports (spec b) -> binding_ok c t) /\ layers_ok b c).
Proof using total. apply compile_succeeds. Qed.

(** C21. A compiled contract is closed and sound: its device and tenant are
    the context's; every route uses a transport of the contract with an
    endpoint, and a Zenoh route's address belongs to that very device for the
    ingress ([contract_device_id]); message schemas are the contract's, with a
    compatible encoding; streams and command results flow from the device,
    command requests to it; the location names numeric fields of a declared
    stream; the desired configuration conforms to its schema; the heartbeat
    is shorter than the offline timeout; and the hash verifies. *)
Theorem compile_sound b0 b c k :
  validate_blueprint b0 = Ok b -> compile b c = Return k ->
  contract_sound (document k)
  /\ doc_device_id (document k) = ctx_device_id c /\ doc_tenant_id (document k) = ctx_tenant_id c
  /\ verify_hash k = Ok true.
Proof using. apply compile_closed. Qed.
End compile_claims.
Lemma compile_total_witness :
  (forall message, @compile sample_codec cold_room cold_room_context <> Panic message)
  /\ exists k, @compile sample_codec cold_room cold_room_context = Return k.
Proof.
  destruct (@compile_total sample_codec sample_codec_total cold_room cold_room cold_room_context cold_room_valid)
    as [H _].
  split; [exact H|]. vm_compute. eexists. reflexivity.
Defined.
Lemma compile_sound_witness :
  exists k, @compile sample_codec cold_room cold_room_context = Return k /\ contract_sound (document k).
Proof.
  destruct (@compile sample_codec cold_room cold_room_context) as [k|e|m] eqn:E; [|vm_compute in E; discriminate E..].
  exists k. split; [reflexivity|]. exact (proj1 (@compile_sound sample_codec cold_room cold_room _ k cold_room_valid E)).
Defined.

(** The text of a contract hash is exact: [from_str] accepts a string
    exactly when it is, up to the case of its digits, what [as_hex] prints of
    a 32-byte hash, and returns that hash; so hashes round-trip through their
    text. *)
Theorem contract_hash_text s h :
  (hash_from_str s = Ok h
   <-> length h = 32%nat /\ Forall byte_ok h /\ as_hex h = str_map to_ascii_lowercase s)
  /\ (length h = 32%nat -> Forall byte_ok h -> hash_from_str (as_hex h) = Ok h).
Proof. split; [apply hash_from_str_spec|apply hash_roundtrip]. Qed.

Lemma configuration_layers_override_witness :
  path_get ["sample_interval_seconds"] (layered cold_room_configuration
    ([object [("sample_interval_seconds", of_int 10)]] ++ object [("sample_interval_seconds", of_int 30)]
       :: [object [("temperature_offset", of_int 2)]])) = Some (of_int 30).
Proof.
  apply (configuration_layers_override cold_room_configuration [object [("sample_interval_seconds", of_int 10)]]
    (object [("sample_interval_seconds", of_int 30)]) [object [("temperature_offset", of_int 2)]]
    ["sample_interval_seconds"] (of_int 30)).
  - apply wf_valueb_sound. vm_compute. reflexivity.
  - constructor; [apply wf_valueb_sound; vm_compute; reflexivity|constructor].
  - intros l' Hl'. apply list_elem_of_singleton in Hl' as ->. vm_compute. exact I.
  - vm_compute. reflexivity.
  - reflexivity.
Defined.
