(* ===== verification/Compatibility.v ===== *)
(** * Blueprint compatibility (crates/device-contract/src/compatibility.rs)

    The comparison of a published blueprint with its successor: the list of
    changes, in order, and whether any of them breaks deployed devices. *)
From S2P Require Import Prelude Text BTree Json ContractModel Validation ColdRoom ContractCompiler.

Local Open Scope Z_scope.

Inductive CompatibilityChangeKind := Added | Removed | Changed.
Record CompatibilityChange := {
  ch_path : string; ch_kind : CompatibilityChangeKind; ch_breaking : bool; ch_message : string;
}.
Record Compatibility := { breaking : bool; changes : list CompatibilityChange }.

(** Derived [PartialEq] where a field is a JSON value. *)
Definition SchemaDefinition_eqb (a b : SchemaDefinition) : bool :=
  (sc_key a =s? sc_key b) && bool_decide (sc_format a = sc_format b) && value_eqb (sc_schema a) (sc_schema b).
Definition CommandDefinition_eqb (a b : CommandDefinition) : bool :=
  (cm_key a =s? cm_key b) && (request_route a =s? request_route b) && (response_route a =s? response_route b)
  && (cm_label a =s? cm_label b) && bool_decide (cm_description a = cm_description b)
  && bool_decide (cm_danger a = cm_danger b) && (cm_timeout a =s? cm_timeout b)
  && value_eqb (input_schema a) (input_schema b) && value_eqb (result_schema a) (result_schema b)
  && bool_decide (cm_availability a = cm_availability b) && bool_decide (cm_idempotency a = cm_idempotency b).
Definition option_eqb {A} (eqb : A -> A -> bool) (a b : option A) : bool :=
  match a, b with Some x, Some y => eqb x y | None, None => true | _, _ => false end.
Definition ReportedState_eqb (a b : ReportedStateDefinition) : bool := value_eqb (rs_schema a) (rs_schema b).

(** [changed] and [compare_serialized], as the changes they push. *)
Definition changed (path : string) (breaking : bool) (message : string) : CompatibilityChange :=
  {| ch_path := path; ch_kind := Changed; ch_breaking := breaking; ch_message := message |}.
Definition compare_serialized (equal : bool) (path : string) (breaking : bool) : list CompatibilityChange :=
  if equal then [] else [changed path breaking "declaration changed"].

Section keyed.
Context {T : Type} (key : T -> string) (path : string) (removal_breaking : bool)
  (compare : T -> T -> string -> list CompatibilityChange).
Definition compare_keyed (previous next : list T) : list CompatibilityChange :=
  let previous := keyed key previous in
  let next := keyed key next in
  concat (map (fun e =>
    let item_path := path +:+ "/" +:+ e.1 in
    match bt_get e.1 next with
    | Some next_item => compare e.2 next_item item_path
    | None => [{| ch_path := item_path; ch_kind := Removed; ch_breaking := removal_breaking;
                  ch_message := "declaration was removed" |}]
    end) previous)
  ++ concat (map (fun k =>
    if bt_contains_key k previous then []
    else [{| ch_path := path +:+ "/" +:+ k; ch_kind := Added; ch_breaking := false;
             ch_message := "declaration was added" |}]) (bt_keys next)).
End keyed.

Definition compare_transport (previous next : TransportDefinition) (path : string) : list CompatibilityChange :=
  if negb (bool_decide (tr_protocol previous = tr_protocol next)) || (tr_binding previous !=s tr_binding next)
  then [changed path true "transport protocol or deployment binding changed"]
  else if negb (bool_decide (previous = next)) then [changed path false "transport delivery policy changed"]
  else [].
Definition compare_schema (previous next : SchemaDefinition) (path : string) : list CompatibilityChange :=
  if negb (SchemaDefinition_eqb previous next)
  then [changed path true "schema changed; schema changes are conservatively classified as breaking"] else [].
Definition compare_route (previous next : RouteDefinition) (path : string) : list CompatibilityChange :=
  if negb (bool_decide (previous = next)) then [changed path true "route contract changed"] else [].
Definition compare_field (previous next : FieldDefinition) (path : string) : list CompatibilityChange :=
  if negb (bool_decide (fd_value_type previous = fd_value_type next))
     || negb (bool_decide (fd_unit previous = fd_unit next))
     || negb (bool_decide (fd_semantic previous = fd_semantic next))
  then [changed path true "field type, unit, or semantic changed"]
  else if negb (bool_decide (previous = next)) then [changed path false "field metadata changed"]
  else [].
Definition compare_stream (previous next : StreamDefinition) (path : string) : list CompatibilityChange :=
  (if (st_route previous !=s st_route next) || (st_timestamp previous !=s st_timestamp next)
   then [changed path true "stream route or timestamp source changed"] else [])
  ++ compare_keyed fd_path (path +:+ "/fields") true compare_field (st_fields previous) (st_fields next).
Definition compare_command (previous next : CommandDefinition) (path : string) : list CompatibilityChange :=
  if negb (value_eqb (input_schema previous) (input_schema next))
     || negb (value_eqb (result_schema previous) (result_schema next))
  then [changed path true "command input or result schema changed"]
  else if negb (CommandDefinition_eqb previous next)
  then [changed path false "command metadata or policy changed"]
  else [].

Definition compare_runtime (p n : RuntimeDefinition) : list CompatibilityChange :=
  (if minimum_contract_api p <? minimum_contract_api n
   then [changed "/spec/runtime/minimumContractApi" true "minimum contract API increased"] else [])
  ++ (if (max_message_bytes (limits n) <? max_message_bytes (limits p))
         || (max_messages_per_minute (limits n) <? max_messages_per_minute (limits p))
         || (max_metric_cardinality (limits n) <? max_metric_cardinality (limits p))
      then [changed "/spec/runtime/limits" true "one or more runtime limits were reduced"] else []).
Definition compare_blueprints (previous next : DeviceBlueprint) : Compatibility :=
  let p := spec previous in
  let n := spec next in
  let changes :=
    compare_runtime (runtime p) (runtime n)
    ++ compare_keyed tr_key "/spec/transports" true compare_transport (transports p) (transports n)
    ++ compare_keyed sc_key "/spec/schemas" true compare_schema (schemas p) (schemas n)
    ++ compare_keyed rt_key "/spec/routes" true compare_route (routes p) (routes n)
    ++ compare_keyed st_key "/spec/streams" true compare_stream (streams p) (streams n)
    ++ compare_keyed cm_key "/spec/commands" true compare_command (bp_commands p) (bp_commands n)
    ++ compare_serialized (bool_decide (metadata previous = metadata next)) "/metadata" false
    ++ compare_serialized (option_eqb value_eqb (cf_schema <$> configuration p) (cf_schema <$> configuration n))
         "/spec/configuration/schema" true
    ++ compare_serialized (option_eqb ReportedState_eqb (reported_state p) (reported_state n))
         "/spec/reportedState" true
    ++ compare_serialized (bool_decide (location p = location n)) "/spec/location"
         (bool_decide (is_Some (location p)))
    ++ compare_serialized (bool_decide (presentation p = presentation n)) "/spec/presentation" false in
  {| breaking := existsb ch_breaking changes; changes := changes |}.

(** ** What the comparison covers

    [extends]: what a successor keeps when no change is reported as breaking.
    It is the comparison's own notion and not everything a deployed device
    relies on: the routes of commands, the heartbeat, health, firmware and
    relationship sections are not among it. *)
Definition kept {T} (key : T -> string) (same : T -> T -> Prop) (p n : list T) : Prop :=
  forall x, x ∈ p -> exists y, y ∈ n /\ key y = key x /\ same x y.
Definition field_kept (x y : FieldDefinition) : Prop :=
  fd_value_type x = fd_value_type y /\ fd_unit x = fd_unit y /\ fd_semantic x = fd_semantic y.
Record extends (p n : BlueprintSpec) : Prop := {
  ex_api : minimum_contract_api (runtime n) <= minimum_contract_api (runtime p);
  ex_limits : max_message_bytes (limits (runtime p)) <= max_message_bytes (limits (runtime n))
    /\ max_messages_per_minute (limits (runtime p)) <= max_messages_per_minute (limits (runtime n))
    /\ max_metric_cardinality (limits (runtime p)) <= max_metric_cardinality (limits (runtime n));
  ex_transports : kept tr_key (fun x y => tr_protocol x = tr_protocol y /\ tr_binding x = tr_binding y)
    (transports p) (transports n);
  ex_schemas : kept sc_key (fun x y => sc_format x = sc_format y /\ value_eqb (sc_schema x) (sc_schema y) = true)
    (schemas p) (schemas n);
  ex_routes : forall r, r ∈ routes p -> r ∈ routes n;
  ex_streams : kept st_key (fun x y => st_route x = st_route y /\ st_timestamp x = st_timestamp y
      /\ kept fd_path field_kept (st_fields x) (st_fields y)) (streams p) (streams n);
  ex_commands : kept cm_key (fun x y => value_eqb (input_schema x) (input_schema y) = true
      /\ value_eqb (result_schema x) (result_schema y) = true) (bp_commands p) (bp_commands n);
  ex_configuration : option_eqb value_eqb (cf_schema <$> configuration p) (cf_schema <$> configuration n) = true;
  ex_reported : option_eqb ReportedState_eqb (reported_state p) (reported_state n) = true;
  ex_location : forall l, location p = Some l -> location n = Some l;
}.

(** ** Lemmas *)
Definition harmless (l : list CompatibilityChange) : Prop := existsb ch_breaking l = false.
Lemma harmless_app l1 l2 : harmless (l1 ++ l2) <-> harmless l1 /\ harmless l2.
Proof. unfold harmless. rewrite existsb_app. apply orb_false_iff. Qed.
Lemma harmless_concat {A} (f : A -> list CompatibilityChange) l :
  harmless (concat (map f l)) <-> forall x, x ∈ l -> harmless (f x).
Proof.
  induction l as [|a l IH]; simpl; [set_solver|]. rewrite harmless_app, IH. set_solver.
Qed.
Lemma harmless_serialized e path brk : harmless (compare_serialized e path brk) <-> e = true \/ brk = false.
Proof. destruct e, brk; simpl; naive_solver. Qed.
Lemma harmless_breaking (g : bool) path m : harmless (if g then [changed path true m] else []) <-> g = false.
Proof. by destruct g. Qed.
Lemma harmless_graded (g h : bool) path m m' :
  harmless (if g then [changed path true m] else if h then [changed path false m'] else []) <-> g = false.
Proof. by destruct g, h. Qed.
Section keyed_lemmas.
Context {T : Type} (key : T -> string) (path : string)
  (compare : T -> T -> string -> list CompatibilityChange) (same : T -> T -> Prop).
Lemma keyed_elem (items : list T) k x :
  NoDup (map key items) -> (k, x) ∈ keyed key items <-> x ∈ items /\ key x = k.
Proof using.
  intros Hnd. rewrite <- (keyed_get key items k x Hnd). split; [|apply bt_get_Some_elem].
  apply bt_get_elem, bt_collect_sorted.
Qed.
Lemma keyed_harmless p n :
  NoDup (map key p) -> NoDup (map key n) ->
  (forall x y q, x ∈ p -> y ∈ n -> key y = key x -> harmless (compare x y q) <-> same x y) ->
  harmless (compare_keyed key path true compare p n) <-> kept key same p n.
Proof using.
  intros Hp Hn Hsame. unfold compare_keyed. cbv zeta. rewrite harmless_app, !harmless_concat. split.
  - intros [H _] x Hx. specialize (H (key x, x)). simpl in H.
    specialize (H (proj2 (keyed_elem p (key x) x Hp) (conj Hx eq_refl))).
    destruct (bt_get (key x) (keyed key n)) as [y|] eqn:E; [|done].
    apply (keyed_get key n (key x) y Hn) in E as [Hy Hk]. exists y. split_and!; try done.
    by apply (Hsame x y _ Hx Hy Hk) in H.
  - intros H. split; [|intros k _; by case_match].
    intros [k x] [Hx <-]%(keyed_elem p k x Hp). simpl. destruct (H x Hx) as (y & Hy & Hk & Hs).
    rewrite (proj2 (keyed_get key n (key x) y Hn) (conj Hy Hk)). by apply Hsame.
Qed.
End keyed_lemmas.
Lemma runtime_harmless p n :
  harmless (compare_runtime p n)
  <-> minimum_contract_api n <= minimum_contract_api p
      /\ max_message_bytes (limits p) <= max_message_bytes (limits n)
      /\ max_messages_per_minute (limits p) <= max_messages_per_minute (limits n)
      /\ max_metric_cardinality (limits p) <= max_metric_cardinality (limits n).
Proof.
  unfold compare_runtime. rewrite harmless_app, !harmless_breaking, !orb_false_iff, !Z.ltb_ge. tauto.
Qed.
Lemma neq_str_false a b : (a !=s b) = false <-> a = b.
Proof. by rewrite negb_false_iff, String.eqb_eq. Qed.
Lemma bool_decide_neg_false (P : Prop) `{Decision P} : negb (bool_decide P) = false <-> P.
Proof. by rewrite negb_false_iff, bool_decide_eq_true. Qed.
Lemma transport_harmless x y q :
  harmless (compare_transport x y q) <-> tr_protocol x = tr_protocol y /\ tr_binding x = tr_binding y.
Proof.
  unfold compare_transport. rewrite harmless_graded, orb_false_iff, bool_decide_neg_false, neq_str_false. done.
Qed.
Lemma schema_harmless x y q : sc_key y = sc_key x ->
  harmless (compare_schema x y q) <-> sc_format x = sc_format y /\ value_eqb (sc_schema x) (sc_schema y) = true.
Proof.
  intros Hk. unfold compare_schema, SchemaDefinition_eqb.
  rewrite harmless_breaking, negb_false_iff, !andb_true_iff, String.eqb_eq, bool_decide_eq_true. naive_solver.
Qed.
Lemma route_harmless x y q : harmless (compare_route x y q) <-> x = y.
Proof. unfold compare_route. by rewrite harmless_breaking, bool_decide_neg_false. Qed.
Lemma field_harmless x y q : harmless (compare_field x y q) <-> field_kept x y.
Proof.
  unfold compare_field, field_kept. rewrite harmless_graded, !orb_false_iff, !bool_decide_neg_false. tauto.
Qed.
Lemma stream_harmless x y q :
  NoDup (map fd_path (st_fields x)) -> NoDup (map fd_path (st_fields y)) ->
  harmless (compare_stream x y q)
  <-> st_route x = st_route y /\ st_timestamp x = st_timestamp y
      /\ kept fd_path field_kept (st_fields x) (st_fields y).
Proof.
  intros Hx Hy. unfold compare_stream.
  rewrite harmless_app, harmless_breaking, orb_false_iff, !neq_str_false.
  rewrite (keyed_harmless fd_path _ _ field_kept) by (intros; try apply field_harmless; done). tauto.
Qed.
Lemma command_harmless x y q :
  harmless (compare_command x y q)
  <-> value_eqb (input_schema x) (input_schema y) = true /\ value_eqb (result_schema x) (result_schema y) = true.
Proof. unfold compare_command. by rewrite harmless_graded, orb_false_iff, !negb_false_iff. Qed.
Lemma kept_eq_routes (p n : list RouteDefinition) : kept rt_key eq p n <-> forall r, r ∈ p -> r ∈ n.
Proof. unfold kept. split; [intros H r Hr; destruct (H r Hr) as (y & Hy & _ & <-); done|naive_solver]. Qed.
Lemma location_harmless (p n : option LocationDefinition) path :
  harmless (compare_serialized (bool_decide (p = n)) path (bool_decide (is_Some p)))
  <-> forall l, p = Some l -> n = Some l.
Proof.
  rewrite harmless_serialized, bool_decide_eq_true, bool_decide_eq_false.
  destruct p as [l|]; [|split; [done|intros _; right; by intros [? ?]]]. split.
  - intros [<-|H]; [done|]. destruct H. eauto.
  - intros H. left. symmetry. by apply H.
Qed.

Lemma non_breaking_extends b0 b b0' b' :
  validate_blueprint b0 = Ok b -> validate_blueprint b0' = Ok b' ->
  breaking (compare_blueprints b b') = false <-> extends (spec b) (spec b').
Proof.
  intros [Hb ->]%validate_blueprint_ok [Hb' ->]%validate_blueprint_ok.
  unfold compare_blueprints. cbv zeta. cbn [breaking].
  
  match goal with |- existsb ch_breaking ?l = false <-> _ => change (harmless l <-> extends (spec b0) (spec b0')) end.
  rewrite !harmless_app, location_harmless, runtime_harmless, !harmless_serialized.
  rewrite (keyed_harmless tr_key _ _ (fun x y => tr_protocol x = tr_protocol y /\ tr_binding x = tr_binding y))
    by (intros; try apply transport_harmless; by apply bp_transport_keys).
  rewrite (keyed_harmless sc_key _ _ (fun x y => sc_format x = sc_format y
      /\ value_eqb (sc_schema x) (sc_schema y) = true))
    by (intros; try (by apply schema_harmless); by apply bp_schema_keys).
  rewrite (keyed_harmless rt_key _ _ eq) by (intros; try apply route_harmless; by apply bp_route_keys).
  rewrite (keyed_harmless st_key _ _ (fun x y => st_route x = st_route y /\ st_timestamp x = st_timestamp y
      /\ kept fd_path field_kept (st_fields x) (st_fields y))); [|by apply bp_stream_keys..|].
  2:{ intros x y q Hx Hy _. apply stream_harmless;
        [destruct (bp_streams _ Hb x Hx) as (_ & _ & ? & _)|destruct (bp_streams _ Hb' y Hy) as (_ & _ & ? & _)]; done. }
  rewrite (keyed_harmless cm_key _ _ (fun x y => value_eqb (input_schema x) (input_schema y) = true
      /\ value_eqb (result_schema x) (result_schema y) = true))
    by (intros; try apply command_harmless; by apply bp_command_keys).
  rewrite kept_eq_routes. split.
  - intros (? & ? & ? & ? & ? & ? & ? & ? & ? & ? & ?). split; naive_solver.
  - intros []. split_and!; naive_solver.
Qed.

(** The scope of the comparison: for validated blueprints a successor is
    reported as non-breaking exactly when it [extends] its predecessor, i.e.
    keeps its transports' protocols and bindings, its schemas and routes, the
    routes, timestamps and the fields' types, units and semantics of its
    streams, its commands' schemas, its configuration and reported-state
    schemas and its location, and neither raises the contract API nor lowers
    a limit. *)
Theorem breaking_exact b0 b b0' b' :
  validate_blueprint b0 = Ok b -> validate_blueprint b0' = Ok b' ->
  breaking (compare_blueprints b b') = false <-> extends (spec b) (spec b').
Proof. apply non_breaking_extends. Qed.
Lemma breaking_exact_witness :
  breaking (compare_blueprints cold_room cold_room) = false <-> extends (spec cold_room) (spec cold_room).
Proof. exact (breaking_exact cold_room cold_room cold_room cold_room cold_room_valid cold_room_valid). Defined.

(** ** Chains of revisions *)

(** The JSON values of a blueprint that the comparison reads are well-formed. *)
Record wf_blueprint (b : BlueprintSpec) : Prop := {
  wb_schemas : forall s, s ∈ schemas b -> wf_value (sc_schema s);
  wb_commands : forall c, c ∈ bp_commands b -> wf_value (input_schema c) /\ wf_value (result_schema c);
  wb_configuration : forall c, configuration b = Some c -> wf_value (cf_schema c);
  wb_reported : forall r, reported_state b = Some r -> wf_value (rs_schema r);
}.
Lemma kept_trans {T} (key : T -> string) (same same' same'' : T -> T -> Prop) a b c :
  (forall x y z, x ∈ a -> y ∈ b -> z ∈ c -> same x y -> same' y z -> same'' x z) ->
  kept key same a b -> kept key same' b c -> kept key same'' a c.
Proof.
  intros Ht Hab Hbc x Hx. destruct (Hab x Hx) as (y & Hy & Hk & Hs).
  destruct (Hbc y Hy) as (z & Hz & Hk' & Hs'). exists z. split_and!; [done|congruence|eauto].
Qed.
Lemma option_eqb_trans {A} (eqb : A -> A -> bool) (P : A -> Prop) a b c :
  (forall x y z, P x -> P y -> P z -> eqb x y = true -> eqb y z = true -> eqb x z = true) ->
  (forall x, a = Some x -> P x) -> (forall x, b = Some x -> P x) -> (forall x, c = Some x -> P x) ->
  option_eqb eqb a b = true -> option_eqb eqb b c = true -> option_eqb eqb a c = true.
Proof. intros Ht Ha Hb Hc. destruct a, b, c; simpl; try done. intros H1 H2. exact (Ht _ _ _ (Ha _ eq_refl) (Hb _ eq_refl) (Hc _ eq_refl) H1 H2). Qed.
Lemma extends_trans a b c :
  wf_blueprint a -> wf_blueprint b -> wf_blueprint c -> extends a b -> extends b c -> extends a c.
Proof.
  intros Wa Wb Wc Hab Hbc. split.
  - etrans; [apply (ex_api _ _ Hbc)|apply (ex_api _ _ Hab)].
  - pose proof (ex_limits _ _ Hab). pose proof (ex_limits _ _ Hbc). lia.
  - refine (kept_trans _ _ _ _ _ _ _ _ (ex_transports _ _ Hab) (ex_transports _ _ Hbc)).
    intros x y z _ _ _ [-> ->] [-> ->]. done.
  - refine (kept_trans _ _ _ _ _ _ _ _ (ex_schemas _ _ Hab) (ex_schemas _ _ Hbc)).
    intros x y z Hx Hy Hz [-> H1] [-> H2]. split; [done|]. eapply value_eqb_trans; [..|exact H1|exact H2];
      eauto using wb_schemas.
  - intros r Hr. by apply (ex_routes _ _ Hbc), (ex_routes _ _ Hab).
  - refine (kept_trans _ _ _ _ _ _ _ _ (ex_streams _ _ Hab) (ex_streams _ _ Hbc)).
    intros x y z _ _ _ (-> & -> & H1) (-> & -> & H2). split_and!; try done.
    refine (kept_trans _ _ _ _ _ _ _ _ H1 H2). unfold field_kept. intros f g h _ _ _ (-> & -> & ->). done.
  - refine (kept_trans _ _ _ _ _ _ _ _ (ex_commands _ _ Hab) (ex_commands _ _ Hbc)).
    intros x y z Hx Hy Hz [H1 H2] [H3 H4].
    destruct (wb_commands _ Wa x Hx), (wb_commands _ Wb y Hy), (wb_commands _ Wc z Hz).
    split; [eapply value_eqb_trans; [..|exact H1|exact H3]|eapply value_eqb_trans; [..|exact H2|exact H4]]; done.
  - refine (option_eqb_trans _ wf_value _ _ _ value_eqb_trans _ _ _ (ex_configuration _ _ Hab)
      (ex_configuration _ _ Hbc)); intros v (cf & E & ->)%fmap_Some; eauto using wb_configuration.
  - refine (option_eqb_trans _ (fun r => wf_value (rs_schema r)) _ _ _ _ _ _ _ (ex_reported _ _ Hab)
      (ex_reported _ _ Hbc)); eauto using wb_reported.
    intros x y z ? ? ?. by apply value_eqb_trans.
  - intros l Hl. by apply (ex_location _ _ Hbc), (ex_location _ _ Hab).
Qed.
Lemma keyed_self {T} (key : T -> string) path compare (p : list T) :
  (forall x q, x ∈ p -> compare x x q = []) -> compare_keyed key path true compare p p = [].
Proof.
  intros H. unfold compare_keyed. cbv zeta. apply app_nil. split.
  - apply concat_nil_Forall, Forall_fmap, Forall_forall. intros [k x] Hx. simpl.
    rewrite (bt_get_elem k x); [|apply bt_collect_sorted|done]. apply H.
    apply bt_get_elem, bt_collect_elem in Hx; [|apply bt_collect_sorted].
    apply list_elem_of_fmap in Hx as (y & [= -> ->] & Hy). done.
  - apply concat_nil_Forall, Forall_fmap, Forall_forall. intros k Hk. simpl.
    unfold bt_contains_key. destruct (bt_get k (keyed key p)) eqn:E; [done|].
    by apply bt_get_None in E.
Qed.
Lemma decide_self {A} (x : A) `{Decision (x = x)} : bool_decide (x = x) = true.
Proof. by apply bool_decide_true. Qed.
Lemma stream_self x q : compare_stream x x q = [].
Proof.
  unfold compare_stream. rewrite !String.eqb_refl. simpl. apply keyed_self. intros f q' _.
  unfold compare_field. by rewrite !decide_self.
Qed.
Lemma command_self x q : wf_value (input_schema x) -> wf_value (result_schema x) -> compare_command x x q = [].
Proof.
  intros H1 H2. unfold compare_command, CommandDefinition_eqb.
  by rewrite !value_eqb_refl, !decide_self, !String.eqb_refl.
Qed.
Lemma compare_self_changes b : wf_blueprint (spec b) -> changes (compare_blueprints b b) = [].
Proof.
  intros Hwf. unfold compare_blueprints. cbv zeta. cbn [changes]. rewrite !app_nil. unfold compare_serialized.
  rewrite !decide_self. split_and!; try done.
  - unfold compare_runtime. by rewrite !Z.ltb_irrefl.
  - apply keyed_self. intros t q _. unfold compare_transport. by rewrite !decide_self, String.eqb_refl.
  - apply keyed_self. intros t q Ht. unfold compare_schema, SchemaDefinition_eqb.
    by rewrite decide_self, String.eqb_refl, value_eqb_refl by eauto using wb_schemas.
  - apply keyed_self. intros t q _. unfold compare_route. by rewrite decide_self.
  - apply keyed_self. intros t q _. apply stream_self.
  - apply keyed_self. intros t q Ht. by apply command_self; apply (wb_commands _ Hwf).
  - destruct (configuration (spec b)) eqn:E; [|done]. simpl. by rewrite value_eqb_refl by eauto using wb_configuration.
  - destruct (reported_state (spec b)) eqn:E; [|done]. simpl. unfold ReportedState_eqb.
    by rewrite value_eqb_refl by eauto using wb_reported.
Qed.

(** Compatibility is a preorder on published revisions: republishing a
    blueprint reports no change at all, and when every step of a chain of
    revisions is non-breaking, so is the jump from the first to the last; a
    device that skips revisions is as safe as one that takes each. *)
Theorem non_breaking_preorder a b c :
  validate_blueprint a = Ok a -> validate_blueprint b = Ok b -> validate_blueprint c = Ok c ->
  wf_blueprint (spec a) -> wf_blueprint (spec b) -> wf_blueprint (spec c) ->
  breaking (compare_blueprints a b) = false -> breaking (compare_blueprints b c) = false ->
  changes (compare_blueprints a a) = [] /\ breaking (compare_blueprints a c) = false.
Proof.
  intros Ha Hb Hc Wa Wb Wc Hab Hbc. split; [by apply compare_self_changes|].
  rewrite (non_breaking_extends a a b b) in Hab by done. rewrite (non_breaking_extends b b c c) in Hbc by done.
  rewrite (non_breaking_extends a a c c) by done. by apply (extends_trans _ (spec b)).
Qed.
(** A revision of the fixture with a higher message limit. *)
Definition with_limits (s : BlueprintSpec) (l : RuntimeLimits) : BlueprintSpec :=
  {| runtime := {| minimum_contract_api := minimum_contract_api (runtime s);
                   heartbeat := heartbeat (runtime s); limits := l |};
     transports := transports s; routes := routes s; schemas := schemas s; streams := streams s;
     location := location s; bp_commands := bp_commands s; configuration := configuration s;
     reported_state := reported_state s; health := health s; bp_firmware := bp_firmware s;
     relationships := relationships s; presentation := presentation s |}.
Definition cold_room_2 : DeviceBlueprint :=
  {| api_version := api_version cold_room; bp_kind := bp_kind cold_room; metadata := metadata cold_room;
     spec := with_limits cold_room_spec {| max_message_bytes := 16384; max_messages_per_minute := 120;
                                           max_metric_cardinality := 128 |} |}.
Lemma cold_room_wf : wf_blueprint (spec cold_room).
Proof.
  split.
  - apply Forall_forall. repeat constructor; apply wf_valueb_sound; vm_compute; reflexivity.
  - apply Forall_forall. repeat constructor; apply wf_valueb_sound; vm_compute; reflexivity.
  - intros c [= <-]. apply wf_valueb_sound. vm_compute. reflexivity.
  - intros r [= <-]. apply wf_valueb_sound. vm_compute. reflexivity.
Qed.
Lemma cold_room_2_wf : wf_blueprint (spec cold_room_2).
Proof. destruct cold_room_wf. by split. Qed.
Lemma non_breaking_preorder_witness :
  changes (compare_blueprints cold_room cold_room) = []
  /\ breaking (compare_blueprints cold_room cold_room_2) = false.
Proof.
  apply (non_breaking_preorder cold_room cold_room_2 cold_room_2);
    first [exact cold_room_wf|exact cold_room_2_wf|vm_compute; reflexivity].
Defined.

(** ** What is not compared *)
Definition with_unreported (s : BlueprintSpec) (hb : HeartbeatDefinition) (h : option HealthDefinition)
    (f : option FirmwareDefinition) (rels : list RelationshipDefinition) : BlueprintSpec :=
  {| runtime := {| minimum_contract_api := minimum_contract_api (runtime s); heartbeat := hb;
                   limits := limits (runtime s) |};
     transports := transports s; routes := routes s; schemas := schemas s; streams := streams s;
     location := location s; bp_commands := bp_commands s; configuration := configuration s;
     reported_state := reported_state s; health := h; bp_firmware := f;
     relationships := rels; presentation := presentation s |}.
Definition with_spec (b : DeviceBlueprint) (s : BlueprintSpec) : DeviceBlueprint :=
  {| api_version := api_version b; bp_kind := bp_kind b; metadata := metadata b; spec := s |}.
Definition rerouted (c : CommandDefinition) (request response timeout : string) : CommandDefinition :=
  {| cm_key := cm_key c; request_route := request; response_route := response;
     cm_label := cm_label c; cm_description := cm_description c; cm_danger := cm_danger c;
     cm_timeout := timeout; input_schema := input_schema c; result_schema := result_schema c;
     cm_availability := cm_availability c; cm_idempotency := cm_idempotency c |}.
(** A valid successor of the fixture without health and firmware. *)
Example cold_room_stripped_valid :
  is_ok (validate_blueprint (with_spec cold_room
    (with_unreported cold_room_spec {| hb_interval := "1h"; hb_offline_after := "2h" |} None None []))) = true.
Proof. vm_compute. reflexivity. Qed.

(** What the comparison leaves out: it does not depend on the heartbeat,
    health, firmware and relationship declarations of the successor, so
    changing or dropping them is never reported; and moving a command to
    other routes or another timeout is never reported as breaking. *)
Theorem unreported_changes p n hb h f rels c request response timeout path :
  compare_blueprints p (with_spec n (with_unreported (spec n) hb h f rels)) = compare_blueprints p n
  /\ (wf_value (input_schema c) -> wf_value (result_schema c) ->
      existsb ch_breaking (compare_command c (rerouted c request response timeout) path) = false).
Proof.
  split; [reflexivity|]. intros H1 H2. apply command_harmless. by rewrite !value_eqb_refl.
Qed.
