(* ===== verification/Alerts.v ===== *)
(** * Alerts (crates/backend-core/src/alerts.rs, application/alerts.rs,
    crates/backend-turso/src/alerts.rs)

    The alert rows, their transitions, and the delivery receipts that make
    the creation of an alert by a rule action happen once. *)
From S2P Require Import Prelude Text Errors Access RuleTypes RuleCache RuleEvaluate RuleSnapshot.

Local Open Scope Z_scope.

(** ** Records *)
Record AlertRecord := {
  alert_id : string; alert_tenant : string; alert_rule : option string; alert_device : string;
  alert_severity : string; alert_status : string; alert_message : string;
  alert_value : option string; resolved_at : option NaiveDateTime;
  acknowledged_at : option NaiveDateTime; alert_created_at : NaiveDateTime;
}.
Inductive AlertTransition := Acknowledge | Resolve | Reactivate.
#[global] Instance AlertTransition_eq_dec : EqDecision AlertTransition.
Proof. solve_decision. Defined.
Inductive AlertTransitionOutcome :=
| TransitionNotFound
| InvalidStatus (status : string)
| ActiveConflict (existing : string)
| Updated (alert : AlertRecord).
Record NewRuleAlertRecord := {
  na_id : string; na_rule : string; na_device : string; na_severity : string; na_message : string;
  na_value : option string;
}.
Definition requires_active_slot (t : AlertTransition) : bool :=
  match t with Reactivate => true | _ => false end.
Definition accepts (t : AlertTransition) (status : string) : bool :=
  match t with
  | Acknowledge => status =s? "active"
  | Resolve => status !=s "resolved"
  | Reactivate => status !=s "active"
  end.

(** ** Tables

    [alerts] and [rule_alert_deliveries] by primary key, with the tables
    their foreign keys refer to; times are microseconds. *)
Record AlertEntry := {
  ae_id : string; ae_tenant : string; ae_rule : option string; ae_device : string; ae_severity : string;
  ae_status : string; ae_message : string; ae_value : option string; ae_resolved_at : option Z;
  ae_acknowledged_at : option Z; ae_created_at : Z;
}.
Record AlertStore := {
  as_alerts : gmap string AlertEntry;
  as_deliveries : gmap string (string * string); (* delivery: tenant, alert *)
  as_devices : gset (string * string);
  as_rules : gset (string * string);
  as_outbox : gset string;
  as_cooldowns : gmap RuleDeviceKey Z;
}.
Definition with_alerts (s : AlertStore) (m : gmap string AlertEntry) : AlertStore :=
  {| as_alerts := m; as_deliveries := as_deliveries s; as_devices := as_devices s; as_rules := as_rules s;
     as_outbox := as_outbox s; as_cooldowns := as_cooldowns s |}.
Definition with_cooldowns (s : AlertStore) (m : gmap RuleDeviceKey Z) : AlertStore :=
  {| as_alerts := as_alerts s; as_deliveries := as_deliveries s; as_devices := as_devices s; as_rules := as_rules s;
     as_outbox := as_outbox s; as_cooldowns := m |}.
Definition with_deliveries (s : AlertStore) (m : gmap string (string * string)) : AlertStore :=
  {| as_alerts := as_alerts s; as_deliveries := m; as_devices := as_devices s; as_rules := as_rules s;
     as_outbox := as_outbox s; as_cooldowns := as_cooldowns s |}.

(** Updates of one row. *)
Definition set_status (a : AlertEntry) (status : string) (resolved acknowledged : option Z) : AlertEntry :=
  {| ae_id := ae_id a; ae_tenant := ae_tenant a; ae_rule := ae_rule a; ae_device := ae_device a;
     ae_severity := ae_severity a; ae_status := status; ae_message := ae_message a; ae_value := ae_value a;
     ae_resolved_at := resolved; ae_acknowledged_at := acknowledged; ae_created_at := ae_created_at a |}.
Definition apply_transition (t : AlertTransition) (now : Z) (a : AlertEntry) : AlertEntry :=
  match t with
  | Acknowledge => set_status a "acknowledged" (ae_resolved_at a) (Some now)
  | Resolve => set_status a "resolved" (Some now) (ae_acknowledged_at a)
  | Reactivate => set_status a "active" None None
  end.
Definition set_value (a : AlertEntry) (v : string) : AlertEntry :=
  {| ae_id := ae_id a; ae_tenant := ae_tenant a; ae_rule := ae_rule a; ae_device := ae_device a;
     ae_severity := ae_severity a; ae_status := ae_status a; ae_message := ae_message a; ae_value := Some v;
     ae_resolved_at := ae_resolved_at a; ae_acknowledged_at := ae_acknowledged_at a;
     ae_created_at := ae_created_at a |}.
(** status IN ('active','acknowledged'). *)
Definition open_status (status : string) : bool := (status =s? "active") || (status =s? "acknowledged").
(** An open alert of a rule for a device. *)
Definition open_for (tenant rule device : string) (a : AlertEntry) : bool :=
  (ae_tenant a =s? tenant) && bool_decide (ae_rule a = Some rule) && (ae_device a =s? device)
  && open_status (ae_status a).
(** ORDER BY created_at DESC, id DESC LIMIT 1. *)
Definition newer (a b : AlertEntry) : bool :=
  (ae_created_at b <? ae_created_at a)
  || ((ae_created_at a =? ae_created_at b)
      && match String.compare (ae_id a) (ae_id b) with Gt => true | _ => false end).
Fixpoint newest (l : list AlertEntry) : option AlertEntry :=
  match l with
  | [] => None
  | a :: r => match newest r with Some b => if newer a b then Some a else Some b | None => Some a end
  end.
Definition entries (s : AlertStore) : list AlertEntry := (map_to_list (as_alerts s)).*2.

Section turso.
Context `{!ChronoMicros}.
Definition datetime_opt (o : option Z) : result PersistenceError (option NaiveDateTime) :=
  match o with Some v => Some <$> datetime v | None => Ok None end.
Definition decode_alert (a : AlertEntry) : result PersistenceError AlertRecord :=
  resolved ← datetime_opt (ae_resolved_at a);
  acknowledged ← datetime_opt (ae_acknowledged_at a);
  created ← datetime (ae_created_at a);
  Ok {| alert_id := ae_id a; alert_tenant := ae_tenant a; alert_rule := ae_rule a; alert_device := ae_device a;
        alert_severity := ae_severity a; alert_status := ae_status a; alert_message := ae_message a;
        alert_value := ae_value a; resolved_at := resolved; acknowledged_at := acknowledged;
        alert_created_at := created |}.
Definition decode_opt (o : option AlertEntry) : result PersistenceError (option AlertRecord) :=
  match o with Some a => Some <$> decode_alert a | None => Ok None end.
(** SELECT ... WHERE tenant_id=?1 AND id=?2. *)
Definition row_from (s : AlertStore) (tenant id : string) : option AlertEntry :=
  a ← as_alerts s !! id; if ae_tenant a =s? tenant then Some a else None.
Definition alert_get_from (s : AlertStore) (tenant id : string) : result PersistenceError (option AlertRecord) :=
  decode_opt (row_from s tenant id).

(** [transition_from]: the outcome and the store the transaction would commit. *)
Definition transition_from (s : AlertStore) (tenant id : string) (tr : AlertTransition) (now : Z)
    : result PersistenceError (AlertTransitionOutcome * AlertStore) :=
  first ← alert_get_from s tenant id;
  match first with
  | None => Ok (TransitionNotFound, s)
  | Some current =>
    if negb (bool_decide ((tenant, alert_device current) ∈ as_devices s)) then Ok (TransitionNotFound, s) else
    if negb (accepts tr (alert_status current)) then Ok (InvalidStatus (alert_status current), s) else
    let conflict :=
      if requires_active_slot tr then
        rule ← alert_rule current;
        newest (List.filter (fun a => open_for tenant rule (alert_device current) a && (ae_id a !=s id)) (entries s))
      else None in
    match conflict with
    | Some other => Ok (ActiveConflict (ae_id other), s)
    | None =>
      let s1 := with_alerts s (alter (apply_transition tr now) id (as_alerts s)) in
      let s2 := match alert_rule current with
                | Some rule =>
                  let key := (tenant, rule, alert_device current) in
                  match tr with
                  | Resolve => with_cooldowns s1 (upsert_cooldown (as_cooldowns s1) key now)
                  | Reactivate => with_cooldowns s1 (delete key (as_cooldowns s1))
                  | Acknowledge => s1
                  end
                | None => s1
                end in
      again ← alert_get_from s2 tenant id;
      match again with
      | Some alert => Ok (Updated alert, s2)
      | None => Err PNotFound
      end
    end
  end.
(** A transaction: an error rolls back. *)
Definition transact {A} (s : AlertStore) (r : result PersistenceError (A * AlertStore))
    : result PersistenceError A * AlertStore :=
  match r with Ok (a, s') => (Ok a, s') | Err e => (Err e, s) end.
Definition transition (s : AlertStore) (tenant id : string) (tr : AlertTransition) (now : Z) :=
  transact s (transition_from s tenant id tr now).
(** The ids of a [BTreeSet], in order. *)
Definition distinct_ids (ids : list string) : list string :=
  BTree.bt_keys (BTree.bt_collect (map (fun i => (i, ())) ids)).
Fixpoint transition_each (s : AlertStore) (tenant : string) (ids : list string) (tr : AlertTransition)
    (clock : string -> Z) : result PersistenceError (list AlertRecord * AlertStore) :=
  match ids with
  | [] => Ok ([], s)
  | id :: rest =>
    '(o, s1) ← transition_from s tenant id tr (clock id);
    '(out, s2) ← transition_each s1 tenant rest tr clock;
    Ok (match o with Updated r => r :: out | _ => out end, s2)
  end.
Definition transition_many (s : AlertStore) (tenant : string) (ids : list string) (tr : AlertTransition)
    (clock : string -> Z) :=
  transact s (transition_each s tenant (distinct_ids ids) tr clock).

(** ** Creation by delivery *)
Definition find_delivery (s : AlertStore) (tenant delivery : string)
    : result PersistenceError (option (option AlertRecord)) :=
  match as_deliveries s !! delivery with
  | Some (t, alert) => if t =s? tenant then Some <$> alert_get_from s tenant alert else Ok None
  | None => Ok None
  end.
Definition record_delivery (s : AlertStore) (tenant delivery alert : string) : result PersistenceError AlertStore :=
  match as_deliveries s !! delivery with
  | Some _ => Err (UniqueViolation "unique")
  | None =>
    if bool_decide (delivery ∈ as_outbox s)
    then Ok (with_deliveries s (<[delivery := (tenant, alert)]> (as_deliveries s)))
    else Err (ForeignKeyViolation "foreign_key")
  end.
Definition new_entry (tenant : string) (r : NewRuleAlertRecord) (now : Z) : AlertEntry :=
  {| ae_id := na_id r; ae_tenant := tenant; ae_rule := Some (na_rule r); ae_device := na_device r;
     ae_severity := na_severity r; ae_status := "active"; ae_message := na_message r; ae_value := na_value r;
     ae_resolved_at := None; ae_acknowledged_at := None; ae_created_at := now |}.
Definition insert_alert (s : AlertStore) (tenant : string) (r : NewRuleAlertRecord) (now : Z)
    : result PersistenceError AlertStore :=
  match as_alerts s !! na_id r with
  | Some _ => Err (UniqueViolation "unique")
  | None =>
    if bool_decide ((tenant, na_rule r) ∈ as_rules s)
    then Ok (with_alerts s (<[na_id r := new_entry tenant r now]> (as_alerts s)))
    else Err (ForeignKeyViolation "foreign_key")
  end.
Definition create_or_get_in (s : AlertStore) (tenant : string) (r : NewRuleAlertRecord) (now : Z)
    : result PersistenceError (option AlertRecord * AlertStore) :=
  applied ← find_delivery s tenant (na_id r);
  match applied with
  | Some alert => Ok (alert, s)
  | None =>
    if negb (bool_decide ((tenant, na_device r) ∈ as_devices s)) then Err PNotFound else
    existing ← alert_get_from s tenant (na_id r);
    match existing with
    | Some alert => s' ← record_delivery s tenant (na_id r) (alert_id alert); Ok (Some alert, s')
    | None =>
      open ← decode_opt (newest (List.filter (open_for tenant (na_rule r) (na_device r)) (entries s)));
      match open with
      | Some alert => s' ← record_delivery s tenant (na_id r) (alert_id alert); Ok (Some alert, s')
      | None =>
        s1 ← insert_alert s tenant r now;
        created ← alert_get_from s1 tenant (na_id r);
        alert ← ok_or created PNotFound;
        s2 ← record_delivery s1 tenant (na_id r) (alert_id alert);
        Ok (Some alert, s2)
      end
    end
  end.
Definition create_or_get_active (s : AlertStore) (tenant : string) (r : NewRuleAlertRecord) (now : Z) :=
  transact s (create_or_get_in s tenant r now).
Definition update_triggered_value (s : AlertStore) (tenant id v : string) : result PersistenceError bool * AlertStore :=
  match row_from s tenant id with
  | Some _ => (Ok true, with_alerts s (alter (fun a => set_value a v) id (as_alerts s)))
  | None => (Ok false, s)
  end.
Definition expired (cutoff : Z) (a : AlertEntry) : bool :=
  (ae_status a =s? "resolved") && match ae_resolved_at a with Some t => t <? cutoff | None => false end.
Definition delete_all_resolved_before (s : AlertStore) (cutoff : Z) : result PersistenceError nat * AlertStore :=
  (Ok (size (filter (fun e : string * AlertEntry => expired cutoff e.2 = true) (as_alerts s))),
   with_alerts s (filter (fun e : string * AlertEntry => expired cutoff e.2 = false) (as_alerts s))).
End turso.

(** ** Application services, over the Turso repository *)
Section application.
Context `{!ChronoMicros}.
Definition alert_missing (id : string) : ApplicationError := NotFound ("Alert '" +:+ id +:+ "' not found").
Definition persisted {A} (r : result PersistenceError A * AlertStore) : result ApplicationError A * AlertStore :=
  (map_err Persistence r.1, r.2).
(** [AlertApplication::transition]. *)
Definition app_transition (s : AlertStore) (ctx : TenantContext) (id : string) (tr : AlertTransition) (now : Z)
    : result ApplicationError AlertRecord * AlertStore :=
  match require_permission ctx ManageAlerts with
  | Err e => (Err e, s)
  | Ok _ =>
    match persisted (transition s (ctx_tenant ctx) id tr now) with
    | (Err e, s') => (Err e, s')
    | (Ok TransitionNotFound, s') => (Err (alert_missing id), s')
    | (Ok (InvalidStatus status), s') =>
      (Err (InvalidInput
         match tr with
         | Acknowledge => "Alert '" +:+ id +:+ "' cannot be acknowledged from status '" +:+ status +:+ "'"
         | Resolve => "Alert '" +:+ id +:+ "' is already resolved"
         | Reactivate => "Alert '" +:+ id +:+ "' is already active"
         end), s')
    | (Ok (ActiveConflict existing), s') =>
      (Err (Conflict ("Alert '" +:+ id +:+ "' cannot be reactivated while alert '" +:+ existing
         +:+ "' is active or acknowledged for the same rule and device")), s')
    | (Ok (Updated alert), s') => (Ok alert, s')
    end
  end.
Definition app_transition_many (s : AlertStore) (ctx : TenantContext) (ids : list string) (tr : AlertTransition)
    (clock : string -> Z) : result ApplicationError (list AlertRecord) * AlertStore :=
  match require_permission ctx ManageAlerts with
  | Err e => (Err e, s)
  | Ok _ => persisted (transition_many s (ctx_tenant ctx) ids tr clock)
  end.
(** [AlertWorkerApplication]. *)
Definition update_value_for_action (s : AlertStore) (tenant id v : string) : result ApplicationError unit * AlertStore :=
  match persisted (update_triggered_value s tenant id v) with
  | (Err e, s') => (Err e, s')
  | (Ok true, s') => (Ok tt, s')
  | (Ok false, s') => (Err (alert_missing id), s')
  end.
Definition resolve_for_action (s : AlertStore) (tenant id : string) (now : Z) : result ApplicationError unit * AlertStore :=
  match persisted (transition s tenant id Resolve now) with
  | (Err e, s') => (Err e, s')
  | (Ok (Updated _), s') => (Ok tt, s')
  | (Ok TransitionNotFound, s') => (Err (alert_missing id), s')
  | (Ok (ActiveConflict existing), s') => (Err (Conflict ("Active alert conflict: " +:+ existing)), s')
  | (Ok (InvalidStatus status), s') =>
    (Err (InvalidOperation ("Alert '" +:+ id +:+ "' cannot be resolved from status '" +:+ status +:+ "'")), s')
  end.
Definition create_for_action (s : AlertStore) (tenant delivery : string) (r : NewRuleAlertRecord) (now : Z)
    : result ApplicationError (option AlertRecord) * AlertStore :=
  if str_is_empty delivery then (Err (InvalidInput "alert creation requires a durable action ID"), s)
  else persisted (create_or_get_active s tenant
    {| na_id := delivery; na_rule := na_rule r; na_device := na_device r; na_severity := na_severity r;
       na_message := na_message r; na_value := na_value r |} now).
(** [AlertMaintenanceApplication::prune]; durations are nanoseconds, [try_days]
    and [before] are chrono's checked constructor and subtraction.  The two
    deletes are independent statements. *)
Definition delete_stale_cooldowns (s : AlertStore) (cutoff : NaiveDateTime) : result PersistenceError nat * AlertStore :=
  let stale (e : RuleDeviceKey * Z) := e.2 <? timestamp_micros cutoff in
  (Ok (size (filter (fun e => stale e = true) (as_cooldowns s))),
   with_cooldowns s (filter (fun e => stale e = false) (as_cooldowns s))).
Definition DAY : Z := 86400 * 1000000000.
Definition prune (try_days : Z -> option Z) (before : NaiveDateTime -> Z -> option NaiveDateTime) (s : AlertStore)
    (retention_days : Z) (now : NaiveDateTime) : result ApplicationError (nat * nat) * AlertStore :=
  match (if retention_days <=? Int.i64_max then try_days retention_days else None) with
  | None => (Err (InvalidInput "alert retention period is out of range"), s)
  | Some age =>
    match before now age with
    | None => (Err (InvalidInput "alert retention cutoff is out of range"), s)
    | Some cutoff =>
      match before now DAY with
      | None => (Err (InvalidInput "cooldown retention cutoff is out of range"), s)
      | Some cooldown_cutoff =>
        match persisted (delete_all_resolved_before s (timestamp_micros cutoff)) with
        | (Err e, s1) => (Err e, s1)
        | (Ok alerts, s1) =>
          match persisted (delete_stale_cooldowns s1 cooldown_cutoff) with
          | (Err e, s2) => (Err e, s2)
          | (Ok cooldowns, s2) => (Ok (alerts, cooldowns), s2)
          end
        end
      end
    end
  end.
End application.

(** ** The invariant: one open alert per rule and device *)
Record alerts_inv (s : AlertStore) : Prop := {
  ai_key : forall id a, as_alerts s !! id = Some a -> ae_id a = id;
  ai_one : forall id1 id2 a1 a2 tenant rule device,
    as_alerts s !! id1 = Some a1 -> as_alerts s !! id2 = Some a2 ->
    open_for tenant rule device a1 = true -> open_for tenant rule device a2 = true -> id1 = id2;
}.
Lemma elem_of_entries s a : a ∈ entries s <-> exists id, as_alerts s !! id = Some a.
Proof.
  unfold entries. rewrite list_elem_of_fmap. setoid_rewrite <- elem_of_map_to_list. split.
  - intros ([id b] & -> & H). eauto.
  - intros [id H]. by exists (id, a).
Qed.
Lemma open_for_spec tenant rule device a :
  open_for tenant rule device a = true
  <-> ae_tenant a = tenant /\ ae_rule a = Some rule /\ ae_device a = device /\ open_status (ae_status a) = true.
Proof. unfold open_for. rewrite !andb_true_iff, !String.eqb_eq, bool_decide_eq_true. tauto. Qed.
Lemma newest_None l : newest l = None <-> l = [].
Proof. destruct l as [|a l]; [done|]. simpl. split; [|done]. repeat case_match; done. Qed.
(** Rewriting one row keeps the invariant when the row does not become open
    beside another. *)
Lemma inv_alter s id f :
  (forall a, ae_id (f a) = ae_id a) ->
  (forall a tenant rule device, as_alerts s !! id = Some a -> open_for tenant rule device (f a) = true ->
     open_for tenant rule device a = true
     \/ forall id' a', as_alerts s !! id' = Some a' -> open_for tenant rule device a' = true -> id' = id) ->
  alerts_inv s -> alerts_inv (with_alerts s (alter f id (as_alerts s))).
Proof.
  intros Hid Hopen Hinv. split; simpl.
  - intros id' a. destruct (decide (id = id')) as [<-|Hne].
    + rewrite lookup_alter_eq. intros (b & Hb & ->)%fmap_Some. rewrite Hid. by apply (ai_key _ Hinv).
    + rewrite lookup_alter_ne by done. apply (ai_key _ Hinv).
  - intros id1 id2 a1 a2 tenant rule device H1 H2 O1 O2.
    destruct (decide (id1 = id)) as [->|Hn1], (decide (id2 = id)) as [->|Hn2]; try done.
    + rewrite lookup_alter_eq in H1. rewrite lookup_alter_ne in H2 by done.
      apply fmap_Some in H1 as (b & Hb & ->). destruct (Hopen _ _ _ _ Hb O1) as [Ob|Hno].
      * by eapply (ai_one _ Hinv).
      * symmetry. by eapply Hno.
    + rewrite lookup_alter_eq in H2. rewrite lookup_alter_ne in H1 by done.
      apply fmap_Some in H2 as (b & Hb & ->). destruct (Hopen _ _ _ _ Hb O2) as [Ob|Hno].
      * by eapply (ai_one _ Hinv).
      * by eapply Hno.
    + rewrite lookup_alter_ne in H1, H2 by done. by eapply (ai_one _ Hinv).
Qed.
Lemma inv_same_alerts s s' : as_alerts s' = as_alerts s -> alerts_inv s -> alerts_inv s'.
Proof. intros E [H1 H2]. split; rewrite E; done. Qed.
Lemma inv_fewer s s' : as_alerts s' ⊆ as_alerts s -> alerts_inv s -> alerts_inv s'.
Proof.
  intros Hsub [H1 H2]. split.
  - intros id a Ha. apply H1. by eapply lookup_weaken.
  - intros id1 id2 a1 a2 t r d Ha1 Ha2. apply H2; by eapply lookup_weaken.
Qed.
Section steps.
Context {micros : ChronoMicros}.

(** What a transition does when it updates: the row was found, accepted and
    free to open. *)
Lemma decode_alert_entry a r : decode_alert a = Ok r ->
  alert_id r = ae_id a /\ alert_rule r = ae_rule a /\ alert_device r = ae_device a /\ alert_status r = ae_status a
  /\ alert_tenant r = ae_tenant a.
Proof.
  unfold decode_alert. intros (x & _ & (y & _ & (z & _ & [= <-])%bind_ok)%bind_ok)%bind_ok. done.
Qed.
Lemma get_from_Some s tenant id r :
  alert_get_from s tenant id = Ok (Some r) ->
  exists a, as_alerts s !! id = Some a /\ ae_tenant a = tenant /\ decode_alert a = Ok r.
Proof.
  unfold alert_get_from, row_from. destruct (as_alerts s !! id) as [a|] eqn:E; simpl; [|done].
  destruct (String.eqb_spec (ae_tenant a) tenant); [|done]. simpl.
  destruct (decode_alert a) as [r0|] eqn:Ed; [|done]. intros [= <-]. eauto.
Qed.
Lemma transition_from_inv s tenant id tr now o s' :
  alerts_inv s -> transition_from s tenant id tr now = Ok (o, s') -> alerts_inv s'.
Proof.
  intros Hinv. unfold transition_from. intros (first & Hf & H)%bind_ok.
  destruct first as [current|]; [|by simplify_eq].
  destruct (get_from_Some _ _ _ _ Hf) as (a & Ha & Ht & Hd).
  destruct (decode_alert_entry a current Hd) as (Hid & Hr & Hdev & Hst & _).
  destruct (negb (bool_decide _)); [by simplify_eq|].
  destruct (accepts tr (alert_status current)) eqn:Hacc; cbn [negb] in H; [|by simplify_eq].
  cbv zeta in H.
  match type of H with match ?c with Some _ => _ | None => _ end = _ => destruct c as [other|] eqn:Hc end;
    [by simplify_eq|].
  apply bind_ok in H as (again & _ & H). destruct again as [alert|]; simplify_eq.
  apply (inv_same_alerts (with_alerts s (alter (apply_transition tr now) id (as_alerts s))));
    [by repeat case_match|].
  apply inv_alter; [by destruct tr| |done].
  intros b tenant' rule device Hb Ho. simplify_eq. rewrite !open_for_spec in *.
  destruct Ho as (Ht' & Hr' & Hd' & Ho). destruct tr; simpl in *.
  - left. split_and!; try done. unfold open_status. rewrite <- Hst. by rewrite Hacc.
  - done.
  - right. intros id' a' Ha' Ho'. destruct (decide (id' = id)) as [|Hne]; [done|]. exfalso.
    rewrite Hr, Hr' in Hc. simpl in Hc. apply newest_None in Hc.
    assert (a' ∈ (@nil AlertEntry)) as Hin; [|by inversion Hin]. rewrite <- Hc.
    apply elem_of_filterb. split; [apply elem_of_entries; eauto|]. rewrite andb_true_iff, open_for_spec, negb_true_iff.
    rewrite String.eqb_neq, (ai_key _ Hinv _ _ Ha'), Hdev. apply open_for_spec in Ho' as (? & ? & ? & ?). split_and!; congruence.
Qed.
Lemma record_delivery_alerts s tenant delivery alert s' :
  record_delivery s tenant delivery alert = Ok s' -> as_alerts s' = as_alerts s.
Proof. unfold record_delivery. repeat case_match; intros; by simplify_eq. Qed.
Lemma insert_alert_inv s tenant r now s' :
  alerts_inv s -> insert_alert s tenant r now = Ok s' ->
  (forall id a, as_alerts s !! id = Some a -> open_for tenant (na_rule r) (na_device r) a = true -> False) ->
  alerts_inv s'.
Proof.
  intros Hinv. unfold insert_alert. destruct (as_alerts s !! na_id r) eqn:E; [done|].
  case_match; [|done]. intros [= <-] Hno.
  assert (forall a t rule d, a = new_entry tenant r now -> open_for t rule d a = true ->
    t = tenant /\ rule = na_rule r /\ d = na_device r) as Hnew.
  { intros a t rule d -> Ho. apply open_for_spec in Ho as (<- & [= <-] & <- & _). done. }
  split; simpl.
  - intros id a [[<- <-]|[_ Ha]]%lookup_insert_Some; [done|by apply (ai_key _ Hinv)].
  - intros id1 id2 a1 a2 t rule d [[<- <-]|[_ H1]]%lookup_insert_Some [[<- <-]|[_ H2]]%lookup_insert_Some O1 O2.
    + done.
    + destruct (Hnew _ _ _ _ eq_refl O1) as (-> & -> & ->). by destruct (Hno _ _ H2).
    + destruct (Hnew _ _ _ _ eq_refl O2) as (-> & -> & ->). by destruct (Hno _ _ H1).
    + by eapply (ai_one _ Hinv).
Qed.
Lemma create_in_inv s tenant r now o s' :
  alerts_inv s -> create_or_get_in s tenant r now = Ok (o, s') -> alerts_inv s'.
Proof.
  intros Hinv. unfold create_or_get_in. intros (applied & _ & H)%bind_ok.
  destruct applied as [alert|]; [by simplify_eq|]. destruct (negb _); [done|].
  apply bind_ok in H as (existing & Hex & H). destruct existing as [alert|].
  { apply bind_ok in H as (s1 & Hs1 & [= <- <-]). by apply (inv_same_alerts s); [apply (record_delivery_alerts _ _ _ _ _ Hs1)|]. }
  apply bind_ok in H as (open & Ho & H). destruct open as [alert|].
  { apply bind_ok in H as (s1 & Hs1 & [= <- <-]). by apply (inv_same_alerts s); [apply (record_delivery_alerts _ _ _ _ _ Hs1)|]. }
  apply bind_ok in H as (s1 & Hs1 & H). apply bind_ok in H as (created & _ & H).
  apply bind_ok in H as (alert & _ & H). apply bind_ok in H as (s2 & Hs2 & [= <- <-]).
  apply (inv_same_alerts s1); [by apply (record_delivery_alerts _ _ _ _ _ Hs2)|].
  apply (insert_alert_inv s tenant r now); [done|done|].
  intros id a Ha Hopen. unfold decode_opt in Ho.
  destruct (newest _) as [b|] eqn:En; [by destruct (decode_alert b)|]. apply newest_None in En.
  assert (a ∈ (@nil AlertEntry)) as Hin; [|by inversion Hin]. rewrite <- En.
  apply elem_of_filterb. split; [apply elem_of_entries; eauto|done].
Qed.
Lemma transact_inv {A} s (r : result PersistenceError (A * AlertStore)) :
  alerts_inv s -> (forall a s', r = Ok (a, s') -> alerts_inv s') -> alerts_inv (transact s r).2.
Proof. intros Hs Hr. unfold transact. destruct r as [[a s']|e]; simpl; [by apply (Hr a)|done]. Qed.
Lemma transition_each_inv tenant ids tr clock s out s' :
  alerts_inv s -> transition_each s tenant ids tr clock = Ok (out, s') -> alerts_inv s'.
Proof.
  revert s out s'. induction ids as [|id ids IH]; intros s out s' Hs; simpl; [by intros [= _ <-]|].
  intros ([o s1] & H1 & ([out' s2] & H2 & [= _ <-])%bind_ok)%bind_ok.
  eapply IH; [|done]. by eapply transition_from_inv.
Qed.

(** The operations on the alert store; between them other components may
    remove alerts, change devices, rules and cooldowns and add outbox rows. *)
Inductive alert_step : AlertStore -> AlertStore -> Prop :=
| step_create s tenant r now : alert_step s (create_or_get_active s tenant r now).2
| step_transition s tenant id tr now : alert_step s (transition s tenant id tr now).2
| step_transition_many s tenant ids tr clock : alert_step s (transition_many s tenant ids tr clock).2
| step_update s tenant id v : alert_step s (update_triggered_value s tenant id v).2
| step_delete s cutoff : alert_step s (delete_all_resolved_before s cutoff).2
| step_other s s' :
    as_alerts s' ⊆ as_alerts s -> as_deliveries s' = as_deliveries s -> as_outbox s ⊆ as_outbox s' ->
    alert_step s s'.
Lemma update_value_inv s tenant id v : alerts_inv s -> alerts_inv (update_triggered_value s tenant id v).2.
Proof.
  intros Hs. unfold update_triggered_value. destruct (row_from s tenant id); [|done].
  apply inv_alter; [done| |done]. intros b t rl d Hb Ho. by left.
Qed.
Lemma alert_step_inv s s' : alert_step s s' -> alerts_inv s -> alerts_inv s'.
Proof.
  intros H Hs. destruct H.
  - apply transact_inv; [done|]. intros a s'. by apply create_in_inv.
  - apply transact_inv; [done|]. intros a s'. by apply transition_from_inv.
  - apply transact_inv; [done|]. intros a s'. by apply transition_each_inv.
  - by apply update_value_inv.
  - apply (inv_fewer s); [|done]. apply map_filter_subseteq.
  - by apply (inv_fewer s).
Qed.

Lemma alert_row_get s tenant id r :
  alert_get_from s tenant id = Ok (Some r)
  <-> exists a, as_alerts s !! id = Some a /\ ae_tenant a = tenant /\ decode_alert a = Ok r.
Proof.
  split; [apply get_from_Some|]. intros (a & Ha & <- & Hd). unfold alert_get_from, row_from. rewrite Ha. simpl.
  rewrite String.eqb_refl. simpl. by rewrite Hd.
Qed.
Lemma transition_updated s tenant id tr now alert s' :
  transition_from s tenant id tr now = Ok (Updated alert, s') ->
  exists a, as_alerts s !! id = Some a /\ ae_tenant a = tenant /\ (tenant, ae_device a) ∈ as_devices s'
    /\ as_alerts s' !! id = Some (apply_transition tr now a)
    /\ decode_alert (apply_transition tr now a) = Ok alert.
Proof.
  unfold transition_from. intros (first & Hf & H)%bind_ok. destruct first as [current|]; [|by simplify_eq].
  destruct (get_from_Some _ _ _ _ Hf) as (a & Ha & Ht & Hd).
  destruct (decode_alert_entry a current Hd) as (_ & _ & Hdev & _ & _).
  case_bool_decide as Hin; cbn [negb] in H; [|by simplify_eq]. destruct (negb _); [by simplify_eq|]. cbv zeta in H.
  match type of H with match ?c with Some _ => _ | None => _ end = _ => destruct c end; [by simplify_eq|].
  apply bind_ok in H as (again & Hag & H). destruct again as [al|]; simplify_eq.
  apply get_from_Some in Hag as (a' & Ha' & _ & Hdec'). exists a. rewrite Hdev in Hin.
  assert (a' = apply_transition tr now a) as ->.
  { destruct (alert_rule current), tr; simpl in Ha'; rewrite lookup_alter_eq, Ha in Ha'; by simplify_eq/=. }
  split_and!; try done; by destruct (alert_rule current), tr.
Qed.

(** ** Receipts *)
Lemma record_delivery_grows s tenant delivery alert s' :
  record_delivery s tenant delivery alert = Ok s' ->
  as_deliveries s ⊆ as_deliveries s' /\ as_deliveries s' !! delivery = Some (tenant, alert).
Proof.
  unfold record_delivery. destruct (as_deliveries s !! delivery) eqn:E; [done|]. case_match; [|done].
  intros [= <-]. simpl. split; [by apply insert_subseteq|apply lookup_insert_eq].
Qed.
Lemma transition_from_receipts s tenant id tr now o s' :
  transition_from s tenant id tr now = Ok (o, s') -> as_deliveries s' = as_deliveries s.
Proof.
  unfold transition_from. intros (first & _ & H)%bind_ok. destruct first as [current|]; [|by simplify_eq].
  destruct (negb (bool_decide _)); [by simplify_eq|]. destruct (negb _); [by simplify_eq|]. cbv zeta in H.
  match type of H with match ?c with Some _ => _ | None => _ end = _ => destruct c end; [by simplify_eq|].
  apply bind_ok in H as (again & _ & H). destruct again; simplify_eq. by repeat case_match.
Qed.
Lemma create_in_receipts s tenant r now o s' :
  create_or_get_in s tenant r now = Ok (o, s') ->
  as_deliveries s ⊆ as_deliveries s' /\ exists alert, as_deliveries s' !! na_id r = Some (tenant, alert).
Proof.
  unfold create_or_get_in. intros (applied & Hf & H)%bind_ok. destruct applied as [alert|].
  { simplify_eq. split; [done|]. unfold find_delivery in Hf.
    destruct (as_deliveries s' !! na_id r) as [[t a]|]; [|done].
    destruct (String.eqb_spec t tenant) as [->|]; [eauto|done]. }
  destruct (negb _); [done|].
  apply bind_ok in H as (existing & _ & H). destruct existing as [alert|].
  { apply bind_ok in H as (s1 & Hs1%record_delivery_grows & [= <- <-]). naive_solver. }
  apply bind_ok in H as (open & _ & H). destruct open as [alert|].
  { apply bind_ok in H as (s1 & Hs1%record_delivery_grows & [= <- <-]). naive_solver. }
  apply bind_ok in H as (s1 & Hs1 & H). apply bind_ok in H as (created & _ & H).
  apply bind_ok in H as (alert & _ & H). apply bind_ok in H as (s2 & [Hsub Hl]%record_delivery_grows & [= <- <-]).
  split; [|eauto]. unfold insert_alert in Hs1. repeat case_match; by simplify_eq.
Qed.
Lemma transition_each_receipts tenant ids tr clock s out s' :
  transition_each s tenant ids tr clock = Ok (out, s') -> as_deliveries s' = as_deliveries s.
Proof.
  revert s out s'. induction ids as [|id ids IH]; intros s out s'; simpl; [by intros [= _ <-]|].
  intros ([o s1] & H1%transition_from_receipts & ([out' s2] & H2%IH & [= _ <-])%bind_ok)%bind_ok. congruence.
Qed.
Lemma alert_step_receipts s s' : alert_step s s' -> as_deliveries s ⊆ as_deliveries s'.
Proof.
  intros H. destruct H; unfold create_or_get_active, transition, transition_many, transact.
  - destruct (create_or_get_in _ _ _ _) as [[o s']|] eqn:E; simpl; [|done]. by apply create_in_receipts in E as [? _].
  - destruct (transition_from _ _ _ _ _) as [[o s']|] eqn:E; simpl; [|done]. by apply transition_from_receipts in E as ->.
  - destruct (transition_each _ _ _ _ _) as [[o s']|] eqn:E; simpl; [|done]. by apply transition_each_receipts in E as ->.
  - unfold update_triggered_value. by case_match.
  - done.
  - by match goal with E : as_deliveries _ = _ |- _ => rewrite E end.
Qed.
Lemma alert_steps_receipts s s' : rtc alert_step s s' -> as_deliveries s ⊆ as_deliveries s'.
Proof. induction 1; [done|]. etrans; [by apply alert_step_receipts|done]. Qed.
Lemma receipt_idle s tenant r now alert :
  as_deliveries s !! na_id r = Some (tenant, alert) -> (create_or_get_active s tenant r now).2 = s.
Proof.
  intros H. unfold create_or_get_active, create_or_get_in, find_delivery. rewrite H, String.eqb_refl.
  destruct (alert_get_from s tenant alert); done.
Qed.

Lemma resolve_again s tenant id now s1 now' :
  resolve_for_action s tenant id now = (Ok tt, s1) ->
  exists message, resolve_for_action s1 tenant id now' = (Err (InvalidOperation message), s1).
Proof.
  intros H. unfold resolve_for_action, persisted, transition, transact in *.
  destruct (transition_from s tenant id Resolve now) as [[out s']|e] eqn:E; [|done]. simpl in H.
  destruct out as [| | |alert]; simplify_eq.
  apply transition_updated in E as (a & Ha & Ht & Hd & Hl & Hdec).
  unfold transition_from. rewrite (proj2 (alert_row_get _ _ _ _)) by eauto. simpl.
  destruct (decode_alert_entry _ _ Hdec) as (_ & _ & Hdev & Hst & _).
  rewrite Hdev, Hst. simpl. rewrite bool_decide_true by done. simpl. eauto.
Qed.

(** C20. One open alert per rule and device: whatever sequence of deliveries,
    transitions (single or bulk), value updates, retention and removals runs
    on the alert store, a rule has at most one active or acknowledged alert
    for a device of a tenant. *)
Theorem one_open_alert s s' id1 id2 a1 a2 tenant rule device :
  alerts_inv s -> rtc alert_step s s' ->
  as_alerts s' !! id1 = Some a1 -> as_alerts s' !! id2 = Some a2 ->
  open_for tenant rule device a1 = true -> open_for tenant rule device a2 = true -> id1 = id2.
Proof.
  intros Hinv Hsteps. assert (alerts_inv s') as Hinv'.
  { induction Hsteps as [|x y z Hxy _ IH]; [done|]. by apply IH, (alert_step_inv x). }
  apply (ai_one _ Hinv').
Qed.

(** An alert is created at most once per delivered action: after a
    creation for a delivery id has succeeded, delivering the same id again
    changes nothing, however often the alert has been acknowledged, resolved,
    reactivated or removed by retention in between. *)
Theorem alert_delivered_once s tenant r now o s1 s2 r' now' :
  create_or_get_active s tenant r now = (Ok o, s1) -> rtc alert_step s1 s2 -> na_id r' = na_id r ->
  (create_or_get_active s2 tenant r' now').2 = s2.
Proof.
  intros Hc Hsteps Hid. unfold create_or_get_active, transact in Hc.
  destruct (create_or_get_in s tenant r now) as [[o' s1']|e] eqn:E; simplify_eq.
  apply create_in_receipts in E as [_ [alert Ha]]. apply (receipt_idle _ _ _ _ alert). rewrite Hid.
  eapply lookup_weaken; [done|]. by apply alert_steps_receipts.
Qed.

(** A resolution is not idempotent: an alert that an action has resolved
    refuses the same action when it is delivered again, without effect, so a
    redelivery after a lost acknowledgement fails on every attempt. *)
Theorem resolve_redelivery_refused s tenant id now s1 now' :
  resolve_for_action s tenant id now = (Ok tt, s1) ->
  exists message, resolve_for_action s1 tenant id now' = (Err (InvalidOperation message), s1).
Proof. apply resolve_again. Qed.
End steps.

(** ** Retention *)
(** The cooldowns an evaluation loads from the rows. *)
Definition loaded_cooldowns (s : AlertStore) : gmap RuleDeviceKey NaiveDateTime := (fun v => v * 1000) <$> as_cooldowns s.
Lemma elapsed_day now t v :
  v < timestamp_micros (now - DAY) -> now <= t -> 86400 <= elapsed_seconds t (v * 1000).
Proof.
  unfold timestamp_micros, elapsed_seconds, DAY. intros Hv Ht.
  assert (v * 1000 < now - 86400 * 1000000000) by (pose proof (Z.mul_div_le (now - 86400 * 1000000000) 1000); lia).
  rewrite Z.quot_div_nonneg by lia. apply Z.div_le_lower_bound; lia.
Qed.
Lemma prune_ok try_days before s days now counts s' :
  prune try_days before s days now = (Ok counts, s') ->
  exists age cutoff cooldown_cutoff,
    try_days days = Some age /\ before now age = Some cutoff /\ before now DAY = Some cooldown_cutoff
    /\ s' = (delete_stale_cooldowns (delete_all_resolved_before s (timestamp_micros cutoff)).2 cooldown_cutoff).2.
Proof.
  unfold prune. destruct (if days <=? Int.i64_max then try_days days else None) as [age|] eqn:Ea; [|done].
  destruct (before now age) as [cutoff|] eqn:Ec; [|done]. destruct (before now DAY) as [cc|] eqn:Ed; [|done].
  simpl. intros [= _ <-]. exists age, cutoff, cc. split_and!; try done. by destruct (days <=? Int.i64_max).
Qed.

(** Retention is invisible to the rules: pruning removes only alerts
    resolved before the cutoff, and although it deletes cooldown rows, every
    rule with a cooldown of at most 86400 seconds (the limit on rules) is at
    any later time in cooldown exactly when it was before pruning. *)
Theorem prune_preserves_cooldowns try_days before s days now counts s' c c' :
  (forall age cutoff, before now age = Some cutoff -> cutoff = now - age) ->
  prune try_days before s days now = (Ok counts, s') ->
  cooldowns c = loaded_cooldowns s -> cooldowns c' = loaded_cooldowns s' ->
  (forall id a, as_alerts s !! id = Some a -> ae_status a <> "resolved" -> as_alerts s' !! id = Some a)
  /\ as_alerts s' ⊆ as_alerts s
  /\ forall tenant rule device cooldown t, cooldown <= 86400 -> now <= t ->
       is_in_cooldown_for_tenant_at c' tenant rule device cooldown t
       = is_in_cooldown_for_tenant_at c tenant rule device cooldown t.
Proof.
  intros Hsub (age & cutoff & cc & _ & _ & Hcc%Hsub & ->)%prune_ok Hc Hc'. split_and!.
  - intros id a Ha Hs. simpl. apply map_lookup_filter_Some. split; [done|]. simpl. unfold expired.
    by destruct (String.eqb_spec (ae_status a) "resolved").
  - apply map_filter_subseteq.
  - intros tenant rule device cooldown t Hmax Ht. unfold is_in_cooldown_for_tenant_at. rewrite Hc, Hc'.
    destruct (cooldown <=? 0); [done|]. unfold loaded_cooldowns. simpl. rewrite !lookup_fmap, map_lookup_filter.
    destruct (as_cooldowns s !! (tenant, rule, device)) as [v|]; [|done]. simpl.
    destruct (Z.ltb_spec v (timestamp_micros cc)) as [Hv|Hv]; [|done]. simpl. subst cc.
    symmetry. apply Z.ltb_ge. pose proof (elapsed_day now t v Hv Ht). lia.
Qed.

(** ** A concrete store *)
Definition demo_alerts : AlertStore :=
  {| as_alerts := ∅; as_deliveries := ∅; as_devices := {[("default", "dev-1")]};
     as_rules := {[("default", "rule-1")]}; as_outbox := {["ev-1"; "ev-2"]}; as_cooldowns := ∅ |}.
Definition demo_alert (delivery : string) : NewRuleAlertRecord :=
  {| na_id := delivery; na_rule := "rule-1"; na_device := "dev-1"; na_severity := "warning";
     na_message := "too hot"; na_value := Some "31" |}.
Definition demo_create (s : AlertStore) (delivery : string) (now : Z) :=
  create_or_get_active (H := demo_micros) s "default" (demo_alert delivery) now.
Definition demo_resolved : AlertStore :=
  (transition (H := demo_micros) (demo_create demo_alerts "ev-1" 10).2 "default" "ev-1" Resolve 20).2.
Lemma demo_alerts_inv : alerts_inv demo_alerts.
Proof. split; simpl; intros *; by rewrite lookup_empty. Qed.
(** Two deliveries share the alert of the first. *)
Lemma one_open_alert_witness :
  as_alerts (demo_create (demo_create demo_alerts "ev-1" 10).2 "ev-2" 12).2 !! "ev-2" = None
  /\ "ev-1" = "ev-1".
Proof.
  split; [vm_compute; reflexivity|].
  apply (one_open_alert (micros := demo_micros) demo_alerts
    (demo_create (demo_create demo_alerts "ev-1" 10).2 "ev-2" 12).2 "ev-1" "ev-1"
    (new_entry "default" (demo_alert "ev-1") 10) (new_entry "default" (demo_alert "ev-1") 10)
    "default" "rule-1" "dev-1").
  - exact demo_alerts_inv.
  - eapply rtc_l; [apply (step_create (micros := demo_micros))|].
    eapply rtc_l; [apply (step_create (micros := demo_micros))|apply rtc_refl].
  - vm_compute. reflexivity.
  - vm_compute. reflexivity.
  - vm_compute. reflexivity.
  - vm_compute. reflexivity.
Defined.
(** The alert was resolved in between: the second delivery leaves it so. *)
Lemma alert_delivered_once_witness :
  (demo_create demo_resolved "ev-1" 30).2 = demo_resolved.
Proof.
  apply (alert_delivered_once (micros := demo_micros) demo_alerts "default" (demo_alert "ev-1") 10
    (match (demo_create demo_alerts "ev-1" 10).1 with Ok o => o | Err _ => None end)
    (demo_create demo_alerts "ev-1" 10).2 demo_resolved (demo_alert "ev-1") 30).
  - vm_compute. reflexivity.
  - eapply rtc_l; [apply (step_transition (micros := demo_micros))|apply rtc_refl].
  - reflexivity.
Defined.
Lemma resolve_redelivery_refused_witness :
  exists message, resolve_for_action (H := demo_micros) demo_resolved "default" "ev-1" 40
    = (Err (InvalidOperation message), demo_resolved).
Proof.
  apply (resolve_redelivery_refused (micros := demo_micros) (demo_create demo_alerts "ev-1" 10).2 "default" "ev-1" 20).
  vm_compute. reflexivity.
Defined.
(** A cooldown row two days old goes; the rule is out of cooldown either way. *)
Definition demo_old : AlertStore :=
  with_cooldowns demo_alerts {[("default", "rule-1", "dev-1") := 1000000]}.
Definition demo_cooldowns (s : AlertStore) : RuleCache :=
  {| definitions := definitions cache_default; rule_allowlist := None; active_alerts := ∅;
     cooldowns := loaded_cooldowns s; zone_entry_times := ∅; version := 0 |}.
Definition demo_prune : result ApplicationError (nat * nat) * AlertStore :=
  prune (fun d => Some (d * DAY)) (fun now age => Some (now - age)) demo_old 30 (2 * DAY).
Lemma prune_preserves_cooldowns_witness :
  demo_prune.1 = Ok (0%nat, 1%nat)
  /\ is_in_cooldown_for_tenant_at (demo_cooldowns demo_prune.2) "default" "rule-1" "dev-1" 3600 (2 * DAY)
     = is_in_cooldown_for_tenant_at (demo_cooldowns demo_old) "default" "rule-1" "dev-1" 3600 (2 * DAY).
Proof.
  split; [vm_compute; reflexivity|].
  apply (prune_preserves_cooldowns (fun d => Some (d * DAY)) (fun now age => Some (now - age)) demo_old 30 (2 * DAY)
    (0%nat, 1%nat) demo_prune.2); try reflexivity; try lia.
  intros age cutoff [= <-]. reflexivity.
Defined.
