(* ===== verification/Outbox.v ===== *)
(** * The rule-action outbox (crates/backend-core/src/outbox.rs,
    rule_actions.rs, application/outbox.rs, crates/backend-turso/src/outbox.rs)

    Actions are written in the ingress transaction and delivered later:
    workers claim rows under a lease with a fresh token, deliver, and mark
    them; failures are retried with a delay and end as dead letters, which an
    administrator may replay. *)
From S2P Require Import Prelude Text BTree Json Errors Access RuleTypes RuleSnapshot Shadows.
From stdpp Require Import sorting.

Local Open Scope Z_scope.

(** ** Records *)
Record OutboxEventRecord := {
  claim_token : option string; ev_id : string; ev_tenant : string; ev_type : string;
  ev_aggregate_type : string; ev_aggregate_id : string; ev_payload : value;
  ev_attempts : Z; (* i32 *) ev_max_attempts : Z; (* i32 *) ev_last_error : option string;
  ev_created_at : NaiveDateTime; ev_updated_at : NaiveDateTime;
}.
Record NewOutboxEventRecord := {
  ne_id : string; ne_tenant : string; ne_type : string; ne_aggregate_type : string;
  ne_aggregate_id : string; ne_idempotency_key : option string; ne_payload : value;
}.
Inductive FailureClass := Retryable | Permanent.
#[global] Instance FailureClass_eq_dec : EqDecision FailureClass.
Proof. solve_decision. Defined.
(** [failure_disposition]: the next status and the delay in seconds. *)
Definition failure_disposition (attempts max_attempts : Z) (failure : FailureClass) : string * Z :=
  let terminal := bool_decide (failure = Permanent) || (max_attempts <=? attempts) in
  (if terminal then "dead_letter" else "failed",
   Z.min (2 ^ Z.max 1 (Z.min 8 attempts)) 300).

(** ** Actions as events

    The derived serializers of an action, the text of its JSON parts and
    SHA-256 are operations of an [ActionCodec]. *)
Class ActionCodec := {
  action_to_value : PendingAction -> result string value;
  action_from_value : value -> result string PendingAction;
  headers_json : gmap string string -> string;
  value_json : value -> string;
  stable_hash : string -> string;
}.
Definition event_type_for_action (a : PendingAction) : string :=
  match a with
  | CreateAlert _ _ _ _ _ _ => "rule.create_alert"
  | UpdateAlertValue _ _ _ => "rule.update_alert_value"
  | ResolveAlert _ _ => "rule.resolve_alert"
  | SendWebhook _ _ _ _ => "rule.send_webhook"
  | SendCommand _ _ _ _ => "rule.send_command"
  | UpdateCooldown _ _ _ _ => "rule.update_cooldown"
  | UpdateZoneEntry _ _ _ _ => "rule.update_zone_entry"
  end.
Definition aggregate_type_for_action (a : PendingAction) : string :=
  match a with
  | CreateAlert _ _ _ _ _ _ | UpdateAlertValue _ _ _ | ResolveAlert _ _ => "alert"
  | SendWebhook _ _ _ _ => "webhook"
  | SendCommand _ _ _ _ => "command"
  | UpdateCooldown _ _ _ _ => "rule_cooldown"
  | UpdateZoneEntry _ _ _ _ => "zone_entry"
  end.
Definition aggregate_id_for_action (a : PendingAction) : string :=
  match a with
  | CreateAlert _ rule device _ _ _ | UpdateCooldown _ rule device _ | UpdateZoneEntry _ rule device _ =>
    rule +:+ ":" +:+ device
  | UpdateAlertValue _ alert _ | ResolveAlert _ alert => alert
  | SendWebhook _ url _ _ => url
  | SendCommand _ device command _ => device +:+ ":" +:+ command
  end.
Definition runtime_state (a : PendingAction) : bool :=
  match a with UpdateZoneEntry _ _ _ _ | UpdateCooldown _ _ _ _ => true | _ => false end.
Section actions.
Context `{!ActionCodec}.
Definition idempotency_key_for_action (a : PendingAction) : string :=
  match a with
  | CreateAlert _ rule device _ _ _ => "create-alert:" +:+ rule +:+ ":" +:+ device
  | UpdateAlertValue _ alert v => "update-alert-value:" +:+ alert +:+ ":" +:+ stable_hash v
  | ResolveAlert _ alert => "resolve-alert:" +:+ alert
  | SendWebhook _ url headers payload =>
    "webhook:" +:+ url +:+ ":" +:+ stable_hash (headers_json headers) +:+ ":" +:+ stable_hash (value_json payload)
  | SendCommand _ device command params =>
    "send-command:" +:+ device +:+ ":" +:+ command +:+ ":" +:+ stable_hash (value_json params)
  | UpdateCooldown _ rule device _ => "update-cooldown:" +:+ rule +:+ ":" +:+ device
  | UpdateZoneEntry _ rule device _ => "update-zone-entry:" +:+ rule +:+ ":" +:+ device
  end.
Definition outbox_event_for_action (uuid : string) (a : PendingAction) : result string NewOutboxEventRecord :=
  if runtime_state a then Err "runtime state is not a deliverable action" else
  v ← action_to_value a;
  Ok {| ne_id := uuid; ne_tenant := action_tenant a; ne_type := event_type_for_action a;
        ne_aggregate_type := aggregate_type_for_action a; ne_aggregate_id := aggregate_id_for_action a;
        ne_idempotency_key := Some (idempotency_key_for_action a);
        ne_payload := object [("version", of_int 1); ("action", v)] |}.
Definition decode_event (e : OutboxEventRecord) : result ApplicationError PendingAction :=
  if negb (bool_decide ((get "version" (ev_payload e) ≫= as_u64) = Some 1))
  then Err (InvalidOperation "rule-action envelope requires version 1") else
  payload ← ok_or (get "action" (ev_payload e)) (InvalidOperation "rule-action envelope has no action");
  a ← map_err (fun m => InvalidOperation ("invalid persisted rule action: " +:+ m)) (action_from_value payload);
  if runtime_state a then Err (InvalidOperation "runtime state is not a deliverable action") else
  if (action_tenant a !=s ev_tenant e) || (event_type_for_action a !=s ev_type e)
  then Err (InvalidOperation "persisted rule-action metadata does not match its payload")
  else Ok a.
End actions.

(** ** The table

    [rule_action_outbox] by primary key, with its partial unique index on
    (tenant, event type, idempotency key) of the active rows. *)
Record OutboxRow := {
  ob_id : string; ob_tenant : string; ob_type : string; ob_aggregate_type : string; ob_aggregate_id : string;
  ob_key : option string; ob_payload : string; ob_status : string; ob_attempts : Z; ob_max_attempts : Z;
  ob_available_at : Z; ob_locked_at : option Z; ob_locked_by : option string; ob_last_error : option string;
  ob_created_at : Z; ob_updated_at : Z;
}.
Abbreviation OutboxTable := (gmap string OutboxRow) (only parsing).
Definition active_status (status : string) : bool :=
  (status =s? "pending") || (status =s? "processing") || (status =s? "failed").
Definition active_key (r : OutboxRow) : option (string * string * string) :=
  if active_status (ob_status r) then (fun k => (ob_tenant r, ob_type r, k)) <$> ob_key r else None.
Definition table_rows (t : OutboxTable) : list OutboxRow := (map_to_list t).*2.
Definition keys_clash (a b : OutboxRow) : bool :=
  bool_decide (is_Some (active_key a)) && bool_decide (active_key a = active_key b) && (ob_id a !=s ob_id b).
Definition unique_active (t : OutboxTable) : bool :=
  forallb (fun a => forallb (fun b => negb (keys_clash a b)) (table_rows t)) (table_rows t).
(** UPDATE of status, attempts, availability, lock and error. *)
Definition set_row (r : OutboxRow) (status : string) (attempts available : Z) (locked : option (Z * string))
    (error : option string) (now : Z) : OutboxRow :=
  {| ob_id := ob_id r; ob_tenant := ob_tenant r; ob_type := ob_type r; ob_aggregate_type := ob_aggregate_type r;
     ob_aggregate_id := ob_aggregate_id r; ob_key := ob_key r; ob_payload := ob_payload r; ob_status := status;
     ob_attempts := attempts; ob_max_attempts := ob_max_attempts r; ob_available_at := available;
     ob_locked_at := fst <$> locked; ob_locked_by := snd <$> locked; ob_last_error := error;
     ob_created_at := ob_created_at r; ob_updated_at := now |}.

(** ** Claims *)
(** locked_at <= cutoff. *)
Definition lease_expired (cutoff : Z) (r : OutboxRow) : bool :=
  match ob_locked_at r with Some at_ => at_ <=? cutoff | None => false end.
Definition exhausted (cutoff : Z) (r : OutboxRow) : bool :=
  (ob_status r =s? "processing") && lease_expired cutoff r && (ob_max_attempts r <=? ob_attempts r).
Definition expire (cutoff now : Z) (r : OutboxRow) : OutboxRow :=
  if exhausted cutoff r
  then set_row r "dead_letter" (ob_attempts r) (ob_available_at r) None
         (Some "delivery lease expired after final attempt") now
  else r.
Definition eligible (now cutoff : Z) (r : OutboxRow) : bool :=
  (ob_attempts r <? ob_max_attempts r)
  && ((((ob_status r =s? "pending") || (ob_status r =s? "failed")) && (ob_available_at r <=? now))
      || ((ob_status r =s? "processing") && lease_expired cutoff r)).
(** ORDER BY available_at, created_at, id. *)
Definition key_compare (a b : OutboxRow) : comparison :=
  match ob_available_at a ?= ob_available_at b with
  | Eq => match ob_created_at a ?= ob_created_at b with
          | Eq => String.compare (ob_id a) (ob_id b)
          | c => c
          end
  | c => c
  end.
Definition key_before (a b : OutboxRow) : bool := match key_compare a b with Lt => true | _ => false end.
(** row_number() OVER (PARTITION BY tenant_id ORDER BY ...), from zero. *)
Definition tenant_rank (l : list OutboxRow) (r : OutboxRow) : nat :=
  length (List.filter (fun x => (ob_tenant x =s? ob_tenant r) && key_before x r) l).
(** ORDER BY tenant_rank, available_at, created_at, id. *)
Definition claim_le (l : list OutboxRow) (a b : OutboxRow) : Prop :=
  (tenant_rank l a < tenant_rank l b)%nat \/ (tenant_rank l a = tenant_rank l b /\ key_compare a b <> Gt).
#[global] Instance claim_le_dec l a b : Decision (claim_le l a b).
Proof. unfold claim_le. apply _. Defined.
Definition sql_limit {A} (limit : Z) (l : list A) : list A :=
  if limit <? 0 then l else take (Z.to_nat limit) l.
Definition claim_order (t : OutboxTable) (now cutoff : Z) : list OutboxRow :=
  let ranked := List.filter (eligible now cutoff) (table_rows t) in
  merge_sort (claim_le ranked) ranked.
Definition claim_row (now : Z) (token : string) (r : OutboxRow) : OutboxRow :=
  set_row r "processing" (ob_attempts r + 1) (ob_available_at r) (Some (now, token)) (ob_last_error r) now.

Section turso.
Context `{!SerdeJson}.
Definition decode_row (r : OutboxRow) : result PersistenceError OutboxEventRecord :=
  payload ← column_json (ob_payload r);
  attempts ← row_i32 (ob_attempts r) "outbox.attempts";
  max_attempts ← row_i32 (ob_max_attempts r) "outbox.max_attempts";
  created ← row_datetime (ob_created_at r);
  updated ← row_datetime (ob_updated_at r);
  Ok {| claim_token := ob_locked_by r; ev_id := ob_id r; ev_tenant := ob_tenant r; ev_type := ob_type r;
        ev_aggregate_type := ob_aggregate_type r; ev_aggregate_id := ob_aggregate_id r; ev_payload := payload;
        ev_attempts := attempts; ev_max_attempts := max_attempts; ev_last_error := ob_last_error r;
        ev_created_at := created; ev_updated_at := updated |}.
Definition by_id (t : OutboxTable) (id : string) : result PersistenceError OutboxEventRecord :=
  r ← ok_or (t !! id) PNotFound; decode_row r.
Fixpoint claim_each (t : OutboxTable) (now : Z) (token : string) (ids : list string)
    : result PersistenceError (list OutboxEventRecord * OutboxTable) :=
  match ids with
  | [] => Ok ([], t)
  | id :: rest =>
    let t1 := alter (claim_row now token) id t in
    e ← by_id t1 id;
    '(es, t2) ← claim_each t1 now token rest;
    Ok (e :: es, t2)
  end.
Definition lease_cutoff (now lease : Z) : Z := Z.max Int.i64_min (now - Z.min lease Int.i64_max).
(** [claim_batch] at [now]; [uuid] is the token's fresh part, [lease] the
    microseconds of the lease. *)
Definition claim_batch (t : OutboxTable) (worker uuid : string) (limit lease now : Z)
    : result PersistenceError (list OutboxEventRecord) * OutboxTable :=
  let token := worker +:+ ":" +:+ uuid in
  let cutoff := lease_cutoff now lease in
  let t1 := expire cutoff now <$> t in
  let ids := map ob_id (sql_limit limit (claim_order t1 now cutoff)) in
  match claim_each t1 now token ids with
  | Ok (events, t2) => (Ok events, t2)
  | Err e => (Err e, t)
  end.
End turso.

(** ** Completion *)
Definition owned (id token : string) (r : OutboxRow) : bool :=
  (ob_id r =s? id) && (ob_status r =s? "processing") && bool_decide (ob_locked_by r = Some token).
(** An UPDATE of the row [id] where [p] holds, and whether it changed one row. *)
Definition update_where (t : OutboxTable) (id : string) (p : OutboxRow -> bool) (f : OutboxRow -> OutboxRow)
    : bool * OutboxTable :=
  match t !! id with
  | Some r => if p r then (true, <[id := f r]> t) else (false, t)
  | None => (false, t)
  end.
Definition mark_succeeded (t : OutboxTable) (id token : string) (now : Z) : bool * OutboxTable :=
  update_where t id (owned id token)
    (fun r => set_row r "succeeded" (ob_attempts r) (ob_available_at r) None None now).
(** [chars().take(n)]. *)
Fixpoint take_chars (n : nat) (s : string) : string :=
  match s with
  | EmptyString => ""
  | String c r =>
    if Text.between 128 191 (code c) then String c (take_chars n r)
    else match n with O => "" | S m => String c (take_chars m r) end
  end.
Definition saturating_add_i64 (a b : Z) : Z := Z.max Int.i64_min (Z.min Int.i64_max (a + b)).
Definition mark_failed (t : OutboxTable) (id token : string) (attempts max_attempts : Z) (failure : FailureClass)
    (error : string) (now : Z) : bool * OutboxTable :=
  let '(status, delay_seconds) := failure_disposition attempts max_attempts failure in
  update_where t id (fun r => owned id token r && (ob_attempts r =? attempts))
    (fun r => set_row r status (ob_attempts r) (saturating_add_i64 now (delay_seconds * 1000000)) None
       (Some (take_chars 2000 error)) now).

(** ** Replay *)
Definition dead_letter_of (tenant : string) (r : OutboxRow) : bool :=
  (ob_tenant r =s? tenant) && (ob_status r =s? "dead_letter").
Definition revive (now : Z) (r : OutboxRow) : OutboxRow := set_row r "pending" 0 now None None now.
(** A statement that would break the unique index fails. *)
Definition checked (t : OutboxTable) : result PersistenceError OutboxTable :=
  if unique_active t then Ok t else Err (UniqueViolation "unique").
Fixpoint replay_each (t : OutboxTable) (tenant : string) (ids : list string) (now : Z)
    : result PersistenceError (nat * OutboxTable) :=
  match ids with
  | [] => Ok (0%nat, t)
  | id :: rest =>
    let '(hit, t1) := update_where t id (dead_letter_of tenant) (revive now) in
    t2 ← checked t1;
    '(n, t3) ← replay_each t2 tenant rest now;
    Ok ((if hit then S n else n), t3)
  end.
Definition replay_all (t : OutboxTable) (tenant : string) (now : Z) : result PersistenceError (nat * OutboxTable) :=
  t1 ← checked ((fun r => if dead_letter_of tenant r then revive now r else r) <$> t);
  Ok (length (List.filter (dead_letter_of tenant) (table_rows t)), t1).
Definition replay_dead_letters (t : OutboxTable) (tenant : string) (event_ids : option (list string)) (now : Z)
    : result PersistenceError nat * OutboxTable :=
  match match event_ids with Some ids => replay_each t tenant ids now | None => replay_all t tenant now end with
  | Ok (n, t') => (Ok n, t')
  | Err e => (Err e, t)
  end.

(** ** Enqueueing *)
Section enqueue.
Context `{!SerdeJson, !ActionCodec}.
Definition new_row (e : NewOutboxEventRecord) (payload : string) (now : Z) : OutboxRow :=
  {| ob_id := ne_id e; ob_tenant := ne_tenant e; ob_type := ne_type e; ob_aggregate_type := ne_aggregate_type e;
     ob_aggregate_id := ne_aggregate_id e; ob_key := ne_idempotency_key e; ob_payload := payload;
     ob_status := "pending"; ob_attempts := 0; ob_max_attempts := 10; ob_available_at := now;
     ob_locked_at := None; ob_locked_by := None; ob_last_error := None; ob_created_at := now;
     ob_updated_at := now |}.
(** INSERT ... ON CONFLICT DO NOTHING: on the id or the unique index. *)
Definition insert_row (t : OutboxTable) (r : OutboxRow) : nat * OutboxTable :=
  match t !! ob_id r with
  | Some _ => (0%nat, t)
  | None => if unique_active (<[ob_id r := r]> t) then (1%nat, <[ob_id r := r]> t) else (0%nat, t)
  end.
(** [enqueue_actions_in_transaction]: an error aborts the caller's transaction. *)
Fixpoint enqueue_actions_in_transaction (t : OutboxTable) (actions : list (string * PendingAction)) (now : Z)
    : result PersistenceError (nat * OutboxTable) :=
  match actions with
  | [] => Ok (0%nat, t)
  | (uuid, a) :: rest =>
    e ← map_err PInternal (outbox_event_for_action uuid a);
    payload ← map_err PInternal (to_string (ne_payload e));
    let '(n, t1) := insert_row t (new_row e payload now) in
    '(m, t2) ← enqueue_actions_in_transaction t1 rest now;
    Ok ((n + m)%nat, t2)
  end.
End enqueue.

(** ** Application services *)
Section application.
Context `{!SerdeJson}.
(** [OutboxApplication::replay]; a [BTreeSet] gives the ids once, in order. *)
Definition distinct (ids : list string) : list string := bt_keys (bt_collect (map (fun i => (i, ())) ids)).
Definition app_replay (t : OutboxTable) (ctx : TenantContext) (event_ids : list string) (all : bool) (now : Z)
    : result ApplicationError nat * OutboxTable :=
  if negb all && bool_decide (event_ids = [])
  then (Err (InvalidInput "provide event_ids or set replay_all to true"), t)
  else if all && negb (bool_decide (event_ids = []))
  then (Err (InvalidInput "event_ids and replay_all are mutually exclusive"), t)
  else match require_permission ctx ManageRules with
  | Err e => (Err e, t)
  | Ok _ =>
    let '(r, t') := replay_dead_letters t (ctx_tenant ctx) (if all then None else Some (distinct event_ids)) now in
    (map_err Persistence r, t')
  end.
(** [OutboxWorkerApplication]; [lease] is a [Duration], in nanoseconds: a lease
    below a microsecond is not zero, and is zero in the store. *)
Definition worker_claim (t : OutboxTable) (worker uuid : string) (limit lease now : Z)
    : result ApplicationError (list OutboxEventRecord) * OutboxTable :=
  if str_is_empty worker || (limit <=? 0) || (lease =? 0) || (Int.i64_max <? lease / 1000)
  then (Err (InvalidInput "outbox claims require a worker label, positive batch size, and representable positive lease"), t)
  else match claim_batch t worker uuid limit (lease / 1000) now with
  | (Err e, t') => (Err (Persistence e), t')
  | (Ok events, t') =>
    (if existsb (fun e => match claim_token e with Some token => str_is_empty token | None => true end) events
     then Err (Internal "claimed outbox event has no lease token") else Ok events, t')
  end.
Definition succeeded (t : OutboxTable) (e : OutboxEventRecord) (now : Z) : result ApplicationError bool * OutboxTable :=
  match claim_token e with
  | None => (Err (Internal "event is not claimed"), t)
  | Some token => let '(b, t') := mark_succeeded t (ev_id e) token now in (Ok b, t')
  end.
Definition failed (t : OutboxTable) (e : OutboxEventRecord) (failure : FailureClass) (error : string) (now : Z)
    : result ApplicationError bool * OutboxTable :=
  match claim_token e with
  | None => (Err (Internal "event is not claimed"), t)
  | Some token =>
    let '(b, t') := mark_failed t (ev_id e) token (ev_attempts e) (ev_max_attempts e) failure error now in (Ok b, t')
  end.
End application.

(** ** The order of claims *)
Lemma key_compare_antisym a b : key_compare a b = CompOpp (key_compare b a).
Proof.
  unfold key_compare. rewrite (Z.compare_antisym (ob_available_at b)), (Z.compare_antisym (ob_created_at b)).
  rewrite (String.compare_antisym (ob_id a)).
  by destruct (ob_available_at b ?= ob_available_at a), (ob_created_at b ?= ob_created_at a).
Qed.
Lemma key_compare_lt a b :
  key_compare a b = Lt
  <-> ob_available_at a < ob_available_at b
      \/ (ob_available_at a = ob_available_at b
          /\ (ob_created_at a < ob_created_at b
              \/ (ob_created_at a = ob_created_at b /\ str_lt (ob_id a) (ob_id b)))).
Proof.
  unfold key_compare, str_lt.
  destruct (Z.compare_spec (ob_available_at a) (ob_available_at b)); [|split; [auto|done]|split; [done|lia]].
  destruct (Z.compare_spec (ob_created_at a) (ob_created_at b)); [|split; [auto|done]|split; [done|lia]].
  split; [auto|]. intros [?|[_ [?|[_ ?]]]]; [lia|lia|done].
Qed.
Lemma key_compare_trans a b c : key_compare a b = Lt -> key_compare b c = Lt -> key_compare a c = Lt.
Proof.
  rewrite !key_compare_lt. intros H1 H2.
  destruct H1 as [?|[? [?|[? ?]]]], H2 as [?|[? [?|[? ?]]]]; try lia.
  right. split; [lia|]. right. split; [lia|]. by eapply str_lt_trans.
Qed.
Lemma key_compare_eq_r a b c : key_compare a b = Eq -> key_compare c a = key_compare c b.
Proof.
  unfold key_compare. destruct (Z.compare_spec (ob_available_at a) (ob_available_at b)) as [E1| |]; try done.
  destruct (Z.compare_spec (ob_created_at a) (ob_created_at b)) as [E2| |]; try done.
  intros E3%String.compare_eq_iff. by rewrite E1, E2, E3.
Qed.
Lemma key_le_trans a b c : key_compare a b <> Gt -> key_compare b c <> Gt -> key_compare a c <> Gt.
Proof.
  intros H1 H2. destruct (key_compare b c) eqn:E2; [|clear H2|done].
  - by rewrite <- (key_compare_eq_r b c a).
  - destruct (key_compare a b) eqn:E1; [|by rewrite (key_compare_trans a b c)|done].
    apply (f_equal CompOpp) in E1. rewrite <- key_compare_antisym in E1. simpl in E1.
    rewrite key_compare_antisym, <- (key_compare_eq_r b a c E1), <- key_compare_antisym. by rewrite E2.
Qed.
#[global] Instance claim_le_trans l : Transitive (claim_le l).
Proof.
  intros a b c [H1|[H1 K1]] [H2|[H2 K2]]; [left; lia..|]. right. split; [lia|]. by eapply key_le_trans.
Qed.
#[global] Instance claim_le_total l : Total (claim_le l).
Proof.
  intros a b. unfold claim_le. destruct (Nat.lt_trichotomy (tenant_rank l a) (tenant_rank l b)) as [?|[E|?]]; [auto| |auto].
  rewrite (key_compare_antisym b a). destruct (key_compare a b) eqn:K; simpl; [left|left|right]; right; by split.
Qed.

(** ** What a claim takes *)
Definition keyed_table (t : OutboxTable) : Prop := forall id r, t !! id = Some r -> ob_id r = id.
(** The rows a claim at [now] may take. *)
Definition claimable (t : OutboxTable) (now cutoff : Z) : list OutboxRow :=
  List.filter (eligible now cutoff) (table_rows (expire cutoff now <$> t)).
Lemma elem_of_rows t r : r ∈ table_rows t <-> exists id, t !! id = Some r.
Proof.
  unfold table_rows. rewrite list_elem_of_fmap. setoid_rewrite <- elem_of_map_to_list. split.
  - intros ([id b] & -> & H). eauto.
  - intros [id H]. by exists (id, r).
Qed.
Lemma keyed_fmap f t : (forall r, ob_id (f r) = ob_id r) -> keyed_table t -> keyed_table (f <$> t).
Proof. intros Hf Ht id r. rewrite lookup_fmap. intros (x & Hx & ->)%fmap_Some. rewrite Hf. auto. Qed.
Lemma keyed_alter f id t : (forall r, ob_id (f r) = ob_id r) -> keyed_table t -> keyed_table (alter f id t).
Proof.
  intros Hf Ht i r. rewrite lookup_alter. case_decide; subst; [|apply Ht].
  intros (x & Hx & ->)%fmap_Some. rewrite Hf. auto.
Qed.
Lemma keyed_ids t : keyed_table t -> map ob_id (table_rows t) = (map_to_list t).*1.
Proof.
  intros Ht. unfold table_rows. rewrite <- list_fmap_compose. apply list_fmap_ext.
  intros i [id r] H%list_elem_of_lookup_2%elem_of_map_to_list. simpl. auto.
Qed.
Lemma expire_id cutoff now r : ob_id (expire cutoff now r) = ob_id r.
Proof. unfold expire. by case_match. Qed.
Lemma exhausted_not_eligible now cutoff r : exhausted cutoff r = true -> eligible now cutoff r = false.
Proof. unfold exhausted, eligible. intros H. bool_prop. left. apply Z.ltb_ge. lia. Qed.
Lemma eligible_expire now cutoff r : eligible now cutoff (expire cutoff now r) = eligible now cutoff r.
Proof.
  unfold expire. destruct (exhausted cutoff r) eqn:E; [|done]. rewrite (exhausted_not_eligible now cutoff r E).
  unfold eligible, set_row. simpl. by rewrite andb_false_r.
Qed.
Lemma claimable_spec t now cutoff r :
  r ∈ claimable t now cutoff <-> eligible now cutoff r = true /\ exists id, t !! id = Some r.
Proof.
  unfold claimable. rewrite elem_of_filterb, elem_of_rows. split.
  - intros [[id Hid] He]. rewrite lookup_fmap in Hid. apply fmap_Some in Hid as (x & Hx & ->).
    rewrite eligible_expire in He. unfold expire in *.
    destruct (exhausted cutoff x) eqn:Ex; [by rewrite (exhausted_not_eligible now cutoff x) in He|eauto].
  - intros [He [id Hid]]. split; [|done]. exists id. rewrite lookup_fmap, Hid. simpl. unfold expire.
    destruct (exhausted cutoff r) eqn:Ex; [by rewrite (exhausted_not_eligible now cutoff r) in He|done].
Qed.
Lemma take_elem {A} n (l : list A) x : x ∈ take n l -> x ∈ l.
Proof. intros (i & Hi & _)%elem_of_take. by eapply list_elem_of_lookup_2. Qed.
Section claims.
Context {codec : SerdeJson}.
Lemma decode_row_fields r e : decode_row r = Ok e ->
  ev_id e = ob_id r /\ claim_token e = ob_locked_by r /\ ev_attempts e = ob_attempts r
  /\ ev_max_attempts e = ob_max_attempts r /\ ev_tenant e = ob_tenant r /\ ev_type e = ob_type r.
Proof.
  unfold decode_row. intros (p & _ & H)%bind_ok. apply bind_ok in H as (a & Ha & H).
  apply bind_ok in H as (m & Hm & H). apply bind_ok in H as (c & _ & H). apply bind_ok in H as (u & _ & [= <-]).
  unfold row_i32 in Ha, Hm. repeat case_match; simplify_eq. done.
Qed.
Lemma claim_each_spec now token ids t es t' :
  keyed_table t -> NoDup ids -> claim_each t now token ids = Ok (es, t') ->
  map ev_id es = ids
  /\ (forall id, t' !! id = if bool_decide (id ∈ ids) then claim_row now token <$> t !! id else t !! id)
  /\ (forall e, e ∈ es -> exists r, t !! ev_id e = Some r /\ decode_row (claim_row now token r) = Ok e).
Proof.
  revert t es t'. induction ids as [|id ids IH]; intros t es t' Ht Hnd; simpl.
  - intros [= <- <-]. split_and!; [done|done|set_solver].
  - apply NoDup_cons in Hnd as [Hid Hnd].
    intros (e & He & ([es' t2] & Hc & [= <- <-])%bind_ok)%bind_ok.
    unfold by_id in He. rewrite lookup_alter_eq in He. apply bind_ok in He as (r' & Hr'%ok_or_ok & He).
    apply fmap_Some in Hr' as (r & Hr & ->).
    apply IH in Hc as (Hids & Hlook & Hes); [|by apply keyed_alter|done].
    assert (ev_id e = id) as Eid.
    { destruct (decode_row_fields _ _ He) as [-> _]. simpl. by apply Ht. }
    split_and!.
    + simpl. by rewrite Eid, Hids.
    + intros i. rewrite Hlook. destruct (decide (i = id)) as [->|Hne].
      * rewrite (bool_decide_false (id ∈ ids)), (bool_decide_true (id ∈ id :: ids)) by set_solver.
        apply lookup_alter_eq.
      * rewrite lookup_alter_ne by done.
        by rewrite (bool_decide_ext (i ∈ id :: ids) (i ∈ ids)) by set_solver.
    + intros x [->|Hx]%elem_of_cons; [rewrite Eid; eauto|].
      destruct (Hes x Hx) as (rx & Hrx & Hdx). exists rx. split; [|done].
      rewrite lookup_alter_ne in Hrx; [done|]. intros ->. apply Hid. rewrite <- Hids.
      apply list_elem_of_fmap. eauto.
Qed.
Lemma claim_order_sorted t now cutoff :
  let ranked := List.filter (eligible now cutoff) (table_rows t) in
  StronglySorted (claim_le ranked) (claim_order t now cutoff) /\ claim_order t now cutoff ≡ₚ ranked.
Proof using.
  intros ranked. split; [apply StronglySorted_merge_sort; apply _|apply merge_sort_Permutation].
Qed.
Lemma sorted_take {A} (R : A -> A -> Prop) (l : list A) n x y :
  StronglySorted R l -> x ∈ take n l -> y ∈ l -> ~ R x y -> y ∈ take n l.
Proof using.
  intros Hs Hx Hy HR. rewrite <- (take_drop n l) in Hs, Hy. apply elem_of_app in Hy as [|Hy]; [done|].
  destruct HR. by eapply (StronglySorted_app_1_elem_of R).
Qed.
Lemma claim_ids_nodup t now cutoff n :
  keyed_table t -> NoDup (map ob_id (sql_limit n (claim_order t now cutoff))).
Proof using.
  intros Ht. assert (NoDup (map ob_id (claim_order t now cutoff))) as H.
  { destruct (claim_order_sorted t now cutoff) as [_ Hp]. rewrite Hp.
    assert (forall l, NoDup (map ob_id l) -> NoDup (map ob_id (List.filter (eligible now cutoff) l))) as Hf.
    { intros l. induction l as [|r l IH]; simpl; [done|]. rewrite NoDup_cons. intros [Hr Hl].
      destruct (eligible now cutoff r); [|auto]. simpl. apply NoDup_cons. split; [|auto].
      intros (x & E & Hx)%list_elem_of_fmap. apply Hr. rewrite E. apply list_elem_of_fmap_2.
      by apply elem_of_filterb in Hx as [? _]. }
    apply Hf. rewrite (keyed_ids t Ht). apply NoDup_fst_map_to_list. }
  unfold sql_limit. case_match; [done|]. change (NoDup (ob_id <$> take (Z.to_nat n) (claim_order t now cutoff))).
  rewrite fmap_take. eapply sublist_NoDup; [exact H|]. apply sublist_take.
Qed.
(** What a successful claim returns and writes. *)
Lemma claim_batch_spec t worker uuid limit lease now events t' :
  keyed_table t -> claim_batch t worker uuid limit lease now = (Ok events, t') ->
  let cutoff := lease_cutoff now lease in
  let t1 := expire cutoff now <$> t in
  let ids := map ob_id (sql_limit limit (claim_order t1 now cutoff)) in
  let token := worker +:+ ":" +:+ uuid in
  map ev_id events = ids
  /\ (forall id, t' !! id = if bool_decide (id ∈ ids) then claim_row now token <$> t1 !! id else t1 !! id)
  /\ (forall e, e ∈ events -> exists r, t !! ev_id e = Some r /\ eligible now cutoff r = true
       /\ decode_row (claim_row now token r) = Ok e).
Proof.
  intros Ht Hc cutoff t1 ids token. unfold claim_batch in Hc. fold cutoff token in Hc. cbv zeta in Hc. fold t1 ids in Hc.
  destruct (claim_each t1 now token ids) as [[es t2]|] eqn:E; simplify_eq.
  assert (keyed_table t1) as Ht1 by (apply keyed_fmap; [apply expire_id|done]).
  apply claim_each_spec in E as (Hids & Hlook & Hes); [|done|by apply claim_ids_nodup].
  split_and!; [done|done|]. intros e He. destruct (Hes e He) as (r & Hr & Hd).
  assert (r ∈ claimable t now cutoff) as Hcl.
  { assert (ev_id e ∈ ids) as Hin by (rewrite <- Hids; by apply list_elem_of_fmap_2).
    apply list_elem_of_fmap in Hin as (x & Ex & Hx).
    assert (x ∈ claim_order t1 now cutoff) as Hx'.
    { unfold sql_limit in Hx. case_match; [done|]. by eapply take_elem. }
    rewrite (proj2 (claim_order_sorted t1 now cutoff)) in Hx'.
    assert (x = r) as <-; [|done]. apply elem_of_filterb in Hx' as [Hx' _]. apply elem_of_rows in Hx' as [i Hi].
    rewrite Ex, (Ht1 i x Hi) in Hr. congruence. }
  exists r. apply claimable_spec in Hcl as [He' [i Hi]]. split_and!; try done.
  destruct (decode_row_fields _ _ Hd) as [-> _]. simpl. by rewrite (Ht i r Hi).
Qed.
Lemma order_claimable t now cutoff : claim_order (expire cutoff now <$> t) now cutoff ≡ₚ claimable t now cutoff.
Proof using. apply (proj2 (claim_order_sorted (expire cutoff now <$> t) now cutoff)). Qed.

(** Claims are exact and fair: a claim of at most [limit] events returns
    as many as are eligible up to the limit, each eligible (due, or its lease
    expired, with attempts left), with one more attempt and the claim's token,
    so a row whose lease is still running is never handed out; and tenants
    take turns: when an event is claimed, every eligible event that comes
    earlier among its own tenant's than this one among its tenant's is claimed
    as well. *)
Theorem claim_fair t worker uuid limit lease now events t' :
  keyed_table t -> 0 <= limit -> claim_batch t worker uuid limit lease now = (Ok events, t') ->
  let cutoff := lease_cutoff now lease in
  let waiting := claimable t now cutoff in
  length events = Nat.min (Z.to_nat limit) (length waiting)
  /\ (forall e, e ∈ events -> exists r, t !! ev_id e = Some r /\ r ∈ waiting
       /\ ev_attempts e = ob_attempts r + 1 /\ claim_token e = Some (worker +:+ ":" +:+ uuid)
       /\ (forall r', r' ∈ waiting -> (tenant_rank waiting r' < tenant_rank waiting r)%nat ->
           exists e', e' ∈ events /\ ev_id e' = ob_id r')).
Proof.
  intros Ht Hl Hc cutoff waiting.
  destruct (claim_batch_spec _ _ _ _ _ _ _ _ Ht Hc) as (Hids & _ & Hes). fold cutoff in Hids, Hes.
  set (order := claim_order (expire cutoff now <$> t) now cutoff) in *.
  assert (order ≡ₚ waiting) as Hp by apply order_claimable.
  assert (sql_limit limit order = take (Z.to_nat limit) order) as Hlim
    by (unfold sql_limit; by rewrite (proj2 (Z.ltb_ge limit 0))).
  rewrite Hlim in Hids. split.
  { transitivity (length (map ev_id events)); [by rewrite length_map|].
    by rewrite Hids, length_map, length_take, Hp. }
  intros e He. destruct (Hes e He) as (r & Hr & Hel & Hd). exists r.
  destruct (decode_row_fields _ _ Hd) as (_ & Htok & Hatt & _).
  assert (r ∈ waiting) as Hw by (apply claimable_spec; eauto). split_and!; try done.
  intros r' Hr' Hrank.
  assert (r ∈ take (Z.to_nat limit) order) as Hin.
  { assert (ev_id e ∈ map ob_id (take (Z.to_nat limit) order)) as Hi
      by (rewrite <- Hids; by apply list_elem_of_fmap_2).
    apply list_elem_of_fmap in Hi as (x & Ex & Hx). assert (x = r) as <-; [|done].
    apply take_elem in Hx as Hx'. rewrite Hp in Hx'. apply claimable_spec in Hx' as [_ [i Hi]].
    rewrite Ex, (Ht i x Hi) in Hr. congruence. }
  assert (r' ∈ take (Z.to_nat limit) order) as Hin'.
  { apply (sorted_take (claim_le waiting) order (Z.to_nat limit) r r'); [|done|by rewrite Hp|].
    - apply (proj1 (claim_order_sorted (expire cutoff now <$> t) now cutoff)).
    - intros [H|[H _]]; lia. }
  apply (list_elem_of_fmap_2 ob_id) in Hin'. change (ob_id r' ∈ map ob_id (take (Z.to_nat limit) order)) in Hin'.
  rewrite <- Hids in Hin'. apply list_elem_of_fmap in Hin' as (e' & E' & He'). eauto.
Qed.
End claims.

(** ** Histories

    The table and the events claims have handed out.  Workers only complete
    events they were given, and every claim draws a token not seen before. *)
Record OutboxState := { outbox : OutboxTable; issued : list OutboxEventRecord }.
Inductive outbox_step `{!SerdeJson, !ActionCodec} : OutboxState -> OutboxState -> Prop :=
| step_enqueue t is_ actions now n t' :
    enqueue_actions_in_transaction t actions now = Ok (n, t') ->
    outbox_step {| outbox := t; issued := is_ |} {| outbox := t'; issued := is_ |}
| step_claim t is_ worker uuid limit lease now r t' :
    worker_claim t worker uuid limit lease now = (r, t') ->
    (forall e, e ∈ is_ -> claim_token e <> Some (worker +:+ ":" +:+ uuid)) ->
    outbox_step {| outbox := t; issued := is_ |}
      {| outbox := t'; issued := is_ ++ match r with Ok events => events | Err _ => [] end |}
| step_succeeded t is_ e now :
    e ∈ is_ -> outbox_step {| outbox := t; issued := is_ |} {| outbox := (succeeded t e now).2; issued := is_ |}
| step_failed t is_ e failure error now :
    e ∈ is_ ->
    outbox_step {| outbox := t; issued := is_ |} {| outbox := (failed t e failure error now).2; issued := is_ |}
| step_replay t is_ ctx ids all now :
    outbox_step {| outbox := t; issued := is_ |} {| outbox := (app_replay t ctx ids all now).2; issued := is_ |}.

(** A row in each status: how its attempts and lock stand. *)
Definition row_ok (r : OutboxRow) : Prop :=
  0 <= ob_attempts r <= ob_max_attempts r /\ 0 < ob_max_attempts r
  /\ ( ((ob_status r = "pending" \/ ob_status r = "failed")
        /\ ob_attempts r < ob_max_attempts r /\ ob_locked_at r = None /\ ob_locked_by r = None)
     \/ (ob_status r = "processing" /\ 1 <= ob_attempts r
        /\ is_Some (ob_locked_at r) /\ is_Some (ob_locked_by r))
     \/ ((ob_status r = "succeeded" \/ ob_status r = "dead_letter")
        /\ ob_locked_at r = None /\ ob_locked_by r = None)).
Definition unique_keys (t : OutboxTable) : Prop :=
  forall id1 id2 r1 r2 k, t !! id1 = Some r1 -> t !! id2 = Some r2 ->
    active_key r1 = Some k -> active_key r2 = Some k -> id1 = id2.
Definition holds (t : OutboxTable) (e : OutboxEventRecord) : Prop :=
  exists r token, t !! ev_id e = Some r /\ claim_token e = Some token /\ ob_locked_by r = Some token.
Record outbox_inv (st : OutboxState) : Prop := {
  oi_key : keyed_table (outbox st);
  oi_rows : forall id r, outbox st !! id = Some r -> row_ok r;
  oi_unique : unique_keys (outbox st);
  oi_issued : forall e r, e ∈ issued st -> outbox st !! ev_id e = Some r ->
    ob_max_attempts r = ev_max_attempts e
    /\ (forall token, claim_token e = Some token -> ob_locked_by r = Some token -> ob_attempts r = ev_attempts e);
  oi_tokens : forall e, e ∈ issued st -> is_Some (claim_token e) /\ is_Some (outbox st !! ev_id e);
  oi_locks : forall id r token, outbox st !! id = Some r -> ob_locked_by r = Some token ->
    exists e, e ∈ issued st /\ ev_id e = id /\ claim_token e = Some token;
}.

Lemma unique_active_spec t : keyed_table t -> unique_active t = true <-> unique_keys t.
Proof.
  intros Ht. unfold unique_active, unique_keys. rewrite forallb_elem. setoid_rewrite forallb_elem.
  setoid_rewrite elem_of_rows. split.
  - intros H id1 id2 r1 r2 k H1 H2 K1 K2.
    specialize (H r1 (ex_intro _ id1 H1) r2 (ex_intro _ id2 H2)). unfold keys_clash in H.
    rewrite K1, K2, !bool_decide_true in H by eauto. simpl in H. bool_prop.
    by rewrite (Ht _ _ H1), (Ht _ _ H2) in H.
  - intros H r1 [id1 H1] r2 [id2 H2]. unfold keys_clash. destruct (active_key r1) as [k|] eqn:K1.
    + rewrite bool_decide_true by eauto. simpl. case_bool_decide as E; [|done]. simpl.
      rewrite (Ht _ _ H1), (Ht _ _ H2), negb_involutive. apply String.eqb_eq. by eapply H.
    + by rewrite bool_decide_false by (intros [? ?]; done).
Qed.
(** Rows only lose their key or keep it. *)
Lemma unique_keys_mono t t' :
  (forall id r', t' !! id = Some r' -> active_key r' = None \/ exists r, t !! id = Some r /\ active_key r = active_key r') ->
  unique_keys t -> unique_keys t'.
Proof.
  intros Hm Hu id1 id2 r1 r2 k H1 H2 K1 K2.
  destruct (Hm _ _ H1) as [|(r1' & H1' & E1)]; [congruence|].
  destruct (Hm _ _ H2) as [|(r2' & H2' & E2)]; [congruence|].
  apply (Hu id1 id2 r1' r2' k); congruence.
Qed.
(** A row rewritten in place, its lock kept or released. *)
Definition evolves (r r' : OutboxRow) : Prop :=
  ob_id r' = ob_id r /\ ob_max_attempts r' = ob_max_attempts r /\ (row_ok r -> row_ok r')
  /\ (ob_locked_by r' = None \/ (ob_locked_by r' = ob_locked_by r /\ ob_attempts r' = ob_attempts r)).
Lemma evolves_refl r : evolves r r.
Proof. unfold evolves. naive_solver. Qed.
Lemma inv_evolve t t' is_ :
  (forall id, t !! id = None -> t' !! id = None) ->
  (forall id r, t !! id = Some r -> exists r', t' !! id = Some r' /\ evolves r r') ->
  unique_keys t' ->
  outbox_inv {| outbox := t; issued := is_ |} -> outbox_inv {| outbox := t'; issued := is_ |}.
Proof.
  intros Hnone Hsome Hu [Hk Hr _ Hi Ht Hl].
  assert (forall id r', t' !! id = Some r' -> exists r, t !! id = Some r /\ evolves r r') as Hback.
  { intros id r' Hr'. destruct (t !! id) as [r|] eqn:E; [|rewrite Hnone in Hr' by done; done].
    destruct (Hsome id r E) as (x & Hx & He). simplify_eq. eauto. }
  split; simpl in *.
  - intros id r' (r & Hr' & He & _)%Hback. rewrite He. by apply Hk.
  - intros id r' (r & Hr' & _ & _ & He & _)%Hback. eauto.
  - done.
  - intros e r' He (r & Hr' & _ & Hm & _ & Hlk)%Hback. destruct (Hi e r He Hr') as [Hm' Ha]. split; [congruence|].
    intros token Htok Hb. destruct Hlk as [Hn|[E1 E2]]; [congruence|]. rewrite E2. apply (Ha token); congruence.
  - intros e He. destruct (Ht e He) as [H1 [r H2]]. split; [done|]. destruct (Hsome _ _ H2) as (r' & -> & _). eauto.
  - intros id r' token (r & Hr' & _ & _ & _ & Hlk)%Hback Hb. destruct Hlk as [Hn|[E1 _]]; [congruence|].
    apply (Hl id r token Hr'). congruence.
Qed.
Lemma update_where_inv t is_ id p f :
  (forall r, t !! id = Some r -> p r = true -> row_ok r -> evolves r (f r)) ->
  unique_keys (update_where t id p f).2 ->
  outbox_inv {| outbox := t; issued := is_ |} -> outbox_inv {| outbox := (update_where t id p f).2; issued := is_ |}.
Proof.
  intros Hf Hu Hinv. revert Hu. unfold update_where. destruct (t !! id) as [r|] eqn:E; [|done].
  destruct (p r) eqn:Ep; [|done]. simpl. intros Hu. apply (inv_evolve t); [| |done|done].
  - intros i Hi. rewrite lookup_insert_ne; [done|]. congruence.
  - intros i x Hx. destruct (decide (id = i)) as [<-|Hne].
    + exists (f r). rewrite lookup_insert_eq. simplify_eq. split; [done|]. apply Hf; try done.
      by apply (oi_rows _ Hinv id).
    + exists x. rewrite lookup_insert_ne by done. split; [done|apply evolves_refl].
Qed.
Lemma update_where_unique t id p f :
  (forall r, p r = true -> active_key (f r) = None \/ active_key (f r) = active_key r) ->
  unique_keys t -> unique_keys (update_where t id p f).2.
Proof.
  intros Hf Hu. unfold update_where. destruct (t !! id) as [r|] eqn:E; [|done]. destruct (p r) eqn:Ep; [|done]. simpl.
  apply (unique_keys_mono t); [|done]. intros i x [[<- <-]|[Hne Hx]]%lookup_insert_Some.
  - destruct (Hf r Ep) as [|E']; [by left|]. right. exists r. by rewrite E'.
  - right. eauto.
Qed.
Lemma owned_spec id token r :
  owned id token r = true <-> ob_id r = id /\ ob_status r = "processing" /\ ob_locked_by r = Some token.
Proof. unfold owned. rewrite !andb_true_iff, !String.eqb_eq, bool_decide_eq_true. tauto. Qed.
Lemma processing_key r : ob_status r = "processing" -> active_key r = (fun k => (ob_tenant r, ob_type r, k)) <$> ob_key r.
Proof. intros E. unfold active_key. by rewrite E. Qed.
Lemma succeeded_inv st e now :
  outbox_inv st -> outbox_inv {| outbox := (succeeded (outbox st) e now).2; issued := issued st |}.
Proof.
  destruct st as [t is_]. intros Hinv. unfold succeeded. destruct (claim_token e) as [token|]; [|done]. simpl.
  unfold mark_succeeded. destruct (update_where _ _ _ _) as [b t'] eqn:E. simpl.
  change t' with (b, t').2. rewrite <- E. apply update_where_inv; [| |done].
  - intros r _ (_ & _ & _)%owned_spec Hok. destruct Hok as (Ha & Hm & _). unfold evolves. simpl. split_and!; try done; [|by left].
    intros _. split; [done|]. split; [done|]. right. right. by split; [left|].
  - apply update_where_unique; [|by apply (oi_unique _ Hinv)]. intros r _. by left.
Qed.
Lemma disposition_status attempts max failure :
  (failure_disposition attempts max failure).1 = "dead_letter"
  \/ ((failure_disposition attempts max failure).1 = "failed" /\ attempts < max).
Proof.
  unfold failure_disposition. simpl. destruct (bool_decide (failure = Permanent) || (max <=? attempts)) eqn:E; [by left|].
  right. split; [done|]. apply orb_false_iff in E as [_ E]. by apply Z.leb_gt in E.
Qed.
Lemma failed_inv st e failure error now :
  e ∈ issued st -> outbox_inv st ->
  outbox_inv {| outbox := (failed (outbox st) e failure error now).2; issued := issued st |}.
Proof.
  destruct st as [t is_]. intros He Hinv. unfold failed. destruct (claim_token e) as [token|] eqn:Htok; [|done]. simpl.
  unfold mark_failed. pose proof (disposition_status (ev_attempts e) (ev_max_attempts e) failure) as Hds.
  destruct (failure_disposition _ _ _) as [status delay]. simpl in Hds.
  destruct (update_where _ _ _ _) as [b t'] eqn:E. simpl.
  change t' with (b, t').2. rewrite <- E. apply update_where_inv; [| |done].
  - intros r Hr Hp Hok. apply andb_true_iff in Hp as [(Hid & Hst & Hlk)%owned_spec Hatt%Z.eqb_eq].
    destruct (oi_issued _ Hinv e r He Hr) as [Hmax _]. unfold evolves. simpl. split_and!; try done; [|by left].
    intros _. destruct Hok as (Ha & Hm & _). split; [done|]. split; [done|]. simpl.
    destruct Hds as [->|[-> Hlt]]; [right; right; by split; [right|]|left]. split_and!; try done; [by right|lia].
  - apply update_where_unique; [|by apply (oi_unique _ Hinv)]. intros r Hp.
    apply andb_true_iff in Hp as [(_ & Hst & _)%owned_spec _].
    destruct Hds as [->|[-> _]]; [by left|right]. rewrite (processing_key r Hst). done.
Qed.
Lemma update_where_keyed t id p f :
  (forall r, ob_id (f r) = ob_id r) -> keyed_table t -> keyed_table (update_where t id p f).2.
Proof.
  intros Hf Ht. unfold update_where. destruct (t !! id) as [r|] eqn:E; [|done]. destruct (p r); [|done]. simpl.
  intros i x [[<- <-]|[_ Hx]]%lookup_insert_Some; [rewrite Hf; auto|auto].
Qed.
Lemma checked_ok t t' : checked t = Ok t' <-> unique_active t = true /\ t' = t.
Proof. unfold checked. destruct (unique_active t); naive_solver. Qed.
Lemma revive_evolves tenant now r : dead_letter_of tenant r = true -> row_ok r -> evolves r (revive now r).
Proof.
  intros _ (Ha & Hm & _). unfold evolves. simpl. split_and!; try done; [|by left]. intros _.
  split; [simpl; lia|]. split; [done|]. left. simpl. split_and!; try done. by left.
Qed.
Lemma replay_each_inv tenant ids now t is_ n t' :
  outbox_inv {| outbox := t; issued := is_ |} -> replay_each t tenant ids now = Ok (n, t') ->
  outbox_inv {| outbox := t'; issued := is_ |}.
Proof.
  revert t n t'. induction ids as [|id ids IH]; intros t n t' Hinv; simpl; [by intros [= _ <-]|].
  destruct (update_where t id (dead_letter_of tenant) (revive now)) as [hit t1] eqn:E.
  assert (t1 = (update_where t id (dead_letter_of tenant) (revive now)).2) as -> by (by rewrite E). clear E.
  intros (t2 & [Hu ->]%checked_ok & ([m t3] & H & [= _ <-])%bind_ok)%bind_ok.
  eapply IH; [|done]. apply update_where_inv; [| |done].
  - intros r _ Hp Hok. by apply (revive_evolves tenant).
  - apply unique_active_spec; [|done]. apply update_where_keyed; [done|apply (oi_key _ Hinv)].
Qed.
Lemma replay_all_inv tenant now t is_ n t' :
  outbox_inv {| outbox := t; issued := is_ |} -> replay_all t tenant now = Ok (n, t') ->
  outbox_inv {| outbox := t'; issued := is_ |}.
Proof.
  intros Hinv (t1 & [Hu ->]%checked_ok & [= _ <-])%bind_ok.
  set (f := fun r => if dead_letter_of tenant r then revive now r else r) in *.
  apply (inv_evolve t); [| | |done].
  - intros id Hid. by rewrite lookup_fmap, Hid.
  - intros id r Hr. exists (f r). rewrite lookup_fmap, Hr. split; [done|]. unfold f.
    destruct (dead_letter_of tenant r) eqn:Ed; [|apply evolves_refl].
    apply (revive_evolves tenant); [done|]. by apply (oi_rows _ Hinv id).
  - apply unique_active_spec; [|done]. apply keyed_fmap; [|apply (oi_key _ Hinv)].
    intros r. unfold f. by case_match.
Qed.
Lemma replay_inv st ctx ids all now :
  outbox_inv st -> outbox_inv {| outbox := (app_replay (outbox st) ctx ids all now).2; issued := issued st |}.
Proof.
  destruct st as [t is_]. intros Hinv. unfold app_replay. case_match; [done|]. case_match; [done|].
  destruct (require_permission ctx ManageRules); [|done]. simpl.
  unfold replay_dead_letters. destruct all.
  - destruct (replay_all t (ctx_tenant ctx) now) as [[n t']|] eqn:E; simpl; [|done]. by eapply replay_all_inv.
  - destruct (replay_each t (ctx_tenant ctx) (distinct ids) now) as [[n t']|] eqn:E; simpl; [|done].
    by eapply replay_each_inv.
Qed.
Lemma insert_row_inv t is_ r :
  ob_status r = "pending" -> ob_attempts r = 0 -> 0 < ob_max_attempts r -> ob_locked_at r = None -> ob_locked_by r = None ->
  outbox_inv {| outbox := t; issued := is_ |} -> outbox_inv {| outbox := (insert_row t r).2; issued := is_ |}.
Proof.
  intros Hst Hat Hmax Hla Hlb Hinv. unfold insert_row. destruct (t !! ob_id r) eqn:E; [done|].
  destruct (unique_active _) eqn:Hu; [|done]. simpl. destruct Hinv as [Hk Hr _ Hi Ht Hl]. simpl in *.
  assert (keyed_table (<[ob_id r := r]> t)) as Hk'.
  { intros i x [[<- <-]|[_ Hx]]%lookup_insert_Some; [done|auto]. }
  split; simpl; [done| |by apply unique_active_spec| | |].
  - intros i x [[<- <-]|[_ Hx]]%lookup_insert_Some; [|eauto]. split; [lia|]. split; [done|]. left.
    split_and!; [by left|lia|done|done].
  - intros e x He [[E' <-]|[_ Hx]]%lookup_insert_Some; [|eauto].
    destruct (Ht e He) as [_ [y Hy]]. congruence.
  - intros e He. destruct (Ht e He) as [H1 [y Hy]]. split; [done|]. rewrite lookup_insert_ne; [eauto|congruence].
  - intros i x token [[<- <-]|[_ Hx]]%lookup_insert_Some; [congruence|eauto].
Qed.
Section history.
Context {codec : SerdeJson} {actions_codec : ActionCodec}.
Lemma enqueue_inv actions now t is_ n t' :
  outbox_inv {| outbox := t; issued := is_ |} -> enqueue_actions_in_transaction t actions now = Ok (n, t') ->
  outbox_inv {| outbox := t'; issued := is_ |}.
Proof.
  revert t n t'. induction actions as [|[uuid a] actions IH]; intros t n t' Hinv; simpl; [by intros [= _ <-]|].
  intros (e & _ & (payload & _ & H)%bind_ok)%bind_ok.
  destruct (insert_row t (new_row e payload now)) as [m t1] eqn:E.
  apply bind_ok in H as ([k t2] & H & [= _ <-]). eapply IH; [|done].
  assert (t1 = (insert_row t (new_row e payload now)).2) as -> by (by rewrite E). by apply insert_row_inv.
Qed.
Lemma expire_inv t is_ cutoff now :
  outbox_inv {| outbox := t; issued := is_ |} -> outbox_inv {| outbox := expire cutoff now <$> t; issued := is_ |}.
Proof.
  intros Hinv. apply (inv_evolve t); [| | |done].
  - intros id Hid. by rewrite lookup_fmap, Hid.
  - intros id r Hr. exists (expire cutoff now r). rewrite lookup_fmap, Hr. split; [done|].
    unfold expire. destruct (exhausted cutoff r); [|apply evolves_refl]. unfold evolves. simpl.
    split_and!; try done; [|by left]. intros (Ha & Hm & _). split; [done|]. split; [done|]. right. right. by split; [right|].
  - apply (unique_keys_mono t); [|apply (oi_unique _ Hinv)]. intros id r'. rewrite lookup_fmap.
    intros (r & Hr & ->)%fmap_Some. unfold expire. destruct (exhausted cutoff r); [by left|right; eauto].
Qed.
Lemma eligible_active now cutoff r :
  eligible now cutoff r = true -> ob_attempts r < ob_max_attempts r /\ active_status (ob_status r) = true.
Proof using.
  unfold eligible, active_status. intros H. apply andb_true_iff in H as [Hl%Z.ltb_lt H]. split; [done|].
  apply orb_true_iff in H as [H|H]; apply andb_true_iff in H as [H _].
  - apply orb_true_iff in H as [->| ->]; [done|by rewrite !orb_true_r].
  - by rewrite H, orb_true_r.
Qed.
Lemma claim_row_ok now token r : row_ok r -> ob_attempts r < ob_max_attempts r -> row_ok (claim_row now token r).
Proof using.
  intros (Ha & Hm & _) Hlt. unfold row_ok. simpl. split; [lia|]. split; [done|]. right. left.
  split_and!; [done|lia|by eexists|by eexists].
Qed.
Lemma claim_row_key now token r : active_status (ob_status r) = true -> active_key (claim_row now token r) = active_key r.
Proof using. intros H. unfold active_key. rewrite H. done. Qed.
(** Claiming rows of a sound table under a fresh token. *)
Lemma claimed_inv t1 t' is_ events now token ids :
  outbox_inv {| outbox := t1; issued := is_ |} ->
  (forall e, e ∈ is_ -> claim_token e <> Some token) ->
  map ev_id events = ids ->
  (forall id, t' !! id = if bool_decide (id ∈ ids) then claim_row now token <$> t1 !! id else t1 !! id) ->
  (forall e, e ∈ events -> exists r, t1 !! ev_id e = Some r /\ decode_row (claim_row now token r) = Ok e
     /\ ob_attempts r < ob_max_attempts r /\ active_status (ob_status r) = true) ->
  outbox_inv {| outbox := t'; issued := is_ ++ events |}.
Proof using.
  intros [Hk Hr Hu Hi Ht Hl] Hfresh Hids Hlook Hev. simpl in *.
  assert (forall id r', t' !! id = Some r' ->
    (exists r e, e ∈ events /\ ev_id e = id /\ t1 !! id = Some r /\ r' = claim_row now token r
       /\ decode_row r' = Ok e /\ ob_attempts r < ob_max_attempts r /\ active_status (ob_status r) = true)
    \/ (t1 !! id = Some r' /\ id ∉ ids)) as Hcase.
  { intros id r' H. rewrite Hlook in H. case_bool_decide as Hin; [|by right]. left.
    rewrite <- Hids in Hin. apply list_elem_of_fmap in Hin as (e & -> & He).
    destruct (Hev e He) as (r & Hr1 & Hd & Hlt & Hact). rewrite Hr1 in H. simplify_eq/=. exists r, e. by split_and!. }
  assert (forall id r, t1 !! id = Some r -> exists r', t' !! id = Some r' /\ ob_max_attempts r' = ob_max_attempts r) as Hfwd.
  { intros id r H. rewrite Hlook, H. case_bool_decide; simpl; eauto. }
  split; simpl.
  - intros id r' [(r & e & _ & _ & H1 & -> & _)|[H1 _]]%Hcase; [simpl|]; auto.
  - intros id r' [(r & e & _ & _ & H1 & -> & _ & Hlt & _)|[H1 _]]%Hcase; [|eauto].
    apply claim_row_ok; [eauto|done].
  - apply (unique_keys_mono t1); [|done].
    intros id r' [(r & e & _ & _ & H1 & -> & _ & _ & Hact)|[H1 _]]%Hcase; [|eauto].
    right. exists r. by rewrite claim_row_key.
  - intros e r' [He|He]%elem_of_app H.
    + destruct (Hcase _ _ H) as [(r & e' & _ & _ & H1 & -> & _)|[H1 _]]; [|eauto].
      destruct (Hi e r He H1) as [Hm _]. split; [done|]. intros tk Htk [= <-]. by destruct (Hfresh e He).
    + destruct (Hev e He) as (r & H1 & Hd & _). destruct (Hcase _ _ H) as [(x & e' & _ & _ & H2 & -> & _)|[_ Hn]].
      * simplify_eq. destruct (decode_row_fields _ _ Hd) as (_ & _ & -> & -> & _). done.
      * destruct Hn. rewrite <- Hids. by apply list_elem_of_fmap_2.
  - intros e [He|He]%elem_of_app.
    + destruct (Ht e He) as [H1 [r H2]]. split; [done|]. destruct (Hfwd _ _ H2) as (r' & -> & _). eauto.
    + destruct (Hev e He) as (r & H1 & Hd & _). destruct (Hfwd _ _ H1) as (r' & -> & _).
      destruct (decode_row_fields _ _ Hd) as (_ & -> & _). eauto.
  - intros id r' tk H Htk. destruct (Hcase _ _ H) as [(r & e & He & Hid & H1 & -> & Hd & _)|[H1 _]].
    + exists e. destruct (decode_row_fields _ _ Hd) as (_ & -> & _). set_solver.
    + destruct (Hl id r' tk H1 Htk) as (e & He & ? & ?). exists e. set_solver.
Qed.
Lemma token_nonempty worker uuid : str_is_empty (worker +:+ ":" +:+ uuid) = false.
Proof using. by destruct worker. Qed.
Lemma claim_inv t is_ worker uuid limit lease now r t' :
  outbox_inv {| outbox := t; issued := is_ |} ->
  worker_claim t worker uuid limit lease now = (r, t') ->
  (forall e, e ∈ is_ -> claim_token e <> Some (worker +:+ ":" +:+ uuid)) ->
  outbox_inv {| outbox := t'; issued := is_ ++ match r with Ok events => events | Err _ => [] end |}.
Proof using.
  intros Hinv Hc Hfresh. unfold worker_claim in Hc. case_match; [simplify_eq; by rewrite app_nil_r|].
  destruct (claim_batch t worker uuid limit (lease / 1000) now) as [[events|e] t2] eqn:E.
  - destruct (claim_batch_spec _ _ _ _ _ _ _ _ (oi_key _ Hinv) E) as (Hids & Hlook & Hev).
    assert (existsb (fun e => match claim_token e with Some token => str_is_empty token | None => true end) events
      = false) as Hex.
    { apply existsb_false_elem. intros e He. destruct (Hev e He) as (x & _ & _ & Hd).
      destruct (decode_row_fields _ _ Hd) as (_ & -> & _). simpl. apply token_nonempty. }
    rewrite Hex in Hc. simplify_eq.
    eapply claimed_inv; [by apply (expire_inv t is_ (lease_cutoff now (lease / 1000)) now)|exact Hfresh|exact Hids|exact Hlook|].
    intros e He. destruct (Hev e He) as (x & Hx & Hel & Hd). simpl in Hx. exists x. rewrite lookup_fmap, Hx. simpl.
    destruct (eligible_active _ _ _ Hel) as [Hlt Hact]. split_and!; try done.
    unfold expire. destruct (exhausted _ x) eqn:Ex; [|done].
    by rewrite (exhausted_not_eligible now _ x Ex) in Hel.
  - simplify_eq. rewrite app_nil_r. unfold claim_batch in E. cbv zeta in E.
    destruct (claim_each _ _ _ _) as [[es t3]|] in E; by simplify_eq.
Qed.
Lemma outbox_step_inv st st' : outbox_step st st' -> outbox_inv st -> outbox_inv st'.
Proof.
  intros H Hinv. destruct H.
  - by eapply enqueue_inv.
  - by eapply claim_inv.
  - by apply (succeeded_inv {| outbox := t; issued := is_ |}).
  - by apply (failed_inv {| outbox := t; issued := is_ |}).
  - by apply (replay_inv {| outbox := t; issued := is_ |}).
Qed.
Lemma outbox_steps_inv st st' : rtc outbox_step st st' -> outbox_inv st -> outbox_inv st'.
Proof. induction 1 as [|x y z Hxy _ IH]; [done|]. intros Hx. by apply IH, (outbox_step_inv x). Qed.

(** ** Fencing *)
(** Every lock of [t'] was there in [t]. *)
Definition no_new_locks (t t' : OutboxTable) : Prop :=
  forall id r' token, t' !! id = Some r' -> ob_locked_by r' = Some token ->
  exists r, t !! id = Some r /\ ob_locked_by r = Some token.
Lemma no_new_locks_refl t : no_new_locks t t.
Proof using. intros id r token. eauto. Qed.
Lemma no_new_locks_trans t1 t2 t3 : no_new_locks t1 t2 -> no_new_locks t2 t3 -> no_new_locks t1 t3.
Proof using. intros H1 H2 id r token Hr Hl. destruct (H2 id r token Hr Hl) as (x & Hx & Hxl). eauto. Qed.
Lemma update_where_locks t id p f :
  (forall r, ob_locked_by (f r) = None) -> no_new_locks t (update_where t id p f).2.
Proof using.
  intros Hf. unfold update_where. destruct (t !! id) as [r|]; [|apply no_new_locks_refl].
  destruct (p r); [|apply no_new_locks_refl]. simpl. intros i x token [[<- <-]|[_ Hx]]%lookup_insert_Some Hl; [|eauto].
  rewrite Hf in Hl. done.
Qed.
Lemma fmap_locks t f :
  (forall r, ob_locked_by (f r) = None \/ ob_locked_by (f r) = ob_locked_by r) -> no_new_locks t (f <$> t).
Proof using.
  intros Hf i x token. rewrite lookup_fmap. intros (r & Hr & ->)%fmap_Some Hl.
  destruct (Hf r) as [E|E]; [congruence|]. exists r. split; [done|congruence].
Qed.
Lemma replay_each_locks tenant ids now t n t' : replay_each t tenant ids now = Ok (n, t') -> no_new_locks t t'.
Proof using.
  revert t n t'. induction ids as [|id ids IH]; intros t n t'; simpl; [intros [= _ <-]; apply no_new_locks_refl|].
  destruct (update_where t id (dead_letter_of tenant) (revive now)) as [hit t1] eqn:E.
  intros (t2 & [_ ->]%checked_ok & ([m t3] & H & [= _ <-])%bind_ok)%bind_ok.
  apply (no_new_locks_trans _ t1); [|eauto]. change t1 with (hit, t1).2. rewrite <- E. by apply update_where_locks.
Qed.
Lemma replay_locks t ctx ids all now : no_new_locks t (app_replay t ctx ids all now).2.
Proof using.
  unfold app_replay. case_match; [apply no_new_locks_refl|]. case_match; [apply no_new_locks_refl|].
  destruct (require_permission ctx ManageRules); [|apply no_new_locks_refl]. unfold replay_dead_letters. destruct all.
  - destruct (replay_all t (ctx_tenant ctx) now) as [[n t']|] eqn:E; simpl; [|apply no_new_locks_refl].
    apply bind_ok in E as (t1 & [_ ->]%checked_ok & [= _ <-]). apply fmap_locks.
    intros r. destruct (dead_letter_of _ r); [by left|by right].
  - destruct (replay_each t (ctx_tenant ctx) (distinct ids) now) as [[n t']|] eqn:E; simpl; [|apply no_new_locks_refl].
    by eapply replay_each_locks.
Qed.
Lemma enqueue_locks actions now t n t' : enqueue_actions_in_transaction t actions now = Ok (n, t') -> no_new_locks t t'.
Proof using.
  revert t n t'. induction actions as [|[uuid a] actions IH]; intros t n t'; simpl; [intros [= _ <-]; apply no_new_locks_refl|].
  intros (e & _ & (payload & _ & H)%bind_ok)%bind_ok.
  destruct (insert_row t (new_row e payload now)) as [m t1] eqn:E.
  apply bind_ok in H as ([k t2] & H & [= _ <-]). apply (no_new_locks_trans _ t1); [|eauto].
  unfold insert_row in E. repeat case_match; simplify_eq; try apply no_new_locks_refl.
  intros i x token [[<- <-]|[_ Hx]]%lookup_insert_Some Hl; [done|eauto].
Qed.
Lemma complete_locks t e now failure error :
  no_new_locks t (succeeded t e now).2 /\ no_new_locks t (failed t e failure error now).2.
Proof using.
  unfold succeeded, failed, mark_succeeded, mark_failed.
  destruct (claim_token e) as [token|]; [|split; apply no_new_locks_refl]. split.
  - destruct (update_where _ _ _ _) as [b t'] eqn:E. change (Ok b : result ApplicationError bool, t').2 with (b, t').2.
    rewrite <- E. by apply update_where_locks.
  - destruct (failure_disposition _ _ _) as [status delay].
    destruct (update_where _ _ _ _) as [b t'] eqn:E. change (Ok b : result ApplicationError bool, t').2 with (b, t').2.
    rewrite <- E. by apply update_where_locks.
Qed.
(** A step gives a lock only under a token no earlier event carries. *)
Lemma step_holds st st' e :
  outbox_inv st -> outbox_step st st' -> e ∈ issued st -> holds (outbox st') e -> holds (outbox st) e.
Proof.
  intros Hinv Hstep He (r' & token & Hr' & Htok & Hl).
  assert (no_new_locks (outbox st) (outbox st') -> holds (outbox st) e) as Hold.
  { intros Hn. destruct (Hn _ _ _ Hr' Hl) as (r & Hr & Hrl). by exists r, token. }
  destruct Hstep as [| t is_ worker uuid limit lease now res t' Hc Hfresh | | |]; simpl in *.
  - by eapply Hold, enqueue_locks.
  - unfold worker_claim in Hc. case_match; [simplify_eq; apply Hold, no_new_locks_refl|].
    destruct (claim_batch t worker uuid limit (lease / 1000) now) as [[events|err] t2] eqn:E.
    + destruct (claim_batch_spec _ _ _ _ _ _ _ _ (oi_key _ Hinv) E) as (_ & Hlook & _). simplify_eq.
      rewrite Hlook in Hr'. case_bool_decide.
      * apply fmap_Some in Hr' as (x & _ & ->). simpl in Hl. simplify_eq. by destruct (Hfresh e He).
      * rewrite lookup_fmap in Hr'. apply fmap_Some in Hr' as (x & Hx & ->). exists x, token. split_and!; try done.
        unfold expire in Hl. by destruct (exhausted _ x).
    + simplify_eq. unfold claim_batch in E. cbv zeta in E.
      destruct (claim_each _ _ _ _) as [[es t3]|] in E; simplify_eq. apply Hold, no_new_locks_refl.
  - apply Hold. by apply (complete_locks t e0 now Retryable "").
  - apply Hold. by apply (complete_locks t e0 now failure error).
  - apply Hold, replay_locks.
Qed.
Lemma step_issued st st' e : outbox_step st st' -> e ∈ issued st -> e ∈ issued st'.
Proof using. intros H. destruct H; simpl; set_solver. Qed.
Lemma steps_holds st st' e :
  rtc outbox_step st st' -> outbox_inv st -> e ∈ issued st -> holds (outbox st') e -> holds (outbox st) e.
Proof.
  induction 1 as [|x y z Hxy _ IH]; [done|]. intros Hinv He Hh. eapply step_holds; [done|done|done|].
  apply IH; [by eapply outbox_step_inv|by eapply step_issued|done].
Qed.
Lemma not_held_idle t e now failure error token :
  claim_token e = Some token -> ~ holds t e ->
  succeeded t e now = (Ok false, t) /\ failed t e failure error now = (Ok false, t).
Proof using.
  intros Htok Hno. unfold succeeded, failed, mark_succeeded, mark_failed. rewrite Htok.
  destruct (failure_disposition _ _ _) as [status delay]. unfold update_where.
  destruct (t !! ev_id e) as [r|] eqn:E; [|done].
  assert (owned (ev_id e) token r = false) as ->; [|done].
  apply not_true_iff_false. rewrite owned_spec. intros (_ & _ & Hl). apply Hno. by exists r, token.
Qed.

Lemma empty_inv : outbox_inv {| outbox := ∅; issued := [] |}.
Proof using. split; simpl; unfold keyed_table, unique_keys; intros *; rewrite ?lookup_empty; try done; set_solver. Qed.

(** C6. The accounting of the outbox: after any history of enqueueing,
    claims, completions and replays, starting from an empty table, every row
    has between zero and its maximum of attempts and stands as its status
    says (waiting rows are unlocked and have attempts left, so none is stuck;
    rows in processing are locked by a claim that was handed out; finished
    rows are unlocked), active rows of a tenant and event type have distinct
    idempotency keys, and the holder of a lock knows the row's attempts. *)
Theorem outbox_accounting st :
  rtc outbox_step {| outbox := ∅; issued := [] |} st -> outbox_inv st.
Proof.
  intros Hsteps. apply (outbox_steps_inv _ _ Hsteps), empty_inv.
Qed.

(** C7. Claims are fenced: once an event handed to a worker is no longer
    locked under its token (it was completed, its lease expired, or another
    claim took it), no later history makes that token valid again, and
    completing it as succeeded or failed answers false and changes nothing. *)
Theorem outbox_fencing st st' e now failure error :
  rtc outbox_step {| outbox := ∅; issued := [] |} st -> e ∈ issued st -> ~ holds (outbox st) e ->
  rtc outbox_step st st' ->
  ~ holds (outbox st') e
  /\ succeeded (outbox st') e now = (Ok false, outbox st')
  /\ failed (outbox st') e failure error now = (Ok false, outbox st').
Proof.
  intros Hst He Hno Hsteps.
  assert (outbox_inv st) as Hinv by apply (outbox_steps_inv _ _ Hst), empty_inv.
  assert (~ holds (outbox st') e) as Hno' by (intros H; by apply Hno, (steps_holds st st')).
  split; [done|]. destruct (oi_tokens _ Hinv e He) as [[token Htok] _]. by apply (not_held_idle _ _ _ _ _ token).
Qed.
End history.

(** Dead letters that share an idempotency key block a replay of all:
    with two dead letters of a tenant for the same event type and key (which
    the outbox can hold, since only active rows are unique) replaying all is
    refused and revives nothing. *)
Theorem replay_all_blocked t tenant id1 id2 r1 r2 now :
  keyed_table t -> t !! id1 = Some r1 -> t !! id2 = Some r2 -> id1 <> id2 ->
  dead_letter_of tenant r1 = true -> dead_letter_of tenant r2 = true ->
  ob_type r1 = ob_type r2 -> is_Some (ob_key r1) -> ob_key r1 = ob_key r2 ->
  replay_dead_letters t tenant None now = (Err (UniqueViolation "unique"), t).
Proof.
  intros Ht H1 H2 Hne D1 D2 Et [k K1] Ek. unfold replay_dead_letters, replay_all, checked.
  destruct (unique_active _) eqn:Hu; [|done]. exfalso. apply unique_active_spec in Hu.
  - apply Hne, (Hu id1 id2 (revive now r1) (revive now r2) (tenant, ob_type r1, k)).
    + by rewrite lookup_fmap, H1; simpl; rewrite D1.
    + by rewrite lookup_fmap, H2; simpl; rewrite D2.
    + unfold active_key. simpl. rewrite K1. simpl. apply andb_true_iff in D1 as [E _].
      apply String.eqb_eq in E. by rewrite E.
    + unfold active_key. simpl. rewrite <- Ek, K1. simpl. apply andb_true_iff in D2 as [E _].
      apply String.eqb_eq in E. by rewrite E, Et.
  - apply keyed_fmap; [|done]. intros r. by case_match.
Qed.

(** ** A concrete history *)
Definition demo_json : SerdeJson :=
  {| to_string := fun _ => Ok "{}"; from_str := fun _ => Ok (Object []); utc_in_range := fun _ => true |}.
Definition demo_actions : ActionCodec :=
  {| action_to_value := fun _ => Ok Null; action_from_value := fun _ => Err "not decoded";
     headers_json := fun _ => ""; value_json := fun _ => ""; stable_hash := fun s => s |}.
#[local] Existing Instance demo_json.
#[local] Existing Instance demo_actions.
Definition demo_row (id tenant key status : string) (attempts available : Z) : OutboxRow :=
  {| ob_id := id; ob_tenant := tenant; ob_type := "rule.resolve_alert"; ob_aggregate_type := "alert";
     ob_aggregate_id := "a"; ob_key := Some key; ob_payload := "{}"; ob_status := status; ob_attempts := attempts;
     ob_max_attempts := 10; ob_available_at := available; ob_locked_at := None; ob_locked_by := None;
     ob_last_error := None; ob_created_at := available; ob_updated_at := available |}.
Definition demo_table : OutboxTable :=
  {["e1" := demo_row "e1" "a" "k1" "pending" 0 1; "e2" := demo_row "e2" "a" "k2" "pending" 0 2;
    "e3" := demo_row "e3" "b" "k3" "failed" 1 3]}.
Lemma demo_keyed : keyed_table demo_table.
Proof.
  intros id r H. unfold demo_table in H.
  repeat (apply lookup_insert_Some in H as [[<- <-]|[_ H]]; [reflexivity|]).
  by apply lookup_singleton_Some in H as [<- <-].
Qed.
(** Two of three waiting events: one of each tenant. *)
Lemma claim_fair_witness :
  exists events t', claim_batch demo_table "w" "u" 2 60 100 = (Ok events, t')
    /\ length events = 2%nat.
Proof.
  destruct (claim_batch demo_table "w" "u" 2 60 100) as [[events|e] t'] eqn:E;
    [|vm_compute in E; discriminate E].
  exists events, t'. split; [reflexivity|].
  destruct (claim_fair demo_table "w" "u" 2 60 100 events t' demo_keyed ltac:(lia) E) as [-> _].
  vm_compute. reflexivity.
Defined.
Definition demo_queued : OutboxTable :=
  match enqueue_actions_in_transaction ∅
    [("e1", ResolveAlert "a" "alert-1")] 1 with Ok (_, t) => t | Err _ => ∅ end.
Definition demo_claim : result ApplicationError (list OutboxEventRecord) * OutboxTable :=
  worker_claim demo_queued "w" "u" 5 60000 100.
Definition demo_event : OutboxEventRecord :=
  {| claim_token := Some "w:u"; ev_id := "e1"; ev_tenant := "a"; ev_type := "rule.resolve_alert";
     ev_aggregate_type := "alert"; ev_aggregate_id := "alert-1"; ev_payload := Object []; ev_attempts := 1;
     ev_max_attempts := 10; ev_last_error := None; ev_created_at := 1000; ev_updated_at := 100000 |}.
Definition demo_done : OutboxState :=
  {| outbox := (succeeded demo_claim.2 demo_event 200).2; issued := [demo_event] |}.
Lemma demo_history :
  rtc outbox_step {| outbox := ∅; issued := [] |} demo_done.
Proof.
  eapply rtc_l; [apply (step_enqueue ∅ []
    [("e1", ResolveAlert "a" "alert-1")] 1 1 demo_queued); vm_compute; reflexivity|].
  eapply rtc_l; [apply (step_claim demo_queued [] "w" "u"
    5 60 100 (Ok [demo_event]) demo_claim.2); [vm_compute; reflexivity|intros e He; by inversion He]|].
  eapply rtc_l; [|apply rtc_refl]. apply (step_succeeded demo_claim.2 [demo_event] demo_event 200).
  apply list_elem_of_singleton. reflexivity.
Qed.
Lemma outbox_accounting_witness : outbox_inv demo_done.
Proof. exact (outbox_accounting demo_done demo_history). Defined.
(** The event was completed: completing it again has no effect. *)
Lemma outbox_fencing_witness :
  succeeded (outbox demo_done) demo_event 300 = (Ok false, outbox demo_done).
Proof.
  apply (outbox_fencing demo_done demo_done demo_event 300 Retryable "late" demo_history).
  - apply list_elem_of_singleton. reflexivity.
  - intros (r & token & Hr & _ & Hl). vm_compute in Hr. injection Hr as <-. discriminate Hl.
  - apply rtc_refl.
Defined.
Definition demo_dead : OutboxTable :=
  {["d1" := demo_row "d1" "a" "k" "dead_letter" 10 1; "d2" := demo_row "d2" "a" "k" "dead_letter" 10 2]}.
Lemma replay_all_blocked_witness :
  replay_dead_letters demo_dead "a" None 500 = (Err (UniqueViolation "unique"), demo_dead).
Proof.
  apply (replay_all_blocked demo_dead "a" "d1" "d2" (demo_row "d1" "a" "k" "dead_letter" 10 1)
    (demo_row "d2" "a" "k" "dead_letter" 10 2)); try (vm_compute; reflexivity).
  - intros id r H. unfold demo_dead in H. apply lookup_insert_Some in H as [[<- <-]|[_ H]]; [reflexivity|].
    by apply lookup_singleton_Some in H as [<- <-].
  - discriminate.
  - exists "k". reflexivity.
Defined.
