(* ===== verification/Commands.v ===== *)
(** * Device commands (crates/backend-core/src/commands.rs,
    application/commands.rs, crates/backend-turso/src/commands.rs)

    Commands sent to devices: validation against the device's contract, the
    history row, publication on the device bus, device responses and
    timeouts.  A rule action delivers its command under the stable id of the
    action, so that a retry finds its own row. *)
From S2P Require Import Prelude Text BTree Json Errors Access RuleTypes RuleCache RuleSnapshot Shadows.
From S2P Require Import ContractModel Schema Validation ContractCompiler.

Local Open Scope Z_scope.

(** ** Records *)
Record CommandRecord := {
  cmd_id : string; cmd_device : string; cmd_name : string; cmd_params : string; cmd_status : string;
  cmd_response : option string; cmd_created_at : NaiveDateTime; cmd_updated_at : NaiveDateTime;
}.
Record NewCommandRecord := { nc_id : string; nc_command : string; nc_params : string }.
Definition ACTIVE_STATUSES : list string := ["sent"; "delivered"].
Inductive CommandResponseStatus := RespDelivered | RespSucceeded | RespFailed.
Definition from_device_status (status : string) : CommandResponseStatus :=
  if status =s? "succeeded" then RespSucceeded
  else if status =s? "failed" then RespFailed
  else RespDelivered.
Definition response_str (r : CommandResponseStatus) : string :=
  match r with RespDelivered => "delivered" | RespSucceeded => "succeeded" | RespFailed => "failed" end.
Record CommandDelivery := {
  dl_device : string; dl_command : string; dl_params : value; dl_correlation : string; dl_address : option string;
}.

(** ** The world of a command

    [command_history] by primary key, the known devices, the contract
    documents assigned to them, and what has been handed to the device bus. *)
Record CommandRow := {
  cr_id : string; cr_tenant : string; cr_device : string; cr_command : string; cr_params : string;
  cr_status : string; cr_response : option string; cr_created_at : Z; cr_updated_at : Z;
}.
Record CommandWorld := {
  history : gmap string CommandRow;
  cw_devices : gset (string * string);
  cw_contracts : gmap (string * string) value;
  published : list CommandDelivery;
}.
Definition with_history (w : CommandWorld) (h : gmap string CommandRow) : CommandWorld :=
  {| history := h; cw_devices := cw_devices w; cw_contracts := cw_contracts w; published := published w |}.
Definition with_published (w : CommandWorld) (d : CommandDelivery) : CommandWorld :=
  {| history := history w; cw_devices := cw_devices w; cw_contracts := cw_contracts w;
     published := published w ++ [d] |}.

(** Code outside the sources: [Value]'s text, the derived reader of contract
    documents, error texts, and the host's device bus. *)
Class CommandHost := {
  value_text : value -> string;
  contract_from_value : value -> result string CompiledContractDocument;
  contract_error_text : ContractError -> string;
  bus_supports : TransportProtocol -> bool;
  bus_publish : CommandWorld -> CommandDelivery -> result string unit;
}.

(** ** The Turso repository *)
Definition canonical_status (status : string) : string :=
  if status =s? "pending" then "sent"
  else if status =s? "completed" then "succeeded"
  else if status =s? "timeout" then "timed_out"
  else status.
(** status IN ('pending', 'sent', 'delivered'). *)
Definition answerable (status : string) : bool :=
  (status =s? "pending") || (status =s? "sent") || (status =s? "delivered").
Definition set_command (r : CommandRow) (status : string) (response : option string) (now : Z) : CommandRow :=
  {| cr_id := cr_id r; cr_tenant := cr_tenant r; cr_device := cr_device r; cr_command := cr_command r;
     cr_params := cr_params r; cr_status := status; cr_response := response; cr_created_at := cr_created_at r;
     cr_updated_at := now |}.
Section turso.
Context `{!ChronoMicros}.
Definition decode_command (r : CommandRow) : result PersistenceError CommandRecord :=
  created ← datetime (cr_created_at r);
  updated ← datetime (cr_updated_at r);
  Ok {| cmd_id := cr_id r; cmd_device := cr_device r; cmd_name := cr_command r; cmd_params := cr_params r;
        cmd_status := canonical_status (cr_status r); cmd_response := cr_response r;
        cmd_created_at := created; cmd_updated_at := updated |}.
Definition find (w : CommandWorld) (tenant id : string) : result PersistenceError (option CommandRecord) :=
  match history w !! id with
  | Some r => if cr_tenant r =s? tenant then Some <$> decode_command r else Ok None
  | None => Ok None
  end.
Definition sent_row (tenant device : string) (n : NewCommandRecord) (now : Z) : CommandRow :=
  {| cr_id := nc_id n; cr_tenant := tenant; cr_device := device; cr_command := nc_command n;
     cr_params := nc_params n; cr_status := "sent"; cr_response := None; cr_created_at := now;
     cr_updated_at := now |}.
(** INSERT ... SELECT ... WHERE EXISTS (device) RETURNING; the row is
    inserted even when decoding the returned row fails. *)
Definition create (w : CommandWorld) (tenant device : string) (n : NewCommandRecord) (now : Z)
    : result PersistenceError (option CommandRecord) * CommandWorld :=
  if negb (bool_decide ((tenant, device) ∈ cw_devices w)) then (Ok None, w) else
  match history w !! nc_id n with
  | Some _ => (Err (UniqueViolation "unique"), w)
  | None =>
    (Some <$> decode_command (sent_row tenant device n now),
     with_history w (<[nc_id n := sent_row tenant device n now]> (history w)))
  end.
End turso.
Definition apply_response (w : CommandWorld) (tenant device id : string) (status : CommandResponseStatus)
    (payload : option string) (updated_at : NaiveDateTime) : option string * CommandWorld :=
  match history w !! id with
  | Some r =>
    if (cr_tenant r =s? tenant) && (cr_device r =s? device) && answerable (cr_status r)
    then (Some (response_str status),
          with_history w (<[id := set_command r (response_str status) payload (timestamp_micros updated_at)]> (history w)))
    else (None, w)
  | None => (None, w)
  end.
Definition stale (cutoff : Z) (r : CommandRow) : bool := answerable (cr_status r) && (cr_created_at r <? cutoff).
Definition timeout_stale (w : CommandWorld) (cutoff now : NaiveDateTime) : nat * CommandWorld :=
  (size (filter (fun e : string * CommandRow => stale (timestamp_micros cutoff) e.2 = true) (history w)),
   with_history w ((fun r => if stale (timestamp_micros cutoff) r
                             then set_command r "timed_out" (cr_response r) (timestamp_micros now) else r) <$> history w)).

(** ** Application services *)
Section application.
Context `{!ChronoMicros, !SerdeJson, !CommandHost}.
(** [CommandWorkerApplication]; [seconds_before] is chrono's checked
    subtraction of a number of seconds. *)
Definition handle_response (w : CommandWorld) (tenant device id device_status : string) (payload : option string)
    (now : NaiveDateTime) : option string * CommandWorld :=
  if str_is_empty id then (None, w)
  else apply_response w tenant device id (from_device_status device_status) payload now.
Definition worker_timeout_stale (seconds_before : NaiveDateTime -> Z -> option NaiveDateTime) (w : CommandWorld)
    (timeout_secs : Z) (now : NaiveDateTime) : result ApplicationError nat * CommandWorld :=
  match (if timeout_secs <=? Int.i64_max then seconds_before now timeout_secs else None) with
  | None => (Err (InvalidInput "Command timeout is outside the supported range"), w)
  | Some cutoff => let '(n, w') := timeout_stale w cutoff now in (Ok n, w')
  end.

(** [CommandApplication::validate]: the address of the contract's route. *)
Definition validate (w : CommandWorld) (tenant device command : string) (params : value)
    : result ApplicationError (option string) :=
  if negb (is_object params) then Err (InvalidInput "Command params must be a JSON object") else
  match cw_contracts w !! (tenant, device) with
  | None => Ok None
  | Some document =>
    contract ← map_err (fun m => Internal ("stored device contract is invalid: " +:+ m)) (contract_from_value document);
    definition ← ok_or (bt_get command (doc_commands contract))
      (InvalidOperation ("Command '" +:+ command +:+ "' is not declared by the device contract"));
    _ ← map_err (fun e => InvalidOperation ("Command '" +:+ command +:+ "' input failed contract validation: "
                                            +:+ contract_error_text e))
          (validate_instance (cc_input_schema definition) params);
    route ← ok_or (bt_get (cc_request_route definition) (doc_routes contract))
      (Internal "command request route is missing");
    transport ← ok_or (bt_get (cr_transport route) (doc_transports contract))
      (Internal "command transport is missing");
    if negb (bus_supports (ct_protocol transport))
    then Err (InvalidOperation ("Command '" +:+ command +:+ "' requires an unavailable "
                                +:+ protocol_debug (ct_protocol transport) +:+ " transport adapter"))
    else Ok (Some (cr_address route))
  end.
Definition device_missing (device : string) : ApplicationError := NotFound ("Device '" +:+ device +:+ "' not found").
(** [publish_command]; [published] logs every delivery handed to the bus, also
    one for which the bus then reports an error. *)
Definition publish (w : CommandWorld) (d : CommandDelivery) : result ApplicationError unit * CommandWorld :=
  (map_err DeviceCommunication (bus_publish w d), with_published w d).

(** [CommandApplication::send]; [uuid] is the fresh correlation id. *)
Definition send (w : CommandWorld) (ctx : TenantContext) (device command : string) (params : value)
    (uuid : string) (now : Z) : result ApplicationError CommandRecord * CommandWorld :=
  if trim_is_empty command then (Err (InvalidInput "Command must not be empty"), w) else
  match require_permission ctx SendCommands with
  | Err e => (Err e, w)
  | Ok _ =>
    match validate w (ctx_tenant ctx) device command params with
    | Err e => (Err e, w)
    | Ok address =>
      match create w (ctx_tenant ctx) device
              {| nc_id := uuid; nc_command := command; nc_params := value_text params |} now with
      | (Err e, w1) => (Err (Persistence e), w1)
      | (Ok None, w1) => (Err (device_missing device), w1)
      | (Ok (Some record), w1) =>
        match publish w1 {| dl_device := device; dl_command := command; dl_params := params;
                            dl_correlation := uuid; dl_address := address |} with
        | (Err e, w2) => (Err e, w2)
        | (Ok _, w2) => (Ok record, w2)
        end
      end
    end
  end.

Definition validate_existing (record : CommandRecord) (device command : string) (params : value)
    : result ApplicationError unit :=
  if (cmd_device record !=s device) || (cmd_name record !=s command)
     || negb match from_str (cmd_params record) with Ok v => value_eqb v params | Err _ => false end
  then Err (Conflict "Command delivery ID already belongs to a different command") else Ok tt.
(** The history keeps every parameter as a string. *)
Definition stored_params (params : value) : value :=
  match params with
  | Object m => Object (bt_collect (map (fun e =>
      (e.1, VString (match as_str e.2 with Some s => s | None => value_text e.2 end))) m))
  | _ => Object []
  end.
(** The row of a delivery: its own earlier one, or a new one. *)
Definition delivery_row (w : CommandWorld) (existing : option CommandRecord) (tenant device delivery command : string)
    (stored : value) (now : Z) : result ApplicationError CommandRecord * CommandWorld :=
  match existing with
  | Some record => (Ok record, w)
  | None =>
    match create w tenant device {| nc_id := delivery; nc_command := command; nc_params := value_text stored |} now with
    | (Ok (Some record), w1) => (Ok record, w1)
    | (Ok None, w1) => (Err (device_missing device), w1)
    | (Err error, w1) =>
      (found ← map_err Persistence (find w1 tenant delivery);
       record ← ok_or found (Persistence error);
       _ ← validate_existing record device command stored;
       Ok record, w1)
    end
  end.
Definition deliver_action (w : CommandWorld) (tenant device delivery command : string) (params : value) (now : Z)
    : result ApplicationError CommandRecord * CommandWorld :=
  if str_is_empty delivery || trim_is_empty command
  then (Err (InvalidInput "Command delivery ID and command must not be empty"), w) else
  let params := if is_object params then params else Object [] in
  let stored := stored_params params in
  match map_err Persistence (find w tenant delivery) with
  | Err e => (Err e, w)
  | Ok existing =>
    match match existing with
          | Some record => _ ← validate_existing record device command stored;
                           Ok (if cmd_status record !=s "sent" then Some record else None)
          | None => Ok None
          end with
    | Err e => (Err e, w)
    | Ok (Some record) => (Ok record, w)
    | Ok None =>
      match validate w tenant device command params with
      | Err e => (Err e, w)
      | Ok address =>
        match delivery_row w existing tenant device delivery command stored now with
        | (Err e, w1) => (Err e, w1)
        | (Ok record, w1) =>
          if cmd_status record =s? "sent" then
            match publish w1 {| dl_device := device; dl_command := command; dl_params := params;
                                dl_correlation := delivery; dl_address := address |} with
            | (Err e, w2) => (Err e, w2)
            | (Ok _, w2) => (Ok record, w2)
            end
          else (Ok record, w1)
        end
      end
    end
  end.
End application.

Section runs.
Context {micros : ChronoMicros} {codec : SerdeJson} {host : CommandHost}.
(** ** What a step does to a row and to the bus *)
(** A row moves only while it is answerable, and only to an answer or to a
    timeout. *)
Inductive command_moves : CommandRow -> CommandRow -> Prop :=
  | moves_none r : command_moves r r
  | moves_to r r' status response now :
      command_moves r r' -> answerable (cr_status r') = true ->
      status ∈ ["delivered"; "succeeded"; "failed"; "timed_out"] ->
      command_moves r (set_command r' status response now).
Definition rows_kept (w w' : CommandWorld) : Prop :=
  forall id r, history w !! id = Some r -> exists r', history w' !! id = Some r' /\ command_moves r r'.
#[global] Instance command_moves_preorder : PreOrder command_moves.
Proof using Type.
  split; [constructor|]. intros a b c Hab Hbc. induction Hbc; [done|]. constructor; auto.
Qed.
#[global] Instance rows_kept_preorder : PreOrder rows_kept.
Proof using Type.
  split.
  - intros w id r. exists r. by split.
  - intros a b c Hab Hbc id r (r1 & H1 & M1)%Hab. destruct (Hbc _ _ H1) as (r2 & H2 & M2).
    exists r2. split; [done|]. by transitivity r1.
Qed.
Lemma response_status_answers r : response_str r ∈ ["delivered"; "succeeded"; "failed"; "timed_out"].
Proof using Type. destruct r; set_solver. Qed.

(** [create] adds one fresh "sent" row or nothing. *)
Lemma create_spec w tenant device n now out w' :
  create w tenant device n now = (out, w') ->
  (w' = w /\ forall r, out <> Ok (Some r))
  \/ (tenant, device) ∈ cw_devices w /\ history w !! nc_id n = None
     /\ out = (Some <$> decode_command (sent_row tenant device n now))
     /\ w' = with_history w (<[nc_id n := sent_row tenant device n now]> (history w)).
Proof using Type.
  unfold create. case_bool_decide as E; simpl; [|intros [= <- <-]; left; split; [done|congruence]].
  case_match eqn:E2; intros [= <- <-]; [left|right]; naive_solver.
Qed.
Lemma create_kept w tenant device n now out w' :
  create w tenant device n now = (out, w') -> rows_kept w w'.
Proof using Type.
  intros [[-> _]|(_ & E & _ & ->)]%create_spec; [done|]. intros id r Hr. exists r. split; [|done].
  simpl. rewrite lookup_insert_ne; congruence.
Qed.
Lemma apply_response_kept w tenant device id status payload now out w' :
  apply_response w tenant device id status payload now = (out, w') -> rows_kept w w'.
Proof using Type.
  unfold apply_response. destruct (history w !! id) as [r|] eqn:E; [|intros [= _ <-]; done].
  case_match eqn:E2; intros [= _ <-]; [|done]. apply andb_true_iff in E2 as [_ E2].
  intros id' r' Hr'. simpl. destruct (decide (id = id')) as [->|Hne].
  - exists (set_command r (response_str status) payload (timestamp_micros now)).
    rewrite lookup_insert_eq. split; [done|]. assert (r' = r) as -> by congruence.
    constructor; [done..|apply response_status_answers].
  - rewrite lookup_insert_ne by done. by exists r'.
Qed.
Lemma timeout_kept w cutoff now : rows_kept w (timeout_stale w cutoff now).2.
Proof using Type.
  intros id r Hr. simpl. rewrite lookup_fmap, Hr. simpl. eexists. split; [done|].
  unfold stale. case_match eqn:E; [|done]. apply andb_true_iff in E as [E _].
  constructor; [done..|set_solver].
Qed.

(** What the contract promises of a published command. *)
Definition admissible (w : CommandWorld) (tenant device command : string) (params : value) (address : option string)
    : Prop :=
  is_object params = true
  /\ match cw_contracts w !! (tenant, device) with
     | None => address = None
     | Some document => exists contract definition route transport,
       contract_from_value document = Ok contract
       /\ bt_get command (doc_commands contract) = Some definition
       /\ conforms (cc_input_schema definition) params
       /\ bt_get (cc_request_route definition) (doc_routes contract) = Some route
       /\ bt_get (cr_transport route) (doc_transports contract) = Some transport
       /\ bus_supports (ct_protocol transport) = true
       /\ address = Some (cr_address route)
     end.
Lemma validate_admissible w tenant device command params address :
  validate w tenant device command params = Ok address -> admissible w tenant device command params address.
Proof using Type.
  unfold validate, admissible. destruct (is_object params); [simpl|done].
  destruct (cw_contracts w !! (tenant, device)) as [document|]; [|intros [= <-]; done].
  intros (contract & Hc%map_err_inv & (definition & Hd%ok_or_ok & ([] & Hi%map_err_inv & (route & Hr%ok_or_ok
    & (transport & Ht%ok_or_ok & H)%bind_ok)%bind_ok)%bind_ok)%bind_ok)%bind_ok.
  apply validate_instance_spec in Hi as [_ Hi]. split; [done|]. exists contract, definition, route, transport.
  destruct (bus_supports (ct_protocol transport)); [|done]. injection H as <-. by split_and!.
Qed.

Lemma decode_command_ok r rec :
  decode_command r = Ok rec ->
  cmd_status rec = canonical_status (cr_status r) /\ cmd_device rec = cr_device r /\ cmd_name rec = cr_command r
  /\ cmd_params rec = cr_params r /\ cmd_id rec = cr_id r.
Proof using Type. intros (a & _ & (b & _ & [= <-])%bind_ok)%bind_ok. done. Qed.
Lemma find_ok w tenant id rec :
  find w tenant id = Ok (Some rec) ->
  exists r, history w !! id = Some r /\ cr_tenant r = tenant /\ decode_command r = Ok rec.
Proof using Type.
  unfold find. destruct (history w !! id) as [r|]; [|done]. destruct (String.eqb_spec (cr_tenant r) tenant); [|done].
  destruct (decode_command r) eqn:E; simpl; [|done]. intros [= <-]. eauto.
Qed.
(** The row a delivery works on is its own. *)
Definition own_row (w : CommandWorld) (tenant device delivery command : string) (rec : CommandRecord) : Prop :=
  exists r, history w !! delivery = Some r /\ cr_tenant r = tenant /\ cr_device r = device /\ cr_command r = command
            /\ decode_command r = Ok rec.
Lemma validate_existing_ok rec device command params :
  validate_existing rec device command params = Ok tt <->
  cmd_device rec = device /\ cmd_name rec = command
  /\ exists v, from_str (cmd_params rec) = Ok v /\ value_eqb v params = true.
Proof using Type.
  unfold validate_existing.
  destruct (String.eqb_spec (cmd_device rec) device), (String.eqb_spec (cmd_name rec) command); simpl;
    [|naive_solver..].
  destruct (from_str (cmd_params rec)) as [v|]; simpl; [destruct (value_eqb v params) eqn:E; simpl|]; naive_solver congruence.
Qed.
Lemma existing_own w tenant device delivery command params rec :
  find w tenant delivery = Ok (Some rec) -> validate_existing rec device command params = Ok tt ->
  own_row w tenant device delivery command rec.
Proof using Type.
  intros (r & Hr & Ht & Hd)%find_ok (<- & <- & _)%validate_existing_ok. exists r.
  destruct (decode_command_ok _ _ Hd) as (_ & -> & -> & _). by split_and!.
Qed.
Lemma created_own w tenant device n now rec w' :
  create w tenant device n now = (Ok (Some rec), w') -> own_row w' tenant device (nc_id n) (nc_command n) rec.
Proof using Type.
  intros [[_ Hn]|(_ & _ & E & ->)]%create_spec; [by destruct (Hn rec)|].
  exists (sent_row tenant device n now). simpl. rewrite lookup_insert_eq. split_and!; try done.
  destruct (decode_command _); simpl in *; congruence.
Qed.
Lemma delivery_row_spec w existing tenant device delivery command stored now out w1 :
  delivery_row w existing tenant device delivery command stored now = (out, w1) ->
  (forall rec, existing = Some rec -> own_row w tenant device delivery command rec) ->
  rows_kept w w1 /\ published w1 = published w /\ cw_contracts w1 = cw_contracts w
  /\ (forall rec, out = Ok rec -> own_row w1 tenant device delivery command rec).
Proof using Type.
  unfold delivery_row. destruct existing as [rec|]; intros H Hex; [simplify_eq; split_and!; naive_solver|].
  destruct (create _ _ _ _ _) as [created w2] eqn:Ec. pose proof (create_kept _ _ _ _ _ _ _ Ec) as Hk.
  assert (published w2 = published w /\ cw_contracts w2 = cw_contracts w) as [Hp Hc]
    by (by apply create_spec in Ec as [[-> _]|(_ & _ & _ & ->)]).
  destruct created as [[rec|]|e]; simplify_eq; (split_and!; [done..|]); intros rec' Hout; simplify_eq.
  - by apply created_own in Ec.
  - apply bind_ok in Hout as (found & Hf%map_err_inv & (rec & ->%ok_or_ok & ([] & Hv & [= <-])%bind_ok)%bind_ok).
    by eapply existing_own.
Qed.
(** What a delivery may do: keep every row, answer with its own row, and
    publish its own admissible command at most once, while the row is "sent". *)
Definition object_params (params : value) : value := if is_object params then params else Object [].
Definition delivery_effect (w : CommandWorld) (tenant device delivery command : string) (params : value)
    (out : result ApplicationError CommandRecord) (w' : CommandWorld) : Prop :=
  rows_kept w w'
  /\ (forall rec, out = Ok rec -> own_row w' tenant device delivery command rec)
  /\ (published w' = published w
      \/ exists address rec,
         published w' = published w ++ [{| dl_device := device; dl_command := command;
           dl_params := object_params params; dl_correlation := delivery; dl_address := address |}]
         /\ own_row w' tenant device delivery command rec /\ cmd_status rec = "sent"
         /\ admissible w tenant device command (object_params params) address).
Lemma effect_none w tenant device delivery command params e :
  delivery_effect w tenant device delivery command params (Err e) w.
Proof using Type. split_and!; [done|done|by left]. Qed.
Lemma deliver_spec w tenant device delivery command params now out w' :
  deliver_action w tenant device delivery command params now = (out, w') ->
  delivery_effect w tenant device delivery command params out w'.
Proof using Type.
  pose proof (effect_none w tenant device delivery command params) as Hnone.
  unfold deliver_action. case_match eqn:Hempty; [intros [= <- <-]; done|]. cbv zeta. fold (object_params params).
  destruct (find w tenant delivery) as [existing|e] eqn:Ef; simpl; [|intros [= <- <-]; done].
  match goal with |- (match ?x with _ => _ end) = _ -> _ => destruct x as [[rec|]|e] eqn:Eg end;
    [..|intros [= <- <-]; done].
  { intros [= <- <-]. destruct existing as [rec'|]; [|done]. apply bind_ok in Eg as ([] & Hv & E).
    assert (rec' = rec) as -> by (destruct (cmd_status rec' !=s "sent"); congruence).
    split_and!; [done| |by left]. intros ? [= <-]. by eapply existing_own. }
  assert (forall rec, existing = Some rec -> own_row w tenant device delivery command rec) as Hown.
  { intros rec ->. apply bind_ok in Eg as ([] & Hv & _). by eapply existing_own. }
  destruct (validate _ _ _ _ _) as [address|] eqn:Ev; [|intros [= <- <-]; done].
  destruct (delivery_row _ _ _ _ _ _ _ _) as [row w1] eqn:Er.
  destruct (delivery_row_spec _ _ _ _ _ _ _ _ _ _ Er Hown) as (Hk & Hp & Hc & Ho).
  destruct row as [rec|]; [|intros [= <- <-]; by split_and!; [|..|left]].
  destruct (String.eqb_spec (cmd_status rec) "sent") as [Hs|]; [|intros [= <- <-]; by split_and!; [|..|left]].
  intros H. assert (w' = with_published w1 {| dl_device := device; dl_command := command;
    dl_params := object_params params; dl_correlation := delivery; dl_address := address |}
    /\ forall rec', out = Ok rec' -> rec' = rec) as [-> Hout].
  { unfold publish in H. destruct (bus_publish _ _); simpl in H; simplify_eq; naive_solver. }
  split_and!; [done|intros ? ->%Hout; by apply (Ho rec)|]. right. exists address, rec. simpl. rewrite Hp.
  split_and!; [done|by apply (Ho rec)|done|by apply validate_admissible].
Qed.

(** ** A retried delivery *)
Lemma deliver_existing w tenant device delivery command params now r :
  history w !! delivery = Some r -> cr_tenant r = tenant -> str_is_empty delivery || trim_is_empty command = false ->
  deliver_action w tenant device delivery command params now =
  match decode_command r with
  | Err e => (Err (Persistence e), w)
  | Ok rec =>
    match validate_existing rec device command (stored_params (object_params params)) with
    | Err e => (Err e, w)
    | Ok _ =>
      if canonical_status (cr_status r) !=s "sent" then (Ok rec, w) else
      match validate w tenant device command (object_params params) with
      | Err e => (Err e, w)
      | Ok address =>
        let d := {| dl_device := device; dl_command := command; dl_params := object_params params;
                    dl_correlation := delivery; dl_address := address |} in
        (match bus_publish w d with Ok _ => Ok rec | Err e => Err (DeviceCommunication e) end, with_published w d)
      end
    end
  end.
Proof using micros codec host.
  intros Hr Ht He. unfold deliver_action. rewrite He. cbv zeta. fold (object_params params).
  unfold find. rewrite Hr, Ht, String.eqb_refl. destruct (decode_command r) as [rec|e] eqn:Ed; [|done]. simpl.
  destruct (decode_command_ok _ _ Ed) as (Es & _). rewrite Es.
  destruct (validate_existing _ _ _ _) as [[]|]; [simpl|done].
  destruct (String.eqb_spec (canonical_status (cr_status r)) "sent") as [E|E]; [simpl|done].
  destruct (validate _ _ _ _ _) as [address|]; [|done]. unfold publish. by destruct (bus_publish _ _).
Qed.
Lemma validate_no_conflict w tenant device command params m :
  validate w tenant device command params <> Err (Conflict m).
Proof using Type.
  unfold validate. case_match eqn:Ho; [done|]. case_match eqn:Ec; [|done]. intros H.
  apply bind_err in H as [(? & H)%map_err_err|(contract & _ & H)]; [done|].
  apply bind_err in H as [H%ok_or_err|(definition & _ & H)]; [done|].
  apply bind_err in H as [(? & H)%map_err_err|(? & _ & H)]; [done|].
  apply bind_err in H as [H%ok_or_err|(route & _ & H)]; [done|].
  apply bind_err in H as [H%ok_or_err|(transport & _ & H)]; [done|].
  by case_match.
Qed.
Lemma stored_params_wf params : wf_value (stored_params params).
Proof using Type.
  destruct params as [| | | | |m]; simpl; try (repeat constructor; fail). constructor; [apply bt_collect_sorted|].
  apply Forall_forall. intros [k v] Hv. apply bt_get_elem in Hv; [|apply bt_collect_sorted].
  apply bt_collect_elem in Hv. apply list_elem_of_fmap in Hv as (e & [= _ ->] & _). constructor.
Qed.
(** A first delivery that returns a record leaves its "sent" row. *)
Definition first_row (tenant device delivery command : string) (params : value) (now : Z) : CommandRow :=
  sent_row tenant device
    {| nc_id := delivery; nc_command := command; nc_params := value_text (stored_params (object_params params)) |} now.
Lemma first_delivery w tenant device delivery command params now rec w1 :
  history w !! delivery = None -> deliver_action w tenant device delivery command params now = (Ok rec, w1) ->
  history w1 !! delivery = Some (first_row tenant device delivery command params now)
  /\ str_is_empty delivery || trim_is_empty command = false.
Proof using Type.
  intros Hn. unfold deliver_action. destruct (str_is_empty delivery || trim_is_empty command); [done|].
  cbv zeta. fold (object_params params). unfold find. rewrite Hn. simpl.
  destruct (validate _ _ _ _ _) as [address|]; [|done]. destruct (create _ _ _ _ _) as [created w2] eqn:Ec.
  intros H. split; [|done]. apply create_spec in Ec as [[-> Ho]|(_ & _ & -> & ->)].
  { destruct created as [[r|]|e]; [by destruct (Ho r)|done|]. unfold find in H. by rewrite Hn in H. }
  destruct (decode_command _) as [r|e] eqn:Ed; simpl in H.
  - unfold publish in H. repeat case_match; simplify_eq; simpl; by rewrite lookup_insert_eq.
  - unfold find in H. simpl in H. rewrite lookup_insert_eq in H. simpl in H. rewrite String.eqb_refl in H.
    by rewrite Ed in H.
Qed.

End runs.

(** ** A concrete history *)
Definition demo_params : value := Object [("level", VString "high")].
Definition demo_codec : SerdeJson :=
  {| to_string := fun _ => Ok "p"; from_str := fun _ => Ok demo_params; utc_in_range := fun _ => true |}.
Definition demo_host : CommandHost :=
  {| value_text := fun _ => "p"; contract_from_value := fun _ => Err "unread";
     contract_error_text := fun _ => ""; bus_supports := fun _ => true; bus_publish := fun _ _ => Ok tt |}.
#[local] Existing Instance demo_codec.
#[local] Existing Instance demo_host.
#[local] Existing Instance demo_micros.
Definition demo_world : CommandWorld :=
  {| history := ∅; cw_devices := {[("a", "d")]}; cw_contracts := ∅; published := [] |}.
Definition demo_delivered : result ApplicationError CommandRecord * CommandWorld :=
  deliver_action demo_world "a" "d" "ev" "fan" demo_params 5.
