(* ===== verification/CommandTasks.v ===== *)
(** * Concurrent command requests (crates/backend-core/src/application/commands.rs)

    [send] and [deliver_action] await the repositories and the bus several
    times, so requests interleave with each other, with responses and
    timeouts, and with the deletion of devices, which cascades to the command
    history.  A request is a task whose steps are the spans between its
    awaits; run alone a task computes what [Commands.send] and
    [Commands.deliver_action] say. *)
From S2P Require Import Prelude Text BTree Json Errors Access RuleTypes RuleCache RuleSnapshot Shadows.
From S2P Require Import ContractModel Schema Validation ContractCompiler Commands.

Local Open Scope Z_scope.

(** ** Tasks *)
Inductive CommandTask :=
  | SendStart (ctx : TenantContext) (device command : string) (params : value) (uuid : string)
  | SendChecked (tenant device command : string) (params : value) (uuid : string) (address : option string)
  | DeliverStart (tenant device delivery command : string) (params : value)
  | DeliverFound (tenant device delivery command : string) (params : value) (existing : option CommandRecord)
  | DeliverChecked (tenant device delivery command : string) (params : value) (address : option string)
  | DeliverLost (tenant device delivery command : string) (params : value) (address : option string)
      (error : PersistenceError)
  | Publishing (tenant : string) (d : CommandDelivery) (record : CommandRecord)
  | TaskDone (out : result ApplicationError CommandRecord).

Section tasks.
Context {micros : ChronoMicros} {codec : SerdeJson} {host : CommandHost}.
Definition action_delivery (device delivery command : string) (params : value) (address : option string) : CommandDelivery :=
  {| dl_device := device; dl_command := command; dl_params := object_params params; dl_correlation := delivery;
     dl_address := address |}.
(** The end of [deliver_action]: publish while the row is "sent". *)
Definition delivery_ready (tenant : string) (d : CommandDelivery) (record : CommandRecord) : CommandTask :=
  if cmd_status record =s? "sent" then Publishing tenant d record else TaskDone (Ok record).
Definition finish {A} (r : result ApplicationError A) (k : A -> CommandTask) : CommandTask :=
  match r with Ok a => k a | Err e => TaskDone (Err e) end.
Definition task_step (w : CommandWorld) (t : CommandTask) (now : Z) : CommandTask * CommandWorld :=
  match t with
  | SendStart ctx device command params uuid =>
    (finish (if trim_is_empty command then Err (InvalidInput "Command must not be empty")
             else _ ← require_permission ctx SendCommands; validate w (ctx_tenant ctx) device command params)
       (SendChecked (ctx_tenant ctx) device command params uuid), w)
  | SendChecked tenant device command params uuid address =>
    let '(r, w1) := create w tenant device
                      {| nc_id := uuid; nc_command := command; nc_params := value_text params |} now in
    (finish (found ← map_err Persistence r; ok_or found (device_missing device))
       (Publishing tenant {| dl_device := device; dl_command := command; dl_params := params; dl_correlation := uuid;
                             dl_address := address |}), w1)
  | DeliverStart tenant device delivery command params =>
    (if str_is_empty delivery || trim_is_empty command
     then TaskDone (Err (InvalidInput "Command delivery ID and command must not be empty"))
     else finish (map_err Persistence (find w tenant delivery)) (fun existing =>
       match existing with
       | Some record =>
         finish (validate_existing record device command (stored_params (object_params params))) (fun _ =>
           if cmd_status record !=s "sent" then TaskDone (Ok record)
           else DeliverFound tenant device delivery command params existing)
       | None => DeliverFound tenant device delivery command params existing
       end), w)
  | DeliverFound tenant device delivery command params existing =>
    (finish (validate w tenant device command (object_params params)) (fun address =>
       match existing with
       | Some record => delivery_ready tenant (action_delivery device delivery command params address) record
       | None => DeliverChecked tenant device delivery command params address
       end), w)
  | DeliverChecked tenant device delivery command params address =>
    let '(r, w1) := create w tenant device
      {| nc_id := delivery; nc_command := command; nc_params := value_text (stored_params (object_params params)) |} now in
    (match r with
     | Ok (Some record) => delivery_ready tenant (action_delivery device delivery command params address) record
     | Ok None => TaskDone (Err (device_missing device))
     | Err error => DeliverLost tenant device delivery command params address error
     end, w1)
  | DeliverLost tenant device delivery command params address error =>
    (finish (found ← map_err Persistence (find w tenant delivery);
             record ← ok_or found (Persistence error);
             _ ← validate_existing record device command (stored_params (object_params params));
             Ok record)
       (delivery_ready tenant (action_delivery device delivery command params address)), w)
  | Publishing tenant d record =>
    let '(r, w1) := publish w d in (TaskDone (_ ← r; Ok record), w1)
  | TaskDone out => (TaskDone out, w)
  end.
Fixpoint run_task (fuel : nat) (w : CommandWorld) (t : CommandTask) (now : Z) : CommandTask * CommandWorld :=
  match fuel with
  | O => (t, w)
  | S n => let '(t1, w1) := task_step w t now in run_task n w1 t1 now
  end.
Lemma run_done n w out now : run_task n w (TaskDone out) now = (TaskDone out, w).
Proof using Type. induction n; [done|]. simpl. done. Qed.

Lemma run_task_S n w t now :
  run_task (S n) w t now = let '(t1, w1) := task_step w t now in run_task n w1 t1 now.
Proof using Type. done. Qed.

(** Run without interruption, the tasks are the services. *)
Lemma send_alone w ctx device command params uuid now :
  run_task 3 w (SendStart ctx device command params uuid) now
  = (TaskDone (send w ctx device command params uuid now).1, (send w ctx device command params uuid now).2).
Proof using Type.
  unfold send. rewrite run_task_S. cbn [task_step]. destruct (trim_is_empty command); [apply run_done|].
  destruct (require_permission ctx SendCommands) as [u|e]; [|apply run_done]. cbn [mbind result_bind].
  destruct (validate w _ device command params) as [address|e]; [|apply run_done]. cbn [finish].
  rewrite run_task_S. cbn [task_step].
  destruct (create _ _ _ _ _) as [[[rec|]|e] w1]; [|apply run_done..]. cbn [finish map_err mbind result_bind ok_or].
  rewrite run_task_S. cbn [task_step]. unfold publish. by destruct (bus_publish _ _).
Qed.
Lemma deliver_alone w tenant device delivery command params now :
  run_task 5 w (DeliverStart tenant device delivery command params) now
  = (TaskDone (deliver_action w tenant device delivery command params now).1,
     (deliver_action w tenant device delivery command params now).2).
Proof using Type.
  assert (forall n w d rec, run_task (S n) w (delivery_ready tenant d rec) now
    = (TaskDone (if cmd_status rec =s? "sent" then match bus_publish w d with Ok _ => Ok rec | Err e => Err (DeviceCommunication e) end
                 else Ok rec),
       if cmd_status rec =s? "sent" then with_published w d else w)) as Hready.
  { intros n w0 d rec. unfold delivery_ready. destruct (cmd_status rec =s? "sent"); [|apply run_done].
    rewrite run_task_S. cbn [task_step]. unfold publish. by destruct (bus_publish w0 d); rewrite run_done. }
  unfold deliver_action. rewrite run_task_S.
  cbn [task_step]. destruct (str_is_empty delivery || trim_is_empty command); [apply run_done|]. cbv zeta.
  fold (object_params params).
  destruct (find w tenant delivery) as [existing|e]; [|apply run_done]. cbn [map_err finish].
  set (d := action_delivery device delivery command params).
  destruct existing as [rec|].
  - destruct (validate_existing _ _ _ _) as [u|e]; [|apply run_done]. cbn [finish mbind result_bind].
    destruct (cmd_status rec !=s "sent") eqn:Es; [apply run_done|].
    rewrite run_task_S. cbn [task_step].
    destruct (validate _ _ _ _ _) as [address|e]; [|apply run_done]. cbn [finish delivery_row]. rewrite Hready.
    apply negb_false_iff in Es. rewrite Es. unfold publish. by destruct (bus_publish _ _).
  - rewrite run_task_S. cbn [task_step].
    destruct (validate _ _ _ _ _) as [address|e]; [|apply run_done]. cbn [finish delivery_row].
    rewrite run_task_S. cbn [task_step].
    destruct (create _ _ _ _ _) as [[[rec|]|error] w1]; [|apply run_done|].
    + rewrite Hready. destruct (cmd_status rec =s? "sent"); [|done]. unfold publish. by destruct (bus_publish _ _).
    + rewrite run_task_S. cbn [task_step].
      match goal with |- context [finish ?x] => destruct x as [rec|e] end; [|apply run_done]. cbn [finish].
      rewrite Hready. destruct (cmd_status rec =s? "sent"); [|done]. unfold publish. by destruct (bus_publish _ _).
Qed.

(** ** Histories: any interleaving of request steps, responses, timeouts,
    assignments of contracts and deletions of devices *)
Record CommandSystem := { sys_world : CommandWorld; sys_tasks : list CommandTask }.
Inductive command_op :=
  | OpSend (ctx : TenantContext) (device command : string) (params : value) (uuid : string)
  | OpDeliver (tenant device delivery command : string) (params : value)
  | OpRun (task : nat) (now : Z) (* one step of a request under way *)
  | OpResponse (tenant device id device_status : string) (payload : option string) (now : NaiveDateTime)
  | OpTimeout (timeout_secs : Z) (now : NaiveDateTime)
  | OpAssign (tenant device : string) (document : value) (* by the device services *)
  | OpDelete (tenant device : string). (* by the device services *)
(** DELETE FROM devices: the assignment and, by the foreign key's cascade, the
    device's command history go with it. *)
Definition not_of (tenant device : string) (e : string * CommandRow) : Prop :=
  ~ (cr_tenant e.2 = tenant /\ cr_device e.2 = device).
#[local] Instance not_of_dec tenant device e : Decision (not_of tenant device e).
Proof using Type. unfold not_of. apply _. Defined.
Definition delete_device (w : CommandWorld) (tenant device : string) : CommandWorld :=
  {| history := filter (not_of tenant device) (history w); cw_devices := cw_devices w ∖ {[(tenant, device)]};
     cw_contracts := delete (tenant, device) (cw_contracts w); published := published w |}.
Definition assign_contract (w : CommandWorld) (tenant device : string) (document : value) : CommandWorld :=
  {| history := history w; cw_devices := {[(tenant, device)]} ∪ cw_devices w;
     cw_contracts := <[(tenant, device) := document]> (cw_contracts w); published := published w |}.
Variable seconds_before : NaiveDateTime -> Z -> option NaiveDateTime.
Definition with_world (s : CommandSystem) (w : CommandWorld) : CommandSystem :=
  {| sys_world := w; sys_tasks := sys_tasks s |}.
Definition with_task (s : CommandSystem) (t : CommandTask) : CommandSystem :=
  {| sys_world := sys_world s; sys_tasks := sys_tasks s ++ [t] |}.
Definition command_step (s : CommandSystem) (op : command_op) : CommandSystem :=
  let w := sys_world s in
  match op with
  | OpSend ctx device command params uuid => with_task s (SendStart ctx device command params uuid)
  | OpDeliver tenant device delivery command params => with_task s (DeliverStart tenant device delivery command params)
  | OpRun i now =>
    match sys_tasks s !! i with
    | Some t => let '(t', w') := task_step w t now in {| sys_world := w'; sys_tasks := <[i := t']> (sys_tasks s) |}
    | None => s
    end
  | OpResponse tenant device id device_status payload now =>
    with_world s (handle_response w tenant device id device_status payload now).2
  | OpTimeout timeout_secs now => with_world s (worker_timeout_stale seconds_before w timeout_secs now).2
  | OpAssign tenant device document => with_world s (assign_contract w tenant device document)
  | OpDelete tenant device => with_world s (delete_device w tenant device)
  end.
Definition command_run (s : CommandSystem) (ops : list command_op) : CommandSystem := fold_left command_step ops s.
Lemma run_snoc ops s op : command_run s (ops ++ [op]) = command_step (command_run s ops) op.
Proof using Type. apply fold_left_app. Qed.
Lemma run_app s ops ops' : command_run s (ops ++ ops') = command_run (command_run s ops) ops'.
Proof using Type. apply fold_left_app. Qed.

(** ** The fate of a row *)
Lemma task_kept w t now : rows_kept w (task_step w t now).2.
Proof using Type.
  destruct t; cbn [task_step]; try done.
  - destruct (create _ _ _ _ _) as [r w1] eqn:E. by eapply create_kept.
  - destruct (create _ _ _ _ _) as [r w1] eqn:E. by eapply create_kept.
  - intros id r Hr. exists r. split; [done|constructor].
Qed.
(** Every row stays, moving forward, unless its own device is deleted. *)
Lemma step_row s op id r :
  history (sys_world s) !! id = Some r ->
  (exists r', history (sys_world (command_step s op)) !! id = Some r' /\ command_moves r r')
  \/ op = OpDelete (cr_tenant r) (cr_device r).
Proof using Type.
  intros Hr. assert (forall w', rows_kept (sys_world s) w' -> exists r', history w' !! id = Some r' /\ command_moves r r') as Hk.
  { intros w' H. by apply H. }
  destruct op as [| |i now|tenant device id' device_status payload now|secs now|tenant device document|tenant device];
    cbn [command_step with_task with_world sys_world].
  - left. by apply Hk.
  - left. by apply Hk.
  - left. destruct (sys_tasks s !! i) as [t|]; [|by apply Hk]. pose proof (task_kept (sys_world s) t now) as H.
    destruct (task_step _ t now). by apply Hk.
  - left. apply Hk. unfold handle_response. destruct (str_is_empty id'); [done|].
    destruct (apply_response _ _ _ _ _ _ _) eqn:E. by eapply apply_response_kept.
  - left. apply Hk. unfold worker_timeout_stale. destruct (if secs <=? Int.i64_max then _ else _); [apply timeout_kept|done].
  - left. exists r. split; [exact Hr|constructor].
  - destruct (decide (not_of tenant device (id, r))) as [Hn|Hn].
    + left. exists r. split; [|constructor]. simpl. by apply map_lookup_filter_Some.
    + right. unfold not_of in Hn. simpl in Hn. by apply dec_stable in Hn as [<- <-].
Qed.
Definition same_command (r r' : CommandRow) : Prop :=
  cr_id r' = cr_id r /\ cr_tenant r' = cr_tenant r /\ cr_device r' = cr_device r /\ cr_command r' = cr_command r
  /\ cr_params r' = cr_params r /\ cr_created_at r' = cr_created_at r.
Lemma moves_spec r r' :
  command_moves r r' ->
  same_command r r'
  /\ (r' = r \/ answerable (cr_status r) = true /\ cr_status r' ∈ ["delivered"; "succeeded"; "failed"; "timed_out"]).
Proof using Type.
  unfold same_command. intros Hm. induction Hm as [r0|r0 r1 status response now Hm [Hs IH] Ha Hst]; [naive_solver|].
  split; [exact Hs|]. right. destruct IH as [->|[IH _]]; done.
Qed.
Lemma run_row ops : forall s id r,
  history (sys_world s) !! id = Some r ->
  (exists r', history (sys_world (command_run s ops)) !! id = Some r' /\ command_moves r r')
  \/ OpDelete (cr_tenant r) (cr_device r) ∈ ops.
Proof using Type.
  induction ops as [|op ops IH]; intros s id r Hr; [left; exists r; split; [done|constructor]|].
  destruct (step_row s op id r Hr) as [(r1 & H1 & M1)| ->]; [|right; set_solver].
  destruct (moves_spec _ _ M1) as [(_ & Et & Ed & _) _].
  destruct (IH _ _ _ H1) as [(r2 & H2 & M2)|Hd]; [left|right; rewrite <- Et, <- Ed; set_solver].
  exists r2. split; [done|]. by transitivity r1.
Qed.

(** ** Where a publication comes from

    Each part of the account holds at some point of the history and from then
    on: the request was made, the contract admitted the command, and the
    history had its row, which is still there unless the device was deleted. *)
Definition requested (ops : list command_op) (tenant : string) (d : CommandDelivery) : Prop :=
  (exists ctx, OpSend ctx (dl_device d) (dl_command d) (dl_params d) (dl_correlation d) ∈ ops
     /\ ctx_tenant ctx = tenant /\ require_permission ctx SendCommands = Ok tt)
  \/ (exists params, OpDeliver tenant (dl_device d) (dl_correlation d) (dl_command d) params ∈ ops
        /\ dl_params d = object_params params).
Definition checked (s : CommandSystem) (ops : list command_op) (tenant : string) (d : CommandDelivery) : Prop :=
  exists before after, ops = before ++ after
    /\ admissible (sys_world (command_run s before)) tenant (dl_device d) (dl_command d) (dl_params d) (dl_address d).
Definition row_for (w : CommandWorld) (tenant device command id : string) (r : CommandRow) : Prop :=
  history w !! id = Some r /\ cr_tenant r = tenant /\ cr_device r = device /\ cr_command r = command.
Definition stored (s : CommandSystem) (ops : list command_op) (tenant device command id : string) : Prop :=
  exists before after r, ops = before ++ after
    /\ row_for (sys_world (command_run s before)) tenant device command id r
    /\ canonical_status (cr_status r) = "sent"
    /\ ((exists r', row_for (sys_world (command_run s ops)) tenant device command id r' /\ same_command r r')
        \/ OpDelete tenant device ∈ after).
Definition accounted (s : CommandSystem) (ops : list command_op) (d : CommandDelivery) : Prop :=
  exists tenant, requested ops tenant d /\ checked s ops tenant d
    /\ stored s ops tenant (dl_device d) (dl_command d) (dl_correlation d).

Lemma requested_snoc ops op tenant d : requested ops tenant d -> requested (ops ++ [op]) tenant d.
Proof using Type.
  intros [(ctx & Hin & H)|(params & Hin & H)]; [left; exists ctx|right; exists params]; (split; [|done]); set_solver.
Qed.
Lemma checked_snoc s ops op tenant d : checked s ops tenant d -> checked s (ops ++ [op]) tenant d.
Proof using Type.
  intros (before & after & -> & H). exists before, (after ++ [op]). by rewrite app_assoc.
Qed.
Lemma checked_now s ops op tenant d :
  admissible (sys_world (command_run s ops)) tenant (dl_device d) (dl_command d) (dl_params d) (dl_address d) ->
  checked s (ops ++ [op]) tenant d.
Proof using Type. intros H. by exists ops, [op]. Qed.
Lemma stored_snoc s ops op tenant device command id :
  stored s ops tenant device command id -> stored s (ops ++ [op]) tenant device command id.
Proof using Type.
  intros (before & after & r & -> & Hr & Hs & Hfate). exists before, (after ++ [op]), r.
  split; [by rewrite app_assoc|]. split; [done|]. split; [done|].
  destruct Hfate as [(r' & (H1 & H2 & H3 & H4) & Hsame)|Hd]; [|right; set_solver].
  rewrite run_snoc. destruct (step_row _ op _ _ H1) as [(r2 & Hr2 & [Hs2 _]%moves_spec)| ->].
  - left. exists r2. unfold same_command, row_for in *. destruct Hs2 as (? & ? & ? & ? & ? & ?).
    destruct Hsame as (? & ? & ? & ? & ? & ?). split_and!; congruence.
  - right. rewrite H2, H3. set_solver.
Qed.
Lemma stored_now s ops op tenant device command id r :
  row_for (sys_world (command_run s (ops ++ [op]))) tenant device command id r ->
  canonical_status (cr_status r) = "sent" -> stored s (ops ++ [op]) tenant device command id.
Proof using Type.
  intros H Hs. exists (ops ++ [op]), [], r. split; [by rewrite app_nil_r|]. split; [done|]. split; [done|].
  left. exists r. done.
Qed.
(** A row that is read as "sent". *)
Lemma own_stored s ops op tenant device delivery command rec :
  own_row (sys_world (command_run s (ops ++ [op]))) tenant device delivery command rec -> cmd_status rec = "sent" ->
  stored s (ops ++ [op]) tenant device command delivery.
Proof using Type.
  intros (r & Hr & Ht & Hd & Hc & Hdec) Hs. apply (stored_now _ _ _ _ _ _ _ r); [done|].
  by destruct (decode_command_ok _ _ Hdec) as [<- _].
Qed.

(** What each task under way already has of the account. *)
Definition task_ok (s : CommandSystem) (ops : list command_op) (t : CommandTask) : Prop :=
  match t with
  | SendStart ctx device command params uuid => OpSend ctx device command params uuid ∈ ops
  | SendChecked tenant device command params uuid address =>
    let d := {| dl_device := device; dl_command := command; dl_params := params; dl_correlation := uuid;
                dl_address := address |} in
    requested ops tenant d /\ checked s ops tenant d
  | DeliverStart tenant device delivery command params => OpDeliver tenant device delivery command params ∈ ops
  | DeliverFound tenant device delivery command params existing =>
    OpDeliver tenant device delivery command params ∈ ops
    /\ forall rec, existing = Some rec -> cmd_status rec = "sent" /\ stored s ops tenant device command delivery
  | DeliverChecked tenant device delivery command params address
  | DeliverLost tenant device delivery command params address _ =>
    let d := action_delivery device delivery command params address in
    requested ops tenant d /\ checked s ops tenant d
  | Publishing tenant d _ =>
    requested ops tenant d /\ checked s ops tenant d
    /\ stored s ops tenant (dl_device d) (dl_command d) (dl_correlation d)
  | TaskDone _ => True
  end.
Lemma task_ok_snoc s ops op t : task_ok s ops t -> task_ok s (ops ++ [op]) t.
Proof using Type.
  destruct t; simpl; try done.
  - set_solver.
  - intros [? ?]. split; [by apply requested_snoc|by apply checked_snoc].
  - set_solver.
  - intros [? H]. split; [set_solver|]. intros rec [? ?]%H. split; [done|]. by apply stored_snoc.
  - intros [? ?]. split; [by apply requested_snoc|by apply checked_snoc].
  - intros [? ?]. split; [by apply requested_snoc|by apply checked_snoc].
  - intros (? & ? & ?). split; [by apply requested_snoc|]. split; [by apply checked_snoc|by apply stored_snoc].
Qed.
Lemma deliver_requested ops tenant device delivery command params address :
  OpDeliver tenant device delivery command params ∈ ops ->
  requested ops tenant (action_delivery device delivery command params address).
Proof using Type. intros H. right. by exists params. Qed.
Lemma ready_ok s ops op tenant device delivery command params address rec :
  let d := action_delivery device delivery command params address in
  requested (ops ++ [op]) tenant d -> checked s (ops ++ [op]) tenant d ->
  (cmd_status rec = "sent" -> stored s (ops ++ [op]) tenant device command delivery) ->
  task_ok s (ops ++ [op]) (delivery_ready tenant d rec).
Proof using Type.
  cbv zeta. intros Hr Hc Hs. unfold delivery_ready.
  destruct (String.eqb_spec (cmd_status rec) "sent") as [E|]; [|done]. simpl. auto.
Qed.
Lemma created_row w tenant device n now rec w1 :
  create w tenant device n now = (Ok (Some rec), w1) ->
  row_for w1 tenant device (nc_command n) (nc_id n) (sent_row tenant device n now).
Proof using Type.
  intros [[_ Hn]|(_ & _ & _ & ->)]%create_spec; [by destruct (Hn rec)|].
  unfold row_for. simpl. by rewrite lookup_insert_eq.
Qed.
Lemma task_step_ok s ops i now t t' w' :
  let w := sys_world (command_run s ops) in
  let ops' := ops ++ [OpRun i now] in
  sys_world (command_run s ops') = w' -> task_ok s ops t -> task_step w t now = (t', w') ->
  task_ok s ops' t'
  /\ (published w' = published w \/ exists d, published w' = published w ++ [d] /\ accounted s ops' d).
Proof using Type.
  cbv zeta. set (w := sys_world (command_run s ops)). intros Hw Hok%(task_ok_snoc _ _ (OpRun i now)) Hstep.
  destruct t as [ctx device command params uuid|tenant device command params uuid address|tenant device delivery command params
    |tenant device delivery command params existing|tenant device delivery command params address
    |tenant device delivery command params address error|tenant d record|out]; cbn [task_step] in Hstep.
  - injection Hstep as <- <-. split; [|by left]. destruct (trim_is_empty command); [done|].
    destruct (require_permission ctx SendCommands) as [[]|] eqn:Ep; [|done]. cbn [mbind result_bind].
    destruct (validate w (ctx_tenant ctx) device command params) as [address|] eqn:Ev; [|done]. simpl. split.
    + left. by exists ctx.
    + apply checked_now. by apply validate_admissible.
  - destruct (create w tenant device _ now) as [r w1] eqn:Ec. injection Hstep as <- <-. split.
    2: { left. by apply create_spec in Ec as [[-> _]|(_ & _ & _ & ->)]. }
    destruct r as [[rec|]|e]; [|done..]. simpl. destruct Hok as [Hr Hc]. split; [done|]. split; [done|].
    apply created_row in Ec. simpl in Ec. rewrite <- Hw in Ec. by apply (stored_now _ _ _ _ _ _ _ _ Ec).
  - injection Hstep as <- <-. split; [|by left]. destruct (str_is_empty delivery || trim_is_empty command); [done|].
    destruct (find w tenant delivery) as [[rec|]|e] eqn:Ef; [| |done]; simpl.
    2: { split; [exact Hok|done]. }
    destruct (validate_existing rec device command _) as [[]|] eqn:Ev; [|done]. simpl.
    destruct (String.eqb_spec (cmd_status rec) "sent") as [Es|]; [|done]. simpl. split; [exact Hok|].
    intros rec' [= <-]. split; [done|]. apply (own_stored _ _ _ _ _ _ _ rec); [|done]. rewrite Hw. by eapply existing_own.
  - injection Hstep as <- <-. split; [|by left]. destruct Hok as [Hr Hex].
    destruct (validate w tenant device command (object_params params)) as [address|] eqn:Ev; [|done]. simpl.
    assert (checked s (ops ++ [OpRun i now]) tenant (action_delivery device delivery command params address)) as Hc.
    { apply checked_now. by apply validate_admissible. }
    pose proof (deliver_requested _ _ _ _ _ _ address Hr) as Hq.
    destruct existing as [rec|]; [|done]. apply ready_ok; [done|done|]. intros _. by apply (Hex rec).
  - destruct (create w tenant device _ now) as [r w1] eqn:Ec. injection Hstep as <- <-. split.
    2: { left. by apply create_spec in Ec as [[-> _]|(_ & _ & _ & ->)]. }
    destruct Hok as [Hr Hc]. destruct r as [[rec|]|e]; [|done|done]. apply ready_ok; [done|done|]. intros _.
    apply created_row in Ec. simpl in Ec. rewrite <- Hw in Ec. by apply (stored_now _ _ _ _ _ _ _ _ Ec).
  - injection Hstep as <- <-. split; [|by left]. destruct Hok as [Hr Hc].
    match goal with |- context [finish ?x] => destruct x as [rec|e] eqn:Ex end; [|done].
    apply bind_ok in Ex as (found & Hf%map_err_inv & (rec' & ->%ok_or_ok & ([] & Hv & [= <-])%bind_ok)%bind_ok).
    apply ready_ok; [done|done|]. intros Es. apply (own_stored _ _ _ _ _ _ _ rec'); [|done]. rewrite Hw. by eapply existing_own.
  - unfold publish in Hstep. injection Hstep as <- <-. split; [done|]. right. exists d. split; [done|].
    exists tenant. exact Hok.
  - injection Hstep as <- <-. split; [done|by left].
Qed.
Lemma world_published s op :
  (forall i now, op <> OpRun i now) -> published (sys_world (command_step s op)) = published (sys_world s).
Proof using Type.
  intros Hne. destruct op as [| |i now|tenant device id device_status payload now|secs now|tenant device document|tenant device];
    cbn [command_step with_task with_world sys_world]; try done.
  - by destruct (Hne i now).
  - unfold handle_response, apply_response. by repeat case_match.
  - unfold worker_timeout_stale. by destruct (if secs <=? Int.i64_max then _ else _).
Qed.
Lemma commands_run_ok s ops :
  sys_tasks s = [] ->
  Forall (task_ok s ops) (sys_tasks (command_run s ops))
  /\ forall d, d ∈ published (sys_world (command_run s ops)) -> d ∈ published (sys_world s) \/ accounted s ops d.
Proof using Type.
  intros Hs. induction ops as [|op ops [IHt IHd]] using rev_ind; [simpl; rewrite Hs; auto|].
  assert (Forall (task_ok s (ops ++ [op])) (sys_tasks (command_run s ops))) as Htasks.
  { eapply Forall_impl; [exact IHt|]. intros t. apply task_ok_snoc. }
  assert (forall d, d ∈ published (sys_world (command_run s ops)) ->
    d ∈ published (sys_world s) \/ accounted s (ops ++ [op]) d) as Hold.
  { intros d [?|(tenant & ? & ? & ?)]%IHd; [by left|right]. exists tenant.
    split; [by apply requested_snoc|]. split; [by apply checked_snoc|by apply stored_snoc]. }
  assert ((exists i now, op = OpRun i now) \/ forall i now, op <> OpRun i now) as [(i & now & ->)|Hn]
    by (destruct op; naive_solver).
  - pose proof (run_snoc ops s (OpRun i now)) as Hrun. cbn [command_step] in Hrun.
    destruct (sys_tasks (command_run s ops) !! i) as [t|] eqn:Et; [|by rewrite Hrun].
    destruct (task_step (sys_world (command_run s ops)) t now) as [t' w'] eqn:Estep.
    destruct (task_step_ok s ops i now t t' w') as [Hok Hpub]; [by rewrite Hrun|by eapply Forall_lookup_1|done|].
    rewrite Hrun. cbn [sys_tasks sys_world]. split; [by apply Forall_insert|]. intros d Hd.
    destruct Hpub as [E|(d' & E & Ha)]; rewrite E in Hd; [auto|].
    apply elem_of_app in Hd as [Hd|Hd]; [auto|]. apply list_elem_of_singleton in Hd as ->. by right.
  - rewrite run_snoc, world_published by done. split; [|done].
    destruct op; cbn [command_step with_task with_world sys_tasks]; try done.
    + apply Forall_app. split; [done|]. apply Forall_singleton. simpl. set_solver.
    + apply Forall_app. split; [done|]. apply Forall_singleton. simpl. set_solver.
    + by edestruct Hn.
Qed.

(** A command's history row records one command for good: whatever requests,
    answers, timeouts and reassignments follow, the row keeps its id, tenant,
    device, command, parameters and creation time, moves only while it awaits
    an answer, only to an answered or timed-out status and never back to
    "sent", and once final does not change at all; only the deletion of its
    device removes it. *)
Theorem command_lifecycle s ops id r :
  history (sys_world s) !! id = Some r ->
  (exists r', history (sys_world (command_run s ops)) !! id = Some r'
    /\ same_command r r'
    /\ (r' = r \/ answerable (cr_status r) = true
                  /\ cr_status r' ∈ ["delivered"; "succeeded"; "failed"; "timed_out"])
    /\ (answerable (cr_status r) = false -> r' = r))
  \/ OpDelete (cr_tenant r) (cr_device r) ∈ ops.
Proof using micros codec host seconds_before.
  intros [(r' & Hr' & [Hs Hm]%moves_spec)|Hd]%(run_row ops); [left|by right]. exists r'. split_and!; [done..|].
  intros E. destruct Hm as [|[E' _]]; congruence.
Qed.


(** A rule delivery can be retried: after a first delivery under an id,
    and whatever happens in between to a device that is not deleted,
    repeating it finds its own row, adds or
    changes no row and never reports a conflict; when the row has left "sent"
    nothing is published again and the stored command is the answer; and
    another command under the same id is refused without any effect.  The
    codec hypothesis says that the stored parameters, an object of strings,
    read back as they were printed. *)
Theorem delivery_retry w ops tasks tenant device delivery command params now now' rec w1 :
  from_str (value_text (stored_params (object_params params))) = Ok (stored_params (object_params params)) ->
  history w !! delivery = None ->
  deliver_action w tenant device delivery command params now = (Ok rec, w1) -> OpDelete tenant device ∉ ops ->
  let w2 := sys_world (command_run {| sys_world := w1; sys_tasks := tasks |} ops) in
  let retry := deliver_action w2 tenant device delivery command params now' in
  exists r2, history w2 !! delivery = Some r2
    /\ history retry.2 = history w2
    /\ (forall m, retry.1 <> Err (Conflict m))
    /\ (canonical_status (cr_status r2) <> "sent" -> retry = (map_err Persistence (decode_command r2), w2))
    /\ (forall device' command' params', (device', command') <> (device, command) ->
         let other := deliver_action w2 tenant device' delivery command' params' now' in
         other.2 = w2 /\ exists e, other.1 = Err e).
Proof using micros codec host seconds_before.
  intros Hc Hn [Hr He]%first_delivery Hdel w2 retry; [|done].
  destruct (run_row ops {| sys_world := w1; sys_tasks := tasks |} _ _ Hr)
    as [(r2 & Hr2 & [(_ & Ht & Hd & Hcmd & Hp & _) _]%moves_spec)|]; [|done].
  exists r2. fold w2 in Hr2. simpl in Ht, Hd, Hcmd, Hp. unfold retry.
  rewrite (deliver_existing w2 tenant device delivery command params now' r2) by done.
  assert (forall rec2, decode_command r2 = Ok rec2 ->
    validate_existing rec2 device command (stored_params (object_params params)) = Ok tt) as Hv.
  { intros rec2 (_ & Ed & Ec & Ep & _)%decode_command_ok. apply validate_existing_ok.
    rewrite Ed, Ec, Ep, Hd, Hcmd, Hp. split_and!; [done..|]. eexists. split; [exact Hc|].
    apply value_eqb_refl, stored_params_wf. }
  split_and!; [done|..].
  - destruct (decode_command r2); [|done]. by repeat case_match.
  - intros m. destruct (decode_command r2) as [rec2|]; [|done]. rewrite (Hv rec2) by done.
    case_match; [done|]. destruct (validate w2 _ _ _ _) as [a|e] eqn:E; simpl; [by case_match|].
    intros [= ->]. by eapply validate_no_conflict.
  - intros Hs. destruct (decode_command r2) as [rec2|]; [|done]. rewrite (Hv rec2) by done.
    destruct (String.eqb_spec (canonical_status (cr_status r2)) "sent"); done.
  - intros device' command' params' Hne. cbv zeta.
    destruct (str_is_empty delivery || trim_is_empty command') eqn:He'.
    { unfold deliver_action. rewrite He'. eauto. }
    rewrite (deliver_existing w2 tenant device' delivery command' params' now' r2) by done.
    destruct (decode_command r2) as [rec2|] eqn:E; [|eauto]. apply decode_command_ok in E as (_ & Ed & Ec & _).
    destruct (validate_existing rec2 device' command' _) as [[]|] eqn:E; [|eauto].
    apply validate_existing_ok in E as (E1 & E2 & _). exfalso. congruence.
Qed.
End tasks.

(** ** Concrete histories *)
#[local] Existing Instance demo_codec.
#[local] Existing Instance demo_host.
#[local] Existing Instance demo_micros.
Definition demo_before (now : NaiveDateTime) (secs : Z) : option NaiveDateTime := Some (now - secs * 1000000000).
Definition alone (w : CommandWorld) : CommandSystem := {| sys_world := w; sys_tasks := [] |}.
Definition demo_answered : list command_op := [OpResponse "a" "d" "ev" "succeeded" (Some "ok") 7000].
Lemma command_lifecycle_witness :
  cr_status <$> history (sys_world (command_run demo_before (alone demo_delivered.2) (demo_answered ++ [OpTimeout 0 9000]))) !! "ev"
  = Some "succeeded".
Proof.
  rewrite run_app.
  destruct (history (sys_world (command_run demo_before (alone demo_delivered.2) demo_answered)) !! "ev") as [r|] eqn:E;
    [|vm_compute in E; discriminate E].
  destruct (command_lifecycle demo_before _ [OpTimeout 0 9000] "ev" r E) as [(r' & Hr' & _ & _ & Hfix)|Hd].
  - rewrite Hr'. vm_compute in E. injection E as <-. simpl. rewrite Hfix by reflexivity. reflexivity.
  - apply list_elem_of_singleton in Hd. discriminate Hd.
Defined.
(** The device is deleted between the insertion of the row and the
    publication: the command goes out, its row is gone, and the account says
    so. *)
Definition demo_race : list command_op :=
  [OpDeliver "a" "d" "ev" "fan" demo_params; OpRun 0 1; OpRun 0 2; OpRun 0 3; OpDelete "a" "d"; OpRun 0 4].
Definition demo_fan : CommandDelivery :=
  {| dl_device := "d"; dl_command := "fan"; dl_params := demo_params; dl_correlation := "ev"; dl_address := None |}.
(** The device answered: the retried delivery publishes nothing. *)
Lemma delivery_retry_witness :
  let w2 := sys_world (command_run demo_before (alone demo_delivered.2) demo_answered) in
  (deliver_action w2 "a" "d" "ev" "fan" demo_params 8).2 = w2.
Proof.
  destruct demo_delivered as [[rec|e] w1] eqn:E; [|vm_compute in E; discriminate E]. cbv zeta. cbn [snd].
  destruct (delivery_retry (micros := demo_micros) (codec := demo_codec) (host := demo_host) demo_before demo_world demo_answered []
    "a" "d" "ev" "fan" demo_params 5 8 rec w1 eq_refl eq_refl E) as (r2 & Hr2 & _ & _ & Hout & _).
  { intros Hd%list_elem_of_singleton. discriminate Hd. }
  unfold alone. rewrite Hout; [reflexivity|]. vm_compute in E. injection E as <- <-. vm_compute in Hr2. injection Hr2 as <-.
  discriminate.
Defined.
