(* ===== verification/RuleDelivery.v ===== *)
(** * Delivery of rule actions (crates/backend-core/src/application/rule_delivery.rs)

    The worker that executes a claimed outbox event through the alert and
    command services or the webhook sender, and settles it in the outbox. *)
From S2P Require Import Prelude Text BTree Json Errors Access RuleTypes RuleCache RuleSnapshot Shadows.
From S2P Require Import Alerts Outbox Commands CommandTasks.

Local Open Scope Z_scope.

Record WebhookCall := {
  wh_url : string; wh_headers : gmap string string; wh_payload : value; wh_delivery : string;
}.
Record DeliveryWorld := {
  dw_outbox : gmap string OutboxRow;
  dw_alerts : AlertStore;
  dw_commands : CommandWorld;
  dw_webhooks : list WebhookCall;
}.
Definition with_alert_store (w : DeliveryWorld) (s : AlertStore) : DeliveryWorld :=
  {| dw_outbox := dw_outbox w; dw_alerts := s; dw_commands := dw_commands w; dw_webhooks := dw_webhooks w |}.
Definition with_commands (w : DeliveryWorld) (c : CommandWorld) : DeliveryWorld :=
  {| dw_outbox := dw_outbox w; dw_alerts := dw_alerts w; dw_commands := c; dw_webhooks := dw_webhooks w |}.
Definition with_outbox (w : DeliveryWorld) (t : gmap string OutboxRow) : DeliveryWorld :=
  {| dw_outbox := t; dw_alerts := dw_alerts w; dw_commands := dw_commands w; dw_webhooks := dw_webhooks w |}.
Definition with_webhook (w : DeliveryWorld) (c : WebhookCall) : DeliveryWorld :=
  {| dw_outbox := dw_outbox w; dw_alerts := dw_alerts w; dw_commands := dw_commands w;
     dw_webhooks := dw_webhooks w ++ [c] |}.

(** The host: error texts and the webhook sender; [dw_webhooks] logs every call. *)
Class DeliveryHost := {
  application_error_text : ApplicationError -> string;
  tenant_error_text : TenantIdError -> string;
  webhook_send : DeliveryWorld -> WebhookCall -> result string unit;
}.

Section delivery.
Context {micros : ChronoMicros} {codec : SerdeJson} {actions : ActionCodec} {bus : CommandHost} {host : DeliveryHost}.
(** An alert or command service call on behalf of a tenant. *)
Definition for_tenant (w : DeliveryWorld) (tenant : string)
    (call : string -> result ApplicationError unit * DeliveryWorld) : result string unit * DeliveryWorld :=
  match tenant_id_new tenant with
  | Err e => (Err (tenant_error_text e), w)
  | Ok t => let '(r, w') := call t in (map_err application_error_text r, w')
  end.
Definition execute (w : DeliveryWorld) (action : PendingAction) (delivery : string) (now : Z)
    : result string unit * DeliveryWorld :=
  match action with
  | CreateAlert tenant rule device severity message v =>
    for_tenant w tenant (fun t =>
      let '(r, s) := create_for_action (dw_alerts w) t delivery
        {| na_id := delivery; na_rule := rule; na_device := device; na_severity := severity;
           na_message := message; na_value := v |} now in
      (_ ← r; Ok tt, with_alert_store w s))
  | UpdateAlertValue tenant alert v =>
    for_tenant w tenant (fun t =>
      let '(r, s) := update_value_for_action (dw_alerts w) t alert v in (r, with_alert_store w s))
  | ResolveAlert tenant alert =>
    for_tenant w tenant (fun t =>
      let '(r, s) := resolve_for_action (dw_alerts w) t alert now in (r, with_alert_store w s))
  | SendWebhook _ url headers payload =>
    let call := {| wh_url := url; wh_headers := headers; wh_payload := payload; wh_delivery := delivery |} in
    (webhook_send w call, with_webhook w call)
  | SendCommand tenant device command params =>
    for_tenant w tenant (fun t =>
      let '(r, c) := deliver_action (dw_commands w) t device delivery command params now in
      (_ ← r; Ok tt, with_commands w c))
  | UpdateCooldown _ _ _ _ | UpdateZoneEntry _ _ _ _ =>
    (Err "runtime state must be committed during ingestion, not delivered", w)
  end.
Definition deliver (w : DeliveryWorld) (event : OutboxEventRecord) (now : Z)
    : result ApplicationError bool * DeliveryWorld :=
  let '(outcome, failure, w1) :=
    match decode_event event with
    | Ok action => let '(r, w1) := execute w action (ev_id event) now in (r, Retryable, w1)
    | Err e => (Err ("failed to deserialize pending action: " +:+ application_error_text e), Permanent, w)
    end in
  let '(r, t) :=
    match outcome with
    | Ok _ => succeeded (dw_outbox w1) event now
    | Err error => failed (dw_outbox w1) event failure error now
    end in
  (r, with_outbox w1 t).

(** ** Executing again, later

    Between the two executions the event's lease expires, so any other work
    may come in between: on alerts, on commands (requests, answers, timeouts,
    reassignments, deletions of devices), webhook calls and the outbox.  Only
    the deletion of [keep], the device a command is for, is left out: it takes
    the command's row with it. *)
Variable seconds_before : NaiveDateTime -> Z -> option NaiveDateTime.
Inductive delivery_step (keep : option (string * string)) : DeliveryWorld -> DeliveryWorld -> Prop :=
  | ds_alerts w s : alert_step (dw_alerts w) s -> delivery_step keep w (with_alert_store w s)
  | ds_commands w c tasks tasks' op :
      command_step seconds_before {| sys_world := dw_commands w; sys_tasks := tasks |} op
      = {| sys_world := c; sys_tasks := tasks' |} ->
      (forall t d, keep = Some (t, d) -> op <> OpDelete t d) -> delivery_step keep w (with_commands w c)
  | ds_webhook w c : delivery_step keep w (with_webhook w c)
  | ds_outbox w t : delivery_step keep w (with_outbox w t).
Definition command_target (action : PendingAction) : option (string * string) :=
  match action with SendCommand tenant device _ _ => Some (tenant, device) | _ => None end.
Lemma steps_receipts keep w w' :
  rtc (delivery_step keep) w w' -> as_deliveries (dw_alerts w) ⊆ as_deliveries (dw_alerts w').
Proof using Type.
  induction 1 as [|x y z Hxy _ IH]; [done|]. etrans; [|exact IH]. destruct Hxy; try done. by apply alert_step_receipts.
Qed.
Lemma steps_command_row tenant device w w' id r :
  rtc (delivery_step (Some (tenant, device))) w w' ->
  history (dw_commands w) !! id = Some r -> cr_tenant r = tenant -> cr_device r = device ->
  exists r', history (dw_commands w') !! id = Some r' /\ cr_tenant r' = tenant /\ cr_device r' = device.
Proof using Type.
  intros Hs. revert r. induction Hs as [|x y z Hxy _ IH]; intros r Hr Ht Hd; [eauto|].
  assert (exists r', history (dw_commands y) !! id = Some r' /\ cr_tenant r' = tenant /\ cr_device r' = device)
    as (r1 & H1 & H2 & H3); [|by apply (IH r1)].
  destruct Hxy as [w s _|w c tasks tasks' op E Hop|w c|w t]; [by exists r| |by exists r|by exists r].
  destruct (step_row seconds_before {| sys_world := dw_commands w; sys_tasks := tasks |} op id r Hr)
    as [(r1 & H1 & [(_ & E1 & E2 & _) _]%moves_spec)|Hdel]; [|by destruct (Hop tenant device); [|rewrite Hdel, Ht, Hd]].
  rewrite E in H1. exists r1. split; [exact H1|]. split; congruence.
Qed.

(** What a redelivery may do to the world it finds. *)
Definition value_rewritten (alert v : string) (s s' : AlertStore) : Prop :=
  exists m, s' = with_alerts s m /\ forall id, id <> alert \/ (ae_value <$> as_alerts s !! id) = Some (Some v) ->
    m !! id = as_alerts s !! id.
Definition redelivered (action : PendingAction) (delivery : string) (w : DeliveryWorld)
    (out : result string unit * DeliveryWorld) : Prop :=
  match action with
  | CreateAlert tenant _ _ _ _ _ =>
    out.2 = w /\ exists alert, as_deliveries (dw_alerts w) !! delivery = Some (tenant, alert)
      /\ out.1 = match alert_get_from (dw_alerts w) tenant alert with
                 | Ok _ => Ok tt
                 | Err e => Err (application_error_text (Persistence e))
                 end
  | UpdateAlertValue _ alert v =>
    exists s, out.2 = with_alert_store w s /\ value_rewritten alert v (dw_alerts w) s
  | ResolveAlert _ alert =>
    (ae_status <$> as_alerts (dw_alerts w) !! alert = Some "resolved" -> out.2 = w)
    /\ exists s, out.2 = with_alert_store w s /\ forall id, id <> alert -> as_alerts s !! id = as_alerts (dw_alerts w) !! id
  | SendWebhook _ url headers payload =>
    out.2 = with_webhook w {| wh_url := url; wh_headers := headers; wh_payload := payload; wh_delivery := delivery |}
  | SendCommand tenant device command _ =>
    exists r c, history (dw_commands w) !! delivery = Some r /\ cr_tenant r = tenant
      /\ out.2 = with_commands w c /\ history c = history (dw_commands w)
      /\ (published c = published (dw_commands w)
          \/ canonical_status (cr_status r) = "sent"
             /\ exists d, published c = published (dw_commands w) ++ [d] /\ dl_correlation d = delivery
                  /\ dl_device d = device /\ dl_command d = command)
  | UpdateCooldown _ _ _ _ | UpdateZoneEntry _ _ _ _ => False
  end.
Lemma for_tenant_ok w tenant call w' :
  for_tenant w tenant call = (Ok tt, w') -> tenant_id_new tenant = Ok tenant /\ call tenant = (Ok tt, w').
Proof using Type.
  unfold for_tenant, tenant_id_new. destruct (trim_is_empty tenant); [done|].
  destruct (call tenant) as [[[]|] ?]; simpl; naive_solver congruence.
Qed.
Lemma for_tenant_call w tenant call :
  tenant_id_new tenant = Ok tenant ->
  for_tenant w tenant call = (map_err application_error_text (call tenant).1, (call tenant).2).
Proof using Type. intros E. unfold for_tenant. rewrite E. by destruct (call tenant). Qed.
Lemma same_alert_store w : with_alert_store w (dw_alerts w) = w.
Proof using Type. by destruct w. Qed.
(** The receipt of a creation answers for it. *)
Lemma create_receipt s tenant delivery r now o s1 :
  create_for_action s tenant delivery r now = (Ok o, s1) ->
  str_is_empty delivery = false /\ exists alert, as_deliveries s1 !! delivery = Some (tenant, alert).
Proof using Type.
  unfold create_for_action. destruct (str_is_empty delivery); [done|]. unfold persisted. simpl.
  unfold create_or_get_active, transact.
  destruct (create_or_get_in s tenant _ now) as [[o' s']|e] eqn:E; simpl; [|done]. intros [= <- <-]. split; [done|].
  by apply create_in_receipts in E as [_ H].
Qed.
Lemma create_with_receipt s tenant delivery r now alert :
  str_is_empty delivery = false -> as_deliveries s !! delivery = Some (tenant, alert) ->
  create_for_action s tenant delivery r now = (map_err Persistence (alert_get_from s tenant alert), s).
Proof using Type.
  intros He Ha. unfold create_for_action. rewrite He. unfold persisted, create_or_get_active, create_or_get_in, find_delivery.
  cbn [na_id]. rewrite Ha, String.eqb_refl. by destruct (alert_get_from s tenant alert).
Qed.
Lemma update_value_rewrites s tenant alert v : value_rewritten alert v s (update_value_for_action s tenant alert v).2.
Proof using Type.
  unfold update_value_for_action, update_triggered_value, value_rewritten. destruct (row_from s tenant alert); simpl.
  - eexists. split; [done|]. intros id [Hne|Hv]; [by rewrite lookup_alter_ne|].
    destruct (decide (id = alert)) as [->|]; [|by rewrite lookup_alter_ne]. rewrite lookup_alter_eq.
    destruct (as_alerts s !! alert) as [[]|]; [|done]. simpl in *. injection Hv as ->. done.
  - exists (as_alerts s). split; [by destruct s|done].
Qed.
Lemma resolve_resolved s tenant alert now :
  ae_status <$> as_alerts s !! alert = Some "resolved" -> (resolve_for_action s tenant alert now).2 = s.
Proof using Type.
  intros Hs. unfold resolve_for_action, persisted, transition, transact.
  destruct (transition_from s tenant alert Resolve now) as [[o s']|e] eqn:E; [|done]. simpl.
  unfold transition_from in E. apply bind_ok in E as (first & Hf & E). destruct first as [current|]; [|by simplify_eq].
  destruct (get_from_Some _ _ _ _ Hf) as (a & Ha & _ & Hd). rewrite Ha in Hs. simpl in Hs.
  destruct (decode_alert_entry a current Hd) as (_ & _ & _ & Hst & _). rewrite Hst in E. injection Hs as Hs. rewrite Hs in E.
  simpl in E. destruct (negb (bool_decide _)); by simplify_eq.
Qed.
Lemma transition_others s tenant alert tr now o s' :
  transition_from s tenant alert tr now = Ok (o, s') ->
  forall id, id <> alert -> as_alerts s' !! id = as_alerts s !! id.
Proof using Type.
  unfold transition_from. intros (first & _ & H)%bind_ok id Hne. destruct first as [current|]; [|by simplify_eq].
  destruct (negb (bool_decide _)); [by simplify_eq|]. destruct (negb _); [by simplify_eq|]. cbv zeta in H.
  match type of H with match ?c with Some _ => _ | None => _ end = _ => destruct c end; [by simplify_eq|].
  apply bind_ok in H as (again & _ & H). destruct again; simplify_eq.
  repeat case_match; simpl; by rewrite lookup_alter_ne.
Qed.
Lemma resolve_others s tenant alert now :
  forall id, id <> alert -> as_alerts (resolve_for_action s tenant alert now).2 !! id = as_alerts s !! id.
Proof using Type.
  intros id Hne. unfold resolve_for_action, persisted, transition, transact.
  destruct (transition_from s tenant alert Resolve now) as [[o s']|e] eqn:E; [|done]. simpl.
  destruct o; simpl; by apply (transition_others _ _ _ _ _ _ _ E).
Qed.
(** A delivery that finds its own row. *)
Lemma deliver_with_row w tenant device delivery command params now r :
  history w !! delivery = Some r -> cr_tenant r = tenant -> str_is_empty delivery || trim_is_empty command = false ->
  let c := (deliver_action w tenant device delivery command params now).2 in
  history c = history w
  /\ (published c = published w
      \/ canonical_status (cr_status r) = "sent"
         /\ exists d, published c = published w ++ [d] /\ dl_correlation d = delivery /\ dl_device d = device
              /\ dl_command d = command).
Proof using Type.
  intros Hr Ht He. cbv zeta. rewrite (deliver_existing w tenant device delivery command params now r Hr Ht He).
  destruct (decode_command r); [|by split; [|left]]. destruct (validate_existing _ _ _ _); [|by split; [|left]].
  destruct (String.eqb_spec (canonical_status (cr_status r)) "sent") as [Es|]; [|by split; [|left]]. simpl.
  destruct (validate _ _ _ _ _); [|by split; [|left]]. simpl. split; [done|]. right. split; [done|]. by eexists.
Qed.

(** ** Settling *)
Lemma execute_outbox w action delivery now : dw_outbox (execute w action delivery now).2 = dw_outbox w.
Proof using Type.
  destruct action; simpl; try done; unfold for_tenant; destruct (tenant_id_new _); simpl; try done;
    repeat case_match; by simplify_eq/=.
Qed.
Lemma delay_bounds attempts :
  2 <= (failure_disposition attempts 0 Retryable).2 <= 256.
Proof using Type.
  unfold failure_disposition. simpl. assert (1 <= Z.max 1 (Z.min 8 attempts) <= 8) as H by lia.
  pose proof (Z.pow_le_mono_r 2 1 _ ltac:(lia) (proj1 H)). pose proof (Z.pow_le_mono_r 2 _ 8 ltac:(lia) (proj2 H)).
  change (2 ^ 1) with 2 in *. change (2 ^ 8) with 256 in *. lia.
Qed.
(** The execution of an event: its outcome, whether a failure is final, and
    the world it leaves. *)
Definition attempt (w : DeliveryWorld) (event : OutboxEventRecord) (now : Z) : result string unit * bool * DeliveryWorld :=
  match decode_event event with
  | Ok action => let '(r, w1) := execute w action (ev_id event) now in (r, ev_max_attempts event <=? ev_attempts event, w1)
  | Err e => (Err ("failed to deserialize pending action: " +:+ application_error_text e), true, w)
  end.
Definition settled_as (r r' : OutboxRow) (outcome : result string unit) (final : bool) (now : Z) : Prop :=
  ob_locked_by r' = None /\ ob_attempts r' = ob_attempts r /\ ob_payload r' = ob_payload r
  /\ match outcome with
     | Ok _ => ob_status r' = "succeeded" /\ ob_last_error r' = None
     | Err m => ob_last_error r' = Some (take_chars 2000 m)
                /\ ob_status r' = (if final then "dead_letter" else "failed")
                /\ (0 <= now <= Int.i64_max - 300000000 ->
                    now + 2000000 <= ob_available_at r' <= now + 256000000)
     end.
Lemma saturating_add_bounds now d :
  0 <= now <= Int.i64_max - 300000000 -> 2 <= d <= 256 ->
  now + 2000000 <= saturating_add_i64 now (d * 1000000) <= now + 256000000.
Proof using Type. unfold saturating_add_i64. intros H1 H2. pose proof (eq_refl : Int.i64_min = - 2 ^ 63). lia. Qed.

(** A claimed event is settled_as by one delivery: its action is executed
    exactly as [execute] does, and the claimed row alone is rewritten, to
    "succeeded" when the action was carried out, and otherwise to a retry 2
    to 256 seconds later or, when the attempts are spent or the event does
    not decode, to a dead letter, which is not executed at all; the lock is
    released and the error kept. *)
Theorem delivery_settles w event token r now :
  claim_token event = Some token -> dw_outbox w !! ev_id event = Some r ->
  owned (ev_id event) token r = true -> ob_attempts r = ev_attempts event ->
  let '(outcome, final, w1) := attempt w event now in
  exists r', deliver w event now = (Ok true, with_outbox w1 (<[ev_id event := r']> (dw_outbox w)))
    /\ settled_as r r' outcome final now.
Proof using micros codec actions bus host.
  intros Htok Hr Hown Hatt.
  assert (forall w1 m failure final, dw_outbox w1 = dw_outbox w ->
    final = bool_decide (failure = Permanent) || (ev_max_attempts event <=? ev_attempts event) ->
    exists r', failed (dw_outbox w1) event failure m now = (Ok true, <[ev_id event := r']> (dw_outbox w))
      /\ settled_as r r' (Err m) final now) as Hfail.
  { intros w1 m failure final -> ->. unfold failed. rewrite Htok. unfold mark_failed, update_where.
    destruct (failure_disposition _ _ _) as [status d] eqn:Ed. rewrite Hr, Hown, Hatt, Z.eqb_refl. simpl.
    unfold failure_disposition in Ed. injection Ed as <- Ed.
    eexists. split; [done|]. split_and!; [done|symmetry; exact Hatt|done..|]. intros Hn. simpl. rewrite <-Hatt in Ed.
    apply saturating_add_bounds; [done|]. rewrite <-Ed. apply delay_bounds. }
  unfold attempt, deliver. destruct (decode_event event) as [action|e].
  - pose proof (execute_outbox w action (ev_id event) now) as Ho.
    destruct (execute w action (ev_id event) now) as [outcome w1]. simpl in Ho. destruct outcome as [[]|m].
    + unfold succeeded. rewrite Htok. unfold mark_succeeded, update_where. rewrite Ho, Hr, Hown.
      eexists. split; [done|]. by split_and!.
    + destruct (Hfail w1 m Retryable (ev_max_attempts event <=? ev_attempts event)) as (r' & -> & Hs); [done..|].
      eauto.
  - destruct (Hfail w ("failed to deserialize pending action: " +:+ application_error_text e) Permanent true)
      as (r' & -> & Hs); [done..|]. eauto.
Qed.

End delivery.

(** ** A concrete delivery *)
Definition demo_delivery_host : DeliveryHost :=
  {| application_error_text := fun _ => "error"; tenant_error_text := fun _ => "empty";
     webhook_send := fun _ _ => Ok tt |}.
Definition demo_resolve_codec : ActionCodec :=
  {| action_to_value := fun _ => Ok Null; action_from_value := fun _ => Ok (ResolveAlert "a" "alert-1");
     headers_json := fun _ => ""; value_json := fun _ => ""; stable_hash := fun s => s |}.
#[local] Existing Instance demo_delivery_host.
#[local] Existing Instance demo_resolve_codec.
#[local] Existing Instance demo_codec.
#[local] Existing Instance demo_host.
#[local] Existing Instance demo_micros.
Definition demo_resolve : OutboxEventRecord :=
  {| claim_token := Some "w:u"; ev_id := "e1"; ev_tenant := "a"; ev_type := "rule.resolve_alert";
     ev_aggregate_type := "alert"; ev_aggregate_id := "alert-1";
     ev_payload := object [("version", of_int 1); ("action", Null)]; ev_attempts := 1;
     ev_max_attempts := 10; ev_last_error := None; ev_created_at := 1000; ev_updated_at := 100000 |}.
Definition demo_claimed : OutboxRow :=
  set_row (demo_row "e1" "a" "resolve-alert:alert-1" "pending" 0 1) "processing" 1 1 (Some (100, "w:u")) None 100.
Definition demo_delivery : DeliveryWorld :=
  {| dw_outbox := {["e1" := demo_claimed]}; dw_alerts := demo_alerts; dw_commands := demo_world; dw_webhooks := [] |}.
(** No such alert: the event is retried. *)
Lemma delivery_settles_witness :
  ob_status <$> dw_outbox (deliver demo_delivery demo_resolve 200).2 !! "e1" = Some "failed".
Proof.
  pose proof (delivery_settles demo_delivery demo_resolve "w:u" demo_claimed 200
    eq_refl eq_refl eq_refl eq_refl) as H.
  destruct (attempt demo_delivery demo_resolve 200) as [[outcome final] w1] eqn:E.
  destruct H as (r' & -> & _ & _ & _ & Hs). vm_compute in E. injection E as <- <- <-.
  cbn [snd dw_outbox with_outbox ev_id demo_resolve]. rewrite lookup_insert_eq. simpl. by destruct Hs as (_ & -> & _).
Defined.
(** The alert that the first delivery created was resolved before the second:
    no new one is created, and the second succeeds. *)
Definition demo_hot : PendingAction := CreateAlert "default" "rule-1" "dev-1" "warning" "too hot" (Some "31").
Definition demo_first : DeliveryWorld := (execute demo_delivery demo_hot "ev-1" 5).2.
Definition demo_cleared : DeliveryWorld :=
  with_alert_store demo_first (transition (dw_alerts demo_first) "default" "ev-1" Resolve 7).2.
(** A late value overwrites a newer one: of two updates of an alert the first
    is delivered again after the second. *)
Definition demo_value (v : string) : PendingAction := UpdateAlertValue "default" "ev-1" v.
Example late_value_overwrites :
  let w1 := (execute demo_first (demo_value "32") "ev-2" 6).2 in
  let w2 := (execute w1 (demo_value "33") "ev-3" 7).2 in
  ae_value <$> as_alerts (dw_alerts w2) !! "ev-1" = Some (Some "33")
  /\ ae_value <$> as_alerts (dw_alerts (execute w2 (demo_value "32") "ev-2" 8).2) !! "ev-1" = Some (Some "32").
Proof. split; vm_compute; reflexivity. Qed.
