(* ===== verification/IdentityStore.v ===== *)
(** * Users, roles and their tables (crates/backend-core/src/users.rs, roles.rs,
    bootstrap.rs; crates/backend-turso/src/users.rs, roles.rs, bootstrap.rs)

    The records of the two repositories and the Turso transactions on the
    tables [users], [roles], [role_permissions] and [user_roles], with the
    constraints of the schema: unique user names, epochs and role names, and
    the foreign keys with their cascades. *)
From S2P Require Import Prelude Text BTree Errors Access RuleTypes RuleSnapshot.
From stdpp Require Import sorting.

Local Open Scope Z_scope.

(** ** Records *)
Definition OWNER_ROLE : string := "owner".
Definition ADMIN_ROLE : string := "admin".
Definition OPERATOR_ROLE : string := "operator".
Definition VIEWER_ROLE : string := "viewer".
Record Role := {
  role_id : Z; role_tenant : string; role_name : string; role_description : option string;
  role_is_system : bool; role_created_at : NaiveDateTime; role_updated_at : NaiveDateTime;
}.
Record RoleDetails := { rd_role : Role; rd_permissions : list string; rd_user_count : Z }.
Record NewRole := { nr_name : string; nr_description : option string; nr_permissions : list string }.
Record RolePatch := {
  patch_name : option string; patch_description : option (option string);
  patch_permissions : option (list string);
}.
Inductive UpdateRoleOutcome := RoleUpdated (r : RoleDetails) | RoleNotFound | SystemRole.
Inductive DeleteRoleOutcome :=
  | RoleDeleted | DeleteRoleNotFound | DeleteSystemRole | RoleInUse (name : string) (user_count : Z).
Record UserRecord := {
  user_id : Z; user_tenant : string; user_name : string; user_role : string;
  user_created_at : NaiveDateTime; user_is_active : bool; user_permission_version : Z;
  user_auth_epoch : string; user_last_login_at : option NaiveDateTime;
}.
Record UserDetails := { ud_user : UserRecord; ud_roles : list Role; ud_permissions : list string }.
Record UserCredentials := { uc_details : UserDetails; uc_password_hash : string }.
Record NewUser := { nu_username : string; nu_password_hash : string; nu_role_ids : option (list Z) }.
Inductive CreateUserOutcome := UserCreated (u : UserDetails) | CreateRolesNotFound.
Inductive ChangePasswordOutcome := PasswordChanged | ChangeNotFound.
Inductive DeleteUserOutcome := UserDeleted | DeleteNotFound | WouldDeleteLastOwner.
Inductive SetUserRolesOutcome :=
  | RolesUpdated (u : UserDetails) | SetUserNotFound | SetRolesNotFound | WouldRemoveLastOwner.
Inductive RecordSuccessfulLoginOutcome := LoginRecorded | LoginNotFound.
Record BootstrapOwner := { bo_username : string; bo_password_hash : string }.
Inductive SeedOwnerOutcome := OwnerCreated | SkippedUsersExist.

(** ** Tables *)
Record UserRow := {
  ur_tenant : string; ur_username : string; ur_hash : string; ur_role : string; ur_active : bool;
  ur_epoch : string; ur_version : Z; ur_last_login : option Z; ur_created : Z;
}.
Record RoleRow := {
  rr_tenant : string; rr_name : string; rr_description : option string; rr_system : bool;
  rr_created : Z; rr_updated : Z;
}.
Record IdentityStore := {
  organizations : gset string;
  user_rows : gmap Z UserRow;
  role_rows : gmap Z RoleRow;
  grants : gset (Z * string);                 (* role_permissions *)
  assignments : gmap (Z * Z) (string * Z);    (* user_roles: (user, role) -> (tenant, created_at) *)
}.
Definition with_user_rows (s : IdentityStore) (m : gmap Z UserRow) : IdentityStore :=
  {| organizations := organizations s; user_rows := m; role_rows := role_rows s; grants := grants s;
     assignments := assignments s |}.
Definition with_role_rows (s : IdentityStore) (m : gmap Z RoleRow) : IdentityStore :=
  {| organizations := organizations s; user_rows := user_rows s; role_rows := m; grants := grants s;
     assignments := assignments s |}.
Definition with_grants (s : IdentityStore) (g : gset (Z * string)) : IdentityStore :=
  {| organizations := organizations s; user_rows := user_rows s; role_rows := role_rows s; grants := g;
     assignments := assignments s |}.
Definition with_assignments (s : IdentityStore) (a : gmap (Z * Z) (string * Z)) : IdentityStore :=
  {| organizations := organizations s; user_rows := user_rows s; role_rows := role_rows s; grants := grants s;
     assignments := a |}.
(** A transaction: its effects are kept only when it commits. *)
Definition committed {A} (s : IdentityStore) (r : result PersistenceError (A * IdentityStore))
    : result PersistenceError A * IdentityStore :=
  match r with Ok (a, s') => (Ok a, s') | Err e => (Err e, s) end.

(** ** Reading *)
Definition tenant_corrupt (t : string) : result PersistenceError string :=
  map_err (fun _ => CorruptData "tenant id must not be empty") (tenant_id_new t).
(** ORDER BY name COLLATE BINARY, id. *)
Definition name_id_leb (n1 : string) (i1 : Z) (n2 : string) (i2 : Z) : bool :=
  match String.compare n1 n2 with Lt => true | Eq => i1 <=? i2 | Gt => false end.
Definition role_before (a b : Z * RoleRow) : Prop := name_id_leb (rr_name a.2) a.1 (rr_name b.2) b.1 = true.
#[global] Instance role_before_dec : RelDecision role_before.
Proof. intros a b. unfold role_before. apply _. Defined.
Section turso.
Context `{!ChronoMicros}.
Definition decode_user (id : Z) (r : UserRow) : result PersistenceError UserRecord :=
  i ← narrow_i32 id "users.id";
  t ← tenant_corrupt (ur_tenant r);
  created ← datetime (ur_created r);
  version ← narrow_i32 (ur_version r) "users.permission_version";
  login ← match ur_last_login r with Some l => Some <$> datetime l | None => Ok None end;
  Ok {| user_id := i; user_tenant := t; user_name := ur_username r; user_role := ur_role r;
        user_created_at := created; user_is_active := ur_active r; user_permission_version := version;
        user_auth_epoch := ur_epoch r; user_last_login_at := login |}.
Definition decode_role (e : Z * RoleRow) : result PersistenceError Role :=
  i ← narrow_i32 e.1 "roles.id";
  t ← tenant_corrupt (rr_tenant e.2);
  created ← datetime (rr_created e.2);
  updated ← datetime (rr_updated e.2);
  Ok {| role_id := i; role_tenant := t; role_name := rr_name e.2; role_description := rr_description e.2;
        role_is_system := rr_system e.2; role_created_at := created; role_updated_at := updated |}.
(** The roles of a tenant that satisfy [p], in order. *)
Definition roles_where (s : IdentityStore) (tenant : string) (p : Z -> bool) : list (Z * RoleRow) :=
  merge_sort role_before
    (List.filter (fun e : Z * RoleRow => (rr_tenant e.2 =s? tenant) && p e.1) (map_to_list (role_rows s))).
Definition assigned (s : IdentityStore) (tenant : string) (user role : Z) : bool :=
  match assignments s !! (user, role) with Some (t, _) => t =s? tenant | None => false end.
Definition user_permissions (s : IdentityStore) (tenant : string) (user : Z) : list string :=
  sorted_set (map snd (List.filter (fun g : Z * string => assigned s tenant user g.1) (elements (grants s)))).
Definition user_row (s : IdentityStore) (tenant : string) (user : Z) : option UserRow :=
  r ← user_rows s !! user; if ur_tenant r =s? tenant then Some r else None.
Definition hydrate (s : IdentityStore) (tenant : string) (user : Z) : result PersistenceError (option UserDetails) :=
  match user_row s tenant user with
  | None => Ok None
  | Some r =>
    u ← decode_user user r;
    roles ← mapM decode_role (roles_where s tenant (assigned s tenant user));
    Ok (Some {| ud_user := u; ud_roles := roles; ud_permissions := user_permissions s tenant user |})
  end.
Definition selected_roles (s : IdentityStore) (tenant : string) (requested : option (list Z))
    : result PersistenceError (option (list Role)) :=
  available ← mapM decode_role (roles_where s tenant (fun _ => true));
  match requested with
  | Some ids =>
    let wanted := list_to_set (C := gset Z) ids in
    let selected := List.filter (fun r => bool_decide (role_id r ∈ wanted)) available in
    Ok (if (length selected =? size wanted)%nat then Some selected else None)
  | None => Ok ((fun r => [r]) <$> List.find (fun r => role_name r =s? VIEWER_ROLE) available)
  end.
Definition named (name : string) (roles : list Role) : option Role := List.find (fun r => role_name r =s? name) roles.
Definition primary (roles : list Role) : option Role :=
  match named OWNER_ROLE roles with
  | Some r => Some r
  | None => match named ADMIN_ROLE roles with Some r => Some r | None => head roles end
  end.
Definition primary_role (roles : list Role) : string :=
  match primary roles with Some r => role_name r | None => VIEWER_ROLE end.

(** ** Writing users *)
(** INSERT INTO user_roles. *)
Definition insert_assignment (s : IdentityStore) (tenant : string) (user role now : Z)
    : result PersistenceError IdentityStore :=
  if bool_decide (is_Some (assignments s !! (user, role))) then Err (UniqueViolation "unique")
  else if bool_decide (ur_tenant <$> user_rows s !! user = Some tenant)
          && bool_decide (rr_tenant <$> role_rows s !! role = Some tenant)
  then Ok (with_assignments s (<[(user, role) := (tenant, now)]> (assignments s)))
  else Err (ForeignKeyViolation "foreign_key").
Fixpoint insert_assignments (s : IdentityStore) (tenant : string) (user : Z) (roles : list Z) (now : Z)
    : result PersistenceError IdentityStore :=
  match roles with
  | [] => Ok s
  | r :: rest => s1 ← insert_assignment s tenant user r now; insert_assignments s1 tenant user rest now
  end.
Definition set_user (r : UserRow) (role hash : string) (version : Z) (login : option Z) : UserRow :=
  {| ur_tenant := ur_tenant r; ur_username := ur_username r; ur_hash := hash; ur_role := role;
     ur_active := ur_active r; ur_epoch := ur_epoch r; ur_version := version; ur_last_login := login;
     ur_created := ur_created r |}.
(** UPDATE users ... WHERE tenant_id AND id, with the number of changed rows. *)
Definition update_user (s : IdentityStore) (tenant : string) (user : Z) (f : UserRow -> UserRow) : nat * IdentityStore :=
  match user_row s tenant user with
  | Some r => (1%nat, with_user_rows s (<[user := f r]> (user_rows s)))
  | None => (0%nat, s)
  end.
Definition clear_assignments (s : IdentityStore) (tenant : string) (user : Z) : IdentityStore :=
  with_assignments s (filter (fun e : (Z * Z) * (string * Z) =>
    ~ (e.1.1 = user /\ e.2.1 = tenant)) (assignments s)).
Definition replace_roles (s : IdentityStore) (tenant : string) (user : Z) (roles : list Role) (now : Z)
    : result PersistenceError IdentityStore :=
  s1 ← insert_assignments (clear_assignments s tenant user) tenant user (map role_id roles) now;
  Ok (update_user s1 tenant user (fun r =>
        set_user r (primary_role roles) (ur_hash r) (ur_version r + 1) (ur_last_login r))).2.
(** The owner role of the tenant, whether the user has it, and how many users have it. *)
Definition owner_state (s : IdentityStore) (tenant : string) (user : Z)
    : result PersistenceError (option Z * bool * Z) :=
  match List.find (fun e : Z * RoleRow => (rr_tenant e.2 =s? tenant) && (rr_name e.2 =s? OWNER_ROLE))
          (map_to_list (role_rows s)) with
  | None => Ok (None, false, 0)
  | Some (rid, _) =>
    i ← narrow_i32 rid "roles.id";
    Ok (Some i, assigned s tenant user rid,
        Z.of_nat (size (filter (fun e : (Z * Z) * (string * Z) => e.1.2 = rid /\ e.2.1 = tenant) (assignments s))))
  end.
(** INSERT INTO users: the CHECK, the UNIQUE constraints, the foreign key. *)
Definition insert_user (s : IdentityStore) (r : UserRow) : result PersistenceError (Z * IdentityStore) :=
  let rows := (map_to_list (user_rows s)).*2 in
  if str_is_empty (ur_epoch r) then Err (CheckViolation "check")
  else if existsb (fun o => ur_epoch o =s? ur_epoch r) rows then Err (UniqueViolation "unique")
  else if existsb (fun o => (ur_tenant o =s? ur_tenant r) && (ur_username o =s? ur_username r)) rows
  then Err (UniqueViolation "users.tenant_username")
  else if negb (bool_decide (ur_tenant r ∈ organizations s)) then Err (ForeignKeyViolation "foreign_key")
  else let id := next_rowid (user_rows s) in Ok (id, with_user_rows s (<[id := r]> (user_rows s))).
(** [create]; [epoch] is the fresh UUID. *)
Definition create_user_in (s : IdentityStore) (tenant : string) (n : NewUser) (epoch : string) (now : Z)
    : result PersistenceError (CreateUserOutcome * IdentityStore) :=
  selected ← selected_roles s tenant (nu_role_ids n);
  match selected with
  | None => Ok (CreateRolesNotFound, s)
  | Some roles =>
    '(rowid, s1) ← insert_user s
       {| ur_tenant := tenant; ur_username := nu_username n; ur_hash := nu_password_hash n;
          ur_role := primary_role roles; ur_active := true; ur_epoch := epoch; ur_version := 1;
          ur_last_login := None; ur_created := now |};
    user ← narrow_i32 rowid "users.id";
    s2 ← replace_roles s1 tenant user roles now;
    found ← hydrate s2 tenant user;
    details ← ok_or found PNotFound;
    Ok (UserCreated details, s2)
  end.
Definition repo_create_user (s : IdentityStore) (tenant : string) (n : NewUser) (epoch : string) (now : Z) :=
  committed s (create_user_in s tenant n epoch now).
Definition repo_change_password (s : IdentityStore) (tenant : string) (user : Z) (hash : string)
    : result PersistenceError ChangePasswordOutcome * IdentityStore :=
  let '(changed, s') := update_user s tenant user (fun r =>
    set_user r (ur_role r) hash (ur_version r + 1) (ur_last_login r)) in
  (Ok (if (changed =? 0)%nat then ChangeNotFound else PasswordChanged), s').
Definition delete_user_in (s : IdentityStore) (tenant : string) (user : Z)
    : result PersistenceError (DeleteUserOutcome * IdentityStore) :=
  found ← hydrate s tenant user;
  match found with
  | None => Ok (DeleteNotFound, s)
  | Some _ =>
    '(_, is_owner, count) ← owner_state s tenant user;
    if is_owner && (count <=? 1) then Ok (WouldDeleteLastOwner, s)
    else Ok (UserDeleted, clear_assignments (with_user_rows s (delete user (user_rows s))) tenant user)
  end.
Definition repo_delete_user (s : IdentityStore) (tenant : string) (user : Z) := committed s (delete_user_in s tenant user).
Definition set_roles_in (s : IdentityStore) (tenant : string) (user : Z) (ids : list Z) (now : Z)
    : result PersistenceError (SetUserRolesOutcome * IdentityStore) :=
  found ← hydrate s tenant user;
  match found with
  | None => Ok (SetUserNotFound, s)
  | Some _ =>
    selected ← selected_roles s tenant (Some ids);
    match selected with
    | None => Ok (SetRolesNotFound, s)
    | Some roles =>
      '(owner, is_owner, count) ← owner_state s tenant user;
      if is_owner && (count <=? 1)
         && negb match owner with Some o => existsb (fun r => role_id r =? o) roles | None => false end
      then Ok (WouldRemoveLastOwner, s)
      else s1 ← replace_roles s tenant user roles now;
           found ← hydrate s1 tenant user;
           details ← ok_or found PNotFound;
           Ok (RolesUpdated details, s1)
    end
  end.
Definition repo_set_roles (s : IdentityStore) (tenant : string) (user : Z) (ids : list Z) (now : Z) :=
  committed s (set_roles_in s tenant user ids now).
Definition find_credentials_by_username (s : IdentityStore) (tenant username : string)
    : result PersistenceError (option UserCredentials) :=
  match List.find (fun e : Z * UserRow => (ur_tenant e.2 =s? tenant) && (ur_username e.2 =s? username))
          (map_to_list (user_rows s)) with
  | None => Ok None
  | Some (id, r) =>
    i ← narrow_i32 id "users.id";
    details ← hydrate s tenant i;
    Ok match details with
       | Some d => Some {| uc_details := d; uc_password_hash := ur_hash r |}
       | None => None
       end
  end.
Definition record_successful_login (s : IdentityStore) (tenant : string) (user : Z) (at_ : NaiveDateTime)
    : result PersistenceError RecordSuccessfulLoginOutcome * IdentityStore :=
  let '(changed, s') := update_user s tenant user (fun r =>
    set_user r (ur_role r) (ur_hash r) (ur_version r) (Some (timestamp_micros at_))) in
  (Ok (if (changed =? 0)%nat then LoginNotFound else LoginRecorded), s').

(** ** Writing roles *)
Definition role_details (s : IdentityStore) (tenant : string) (rid : Z) : result PersistenceError (option RoleDetails) :=
  match role_rows s !! rid with
  | Some r =>
    if rr_tenant r =s? tenant then
      role ← decode_role (rid, r);
      Ok (Some {| rd_role := role;
                  rd_permissions := sorted_set (map snd (List.filter (fun g : Z * string => g.1 =? rid) (elements (grants s))));
                  rd_user_count := Z.of_nat (size (filter (fun e : (Z * Z) * (string * Z) =>
                    e.1.2 = rid /\ e.2.1 = tenant) (assignments s))) |})
    else Ok None
  | None => Ok None
  end.
(** A (tenant, name) of another role. *)
Definition name_taken (s : IdentityStore) (tenant name : string) (except : option Z) : bool :=
  existsb (fun e : Z * RoleRow => (rr_tenant e.2 =s? tenant) && (rr_name e.2 =s? name)
             && negb (bool_decide (except = Some e.1))) (map_to_list (role_rows s)).
Fixpoint insert_grants (s : IdentityStore) (rid : Z) (permissions : list string) : result PersistenceError IdentityStore :=
  match permissions with
  | [] => Ok s
  | p :: rest =>
    if bool_decide ((rid, p) ∈ grants s) then Err (UniqueViolation "unique")
    else insert_grants (with_grants s ({[(rid, p)]} ∪ grants s)) rid rest
  end.
Definition create_role_in (s : IdentityStore) (tenant : string) (n : NewRole) (now : Z)
    : result PersistenceError (RoleDetails * IdentityStore) :=
  if name_taken s tenant (nr_name n) None then Err (UniqueViolation "roles.tenant_name")
  else if negb (bool_decide (tenant ∈ organizations s)) then Err (ForeignKeyViolation "foreign_key")
  else
  let rowid := next_rowid (role_rows s) in
  let s1 := with_role_rows s (<[rowid :=
    {| rr_tenant := tenant; rr_name := nr_name n; rr_description := nr_description n; rr_system := false;
       rr_created := now; rr_updated := now |}]> (role_rows s)) in
  rid ← narrow_i32 rowid "roles.id";
  s2 ← insert_grants s1 rid (nr_permissions n);
  found ← role_details s2 tenant rid;
  details ← ok_or found PNotFound;
  Ok (details, s2).
Definition repo_create_role (s : IdentityStore) (tenant : string) (n : NewRole) (now : Z) :=
  committed s (create_role_in s tenant n now).
Definition set_role (r : RoleRow) (name : string) (description : option string) (updated : Z) : RoleRow :=
  {| rr_tenant := rr_tenant r; rr_name := name; rr_description := description; rr_system := rr_system r;
     rr_created := rr_created r; rr_updated := updated |}.
(** permission_version + 1 for every user with the role. *)
Definition bump_users (s : IdentityStore) (tenant : string) (rid : Z) : IdentityStore :=
  with_user_rows s (map_imap (fun u r => Some
    (if (ur_tenant r =s? tenant) && assigned s tenant u rid
     then set_user r (ur_role r) (ur_hash r) (ur_version r + 1) (ur_last_login r) else r)) (user_rows s)).
Definition replace_grants (s : IdentityStore) (tenant : string) (rid : Z) (permissions : list string)
    : result PersistenceError IdentityStore :=
  s1 ← insert_grants (with_grants s (filter (fun g : Z * string => g.1 <> rid) (grants s))) rid permissions;
  Ok (bump_users s1 tenant rid).
Definition update_role_in (s : IdentityStore) (tenant : string) (rid : Z) (patch : RolePatch) (clock : Z)
    : result PersistenceError (UpdateRoleOutcome * IdentityStore) :=
  current ← role_details s tenant rid;
  match current, role_rows s !! rid with
  | Some d, Some r =>
    if role_is_system (rd_role d) then Ok (SystemRole, s) else
    let next := timestamp_micros (role_updated_at (rd_role d)) + 1 in
    if negb (Int.in_i64 next)
    then Err (CorruptData "roles.updated_at cannot advance beyond i64 microseconds") else
    let now := Z.max clock next in
    if match patch_name patch with Some name => name_taken s tenant name (Some rid) | None => false end
    then Err (UniqueViolation "roles.tenant_name") else
    let s1 := with_role_rows s (<[rid :=
      set_role r (default (rr_name r) (patch_name patch)) (default (rr_description r) (patch_description patch)) now]>
      (role_rows s)) in
    s2 ← match patch_permissions patch with
         | Some permissions => replace_grants s1 tenant rid permissions
         | None => Ok s1
         end;
    found ← role_details s2 tenant rid;
    details ← ok_or found PNotFound;
    Ok (RoleUpdated details, s2)
  | _, _ => Ok (RoleNotFound, s)
  end.
Definition repo_update_role (s : IdentityStore) (tenant : string) (rid : Z) (patch : RolePatch) (clock : Z) :=
  committed s (update_role_in s tenant rid patch clock).
(** DELETE FROM roles, with its cascades. *)
Definition remove_role (s : IdentityStore) (tenant : string) (rid : Z) : IdentityStore :=
  with_assignments
    (with_grants (with_role_rows s (delete rid (role_rows s))) (filter (fun g : Z * string => g.1 <> rid) (grants s)))
    (filter (fun e : (Z * Z) * (string * Z) => ~ (e.1.2 = rid /\ e.2.1 = tenant)) (assignments s)).
Definition delete_role_in (s : IdentityStore) (tenant : string) (rid : Z)
    : result PersistenceError (DeleteRoleOutcome * IdentityStore) :=
  current ← role_details s tenant rid;
  match current with
  | None => Ok (DeleteRoleNotFound, s)
  | Some d =>
    if role_is_system (rd_role d) then Ok (DeleteSystemRole, s)
    else if 0 <? rd_user_count d then Ok (RoleInUse (role_name (rd_role d)) (rd_user_count d), s)
    else Ok (RoleDeleted, remove_role s tenant rid)
  end.
Definition repo_delete_role (s : IdentityStore) (tenant : string) (rid : Z) := committed s (delete_role_in s tenant rid).

(** ** The first owner *)
Definition grant_all (s : IdentityStore) (rid : Z) : IdentityStore :=
  with_grants s (list_to_set (map (fun p => (rid, permission_key p)) ALL_PERMISSIONS) ∪ grants s).
(** The owner role: the existing one (ON CONFLICT DO NOTHING) or a new one. *)
Definition ensure_owner_role (s : IdentityStore) (tenant : string) (now : Z) : result PersistenceError (Z * IdentityStore) :=
  match List.find (fun e : Z * RoleRow => (rr_tenant e.2 =s? tenant) && (rr_name e.2 =s? OWNER_ROLE))
          (map_to_list (role_rows s)) with
  | Some (rid, _) => Ok (rid, s)
  | None =>
    if negb (bool_decide (tenant ∈ organizations s)) then Err (PInternal "database error") else
    let rid := next_rowid (role_rows s) in
    Ok (rid, with_role_rows s (<[rid :=
      {| rr_tenant := tenant; rr_name := OWNER_ROLE;
         rr_description := Some "Full tenant owner with all permissions and lockout protection.";
         rr_system := true; rr_created := now; rr_updated := now |}]> (role_rows s)))
  end.
(** Every database error of this repository is internal. *)
Definition internal {A} (r : result PersistenceError A) : result PersistenceError A :=
  map_err (fun _ => PInternal "database error") r.
Definition seed_owner_in (s : IdentityStore) (tenant : string) (o : BootstrapOwner) (epoch : string) (now : Z)
    : result PersistenceError (SeedOwnerOutcome * IdentityStore) :=
  if negb (bool_decide (user_rows s = ∅)) then Ok (SkippedUsersExist, s) else
  '(rid, s1) ← ensure_owner_role s tenant now;
  '(user, s2) ← internal (insert_user (grant_all s1 rid)
     {| ur_tenant := tenant; ur_username := bo_username o; ur_hash := bo_password_hash o; ur_role := OWNER_ROLE;
        ur_active := true; ur_epoch := epoch; ur_version := 2; ur_last_login := None; ur_created := now |});
  s3 ← internal (insert_assignment s2 tenant user rid now);
  Ok (OwnerCreated, s3).
Definition seed_owner_if_empty (s : IdentityStore) (tenant : string) (o : BootstrapOwner) (epoch : string) (now : Z) :=
  committed s (seed_owner_in s tenant o epoch now).
End turso.

(** ** The invariant of the tables *)
Definition custom_role_name (name : string) : bool :=
  negb (str_is_empty name) && (str_len name <=? 64)
  && str_forall (fun c => is_ascii_lowercase c || is_ascii_digit c || one_of "_-" c) name
  && negb ((name =s? OWNER_ROLE) || (name =s? ADMIN_ROLE) || (name =s? OPERATOR_ROLE) || (name =s? VIEWER_ROLE)).
Record identity_inv (s : IdentityStore) : Prop := {
  ii_assign : forall u r t at_, assignments s !! (u, r) = Some (t, at_) ->
    ur_tenant <$> user_rows s !! u = Some t /\ rr_tenant <$> role_rows s !! r = Some t;
  ii_grants : forall r p, (r, p) ∈ grants s -> exists row, role_rows s !! r = Some row
    /\ (rr_system row = false -> exists perm, p = permission_key perm);
  ii_users : forall u1 u2 a1 a2, user_rows s !! u1 = Some a1 -> user_rows s !! u2 = Some a2 ->
    ur_epoch a1 = ur_epoch a2 \/ (ur_tenant a1 = ur_tenant a2 /\ ur_username a1 = ur_username a2) -> u1 = u2;
  ii_roles : forall r1 r2 a1 a2, role_rows s !! r1 = Some a1 -> role_rows s !! r2 = Some a2 ->
    rr_tenant a1 = rr_tenant a2 -> rr_name a1 = rr_name a2 -> r1 = r2;
  ii_custom : forall r a, role_rows s !! r = Some a -> rr_system a = true \/ custom_role_name (rr_name a) = true;
}.
Lemma map_list_find {A} (p : Z * A -> bool) (m : gmap Z A) k a :
  List.find p (map_to_list m) = Some (k, a) -> m !! k = Some a /\ p (k, a) = true.
Proof. intros [H Hp]%List.find_some. split; [|done]. by apply elem_of_map_to_list, list_elem_of_In. Qed.
Lemma map_list_find_None {A} (p : Z * A -> bool) (m : gmap Z A) k a :
  List.find p (map_to_list m) = None -> m !! k = Some a -> p (k, a) = false.
Proof.
  intros H Hk. apply (List.find_none _ _ H). by apply list_elem_of_In, elem_of_map_to_list.
Qed.
Lemma committed_cases {A} s (r : result PersistenceError (A * IdentityStore)) :
  (committed s r).2 = s \/ exists a, r = Ok (a, (committed s r).2).
Proof. destruct r as [[a s']|]; simpl; eauto. Qed.
Lemma user_row_Some s tenant u r : user_row s tenant u = Some r <-> user_rows s !! u = Some r /\ ur_tenant r = tenant.
Proof.
  unfold user_row. destruct (user_rows s !! u) as [r'|]; simpl; [|naive_solver].
  destruct (String.eqb_spec (ur_tenant r') tenant); naive_solver.
Qed.
Lemma assigned_true s tenant u r : assigned s tenant u r = true <-> exists at_, assignments s !! (u, r) = Some (tenant, at_).
Proof.
  unfold assigned. destruct (assignments s !! (u, r)) as [[t at_]|]; [|naive_solver].
  rewrite String.eqb_eq. naive_solver.
Qed.

(** *** Preservation, table by table *)
(** Rewriting a user row, keeping what the constraints mention. *)
Lemma inv_update_user s u r r' :
  identity_inv s -> user_rows s !! u = Some r -> ur_tenant r' = ur_tenant r -> ur_epoch r' = ur_epoch r ->
  ur_username r' = ur_username r -> identity_inv (with_user_rows s (<[u := r']> (user_rows s))).
Proof.
  intros [Ha Hg Hu Hr Hc] Hrow Et Ee En. split; simpl; [|done| |done|done].
  - intros u0 x t at_ H. destruct (Ha _ _ _ _ H) as [H1 H2]. split; [|done].
    rewrite lookup_insert. case_decide; [subst u0|done]. rewrite Hrow in H1. simpl in *. congruence.
  - assert (forall u0 a0, <[u:=r']> (user_rows s) !! u0 = Some a0 -> exists a, user_rows s !! u0 = Some a
      /\ ur_tenant a0 = ur_tenant a /\ ur_epoch a0 = ur_epoch a /\ ur_username a0 = ur_username a) as Hold.
    { intros u0 a0 [[<- <-]|[_ H]]%lookup_insert_Some; eauto 10. }
    intros u1 u2 a1 a2 (b1 & H1 & -> & -> & ->)%Hold (b2 & H2 & -> & -> & ->)%Hold. eauto.
Qed.
Lemma update_user_inv s tenant u f :
  (forall r, ur_tenant (f r) = ur_tenant r /\ ur_epoch (f r) = ur_epoch r /\ ur_username (f r) = ur_username r) ->
  identity_inv s -> identity_inv (update_user s tenant u f).2.
Proof.
  intros Hf Hinv. unfold update_user. destruct (user_row s tenant u) as [r|] eqn:E; [|done].
  apply user_row_Some in E as [E _]. destruct (Hf r) as (? & ? & ?). by eapply inv_update_user.
Qed.
(** Fewer assignments. *)
Lemma inv_fewer_assignments s a :
  identity_inv s -> a ⊆ assignments s -> identity_inv (with_assignments s a).
Proof.
  intros [Ha Hg Hu Hr Hc] Hsub. split; simpl; [|done..]. intros u r t at_ H. apply (Ha u r t at_).
  by eapply lookup_weaken.
Qed.
Lemma clear_assignments_inv s tenant u : identity_inv s -> identity_inv (clear_assignments s tenant u).
Proof. intros H. apply inv_fewer_assignments; [done|apply map_filter_subseteq]. Qed.
Lemma insert_assignment_inv s tenant u r now s' :
  insert_assignment s tenant u r now = Ok s' -> identity_inv s -> identity_inv s'.
Proof.
  unfold insert_assignment. case_bool_decide; [done|]. case_match eqn:E; [|done]. intros [= <-] [Ha Hg Hu Hr Hc].
  apply andb_true_iff in E as [E1%bool_decide_eq_true E2%bool_decide_eq_true].
  split; simpl; [|done..]. intros u0 x t at_ [[[= <- <-] [= <- <-]]|[_ Hl]]%lookup_insert_Some; eauto.
Qed.

(** *** Assignments *)
Lemma insert_assignments_spec roles s tenant u now s' :
  insert_assignments s tenant u roles now = Ok s' ->
  (identity_inv s -> identity_inv s')
  /\ user_rows s' = user_rows s /\ role_rows s' = role_rows s /\ grants s' = grants s
  /\ forall k, assignments s' !! k
       = if bool_decide (k.1 = u /\ k.2 ∈ roles) then Some (tenant, now) else assignments s !! k.
Proof.
  revert s. induction roles as [|r rest IH]; intros s; simpl.
  - intros [= <-]. split_and!; try done. intros k. by rewrite bool_decide_false by set_solver.
  - intros (s1 & H1 & (Hi & Hu & Hr & Hg & Hk)%IH)%bind_ok. pose proof (insert_assignment_inv _ _ _ _ _ _ H1) as Hi1.
    unfold insert_assignment in H1. case_bool_decide; [done|]. case_match; [|done]. injection H1 as <-. simpl in *.
    split_and!; [tauto|done..|]. intros k. rewrite Hk. destruct (decide (k = (u, r))) as [->|Hne].
    + rewrite lookup_insert_eq. cbn [fst snd].
      rewrite (bool_decide_true (u = u /\ r ∈ r :: rest)) by set_solver. destruct (bool_decide (u = u /\ r ∈ rest)); reflexivity.
    + rewrite lookup_insert_ne by done. destruct k as [u0 x]. simpl.
      rewrite (bool_decide_ext (u0 = u /\ x ∈ r :: rest) (u0 = u /\ x ∈ rest)); [done|].
      rewrite elem_of_cons. naive_solver.
Qed.

Lemma clear_lookup s tenant u k :
  assignments (clear_assignments s tenant u) !! k
  = match assignments s !! k with
    | Some (t, at_) => if bool_decide (k.1 = u /\ t = tenant) then None else Some (t, at_)
    | None => None
    end.
Proof.
  simpl. destruct (assignments s !! k) as [[t at_]|] eqn:E.
  - case_bool_decide as Hb; [apply map_lookup_filter_None_2|apply map_lookup_filter_Some_2]; [|done|done].
    right. intros x Hx. rewrite E in Hx. injection Hx as <-. simpl. tauto.
  - apply map_lookup_filter_None_2. by left.
Qed.
(** After [replace_roles] the user has exactly the given roles in the tenant,
    every other assignment is as before, and its version has grown. *)
Definition reassigned (r : UserRow) (roles : list Role) : UserRow :=
  set_user r (primary_role roles) (ur_hash r) (ur_version r + 1) (ur_last_login r).
Lemma replace_roles_spec s tenant u roles now s' r :
  replace_roles s tenant u roles now = Ok s' -> identity_inv s -> user_rows s !! u = Some r -> ur_tenant r = tenant ->
  identity_inv s' /\ role_rows s' = role_rows s /\ grants s' = grants s
  /\ user_rows s' = <[u := reassigned r roles]> (user_rows s)
  /\ (forall x, assigned s' tenant u x = bool_decide (x ∈ map role_id roles))
  /\ (forall t u0 x, u0 <> u -> assigned s' t u0 x = assigned s t u0 x).
Proof.
  unfold replace_roles. intros (s1 & (Hi & Hu & Hr & Hg & Hk)%insert_assignments_spec & [= <-])%bind_ok Hinv Hrow Ht.
  assert (identity_inv s1) as Hinv1 by (by apply Hi, clear_assignments_inv).
  assert (user_row s1 tenant u = Some r) as Hrow1 by (apply user_row_Some; rewrite Hu; done).
  split; [by apply update_user_inv|]. unfold update_user. rewrite Hrow1. simpl. rewrite Hr, Hg, Hu.
  split_and!; [done..| |].
  - intros x. unfold assigned. simpl. rewrite Hk, clear_lookup. simpl.
    rewrite (bool_decide_ext (u = u /\ x ∈ map role_id roles) (x ∈ map role_id roles)) by naive_solver.
    case_bool_decide; [apply String.eqb_refl|]. destruct (assignments s !! (u, x)) as [[t at_]|] eqn:E; [|done].
    destruct (ii_assign s Hinv u x t at_ E) as [E1 _]. rewrite Hrow in E1. simpl in E1.
    by rewrite bool_decide_true by naive_solver.
  - intros t u0 x Hne. unfold assigned. simpl. rewrite Hk, clear_lookup. simpl.
    rewrite bool_decide_false by naive_solver. destruct (assignments s !! (u0, x)) as [[t' at_]|]; [|done].
    by rewrite bool_decide_false by naive_solver.
Qed.

(** *** New users *)
Lemma insert_user_spec s r u s' :
  insert_user s r = Ok (u, s') -> identity_inv s ->
  user_rows s !! u = None /\ s' = with_user_rows s (<[u := r]> (user_rows s)) /\ identity_inv s'
  /\ (forall u0 x, assignments s !! (u0, x) = None \/ u0 <> u).
Proof.
  unfold insert_user. destruct (str_is_empty (ur_epoch r)); [done|].
  destruct (existsb (fun o => ur_epoch o =s? _) _) eqn:He; [done|].
  destruct (existsb (fun o => (ur_tenant o =s? _) && _) _) eqn:Hn; [done|].
  destruct (negb _); [done|]. rewrite existsb_false_elem in He, Hn. intros [= <- <-] Hinv.
  pose proof (next_rowid_fresh (user_rows s)) as Hfresh. set (u := next_rowid (user_rows s)) in *.
  assert (forall u0 a, user_rows s !! u0 = Some a -> a ∈ (map_to_list (user_rows s)).*2) as Hrows.
  { intros u0 a Ha. apply list_elem_of_fmap. exists (u0, a). split; [done|]. by apply elem_of_map_to_list. }
  assert (forall u0 a, user_rows s !! u0 = Some a -> ur_epoch a <> ur_epoch r
    /\ ~ (ur_tenant a = ur_tenant r /\ ur_username a = ur_username r)) as Hnew.
  { intros u0 a Ha%Hrows. split.
    - intros E. specialize (He _ Ha). by rewrite E, String.eqb_refl in He.
    - intros [E1 E2]. specialize (Hn _ Ha). by rewrite E1, E2, !String.eqb_refl in Hn. }
  split_and!; [done|done| |].
  - destruct Hinv as [Ha Hg Hu Hr Hc]. split; simpl; [|done| |done|done].
    + intros u0 x t at_ Hx. destruct (Ha _ _ _ _ Hx) as [H1 H2]. split; [|done].
      rewrite lookup_insert_ne; [done|]. intros <-. by rewrite Hfresh in H1.
    + intros u1 u2 a1 a2 [[<- <-]|[_ H1]]%lookup_insert_Some [[<- <-]|[_ H2]]%lookup_insert_Some E; [done|..].
      * destruct (Hnew _ _ H2). naive_solver.
      * destruct (Hnew _ _ H1). naive_solver.
      * eauto.
  - intros u0 x. destruct (assignments s !! (u0, x)) as [[t at_]|] eqn:E; [|by left]. right. intros ->.
    destruct (ii_assign s Hinv _ _ _ _ E) as [E1 _]. by rewrite Hfresh in E1.
Qed.

(** *** Roles *)
Lemma insert_grants_spec ps s rid s' :
  insert_grants s rid ps = Ok s' ->
  user_rows s' = user_rows s /\ role_rows s' = role_rows s /\ assignments s' = assignments s
  /\ (forall r p, (r, p) ∈ grants s' <-> (r, p) ∈ grants s \/ (r = rid /\ p ∈ ps)).
Proof.
  revert s. induction ps as [|p ps IH]; intros s; simpl.
  - intros [= <-]. split_and!; [done..|]. set_solver.
  - case_bool_decide; [done|]. intros (Hu & Hr & Ha & Hg)%IH. simpl in *. split_and!; [done..|].
    intros r q. rewrite Hg. set_solver.
Qed.
Lemma bump_users_lookup s tenant rid u :
  user_rows (bump_users s tenant rid) !! u
  = (fun r => if (ur_tenant r =s? tenant) && assigned s tenant u rid
              then set_user r (ur_role r) (ur_hash r) (ur_version r + 1) (ur_last_login r) else r) <$> user_rows s !! u.
Proof. simpl. rewrite map_lookup_imap. by destruct (user_rows s !! u). Qed.
Lemma bump_users_inv s tenant rid : identity_inv s -> identity_inv (bump_users s tenant rid).
Proof.
  intros [Ha Hg Hu Hr Hc].
  assert (forall u a', user_rows (bump_users s tenant rid) !! u = Some a' -> exists a, user_rows s !! u = Some a
    /\ ur_tenant a' = ur_tenant a /\ ur_epoch a' = ur_epoch a /\ ur_username a' = ur_username a) as Hold.
  { intros u a'. rewrite bump_users_lookup. intros (a & -> & ->)%fmap_Some. exists a. by case_match. }
  split; [|done| |done|done].
  - intros u r t at_ H. destruct (Ha _ _ _ _ H) as [H1 H2]. split; [|done]. rewrite bump_users_lookup.
    destruct (user_rows s !! u); [|done]. simpl in *. by case_match.
  - intros u1 u2 a1 a2 (b1 & H1 & -> & -> & ->)%Hold (b2 & H2 & -> & -> & ->)%Hold. eauto.
Qed.
Lemma name_taken_false s tenant name except r row :
  name_taken s tenant name except = false -> role_rows s !! r = Some row -> rr_tenant row = tenant ->
  rr_name row = name -> except = Some r.
Proof.
  unfold name_taken. rewrite existsb_false_elem. intros H Hr <- <-.
  specialize (H (r, row) ltac:(by apply elem_of_map_to_list)). simpl in H. rewrite !String.eqb_refl in H. simpl in H.
  by apply negb_false_iff, bool_decide_eq_true in H.
Qed.
Lemma inv_new_role s tenant name description system now :
  identity_inv s -> name_taken s tenant name None = false -> system = true \/ custom_role_name name = true ->
  identity_inv (with_role_rows s (<[next_rowid (role_rows s) :=
    {| rr_tenant := tenant; rr_name := name; rr_description := description; rr_system := system;
       rr_created := now; rr_updated := now |}]> (role_rows s))).
Proof.
  intros [Ha Hg Hu Hr Hc] Hn Hcust. pose proof (next_rowid_fresh (role_rows s)) as Hfresh.
  split; simpl; [| |done| |].
  - intros u x t at_ H. destruct (Ha _ _ _ _ H) as [H1 H2]. split; [done|].
    rewrite lookup_insert_ne; [done|]. intros <-. by rewrite Hfresh in H2.
  - intros r p H. destruct (Hg _ _ H) as (row & H1 & H2). exists row. split; [|done].
    rewrite lookup_insert_ne; [done|]. intros <-. by rewrite Hfresh in H1.
  - intros r1 r2 a1 a2 [[<- <-]|[_ H1]]%lookup_insert_Some [[<- <-]|[_ H2]]%lookup_insert_Some Et En; [done|..];
      simpl in *; [| |eauto]; exfalso; eapply (name_taken_false s) in Hn; eauto; done.
  - intros r a [[<- <-]|[_ H]]%lookup_insert_Some; [done|eauto].
Qed.
Lemma inv_set_role s rid r name description now :
  identity_inv s -> role_rows s !! rid = Some r -> rr_system r = false ->
  (name = rr_name r \/ name_taken s (rr_tenant r) name (Some rid) = false /\ custom_role_name name = true) ->
  identity_inv (with_role_rows s (<[rid := set_role r name description now]> (role_rows s))).
Proof.
  intros [Ha Hg Hu Hr Hc] Hrow Hsys Hname. split; simpl; [| |done| |].
  - intros u x t at_ H. destruct (Ha _ _ _ _ H) as [H1 H2]. split; [done|]. rewrite lookup_insert.
    case_decide; [subst x|done]. by rewrite Hrow in H2.
  - intros x p H. destruct (Hg _ _ H) as (row & H1 & H2). destruct (decide (x = rid)) as [->|Hne].
    + eexists. rewrite lookup_insert_eq. split; [done|]. simpl. assert (row = r) as -> by congruence. done.
    + exists row. by rewrite lookup_insert_ne by done.
  - assert (forall x a, role_rows s !! x = Some a -> rr_tenant r = rr_tenant a -> name = rr_name a -> x = rid) as Hu1.
    { intros x a Hx Et En. destruct Hname as [E|[E _]]; [apply (Hr x rid a r); congruence|].
      eapply (name_taken_false _ _ _ _ x a) in E; congruence. }
    intros r1 r2 a1 a2 [[<- <-]|[_ H1]]%lookup_insert_Some [[<- <-]|[_ H2]]%lookup_insert_Some Et En;
      simpl in *; [done|symmetry; eauto| |eauto]. symmetry in Et, En. eauto.
  - intros x a [[<- <-]|[_ H]]%lookup_insert_Some; [|eauto]. simpl. right. destruct Hname as [->|[_ ?]]; [|done].
    destruct (Hc _ _ Hrow); [congruence|done].
Qed.
