(* ===== verification/Identity.v ===== *)
(** * User and role administration (crates/backend-core/src/application/users.rs,
    roles.rs, bootstrap.rs)

    The guarded services over the identity tables: creating users and roles,
    assigning roles, passwords, logins and the resolution of sessions. *)
From S2P Require Import Prelude Text BTree Errors Access RuleTypes RuleSnapshot IdentityStore.
From stdpp Require Import sorting.
From Stdlib Require Import Ascii.

Local Open Scope Z_scope.

(** ** Policies *)
Definition MIN_PASSWORD_LEN : Z := 12.
Definition validate_username_characters (username : string) : result ApplicationError unit :=
  if contains_char zero username then Err (InvalidInput "Username must not contain NUL characters") else Ok tt.
(** [chars().any(p)] for a [p] of ASCII characters. *)
Definition has_char (p : ascii -> bool) (s : string) : bool := negb (str_forall (fun c => negb (p c)) s).
Definition validate_password (password : string) : result ApplicationError unit :=
  if str_len password <? MIN_PASSWORD_LEN
  then Err (InvalidInput ("Password must be at least " +:+ int_to_string MIN_PASSWORD_LEN +:+ " characters"))
  else if negb (has_char is_ascii_lowercase password && has_char is_ascii_uppercase password
                && has_char is_ascii_digit password && has_char (fun c => negb (is_ascii_alphanumeric c)) password)
  then Err (InvalidInput "Password must include lowercase, uppercase, number, and symbol characters")
  else Ok tt.
(** [Vec::dedup]. *)
Fixpoint dedup (l : list Z) : list Z :=
  match l with
  | a :: r => match r with b :: _ => if a =? b then dedup r else a :: dedup r | [] => [a] end
  | [] => []
  end.
Definition normalize_role_ids (ids : list Z) : list Z := dedup (merge_sort Z.le ids).
Definition role_name_char (c : ascii) : bool := is_ascii_lowercase c || is_ascii_digit c || one_of "_-" c.
Definition normalize_role_name (name : string) : result ApplicationError string :=
  let name := str_map to_ascii_lowercase (trim name) in
  if str_is_empty name then Err (InvalidInput "Role name must not be empty")
  else if 64 <? str_len name then Err (InvalidInput "Role name must be 64 characters or fewer")
  else if negb (str_forall role_name_char name)
  then Err (InvalidInput "Role name may only contain lowercase letters, numbers, hyphens, and underscores")
  else Ok name.
Definition permission_of_key (key : string) : result ApplicationError string :=
  match permission_from_key key with
  | Some p => Ok (permission_key p)
  | None => Err (InvalidInput ("Unknown permission '" +:+ key +:+ "'"))
  end.
Definition validate_permission_keys (keys : list string) : result ApplicationError (list string) :=
  found ← mapM permission_of_key (List.filter (fun k => negb (str_is_empty k)) (map trim keys));
  Ok (sorted_set found).
Definition is_builtin_role_name (name : string) : bool :=
  (name =s? OWNER_ROLE) || (name =s? ADMIN_ROLE) || (name =s? OPERATOR_ROLE) || (name =s? VIEWER_ROLE).

(** ** Services *)
Record CreateUser := { cu_username : string; cu_password : string; cu_role_ids : option (list Z) }.
Record CreateRole := { cro_name : string; cro_description : option string; cro_permissions : list string }.
Record RoleUpdate := {
  upd_name : option string; upd_description : option (option string); upd_permissions : option (list string);
}.
Record AuthenticatedUser := {
  au_id : Z; au_tenant : string; au_username : string; au_role : string; au_roles : list Role;
  au_permissions : list string; au_permission_version : Z; au_auth_epoch : string;
}.
Definition primary_role_name (roles : list Role) : option string := role_name <$> primary roles.
Definition authenticated_user_from_details (d : UserDetails) : AuthenticatedUser :=
  let u := ud_user d in
  {| au_id := user_id u; au_tenant := user_tenant u; au_username := user_name u;
     au_role := default (user_role u) (primary_role_name (ud_roles d)); au_roles := ud_roles d;
     au_permissions := ud_permissions d; au_permission_version := user_permission_version u;
     au_auth_epoch := user_auth_epoch u |}.
Definition matches_identity (d : UserDetails) (tenant : string) (user : Z) : bool :=
  (user_id (ud_user d) =? user) && (user_tenant (ud_user d) =s? tenant).
Definition map_user_write_error (e : PersistenceError) (username : string) : ApplicationError :=
  match e with
  | UniqueViolation _ => Conflict ("Username '" +:+ username +:+ "' already exists")
  | other => Persistence other
  end.
Definition map_role_write_error (e : PersistenceError) : ApplicationError :=
  match e with UniqueViolation _ => Conflict "Role name already exists" | other => Persistence other end.
Definition user_missing (user : Z) : ApplicationError := NotFound ("User " +:+ int_to_string user +:+ " not found").
Definition role_missing (rid : Z) : ApplicationError := NotFound ("Role " +:+ int_to_string rid +:+ " not found").
Definition roles_missing : ApplicationError := NotFound "One or more roles were not found".

(** The host's password implementation. *)
Class PasswordHasher := {
  hash_password : string -> result string string;
  verify_hash : string -> string -> result string bool;
}.
(** A guarded step: an error before it leaves the store as it is. *)
Definition guarded {A B} (s : IdentityStore) (r : result ApplicationError A)
    (k : A -> result ApplicationError B * IdentityStore) : result ApplicationError B * IdentityStore :=
  match r with Ok a => k a | Err e => (Err e, s) end.
(** What a repository answers, as the service reports it. *)
Definition reported {A B} (f : PersistenceError -> ApplicationError) (g : A -> result ApplicationError B)
    (r : result PersistenceError A * IdentityStore) : result ApplicationError B * IdentityStore :=
  (map_err f r.1 ≫= g, r.2).

Section services.
Context `{!ChronoMicros, !PasswordHasher}.
Definition create_user (s : IdentityStore) (ctx : TenantContext) (input : CreateUser) (epoch : string) (now : Z)
    : result ApplicationError UserDetails * IdentityStore :=
  let username := trim (cu_username input) in
  guarded s (_ ← require_permission ctx ManageUsers;
             _ ← (if str_is_empty username then Err (InvalidInput "Username must not be empty") else Ok tt);
             _ ← validate_username_characters username;
             _ ← validate_password (cu_password input);
             _ ← (if bool_decide (cu_role_ids input = Some []) then Err (InvalidInput "At least one role is required")
                  else Ok tt);
             map_err Authentication (hash_password (cu_password input)))
  (fun hash =>
    reported (fun e => map_user_write_error e username)
      (fun o => match o with UserCreated u => Ok u | CreateRolesNotFound => Err roles_missing end)
      (repo_create_user s (ctx_tenant ctx)
         {| nu_username := username; nu_password_hash := hash;
            nu_role_ids := normalize_role_ids <$> cu_role_ids input |} epoch now)).
Definition change_password (s : IdentityStore) (ctx : TenantContext) (user : Z) (password : string)
    : result ApplicationError unit * IdentityStore :=
  guarded s (_ ← require_permission ctx ManageUsers;
             _ ← validate_password password;
             map_err Authentication (hash_password password))
  (fun hash =>
    reported Persistence
      (fun o => match o with PasswordChanged => Ok tt | ChangeNotFound => Err (user_missing user) end)
      (repo_change_password s (ctx_tenant ctx) user hash)).
Definition delete_user (s : IdentityStore) (ctx : TenantContext) (user : Z) : result ApplicationError unit * IdentityStore :=
  guarded s (require_permission ctx ManageUsers) (fun _ =>
    reported Persistence
      (fun o => match o with
                | UserDeleted => Ok tt
                | DeleteNotFound => Err (user_missing user)
                | WouldDeleteLastOwner => Err (Conflict "Cannot delete the last owner from the tenant")
                end)
      (repo_delete_user s (ctx_tenant ctx) user)).
Definition set_roles (s : IdentityStore) (ctx : TenantContext) (user : Z) (ids : list Z) (now : Z)
    : result ApplicationError UserDetails * IdentityStore :=
  guarded s (_ ← require_permission ctx ManageUsers;
             if bool_decide (ids = []) then Err (InvalidInput "At least one role is required") else Ok tt)
  (fun _ =>
    reported Persistence
      (fun o => match o with
                | RolesUpdated u => Ok u
                | SetUserNotFound => Err (user_missing user)
                | SetRolesNotFound => Err roles_missing
                | WouldRemoveLastOwner => Err (Conflict "Cannot remove the last owner from the tenant")
                end)
      (repo_set_roles s (ctx_tenant ctx) user (normalize_role_ids ids) now)).
Definition authenticate (s : IdentityStore) (tenant username password : string) (clock : NaiveDateTime)
    : result ApplicationError AuthenticatedUser * IdentityStore :=
  guarded s (_ ← map_err (fun _ => Unauthorized) (validate_username_characters username);
             found ← map_err Persistence (find_credentials_by_username s tenant username);
             credentials ← ok_or found Unauthorized;
             _ ← (if user_is_active (ud_user (uc_details credentials)) then Ok tt else Err Unauthorized);
             valid ← map_err (fun m => Internal ("password verification failed: " +:+ m))
                       (verify_hash password (uc_password_hash credentials));
             if (valid : bool) then Ok (uc_details credentials) else Err Unauthorized)
  (fun d => reported Persistence (fun _ => Ok (authenticated_user_from_details d))
      (record_successful_login s tenant (user_id (ud_user d)) clock)).
Definition resolve_session (s : IdentityStore) (tenant : string) (user permission_version : Z) (auth_epoch : string)
    : result ApplicationError AuthenticatedUser :=
  found ← map_err Persistence (hydrate s tenant user);
  d ← ok_or found Unauthorized;
  if negb (matches_identity d tenant user) || negb (user_is_active (ud_user d))
     || negb (user_permission_version (ud_user d) =? permission_version)
     || (user_auth_epoch (ud_user d) !=s auth_epoch)
  then Err Unauthorized else Ok (authenticated_user_from_details d).
Definition current_user (s : IdentityStore) (ctx : TenantContext) : result ApplicationError AuthenticatedUser :=
  match ctx_actor ctx with
  | User id _ _ =>
    found ← map_err Persistence (hydrate s (ctx_tenant ctx) id);
    d ← ok_or found Unauthorized;
    if negb (matches_identity d (ctx_tenant ctx) id) || negb (user_is_active (ud_user d))
    then Err Unauthorized else Ok (authenticated_user_from_details d)
  | _ => Err Unauthorized
  end.
Definition not_builtin (name : string) : result ApplicationError unit :=
  if is_builtin_role_name name then Err (InvalidInput ("'" +:+ name +:+ "' is reserved for a built-in role")) else Ok tt.
Definition create_role (s : IdentityStore) (ctx : TenantContext) (input : CreateRole) (now : Z)
    : result ApplicationError RoleDetails * IdentityStore :=
  guarded s (_ ← require_permission ctx ManageRoles;
             name ← normalize_role_name (cro_name input);
             _ ← not_builtin name;
             permissions ← validate_permission_keys (cro_permissions input);
             Ok (name, permissions))
  (fun '(name, permissions) =>
    reported map_role_write_error Ok
      (repo_create_role s (ctx_tenant ctx)
         {| nr_name := name; nr_description := cro_description input; nr_permissions := permissions |} now)).
Definition update_role (s : IdentityStore) (ctx : TenantContext) (rid : Z) (update : RoleUpdate) (clock : Z)
    : result ApplicationError RoleDetails * IdentityStore :=
  guarded s (_ ← require_permission ctx ManageRoles;
             name ← match upd_name update with Some n => Some <$> normalize_role_name n | None => Ok None end;
             _ ← match name with Some n => not_builtin n | None => Ok tt end;
             permissions ← match upd_permissions update with
                           | Some ps => Some <$> validate_permission_keys ps
                           | None => Ok None
                           end;
             Ok (name, permissions))
  (fun '(name, permissions) =>
    reported map_role_write_error
      (fun o => match o with
                | RoleUpdated r => Ok r
                | RoleNotFound => Err (role_missing rid)
                | SystemRole => Err (InvalidInput "Built-in roles cannot be modified")
                end)
      (repo_update_role s (ctx_tenant ctx) rid
         {| patch_name := name; patch_description := upd_description update; patch_permissions := permissions |} clock)).
Definition delete_role (s : IdentityStore) (ctx : TenantContext) (rid : Z) : result ApplicationError unit * IdentityStore :=
  guarded s (require_permission ctx ManageRoles) (fun _ =>
    reported Persistence
      (fun o => match o with
                | RoleDeleted => Ok tt
                | DeleteRoleNotFound => Err (role_missing rid)
                | DeleteSystemRole => Err (InvalidInput "Built-in roles cannot be deleted")
                | RoleInUse name count =>
                  Err (Conflict ("Role '" +:+ name +:+ "' is assigned to " +:+ int_to_string count +:+ " user(s)"))
                end)
      (repo_delete_role s (ctx_tenant ctx) rid)).

(** [BootstrapApplication]. *)
Definition seed_prepared_owner (s : IdentityStore) (tenant username password epoch : string) (now : Z)
    : result ApplicationError SeedOwnerOutcome * IdentityStore :=
  guarded s (map_err (fun m => Internal ("Failed to hash default password: " +:+ m)) (hash_password password))
    (fun hash => reported Persistence Ok
      (seed_owner_if_empty s tenant {| bo_username := username; bo_password_hash := hash |} epoch now)).
Definition seed_owner (s : IdentityStore) (error_text : ApplicationError -> string)
    (tenant username password epoch : string) (now : Z) : result ApplicationError SeedOwnerOutcome * IdentityStore :=
  let username := trim username in
  guarded s (_ ← (if str_is_empty username then Err (InvalidInput "Bootstrap admin username must not be empty") else Ok tt);
             _ ← validate_username_characters username;
             _ ← map_err (fun e => InvalidInput ("Invalid bootstrap admin password: " +:+ error_text e))
                   (validate_password password);
             if (password =s? "admin") || (password =s? username)
             then Err (InvalidInput "Bootstrap admin password must not be a default or match the username") else Ok tt)
  (fun _ => seed_prepared_owner s tenant username password epoch now).
Definition seed_local_owner (s : IdentityStore) (error_text : ApplicationError -> string)
    (tenant username password epoch : string) (now : Z) : result ApplicationError SeedOwnerOutcome * IdentityStore :=
  if (trim username =s? "admin") && (password =s? "admin")
  then seed_prepared_owner s tenant "admin" password epoch now
  else seed_owner s error_text tenant username password epoch now.
End services.

(** ** What every operation keeps *)
(** The tenant has a user with its owner role. *)
Definition is_owner_role (s : IdentityStore) (tenant : string) (rid : Z) : Prop :=
  exists row, role_rows s !! rid = Some row /\ rr_tenant row = tenant /\ rr_name row = OWNER_ROLE.
Definition has_owner (s : IdentityStore) (tenant : string) : Prop :=
  exists rid u, is_owner_role s tenant rid /\ assigned s tenant u rid = true.
(** The same roles with the same permissions. *)
Definition same_access (s s' : IdentityStore) (tenant : string) (u : Z) : Prop :=
  (forall x, assigned s' tenant u x = assigned s tenant u x)
  /\ (forall x p, assigned s tenant u x = true -> (x, p) ∈ grants s' <-> (x, p) ∈ grants s).
(** A user row keeps its identity; as long as its version stands still, so do
    its password and its access. *)
Definition user_kept (s s' : IdentityStore) (u : Z) (r r' : UserRow) : Prop :=
  ur_epoch r' = ur_epoch r /\ ur_tenant r' = ur_tenant r /\ ur_version r <= ur_version r'
  /\ (ur_version r' = ur_version r -> ur_hash r' = ur_hash r /\ same_access s s' (ur_tenant r) u).
Record kept (fresh : option string) (s s' : IdentityStore) : Prop := {
  k_inv : identity_inv s';
  k_owner : forall tenant, has_owner s tenant -> has_owner s' tenant;
  k_users : forall u r', user_rows s' !! u = Some r' ->
    (exists r, user_rows s !! u = Some r /\ user_kept s s' u r r')
    \/ (user_rows s !! u = None /\ fresh = Some (ur_epoch r'));
}.
Lemma same_access_refl s tenant u : same_access s s tenant u.
Proof. by split. Qed.
Lemma user_kept_refl s u r : user_kept s s u r r.
Proof. split_and!; [done..|lia|]. intros _. split; [done|apply same_access_refl]. Qed.
Lemma kept_refl fresh s : identity_inv s -> kept fresh s s.
Proof. intros H. split; [done|done|]. intros u r Hr. left. exists r. split; [done|apply user_kept_refl]. Qed.
#[local] Hint Resolve kept_refl : rust.
Lemma user_kept_trans s s1 s2 u r r1 r2 : user_kept s s1 u r r1 -> user_kept s1 s2 u r1 r2 -> user_kept s s2 u r r2.
Proof.
  intros (E & T & L & K) (E1 & T1 & L1 & K1). split_and!; [congruence..|lia|]. intros Ev.
  destruct K as [Kh [Ka Kg]]; [lia|]. rewrite T in K1. destruct K1 as [K1h [K1a K1g]]; [lia|].
  split; [congruence|]. split; [intros; by rewrite K1a|]. intros x p Hx. rewrite K1g by (by rewrite Ka). by apply Kg.
Qed.
Lemma identity_kept_trans fresh s s1 s2 : kept fresh s s1 -> kept None s1 s2 -> kept fresh s s2.
Proof.
  intros [I1 O1 U1] [I2 O2 U2]. split; [done|auto|]. intros u r2 [(r1 & H1 & K1)|[_ H]]%U2; [|done].
  destruct (U1 u r1 H1) as [(r & H & K)|[H Hf]]; [left|right; by destruct K1 as [-> _]].
  exists r. split; [done|]. by eapply user_kept_trans.
Qed.

(** Only user rows change, each keeping its identity. *)
Lemma kept_users_only fresh s m :
  identity_inv (with_user_rows s m) ->
  (forall u r', m !! u = Some r' -> exists r, user_rows s !! u = Some r /\ ur_epoch r' = ur_epoch r
     /\ ur_tenant r' = ur_tenant r /\ ur_version r <= ur_version r' /\ (ur_version r' = ur_version r -> ur_hash r' = ur_hash r)) ->
  kept fresh s (with_user_rows s m).
Proof.
  intros Hinv Hm. split; [done|done|]. intros u r' Hr'. left. destruct (Hm u r' Hr') as (r & H1 & H2 & H3 & H4 & H5).
  exists r. split; [done|]. split_and!; try done. intros E. split; [auto|by split].
Qed.
Lemma update_user_kept fresh s tenant u f :
  identity_inv s ->
  (forall r, ur_tenant (f r) = ur_tenant r /\ ur_epoch (f r) = ur_epoch r /\ ur_username (f r) = ur_username r
     /\ ur_version r <= ur_version (f r) /\ (ur_version (f r) = ur_version r -> ur_hash (f r) = ur_hash r)) ->
  kept fresh s (update_user s tenant u f).2.
Proof.
  intros Hinv Hf. assert (identity_inv (update_user s tenant u f).2) as Hinv'.
  { apply update_user_inv; [|done]. intros r. destruct (Hf r) as (? & ? & ? & _). done. }
  revert Hinv'. unfold update_user. destruct (user_row s tenant u) as [r|] eqn:E; simpl; [|auto with rust].
  intros Hinv'. apply user_row_Some in E as [E _]. apply kept_users_only; [done|].
  intros u0 r' [[<- <-]|[_ H]]%lookup_insert_Some; [|exists r'; split_and!; done || lia].
  exists r. destruct (Hf r) as (? & ? & ? & ? & ?). done.
Qed.

(** The answer of [owner_state] is about the one owner role of the tenant. *)
Lemma owner_state_spec s tenant u owner is_owner count rid :
  owner_state s tenant u = Ok (owner, is_owner, count) -> identity_inv s -> is_owner_role s tenant rid ->
  owner = Some rid /\ is_owner = assigned s tenant u rid
  /\ count = Z.of_nat (size (filter (fun e : (Z * Z) * (string * Z) => e.1.2 = rid /\ e.2.1 = tenant) (assignments s))).
Proof.
  unfold owner_state. intros H Hinv (row & Hrow & Ht & Hn).
  destruct (List.find _ _) as [[rid' row']|] eqn:E.
  - apply map_list_find in E as [Hrow' [Ht' Hn']%andb_true_iff]. simpl in *.
    apply String.eqb_eq in Ht', Hn'.
    assert (rid' = rid) as -> by (apply (ii_roles s Hinv rid' rid row' row); congruence).
    apply bind_ok in H as (i & Hi & [= <- <- <-]). unfold narrow_i32 in Hi. by case_match; simplify_eq.
  - apply (map_list_find_None _ _ rid row) in E; [|done]. simpl in E. by rewrite Ht, Hn, !String.eqb_refl in E.
Qed.
(** Another user with the owner role, when there are two. *)
Lemma other_owner s tenant rid u :
  2 <= Z.of_nat (size (filter (fun e : (Z * Z) * (string * Z) => e.1.2 = rid /\ e.2.1 = tenant) (assignments s))) ->
  exists u', u' <> u /\ assigned s tenant u' rid = true.
Proof.
  intros H. set (m := filter _ (assignments s)) in H.
  assert (size (delete (u, rid) m) <> 0%nat) as Hne.
  { rewrite map_size_delete. destruct (m !! (u, rid)); unfold id; lia. }
  apply map_size_ne_0_lookup in Hne as [[u' x] [[t at_] Hm]].
  apply lookup_delete_Some in Hm as [Hk [Hl [Ex Et]]%map_lookup_filter_Some]. simpl in Ex, Et. subst x t.
  exists u'. split; [congruence|]. apply assigned_true. eauto.
Qed.
Section repository.
Context {micros : ChronoMicros}.
Lemma delete_user_kept fresh s tenant u : identity_inv s -> kept fresh s (repo_delete_user s tenant u).2.
Proof.
  intros Hinv. unfold repo_delete_user. destruct (committed_cases s (delete_user_in s tenant u)) as [->|[o H]];
    [auto with rust|]. revert H. generalize (committed s (delete_user_in s tenant u)).2. intros s' H.
  apply bind_ok in H as (found & Hf & H). destruct found as [d|]; [|simplify_eq; auto with rust].
  apply bind_ok in H as ([[owner is_owner] count] & Ho & H).
  destruct (is_owner && (count <=? 1)) eqn:Eg; simplify_eq; [auto with rust|].
  assert (forall t u0 x, assigned (clear_assignments (with_user_rows s (delete u (user_rows s))) tenant u) t u0 x
            = if bool_decide (u0 = u) && (t =s? tenant) then false else assigned s t u0 x) as Has.
  { intros t u0 x. unfold assigned. rewrite clear_lookup. simpl.
    destruct (assignments s !! (u0, x)) as [[t' at_]|] eqn:E; [|by case_match].
    destruct (decide (u0 = u)) as [->|]; [|by rewrite !bool_decide_false by naive_solver].
    rewrite (bool_decide_true (u = u)) by done. simpl. destruct (String.eqb_spec t tenant) as [->|Hne].
    - case_bool_decide as Hb; [done|]. apply String.eqb_neq. naive_solver.
    - case_bool_decide as Hb; [|done]. destruct Hb as [_ ->]. symmetry. apply String.eqb_neq. congruence. }
  unfold hydrate in Hf. destruct (user_row s tenant u) as [r|] eqn:Er; [|done].
  apply user_row_Some in Er as [Er Etr].
  split.
  - destruct Hinv as [Ha Hg Hu Hr Hc]. split; [|done| |done|done].
    + intros u0 x t at_. rewrite clear_lookup. simpl. destruct (assignments s !! (u0, x)) as [[t' at']|] eqn:E; [|done].
      case_bool_decide as Hb; [done|]. intros [= -> ->]. destruct (Ha _ _ _ _ E) as [E1 E2]. split; [|done].
      rewrite lookup_delete_ne; [done|]. intros <-. apply Hb. rewrite Er in E1. simpl in E1. split; congruence.
    + simpl. intros u1 u2 a1 a2 [_ H1]%lookup_delete_Some [_ H2]%lookup_delete_Some. eauto.
  - intros t (rid & u0 & Hrid & Hu0). destruct (decide (t = tenant)) as [->|Hne].
    + destruct (owner_state_spec _ _ _ _ _ _ _ Ho Hinv Hrid) as (-> & -> & ->).
      destruct (decide (u0 = u)) as [->|Hne].
      * rewrite Hu0 in Eg. simpl in Eg. apply Z.leb_gt in Eg.
        destruct (other_owner s tenant rid u ltac:(lia)) as (u' & Hne & Hu'). exists rid, u'. split; [done|].
        rewrite Has, bool_decide_false by done. done.
      * exists rid, u0. split; [done|]. rewrite Has, bool_decide_false by done. done.
    + exists rid, u0. split; [done|]. rewrite Has. destruct (String.eqb_spec t tenant); [done|]. by rewrite andb_false_r.
  - simpl. intros u0 r' [Hne Hr']%lookup_delete_Some. left. exists r'. split; [done|]. split_and!; [done..|lia|].
    intros _. split; [done|]. split; [|done]. intros x. rewrite Has, bool_decide_false by done. done.
Qed.
Lemma set_roles_kept fresh s tenant u ids now : identity_inv s -> kept fresh s (repo_set_roles s tenant u ids now).2.
Proof.
  intros Hinv. unfold repo_set_roles. destruct (committed_cases s (set_roles_in s tenant u ids now)) as [->|[o H]];
    [auto with rust|]. revert H. generalize (committed s (set_roles_in s tenant u ids now)).2. intros s' H.
  apply bind_ok in H as (found & Hf & H). destruct found as [d|]; [|simplify_eq; auto with rust].
  apply bind_ok in H as (selected & _ & H). destruct selected as [roles|]; [|simplify_eq; auto with rust].
  apply bind_ok in H as ([[owner is_owner] count] & Ho & H).
  destruct (is_owner && (count <=? 1) && _) eqn:Eg; [simplify_eq; auto with rust|].
  apply bind_ok in H as (s1 & Hr & (found & _ & (details & _ & [= _ <-])%bind_ok)%bind_ok).
  unfold hydrate in Hf. destruct (user_row s tenant u) as [r|] eqn:Er; [|done].
  apply user_row_Some in Er as [Er Etr].
  destruct (replace_roles_spec _ _ _ _ _ _ _ Hr Hinv Er Etr) as (Hinv' & Hroles & Hgrants & Husers & Hown & Hother).
  split; [done| |].
  - intros t (rid & u0 & (row & Hrow & Ht & Hn) & Hu0).
    assert (is_owner_role s1 t rid) as Hrid by (exists row; by rewrite Hroles).
    destruct (decide (u0 = u)) as [->|Hne]; [|exists rid, u0; by rewrite Hother].
    assert (t = tenant) as ->.
    { apply assigned_true in Hu0 as [at_ Hat]. destruct (ii_assign s Hinv _ _ _ _ Hat) as [E _].
      rewrite Er in E. simpl in E. congruence. }
    destruct (owner_state_spec _ _ _ _ _ _ rid Ho Hinv ltac:(by exists row)) as (-> & -> & ->).
    rewrite Hu0 in Eg. simpl in Eg. apply andb_false_iff in Eg as [Eg%Z.leb_gt|Eg%negb_false_iff].
    + destruct (other_owner s tenant rid u ltac:(lia)) as (u' & Hne & Hu'). exists rid, u'. by rewrite Hother.
    + exists rid, u. split; [done|]. rewrite Hown. apply bool_decide_eq_true. apply list_elem_of_fmap.
      apply existsb_elem in Eg as (x & Hx & E%Z.eqb_eq). eauto.
  - rewrite Husers. intros u0 r' [[<- <-]|[Hne Hr']]%lookup_insert_Some; left.
    + exists r. split; [done|]. split_and!; [done|done|simpl; lia|simpl; lia].
    + exists r'. split; [done|]. split_and!; [done..|lia|]. intros _. split; [done|]. split; [intros x; by apply Hother|].
      intros x p _. by rewrite Hgrants.
Qed.
(** A new user with its assignments. *)
Lemma kept_new_user s s' u r epoch :
  identity_inv s' -> user_rows s !! u = None -> ur_epoch r = epoch ->
  role_rows s' = role_rows s -> grants s' = grants s -> user_rows s' = <[u := r]> (user_rows s) ->
  (forall t u0 x, u0 <> u -> assigned s' t u0 x = assigned s t u0 x) -> (forall t x, assigned s t u x = false) ->
  kept (Some epoch) s s'.
Proof.
  intros Hinv Hu He Hr Hg Hrows Hother Hnone. split; [done| |].
  - intros t (rid & u0 & (row & Hrow & Ht) & Hu0). exists rid, u0. split; [exists row; by rewrite Hr|].
    destruct (decide (u0 = u)) as [->|]; [by rewrite Hnone in Hu0|by rewrite Hother].
  - rewrite Hrows. intros u0 r' [[<- <-]|[Hne Hr']]%lookup_insert_Some; [right; by rewrite He|left].
    exists r'. split; [done|]. split_and!; [done..|lia|]. intros _. split; [done|]. split; [intros x; by apply Hother|].
    intros x p _. by rewrite Hg.
Qed.
Lemma unassigned s u : identity_inv s -> user_rows s !! u = None -> forall t x, assigned s t u x = false.
Proof.
  intros Hinv Hu t x. apply not_true_iff_false. rewrite assigned_true. intros [at_ H].
  destruct (ii_assign s Hinv _ _ _ _ H) as [E _]. by rewrite Hu in E.
Qed.
Lemma create_user_kept s tenant n epoch now :
  identity_inv s -> kept (Some epoch) s (repo_create_user s tenant n epoch now).2.
Proof.
  intros Hinv. unfold repo_create_user. destruct (committed_cases s (create_user_in s tenant n epoch now)) as [->|[o H]];
    [auto with rust|]. revert H. generalize (committed s (create_user_in s tenant n epoch now)).2. intros s' H.
  apply bind_ok in H as (selected & _ & H). destruct selected as [roles|]; [|simplify_eq; auto with rust].
  apply bind_ok in H as ([rowid s1] & Hi & H). apply bind_ok in H as (u & Hu & H).
  assert (rowid = u) as -> by (unfold narrow_i32 in Hu; by case_match; simplify_eq).
  apply bind_ok in H as (s2 & Hr & (found & _ & (details & _ & [= _ <-])%bind_ok)%bind_ok).
  destruct (insert_user_spec _ _ _ _ Hi Hinv) as (Hnone & -> & Hinv1 & _).
  destruct (replace_roles_spec _ _ _ _ _ _ _ Hr Hinv1 ltac:(simpl; by rewrite lookup_insert_eq) eq_refl)
    as (Hinv' & Hroles & Hgrants & Husers & _ & Hother).
  simpl in Husers. rewrite insert_insert_eq in Husers.
  eapply (kept_new_user s s2 u); [done|done| |done|done|exact Husers|done|by apply unassigned]. reflexivity.
Qed.
Lemma change_password_kept fresh s tenant u hash :
  identity_inv s -> kept fresh s (repo_change_password s tenant u hash).2.
Proof.
  intros Hinv. unfold repo_change_password.
  destruct (update_user s tenant u _) as [changed s'] eqn:E. change s' with (changed, s').2. rewrite <- E.
  apply update_user_kept; [done|]. intros r. simpl. split_and!; try done; lia.
Qed.
Lemma login_kept fresh s tenant u at_ : identity_inv s -> kept fresh s (record_successful_login s tenant u at_).2.
Proof.
  intros Hinv. unfold record_successful_login.
  destruct (update_user s tenant u _) as [changed s'] eqn:E. change s' with (changed, s').2. rewrite <- E.
  apply update_user_kept; [done|]. intros r. simpl. split_and!; try done; lia.
Qed.

(** *** Role operations *)
Lemma create_role_kept fresh s tenant n now :
  custom_role_name (nr_name n) = true -> (forall p, p ∈ nr_permissions n -> exists perm, p = permission_key perm) ->
  identity_inv s -> kept fresh s (repo_create_role s tenant n now).2.
Proof.
  intros Hname Hps Hinv. unfold repo_create_role.
  destruct (committed_cases s (create_role_in s tenant n now)) as [->|[o H]]; [auto with rust|].
  revert H. generalize (committed s (create_role_in s tenant n now)).2. intros s' H. unfold create_role_in in H.
  destruct (name_taken s tenant (nr_name n) None) eqn:En; [done|]. destruct (negb _); [done|].
  apply bind_ok in H as (rid & Hrid & H).
  assert (rid = next_rowid (role_rows s)) as -> by (unfold narrow_i32 in Hrid; by case_match; simplify_eq).
  apply bind_ok in H as (s2 & (Hu & Hr & Ha & Hg)%insert_grants_spec & (found & _ & (details & _ & [= _ <-])%bind_ok)%bind_ok).
  pose proof (inv_new_role s tenant (nr_name n) (nr_description n) false now Hinv En (or_intror Hname)) as [Ia Ig Iu Ir Ic].
  pose proof (next_rowid_fresh (role_rows s)) as Hfresh. set (rid := next_rowid (role_rows s)) in *. simpl in *.
  assert (forall t u x, assigned s2 t u x = assigned s t u x) as Has by (intros; unfold assigned; by rewrite Ha).
  assert (forall t u, assigned s t u rid = false) as Hno.
  { intros t u. apply not_true_iff_false. rewrite assigned_true. intros [at_ H].
    destruct (ii_assign s Hinv _ _ _ _ H) as [_ E]. by rewrite Hfresh in E. }
  split.
  - split; rewrite ?Hu, ?Hr, ?Ha; [done| |done..]. intros r p [H|[-> H]]%Hg; [by apply Ig|].
    eexists. rewrite lookup_insert_eq. split; [done|]. auto.
  - intros t (rid0 & u & (row & Hrow & Ht) & Hx). exists rid0, u. rewrite Has. split; [|done]. exists row. rewrite Hr.
    split; [|done]. rewrite lookup_insert_ne; [done|]. intros <-. by rewrite Hfresh in Hrow.
  - rewrite Hu. intros u r' Hr'. left. exists r'. split; [done|]. split_and!; [done..|lia|]. intros _. split; [done|].
    split; [intros; apply Has|]. intros x p Hx. rewrite Hg. split; [|by left]. intros [|[-> _]]; [done|].
    by rewrite Hno in Hx.
Qed.
Lemma delete_role_kept fresh s tenant rid : identity_inv s -> kept fresh s (repo_delete_role s tenant rid).2.
Proof.
  intros Hinv. unfold repo_delete_role. destruct (committed_cases s (delete_role_in s tenant rid)) as [->|[o H]];
    [auto with rust|]. revert H. generalize (committed s (delete_role_in s tenant rid)).2. intros s' H.
  apply bind_ok in H as (found & Hf & H). destruct found as [d|]; [|simplify_eq; auto with rust].
  destruct (role_is_system (rd_role d)) eqn:Esys; [simplify_eq; auto with rust|].
  destruct (0 <? rd_user_count d) eqn:Ecount; simplify_eq; [auto with rust|]. apply Z.ltb_ge in Ecount.
  unfold role_details in Hf. destruct (role_rows s !! rid) as [row|] eqn:Erow; [|done].
  destruct (String.eqb_spec (rr_tenant row) tenant) as [Et|]; [|done].
  apply bind_ok in Hf as (role & Hrole & [= <-]). simpl in *.
  assert (rr_system row = false) as Hsys.
  { apply bind_ok in Hrole as (? & _ & (? & _ & (? & _ & (? & _ & [= <-])%bind_ok)%bind_ok)%bind_ok). done. }
  assert (forall u t at_, assignments s !! (u, rid) <> Some (t, at_)) as Hno.
  { intros u t at_ H. assert (t = tenant) as ->.
    { destruct (ii_assign s Hinv _ _ _ _ H) as [_ E]. rewrite Erow in E. simpl in E. congruence. }
    assert (filter (fun e : (Z * Z) * (string * Z) => e.1.2 = rid /\ e.2.1 = tenant) (assignments s) !! (u, rid)
            = Some (tenant, at_)) as Hl by (by apply map_lookup_filter_Some).
    pose proof (map_size_ne_0_lookup_2 _ _ (mk_is_Some _ _ Hl)). lia. }
  assert (forall k, assignments (remove_role s tenant rid) !! k = assignments s !! k) as Ha.
  { intros [u x]. simpl. destruct (assignments s !! (u, x)) as [[t at_]|] eqn:E.
    - apply map_lookup_filter_Some. split; [done|]. simpl. intros [-> _]. by apply Hno in E.
    - apply map_lookup_filter_None_2. by left. }
  assert (forall t u x, assigned (remove_role s tenant rid) t u x = assigned s t u x) as Has
    by (intros; unfold assigned; by rewrite Ha).
  split.
  - destruct Hinv as [Ia Ig Iu Ir Ic]. split; simpl.
    + intros u x t at_ H. assert (assignments s !! (u, x) = Some (t, at_)) as E by (by rewrite <- Ha).
      destruct (Ia _ _ _ _ E) as [E1 E2]. split; [done|]. rewrite lookup_delete_ne; [done|]. intros <-. by apply Hno in E.
    + intros r p [Hne H]%elem_of_filter. simpl in Hne. destruct (Ig _ _ H) as (row0 & H1 & H2). exists row0.
      by rewrite lookup_delete_ne by done.
    + done.
    + intros r1 r2 a1 a2 [_ H1]%lookup_delete_Some [_ H2]%lookup_delete_Some. eauto.
    + intros r a [_ H]%lookup_delete_Some. eauto.
  - intros t (rid0 & u & (row0 & Hrow0 & Ht & Hn) & Hx). exists rid0, u. rewrite Has. split; [|done].
    exists row0. simpl. rewrite lookup_delete_ne; [done|]. intros <-. apply assigned_true in Hx as [at_ Hx].
    by apply Hno in Hx.
  - simpl. intros u r' Hr'. left. exists r'. split; [done|]. split_and!; [done..|lia|]. intros _. split; [done|].
    split; [intros; apply Has|]. simpl. intros x p Hx. rewrite elem_of_filter. simpl. split; [tauto|]. split; [|done].
    intros ->. apply assigned_true in Hx as [at_ Hx]. by apply Hno in Hx.
Qed.
Lemma replace_grants_kept s tenant rid ps s' row :
  identity_inv s -> role_rows s !! rid = Some row -> rr_tenant row = tenant ->
  (forall p, p ∈ ps -> exists perm, p = permission_key perm) -> replace_grants s tenant rid ps = Ok s' -> kept None s s'.
Proof.
  intros Hinv Hrow Ht Hps (s1 & (Hu & Hr & Ha & Hg)%insert_grants_spec & [= <-])%bind_ok. simpl in *.
  assert (forall x p, (x, p) ∈ grants s1 <-> ((x, p) ∈ grants s /\ x <> rid) \/ (x = rid /\ p ∈ ps)) as Hg'.
  { intros x p. rewrite Hg, elem_of_filter. simpl. tauto. }
  assert (identity_inv s1) as Hinv1.
  { destruct Hinv as [Ia Ig Iu Ir Ic]. split; rewrite ?Hu, ?Hr, ?Ha; [done| |done..].
    intros x p [[H _]|[-> H]]%Hg'; [by apply Ig|eauto]. }
  assert (forall t u x, assigned (bump_users s1 tenant rid) t u x = assigned s t u x) as Has
    by (intros; unfold assigned; simpl; by rewrite Ha).
  split; [by apply bump_users_inv| |].
  - intros t (rid0 & u & (row0 & Hrow0 & Ht0) & Hx). exists rid0, u. rewrite Has. split; [|done]. exists row0.
    simpl. by rewrite Hr.
  - intros u r'. rewrite bump_users_lookup, Hu. intros (r & Hr0 & ->)%fmap_Some. left. exists r. split; [done|].
    destruct ((ur_tenant r =s? tenant) && assigned s1 tenant u rid) eqn:E; [split_and!; simpl; done || lia|].
    split_and!; [done..|lia|]. intros _. split; [done|]. split; [intros; apply Has|]. simpl. intros x p Hx.
    rewrite Hg'. destruct (decide (x = rid)) as [->|]; [|tauto]. exfalso.
    apply assigned_true in Hx as [at_ Hx]. destruct (ii_assign s Hinv _ _ _ _ Hx) as [_ E2].
    rewrite Hrow in E2. simpl in E2. injection E2 as E2. rewrite <- E2, Ht, String.eqb_refl in E.
    unfold assigned in E. rewrite Ha, Hx, <- E2, Ht, String.eqb_refl in E. done.
Qed.
Lemma update_role_kept fresh s tenant rid patch clock :
  (forall n, patch_name patch = Some n -> custom_role_name n = true) ->
  (forall ps p, patch_permissions patch = Some ps -> p ∈ ps -> exists perm, p = permission_key perm) ->
  identity_inv s -> kept fresh s (repo_update_role s tenant rid patch clock).2.
Proof.
  intros Hname Hps Hinv. unfold repo_update_role.
  destruct (committed_cases s (update_role_in s tenant rid patch clock)) as [->|[o H]]; [auto with rust|].
  revert H. generalize (committed s (update_role_in s tenant rid patch clock)).2. intros s' H.
  apply bind_ok in H as (current & Hf & H). destruct current as [d|]; [|simplify_eq; auto with rust].
  destruct (role_rows s !! rid) as [row|] eqn:Erow; [|simplify_eq; auto with rust].
  destruct (role_is_system (rd_role d)) eqn:Esys; [simplify_eq; auto with rust|]. cbv zeta in H.
  destruct (negb (Int.in_i64 _)); [done|].
  destruct (match patch_name patch with Some name => _ | None => _ end) eqn:En; [done|].
  set (now := Z.max _ _) in H. set (s1 := with_role_rows s _) in H.
  apply bind_ok in H as (s2 & H2 & (found & _ & (details & _ & [= _ <-])%bind_ok)%bind_ok).
  unfold role_details in Hf. rewrite Erow in Hf. destruct (String.eqb_spec (rr_tenant row) tenant) as [Et|]; [|done].
  apply bind_ok in Hf as (role & Hrole & [= <-]). simpl in *.
  assert (rr_system row = false) as Hsys.
  { apply bind_ok in Hrole as (? & _ & (? & _ & (? & _ & (? & _ & [= <-])%bind_ok)%bind_ok)%bind_ok). done. }
  assert (kept fresh s s1) as Hk1.
  { split.
    - apply inv_set_role; [done..|]. destruct (patch_name patch) as [n|]; [right|by left]. rewrite Et. auto.
    - intros t (rid0 & u & (row0 & Hrow0 & Ht & Hn) & Hx). exists rid0, u. split; [|done]. exists row0.
      split; [|done]. unfold s1. simpl. rewrite lookup_insert_ne; [done|]. intros <-.
      assert (row0 = row) as -> by congruence. destruct (ii_custom s Hinv rid row Erow) as [|Hc]; [congruence|].
      unfold custom_role_name in Hc. rewrite Hn in Hc. by rewrite andb_false_r in Hc.
    - intros u r Hr. left. exists r. split; [done|]. split_and!; [done..|lia|]. intros _. split; [done|by split]. }
  destruct (patch_permissions patch) as [ps|] eqn:Eps; [|injection H2 as <-; done].
  apply (identity_kept_trans fresh s s1 s2); [done|].
  apply (replace_grants_kept s1 tenant rid ps s2
    (set_role row (default (rr_name row) (patch_name patch)) (default (rr_description row) (patch_description patch)) now));
    [by apply (k_inv _ _ _ Hk1)|by unfold s1; simpl; rewrite lookup_insert_eq|done|by eauto|done].
Qed.

(** *** The first owner *)
Lemma ensure_owner_role_spec s tenant now rid s1 :
  ensure_owner_role s tenant now = Ok (rid, s1) -> identity_inv s ->
  identity_inv s1 /\ user_rows s1 = user_rows s /\ is_Some (role_rows s1 !! rid).
Proof.
  unfold ensure_owner_role. intros H Hinv. destruct (List.find _ _) as [[rid' row]|] eqn:E.
  - injection H as <- <-. apply map_list_find in E as [E _]. split_and!; [done..|eauto].
  - destruct (negb _); [done|]. injection H as <- <-. split_and!; [|done|simpl; rewrite lookup_insert_eq; eauto].
    apply inv_new_role; [done| |by left]. unfold name_taken. apply existsb_false_elem. intros [r a] Ha.
    apply elem_of_map_to_list in Ha. apply (map_list_find_None _ _ r a) in E; [|done]. simpl in *. by rewrite E.
Qed.
Lemma grant_all_inv s rid : identity_inv s -> is_Some (role_rows s !! rid) -> identity_inv (grant_all s rid).
Proof.
  intros [Ia Ig Iu Ir Ic] [row Hrow]. split; try done. unfold grant_all. cbn [grants with_grants role_rows].
  intros r p [H|H]%elem_of_union; [|by apply Ig].
  apply elem_of_list_to_set, list_elem_of_fmap in H as (perm & [= -> ->] & _). eauto.
Qed.
Lemma seed_kept s tenant o epoch now : identity_inv s -> kept (Some epoch) s (seed_owner_if_empty s tenant o epoch now).2.
Proof.
  intros Hinv. unfold seed_owner_if_empty.
  destruct (committed_cases s (seed_owner_in s tenant o epoch now)) as [->|[out H]]; [auto with rust|].
  revert H. generalize (committed s (seed_owner_in s tenant o epoch now)).2. intros s' H. unfold seed_owner_in in H.
  case_bool_decide as Hempty; simpl in H; [|simplify_eq; auto with rust].
  apply bind_ok in H as ([rid s1] & Ho & ([u s2] & Hi%map_err_inv & (s3 & Ha%map_err_inv & [= _ <-])%bind_ok)%bind_ok).
  destruct (ensure_owner_role_spec _ _ _ _ _ Ho Hinv) as (Hinv1 & Hu1 & Hrid).
  pose proof (grant_all_inv s1 rid Hinv1 Hrid) as Hinv2.
  destruct (insert_user_spec _ _ _ _ Hi Hinv2) as (_ & -> & Hinv3 & _).
  pose proof (insert_assignment_inv _ _ _ _ _ _ Ha Hinv3) as Hinv4. split; [done| |].
  - intros t (rid0 & u0 & _ & [at_ Hx]%assigned_true). destruct (ii_assign s Hinv _ _ _ _ Hx) as [E _].
    by rewrite Hempty, lookup_empty in E.
  - unfold insert_assignment in Ha. case_bool_decide; [done|]. destruct (_ && _); [|done]. injection Ha as <-.
    cbn [user_rows with_assignments with_user_rows grant_all with_grants]. rewrite Hu1, Hempty. intros u0 r' [[<- <-]|[_ Hr]]%lookup_insert_Some; [right|by rewrite lookup_empty in Hr].
    by rewrite lookup_empty.
Qed.
End repository.

(** ** Histories

    Any sequence of service calls; the epoch of a new user is a fresh UUID,
    different from all used before. *)
Record IdentityHistory := { ih_store : IdentityStore; ih_epochs : gset string }.
Inductive identity_step `{!ChronoMicros, !PasswordHasher} : IdentityHistory -> IdentityHistory -> Prop :=
  | step_create_user s used ctx input epoch now : epoch ∉ used ->
      identity_step {| ih_store := s; ih_epochs := used |}
        {| ih_store := (create_user s ctx input epoch now).2; ih_epochs := {[epoch]} ∪ used |}
  | step_change_password s used ctx u password :
      identity_step {| ih_store := s; ih_epochs := used |}
        {| ih_store := (change_password s ctx u password).2; ih_epochs := used |}
  | step_delete_user s used ctx u :
      identity_step {| ih_store := s; ih_epochs := used |} {| ih_store := (delete_user s ctx u).2; ih_epochs := used |}
  | step_set_roles s used ctx u ids now :
      identity_step {| ih_store := s; ih_epochs := used |}
        {| ih_store := (set_roles s ctx u ids now).2; ih_epochs := used |}
  | step_authenticate s used tenant username password clock :
      identity_step {| ih_store := s; ih_epochs := used |}
        {| ih_store := (authenticate s tenant username password clock).2; ih_epochs := used |}
  | step_create_role s used ctx input now :
      identity_step {| ih_store := s; ih_epochs := used |}
        {| ih_store := (create_role s ctx input now).2; ih_epochs := used |}
  | step_update_role s used ctx rid update clock :
      identity_step {| ih_store := s; ih_epochs := used |}
        {| ih_store := (update_role s ctx rid update clock).2; ih_epochs := used |}
  | step_delete_role s used ctx rid :
      identity_step {| ih_store := s; ih_epochs := used |} {| ih_store := (delete_role s ctx rid).2; ih_epochs := used |}
  | step_seed s used error_text tenant username password epoch now : epoch ∉ used ->
      identity_step {| ih_store := s; ih_epochs := used |}
        {| ih_store := (seed_local_owner s error_text tenant username password epoch now).2; ih_epochs := {[epoch]} ∪ used |}.

Section histories.
Context {micros : ChronoMicros} {hasher : PasswordHasher}.
Lemma guarded_kept {A B} fresh s (r : result ApplicationError A) (k : A -> result ApplicationError B * IdentityStore) :
  identity_inv s -> (forall a, r = Ok a -> kept fresh s (k a).2) -> kept fresh s (guarded s r k).2.
Proof. intros Hinv Hk. destruct r as [a|]; simpl; auto with rust. Qed.
Lemma permission_keys_known keys ps p :
  validate_permission_keys keys = Ok ps -> p ∈ ps -> exists perm, p = permission_key perm.
Proof.
  intros (found & Hf & [= <-])%bind_ok Hp. apply (proj1 (elem_of_sorted_set _ _)) in Hp. revert found Hf Hp.
  induction (List.filter _ _) as [|k ks IH]; intros found.
  - intros [= <-] H. by apply elem_of_nil in H.
  - simpl. intros (x & Hx & (xs & Hxs & [= <-])%bind_ok)%bind_ok [->|Hp]%elem_of_cons; [|eauto].
    unfold permission_of_key in Hx. destruct (permission_from_key k); simplify_eq. eauto.
Qed.
Lemma role_name_custom name name' :
  normalize_role_name name = Ok name' -> not_builtin name' = Ok tt -> custom_role_name name' = true.
Proof.
  unfold normalize_role_name, not_builtin. cbv zeta. set (n := str_map _ _).
  destruct (str_is_empty n) eqn:E1; [done|]. destruct (Z.ltb_spec 64 (str_len n)) as [|E2]; [done|].
  destruct (str_forall role_name_char n) eqn:E3; [|done]. intros [= <-]. destruct (is_builtin_role_name n) eqn:E4; [done|].
  intros _. unfold custom_role_name, role_name_char, is_builtin_role_name in *. rewrite E1, E3, E4.
  simpl. rewrite andb_true_r. by apply andb_true_iff; split; [apply Z.leb_le|].
Qed.
Lemma authenticate_kept fresh s tenant username password clock :
  identity_inv s -> kept fresh s (authenticate s tenant username password clock).2.
Proof. intros Hinv. apply guarded_kept; [done|]. intros d _. simpl. by apply login_kept. Qed.
Lemma create_role_service_kept fresh s ctx input now : identity_inv s -> kept fresh s (create_role s ctx input now).2.
Proof.
  intros Hinv. apply guarded_kept; [done|]. intros [name ps] H.
  apply bind_ok in H as (? & _ & (n & Hn & ([] & Hb & (q & Hq & [= <- <-])%bind_ok)%bind_ok)%bind_ok).
  apply create_role_kept; [by eapply role_name_custom|intros p; by eapply permission_keys_known|done].
Qed.
Lemma update_role_service_kept fresh s ctx rid update clock :
  identity_inv s -> kept fresh s (update_role s ctx rid update clock).2.
Proof.
  intros Hinv. apply guarded_kept; [done|]. intros [name ps] H.
  apply bind_ok in H as (? & _ & (n & Hn & (? & Hb & (q & Hq & [= <- <-])%bind_ok)%bind_ok)%bind_ok).
  apply update_role_kept; [| |done]; simpl.
  - intros n' ->. destruct (upd_name update) as [raw|]; [|done]. destruct (normalize_role_name raw) as [n0|] eqn:E; [|done].
    simpl in Hn. injection Hn as ->. destruct (not_builtin n') as [[]|] eqn:Eb; [|done]. by eapply role_name_custom.
  - intros ps p -> Hp. destruct (upd_permissions update) as [raw|]; [|done].
    destruct (validate_permission_keys raw) eqn:E; [|done]. simpl in Hq. injection Hq as ->. revert Hp. by eapply permission_keys_known.
Qed.
Lemma seed_service_kept s error_text tenant username password epoch now :
  identity_inv s -> kept (Some epoch) s (seed_local_owner s error_text tenant username password epoch now).2.
Proof.
  intros Hinv. assert (forall name, kept (Some epoch) s (seed_prepared_owner s tenant name password epoch now).2) as H.
  { intros name. apply guarded_kept; [done|]. intros hash _. by apply seed_kept. }
  unfold seed_local_owner. case_match; [done|]. by apply guarded_kept.
Qed.
(** Every step keeps the tables, and introduces at most its fresh epoch. *)
Lemma step_kept_identity h h' :
  identity_step h h' -> identity_inv (ih_store h) ->
  exists fresh, kept fresh (ih_store h) (ih_store h')
    /\ (forall e, fresh = Some e -> e ∉ ih_epochs h) /\ ih_epochs h ⊆ ih_epochs h'.
Proof.
  intros H Hinv. destruct H; simpl in *;
    [exists (Some epoch)|exists None..|exists (Some epoch)]; (split; [|split; [naive_solver|set_solver]]).
  - apply guarded_kept; [done|]. intros hash _. by apply create_user_kept.
  - apply guarded_kept; [done|]. intros hash _. by apply change_password_kept.
  - apply guarded_kept; [done|]. intros [] _. by apply delete_user_kept.
  - apply guarded_kept; [done|]. intros [] _. by apply set_roles_kept.
  - by apply authenticate_kept.
  - by apply create_role_service_kept.
  - by apply update_role_service_kept.
  - apply guarded_kept; [done|]. intros [] _. by apply delete_role_kept.
  - by apply seed_service_kept.
Qed.
Lemma steps_inv h h' : rtc identity_step h h' -> identity_inv (ih_store h) -> identity_inv (ih_store h').
Proof.
  induction 1 as [|a b c Hab _ IH]; [done|]. intros Hinv. apply IH.
  destruct (step_kept_identity _ _ Hab Hinv) as (fresh & Hk & _). apply (k_inv _ _ _ Hk).
Qed.
(** A principal is recognised by its epoch for good. *)
Definition tracked (s0 : IdentityStore) (u0 : Z) (r0 : UserRow) (h : IdentityHistory) : Prop :=
  ur_epoch r0 ∈ ih_epochs h
  /\ forall u r, user_rows (ih_store h) !! u = Some r -> ur_epoch r = ur_epoch r0 ->
     u = u0 /\ user_kept s0 (ih_store h) u0 r0 r.
Lemma tracked_step s0 u0 r0 h h' :
  identity_step h h' -> identity_inv (ih_store h) -> tracked s0 u0 r0 h -> tracked s0 u0 r0 h'.
Proof.
  intros Hs Hinv [He Ht]. destruct (step_kept_identity _ _ Hs Hinv) as (fresh & [_ _ Hu] & Hf & Hsub).
  split; [set_solver|]. intros u r' Hr' Er'. destruct (Hu u r' Hr') as [(r & Hr & Hk)|[_ Hfr]].
  - pose proof Hk as (E & _). destruct (Ht u r Hr) as [-> Hk0]; [congruence|]. split; [done|]. by eapply user_kept_trans.
  - apply Hf in Hfr. rewrite Er' in Hfr. done.
Qed.
Lemma tracked_steps s0 u0 r0 h h' :
  rtc identity_step h h' -> identity_inv (ih_store h) -> tracked s0 u0 r0 h -> tracked s0 u0 r0 h'.
Proof.
  induction 1 as [|a b c Hab _ IH]; [done|]. intros Hinv Ht. apply IH; [|by eapply tracked_step].
  destruct (step_kept_identity _ _ Hab Hinv) as (fresh & Hk & _). apply (k_inv _ _ _ Hk).
Qed.
(** What a hydrated user says about the tables. *)
Lemma elem_of_user_permissions s tenant u p :
  p ∈ user_permissions s tenant u <-> exists x, assigned s tenant u x = true /\ (x, p) ∈ grants s.
Proof.
  unfold user_permissions. rewrite elem_of_sorted_set, list_elem_of_fmap. split.
  - intros ([x q] & -> & [H Hf]%elem_of_filterb). exists x. by apply elem_of_elements in H.
  - intros (x & Hx & H). exists (x, p). split; [done|]. apply elem_of_filterb. by rewrite elem_of_elements.
Qed.
Lemma decode_role_id e r : decode_role e = Ok r -> role_id r = e.1.
Proof.
  intros (i & Hi & (? & _ & (? & _ & (? & _ & [= <-])%bind_ok)%bind_ok)%bind_ok)%bind_ok. simpl.
  unfold narrow_i32 in Hi. by case_match; simplify_eq.
Qed.
Lemma mapM_role_ids es rs : mapM decode_role es = Ok rs -> map role_id rs = map fst es.
Proof.
  revert rs. induction es as [|e es IH]; intros rs; [by intros [= <-]|]. simpl.
  intros (r & Hr & (rs' & Hrs & [= <-])%bind_ok)%bind_ok. simpl. by rewrite (decode_role_id _ _ Hr), (IH _ Hrs).
Qed.
Lemma hydrate_spec s tenant u d :
  hydrate s tenant u = Ok (Some d) -> identity_inv s ->
  exists r, user_rows s !! u = Some r /\ ur_tenant r = tenant /\ user_id (ud_user d) = u
    /\ user_permission_version (ud_user d) = ur_version r /\ user_auth_epoch (ud_user d) = ur_epoch r
    /\ user_is_active (ud_user d) = ur_active r /\ user_name (ud_user d) = ur_username r
    /\ ud_permissions d = user_permissions s tenant u
    /\ (forall x, x ∈ map role_id (ud_roles d) <-> assigned s tenant u x = true).
Proof.
  unfold hydrate. intros H Hinv. destruct (user_row s tenant u) as [r|] eqn:Er; [|done].
  apply user_row_Some in Er as [Er Et]. apply bind_ok in H as (usr & Hu & (roles & Hr & [= <-])%bind_ok).
  exists r. apply bind_ok in Hu as (i & Hi & (t & _ & (c & _ & (v & Hv & (l & _ & [= <-])%bind_ok)%bind_ok)%bind_ok)%bind_ok).
  unfold narrow_i32 in Hi, Hv. destruct (Int.in_i32 u), (Int.in_i32 (ur_version r)); simplify_eq. simpl.
  split_and!; try done. intros x. rewrite (mapM_role_ids _ _ Hr). unfold roles_where.
  rewrite (merge_sort_Permutation role_before). rewrite list_elem_of_fmap. split.
  - intros ([x' row] & -> & [_ [_ Ha]%andb_true_iff]%elem_of_filterb). done.
  - intros Ha. pose proof Ha as [at_ Hx]%assigned_true. destruct (ii_assign s Hinv _ _ _ _ Hx) as [_ E].
    apply fmap_Some in E as (row & Hrow & E). exists (x, row). split; [done|]. apply elem_of_filterb.
    split; [by apply elem_of_map_to_list|]. simpl. by rewrite <- E, String.eqb_refl, Ha.
Qed.

(** What a principal stands for in the tables. *)
Record stands_for (s : IdentityStore) (tenant : string) (u : AuthenticatedUser) (r : UserRow) : Prop := {
  sf_row : user_rows s !! au_id u = Some r;
  sf_tenant : ur_tenant r = tenant;
  sf_version : ur_version r = au_permission_version u;
  sf_epoch : ur_epoch r = au_auth_epoch u;
  sf_active : ur_active r = true;
  sf_permissions : au_permissions u = user_permissions s tenant (au_id u);
  sf_roles : forall x, x ∈ map role_id (au_roles u) <-> assigned s tenant (au_id u) x = true;
}.
Lemma details_stand_for s tenant id d :
  hydrate s tenant id = Ok (Some d) -> identity_inv s -> user_is_active (ud_user d) = true ->
  au_id (authenticated_user_from_details d) = id
  /\ exists r, stands_for s tenant (authenticated_user_from_details d) r.
Proof.
  intros H Hinv Ha. destruct (hydrate_spec _ _ _ _ H Hinv) as (r & Hr & Ht & Hid & Hv & He & Hact & _ & Hp & Hro).
  split; [done|]. exists r. by split; simpl; rewrite ?Hid, <-?Hact.
Qed.
Lemma find_credentials_spec s tenant username c :
  find_credentials_by_username s tenant username = Ok (Some c) ->
  exists id r, user_rows s !! id = Some r /\ ur_tenant r = tenant /\ ur_hash r = uc_password_hash c
    /\ hydrate s tenant id = Ok (Some (uc_details c)).
Proof.
  unfold find_credentials_by_username. destruct (List.find _ _) as [[id r]|] eqn:E; [|done].
  apply map_list_find in E as [Er [Et _]%andb_true_iff]. apply String.eqb_eq in Et.
  intros (i & Hi & (d & Hd & H)%bind_ok)%bind_ok.
  assert (i = id) as -> by (unfold narrow_i32 in Hi; by destruct (Int.in_i32 id); simplify_eq).
  destruct d as [d|]; simplify_eq. by exists id, r.
Qed.
(** A login only records its time. *)
Lemma login_stands_for s tenant u r clock :
  stands_for s tenant u r ->
  exists r', ur_hash r' = ur_hash r
    /\ stands_for (record_successful_login s tenant (au_id u) clock).2 tenant u r'.
Proof.
  intros [Hr Ht Hv He Ha Hp Hro]. unfold record_successful_login, update_user.
  rewrite (proj2 (user_row_Some s tenant (au_id u) r)) by done. simpl.
  eexists. split; [|split; [apply lookup_insert_eq|..]]; done.
Qed.
Lemma authenticate_spec s tenant username password clock u s1 :
  identity_inv s -> authenticate s tenant username password clock = (Ok u, s1) ->
  identity_inv s1 /\ exists r, stands_for s1 tenant u r /\ verify_hash password (ur_hash r) = Ok true.
Proof.
  intros Hinv Hauth. unfold authenticate in Hauth.
  match type of Hauth with guarded s ?x _ = _ => destruct x as [d|] eqn:Eg; [|done] end. simpl in Hauth.
  apply bind_ok in Eg as (? & _ & (found & Hf%map_err_inv & (cred & ->%ok_or_ok & ([] & Hact & (valid & Hvalid%map_err_inv & Hd)%bind_ok)%bind_ok)%bind_ok)%bind_ok).
  destruct (user_is_active _) eqn:Ea; [|done]. destruct valid; [|done]. injection Hd as <-.
  apply find_credentials_spec in Hf as (id & row & Hrow & Ht & Hh & Hhyd).
  destruct (details_stand_for _ _ _ _ Hhyd Hinv Ea) as [<- (r & Hr)].
  assert (r = row) as -> by (rewrite (sf_row _ _ _ _ Hr) in Hrow; congruence).
  pose proof (login_kept None s tenant (user_id (ud_user (uc_details cred))) clock Hinv) as [Hinv1 _ _].
  destruct (login_stands_for _ _ _ _ clock Hr) as (r' & Hh' & Hr').
  unfold reported in Hauth. injection Hauth as Hu <-. split; [done|].
  assert (u = authenticated_user_from_details (uc_details cred)) as ->.
  { revert Hu. unfold record_successful_login. destruct (update_user _ _ _ _). simpl. congruence. }
  exists r'. split; [done|]. by rewrite Hh', Hh.
Qed.
Lemma resolve_session_spec s tenant id version epoch u :
  identity_inv s -> resolve_session s tenant id version epoch = Ok u ->
  au_id u = id /\ au_permission_version u = version /\ au_auth_epoch u = epoch /\ exists r, stands_for s tenant u r.
Proof.
  intros Hinv (found & Hh%map_err_inv & (d & ->%ok_or_ok & H)%bind_ok)%bind_ok.
  destruct (negb _ || _ || _ || _) eqn:E; [done|]. injection H as <-.
  apply orb_false_iff in E as [[[_ Ea%negb_false_iff]%orb_false_iff Ev%negb_false_iff]%orb_false_iff Ee%negb_false_iff].
  apply Z.eqb_eq in Ev. apply String.eqb_eq in Ee.
  destruct (details_stand_for _ _ _ _ Hh Hinv Ea) as [Hid Hr]. split_and!; done.
Qed.
Lemma same_access_permissions s s' tenant u :
  same_access s s' tenant u -> user_permissions s' tenant u = user_permissions s tenant u.
Proof.
  intros [Ha Hg]. apply sorted_set_ext. intros p.
  pose proof (elem_of_user_permissions s tenant u p) as H. pose proof (elem_of_user_permissions s' tenant u p) as H'.
  unfold user_permissions in H, H'. rewrite elem_of_sorted_set in H, H'. rewrite H, H'.
  split; intros (x & Hx & Hp); exists x.
  - rewrite Ha in Hx. split; [done|]. by apply Hg.
  - rewrite Ha. split; [done|]. by apply Hg.
Qed.

(** C39. The identity tables stay well formed: over any history of user, role
    and bootstrap operations assignments refer to a user and a role of one
    tenant, permissions to existing roles, user names, epochs and role names
    stay unique, custom roles keep canonical names outside the reserved ones
    and hold only known permissions. *)
Theorem identity_wellformed h h' :
  identity_inv (ih_store h) -> rtc identity_step h h' -> identity_inv (ih_store h').
Proof. intros Hinv Hs. by apply (steps_inv h). Qed.

(** C9. No tenant loses its last owner: once a user of a tenant has the owner
    role, then after any history of deletions, demotions, role changes and
    everything else some user of that tenant has it. *)
Theorem tenant_keeps_owner h h' tenant :
  identity_inv (ih_store h) -> rtc identity_step h h' -> has_owner (ih_store h) tenant -> has_owner (ih_store h') tenant.
Proof.
  intros Hinv Hs. induction Hs as [|a b c Hab _ IH]; [done|]. intros Ho.
  destruct (step_kept_identity _ _ Hab Hinv) as (fresh & [Hi Hk _] & _). apply IH; auto.
Qed.

(** C8. A session stands for the authorization it was issued with: whatever
    happens after a login (password or role changes, changes of a role's
    permissions, deletion and recreation of the user), when the session still
    resolves it does so to the same user, with the password that was verified
    unchanged and with the same roles and permissions. *)
Theorem session_bound s tenant username password clock u s1 used h2 u' :
  identity_inv s -> authenticate s tenant username password clock = (Ok u, s1) ->
  (forall id r, user_rows s1 !! id = Some r -> ur_epoch r ∈ used) ->
  rtc identity_step {| ih_store := s1; ih_epochs := used |} h2 ->
  resolve_session (ih_store h2) tenant (au_id u) (au_permission_version u) (au_auth_epoch u) = Ok u' ->
  au_id u' = au_id u /\ au_permissions u' = au_permissions u
  /\ (forall x, x ∈ map role_id (au_roles u') <-> x ∈ map role_id (au_roles u))
  /\ exists r, user_rows (ih_store h2) !! au_id u = Some r /\ ur_tenant r = tenant /\ ur_active r = true
       /\ verify_hash password (ur_hash r) = Ok true.
Proof.
  intros Hinv Hauth Hused Hsteps Hres.
  destruct (authenticate_spec _ _ _ _ _ _ _ Hinv Hauth) as (Hinv1 & r1 & [Hr1 Ht1 Hv1 He1 _ Hp1 Hro1] & Hver).
  pose proof (steps_inv _ _ Hsteps Hinv1) as Hinv2.
  destruct (resolve_session_spec _ _ _ _ _ _ Hinv2 Hres) as (Hid & Hv & He & r2 & [Hr2 Ht2 Hv2 He2 Ha2 Hp2 Hro2]).
  assert (tracked s1 (au_id u) r1 h2) as [_ Htr].
  { eapply (tracked_steps _ _ _ _ _ Hsteps Hinv1). split; [by apply (Hused (au_id u))|]. simpl. intros u0 r0 Hr0 Er0.
    assert (u0 = au_id u) as -> by (apply (ii_users s1 Hinv1 u0 _ r0 r1); auto).
    split; [done|]. assert (r0 = r1) as -> by congruence. apply user_kept_refl. }
  rewrite Hid in *. destruct (Htr (au_id u) r2 Hr2 ltac:(congruence)) as (_ & _ & _ & _ & Hk).
  destruct Hk as [Hhash Hacc]; [congruence|]. rewrite Ht1 in Hacc. split_and!; [done| | |].
  - rewrite Hp1, Hp2. by apply same_access_permissions.
  - intros x. rewrite Hro1, Hro2. destruct Hacc as [-> _]. done.
  - exists r2. split_and!; [done..|]. by rewrite Hhash.
Qed.
End histories.

(** ** A concrete history *)
Definition demo_hasher : PasswordHasher :=
  {| hash_password := fun p => Ok ("h:" +:+ p); verify_hash := fun p h => Ok (h =s? "h:" +:+ p) |}.
#[local] Existing Instance demo_hasher.
#[local] Existing Instance demo_micros.
Definition demo_identity : IdentityStore :=
  {| organizations := {["default"]}; user_rows := ∅; role_rows := ∅; grants := ∅; assignments := ∅ |}.
Lemma demo_identity_inv : identity_inv demo_identity.
Proof. by split. Qed.
Definition demo_seeded : IdentityStore := (seed_local_owner demo_identity (fun _ => "") "default" "admin" "admin" "e1" 5).2.
Definition demo_admin : TenantContext :=
  {| ctx_tenant := "default"; ctx_actor := System "host"; ctx_permissions := permission_set_all |}.
Definition demo_role : CreateRole :=
  {| cro_name := " Auditor "; cro_description := None; cro_permissions := ["logs.read"] |}.
Lemma demo_identity_history : rtc identity_step {| ih_store := demo_identity; ih_epochs := ∅ |}
  {| ih_store := (delete_user (create_role demo_seeded demo_admin demo_role 6).2 demo_admin 1).2; ih_epochs := {["e1"]} ∪ ∅ |}.
Proof.
  eapply rtc_l; [apply (step_seed _ _ (fun _ => "") "default" "admin" "admin" "e1" 5); set_solver|]. eapply rtc_l; [apply step_create_role|].
  eapply rtc_l; [apply step_delete_user|apply rtc_refl].
Qed.
Lemma identity_wellformed_witness :
  (delete_user (create_role demo_seeded demo_admin demo_role 6).2 demo_admin 1).1
    = Err (Conflict "Cannot delete the last owner from the tenant")
  /\ identity_inv (delete_user (create_role demo_seeded demo_admin demo_role 6).2 demo_admin 1).2.
Proof.
  split; [vm_compute; reflexivity|]. exact (identity_wellformed {| ih_store := demo_identity; ih_epochs := ∅ |} _ demo_identity_inv demo_identity_history).
Defined.
Lemma demo_seeded_history : rtc identity_step {| ih_store := demo_identity; ih_epochs := ∅ |}
  {| ih_store := demo_seeded; ih_epochs := {["e1"]} ∪ ∅ |}.
Proof. eapply rtc_l; [apply (step_seed _ _ (fun _ => "") "default" "admin" "admin" "e1" 5); set_solver|apply rtc_refl]. Qed.
Lemma tenant_keeps_owner_witness : has_owner (delete_user demo_seeded demo_admin 1).2 "default".
Proof.
  apply (tenant_keeps_owner {| ih_store := demo_seeded; ih_epochs := ∅ |}
           {| ih_store := (delete_user demo_seeded demo_admin 1).2; ih_epochs := ∅ |}).
  - exact (steps_inv _ _ demo_seeded_history demo_identity_inv).
  - eapply rtc_l; [apply step_delete_user|apply rtc_refl].
  - exists 1, 1. split; [|vm_compute; reflexivity]. eexists. split; [vm_compute; reflexivity|]. split; reflexivity.
Defined.
Definition demo_login := authenticate demo_seeded "default" "admin" "admin" 9000.
Lemma session_bound_witness :
  exists u u', demo_login.1 = Ok u
  /\ resolve_session (create_role demo_login.2 demo_admin demo_role 12).2 "default" 1 2 "e1" = Ok u'
  /\ au_permissions u' = au_permissions u.
Proof.
  destruct demo_login as [r s1] eqn:E. unfold demo_login in E.
  assert (exists u, r = Ok u /\ au_id u = 1 /\ au_permission_version u = 2 /\ au_auth_epoch u = "e1") as (u & -> & H1 & H2 & H3).
  { assert (r = demo_login.1) as -> by (unfold demo_login; by rewrite E). vm_compute. eexists. split_and!; reflexivity. }
  assert (s1 = demo_login.2) as Hs by (unfold demo_login; by rewrite E).
  destruct (resolve_session (create_role s1 demo_admin demo_role 12).2 "default" 1 2 "e1") as [u'|] eqn:E2;
    [|rewrite Hs in E2; vm_compute in E2; discriminate E2].
  exists u, u'. split; [done|]. split; [done|].
  apply (session_bound demo_seeded "default" "admin" "admin" 9000 u s1 {["e1"]}
           {| ih_store := (create_role s1 demo_admin demo_role 12).2; ih_epochs := {["e1"]} |} u').
  - exact (steps_inv _ _ demo_seeded_history demo_identity_inv).
  - exact E.
  - assert (user_rows s1 = {[1 := {| ur_tenant := "default"; ur_username := "admin"; ur_hash := "h:admin";
      ur_role := "owner"; ur_active := true; ur_epoch := "e1"; ur_version := 2; ur_last_login := Some 9;
      ur_created := 5 |}]}) as -> by (rewrite Hs; vm_compute; reflexivity).
    intros id row [_ <-]%lookup_singleton_Some. set_solver.
  - eapply rtc_l; [apply step_create_role|apply rtc_refl].
  - rewrite H1, H2, H3. exact E2.
Defined.
