(* ===== verification/RateLimit.v ===== *)
(** * Request limits (crates/backend/src/rate_limit.rs)

    Trusted proxies and the client address of a request ([Proxy]), and the
    sliding-window limiter ([Limiter]) with its abstract specification, a log
    of the admitted requests ([Window]). *)
From stdpp Require Import sorting.
From S2P Require Import Prelude Text.
From Stdlib Require Import Ascii.

Local Open Scope Z_scope.

(** ** Addresses of the standard library *)
Module Net.
(** An address is the integer of its octets, as [u32::from] and [u128::from] read it. *)
Inductive IpAddr := V4 (a : Z) | V6 (a : Z).
#[global] Instance IpAddr_eq_dec : EqDecision IpAddr.
Proof. solve_decision. Defined.
Definition LOCALHOST4 : IpAddr := V4 (127 * 2 ^ 24 + 1).

(** [char::to_digit]. *)
Definition to_digit (radix : Z) (c : ascii) : option Z :=
  let v := if between 48 57 (code c) then code c - 48
           else if between 97 102 (code c) then code c - 87
           else if between 65 70 (code c) then code c - 55 else radix in
  if v <? radix then Some v else None.
(** The digits of [Parser::read_number]: too large or too many fail. *)
Fixpoint read_digits (radix limit : Z) (max_digits count : nat) (acc : Z) (s : string) : option (Z * nat * string) :=
  match s with
  | String c r =>
    match to_digit radix c with
    | Some d =>
      if limit <? acc * radix + d then None
      else if (max_digits <? S count)%nat then None
      else read_digits radix limit max_digits (S count) (acc * radix + d) r
    | None => Some (acc, count, s)
    end
  | EmptyString => Some (acc, count, s)
  end.
Definition read_number (radix limit : Z) (max_digits : nat) (allow_zero_prefix : bool) (s : string) : option (Z * string) :=
  '(v, count, rest) ← read_digits radix limit max_digits 0 0 s;
  if (count =? 0)%nat then None
  else if negb allow_zero_prefix && starts_with "0" s && (1 <? count)%nat then None
  else Some (v, rest).
(** [Parser::read_separator]. *)
Definition separated {A} (sep : string) (index : nat) (inner : string -> option (A * string)) (s : string)
    : option (A * string) :=
  s ← (if (index =? 0)%nat then Some s else strip_prefix sep s); inner s.
Fixpoint read_octets (n index : nat) (acc : Z) (s : string) : option (Z * string) :=
  match n with
  | O => Some (acc, s)
  | S k => '(v, rest) ← separated "." index (read_number 10 255 3 false) s; read_octets k (S index) (acc * 256 + v) rest
  end.
Definition read_ipv4 (s : string) : option (Z * string) := read_octets 4 0 0 s.
(** [read_groups]: up to [remaining] groups of an IPv6 address, the last two
    possibly an IPv4 address. *)
Fixpoint read_groups (remaining index : nat) (s : string) : list Z * bool * string :=
  match remaining with
  | O => ([], false, s)
  | S k =>
    match (if (1 <=? k)%nat then separated ":" index read_ipv4 s else None) with
    | Some (v4, rest) => ([v4 / 2 ^ 16; v4 mod 2 ^ 16], true, rest)
    | None =>
      match separated ":" index (read_number 16 (2 ^ 16 - 1) 4 true) s with
      | Some (g, rest) => let '(gs, v4, rest) := read_groups k (S index) rest in (g :: gs, v4, rest)
      | None => ([], false, s)
      end
    end
  end.
Definition of_groups (gs : list Z) : Z := fold_left (fun acc g => acc * 2 ^ 16 + g) gs 0.
Definition read_ipv6 (s : string) : option (Z * string) :=
  let '(head, head_v4, rest) := read_groups 8 0 s in
  if (length head =? 8)%nat then Some (of_groups head, rest)
  else if (head_v4 : bool) then None
  else rest ← strip_prefix "::" rest;
       let '(tail, _, rest) := read_groups (8 - (length head + 1)) 0 rest in
       Some (of_groups (head ++ repeat 0 (8 - length head - length tail) ++ tail), rest).
(** [str::parse::<IpAddr>]. *)
Definition parse (s : string) : option IpAddr :=
  match read_ipv4 s with
  | Some (a, rest) => if str_is_empty rest then Some (V4 a) else None
  | None => '(a, rest) ← read_ipv6 s; if str_is_empty rest then Some (V6 a) else None
  end.
Definition width (ip : IpAddr) : Z := match ip with V4 _ => 32 | V6 _ => 128 end.
Definition bits (ip : IpAddr) : Z := match ip with V4 a | V6 a => a end.
(** The addresses of the Rust types. *)
Definition wf (ip : IpAddr) : Prop := 0 <= bits ip < 2 ^ width ip.

Lemma to_digit_range radix c d : to_digit radix c = Some d -> 0 <= d.
Proof.
  unfold to_digit, between. intros H. destruct (Z.ltb_spec (if (48 <=? code c) && (code c <=? 57) then code c - 48 else
    if (97 <=? code c) && (code c <=? 102) then code c - 87 else if (65 <=? code c) && (code c <=? 70) then code c - 55 else radix)
    radix) as [E|E]; [|done].
  injection H as <-. repeat case_match; bool_prop; lia.
Qed.
Lemma read_digits_range radix limit maxd s : forall count acc v n rest,
  0 <= radix -> 0 <= acc <= limit -> read_digits radix limit maxd count acc s = Some (v, n, rest) -> 0 <= v <= limit.
Proof.
  induction s as [|c s IH]; intros count acc v n rest Hr Ha; simpl; [by intros [= <- <- <-]|].
  destruct (to_digit radix c) as [d|] eqn:E; [|by intros [= <- <- <-]]. apply to_digit_range in E.
  destruct (Z.ltb_spec limit (acc * radix + d)); [done|]. destruct (maxd <? S count)%nat; [done|].
  apply IH; nia.
Qed.
Lemma read_number_range radix limit maxd z s v rest :
  0 <= radix -> 0 <= limit -> read_number radix limit maxd z s = Some (v, rest) -> 0 <= v <= limit.
Proof.
  intros Hr Hl. unfold read_number. destruct (read_digits _ _ _ _ _ _) as [[[v' n] r]|] eqn:E; [|done]. simpl.
  apply read_digits_range in E; [|lia..]. repeat case_match; naive_solver.
Qed.
Lemma separated_Some {A} sep i (inner : string -> option (A * string)) s r :
  separated sep i inner s = Some r -> exists s', inner s' = Some r.
Proof. unfold separated. intros (s' & _ & H)%bind_Some. eauto. Qed.
Lemma read_octets_range n : forall i acc s v rest,
  0 <= acc -> read_octets n i acc s = Some (v, rest) -> 0 <= v < (acc + 1) * 256 ^ Z.of_nat n.
Proof.
  induction n as [|k IH]; intros i acc s v rest Ha; [intros [= <- <-]; simpl; lia|]. simpl.
  intros ([w r] & (s' & Hw)%separated_Some & H)%bind_Some. apply read_number_range in Hw; [|lia..].
  apply IH in H; [|lia]. rewrite Nat2Z.inj_succ, Z.pow_succ_r by lia.
  assert (0 < 256 ^ Z.of_nat k) by (apply Z.pow_pos_nonneg; lia). nia.
Qed.
Lemma read_ipv4_range s v rest : read_ipv4 s = Some (v, rest) -> 0 <= v < 2 ^ 32.
Proof. intros H%read_octets_range; [|lia]. change (256 ^ Z.of_nat 4) with (2 ^ 32) in H. lia. Qed.
Definition group_ok (g : Z) : Prop := 0 <= g < 2 ^ 16.
Lemma read_groups_range n : forall i s gs b rest,
  read_groups n i s = (gs, b, rest) -> Forall group_ok gs /\ (length gs <= n)%nat.
Proof.
  induction n as [|k IH]; intros i s gs b rest; [intros [= <- <- <-]; split; [constructor|done]|]. cbn [read_groups].
  destruct (if (1 <=? k)%nat then _ else None) as [[v4 r]|] eqn:E.
  - intros [= <- <- <-]. destruct (Nat.leb_spec 1 k); [|done].
    apply separated_Some in E as (s' & Hv%read_ipv4_range). split; [|simpl; lia].
    repeat constructor; try apply Z.mod_pos_bound; try lia; [apply Z.div_pos; lia|apply Z.div_lt_upper_bound; lia].
  - destruct (separated ":" i (read_number 16 (2 ^ 16 - 1) 4 true) s) as [[g r]|] eqn:Eg; [|intros [= <- <- <-]; split; [constructor|simpl; lia]].
    destruct (read_groups k (S i) r) as [[gs' b'] r'] eqn:Er. intros [= <- <- <-].
    apply separated_Some in Eg as (s' & Hg). apply read_number_range in Hg; [|lia..].
    destruct (IH _ _ _ _ _ Er) as [IH1 IH2]. split; [constructor; [unfold group_ok; lia|done]|simpl; lia].
Qed.
Lemma of_groups_range gs : Forall group_ok gs -> 0 <= of_groups gs < 2 ^ (16 * Z.of_nat (length gs)).
Proof.
  intros H. unfold of_groups. assert (forall acc m, 0 <= acc < 2 ^ m -> 0 <= m ->
    0 <= fold_left (fun acc g => acc * 2 ^ 16 + g) gs acc < 2 ^ (m + 16 * Z.of_nat (length gs))) as G.
  { induction H as [|g gs Hg _ IH]; intros acc m Ha Hm; simpl; [by rewrite Z.add_0_r|].
    replace (m + _) with ((m + 16) + 16 * Z.of_nat (length gs)) by lia. apply IH; [|lia].
    rewrite Z.pow_add_r by lia. unfold group_ok in Hg. nia. }
  apply (G 0 0); simpl; lia.
Qed.
Lemma read_ipv6_range s v rest : read_ipv6 s = Some (v, rest) -> 0 <= v < 2 ^ 128.
Proof.
  unfold read_ipv6. destruct (read_groups 8 0 s) as [[head hv] r] eqn:E. apply read_groups_range in E as [Hh Hl].
  destruct (Nat.eqb_spec (length head) 8) as [E8|Hn].
  - intros [= <- <-]. pose proof (of_groups_range _ Hh) as H. by rewrite E8 in H.
  - destruct hv; [done|]. intros (r' & _ & H)%bind_Some.
    destruct (read_groups _ 0 r') as [[tail tv] r2] eqn:Et. apply read_groups_range in Et as [Ht Htl]. injection H as <- <-.
    assert (Forall group_ok (head ++ repeat 0 (8 - length head - length tail) ++ tail)) as Hall.
    { apply Forall_app. split; [done|]. apply Forall_app. split; [|done].
      apply List.Forall_forall. intros x Hx%List.repeat_spec. unfold group_ok. lia. }
    pose proof (of_groups_range _ Hall) as H. rewrite !length_app, repeat_length in H.
    by replace (length head + _)%nat with 8%nat in H by lia.
Qed.
Lemma parse_wf s ip : parse s = Some ip -> wf ip.
Proof.
  unfold parse. destruct (read_ipv4 s) as [[a r]|] eqn:E.
  - apply read_ipv4_range in E. case_match; [|done]. by intros [= <-].
  - intros ([a r'] & H%read_ipv6_range & Hi)%bind_Some. case_match; [|done]. by injection Hi as <-.
Qed.
End Net.

(** ** Trusted proxies and client addresses *)
Module Proxy.
Import Net.
Record TrustedProxy := { network : IpAddr; prefix_len : Z }.
Definition parse_proxy (value : string) : option TrustedProxy :=
  '(addr, prefix) ← match split_once "/" value with
    | Some (addr, prefix) =>
      a ← parse (trim addr); p ← parse_unsigned 255 (trim prefix); Some (a, p)
    | None =>
      a ← parse (trim value); Some (a, match a with V4 _ => 32 | V6 _ => 128 end)
    end;
  let max_prefix := match addr with V4 _ => 32 | V6 _ => 128 end in
  if prefix <=? max_prefix then Some {| network := addr; prefix_len := prefix |} else None.
(** [uN::MAX << (N - prefix_len)], the bits shifted out dropped. *)
Definition mask (w prefix : Z) : Z :=
  if prefix =? 0 then 0 else Z.land (Z.shiftl (2 ^ w - 1) (w - prefix)) (2 ^ w - 1).
Definition cidr_contains_v4 (network ip prefix : Z) : bool := Z.land network (mask 32 prefix) =? Z.land ip (mask 32 prefix).
Definition cidr_contains_v6 (network ip prefix : Z) : bool := Z.land network (mask 128 prefix) =? Z.land ip (mask 128 prefix).
Definition proxy_contains (p : TrustedProxy) (ip : IpAddr) : bool :=
  match network p, ip with
  | V4 n, V4 a => cidr_contains_v4 n a (prefix_len p)
  | V6 n, V6 a => cidr_contains_v6 n a (prefix_len p)
  | _, _ => false
  end.
Definition parse_trusted_proxies (values : list string) : list TrustedProxy :=
  {| network := V4 (127 * 2 ^ 24); prefix_len := 8 |} :: {| network := V6 1; prefix_len := 128 |}
  :: omap parse_proxy values.
Definition is_trusted_proxy_peer (ip : IpAddr) (proxies : list TrustedProxy) : bool :=
  existsb (fun p => proxy_contains p ip) proxies.
(** What the middleware reads of a request: the socket's peer, and each header
    that is present with a textual value. *)
Record Request := { peer : option IpAddr; header : string -> option string }.
Definition header_ip (r : Request) (name : string) : option IpAddr := s ← header r name; parse (trim s).
Definition forwarded_for_ip (r : Request) : option IpAddr :=
  s ← header r "x-forwarded-for"; first ← head (split_char "," s); parse (trim first).
Definition or_else {A} (a b : option A) : option A := match a with Some _ => a | None => b end.
Definition extract_client_ip (r : Request) (proxies : list TrustedProxy) : IpAddr :=
  let headers := or_else (header_ip r "x-real-ip") (forwarded_for_ip r) in
  match (if match peer r with Some ip => is_trusted_proxy_peer ip proxies | None => false end then headers else None) with
  | Some ip => ip
  | None => match peer r with Some ip => ip | None => default LOCALHOST4 headers end
  end.

(** The prefix of a network, bit by bit. *)
Definition in_network (p : TrustedProxy) (ip : IpAddr) : Prop :=
  width (network p) = width ip
  /\ forall i, width ip - prefix_len p <= i < width ip -> Z.testbit (bits ip) i = Z.testbit (bits (network p)) i.
Lemma mask_spec w p i : 0 <= p <= w -> Z.testbit (mask w p) i = (w - p <=? i) && (i <? w).
Proof.
  intros Hp. unfold mask. destruct (Z.eqb_spec p 0) as [->|Hn].
  - rewrite Z.testbit_0_l. destruct (Z.leb_spec (w - 0) i), (Z.ltb_spec i w); lia || done.
  - replace (2 ^ w - 1) with (Z.ones w) by (rewrite Z.ones_equiv; lia).
    destruct (Z.ltb_spec i 0); [rewrite Z.testbit_neg_r by done; destruct (Z.leb_spec (w - p) i); lia || done|].
    rewrite Z.land_spec, Z.shiftl_spec by done. rewrite !Z.testbit_ones by lia.
    destruct (Z.leb_spec (w - p) i), (Z.ltb_spec i w), (Z.leb_spec 0 (i - (w - p))), (Z.ltb_spec (i - (w - p)) w),
      (Z.leb_spec 0 i); done || lia.
Qed.
Lemma masked_eq w p a b : 0 <= p <= w ->
  (Z.land a (mask w p) =? Z.land b (mask w p)) = true <-> forall i, w - p <= i < w -> Z.testbit b i = Z.testbit a i.
Proof.
  intros Hp. rewrite Z.eqb_eq. split.
  - intros E i Hi. apply (f_equal (fun z => Z.testbit z i)) in E. rewrite !Z.land_spec, mask_spec in E by done.
    destruct (Z.leb_spec (w - p) i), (Z.ltb_spec i w); try lia. by rewrite !andb_true_r in E.
  - intros H. apply Z.bits_inj. intros i. rewrite !Z.land_spec, mask_spec by done.
    destruct (Z.leb_spec (w - p) i), (Z.ltb_spec i w); rewrite ?andb_true_r, ?andb_false_r; try done. by rewrite H.
Qed.
Definition proxy_ok (p : TrustedProxy) : Prop := wf (network p) /\ 0 <= prefix_len p <= width (network p).
Lemma contains_exact p ip : proxy_ok p -> proxy_contains p ip = true <-> in_network p ip.
Proof.
  destruct p as [[n|n] len]; intros [_ Hp]; destruct ip as [a|a]; simpl in *;
    unfold proxy_contains, in_network, cidr_contains_v4, cidr_contains_v6; simpl; rewrite ?masked_eq by done;
    split; first [done | (intros H; by split) | by intros [E H]].
Qed.
Lemma parse_digits_nonneg s : forall acc v, 0 <= acc -> parse_digits acc s = Some v -> 0 <= v.
Proof.
  induction s as [|c s IH]; intros acc v Ha; [by intros [= <-]|]. simpl. intros (d & Hd & H)%bind_Some.
  apply IH in H; [done|]. unfold digit_value, is_ascii_digit, between in Hd. case_match eqn:E; [|done].
  injection Hd as <-. bool_prop. lia.
Qed.
Lemma parse_unsigned_nonneg hi s v : parse_unsigned hi s = Some v -> 0 <= v.
Proof.
  unfold parse_unsigned. intros (n & Hn & H)%bind_Some.
  assert (forall t, parse_nat t = Some n -> 0 <= n) as G
    by (intros t Ht; unfold parse_nat in Ht; destruct t; [done|]; by eapply parse_digits_nonneg in Ht).
  assert (0 <= n) by (repeat case_match; eauto). case_match; naive_solver.
Qed.
Lemma parse_proxy_ok s p : parse_proxy s = Some p -> proxy_ok p.
Proof.
  unfold parse_proxy. intros ([a len] & Hs & H)%bind_Some.
  destruct (Z.leb_spec len (match a with V4 _ => 32 | V6 _ => 128 end)) as [Hl|]; [|done]. injection H as <-.
  assert (wf a /\ 0 <= len) as [Hwf Hlen].
  { destruct (split_once "/" s) as [[x y]|].
    - apply bind_Some in Hs as (a' & Ha%parse_wf & (l & Hl'%parse_unsigned_nonneg & [= <- <-])%bind_Some). done.
    - apply bind_Some in Hs as (a' & Ha%parse_wf & [= <- <-]). split; [done|]. destruct a'; lia. }
  split; [done|]. simpl. destruct a; simpl in *; lia.
Qed.
Lemma proxies_ok values p : p ∈ parse_trusted_proxies values -> proxy_ok p.
Proof.
  unfold parse_trusted_proxies. intros [->|[->|(s & _ & H)%list_elem_of_omap]%elem_of_cons]%elem_of_cons;
    [split; [split|]; done..|by eapply parse_proxy_ok].
Qed.
Lemma trusted_peer_exact values ip :
  is_trusted_proxy_peer ip (parse_trusted_proxies values) = true
  <-> exists p, p ∈ parse_trusted_proxies values /\ in_network p ip.
Proof.
  unfold is_trusted_proxy_peer. rewrite existsb_elem.
  split; intros (p & Hp & H); exists p; (split; [done|]); by apply (contains_exact p ip (proxies_ok _ _ Hp)).
Qed.

(** A client chooses its own address only through a trusted proxy: the
    address used for the limits is the socket's peer, whatever the headers
    say, unless the peer lies in a loopback network or in a configured one,
    that is unless its leading bits are those of the network's prefix; a
    trusted peer's headers are taken in the order x-real-ip, first
    x-forwarded-for, and only when they hold an address. *)
Theorem client_ip_trusted r values ip :
  peer r = Some ip ->
  ((forall p, p ∈ parse_trusted_proxies values -> ~ in_network p ip) ->
     extract_client_ip r (parse_trusted_proxies values) = ip)
  /\ (forall p, p ∈ parse_trusted_proxies values -> in_network p ip ->
     extract_client_ip r (parse_trusted_proxies values)
     = default ip (or_else (header_ip r "x-real-ip") (forwarded_for_ip r))).
Proof.
  intros Hpeer. unfold extract_client_ip. rewrite Hpeer. split.
  - intros Hno. destruct (is_trusted_proxy_peer ip _) eqn:E; [|done].
    apply trusted_peer_exact in E as (p & Hp & Hin). by apply Hno in Hin.
  - intros p Hp Hin. rewrite (proj2 (trusted_peer_exact values ip)) by eauto. by destruct (or_else _ _).
Qed.
End Proxy.

(** ** The sliding-window limiter *)
Module Limiter.
Definition MAX_RATE_LIMIT_KEYS : Z := 100000.
(** An [Instant] and a [Duration] are nanoseconds. *)
Record RateLimiter := { state : gmap string (list Z); max_requests : Z; window : Z }.
Definition new_limiter (max_requests window_secs : Z) : RateLimiter :=
  {| state := ∅; max_requests := max_requests; window := window_secs * 1000000000 |}.
Definition with_state (l : RateLimiter) (m : gmap string (list Z)) : RateLimiter :=
  {| state := m; max_requests := max_requests l; window := window l |}.
(** [Instant::duration_since] saturates. *)
Definition duration_since (now earlier : Z) : Z := Z.max 0 (now - earlier).
Definition recent (w now : Z) (ts : list Z) : bool :=
  match last ts with Some t => duration_since now t <? w | None => false end.
Definition cleanup (l : RateLimiter) (now : Z) : RateLimiter :=
  with_state l (filter (fun e : string * list Z => recent (window l) now e.2 = true) (state l)).
Fixpoint expire_front (w now : Z) (ts : list Z) : list Z :=
  match ts with
  | front :: rest => if w <=? duration_since now front then expire_front w now rest else ts
  | [] => []
  end.
Definition full (l : RateLimiter) : bool := MAX_RATE_LIMIT_KEYS <=? Z.of_nat (size (state l)).
(** The entry of the key: [or_default], the expired front dropped, and the
    request recorded when there is room. *)
Definition try_entry (l : RateLimiter) (key : string) (now : Z) : bool * RateLimiter :=
  let timestamps := expire_front (window l) now (default [] (state l !! key)) in
  if max_requests l <=? Z.of_nat (length timestamps)
  then (false, with_state l (<[key := timestamps]> (state l)))
  else (true, with_state l (<[key := timestamps ++ [now]]> (state l))).
(** [check] with no other check or cleanup running; [again] is the clock the
    cleanup reads after [now]. *)
Definition check (l : RateLimiter) (key : string) (now again : Z) : bool * RateLimiter :=
  if negb (bool_decide (is_Some (state l !! key))) && full l then
    let l' := cleanup l again in
    if full l' then (false, l') else try_entry l' key now
  else try_entry l key now.

(** *** The specification: a log of what was admitted *)
Definition in_window (w now : Z) (key : string) (e : string * Z) : bool := (e.1 =s? key) && (now - e.2 <? w).
Definition spec_allows (maximum w : Z) (log : list (string * Z)) (key : string) (now : Z) : bool :=
  Z.of_nat (length (List.filter (in_window w now key) log)) <? maximum.
(** The keys with an admitted request in the window. *)
Definition live_keys (w now : Z) (log : list (string * Z)) : gset string :=
  list_to_set (map fst (List.filter (fun e => now - e.2 <? w) log)).

(** *** Histories *)
Inductive limiter_op := OpCheck (key : string) (now again : Z) | OpCleanup (now : Z).
Definition op_start (o : limiter_op) : Z := match o with OpCheck _ now _ | OpCleanup now => now end.
Definition op_end (o : limiter_op) : Z := match o with OpCheck _ _ again => again | OpCleanup now => now end.
(** The clock never goes back, in the order of the operations. *)
Fixpoint monotone (from : Z) (ops : list limiter_op) : Prop :=
  match ops with [] => True | o :: rest => from <= op_start o <= op_end o /\ monotone (op_end o) rest end.
(** The limiter after an operation, and what it admitted. *)
Definition limiter_step (l : RateLimiter) (o : limiter_op) : RateLimiter * list (string * Z) :=
  match o with
  | OpCheck key now again => let '(ok, l') := check l key now again in (l', if (ok : bool) then [(key, now)] else [])
  | OpCleanup now => (cleanup l now, [])
  end.
Fixpoint limiter_run (l : RateLimiter) (ops : list limiter_op) : RateLimiter * list (string * Z) :=
  match ops with
  | [] => (l, [])
  | o :: rest => let '(l1, a) := limiter_step l o in let '(l2, b) := limiter_run l1 rest in (l2, a ++ b)
  end.

(** *** The simulation *)
Definition live (w now : Z) (ts : list Z) : list Z := List.filter (fun t => now - t <? w) ts.
Definition stamps (log : list (string * Z)) (key : string) : list Z := map snd (List.filter (fun e => e.1 =s? key) log).
Record sim (l : RateLimiter) (log : list (string * Z)) (now : Z) : Prop := {
  sim_past : forall k t, (k, t) ∈ log -> t <= now;
  sim_sorted : forall k ts, state l !! k = Some ts -> StronglySorted Z.le ts /\ Forall (fun t => t <= now) ts;
  sim_live : forall k, live (window l) now (default [] (state l !! k)) = live (window l) now (stamps log k);
}.
Lemma live_later w now now' ts : now <= now' -> live w now' (live w now ts) = live w now' ts.
Proof.
  intros H. unfold live. induction ts as [|t ts IH]; [done|]. simpl.
  destruct (Z.ltb_spec (now - t) w), (Z.ltb_spec (now' - t) w); simpl; try lia; rewrite ?IH; try done.
  - destruct (Z.ltb_spec (now' - t) w); [done|lia].
  - destruct (Z.ltb_spec (now' - t) w); [lia|done].
Qed.
Lemma sim_later l log now now' : now <= now' -> sim l log now -> sim l log now'.
Proof.
  intros H [Hp Hs Hl]. split.
  - intros k t Ht%Hp. lia.
  - intros k ts Hk. destruct (Hs k ts Hk) as [? Hf]. split; [done|]. eapply Forall_impl; [done|]. simpl. lia.
  - intros k. rewrite <- (live_later _ now now') by done. rewrite Hl. by apply live_later.
Qed.
Lemma live_none w now ts : (forall t, t ∈ ts -> w <= now - t) -> live w now ts = [].
Proof.
  unfold live. induction ts as [|t ts IH]; intros H; [done|]. simpl.
  destruct (Z.ltb_spec (now - t) w) as [Hlt|]; [|apply IH; intros; apply H; set_solver].
  specialize (H t ltac:(set_solver)). lia.
Qed.
Lemma live_all w now ts : Forall (fun t => now - t < w) ts -> live w now ts = ts.
Proof. unfold live. induction 1 as [|t ts Ht _ IH]; [done|]. simpl. apply Z.ltb_lt in Ht. by rewrite Ht, IH. Qed.
Lemma expire_front_live w now ts :
  StronglySorted Z.le ts -> Forall (fun t => t <= now) ts -> expire_front w now ts = live w now ts.
Proof.
  induction 1 as [|t ts Hs IH Ht]; intros Hf; [done|]. inversion Hf; subst. simpl. unfold duration_since.
  rewrite Z.max_r by lia. destruct (Z.leb_spec w (now - t)), (Z.ltb_spec (now - t) w); try lia; [by apply IH|].
  f_equal. symmetry. apply live_all. apply Forall_forall. intros x Hx.
  rewrite Forall_forall in Ht. specialize (Ht x Hx). lia.
Qed.
Lemma recent_false w now ts :
  StronglySorted Z.le ts -> Forall (fun t => t <= now) ts -> recent w now ts = false -> live w now ts = [].
Proof.
  intros Hs Hf. unfold recent. destruct (last ts) as [t|] eqn:E; [|by apply last_None in E as ->].
  apply last_Some in E as [ts' ->]. unfold duration_since. apply Forall_app in Hf as [Hf Ht].
  inversion Ht; subst. rewrite Z.max_r by lia. intros Hb%Z.ltb_ge. apply live_none. intros x Hx.
  apply elem_of_app in Hx as [Hx|Hx]; [|set_solver]. pose proof (StronglySorted_app_1_elem_of _ _ _ x t Hs Hx ltac:(set_solver)) as Hle. simpl in Hle. lia.
Qed.
Lemma sim_cleanup l log now : sim l log now -> sim (cleanup l now) log now.
Proof.
  intros [Hp Hs Hl]. split; [done| |]; simpl.
  - intros k ts [H _]%map_lookup_filter_Some. eauto.
  - intros k. rewrite <- Hl. destruct (state l !! k) as [ts|] eqn:E.
    + destruct (recent (window l) now ts) eqn:Er.
      * by rewrite (proj2 (map_lookup_filter_Some _ _ _ _)) by done.
      * destruct (Hs k ts E) as [H1 H2]. rewrite (proj2 (map_lookup_filter_None _ _ _)).
        -- symmetry. by apply recent_false.
        -- right. intros ts' E'. simplify_eq. simpl. by rewrite Er.
    + by rewrite (proj2 (map_lookup_filter_None _ _ _)) by auto.
Qed.
Lemma stamps_app log1 log2 k : stamps (log1 ++ log2) k = stamps log1 k ++ stamps log2 k.
Proof. unfold stamps. by rewrite List.filter_app, map_app. Qed.
Lemma live_app w now a b : live w now (a ++ b) = live w now a ++ live w now b.
Proof. apply List.filter_app. Qed.
Lemma spec_count w now log k :
  length (List.filter (in_window w now k) log) = length (live w now (stamps log k)).
Proof.
  unfold live, stamps, in_window. induction log as [|[k' t] log IH]; [done|]. simpl.
  destruct (k' =s? k); simpl; [|done]. destruct (now - t <? w); simpl; congruence.
Qed.
Lemma live_sub w now ts t : t ∈ live w now ts -> t ∈ ts.
Proof. unfold live. by intros [H _]%elem_of_filterb. Qed.
Lemma live_sorted w now ts : StronglySorted Z.le ts -> StronglySorted Z.le (live w now ts).
Proof.
  induction 1 as [|t ts Hs IH Ht]; [constructor|]. simpl. case_match; [|done]. constructor; [done|].
  rewrite Forall_forall in Ht |- *. intros x Hx%live_sub. auto.
Qed.
(** The entry of the key holds what the log says, so the answer is the
    specification's; other entries may have been cleaned up at [later]. *)
Lemma sim_entry l log key now later :
  now <= later -> sim l log later -> Forall (fun t => t <= now) (default [] (state l !! key)) ->
  live (window l) now (default [] (state l !! key)) = live (window l) now (stamps log key) ->
  (try_entry l key now).1 = spec_allows (max_requests l) (window l) log key now
  /\ sim (try_entry l key now).2 (log ++ (if (try_entry l key now).1 then [(key, now)] else [])) later.
Proof.
  intros Hle [Hp Hs Hl] H2 Hkey.
  assert (StronglySorted Z.le (default [] (state l !! key))) as H1.
  { destruct (state l !! key) as [ts|] eqn:E; [by eapply Hs|constructor]. }
  unfold try_entry, spec_allows. rewrite expire_front_live, spec_count, <- Hkey by done.
  set (ts := live (window l) now (default [] (state l !! key))).
  assert (live (window l) later ts = live (window l) later (stamps log key)) as Hlater.
  { rewrite <- Hl. unfold ts. by apply live_later. }
  assert (StronglySorted Z.le ts /\ Forall (fun t => t <= now) ts) as [H3 H4].
  { split; [by apply live_sorted|]. rewrite Forall_forall in H2 |- *. intros x Hx%live_sub. auto. }
  assert (forall k ts', <[key := ts]> (state l) !! k = Some ts' -> StronglySorted Z.le ts' /\ Forall (fun t => t <= later) ts') as H5.
  { intros k ts' [[<- <-]|[_ H']]%lookup_insert_Some; [|eauto]. split; [done|]. eapply Forall_impl; [done|]. simpl. lia. }
  destruct (Z.leb_spec (max_requests l) (Z.of_nat (length ts))), (Z.ltb_spec (Z.of_nat (length ts)) (max_requests l)); try lia;
    simpl; (split; [done|]); split; simpl; rewrite ?app_nil_r; try done.
  - intros k. destruct (decide (k = key)) as [->|]; [by rewrite lookup_insert_eq|by rewrite lookup_insert_ne].
  - intros k t [Hk|Hk]%elem_of_app; [eauto|]. apply list_elem_of_singleton in Hk. simplify_eq. lia.
  - intros k ts' [[<- <-]|[Hne H']]%lookup_insert_Some; [|eauto]. split.
    + apply StronglySorted_app_2; [|done|repeat constructor]. intros x y Hx ->%list_elem_of_singleton.
      rewrite Forall_forall in H4. auto.
    + apply Forall_app. split; [|by repeat constructor]. eapply Forall_impl; [done|]. simpl. lia.
  - intros k. rewrite stamps_app, live_app, <- Hl. unfold stamps at 1. simpl.
    destruct (decide (k = key)) as [->|Hne].
    + rewrite lookup_insert_eq, String.eqb_refl. simpl. rewrite live_app, Hlater, Hl. done.
    + rewrite lookup_insert_ne by done. rewrite (proj2 (String.eqb_neq key k)) by done. simpl. by rewrite app_nil_r.
Qed.
(** A tracked key with a recent request is live. *)
Lemma cleaned_live l log now again :
  sim l log now -> now <= again -> (size (state (cleanup l again)) <= size (live_keys (window l) now log))%nat.
Proof.
  intros [Hp Hs Hl] Hle. rewrite <- size_dom. apply subseteq_size. intros k [ts Hk]%elem_of_dom.
  simpl in Hk. apply map_lookup_filter_Some in Hk as [Hk Hr]. simpl in Hr. unfold recent in Hr.
  destruct (last ts) as [t|] eqn:Et; [|done]. apply last_Some in Et as [ts' ->].
  assert (t ∈ live (window l) now (stamps log k)) as Ht.
  { rewrite <- Hl, Hk. simpl. unfold live. apply elem_of_filterb. split; [set_solver|].
    unfold duration_since in Hr. apply Z.ltb_lt in Hr. apply Z.ltb_lt. lia. }
  unfold live, stamps, live_keys in *. apply elem_of_filterb in Ht as [([k' t'] & E & [He Ek]%elem_of_filterb)%list_elem_of_fmap Hlt].
  simpl in *. apply String.eqb_eq in Ek. subst k' t'. apply elem_of_list_to_set, list_elem_of_fmap.
  exists (k, t). split; [done|]. by apply elem_of_filterb.
Qed.
Lemma sim_check l log key now again :
  sim l log now -> now <= again ->
  let r := check l key now again in
  (r.1 = true -> spec_allows (max_requests l) (window l) log key now = true)
  /\ (Z.of_nat (size (live_keys (window l) now log)) < MAX_RATE_LIMIT_KEYS ->
        r.1 = spec_allows (max_requests l) (window l) log key now)
  /\ sim r.2 (log ++ (if r.1 then [(key, now)] else [])) again.
Proof.
  intros Hsim Hle. simpl. unfold check. pose proof Hsim as [Hp Hs Hl].
  destruct (negb _ && full l) eqn:Ef.
  - apply andb_true_iff in Ef as [Hn%negb_true_iff%bool_decide_eq_false _].
    assert (state l !! key = None) as Hnone by (by apply eq_None_not_Some).
    assert (state (cleanup l again) !! key = None) as Hnone' by (by apply map_lookup_filter_None; left).
    pose proof (sim_cleanup _ _ _ (sim_later _ _ _ _ Hle Hsim)) as Hclean.
    pose proof (cleaned_live l log now again Hsim Hle) as Hcl.
    destruct (full (cleanup l again)) eqn:Efull.
    + simpl. rewrite app_nil_r. split_and!; [done| |done]. unfold full in Efull. apply Z.leb_le in Efull. lia.
    + destruct (sim_entry (cleanup l again) log key now again Hle Hclean) as [H1 H2];
        [rewrite Hnone'; constructor| |rewrite H1 in *; done].
      specialize (Hl key). rewrite Hnone in Hl. by rewrite Hnone'.
  - destruct (sim_entry l log key now now) as [H1 H2]; [done|done| |apply Hl|].
    + destruct (state l !! key) as [ts|] eqn:E; [by eapply Hs|constructor].
    + rewrite H1 in *. split_and!; [done..|]. by eapply sim_later.
Qed.
Definition same_limits (l l' : RateLimiter) : Prop := max_requests l' = max_requests l /\ window l' = window l.
Definition bounded (l : RateLimiter) : Prop := Z.of_nat (size (state l)) <= MAX_RATE_LIMIT_KEYS.
Lemma entry_limits l key now :
  same_limits l (try_entry l key now).2
  /\ (bounded l -> is_Some (state l !! key) \/ full l = false -> bounded (try_entry l key now).2).
Proof.
  unfold try_entry, bounded, full. destruct (max_requests l <=? _); simpl; (split; [done|]); intros Hb Hk;
    rewrite map_size_insert; (destruct (state l !! key); [unfold id; lia|]); destruct Hk as [[? ?]|Hf%Z.leb_gt]; done || lia.
Qed.
Lemma cleanup_limits l now : same_limits l (cleanup l now) /\ (bounded l -> bounded (cleanup l now)).
Proof.
  split; [done|]. unfold bounded. simpl. pose proof (map_filter_subseteq (fun e => recent (window l) now e.2 = true) (state l)) as H.
  apply subseteq_dom, subseteq_size in H. rewrite !size_dom in H. lia.
Qed.
Lemma check_limits l key now again :
  same_limits l (check l key now again).2 /\ (bounded l -> bounded (check l key now again).2).
Proof.
  unfold check. destruct (cleanup_limits l again) as [Hc Hb]. destruct (negb _ && full l) eqn:E.
  - destruct (full (cleanup l again)) eqn:Ef; [done|]. destruct (entry_limits (cleanup l again) key now) as [H1 H2]. split; [done|]. auto.
  - destruct (entry_limits l key now) as [H1 H2]. split; [done|]. intros H. apply H2; [done|].
    apply andb_false_iff in E as [E%negb_false_iff%bool_decide_eq_true|E]; auto.
Qed.
Lemma step_limits l o : same_limits l (limiter_step l o).1 /\ (bounded l -> bounded (limiter_step l o).1).
Proof.
  destruct o as [key now again|now]; simpl; [|apply cleanup_limits].
  pose proof (check_limits l key now again) as H. by destruct (check l key now again).
Qed.
Lemma step_sim l log from o :
  sim l log from -> from <= op_start o <= op_end o ->
  sim (limiter_step l o).1 (log ++ (limiter_step l o).2) (op_end o).
Proof.
  intros Hsim Ho. destruct o as [key now again|now]; simpl in *.
  - destruct (sim_check l log key now again) as (_ & _ & H); [eapply sim_later; [|done]; lia|lia|].
    by destruct (check l key now again).
  - rewrite app_nil_r. apply sim_cleanup. eapply sim_later; [|done]. lia.
Qed.
Definition clock_after (from : Z) (ops : list limiter_op) : Z := fold_left (fun _ o => op_end o) ops from.
Lemma run_sim ops : forall l log from,
  monotone from ops -> sim l log from ->
  sim (limiter_run l ops).1 (log ++ (limiter_run l ops).2) (clock_after from ops)
  /\ same_limits l (limiter_run l ops).1 /\ (bounded l -> bounded (limiter_run l ops).1).
Proof.
  induction ops as [|o ops IH]; intros l log from Hm Hsim; simpl; [by rewrite app_nil_r|].
  destruct Hm as [Ho Hm]. pose proof (step_sim l log from o Hsim Ho) as H1. destruct (step_limits l o) as [[E1 E2] Hb].
  destruct (limiter_step l o) as [l1 a]. simpl in *. specialize (IH l1 _ _ Hm H1) as (H2 & [E3 E4] & Hb2).
  destruct (limiter_run l1 ops) as [l2 b]. simpl in *. rewrite <- app_assoc in H2. split_and!; [done| |auto].
  split; congruence.
Qed.
Lemma sim_new m w from : sim (new_limiter m w) [] from.
Proof. split; simpl; [intros k t H; by apply elem_of_nil in H|done|done]. Qed.

(** Checks one after the other: the limiter implements the sliding window of
    its specification.  After any history of checks and cleanups, none of
    which overlap, on a clock that never goes back, a check lets a request
    pass only when fewer than the maximum were admitted for its key within
    the window, answers exactly that as long as fewer than
    100000 keys have been admitted within the window, and the table never
    holds more keys than that (checks that overlap are the subject of
    LimiterThreads). *)
Theorem limiter_refines_window maximum secs from ops key now again :
  monotone from ops -> clock_after from ops <= now <= again ->
  let '(l, log) := limiter_run (new_limiter maximum secs) ops in
  let w := secs * 1000000000 in
  ((check l key now again).1 = true -> spec_allows maximum w log key now = true)
  /\ (Z.of_nat (size (live_keys w now log)) < MAX_RATE_LIMIT_KEYS ->
        (check l key now again).1 = spec_allows maximum w log key now)
  /\ Z.of_nat (size (state (check l key now again).2)) <= MAX_RATE_LIMIT_KEYS.
Proof.
  intros Hm Hc. destruct (run_sim ops _ _ from Hm (sim_new maximum secs from)) as (Hsim & [E1 E2] & Hb).
  destruct (limiter_run _ ops) as [l log]. simpl in *.
  destruct (sim_check l log key now again) as (H1 & H2 & _); [eapply sim_later; [|done]; lia|lia|].
  rewrite E1, E2 in *. split_and!; [done..|]. apply check_limits, Hb. unfold bounded. simpl. rewrite map_size_empty. done.
Qed.

Definition in_interval (lo w : Z) (key : string) (e : string * Z) : bool := (e.1 =s? key) && (lo <=? e.2) && (e.2 <? lo + w).
Lemma in_range_live w now key lo log :
  (forall k t, (k, t) ∈ log -> t <= now) -> lo <= now < lo + w ->
  (length (List.filter (in_interval lo w key) log)
   <= length (List.filter (in_window w now key) log))%nat.
Proof.
  intros Hp Hn. induction log as [|[k t] log IH]; simpl; [lia|]. specialize (IH ltac:(intros k0 t0 H; apply (Hp k0); set_solver)).
  assert (t <= now) by (apply (Hp k); set_solver). unfold in_window at 1, in_interval at 1. simpl.
  destruct (k =s? key); simpl; [|done]. destruct (Z.leb_spec lo t), (Z.ltb_spec t (lo + w)), (Z.ltb_spec (now - t) w);
    simpl; lia.
Qed.
(** What a history admits, admitted request by admitted request. *)
Lemma step_admits l log from o k t :
  sim l log from -> from <= op_start o <= op_end o -> (k, t) ∈ (limiter_step l o).2 ->
  (limiter_step l o).2 = [(k, t)] /\ from <= t /\ spec_allows (max_requests l) (window l) log k t = true.
Proof.
  intros Hsim Ho. destruct o as [key now again|now]; simpl in *; [|intros H; by apply elem_of_nil in H].
  destruct (sim_check l log key now again) as (H1 & _ & _); [eapply sim_later; [|done]; lia|lia|].
  destruct (check l key now again) as [[] l']; simpl in *; intros H; [|by apply elem_of_nil in H].
  apply list_elem_of_singleton in H. simplify_eq. split_and!; [done|lia|auto].
Qed.
Definition within_limit (maximum w : Z) (log : list (string * Z)) : Prop :=
  forall key lo, Z.of_nat (length (List.filter (in_interval lo w key) log)) <= Z.max 0 maximum.
Lemma admitted_within_limit maximum w log k t :
  (forall k' t', (k', t') ∈ log -> t' <= t) -> spec_allows maximum w log k t = true -> within_limit maximum w log ->
  within_limit maximum w (log ++ [(k, t)]).
Proof.
  intros Hp Ha Hl key lo. rewrite List.filter_app, length_app. specialize (Hl key lo). simpl.
  destruct (in_interval lo w key (k, t)) eqn:E; simpl; [|lia]. unfold in_interval in E. simpl in E.
  apply andb_true_iff in E as [[Ek%String.eqb_eq Elo%Z.leb_le]%andb_true_iff Ehi%Z.ltb_lt]. subst k. pose proof (in_range_live w t key lo log Hp ltac:(lia)) as Hc.
  unfold spec_allows in Ha. apply Z.ltb_lt in Ha. lia.
Qed.
Lemma run_within ops : forall l log from,
  monotone from ops -> sim l log from -> within_limit (max_requests l) (window l) log ->
  within_limit (max_requests l) (window l) (log ++ (limiter_run l ops).2).
Proof.
  induction ops as [|o ops IH]; intros l log from Hm Hsim Hl; simpl; [by rewrite app_nil_r|].
  destruct Hm as [Ho Hm]. pose proof (step_sim l log from o Hsim Ho) as H1. destruct (step_limits l o) as [[E1 E2] _].
  pose proof (step_admits l log from o) as Ha.
  assert (within_limit (max_requests l) (window l) (log ++ (limiter_step l o).2)) as Hl1.
  { destruct (limiter_step l o).2 as [|[k t] rest] eqn:Es; [by rewrite app_nil_r|].
    destruct (Ha k t Hsim Ho ltac:(set_solver)) as (-> & Hft & Hspec). apply admitted_within_limit; [|done..].
    intros k' t' Hk'. pose proof (sim_past _ _ _ Hsim _ _ Hk'). lia. }
  destruct (limiter_step l o) as [l1 a]. simpl in *. rewrite <- E1, <- E2 in Hl1.
  specialize (IH l1 _ _ Hm H1 Hl1). destruct (limiter_run l1 ops) as [l2 b]. simpl in *. by rewrite app_assoc, <- E1, <- E2.
Qed.

(** Within any interval of the length of the window at most the maximum
    number of requests of a key is let through, whatever the requests, their
    keys and the cleanups between them are. *)
Theorem window_bound maximum secs from ops key lo :
  0 <= maximum -> monotone from ops ->
  Z.of_nat (length (List.filter (in_interval lo (secs * 1000000000) key)
                      (limiter_run (new_limiter maximum secs) ops).2)) <= maximum.
Proof.
  intros H0 Hm. pose proof (run_within ops (new_limiter maximum secs) [] from Hm (sim_new _ _ _)) as H.
  rewrite app_nil_l in H. rewrite <- (Z.max_r 0 maximum) at 2 by done. apply H. intros k lo'. simpl. lia.
Qed.
End Limiter.

(** ** Concrete requests *)
Definition demo_request : Proxy.Request :=
  {| Proxy.peer := Some (Net.V4 (10 * 2 ^ 24 + 7));
     Proxy.header := fun h => if h =s? "x-real-ip" then Some " 2001:db8::5 " else None |}.
Definition demo_proxies : list string := ["10.0.0.0/8"; "10.0.0.0/33"].
Lemma client_ip_trusted_witness :
  Proxy.extract_client_ip demo_request (Proxy.parse_trusted_proxies demo_proxies)
  = Net.V6 (2 ^ 112 * 8193 + 2 ^ 96 * 3512 + 5).
Proof.
  destruct (Proxy.client_ip_trusted demo_request demo_proxies (Net.V4 (10 * 2 ^ 24 + 7)) eq_refl) as [_ H].
  rewrite (H {| Proxy.network := Net.V4 (10 * 2 ^ 24); Proxy.prefix_len := 8 |}).
  - vm_compute. reflexivity.
  - vm_compute. right. right. left.
  - apply Proxy.contains_exact; [|vm_compute; reflexivity]. split; [|simpl; lia].
    unfold Net.wf. simpl. lia.
Defined.
Definition demo_ops : list Limiter.limiter_op :=
  [Limiter.OpCheck "ip:a" 0 0; Limiter.OpCheck "ip:a" 400000000 400000000; Limiter.OpCheck "ip:a" 500000000 500000000;
   Limiter.OpCleanup 900000000].
Lemma demo_ops_monotone : Limiter.monotone 0 demo_ops.
Proof. simpl. lia. Qed.
Lemma limiter_refines_window_witness :
  (Limiter.limiter_run (Limiter.new_limiter 2 1) demo_ops).2 = [("ip:a", 0); ("ip:a", 400000000)]
  /\ (Limiter.check (Limiter.limiter_run (Limiter.new_limiter 2 1) demo_ops).1 "ip:a" 1000000000 1000000000).1 = true
  /\ (Limiter.check (Limiter.limiter_run (Limiter.new_limiter 2 1) demo_ops).1 "ip:a" 999999999 999999999).1 = false.
Proof.
  pose proof (Limiter.limiter_refines_window 2 1 0 demo_ops "ip:a" 1000000000 1000000000 demo_ops_monotone ltac:(simpl; lia)) as H1.
  pose proof (Limiter.limiter_refines_window 2 1 0 demo_ops "ip:a" 999999999 999999999 demo_ops_monotone ltac:(simpl; lia)) as H2.
  split; [vm_compute; reflexivity|].
  destruct (Limiter.limiter_run (Limiter.new_limiter 2 1) demo_ops) as [l log] eqn:E.
  assert (log = [("ip:a", 0); ("ip:a", 400000000)]) as ->
    by (change log with (l, log).2; rewrite <- E; vm_compute; reflexivity).
  destruct H1 as (_ & H1 & _), H2 as (_ & H2 & _).
  simpl. rewrite H1, H2 by (vm_compute; reflexivity). split; vm_compute; reflexivity.
Defined.
Lemma window_bound_witness :
  Z.of_nat (length (List.filter (Limiter.in_interval 0 1000000000 "ip:a")
                      (Limiter.limiter_run (Limiter.new_limiter 2 1) demo_ops).2)) <= 2.
Proof. apply (Limiter.window_bound 2 1 0); [lia|apply demo_ops_monotone]. Defined.
