(* ===== verification/LimiterThreads.v ===== *)
(** * The request limiter under concurrent checks (crates/backend/src/rate_limit.rs)

    [RateLimiter::check] reads the clock, then asks the shared DashMap whether
    it has the key and how many keys it has, and only then locks the key's
    entry; other checks and cleanups run in between.  A check is a task whose
    steps are the single operations on the map; a cleanup, of a check or of
    the periodic task, removes entries one shard after the other, with the
    time it read at its start.  Run alone, a task computes
    [RateLimit.Limiter.check]. *)
From stdpp Require Import sorting.
From S2P Require Import Prelude Text RateLimit.

Local Open Scope Z_scope.

Module LimiterThreads.
Import Limiter.
Inductive CheckTask :=
  | CheckStart (key : string) (now : Z)   (* the clock is read: about to ask contains_key *)
  | CheckNew (key : string) (now : Z)     (* not contained: about to ask len *)
  | CheckFull (key : string) (now : Z)    (* at the maximum: cleaning up *)
  | CheckCleaned (key : string) (now : Z) (* about to ask len again *)
  | CheckEntry (key : string) (now : Z)   (* about to lock the entry *)
  | CheckDone (allowed : bool).
(** [ls_admitted] records every admission: the key, the time the check read
    and the time it had the entry. *)
Record LimiterSystem := {
  ls_clock : Z; ls_limiter : RateLimiter; ls_tasks : list CheckTask; ls_admitted : list (string * Z * Z);
}.
Definition with_limiter (s : LimiterSystem) (l : RateLimiter) : LimiterSystem :=
  {| ls_clock := ls_clock s; ls_limiter := l; ls_tasks := ls_tasks s; ls_admitted := ls_admitted s |}.
Definition with_clock (s : LimiterSystem) (t : Z) : LimiterSystem :=
  {| ls_clock := t; ls_limiter := ls_limiter s; ls_tasks := ls_tasks s; ls_admitted := ls_admitted s |}.
Definition with_tasks (s : LimiterSystem) (ts : list CheckTask) : LimiterSystem :=
  {| ls_clock := ls_clock s; ls_limiter := ls_limiter s; ls_tasks := ts; ls_admitted := ls_admitted s |}.
Definition to (s : LimiterSystem) (i : nat) (t : CheckTask) : LimiterSystem := with_tasks s (<[i := t]> (ls_tasks s)).
(** The entries of [K] that [retain] visits. *)
Definition retain (l : RateLimiter) (K : gset string) (now : Z) : RateLimiter :=
  with_state l (filter (fun e : string * list Z => e.1 ∉ K \/ recent (window l) now e.2 = true) (state l)).
Definition under_way (t : CheckTask) : bool := match t with CheckDone _ => false | _ => true end.
Definition in_flight (s : LimiterSystem) : Z := Z.of_nat (length (List.filter under_way (ls_tasks s))).

Section threads.
(** [delay]: how long a check may take from reading the clock to having the
    entry; [slots]: how many checks run at a time; [exact_len]: whether [len]
    answers with the number of keys of one moment (DashMap adds up its
    shards). *)
Context (delay slots : Z) (exact_len : bool).
Definition len_answer (s : LimiterSystem) (n : Z) : Prop := exact_len = true -> n = Z.of_nat (size (state (ls_limiter s))).
Inductive check_step : LimiterSystem -> LimiterSystem -> Prop :=
  | step_tick s t : ls_clock s <= t -> check_step s (with_clock s t)
  | step_begin s key : in_flight s < slots ->
      check_step s (with_tasks s (ls_tasks s ++ [CheckStart key (ls_clock s)]))
  | step_contains s i key now : ls_tasks s !! i = Some (CheckStart key now) ->
      check_step s (to s i (if bool_decide (is_Some (state (ls_limiter s) !! key)) then CheckEntry key now else CheckNew key now))
  | step_len s i key now n : ls_tasks s !! i = Some (CheckNew key now) -> len_answer s n ->
      check_step s (to s i (if MAX_RATE_LIMIT_KEYS <=? n then CheckFull key now else CheckEntry key now))
  | step_retain s K now : now <= ls_clock s -> check_step s (with_limiter s (retain (ls_limiter s) K now))
  | step_cleaned s i key now : ls_tasks s !! i = Some (CheckFull key now) -> check_step s (to s i (CheckCleaned key now))
  | step_len_again s i key now n : ls_tasks s !! i = Some (CheckCleaned key now) -> len_answer s n ->
      check_step s (to s i (if MAX_RATE_LIMIT_KEYS <=? n then CheckDone false else CheckEntry key now))
  | step_entry s i key now ok l : ls_tasks s !! i = Some (CheckEntry key now) -> ls_clock s - now <= delay ->
      try_entry (ls_limiter s) key now = (ok, l) ->
      check_step s {| ls_clock := ls_clock s; ls_limiter := l; ls_tasks := <[i := CheckDone ok]> (ls_tasks s);
                      ls_admitted := ls_admitted s ++ (if ok then [(key, now, ls_clock s)] else []) |}.
Definition idle (maximum secs from : Z) : LimiterSystem :=
  {| ls_clock := from; ls_limiter := new_limiter maximum secs; ls_tasks := []; ls_admitted := [] |}.

(** ** A check alone *)
Lemma retain_all l now : retain l (dom (state l)) now = cleanup l now.
Proof.
  unfold retain, cleanup. f_equal. apply map_filter_ext. intros k ts Hk. simpl.
  assert (k ∈ dom (state l)) by by apply elem_of_dom. tauto.
Qed.
Definition alone (l : RateLimiter) (log : list (string * Z * Z)) (now : Z) (t : CheckTask) : LimiterSystem :=
  {| ls_clock := now; ls_limiter := l; ls_tasks := [t]; ls_admitted := log |}.
Lemma alone_entry l log key now at_ :
  at_ - now <= delay ->
  rtc check_step (alone l log at_ (CheckEntry key now))
    (alone (try_entry l key now).2
       (log ++ if (try_entry l key now).1 then [(key, now, at_)] else []) at_ (CheckDone (try_entry l key now).1)).
Proof.
  intros Hd. apply rtc_once. destruct (try_entry l key now) as [ok l'] eqn:E.
  exact (step_entry (alone l log at_ (CheckEntry key now)) 0 key now ok l' eq_refl Hd E).
Qed.
(** Without other checks, the steps of a check are [Limiter.check]. *)
Lemma check_alone l log key now again :
  now <= again -> again - now <= delay -> 0 <= delay ->
  exists at_ log', rtc check_step (alone l log now (CheckStart key now))
    (alone (check l key now again).2 log' at_ (CheckDone (check l key now again).1)).
Proof.
  intros Hle Hd Hd0. unfold check. set (n := Z.of_nat (size (state l))).
  destruct (bool_decide (is_Some (state l !! key))) eqn:Ek; cbn [negb andb].
  { exists now. eexists. eapply rtc_l; [eapply (step_contains _ 0); reflexivity|]. simpl. rewrite Ek.
    apply alone_entry. lia. }
  assert (rtc check_step (alone l log now (CheckStart key now)) (alone l log now (CheckNew key now))) as Hnew.
  { eapply rtc_l; [eapply (step_contains _ 0); reflexivity|]. simpl. rewrite Ek. apply rtc_refl. }
  destruct (full l) eqn:Ef; unfold full in Ef; fold n in Ef.
  2: { exists now. eexists. etrans; [exact Hnew|]. eapply rtc_l; [by eapply (step_len _ 0 _ _ n)|]. simpl. rewrite Ef.
       apply alone_entry. lia. }
  assert (rtc check_step (alone l log now (CheckNew key now)) (alone (cleanup l again) log again (CheckCleaned key now))) as Hclean.
  { eapply rtc_l; [by eapply (step_len _ 0 _ _ n)|]. simpl. rewrite Ef.
    eapply rtc_l; [apply (step_tick _ again); exact Hle|].
    eapply rtc_l; [apply (step_retain _ (dom (state l)) again); simpl; lia|]. simpl. rewrite retain_all.
    eapply rtc_l; [eapply (step_cleaned _ 0); reflexivity|apply rtc_refl]. }
  destruct (full (cleanup l again)) eqn:Ef2; unfold full in Ef2;
    exists again; eexists; (etrans; [exact Hnew|]); (etrans; [exact Hclean|]);
    (eapply rtc_l; [by eapply (step_len_again _ 0 _ _ (Z.of_nat (size (state (cleanup l again)))))|]); rewrite Ef2.
  - apply rtc_refl.
  - by apply alone_entry.
Qed.

(** ** What every interleaving keeps *)
Definition of_key (key : string) (log : list (string * Z * Z)) : list (Z * Z) :=
  map (fun e => (e.1.2, e.2)) (List.filter (fun e => e.1.1 =s? key) log).
Lemma of_key_app key a b : of_key key (a ++ b) = of_key key a ++ of_key key b.
Proof. unfold of_key. by rewrite List.filter_app, map_app. Qed.
(** The stamps of the table are the admissions of the key without a prefix of
    admissions so old that no interval a little shorter than the window holds
    one of them and the present. *)
Record key_log (w clock : Z) (adm : list (Z * Z)) (ts : list Z) : Prop := {
  kl_split : exists dropped kept, adm = dropped ++ kept /\ map fst kept = ts
             /\ Forall (fun e => e.2 - delay + w <= clock) dropped;
  kl_order : StronglySorted (fun a b => a.2 <= b.2) adm;
  kl_times : Forall (fun e : Z * Z => e.1 <= e.2 <= clock /\ e.2 - delay <= e.1) adm;
}.
Definition task_time (t : CheckTask) : option Z :=
  match t with
  | CheckStart _ now | CheckNew _ now | CheckFull _ now | CheckCleaned _ now | CheckEntry _ now => Some now
  | CheckDone _ => None
  end.
Record threads_inv (maximum w : Z) (s : LimiterSystem) : Prop := {
  ti_max : max_requests (ls_limiter s) = maximum;
  ti_window : window (ls_limiter s) = w;
  ti_clock : Forall (fun t => forall now, task_time t = Some now -> now <= ls_clock s) (ls_tasks s);
  ti_keys : forall key, key_log w (ls_clock s) (of_key key (ls_admitted s)) (default [] (state (ls_limiter s) !! key));
}.
Lemma key_log_later w c c' adm ts : c <= c' -> key_log w c adm ts -> key_log w c' adm ts.
Proof.
  intros Hc [(d & k & E1 & E2 & Hd) Ho Ht]. split; [|done|].
  - exists d, k. split_and!; [done..|]. eapply Forall_impl; [exact Hd|]. simpl. lia.
  - eapply Forall_impl; [exact Ht|]. simpl. lia.
Qed.
(** Dropping a prefix of the stamps keeps the log. *)
Lemma key_log_drop w c adm gone ts :
  key_log w c adm (gone ++ ts) -> (forall t, t ∈ gone -> w <= c - t \/ w <= 0) -> key_log w c adm ts.
Proof.
  intros [(d & k & E1 & E2 & Hd) Ho Ht] Hgone. split; [|done..].
  apply map_eq_app in E2 as (k1 & k2 & -> & E3 & E4). exists (d ++ k1), k2. rewrite <- app_assoc.
  split_and!; [done..|]. apply Forall_app. split; [done|]. apply Forall_forall. intros e He.
  assert (e.1 ∈ gone) as Hg by (rewrite <- E3; by apply list_elem_of_fmap_2).
  rewrite E1 in Ht. apply Forall_app in Ht as [_ [Ht _]%Forall_app]. rewrite Forall_forall in Ht. specialize (Ht e He).
  destruct (Hgone _ Hg); lia.
Qed.
Lemma expire_front_split w now ts :
  exists gone, ts = gone ++ expire_front w now ts /\ (forall t, t ∈ gone -> w <= now - t \/ w <= 0)
  /\ (forall t, head (expire_front w now ts) = Some t -> now - t < w).
Proof.
  induction ts as [|t ts (gone & E & Hg & Hh)]; simpl.
  { exists []. split_and!; [done| |done]. intros t H. by apply elem_of_nil in H. }
  unfold duration_since. destruct (Z.leb_spec w (Z.max 0 (now - t))) as [Hw|Hw].
  - exists (t :: gone). split_and!; [simpl; by f_equal| |done]. intros x [->|Hx]%elem_of_cons; [lia|auto].
  - exists []. split_and!; [done| |]; [intros x H; by apply elem_of_nil in H|]. simpl. intros x [= <-]. lia.
Qed.
Lemma key_log_forget w c now adm ts :
  now <= c -> key_log w c adm ts -> recent w now ts = false -> key_log w c adm [].
Proof.
  intros Hn [(d & k & E1 & E2 & Hd) Ho Ht] Hr. split; [|done..]. exists adm, []. rewrite app_nil_r.
  split_and!; [done..|]. rewrite E1 in Ho, Ht |- *. apply Forall_app. split; [done|]. apply Forall_app in Ht as [_ Ht].
  destruct k as [|[b t] k _] using rev_ind; [constructor|].
  rewrite map_app in E2. simpl in E2. unfold recent, duration_since in Hr. rewrite <- E2, last_snoc in Hr. apply Z.ltb_ge in Hr.
  pose proof (proj1 (Forall_forall _ _) Ht (b, t) ltac:(set_solver)) as Hb. simpl in Hb.
  apply Forall_forall. intros e He. pose proof (proj1 (Forall_forall _ _) Ht e He) as [He1 He2].
  assert (e.2 <= t); [|lia]. apply elem_of_app in He as [He| ->%list_elem_of_singleton]; [|done].
  rewrite app_assoc in Ho.
  exact (StronglySorted_app_1_elem_of _ _ _ e (b, t) Ho ltac:(set_solver) ltac:(set_solver)).
Qed.
Lemma key_log_admit w c now adm ts :
  c - delay <= now <= c -> key_log w c adm ts -> key_log w c (adm ++ [(now, c)]) (ts ++ [now]).
Proof.
  intros Hn [(d & k & E1 & E2 & Hd) Ho Ht]. split.
  - exists d, (k ++ [(now, c)]). rewrite map_app, E2, E1, app_assoc. by split_and!.
  - apply StronglySorted_app_2; [|done|repeat constructor].
    intros a b Ha ->%list_elem_of_singleton. rewrite Forall_forall in Ht. destruct (Ht a Ha). simpl. lia.
  - apply Forall_app. split; [done|]. repeat constructor; simpl; lia.
Qed.

(** An entry visited by a check with the time [now]. *)
Lemma entry_keys l w c key now adm :
  window l = w -> c - delay <= now <= c -> (forall k, key_log w c (of_key k adm) (default [] (state l !! k))) ->
  forall k, key_log w c (of_key k (adm ++ if (try_entry l key now).1 then [(key, now, c)] else []))
              (default [] (state (try_entry l key now).2 !! k)).
Proof.
  intros Hw Hn Hk k. rewrite of_key_app. unfold try_entry. rewrite Hw.
  destruct (expire_front_split w now (default [] (state l !! key))) as (gone & E & Hg & _).
  assert (key_log w c (of_key key adm) (expire_front w now (default [] (state l !! key)))) as Hkey.
  { apply (key_log_drop _ _ _ gone); [rewrite <- E; apply Hk|]. intros t [Ht|Ht]%Hg; [left; lia|by right]. }
  destruct (max_requests l <=? _); simpl; destruct (decide (k = key)) as [->|Hne];
    rewrite ?lookup_insert_eq, ?lookup_insert_ne by done; unfold of_key; simpl; rewrite ?app_nil_r; [done|apply Hk| |].
  - rewrite String.eqb_refl. simpl. by apply key_log_admit.
  - destruct (String.eqb_spec key k); [congruence|]. simpl. rewrite app_nil_r. apply Hk.
Qed.
Lemma retain_lookup l K now key :
  state (retain l K now) !! key = state l !! key
  \/ state (retain l K now) !! key = None /\ recent (window l) now (default [] (state l !! key)) = false.
Proof.
  simpl. destruct (state l !! key) as [ts|] eqn:E.
  - destruct (decide (key ∉ K \/ recent (window l) now ts = true)) as [H|H].
    + left. by apply map_lookup_filter_Some.
    + right. split; [|simpl; destruct (recent _ _ _); tauto].
      apply map_lookup_filter_None. right. intros ts' E' H'. simplify_eq. by apply H.
  - left. apply map_lookup_filter_None. by left.
Qed.
Lemma to_inv maximum w s i old new :
  ls_tasks s !! i = Some old -> (forall now, task_time new = Some now -> task_time old = Some now) ->
  threads_inv maximum w s -> threads_inv maximum w (to s i new).
Proof.
  intros Hi Ht [H1 H2 H3 H4]. split; [done..| |done]. apply Forall_insert; [done|].
  intros now Hn%Ht. exact (proj1 (Forall_lookup _ _) H3 i old Hi now Hn).
Qed.
Lemma entry_same_limits l key now : max_requests (try_entry l key now).2 = max_requests l /\ window (try_entry l key now).2 = window l.
Proof. unfold try_entry. by destruct (max_requests l <=? _). Qed.
Lemma threads_step maximum w s s' : check_step s s' -> threads_inv maximum w s -> threads_inv maximum w s'.
Proof.
  destruct 1 as [s t Hc|s key Hs|s i key now Hi|s i key now n Hi Hn|s K now Hn|s i key now Hi|s i key now n Hi Hn|s i key now ok l Hi Hd E];
    intros Hinv.
  all: try (eapply to_inv; [done| |done]; intros now'; by repeat case_match).
  - destruct Hinv as [H1 H2 H3 H4]. split; [done..| |]; simpl.
    + eapply Forall_impl; [exact H3|]. simpl. intros x Hx now Hn%Hx. lia.
    + intros key. eapply key_log_later; [exact Hc|apply H4].
  - destruct Hinv as [H1 H2 H3 H4]. split; [done..| |done]. simpl. apply Forall_app. split; [done|].
    repeat constructor. intros now [= <-]. done.
  - destruct Hinv as [H1 H2 H3 H4]. split; [done..|]. intros key. simpl ls_clock. simpl ls_admitted. cbn [ls_limiter with_limiter].
    destruct (retain_lookup (ls_limiter s) K now key) as [->|[-> Hr]]; [apply H4|].
    rewrite H2 in Hr. by eapply key_log_forget.
  - destruct Hinv as [H1 H2 H3 H4]. pose proof (proj1 (Forall_lookup _ _) H3 i _ Hi now eq_refl : now <= ls_clock s) as Hnow.
    destruct (entry_same_limits (ls_limiter s) key now) as [E1 E2].
    assert (ls_clock s - delay <= now <= ls_clock s) as Hb by lia.
    pose proof (entry_keys (ls_limiter s) w (ls_clock s) key now (ls_admitted s) H2 Hb H4) as Hk.
    rewrite E in E1, E2, Hk. split; simpl in *; [congruence..| |exact Hk]. by apply Forall_insert.
Qed.
Lemma steps_keep (I : LimiterSystem -> Prop) s s' :
  (forall a b, check_step a b -> I a -> I b) -> rtc check_step s s' -> I s -> I s'.
Proof. intros HI. induction 1; eauto. Qed.
Lemma threads_reachable maximum secs from s :
  rtc check_step (idle maximum secs from) s -> threads_inv maximum (secs * 1000000000) s.
Proof.
  intros Hr. apply (steps_keep (threads_inv maximum (secs * 1000000000)) _ _ (threads_step _ _) Hr). clear Hr.
  split; simpl; [done..|constructor|]. intros key. rewrite lookup_empty. split; simpl; [|constructor..].
  exists [], []. split_and!; [done..|constructor].
Qed.

(** *** The admissions of an interval *)
Definition within (lo hi : Z) (e : Z * Z) : bool := (lo <=? e.2) && (e.2 <? hi).
Definition admitted_within (s : LimiterSystem) (key : string) (lo hi : Z) : Z :=
  Z.of_nat (length (List.filter (within lo hi) (of_key key (ls_admitted s)))).
Lemma filter_none {A} (f : A -> bool) l : (forall x, x ∈ l -> f x = false) -> List.filter f l = [].
Proof. induction l as [|x l IH]; intros H; [done|]. simpl. rewrite H by set_solver. apply IH. set_solver. Qed.
Lemma filter_all {A} (f : A -> bool) l : (forall x, x ∈ l -> f x = true) -> List.filter f l = l.
Proof. induction l as [|x l IH]; intros H; [done|]. simpl. rewrite H by set_solver. f_equal. apply IH. set_solver. Qed.
(** An interval that holds the present holds stamped admissions only. *)
Lemma interval_stamps w c adm ts lo hi :
  key_log w c adm ts -> c < hi -> hi - lo <= w - delay ->
  (length (List.filter (within lo hi) adm) <= length ts)%nat.
Proof.
  intros [(d & k & -> & <- & Hd) _ _] Hhi Hlen. rewrite List.filter_app, length_app, length_map, (filter_none _ d); simpl.
  - apply List.filter_length_le.
  - intros e He. rewrite Forall_forall in Hd. specialize (Hd e He). simpl in Hd. unfold within.
    destruct (Z.leb_spec lo e.2); [lia|done].
Qed.
(** The stamps an entry keeps are admissions since the window's beginning. *)
Lemma refused_admissions w c now adm ts :
  key_log w c adm ts -> now <= c ->
  (length (expire_front w now ts) <= length (List.filter (within (now - w + 1) (c + 1)) adm))%nat.
Proof.
  intros Hk Hn. destruct (expire_front_split w now ts) as (gone & E & Hg & Hh).
  assert (key_log w c adm (expire_front w now ts)) as [(d & k & -> & Ek & _) Ho Ht].
  { apply (key_log_drop _ _ _ gone); [by rewrite <- E|]. intros t [Ht|Ht]%Hg; [left; lia|by right]. }
  rewrite <- Ek in Hh |- *. rewrite length_map, List.filter_app, length_app, (filter_all _ k); [lia|]. intros e He.
  apply Forall_app in Ht as [_ Ht]. rewrite Forall_forall in Ht. pose proof (Ht e He) as [He1 _].
  destruct k as [|f k]; [by apply elem_of_nil in He|]. specialize (Hh f.1 eq_refl).
  pose proof (Ht f ltac:(set_solver)) as [Hf _].
  assert (f.2 <= e.2) as Hle.
  { apply StronglySorted_app_1_r in Ho. apply elem_of_cons in He as [->|He]; [done|].
    inversion Ho as [|? ? _ Hall]; subst. rewrite Forall_forall in Hall. exact (Hall e He). }
  unfold within. apply andb_true_iff. split; [apply Z.leb_le|apply Z.ltb_lt]; lia.
Qed.
Definition rate_bounded (maximum w : Z) (s : LimiterSystem) : Prop :=
  forall key lo hi, hi - lo <= w - delay -> admitted_within s key lo hi <= Z.max 0 maximum.
Lemma entry_stamps l key now :
  (try_entry l key now).1 = true -> Z.of_nat (length (default [] (state (try_entry l key now).2 !! key))) <= max_requests l.
Proof.
  unfold try_entry. destruct (Z.leb_spec (max_requests l) (Z.of_nat (length (expire_front (window l) now (default [] (state l !! key))))));
    [done|]. intros _. simpl. rewrite lookup_insert_eq. simpl. rewrite length_app. simpl. lia.
Qed.
Lemma rate_step maximum w s s' :
  check_step s s' -> threads_inv maximum w s /\ rate_bounded maximum w s -> threads_inv maximum w s' /\ rate_bounded maximum w s'.
Proof.
  intros Hs [Hinv Hb]. pose proof (threads_step _ _ _ _ Hs Hinv) as Hinv'. split; [done|].
  destruct Hs as [| | | | | | |s i key now ok l Hi Hd E]; try exact Hb.
  intros k lo hi Hlen. destruct ok; [|unfold admitted_within; simpl; rewrite app_nil_r; by apply Hb].
  destruct (decide (k = key /\ lo <= ls_clock s < hi)) as [[-> Hc]|Hout].
  - pose proof (ti_keys _ _ _ Hinv' key) as Hk. pose proof (entry_stamps (ls_limiter s) key now) as Hlast.
    rewrite E, (ti_max _ _ _ Hinv) in Hlast. specialize (Hlast eq_refl).
    pose proof (interval_stamps _ _ _ _ lo hi Hk ltac:(simpl; lia) Hlen) as Hcount. unfold admitted_within. cbn [snd ls_limiter] in *. lia.
  - replace (admitted_within _ k lo hi) with (admitted_within s k lo hi); [by apply Hb|].
    unfold admitted_within. simpl. rewrite of_key_app, List.filter_app, length_app. unfold of_key at 3. simpl.
    destruct (String.eqb_spec key k) as [->|]; simpl; [|lia]. unfold within at 3. simpl.
    destruct (Z.leb_spec lo (ls_clock s)), (Z.ltb_spec (ls_clock s) hi); simpl; [tauto|lia..].
Qed.

(** *** The number of keys *)
Definition entry_key (t : CheckTask) : option string := match t with CheckEntry key _ => Some key | _ => None end.
Definition entry_keys_of (ts : list CheckTask) : gset string := list_to_set (omap entry_key ts).
Record cap_inv (s : LimiterSystem) : Prop := {
  ci_slots : in_flight s <= slots;
  ci_keys : Z.of_nat (size (dom (state (ls_limiter s)) ∪ entry_keys_of (ls_tasks s))) <= MAX_RATE_LIMIT_KEYS - 1 + slots;
}.
Lemma task_split (ts : list CheckTask) i old :
  ts !! i = Some old -> exists pre post, ts = pre ++ old :: post /\ forall new, <[i := new]> ts = pre ++ new :: post.
Proof.
  intros Hi. exists (take i ts), (drop (S i) ts). split; [by rewrite take_drop_middle|].
  intros new. apply insert_take_drop. by eapply lookup_lt_Some.
Qed.
Lemma entry_keys_app a b : entry_keys_of (a ++ b) = entry_keys_of a ∪ entry_keys_of b.
Proof. unfold entry_keys_of. by rewrite omap_app, list_to_set_app_L. Qed.
Lemma entry_keys_cons t b :
  entry_keys_of (t :: b) = match entry_key t with Some key => {[ key ]} | None => ∅ end ∪ entry_keys_of b.
Proof. unfold entry_keys_of. simpl. destruct (entry_key t); simpl; set_solver. Qed.
Lemma entry_keys_size ts : (size (entry_keys_of ts) <= length (List.filter under_way ts))%nat.
Proof.
  induction ts as [|t ts IH]; [done|]. rewrite entry_keys_cons. destruct t; simpl; try (rewrite union_empty_l_L; lia).
  pose proof (size_union_alt {[ key ]} (entry_keys_of ts)) as E. rewrite size_singleton in E.
  pose proof (subseteq_size (entry_keys_of ts ∖ {[ key ]}) (entry_keys_of ts) ltac:(set_solver)). lia.
Qed.
Lemma in_flight_to s i old new :
  ls_tasks s !! i = Some old -> under_way old = true -> in_flight (to s i new) <= in_flight s.
Proof.
  intros (pre & post & E & Ei)%task_split Hu. unfold in_flight. simpl. rewrite Ei, E, !List.filter_app, !length_app. simpl.
  rewrite Hu. destruct (under_way new); simpl; lia.
Qed.
Lemma union_swap (D A N O B : gset string) : N ⊆ D ∪ (A ∪ (O ∪ B)) -> D ∪ (A ∪ (N ∪ B)) ⊆ D ∪ (A ∪ (O ∪ B)).
Proof. set_solver. Qed.
(** A task moves without naming a key the table does not have. *)
Lemma cap_to s i old new :
  ls_tasks s !! i = Some old -> under_way old = true ->
  (forall key, entry_key new = Some key -> key ∈ dom (state (ls_limiter s)) ∪ entry_keys_of (ls_tasks s)) ->
  cap_inv s -> cap_inv (to s i new).
Proof.
  intros Hi Hu Hk [H1 H2]. split; [pose proof (in_flight_to s i old new Hi Hu); lia|].
  etrans; [|exact H2]. apply Nat2Z.inj_le, subseteq_size. simpl.
  apply task_split in Hi as (pre & post & E & Ei). rewrite Ei.
  assert (match entry_key new with Some key => {[ key ]} | None => (∅ : gset string) end
          ⊆ dom (state (ls_limiter s)) ∪ entry_keys_of (ls_tasks s)) as Hnew.
  { destruct (entry_key new) as [key|]; [|set_solver]. specialize (Hk key eq_refl). set_solver. }
  rewrite E in Hnew |- *. rewrite entry_keys_app, entry_keys_cons in Hnew. rewrite !entry_keys_app, !entry_keys_cons.
  by apply union_swap.
Qed.
(** A task that counted fewer keys than the maximum names one more. *)
Lemma cap_counted s i old key now :
  ls_tasks s !! i = Some old -> under_way old = true -> Z.of_nat (size (state (ls_limiter s))) < MAX_RATE_LIMIT_KEYS ->
  cap_inv s -> cap_inv (to s i (CheckEntry key now)).
Proof.
  intros Hi Hu Hn [H1 _]. pose proof (in_flight_to s i old (CheckEntry key now) Hi Hu) as Hf. split; [lia|].
  set (s' := to s i (CheckEntry key now)) in *. pose proof (entry_keys_size (ls_tasks s')) as Hs. unfold in_flight in Hf at 1.
  change (ls_limiter s') with (ls_limiter s). rewrite <- size_dom in Hn.
  pose proof (size_union_alt (dom (state (ls_limiter s))) (entry_keys_of (ls_tasks s'))) as E.
  pose proof (subseteq_size (entry_keys_of (ls_tasks s') ∖ dom (state (ls_limiter s))) (entry_keys_of (ls_tasks s')) ltac:(set_solver)).
  lia.
Qed.
Lemma try_entry_dom l key now : dom (state (try_entry l key now).2) = {[ key ]} ∪ dom (state l).
Proof. unfold try_entry. destruct (max_requests l <=? _); simpl; by rewrite dom_insert_L. Qed.
Lemma cap_step s s' : exact_len = true -> check_step s s' -> cap_inv s -> cap_inv s'.
Proof.
  intros Hex. destruct 1 as [s t Hc|s key Hs|s i key now Hi|s i key now n Hi Hn|s K now Hn|s i key now Hi|s i key now n Hi Hn|s i key now ok l Hi Hd E];
    intros Hinv.
  - by destruct Hinv as [H1 H2]; split.
  - destruct Hinv as [H1 H2]. split.
    + unfold in_flight in *. cbn [ls_tasks with_tasks]. rewrite List.filter_app, length_app. cbn. lia.
    + simpl. rewrite entry_keys_app. unfold entry_keys_of at 2. simpl. by rewrite union_empty_r_L.
  - apply (cap_to _ _ _ _ Hi eq_refl); [|done]. case_bool_decide as Hk; [|done]. intros k [= <-].
    apply elem_of_union_l, elem_of_dom, Hk.
  - specialize (Hn Hex). destruct (Z.leb_spec MAX_RATE_LIMIT_KEYS n).
    + by apply (cap_to _ _ _ _ Hi eq_refl).
    + apply (cap_counted _ _ _ _ _ Hi eq_refl); [lia|done].
  - destruct Hinv as [H1 H2]. split; [done|]. etrans; [|exact H2]. apply Nat2Z.inj_le, subseteq_size. simpl.
    apply union_mono_r, (dom_filter_subseteq (D := gset string)).
  - by apply (cap_to _ _ _ _ Hi eq_refl).
  - specialize (Hn Hex). destruct (Z.leb_spec MAX_RATE_LIMIT_KEYS n).
    + by apply (cap_to _ _ _ _ Hi eq_refl).
    + apply (cap_counted _ _ _ _ _ Hi eq_refl); [lia|done].
  - pose proof (try_entry_dom (ls_limiter s) key now) as Hdom. rewrite E in Hdom. destruct Hinv as [H1 H2]. split.
    + pose proof (in_flight_to s i _ (CheckDone ok) Hi eq_refl) as Hf. unfold in_flight, to in *. simpl in *. lia.
    + etrans; [|exact H2]. apply Nat2Z.inj_le, subseteq_size. simpl in *. rewrite Hdom.
      apply task_split in Hi as (pre & post & E1 & E2). rewrite E2, E1, !entry_keys_app, !entry_keys_cons. simpl. set_solver.
Qed.
Lemma cap_reachable maximum secs from s :
  exact_len = true -> 0 <= slots -> rtc check_step (idle maximum secs from) s -> cap_inv s.
Proof.
  intros Hex H0 Hr. apply (steps_keep cap_inv _ _ (fun a b => cap_step a b Hex) Hr). split; [done|]. simpl.
  unfold entry_keys_of. simpl. rewrite dom_empty_L, union_empty_r_L, size_empty. unfold MAX_RATE_LIMIT_KEYS. lia.
Qed.


(** The maximum of [rate_limit.rs] is not a bound: two checks of new keys that
    both count one key less than the maximum leave one key more than it. *)
Lemma count_overshoots l log c k1 k2 :
  0 <= delay -> 2 <= slots -> k1 <> k2 -> state l !! k1 = None -> state l !! k2 = None ->
  Z.of_nat (size (state l)) = MAX_RATE_LIMIT_KEYS - 1 ->
  exists s, rtc check_step {| ls_clock := c; ls_limiter := l; ls_tasks := []; ls_admitted := log |} s
            /\ Z.of_nat (size (state (ls_limiter s))) = MAX_RATE_LIMIT_KEYS + 1.
Proof.
  intros Hd Hs Hne H1 H2 Hn. set (l1 := (try_entry l k1 c).2). set (l2 := (try_entry l1 k2 c).2).
  eexists. split.
  - eapply rtc_l; [apply (step_begin _ k1); unfold in_flight; simpl; lia|].
    eapply rtc_l; [apply (step_begin _ k2); unfold in_flight; simpl; lia|]. cbn [with_tasks ls_tasks ls_clock app].
    eapply rtc_l; [apply (step_contains _ 0 k1 c); reflexivity|]. eapply rtc_l; [apply (step_contains _ 1 k2 c); reflexivity|].
    simpl. rewrite H1, H2. simpl.
    eapply rtc_l; [apply (step_len _ 0 k1 c (MAX_RATE_LIMIT_KEYS - 1)); [reflexivity|intros _; exact (eq_sym Hn)]|].
    eapply rtc_l; [apply (step_len _ 1 k2 c (MAX_RATE_LIMIT_KEYS - 1)); [reflexivity|intros _; exact (eq_sym Hn)]|]. simpl.
    eapply rtc_l; [eapply (step_entry _ 0 k1 c _ l1); [reflexivity|simpl; lia|apply surjective_pairing]|].
    eapply rtc_l; [eapply (step_entry _ 1 k2 c _ l2); [reflexivity|simpl; lia|apply surjective_pairing]|]. apply rtc_refl.
  - simpl ls_limiter. unfold l2, l1. rewrite <- size_dom, !try_entry_dom.
    apply not_elem_of_dom in H1, H2. rewrite !size_union, !size_singleton, size_dom by set_solver. lia.
Qed.
End threads.
End LimiterThreads.

(** ** Two checks that overtake each other *)
Import Limiter LimiterThreads.
(** The second check has the entry first; the stamps are out of order. *)
Definition demo_overtaken : LimiterSystem :=
  {| ls_clock := 100;
     ls_limiter := with_state (new_limiter 2 1) (<["ip:a" := [3; 0]]> (<["ip:a" := [3]]> ∅));
     ls_tasks := [CheckDone true; CheckDone true; CheckEntry "ip:a" 100];
     ls_admitted := [("ip:a", 3, 3); ("ip:a", 0, 3)] |}.
Lemma demo_overtaken_reached : rtc (check_step 10 2 true) (idle 2 1 0) demo_overtaken.
Proof.
  eapply rtc_l; [apply (step_begin _ _ _ _ "ip:a"); reflexivity|]. eapply rtc_l; [apply (step_tick _ _ _ _ 3); simpl; lia|].
  eapply rtc_l; [apply (step_begin _ _ _ _ "ip:a"); reflexivity|].
  eapply rtc_l; [apply (step_contains _ _ _ _ 1 "ip:a" 3); reflexivity|]. simpl.
  eapply rtc_l; [apply (step_len _ _ _ _ 1 "ip:a" 3 0); [reflexivity|intros _; reflexivity]|]. simpl.
  eapply rtc_l; [eapply (step_entry _ _ _ _ 1 "ip:a" 3); [reflexivity|simpl; lia|reflexivity]|]. simpl.
  eapply rtc_l; [apply (step_contains _ _ _ _ 0 "ip:a" 0); reflexivity|]. simpl.
  eapply rtc_l; [eapply (step_entry _ _ _ _ 0 "ip:a" 0); [reflexivity|simpl; lia|reflexivity]|]. simpl.
  eapply rtc_l; [apply (step_tick _ _ _ _ 100); simpl; lia|].
  eapply rtc_l; [apply (step_begin _ _ _ _ "ip:a"); reflexivity|].
  eapply rtc_l; [apply (step_contains _ _ _ _ 2 "ip:a" 100); reflexivity|]. apply rtc_refl.
Qed.
