(* ===== verification/RuleAdminStore.v ===== *)
(** * Rules and zones: records and tables (crates/backend-core/src/rules.rs, zones.rs;
    crates/backend-turso/src/rules.rs, zones.rs)

    The repositories that administer rules and zones, over the tables [rules],
    [rule_conditions], [rule_actions] and [zones] with the schema's keys, checks
    and foreign keys; conditions and actions of a rule live in their own rows,
    configurations and geometries are JSON text. *)
From stdpp Require Import sorting.
From S2P Require Import Prelude Text BTree Json Errors RuleTypes Shadows RuleSnapshot.

Local Open Scope Z_scope.

(** ** Records *)
Record RuleRecord := {
  rr_id : string; rr_tenant : string; rr_name : string; rr_description : option string; rr_enabled : bool;
  rr_trigger_type : string; rr_target_type : string; rr_target_id : option string; rr_cooldown_seconds : Z;
  rr_created_at : NaiveDateTime; rr_updated_at : NaiveDateTime;
}.
Record RuleConditionInput := {
  ci_field : string; ci_blueprint_id : option string; ci_blueprint_revision_id : option string;
  ci_operator : string; ci_value : string; ci_zone_id : option string;
}.
Record RuleConditionRecord := {
  rc_id : string; rc_field : string; rc_blueprint_id : option string; rc_blueprint_revision_id : option string;
  rc_operator : string; rc_value : string; rc_group : Z; rc_zone_id : option string;
}.
Record RuleActionRecord := { ra_id : string; ra_type : string; ra_config : value }.
Record RuleDetails := {
  rd_rule : RuleRecord; rd_conditions : list RuleConditionRecord; rd_actions : list RuleActionRecord;
}.
Record NewRuleRecord := {
  nr_id : string; nr_name : string; nr_description : option string; nr_trigger_type : string;
  nr_target_type : string; nr_target_id : option string; nr_cooldown_seconds : Z;
  nr_conditions : list RuleConditionRecord; nr_actions : list RuleActionRecord;
}.
Record UpdateRuleRecord := {
  ur_name : option string; ur_description : option (option string); ur_trigger_type : option string;
  ur_target_type : option string; ur_target_id : option (option string); ur_cooldown_seconds : option Z;
  ur_conditions : option (list RuleConditionRecord); ur_actions : option (list RuleActionRecord);
  ur_updated_at : NaiveDateTime;
}.
Record ZoneRecord := {
  zn_id : string; zn_tenant : string; zn_name : string; zn_description : string; zn_geometry_type : string;
  zn_geometry_json : value; zn_color : string; zn_created_at : NaiveDateTime; zn_updated_at : NaiveDateTime;
}.
Record NewZone := {
  nz_id : string; nz_name : string; nz_description : string; nz_geometry_type : string; nz_geometry_json : value;
  nz_color : string;
}.
Record ZonePatch := {
  zp_name : option string; zp_description : option string; zp_geometry_type : option string;
  zp_geometry_json : option value; zp_color : option string; zp_updated_at : NaiveDateTime;
}.
Inductive DeleteZoneOutcome := ZoneNotFound | ZoneInUse | ZoneDeleted.

(** ** Tables, by primary key *)
Record RuleRow := {
  r_tenant : string; r_name : string; r_description : option string; r_enabled : bool; r_trigger : string;
  r_target_type : string; r_target_id : option string; r_cooldown : Z; r_created : Z; r_updated : Z;
}.
Record ConditionRow := {
  c_tenant : string; c_rule : string; c_field : string; c_blueprint : option string; c_revision : option string;
  c_operator : string; c_value : string; c_group : Z; c_zone : option string;
}.
Record ActionRow := { a_tenant : string; a_rule : string; a_type : string; a_config : string }.
Record ZoneRow := {
  zw_tenant : string; zw_name : string; zw_description : string; zw_type : string; zw_json : string;
  zw_color : string; zw_created : Z; zw_updated : Z;
}.
Record AdminStore := {
  orgs : gset string;
  rule_rows : gmap string RuleRow;
  condition_rows : gmap string ConditionRow;
  action_rows : gmap string ActionRow;
  zone_rows : gmap string ZoneRow;
  alerted_rules : gset (string * string);  (* the (tenant, rule) pairs of alert rows *)
}.
Definition set_rules (s : AdminStore) (m : gmap string RuleRow) : AdminStore :=
  {| orgs := orgs s; rule_rows := m; condition_rows := condition_rows s; action_rows := action_rows s;
     zone_rows := zone_rows s; alerted_rules := alerted_rules s |}.
Definition set_children (s : AdminStore) (c : gmap string ConditionRow) (a : gmap string ActionRow) : AdminStore :=
  {| orgs := orgs s; rule_rows := rule_rows s; condition_rows := c; action_rows := a;
     zone_rows := zone_rows s; alerted_rules := alerted_rules s |}.
Definition set_zone_rows (s : AdminStore) (m : gmap string ZoneRow) : AdminStore :=
  {| orgs := orgs s; rule_rows := rule_rows s; condition_rows := condition_rows s; action_rows := action_rows s;
     zone_rows := m; alerted_rules := alerted_rules s |}.
(** A transaction's effects are kept only when it commits. *)
Definition commit {A} (s : AdminStore) (r : result PersistenceError (A * AdminStore))
    : result PersistenceError A * AdminStore :=
  match r with Ok (a, s') => (Ok a, s') | Err e => (Err e, s) end.

(** ORDER BY over keys. *)
Definition str_leb (a b : string) : bool := match String.compare a b with Gt => false | _ => true end.
Definition child_le {A} (group : A -> Z) (a b : string * A) : Prop :=
  group a.2 < group b.2 \/ (group a.2 = group b.2 /\ str_leb a.1 b.1 = true).
#[global] Instance child_le_dec {A} (group : A -> Z) : RelDecision (child_le group).
Proof. intros a b. unfold child_le. apply _. Defined.

Section turso.
Context `{!ChronoMicros, !SerdeJson}.

(** ** rules.rs *)
Definition decode_rule (id : string) (r : RuleRow) : result PersistenceError RuleRecord :=
  cooldown ← narrow_i32 (r_cooldown r) "cooldown_seconds";
  created ← datetime (r_created r);
  updated ← datetime (r_updated r);
  Ok {| rr_id := id; rr_tenant := r_tenant r; rr_name := r_name r; rr_description := r_description r;
        rr_enabled := r_enabled r; rr_trigger_type := r_trigger r; rr_target_type := r_target_type r;
        rr_target_id := r_target_id r; rr_cooldown_seconds := cooldown; rr_created_at := created;
        rr_updated_at := updated |}.
Definition rule_row (s : AdminStore) (tenant id : string) : option RuleRow :=
  r ← rule_rows s !! id; if r_tenant r =s? tenant then Some r else None.
Definition conditions_of (s : AdminStore) (tenant id : string) : list (string * ConditionRow) :=
  merge_sort (child_le c_group)
    (List.filter (fun e : string * ConditionRow => (c_tenant e.2 =s? tenant) && (c_rule e.2 =s? id))
       (map_to_list (condition_rows s))).
Definition actions_of (s : AdminStore) (tenant id : string) : list (string * ActionRow) :=
  merge_sort (child_le (fun _ => 0))
    (List.filter (fun e : string * ActionRow => (a_tenant e.2 =s? tenant) && (a_rule e.2 =s? id))
       (map_to_list (action_rows s))).
Definition decode_condition (e : string * ConditionRow) : result PersistenceError RuleConditionRecord :=
  group ← narrow_i32 (c_group e.2) "condition_group";
  Ok {| rc_id := e.1; rc_field := c_field e.2; rc_blueprint_id := c_blueprint e.2;
        rc_blueprint_revision_id := c_revision e.2; rc_operator := c_operator e.2; rc_value := c_value e.2;
        rc_group := group; rc_zone_id := c_zone e.2 |}.
Definition decode_action (e : string * ActionRow) : result PersistenceError RuleActionRecord :=
  config ← map_err CorruptData (from_str (a_config e.2));
  Ok {| ra_id := e.1; ra_type := a_type e.2; ra_config := config |}.
Definition details_from (s : AdminStore) (tenant id : string) : result PersistenceError (option RuleDetails) :=
  match rule_row s tenant id with
  | None => Ok None
  | Some r =>
    rule ← decode_rule id r;
    conditions ← mapM decode_condition (conditions_of s tenant id);
    actions ← mapM decode_action (actions_of s tenant id);
    Ok (Some {| rd_rule := rule; rd_conditions := conditions; rd_actions := actions |})
  end.

(** INSERT INTO rule_conditions and rule_actions. *)
Definition rule_key (s : AdminStore) (tenant id : string) : bool :=
  bool_decide (r_tenant <$> rule_rows s !! id = Some tenant).
Definition zone_key (s : AdminStore) (tenant : string) (zone : option string) : bool :=
  match zone with None => true | Some z => bool_decide (zw_tenant <$> zone_rows s !! z = Some tenant) end.
Definition insert_condition (tenant rule : string) (s : AdminStore) (v : RuleConditionRecord)
    : result PersistenceError AdminStore :=
  if bool_decide (is_Some (condition_rows s !! rc_id v)) then Err (UniqueViolation "unique")
  else if rule_key s tenant rule && zone_key s tenant (rc_zone_id v)
  then Ok (set_children s (<[rc_id v :=
         {| c_tenant := tenant; c_rule := rule; c_field := rc_field v; c_blueprint := rc_blueprint_id v;
            c_revision := rc_blueprint_revision_id v; c_operator := rc_operator v; c_value := rc_value v;
            c_group := rc_group v; c_zone := rc_zone_id v |}]> (condition_rows s)) (action_rows s))
  else Err (ForeignKeyViolation "foreign_key").
Definition insert_action (tenant rule : string) (s : AdminStore) (v : RuleActionRecord)
    : result PersistenceError AdminStore :=
  text ← map_err PInternal (to_string (ra_config v));
  if bool_decide (is_Some (action_rows s !! ra_id v)) then Err (UniqueViolation "unique")
  else if rule_key s tenant rule
  then Ok (set_children s (condition_rows s) (<[ra_id v :=
         {| a_tenant := tenant; a_rule := rule; a_type := ra_type v; a_config := text |}]> (action_rows s)))
  else Err (ForeignKeyViolation "foreign_key").
Fixpoint insert_all {A} (f : AdminStore -> A -> result PersistenceError AdminStore) (s : AdminStore) (l : list A)
    : result PersistenceError AdminStore :=
  match l with [] => Ok s | v :: rest => s1 ← f s v; insert_all f s1 rest end.
Definition insert_children (s : AdminStore) (tenant rule : string) (cs : list RuleConditionRecord)
    (acts : list RuleActionRecord) : result PersistenceError AdminStore :=
  s1 ← insert_all (insert_condition tenant rule) s cs; insert_all (insert_action tenant rule) s1 acts.

(** UNIQUE (tenant_id, name) and the CHECK on target_type. *)
Definition rule_name_taken (s : AdminStore) (tenant name : string) (except : option string) : bool :=
  existsb (fun e : string * RuleRow => (r_tenant e.2 =s? tenant) && (r_name e.2 =s? name)
             && negb (bool_decide (except = Some e.1))) (map_to_list (rule_rows s)).
Definition target_known (t : string) : bool :=
  (t =s? "global") || (t =s? "device") || (t =s? "fleet") || (t =s? "blueprint").
Definition insert_rule_row (s : AdminStore) (tenant : string) (r : NewRuleRecord) (now : Z)
    : result PersistenceError AdminStore :=
  if negb (target_known (nr_target_type r)) then Err (CheckViolation "check")
  else if bool_decide (is_Some (rule_rows s !! nr_id r)) || rule_name_taken s tenant (nr_name r) None
  then Err (UniqueViolation "unique")
  else if negb (bool_decide (tenant ∈ orgs s)) then Err (ForeignKeyViolation "foreign_key")
  else Ok (set_rules s (<[nr_id r :=
         {| r_tenant := tenant; r_name := nr_name r; r_description := nr_description r; r_enabled := true;
            r_trigger := nr_trigger_type r; r_target_type := nr_target_type r; r_target_id := nr_target_id r;
            r_cooldown := nr_cooldown_seconds r; r_created := now; r_updated := now |}]> (rule_rows s))).
Definition create_rule_in (s : AdminStore) (tenant : string) (r : NewRuleRecord) (now : Z)
    : result PersistenceError (RuleDetails * AdminStore) :=
  s1 ← insert_rule_row s tenant r now;
  s2 ← insert_children s1 tenant (nr_id r) (nr_conditions r) (nr_actions r);
  found ← details_from s2 tenant (nr_id r);
  out ← ok_or found PNotFound;
  Ok (out, s2).
Definition repo_create_rule (s : AdminStore) (tenant : string) (r : NewRuleRecord) (now : Z) :=
  commit s (create_rule_in s tenant r now).
(** The UPDATE statements of the columns that are given. *)
Definition patch_rule_row (r : RuleRow) (u : UpdateRuleRecord) : RuleRow :=
  {| r_tenant := r_tenant r; r_name := default (r_name r) (ur_name u);
     r_description := default (r_description r) (ur_description u); r_enabled := r_enabled r;
     r_trigger := default (r_trigger r) (ur_trigger_type u);
     r_target_type := default (r_target_type r) (ur_target_type u);
     r_target_id := default (r_target_id r) (ur_target_id u);
     r_cooldown := default (r_cooldown r) (ur_cooldown_seconds u); r_created := r_created r;
     r_updated := timestamp_micros (ur_updated_at u) |}.
Definition not_child_c (tenant id : string) (e : string * ConditionRow) : Prop := ~ (c_tenant e.2 = tenant /\ c_rule e.2 = id).
Definition not_child_a (tenant id : string) (e : string * ActionRow) : Prop := ~ (a_tenant e.2 = tenant /\ a_rule e.2 = id).
#[global] Instance not_child_c_dec tenant id e : Decision (not_child_c tenant id e).
Proof. unfold not_child_c. apply _. Defined.
#[global] Instance not_child_a_dec tenant id e : Decision (not_child_a tenant id e).
Proof. unfold not_child_a. apply _. Defined.
Definition update_rule_in (s : AdminStore) (tenant id : string) (u : UpdateRuleRecord)
    : result PersistenceError (option RuleDetails * AdminStore) :=
  match rule_row s tenant id with
  | None => Ok (None, s)
  | Some r =>
    if match ur_name u with Some name => rule_name_taken s tenant name (Some id) | None => false end
    then Err (UniqueViolation "unique")
    else if match ur_target_type u with Some t => negb (target_known t) | None => false end
    then Err (CheckViolation "check") else
    let s1 := set_rules s (<[id := patch_rule_row r u]> (rule_rows s)) in
    s2 ← match ur_conditions u with
         | Some cs => insert_children (set_children s1 (filter (not_child_c tenant id) (condition_rows s1)) (action_rows s1))
                        tenant id cs []
         | None => Ok s1
         end;
    s3 ← match ur_actions u with
         | Some acts => insert_children (set_children s2 (condition_rows s2) (filter (not_child_a tenant id) (action_rows s2)))
                          tenant id [] acts
         | None => Ok s2
         end;
    out ← details_from s3 tenant id;
    Ok (out, s3)
  end.
Definition repo_update_rule (s : AdminStore) (tenant id : string) (u : UpdateRuleRecord) :=
  commit s (update_rule_in s tenant id u).
(** DELETE FROM rules: the children go with the rule, but the alerts of a rule
    have a foreign key to it without a cascade. *)
Definition repo_delete_rule (s : AdminStore) (tenant id : string) : result PersistenceError bool * AdminStore :=
  match rule_row s tenant id with
  | None => (Ok false, s)
  | Some _ =>
    if bool_decide ((tenant, id) ∈ alerted_rules s) then (Err (ForeignKeyViolation "foreign_key"), s)
    else (Ok true, set_children (set_rules s (delete id (rule_rows s)))
            (filter (not_child_c tenant id) (condition_rows s)) (filter (not_child_a tenant id) (action_rows s)))
  end.
(** Not a transaction: the update stays when the rule cannot be read back. *)
Definition repo_toggle_rule (s : AdminStore) (tenant id : string) (enabled : bool) (at_ : NaiveDateTime)
    : result PersistenceError (option RuleDetails) * AdminStore :=
  match rule_row s tenant id with
  | None => (Ok None, s)
  | Some r =>
    let s1 := set_rules s (<[id :=
      {| r_tenant := r_tenant r; r_name := r_name r; r_description := r_description r; r_enabled := enabled;
         r_trigger := r_trigger r; r_target_type := r_target_type r; r_target_id := r_target_id r;
         r_cooldown := r_cooldown r; r_created := r_created r; r_updated := timestamp_micros at_ |}]> (rule_rows s)) in
    (details_from s1 tenant id, s1)
  end.

(** ** zones.rs *)
Definition decode_zone (id : string) (z : ZoneRow) : result PersistenceError ZoneRecord :=
  tenant ← (if str_is_empty (zw_tenant z) then Err (CorruptData "tenant id must not be empty") else Ok (zw_tenant z));
  json ← map_err CorruptData (from_str (zw_json z));
  created ← datetime (zw_created z);
  updated ← datetime (zw_updated z);
  Ok {| zn_id := id; zn_tenant := tenant; zn_name := zw_name z; zn_description := zw_description z;
        zn_geometry_type := zw_type z; zn_geometry_json := json; zn_color := zw_color z;
        zn_created_at := created; zn_updated_at := updated |}.
Definition zone_row (s : AdminStore) (tenant id : string) : option ZoneRow :=
  z ← zone_rows s !! id; if zw_tenant z =s? tenant then Some z else None.
Definition get_zone (s : AdminStore) (tenant id : string) : result PersistenceError (option ZoneRecord) :=
  match zone_row s tenant id with Some z => Some <$> decode_zone id z | None => Ok None end.
Definition zone_name_exists (s : AdminStore) (tenant name : string) (except : option string) : bool :=
  existsb (fun e : string * ZoneRow => (zw_tenant e.2 =s? tenant) && (zw_name e.2 =s? name)
             && negb (bool_decide (except = Some e.1))) (map_to_list (zone_rows s)).
(** Statements of their own: the row stays when it cannot be read back. *)
Definition repo_create_zone (s : AdminStore) (tenant : string) (z : NewZone) (now : Z)
    : result PersistenceError ZoneRecord * AdminStore :=
  match (found ← get_zone s tenant (nz_id z);
         _ ← match found with Some _ => Err (UniqueViolation "zones.id") | None => Ok tt end;
         _ ← (if zone_name_exists s tenant (nz_name z) None then Err (UniqueViolation "zones.tenant_name") else Ok tt);
         text ← map_err PInternal (to_string (nz_geometry_json z));
         if bool_decide (is_Some (zone_rows s !! nz_id z)) then Err (UniqueViolation "unique")
         else if negb (bool_decide (tenant ∈ orgs s)) then Err (ForeignKeyViolation "foreign_key") else Ok text) with
  | Err e => (Err e, s)
  | Ok text =>
    let s1 := set_zone_rows s (<[nz_id z :=
      {| zw_tenant := tenant; zw_name := nz_name z; zw_description := nz_description z; zw_type := nz_geometry_type z;
         zw_json := text; zw_color := nz_color z; zw_created := now; zw_updated := now |}]> (zone_rows s)) in
    (found ← get_zone s1 tenant (nz_id z); ok_or found PNotFound, s1)
  end.
Definition patch_zone_row (z : ZoneRow) (p : ZonePatch) (json : option string) : ZoneRow :=
  {| zw_tenant := zw_tenant z; zw_name := default (zw_name z) (zp_name p);
     zw_description := default (zw_description z) (zp_description p); zw_type := default (zw_type z) (zp_geometry_type p);
     zw_json := default (zw_json z) json; zw_color := default (zw_color z) (zp_color p);
     zw_created := zw_created z; zw_updated := timestamp_micros (zp_updated_at p) |}.
Definition update_zone_in (s : AdminStore) (tenant id : string) (p : ZonePatch)
    : result PersistenceError (option ZoneRecord * AdminStore) :=
  if match zp_name p with Some name => zone_name_exists s tenant name (Some id) | None => false end
  then Err (UniqueViolation "zones.tenant_name") else
  match zone_row s tenant id with
  | None => Ok (None, s)
  | Some z =>
    json ← match zp_geometry_json p with Some v => Some <$> map_err PInternal (to_string v) | None => Ok None end;
    let s1 := set_zone_rows s (<[id := patch_zone_row z p json]> (zone_rows s)) in
    out ← get_zone s1 tenant id;
    Ok (out, s1)
  end.
Definition repo_update_zone (s : AdminStore) (tenant id : string) (p : ZonePatch) := commit s (update_zone_in s tenant id p).
Definition zone_references (s : AdminStore) (tenant id : string) : Z :=
  Z.of_nat (size (filter (fun e : string * ConditionRow => c_tenant e.2 = tenant /\ c_zone e.2 = Some id) (condition_rows s))).
Definition delete_zone_in (s : AdminStore) (tenant id : string) : result PersistenceError (DeleteZoneOutcome * AdminStore) :=
  found ← get_zone s tenant id;
  match found with
  | None => Ok (ZoneNotFound, s)
  | Some _ =>
    if 0 <? zone_references s tenant id then Ok (ZoneInUse, s)
    else Ok (ZoneDeleted, set_zone_rows s (delete id (zone_rows s)))
  end.
Definition repo_delete_zone (s : AdminStore) (tenant id : string) := commit s (delete_zone_in s tenant id).

(** ** load_snapshot *)
Definition zone_le (a b : string * ZoneRow) : Prop :=
  match String.compare (zw_tenant a.2) (zw_tenant b.2) with
  | Lt => True
  | Gt => False
  | Eq => match String.compare (zw_name a.2) (zw_name b.2) with
          | Lt => True | Gt => False | Eq => str_leb a.1 b.1 = true
          end
  end.
#[global] Instance zone_le_dec : RelDecision zone_le.
Proof. intros a b. unfold zone_le. repeat case_match; apply _. Defined.
Definition list_snapshot (s : AdminStore) : result PersistenceError (list ZoneRecord) :=
  mapM (fun e : string * ZoneRow => decode_zone e.1 e.2) (merge_sort zone_le (map_to_list (zone_rows s))).
Definition enabled_le (a b : string * RuleRow) : Prop :=
  match String.compare (r_tenant a.2) (r_tenant b.2) with Lt => True | Gt => False | Eq => str_leb a.1 b.1 = true end.
#[global] Instance enabled_le_dec : RelDecision enabled_le.
Proof. intros a b. unfold enabled_le. case_match; apply _. Defined.
Definition enabled_keys (s : AdminStore) : list (string * string) :=
  map (fun e : string * RuleRow => (r_tenant e.2, e.1))
    (merge_sort enabled_le (List.filter (fun e : string * RuleRow => r_enabled e.2) (map_to_list (rule_rows s)))).
Definition cached_condition (v : RuleConditionRecord) : CachedCondition :=
  {| field := rc_field v; blueprint_id := rc_blueprint_id v; blueprint_revision_id := rc_blueprint_revision_id v;
     operator := rc_operator v; cond_value := rc_value v; zone_id := rc_zone_id v |}.
Definition cached_rule (tenant : string) (d : RuleDetails) : CachedRule :=
  {| tenant_id := tenant; rule_id := rr_id (rd_rule d); name := rr_name (rd_rule d);
     trigger_type := rr_trigger_type (rd_rule d); target_type := rr_target_type (rd_rule d);
     target_id := rr_target_id (rd_rule d); cooldown_seconds := rr_cooldown_seconds (rd_rule d);
     conditions := map cached_condition (rd_conditions d);
     actions := map (fun v => {| action_type := ra_type v; config := ra_config v |}) (rd_actions d) |}.
Definition load_rule (s : AdminStore) (key : string * string) : result PersistenceError CachedRule :=
  found ← details_from s key.1 key.2;
  d ← ok_or found PNotFound;
  Ok (cached_rule key.1 d).
Definition snapshot_zone (z : ZoneRecord) : Zone :=
  {| z_id := zn_id z; z_name := zn_name z; z_geometry_type := zn_geometry_type z; z_geometry_json := zn_geometry_json z |}.
Definition load_snapshot (s : AdminStore) : result PersistenceError RuleSnapshotRecords :=
  rules ← mapM (load_rule s) (enabled_keys s);
  zones ← list_snapshot s;
  Ok (merge_zone_snapshots {| rsr_rules := rules; rsr_zones := ∅ |} (map snapshot_zone zones)).
End turso.
