(* ===== verification/RuleAdmin.v ===== *)
(** * Administration of rules and zones (crates/backend-core/src/application/rules.rs,
    zones.rs)

    The validation of rules and zones and the guarded services over their
    tables, and what it gives the rule engine: every enabled rule of a snapshot
    compiles, and the zones it names are there. *)
From stdpp Require Import sorting.
From S2P Require Import Prelude Text Float64 BTree Json Errors Access RuleTypes MetricNumber Shadows RuleSnapshot.
From S2P Require Import ContractModel RuleAdminStore.

Local Open Scope Z_scope.

Definition TELEMETRY_OPERATORS : list string := ["gt"; "gte"; "lt"; "lte"; "eq"; "neq"].
Definition STATUS_VALUES : list string := ["online"; "offline"; "warning"].
Definition TARGET_TYPES : list string := ["global"; "blueprint"; "fleet"; "device"].
Definition TRIGGER_TYPES : list string := ["telemetry"; "device_status"; "geofence"].
Definition one_word (set : list string) (s : string) : bool := existsb (String.eqb s) set.
Arguments one_word : simpl never.
(** [Option::is_none_or(str::is_empty)]. *)
Definition none_or_empty (o : option string) : bool := match o with Some s => str_is_empty s | None => true end.
Definition is_some {A} (o : option A) : bool := match o with Some _ => true | None => false end.

(** What the host provides: the webhook policy, the published blueprint
    revisions of a tenant (their blueprint and document), and serde's decoding
    of a blueprint. *)
Class RuleHost := {
  validate_url : string -> result ApplicationError unit;
  get_revision : string -> string -> result PersistenceError (option (string * value));
  blueprint_from_value : value -> result string DeviceBlueprint;
}.

(** ** Validation of rules *)
Definition check (ok : bool) (message : string) : result ApplicationError unit :=
  if ok then Ok tt else Err (InvalidInput message).
Fixpoint for_each {A} (f : A -> result ApplicationError unit) (l : list A) : result ApplicationError unit :=
  match l with [] => Ok tt | a :: rest => _ ← f a; for_each f rest end.
Definition validate_condition (trigger_type : string) (c : RuleConditionInput) : result ApplicationError unit :=
  if trigger_type =s? "telemetry" then
    _ ← check (negb (negb (is_some (Selector.parse (ci_field c))) || none_or_empty (ci_blueprint_id c)
                     || none_or_empty (ci_blueprint_revision_id c) || is_some (ci_zone_id c)
                     || negb (one_word TELEMETRY_OPERATORS (ci_operator c))))
          "invalid telemetry condition field or operator";
    check (is_some (Number.parse (ci_value c)))
      ("telemetry condition value '" +:+ ci_value c +:+ "' is not a valid number")
  else if trigger_type =s? "geofence" then
    check (negb (is_some (ci_blueprint_id c) || is_some (ci_blueprint_revision_id c) || none_or_empty (ci_zone_id c)
                 || negb (if ci_field c =s? "zone_state"
                          then (ci_operator c =s? "eq") && one_word ["inside"; "outside"] (ci_value c)
                          else if ci_field c =s? "dwell_seconds"
                          then (ci_operator c =s? "gte")
                               && match parse_i64 (ci_value c) with Some seconds => 0 <=? seconds | None => false end
                          else false)))
      "invalid geofence condition"
  else
    check (negb ((ci_field c !=s "status") || is_some (ci_blueprint_id c) || is_some (ci_blueprint_revision_id c)
                 || is_some (ci_zone_id c) || negb (one_word ["eq"; "neq"] (ci_operator c))
                 || negb (one_word STATUS_VALUES (ci_value c))))
      "invalid device_status condition".
Definition of_field (name : string) (cs : list RuleConditionInput) : list RuleConditionInput :=
  List.filter (fun c => ci_field c =s? name) cs.
Definition validate_geofence (cs : list RuleConditionInput) : result ApplicationError unit :=
  let zone := (head cs) ≫= ci_zone_id in
  let states := of_field "zone_state" cs in
  let dwells := of_field "dwell_seconds" cs in
  check (negb (negb (length states =? 1)%nat || (1 <? length dwells)%nat
               || negb (length cs =? length states + length dwells)%nat
               || existsb (fun c => negb (bool_decide (ci_zone_id c = zone))) cs
               || (negb (length dwells =? 0)%nat
                   && match states with s :: _ => ci_value s !=s "inside" | [] => false end)))
    "geofence requires one zone state and an optional inside dwell threshold".
Section validation.
Context `{!RuleHost}.
Definition validate_action (a : string * value) : result ApplicationError unit :=
  let '(action_type, config) := a in
  if action_type =s? "webhook" then
    let url := default "" (get "url" config ≫= as_str) in
    _ ← check (negb (str_is_empty url)) "webhook action config must have a non-empty 'url'";
    validate_url url
  else if action_type =s? "command" then
    check (negb (none_or_empty (get "command" config ≫= as_str))) "command action config must have a non-empty 'command'"
  else if action_type =s? "alert" then Ok tt
  else Err (InvalidInput ("unknown action_type '" +:+ action_type +:+ "'")).
Definition validate_rule (name trigger_type target_type : string) (target_id : option string) (cooldown : Z)
    (cs : list RuleConditionInput) (acts : list (string * value)) : result ApplicationError unit :=
  let name := trim name in
  _ ← check (negb (str_is_empty name || (255 <? str_len name))) "name must contain between 1 and 255 characters";
  _ ← check (one_word TRIGGER_TYPES trigger_type) ("trigger_type must be one of: " +:+ join ", " TRIGGER_TYPES);
  _ ← check (one_word TARGET_TYPES target_type) ("target_type must be one of: " +:+ join ", " TARGET_TYPES);
  _ ← check (negb (((target_type =s? "global") && is_some target_id)
                   || ((target_type !=s "global") && none_or_empty target_id)))
        (if target_type =s? "global" then "target_id must be null for global rules"
         else "target_id is required for target_type '" +:+ target_type +:+ "'");
  _ ← check ((0 <=? cooldown) && (cooldown <=? 86400)) "cooldown_seconds must be between 0 and 86400";
  _ ← check (negb (length cs =? 0)%nat) "at least one condition is required";
  _ ← for_each (validate_condition trigger_type) cs;
  _ ← (if trigger_type =s? "geofence" then validate_geofence cs else Ok tt);
  _ ← check (negb (length acts =? 0)%nat) "at least one action is required";
  for_each validate_action acts.

(** [validate_metric_field]; the shared route is threaded through. *)
Definition validate_metric_field (b : DeviceBlueprint) (sel : Selector.MetricSelector) (threshold : string)
    (shared : option string) : result ApplicationError (option string) :=
  stream ← ok_or (List.find (fun s => st_key s =s? Selector.stream_key sel) (streams (spec b)))
             (InvalidInput "telemetry selector is not a declared numeric field");
  _ ← check (match shared with Some route => route =s? st_route stream | None => true end)
        "telemetry conditions must use streams on one event route";
  field ← ok_or match List.find (fun f => fd_path f =s? Selector.field_path sel) (st_fields stream) with
                | Some f => if is_numeric (fd_value_type f) then Some f else None
                | None => None
                end (InvalidInput "telemetry selector is not a declared numeric field");
  _ ← check (negb (bool_decide (fd_value_type field = Int64) && negb (is_some (parse_i64 threshold))))
        "int64 telemetry conditions require an exact integer threshold";
  Ok (Some (st_route stream)).
Definition validate_declaration (tenant target_type : string) (target_id : option string)
    (revision route : option string) (c : RuleConditionInput) : result ApplicationError (option string * option string) :=
  blueprint ← ok_or (ci_blueprint_id c) (InvalidInput "telemetry selector requires blueprint_id");
  rev ← ok_or (ci_blueprint_revision_id c) (InvalidInput "telemetry selector requires blueprint_revision_id");
  _ ← check (negb ((target_type =s? "blueprint") && negb (bool_decide (target_id = Some blueprint))))
        "telemetry selector blueprint must match the rule target";
  _ ← check (match revision with Some previous => previous =s? rev | None => true end)
        "all telemetry conditions must use one blueprint revision";
  found ← map_err Persistence (get_revision tenant rev);
  document ← ok_or match found with
                   | Some (b, document) => if b =s? blueprint then Some document else None
                   | None => None
                   end (InvalidInput "telemetry selector references an unknown blueprint revision");
  parsed ← map_err (fun e => Internal ("Stored published blueprint is invalid: " +:+ e)) (blueprint_from_value document);
  sel ← ok_or (Selector.parse (ci_field c)) (InvalidInput "invalid telemetry selector path");
  route ← validate_metric_field parsed sel (ci_value c) route;
  Ok (Some rev, route).
Fixpoint validate_declarations (tenant target_type : string) (target_id revision route : option string)
    (cs : list RuleConditionInput) : result ApplicationError unit :=
  match cs with
  | [] => Ok tt
  | c :: rest =>
    '(revision, route) ← validate_declaration tenant target_type target_id revision route c;
    validate_declarations tenant target_type target_id revision route rest
  end.
Definition validate_metric_declarations (tenant trigger_type target_type : string) (target_id : option string)
    (cs : list RuleConditionInput) : result ApplicationError unit :=
  if trigger_type !=s "telemetry" then Ok tt
  else validate_declarations tenant target_type target_id None None cs.
End validation.

(** ** Services *)
Definition condition_records (uuid : nat -> string) (cs : list RuleConditionInput) : list RuleConditionRecord :=
  imap (fun i c => {| rc_id := uuid i; rc_field := ci_field c; rc_blueprint_id := ci_blueprint_id c;
                      rc_blueprint_revision_id := ci_blueprint_revision_id c; rc_operator := ci_operator c;
                      rc_value := ci_value c; rc_group := 0; rc_zone_id := ci_zone_id c |}) cs.
Definition action_records (uuid : nat -> string) (acts : list (string * value)) : list RuleActionRecord :=
  imap (fun i a => {| ra_id := uuid i; ra_type := a.1; ra_config := a.2 |}) acts.
Definition condition_input (c : RuleConditionRecord) : RuleConditionInput :=
  {| ci_field := rc_field c; ci_blueprint_id := rc_blueprint_id c; ci_blueprint_revision_id := rc_blueprint_revision_id c;
     ci_operator := rc_operator c; ci_value := rc_value c; ci_zone_id := rc_zone_id c |}.
Definition action_input (a : RuleActionRecord) : string * value := (ra_type a, ra_config a).
Record RuleInput := {
  in_name : string; in_description : option string; in_trigger_type : string; in_target_type : string;
  in_target_id : option string; in_cooldown : Z; in_conditions : list RuleConditionInput; in_actions : list (string * value);
}.
Record RuleUpdate := {
  up_name : option string; up_description : option (option string); up_trigger_type : option string;
  up_target_type : option string; up_target_id : option (option string); up_cooldown : option Z;
  up_conditions : option (list RuleConditionInput); up_actions : option (list (string * value));
}.
Definition rule_missing (id : string) : ApplicationError := NotFound ("Rule '" +:+ id +:+ "' not found").
Definition zone_missing (id : string) : ApplicationError := NotFound ("Zone '" +:+ id +:+ "' not found").
Definition after {A B} (s : AdminStore) (r : result ApplicationError A)
    (k : A -> result ApplicationError B * AdminStore) : result ApplicationError B * AdminStore :=
  match r with Ok a => k a | Err e => (Err e, s) end.
Definition answered {A B} (f : A -> result ApplicationError B) (r : result PersistenceError A * AdminStore)
    : result ApplicationError B * AdminStore := (map_err Persistence r.1 ≫= f, r.2).
Section services.
Context `{!ChronoMicros, !SerdeJson, !RuleHost}.
(** The services read before they write, and only the write is a transaction:
    [found] is what [repository.get] answered for the rule or zone, and
    [zones_get] what [zones.get] answers, in whatever states they were read. *)

(** [validate_geofence_zones]; the conditions were validated, so the index and
    the [expect] succeed. *)
Definition validate_geofence_zones (zones_get : string -> result PersistenceError (option ZoneRecord))
    (trigger_type : string) (cs : list RuleConditionInput) : result ApplicationError unit :=
  if trigger_type !=s "geofence" then Ok tt else
  let zone := default "" (head cs ≫= ci_zone_id) in
  found ← map_err Persistence (zones_get zone);
  check (is_some found) "geofence zone is unknown".
Definition validate_all (zones_get : string -> result PersistenceError (option ZoneRecord)) (tenant name trigger_type target_type : string) (target_id : option string)
    (cooldown : Z) (cs : list RuleConditionInput) (acts : list (string * value)) : result ApplicationError unit :=
  _ ← validate_rule name trigger_type target_type target_id cooldown cs acts;
  _ ← validate_metric_declarations tenant trigger_type target_type target_id cs;
  validate_geofence_zones zones_get trigger_type cs.
Definition create_rule (zones_get : string -> result PersistenceError (option ZoneRecord)) (s : AdminStore)
    (ctx : TenantContext) (i : RuleInput) (id : string) (uuid_c uuid_a : nat -> string) (now : Z)
    : result ApplicationError RuleDetails * AdminStore :=
  after s (_ ← require_permission ctx ManageRules;
           validate_all zones_get (ctx_tenant ctx) (in_name i) (in_trigger_type i) (in_target_type i) (in_target_id i) (in_cooldown i)
             (in_conditions i) (in_actions i))
  (fun _ => answered Ok (repo_create_rule s (ctx_tenant ctx)
     {| nr_id := id; nr_name := trim (in_name i); nr_description := in_description i;
        nr_trigger_type := in_trigger_type i; nr_target_type := in_target_type i; nr_target_id := in_target_id i;
        nr_cooldown_seconds := in_cooldown i; nr_conditions := condition_records uuid_c (in_conditions i);
        nr_actions := action_records uuid_a (in_actions i) |} now)).
(** The checks of [update], against the rule as it reads it. *)
Definition update_checked (found : result PersistenceError (option RuleDetails))
    (zones_get : string -> result PersistenceError (option ZoneRecord)) (ctx : TenantContext) (id : string) (u : RuleUpdate)
    : result ApplicationError unit :=
  _ ← require_permission ctx ManageRules;
  found ← map_err Persistence found;
  current ← ok_or found (rule_missing id);
  validate_all zones_get (ctx_tenant ctx) (default (rr_name (rd_rule current)) (up_name u))
    (default (rr_trigger_type (rd_rule current)) (up_trigger_type u))
    (default (rr_target_type (rd_rule current)) (up_target_type u))
    (default (rr_target_id (rd_rule current)) (up_target_id u))
    (default (rr_cooldown_seconds (rd_rule current)) (up_cooldown u))
    (default (map condition_input (rd_conditions current)) (up_conditions u))
    (default (map action_input (rd_actions current)) (up_actions u)).
(** The write that follows. *)
Definition update_record (u : RuleUpdate) (uuid_c uuid_a : nat -> string) (now : NaiveDateTime) : UpdateRuleRecord :=
  {| ur_name := trim <$> up_name u; ur_description := up_description u; ur_trigger_type := up_trigger_type u;
     ur_target_type := up_target_type u; ur_target_id := up_target_id u; ur_cooldown_seconds := up_cooldown u;
     ur_conditions := condition_records uuid_c <$> up_conditions u;
     ur_actions := action_records uuid_a <$> up_actions u; ur_updated_at := now |}.
Definition update_rule (found : result PersistenceError (option RuleDetails))
    (zones_get : string -> result PersistenceError (option ZoneRecord)) (s : AdminStore) (ctx : TenantContext) (id : string)
    (u : RuleUpdate) (uuid_c uuid_a : nat -> string) (now : NaiveDateTime)
    : result ApplicationError RuleDetails * AdminStore :=
  after s (update_checked found zones_get ctx id u)
  (fun _ => answered (fun o => ok_or o (rule_missing id))
     (repo_update_rule s (ctx_tenant ctx) id (update_record u uuid_c uuid_a now))).
Definition delete_rule (s : AdminStore) (ctx : TenantContext) (id : string) : result ApplicationError unit * AdminStore :=
  after s (require_permission ctx ManageRules) (fun _ =>
    answered (fun b : bool => if b then Ok tt else Err (rule_missing id)) (repo_delete_rule s (ctx_tenant ctx) id)).
Definition toggle_rule (s : AdminStore) (ctx : TenantContext) (id : string) (enabled : bool) (now : NaiveDateTime)
    : result ApplicationError RuleDetails * AdminStore :=
  after s (require_permission ctx ManageRules) (fun _ =>
    answered (fun o => ok_or o (rule_missing id)) (repo_toggle_rule s (ctx_tenant ctx) id enabled now)).

(** ** Zones *)
Definition finite_number (v : value) : bool := match as_f64 v with Some x => is_finite x | None => false end.
Definition validate_pair (p : value) : result ApplicationError unit :=
  coordinates ← ok_or (as_array p) (InvalidInput "Polygon points must be [latitude, longitude] arrays");
  check match coordinates with [x; y] => finite_number x && finite_number y | _ => false end
    "Polygon points must contain finite latitude and longitude values".
Definition validate_geometry (geometry_type : string) (json : value) : result ApplicationError unit :=
  if geometry_type =s? "circle" then
    center ← ok_or (get "center" json ≫= as_array) (InvalidInput "Circle geometry requires center");
    _ ← check match center with [x; y] => finite_number x && finite_number y | _ => false end
          "Circle center must be [latitude, longitude]";
    radius ← ok_or (get "radius_meters" json ≫= as_f64) (InvalidInput "Circle geometry requires radius_meters");
    check (negb (negb (is_finite radius) || f64_le radius f64_zero)) "Circle radius_meters must be a positive number"
  else if geometry_type =s? "polygon" then
    points ← ok_or (get "points" json ≫= as_array) (InvalidInput "Polygon geometry requires points");
    _ ← check (3 <=? length points)%nat "Polygon geometry requires at least three points";
    for_each validate_pair points
  else Err (InvalidInput ("Unsupported zone geometry type '" +:+ geometry_type +:+ "'")).
Record ZoneInput := {
  zi_name : string; zi_description : string; zi_geometry_type : string; zi_geometry_json : value; zi_color : string;
}.
Record ZoneUpdate := {
  zu_name : option string; zu_description : option string; zu_geometry_type : option string;
  zu_geometry_json : option value; zu_color : option string;
}.
Definition create_zone (s : AdminStore) (ctx : TenantContext) (i : ZoneInput) (id : string) (now : Z)
    : result ApplicationError ZoneRecord * AdminStore :=
  after s (_ ← require_permission ctx ManageZones; validate_geometry (zi_geometry_type i) (zi_geometry_json i))
  (fun _ => answered Ok (repo_create_zone s (ctx_tenant ctx)
     {| nz_id := id; nz_name := zi_name i; nz_description := zi_description i; nz_geometry_type := zi_geometry_type i;
        nz_geometry_json := zi_geometry_json i; nz_color := zi_color i |} now)).
Definition update_zone (found : result PersistenceError (option ZoneRecord)) (s : AdminStore) (ctx : TenantContext)
    (id : string) (u : ZoneUpdate) (now : NaiveDateTime) : result ApplicationError ZoneRecord * AdminStore :=
  after s (_ ← require_permission ctx ManageZones;
           found ← map_err Persistence found;
           existing ← ok_or found (zone_missing id);
           validate_geometry (default (zn_geometry_type existing) (zu_geometry_type u))
             (default (zn_geometry_json existing) (zu_geometry_json u)))
  (fun _ => answered (fun o => ok_or o (zone_missing id))
     (repo_update_zone s (ctx_tenant ctx) id
        {| zp_name := zu_name u; zp_description := zu_description u; zp_geometry_type := zu_geometry_type u;
           zp_geometry_json := zu_geometry_json u; zp_color := zu_color u; zp_updated_at := now |})).
Definition delete_zone (s : AdminStore) (ctx : TenantContext) (id : string) : result ApplicationError unit * AdminStore :=
  after s (require_permission ctx ManageZones) (fun _ =>
    answered (fun o => match o with
                       | ZoneNotFound => Err (zone_missing id)
                       | ZoneInUse => Err (Conflict "Cannot delete zone: referenced by rules")
                       | ZoneDeleted => Ok tt
                       end) (repo_delete_zone s (ctx_tenant ctx) id)).
End services.

(** ** What validation accepts *)
Inductive condition_valid : string -> RuleConditionInput -> Prop :=
  | cv_telemetry f sel b rev op v n :
      Selector.parse f = Some sel -> b <> "" -> rev <> "" -> compile_operator op <> None -> Number.parse v = Some n ->
      condition_valid "telemetry" {| ci_field := f; ci_blueprint_id := Some b; ci_blueprint_revision_id := Some rev;
                                     ci_operator := op; ci_value := v; ci_zone_id := None |}
  | cv_state v zone : zone <> "" -> v = "inside" \/ v = "outside" ->
      condition_valid "geofence" {| ci_field := "zone_state"; ci_blueprint_id := None; ci_blueprint_revision_id := None;
                                    ci_operator := "eq"; ci_value := v; ci_zone_id := Some zone |}
  | cv_dwell v seconds zone : zone <> "" -> parse_i64 v = Some seconds -> 0 <= seconds ->
      condition_valid "geofence" {| ci_field := "dwell_seconds"; ci_blueprint_id := None; ci_blueprint_revision_id := None;
                                    ci_operator := "gte"; ci_value := v; ci_zone_id := Some zone |}
  | cv_status op v : op = "eq" \/ op = "neq" -> v ∈ STATUS_VALUES ->
      condition_valid "device_status" {| ci_field := "status"; ci_blueprint_id := None; ci_blueprint_revision_id := None;
                                         ci_operator := op; ci_value := v; ci_zone_id := None |}.
(** One zone state, with at most one dwell threshold for an inside state of the same zone. *)
Definition geofence_valid (cs : list RuleConditionInput) : Prop :=
  (exists st, cs ≡ₚ [st] /\ ci_field st = "zone_state")
  \/ (exists st dw, cs ≡ₚ [st; dw] /\ ci_field st = "zone_state" /\ ci_field dw = "dwell_seconds"
        /\ ci_value st = "inside" /\ ci_zone_id dw = ci_zone_id st).
Record conditions_valid (trigger : string) (cs : list RuleConditionInput) : Prop := {
  cs_some : cs <> [];
  cs_each : forall c, c ∈ cs -> condition_valid trigger c;
  cs_geofence : trigger = "geofence" -> geofence_valid cs;
}.
Inductive action_valid `{!RuleHost} : string * value -> Prop :=
  | av_alert config : action_valid ("alert", config)
  | av_command config c : get "command" config ≫= as_str = Some c -> c <> "" -> action_valid ("command", config)
  | av_webhook config url : get "url" config ≫= as_str = Some url -> url <> "" -> validate_url url = Ok tt ->
      action_valid ("webhook", config).
Record head_valid (name trigger target : string) (target_id : option string) (cooldown : Z) : Prop := {
  hv_name : trim name <> "" /\ str_len (trim name) <= 255;
  hv_trigger : compile_trigger trigger <> None;
  hv_target : compile_target_type target <> None;
  hv_target_id : if target =s? "global" then target_id = None else exists id, target_id = Some id /\ id <> "";
  hv_cooldown : 0 <= cooldown <= 86400;
}.
Record rule_valid `{!RuleHost} (name trigger target : string) (target_id : option string) (cooldown : Z)
    (cs : list RuleConditionInput) (acts : list (string * value)) : Prop := {
  rv_head : head_valid name trigger target target_id cooldown;
  rv_conditions : conditions_valid trigger cs;
  rv_actions : acts <> [] /\ Forall action_valid acts;
}.

Lemma check_ok b m u : check b m = Ok u <-> b = true.
Proof. destruct b, u; simpl; split; done. Qed.
Lemma for_each_ok {A} (f : A -> result ApplicationError unit) l u :
  for_each f l = Ok u <-> forall a, a ∈ l -> f a = Ok tt.
Proof.
  destruct u. induction l as [|a l IH]; simpl; [split; [intros _ x Hx; by apply elem_of_nil in Hx|done]|].
  rewrite bind_ok. split.
  - intros ([] & Ha & Hl) x [->|Hx]%elem_of_cons; [done|]. by apply IH.
  - intros H. exists tt. split; [apply H; set_solver|]. apply IH. intros x Hx. apply H. set_solver.
Qed.
Lemma unit_bind (r k : result ApplicationError unit) u : (_ ← r; k) = Ok u <-> r = Ok tt /\ k = Ok u.
Proof. rewrite bind_ok. split; [by intros ([] & ? & ?)|intros [? ?]; by exists tt]. Qed.
Lemma one_word_elem l s : one_word l s = true <-> s ∈ l.
Proof.
  unfold one_word. rewrite existsb_elem. split; [by intros (x & Hx & ->%String.eqb_eq)|].
  intros H. exists s. split; [done|apply String.eqb_refl].
Qed.
Lemma none_or_empty_false o : none_or_empty o = false <-> exists s, o = Some s /\ s <> "".
Proof. destruct o as [[|c s]|]; simpl; split; naive_solver. Qed.
Lemma is_some_true {A} (o : option A) : is_some o = true <-> exists a, o = Some a.
Proof. destruct o; simpl; naive_solver. Qed.
Lemma is_some_false {A} (o : option A) : is_some o = false <-> o = None.
Proof. destruct o; simpl; naive_solver. Qed.
Lemma operators_compile op : op ∈ TELEMETRY_OPERATORS <-> compile_operator op <> None.
Proof.
  unfold TELEMETRY_OPERATORS, compile_operator. rewrite !elem_of_cons, elem_of_nil. split.
  - intros [->|[->|[->|[->|[->|[->|[]]]]]]]; done.
  - repeat case_match; try done; repeat match goal with H : (_ =s? _) = true |- _ => apply String.eqb_eq in H end; tauto.
Qed.
Lemma triggers_compile t : t ∈ TRIGGER_TYPES <-> compile_trigger t <> None.
Proof.
  unfold TRIGGER_TYPES, compile_trigger. rewrite !elem_of_cons, elem_of_nil. split.
  - intros [->|[->|[->|[]]]]; done.
  - repeat case_match; try done; repeat match goal with H : (_ =s? _) = true |- _ => apply String.eqb_eq in H end; tauto.
Qed.
Lemma targets_compile t : t ∈ TARGET_TYPES <-> compile_target_type t <> None.
Proof.
  unfold TARGET_TYPES, compile_target_type. rewrite !elem_of_cons, elem_of_nil. split.
  - intros [->|[->|[->|[->|[]]]]]; done.
  - repeat case_match; try done; repeat match goal with H : (_ =s? _) = true |- _ => apply String.eqb_eq in H end; tauto.
Qed.
(** The negated disjunctions of the checks. *)
Ltac checked H :=
  repeat (first [rewrite negb_true_iff in H | rewrite orb_false_iff in H | rewrite negb_false_iff in H]).
Lemma validate_condition_exact trigger c :
  trigger ∈ TRIGGER_TYPES -> validate_condition trigger c = Ok tt <-> condition_valid trigger c.
Proof.
  intros Ht. split.
  - destruct c as [f b rev op v zone]. unfold validate_condition. simpl. intros H.
    destruct (String.eqb_spec trigger "telemetry") as [->|N1].
    + apply unit_bind in H as [H1%check_ok H2%check_ok]. checked H1.
      destruct H1 as [[[[Hs Hb] Hr] Hz] Ho]. apply is_some_true in Hs as [sel Hs], H2 as [n Hn].
      apply none_or_empty_false in Hb as (b' & -> & Hb), Hr as (rev' & -> & Hr). apply is_some_false in Hz as ->.
      apply one_word_elem, operators_compile in Ho. by eapply cv_telemetry.
    + destruct (String.eqb_spec trigger "geofence") as [->|N2].
      * apply check_ok in H. checked H. destruct H as [[[Hb Hr] Hz] Hc].
        apply is_some_false in Hb as ->, Hr as ->. apply none_or_empty_false in Hz as (z & -> & Hz).
        destruct (String.eqb_spec f "zone_state") as [->|].
        -- apply andb_true_iff in Hc as [->%String.eqb_eq Hv%one_word_elem]. apply cv_state; [done|set_solver].
        -- destruct (String.eqb_spec f "dwell_seconds") as [->|]; [|done].
           apply andb_true_iff in Hc as [->%String.eqb_eq Hv]. destruct (parse_i64 v) eqn:E; [|done].
           apply Z.leb_le in Hv. by eapply cv_dwell.
      * apply check_ok in H. checked H. destruct H as [[[[[Hf Hb] Hr] Hz] Ho] Hv].
        apply is_some_false in Hb as ->, Hr as ->, Hz as ->. apply String.eqb_eq in Hf as ->.
        apply one_word_elem in Ho, Hv. assert (trigger = "device_status") as -> by set_solver.
        apply cv_status; [set_solver|done].
  - intros H. destruct H as [f sel b rev op v n H1 H2 H3 H4 H5|v zone Hz Hv|v seconds zone Hz Hv Hs|op v Ho Hv];
      unfold validate_condition; simpl.
    + rewrite H1, H5. apply operators_compile, one_word_elem in H4. rewrite H4. by destruct b, rev.
    + destruct zone; [done|]. by destruct Hv as [->| ->].
    + destruct zone; [done|]. cbn. rewrite Hv. by apply Z.leb_le in Hs as ->.
    + apply one_word_elem in Hv. rewrite Hv. by destruct Ho as [->| ->].
Qed.
Lemma geofence_field c : condition_valid "geofence" c -> ci_field c = "zone_state" \/ ci_field c = "dwell_seconds".
Proof. inversion 1; simpl; auto. Qed.
Lemma validate_geofence_exact cs :
  (forall c, c ∈ cs -> condition_valid "geofence" c) -> validate_geofence cs = Ok tt <-> geofence_valid cs.
Proof.
  intros Hc. unfold validate_geofence. cbv zeta. rewrite check_ok. split.
  - intros H. checked H. destruct H as [[[[Hs Hd] Hl] Hz] Hin]. apply Nat.eqb_eq in Hs, Hl. apply Nat.ltb_ge in Hd.
    assert (length cs <= 2)%nat as Hlen by lia. destruct cs as [|a [|b [|? ?]]]; simpl in Hlen; try lia; [done| |].
    + left. exists a. split; [done|]. unfold of_field in Hs. simpl in Hs. by destruct (String.eqb_spec (ci_field a) "zone_state").
    + right. rewrite existsb_false_elem in Hz. assert (ci_zone_id b = ci_zone_id a) as Hzb.
      { specialize (Hz b ltac:(set_solver)). simpl in Hz. apply negb_false_iff, bool_decide_eq_true in Hz. done. }
      unfold of_field in *. simpl in *.
      destruct (String.eqb_spec (ci_field a) "zone_state") as [Ea|Na], (String.eqb_spec (ci_field b) "zone_state") as [Eb|Nb];
        simpl in *; try done.
      * exists a, b. destruct (geofence_field b ltac:(apply Hc; set_solver)) as [?|Ed]; [done|].
        rewrite Ea, Ed in *. simpl in *. apply negb_false_iff, String.eqb_eq in Hin. done.
      * exists b, a. destruct (geofence_field a ltac:(apply Hc; set_solver)) as [?|Ed]; [done|].
        rewrite Eb, Ed in *. simpl in *. apply negb_false_iff, String.eqb_eq in Hin. split_and!; try done. by apply perm_swap.
  - intros [(st & H & Hst)|(st & dw & H & Hst & Hdw & Hv & Hz)].
    + apply Permutation_singleton_r in H as ->. unfold of_field. simpl. rewrite Hst. simpl.
      by rewrite bool_decide_eq_true_2.
    + symmetry in H. apply Permutation_length_2_inv in H as [->| ->]; unfold of_field; simpl; rewrite Hst, Hdw; simpl;
        rewrite Hz, !bool_decide_eq_true_2, Hv by done; done.
Qed.
Section exactness.
Context {host : RuleHost}.
Lemma validate_action_exact a : validate_action a = Ok tt <-> action_valid a.
Proof.
  destruct a as [t config]. unfold validate_action. split.
  - intros H. destruct (String.eqb_spec t "webhook") as [->|].
    + apply unit_bind in H as [H1%check_ok H2]. destruct (get "url" config ≫= as_str) as [url|] eqn:E; [|done].
      simpl in *. eapply av_webhook; [done| |done]. by intros ->.
    + destruct (String.eqb_spec t "command") as [->|].
      * apply check_ok, negb_true_iff, none_or_empty_false in H as (c & Hc & Hne). by eapply av_command.
      * destruct (String.eqb_spec t "alert") as [->|]; [apply av_alert|done].
  - inversion 1 as [cfg|cfg c Hc Hne|cfg url Hu Hne Hp]; subst; simpl; [done| |].
    + rewrite Hc. simpl. by destruct c.
    + rewrite Hu. simpl. by destruct url.
Qed.
Lemma head_exact name trigger target target_id cooldown :
  (check (negb (str_is_empty (trim name) || (255 <? str_len (trim name)))) "" = Ok tt
   /\ one_word TRIGGER_TYPES trigger = true /\ one_word TARGET_TYPES target = true
   /\ negb (((target =s? "global") && is_some target_id) || ((target !=s "global") && none_or_empty target_id)) = true
   /\ (0 <=? cooldown) && (cooldown <=? 86400) = true)
  <-> head_valid name trigger target target_id cooldown.
Proof.
  rewrite check_ok, !one_word_elem, triggers_compile, targets_compile, !negb_true_iff, !orb_false_iff, Z.ltb_ge, andb_true_iff, !Z.leb_le.
  split.
  - intros ([H1 H2] & H3 & H4 & H5 & H6). split; try done.
    + split; [|done]. intros E. by rewrite E in H1.
    + destruct (target =s? "global"); simpl in H5.
      * destruct H5 as [H5 _]. by apply is_some_false.
      * destruct H5 as [_ H5]. by apply none_or_empty_false.
  - intros [[H1 H2] H3 H4 H5 H6]. split_and!; try done.
    + by destruct (trim name).
    + destruct (target =s? "global"); simpl; [by subst|done].
    + destruct (target =s? "global"); simpl; [done|]. by apply none_or_empty_false.
    + lia.
    + lia.
Qed.

Lemma validate_rule_spec name trigger target target_id cooldown cs acts :
  validate_rule name trigger target target_id cooldown cs acts = Ok tt
  <-> rule_valid name trigger target target_id cooldown cs acts.
Proof.
  unfold validate_rule. cbv zeta. rewrite !unit_bind, !check_ok, !for_each_ok.
  pose proof (head_exact name trigger target target_id cooldown) as Hh. rewrite check_ok in Hh. split.
  - intros (H1 & H2 & H3 & H4 & H5 & H6 & H7 & H8 & H9 & H10).
    assert (trigger ∈ TRIGGER_TYPES) as Ht by (by apply one_word_elem).
    assert (forall c, c ∈ cs -> condition_valid trigger c) as Hc
      by (intros c Hin; apply validate_condition_exact; auto).
    split; [by apply Hh| |].
    + split; [by intros ->|done|]. intros ->. by apply validate_geofence_exact.
    + split; [by intros ->|]. apply Forall_forall. intros a Ha. apply validate_action_exact. auto.
  - intros [Hhead [Hne Hc Hg] [Hn Ha]]. pose proof Hhead as [_ Ht _ _ _]. apply triggers_compile in Ht.
    apply Hh in Hhead as (H1 & H2 & H3 & H4 & H5). rewrite Forall_forall in Ha. split_and!; try done.
    + by destruct cs.
    + intros c Hin. apply validate_condition_exact; auto.
    + destruct (String.eqb_spec trigger "geofence") as [->|]; [|done]. apply validate_geofence_exact; auto.
    + by destruct acts.
    + intros a Hin. apply validate_action_exact. auto.
Qed.

(** Validation of a rule is exact: [validate_rule] accepts a rule exactly
    when it satisfies the declarative conditions on its name, trigger, target
    and cooldown, every condition is one of the four forms of its trigger, a
    geofence has one zone state and at most an inside dwell threshold for the
    same zone, and every action is known with its required configuration. *)
Theorem validate_rule_exact name trigger target target_id cooldown cs acts :
  validate_rule name trigger target target_id cooldown cs acts = Ok tt
  <-> rule_valid name trigger target target_id cooldown cs acts.
Proof. apply validate_rule_spec. Qed.
End exactness.
