(* ===== verification/RuleAdminHistory.v ===== *)
(** * Histories of rule and zone administration

    The invariant of the rule and zone tables over any sequence of the services
    of [RuleAdmin], and what it gives a rule snapshot.  JSON text is read back
    through serde_json: the interface [SerdeShape] states that the document
    keeps its shape (floats may be rounded). *)
From stdpp Require Import sorting.
From S2P Require Import Prelude Text Float64 BTree Json Errors Access RuleTypes MetricNumber Shadows RuleSnapshot.
From S2P Require Import ContractModel RuleAdminStore RuleAdmin.

Local Open Scope Z_scope.

(** ** Documents of one shape *)
Unset Elimination Schemes.
Inductive same_shape : value -> value -> Prop :=
  | sh_null : same_shape Null Null
  | sh_bool b : same_shape (Bool b) (Bool b)
  | sh_number n n' : same_shape (Number n) (Number n')
  | sh_string s : same_shape (VString s) (VString s)
  | sh_array l l' : Forall2 same_shape l l' -> same_shape (Array l) (Array l')
  | sh_object m m' : Forall2 (fun e e' => e.1 = e'.1 /\ same_shape e.2 e'.2) m m' -> same_shape (Object m) (Object m').
Set Elimination Schemes.
Class SerdeShape `{!SerdeJson} := {
  reparse_shape v t v' : to_string v = Ok t -> from_str t = Ok v' -> same_shape v v';
}.
Lemma shape_get k v v' a : same_shape v v' -> get k v = Some a -> exists a', get k v' = Some a' /\ same_shape a a'.
Proof.
  intros H. destruct H as [| | | | |m m' Hm]; try done. simpl.
  induction Hm as [|[k1 x] [k2 y] m m' [Hk Hs] _ IH]; simpl in *; [done|]. subst k2.
  destruct (k =s? k1) eqn:E; [|exact IH]. intros [= <-]. eauto.
Qed.
Lemma shape_str v v' s : same_shape v v' -> as_str v = Some s -> as_str v' = Some s.
Proof. by intros []. Qed.
Lemma shape_array v v' l : same_shape v v' -> as_array v = Some l -> exists l', as_array v' = Some l' /\ Forall2 same_shape l l'.
Proof. intros [| | | |l0 l' H|]; try done. intros [= <-]. eauto. Qed.
Lemma shape_f64 v v' x : same_shape v v' -> as_f64 v = Some x -> exists x', as_f64 v' = Some x'.
Proof. intros [| |n n'| | |]; try done. destruct n'; simpl; eauto. Qed.
Lemma shape_get_str k v v' s : same_shape v v' -> get k v ≫= as_str = Some s -> get k v' ≫= as_str = Some s.
Proof. intros H (a & Ha & Hs)%bind_Some. destruct (shape_get _ _ _ _ H Ha) as (a' & -> & Hs'). simpl. by eapply shape_str. Qed.
Lemma shape_get_f64 k v v' x : same_shape v v' -> get k v ≫= as_f64 = Some x -> exists x', get k v' ≫= as_f64 = Some x'.
Proof. intros H (a & Ha & Hs)%bind_Some. destruct (shape_get _ _ _ _ H Ha) as (a' & -> & Hs'). simpl. by eapply shape_f64. Qed.
Lemma shape_get_array k v v' l :
  same_shape v v' -> get k v ≫= as_array = Some l -> exists l', get k v' ≫= as_array = Some l' /\ Forall2 same_shape l l'.
Proof. intros H (a & Ha & Hs)%bind_Some. destruct (shape_get _ _ _ _ H Ha) as (a' & -> & Hs'). simpl. by eapply shape_array. Qed.
Lemma finite_number_f64 v : finite_number v = true -> exists x, as_f64 v = Some x.
Proof. unfold finite_number. destruct (as_f64 v); naive_solver. Qed.
(** A validated geometry still parses after it was stored. *)
Lemma shape_pair p p' : same_shape p p' -> validate_pair p = Ok tt -> exists c, parse_point p' = Some c.
Proof.
  intros Hs (l & Hl%ok_or_ok & Hc%check_ok)%bind_ok. destruct (shape_array _ _ _ Hs Hl) as (l' & Hl' & H2).
  unfold parse_point. rewrite Hl'. simpl. destruct l as [|x [|y [|? ?]]]; try done.
  inversion H2 as [|? x' ? l1 Hx H3]; subst. inversion H3 as [|? y' ? l2 Hy H4]; subst. inversion H4; subst.
  apply andb_true_iff in Hc as [[ax Hax]%finite_number_f64 [ay Hay]%finite_number_f64].
  destruct (shape_f64 _ _ _ Hx Hax) as (? & ->), (shape_f64 _ _ _ Hy Hay) as (? & ->). simpl. eauto.
Qed.
Lemma validated_geometry_parses t v v' :
  validate_geometry t v = Ok tt -> same_shape v v' -> exists g, parse_zone_geometry t v' = Some g.
Proof.
  unfold validate_geometry, parse_zone_geometry. intros H Hs. destruct (t =s? "circle").
  - apply bind_ok in H as (l & Hl%ok_or_ok & H). apply unit_bind in H as [Hc%check_ok H].
    apply bind_ok in H as (radius & Hr%ok_or_ok & _).
    destruct (shape_get_array _ _ _ _ Hs Hl) as (l' & -> & H2), (shape_get_f64 _ _ _ _ Hs Hr) as (r' & Hr'). simpl.
    destruct l as [|x [|y [|? ?]]]; try done.
    inversion H2 as [|? x' ? l1 Hx H3]; subst. inversion H3 as [|? y' ? l2 Hy H4]; subst. inversion H4; subst.
    apply andb_true_iff in Hc as [[ax Hax]%finite_number_f64 [ay Hay]%finite_number_f64].
    destruct (shape_f64 _ _ _ Hx Hax) as (? & ->), (shape_f64 _ _ _ Hy Hay) as (? & ->). simpl. rewrite Hr'. simpl. eauto.
  - destruct (t =s? "polygon"); [|done]. apply bind_ok in H as (l & Hl%ok_or_ok & H).
    apply unit_bind in H as [_ H]. rewrite for_each_ok in H.
    destruct (shape_get_array _ _ _ _ Hs Hl) as (l' & -> & H2). simpl.
    assert (exists ps, mapM parse_point l' = Some ps) as [ps ->]; [|simpl; eauto]. clear Hl.
    induction H2 as [|p p' l l' Hp _ IH]; [by exists []|].
    destruct (shape_pair _ _ Hp) as [c Hc]; [apply H; set_solver|].
    destruct IH as [ps Hps]; [intros a Ha; apply H; set_solver|]. exists (c :: ps). simpl. by rewrite Hc, Hps.
Qed.

(** ** Child rows *)
Section rows.
Context {A : Type} (ten rul : A -> string).
Definition child (t i : string) (a : A) : bool := (ten a =s? t) && (rul a =s? i).
Definition rows (m : gmap string A) (t i : string) : list A :=
  map snd (List.filter (fun e : string * A => child t i e.2) (map_to_list m)).
Lemma child_true t i a : child t i a = true <-> ten a = t /\ rul a = i.
Proof. unfold child. by rewrite andb_true_iff, !String.eqb_eq. Qed.
Lemma elem_of_child_rows m t i a : a ∈ rows m t i <-> child t i a = true /\ exists k, m !! k = Some a.
Proof.
  unfold rows. rewrite list_elem_of_fmap. split.
  - intros ([k a'] & -> & [Hk%elem_of_map_to_list Hc]%elem_of_filterb). eauto.
  - intros (Hc & k & Hk). exists (k, a). split; [done|]. apply elem_of_filterb. by rewrite elem_of_map_to_list.
Qed.
Lemma rows_ext m m' t i :
  (forall k a, child t i a = true -> m !! k = Some a <-> m' !! k = Some a) -> rows m t i ≡ₚ rows m' t i.
Proof.
  intros H. unfold rows. apply fmap_Permutation. apply NoDup_Permutation.
  - apply NoDup_ListNoDup, List.NoDup_filter, NoDup_ListNoDup, NoDup_map_to_list.
  - apply NoDup_ListNoDup, List.NoDup_filter, NoDup_ListNoDup, NoDup_map_to_list.
  - intros [k a]. rewrite !elem_of_filterb, !elem_of_map_to_list. simpl. naive_solver.
Qed.
Lemma rows_insert m k a t i : m !! k = None ->
  rows (<[k := a]> m) t i ≡ₚ (if child t i a then [a] else []) ++ rows m t i.
Proof.
  intros H. unfold rows. rewrite (map_to_list_insert m k a) by done. simpl. by destruct (child t i a).
Qed.
Lemma rows_none m t i : (forall k a, m !! k = Some a -> child t i a = false) -> rows m t i = [].
Proof.
  intros H. destruct (rows m t i) as [|a l] eqn:E; [done|].
  assert (a ∈ rows m t i) as [Hc [k Hk]]%elem_of_child_rows by (rewrite E; set_solver). apply H in Hk. congruence.
Qed.
End rows.

(** ** The invariant *)
Definition cond_input (c : ConditionRow) : RuleConditionInput :=
  {| ci_field := c_field c; ci_blueprint_id := c_blueprint c; ci_blueprint_revision_id := c_revision c;
     ci_operator := c_operator c; ci_value := c_value c; ci_zone_id := c_zone c |}.
Definition rule_conditions (s : AdminStore) (t i : string) : list ConditionRow := rows c_tenant c_rule (condition_rows s) t i.
Definition rule_actions (s : AdminStore) (t i : string) : list ActionRow := rows a_tenant a_rule (action_rows s) t i.
Lemma value_eqb_shape a b : value_eqb a b = true -> same_shape a b.
Proof.
  revert b. induction a as [|x|x|x|xs IH|xs IH] using value_ind; intros [|y|y|y|ys|ys]; try done; simpl; intros H.
  - constructor.
  - apply eqb_prop in H as ->. constructor.
  - constructor.
  - apply String.eqb_eq in H as ->. constructor.
  - constructor. revert ys H. induction IH as [|x xs Hx _ IHxs]; intros [|y ys] H; try done.
    apply andb_true_iff in H as [H1 H2]. constructor; auto.
  - constructor. revert ys H. induction IH as [|[k x] xs Hx _ IHxs]; intros [|[k' y] ys] H; try done.
    apply andb_true_iff in H as [[Hk%String.eqb_eq H1]%andb_true_iff H2]. constructor; auto.
Qed.
(** What holds of each column by itself, and, in a [strict] store, of the
    columns together: the target id fits the target type, and the conditions
    are those of the trigger. *)
Record head_ok (strict : bool) (name trigger target : string) (target_id : option string) (cooldown : Z) : Prop := {
  ho_name : trim name <> "" /\ str_len (trim name) <= 255;
  ho_trigger : compile_trigger trigger <> None;
  ho_target : compile_target_type target <> None;
  ho_cooldown : 0 <= cooldown <= 86400;
  ho_target_id : strict = true ->
    if target =s? "global" then target_id = None else exists id, target_id = Some id /\ id <> "";
}.
Record conditions_ok (strict : bool) (trigger : string) (cs : list RuleConditionInput) : Prop := {
  co_some : cs <> [];
  co_each : forall c, c ∈ cs -> exists t, condition_valid t c;
  co_strict : strict = true -> conditions_valid trigger cs;
}.
Lemma head_valid_ok strict n t ta ti c : head_valid n t ta ti c -> head_ok strict n t ta ti c.
Proof. by intros []. Qed.
Lemma head_ok_valid n t ta ti c : head_ok true n t ta ti c -> head_valid n t ta ti c.
Proof. intros [H1 H2 H3 H4 H5]. split; try done. by apply H5. Qed.
Lemma conditions_valid_ok strict t cs : conditions_valid t cs -> conditions_ok strict t cs.
Proof. intros H. pose proof H as [H1 H2 _]. split; [done|eauto|done]. Qed.
Section inv.
Context {codec : SerdeJson} {host : RuleHost} (strict : bool).
Definition action_row_valid (a : ActionRow) : Prop := forall v, from_str (a_config a) = Ok v -> action_valid (a_type a, v).
Definition zone_row_valid (z : ZoneRow) : Prop :=
  forall v, from_str (zw_json z) = Ok v -> exists g, parse_zone_geometry (zw_type z) v = Some g.
Record rule_ok (s : AdminStore) (id : string) (r : RuleRow) : Prop := {
  ro_head : head_ok strict (r_name r) (r_trigger r) (r_target_type r) (r_target_id r) (r_cooldown r);
  ro_conditions : conditions_ok strict (r_trigger r) (map cond_input (rule_conditions s (r_tenant r) id));
  ro_some : rule_actions s (r_tenant r) id <> [];
  ro_actions : forall a, a ∈ rule_actions s (r_tenant r) id -> action_row_valid a;
}.
Record admin_inv (s : AdminStore) : Prop := {
  ad_rules : forall id r, rule_rows s !! id = Some r -> rule_ok s id r;
  ad_conditions : forall k c, condition_rows s !! k = Some c ->
    r_tenant <$> rule_rows s !! c_rule c = Some (c_tenant c)
    /\ forall z, c_zone c = Some z -> zw_tenant <$> zone_rows s !! z = Some (c_tenant c);
  ad_actions : forall k a, action_rows s !! k = Some a -> r_tenant <$> rule_rows s !! a_rule a = Some (a_tenant a);
  ad_zones : strict = true -> forall id z, zone_rows s !! id = Some z -> zone_row_valid z;
}.
End inv.
#[global] Instance geofence_valid_perm : Proper ((≡ₚ) ==> iff) geofence_valid.
Proof. intros l1 l2 H. unfold geofence_valid. by setoid_rewrite H. Qed.
#[global] Instance conditions_valid_perm t : Proper ((≡ₚ) ==> iff) (conditions_valid t).
Proof.
  intros l1 l2 H. split; intros [H1 H2 H3]; split.
  - intros ->. by apply Permutation_nil_r in H.
  - intros c. rewrite <- H. apply H2.
  - intros Ht. rewrite <- H. auto.
  - intros ->. by apply Permutation_nil_l in H.
  - intros c. rewrite H. apply H2.
  - intros Ht. rewrite H. auto.
Qed.
#[global] Instance conditions_ok_perm strict t : Proper ((≡ₚ) ==> iff) (conditions_ok strict t).
Proof.
  assert (forall l1 l2, l1 ≡ₚ l2 -> conditions_ok strict t l1 -> conditions_ok strict t l2) as Himp.
  { intros l1 l2 H [H1 H2 H3]. split.
    - intros ->. by apply Permutation_nil_r in H.
    - intros c. rewrite <- H. apply H2.
    - intros Hs. rewrite <- H. auto. }
  intros l1 l2 H. split; by apply Himp.
Qed.

(** ** What inserting children does *)
Section children.
Context {codec : SerdeJson}.
Definition new_condition (tenant rule : string) (v : RuleConditionRecord) : ConditionRow :=
  {| c_tenant := tenant; c_rule := rule; c_field := rc_field v; c_blueprint := rc_blueprint_id v;
     c_revision := rc_blueprint_revision_id v; c_operator := rc_operator v; c_value := rc_value v;
     c_group := rc_group v; c_zone := rc_zone_id v |}.
(** Everything but the conditions, or but the actions. *)
Definition same_but_conditions (s s' : AdminStore) : Prop :=
  orgs s' = orgs s /\ rule_rows s' = rule_rows s /\ action_rows s' = action_rows s /\ zone_rows s' = zone_rows s
  /\ alerted_rules s' = alerted_rules s.
Definition same_but_actions (s s' : AdminStore) : Prop :=
  orgs s' = orgs s /\ rule_rows s' = rule_rows s /\ condition_rows s' = condition_rows s /\ zone_rows s' = zone_rows s
  /\ alerted_rules s' = alerted_rules s.
Definition condition_keys (s : AdminStore) (c : ConditionRow) : Prop :=
  r_tenant <$> rule_rows s !! c_rule c = Some (c_tenant c)
  /\ forall z, c_zone c = Some z -> zw_tenant <$> zone_rows s !! z = Some (c_tenant c).
Lemma insert_conditions_spec tenant rule cs : forall s s',
  insert_all (insert_condition tenant rule) s cs = Ok s' ->
  same_but_conditions s s'
  /\ (forall t i, rule_conditions s' t i
        ≡ₚ (if (t =s? tenant) && (i =s? rule) then map (new_condition tenant rule) cs else []) ++ rule_conditions s t i)
  /\ (forall k c, condition_rows s' !! k = Some c -> condition_rows s !! k = Some c \/ condition_keys s c).
Proof.
  induction cs as [|v cs IH]; intros s s' H; simpl in H.
  { injection H as <-. split; [done|]. split; [|auto]. intros t i. simpl. by destruct (_ && _). }
  apply bind_ok in H as (s1 & H1 & H). unfold insert_condition in H1.
  case_bool_decide as Hk; [done|]. destruct (rule_key s tenant rule && _) eqn:Ek; [|done]. injection H1 as <-.
  apply andb_true_iff in Ek as [Ek%bool_decide_eq_true Ez].
  apply IH in H as ((E1 & E2 & E3 & E4 & E5) & Hrows & Hkeys). simpl in *. split; [done|]. split.
  - intros t i. rewrite Hrows. unfold rule_conditions at 1. simpl.
    rewrite rows_insert by (by apply eq_None_not_Some). unfold child. simpl.
    rewrite (String.eqb_sym tenant t), (String.eqb_sym rule i).
    destruct ((t =s? tenant) && (i =s? rule)); simpl; [|done]. symmetry. apply Permutation_middle.
  - intros k c Hc. apply Hkeys in Hc as [Hc|Hc]; [|by right]. simpl in Hc.
    apply lookup_insert_Some in Hc as [[<- <-]|[_ Hc]]; [right|by left]. split; [done|]. simpl. intros z Hz.
    rewrite Hz in Ez. by apply bool_decide_eq_true in Ez.
Qed.
Lemma insert_actions_spec tenant rule acts : forall s s',
  insert_all (insert_action tenant rule) s acts = Ok s' ->
  same_but_actions s s'
  /\ (exists new, Forall2 (fun v a => a_type a = ra_type v /\ to_string (ra_config v) = Ok (a_config a)) acts new
        /\ forall t i, rule_actions s' t i ≡ₚ (if (t =s? tenant) && (i =s? rule) then new else []) ++ rule_actions s t i)
  /\ (forall k a, action_rows s' !! k = Some a ->
        action_rows s !! k = Some a \/ r_tenant <$> rule_rows s !! a_rule a = Some (a_tenant a)).
Proof.
  induction acts as [|v acts IH]; intros s s' H; simpl in H.
  { injection H as <-. split; [done|]. split; [|auto]. exists []. split; [constructor|]. intros t i. by destruct (_ && _). }
  apply bind_ok in H as (s1 & (text & Htext%map_err_inv & H1)%bind_ok & H).
  case_bool_decide as Hk; [done|]. destruct (rule_key s tenant rule) eqn:Ek; [|done]. injection H1 as <-.
  apply bool_decide_eq_true in Ek.
  apply IH in H as ((E1 & E2 & E3 & E4 & E5) & (new & Hnew & Hrows) & Hkeys). simpl in *. split; [done|]. split.
  - exists ({| a_tenant := tenant; a_rule := rule; a_type := ra_type v; a_config := text |} :: new).
    split; [by constructor|]. intros t i. rewrite Hrows. unfold rule_actions at 1. simpl.
    rewrite rows_insert by (by apply eq_None_not_Some). unfold child. simpl.
    rewrite (String.eqb_sym tenant t), (String.eqb_sym rule i).
    destruct ((t =s? tenant) && (i =s? rule)); simpl; [|done]. symmetry. apply Permutation_middle.
  - intros k a Ha. apply Hkeys in Ha as [Ha|Ha]; [|by right]. simpl in Ha.
    apply lookup_insert_Some in Ha as [[<- <-]|[_ Ha]]; [by right|by left].
Qed.
(** Deleting the rows of a rule and inserting others. *)
Lemma cleared_rows {A} (ten rul : A -> string) (P : string * A -> Prop) {Pdec : forall e, Decision (P e)} (m : gmap string A) t i t' i' :
  (forall e, P e <-> ~ (ten e.2 = t /\ rul e.2 = i)) ->
  rows ten rul (filter P m) t' i' ≡ₚ (if (t' =s? t) && (i' =s? i) then [] else rows ten rul m t' i').
Proof.
  intros HP. destruct ((t' =s? t) && (i' =s? i)) eqn:E.
  - apply andb_true_iff in E as [->%String.eqb_eq ->%String.eqb_eq]. rewrite rows_none; [done|].
    intros k a [_ H%HP]%map_lookup_filter_Some. apply not_true_iff_false. by rewrite child_true.
  - apply rows_ext. intros k a [Ht Hi]%child_true. rewrite map_lookup_filter_Some, HP. simpl. split; [tauto|].
    intros H. split; [done|]. rewrite Ht, Hi. intros [-> ->]. by rewrite !String.eqb_refl in E.
Qed.
Lemma replace_conditions_spec s s' t i cs :
  insert_children (set_children s (filter (not_child_c t i) (condition_rows s)) (action_rows s)) t i cs [] = Ok s' ->
  same_but_conditions s s'
  /\ (forall t' i', rule_conditions s' t' i'
        ≡ₚ if (t' =s? t) && (i' =s? i) then map (new_condition t i) cs else rule_conditions s t' i')
  /\ (forall k c, condition_rows s' !! k = Some c -> condition_rows s !! k = Some c \/ condition_keys s c).
Proof.
  intros (s1 & H1 & [= <-])%bind_ok. apply insert_conditions_spec in H1 as (Hs & Hrows & Hkeys). simpl in *.
  split; [done|]. split.
  - intros t' i'. rewrite Hrows. unfold rule_conditions. simpl.
    rewrite (cleared_rows c_tenant c_rule (not_child_c t i) _ t i) by done. destruct (_ && _); [by rewrite app_nil_r|done].
  - intros k c [[H _]%map_lookup_filter_Some|H]%Hkeys; [by left|by right].
Qed.
Lemma replace_actions_spec s s' t i acts :
  insert_children (set_children s (condition_rows s) (filter (not_child_a t i) (action_rows s))) t i [] acts = Ok s' ->
  same_but_actions s s'
  /\ (exists new, Forall2 (fun v a => a_type a = ra_type v /\ to_string (ra_config v) = Ok (a_config a)) acts new
        /\ forall t' i', rule_actions s' t' i' ≡ₚ if (t' =s? t) && (i' =s? i) then new else rule_actions s t' i')
  /\ (forall k a, action_rows s' !! k = Some a ->
        action_rows s !! k = Some a \/ r_tenant <$> rule_rows s !! a_rule a = Some (a_tenant a)).
Proof.
  intros (s1 & [= <-] & H1)%bind_ok. apply insert_actions_spec in H1 as (Hs & (new & Hnew & Hrows) & Hkeys). simpl in *.
  split; [done|]. split.
  - exists new. split; [done|]. intros t' i'. rewrite Hrows. unfold rule_actions. simpl.
    rewrite (cleared_rows a_tenant a_rule (not_child_a t i) _ t i) by done. destruct (_ && _); [by rewrite app_nil_r|done].
  - intros k a [[H _]%map_lookup_filter_Some|H]%Hkeys; [by left|by right].
Qed.
End children.

Section preserved.
Context {micros : ChronoMicros} {codec : SerdeJson} {shape : SerdeShape} {host : RuleHost} (strict : bool).
#[local] Notation admin_inv := (admin_inv strict).
#[local] Notation rule_ok := (rule_ok strict).
#[local] Notation ad_rules := (ad_rules strict).
#[local] Notation ad_conditions := (ad_conditions strict).
#[local] Notation ad_actions := (ad_actions strict).
#[local] Notation ad_zones := (ad_zones strict).
Lemma action_valid_shape t v v' : same_shape v v' -> action_valid (t, v) -> action_valid (t, v').
Proof.
  intros Hs. inversion 1 as [cfg|cfg c Hc Hne|cfg url Hu Hne Hp]; subst.
  - apply av_alert.
  - eapply av_command; [by eapply shape_get_str|done].
  - eapply av_webhook; [by eapply shape_get_str|done..].
Qed.
(** Rows written for valid actions. *)
Lemma new_actions_valid acts new :
  Forall action_valid (map action_input acts) ->
  Forall2 (fun v a => a_type a = ra_type v /\ to_string (ra_config v) = Ok (a_config a)) acts new ->
  forall a, a ∈ new -> action_row_valid a.
Proof using shape.
  intros Hv H2. revert Hv. induction H2 as [|v a acts new [Ht Hc] _ IH]; intros Hv x Hx; [by apply elem_of_nil in Hx|].
  inversion Hv as [|? ? Hhd Htl]; subst. apply elem_of_cons in Hx as [->|Hx]; [|by apply IH].
  intros w Hw. rewrite Ht. eapply action_valid_shape; [by eapply reparse_shape|exact Hhd].
Qed.
Lemma rule_ok_ext s s' id r :
  rule_conditions s' (r_tenant r) id ≡ₚ rule_conditions s (r_tenant r) id ->
  rule_actions s' (r_tenant r) id ≡ₚ rule_actions s (r_tenant r) id -> rule_ok s id r -> rule_ok s' id r.
Proof.
  intros Hc Ha [H1 H2 H3 H4]. split; [done| | |].
  - by rewrite Hc.
  - intros E. rewrite E in Ha. by apply Permutation_nil_l in Ha.
  - intros a. rewrite Ha. apply H4.
Qed.
Lemma no_children s id : admin_inv s -> rule_rows s !! id = None -> forall t, rule_conditions s t id = [] /\ rule_actions s t id = [].
Proof.
  intros Hinv Hid t. split; apply rows_none; intros k x Hx; apply not_true_iff_false; intros [_ E]%child_true.
  - destruct (ad_conditions s Hinv _ _ Hx) as [H _]. by rewrite E, Hid in H.
  - pose proof (ad_actions s Hinv _ _ Hx) as H. by rewrite E, Hid in H.
Qed.
(** One rule is written with its children; everything else stays. *)
Lemma rule_written_inv s s' tenant id row :
  admin_inv s -> rule_rows s' = <[id := row]> (rule_rows s) -> zone_rows s' = zone_rows s -> r_tenant row = tenant ->
  (forall t, r_tenant <$> rule_rows s !! id = Some t -> t = tenant) -> rule_ok s' id row ->
  (forall t i, i <> id -> rule_conditions s' t i ≡ₚ rule_conditions s t i /\ rule_actions s' t i ≡ₚ rule_actions s t i) ->
  (forall k c, condition_rows s' !! k = Some c -> condition_rows s !! k = Some c \/ condition_keys s' c) ->
  (forall k a, action_rows s' !! k = Some a -> action_rows s !! k = Some a
     \/ r_tenant <$> rule_rows s' !! a_rule a = Some (a_tenant a)) ->
  admin_inv s'.
Proof.
  intros Hinv Hr Hz Ht Hold Hok Hother Hc Ha.
  assert (forall i t, r_tenant <$> rule_rows s !! i = Some t -> r_tenant <$> rule_rows s' !! i = Some t) as Hkey.
  { intros i t E. rewrite Hr. destruct (decide (i = id)) as [->|]; [|by rewrite lookup_insert_ne].
    rewrite lookup_insert_eq. simpl. by rewrite (Hold t E), Ht. }
  split.
  - intros i r. rewrite Hr. intros [[<- <-]|[Hne Hi]]%lookup_insert_Some; [done|].
    apply (rule_ok_ext s); [by apply Hother|by apply Hother|by apply (ad_rules s Hinv)].
  - intros k c [H|H]%Hc; [|done]. destruct (ad_conditions s Hinv _ _ H). rewrite Hz. auto.
  - intros k a [H|H]%Ha; [|done]. apply Hkey. by apply (ad_actions s Hinv k).
  - rewrite Hz. apply (ad_zones s Hinv).
Qed.
Lemma create_rule_inv s tenant r now :
  admin_inv s ->
  rule_valid (nr_name r) (nr_trigger_type r) (nr_target_type r) (nr_target_id r) (nr_cooldown_seconds r)
    (map condition_input (nr_conditions r)) (map action_input (nr_actions r)) ->
  admin_inv (repo_create_rule s tenant r now).2.
Proof using shape.
  intros Hinv [Hhead Hconds [Hsome Hacts]]. unfold repo_create_rule. destruct (create_rule_in s tenant r now) as [[d s3]|e] eqn:E; [|done].
  simpl. apply bind_ok in E as (s1 & H1 & (s2 & (s1c & Hc & Ha)%bind_ok & (found & _ & (out & _ & [= _ <-])%bind_ok)%bind_ok)%bind_ok).
  unfold insert_rule_row in H1. destruct (negb (target_known _)); [done|].
  destruct (bool_decide _ || _) eqn:Ek; [done|]. destruct (negb _); [done|]. injection H1 as <-.
  apply orb_false_iff in Ek as [Ek%bool_decide_eq_false _]. apply eq_None_not_Some in Ek.
  apply insert_conditions_spec in Hc as ((_ & R1 & A1 & Z1 & _) & Hrows & Hck).
  apply insert_actions_spec in Ha as ((_ & R2 & C2 & Z2 & _) & (new & Hnew & Hrowsa) & Hak). simpl in *.
  destruct (no_children s (nr_id r) Hinv Ek tenant) as [Nc Na].
  assert (forall t i, rule_conditions s2 t i = rule_conditions s1c t i) as Hc2 by (intros; unfold rule_conditions; by rewrite C2).
  assert (forall t i, rule_actions s1c t i = rule_actions s t i) as Ha1 by (intros; unfold rule_actions; by rewrite A1).
  apply (rule_written_inv s s2 tenant (nr_id r) _ Hinv ltac:(by rewrite R2, R1)); [congruence|done|by rewrite Ek| | | |].
  - split; simpl; [by apply head_valid_ok| | |].
    + apply (conditions_valid_ok strict) in Hconds. rewrite Hc2, Hrows, !String.eqb_refl. simpl. fold (rule_conditions s tenant (nr_id r)). 
      unfold rule_conditions at 1. simpl. fold (rule_conditions s tenant (nr_id r)). rewrite Nc, app_nil_r, map_map. exact Hconds.
    + intros E0. pose proof (Hrowsa tenant (nr_id r)) as Hp. rewrite E0, !String.eqb_refl, Ha1, Na, app_nil_r in Hp. simpl in Hp.
      apply Permutation_nil_l in Hp. subst new. inversion Hnew as [E1|]. rewrite <- E1 in Hsome. done.
    + intros a. rewrite Hrowsa, !String.eqb_refl, Ha1, Na, app_nil_r. simpl. by apply (new_actions_valid _ _ Hacts Hnew).
  - intros t i Hne. rewrite Hc2, Hrows, Hrowsa, Ha1, (proj2 (String.eqb_neq i (nr_id r))), andb_false_r by done. done.
  - intros k c. rewrite C2. intros [Hc|[Hc Hz]]%Hck; [by left|right]. unfold condition_keys. simpl in *. by rewrite Z2, Z1, R2, R1.
  - intros k a [Ha|Ha]%Hak; [left; by rewrite A1 in Ha|right]. by rewrite R2.
Qed.
(** What an update resolves to is valid. *)
Record update_valid (s : AdminStore) (id : string) (r : RuleRow) (u : UpdateRuleRecord) : Prop := {
  uv_head : head_ok strict (default (r_name r) (ur_name u)) (default (r_trigger r) (ur_trigger_type u))
    (default (r_target_type r) (ur_target_type u)) (default (r_target_id r) (ur_target_id u))
    (default (r_cooldown r) (ur_cooldown_seconds u));
  uv_conditions : conditions_ok strict (default (r_trigger r) (ur_trigger_type u))
    (match ur_conditions u with
     | Some cs => map condition_input cs
     | None => map cond_input (rule_conditions s (r_tenant r) id)
     end);
  uv_actions : forall acts, ur_actions u = Some acts -> acts <> [] /\ Forall action_valid (map action_input acts);
}.
Definition applied (t i t' i' : string) : bool := (t' =s? t) && (i' =s? i).
(** The conditions and the actions after the optional replacements. *)
Lemma updated_conditions s s' t i cs :
  match cs with
  | Some l => insert_children (set_children s (filter (not_child_c t i) (condition_rows s)) (action_rows s)) t i l []
  | None => Ok s
  end = Ok s' ->
  same_but_conditions s s'
  /\ (forall t' i', rule_conditions s' t' i' ≡ₚ
        match cs with Some l => if applied t i t' i' then map (new_condition t i) l else rule_conditions s t' i'
                    | None => rule_conditions s t' i' end)
  /\ (forall k c, condition_rows s' !! k = Some c -> condition_rows s !! k = Some c \/ condition_keys s c).
Proof. destruct cs as [l|]; [apply replace_conditions_spec|]. intros [= <-]. split; [done|]. split; [done|auto]. Qed.
Lemma updated_actions s s' t i acts :
  match acts with
  | Some l => insert_children (set_children s (condition_rows s) (filter (not_child_a t i) (action_rows s))) t i [] l
  | None => Ok s
  end = Ok s' ->
  same_but_actions s s'
  /\ (exists new, (forall l, acts = Some l -> Forall2 (fun v a => a_type a = ra_type v /\ to_string (ra_config v) = Ok (a_config a)) l new)
        /\ forall t' i', rule_actions s' t' i' ≡ₚ
             if bool_decide (is_Some acts) && applied t i t' i' then new else rule_actions s t' i')
  /\ (forall k a, action_rows s' !! k = Some a ->
        action_rows s !! k = Some a \/ r_tenant <$> rule_rows s !! a_rule a = Some (a_tenant a)).
Proof.
  destruct acts as [l|].
  - intros (H1 & (new & H2 & H3) & H4)%replace_actions_spec. split; [done|]. split; [|done].
    exists new. split; [by intros l' [= <-]|]. intros t' i'. rewrite bool_decide_eq_true_2 by done. apply H3.
  - intros [= <-]. split; [done|]. split; [|auto]. exists []. done.
Qed.
Lemma update_rule_inv s tenant id u :
  admin_inv s -> (forall r, rule_row s tenant id = Some r -> update_valid s id r u) ->
  admin_inv (repo_update_rule s tenant id u).2.
Proof using shape.
  intros Hinv Hu. unfold repo_update_rule. destruct (update_rule_in s tenant id u) as [[out s3]|] eqn:E; [|done]. simpl.
  unfold update_rule_in in E. destruct (rule_row s tenant id) as [r|] eqn:Er; [|by injection E as _ <-].
  destruct (Hu r eq_refl) as [Hh Hc Ha]. unfold rule_row in Er. apply bind_Some in Er as (r' & Er & Et).
  destruct (String.eqb_spec (r_tenant r') tenant) as [Htr|]; [|done]. injection Et as ->.
  destruct (match ur_name u with Some _ => _ | None => _ end); [done|].
  destruct (match ur_target_type u with Some _ => _ | None => _ end); [done|].
  apply bind_ok in E as (s2 & Hs2 & (s3' & Hs3 & (found & _ & [= _ <-])%bind_ok)%bind_ok).
  apply updated_conditions in Hs2 as ((_ & R1 & A1 & Z1 & _) & Hrows & Hck).
  apply updated_actions in Hs3 as ((_ & R2 & C2 & Z2 & _) & (new & Hnew & Hrowsa) & Hak). cbn [rule_rows zone_rows action_rows condition_rows set_rules] in *.
  assert (forall t i, rule_conditions s3' t i = rule_conditions s2 t i) as Hc2 by (intros; unfold rule_conditions; by rewrite C2).
  assert (forall t i, rule_actions s2 t i = rule_actions s t i) as Ha1 by (intros; unfold rule_actions; by rewrite A1).
  pose proof (ad_rules s Hinv id r Er) as [_ _ Hsome Hold]. rewrite Htr in *.
  apply (rule_written_inv s s3' tenant id (patch_rule_row r u) Hinv ltac:(by rewrite R2, R1)); [congruence|done|by rewrite Er; simpl; congruence| | | |].
  - split; simpl; [done| | |]; rewrite ?Htr.
    + rewrite Hc2, Hrows. unfold applied. rewrite !String.eqb_refl. simpl.
      destruct (ur_conditions u); [by rewrite map_map|exact Hc].
    + intros E0. pose proof (Hrowsa tenant id) as Hp. rewrite E0, Ha1 in Hp. unfold applied in Hp. rewrite !String.eqb_refl, andb_true_r in Hp.
      case_bool_decide as Hb; apply Permutation_nil_l in Hp; [|done]. destruct Hb as [l Hl]. destruct (Ha l Hl) as [Hne _].
      specialize (Hnew l Hl). subst new. by inversion Hnew as [E1|]; subst.
    + intros a. rewrite Hrowsa, Ha1. unfold applied. rewrite !String.eqb_refl, andb_true_r.
      case_bool_decide as Hb; [|apply Hold]. destruct Hb as [l Hl]. destruct (Ha l Hl) as [_ Hv]. apply (new_actions_valid l new Hv (Hnew l Hl)).
  - intros t i Hne. rewrite Hc2, Hrows, Hrowsa, Ha1. unfold applied. rewrite (proj2 (String.eqb_neq i id)), !andb_false_r by done.
    by destruct (ur_conditions u).
  - intros k c. rewrite C2. intros [H|[H1 H2]]%Hck; [by left|right]. unfold condition_keys. simpl in *. by rewrite Z2, Z1, R2, R1.
  - intros k a [H|H]%Hak; [left; by rewrite A1 in H|right]. by rewrite R2.
Qed.
Lemma rule_row_Some s tenant id r : rule_row s tenant id = Some r <-> rule_rows s !! id = Some r /\ r_tenant r = tenant.
Proof.
  unfold rule_row. rewrite bind_Some. split.
  - intros (r' & H & E). destruct (String.eqb_spec (r_tenant r') tenant); naive_solver.
  - intros [H E]. exists r. split; [done|]. by rewrite E, String.eqb_refl.
Qed.
Lemma zone_row_Some s tenant id z : zone_row s tenant id = Some z <-> zone_rows s !! id = Some z /\ zw_tenant z = tenant.
Proof.
  unfold zone_row. rewrite bind_Some. split.
  - intros (r' & H & E). destruct (String.eqb_spec (zw_tenant r') tenant); naive_solver.
  - intros [H E]. exists z. split; [done|]. by rewrite E, String.eqb_refl.
Qed.
Lemma delete_rule_inv s tenant id : admin_inv s -> admin_inv (repo_delete_rule s tenant id).2.
Proof.
  intros Hinv. unfold repo_delete_rule. destruct (rule_row s tenant id) as [r|] eqn:Er; [|done].
  case_bool_decide; [done|]. simpl. apply rule_row_Some in Er as [Er Ht].
  assert (forall i t, i <> id \/ t <> tenant -> r_tenant <$> rule_rows s !! i = Some t -> r_tenant <$> delete id (rule_rows s) !! i = Some t) as Hkey.
  { intros i t Hne E. rewrite lookup_delete_ne; [done|]. intros <-. rewrite Er in E. simpl in E. naive_solver congruence. }
  split; simpl.
  - intros i r' [Hne Hi]%lookup_delete_Some. assert ((r_tenant r' =s? tenant) && (i =s? id) = false) as Hf
      by (rewrite (proj2 (String.eqb_neq i id)), andb_false_r by done; done).
    apply (rule_ok_ext s); [| |by apply (ad_rules s Hinv)].
    + unfold rule_conditions. simpl. by rewrite (cleared_rows c_tenant c_rule (not_child_c tenant id) _ tenant id), Hf by done.
    + unfold rule_actions. simpl. by rewrite (cleared_rows a_tenant a_rule (not_child_a tenant id) _ tenant id), Hf by done.
  - intros k c [Hc Hn]%map_lookup_filter_Some. destruct (ad_conditions s Hinv _ _ Hc) as [H1 H2]. split; [|done].
    apply Hkey; [|done]. unfold not_child_c in Hn. simpl in Hn. destruct (decide (c_rule c = id)); naive_solver.
  - intros k a [Ha Hn]%map_lookup_filter_Some. pose proof (ad_actions s Hinv _ _ Ha) as H1.
    apply Hkey; [|done]. unfold not_child_a in Hn. simpl in Hn. destruct (decide (a_rule a = id)); naive_solver.
  - apply (ad_zones s Hinv).
Qed.
Lemma toggle_rule_inv s tenant id enabled at_ : admin_inv s -> admin_inv (repo_toggle_rule s tenant id enabled at_).2.
Proof.
  intros Hinv. unfold repo_toggle_rule. destruct (rule_row s tenant id) as [r|] eqn:Er; [|done]. simpl.
  apply rule_row_Some in Er as [Er Ht]. pose proof (ad_rules s Hinv id r Er) as [H1 H2 H3 H4].
  eapply (rule_written_inv s _ tenant id); [done|done|done|done|by rewrite Er; simpl; congruence|by split|done|by left|by left].
Qed.
(** Zones: a stored geometry parses. *)
Lemma zones_inv s m :
  admin_inv s -> (forall i t, zw_tenant <$> zone_rows s !! i = Some t -> (exists k c, condition_rows s !! k = Some c /\ c_tenant c = t /\ c_zone c = Some i) ->
    zw_tenant <$> m !! i = Some t) ->
  (strict = true -> forall id z, m !! id = Some z -> zone_row_valid z) -> admin_inv (set_zone_rows s m).
Proof.
  intros Hinv Hkey Hv. split; simpl; [|
    |apply (ad_actions s Hinv)|done].
  - intros id r H. by apply (rule_ok_ext s); [..|apply (ad_rules s Hinv)].
  - intros k c Hc. destruct (ad_conditions s Hinv _ _ Hc) as [H1 H2]. split; [done|]. intros z Hz. apply Hkey; eauto.
Qed.
Lemma stored_geometry_valid t v text : validate_geometry t v = Ok tt -> to_string v = Ok text ->
  forall v', from_str text = Ok v' -> exists g, parse_zone_geometry t v' = Some g.
Proof using shape. intros Hv Ht v' Hv'. eapply validated_geometry_parses; [done|]. by eapply reparse_shape. Qed.
Lemma create_zone_inv s tenant z now :
  admin_inv s -> validate_geometry (nz_geometry_type z) (nz_geometry_json z) = Ok tt ->
  admin_inv (repo_create_zone s tenant z now).2.
Proof using shape.
  intros Hinv Hg. unfold repo_create_zone. match goal with |- context [match ?x with Ok _ => _ | Err _ => _ end] => destruct x as [text|] eqn:E end; [|done].
  simpl. apply bind_ok in E as (found & _ & (? & _ & (? & _ & (t & Ht%map_err_inv & E)%bind_ok)%bind_ok)%bind_ok).
  case_bool_decide as Hk; [done|]. destruct (negb _); [done|]. injection E as ->. apply eq_None_not_Some in Hk.
  apply zones_inv; [done| |].
  - intros i t' Hi _. rewrite lookup_insert_ne; [done|]. intros <-. by rewrite Hk in Hi.
  - intros Hst id z' [[<- <-]|[_ H]]%lookup_insert_Some; [|by apply (ad_zones s Hinv Hst) in H].
    exact (stored_geometry_valid _ _ _ Hg Ht).
Qed.
(** The geometry an update resolves to. *)
Lemma update_zone_inv s tenant id p :
  admin_inv s ->
  (strict = true -> forall z, zone_row s tenant id = Some z -> exists v, from_str (zw_json z) = Ok v
     /\ validate_geometry (default (zw_type z) (zp_geometry_type p)) (default v (zp_geometry_json p)) = Ok tt) ->
  admin_inv (repo_update_zone s tenant id p).2.
Proof using shape.
  intros Hinv Hg. unfold repo_update_zone. destruct (update_zone_in s tenant id p) as [[out s1]|] eqn:E; [|done]. simpl.
  unfold update_zone_in in E. destruct (match zp_name p with Some _ => _ | None => _ end); [done|].
  destruct (zone_row s tenant id) as [z|] eqn:Ez; [|by injection E as _ <-].
  apply bind_ok in E as (json & Hj & (found & _ & [= _ <-])%bind_ok). pose proof Ez as [Ez' Et]%zone_row_Some.
  apply zones_inv; [done| |].
  - intros i t Hi _. destruct (decide (i = id)) as [->|]; [|by rewrite lookup_insert_ne].
    rewrite lookup_insert_eq. by rewrite Ez' in Hi.
  - intros Hst i z' [[<- <-]|[_ H]]%lookup_insert_Some; [|by apply (ad_zones s Hinv Hst) in H]. intros w Hw. simpl in *.
    destruct (Hg Hst z eq_refl) as (v & Hv & Hvalid).
    destruct (zp_geometry_json p) as [v'|]; simpl in *.
    + destruct (to_string v') as [text|] eqn:Et'; [|done]. simpl in Hj. injection Hj as <-. by eapply stored_geometry_valid.
    + injection Hj as <-. simpl in Hw. assert (w = v) as -> by congruence.
      eapply validated_geometry_parses; [done|]. clear. induction v as [| | | |vs IH|m IH] using value_ind; constructor.
      * induction IH; constructor; done.
      * induction IH; constructor; done.
Qed.
Lemma delete_zone_inv s tenant id : admin_inv s -> admin_inv (repo_delete_zone s tenant id).2.
Proof.
  intros Hinv. unfold repo_delete_zone. destruct (delete_zone_in s tenant id) as [[out s1]|] eqn:E; [|done]. simpl.
  apply bind_ok in E as (found & Hf & E). destruct found as [zr|]; [|by injection E as _ <-].
  destruct (Z.ltb_spec 0 (zone_references s tenant id)) as [|Hn]; [by injection E as _ <-|]. injection E as _ <-.
  apply zones_inv; [done| |].
  - intros i t Hi (k & c & Hc & Ht & Hz). rewrite lookup_delete_ne; [done|]. intros <-.
    unfold get_zone in Hf. destruct (zone_row s tenant id) as [z|] eqn:Ez; [|done]. apply zone_row_Some in Ez as [Ez Et].
    rewrite Ez in Hi. simpl in Hi. simplify_eq. unfold zone_references in Hn.
    assert (filter (fun e : string * ConditionRow => c_tenant e.2 = zw_tenant z /\ c_zone e.2 = Some id) (condition_rows s) !! k = Some c) as Hk
      by (apply map_lookup_filter_Some; done).
    assert (size (filter (fun e : string * ConditionRow => c_tenant e.2 = zw_tenant z /\ c_zone e.2 = Some id) (condition_rows s)) = 0%nat) as Hs.
    { lia. }
    apply map_size_empty_inv in Hs. by rewrite Hs, lookup_empty in Hk.
  - intros Hst i z [_ H]%lookup_delete_Some. by apply (ad_zones s Hinv Hst) in H.
Qed.
End preserved.

(** ** The services *)
Lemma merged_zone zs z g : forall m, z ∈ zs -> parse_zone_geometry (z_geometry_type z) (z_geometry_json z) = Some g ->
  exists zone, fold_left merge_zone zs m !! z_id z = Some zone.
Proof.
  assert (forall zs m k zone, m !! k = Some zone -> exists zone', fold_left merge_zone zs m !! k = Some zone') as Hkeep.
  { clear. induction zs as [|x zs IH]; intros m k zone Hk; simpl; [eauto|]. unfold merge_zone at 2.
    destruct (parse_zone_geometry _ _) as [g|]; [|by eapply IH]. destruct (decide (z_id x = k)) as [<-|].
    - eapply IH. apply lookup_insert_eq.
    - eapply IH. by rewrite lookup_insert_ne. }
  induction zs as [|x zs IH]; intros m Hz Hg; [by apply elem_of_nil in Hz|]. simpl.
  apply elem_of_cons in Hz as [->|Hz]; [|by apply IH]. unfold merge_zone at 2. rewrite Hg. eapply Hkeep. apply lookup_insert_eq.
Qed.
Lemma geofence_one_zone cs :
  geofence_valid cs -> (forall c, c ∈ cs -> condition_valid "geofence" c) ->
  exists z c, c ∈ cs /\ forall c', c' ∈ cs -> ci_zone_id c' = Some z.
Proof.
  intros Hg Hc. assert (forall c, c ∈ cs -> exists z, ci_zone_id c = Some z) as Hz.
  { intros c Hin%Hc. inversion Hin; simpl; eauto. }
  destruct Hg as [(st & Hp & _)|(st & dw & Hp & _ & _ & _ & E)];
    (assert (st ∈ cs) as Hst by (rewrite Hp; set_solver)); destruct (Hz st Hst) as [z Ez]; exists z, st; (split; [done|]);
    intros c' Hc'; rewrite Hp in Hc'.
  - by apply list_elem_of_singleton in Hc' as ->.
  - apply elem_of_cons in Hc' as [->|Hc']; [done|]. apply list_elem_of_singleton in Hc' as ->. congruence.
Qed.
Lemma condition_records_input uuid cs : map condition_input (condition_records uuid cs) = cs.
Proof. unfold condition_records. revert uuid. induction cs as [|[] cs IH]; intros uuid; [done|]. simpl. f_equal. apply (IH (uuid ∘ S)). Qed.
Lemma action_records_input uuid acts : map action_input (action_records uuid acts) = acts.
Proof. unfold action_records. revert uuid. induction acts as [|[] acts IH]; intros uuid; [done|]. simpl. f_equal. apply (IH (uuid ∘ S)). Qed.
Lemma decode_condition_input e v : decode_condition e = Ok v -> condition_input v = cond_input e.2.
Proof. by intros (g & _ & [= <-])%bind_ok. Qed.
Section services_inv.
Context {micros : ChronoMicros} {codec : SerdeJson} {shape : SerdeShape} {host : RuleHost} (strict : bool).
#[local] Notation admin_inv := (admin_inv strict).
#[local] Notation rule_ok := (rule_ok strict).
#[local] Notation ad_rules := (ad_rules strict).
#[local] Notation ad_conditions := (ad_conditions strict).
#[local] Notation ad_actions := (ad_actions strict).
(** What reading a rule says about its rows. *)
Lemma details_spec s tenant id d :
  details_from s tenant id = Ok (Some d) ->
  exists r, rule_row s tenant id = Some r /\ rr_id (rd_rule d) = id /\ rr_name (rd_rule d) = r_name r
    /\ rr_trigger_type (rd_rule d) = r_trigger r /\ rr_target_type (rd_rule d) = r_target_type r
    /\ rr_target_id (rd_rule d) = r_target_id r /\ rr_cooldown_seconds (rd_rule d) = r_cooldown r
    /\ rr_enabled (rd_rule d) = r_enabled r
    /\ map condition_input (rd_conditions d) ≡ₚ map cond_input (rule_conditions s tenant id)
    /\ mapM decode_action (actions_of s tenant id) = Ok (rd_actions d).
Proof.
  unfold details_from. destruct (rule_row s tenant id) as [r|] eqn:Er; [|done].
  intros (rule & Hr & (cs & Hc & (acts & Ha & [= <-])%bind_ok)%bind_ok)%bind_ok. exists r.
  apply bind_ok in Hr as (cd & Hcd & (c & _ & (u & _ & [= <-])%bind_ok)%bind_ok).
  assert (cd = r_cooldown r) as -> by (unfold narrow_i32 in Hcd; by destruct (Int.in_i32 (r_cooldown r)); simplify_eq).
  split_and!; try done. simpl.
  rewrite (mapM_fmap _ condition_input (fun e : string * ConditionRow => cond_input e.2) _ _ decode_condition_input Hc).
  unfold conditions_of, rule_conditions, rows. by rewrite (merge_sort_Permutation (child_le c_group)), map_map.
Qed.
(** What the columns that an update gives satisfy, whatever rule they were
    checked against. *)
Lemma given_columns found zones_get ctx id u :
  update_checked found zones_get ctx id u = Ok tt ->
  exists d, found = Ok (Some d)
    /\ rule_valid (default (rr_name (rd_rule d)) (up_name u)) (default (rr_trigger_type (rd_rule d)) (up_trigger_type u))
         (default (rr_target_type (rd_rule d)) (up_target_type u)) (default (rr_target_id (rd_rule d)) (up_target_id u))
         (default (rr_cooldown_seconds (rd_rule d)) (up_cooldown u))
         (default (map condition_input (rd_conditions d)) (up_conditions u))
         (default (map action_input (rd_actions d)) (up_actions u)).
Proof.
  intros (? & _ & (o & ->%map_err_inv & (d & ->%ok_or_ok & [Hv _]%unit_bind)%bind_ok)%bind_ok)%bind_ok.
  exists d. split; [done|]. by apply validate_rule_spec.
Qed.
Lemma update_checked_head found zones_get ctx id u r :
  update_checked found zones_get ctx id u = Ok tt ->
  head_ok false (r_name r) (r_trigger r) (r_target_type r) (r_target_id r) (r_cooldown r) ->
  head_ok false (default (r_name r) (trim <$> up_name u)) (default (r_trigger r) (up_trigger_type u))
    (default (r_target_type r) (up_target_type u)) (default (r_target_id r) (up_target_id u))
    (default (r_cooldown r) (up_cooldown u)).
Proof.
  intros (d & _ & [[H1 H2 H3 _ H5] _ _])%given_columns [O1 O2 O3 O5 _]. split; [..|done].
  - destruct (up_name u); simpl in *; [by rewrite trim_trim|done].
  - by destruct (up_trigger_type u).
  - by destruct (up_target_type u).
  - by destruct (up_cooldown u).
Qed.
(** An accepted update is valid for the rule it is written to: column by
    column always, and as a whole when that rule is still as it was read. *)
Lemma update_checked_valid s found zones_get ctx id u uc ua now :
  admin_inv s -> update_checked found zones_get ctx id u = Ok tt ->
  (strict = true -> found = details_from s (ctx_tenant ctx) id) ->
  forall r, rule_row s (ctx_tenant ctx) id = Some r -> update_valid strict s id r (update_record u uc ua now).
Proof.
  intros Hinv Hu Hfresh r Hr. pose proof Hr as [Hrow Htenant]%rule_row_Some.
  destruct (ad_rules s Hinv id r Hrow) as [[O1 O2 O3 O5 O6] [C1 C2 C3] _ _].
  pose proof (update_checked_head _ _ _ _ _ r Hu ltac:(by split)) as [N1 N2 N3 N5 _].
  destruct (given_columns _ _ _ _ _ Hu) as (d & Hd & [Hhead Hconds [Hsome Hacts]]).
  assert (strict = true -> rr_name (rd_rule d) = r_name r /\ rr_trigger_type (rd_rule d) = r_trigger r
    /\ rr_target_type (rd_rule d) = r_target_type r /\ rr_target_id (rd_rule d) = r_target_id r
    /\ map condition_input (rd_conditions d) ≡ₚ map cond_input (rule_conditions s (ctx_tenant ctx) id)) as Hsame.
  { intros Hst. rewrite (Hfresh Hst) in Hd.
    destruct (details_spec _ _ _ _ Hd) as (r' & Hr' & _ & En & Et & Ett & Eti & Ec & _ & Hcs & _).
    assert (r' = r) as -> by congruence. done. }
  split; simpl.
  - split; try done. intros Hst. destruct (Hsame Hst) as (_ & _ & Ett & Eti & _).
    destruct Hhead as [_ _ _ H4 _]. by rewrite Ett, Eti in H4.
  - destruct (up_conditions u) as [cs|] eqn:Eu; simpl in *.
    + rewrite condition_records_input. destruct Hconds as [D1 D2 D3]. split; [done|eauto|].
      intros Hst. destruct (Hsame Hst) as (_ & Et & _). by rewrite Et in D2, D3.
    + split; [done|done|]. intros Hst. destruct (Hsame Hst) as (_ & Et & _ & _ & Hcs).
      rewrite Et, Hcs in Hconds. by rewrite Htenant.
  - intros acts E. destruct (up_actions u) as [l|]; [|done]. simpl in *. injection E as <-. split; [by destruct l|].
    by rewrite action_records_input.
Qed.
Lemma after_inv {A B} s (r : result ApplicationError A) (k : A -> result ApplicationError B * AdminStore) :
  admin_inv s -> (forall a, r = Ok a -> admin_inv (k a).2) -> admin_inv (after s r k).2.
Proof. intros Hinv Hk. destruct r; simpl; auto. Qed.
Lemma create_service_inv zones_get s ctx i id uc ua now :
  admin_inv s -> admin_inv (create_rule zones_get s ctx i id uc ua now).2.
Proof using shape.
  intros Hinv. apply after_inv; [done|]. intros [] (? & _ & [Hv _]%unit_bind)%bind_ok. apply validate_rule_spec in Hv.
  apply create_rule_inv; [done|]. simpl. rewrite condition_records_input, action_records_input.
  destruct Hv as [[H1 H2 H3 H4 H5] Hc Ha]. split; [split; try done; by rewrite trim_trim|done|done].
Qed.
Lemma update_service_inv found zones_get s ctx id u uc ua now :
  admin_inv s -> (strict = true -> found = details_from s (ctx_tenant ctx) id) ->
  admin_inv (update_rule found zones_get s ctx id u uc ua now).2.
Proof using shape.
  intros Hinv Hf. apply after_inv; [done|]. intros [] Hc. apply update_rule_inv; [done|].
  by eapply update_checked_valid.
Qed.
Lemma update_zone_service_inv found s ctx id u now :
  admin_inv s -> (strict = true -> found = get_zone s (ctx_tenant ctx) id) ->
  admin_inv (update_zone found s ctx id u now).2.
Proof using shape.
  intros Hinv Hf. apply after_inv; [done|].
  intros [] (? & _ & (o & Ho%map_err_inv & (z & ->%ok_or_ok & Hg)%bind_ok)%bind_ok)%bind_ok.
  apply update_zone_inv; [done|]. intros Hst row Er. rewrite (Hf Hst) in Ho. unfold get_zone in Ho. rewrite Er in Ho.
  destruct (decode_zone id row) as [z'|] eqn:Ed; [|done]. injection Ho as ->.
  apply bind_ok in Ed as (t & _ & (json & Hj%map_err_inv & (c & _ & (u' & _ & [= <-])%bind_ok)%bind_ok)%bind_ok).
  exists json. done.
Qed.

(** ** Histories: the services in any order, while alerts of rules come and go

    A service validates against what it read before, outside the transaction
    of its write, so what it read may be any earlier or torn answer.  In a
    [strict] history each update writes to the rule or zone as it read it. *)
Inductive admin_step : AdminStore -> AdminStore -> Prop :=
  | as_create_rule zones_get s ctx i id uc ua now : admin_step s (create_rule zones_get s ctx i id uc ua now).2
  | as_update_rule found zones_get s ctx id u uc ua now :
      (strict = true -> found = details_from s (ctx_tenant ctx) id) ->
      admin_step s (update_rule found zones_get s ctx id u uc ua now).2
  | as_delete_rule s ctx id : admin_step s (delete_rule s ctx id).2
  | as_toggle_rule s ctx id enabled now : admin_step s (toggle_rule s ctx id enabled now).2
  | as_create_zone s ctx i id now : admin_step s (create_zone s ctx i id now).2
  | as_update_zone found s ctx id u now :
      (strict = true -> found = get_zone s (ctx_tenant ctx) id) ->
      admin_step s (update_zone found s ctx id u now).2
  | as_delete_zone s ctx id : admin_step s (delete_zone s ctx id).2
  | as_alerts s refs : admin_step s
      {| orgs := orgs s; rule_rows := rule_rows s; condition_rows := condition_rows s; action_rows := action_rows s;
         zone_rows := zone_rows s; alerted_rules := refs |}.
Lemma step_admin_inv s s' : admin_step s s' -> admin_inv s -> admin_inv s'.
Proof using shape.
  intros H Hinv. destruct H.
  - by apply create_service_inv.
  - by apply update_service_inv.
  - apply after_inv; [done|]. intros [] _. by apply delete_rule_inv.
  - apply after_inv; [done|]. intros [] _. by apply toggle_rule_inv.
  - apply after_inv; [done|]. intros [] (? & _ & Hg)%bind_ok. by apply create_zone_inv.
  - by apply update_zone_service_inv.
  - apply after_inv; [done|]. intros [] _. by apply delete_zone_inv.
  - destruct Hinv as [H1 H2 H3 H4]. split; try done. intros id r Hr. by apply (rule_ok_ext strict s); [..|apply H1].
Qed.
Lemma steps_admin_inv s s' : rtc admin_step s s' -> admin_inv s -> admin_inv s'.
Proof using shape. induction 1 as [|a b c Hab _ IH]; [done|]. intros Hinv. apply IH. by eapply step_admin_inv. Qed.

(** ** The snapshot of a well-formed store *)
Definition cached_of_input (c : RuleConditionInput) : CachedCondition :=
  {| field := ci_field c; blueprint_id := ci_blueprint_id c; blueprint_revision_id := ci_blueprint_revision_id c;
     operator := ci_operator c; cond_value := ci_value c; zone_id := ci_zone_id c |}.
Lemma condition_compiles t c : condition_valid t c -> compile_condition (cached_of_input c) <> None.
Proof.
  intros H. destruct H as [f sel b rev op w n H1 H2 H3 H4 H5|w zone Hz Hv|w seconds zone Hz Hv Hs|op w Ho Hv];
    unfold compile_condition; simpl; [|done|done|by destruct Ho as [->| ->]].
  destruct (f =s? "status"); simpl; [by destruct (compile_operator op)|].
  destruct f; [done|]. simpl. by destruct (compile_operator op).
Qed.
Lemma action_compiles t v : action_valid (t, v) -> compile_action {| action_type := t; config := v |} <> None.
Proof. by inversion 1; subst. Qed.
(** What the engine needs of a rule, and of a geofence's zone. *)
Record engine_ready (r : CachedRule) : Prop := {
  er_trigger : compile_trigger (trigger_type r) <> None;
  er_target : compile_target_type (target_type r) <> None;
  er_cooldown : 0 <= cooldown_seconds r <= 86400;
  er_conditions : conditions r <> [] /\ forall c, c ∈ conditions r -> compile_condition c <> None;
  er_actions : actions r <> [] /\ forall a, a ∈ actions r -> compile_action a <> None;
}.
Definition zone_ready (zones : gmap string CachedZone) (r : CachedRule) : Prop :=
  trigger_type r = "geofence" ->
  exists z zone, zones !! z = Some zone /\ forall c, c ∈ conditions r -> zone_id c = Some z.
Lemma snapshot_has_zone s zones id z :
  admin_inv s -> strict = true -> list_snapshot s = Ok zones -> zone_rows s !! id = Some z ->
  exists zone, fold_left merge_zone (map snapshot_zone zones) ∅ !! id = Some zone.
Proof.
  intros Hinv Hst Hl Hz. destruct (mapM_elem_inv _ _ _ (id, z) Hl) as (zr & Hin & Hd).
  { rewrite (merge_sort_Permutation zone_le). by apply elem_of_map_to_list. }
  apply bind_ok in Hd as (t & _ & (json & Hj%map_err_inv & (c & _ & (u & _ & E)%bind_ok)%bind_ok)%bind_ok).
  destruct (ad_zones strict s Hinv Hst id z Hz json Hj) as [g Hg]. simpl in *.
  destruct (merged_zone (map snapshot_zone zones) (snapshot_zone zr) g ∅) as [zone Hzone]; [by apply list_elem_of_fmap_2| |].
  - by injection E as <-.
  - exists zone. by injection E as <-.
Qed.
Lemma loaded_actions s t id acts :
  admin_inv s -> mapM decode_action (actions_of s t id) = Ok acts -> rule_actions s t id <> [] ->
  (forall a, a ∈ rule_actions s t id -> action_row_valid a) ->
  acts <> [] /\ forall v, v ∈ acts -> action_valid (action_input v).
Proof.
  intros Hinv Hacts Hsome Hvalid.
  assert (forall k a, (k, a) ∈ actions_of s t id <-> action_rows s !! k = Some a /\ child a_tenant a_rule t id a = true) as Hact.
  { intros k a. unfold actions_of. rewrite (merge_sort_Permutation (child_le _)), elem_of_filterb, elem_of_map_to_list. done. }
  split.
  - intros ->. apply Hsome. destruct (rule_actions s t id) as [|a l] eqn:El; [done|].
    assert (a ∈ rule_actions s t id) as [Hc [k Hk]]%elem_of_child_rows by (rewrite El; apply elem_of_cons; by left).
    destruct (mapM_elem_inv _ _ _ (k, a) Hacts) as (b & Hb & _); [by apply Hact|]. by apply elem_of_nil in Hb.
  - intros v Hv. destruct (mapM_elem _ _ _ _ Hacts Hv) as ([k x] & Hx & Hd).
    apply bind_ok in Hd as (cfg & Hcfg%map_err_inv & [= <-]). apply Hvalid; [|done].
    apply Hact in Hx as [Hk Hc]. apply elem_of_child_rows. eauto.
Qed.
Lemma loaded_rule_ready s zones key r :
  admin_inv s -> (strict = true -> forall id z, zone_rows s !! id = Some z -> is_Some (zones !! id)) ->
  load_rule s key = Ok r ->
  engine_ready r /\ (strict = true -> zone_ready zones r) /\ rule_id r = key.2 /\ tenant_id r = key.1.
Proof.
  intros Hinv Hzones (found & Hf & (d & ->%ok_or_ok & [= <-])%bind_ok)%bind_ok. destruct key as [t id]. simpl in *.
  destruct (details_spec _ _ _ _ Hf) as (row & Hr & Eid & En & Et & Ett & Eti & Ec & _ & Hcs & Hacts).
  apply rule_row_Some in Hr as [Hr Htenant]. destruct (ad_rules s Hinv id row Hr) as [Hhead Hconds Hsome Hvalid].
  rewrite Htenant, <- Hcs in *. destruct Hconds as [Hne Heach Hgeo].
  assert (forall c, c ∈ map cached_condition (rd_conditions d) -> exists i, i ∈ map condition_input (rd_conditions d) /\ c = cached_of_input i) as Hinput.
  { intros c (v & -> & Hv)%list_elem_of_fmap. exists (condition_input v). split; [by apply list_elem_of_fmap_2|done]. }
  split; [split; simpl; rewrite ?Et, ?Ett, ?Ec; try apply Hhead|split; [|done]].
  - split; [intros E; by destruct (rd_conditions d)|]. intros c (i & Hi & ->)%Hinput.
    destruct (Heach i Hi) as [t' Ht']. by eapply condition_compiles.
  - destruct (loaded_actions _ _ _ _ Hinv Hacts Hsome Hvalid) as [Hn Hv]. split; [intros E; by destruct (rd_actions d)|].
    intros a (v & -> & Hin)%list_elem_of_fmap. apply action_compiles. by apply Hv.
  - intros Hst Hg. simpl in Hg. rewrite Et in Hg. destruct (Hgeo Hst) as [_ Heach' Hgeo']. rewrite Hg in *.
    destruct (geofence_one_zone _ (Hgeo' eq_refl) Heach') as (z & c & Hc & Hall).
    pose proof (Hall c Hc) as Hz.
    rewrite Hcs in Hc. apply list_elem_of_fmap in Hc as (row' & -> & [Hch [k Hk]]%elem_of_child_rows).
    destruct (ad_conditions s Hinv k row' Hk) as [_ Hzrow]. specialize (Hzrow z Hz).
    apply fmap_Some in Hzrow as (zrow & Hzrow & _). destruct (Hzones Hst z zrow Hzrow) as [zone Hzone].
    exists z, zone. split; [done|]. intros c' (i & Hi & ->)%Hinput. simpl. auto.
Qed.
(** A rule that is stored is a valid rule: over any strict history of rule and
    zone administration, reading a rule back gives one that [validate_rule]
    accepts, with its conditions in whatever order and its actions as they come
    back from JSON text. *)
Theorem stored_rules_valid s s' tenant id d :
  strict = true -> admin_inv s -> rtc admin_step s s' -> details_from s' tenant id = Ok (Some d) ->
  validate_rule (rr_name (rd_rule d)) (rr_trigger_type (rd_rule d)) (rr_target_type (rd_rule d))
    (rr_target_id (rd_rule d)) (rr_cooldown_seconds (rd_rule d))
    (map condition_input (rd_conditions d)) (map action_input (rd_actions d)) = Ok tt.
Proof using shape.
  intros Hst Hinv Hs Hd. pose proof (steps_admin_inv _ _ Hs Hinv) as Hinv'. apply validate_rule_spec.
  destruct (details_spec _ _ _ _ Hd) as (row & [Hr Ht]%rule_row_Some & _ & -> & -> & -> & -> & -> & _ & Hcs & Hacts).
  destruct (ad_rules s' Hinv' id row Hr) as [Hhead Hconds Hsome Hvalid]. rewrite Ht in *.
  destruct (loaded_actions _ _ _ _ Hinv' Hacts Hsome Hvalid) as [Hn Hv]. rewrite <- Hcs in Hconds. split.
  - apply head_ok_valid. by rewrite <- Hst.
  - by apply (co_strict _ _ _ Hconds).
  - split; [by destruct (rd_actions d)|]. apply Forall_forall. intros a (v & -> & Hin)%list_elem_of_fmap. by apply Hv.
Qed.

(** C3. No enabled rule is silently ignored: over every history of rule and
    zone administration, concurrent requests included (each update validated
    against any earlier or torn read), a loaded snapshot has exactly the
    enabled rules, and the engine compiles the trigger, the target, every
    condition and every action of each of them, with a cooldown within the day
    that the pruning of cooldowns relies on.  Where besides every update was
    written to the rule or zone it had read, all conditions of a geofence name
    one zone whose geometry the snapshot has. *)
Theorem snapshot_ready s s' records :
  admin_inv s -> rtc admin_step s s' -> load_snapshot s' = Ok records ->
  (forall r, r ∈ rsr_rules records ->
     engine_ready r /\ (strict = true -> zone_ready (rsr_zones records) r)
     /\ exists row, rule_rows s' !! rule_id r = Some row /\ r_tenant row = tenant_id r /\ r_enabled row = true)
  /\ (forall id row, rule_rows s' !! id = Some row -> r_enabled row = true ->
       exists r, r ∈ rsr_rules records /\ rule_id r = id /\ tenant_id r = r_tenant row).
Proof using shape.
  intros Hinv Hs (rules & Hrules & (zones & Hzones & [= <-])%bind_ok)%bind_ok. simpl.
  pose proof (steps_admin_inv _ _ Hs Hinv) as Hinv'.
  assert (forall t id, (t, id) ∈ enabled_keys s' <-> exists row, rule_rows s' !! id = Some row /\ r_tenant row = t /\ r_enabled row = true) as Hkeys.
  { intros t id. unfold enabled_keys. rewrite (merge_sort_Permutation enabled_le), list_elem_of_fmap. split.
    - intros ([k row] & [= -> ->] & [Hk%elem_of_map_to_list He]%elem_of_filterb). eauto.
    - intros (row & Hrow & <- & He). exists (id, row). split; [done|]. apply elem_of_filterb. by rewrite elem_of_map_to_list. }
  assert (strict = true -> forall id z, zone_rows s' !! id = Some z ->
            is_Some (fold_left merge_zone (map snapshot_zone zones) ∅ !! id)) as Hz.
  { intros Hst id z Hz. destruct (snapshot_has_zone s' zones id z Hinv' Hst Hzones Hz) as [zone ->]. eauto. }
  split.
  - intros r Hr. destruct (mapM_elem _ _ _ _ Hrules Hr) as ([t id] & Hk & Hl).
    destruct (loaded_rule_ready s' _ _ _ Hinv' Hz Hl) as (He & Hze & -> & ->). split; [done|]. split; [done|]. by apply Hkeys.
  - intros id row Hrow He. destruct (mapM_elem_inv _ _ _ (r_tenant row, id) Hrules) as (r & Hr & Hl); [apply Hkeys; eauto|].
    destruct (loaded_rule_ready s' _ _ _ Hinv' Hz Hl) as (_ & _ & H1 & H2). eauto.
Qed.

(** A rule that has raised an alert cannot be deleted: as long as an alert
    row refers to it the foreign key refuses the deletion with a persistence
    error and nothing changes. *)
Theorem alerted_rule_undeletable s ctx id r :
  require_permission ctx ManageRules = Ok tt -> rule_row s (ctx_tenant ctx) id = Some r ->
  (ctx_tenant ctx, id) ∈ alerted_rules s ->
  delete_rule s ctx id = (Err (Persistence (ForeignKeyViolation "foreign_key")), s).
Proof.
  intros Hp Hr Ha. unfold delete_rule, repo_delete_rule. rewrite Hp, Hr. simpl. by rewrite bool_decide_eq_true_2.
Qed.
End services_inv.

(** ** A concrete history *)
Definition demo_zone_json : value :=
  Object [("center", Array [Number (PosInt 52); Number (PosInt 21)]); ("radius_meters", Number (PosInt 50))].
Definition demo_json : SerdeJson :=
  {| to_string := fun v => if value_eqb v (Object []) then Ok "{}" else if value_eqb v demo_zone_json then Ok "zone" else Err "unused";
     from_str := fun t => if t =s? "{}" then Ok (Object []) else if t =s? "zone" then Ok demo_zone_json else Err "invalid";
     utc_in_range := fun _ => true |}.
#[local] Existing Instance demo_json.
#[local] Existing Instance demo_micros.
Lemma demo_shape : SerdeShape.
Proof.
  split. intros v t v'. simpl. destruct (value_eqb v (Object [])) eqn:E1.
  - intros [= <-]. simpl. intros [= <-]. by apply value_eqb_shape.
  - destruct (value_eqb v demo_zone_json) eqn:E2; [|done]. intros [= <-]. simpl. intros [= <-]. by apply value_eqb_shape.
Qed.
Definition demo_rule_host : RuleHost :=
  {| validate_url := fun _ => Err (InvalidInput "no webhooks"); get_revision := fun _ _ => Ok None;
     blueprint_from_value := fun _ => Err "none" |}.
#[local] Existing Instance demo_rule_host.
Definition demo_empty : AdminStore :=
  {| orgs := {["default"]}; rule_rows := ∅; condition_rows := ∅; action_rows := ∅; zone_rows := ∅; alerted_rules := ∅ |}.
Lemma demo_empty_inv strict : admin_inv strict demo_empty.
Proof. by split. Qed.
Definition demo_operator : TenantContext :=
  {| ctx_tenant := "default"; ctx_actor := System "host"; ctx_permissions := permission_set_all |}.
Definition status_is (v : string) : RuleConditionInput :=
  {| ci_field := "status"; ci_blueprint_id := None; ci_blueprint_revision_id := None; ci_operator := "eq"; ci_value := v;
     ci_zone_id := None |}.
Definition inside (zone : string) : RuleConditionInput :=
  {| ci_field := "zone_state"; ci_blueprint_id := None; ci_blueprint_revision_id := None; ci_operator := "eq";
     ci_value := "inside"; ci_zone_id := Some zone |}.
Definition demo_uuid (prefix : string) (n : nat) : string := prefix +:+ int_to_string (Z.of_nat n).
Definition demo_zoned : AdminStore := (create_zone demo_empty demo_operator
  {| zi_name := "office"; zi_description := ""; zi_geometry_type := "circle"; zi_geometry_json := demo_zone_json; zi_color := "#fff" |}
  "z1" 5).2.
Definition demo_ruled : AdminStore := (create_rule (get_zone demo_zoned "default") demo_zoned demo_operator
  {| in_name := " Offline "; in_description := None; in_trigger_type := "device_status"; in_target_type := "global";
     in_target_id := None; in_cooldown := 60; in_conditions := [status_is "offline"]; in_actions := [("alert", Object [])] |}
  "r1" (demo_uuid "c") (demo_uuid "a") 6).2.
Definition to_geofence : RuleUpdate :=
  {| up_name := None; up_description := None; up_trigger_type := Some "geofence"; up_target_type := None; up_target_id := None;
     up_cooldown := None; up_conditions := Some [inside "z1"]; up_actions := None |}.
Definition to_online : RuleUpdate :=
  {| up_name := None; up_description := None; up_trigger_type := None; up_target_type := None; up_target_id := None;
     up_cooldown := None; up_conditions := Some [status_is "online"]; up_actions := None |}.
(** The update as one request alone makes it. *)
Definition demo_fenced : AdminStore :=
  (update_rule (details_from demo_ruled "default" "r1") (get_zone demo_ruled "default") demo_ruled demo_operator "r1" to_geofence
     (demo_uuid "d") (demo_uuid "b") 9000).2.
Lemma demo_admin_history strict : rtc (admin_step strict) demo_empty demo_fenced.
Proof.
  apply (rtc_l _ _ demo_zoned); [apply as_create_zone|]. apply (rtc_l _ _ demo_ruled); [apply as_create_rule|].
  apply rtc_once. apply as_update_rule. intros _. reflexivity.
Qed.
(** A second request, checked against the rule as it was before the first. *)
Definition demo_mixed : AdminStore :=
  (update_rule (details_from demo_ruled "default" "r1") (get_zone demo_ruled "default") demo_fenced demo_operator "r1" to_online
     (demo_uuid "e") (demo_uuid "f") 10000).2.
Lemma snapshot_ready_witness :
  (exists records, load_snapshot demo_fenced = Ok records
    /\ exists r, r ∈ rsr_rules records /\ rule_id r = "r1" /\ engine_ready r /\ zone_ready (rsr_zones records) r)
  /\ (exists records, load_snapshot demo_mixed = Ok records
    /\ exists r, r ∈ rsr_rules records /\ rule_id r = "r1" /\ engine_ready r).
Proof.
  split.
  - destruct (load_snapshot demo_fenced) as [records|] eqn:E; [|vm_compute in E; discriminate E]. exists records. split; [done|].
    destruct (snapshot_ready (shape := demo_shape) true _ _ _ (demo_empty_inv true) (demo_admin_history true) E) as [H1 H2].
    destruct (rule_rows demo_fenced !! "r1") as [row|] eqn:Er; [|vm_compute in Er; discriminate Er].
    destruct (H2 "r1" row Er) as (r & Hr & Hid & _); [vm_compute in Er; by injection Er as <-|].
    exists r. destruct (H1 r Hr) as (He & Hz & _). auto.
  - destruct (load_snapshot demo_mixed) as [records|] eqn:E; [|vm_compute in E; discriminate E]. exists records. split; [done|].
    destruct (snapshot_ready (shape := demo_shape) false demo_empty demo_mixed records (demo_empty_inv false)) as [H1 H2]; [|exact E|].
    { apply (rtc_r _ demo_fenced); [apply demo_admin_history|]. apply as_update_rule. discriminate. }
    destruct (rule_rows demo_mixed !! "r1") as [row|] eqn:Er; [|vm_compute in Er; discriminate Er].
    destruct (H2 "r1" row Er) as (r & Hr & Hid & _); [vm_compute in Er; by injection Er as <-|].
    exists r. destruct (H1 r Hr) as (He & _). auto.
Defined.
Lemma stored_rules_valid_witness :
  exists d, details_from demo_fenced "default" "r1" = Ok (Some d)
    /\ rr_name (rd_rule d) = "Offline"
    /\ validate_rule (rr_name (rd_rule d)) (rr_trigger_type (rd_rule d)) (rr_target_type (rd_rule d))
         (rr_target_id (rd_rule d)) (rr_cooldown_seconds (rd_rule d))
         (map condition_input (rd_conditions d)) (map action_input (rd_actions d)) = Ok tt.
Proof.
  destruct (details_from demo_fenced "default" "r1") as [[d|]|] eqn:E; [|vm_compute in E; discriminate E..]. exists d. split; [done|].
  split; [vm_compute in E; by injection E as <-|].
  apply (stored_rules_valid (shape := demo_shape) true _ _ _ _ d eq_refl (demo_empty_inv true) (demo_admin_history true) E).
Defined.
Definition demo_alerted : AdminStore :=
  {| orgs := orgs demo_ruled; rule_rows := rule_rows demo_ruled; condition_rows := condition_rows demo_ruled;
     action_rows := action_rows demo_ruled; zone_rows := zone_rows demo_ruled; alerted_rules := {[("default", "r1")]} |}.
Lemma alerted_rule_undeletable_witness :
  delete_rule demo_alerted demo_operator "r1" = (Err (Persistence (ForeignKeyViolation "foreign_key")), demo_alerted).
Proof.
  destruct (rule_row demo_alerted "default" "r1") as [r|] eqn:E; [|vm_compute in E; discriminate E].
  apply (alerted_rule_undeletable demo_alerted demo_operator "r1" r); [vm_compute; reflexivity|exact E|set_solver].
Defined.

(** Two updates that are both accepted can leave an invalid rule: [update]
    validates against the rule it has read and then writes only the given
    columns in a transaction of its own.  When one request turns a status rule
    into a geofence and another, checked against the same rule, gives it a new
    status condition, the stored rule is a geofence with a status condition,
    which [validate_rule] refuses and for which no zone is ready. *)
Theorem concurrent_updates_unvalidated :
  rtc (admin_step false) demo_empty demo_mixed
  /\ exists d, details_from demo_mixed "default" "r1" = Ok (Some d)
       /\ validate_rule (rr_name (rd_rule d)) (rr_trigger_type (rd_rule d)) (rr_target_type (rd_rule d))
            (rr_target_id (rd_rule d)) (rr_cooldown_seconds (rd_rule d))
            (map condition_input (rd_conditions d)) (map action_input (rd_actions d))
          = Err (InvalidInput "invalid geofence condition").
Proof.
  split.
  - apply (rtc_r _ demo_fenced); [apply demo_admin_history|]. apply as_update_rule. discriminate.
  - destruct (details_from demo_mixed "default" "r1") as [[d|]|] eqn:E; [|vm_compute in E; discriminate E..].
    exists d. split; [done|]. vm_compute in E. injection E as <-. vm_compute. reflexivity.
Qed.
