(* ===== verification/DeviceIngress.v ===== *)
(** * Device ingress (crates/backend-core/src/device_identity.rs,
    device_ingress.rs, application/device_ingress.rs;
    crates/backend-turso/src/device_ingress.rs)

    Heartbeats and the offline sweep.  Both change a device's status by
    comparing it with the status read earlier, write the change to the device
    log and evaluate the status rules on it in the same transaction; a
    heartbeat whose comparison fails is retried.  Other work may run between
    the read and the write. *)
From S2P Require Import Prelude Text Float64 BTree Json Errors Access RuleTypes RuleCache RuleEvaluate.
From S2P Require Import Geo RuleSnapshot Shadows Outbox.
From stdpp Require Import sorting.
From Stdlib Require Import Ascii.

Local Open Scope Z_scope.

(** ** Identities *)
Inductive DeviceIdentityError := InvalidTenant (e : TenantIdError) | InvalidDeviceId.
Definition identity_byte (byte : ascii) : bool :=
  is_ascii_lowercase byte || is_ascii_uppercase byte || is_ascii_digit byte || one_of "-_.:" byte.
Definition valid_device_id (device_id : string) : bool :=
  Text.between 1 128 (str_len device_id) && str_forall identity_byte device_id.
Record DeviceIdentity := { id_tenant : string; id_device : string }.
Definition identity_new (tenant_id device_id : string) : result DeviceIdentityError DeviceIdentity :=
  tenant ← map_err InvalidTenant (tenant_id_new tenant_id);
  if negb (valid_device_id device_id) then Err InvalidDeviceId
  else Ok {| id_tenant := tenant; id_device := device_id |}.
Definition identity_error_text (e : DeviceIdentityError) : string :=
  match e with
  | InvalidTenant TenantIdEmpty => "invalid tenant identity: tenant id must not be empty"
  | InvalidDeviceId => "device id is invalid"
  end.

(** ** Records *)
Record DeviceIngressContext := {
  ic_identity : DeviceIdentity; ic_fleet_id : option Z; ic_blueprint_id : option string; ic_status : string;
}.
Record HeartbeatWrite := {
  expected_status : string; hw_status : string; hw_firmware : string; hw_uptime_seconds : Z;
  hw_observed_at : NaiveDateTime; hw_rule_evaluation : option DeviceRuleEvaluation;
}.
Record OfflineTransition := { ot_context : DeviceIngressContext; ot_rule_evaluation : option DeviceRuleEvaluation }.
Record DeviceWriteOutcome := { applied : bool; dw_actions_enqueued : nat }.
Record OfflineWriteOutcome := { devices_updated : nat; ow_actions_enqueued : nat }.

(** ** Tables

    Devices by their primary key; a device's fleet and its blueprint (the
    subquery of [INGRESS_SELECT]) are the [device_targets] of the rule tables. *)
Record DeviceRow := {
  dv_tenant : string; dv_status : string; dv_firmware : string; dv_uptime_seconds : Z;
  dv_last_seen : option Z; dv_updated_at : Z;
}.
Record LogRow := {
  lg_tenant : string; lg_device : string; lg_level : string; lg_message : string; lg_created_at : Z;
}.
Record DeviceStore := {
  ds_devices : gmap string DeviceRow;
  ds_logs : list LogRow;
  ds_rules : RuleStore;
  ds_outbox : OutboxTable;
}.

(** ** The Turso repository *)
Definition ingress (s : DeviceStore) (device : string) (r : DeviceRow) : result PersistenceError DeviceIngressContext :=
  let target := default (None, None) (device_targets (ds_rules s) !! (dv_tenant r, device)) in
  identity ← map_err (fun e => CorruptData (identity_error_text e)) (identity_new (dv_tenant r) device);
  fleet ← match target.1 with
          | Some id => Some <$> narrow_i32 id "devices.fleet_id"
          | None => Ok None
          end;
  Ok {| ic_identity := identity; ic_fleet_id := fleet; ic_blueprint_id := target.2; ic_status := dv_status r |}.
Definition device_of (s : DeviceStore) (i : DeviceIdentity) : option DeviceRow :=
  r ← ds_devices s !! id_device i;
  if dv_tenant r =s? id_tenant i then Some r else None.
Definition resolve_identity (s : DeviceStore) (device : string) : result PersistenceError (option DeviceIdentity) :=
  match ds_devices s !! device with
  | None => Ok None
  | Some r => Some <$> map_err (fun e => CorruptData (identity_error_text e)) (identity_new (dv_tenant r) device)
  end.
Definition ingress_context (s : DeviceStore) (i : DeviceIdentity) : result PersistenceError (option DeviceIngressContext) :=
  match device_of s i with
  | None => Ok None
  | Some r => Some <$> ingress s (id_device i) r
  end.
(** ORDER BY tenant_id, id, and the key of [sort_by]: byte order. *)
Definition identity_le (a b : string * string) : Prop :=
  match String.compare a.1 b.1 with Lt => True | Eq => String.compare a.2 b.2 <> Gt | Gt => False end.
#[global] Instance identity_le_dec a b : Decision (identity_le a b).
Proof. unfold identity_le. destruct (String.compare _ _); apply _. Defined.
Definition row_le (a b : string * DeviceRow) : Prop := identity_le (dv_tenant a.2, a.1) (dv_tenant b.2, b.1).
#[global] Instance row_le_dec a b : Decision (row_le a b).
Proof. unfold row_le. apply _. Defined.
Definition silent (cutoff : Z) (r : DeviceRow) : bool :=
  (dv_status r !=s "offline") && match dv_last_seen r with Some seen => seen <? cutoff | None => false end.
Definition offline_candidates (s : DeviceStore) (cutoff : NaiveDateTime)
    : result PersistenceError (list DeviceIngressContext) :=
  let rows := List.filter (fun e => silent (timestamp_micros cutoff) e.2) (map_to_list (ds_devices s)) in
  mapM (fun e => ingress s e.1 e.2) (merge_sort row_le rows).

Definition insert_log (s : DeviceStore) (l : LogRow) : DeviceStore :=
  {| ds_devices := ds_devices s; ds_logs := ds_logs s ++ [l]; ds_rules := ds_rules s; ds_outbox := ds_outbox s |}.
Definition with_device (s : DeviceStore) (device : string) (r : DeviceRow) : DeviceStore :=
  {| ds_devices := <[device := r]> (ds_devices s); ds_logs := ds_logs s; ds_rules := ds_rules s;
     ds_outbox := ds_outbox s |}.

Section turso.
Context `{!Chrono, !Libm, !ChronoMicros, !SerdeJson, !ActionCodec}.

(** [evaluate_rules_in_transaction] and [enqueue]; [uuid] supplies the fresh
    identifiers and [now] the clock reading of the enqueued events. *)
Definition run_rules (s : DeviceStore) (tenant device : string) (plan : option DeviceRuleEvaluation)
    (uuid : nat -> string) (now : Z) : result PersistenceError (nat * DeviceStore) :=
  '(rules, actions) ← evaluate_rules_in_transaction (ds_rules s) tenant device plan;
  '(n, outbox) ← enqueue_actions_in_transaction (ds_outbox s) (imap (fun i a => (uuid i, a)) actions) now;
  Ok (n, {| ds_devices := ds_devices s; ds_logs := ds_logs s; ds_rules := rules; ds_outbox := outbox |}).

Definition heartbeat_row (r : DeviceRow) (w : HeartbeatWrite) : DeviceRow :=
  let at_ := timestamp_micros (hw_observed_at w) in
  {| dv_tenant := dv_tenant r; dv_status := hw_status w; dv_firmware := hw_firmware w;
     dv_uptime_seconds := hw_uptime_seconds w; dv_last_seen := Some at_; dv_updated_at := at_ |}.
Definition heartbeat_log (i : DeviceIdentity) (w : HeartbeatWrite) : LogRow :=
  {| lg_tenant := id_tenant i; lg_device := id_device i; lg_level := "INFO";
     lg_message := "Device status changed from " +:+ expected_status w +:+ " to " +:+ hw_status w;
     lg_created_at := timestamp_micros (hw_observed_at w) |}.
(** An error drops the transaction, which rolls it back. *)
Definition repo_apply_heartbeat (s : DeviceStore) (i : DeviceIdentity) (w : HeartbeatWrite)
    (uuid : nat -> string) (now : Z) : result PersistenceError DeviceWriteOutcome * DeviceStore :=
  match device_of s i with
  | Some r =>
    if dv_status r !=s expected_status w then (Ok {| applied := false; dw_actions_enqueued := 0 |}, s) else
    let s1 := with_device s (id_device i) (heartbeat_row r w) in
    let s2 := if expected_status w !=s hw_status w then insert_log s1 (heartbeat_log i w) else s1 in
    match run_rules s2 (id_tenant i) (id_device i) (hw_rule_evaluation w) uuid now with
    | Ok (n, s3) => (Ok {| applied := true; dw_actions_enqueued := n |}, s3)
    | Err e => (Err e, s)
    end
  | None => (Ok {| applied := false; dw_actions_enqueued := 0 |}, s)
  end.

Definition offline_row (r : DeviceRow) : DeviceRow :=
  {| dv_tenant := dv_tenant r; dv_status := "offline"; dv_firmware := dv_firmware r;
     dv_uptime_seconds := dv_uptime_seconds r; dv_last_seen := dv_last_seen r; dv_updated_at := dv_updated_at r |}.
Definition offline_log (i : DeviceIdentity) (now : Z) : LogRow :=
  {| lg_tenant := id_tenant i; lg_device := id_device i; lg_level := "WARN";
     lg_message := "Device went offline (no heartbeat)"; lg_created_at := now |}.
Definition ot_key (t : OfflineTransition) : string * string :=
  (id_tenant (ic_identity (ot_context t)), id_device (ic_identity (ot_context t))).
Definition ot_le (a b : OfflineTransition) : Prop := identity_le (ot_key a) (ot_key b).
#[global] Instance ot_le_dec a b : Decision (ot_le a b).
Proof. unfold ot_le. apply _. Defined.
(** The [WHERE] clause of the transition's UPDATE, on the device's row. *)
Definition still_stale (s : DeviceStore) (cutoff : NaiveDateTime) (t : OfflineTransition) : option DeviceRow :=
  r ← device_of s (ic_identity (ot_context t));
  if (dv_status r =s? ic_status (ot_context t)) && silent (timestamp_micros cutoff) r then Some r else None.
(** The loop over the transitions: those that were applied (their number is
    [devices_updated]) and the number of enqueued actions. *)
Fixpoint offline_loop (s : DeviceStore) (cutoff : NaiveDateTime) (ts : list OfflineTransition)
    (uuid : nat -> nat -> string) (now : Z)
    : result PersistenceError (list OfflineTransition * nat * DeviceStore) :=
  match ts with
  | [] => Ok ([], 0%nat, s)
  | t :: rest =>
    let i := ic_identity (ot_context t) in
    let uuid' n := uuid (S n) in
    match still_stale s cutoff t with
    | None => offline_loop s cutoff rest uuid' now
    | Some r =>
      let s1 := insert_log (with_device s (id_device i) (offline_row r)) (offline_log i now) in
      '(n, s2) ← run_rules s1 (id_tenant i) (id_device i) (ot_rule_evaluation t) (uuid 0%nat) now;
      '(done_, m, s3) ← offline_loop s2 cutoff rest uuid' now;
      Ok (t :: done_, (n + m)%nat, s3)
    end
  end.
Definition apply_offline_transitions (s : DeviceStore) (cutoff : NaiveDateTime) (transitions : list OfflineTransition)
    (uuid : nat -> nat -> string) (now : Z) : result PersistenceError OfflineWriteOutcome * DeviceStore :=
  match offline_loop s cutoff (merge_sort ot_le transitions) uuid now with
  | Ok (done_, n, s') => (Ok {| devices_updated := length done_; ow_actions_enqueued := n |}, s')
  | Err e => (Err e, s)
  end.

(** ** The application *)
Definition prepare_evaluation (context : DeviceIngressContext) (new_status : string) (cache : result string RuleCache)
    (observed_at : NaiveDateTime) : result ApplicationError (option DeviceRuleEvaluation) :=
  if ic_status context =s? new_status then Ok None
  else
    snap ← map_err (fun e => Internal ("failed to obtain rule snapshot: " +:+ e)) cache;
    Ok (Some {| snapshot := snap; dre_tenant := id_tenant (ic_identity context);
                dre_device := id_device (ic_identity context); dre_fleet_id := ic_fleet_id context;
                dre_blueprint_id := ic_blueprint_id context; dre_blueprint_revision_id := None;
                input := InputStatus {| old_status := ic_status context; new_status := new_status |};
                observed_at := observed_at |}).

(** [x as i32] of an [i64]. *)
Definition as_i32 (x : Z) : Z := (x + 2 ^ 31) mod 2 ^ 32 - 2 ^ 31.
Definition heartbeat_status (reported : string) : string :=
  if existsb (fun status => eq_ignore_ascii_case status reported) ["online"; "offline"; "warning"]
  then reported else "online".
Definition MAX_OPTIMISTIC_RETRIES : nat := 3.

(** What happens around attempt number [k] of a heartbeat: the clock, the
    rule snapshot, the work others commit between the read and the write, and
    the identifiers drawn in the transaction. *)
Record Attempt := {
  at_now : NaiveDateTime;
  at_cache : result string RuleCache;
  at_interference : DeviceStore -> DeviceStore;
  at_uuid : nat -> string;
  at_enqueue : Z;
}.
Definition heartbeat_attempt (s : DeviceStore) (i : DeviceIdentity) (status firmware : string) (uptime_seconds : Z)
    (a : Attempt) : result ApplicationError (option nat) * DeviceStore :=
  match map_err Persistence (ingress_context s i) with
  | Err e => (Err e, s)
  | Ok None => (Ok (Some 0%nat), s)
  | Ok (Some context) =>
    match prepare_evaluation context status (at_cache a) (at_now a) with
    | Err e => (Err e, s)
    | Ok plan =>
      let w := {| expected_status := ic_status context; hw_status := status; hw_firmware := firmware;
                  hw_uptime_seconds := as_i32 uptime_seconds; hw_observed_at := at_now a;
                  hw_rule_evaluation := plan |} in
      let '(r, s') := repo_apply_heartbeat (at_interference a s) i w (at_uuid a) (at_enqueue a) in
      match r with
      | Err e => (Err (Persistence e), s')
      | Ok outcome => (Ok (if applied outcome then Some (dw_actions_enqueued outcome) else None), s')
      end
    end
  end.
Fixpoint heartbeat_loop (n : nat) (s : DeviceStore) (i : DeviceIdentity) (status firmware : string)
    (uptime_seconds : Z) (attempt : nat -> Attempt) : result ApplicationError nat * DeviceStore :=
  match n with
  | O => (Err (Persistence (Busy None)), s)
  | S n =>
    match heartbeat_attempt s i status firmware uptime_seconds (attempt O) with
    | (Err e, s') => (Err e, s')
    | (Ok (Some k), s') => (Ok k, s')
    | (Ok None, s') => heartbeat_loop n s' i status firmware uptime_seconds (fun k => attempt (S k))
    end
  end.
Definition apply_heartbeat (s : DeviceStore) (i : DeviceIdentity) (reported_status firmware : string)
    (uptime_seconds : Z) (attempt : nat -> Attempt) : result ApplicationError nat * DeviceStore :=
  heartbeat_loop MAX_OPTIMISTIC_RETRIES s i (heartbeat_status reported_status) firmware uptime_seconds attempt.

(** [mark_offline_devices]; [seconds_before] is chrono's checked subtraction
    of a number of seconds, [interference] the work between read and write. *)
Definition mark_offline_devices (seconds_before : NaiveDateTime -> Z -> option NaiveDateTime) (s : DeviceStore)
    (timeout_secs : Z) (cache : result string RuleCache) (now observed : NaiveDateTime)
    (interference : DeviceStore -> DeviceStore) (uuid : nat -> nat -> string) (written : Z)
    : result ApplicationError OfflineWriteOutcome * DeviceStore :=
  match (if timeout_secs <=? Int.i64_max then seconds_before now timeout_secs else None) with
  | None => (Err (InvalidInput "Offline timeout is outside the supported range"), s)
  | Some cutoff =>
    match (candidates ← map_err Persistence (offline_candidates s cutoff);
           mapM (fun context =>
             plan ← prepare_evaluation context "offline" cache observed;
             Ok {| ot_context := context; ot_rule_evaluation := plan |}) candidates) with
    | Err e => (Err e, s)
    | Ok transitions =>
      let '(r, s') := apply_offline_transitions (interference s) cutoff transitions uuid written in
      (map_err Persistence r, s')
    end
  end.
Definition app_resolve_identity (s : DeviceStore) (device : string) : result ApplicationError (option DeviceIdentity) :=
  if negb (valid_device_id device)
  then Err (InvalidInput "Device ID must be 1-128 characters and contain only letters, numbers, '-', '_', '.', or ':'")
  else map_err Persistence (resolve_identity s device).
End turso.

(** ** Status changes and the rules *)
#[global] Instance DeviceIdentity_eq_dec : EqDecision DeviceIdentity.
Proof. solve_decision. Defined.
Definition status_of (s : DeviceStore) (i : DeviceIdentity) : option string := dv_status <$> device_of s i.

Lemma device_of_Some s i r : device_of s i = Some r <-> ds_devices s !! id_device i = Some r /\ dv_tenant r = id_tenant i.
Proof.
  unfold device_of. destruct (ds_devices s !! id_device i) as [r'|]; simpl; [|naive_solver].
  destruct (String.eqb_spec (dv_tenant r') (id_tenant i)); naive_solver.
Qed.
Lemma device_of_ext s s' i : ds_devices s' = ds_devices s -> device_of s' i = device_of s i.
Proof. unfold device_of. by intros ->. Qed.
(** Writing a row that keeps its tenant changes the one device it belongs to. *)
Lemma device_of_write s s' i r r' j :
  ds_devices s' = <[id_device i := r']> (ds_devices s) -> device_of s i = Some r -> dv_tenant r' = dv_tenant r ->
  device_of s' j = if decide (j = i) then Some r' else device_of s j.
Proof.
  intros Hs [Hr Ht]%device_of_Some Hk. unfold device_of. rewrite Hs. destruct (decide (j = i)) as [->|Hj].
  - rewrite lookup_insert_eq. simpl. rewrite Hk, Ht, String.eqb_refl. done.
  - destruct (decide (id_device j = id_device i)) as [E|E]; [|by rewrite lookup_insert_ne by congruence].
    rewrite E, lookup_insert_eq, Hr. simpl. rewrite Hk, Ht.
    destruct (String.eqb_spec (id_tenant i) (id_tenant j)); [|done]. destruct Hj. destruct i, j; naive_solver.
Qed.

(** A path of status changes: each replaces the status before it. *)
Fixpoint chain (from : string) (cs : list StatusChange) (to : string) : Prop :=
  match cs with
  | [] => from = to
  | c :: rest => old_status c = from /\ new_status c <> old_status c /\ chain (new_status c) rest to
  end.
Lemma chain_app from cs1 cs2 to :
  chain from (cs1 ++ cs2) to <-> exists mid, chain from cs1 mid /\ chain mid cs2 to.
Proof. revert from. induction cs1 as [|c cs1 IH]; intros from; simpl; [|setoid_rewrite IH]; naive_solver. Qed.
Definition changes_of (i : DeviceIdentity) (tr : list (DeviceIdentity * StatusChange)) : list StatusChange :=
  (List.filter (fun e => bool_decide (e.1 = i)) tr).*2.
Lemma changes_of_app i t1 t2 : changes_of i (t1 ++ t2) = changes_of i t1 ++ changes_of i t2.
Proof. unfold changes_of. by rewrite List.filter_app, fmap_app. Qed.
(** The changes an evaluation plan gives to the rules. *)
Definition plan_changes (i : DeviceIdentity) (plan : option DeviceRuleEvaluation) : list (DeviceIdentity * StatusChange) :=
  match plan with
  | Some p => match input p with InputStatus c => [(i, c)] | InputTelemetry _ _ => [] end
  | None => []
  end.
Definition transition_changes (t : OfflineTransition) : list (DeviceIdentity * StatusChange) :=
  plan_changes (ic_identity (ot_context t)) (ot_rule_evaluation t).

(** The tables the rules read and write. *)
Definition tables (s : DeviceStore) : RuleStore * OutboxTable := (ds_rules s, ds_outbox s).

Section histories.
Context {chr : Chrono} {libm : Libm} {micros : ChronoMicros} {codec : SerdeJson} {actions_codec : ActionCodec}.

Lemma run_rules_devices s tenant device plan uuid now n s' :
  run_rules s tenant device plan uuid now = Ok (n, s') -> ds_devices s' = ds_devices s /\ ds_logs s' = ds_logs s.
Proof.
  unfold run_rules. intros ([rules acts] & _ & H)%bind_ok. simpl in H.
  apply bind_ok in H as ([m outbox] & _ & H). by simplify_eq/=.
Qed.
Lemma prepare_changes context status cache at_ plan :
  prepare_evaluation context status cache at_ = Ok plan ->
  plan_changes (ic_identity context) plan
  = if ic_status context =s? status then []
    else [(ic_identity context, {| old_status := ic_status context; new_status := status |})].
Proof.
  unfold prepare_evaluation. destruct (ic_status context =s? status); [naive_solver|].
  intros (snap & _ & H)%bind_ok. by simplify_eq/=.
Qed.

(** A heartbeat transaction either does nothing or writes the row, and the log
    when the status changes, and runs the rules. *)
Lemma repo_heartbeat_spec s i w uuid now r s' :
  repo_apply_heartbeat s i w uuid now = (r, s') ->
  (s' = s /\ (forall o, r = Ok o -> applied o = false /\ status_of s i <> Some (expected_status w)))
  \/ exists row n, r = Ok {| applied := true; dw_actions_enqueued := n |} /\ device_of s i = Some row
       /\ dv_status row = expected_status w
       /\ ds_devices s' = <[id_device i := heartbeat_row row w]> (ds_devices s)
       /\ ds_logs s' = ds_logs s ++ (if expected_status w =s? hw_status w then [] else [heartbeat_log i w])
       /\ exists s2, tables s2 = tables s
            /\ run_rules s2 (id_tenant i) (id_device i) (hw_rule_evaluation w) uuid now = Ok (n, s').
Proof.
  unfold repo_apply_heartbeat, status_of. destruct (device_of s i) as [row|] eqn:Hrow;
    [|intros [= <- <-]; left; split; [done|]; by intros ? [= <-]].
  destruct (String.eqb_spec (dv_status row) (expected_status w)) as [E|E]; simpl;
    [|intros [= <- <-]; left; split; [done|]; intros ? [= <-]; simpl; naive_solver].
  set (s2 := if negb _ then _ else _).
  assert (tables s2 = tables s) as Ht by (unfold s2; by destruct (negb _)).
  assert (ds_devices s2 = <[id_device i := heartbeat_row row w]> (ds_devices s)
    /\ ds_logs s2 = ds_logs s ++ (if expected_status w =s? hw_status w then [] else [heartbeat_log i w])) as [Hd Hl].
  { unfold s2. destruct (expected_status w =s? hw_status w); simpl; by rewrite ?app_nil_r. }
  destruct (run_rules _ _ _ _ _ _) as [[n s3]|e] eqn:Hr; intros [= <- <-]; [right|by left].
  pose proof (run_rules_devices _ _ _ _ _ _ _ _ Hr) as [Hd' Hl']. exists row, n. rewrite Hd', Hl', Hd, Hl.
  split_and!; try done. by exists s2.
Qed.

Lemma still_stale_Some s cutoff t r :
  still_stale s cutoff t = Some r <->
  device_of s (ic_identity (ot_context t)) = Some r
  /\ dv_status r = ic_status (ot_context t) /\ silent (timestamp_micros cutoff) r = true.
Proof.
  unfold still_stale. destruct (device_of _ _) as [r'|]; simpl; [|naive_solver].
  destruct (String.eqb_spec (dv_status r') (ic_status (ot_context t))), (silent _ r') eqn:?; simpl;
    (split; [intros [= <-] || done|intros ([= <-] & ? & ?)]); done || congruence.
Qed.
(** One iteration of the sweep that applies its transition. *)
Lemma offline_step_inv s cutoff t rest uuid now r done_ n s' :
  still_stale s cutoff t = Some r -> offline_loop s cutoff (t :: rest) uuid now = Ok (done_, n, s') ->
  exists s2 done' m, ds_devices s2 = <[id_device (ic_identity (ot_context t)) := offline_row r]> (ds_devices s)
    /\ offline_loop s2 cutoff rest (fun k => uuid (S k)) now = Ok (done', m, s') /\ done_ = t :: done'
    /\ exists s1 k, tables s1 = tables s
         /\ run_rules s1 (id_tenant (ic_identity (ot_context t))) (id_device (ic_identity (ot_context t)))
              (ot_rule_evaluation t) (uuid 0%nat) now = Ok (k, s2).
Proof.
  intros Hr H. cbn [offline_loop] in H. rewrite Hr in H.
  apply bind_ok in H as ([k s2] & Hk & H). simpl in H. apply bind_ok in H as ([[done' m] s3] & Hl & H). simplify_eq/=.
  exists s2, done', m. split; [by apply run_rules_devices in Hk as [-> _]|]. split; [done|]. split; [done|].
  eexists _, k. split; [|exact Hk]. done.
Qed.
(** The sweep prepares each transition with one snapshot and one time. *)
Definition prepared (cache : result string RuleCache) (at_ : NaiveDateTime) (t : OfflineTransition) : Prop :=
  prepare_evaluation (ot_context t) "offline" cache at_ = Ok (ot_rule_evaluation t).

Lemma offline_loop_chain cache at_ cutoff ts uuid now s done_ n s' i a :
  Forall (prepared cache at_) ts -> offline_loop s cutoff ts uuid now = Ok (done_, n, s') -> status_of s i = Some a ->
  exists b, status_of s' i = Some b /\ chain a (changes_of i (done_ ≫= transition_changes)) b.
Proof.
  intros Hp. revert uuid s done_ n a. induction Hp as [|t ts Ht Hp IH]; intros uuid s done_ n a H Ha.
  { simpl in H. simplify_eq/=. by exists a. }
  destruct (still_stale s cutoff t) as [r|] eqn:Hr; [|cbn [offline_loop] in H; rewrite Hr in H; eauto].
  destruct (offline_step_inv _ _ _ _ _ _ _ _ _ _ Hr H) as (s2 & done' & m & Hs2 & Hl & -> & _).
  apply still_stale_Some in Hr as (Hd & Hst & Hsil).
  pose proof (fun j => device_of_write s s2 _ r (offline_row r) j Hs2 Hd eq_refl) as Hw.
  cbn [mbind list_bind]. rewrite changes_of_app. setoid_rewrite chain_app.
  unfold transition_changes at 1. rewrite (prepare_changes _ _ _ _ _ Ht).
  destruct (String.eqb_spec (ic_status (ot_context t)) "offline") as [E|E].
  { unfold silent in Hsil. rewrite Hst, E in Hsil. done. }
  unfold changes_of at 1. unfold status_of in Ha |- *. specialize (Hw i). simpl.
  destruct (decide (i = ic_identity (ot_context t))) as [->|Hi].
  - rewrite bool_decide_eq_true_2 by done. rewrite Hd in Ha. simplify_eq/=.
    destruct (IH _ s2 _ _ "offline" Hl) as (b & Hb & Hc); [unfold status_of; by rewrite Hw|].
    exists b. split; [done|]. exists "offline". split; [|done]. simpl. by rewrite Hst.
  - rewrite bool_decide_eq_false_2 by done.
    destruct (IH _ s2 _ _ a Hl) as (b & Hb & Hc); [unfold status_of; by rewrite Hw|].
    exists b. split; [done|]. by exists a.
Qed.

(** ** What the rules were given

    An ingress transaction is seen from outside: the rule snapshot and the
    observation time the application prepared it with, the identifiers and
    the clock it drew, and the store before and after it. *)
Record IngressTx := {
  tx_cache : result string RuleCache; tx_at : NaiveDateTime; tx_uuid : nat -> nat -> string; tx_now : Z;
  tx_before : DeviceStore; tx_after : DeviceStore;
}.
(** The rule tables and the outbox go from [x] to [y] by evaluating the rules
    of the transaction's snapshot on one status change and enqueueing the
    actions. *)
Definition evaluates_change (tx : IngressTx) (x : RuleStore * OutboxTable) (e : DeviceIdentity * StatusChange)
    (y : RuleStore * OutboxTable) : Prop :=
  exists snap fleet blueprint k acts n,
    tx_cache tx = Ok snap
    /\ evaluate_rules_in_transaction x.1 (id_tenant e.1) (id_device e.1)
         (Some {| snapshot := snap; dre_tenant := id_tenant e.1; dre_device := id_device e.1; dre_fleet_id := fleet;
                  dre_blueprint_id := blueprint; dre_blueprint_revision_id := None; input := InputStatus e.2;
                  observed_at := tx_at tx |}) = Ok (y.1, acts)
    /\ enqueue_actions_in_transaction x.2 (imap (fun j a => (tx_uuid tx k j, a)) acts) (tx_now tx) = Ok (n, y.2).
(** ... by evaluating the rules on each of these changes in turn, and on
    nothing else. *)
Inductive evaluates (tx : IngressTx) : RuleStore * OutboxTable -> list (DeviceIdentity * StatusChange) ->
    RuleStore * OutboxTable -> Prop :=
  | evaluates_nothing x : evaluates tx x [] x
  | evaluates_next x e y rest z : evaluates_change tx x e y -> evaluates tx y rest z -> evaluates tx x (e :: rest) z.

Lemma run_rules_evaluates tx s s0 context status cache at_ plan k uuid now n s' :
  tx_cache tx = cache -> tx_at tx = at_ -> tx_now tx = now -> (forall j, tx_uuid tx k j = uuid j) ->
  prepare_evaluation context status cache at_ = Ok plan -> tables s0 = tables s ->
  run_rules s0 (id_tenant (ic_identity context)) (id_device (ic_identity context)) plan uuid now = Ok (n, s') ->
  evaluates tx (tables s) (plan_changes (ic_identity context) plan) (tables s').
Proof.
  intros Hcache Hat Hnow Huuid Hp <- Hrun. apply bind_ok in Hrun as ([rules acts] & He & H). simpl in H.
  apply bind_ok in H as ([m outbox] & Hq & [= <- <-]). unfold prepare_evaluation in Hp.
  destruct (ic_status context =s? status).
  - injection Hp as <-. simpl in He. injection He as <- <-. simpl in Hq. injection Hq as <- <-. constructor.
  - apply bind_ok in Hp as (snap & Hs%map_err_inv & [= <-]). simpl. eapply evaluates_next; [|constructor].
    eexists snap, _, _, k, acts, m. subst. split; [done|]. split; [exact He|]. etransitivity; [|exact Hq]. simpl. f_equal.
    apply imap_ext. intros j a _. simpl. by rewrite Huuid.
Qed.
Lemma evaluates_app tx x e y tr z : evaluates tx x e y -> evaluates tx y tr z -> evaluates tx x (e ++ tr) z.
Proof. induction 1 as [|x e y' rest z' He _ IH]; intros Hz; [done|]. simpl. econstructor; eauto. Qed.
Lemma offline_loop_evaluates tx cutoff ts uuid s done_ n s' :
  (forall j, exists k, forall m, tx_uuid tx k m = uuid j m) -> Forall (prepared (tx_cache tx) (tx_at tx)) ts ->
  offline_loop s cutoff ts uuid (tx_now tx) = Ok (done_, n, s') ->
  evaluates tx (tables s) (done_ ≫= transition_changes) (tables s').
Proof.
  intros Hu Hp. revert uuid s done_ n Hu. induction Hp as [|t ts Ht Hp IH]; intros uuid s done_ n Hu H.
  { simpl in H. simplify_eq/=. constructor. }
  destruct (still_stale s cutoff t) as [r|] eqn:Hr.
  2: { cbn [offline_loop] in H. rewrite Hr in H. eapply IH; [|exact H]. intros j. apply (Hu (S j)). }
  destruct (offline_step_inv _ _ _ _ _ _ _ _ _ _ Hr H) as (s2 & done' & m & _ & Hl & -> & s1 & q & Ht1 & Hrun).
  cbn [mbind list_bind]. apply (evaluates_app _ _ _ (tables s2)).
  - destruct (Hu 0%nat) as [k Hk]. by eapply (run_rules_evaluates tx s s1 _ _ _ _ _ k); [..|exact Ht|exact Ht1|exact Hrun].
  - eapply IH; [|exact Hl]. intros j. apply (Hu (S j)).
Qed.

(** A transaction as the application makes it, from a context that may be out
    of date. *)
Inductive ingress_tx : IngressTx -> Prop :=
  | tx_heartbeat s context w cache r s' uuid now :
      prepare_evaluation context (hw_status w) cache (hw_observed_at w) = Ok (hw_rule_evaluation w) ->
      expected_status w = ic_status context ->
      repo_apply_heartbeat s (ic_identity context) w (uuid 0%nat) now = (r, s') ->
      ingress_tx {| tx_cache := cache; tx_at := hw_observed_at w; tx_uuid := uuid; tx_now := now;
                    tx_before := s; tx_after := s' |}
  | tx_sweep s cutoff ts cache at_ uuid now r s' :
      Forall (prepared cache at_) ts -> apply_offline_transitions s cutoff ts uuid now = (r, s') ->
      ingress_tx {| tx_cache := cache; tx_at := at_; tx_uuid := uuid; tx_now := now; tx_before := s; tx_after := s' |}.
(** Transactions, and between them other work, which keeps the statuses of
    existing devices and may do anything to the rule tables and the outbox. *)
Inductive ingress_run (s0 : DeviceStore) : list IngressTx -> DeviceStore -> Prop :=
  | run_start : ingress_run s0 [] s0
  | run_tx txs tx : ingress_run s0 txs (tx_before tx) -> ingress_tx tx -> ingress_run s0 (txs ++ [tx]) (tx_after tx)
  | run_elsewhere txs s s' :
      ingress_run s0 txs s -> (forall i a, status_of s i = Some a -> status_of s' i = Some a) -> ingress_run s0 txs s'.

(** The changes a transaction makes are the ones its rules are given. *)
Definition accounts (tx : IngressTx) (tr : list (DeviceIdentity * StatusChange)) : Prop :=
  evaluates tx (tables (tx_before tx)) tr (tables (tx_after tx))
  /\ forall i a, status_of (tx_before tx) i = Some a ->
       exists b, status_of (tx_after tx) i = Some b /\ chain a (changes_of i tr) b.
Lemma accounts_nothing tx : tx_after tx = tx_before tx -> accounts tx [].
Proof. intros E. split; rewrite E; [constructor|]. intros i a Ha. by exists a. Qed.
Lemma tx_accounts tx : ingress_tx tx -> exists tr, accounts tx tr.
Proof.
  intros [s context w cache r s' uuid now Hp Hw H|s cutoff ts cache at_ uuid now r s' Hp H].
  - destruct (repo_heartbeat_spec _ _ _ _ _ _ _ H) as [[-> _]|(row & n & _ & Hrow & Hst & Hs & _ & s2 & Ht & Hrun)].
    { exists []. by apply accounts_nothing. }
    exists (plan_changes (ic_identity context) (hw_rule_evaluation w)). split; simpl.
    { by eapply (run_rules_evaluates _ s s2 _ _ _ _ _ 0%nat); [..|exact Hp|exact Ht|exact Hrun]. }
    intros i a Ha. rewrite (prepare_changes _ _ _ _ _ Hp). unfold status_of in *.
    rewrite (device_of_write s s' _ row (heartbeat_row row w) i Hs Hrow eq_refl), <- Hw.
    destruct (decide (i = ic_identity context)) as [->|Hi].
    + rewrite Hrow in Ha. simplify_eq/=. exists (hw_status w). split; [done|]. rewrite Hst.
      destruct (String.eqb_spec (expected_status w) (hw_status w)) as [E|E]; [done|].
      unfold changes_of. simpl. rewrite bool_decide_eq_true_2 by done. simpl. naive_solver.
    + exists a. split; [done|]. destruct (expected_status w =s? hw_status w); [done|].
      unfold changes_of. simpl. by rewrite bool_decide_eq_false_2 by done.
  - unfold apply_offline_transitions in H. assert (Forall (prepared cache at_) (merge_sort ot_le ts)) as Hp'
      by (by rewrite merge_sort_Permutation).
    destruct (offline_loop _ _ _ _ _) as [[[done_ n] s1]|] eqn:Hl; injection H as _ <-.
    2: { exists []. by apply accounts_nothing. }
    exists (done_ ≫= transition_changes). split; simpl.
    + eapply (offline_loop_evaluates {| tx_cache := cache; tx_at := at_; tx_uuid := uuid; tx_now := now;
        tx_before := s; tx_after := s1 |} cutoff _ uuid); [eauto|exact Hp'|exact Hl].
    + intros i a Ha. by eapply offline_loop_chain.
Qed.

(** C29. However heartbeats, offline sweeps and other work interleave, also
    when they write what an outdated read told them, the status rules are
    evaluated on every change of a device's status exactly once, in order,
    with the status it replaced: each transaction leaves the rule tables and
    the outbox as evaluating the rules of its own snapshot on a list of
    changes leaves them, and for every device these lists, one after the
    other, lead from its first status to its current one. *)
Theorem status_changes_evaluated s0 txs s :
  ingress_run s0 txs s ->
  exists trs, Forall2 (fun tx tr => evaluates tx (tables (tx_before tx)) tr (tables (tx_after tx))) txs trs
    /\ forall i a, status_of s0 i = Some a ->
         exists b, status_of s i = Some b /\ chain a (changes_of i (concat trs)) b.
Proof.
  induction 1 as [|txs tx _ (trs & Hev & Hst) Htx|txs s s' _ (trs & Hev & Hst) Hkeep].
  - exists []. split; [constructor|]. intros i a Ha. by exists a.
  - destruct (tx_accounts _ Htx) as (tr & He & Hc). exists (trs ++ [tr]).
    split; [by apply Forall2_app; [|constructor]|]. intros i a (b & Hb & Hch)%Hst.
    destruct (Hc i b Hb) as (c & Hc1 & Hc2). exists c. split; [done|].
    rewrite concat_app. simpl. rewrite app_nil_r, changes_of_app. apply chain_app. eauto.
  - exists trs. split; [done|]. intros i a (b & Hb & Hch)%Hst. exists b. auto.
Qed.

(** *** The offline sweep *)
Definition names (d : string) (row : DeviceRow) (t : OfflineTransition) : bool :=
  (id_device (ic_identity (ot_context t)) =s? d) && (id_tenant (ic_identity (ot_context t)) =s? dv_tenant row)
  && (ic_status (ot_context t) =s? dv_status row).
Lemma names_true d row t :
  names d row t = true <-> ic_identity (ot_context t) = {| id_tenant := dv_tenant row; id_device := d |}
                           /\ ic_status (ot_context t) = dv_status row.
Proof.
  unfold names. rewrite !andb_true_iff, !String.eqb_eq. destruct (ic_identity (ot_context t)); simpl. naive_solver.
Qed.
(** What the loop leaves in each row: it is marked when it is silent and some transition names it. *)
Lemma offline_loop_rows cutoff ts uuid now s done_ n s' d row :
  offline_loop s cutoff ts uuid now = Ok (done_, n, s') -> ds_devices s !! d = Some row ->
  ds_devices s' !! d
  = Some (if silent (timestamp_micros cutoff) row && existsb (names d row) ts then offline_row row else row).
Proof.
  revert uuid s done_ n row. induction ts as [|t ts IH]; intros uuid s done_ n row H Hrow.
  { simpl in *. simplify_eq/=. by rewrite andb_false_r. }
  simpl existsb. destruct (still_stale s cutoff t) as [r|] eqn:Hr.
  - destruct (offline_step_inv _ _ _ _ _ _ _ _ _ _ Hr H) as (s2 & done' & m & Hs2 & Hl & -> & _).
    apply still_stale_Some in Hr as ([Hd Ht]%device_of_Some & Hst & Hsil).
    destruct (decide (d = id_device (ic_identity (ot_context t)))) as [->|Hne].
    + assert (row = r) as -> by congruence.
      rewrite Hsil, (proj2 (names_true _ _ _)); [|by destruct (ic_identity (ot_context t)); simplify_eq/=]. simpl.
      rewrite (IH _ _ _ _ _ Hl (eq_trans (f_equal (lookup _) Hs2) (lookup_insert_eq _ _ _))). done.
    + rewrite (IH _ _ _ _ row Hl); [|by rewrite Hs2, lookup_insert_ne].
      destruct (names d row t) eqn:E; [|done]. apply names_true in E as [E _]. by rewrite E in Hne.
  - cbn [offline_loop] in H. rewrite Hr in H. rewrite (IH _ _ _ _ row H Hrow).
    destruct (names d row t) eqn:E; [|done]. destruct (silent _ row) eqn:Hsil; [|done].
    apply names_true in E as [E1 E2]. rewrite (proj2 (still_stale_Some s cutoff t row)) in Hr; [done|].
    by rewrite E1, device_of_Some.
Qed.
Lemma ingress_spec s d row c :
  ingress s d row = Ok c -> ic_identity c = {| id_tenant := dv_tenant row; id_device := d |} /\ ic_status c = dv_status row.
Proof.
  unfold ingress. intros (i & Hi%map_err_inv & (f & _ & [= <-])%bind_ok)%bind_ok. simpl. split; [|done].
  unfold identity_new in Hi. apply bind_ok in Hi as (t & Ht%map_err_inv & Hi).
  unfold tenant_id_new in Ht. destruct (trim_is_empty _); [done|]. destruct (valid_device_id d); by simplify_eq/=.
Qed.
Lemma candidates_spec s cutoff cs :
  offline_candidates s cutoff = Ok cs ->
  (forall c, c ∈ cs -> exists d row, ds_devices s !! d = Some row /\ silent (timestamp_micros cutoff) row = true
     /\ ic_identity c = {| id_tenant := dv_tenant row; id_device := d |} /\ ic_status c = dv_status row)
  /\ (forall d row, ds_devices s !! d = Some row -> silent (timestamp_micros cutoff) row = true ->
      exists c, c ∈ cs /\ ic_identity c = {| id_tenant := dv_tenant row; id_device := d |} /\ ic_status c = dv_status row).
Proof.
  unfold offline_candidates. intros H. split.
  - intros c Hc. destruct (mapM_elem _ _ _ _ H Hc) as ([d row] & Hin & Hi).
    rewrite merge_sort_Permutation, elem_of_filterb in Hin. destruct Hin as [Hin Hs].
    apply elem_of_map_to_list in Hin. exists d, row. split_and!; [done|done|by eapply ingress_spec..].
  - intros d row Hd Hs. destruct (mapM_elem_inv _ _ _ (d, row) H) as (c & Hc & Hi).
    { by rewrite merge_sort_Permutation, elem_of_filterb, elem_of_map_to_list. }
    exists c. split; [done|by eapply ingress_spec].
Qed.

(** The row another commit left is marked when it is silent and was so, with the same status, at the read. *)
Definition was_silent (s : DeviceStore) (cutoff : NaiveDateTime) (d : string) (row : DeviceRow) : bool :=
  match ds_devices s !! d with
  | Some r => silent (timestamp_micros cutoff) r && (dv_tenant r =s? dv_tenant row) && (dv_status r =s? dv_status row)
  | None => false
  end.
Lemma sweep_names s cutoff cs ts cache at_ d row :
  offline_candidates s cutoff = Ok cs ->
  mapM (fun context => plan ← prepare_evaluation context "offline" cache at_;
          Ok {| ot_context := context; ot_rule_evaluation := plan |}) cs = Ok ts ->
  existsb (names d row) (merge_sort ot_le ts) = was_silent s cutoff d row.
Proof.
  intros [Hc1 Hc2]%candidates_spec Hts. apply eq_true_iff_eq. rewrite existsb_elem.
  setoid_rewrite merge_sort_Permutation. setoid_rewrite names_true. unfold was_silent. split.
  - intros (t & Ht & Hi & Hst). destruct (mapM_elem _ _ _ _ Hts Ht) as (c & Hc & Hp).
    apply bind_ok in Hp as (plan & _ & [= <-]). simpl in *.
    destruct (Hc1 c Hc) as (d' & r & Hr & Hsil & Hi' & Hst'). rewrite Hi' in Hi. simplify_eq/=.
    rewrite Hr, Hsil. simpl. rewrite andb_true_iff, !String.eqb_eq. split; congruence.
  - destruct (ds_devices s !! d) as [r|] eqn:Hr; [|done]. rewrite !andb_true_iff, !String.eqb_eq.
    intros [[Hsil Ht] Hst]. destruct (Hc2 d r Hr Hsil) as (c & Hc & Hi & Hs).
    destruct (mapM_elem_inv _ _ _ c Hts Hc) as (t & Hin & Hp). apply bind_ok in Hp as (plan & _ & [= <-]).
    eexists. split; [done|]. simpl. by rewrite Hi, Hs, Ht.
Qed.

(** The offline sweep is exact, with other work between its read and its
    write: in the rows that work left, it marks exactly the devices that are
    still silent and were so with the same status when the sweep read them,
    and changes nothing else of any device.  In particular a heartbeat that
    arrives in between is never overwritten. *)
Theorem offline_sweep_exact seconds_before s timeout cache now observed interference uuid written o s' :
  mark_offline_devices seconds_before s timeout cache now observed interference uuid written = (Ok o, s') ->
  exists cutoff, seconds_before now timeout = Some cutoff /\
    forall d row, ds_devices (interference s) !! d = Some row ->
      ds_devices s' !! d = Some (if silent (timestamp_micros cutoff) row && was_silent s cutoff d row
                                 then offline_row row else row).
Proof.
  unfold mark_offline_devices. destruct (if timeout <=? _ then _ else _) as [cutoff|] eqn:Hc; [|done].
  intros H. exists cutoff. split; [by destruct (timeout <=? _)|]. intros d row Hrow.
  destruct (map_err Persistence (offline_candidates s cutoff)) as [cs|] eqn:Hcs; [|done]. apply map_err_inv in Hcs. simpl in H.
  destruct (mapM _ cs) as [ts|] eqn:Hts; [|done]. unfold apply_offline_transitions in H.
  destruct (offline_loop _ _ _ _ _) as [[[done_ n] s1]|] eqn:Hl; simplify_eq/=.
  rewrite (offline_loop_rows _ _ _ _ _ _ _ _ _ _ Hl Hrow). by rewrite (sweep_names s cutoff cs ts cache observed).
Qed.

(** *** Retried heartbeats *)
(** The store after the work around the first [k] attempts. *)
Fixpoint interfered (k : nat) (s : DeviceStore) (attempt : nat -> Attempt) : DeviceStore :=
  match k with
  | O => s
  | S k => interfered k (at_interference (attempt O) s) (fun j => attempt (S j))
  end.
(** An attempt misses when other work changed the status it had read. *)
Definition missed (s : DeviceStore) (i : DeviceIdentity) (a : Attempt) : Prop :=
  exists c, ingress_context s i = Ok (Some c) /\ status_of (at_interference a s) i <> Some (ic_status c).
(** A recorded heartbeat: the device's row is the report's, and a change of status is logged. *)
Definition recorded (before after : DeviceStore) (i : DeviceIdentity) (status firmware : string) (uptime : Z)
    (at_ : NaiveDateTime) : Prop :=
  exists row, device_of before i = Some row
  /\ device_of after i = Some {| dv_tenant := id_tenant i; dv_status := status; dv_firmware := firmware;
       dv_uptime_seconds := as_i32 uptime; dv_last_seen := Some (timestamp_micros at_);
       dv_updated_at := timestamp_micros at_ |}
  /\ ds_logs after = ds_logs before ++ if dv_status row =s? status then [] else
       [{| lg_tenant := id_tenant i; lg_device := id_device i; lg_level := "INFO";
           lg_message := "Device status changed from " +:+ dv_status row +:+ " to " +:+ status;
           lg_created_at := timestamp_micros at_ |}].

Lemma attempt_spec s i status firmware uptime a r s' :
  heartbeat_attempt s i status firmware uptime a = (r, s') ->
  match r with
  | Ok (Some n) => (n = 0%nat /\ s' = s /\ device_of s i = None)
                   \/ recorded (at_interference a s) s' i status firmware uptime (at_now a)
  | Ok None => s' = at_interference a s /\ missed s i a
  | Err _ => s' = s \/ s' = at_interference a s
  end.
Proof.
  unfold heartbeat_attempt. unfold missed. destruct (ingress_context s i) as [[c|]|e] eqn:Hc; simpl.
  - destruct (prepare_evaluation _ _ _ _) as [plan|]; [|intros [= <- <-]; by left].
    destruct (repo_apply_heartbeat _ _ _ _ _) as [q s1] eqn:Hw.
    destruct (repo_heartbeat_spec _ _ _ _ _ _ _ Hw) as [[-> Hq]|(row & n & -> & Hrow & Hst & Hs & Hl & _)].
    + destruct q as [o|]; [|intros [= <- <-]; by right]. destruct (Hq o eq_refl) as [-> Hne]. intros [= <- <-]. eauto.
    + intros [= <- <-]. right. simpl in Hst, Hl. exists row. split; [done|]. split.
      * rewrite (device_of_write _ _ _ _ _ i Hs Hrow) by done. rewrite decide_True by done.
        apply device_of_Some in Hrow as [_ <-]. done.
      * rewrite Hl, Hst. done.
  - intros [= <- <-]. left. split_and!; [done..|]. unfold ingress_context in Hc.
    destruct (device_of s i) as [r0|]; [|done]. by destruct (ingress _ _ _).
  - intros [= <- <-]. by left.
Qed.

Lemma heartbeat_loop_spec m : forall s i status firmware uptime attempt r s',
  heartbeat_loop m s i status firmware uptime attempt = (r, s') ->
  (exists k q, (k < m)%nat /\ (forall j, (j < k)%nat -> missed (interfered j s attempt) i (attempt j))
     /\ heartbeat_attempt (interfered k s attempt) i status firmware uptime (attempt k) = (q, s')
     /\ match q with Ok o => exists n, o = Some n /\ r = Ok n | Err e => r = Err e end)
  \/ ((forall j, (j < m)%nat -> missed (interfered j s attempt) i (attempt j))
      /\ r = Err (Persistence (Busy None)) /\ s' = interfered m s attempt).
Proof.
  induction m as [|m IH]; intros s i status firmware uptime attempt r s' H; simpl in H.
  { simplify_eq/=. right. split_and!; [lia|done|done]. }
  destruct (heartbeat_attempt _ _ _ _ _ _) as [[[n|]|e] s1] eqn:Ha.
  - simplify_eq/=. left. exists 0%nat, (Ok (Some n)). simpl. split_and!; [lia|lia|done|eauto].
  - destruct (attempt_spec _ _ _ _ _ _ _ _ Ha) as [-> Hm].
    destruct (IH _ _ _ _ _ _ _ _ H) as [(k & q & Hk & Hj & Hat & Hq)|(Hj & -> & ->)].
    + left. exists (S k), q. simpl. split_and!; [lia| |done|done]. intros [|j] Hlt; [done|]. apply Hj. lia.
    + right. split_and!; [|done|done]. intros [|j] Hlt; [done|]. apply Hj. lia.
  - simplify_eq/=. left. exists 0%nat, (Err e). simpl. split_and!; [lia|lia|done|done].
Qed.

(** C37. A heartbeat settles within its three attempts, whatever else commits
    around them.  An attempt is repeated only after other work changed the
    status it had read; the first one that is not records the report, with a
    log row exactly when the status changes (or finds no such device, or
    reports the failure having changed nothing); after three misses the
    answer is Busy and the heartbeat has changed nothing. *)
Theorem heartbeat_settles s i reported firmware uptime attempt r s' :
  apply_heartbeat s i reported firmware uptime attempt = (r, s') ->
  (exists k, (k < 3)%nat /\ (forall j, (j < k)%nat -> missed (interfered j s attempt) i (attempt j))
     /\ match r with
         | Ok n => (n = 0%nat /\ s' = interfered k s attempt /\ device_of s' i = None)
                   \/ recorded (interfered (S k) s attempt) s' i (heartbeat_status reported) firmware uptime
                        (at_now (attempt k))
         | Err _ => s' = interfered k s attempt \/ s' = interfered (S k) s attempt
         end)
  \/ ((forall j, (j < 3)%nat -> missed (interfered j s attempt) i (attempt j))
      /\ r = Err (Persistence (Busy None)) /\ s' = interfered 3 s attempt).
Proof.
  assert (forall k s attempt, interfered (S k) s attempt = at_interference (attempt k) (interfered k s attempt)) as Hs.
  { induction k as [|k IH]; intros s0 a; [done|]. change (interfered (S (S k)) s0 a)
      with (interfered (S k) (at_interference (a O) s0) (fun j => a (S j))). by rewrite IH. }
  intros [(k & q & Hk & Hj & Ha & Hq)|H]%heartbeat_loop_spec; [left|by right].
  exists k. split_and!; [done|done|]. pose proof (attempt_spec _ _ _ _ _ _ _ _ Ha) as Hspec. rewrite Hs.
  destruct q as [o|e]; [|by subst r]. destruct Hq as (n & -> & ->). destruct Hspec as [(-> & -> & H)|H]; [by left|by right].
Qed.

(** The application's operations are such transactions, after the work around
    them. *)
Lemma attempt_step s i status firmware uptime a r s' :
  heartbeat_attempt s i status firmware uptime a = (r, s') ->
  s' = s \/ ingress_tx {| tx_cache := at_cache a; tx_at := at_now a; tx_uuid := fun _ => at_uuid a; tx_now := at_enqueue a;
                          tx_before := at_interference a s; tx_after := s' |}.
Proof.
  unfold heartbeat_attempt. destruct (map_err Persistence (ingress_context s i)) as [[c|]|] eqn:Hc; [|naive_solver..].
  apply map_err_inv in Hc. destruct (prepare_evaluation _ _ _ _) as [plan|] eqn:Hp; [|naive_solver].
  assert (ic_identity c = i) as <-.
  { unfold ingress_context in Hc. destruct (device_of s i) as [row|] eqn:Hrow; [|done].
    apply device_of_Some in Hrow as [_ Ht]. destruct (ingress s _ row) as [c'|] eqn:Hi; simplify_eq/=.
    apply ingress_spec in Hi as [-> _]. rewrite Ht. by destruct i. }
  match goal with |- context [repo_apply_heartbeat _ _ ?w _ _] => set (write := w) end.
  destruct (repo_apply_heartbeat _ _ _ _ _) as [q s1] eqn:Hw. intros H. right.
  assert (s' = s1) as -> by (destruct q; by simplify_eq/=).
  apply (tx_heartbeat (at_interference a s) c write (at_cache a) q s1 (fun _ => at_uuid a) (at_enqueue a)); [exact Hp|done|exact Hw].
Qed.
Lemma sweep_step seconds_before s timeout cache now observed interference uuid written r s' :
  mark_offline_devices seconds_before s timeout cache now observed interference uuid written = (r, s') ->
  s' = s \/ ingress_tx {| tx_cache := cache; tx_at := observed; tx_uuid := uuid; tx_now := written;
                          tx_before := interference s; tx_after := s' |}.
Proof.
  unfold mark_offline_devices. destruct (if timeout <=? _ then _ else _) as [cutoff|]; [|naive_solver].
  destruct (map_err Persistence (offline_candidates s cutoff)) as [cs|]; [|naive_solver]. simpl.
  destruct (mapM _ cs) as [ts|] eqn:Hts; [|naive_solver].
  destruct (apply_offline_transitions _ _ _ _ _) as [q s1] eqn:Ha. intros [= _ <-]. right.
  eapply tx_sweep; [|exact Ha]. apply Forall_forall. intros t Ht.
  destruct (mapM_elem _ _ _ _ Hts Ht) as (c & _ & Hp). by apply bind_ok in Hp as (plan & Hp & [= <-]).
Qed.
End histories.

(** ** A concrete device *)
#[local] Existing Instance demo_chrono.
#[local] Existing Instance demo_libm.
#[local] Existing Instance demo_micros.
#[local] Existing Instance demo_json.
#[local] Existing Instance demo_actions.
Definition demo_identity : DeviceIdentity := {| id_tenant := "default"; id_device := "dev-1" |}.
Definition demo_device (status : string) (seen : Z) : DeviceRow :=
  {| dv_tenant := "default"; dv_status := status; dv_firmware := "1.0"; dv_uptime_seconds := 5;
     dv_last_seen := Some seen; dv_updated_at := seen |}.
Definition demo_devices : DeviceStore :=
  {| ds_devices := {["dev-1" := demo_device "online" 0]}; ds_logs := []; ds_rules := demo_store; ds_outbox := ∅ |}.
Definition demo_warning : StatusChange := {| old_status := "online"; new_status := "warning" |}.
Definition demo_context : DeviceIngressContext :=
  {| ic_identity := demo_identity; ic_fleet_id := None; ic_blueprint_id := None; ic_status := "online" |}.
Definition demo_write : HeartbeatWrite :=
  {| expected_status := "online"; hw_status := "warning"; hw_firmware := "1.1"; hw_uptime_seconds := 60;
     hw_observed_at := 60000000000;
     hw_rule_evaluation := Some {| snapshot := demo_cache; dre_tenant := "default"; dre_device := "dev-1";
       dre_fleet_id := None; dre_blueprint_id := None; dre_blueprint_revision_id := None;
       input := InputStatus demo_warning; observed_at := 60000000000 |} |}.
Definition demo_beat : result PersistenceError DeviceWriteOutcome * DeviceStore :=
  repo_apply_heartbeat demo_devices demo_identity demo_write (fun _ => "u") 0.
Definition demo_tx : IngressTx :=
  {| tx_cache := Ok demo_cache; tx_at := 60000000000; tx_uuid := fun _ _ => "u"; tx_now := 0;
     tx_before := demo_devices; tx_after := demo_beat.2 |}.
Lemma status_changes_evaluated_witness :
  status_of demo_beat.2 demo_identity = Some "warning"
  /\ exists tr b, evaluates demo_tx (tables demo_devices) tr (tables demo_beat.2)
    /\ status_of demo_beat.2 demo_identity = Some b /\ chain "online" (changes_of demo_identity tr) b.
Proof.
  split; [vm_compute; reflexivity|].
  assert (ingress_tx demo_tx) as Htx.
  { destruct demo_beat as [r s'] eqn:E. unfold demo_tx. rewrite E.
    apply (tx_heartbeat demo_devices demo_context demo_write (Ok demo_cache) r s' (fun _ _ => "u") 0);
      [vm_compute; reflexivity|reflexivity|exact E]. }
  destruct (status_changes_evaluated demo_devices ([] ++ [demo_tx]) demo_beat.2) as (trs & Hev & Hst).
  { exact (run_tx demo_devices [] demo_tx (run_start _) Htx). }
  destruct (Hst demo_identity "online") as (b & Hb & Hc); [vm_compute; reflexivity|].
  inversion Hev as [|? tr ? rest Htr Hrest]; subst. inversion Hrest; subst.
  exists tr, b. simpl in Hc. rewrite app_nil_r in Hc. auto.
Defined.
(** A device that reported after the sweep's read: the sweep leaves it alone. *)
Definition demo_reported (s : DeviceStore) : DeviceStore := with_device s "dev-1" (demo_device "online" 90000000).
Definition demo_before (now : NaiveDateTime) (secs : Z) : option NaiveDateTime := Some (now - secs * 1000000000).
Definition demo_sweep (interference : DeviceStore -> DeviceStore) : result ApplicationError OfflineWriteOutcome * DeviceStore :=
  mark_offline_devices demo_before demo_devices 60 (Ok demo_cache) 100000000000 100000000000 interference
    (fun _ _ => "u") 100000000.
Lemma offline_sweep_exact_witness :
  ds_devices (demo_sweep demo_reported).2 !! "dev-1" = Some (demo_device "online" 90000000).
Proof.
  destruct (offline_sweep_exact demo_before demo_devices 60 (Ok demo_cache) 100000000000 100000000000 demo_reported
    (fun _ _ => "u") 100000000 {| devices_updated := 0; ow_actions_enqueued := 0 |} (demo_sweep demo_reported).2)
    as (cutoff & Hc & H); [vm_compute; reflexivity|].
  injection Hc as <-. apply (H "dev-1" (demo_device "online" 90000000)). vm_compute. reflexivity.
Defined.
Definition demo_attempts (k : nat) : Attempt :=
  {| at_now := 60000000000; at_cache := Ok demo_cache;
     at_interference := match k with O => fun s => with_device s "dev-1" (demo_device "offline" 0) | _ => id end;
     at_uuid := fun _ => "u"; at_enqueue := 0 |}.
Lemma heartbeat_settles_witness :
  exists k, (k < 3)%nat
    /\ recorded (interfered (S k) demo_devices demo_attempts)
         (apply_heartbeat demo_devices demo_identity "warning" "1.1" 60 demo_attempts).2
         demo_identity "warning" "1.1" 60 60000000000.
Proof.
  destruct (heartbeat_settles demo_devices demo_identity "warning" "1.1" 60 demo_attempts (Ok 0%nat)
    (apply_heartbeat demo_devices demo_identity "warning" "1.1" 60 demo_attempts).2)
    as [(k & Hk & _ & [(_ & _ & H)|H])|(_ & H & _)]; [vm_compute; reflexivity|vm_compute in H; discriminate H| |discriminate H].
  exists k. split; [exact Hk|exact H].
Defined.
