(* ===== verification/EventStore.v ===== *)
(** * Stored device events (crates/backend-core/src/events.rs,
    crates/backend-turso/src/events.rs, devices.rs)

    The tables of device events and the transactions on them.  Recording an
    event writes a receipt, the raw event, its typed metric samples, the
    hourly rollups of its numbers and the outbox events of the rules it
    fires, in one transaction; a second delivery of the event finds the
    receipt.  Pruning deletes raw events and, at an older mark, rollups and
    receipts, and an event older than that mark is refused. *)
From S2P Require Import Prelude Text Float64 BTree Json Errors Access RuleTypes MetricNumber Geo RuleCache.
From S2P Require Import RuleEvaluate RuleSnapshot Shadows Outbox DeviceIngress.
From stdpp Require Import sorting.

Local Open Scope Z_scope.

(** ** Records *)
Inductive MetricValue :=
| VFloat64 (x : f64) | VInt64 (z : Z) | VText (s : string) | VBoolean (b : bool) | VJson (v : value).
Definition value_type (v : MetricValue) : string :=
  match v with
  | VFloat64 _ => "float64" | VInt64 _ => "int64" | VText _ => "string" | VBoolean _ => "boolean" | VJson _ => "json"
  end.
Record DeviceMetricSample := { ms_stream : string; ms_field : string; ms_value : MetricValue }.
Record RecordDeviceEvent := {
  re_event_id : string; re_device_id : string; re_contract_id : string; re_route_key : string;
  re_occurred_at : NaiveDateTime; re_received_at : NaiveDateTime; re_payload : value;
  re_metrics : list DeviceMetricSample; re_rule_evaluation : DeviceRuleEvaluation;
}.
Record RecordDeviceEventOutcome := { ro_recorded : bool; metrics_recorded : nat; ro_actions_enqueued : nat }.
Record MetricRetentionCutoffs := { raw_retained_since : NaiveDateTime; rollup_retained_since : NaiveDateTime }.
Record MetricPruneOutcome := { events_deleted : nat; rollups_deleted : nat; receipts_deleted : nat }.
Record DeviceContractRecord := {
  dc_id : string; dc_device_id : string; dc_blueprint_revision_id : string; dc_document : value;
  dc_contract_hash : string; dc_assignment_status : string; dc_acknowledged_at : option NaiveDateTime;
  dc_error : option string; dc_created_at : NaiveDateTime;
}.
Record DeviceLocationQuery := {
  lq_contract_id : string; lq_stream_key : string; lq_latitude_path : string; lq_longitude_path : string;
  lq_since : NaiveDateTime; lq_now : NaiveDateTime;
}.
Record DeviceLocationRecord := {
  lr_contract_id : string; lr_event_id : string; lr_latitude : f64; lr_longitude : f64;
  lr_occurred_at : NaiveDateTime; lr_expires_at : NaiveDateTime;
}.

(** ** Tables *)
Record ContractRow := {
  kr_tenant : string; kr_device : string; kr_revision : string; kr_document : string; kr_hash : string;
  kr_created_at : Z;
}.
Record AssignmentRow := {
  as_desired : string; as_active : option string; as_status : string; as_acknowledged_at : option Z;
  as_error : option string; as_updated_at : Z;
}.
Record ReceiptRow := { rc_tenant : string; rc_device : string; rc_occurred_at : Z; rc_received_at : Z }.
Record EventRow := {
  ev_tenant : string; ev_device : string; ev_contract : string; ev_route : string; ev_occurred_at : Z;
  ev_received_at : Z; ev_payload : string;
}.
Record SampleRow := {
  sm_tenant : string; sm_device : string; sm_type : string; sm_double : option f64; sm_int : option Z;
  sm_text : option string; sm_bool : option Z; sm_json : option string; sm_occurred_at : Z;
}.
Record RollupRow := {
  ru_count : Z; ru_sum : f64; ru_min : f64; ru_max : f64; ru_latest : f64; ru_latest_at : Z; ru_latest_event : string;
}.
(** (event, stream, field) *)
Notation SampleKey := (string * string * string)%type.
(** (tenant, device, revision, stream, field, hour) *)
Notation RollupKey := (string * string * string * string * string * Z)%type.
Record EventStore := {
  es_device : DeviceStore;
  es_contracts : gmap string ContractRow;
  es_assignments : gmap (string * string) AssignmentRow;
  es_retention : option (Z * Z); (* raw and rollup marks, the row with id 1 *)
  es_receipts : gmap string ReceiptRow;
  es_events : gmap string EventRow;
  es_samples : gmap SampleKey SampleRow;
  es_rollups : gmap RollupKey RollupRow;
}.

(** Messages of the database for a rejected NULL. *)
Class SqlText := { not_null_text : string }.
Definition not_null_violation `{!SqlText} : PersistenceError :=
  PInternal ("database constraint rejected the operation: " +:+ not_null_text).
Definition unique_violation : PersistenceError := UniqueViolation "unique".
Definition foreign_key_violation : PersistenceError := ForeignKeyViolation "foreign_key".

(** ** Hourly rollups *)
Definition HOUR_MICROS : Z := 3600000000.
(** [div_euclid] by a positive number. *)
Definition bucket_start (occurred_at : Z) : Z := occurred_at / HOUR_MICROS * HOUR_MICROS.
Definition is_nan (x : f64) : bool := match x with S754_nan => true | _ => false end.
(** SQL's scalar [min] and [max] of two numbers (the stored one when they compare equal). *)
Definition sql_min (stored new : f64) : f64 := if f64_lt new stored then new else stored.
Definition sql_max (stored new : f64) : f64 := if f64_lt stored new then new else stored.
Definition str_gtb (a b : string) : bool := match String.compare a b with Gt => true | _ => false end.
(** [excluded.latest_at > ... OR (... AND excluded.latest_event_id > ...)] *)
Definition newer (r : RollupRow) (occurred_at : Z) (event : string) : bool :=
  (ru_latest_at r <? occurred_at) || ((ru_latest_at r =? occurred_at) && str_gtb event (ru_latest_event r)).
Definition first_rollup (x : f64) (occurred_at : Z) (event : string) : RollupRow :=
  {| ru_count := 1; ru_sum := x; ru_min := x; ru_max := x; ru_latest := x; ru_latest_at := occurred_at;
     ru_latest_event := event |}.
Definition add_to_rollup (r : RollupRow) (x : f64) (occurred_at : Z) (event : string) : RollupRow :=
  {| ru_count := ru_count r + 1; ru_sum := f64_add (ru_sum r) x; ru_min := sql_min (ru_min r) x;
     ru_max := sql_max (ru_max r) x;
     ru_latest := if newer r occurred_at event then x else ru_latest r;
     ru_latest_at := Z.max (ru_latest_at r) occurred_at;
     ru_latest_event := if newer r occurred_at event then event else ru_latest_event r |}.

(** The columns of a sample, and the number that enters the rollups. *)
Section turso.
Context `{!SerdeJson}.
Definition sample_row (tenant device : string) (occurred_at : Z) (v : MetricValue) : result PersistenceError SampleRow :=
  let row double int text bool_ json := {| sm_tenant := tenant; sm_device := device; sm_type := value_type v;
    sm_double := double; sm_int := int; sm_text := text; sm_bool := bool_; sm_json := json;
    sm_occurred_at := occurred_at |} in
  match v with
  | VFloat64 x => Ok (row (Some x) None None None None)
  | VInt64 z => Ok (row None (Some z) None None None)
  | VText s => Ok (row None None (Some s) None None)
  | VBoolean b => Ok (row None None None (Some (Z.b2z b)) None)
  | VJson j => text ← map_err PInternal (to_string j); Ok (row None None None None (Some text))
  end.
Definition rollup_number (r : SampleRow) : option f64 :=
  match sm_double r with Some x => Some x | None => f64_of_Z <$> sm_int r end.
End turso.

Definition with_samples (s : EventStore) (m : gmap SampleKey SampleRow) : EventStore :=
  {| es_device := es_device s; es_contracts := es_contracts s; es_assignments := es_assignments s;
     es_retention := es_retention s; es_receipts := es_receipts s; es_events := es_events s; es_samples := m;
     es_rollups := es_rollups s |}.
Definition with_rollups (s : EventStore) (m : gmap RollupKey RollupRow) : EventStore :=
  {| es_device := es_device s; es_contracts := es_contracts s; es_assignments := es_assignments s;
     es_retention := es_retention s; es_receipts := es_receipts s; es_events := es_events s;
     es_samples := es_samples s; es_rollups := m |}.
Definition with_devices (s : EventStore) (d : DeviceStore) : EventStore :=
  {| es_device := d; es_contracts := es_contracts s; es_assignments := es_assignments s;
     es_retention := es_retention s; es_receipts := es_receipts s; es_events := es_events s;
     es_samples := es_samples s; es_rollups := es_rollups s |}.

(** ** Recording an event *)
Section record.
Context `{!Chrono, !Libm, !ChronoMicros, !SerdeJson, !ActionCodec, !SqlText}.

(** INSERT INTO device_metric_rollups_hourly ... SELECT ... FROM device_contracts ... ON CONFLICT DO UPDATE. *)
Definition upsert_rollup (s : EventStore) (tenant device contract stream field event : string) (occurred_at : Z)
    (x : f64) : result PersistenceError EventStore :=
  match es_contracts s !! contract with
  | Some c =>
    if (kr_tenant c =s? tenant) && (kr_device c =s? device) then
      let key := (tenant, device, kr_revision c, stream, field, bucket_start occurred_at) in
      let row := match es_rollups s !! key with
                 | Some r => add_to_rollup r x occurred_at event
                 | None => first_rollup x occurred_at event
                 end in
      if is_nan x || is_nan (ru_sum row) then Err not_null_violation
      else Ok (with_rollups s (<[key := row]> (es_rollups s)))
    else Ok s
  | None => Ok s
  end.
Definition insert_metric (s : EventStore) (tenant device contract event : string) (occurred_at : Z)
    (m : DeviceMetricSample) : result PersistenceError EventStore :=
  row ← sample_row tenant device occurred_at (ms_value m);
  let key := (event, ms_stream m, ms_field m) in
  if bool_decide (is_Some (es_samples s !! key)) then Err unique_violation else
  let s := with_samples s (<[key := row]> (es_samples s)) in
  match rollup_number row with
  | Some x => upsert_rollup s tenant device contract (ms_stream m) (ms_field m) event occurred_at x
  | None => Ok s
  end.
Fixpoint insert_metrics (s : EventStore) (tenant device contract event : string) (occurred_at : Z)
    (ms : list DeviceMetricSample) : result PersistenceError EventStore :=
  match ms with
  | [] => Ok s
  | m :: rest =>
    s ← insert_metric s tenant device contract event occurred_at m;
    insert_metrics s tenant device contract event occurred_at rest
  end.

(** UPDATE device_contract_assignments: the device uses the contract. *)
Definition converge (a : AssignmentRow) (received_at : Z) : AssignmentRow :=
  {| as_desired := as_desired a; as_active := Some (as_desired a); as_status := "converged";
     as_acknowledged_at := Some received_at; as_error := None; as_updated_at := received_at |}.
Definition receipt_row (tenant : string) (e : RecordDeviceEvent) : ReceiptRow :=
  {| rc_tenant := tenant; rc_device := re_device_id e; rc_occurred_at := timestamp_micros (re_occurred_at e);
     rc_received_at := timestamp_micros (re_received_at e) |}.
Definition event_row (tenant payload : string) (e : RecordDeviceEvent) : EventRow :=
  {| ev_tenant := tenant; ev_device := re_device_id e; ev_contract := re_contract_id e; ev_route := re_route_key e;
     ev_occurred_at := timestamp_micros (re_occurred_at e); ev_received_at := timestamp_micros (re_received_at e);
     ev_payload := payload |}.
(** The device and contract the new rows reference. *)
Definition references_ok (s : EventStore) (tenant : string) (e : RecordDeviceEvent) : bool :=
  match es_contracts s !! re_contract_id e with
  | Some c => (kr_tenant c =s? tenant) && (kr_device c =s? re_device_id e)
  | None => false
  end.
Definition device_exists (s : EventStore) (tenant device : string) : bool :=
  bool_decide (is_Some (device_of (es_device s) {| id_tenant := tenant; id_device := device |})).
(** The tables after the receipt, the event and the assignment are written. *)
Definition insert_event (s : EventStore) (tenant payload : string) (a : AssignmentRow) (e : RecordDeviceEvent) : EventStore :=
  {| es_device := es_device s; es_contracts := es_contracts s;
     es_assignments := <[(tenant, re_device_id e) := converge a (timestamp_micros (re_received_at e))]> (es_assignments s);
     es_retention := es_retention s;
     es_receipts := <[re_event_id e := receipt_row tenant e]> (es_receipts s);
     es_events := <[re_event_id e := event_row tenant payload e]> (es_events s);
     es_samples := es_samples s; es_rollups := es_rollups s |}.
(** The transaction: [None] for an event that has a receipt already. *)
Definition record_tx (s : EventStore) (tenant : string) (e : RecordDeviceEvent) (uuid : nat -> string) (now : Z)
    : result PersistenceError (option (nat * EventStore)) :=
  retention ← ok_or (es_retention s) (CorruptData "metric retention state is missing");
  if timestamp_micros (re_occurred_at e) <? retention.2 then Err HistoryExpired else
  a ← ok_or (es_assignments s !! (tenant, re_device_id e)) PNotFound;
  if as_desired a !=s re_contract_id e then Err PNotFound else
  match es_receipts s !! re_event_id e with
  | Some _ => Ok None
  | None =>
    if negb (device_exists s tenant (re_device_id e)) then Err foreign_key_violation else
    payload ← map_err PInternal (to_string (re_payload e));
    if bool_decide (is_Some (es_events s !! re_event_id e)) then Err unique_violation
    else if negb (references_ok s tenant e) then Err foreign_key_violation else
    s1 ← insert_metrics (insert_event s tenant payload a e) tenant (re_device_id e) (re_contract_id e) (re_event_id e)
           (timestamp_micros (re_occurred_at e)) (re_metrics e);
    '(n, d) ← run_rules (es_device s1) tenant (re_device_id e) (Some (re_rule_evaluation e)) uuid now;
    Ok (Some (n, with_devices s1 d))
  end.
Definition repo_record (s : EventStore) (tenant : string) (e : RecordDeviceEvent) (uuid : nat -> string) (now : Z)
    : result PersistenceError RecordDeviceEventOutcome * EventStore :=
  match record_tx s tenant e uuid now with
  | Ok (Some (n, s')) =>
    (Ok {| ro_recorded := true; metrics_recorded := length (re_metrics e); ro_actions_enqueued := n |}, s')
  | Ok None => (Ok {| ro_recorded := false; metrics_recorded := 0; ro_actions_enqueued := 0 |}, s)
  | Err e => (Err e, s)
  end.
End record.

(** ** Pruning *)
Definition keep_event (mark : Z) (r : EventRow) : bool := negb (ev_occurred_at r <? mark).
Definition keep_sample (s : EventStore) (mark : Z) (k : SampleKey) : bool :=
  match es_events s !! k.1.1 with Some r => keep_event mark r | None => true end.
(** DELETE FROM ... WHERE ... < mark; the samples of deleted events go with them. *)
Definition prune_metrics (s : EventStore) (cutoffs : MetricRetentionCutoffs)
    : result PersistenceError MetricPruneOutcome * EventStore :=
  match es_retention s with
  | None => (Err (CorruptData "metric retention state is missing"), s)
  | Some state =>
    let raw := Z.max state.1 (timestamp_micros (raw_retained_since cutoffs)) in
    let rollup := Z.max state.2 (timestamp_micros (rollup_retained_since cutoffs)) in
    let events := filter (fun e => keep_event raw e.2 = true) (es_events s) in
    let rollups := filter (fun e : RollupKey * RollupRow => rollup <= e.1.2) (es_rollups s) in
    let receipts := filter (fun e : string * ReceiptRow => rollup <= rc_occurred_at e.2) (es_receipts s) in
    (Ok {| events_deleted := size (es_events s) - size events; rollups_deleted := size (es_rollups s) - size rollups;
           receipts_deleted := size (es_receipts s) - size receipts |},
     {| es_device := es_device s; es_contracts := es_contracts s; es_assignments := es_assignments s;
        es_retention := Some (raw, rollup); es_receipts := receipts; es_events := events;
        es_samples := filter (fun e => keep_sample s raw e.1 = true) (es_samples s); es_rollups := rollups |})
  end.

(** ** Reading *)
Section reading.
Context `{!ChronoMicros, !SerdeJson}.
(** [TursoDeviceRepository::assigned_contract]. *)
Definition assigned_from (assignments : gmap (string * string) AssignmentRow) (contracts : gmap string ContractRow)
    (tenant device : string) : result PersistenceError (option DeviceContractRecord) :=
  match (a ← assignments !! (tenant, device);
         c ← contracts !! as_desired a;
         if kr_tenant c =s? tenant then Some (a, c) else None) with
  | None => Ok None
  | Some (a, c) =>
    document ← map_err CorruptData (from_str (kr_document c));
    acknowledged ← match as_acknowledged_at a with Some t => Some <$> datetime t | None => Ok None end;
    created ← datetime (kr_created_at c);
    Ok (Some {| dc_id := as_desired a; dc_device_id := kr_device c; dc_blueprint_revision_id := kr_revision c;
                dc_document := document; dc_contract_hash := kr_hash c; dc_assignment_status := as_status a;
                dc_acknowledged_at := acknowledged; dc_error := as_error a; dc_created_at := created |})
  end.
Definition assigned_contract (s : EventStore) (tenant device : string)
    : result PersistenceError (option DeviceContractRecord) :=
  assigned_from (es_assignments s) (es_contracts s) tenant device.

(** CASE value_type WHEN 'float64' THEN value_double WHEN 'int64' THEN CAST(value_int AS REAL) END *)
Definition coordinate (r : SampleRow) : option f64 :=
  if sm_type r =s? "float64" then sm_double r
  else if sm_type r =s? "int64" then f64_of_Z <$> sm_int r
  else None.
(** One row of the joins of [LOCATION_SQL] that passes its WHERE clauses. *)
Definition position (s : EventStore) (tenant device : string) (q : DeviceLocationQuery) (event : string) (e : EventRow)
    : option (string * EventRow * f64 * f64) :=
  a ← es_assignments s !! (tenant, device);
  lat ← es_samples s !! (event, lq_stream_key q, lq_latitude_path q);
  lon ← es_samples s !! (event, lq_stream_key q, lq_longitude_path q);
  let belongs r := (sm_tenant r =s? tenant) && (sm_device r =s? device) && (sm_occurred_at r =? ev_occurred_at e) in
  if (ev_tenant e =s? tenant) && (ev_device e =s? device) && (ev_contract e =s? lq_contract_id q)
     && (as_desired a =s? ev_contract e) && belongs lat && belongs lon
     && (timestamp_micros (lq_since q) <? ev_occurred_at e) && (ev_occurred_at e <=? timestamp_micros (lq_now q))
  then
    latitude ← coordinate lat;
    longitude ← coordinate lon;
    if in_range (f64_of_Z (-90)) (f64_of_Z 90) latitude && in_range (f64_of_Z (-180)) (f64_of_Z 180) longitude
    then Some (event, e, latitude, longitude) else None
  else None.
(** ORDER BY occurred_at DESC, event_id DESC *)
Definition position_le (a b : string * EventRow * f64 * f64) : Prop :=
  ev_occurred_at b.1.1.2 < ev_occurred_at a.1.1.2
  \/ (ev_occurred_at a.1.1.2 = ev_occurred_at b.1.1.2 /\ String.compare a.1.1.1 b.1.1.1 <> Lt).
#[global] Instance position_le_dec a b : Decision (position_le a b).
Proof. unfold position_le. apply _. Defined.
Definition repo_latest_location (s : EventStore) (tenant device : string) (q : DeviceLocationQuery)
    : result PersistenceError (option DeviceLocationRecord) :=
  match merge_sort position_le
          (omap (fun e => position s tenant device q e.1 e.2) (map_to_list (es_events s))) with
  | [] => Ok None
  | (event, e, latitude, longitude) :: _ =>
    let age := timestamp_micros (lq_now q) - timestamp_micros (lq_since q) in
    occurred ← datetime (ev_occurred_at e);
    expires ← datetime (ev_occurred_at e + age);
    Ok (Some {| lr_contract_id := ev_contract e; lr_event_id := event; lr_latitude := latitude;
                lr_longitude := longitude; lr_occurred_at := occurred; lr_expires_at := expires |})
  end.
End reading.

(** ** The order of doubles

    [f64_lt] compares as a lexicographic order on this key, also for numbers
    that are not in normal form. *)
Definition order_key (x : f64) : Z * Z * Z :=
  match x with
  | S754_zero _ | S754_nan => (0, 0, 0)
  | S754_infinity s => (if s then -2 else 2, 0, 0)
  | S754_finite true m e => (-1, -e, Zneg m)
  | S754_finite false m e => (1, e, Zpos m)
  end.
Definition key_lt (a b : Z * Z * Z) : Prop :=
  a.1.1 < b.1.1 \/ (a.1.1 = b.1.1 /\ (a.1.2 < b.1.2 \/ (a.1.2 = b.1.2 /\ a.2 < b.2))).
Lemma f64_lt_key x y :
  is_nan x = false -> is_nan y = false -> f64_lt x y = true <-> key_lt (order_key x) (order_key y).
Proof.
  unfold f64_lt, SFltb, key_lt. intros Hx Hy.
  destruct x as [?|[]| |[] m e], y as [?|[]| |[] m' e']; simpl in *; try done; try (split; [done|lia]); try (split; [lia|done]).
  - destruct (Z.compare_spec e e') as [->|H|H]; simpl; [|split; [done|lia]|split; [lia|done]].
    rewrite Pos.compare_cont_spec. destruct (Pos.compare_spec m m'); simpl; split; try done; lia.
  - destruct (Z.compare_spec e e') as [->|H|H]; simpl; [|split; [lia|done]|split; [done|lia]].
    rewrite Pos.compare_cont_spec. destruct (Pos.compare_spec m m'); simpl; split; try done; lia.
Qed.

(** ** Rollups as aggregates *)
Record Observation := { ob_value : f64; ob_at : Z; ob_event : string }.
Definition observe (acc : option RollupRow) (o : Observation) : option RollupRow :=
  Some match acc with
       | Some r => add_to_rollup r (ob_value o) (ob_at o) (ob_event o)
       | None => first_rollup (ob_value o) (ob_at o) (ob_event o)
       end.
Definition aggregate (l : list Observation) : option RollupRow := fold_left observe l None.

(** An observation that is at least as late as another: a later time, or the
    same time and an event id that is not smaller. *)
Definition as_late (at1 : Z) (ev1 : string) (at2 : Z) (ev2 : string) : Prop :=
  at2 < at1 \/ (at1 = at2 /\ String.compare ev1 ev2 <> Lt).
(** What a rollup says about its observations, without reference to the order they arrived in but for the rounding of the sum. *)
Record summarizes (r : RollupRow) (l : list Observation) : Prop := {
  sum_count : ru_count r = Z.of_nat (length l);
  sum_total : exists o rest, l = o :: rest /\ ru_sum r = fold_left f64_add (map ob_value rest) (ob_value o);
  sum_min : ru_min r ∈ map ob_value l /\ forall o, o ∈ l -> f64_lt (ob_value o) (ru_min r) = false;
  sum_max : ru_max r ∈ map ob_value l /\ forall o, o ∈ l -> f64_lt (ru_max r) (ob_value o) = false;
  sum_latest : {| ob_value := ru_latest r; ob_at := ru_latest_at r; ob_event := ru_latest_event r |} ∈ l
               /\ forall o, o ∈ l -> as_late (ru_latest_at r) (ru_latest_event r) (ob_at o) (ob_event o);
}.

Lemma str_compare_antisym a b : String.compare a b = CompOpp (String.compare b a).
Proof. apply String.compare_antisym. Qed.
Lemma as_late_trans a1 e1 a2 e2 a3 e3 : as_late a1 e1 a2 e2 -> as_late a2 e2 a3 e3 -> as_late a1 e1 a3 e3.
Proof.
  unfold as_late. intros [?|[-> H1]] [?|[-> H2]]; [left; lia|by left|by left|right; split; [done|]].
  intros H3. apply H1. destruct (String.compare e1 e2) eqn:E12; [|done|].
  - apply String.compare_eq_iff in E12 as ->. done.
  - exfalso. apply str_compare_gt in E12. unfold str_lt in E12.
    assert (str_lt e2 e3) as H by exact (str_lt_trans _ _ _ E12 H3). by apply H2.
Qed.
Lemma newer_as_late r at_ ev :
  if newer r at_ ev then as_late at_ ev (ru_latest_at r) (ru_latest_event r)
  else as_late (ru_latest_at r) (ru_latest_event r) at_ ev.
Proof.
  unfold newer, as_late, str_gtb. destruct (Z.ltb_spec (ru_latest_at r) at_); simpl; [by left|].
  destruct (Z.eqb_spec (ru_latest_at r) at_) as [<-|]; simpl; [|left; lia].
  rewrite (str_compare_antisym (ru_latest_event r) ev).
  destruct (String.compare ev (ru_latest_event r)) eqn:E; simpl; right; split; by rewrite ?E.
Qed.
Lemma newer_max r at_ ev : Z.max (ru_latest_at r) at_ = if newer r at_ ev then at_ else ru_latest_at r.
Proof.
  unfold newer. destruct (Z.ltb_spec (ru_latest_at r) at_); simpl; [lia|].
  destruct (Z.eqb_spec (ru_latest_at r) at_) as [<-|]; simpl; [destruct (str_gtb _ _)|]; lia.
Qed.

Lemma summarizes_first o : is_nan (ob_value o) = false -> summarizes (first_rollup (ob_value o) (ob_at o) (ob_event o)) [o].
Proof.
  intros Hn. assert (f64_lt (ob_value o) (ob_value o) = false) as Hirr.
  { apply not_true_iff_false. rewrite f64_lt_key by done. unfold key_lt. lia. }
  constructor; simpl; [done|by exists o, []| | |].
  1, 2: split; [by left|]. 1, 2: intros o' ->%list_elem_of_singleton; done.
  split; [destruct o; by left|]. intros o' ->%list_elem_of_singleton. right. by rewrite str_compare_refl.
Qed.
Lemma summarizes_add r l o :
  Forall (fun o => is_nan (ob_value o) = false) (l ++ [o]) -> summarizes r l ->
  summarizes (add_to_rollup r (ob_value o) (ob_at o) (ob_event o)) (l ++ [o]).
Proof.
  rewrite Forall_app, Forall_singleton. intros [Hl Ho] [Hc (o0 & rest & -> & Ht) [Hm1 Hm2] [Hx1 Hx2] [Hn1 Hn2]].
  rewrite Forall_forall in Hl.
  assert (forall x, x ∈ map ob_value (o0 :: rest) -> is_nan x = false) as Hnan.
  { intros x Hx. apply list_elem_of_fmap in Hx as (o' & -> & Ho'). by apply Hl. }
  constructor.
  - simpl ru_count. rewrite Hc, length_app. simpl. lia.
  - exists o0, (rest ++ [o]). split; [done|]. simpl. by rewrite map_app, fold_left_app, Ht.
  - simpl ru_min. unfold sql_min. rewrite map_app. destruct (f64_lt (ob_value o) (ru_min r)) eqn:E.
    + split; [apply elem_of_app; right; by left|]. intros o' [Ho'| ->%list_elem_of_singleton]%elem_of_app.
      * apply not_true_iff_false. intros Hlt. rewrite f64_lt_key in E, Hlt by auto.
        specialize (Hm2 o' Ho'). apply not_true_iff_false in Hm2. rewrite f64_lt_key in Hm2 by auto.
        apply Hm2. unfold key_lt in *. lia.
      * apply not_true_iff_false. rewrite f64_lt_key by done. unfold key_lt. lia.
    + split; [apply elem_of_app; by left|]. by intros o' [Ho'| ->%list_elem_of_singleton]%elem_of_app; [apply Hm2|].
  - simpl ru_max. unfold sql_max. rewrite map_app. destruct (f64_lt (ru_max r) (ob_value o)) eqn:E.
    + split; [apply elem_of_app; right; by left|]. intros o' [Ho'| ->%list_elem_of_singleton]%elem_of_app.
      * apply not_true_iff_false. intros Hlt. rewrite f64_lt_key in E, Hlt by auto.
        specialize (Hx2 o' Ho'). apply not_true_iff_false in Hx2. rewrite f64_lt_key in Hx2 by auto.
        apply Hx2. unfold key_lt in *. lia.
      * apply not_true_iff_false. rewrite f64_lt_key by done. unfold key_lt. lia.
    + split; [apply elem_of_app; by left|]. by intros o' [Ho'| ->%list_elem_of_singleton]%elem_of_app; [apply Hx2|].
  - cbn [add_to_rollup ru_latest ru_latest_at ru_latest_event]. rewrite (newer_max r (ob_at o) (ob_event o)). pose proof (newer_as_late r (ob_at o) (ob_event o)) as Hlate.
    destruct (newer r (ob_at o) (ob_event o)).
    + split; [apply elem_of_app; right; destruct o; by left|].
      intros o' [Ho'| ->%list_elem_of_singleton]%elem_of_app; [by eapply as_late_trans, Hn2|].
      right. by rewrite str_compare_refl.
    + split; [apply elem_of_app; by left|]. by intros o' [Ho'| ->%list_elem_of_singleton]%elem_of_app; [apply Hn2|].
Qed.
(** The aggregate of a non-empty list of numbers summarizes it. *)
Lemma aggregate_summarizes l r :
  Forall (fun o => is_nan (ob_value o) = false) l -> aggregate l = Some r -> summarizes r l.
Proof.
  unfold aggregate. revert r. induction l as [|o l IH] using rev_ind; intros r Hl; [done|].
  rewrite fold_left_app. simpl. unfold observe. pose proof Hl as [Hl' Ho]%Forall_app. rewrite Forall_singleton in Ho.
  destruct (fold_left _ l None) as [r0|] eqn:E; intros [= <-]; [by apply summarizes_add; [|apply IH]|].
  destruct l as [|o' l _] using rev_ind; [exact (summarizes_first o Ho)|]. rewrite fold_left_app in E. simpl in E. discriminate E.
Qed.
