(* ===== verification/Events.v ===== *)
(** * Event ingress (crates/backend-core/src/application/events.rs,
    application/metric_maintenance.rs)

    An event envelope is admitted against the device's assigned contract: its
    version, id and hash, the route it came on, and the route's schema.  The
    declared fields of the route's streams become typed metrics; numbers among
    them, and the declared location, are what the telemetry rules see. *)
From S2P Require Import Prelude Text Float64 BTree Json Errors Access RuleTypes MetricNumber Geo RuleCache.
From S2P Require Import RuleEvaluate RuleSnapshot Shadows Outbox DeviceIngress EventStore.
From S2P Require Import ContractModel Schema Validation ContractCompiler.

Local Open Scope Z_scope.

(** Code outside the sources: the parser of UUIDs, the derived reader of
    contract documents, error texts. *)
Class EventHost := {
  uuid_valid : string -> bool;
  document_from_value : value -> result string CompiledContractDocument;
  validation_text : ContractError -> string;
}.
(** chrono's checked arithmetic: an instant some milliseconds or days before another. *)
Class ChronoSpans := {
  millis_before : NaiveDateTime -> Z -> option NaiveDateTime;
  days_fit : Z -> bool;
  utc_fits : NaiveDateTime -> bool;
}.

Record EventInput := {
  ei_api_version : Z; ei_event_id : string; ei_contract_hash : string; ei_occurred_at : NaiveDateTime;
  ei_payload : value; ei_encoded_size : Z;
}.

(** ** Metric extraction *)
Definition metric_value (t : FieldValueType) (v : value) : option MetricValue :=
  match t with
  | Float64 => VFloat64 <$> as_f64 v
  | Int64 => VInt64 <$> as_i64 v
  | FString => VText <$> as_str v
  | FBoolean => VBoolean <$> as_bool v
  | FJson => Some (VJson v)
  end.
Definition metric_number (v : MetricValue) : option MetricNumber :=
  match v with VFloat64 x => Some (MFloat x) | VInt64 z => Some (MInteger z) | _ => None end.
Definition rule_key (stream field : string) : string :=
  Selector.field_key {| Selector.stream_key := stream; Selector.field_path := field |}.
(** [metrics] and [rule_metrics]. *)
Notation Extracted := (list DeviceMetricSample * list (string * MetricNumber))%type.
Definition push_metric (acc : Extracted) (stream field : string) (v : MetricValue) : Extracted :=
  (acc.1 ++ [{| ms_stream := stream; ms_field := field; ms_value := v |}],
   match metric_number v with Some n => bt_insert (rule_key stream field) n acc.2 | None => acc.2 end).
Fixpoint extract_fields (stream : string) (payload : value) (fields : list (string * CompiledField)) (acc : Extracted)
    : result ApplicationError Extracted :=
  match fields with
  | [] => Ok acc
  | (path, f) :: rest =>
    match pointer path payload with
    | None => extract_fields stream payload rest acc
    | Some v =>
      v ← ok_or (metric_value (cfd_value_type f) v)
            (InvalidInput ("Metric '" +:+ path +:+ "' does not match its contract type"));
      extract_fields stream payload rest (push_metric acc stream path v)
    end
  end.
Fixpoint extract_streams (route_key : string) (payload : value) (streams : list (string * CompiledStream)) (acc : Extracted)
    : result ApplicationError Extracted :=
  match streams with
  | [] => Ok acc
  | (key, st) :: rest =>
    if cst_route st !=s route_key then extract_streams route_key payload rest acc
    else acc ← extract_fields key payload (cst_fields st) acc; extract_streams route_key payload rest acc
  end.

(** ** Admission *)
(** [with_nanosecond(nanosecond() / 1_000 * 1_000)]. *)
Definition floor_micros (t : NaiveDateTime) : NaiveDateTime := t / 1000 * 1000.
(** [signed_duration_since(..).num_milliseconds()]: towards zero. *)
Definition millis_between (later earlier : NaiveDateTime) : Z := Z.quot (later - earlier) 1000000.

Section application.
Context `{!Chrono, !Libm, !ChronoMicros, !SerdeJson, !ActionCodec, !SqlText, !EventHost, !ChronoSpans}.

Definition stored_document (document : value) : result ApplicationError CompiledContractDocument :=
  map_err (fun m => Internal ("Stored device contract is invalid: " +:+ m)) (document_from_value document).
(** The checks of [EventIngressApplication::record] up to the payload. *)
Definition accept_event (s : EventStore) (tenant device route_key : string) (envelope : EventInput)
    : result ApplicationError (DeviceContractRecord * CompiledContractDocument) :=
  if negb (ei_api_version envelope =? 1) || negb (uuid_valid (ei_event_id envelope))
  then Err (InvalidInput "Unsupported event envelope version or invalid event ID") else
  assigned ← map_err Persistence (assigned_contract s tenant device);
  assigned ← ok_or assigned (NotFound "Device has no assigned contract");
  if ei_contract_hash envelope !=s dc_contract_hash assigned
  then Err (InvalidInput "Event was produced from an unassigned contract") else
  contract ← stored_document (dc_document assigned);
  if (doc_device_id contract !=s device) || (cr_max_message_bytes (doc_runtime contract) <? ei_encoded_size envelope)
  then Err (InvalidInput "Event violates contract identity or size limit") else
  route ← ok_or
    (r ← bt_get route_key (doc_routes contract);
     if bool_decide (cr_direction r = DeviceToCloud) && bool_decide (cr_encoding r = EncJson) then Some r else None)
    (InvalidInput "Event route is not declared as device-to-cloud JSON");
  schema ← ok_or
    (sc ← bt_get (cr_message_schema route) (doc_schemas contract);
     if bool_decide (cs_format sc = JsonSchema) then Some sc else None)
    (InvalidInput "Event route does not reference a JSON Schema");
  _ ← map_err (fun e => InvalidInput ("Event payload failed contract validation: " +:+ validation_text e))
        (validate_instance (cs_schema schema) (ei_payload envelope));
  Ok (assigned, contract).
(** The rest of it up to the repository's [record]. *)
Definition prepare_event (s : EventStore) (tenant device route_key : string) (envelope : EventInput) (snap : RuleCache)
    (now : NaiveDateTime) : result ApplicationError RecordDeviceEvent :=
  '(assigned, contract) ← accept_event s tenant device route_key envelope;
  '(metrics, rule_metrics) ← extract_streams route_key (ei_payload envelope) (doc_streams contract) ([], []);
  let received_at := floor_micros now in
  let occurred_at := floor_micros (ei_occurred_at envelope) in
  let location := event_location contract route_key (ei_payload envelope) (millis_between received_at occurred_at) in
  identity ← map_err (fun e => InvalidInput (identity_error_text e)) (identity_new tenant device);
  context ← map_err Persistence (ingress_context (es_device s) identity);
  context ← ok_or context (NotFound ("Device '" +:+ device +:+ "' not found"));
  Ok {| re_event_id := ei_event_id envelope; re_device_id := device; re_contract_id := dc_id assigned;
        re_route_key := route_key; re_occurred_at := occurred_at; re_received_at := received_at;
        re_payload := ei_payload envelope; re_metrics := metrics;
        re_rule_evaluation :=
          {| snapshot := snap; dre_tenant := tenant; dre_device := device; dre_fleet_id := ic_fleet_id context;
             dre_blueprint_id := ic_blueprint_id context;
             dre_blueprint_revision_id := Some (dc_blueprint_revision_id assigned);
             input := InputTelemetry
               {| latitude := fst <$> location; longitude := snd <$> location; metrics := rule_metrics |}
               (bool_decide (is_Some location));
             observed_at := received_at |} |}.
Definition record (s : EventStore) (tenant device route_key : string) (envelope : EventInput) (snap : RuleCache)
    (now : NaiveDateTime) (uuid : nat -> string) (written : Z)
    : result ApplicationError RecordDeviceEventOutcome * EventStore :=
  match prepare_event s tenant device route_key envelope snap now with
  | Err e => (Err e, s)
  | Ok e =>
    let '(r, s') := repo_record s tenant e uuid written in
    (map_err (fun e => match e with
                       | HistoryExpired => InvalidOperation "Event occurred before retained metric history"
                       | other => Persistence other
                       end) r, s')
  end.

(** ** Routing *)
Inductive ContractIngressRoute :=
| CommandResponseRoute | JsonEventRoute (route_key : string) | UnsupportedRoute (route_key : string).
Definition ingress_address (address : string) (e : string * CompiledRoute) : bool :=
  bool_decide (cr_direction e.2 = DeviceToCloud) && (cr_address e.2 =s? address).
Definition resolve (s : EventStore) (i : DeviceIdentity) (address : string)
    : result ApplicationError (option ContractIngressRoute) :=
  assigned ← map_err Persistence (assigned_contract s (id_tenant i) (id_device i));
  match assigned with
  | None => Ok None
  | Some assigned =>
    contract ← stored_document (dc_document assigned);
    match List.find (ingress_address address) (doc_routes contract) with
    | None => Ok None
    | Some (route_key, route) =>
      Ok (Some
        (if existsb (fun c => cc_response_route c =s? route_key) (bt_values (doc_commands contract))
         then CommandResponseRoute
         else if bool_decide (cr_encoding route = EncJson) then JsonEventRoute route_key
         else UnsupportedRoute route_key))
    end
  end.

(** ** Locations *)
Definition latest_location (s : EventStore) (ctx : TenantContext) (device : string) (now : NaiveDateTime)
    : result ApplicationError (option DeviceLocationRecord) :=
  _ ← require_permission ctx ReadTelemetry;
  assigned ← map_err Persistence (assigned_contract s (ctx_tenant ctx) device);
  assigned ← ok_or assigned (NotFound ("Device '" +:+ device +:+ "' has no assigned contract"));
  contract ← stored_document (dc_document assigned);
  if doc_device_id contract !=s device then Err (Internal "Stored contract identity mismatch") else
  match doc_location contract with
  | None => Ok None
  | Some binding =>
    since ← ok_or (if max_age_ms binding <=? Int.i64_max then millis_before now (max_age_ms binding) else None)
              (Internal "Location freshness is outside the supported range");
    map_err Persistence (repo_latest_location s (ctx_tenant ctx) device
      {| lq_contract_id := dc_id assigned; lq_stream_key := cl_stream binding;
         lq_latitude_path := cl_latitude_path binding; lq_longitude_path := cl_longitude_path binding;
         lq_since := since; lq_now := now |})
  end.

(** ** Retention *)
Definition NANOS_PER_DAY : Z := 86400000000000.
Definition retention_floor (now : NaiveDateTime) (days : Z) : result ApplicationError NaiveDateTime :=
  if negb ((days <=? Int.i64_max) && days_fit days) then Err (InvalidInput "Metric retention is too large") else
  let cutoff := now - days * NANOS_PER_DAY in
  if negb (utc_fits cutoff) then Err (InvalidInput "Metric retention cutoff is out of range") else
  let hour := cutoff / 1000000000 / 3600 * 3600 * 1000000000 in
  if negb (utc_fits hour) then Err (InvalidInput "Metric retention cutoff is out of range") else Ok hour.
Definition retention_cutoffs (raw_days rollup_days : Z) (now : NaiveDateTime)
    : result ApplicationError MetricRetentionCutoffs :=
  if (raw_days =? 0) || (rollup_days <? raw_days)
  then Err (InvalidInput "Metric rollup retention must be at least the positive raw retention period") else
  raw ← retention_floor now raw_days;
  rollup ← retention_floor now rollup_days;
  Ok {| raw_retained_since := raw; rollup_retained_since := rollup |}.
Definition prune (s : EventStore) (raw_days rollup_days : Z) (now : NaiveDateTime)
    : result ApplicationError MetricPruneOutcome * EventStore :=
  match retention_cutoffs raw_days rollup_days now with
  | Err e => (Err e, s)
  | Ok cutoffs => let '(r, s') := prune_metrics s cutoffs in (map_err Persistence r, s')
  end.
End application.

(** ** What extraction yields *)
(** A sample the contract declares on the route and the payload carries, and its value's type in the contract. *)
Definition declared (streams : list (string * CompiledStream)) (route_key : string) (payload : value)
    (stream path : string) (t : FieldValueType) (v : value) : Prop :=
  exists st f, (stream, st) ∈ streams /\ cst_route st = route_key /\ (path, f) ∈ cst_fields st
    /\ cfd_value_type f = t /\ pointer path payload = Some v.
Definition sample_at (stream path : string) (v : MetricValue) : DeviceMetricSample :=
  {| ms_stream := stream; ms_field := path; ms_value := v |}.
Definition field_sample (stream : string) (payload : value) (e : string * CompiledField) : option DeviceMetricSample :=
  v ← pointer e.1 payload; sample_at stream e.1 <$> metric_value (cfd_value_type e.2) v.
Definition stream_samples (route_key : string) (payload : value) (e : string * CompiledStream) : list DeviceMetricSample :=
  if cst_route e.2 !=s route_key then [] else omap (field_sample e.1 payload) (cst_fields e.2).
Definition sample_number (m : DeviceMetricSample) : option (string * MetricNumber) :=
  pair (rule_key (ms_stream m) (ms_field m)) <$> metric_number (ms_value m).
Definition push_all (acc : Extracted) (ms : list DeviceMetricSample) : Extracted :=
  (acc.1 ++ ms, fold_left (fun m e => bt_insert e.1 e.2 m) (omap sample_number ms) acc.2).

Lemma push_metric_all acc stream path v ms :
  push_all (push_metric acc stream path v) ms = push_all acc (sample_at stream path v :: ms).
Proof. unfold push_all, push_metric, sample_number. simpl. rewrite <- app_assoc. by destruct (metric_number v). Qed.
Lemma push_all_app acc ms1 ms2 : push_all (push_all acc ms1) ms2 = push_all acc (ms1 ++ ms2).
Proof. unfold push_all. simpl. by rewrite <- app_assoc, omap_app, fold_left_app. Qed.
Lemma push_all_nil acc : push_all acc [] = acc.
Proof. destruct acc. unfold push_all. simpl. by rewrite app_nil_r. Qed.

Lemma extract_fields_spec stream payload fields acc acc' :
  extract_fields stream payload fields acc = Ok acc'
  <-> (forall path f v, (path, f) ∈ fields -> pointer path payload = Some v -> metric_value (cfd_value_type f) v <> None)
      /\ acc' = push_all acc (omap (field_sample stream payload) fields).
Proof.
  revert acc. induction fields as [|[path f] fields IH]; intros acc; simpl.
  { rewrite push_all_nil. split; [intros [= <-]; split; [|done]; intros ? ? ? H; by apply elem_of_nil in H|naive_solver]. }
  setoid_rewrite elem_of_cons. unfold field_sample at 1. simpl. destruct (pointer path payload) as [v|] eqn:Hv; simpl.
  2: { rewrite IH. split; [intros [H ->]|intros [H ->]]; split; try done; [|naive_solver].
       intros p' f' v' [[= -> ->]|Hin] Hp; [congruence|by eapply H]. }
  destruct (metric_value (cfd_value_type f) v) as [mv|] eqn:Hm; simpl.
  - rewrite IH, push_metric_all. split; [intros [H ->]|intros [H ->]]; split; try done; [|naive_solver].
    intros p' f' v' [[= -> ->]|Hin] Hp; [congruence|by eapply H].
  - split; [done|]. intros [H _]. exfalso. eapply H; [by left|done|done].
Qed.
Lemma extract_streams_spec route_key payload streams acc acc' :
  extract_streams route_key payload streams acc = Ok acc'
  <-> (forall stream path t v, declared streams route_key payload stream path t v -> metric_value t v <> None)
      /\ acc' = push_all acc (streams ≫= stream_samples route_key payload).
Proof.
  revert acc. induction streams as [|[key st] streams IH]; intros acc; simpl.
  { rewrite push_all_nil. split; [intros [= <-]; split; [|done]|naive_solver].
    intros ? ? ? ? (? & ? & H & _). by apply elem_of_nil in H. }
  assert (forall stream path t v, declared ((key, st) :: streams) route_key payload stream path t v
    <-> (stream = key /\ cst_route st = route_key /\ exists f, (path, f) ∈ cst_fields st /\ cfd_value_type f = t
         /\ pointer path payload = Some v) \/ declared streams route_key payload stream path t v) as Hd.
  { intros. unfold declared. setoid_rewrite elem_of_cons. split.
    - intros (st' & f & [[= -> ->]|Hin] & Hr & Hf & Ht & Hv); [left; eauto 7|right; by exists st', f].
    - intros [(-> & Hr & f & Hf & Ht & Hv)|(st' & f & Hin & H)]; [exists st, f|exists st', f]; auto. }
  setoid_rewrite Hd. unfold stream_samples at 1. simpl.
  destruct (String.eqb_spec (cst_route st) route_key) as [E|E]; simpl.
  - rewrite bind_ok. setoid_rewrite extract_fields_spec. setoid_rewrite IH. split.
    + intros (acc1 & [H1 ->] & H2 & ->). rewrite push_all_app. split; [|done].
      intros stream path t v [(-> & _ & f & Hf & <- & Hv)|H]; [by eapply H1|by eapply H2].
    + intros [H ->]. eexists. split; [split; [|done]|split; [|by rewrite push_all_app]]; [|eauto].
      intros path f v Hf Hv. apply (H key path). left. eauto 6.
  - rewrite IH. split; intros [H ->]; split; try done; [|eauto].
    intros stream path t v [(_ & ? & _)|H']; [done|by eapply H].
Qed.

Lemma extract_fields_err stream payload fields acc e :
  extract_fields stream payload fields acc = Err e ->
  exists path f v, (path, f) ∈ fields /\ pointer path payload = Some v /\ metric_value (cfd_value_type f) v = None.
Proof.
  revert acc. induction fields as [|[path f] fields IH]; intros acc; simpl; [done|].
  destruct (pointer path payload) as [v|] eqn:Hv.
  - destruct (metric_value (cfd_value_type f) v) as [mv|] eqn:Hm; simpl; [|intros _; exists path, f, v; split; [by left|done]].
    intros (p & f' & v' & Hin & H)%IH. exists p, f', v'. split; [by right|done].
  - intros (p & f' & v' & Hin & H)%IH. exists p, f', v'. split; [by right|done].
Qed.
Lemma extract_streams_err route_key payload streams acc e :
  extract_streams route_key payload streams acc = Err e ->
  exists stream path t v, declared streams route_key payload stream path t v /\ metric_value t v = None.
Proof.
  assert (forall (s : string * CompiledStream) ss stream path t v, declared ss route_key payload stream path t v ->
    declared (s :: ss) route_key payload stream path t v) as Hmore.
  { intros s ss stream path t v (st & f & Hin & H). exists st, f. split; [by right|done]. }
  revert acc. induction streams as [|[key st] streams IH]; intros acc; simpl; [done|].
  destruct (String.eqb_spec (cst_route st) route_key) as [E|E]; simpl.
  - intros [H|(acc1 & _ & H)]%bind_err.
    + apply extract_fields_err in H as (path & f & v & Hf & Hv & Hm).
      exists key, path, (cfd_value_type f), v. split; [|done]. exists st, f. split; [by left|done].
    + apply IH in H as (stream & path & t & v & H & Hm). exists stream, path, t, v. auto.
  - intros (stream & path & t & v & H & Hm)%IH. exists stream, path, t, v. auto.
Qed.

(** The keys of a contract's streams and fields. *)
Definition metric_keys_ok (streams : list (string * CompiledStream)) : Prop :=
  bt_sorted streams
  /\ forall stream st, (stream, st) ∈ streams -> Selector.stream_ok stream = true /\ bt_sorted (cst_fields st)
       /\ forall path f, (path, f) ∈ cst_fields st -> exists p, path = "/" +:+ p.
Lemma compiled_keys_ok b c d :
  blueprint_ok b -> compile_document b c = Return d -> metric_keys_ok (doc_streams d).
Proof.
  intros Hb (_ & es & cmds & config & i & o & loc & _ & _ & _ & _ & _ & _ & _ & ->)%compile_document_inv.
  unfold assemble. cbn [doc_streams]. split; [apply bt_collect_sorted|]. intros stream st Hin.
  apply bt_get_elem, stream_get in Hin as (sd & Hsd & [= <- <-]); [|done|apply bt_collect_sorted].
  destruct (bp_streams _ Hb sd Hsd) as (Hk & _ & _ & Hf). cbn [cst_fields]. split_and!; [exact Hk|apply bt_collect_sorted|].
  intros path f Hp. apply bt_get_elem, bt_collect_elem in Hp; [|apply bt_collect_sorted].
  apply list_elem_of_fmap in Hp as (fd & [= -> ->] & Hfd). destruct (Hf fd Hfd) as (Hpath & _).
  unfold is_json_pointer in Hpath. apply andb_true_iff in Hpath as [Hs _]. apply starts_with_true in Hs as [r ->]. by exists r.
Qed.

Lemma elem_of_samples streams route_key payload m :
  m ∈ streams ≫= stream_samples route_key payload
  <-> exists t v, declared streams route_key payload (ms_stream m) (ms_field m) t v /\ metric_value t v = Some (ms_value m).
Proof.
  rewrite list_elem_of_bind. split.
  - intros ([key st] & Hm & Hst). unfold stream_samples in Hm. simpl in Hm.
    destruct (String.eqb_spec (cst_route st) route_key); simpl in Hm; [|by apply elem_of_nil in Hm].
    apply list_elem_of_omap in Hm as ([path f] & Hf & Hs). unfold field_sample in Hs. simpl in Hs.
    destruct (pointer path payload) as [v|] eqn:Hv; [|done]. simpl in Hs.
    destruct (metric_value _ v) as [mv|] eqn:Hm; simplify_eq/=. exists (cfd_value_type f), v. split; [|done].
    by exists st, f.
  - intros (t & v & (st & f & Hst & Hr & Hf & <- & Hv) & Hm). exists (ms_stream m, st). split; [|done].
    unfold stream_samples. simpl. rewrite Hr, String.eqb_refl. simpl. apply list_elem_of_omap.
    exists (ms_field m, f). split; [done|]. unfold field_sample. simpl. rewrite Hv. simpl. rewrite Hm. by destruct m.
Qed.
Definition sample_id (m : DeviceMetricSample) : string * string := (ms_stream m, ms_field m).
Lemma elem_of_field_samples key payload fs m :
  m ∈ omap (field_sample key payload) fs -> ms_stream m = key /\ ms_field m ∈ fs.*1.
Proof.
  intros ([path f] & Hin & H)%list_elem_of_omap. unfold field_sample in H.
  apply bind_Some in H as (v & _ & H). apply fmap_Some in H as (mv & _ & ->). split; [done|].
  apply list_elem_of_fmap. by exists (path, f).
Qed.
Lemma field_samples_NoDup key payload fs :
  NoDup fs.*1 -> NoDup (map sample_id (omap (field_sample key payload) fs)).
Proof.
  induction fs as [|[path f] fs IH]; intros H; [constructor|]. inversion H as [|? ? Hp Hf]; subst. simpl.
  destruct (field_sample key payload (path, f)) as [m|] eqn:E; [|by apply IH]. simpl. constructor; [|by apply IH].
  intros (m' & Heq & Hm')%list_elem_of_fmap. apply elem_of_field_samples in Hm' as [_ Hm']. apply Hp.
  destruct (elem_of_field_samples key payload [(path, f)] m) as [_ Hm]; [simpl; rewrite E; by left|].
  apply list_elem_of_singleton in Hm. simpl in Hm. unfold sample_id in Heq. injection Heq as _ Hff.
  by rewrite <- Hm, Hff.
Qed.
Lemma samples_NoDup streams route_key payload :
  metric_keys_ok streams -> NoDup (map sample_id (streams ≫= stream_samples route_key payload)).
Proof.
  intros [Hs Hk]. apply bt_sorted_keys_NoDup in Hs. unfold bt_keys in Hs.
  assert (forall e m, m ∈ stream_samples route_key payload e -> ms_stream m = e.1) as Hstream.
  { intros e m. unfold stream_samples. destruct (negb _); [by intros ?%elem_of_nil|].
    by intros [? _]%elem_of_field_samples. }
  induction streams as [|[key st] streams IH]; [constructor|]. cbn [mbind list_bind]. rewrite map_app.
  inversion Hs as [|? ? Hnew Hs']; subst. apply NoDup_app. split_and!.
  - unfold stream_samples. simpl. destruct (negb _); [constructor|]. apply field_samples_NoDup.
    destruct (Hk key st) as (_ & Hf & _); [by left|]. by apply bt_sorted_keys_NoDup.
  - intros x (m & -> & Hm)%list_elem_of_fmap (m' & Heq & Hm')%list_elem_of_fmap.
    apply list_elem_of_bind in Hm' as ([key' st'] & Hm' & Hin). apply Hstream in Hm, Hm'. simpl in *.
    apply Hnew. apply list_elem_of_fmap. exists (key', st'). split; [|done]. simpl. unfold sample_id in Heq. congruence.
  - apply IH; try done. intros stream st' Hin. apply Hk. by right.
Qed.

(** Distinct declarations have distinct rule keys, so no number hides another. *)
Lemma numbers_NoDup streams route_key payload :
  metric_keys_ok streams -> NoDup (omap sample_number (streams ≫= stream_samples route_key payload)).*1.
Proof.
  intros Hk. pose proof (samples_NoDup _ route_key payload Hk) as Hnd.
  assert (forall m, m ∈ streams ≫= stream_samples route_key payload ->
    Selector.stream_ok (ms_stream m) = true /\ exists p, ms_field m = "/" +:+ p) as Hok.
  { intros m (t & v & (st & f & Hst & _ & Hf & _) & _)%elem_of_samples. destruct Hk as [_ Hk].
    destruct (Hk _ _ Hst) as (Hs & _ & Hp). eauto. }
  induction (streams ≫= stream_samples route_key payload) as [|m ms IH]; [constructor|].
  inversion Hnd as [|? ? Hm Hms]; subst. simpl. unfold sample_number at 1.
  assert (NoDup (omap sample_number ms).*1) as Hrest by (apply IH; [done|]; intros; apply Hok; by right).
  destruct (metric_number (ms_value m)) as [n|]; [|done]. simpl. constructor; [|done].
  intros (e & He & Hin)%list_elem_of_fmap. apply list_elem_of_omap in Hin as (m' & Hm' & E).
  unfold sample_number in E. apply fmap_Some in E as (n' & _ & ->). simpl in He.
  destruct (Hok m) as (H1 & p1 & E1); [by left|]. destruct (Hok m') as (H2 & p2 & E2); [by right|].
  unfold rule_key in He. rewrite E1, E2 in He. apply Selector.field_key_injective in He as [Hs Hp]; [|done|done].
  apply Hm. apply list_elem_of_fmap. exists m'. split; [|done]. unfold sample_id. rewrite E1, E2. congruence.
Qed.

(** Metric extraction is exact, for a contract compiled from a validated
    blueprint: it succeeds unless a declared field that the payload carries
    has another type; the samples are exactly the declared fields of the
    route's streams that the payload carries, each once, with its typed value;
    and the rules see exactly the numbers among them, each under its own key. *)
Theorem extraction_exact b0 b c d route_key payload :
  validate_blueprint b0 = Ok b -> compile_document b c = Return d ->
  let declares := declared (doc_streams d) route_key payload in
  match extract_streams route_key payload (doc_streams d) ([], []) with
  | Ok (ms, numbers) =>
    NoDup (map sample_id ms)
    /\ (forall m, m ∈ ms <-> exists t v, declares (ms_stream m) (ms_field m) t v /\ metric_value t v = Some (ms_value m))
    /\ (forall stream path t v, declares stream path t v -> exists x, metric_value t v = Some x)
    /\ (forall key n, bt_get key numbers = Some n
         <-> exists m, m ∈ ms /\ key = rule_key (ms_stream m) (ms_field m) /\ metric_number (ms_value m) = Some n)
  | Err _ => exists stream path t v, declares stream path t v /\ metric_value t v = None
  end.
Proof.
  intros [Hb ->]%validate_blueprint_ok Hd declares. pose proof (compiled_keys_ok _ _ _ Hb Hd) as Hk.
  destruct (extract_streams _ _ _ _) as [[ms numbers]|e] eqn:E.
  - apply extract_streams_spec in E as [Hty [= -> ->]]. split_and!.
    + by apply samples_NoDup.
    + intros m. apply elem_of_samples.
    + intros stream path t v H. destruct (metric_value t v) eqn:Em; [eauto|]. by destruct (Hty _ _ _ _ H).
    + intros key n. change (fold_left _ ?l []) with (bt_collect l). split.
      * intros (m & Hm & (n' & Hn & [= -> ->])%fmap_Some)%bt_collect_elem%list_elem_of_omap. eauto.
      * intros (m & Hm & -> & Hn). apply bt_collect_get; [by apply numbers_NoDup|].
        apply list_elem_of_omap. exists m. split; [done|]. unfold sample_number. by rewrite Hn.
  - by apply extract_streams_err in E.
Qed.
