(* ===== verification/EventHistory.v ===== *)
(** * Histories of recorded events

    What the event tables hold after any sequence of recorded events (also
    late, repeated and out of order), prunes and other work: rollups are the
    aggregates of everything that was ever accepted, however long its raw
    samples have been gone, and no event is processed twice. *)
From S2P Require Import Prelude Text Float64 BTree Json Errors Access RuleTypes MetricNumber Geo RuleCache.
From S2P Require Import RuleEvaluate RuleSnapshot Shadows Outbox DeviceIngress EventStore.
From S2P Require Import ContractModel Schema Validation ColdRoom ContractCompiler Events.
From stdpp Require Import relations.

Local Open Scope Z_scope.

(** ** The effect of one recording *)
Definition number_of (v : MetricValue) : option f64 :=
  match v with VFloat64 x => Some x | VInt64 z => Some (f64_of_Z z) | _ => None end.
(** The rollup entries of an event's samples, under its contract's revision. *)
Definition entry_of (tenant revision : string) (e : RecordDeviceEvent) (m : DeviceMetricSample)
    : option (RollupKey * Observation) :=
  let at_ := timestamp_micros (re_occurred_at e) in
  x ← number_of (ms_value m);
  Some ((tenant, re_device_id e, revision, ms_stream m, ms_field m, bucket_start at_),
        {| ob_value := x; ob_at := at_; ob_event := re_event_id e |}).
Definition entries (tenant revision : string) (e : RecordDeviceEvent) : list (RollupKey * Observation) :=
  omap (entry_of tenant revision e) (re_metrics e).
Definition add_entry (t : gmap RollupKey RollupRow) (e : RollupKey * Observation) : gmap RollupKey RollupRow :=
  <[e.1 := match t !! e.1 with
           | Some r => add_to_rollup r (ob_value e.2) (ob_at e.2) (ob_event e.2)
           | None => first_rollup (ob_value e.2) (ob_at e.2) (ob_event e.2)
           end]> t.
Definition observations (k : RollupKey) (es : list (RollupKey * Observation)) : list Observation :=
  (List.filter (fun e => bool_decide (e.1 = k)) es).*2.
Lemma observations_app k l1 l2 : observations k (l1 ++ l2) = observations k l1 ++ observations k l2.
Proof. unfold observations. by rewrite List.filter_app, fmap_app. Qed.
Lemma add_entries_lookup es t k : fold_left add_entry es t !! k = fold_left observe (observations k es) (t !! k).
Proof.
  revert t. induction es as [|[k' o] es IH]; intros t; [done|]. simpl. rewrite IH. unfold observations. simpl.
  unfold add_entry. simpl. destruct (decide (k' = k)) as [->|Hne].
  - rewrite bool_decide_eq_true_2, lookup_insert_eq by done. simpl. by destruct (t !! k).
  - by rewrite bool_decide_eq_false_2, lookup_insert_ne.
Qed.

Section effects.
Context {chr : Chrono} {libm : Libm} {micros : ChronoMicros} {codec : SerdeJson} {actions_codec : ActionCodec}
  {sql : SqlText}.

Definition sample_key (e : RecordDeviceEvent) (m : DeviceMetricSample) : SampleKey :=
  (re_event_id e, ms_stream m, ms_field m).
Definition stored_sample (tenant : string) (e : RecordDeviceEvent) (m : DeviceMetricSample)
    : result PersistenceError SampleRow :=
  sample_row tenant (re_device_id e) (timestamp_micros (re_occurred_at e)) (ms_value m).
Lemma sample_row_number tenant device at_ v row : sample_row tenant device at_ v = Ok row -> rollup_number row = number_of v.
Proof. destruct v; simpl; [intros [= <-]; done..|]. by intros (text & _ & [= <-])%bind_ok. Qed.

(** What [insert_metrics] does to the tables: samples and rollups only. *)
Definition metrics_effect (tenant : string) (e : RecordDeviceEvent) (revision : string) (ms : list DeviceMetricSample)
    (s s' : EventStore) : Prop :=
  s' = with_rollups (with_samples s (es_samples s')) (es_rollups s')
  /\ es_rollups s' = fold_left add_entry (omap (entry_of tenant revision e) ms) (es_rollups s)
  /\ (forall k row, es_samples s' !! k = Some row
      <-> es_samples s !! k = Some row \/ exists m, m ∈ ms /\ k = sample_key e m /\ stored_sample tenant e m = Ok row)
  /\ (forall m, m ∈ ms -> exists row, stored_sample tenant e m = Ok row)
  /\ Forall (fun en => is_nan (ob_value en.2) = false) (omap (entry_of tenant revision e) ms).

Lemma insert_metric_effect s tenant e c m s' :
  es_contracts s !! re_contract_id e = Some c -> kr_tenant c = tenant -> kr_device c = re_device_id e ->
  insert_metric s tenant (re_device_id e) (re_contract_id e) (re_event_id e) (timestamp_micros (re_occurred_at e)) m = Ok s' ->
  metrics_effect tenant e (kr_revision c) [m] s s'.
Proof.
  intros Hc Ht Hd H. unfold insert_metric in H. apply bind_ok in H as (row & Hrow & H).
  pose proof (sample_row_number _ _ _ _ _ Hrow) as Hn. case_bool_decide as Hfree; [done|].
  set (s1 := with_samples s _) in H. unfold metrics_effect. simpl.
  assert (forall s2, s2 = with_rollups s1 (es_rollups s2) ->
    (forall k row, es_samples s2 !! k = Some row <-> es_samples s !! k = Some row \/ exists m',
       m' ∈ [m] /\ k = sample_key e m' /\ stored_sample tenant e m' = Ok row)
    /\ (forall m', m' ∈ [m] -> exists row, stored_sample tenant e m' = Ok row)) as Hs.
  { intros s2 ->. simpl. split.
    - intros k row'. change (re_event_id e, ms_stream m, ms_field m) with (sample_key e m). split.
      + intros [[<- <-]|[Hne Hk]]%lookup_insert_Some; [right|by left]. exists m. split_and!; [by left|done|done].
      + intros [Hk|(m' & ->%list_elem_of_singleton & -> & Hm')].
        * rewrite lookup_insert_ne; [done|]. intros <-. apply Hfree. by exists row'.
        * unfold stored_sample in Hm'. rewrite Hrow in Hm'. simplify_eq. apply lookup_insert_eq.
    - intros m' ->%list_elem_of_singleton. by exists row. }
  unfold entry_of at 1 2. rewrite <- Hn. destruct (rollup_number row) as [x|]; simpl in H |- *.
  - unfold upsert_rollup in H. simpl in H. rewrite Hc, Ht, Hd, !String.eqb_refl in H. simpl in H.
    match type of H with (if ?c then _ else _) = _ => destruct c eqn:Hnan; [done|] end.
    apply orb_false_iff in Hnan as [Hx _].
    assert (s' = with_rollups s1 (es_rollups s')) as E by (by injection H as <-).
    destruct (Hs s' E) as [Hs1 Hs2]. injection H as <-.
    split_and!; [done|done|done|done|]. by apply Forall_singleton.
  - injection H as <-. destruct (Hs s1 eq_refl) as [Hs1 Hs2]. split_and!; [done|done|done|done|constructor].
Qed.
Lemma insert_metrics_effect s tenant e c ms s' :
  es_contracts s !! re_contract_id e = Some c -> kr_tenant c = tenant -> kr_device c = re_device_id e ->
  insert_metrics s tenant (re_device_id e) (re_contract_id e) (re_event_id e) (timestamp_micros (re_occurred_at e)) ms = Ok s' ->
  metrics_effect tenant e (kr_revision c) ms s s'.
Proof.
  intros Hc Ht Hd. revert s Hc. induction ms as [|m ms IH]; intros s Hc H; simpl in H.
  { simplify_eq. split_and!; [by destruct s'|done| |by intros ? ?%elem_of_nil|constructor].
    intros k row. split; [by left|]. intros [?|(m & Hm & _)]; [done|by apply elem_of_nil in Hm]. }
  apply bind_ok in H as (s1 & H1 & H2).
  pose proof (insert_metric_effect _ _ _ _ _ _ Hc Ht Hd H1) as (E1 & R1 & S1 & W1 & N1).
  destruct (IH s1) as (E2 & R2 & S2 & W2 & N2); [by rewrite E1|done|].
  change (m :: ms) with ([m] ++ ms). split_and!.
  - rewrite E2, E1. done.
  - by rewrite omap_app, fold_left_app, <- R1.
  - intros k row. rewrite S2, S1. setoid_rewrite elem_of_app. naive_solver.
  - intros m' [Hm|Hm]%elem_of_app; auto.
  - rewrite omap_app. by apply Forall_app.
Qed.

(** A recording that was committed: what it required, and everything it wrote. *)
Record committed (s : EventStore) (tenant : string) (e : RecordDeviceEvent) (s' : EventStore) : Prop := {
  cm_fresh : es_receipts s !! re_event_id e = None;
  cm_unused : es_events s !! re_event_id e = None;
  cm_marks : exists raw mark, es_retention s = Some (raw, mark) /\ mark <= timestamp_micros (re_occurred_at e);
  cm_assigned : exists a, es_assignments s !! (tenant, re_device_id e) = Some a /\ as_desired a = re_contract_id e
    /\ es_assignments s' = <[(tenant, re_device_id e) := converge a (timestamp_micros (re_received_at e))]> (es_assignments s);
  cm_contract : exists c, es_contracts s !! re_contract_id e = Some c /\ kr_tenant c = tenant /\ kr_device c = re_device_id e
    /\ es_rollups s' = fold_left add_entry (entries tenant (kr_revision c) e) (es_rollups s)
    /\ Forall (fun en => is_nan (ob_value en.2) = false) (entries tenant (kr_revision c) e);
  cm_receipts : es_receipts s' = <[re_event_id e := receipt_row tenant e]> (es_receipts s);
  cm_event : exists payload, to_string (re_payload e) = Ok payload
    /\ es_events s' = <[re_event_id e := event_row tenant payload e]> (es_events s);
  cm_samples : forall k row, es_samples s' !! k = Some row
    <-> es_samples s !! k = Some row
        \/ exists m, m ∈ re_metrics e /\ k = sample_key e m /\ stored_sample tenant e m = Ok row;
  cm_written : forall m, m ∈ re_metrics e -> exists row, stored_sample tenant e m = Ok row;
  cm_kept : es_retention s' = es_retention s /\ es_contracts s' = es_contracts s
    /\ ds_devices (es_device s') = ds_devices (es_device s);
}.
Lemma record_tx_committed s tenant e uuid now n s' :
  record_tx s tenant e uuid now = Ok (Some (n, s')) ->
  committed s tenant e s'
  /\ exists d, run_rules (es_device s) tenant (re_device_id e) (Some (re_rule_evaluation e)) uuid now = Ok (n, d)
       /\ es_device s' = d.
Proof.
  unfold record_tx. intros ([raw mark] & Hret%ok_or_ok & H)%bind_ok. simpl in H.
  destruct (Z.ltb_spec (timestamp_micros (re_occurred_at e)) mark) as [|Hmark]; [done|].
  apply bind_ok in H as (a & Ha%ok_or_ok & H).
  destruct (String.eqb_spec (as_desired a) (re_contract_id e)) as [Hdes|]; [simpl in H|done].
  destruct (es_receipts s !! re_event_id e) eqn:Hrec; [done|].
  destruct (device_exists s tenant (re_device_id e)); [simpl in H|done].
  apply bind_ok in H as (payload & Hp%map_err_inv & H). case_bool_decide as Hev; [done|].
  unfold references_ok in H. destruct (es_contracts s !! re_contract_id e) as [c|] eqn:Hc; [|done].
  destruct (String.eqb_spec (kr_tenant c) tenant) as [Ht|]; [|done].
  destruct (String.eqb_spec (kr_device c) (re_device_id e)) as [Hd|]; [simpl in H|done].
  apply bind_ok in H as (s1 & H1 & H). apply bind_ok in H as ([n' d] & Hrun & H). simplify_eq/=.
  pose proof (insert_metrics_effect (insert_event s (kr_tenant c) payload a e) (kr_tenant c) e c (re_metrics e) s1
    Hc eq_refl Hd H1) as (E & R & S & W & N).
  assert (es_device s1 = es_device s) as Hdev by (rewrite E; done).
  rewrite Hdev in Hrun. split; [|by exists d].
  constructor; simpl; try done.
  - by destruct (es_events s !! re_event_id e); [destruct Hev; eauto|].
  - by exists raw, mark.
  - exists a. split_and!; [done|done|]. by rewrite E.
  - by exists c.
  - by rewrite E.
  - exists payload. split; [done|]. by rewrite E.
  - rewrite E. simpl. split_and!; [done|done|]. by apply run_rules_devices in Hrun as [-> _].
Qed.
(** A recording that is refused or repeated changes nothing. *)
Lemma repo_record_spec s tenant e uuid now r s' :
  repo_record s tenant e uuid now = (r, s') ->
  (s' = s /\ forall o, r = Ok o -> ro_recorded o = false)
  \/ (committed s tenant e s' /\ exists n, r = Ok {| ro_recorded := true; metrics_recorded := length (re_metrics e);
                                                   ro_actions_enqueued := n |}).
Proof.
  unfold repo_record. destruct (record_tx s tenant e uuid now) as [[[n s1]|]|] eqn:H; intros [= <- <-].
  - right. apply record_tx_committed in H as [H _]. eauto.
  - left. split; [done|]. by intros o [= <-].
  - left. by split.
Qed.
End effects.

(** ** Retention *)
Section retention.
Context {spans : ChronoSpans}.
(** An hour of the clock, in nanoseconds. *)
Definition HOUR_NANOS : Z := 3600000000000.
Lemma retention_floor_hour now days t :
  retention_floor now days = Ok t -> t = (now - days * NANOS_PER_DAY) / HOUR_NANOS * HOUR_NANOS.
Proof.
  unfold retention_floor. destruct (negb _); [done|]. destruct (negb _); [done|]. destruct (negb _); [done|].
  intros [= <-]. rewrite Zdiv.Zdiv_Zdiv by lia. unfold HOUR_NANOS. change (1000000000 * 3600) with 3600000000000. lia.
Qed.
Lemma hour_micros c : timestamp_micros (c / HOUR_NANOS * HOUR_NANOS) = c / HOUR_NANOS * HOUR_MICROS.
Proof.
  unfold timestamp_micros. change HOUR_NANOS with (HOUR_MICROS * 1000) at 2. by rewrite Z.mul_assoc, Z.div_mul by lia.
Qed.
Lemma hour_bounds c : c - HOUR_NANOS < c / HOUR_NANOS * HOUR_NANOS <= c.
Proof. pose proof (Z.div_mod c HOUR_NANOS). pose proof (Z.mod_pos_bound c HOUR_NANOS). unfold HOUR_NANOS in *. lia. Qed.
Lemma cutoffs_spec raw_days rollup_days now cutoffs :
  0 <= raw_days -> retention_cutoffs raw_days rollup_days now = Ok cutoffs ->
  0 < raw_days <= rollup_days
  /\ raw_retained_since cutoffs = (now - raw_days * NANOS_PER_DAY) / HOUR_NANOS * HOUR_NANOS
  /\ rollup_retained_since cutoffs = (now - rollup_days * NANOS_PER_DAY) / HOUR_NANOS * HOUR_NANOS.
Proof.
  unfold retention_cutoffs. intros H0. destruct (Z.eqb_spec raw_days 0); [done|].
  destruct (Z.ltb_spec rollup_days raw_days); [done|]. simpl.
  intros (raw & Hraw & (rollup & Hrollup & [= <-])%bind_ok)%bind_ok. simpl.
  split_and!; [lia|lia|by apply retention_floor_hour..].
Qed.
Lemma cutoffs_marks raw_days rollup_days now cutoffs :
  0 <= raw_days -> retention_cutoffs raw_days rollup_days now = Ok cutoffs ->
  (HOUR_MICROS | timestamp_micros (raw_retained_since cutoffs))
  /\ (HOUR_MICROS | timestamp_micros (rollup_retained_since cutoffs))
  /\ timestamp_micros (rollup_retained_since cutoffs) <= timestamp_micros (raw_retained_since cutoffs).
Proof.
  intros H0 (Hd & -> & ->)%cutoffs_spec; [|done]. rewrite !hour_micros. split_and!; [by eexists..|].
  apply Z.mul_le_mono_nonneg_r; [done|]. apply Z.div_le_mono; [done|]. unfold NANOS_PER_DAY. nia.
Qed.

(** The retention marks keep whole hours: for a positive raw period of at
    most the rollup period, both marks are on the hour, never younger than the
    period says and less than an hour older, and rollups are kept at least as
    long as the raw samples; any other pair of periods is refused. *)
Theorem retention_marks raw_days rollup_days now cutoffs :
  0 <= raw_days -> retention_cutoffs raw_days rollup_days now = Ok cutoffs ->
  0 < raw_days <= rollup_days
  /\ timestamp_micros (rollup_retained_since cutoffs) <= timestamp_micros (raw_retained_since cutoffs)
  /\ Forall2 (fun t days => (HOUR_MICROS | timestamp_micros t)
       /\ now - days * NANOS_PER_DAY - HOUR_NANOS < t <= now - days * NANOS_PER_DAY)
       [raw_retained_since cutoffs; rollup_retained_since cutoffs] [raw_days; rollup_days].
Proof.
  intros H0 H. destruct (cutoffs_marks _ _ _ _ H0 H) as (D1 & D2 & Hle). destruct (cutoffs_spec _ _ _ _ H0 H) as (Hd & E1 & E2).
  split_and!; [lia|lia|done|]. repeat constructor; try done; rewrite ?E1, ?E2; apply hour_bounds.
Qed.
End retention.

(** ** Histories

    [accepted] lists the events that were recorded, with their tenant and the
    revision of the contract they were recorded under. *)
Record EventHistory := { eh_store : EventStore; accepted : list (string * string * RecordDeviceEvent) }.
Definition occurred (e : RecordDeviceEvent) : Z := timestamp_micros (re_occurred_at e).
Definition all_entries (l : list (string * string * RecordDeviceEvent)) : list (RollupKey * Observation) :=
  l ≫= (fun x => entries x.1.1 x.1.2 x.2).
Definition event_key (x : string * string * RecordDeviceEvent) : string * Z := (re_event_id x.2, occurred x.2).
Definition revision_of (s : EventStore) (contract : string) : string :=
  match es_contracts s !! contract with Some c => kr_revision c | None => "" end.

Section histories.
Context {chr : Chrono} {libm : Libm} {micros : ChronoMicros} {codec : SerdeJson} {actions_codec : ActionCodec}
  {sql : SqlText} {spans : ChronoSpans}.

(** Contracts, assignments, devices, rules and the outbox change elsewhere too. *)
Inductive event_step (h : EventHistory) : EventHistory -> Prop :=
| step_record tenant e uuid now r s' :
    repo_record (eh_store h) tenant e uuid now = (r, s') ->
    event_step h {| eh_store := s';
      accepted := accepted h ++ match r with
        | Ok o => if ro_recorded o then [(tenant, revision_of (eh_store h) (re_contract_id e), e)] else []
        | Err _ => [] end |}
| step_prune raw_days rollup_days now r s' :
    0 <= raw_days -> prune (eh_store h) raw_days rollup_days now = (r, s') ->
    event_step h {| eh_store := s'; accepted := accepted h |}
| step_around s' :
    es_retention s' = es_retention (eh_store h) -> es_receipts s' = es_receipts (eh_store h) ->
    es_events s' = es_events (eh_store h) -> es_samples s' = es_samples (eh_store h) ->
    es_rollups s' = es_rollups (eh_store h) -> event_step h {| eh_store := s'; accepted := accepted h |}.

(** The migration's tables: empty, with both marks at the first year. *)
Definition FIRST_MARK : Z := -62135596800000000.
Definition fresh_store (s : EventStore) : Prop :=
  es_retention s = Some (FIRST_MARK, FIRST_MARK)
  /\ es_receipts s = ∅ /\ es_events s = ∅ /\ es_samples s = ∅ /\ es_rollups s = ∅.

Record event_inv (raw mark : Z) (h : EventHistory) : Prop := {
  ei_marks : es_retention (eh_store h) = Some (raw, mark) /\ (HOUR_MICROS | mark) /\ mark <= raw;
  ei_rollups : forall k, es_rollups (eh_store h) !! k
    = if mark <=? k.2 then aggregate (observations k (all_entries (accepted h))) else None;
  ei_numbers : Forall (fun en => is_nan (ob_value en.2) = false) (all_entries (accepted h));
  ei_receipts : forall x, x ∈ accepted h -> mark <= occurred x.2 ->
    es_receipts (eh_store h) !! re_event_id x.2 = Some (receipt_row x.1.1 x.2);
  ei_once : NoDup (map event_key (accepted h));
  ei_events : forall id row, es_events (eh_store h) !! id = Some row -> mark <= ev_occurred_at row
    /\ exists r, es_receipts (eh_store h) !! id = Some r /\ rc_occurred_at r = ev_occurred_at row;
  ei_raw : forall x, x ∈ accepted h -> raw <= occurred x.2 ->
    (exists payload, es_events (eh_store h) !! re_event_id x.2 = Some (event_row x.1.1 payload x.2))
    /\ forall m, m ∈ re_metrics x.2 -> exists row, stored_sample x.1.1 x.2 m = Ok row
         /\ es_samples (eh_store h) !! sample_key x.2 m = Some row;
  ei_samples : forall k row, es_samples (eh_store h) !! k = Some row ->
    exists x m, x ∈ accepted h /\ m ∈ re_metrics x.2 /\ k = sample_key x.2 m /\ stored_sample x.1.1 x.2 m = Ok row
      /\ exists ev, es_events (eh_store h) !! k.1.1 = Some ev /\ ev_occurred_at ev = occurred x.2;
}.
Lemma fresh_inv s : fresh_store s -> event_inv FIRST_MARK FIRST_MARK {| eh_store := s; accepted := [] |}.
Proof.
  intros (Hr & H1 & H2 & H3 & H4). constructor; simpl; rewrite ?H1, ?H2, ?H3, ?H4;
    try first [done | by intros ? ?%elem_of_nil | by intros ? ? ?%lookup_empty_Some | by constructor].
  - split_and!; [done| |done]. exists (-17259888). reflexivity.
  - intros k. rewrite lookup_empty. by destruct (_ <=? _).
Qed.

Lemma entries_hour y k o : (k, o) ∈ entries y.1.1 y.1.2 y.2 -> k.2 = bucket_start (occurred y.2).
Proof.
  unfold entries. intros (m & Hm & Ho)%list_elem_of_omap. unfold entry_of in Ho.
  apply bind_Some in Ho as (v & _ & [= <- _]). done.
Qed.
Lemma hour_above mark t : (HOUR_MICROS | mark) -> mark <= t -> mark <= bucket_start t.
Proof.
  intros [q ->] Hle. unfold bucket_start. apply Z.mul_le_mono_nonneg_r; [done|].
  rewrite <- (Z.div_mul q HOUR_MICROS) by done. by apply Z.div_le_mono.
Qed.
Section record_step.
Context (raw mark : Z) (h : EventHistory) (Hinv : event_inv raw mark h) (tenant : string) (e : RecordDeviceEvent)
  (s' : EventStore) (Hc : committed (eh_store h) tenant e s').
Let x := (tenant, revision_of (eh_store h) (re_contract_id e), e).
Let h' := {| eh_store := s'; accepted := accepted h ++ [x] |}.

Lemma recorded_mark : mark <= occurred e.
Proof using Hinv Hc. destruct (cm_marks _ _ _ _ Hc) as (r & m & Hr & Hm). rewrite (proj1 (ei_marks _ _ _ Hinv)) in Hr. by simplify_eq. Qed.
(** The id of a committed event is not that of an accepted event above the mark. *)
Lemma recorded_new y : y ∈ accepted h -> mark <= occurred y.2 -> re_event_id y.2 <> re_event_id e.
Proof using Hinv Hc.
  intros Hy Hm E. pose proof (ei_receipts _ _ _ Hinv y Hy Hm) as H. rewrite E, (cm_fresh _ _ _ _ Hc) in H. done.
Qed.
Lemma recorded_entries :
  es_rollups s' = fold_left add_entry (entries x.1.1 x.1.2 x.2) (es_rollups (eh_store h))
  /\ Forall (fun en => is_nan (ob_value en.2) = false) (entries x.1.1 x.1.2 x.2).
Proof using Hc.
  destruct (cm_contract _ _ _ _ Hc) as (c & Hl & _ & _ & Hr & Hn). unfold x, revision_of. simpl. by rewrite Hl.
Qed.
Lemma all_entries_snoc : all_entries (accepted h') = all_entries (accepted h) ++ entries x.1.1 x.1.2 x.2.
Proof using. unfold all_entries, h'. simpl. by rewrite bind_app, bind_singleton. Qed.
Lemma observations_below k : k.2 < mark -> observations k (entries x.1.1 x.1.2 x.2) = [].
Proof using Hinv Hc.
  intros Hk. destruct (ei_marks _ _ _ Hinv) as (_ & Hdiv & _). apply elem_of_nil_inv. intros o Ho.
  apply list_elem_of_fmap in Ho as ([k' o'] & -> & [Hin Hb]%elem_of_filterb).
  apply bool_decide_eq_true in Hb. simpl in Hb. subst k'. apply entries_hour in Hin.
  pose proof (hour_above mark (occurred e) Hdiv recorded_mark). simpl in Hin. lia.
Qed.
Lemma recorded_rollups k :
  es_rollups s' !! k = if mark <=? k.2 then aggregate (observations k (all_entries (accepted h'))) else None.
Proof using Hinv Hc.
  rewrite (proj1 recorded_entries), add_entries_lookup, (ei_rollups _ _ _ Hinv), all_entries_snoc, observations_app.
  destruct (Z.leb_spec mark k.2).
  - unfold aggregate. by rewrite fold_left_app.
  - by rewrite observations_below.
Qed.
Lemma record_inv : event_inv raw mark h'.
Proof using Hinv Hc.
  destruct (cm_event _ _ _ _ Hc) as (payload & _ & Hev).
  destruct (cm_kept _ _ _ _ Hc) as (Hret & _).
  constructor; cbn [eh_store accepted h'].
  - rewrite Hret. apply (ei_marks _ _ _ Hinv).
  - apply recorded_rollups.
  - change (Forall (fun en => is_nan (ob_value en.2) = false) (all_entries (accepted h'))). rewrite all_entries_snoc.
    apply Forall_app. split; [apply (ei_numbers _ _ _ Hinv)|apply recorded_entries].
  - rewrite (cm_receipts _ _ _ _ Hc). intros y [Hy| ->%list_elem_of_singleton]%elem_of_app Hm; simpl.
    + rewrite lookup_insert_ne by (intros E; by apply (recorded_new y)). by apply (ei_receipts _ _ _ Hinv).
    + apply lookup_insert_eq.
  - rewrite map_app. apply NoDup_app. split_and!; [apply (ei_once _ _ _ Hinv)| |apply NoDup_singleton].
    intros k (y & -> & Hy)%list_elem_of_fmap Hk%list_elem_of_singleton. unfold event_key in Hk. simplify_eq.
    apply (recorded_new y); [done| |done]. rewrite H0. apply recorded_mark.
  - rewrite Hev, (cm_receipts _ _ _ _ Hc). intros id row [[<- <-]|[Hne Hrow]]%lookup_insert_Some.
    + split; [apply recorded_mark|]. exists (receipt_row tenant e). by rewrite lookup_insert_eq.
    + rewrite lookup_insert_ne by done. by apply (ei_events _ _ _ Hinv).
  - rewrite Hev. intros y [Hy| ->%list_elem_of_singleton]%elem_of_app Hm; simpl.
    + destruct (ei_marks _ _ _ Hinv) as (_ & _ & Hle). destruct (ei_raw _ _ _ Hinv y Hy Hm) as [[p Hp] Hs].
      split; [exists p; rewrite lookup_insert_ne; [done|]; intros E; apply (recorded_new y); [done|lia|done]|].
      intros m Hin. destruct (Hs m Hin) as (row & Hrow & Hl). exists row. split; [done|].
      apply (cm_samples _ _ _ _ Hc). by left.
    + split; [exists payload; apply lookup_insert_eq|]. intros m Hin.
      destruct (cm_written _ _ _ _ Hc m Hin) as [row Hrow]. exists row. split; [done|].
      apply (cm_samples _ _ _ _ Hc). right. eauto.
  - rewrite Hev. intros k row [Hk|(m & Hm & -> & Hrow)]%(cm_samples _ _ _ _ Hc).
    + destruct (ei_samples _ _ _ Hinv k row Hk) as (y & m & Hy & Hm & -> & Hrow & ev & Hl & Ho).
      exists y, m. split_and!; [apply elem_of_app; by left|done|done|done|]. exists ev. split; [|done].
      rewrite lookup_insert_ne; [done|]. intros E. rewrite <- E, (cm_unused _ _ _ _ Hc) in Hl. done.
    + exists x, m. split_and!; [apply elem_of_app; right; by left|done|done|done|].
      eexists. simpl. split; [apply lookup_insert_eq|done].
Qed.
End record_step.

Lemma keep_event_true mark r : keep_event mark r = true <-> mark <= ev_occurred_at r.
Proof. unfold keep_event. rewrite negb_true_iff, Z.ltb_ge. done. Qed.
Lemma prune_metrics_inv raw mark h cutoffs r s' :
  event_inv raw mark h ->
  (HOUR_MICROS | timestamp_micros (rollup_retained_since cutoffs)) ->
  timestamp_micros (rollup_retained_since cutoffs) <= timestamp_micros (raw_retained_since cutoffs) ->
  prune_metrics (eh_store h) cutoffs = (r, s') ->
  exists raw' mark', event_inv raw' mark' {| eh_store := s'; accepted := accepted h |}.
Proof.
  intros Hinv Hdiv Hle. destruct (ei_marks _ _ _ Hinv) as (Hret & Hdiv' & Hle'). unfold prune_metrics. rewrite Hret. simpl.
  set (raw' := Z.max raw _). set (mark' := Z.max mark _). intros [= <- <-]. exists raw', mark'.
  assert (mark <= mark' /\ mark' <= raw' /\ raw <= raw') as (Hm & Hmr & Hr) by (unfold mark', raw'; lia).
  constructor; simpl.
  - split_and!; [done| |done]. unfold mark'. by destruct (Z.max_spec mark (timestamp_micros (rollup_retained_since cutoffs))) as [[_ ->]|[_ ->]].
  - intros k. apply option_eq. intros row. rewrite map_lookup_filter_Some, (ei_rollups _ _ _ Hinv). simpl.
    destruct (Z.leb_spec mark' k.2), (Z.leb_spec mark k.2); split; try done; try lia; intros [? ?]; (done || lia).
  - apply (ei_numbers _ _ _ Hinv).
  - intros x Hx Ho. apply map_lookup_filter_Some. split; [apply (ei_receipts _ _ _ Hinv x Hx); lia|done].
  - apply (ei_once _ _ _ Hinv).
  - intros id row [Hrow Hk%keep_event_true]%map_lookup_filter_Some. split; [simpl in Hk; lia|].
    destruct (ei_events _ _ _ Hinv id row Hrow) as (_ & rc & Hrc & Ho). exists rc. split; [|done].
    apply map_lookup_filter_Some. split; [done|]. simpl in *. lia.
  - intros x Hx Ho. destruct (ei_raw _ _ _ Hinv x Hx) as [[p Hp] Hs]; [lia|]. split.
    + exists p. apply map_lookup_filter_Some. split; [done|]. by apply keep_event_true.
    + intros m Hin. destruct (Hs m Hin) as (row & Hrow & Hl). exists row. split; [done|].
      apply map_lookup_filter_Some. split; [done|]. unfold keep_sample. simpl. rewrite Hp. by apply keep_event_true.
  - intros k row [Hk Hkeep]%map_lookup_filter_Some. simpl in Hkeep.
    destruct (ei_samples _ _ _ Hinv k row Hk) as (x & m & Hx & Hin & -> & Hrow & ev & Hev & Ho).
    exists x, m. split_and!; [done..|]. exists ev. split; [|done]. unfold keep_sample in Hkeep. rewrite Hev in Hkeep.
    apply map_lookup_filter_Some. by split.
Qed.
Lemma step_inv raw mark h h' : event_inv raw mark h -> event_step h h' -> exists raw' mark', event_inv raw' mark' h'.
Proof.
  intros Hinv [tenant e uuid now r s' H|raw_days rollup_days now r s' Hpos H|s' H1 H2 H3 H4 H5].
  - apply repo_record_spec in H as [[-> Hr]|[Hc [n ->]]].
    + exists raw, mark. destruct r as [o|]; [rewrite (Hr o eq_refl)|]; rewrite app_nil_r; by destruct h.
    + exists raw, mark. simpl. by apply record_inv.
  - unfold prune in H. destruct (retention_cutoffs _ _ _) as [cutoffs|] eqn:Hcut; [|simplify_eq; exists raw, mark; by destruct h].
    destruct (prune_metrics _ _) as [q s1] eqn:Hp. simplify_eq.
    destruct (cutoffs_marks _ _ _ _ Hpos Hcut) as (_ & Hdiv & Hle). by eapply prune_metrics_inv.
  - exists raw, mark. constructor; simpl; rewrite ?H1, ?H2, ?H3, ?H4, ?H5; apply Hinv.
Qed.
Lemma history_inv s h :
  fresh_store s -> rtc event_step {| eh_store := s; accepted := [] |} h -> exists raw mark, event_inv raw mark h.
Proof.
  intros Hs Hrun. assert (exists raw mark, event_inv raw mark {| eh_store := s; accepted := [] |}) as H0.
  { exists FIRST_MARK, FIRST_MARK. by apply fresh_inv. }
  induction Hrun as [|h1 h2 h3 Hstep _ IH]; [done|]. apply IH. destruct H0 as (raw & mark & H0). by eapply step_inv.
Qed.

(** C27. Hourly rollups are the aggregates of everything that was accepted.
    After any history of recorded, repeated, late and out-of-order events,
    prunes and other work, the rollup of a device, revision, stream, field and
    hour above the retention mark exists exactly when a number was accepted
    for it, and then gives their count, their sum in the order of arrival,
    their least and greatest, and the value of the latest (by time, then by
    event id): also when the raw samples have been pruned.  Below the mark
    there are no rollups, not even partial ones from late events. *)
Theorem rollups_exact s h :
  fresh_store s -> rtc event_step {| eh_store := s; accepted := [] |} h ->
  exists raw mark, es_retention (eh_store h) = Some (raw, mark) /\
    forall k, let l := observations k (all_entries (accepted h)) in
      match es_rollups (eh_store h) !! k with
      | Some r => mark <= k.2 /\ summarizes r l
      | None => k.2 < mark \/ l = []
      end.
Proof.
  intros Hs Hrun. destruct (history_inv s h Hs Hrun) as (raw & mark & Hinv). exists raw, mark.
  split; [apply (ei_marks _ _ _ Hinv)|]. intros k l. rewrite (ei_rollups _ _ _ Hinv).
  destruct (Z.leb_spec mark k.2); [|by left]. fold l. destruct (aggregate l) as [r|] eqn:E.
  - split; [done|]. apply aggregate_summarizes; [|done]. apply Forall_forall. intros o (e & -> & Ho)%list_elem_of_fmap.
    apply elem_of_filterb in Ho as [Ho _]. pose proof (ei_numbers _ _ _ Hinv) as Hn. rewrite Forall_forall in Hn. by apply Hn.
  - right. destruct l as [|o l' _] using rev_ind; [done|]. unfold aggregate in E. rewrite fold_left_app in E. done.
Qed.

(** C26. An event is processed at most once.  In any history, no event is
    accepted twice at the same time of occurrence, and delivering an accepted
    event again (whatever its sender changes in it but its id and time)
    changes nothing and records nothing: its receipt is still there, or it is
    older than the retention mark and refused. *)
Theorem event_processed_once s h :
  fresh_store s -> rtc event_step {| eh_store := s; accepted := [] |} h ->
  NoDup (map event_key (accepted h))
  /\ forall x tenant e uuid now, x ∈ accepted h -> re_event_id e = re_event_id x.2 -> occurred e = occurred x.2 ->
       (repo_record (eh_store h) tenant e uuid now).2 = eh_store h
       /\ match (repo_record (eh_store h) tenant e uuid now).1 with Ok o => ro_recorded o = false | Err _ => True end.
Proof.
  intros Hs Hrun. destruct (history_inv s h Hs Hrun) as (raw & mark & Hinv). split; [apply (ei_once _ _ _ Hinv)|].
  intros x tenant e uuid now Hx Hid Ho. destruct (repo_record (eh_store h) tenant e uuid now) as [r s'] eqn:E.
  apply repo_record_spec in E as [[-> Hr]|[Hc _]]; simpl; [split; [done|]; destruct r as [o|]; [by apply Hr|done]|].
  exfalso. pose proof (recorded_mark raw mark h Hinv tenant e s' Hc) as Hm.
  apply (recorded_new raw mark h Hinv tenant e s' Hc x Hx); [lia|done].
Qed.
End histories.

(** ** Admission *)
Section admission.
Context {chr : Chrono} {libm : Libm} {micros : ChronoMicros} {codec : SerdeJson} {actions_codec : ActionCodec}
  {sql : SqlText} {host : EventHost} {spans : ChronoSpans}.

(** An envelope that its contract allows on the route. *)
Record conformant (d : CompiledContractDocument) (device route_key : string) (envelope : EventInput) : Prop := {
  cf_version : ei_api_version envelope = 1;
  cf_id : uuid_valid (ei_event_id envelope) = true;
  cf_device : doc_device_id d = device;
  cf_size : ei_encoded_size envelope <= cr_max_message_bytes (doc_runtime d);
  cf_payload : exists r sc, bt_get route_key (doc_routes d) = Some r /\ cr_direction r = DeviceToCloud
    /\ cr_encoding r = EncJson /\ bt_get (cr_message_schema r) (doc_schemas d) = Some sc
    /\ cs_format sc = JsonSchema /\ conforms (cs_schema sc) (ei_payload envelope);
}.
Lemma accept_event_spec s tenant device route_key envelope assigned d :
  accept_event s tenant device route_key envelope = Ok (assigned, d) ->
  assigned_contract s tenant device = Ok (Some assigned) /\ dc_contract_hash assigned = ei_contract_hash envelope
  /\ document_from_value (dc_document assigned) = Ok d /\ conformant d device route_key envelope.
Proof.
  unfold accept_event. destruct (negb (ei_api_version envelope =? 1) || negb (uuid_valid (ei_event_id envelope))) eqn:Hv; [done|].
  apply orb_false_iff in Hv as [Hv%negb_false_iff%Z.eqb_eq Hu%negb_false_iff].
  intros (found & Hf%map_err_inv & (a & Ha%ok_or_ok & H)%bind_ok)%bind_ok. subst found.
  destruct (String.eqb_spec (ei_contract_hash envelope) (dc_contract_hash a)) as [Hh|]; [simpl in H|done].
  apply bind_ok in H as (d' & Hd%map_err_inv & H).
  destruct (_ || _) eqn:Hlim in H; [done|]. apply orb_false_iff in Hlim as [Hdev%negb_false_iff%String.eqb_eq Hsize%Z.ltb_ge].
  apply bind_ok in H as (r & Hr%ok_or_ok & H). apply bind_Some in Hr as (r' & Hr & Hroute).
  destruct (_ && _) eqn:Hb in Hroute; simplify_eq. apply andb_true_iff in Hb as [Hdir%bool_decide_eq_true Henc%bool_decide_eq_true].
  apply bind_ok in H as (sc & Hsc%ok_or_ok & H). apply bind_Some in Hsc as (sc' & Hsc & Hfmt).
  case_bool_decide; simplify_eq. apply bind_ok in H as ([] & Hval%map_err_inv & H). simplify_eq.
  apply validate_instance_spec in Hval as [_ Hconf]. split_and!; [done|done|done|].
  constructor; try done. by exists r, sc.
Qed.
Lemma assigned_contract_spec s tenant device assigned :
  assigned_contract s tenant device = Ok (Some assigned) ->
  exists a c, es_assignments s !! (tenant, device) = Some a /\ es_contracts s !! as_desired a = Some c
    /\ kr_tenant c = tenant /\ dc_id assigned = as_desired a /\ dc_contract_hash assigned = kr_hash c
    /\ from_str (kr_document c) = Ok (dc_document assigned).
Proof.
  unfold assigned_contract, assigned_from. destruct (es_assignments s !! (tenant, device)) as [a|]; simpl; [|done].
  destruct (es_contracts s !! as_desired a) as [c|] eqn:Hc; simpl; [|done].
  destruct (String.eqb_spec (kr_tenant c) tenant) as [Ht|]; [|done].
  intros (v & Hv%map_err_inv & (ack & _ & (cr & _ & [= <-])%bind_ok)%bind_ok)%bind_ok. by exists a, c.
Qed.

(** Only conformant events are stored.  When the ingress reports an event
    as recorded, the device's assigned contract at that moment carries the
    envelope's hash and belongs to that tenant and device, the route is one of
    its device-to-cloud JSON routes, the message is within its size limit and
    the payload conforms to the route's schema; the stored event is that
    payload under that contract, and the contract is marked as the one the
    device uses. *)
Theorem recorded_events_conform s tenant device route_key envelope snap now uuid written o s' :
  record s tenant device route_key envelope snap now uuid written = (Ok o, s') -> ro_recorded o = true ->
  exists a c v d text, es_assignments s !! (tenant, device) = Some a /\ es_contracts s !! as_desired a = Some c
    /\ kr_tenant c = tenant /\ kr_device c = device /\ kr_hash c = ei_contract_hash envelope
    /\ from_str (kr_document c) = Ok v /\ document_from_value v = Ok d /\ conformant d device route_key envelope
    /\ to_string (ei_payload envelope) = Ok text
    /\ es_events s' !! ei_event_id envelope
       = Some {| ev_tenant := tenant; ev_device := device; ev_contract := as_desired a; ev_route := route_key;
                 ev_occurred_at := timestamp_micros (floor_micros (ei_occurred_at envelope));
                 ev_received_at := timestamp_micros (floor_micros now); ev_payload := text |}
    /\ es_assignments s' !! (tenant, device) = Some (converge a (timestamp_micros (floor_micros now))).
Proof.
  unfold record. destruct (prepare_event _ _ _ _ _ _ _) as [e|] eqn:Hp; [|done].
  destruct (repo_record s tenant e uuid written) as [r s1] eqn:Hr. intros [= Hmap <-] Ho.
  destruct r as [o'|]; [|done]. simpl in Hmap. simplify_eq.
  unfold prepare_event in Hp. apply bind_ok in Hp as ([assigned d] & Hacc & Hp). simpl in Hp.
  apply bind_ok in Hp as ([ms ns] & _ & Hp). simpl in Hp. apply bind_ok in Hp as (i & _ & Hp).
  apply bind_ok in Hp as (ctx & _ & Hp). apply bind_ok in Hp as (ctx' & _ & Hp). injection Hp as <-.
  destruct (accept_event_spec _ _ _ _ _ _ _ Hacc) as (Has & Hhash & Hdoc & Hconf).
  destruct (assigned_contract_spec _ _ _ _ Has) as (a & c & Ha & Hc & Ht & Hid & Hh & Hv).
  apply repo_record_spec in Hr as [[_ Hr]|[Hcm _]]; [by rewrite (Hr o eq_refl) in Ho|].
  destruct (cm_event _ _ _ _ Hcm) as (text & Htext & Hev). destruct (cm_assigned _ _ _ _ Hcm) as (a' & Ha' & _ & Hset).
  destruct (cm_contract _ _ _ _ Hcm) as (c' & Hc' & _ & Hd' & _). simpl in *. rewrite Hid in Hc', Hev. simplify_eq.
  exists a, c, (dc_document assigned), d, text. split_and!; try done.
  - by rewrite <- Hh.
  - rewrite Hev. apply lookup_insert_eq.
  - rewrite Hset. apply lookup_insert_eq.
Qed.
End admission.

(** ** A concrete history: an event of the cold room *)
#[local] Existing Instance demo_chrono.
#[local] Existing Instance demo_libm.
#[local] Existing Instance demo_micros.
#[local] Existing Instance demo_json.
#[local] Existing Instance demo_actions.
Definition demo_sql : SqlText := {| not_null_text := "NOT NULL constraint failed" |}.
Definition demo_spans : ChronoSpans :=
  {| millis_before := fun t ms => Some (t - ms * 1000000); days_fit := fun _ => true; utc_fits := fun _ => true |}.
Definition cold_room_document : CompiledContractDocument :=
  match compile_document cold_room cold_room_context with
  | Return d => d
  | _ => assemble cold_room cold_room_context [] [] None 0 0 None
  end.
Definition demo_event_host : EventHost :=
  {| uuid_valid := fun id => str_len id =? 36; document_from_value := fun _ => Ok cold_room_document;
     validation_text := fun _ => "invalid" |}.
#[local] Existing Instance demo_sql.
#[local] Existing Instance demo_spans.
#[local] Existing Instance demo_event_host.
Definition cold_room_payload : value := object [("temperature", of_int 4); ("humidity", of_int 50)].
Definition cold_room_event_id : string := "00000000-0000-4000-8000-000000000001".
Definition cold_room_envelope : EventInput :=
  {| ei_api_version := 1; ei_event_id := cold_room_event_id; ei_contract_hash := "h"; ei_occurred_at := 7200000000000;
     ei_payload := cold_room_payload; ei_encoded_size := 40 |}.
Definition cold_room_store : EventStore :=
  {| es_device :=
       {| ds_devices := {["device-1" := {| dv_tenant := "tenant-a"; dv_status := "online"; dv_firmware := "1";
            dv_uptime_seconds := 0; dv_last_seen := None; dv_updated_at := 0 |}]};
          ds_logs := [];
          ds_rules := {| device_targets := {[("tenant-a", "device-1") := (None, None)]}; enabled_rules := ∅;
            alert_rows := []; rule_cooldowns := ∅; rule_zone_entries := ∅ |};
          ds_outbox := ∅ |};
     es_contracts := {["dc_1" := {| kr_tenant := "tenant-a"; kr_device := "device-1"; kr_revision := "dbr_1";
       kr_document := "null"; kr_hash := "h"; kr_created_at := 0 |}]};
     es_assignments := {[("tenant-a", "device-1") := {| as_desired := "dc_1"; as_active := None; as_status := "pending";
       as_acknowledged_at := None; as_error := None; as_updated_at := 0 |}]};
     es_retention := Some (FIRST_MARK, FIRST_MARK); es_receipts := ∅; es_events := ∅; es_samples := ∅; es_rollups := ∅ |}.
Definition cold_room_recorded : result ApplicationError RecordDeviceEventOutcome * EventStore :=
  record cold_room_store "tenant-a" "device-1" "environment" cold_room_envelope demo_cache 7201000000000 (fun _ => "u") 0.
Example cold_room_outcome : cold_room_recorded.1 = Ok {| ro_recorded := true; metrics_recorded := 2; ro_actions_enqueued := 0 |}.
Proof. vm_compute. reflexivity. Qed.
Lemma cold_room_pair :
  cold_room_recorded
  = (Ok {| ro_recorded := true; metrics_recorded := 2; ro_actions_enqueued := 0 |}, cold_room_recorded.2).
Proof. rewrite <- cold_room_outcome. by destruct cold_room_recorded. Qed.
Lemma recorded_events_conform_witness :
  exists d, conformant d "device-1" "environment" cold_room_envelope
    /\ es_assignments cold_room_recorded.2 !! ("tenant-a", "device-1") <> None.
Proof.
  destruct (recorded_events_conform cold_room_store "tenant-a" "device-1" "environment" cold_room_envelope demo_cache
    7201000000000 (fun _ => "u") 0 {| ro_recorded := true; metrics_recorded := 2; ro_actions_enqueued := 0 |}
    cold_room_recorded.2 cold_room_pair eq_refl) as (a & c & v & d & text & _ & _ & _ & _ & _ & _ & _ & H & _ & _ & Ha).
  exists d. split; [exact H|]. rewrite Ha. discriminate.
Defined.
Definition cold_room_event : RecordDeviceEvent :=
  {| re_event_id := cold_room_event_id; re_device_id := "device-1"; re_contract_id := "dc_1"; re_route_key := "environment";
     re_occurred_at := 7200000000000; re_received_at := 7201000000000; re_payload := cold_room_payload;
     re_metrics := [sample_at "environment" "/temperature" (VFloat64 (f64_of_Z 4))];
     re_rule_evaluation :=
       {| snapshot := demo_cache; dre_tenant := "tenant-a"; dre_device := "device-1"; dre_fleet_id := None;
          dre_blueprint_id := None; dre_blueprint_revision_id := Some "dbr_1";
          input := InputTelemetry {| latitude := None; longitude := None; metrics := [] |} false;
          observed_at := 7201000000000 |} |}.
Definition cold_room_written : EventStore := (repo_record cold_room_store "tenant-a" cold_room_event (fun _ => "u") 0).2.
Definition cold_room_history : EventHistory :=
  {| eh_store := cold_room_written; accepted := [("tenant-a", "dbr_1", cold_room_event)] |}.
Lemma cold_room_run : rtc event_step {| eh_store := cold_room_store; accepted := [] |} cold_room_history.
Proof.
  apply rtc_once. unfold cold_room_history, cold_room_written.
  destruct (repo_record cold_room_store "tenant-a" cold_room_event (fun _ => "u") 0) as [r s'] eqn:E.
  assert (r = Ok {| ro_recorded := true; metrics_recorded := 1; ro_actions_enqueued := 0 |}) as ->.
  { change r with ((r, s').1). rewrite <- E. vm_compute. reflexivity. }
  exact (step_record {| eh_store := cold_room_store; accepted := [] |} "tenant-a" cold_room_event (fun _ => "u") 0 _ s' E).
Qed.
Definition cold_room_key : RollupKey := ("tenant-a", "device-1", "dbr_1", "environment", "/temperature", 7200000000).
Lemma rollups_exact_witness :
  exists r, es_rollups cold_room_written !! cold_room_key = Some r
    /\ summarizes r [{| ob_value := f64_of_Z 4; ob_at := 7200000000; ob_event := cold_room_event_id |}].
Proof.
  destruct (rollups_exact cold_room_store cold_room_history) as (raw & mark & _ & H);
    [split_and!; reflexivity|exact cold_room_run|].
  specialize (H cold_room_key). simpl in H.
  destruct (es_rollups cold_room_written !! cold_room_key) as [r|] eqn:E; [|vm_compute in E; discriminate E].
  exists r. split; [reflexivity|exact (proj2 H)].
Defined.
Lemma event_processed_once_witness :
  (repo_record cold_room_written "tenant-a" cold_room_event (fun _ => "u2") 5).2 = cold_room_written.
Proof.
  assert (fresh_store cold_room_store) as Hfresh by (split_and!; reflexivity).
  pose proof (event_processed_once cold_room_store cold_room_history Hfresh cold_room_run) as [_ H].
  exact (proj1 (H ("tenant-a", "dbr_1", cold_room_event) "tenant-a" cold_room_event (fun _ => "u2") 5
    (list_elem_of_here _ _) eq_refl eq_refl)).
Defined.
Lemma retention_marks_witness : exists c, retention_cutoffs 1 30 2682042000000000 = Ok c
  /\ timestamp_micros (rollup_retained_since c) <= timestamp_micros (raw_retained_since c).
Proof.
  destruct (retention_cutoffs 1 30 2682042000000000) as [c|e] eqn:E; [|vm_compute in E; discriminate E].
  exists c. split; [reflexivity|]. apply (retention_marks 1 30 2682042000000000 c); [lia|exact E].
Defined.
Lemma extraction_exact_witness :
  bt_get "environment./temperature"
    match extract_streams "environment" cold_room_payload (doc_streams cold_room_document) ([], []) with
    | Ok (_, numbers) => numbers | Err _ => [] end = Some (MFloat (f64_of_Z 4)).
Proof.
  destruct (compile_document cold_room cold_room_context) as [d|e|m] eqn:E; [|vm_compute in E; discriminate E..].
  assert (d = cold_room_document) as -> by (unfold cold_room_document; rewrite E; reflexivity).
  pose proof (extraction_exact cold_room cold_room cold_room_context cold_room_document "environment" cold_room_payload
    cold_room_valid E) as H. cbv zeta in H.
  destruct (extract_streams "environment" cold_room_payload (doc_streams cold_room_document) ([], [])) as [[ms ns]|e] eqn:Ex;
    [|vm_compute in Ex; discriminate Ex].
  destruct H as (_ & _ & _ & H). apply H. exists (sample_at "environment" "/temperature" (VFloat64 (f64_of_Z 4))).
  vm_compute in Ex. injection Ex as <- _. split; [|split; reflexivity].
  vm_compute. repeat (first [left; reflexivity | right]).
Defined.
