(* ===== verification/EventReads.v ===== *)
(** * Reading recorded metrics (crates/backend-core/src/events.rs,
    application/events.rs, crates/backend-turso/src/events.rs)

    The listing of a device's metric samples and its latest location, and
    what they say about the events that were accepted. *)
From S2P Require Import Prelude Text Float64 BTree Json Errors Access RuleTypes MetricNumber Geo RuleCache.
From S2P Require Import RuleEvaluate RuleSnapshot Shadows Outbox DeviceIngress EventStore.
From S2P Require Import ContractModel Schema Validation ColdRoom ContractCompiler Events EventHistory.
From stdpp Require Import sorting relations.

Local Open Scope Z_scope.

(** ** Field metadata *)
Record DeviceMetricFieldMetadata := {
  fm_label : string; fm_unit : option string; fm_semantic : option string; fm_presentation : option FieldPresentation;
}.
(** Code outside the sources: SQL's [json_extract] of a field of a contract
    document, and the derived reader of presentations. *)
Class FieldReader := {
  field_definition : string -> string -> string -> option string;
  presentation_from_value : value -> result string FieldPresentation;
}.
Section metadata.
Context `{!FieldReader}.
Definition present (key : string) (definition : value) : option value :=
  v ← get key definition; if is_null v then None else Some v.
Definition optional_string (definition : value) (key : string) : result PersistenceError (option string) :=
  match present key definition with
  | None => Ok None
  | Some v => Some <$> ok_or (as_str v) (CorruptData ("originating contract metric has invalid " +:+ key))
  end.
Definition metric_field_metadata (definition : value) (sample_type : string)
    : result PersistenceError DeviceMetricFieldMetadata :=
  let value_type := get "valueType" definition ≫= as_str in
  match get "label" definition ≫= as_str with
  | None => Err (CorruptData "stored metric does not match its originating contract field")
  | Some label =>
    if negb (bool_decide (value_type = Some sample_type))
    then Err (CorruptData "stored metric does not match its originating contract field") else
    presentation ← match present "presentation" definition with
      | None => Ok None
      | Some v => Some <$> map_err (fun e =>
          CorruptData ("originating contract metric has invalid presentation: " +:+ e)) (presentation_from_value v)
      end;
    unit_ ← optional_string definition "unit";
    semantic ← optional_string definition "semantic";
    Ok {| fm_label := label; fm_unit := unit_; fm_semantic := semantic; fm_presentation := presentation |}
  end.
End metadata.

(** ** Listing samples *)
Record DeviceMetricQuery := {
  mq_stream_key : option string; mq_field_path : option string; mq_since : option NaiveDateTime;
  mq_before : option NaiveDateTime; mq_limit : Z;
}.
Record DeviceMetricRecord := {
  mr_contract_id : string; mr_blueprint_id : string; mr_blueprint_name : string; mr_revision_id : string;
  mr_revision : Z; mr_event_id : string; mr_device_id : string; mr_stream_key : string; mr_field_path : string;
  mr_value : MetricValue; mr_field : DeviceMetricFieldMetadata; mr_occurred_at : NaiveDateTime;
}.
(** [device_blueprint_revisions] and [device_blueprints], by tenant and id. *)
Record BlueprintTables := {
  bt_revisions : gmap (string * string) (string * Z);
  bt_blueprints : gmap (string * string) string;
}.
(** A row of the joins: the sample's key and row, its event, contract, blueprint, its name and revision. *)
Record JoinedRow := {
  jr_key : SampleKey; jr_sample : SampleRow; jr_event : EventRow; jr_contract : ContractRow;
  jr_blueprint : string; jr_name : string; jr_revision : Z;
}.
Definition matches {A} `{EqDecision A} (o : option A) (x : A) : bool :=
  match o with None => true | Some y => bool_decide (y = x) end.
Definition join_row (s : EventStore) (b : BlueprintTables) (k : SampleKey) (r : SampleRow) : option JoinedRow :=
  event ← es_events s !! k.1.1;
  contract ← es_contracts s !! ev_contract event;
  '(blueprint, revision) ← bt_revisions b !! (kr_tenant contract, kr_revision contract);
  name ← bt_blueprints b !! (kr_tenant contract, blueprint);
  if (ev_tenant event =s? sm_tenant r) && (ev_device event =s? sm_device r)
     && (kr_tenant contract =s? ev_tenant event) && (kr_device contract =s? ev_device event)
  then Some {| jr_key := k; jr_sample := r; jr_event := event; jr_contract := contract; jr_blueprint := blueprint;
               jr_name := name; jr_revision := revision |}
  else None.
Definition selected (tenant device : string) (q : DeviceMetricQuery) (k : SampleKey) (r : SampleRow) : bool :=
  (sm_tenant r =s? tenant) && (sm_device r =s? device) && matches (mq_stream_key q) k.1.2 && matches (mq_field_path q) k.2
  && match mq_since q with Some t => timestamp_micros t <=? sm_occurred_at r | None => true end
  && match mq_before q with Some t => sm_occurred_at r <? timestamp_micros t | None => true end.
(** ORDER BY occurred_at DESC, event_id DESC, stream_key, field_path *)
Definition listing_compare (a b : JoinedRow) : comparison :=
  match sm_occurred_at (jr_sample b) ?= sm_occurred_at (jr_sample a) with
  | Eq => match String.compare (jr_key b).1.1 (jr_key a).1.1 with
          | Eq => match String.compare (jr_key a).1.2 (jr_key b).1.2 with
                  | Eq => String.compare (jr_key a).2 (jr_key b).2
                  | c => c
                  end
          | c => c
          end
  | c => c
  end.
Definition listing_le (a b : JoinedRow) : Prop := listing_compare a b <> Gt.
#[global] Instance listing_le_dec a b : Decision (listing_le a b).
Proof. unfold listing_le. apply _. Defined.
Definition list_rows (s : EventStore) (b : BlueprintTables) (tenant device : string) (q : DeviceMetricQuery) : list JoinedRow :=
  sql_limit (mq_limit q) (merge_sort listing_le
    (omap (fun e : SampleKey * SampleRow => if selected tenant device q e.1 e.2 then join_row s b e.1 e.2 else None)
       (map_to_list (es_samples s)))).

Section listing.
Context `{!ChronoMicros, !SerdeJson, !FieldReader}.
Definition decode_value (event : string) (r : SampleRow) : result PersistenceError MetricValue :=
  v ← (if sm_type r =s? "float64" then Ok (VFloat64 <$> sm_double r)
       else if sm_type r =s? "int64" then Ok (VInt64 <$> sm_int r)
       else if sm_type r =s? "string" then Ok (VText <$> sm_text r)
       else if sm_type r =s? "boolean" then Ok ((fun z => VBoolean (negb (z =? 0))) <$> sm_bool r)
       else if sm_type r =s? "json" then
         match sm_json r with
         | Some text => (fun v => Some (VJson v)) <$> map_err CorruptData (from_str text)
         | None => Ok None
         end
       else Ok None);
  ok_or v (CorruptData ("metric '" +:+ event +:+ "' has invalid value_type '" +:+ sm_type r +:+ "' or missing value")).
Definition decode_metric (j : JoinedRow) : result PersistenceError DeviceMetricRecord :=
  let '(event, stream, field) := jr_key j in
  v ← decode_value event (jr_sample j);
  text ← ok_or (field_definition (kr_document (jr_contract j)) stream field)
           (CorruptData "originating contract metric is missing");
  definition ← map_err CorruptData (from_str text);
  revision ← narrow_i32 (jr_revision j) "revision";
  meta ← metric_field_metadata definition (sm_type (jr_sample j));
  occurred ← datetime (sm_occurred_at (jr_sample j));
  Ok {| mr_contract_id := ev_contract (jr_event j); mr_blueprint_id := jr_blueprint j; mr_blueprint_name := jr_name j;
        mr_revision_id := kr_revision (jr_contract j); mr_revision := revision; mr_event_id := event;
        mr_device_id := sm_device (jr_sample j); mr_stream_key := stream; mr_field_path := field; mr_value := v;
        mr_field := meta; mr_occurred_at := occurred |}.
Definition repo_list_metrics (s : EventStore) (b : BlueprintTables) (tenant device : string) (q : DeviceMetricQuery)
    : result PersistenceError (option (list DeviceMetricRecord)) :=
  if negb (device_exists s tenant device) then Ok None else
  marks ← ok_or (es_retention s) (CorruptData "metric retention state is missing");
  if match mq_since q with Some t => timestamp_micros t <? marks.1 | None => false end
     || match mq_before q with Some t => timestamp_micros t <=? marks.1 | None => false end
  then Err HistoryExpired
  else Some <$> mapM decode_metric (list_rows s b tenant device q).
(** [i64::clamp]. *)
Definition clamp (lo hi x : Z) : Z := Z.max lo (Z.min hi x).
Definition list_metrics (s : EventStore) (b : BlueprintTables) (ctx : TenantContext) (device : string)
    (q : DeviceMetricQuery) : result ApplicationError (list DeviceMetricRecord) :=
  _ ← require_permission ctx ReadTelemetry;
  let q := {| mq_stream_key := mq_stream_key q; mq_field_path := mq_field_path q; mq_since := mq_since q;
              mq_before := mq_before q; mq_limit := clamp 1 10000 (mq_limit q) |} in
  found ← map_err (fun e => match e with
                            | HistoryExpired => InvalidOperation "Metric history is outside the retained raw-event range"
                            | other => Persistence other
                            end) (repo_list_metrics s b (ctx_tenant ctx) device q);
  ok_or found (NotFound ("Device '" +:+ device +:+ "' not found")).
End listing.

(** ** What a listing shows of the accepted events *)
Section complete.
Context {chr : Chrono} {libm : Libm} {micros : ChronoMicros} {codec : SerdeJson} {actions_codec : ActionCodec}
  {sql : SqlText} {spans : ChronoSpans} {reader : FieldReader}.

(** A stored value read back; JSON goes through its text. *)
Definition reads_as (v v' : MetricValue) : Prop :=
  match v with
  | VJson j => exists t j', to_string j = Ok t /\ from_str t = Ok j' /\ v' = VJson j'
  | _ => v' = v
  end.
Definition reported (e : RecordDeviceEvent) (m : DeviceMetricSample) (r : DeviceMetricRecord) : Prop :=
  mr_event_id r = re_event_id e /\ mr_device_id r = re_device_id e /\ mr_stream_key r = ms_stream m
  /\ mr_field_path r = ms_field m /\ mr_occurred_at r = occurred e * 1000 /\ reads_as (ms_value m) (mr_value r).
Definition in_query (q : DeviceMetricQuery) (e : RecordDeviceEvent) (m : DeviceMetricSample) : Prop :=
  matches (mq_stream_key q) (ms_stream m) = true /\ matches (mq_field_path q) (ms_field m) = true
  /\ (forall t, mq_since q = Some t -> timestamp_micros t <= occurred e)
  /\ (forall t, mq_before q = Some t -> occurred e < timestamp_micros t).
(** The foreign keys of events, contracts, revisions and blueprints. *)
Definition references_kept (s : EventStore) (b : BlueprintTables) : Prop :=
  forall id ev, es_events s !! id = Some ev ->
  exists c blueprint revision name, es_contracts s !! ev_contract ev = Some c /\ kr_tenant c = ev_tenant ev
    /\ kr_device c = ev_device ev /\ bt_revisions b !! (kr_tenant c, kr_revision c) = Some (blueprint, revision)
    /\ bt_blueprints b !! (kr_tenant c, blueprint) = Some name.

Lemma stored_sample_fields tenant e m row :
  stored_sample tenant e m = Ok row ->
  sm_tenant row = tenant /\ sm_device row = re_device_id e /\ sm_occurred_at row = occurred e
  /\ sm_type row = value_type (ms_value m).
Proof.
  unfold stored_sample, sample_row. destruct (ms_value m); [intros [= <-]; done..|].
  by intros (t & _ & [= <-])%bind_ok.
Qed.
Lemma decode_stored tenant e m row event v :
  stored_sample tenant e m = Ok row -> decode_value event row = Ok v -> reads_as (ms_value m) v.
Proof.
  unfold stored_sample, sample_row, decode_value, reads_as. destruct (ms_value m) as [x|z|t|b|j].
  - intros [= <-]. simpl. by intros [= <-].
  - intros [= <-]. simpl. by intros [= <-].
  - intros [= <-]. simpl. by intros [= <-].
  - intros [= <-]. simpl. destruct b; simpl; by intros [= <-].
  - intros (t & Ht%map_err_inv & [= <-])%bind_ok. simpl. destruct (from_str t) as [j'|] eqn:Hj; simpl; [|done].
    intros [= <-]. eauto.
Qed.
Lemma selected_spec tenant device q k r :
  selected tenant device q k r = true <->
  sm_tenant r = tenant /\ sm_device r = device /\ matches (mq_stream_key q) k.1.2 = true
  /\ matches (mq_field_path q) k.2 = true
  /\ (forall t, mq_since q = Some t -> timestamp_micros t <= sm_occurred_at r)
  /\ (forall t, mq_before q = Some t -> sm_occurred_at r < timestamp_micros t).
Proof.
  unfold selected. rewrite !andb_true_iff, !String.eqb_eq.
  assert (match mq_since q with Some t => timestamp_micros t <=? sm_occurred_at r | None => true end = true
    <-> forall t, mq_since q = Some t -> timestamp_micros t <= sm_occurred_at r) as ->.
  { destruct (mq_since q); [rewrite Z.leb_le|]; naive_solver. }
  assert (match mq_before q with Some t => sm_occurred_at r <? timestamp_micros t | None => true end = true
    <-> forall t, mq_before q = Some t -> sm_occurred_at r < timestamp_micros t) as ->.
  { destruct (mq_before q); [rewrite Z.ltb_lt|]; naive_solver. }
  tauto.
Qed.
Lemma join_row_key s b k r j : join_row s b k r = Some j -> jr_key j = k /\ jr_sample j = r.
Proof.
  unfold join_row. intros (ev & _ & (c & _ & ([bp rev] & _ & (name & _ & H)%bind_Some)%bind_Some)%bind_Some)%bind_Some.
  destruct (_ && _); by simplify_eq.
Qed.
Lemma join_row_total s b k r ev :
  references_kept s b -> es_events s !! k.1.1 = Some ev -> ev_tenant ev = sm_tenant r -> ev_device ev = sm_device r ->
  exists j, join_row s b k r = Some j.
Proof.
  intros Href Hev Ht Hd. destruct (Href _ _ Hev) as (c & bp & rev & name & Hc & Hct & Hcd & Hr & Hn).
  unfold join_row. rewrite Hev. simpl. rewrite Hc. simpl. rewrite Hr. simpl. rewrite Hn. simpl.
  rewrite Ht, Hd, Hct, Hcd, Ht, Hd, !String.eqb_refl. simpl. eauto.
Qed.
Lemma elem_of_listing s b tenant device q j :
  j ∈ list_rows s b tenant device q ->
  es_samples s !! jr_key j = Some (jr_sample j) /\ selected tenant device q (jr_key j) (jr_sample j) = true.
Proof.
  unfold list_rows, sql_limit. intros H.
  assert (j ∈ merge_sort listing_le (omap (fun e : SampleKey * SampleRow =>
    if selected tenant device q e.1 e.2 then join_row s b e.1 e.2 else None) (map_to_list (es_samples s)))) as Hj.
  { destruct (mq_limit q <? 0); [done|]. rewrite <- (take_drop (Z.to_nat (mq_limit q))). apply elem_of_app. by left. }
  rewrite merge_sort_Permutation in Hj. apply list_elem_of_omap in Hj as ([k r] & Hin & Hj). simpl in Hj.
  destruct (selected tenant device q k r) eqn:Hs; [|done]. apply join_row_key in Hj as [-> ->].
  by apply elem_of_map_to_list in Hin.
Qed.
Lemma mapM_length {E A B} (f : A -> result E B) l l' : mapM f l = Ok l' -> length l' = length l.
Proof.
  revert l'. induction l as [|a l IH]; intros l'; [by intros [= <-]|]. simpl.
  intros (x & _ & (xs & Hxs & [= <-])%bind_ok)%bind_ok. simpl. f_equal. by apply IH.
Qed.
Lemma decode_metric_reported (x : string * string * RecordDeviceEvent) m row j r :
  stored_sample x.1.1 x.2 m = Ok row -> jr_sample j = row -> jr_key j = sample_key x.2 m ->
  decode_metric j = Ok r -> reported x.2 m r.
Proof.
  intros Hrow Hs Hk H. destruct (stored_sample_fields _ _ _ _ Hrow) as (_ & Hd & Ho & _).
  unfold decode_metric in H. rewrite Hk in H. unfold sample_key in H.
  apply bind_ok in H as (v & Hv & H). apply bind_ok in H as (t & _ & H). apply bind_ok in H as (def & _ & H).
  apply bind_ok in H as (rev & _ & H). apply bind_ok in H as (meta & _ & H). apply bind_ok in H as (at_ & Hat & H).
  simplify_eq/=. unfold datetime in Hat. destruct (micros_in_range _); simplify_eq/=.
  unfold reported. simpl. rewrite Hd, Ho. split_and!; try done. by eapply decode_stored.
Qed.

Lemma rows_complete s b tenant device q k row ev :
  references_kept s b -> es_samples s !! k = Some row -> es_events s !! k.1.1 = Some ev ->
  ev_tenant ev = sm_tenant row -> ev_device ev = sm_device row -> selected tenant device q k row = true ->
  Z.of_nat (length (list_rows s b tenant device q)) < mq_limit q ->
  exists j, j ∈ list_rows s b tenant device q /\ jr_key j = k /\ jr_sample j = row.
Proof.
  intros Href Hrow Hev Ht Hd Hsel Hlen. destruct (join_row_total s b k row ev Href Hev Ht Hd) as [j Hj].
  exists j. split; [|by apply join_row_key in Hj]. unfold list_rows, sql_limit in *.
  set (sorted := merge_sort _ _) in *.
  assert (j ∈ sorted) as Hin.
  { unfold sorted. rewrite merge_sort_Permutation. apply list_elem_of_omap. exists (k, row).
    split; [by apply elem_of_map_to_list|]. simpl. by rewrite Hsel. }
  destruct (Z.ltb_spec (mq_limit q) 0); [done|]. rewrite length_take in Hlen. rewrite take_ge by lia. done.
Qed.

(** What was accepted is what is read back.  A successful listing shows
    only accepted samples of that tenant and device that the query asks for,
    with the event's id and time and the recorded value; and, when it asks for
    a time from which raw samples are still retained (an older time is
    refused) and its limit is not reached, it shows all of them.  It never
    has more than 10000 entries. *)
Theorem listing_complete s h b ctx device q l :
  fresh_store s -> rtc event_step {| eh_store := s; accepted := [] |} h ->
  references_kept (eh_store h) b -> list_metrics (eh_store h) b ctx device q = Ok l ->
  Z.of_nat (length l) <= 10000
  /\ (forall r, r ∈ l -> exists x m, x ∈ accepted h /\ m ∈ re_metrics x.2 /\ x.1.1 = ctx_tenant ctx
       /\ re_device_id x.2 = device /\ in_query q x.2 m /\ reported x.2 m r)
  /\ (mq_since q <> None -> Z.of_nat (length l) < clamp 1 10000 (mq_limit q) ->
      forall x m, x ∈ accepted h -> m ∈ re_metrics x.2 -> x.1.1 = ctx_tenant ctx -> re_device_id x.2 = device ->
      in_query q x.2 m -> exists r, r ∈ l /\ reported x.2 m r).
Proof.
  intros Hs Hrun Href H. destruct (history_inv s h Hs Hrun) as (raw & mark & Hinv).
  unfold list_metrics in H. apply bind_ok in H as ([] & _ & H). set (q' := {| mq_limit := _ |}) in H.
  apply bind_ok in H as (found & Hf%map_err_inv & ->%ok_or_ok). unfold repo_list_metrics in Hf.
  destruct (device_exists _ _ _); [|done]. cbn [negb] in Hf. rewrite (proj1 (ei_marks _ _ _ Hinv)) in Hf. simpl in Hf.
  destruct (_ || _) eqn:Hexp in Hf; [done|]. apply orb_false_iff in Hexp as [Hsince _].
  destruct (mapM _ _) as [l'|] eqn:Hl; simplify_eq/=. pose proof (mapM_length _ _ _ Hl) as Hlen. split_and!.
  - rewrite Hlen. unfold list_rows, sql_limit. simpl. unfold clamp.
    destruct (Z.ltb_spec (Z.max 1 (Z.min 10000 (mq_limit q))) 0); [lia|]. rewrite length_take. lia.
  - intros r Hr. destruct (mapM_elem _ _ _ _ Hl Hr) as (j & Hj & Hdec). apply elem_of_listing in Hj as [Hrow Hsel].
    destruct (ei_samples _ _ _ Hinv _ _ Hrow) as (x & m & Hx & Hm & Hk & Hst & _).
    destruct (stored_sample_fields _ _ _ _ Hst) as (Ht & Hd & Ho & _).
    apply selected_spec in Hsel as (Et & Ed & E1 & E2 & E3 & E4). rewrite Hk in E1, E2. simpl in E1, E2.
    exists x, m. split_and!; [done|done|congruence|congruence| |by eapply decode_metric_reported].
    unfold in_query. rewrite <- Ho. done.
  - intros Hdef Hlim x m Hx Hm Ht Hd (Q1 & Q2 & Q3 & Q4). destruct (mq_since q) as [t|] eqn:Et; [|done].
    apply Z.ltb_ge in Hsince. destruct (ei_raw _ _ _ Hinv x Hx) as [[p Hev] Hsm]; [specialize (Q3 t eq_refl); lia|].
    destruct (Hsm m Hm) as (row & Hst & Hrow). destruct (stored_sample_fields _ _ _ _ Hst) as (St & Sd & So & _).
    destruct (rows_complete (eh_store h) b (ctx_tenant ctx) device q' (sample_key x.2 m) row (event_row x.1.1 p x.2)
      Href Hrow Hev) as (j & Hj & Hk & Hjs); [done|done| |by rewrite <- Hlen|].
    + apply selected_spec. simpl. rewrite So, St, Sd. split_and!; try done.
    + destruct (mapM_elem_inv _ _ _ j Hl Hj) as (r & Hr & Hdec). exists r. split; [done|]. by eapply decode_metric_reported.
Qed.
End complete.

(** ** The latest location *)
Section location.
Context {micros : ChronoMicros} {codec : SerdeJson} {host : EventHost} {spans : ChronoSpans}.

(** A stored sample as a coordinate: a double, or an integer converted to one. *)
Definition coordinate_of (r : SampleRow) (x : f64) : Prop :=
  (sm_type r = "float64" /\ sm_double r = Some x)
  \/ (sm_type r = "int64" /\ exists z, sm_int r = Some z /\ x = f64_of_Z z).
(** One event that gives the device a valid position within the query's window. *)
Record positioned (s : EventStore) (tenant device : string) (q : DeviceLocationQuery) (event : string) (ev : EventRow)
    (lat lon : f64) : Prop := {
  po_event : es_events s !! event = Some ev;
  po_device : ev_tenant ev = tenant /\ ev_device ev = device;
  po_contract : ev_contract ev = lq_contract_id q
    /\ exists a, es_assignments s !! (tenant, device) = Some a /\ as_desired a = lq_contract_id q;
  po_fresh : timestamp_micros (lq_since q) < ev_occurred_at ev <= timestamp_micros (lq_now q);
  po_samples : exists r1 r2, es_samples s !! (event, lq_stream_key q, lq_latitude_path q) = Some r1
    /\ es_samples s !! (event, lq_stream_key q, lq_longitude_path q) = Some r2
    /\ Forall (fun r => sm_tenant r = tenant /\ sm_device r = device /\ sm_occurred_at r = ev_occurred_at ev) [r1; r2]
    /\ coordinate_of r1 lat /\ coordinate_of r2 lon;
  po_range : in_range (f64_of_Z (-90)) (f64_of_Z 90) lat = true /\ in_range (f64_of_Z (-180)) (f64_of_Z 180) lon = true;
}.
Lemma coordinate_spec r x : coordinate r = Some x <-> coordinate_of r x.
Proof.
  unfold coordinate, coordinate_of. destruct (String.eqb_spec (sm_type r) "float64") as [->|].
  - split; [by left|]. intros [[_ H]|[H _]]; done.
  - destruct (String.eqb_spec (sm_type r) "int64") as [->|].
    + rewrite fmap_Some. split; [intros (z & Hz & ->); right; eauto|]. intros [[H _]|[_ H]]; [done|naive_solver].
    + split; [done|]. intros [[? _]|[? _]]; done.
Qed.
Lemma position_spec s tenant device q event ev p :
  es_events s !! event = Some ev ->
  position s tenant device q event ev = Some p
  <-> exists lat lon, p = (event, ev, lat, lon) /\ positioned s tenant device q event ev lat lon.
Proof.
  intros Hev. unfold position. split.
  - intros (a & Ha & (r1 & H1 & (r2 & H2 & H)%bind_Some)%bind_Some)%bind_Some.
    match type of H with (if ?c then _ else _) = _ => destruct c eqn:Hc; [|done] end.
    apply bind_Some in H as (lat & Hlat%coordinate_spec & H). apply bind_Some in H as (lon & Hlon%coordinate_spec & H).
    destruct (_ && _) eqn:Hr in H; simplify_eq. apply andb_true_iff in Hr. exists lat, lon. split; [done|].
    rewrite !andb_true_iff, !String.eqb_eq, !Z.eqb_eq, Z.ltb_lt, Z.leb_le in Hc. destruct_and! Hc. subst.
    constructor; try done.
    + split; [done|]. exists a. split; congruence.
    + exists r1, r2. split_and!; try done. repeat constructor; done.
  - intros (lat & lon & -> & [_ [Ht Hd] [Hk (a & Ha & Hdes)] [Hs1 Hs2] (r1 & r2 & H1 & H2 & HF & C1 & C2) [R1 R2]]).
    rewrite Ha, H1, H2. cbn [mbind option_bind andb]. inversion HF as [|? ? (T1 & D1 & O1) HF']; subst. inversion HF' as [|? ? (T2 & D2 & O2) _]; subst.
    rewrite Hdes, Hk, T1, T2, D1, D2, O1, O2, !String.eqb_refl, !Z.eqb_refl. cbn [mbind option_bind andb].
    rewrite (proj2 (Z.ltb_lt _ _) Hs1), (proj2 (Z.leb_le _ _) Hs2). cbn [mbind option_bind andb].
    apply coordinate_spec in C1, C2. rewrite C1, C2. cbn [mbind option_bind andb]. by rewrite R1, R2.
Qed.
#[local] Instance position_le_total : Total position_le.
Proof.
  intros [[[e1 r1] ?] ?] [[[e2 r2] ?] ?]. unfold position_le. simpl. rewrite (str_compare_antisym e2 e1).
  destruct (Z.lt_total (ev_occurred_at r1) (ev_occurred_at r2)) as [?|[->|?]]; [right; by left| |left; by left].
  destruct (String.compare e1 e2) eqn:E; simpl; [left|right|left]; right; done.
Qed.
#[local] Instance position_le_trans : Transitive position_le.
Proof.
  intros [[[e1 r1] ?] ?] [[[e2 r2] ?] ?] [[[e3 r3] ?] ?]. unfold position_le. simpl. intros H1 H2.
  exact (as_late_trans _ _ _ _ _ _ H1 H2).
Qed.

(** The latest location is the newest valid position of one event: never a
    combination of events, contracts, streams or devices; and there is none
    exactly when no retained event of the assigned contract gives one within
    the freshness window. *)
Theorem latest_location_exact s tenant device q r :
  repo_latest_location s tenant device q = Ok r ->
  match r with
  | Some loc => exists ev, positioned s tenant device q (lr_event_id loc) ev (lr_latitude loc) (lr_longitude loc)
      /\ lr_contract_id loc = lq_contract_id q /\ lr_occurred_at loc = ev_occurred_at ev * 1000
      /\ lr_expires_at loc
         = (ev_occurred_at ev + (timestamp_micros (lq_now q) - timestamp_micros (lq_since q))) * 1000
      /\ forall event' ev' lat' lon', positioned s tenant device q event' ev' lat' lon' ->
           as_late (ev_occurred_at ev) (lr_event_id loc) (ev_occurred_at ev') event'
  | None => forall event ev lat lon, ~ positioned s tenant device q event ev lat lon
  end.
Proof.
  unfold repo_latest_location. set (ps := omap _ _).
  assert (forall p, p ∈ merge_sort position_le ps <-> exists event ev lat lon, p = (event, ev, lat, lon)
    /\ positioned s tenant device q event ev lat lon) as Hin.
  { intros p. rewrite merge_sort_Permutation. unfold ps. rewrite list_elem_of_omap. split.
    - intros ([event ev] & Hev%elem_of_map_to_list & Hp). apply position_spec in Hp as (lat & lon & -> & Hp); [|done]. by exists event, ev, lat, lon.
    - intros (event & ev & lat & lon & -> & Hp). exists (event, ev). pose proof (po_event _ _ _ _ _ _ _ _ Hp) as Hev.
      split; [by apply elem_of_map_to_list|]. apply position_spec; [done|]. eauto. }
  pose proof (StronglySorted_merge_sort position_le ps) as Hs.
  destruct (merge_sort position_le ps) as [|[[[event ev] lat] lon] rest].
  - intros [= <-] event ev lat lon Hp. assert ((event, ev, lat, lon) ∈ @nil (string * EventRow * f64 * f64)) as H.
    { apply Hin. by exists event, ev, lat, lon. }
    by apply elem_of_nil in H.
  - intros (at_ & Hat & (exp & Hexp & [= <-])%bind_ok)%bind_ok. simpl.
    unfold datetime in Hat, Hexp. destruct (micros_in_range _); [|done]. destruct (micros_in_range _); [|done]. simplify_eq.
    destruct (proj1 (Hin (event, ev, lat, lon))) as (event0 & ev0 & lat0 & lon0 & [= <- <- <- <-] & Hp); [by left|].
    exists ev. split_and!; [done|by destruct (po_contract _ _ _ _ _ _ _ _ Hp)|done|done|].
    intros event' ev' lat' lon' Hp'. apply StronglySorted_inv in Hs as [_ HF]. rewrite Forall_forall in HF.
    assert ((event', ev', lat', lon') ∈ (event, ev, lat, lon) :: rest) as [E|E]%elem_of_cons
      by (apply Hin; by exists event', ev', lat', lon').
    + simplify_eq. right. by rewrite str_compare_refl.
    + apply HF in E. exact E.
Qed.
End location.

(** ** The cold room's event, read back *)
#[local] Existing Instance demo_chrono.
#[local] Existing Instance demo_libm.
#[local] Existing Instance demo_micros.
#[local] Existing Instance demo_actions.
#[local] Existing Instance demo_sql.
#[local] Existing Instance demo_spans.
Definition listing_json : SerdeJson :=
  {| to_string := fun _ => Ok "{}";
     from_str := fun _ => Ok (object [("label", VString "Temperature"); ("valueType", VString "float64")]);
     utc_in_range := fun _ => true |}.
Definition listing_reader : FieldReader :=
  {| field_definition := fun _ _ _ => Some "{}"; presentation_from_value := fun _ => Err "none" |}.
#[local] Existing Instance listing_json.
#[local] Existing Instance listing_reader.
Definition listing_recorded : result PersistenceError RecordDeviceEventOutcome * EventStore :=
  repo_record cold_room_store "tenant-a" cold_room_event (fun _ => "u") 0.
Definition listing_history : EventHistory :=
  {| eh_store := listing_recorded.2; accepted := [("tenant-a", "dbr_1", cold_room_event)] |}.
Definition listing_tables : BlueprintTables :=
  {| bt_revisions := {[("tenant-a", "dbr_1") := ("bp", 1)]}; bt_blueprints := {[("tenant-a", "bp") := "Cold room"]} |}.
Definition listing_context : TenantContext :=
  {| ctx_tenant := "tenant-a"; ctx_actor := System "host"; ctx_permissions := permission_set_all |}.
Definition listing_query : DeviceMetricQuery :=
  {| mq_stream_key := None; mq_field_path := None; mq_since := Some 0; mq_before := None; mq_limit := 100 |}.
Lemma listing_run : rtc event_step {| eh_store := cold_room_store; accepted := [] |} listing_history.
Proof.
  apply rtc_once. unfold listing_history.
  assert (listing_recorded.1 = Ok {| ro_recorded := true; metrics_recorded := 1; ro_actions_enqueued := 0 |}) as E
    by (vm_compute; reflexivity).
  destruct listing_recorded as [r s'] eqn:Er. simpl in E. subst r.
  exact (step_record {| eh_store := cold_room_store; accepted := [] |} "tenant-a" cold_room_event (fun _ => "u") 0 _ s' Er).
Qed.
Lemma listing_references : references_kept (eh_store listing_history) listing_tables.
Proof.
  assert (es_events (eh_store listing_history)
    = {[cold_room_event_id := event_row "tenant-a" "{}" cold_room_event]}) as E by (vm_compute; reflexivity).
  intros id ev. rewrite E. intros [<- <-]%lookup_singleton_Some.
  exists {| kr_tenant := "tenant-a"; kr_device := "device-1"; kr_revision := "dbr_1"; kr_document := "null"; kr_hash := "h";
            kr_created_at := 0 |}, "bp", 1, "Cold room".
  split_and!; vm_compute; reflexivity.
Qed.
Lemma listing_complete_witness :
  exists l r, list_metrics (eh_store listing_history) listing_tables listing_context "device-1" listing_query = Ok l
    /\ r ∈ l /\ mr_value r = VFloat64 (f64_of_Z 4).
Proof.
  destruct (list_metrics (eh_store listing_history) listing_tables listing_context "device-1" listing_query) as [l|e] eqn:E;
    [|vm_compute in E; discriminate E].
  destruct (listing_complete cold_room_store listing_history listing_tables listing_context "device-1" listing_query l)
    as (_ & _ & H); [split_and!; reflexivity|exact listing_run|exact listing_references|exact E|].
  assert (length l = 1%nat) as Hl by (vm_compute in E; injection E as <-; reflexivity).
  destruct (H ltac:(discriminate) ltac:(rewrite Hl; reflexivity) ("tenant-a", "dbr_1", cold_room_event)
    (sample_at "environment" "/temperature" (VFloat64 (f64_of_Z 4))) (list_elem_of_here _ _) (list_elem_of_here _ _)
    eq_refl eq_refl) as (r & Hr & _ & _ & _ & _ & _ & Hv).
  { split_and!; [reflexivity|reflexivity| |discriminate]. intros t Ht. injection Ht as <-. vm_compute. discriminate. }
  exists l, r. split_and!; [reflexivity|exact Hr|exact Hv].
Defined.
