(* ===== verification/BlueprintStore.v ===== *)
(** * Device blueprints: records and tables (crates/backend-core/src/device_blueprints.rs,
    crates/backend-turso/src/device_blueprints.rs)

    A blueprint has one draft, which is replaced in place, and a chain of
    immutable revisions.  Publishing compares, in one transaction, the draft
    and the latest revision with what the publisher has read and appends the
    next revision. *)
From stdpp Require Import sorting.
From S2P Require Import Prelude Text BTree Json Errors RuleTypes Shadows RuleSnapshot.

Local Open Scope Z_scope.

(** ** Records *)
Record BlueprintRecord := {
  br_id : string; br_key : string; br_name : string; br_description : option string;
  br_latest_revision : option Z; br_created_at : NaiveDateTime; br_updated_at : NaiveDateTime;
}.
Record BlueprintList := { bl_records : list BlueprintRecord; bl_total : Z }.
Record BlueprintDraftRecord := {
  dr_id : string; dr_blueprint_id : string; dr_document : value; dr_created_at : NaiveDateTime;
  dr_updated_at : NaiveDateTime;
}.
Record BlueprintRevisionRecord := {
  rv_id : string; rv_blueprint_id : string; rv_revision : Z; rv_document : value; rv_document_hash : string;
  rv_compatibility : value; rv_created_at : NaiveDateTime;
}.
Record CreateBlueprintRecord := {
  cb_id : string; cb_draft_id : string; cb_key : string; cb_name : string; cb_description : option string;
  cb_document : value; cb_now : NaiveDateTime;
}.
Record ReplaceBlueprintDraftRecord := {
  rd_key : string; rd_name : string; rd_description : option string; rd_document : value; rd_now : NaiveDateTime;
}.
Record PublishBlueprintRecord := {
  pb_revision_id : string; pb_expected_previous : option string; pb_expected_draft_updated_at : NaiveDateTime;
  pb_document : value; pb_document_hash : string; pb_compatibility : value; pb_now : NaiveDateTime;
}.
Inductive PublishBlueprintOutcome :=
| Published (r : BlueprintRevisionRecord) | BlueprintNotFound | DraftChanged | PublicationChanged.

(** ** Tables, by primary key *)
Record BlueprintRow := {
  bp_tenant : string; bp_key : string; bp_name : string; bp_description : option string;
  bp_created : Z; bp_updated : Z;
}.
Record DraftRow := {
  df_tenant : string; df_blueprint : string; df_document : string; df_created : Z; df_updated : Z;
}.
Record RevisionRow := {
  rw_tenant : string; rw_blueprint : string; rw_revision : Z; rw_document : string; rw_hash : string;
  rw_compatibility : string; rw_created : Z;
}.
Record BlueprintStore := {
  bs_orgs : gset string;
  bs_blueprints : gmap string BlueprintRow;
  bs_drafts : gmap string DraftRow;
  bs_revisions : gmap string RevisionRow;
}.
Definition with_blueprints (s : BlueprintStore) (m : gmap string BlueprintRow) : BlueprintStore :=
  {| bs_orgs := bs_orgs s; bs_blueprints := m; bs_drafts := bs_drafts s; bs_revisions := bs_revisions s |}.
Definition with_drafts (s : BlueprintStore) (m : gmap string DraftRow) : BlueprintStore :=
  {| bs_orgs := bs_orgs s; bs_blueprints := bs_blueprints s; bs_drafts := m; bs_revisions := bs_revisions s |}.
Definition with_revisions (s : BlueprintStore) (m : gmap string RevisionRow) : BlueprintStore :=
  {| bs_orgs := bs_orgs s; bs_blueprints := bs_blueprints s; bs_drafts := bs_drafts s; bs_revisions := m |}.
(** Only a committed transaction keeps its effects. *)
Definition commit_blueprints {A} (s : BlueprintStore) (r : result PersistenceError (A * BlueprintStore))
    : result PersistenceError A * BlueprintStore :=
  match r with Ok (a, s') => (Ok a, s') | Err e => (Err e, s) end.

(** Rows of a tenant and blueprint. *)
Definition blueprint_row (s : BlueprintStore) (tenant id : string) : option BlueprintRow :=
  r ← bs_blueprints s !! id; if bp_tenant r =s? tenant then Some r else None.
Definition of_blueprint (tenant blueprint : string) (e : string * RevisionRow) : bool :=
  (rw_tenant e.2 =s? tenant) && (rw_blueprint e.2 =s? blueprint).
Definition revision_rows (s : BlueprintStore) (tenant blueprint : string) : list (string * RevisionRow) :=
  List.filter (of_blueprint tenant blueprint) (map_to_list (bs_revisions s)).
(** ORDER BY revision DESC LIMIT 1, and [max(revision)]. *)
Definition later (e : string * RevisionRow) (best : option (string * RevisionRow)) : option (string * RevisionRow) :=
  match best with
  | Some b => if rw_revision e.2 <? rw_revision b.2 then Some b else Some e
  | None => Some e
  end.
Definition latest_row (s : BlueprintStore) (tenant blueprint : string) : option (string * RevisionRow) :=
  fold_right later None (revision_rows s tenant blueprint).
Definition max_revision (s : BlueprintStore) (tenant blueprint : string) : option Z :=
  (fun e : string * RevisionRow => rw_revision e.2) <$> latest_row s tenant blueprint.
(** UNIQUE (tenant_id, blueprint_id) makes the draft the only one. *)
Definition draft_row (s : BlueprintStore) (tenant blueprint : string) : option (string * DraftRow) :=
  head (List.filter (fun e : string * DraftRow => (df_tenant e.2 =s? tenant) && (df_blueprint e.2 =s? blueprint))
          (map_to_list (bs_drafts s))).
(** UNIQUE (tenant_id, blueprint_key). *)
Definition key_taken (s : BlueprintStore) (tenant key : string) (except : option string) : bool :=
  existsb (fun e : string * BlueprintRow => (bp_tenant e.2 =s? tenant) && (bp_key e.2 =s? key)
             && negb (bool_decide (except = Some e.1))) (map_to_list (bs_blueprints s)).

(** ORDER BY name, id. *)
Definition name_le (a b : string * BlueprintRow) : Prop :=
  match String.compare (bp_name a.2) (bp_name b.2) with
  | Lt => True | Gt => False
  | Eq => match String.compare a.1 b.1 with Gt => False | _ => True end
  end.
#[global] Instance name_le_dec a b : Decision (name_le a b).
Proof. unfold name_le. repeat case_match; apply _. Defined.
(** LIMIT ?2 OFFSET ?3: a negative limit is none, a negative offset is 0. *)
Definition sql_page {A} (limit offset : Z) (l : list A) : list A :=
  let rest := drop (Z.to_nat offset) l in
  if limit <? 0 then rest else take (Z.to_nat limit) rest.

Section turso.
Context `{!ChronoMicros, !SerdeJson}.

Definition json (v : value) : result PersistenceError string := map_err PInternal (to_string v).
Definition parse_json (t : string) : result PersistenceError value := map_err CorruptData (from_str t).

(** ** Reading rows *)
Definition read_blueprint (s : BlueprintStore) (id : string) (r : BlueprintRow) : result PersistenceError BlueprintRecord :=
  latest ← match max_revision s (bp_tenant r) id with
           | Some n => Some <$> narrow_i32 n "device_blueprint_revisions.revision"
           | None => Ok None
           end;
  created ← datetime (bp_created r);
  updated ← datetime (bp_updated r);
  Ok {| br_id := id; br_key := bp_key r; br_name := bp_name r; br_description := bp_description r;
        br_latest_revision := latest; br_created_at := created; br_updated_at := updated |}.
Definition read_draft (e : string * DraftRow) : result PersistenceError BlueprintDraftRecord :=
  doc ← parse_json (df_document e.2);
  created ← datetime (df_created e.2);
  updated ← datetime (df_updated e.2);
  Ok {| dr_id := e.1; dr_blueprint_id := df_blueprint e.2; dr_document := doc; dr_created_at := created;
        dr_updated_at := updated |}.
Definition read_revision (e : string * RevisionRow) : result PersistenceError BlueprintRevisionRecord :=
  number ← narrow_i32 (rw_revision e.2) "device_blueprint_revisions.revision";
  doc ← parse_json (rw_document e.2);
  compat ← parse_json (rw_compatibility e.2);
  created ← datetime (rw_created e.2);
  Ok {| rv_id := e.1; rv_blueprint_id := rw_blueprint e.2; rv_revision := number; rv_document := doc;
        rv_document_hash := rw_hash e.2; rv_compatibility := compat; rv_created_at := created |}.
(** [Option::map(...).transpose()]. *)
Definition read_some {A B} (f : A -> result PersistenceError B) (o : option A) : result PersistenceError (option B) :=
  match o with Some a => Some <$> f a | None => Ok None end.

Definition repo_list (s : BlueprintStore) (tenant : string) (limit offset : Z) : result PersistenceError BlueprintList :=
  let own := List.filter (fun e : string * BlueprintRow => bp_tenant e.2 =s? tenant) (map_to_list (bs_blueprints s)) in
  records ← mapM (fun e => read_blueprint s e.1 e.2) (sql_page limit offset (merge_sort name_le own));
  Ok {| bl_records := records; bl_total := Z.of_nat (length own) |}.
Definition repo_get (s : BlueprintStore) (tenant id : string) : result PersistenceError (option BlueprintRecord) :=
  read_some (read_blueprint s id) (blueprint_row s tenant id).
Definition repo_get_draft (s : BlueprintStore) (tenant id : string) : result PersistenceError (option BlueprintDraftRecord) :=
  read_some read_draft (draft_row s tenant id).
Definition repo_latest_revision (s : BlueprintStore) (tenant id : string)
    : result PersistenceError (option BlueprintRevisionRecord) :=
  read_some read_revision (latest_row s tenant id).
Definition repo_get_revision (s : BlueprintStore) (tenant revision : string)
    : result PersistenceError (option BlueprintRevisionRecord) :=
  read_some read_revision
    (r ← bs_revisions s !! revision; if rw_tenant r =s? tenant then Some (revision, r) else None).

(** ** Writing *)
Definition blueprint_key_exists (s : BlueprintStore) (tenant id : string) : bool :=
  bool_decide (bp_tenant <$> bs_blueprints s !! id = Some tenant).
Definition insert_blueprint (s : BlueprintStore) (tenant : string) (r : CreateBlueprintRecord)
    : result PersistenceError BlueprintStore :=
  if bool_decide (is_Some (bs_blueprints s !! cb_id r)) || key_taken s tenant (cb_key r) None
  then Err (UniqueViolation "unique")
  else if negb (bool_decide (tenant ∈ bs_orgs s)) then Err (ForeignKeyViolation "foreign_key")
  else Ok (with_blueprints s (<[cb_id r :=
         {| bp_tenant := tenant; bp_key := cb_key r; bp_name := cb_name r; bp_description := cb_description r;
            bp_created := timestamp_micros (cb_now r); bp_updated := timestamp_micros (cb_now r) |}]> (bs_blueprints s))).
Definition insert_draft (s : BlueprintStore) (tenant : string) (r : CreateBlueprintRecord)
    : result PersistenceError BlueprintStore :=
  text ← json (cb_document r);
  if bool_decide (is_Some (bs_drafts s !! cb_draft_id r)) || bool_decide (is_Some (draft_row s tenant (cb_id r)))
  then Err (UniqueViolation "unique")
  else if negb (blueprint_key_exists s tenant (cb_id r)) then Err (ForeignKeyViolation "foreign_key")
  else Ok (with_drafts s (<[cb_draft_id r :=
         {| df_tenant := tenant; df_blueprint := cb_id r; df_document := text;
            df_created := timestamp_micros (cb_now r); df_updated := timestamp_micros (cb_now r) |}]> (bs_drafts s))).
Definition create_in (s : BlueprintStore) (tenant : string) (r : CreateBlueprintRecord)
    : result PersistenceError (BlueprintRecord * BlueprintDraftRecord * BlueprintStore) :=
  s1 ← insert_blueprint s tenant r;
  s2 ← insert_draft s1 tenant r;
  found ← repo_get s2 tenant (cb_id r);
  blueprint ← ok_or found PNotFound;
  found ← repo_get_draft s2 tenant (cb_id r);
  draft ← ok_or found PNotFound;
  Ok (blueprint, draft, s2).
Definition repo_create (s : BlueprintStore) (tenant : string) (r : CreateBlueprintRecord) :=
  commit_blueprints s (create_in s tenant r).

Definition replace_draft_in (s : BlueprintStore) (tenant id : string) (r : ReplaceBlueprintDraftRecord)
    : result PersistenceError (option BlueprintDraftRecord * BlueprintStore) :=
  match blueprint_row s tenant id with
  | None => Ok (None, s)
  | Some b =>
    if key_taken s tenant (rd_key r) (Some id) then Err (UniqueViolation "unique") else
    let now := timestamp_micros (rd_now r) in
    let s1 := with_blueprints s (<[id := {| bp_tenant := bp_tenant b; bp_key := rd_key r; bp_name := rd_name r;
                bp_description := rd_description r; bp_created := bp_created b; bp_updated := now |}]> (bs_blueprints s)) in
    text ← json (rd_document r);
    '(draft_id, d) ← ok_or (draft_row s1 tenant id) PNotFound;
    let d' := {| df_tenant := df_tenant d; df_blueprint := df_blueprint d; df_document := text;
                 df_created := df_created d; df_updated := now |} in
    draft ← read_draft (draft_id, d');
    Ok (Some draft, with_drafts s1 (<[draft_id := d']> (bs_drafts s1)))
  end.
Definition repo_replace_draft (s : BlueprintStore) (tenant id : string) (r : ReplaceBlueprintDraftRecord) :=
  commit_blueprints s (replace_draft_in s tenant id r).

(** INSERT INTO device_blueprint_revisions, with the CHECKs on the number and the hash's length. *)
Definition insert_revision (s : BlueprintStore) (id : string) (r : RevisionRow) : result PersistenceError BlueprintStore :=
  if (rw_revision r <=? 0) || negb (str_len (rw_hash r) =? 64) then Err (CheckViolation "check")
  else if bool_decide (is_Some (bs_revisions s !! id))
       || existsb (fun e : string * RevisionRow => rw_revision e.2 =? rw_revision r)
            (revision_rows s (rw_tenant r) (rw_blueprint r))
  then Err (UniqueViolation "unique")
  else if negb (blueprint_key_exists s (rw_tenant r) (rw_blueprint r)) then Err (ForeignKeyViolation "foreign_key")
  else Ok (with_revisions s (<[id := r]> (bs_revisions s))).
(** UPDATE device_blueprints SET updated_at. *)
Definition touch_blueprint (s : BlueprintStore) (tenant id : string) (now : Z) : BlueprintStore :=
  match blueprint_row s tenant id with
  | Some b => with_blueprints s (<[id := {| bp_tenant := bp_tenant b; bp_key := bp_key b; bp_name := bp_name b;
                bp_description := bp_description b; bp_created := bp_created b; bp_updated := now |}]> (bs_blueprints s))
  | None => s
  end.
Definition same_publication (latest : option BlueprintRevisionRecord) (r : PublishBlueprintRecord) : option BlueprintRevisionRecord :=
  l ← latest;
  if (rv_document_hash l =s? pb_document_hash r) && value_eqb (rv_document l) (pb_document r) then Some l else None.
Definition append_revision (s : BlueprintStore) (tenant blueprint : string) (r : PublishBlueprintRecord)
    : result PersistenceError (BlueprintRevisionRecord * BlueprintStore) :=
  next ← narrow_i32 (default 0 (max_revision s tenant blueprint) + 1) "device_blueprint_revisions.revision";
  doc ← json (pb_document r);
  compat ← json (pb_compatibility r);
  let row := {| rw_tenant := tenant; rw_blueprint := blueprint; rw_revision := next; rw_document := doc;
                rw_hash := pb_document_hash r; rw_compatibility := compat;
                rw_created := timestamp_micros (pb_now r) |} in
  s1 ← insert_revision s (pb_revision_id r) row;
  published ← read_revision (pb_revision_id r, row);
  Ok (published, touch_blueprint s1 tenant blueprint (timestamp_micros (pb_now r))).
Definition publish_in (s : BlueprintStore) (tenant blueprint : string) (r : PublishBlueprintRecord)
    : result PersistenceError (PublishBlueprintOutcome * BlueprintStore) :=
  found ← repo_get_draft s tenant blueprint;
  match found with
  | None => Ok (BlueprintNotFound, s)
  | Some draft =>
    if negb (dr_updated_at draft =? pb_expected_draft_updated_at r) || negb (value_eqb (dr_document draft) (pb_document r))
    then Ok (DraftChanged, s)
    else
      latest ← repo_latest_revision s tenant blueprint;
      match same_publication latest r with
      | Some l => Ok (Published l, s)
      | None =>
        if negb (bool_decide (rv_id <$> latest = pb_expected_previous r)) then Ok (PublicationChanged, s)
        else '(published, s') ← append_revision s tenant blueprint r; Ok (Published published, s')
      end
  end.
Definition repo_publish (s : BlueprintStore) (tenant blueprint : string) (r : PublishBlueprintRecord) :=
  commit_blueprints s (publish_in s tenant blueprint r).
End turso.

(** ** Lemmas *)
Lemma elem_revision_rows s tenant blueprint id r :
  (id, r) ∈ revision_rows s tenant blueprint
  <-> bs_revisions s !! id = Some r /\ rw_tenant r = tenant /\ rw_blueprint r = blueprint.
Proof.
  unfold revision_rows. rewrite elem_of_filterb, elem_of_map_to_list.
  unfold of_blueprint. simpl. rewrite andb_true_iff, !String.eqb_eq. naive_solver.
Qed.
Lemma fold_later l :
  match fold_right later None l with
  | Some e => e ∈ l /\ forall e', e' ∈ l -> rw_revision e'.2 <= rw_revision e.2
  | None => l = []
  end.
Proof.
  induction l as [|e l IH]; [done|]. simpl. destruct (fold_right later None l) as [b|]; simpl.
  - destruct IH as [Hb Hle]. destruct (Z.ltb_spec (rw_revision e.2) (rw_revision b.2)).
    + split; [by right|]. intros e' [->|He]%elem_of_cons; [lia|auto].
    + split; [by left|]. intros e' [->|He]%elem_of_cons; [lia|]. specialize (Hle _ He). lia.
  - subst l. split; [by left|]. intros e' ->%list_elem_of_singleton. lia.
Qed.
Lemma latest_row_some s tenant blueprint id r :
  latest_row s tenant blueprint = Some (id, r) ->
  bs_revisions s !! id = Some r /\ rw_tenant r = tenant /\ rw_blueprint r = blueprint
  /\ forall id' r', bs_revisions s !! id' = Some r' -> rw_tenant r' = tenant -> rw_blueprint r' = blueprint ->
       rw_revision r' <= rw_revision r.
Proof.
  unfold latest_row. intros E. pose proof (fold_later (revision_rows s tenant blueprint)) as H. rewrite E in H.
  destruct H as [(? & ? & ?)%elem_revision_rows Hle]. split_and!; [done..|]. intros id' r' ???.
  apply (Hle (id', r')). by apply elem_revision_rows.
Qed.
Lemma latest_row_none s tenant blueprint :
  latest_row s tenant blueprint = None ->
  forall id r, bs_revisions s !! id = Some r -> rw_tenant r = tenant -> rw_blueprint r = blueprint -> False.
Proof.
  unfold latest_row. intros E id r ???. pose proof (fold_later (revision_rows s tenant blueprint)) as Hl. rewrite E in Hl.
  assert ((id, r) ∈ revision_rows s tenant blueprint) as Hin by by apply elem_revision_rows.
  rewrite Hl in Hin. by apply elem_of_nil in Hin.
Qed.
Lemma read_some_ok {A B} (f : A -> result PersistenceError B) o r :
  read_some f o = Ok r <-> (o = None /\ r = None) \/ exists a b, o = Some a /\ f a = Ok b /\ r = Some b.
Proof.
  destruct o as [a|]; simpl; [|split; [intros [= <-]; by left|by intros [[_ ->]|(? & ? & ? & _)]]].
  destruct (f a) as [b|e] eqn:E; simpl.
  - split; [intros [= <-]; right; eauto|]. intros [[? _]|(a' & b' & [= <-] & E' & ->)]; congruence.
  - split; [done|]. intros [[? _]|(a' & b' & [= <-] & E' & _)]; congruence.
Qed.

(** A draft's row belongs to its blueprint. *)
Lemma draft_row_some s tenant blueprint id d :
  draft_row s tenant blueprint = Some (id, d) ->
  bs_drafts s !! id = Some d /\ df_tenant d = tenant /\ df_blueprint d = blueprint.
Proof.
  unfold draft_row. intros H%head_Some_elem_of.
  rewrite elem_of_filterb, elem_of_map_to_list in H.
  simpl in H. rewrite andb_true_iff, !String.eqb_eq in H. naive_solver.
Qed.
Lemma touch_revisions s tenant id now : bs_revisions (touch_blueprint s tenant id now) = bs_revisions s.
Proof. unfold touch_blueprint. by destruct (blueprint_row s tenant id). Qed.
Lemma touch_drafts s tenant id now : bs_drafts (touch_blueprint s tenant id now) = bs_drafts s.
Proof. unfold touch_blueprint. by destruct (blueprint_row s tenant id). Qed.
