(* ===== verification/Blueprints.v ===== *)
(** * Blueprint drafts and publication (crates/backend-core/src/application/device_blueprints.rs)

    Drafts may hold any document that parses; publishing validates it,
    compares it with the latest revision and appends the next one.  The draft
    and the latest revision are read before the transaction that appends, so
    other work may come between: the theorems are over all interleavings. *)
From S2P Require Import Prelude Text BTree Json Errors Access RuleTypes Shadows RuleSnapshot.
From S2P Require Import ContractModel Schema Validation ColdRoom ContractCompiler Compatibility BlueprintStore.
From stdpp Require Import relations.

Local Open Scope Z_scope.

(** ** Texts of errors *)
Definition issue_text (i : ValidationIssue) : string := issue_path i +:+ ": " +:+ issue_message i.
Definition contract_text (e : ContractError) : string :=
  match e with
  | InvalidBlueprint n _ => "blueprint is invalid (" +:+ int_to_string n +:+ " issue(s))"
  | InvalidInstance n _ => "instance does not satisfy schema (" +:+ int_to_string n +:+ " issue(s))"
  | Serialization m => "failed to serialize canonical contract: " +:+ m
  | MissingTransportBinding b => "transport binding '" +:+ b +:+ "' was not provided"
  | InvalidContext m => "invalid compile context: " +:+ m
  end.
(** ** Documents

    [serde_json::from_value::<DeviceBlueprint>] and [to_value] of a blueprint. *)
Class BlueprintCodec := {
  blueprint_from_value : value -> result string DeviceBlueprint;
  blueprint_to_value : DeviceBlueprint -> result string value;
}.
Definition kind_value (k : CompatibilityChangeKind) : value :=
  VString (match k with Added => "added" | Removed => "removed" | Changed => "changed" end).
Definition change_value (c : CompatibilityChange) : value :=
  object [("path", VString (ch_path c)); ("kind", kind_value (ch_kind c)); ("breaking", Bool (ch_breaking c));
          ("message", VString (ch_message c))].
Definition compatibility_value (c : Compatibility) : value :=
  object [("breaking", Bool (breaking c)); ("changes", Array (map change_value (changes c)))].
Record BlueprintValidation := { bv_valid : bool; bv_issues : list ValidationIssue }.
Record NewDeviceContractRecord := {
  nc_id : string; nc_blueprint_revision_id : string; nc_document : value; nc_initial_configuration : option value;
  nc_contract_hash : string; nc_created_at : NaiveDateTime;
}.
Definition blueprint_missing (id : string) : ApplicationError :=
  NotFound ("Device blueprint '" +:+ id +:+ "' not found").
Definition revision_missing (id : string) : ApplicationError :=
  NotFound ("Device blueprint revision '" +:+ id +:+ "' not found").
Definition map_unique_key (e : PersistenceError) : ApplicationError :=
  match e with
  | UniqueViolation _ => Conflict "A device blueprint with this key already exists"
  | other => Persistence other
  end.
Definition validate_draft_identity (b : DeviceBlueprint) : result ApplicationError unit :=
  if trim_is_empty (md_key (metadata b)) || (64 <? str_len (md_key (metadata b)))
  then Err (InvalidInput "Blueprint metadata.key must contain 1-64 bytes")
  else if trim_is_empty (md_name (metadata b)) || (128 <? str_len (md_name (metadata b)))
  then Err (InvalidInput "Blueprint metadata.name must contain 1-128 bytes")
  else Ok tt.

Section application.
Context `{!ChronoMicros, !SerdeJson, !BlueprintCodec, !ContractCodec}.

Definition parse_document (document : value) : result ApplicationError DeviceBlueprint :=
  map_err (fun e => InvalidInput ("Invalid blueprint document: " +:+ e)) (blueprint_from_value document).
Definition validate_document (document : value) : result ApplicationError DeviceBlueprint :=
  blueprint ← parse_document document;
  map_err (fun e => InvalidOperation ("Blueprint validation failed: "
             +:+ Text.join "; " (map issue_text (default [] (validation_issues e))))) (validate_blueprint blueprint).
Definition validation_result (document : value) : BlueprintValidation :=
  match blueprint_from_value document with
  | Ok blueprint =>
    match validate_blueprint blueprint with
    | Ok _ => {| bv_valid := true; bv_issues := [] |}
    | Err e => {| bv_valid := false; bv_issues := default [] (validation_issues e) |}
    end
  | Err e => {| bv_valid := false; bv_issues := [issue "/" e] |}
  end.
(** [ValidatedBlueprint::canonical_document] and [document_hash]. *)
Definition canonical_blueprint (b : DeviceBlueprint) : result ContractError string :=
  v ← map_err Serialization (blueprint_to_value b); map_err Serialization (to_vec (sort_value v)).
Definition document_hash (b : DeviceBlueprint) : result ContractError ContractHash := sha256 <$> canonical_blueprint b.

(** ** Reads *)
Definition list_blueprints (s : BlueprintStore) (ctx : TenantContext) (limit offset : Z) : result ApplicationError BlueprintList :=
  _ ← require_permission ctx ReadDeviceBlueprints;
  map_err Persistence (repo_list s (ctx_tenant ctx) limit offset).
Definition get_blueprint (s : BlueprintStore) (ctx : TenantContext) (id : string) : result ApplicationError BlueprintRecord :=
  _ ← require_permission ctx ReadDeviceBlueprints;
  found ← map_err Persistence (repo_get s (ctx_tenant ctx) id);
  ok_or found (blueprint_missing id).
Definition get_draft (s : BlueprintStore) (ctx : TenantContext) (id : string) : result ApplicationError BlueprintDraftRecord :=
  _ ← require_permission ctx ReadDeviceBlueprints;
  found ← map_err Persistence (repo_get_draft s (ctx_tenant ctx) id);
  ok_or found (blueprint_missing id).
Definition validate_draft (s : BlueprintStore) (ctx : TenantContext) (id : string) : result ApplicationError BlueprintValidation :=
  _ ← require_permission ctx ReadDeviceBlueprints;
  found ← map_err Persistence (repo_get_draft s (ctx_tenant ctx) id);
  draft ← ok_or found (blueprint_missing id);
  Ok (validation_result (dr_document draft)).
Definition latest_revision (s : BlueprintStore) (ctx : TenantContext) (id : string)
    : result ApplicationError BlueprintRevisionRecord :=
  _ ← require_permission ctx ReadDeviceBlueprints;
  found ← map_err Persistence (repo_latest_revision s (ctx_tenant ctx) id);
  ok_or found (NotFound ("Device blueprint '" +:+ id +:+ "' has no published revision")).
Definition get_revision (s : BlueprintStore) (ctx : TenantContext) (id : string)
    : result ApplicationError BlueprintRevisionRecord :=
  _ ← require_permission ctx ReadDeviceBlueprints;
  found ← map_err Persistence (repo_get_revision s (ctx_tenant ctx) id);
  ok_or found (revision_missing id).

(** ** Drafts *)
Definition draft_identity (ctx : TenantContext) (document : value) : result ApplicationError DeviceBlueprint :=
  _ ← require_permission ctx ManageDeviceBlueprints;
  blueprint ← parse_document document;
  _ ← validate_draft_identity blueprint;
  Ok blueprint.
Definition create_blueprint (s : BlueprintStore) (ctx : TenantContext) (document : value) (id draft_id : string)
    (now : NaiveDateTime) : result ApplicationError (BlueprintRecord * BlueprintDraftRecord) * BlueprintStore :=
  match draft_identity ctx document with
  | Err e => (Err e, s)
  | Ok b =>
    let r := repo_create s (ctx_tenant ctx)
      {| cb_id := id; cb_draft_id := draft_id; cb_key := md_key (metadata b); cb_name := md_name (metadata b);
         cb_description := md_description (metadata b); cb_document := document; cb_now := now |} in
    (map_err map_unique_key r.1, r.2)
  end.
Definition replace_draft (s : BlueprintStore) (ctx : TenantContext) (id : string) (document : value)
    (now : NaiveDateTime) : result ApplicationError BlueprintDraftRecord * BlueprintStore :=
  match draft_identity ctx document with
  | Err e => (Err e, s)
  | Ok b =>
    let r := repo_replace_draft s (ctx_tenant ctx) id
      {| rd_key := md_key (metadata b); rd_name := md_name (metadata b);
         rd_description := md_description (metadata b); rd_document := document; rd_now := now |} in
    (found ← map_err map_unique_key r.1; ok_or found (blueprint_missing id), r.2)
  end.

(** ** Publication

    [publish] reads the draft in one state of the store, the latest revision
    in a later one and writes in a third. *)
Definition publish_draft (s : BlueprintStore) (ctx : TenantContext) (id : string)
    : result ApplicationError (BlueprintDraftRecord * DeviceBlueprint) :=
  _ ← require_permission ctx ManageDeviceBlueprints;
  found ← map_err Persistence (repo_get_draft s (ctx_tenant ctx) id);
  draft ← ok_or found (blueprint_missing id);
  validated ← validate_document (dr_document draft);
  Ok (draft, validated).
Definition compare_with_previous (previous : option BlueprintRevisionRecord) (validated : DeviceBlueprint)
    : result ApplicationError Compatibility :=
  match previous with
  | Some p =>
    prev ← map_err (fun e => Internal ("stored blueprint revision is invalid: " +:+ application_text e))
             (validate_document (rv_document p));
    Ok (compare_blueprints prev validated)
  | None => Ok {| breaking := false; changes := [] |}
  end.
Definition publish_record (s : BlueprintStore) (ctx : TenantContext) (id : string) (draft : BlueprintDraftRecord)
    (validated : DeviceBlueprint) (revision_id : string) (now : NaiveDateTime)
    : result ApplicationError PublishBlueprintRecord :=
  previous ← map_err Persistence (repo_latest_revision s (ctx_tenant ctx) id);
  compat ← compare_with_previous previous validated;
  h ← map_err (fun e => Internal ("failed to canonicalize validated blueprint: " +:+ contract_text e))
        (document_hash validated);
  Ok {| pb_revision_id := revision_id; pb_expected_previous := rv_id <$> previous;
        pb_expected_draft_updated_at := dr_updated_at draft; pb_document := dr_document draft;
        pb_document_hash := as_hex h; pb_compatibility := compatibility_value compat; pb_now := now |}.
Definition publish_answer (id : string) (o : PublishBlueprintOutcome) : result ApplicationError BlueprintRevisionRecord :=
  match o with
  | Published r => Ok r
  | BlueprintNotFound => Err (blueprint_missing id)
  | PublicationChanged => Err (Conflict "Blueprint publication changed concurrently; publish it again")
  | DraftChanged =>
    Err (Conflict "Blueprint draft changed during publication; validate and publish it again")
  end.
Definition publish (s_draft s_latest s : BlueprintStore) (ctx : TenantContext) (id revision_id : string)
    (now : NaiveDateTime) : result ApplicationError BlueprintRevisionRecord * BlueprintStore :=
  match '(draft, validated) ← publish_draft s_draft ctx id;
        publish_record s_latest ctx id draft validated revision_id now with
  | Err e => (Err e, s)
  | Ok r =>
    let w := repo_publish s (ctx_tenant ctx) id r in
    (o ← map_err Persistence w.1; publish_answer id o, w.2)
  end.

(** ** Contracts of devices

    [None] is a panic of the compiler. *)
Definition zenoh_bindings (b : DeviceBlueprint) (endpoint : string) : list (string * ResolvedTransport) :=
  bt_collect (map (fun t => (tr_binding t, {| rv_protocol := Zenoh; rv_endpoint := endpoint; rv_server_ca_pem := None;
                                              rv_credential_ref := Some "device-certificate" |}))
    (List.filter (fun t => bool_decide (tr_protocol t = Zenoh)) (transports (spec b)))).
Definition contract_context (ctx : TenantContext) (contract_id device_id endpoint : string) (config : option value)
    (revision : BlueprintRevisionRecord) (b : DeviceBlueprint) : CompileContext :=
  {| ctx_contract_id := contract_id; ctx_tenant_id := ctx_tenant ctx; ctx_device_id := device_id;
     ctx_revision_id := rv_id revision; ctx_revision := rv_revision revision;
     transport_bindings := zenoh_bindings b endpoint; configuration_layers := match config with Some v => [v] | None => [] end |}.
Definition contract_blueprint (s : BlueprintStore) (ctx : TenantContext) (revision_id : string)
    : result ApplicationError (BlueprintRevisionRecord * DeviceBlueprint) :=
  _ ← require_permission ctx ManageDevices;
  found ← map_err Persistence (repo_get_revision s (ctx_tenant ctx) revision_id);
  revision ← ok_or found (revision_missing revision_id);
  blueprint ← map_err (fun e => Internal ("stored device blueprint revision '" +:+ rv_id revision
                         +:+ "' is invalid: " +:+ application_text e)) (validate_document (rv_document revision));
  if rv_revision revision <? 0
  then Err (Internal ("stored device blueprint revision '" +:+ rv_id revision +:+ "' has an invalid number"))
  else Ok (revision, blueprint).
Definition compile_device_contract (s : BlueprintStore) (ctx : TenantContext) (revision_id contract_id device_id endpoint : string)
    (config : option value) (now : NaiveDateTime) : option (result ApplicationError NewDeviceContractRecord) :=
  match contract_blueprint s ctx revision_id with
  | Err e => Some (Err e)
  | Ok (revision, b) =>
    match compile b (contract_context ctx contract_id device_id endpoint config revision b) with
    | Panic _ => None
    | Fail e => Some (Err (InvalidOperation ("Device contract compilation failed: " +:+ contract_text e)))
    | Return k =>
      Some (doc ← map_err Internal (document_value (document k));
            Ok {| nc_id := contract_id; nc_blueprint_revision_id := rv_id revision; nc_document := doc;
                  nc_initial_configuration := ccf_desired <$> doc_configuration (document k);
                  nc_contract_hash := as_hex (hash k); nc_created_at := now |})
    end
  end.
End application.
