(* ===== verification/BlueprintHistory.v ===== *)
(** * Histories of blueprints

    Any interleaving of creating blueprints, replacing drafts and publishing,
    where a publisher may have read the draft and the latest revision in any
    earlier states.  The revisions of a blueprint form one immutable chain,
    each compared with the revision it follows; and a contract compiled for a
    device comes from such a revision. *)
From S2P Require Import Prelude Text BTree Json Errors Access RuleTypes Shadows RuleSnapshot.
From S2P Require Import ContractModel Schema Validation ColdRoom ContractCompiler Compatibility.
From S2P Require Import BlueprintStore Blueprints.

Local Open Scope Z_scope.

Section histories.
Context {micros : ChronoMicros} {codec : SerdeJson} {bcodec : BlueprintCodec} {ccodec : ContractCodec}.

(** ** States of the store, newest first *)
Inductive history : list BlueprintStore -> Prop :=
| history_start orgs :
    history [{| bs_orgs := orgs; bs_blueprints := ∅; bs_drafts := ∅; bs_revisions := ∅ |}]
| history_create s past ctx document id draft_id now :
    history (s :: past) -> history ((create_blueprint s ctx document id draft_id now).2 :: s :: past)
| history_replace s past ctx id document now :
    history (s :: past) -> history ((replace_draft s ctx id document now).2 :: s :: past)
| history_publish s past s_draft s_latest ctx id revision_id now :
    history (s :: past) -> s_draft ∈ s :: past -> s_latest ∈ s :: past ->
    history ((publish s_draft s_latest s ctx id revision_id now).2 :: s :: past).

(** ** What one publication does *)
(** The recorded comparison of a revision's document with its predecessor's. *)
Definition compared (previous : option RevisionRow) (b : DeviceBlueprint) (c : Compatibility) : Prop :=
  match previous with
  | None => c = {| breaking := false; changes := [] |}
  | Some p => exists doc b', from_str (rw_document p) = Ok doc /\ validate_document doc = Ok b'
                /\ c = compare_blueprints b' b /\ (breaking c = false <-> extends (spec b') (spec b))
  end.
(** A stored revision: the text, hash and comparison of a validated document. *)
Definition revision_of (previous : option RevisionRow) (r : RevisionRow) : Prop :=
  exists doc b h c,
    validate_document doc = Ok b /\ to_string doc = Ok (rw_document r)
    /\ document_hash b = Ok h /\ rw_hash r = as_hex h
    /\ compared previous b c /\ to_string (compatibility_value c) = Ok (rw_compatibility r).
Definition appended (s s' : BlueprintStore) (tenant blueprint id : string) (r : RevisionRow) : Prop :=
  bs_revisions s !! id = None /\ bs_revisions s' = <[id := r]> (bs_revisions s) /\ bs_drafts s' = bs_drafts s
  /\ rw_tenant r = tenant /\ rw_blueprint r = blueprint
  /\ rw_revision r = default 0 (max_revision s tenant blueprint) + 1.

Lemma insert_revision_ok s id r s' :
  insert_revision s id r = Ok s' -> bs_revisions s !! id = None /\ s' = with_revisions s (<[id := r]> (bs_revisions s)).
Proof.
  unfold insert_revision. intros H. destruct (_ || _) in H; [done|]. destruct (_ || _) eqn:E in H; [done|].
  destruct (negb _) in H; [done|]. injection H as <-. apply orb_false_iff in E as [E _].
  apply bool_decide_eq_false in E. split; [|done]. by apply eq_None_not_Some.
Qed.
Lemma append_revision_ok s tenant blueprint r p s' :
  append_revision s tenant blueprint r = Ok (p, s') ->
  exists row, appended s s' tenant blueprint (pb_revision_id r) row
    /\ read_revision (pb_revision_id r, row) = Ok p
    /\ to_string (pb_document r) = Ok (rw_document row) /\ rw_hash row = pb_document_hash r
    /\ to_string (pb_compatibility r) = Ok (rw_compatibility row).
Proof.
  unfold append_revision. intros (next & Hn & H)%bind_ok. apply bind_ok in H as (doc & Hd%map_err_inv & H).
  apply bind_ok in H as (compat & Hc%map_err_inv & H). cbv zeta in H.
  apply bind_ok in H as (s1 & [Hid ->]%insert_revision_ok & H). apply bind_ok in H as (q & Hq & [= <- <-]).
  unfold narrow_i32 in Hn. destruct (Int.in_i32 _) in Hn; [|done]. injection Hn as <-.
  eexists. split_and!; [|exact Hq|done..]. unfold appended. by rewrite touch_revisions, touch_drafts.
Qed.

(** The ways a publication's transaction ends. *)
Definition writes_revision (s s' : BlueprintStore) (tenant blueprint : string) (r : PublishBlueprintRecord)
    (p : BlueprintRevisionRecord) : Prop :=
  exists draft latest row,
    repo_get_draft s tenant blueprint = Ok (Some draft) /\ dr_updated_at draft = pb_expected_draft_updated_at r
    /\ value_eqb (dr_document draft) (pb_document r) = true
    /\ repo_latest_revision s tenant blueprint = Ok latest /\ rv_id <$> latest = pb_expected_previous r
    /\ appended s s' tenant blueprint (pb_revision_id r) row
    /\ read_revision (pb_revision_id r, row) = Ok p
    /\ to_string (pb_document r) = Ok (rw_document row) /\ rw_hash row = pb_document_hash r
    /\ to_string (pb_compatibility r) = Ok (rw_compatibility row).
Lemma publish_in_ok s tenant blueprint r o s' :
  publish_in s tenant blueprint r = Ok (o, s') ->
  s' = s \/ exists p, o = Published p /\ writes_revision s s' tenant blueprint r p.
Proof.
  unfold publish_in. intros ([draft|] & Hd & H)%bind_ok; [|injection H as _ <-; by left].
  destruct (_ || _) eqn:E in H; [injection H as _ <-; by left|].
  apply orb_false_iff in E as [E1 E2]. rewrite negb_false_iff in E1, E2. apply Z.eqb_eq in E1.
  apply bind_ok in H as (latest & Hl & H). destruct (same_publication latest r) as [l|]; [injection H as _ <-; by left|].
  destruct (negb _) eqn:E3 in H; [injection H as _ <-; by left|].
  rewrite negb_false_iff, bool_decide_eq_true in E3.
  apply bind_ok in H as ([p q] & Ha & [= <- <-]). right. exists p. split; [done|].
  apply append_revision_ok in Ha as (row & ? & ? & ? & ? & ?). by exists draft, latest, row.
Qed.

(** Reading the latest revision back gives the row with its id. *)
Lemma read_revision_ok id r v :
  read_revision (id, r) = Ok v ->
  rv_id v = id /\ rv_blueprint_id v = rw_blueprint r /\ rv_revision v = rw_revision r
  /\ from_str (rw_document r) = Ok (rv_document v) /\ rv_document_hash v = rw_hash r.
Proof.
  unfold read_revision. simpl. intros (n & Hn & H)%bind_ok. apply bind_ok in H as (doc & Hd%map_err_inv & H).
  apply bind_ok in H as (c & _ & H). apply bind_ok in H as (t & _ & [= <-]). simpl.
  unfold narrow_i32 in Hn. destruct (Int.in_i32 _) in Hn; [|done]. injection Hn as <-. done.
Qed.
Lemma repo_latest_ok s tenant blueprint latest :
  repo_latest_revision s tenant blueprint = Ok latest ->
  match latest with
  | None => latest_row s tenant blueprint = None
  | Some v => exists r, latest_row s tenant blueprint = Some (rv_id v, r) /\ read_revision (rv_id v, r) = Ok v
  end.
Proof.
  unfold repo_latest_revision. intros [[? ->]|([id r] & v & E & Hv & ->)]%read_some_ok; [done|].
  apply read_revision_ok in Hv as Hi. destruct Hi as [<- _]. by exists r.
Qed.

Lemma publish_record_ok s ctx id draft b rid now r :
  publish_record s ctx id draft b rid now = Ok r ->
  exists previous c h, repo_latest_revision s (ctx_tenant ctx) id = Ok previous
    /\ compare_with_previous previous b = Ok c /\ document_hash b = Ok h
    /\ r = {| pb_revision_id := rid; pb_expected_previous := rv_id <$> previous;
              pb_expected_draft_updated_at := dr_updated_at draft; pb_document := dr_document draft;
              pb_document_hash := as_hex h; pb_compatibility := compatibility_value c; pb_now := now |}.
Proof.
  unfold publish_record. intros (previous & Hp%map_err_inv & H)%bind_ok. apply bind_ok in H as (c & Hc & H).
  apply bind_ok in H as (h & Hh%map_err_inv & [= <-]). by exists previous, c, h.
Qed.
Lemma publish_draft_ok s ctx id draft b :
  publish_draft s ctx id = Ok (draft, b) ->
  require_permission ctx ManageDeviceBlueprints = Ok tt
  /\ repo_get_draft s (ctx_tenant ctx) id = Ok (Some draft) /\ validate_document (dr_document draft) = Ok b.
Proof.
  unfold publish_draft. intros ([] & Hp & H)%bind_ok. apply bind_ok in H as (found & Hf%map_err_inv & H).
  apply bind_ok in H as (d & ->%ok_or_ok & H). apply bind_ok in H as (v & Hv & [= -> ->]). done.
Qed.
Lemma validate_document_ok doc b : validate_document doc = Ok b -> validate_blueprint b = Ok b.
Proof.
  unfold validate_document. intros (b0 & _ & [Hb ->]%map_err_inv%validate_blueprint_ok)%bind_ok.
  by apply validate_blueprint_ok.
Qed.
Lemma publish_cases s_d s_l s ctx id rid now :
  let res := publish s_d s_l s ctx id rid now in
  res.2 = s
  \/ exists draft b r p, publish_draft s_d ctx id = Ok (draft, b)
       /\ publish_record s_l ctx id draft b rid now = Ok r /\ res.1 = Ok p
       /\ writes_revision s res.2 (ctx_tenant ctx) id r p.
Proof.
  cbv zeta. unfold publish. destruct (publish_draft s_d ctx id) as [[draft b]|e] eqn:Ed; [|by left].
  simpl. destruct (publish_record _ _ _ _ _ _ _) as [r|e] eqn:Er; [|by left]. unfold repo_publish.
  destruct (publish_in s (ctx_tenant ctx) id r) as [[o s']|e] eqn:Ep; [|by left]. simpl.
  apply publish_in_ok in Ep as [->|(p & -> & Hw)]; [by left|]. right. by exists draft, b, r, p.
Qed.

(** ** The chain of revisions *)
Definition follows (s : BlueprintStore) (r : RevisionRow) (previous : option RevisionRow) : Prop :=
  match previous with
  | None => rw_revision r = 1
  | Some p => exists id, bs_revisions s !! id = Some p /\ rw_tenant p = rw_tenant r
                /\ rw_blueprint p = rw_blueprint r /\ rw_revision p = rw_revision r - 1
  end.
Record chained (s : BlueprintStore) : Prop := {
  ch_number : forall id r, bs_revisions s !! id = Some r -> 1 <= rw_revision r;
  ch_unique : forall id r id' r', bs_revisions s !! id = Some r -> bs_revisions s !! id' = Some r' ->
    rw_tenant r = rw_tenant r' -> rw_blueprint r = rw_blueprint r' -> rw_revision r = rw_revision r' -> id = id';
  ch_links : forall id r, bs_revisions s !! id = Some r -> exists previous, follows s r previous /\ revision_of previous r;
}.
(** A numbering without gaps follows from the links. *)
Lemma chained_gapless s : chained s ->
  forall id r, bs_revisions s !! id = Some r -> forall n, 1 <= n <= rw_revision r ->
  exists id' r', bs_revisions s !! id' = Some r' /\ rw_tenant r' = rw_tenant r /\ rw_blueprint r' = rw_blueprint r
    /\ rw_revision r' = n.
Proof.
  intros Hs id r Hr n Hn. remember (Z.to_nat (rw_revision r - n)) as k eqn:Ek.
  revert id r Hr Hn Ek. induction k as [|k IH]; intros id r Hr Hn Ek.
  - exists id, r. split_and!; [done..|lia].
  - destruct (ch_links s Hs id r Hr) as ([p|] & Hf & _); simpl in Hf; [|lia].
    destruct Hf as (pid & Hp & Ht & Hb & Hnum).
    destruct (IH pid p Hp) as (id' & r' & ? & ? & ? & ?); [lia..|]. exists id', r'. by rewrite <- Ht, <- Hb.
Qed.

(** The comparison made before the transaction is with the row it follows. *)
Lemma compared_row s_l s tenant id previous b c latest :
  bs_revisions s_l ⊆ bs_revisions s ->
  repo_latest_revision s_l tenant id = Ok previous -> compare_with_previous previous b = Ok c ->
  repo_latest_revision s tenant id = Ok latest -> rv_id <$> latest = rv_id <$> previous ->
  validate_blueprint b = Ok b ->
  match latest_row s tenant id with
  | None => compared None b c
  | Some (_, p) => compared (Some p) b c
  end.
Proof.
  intros Hsub Hp Hc Hl Hid Hb. apply repo_latest_ok in Hp, Hl.
  destruct previous as [v|], latest as [w|]; simpl in *; try done.
  - destruct Hp as (r & (Hr & _)%latest_row_some & (_ & _ & _ & Hdoc & _)%read_revision_ok), Hl as (r' & E & _).
    rewrite E. apply latest_row_some in E as (Hr' & _). injection Hid as Hid. rewrite Hid in Hr'.
    rewrite (lookup_weaken _ _ _ _ Hr Hsub) in Hr'. injection Hr' as <-.
    apply bind_ok in Hc as (b' & Hv%map_err_inv & [= <-]). exists (rv_document v), b'. split_and!; [done..|].
    apply (non_breaking_extends b' b' b b); [by apply validate_document_ok in Hv|done].
  - rewrite Hl. by injection Hc as <-.
Qed.

Lemma max_revision_bound s tenant blueprint id r :
  bs_revisions s !! id = Some r -> rw_tenant r = tenant -> rw_blueprint r = blueprint ->
  rw_revision r <= default 0 (max_revision s tenant blueprint).
Proof.
  intros Hr Ht Hb. unfold max_revision. destruct (latest_row s tenant blueprint) as [[id' r']|] eqn:E; simpl.
  - apply latest_row_some in E as (_ & _ & _ & Hle). eauto.
  - destruct (latest_row_none _ _ _ E id r Hr Ht Hb).
Qed.
Lemma follows_weaken s s' r p : bs_revisions s ⊆ bs_revisions s' -> follows s r p -> follows s' r p.
Proof.
  intros Hsub. destruct p as [p|]; [|done]. intros (id & Hid & ?). exists id. split; [|done].
  by apply (lookup_weaken _ _ _ _ Hid).
Qed.
Lemma appended_chained s s' tenant blueprint id r :
  chained s -> appended s s' tenant blueprint id r ->
  revision_of (snd <$> latest_row s tenant blueprint) r -> chained s'.
Proof.
  intros Hs (Hnone & E & _ & Ht & Hb & Hn) Hrev.
  assert (bs_revisions s ⊆ bs_revisions s') as Hsub by (rewrite E; by apply insert_subseteq).
  assert (forall i q, bs_revisions s !! i = Some q -> rw_tenant q = tenant -> rw_blueprint q = blueprint ->
            rw_revision q < rw_revision r) as Hlt.
  { intros i q Hq H1 H2. pose proof (max_revision_bound s tenant blueprint i q Hq H1 H2). lia. }
  split.
  - intros i q. rewrite E, lookup_insert_Some. intros [[_ <-]|[_ Hq]]; [|by apply (ch_number s Hs i)].
    unfold max_revision in Hn. destruct (latest_row s tenant blueprint) as [[j l]|] eqn:El; simpl in Hn; [|lia].
    apply latest_row_some in El as (Hl & _). pose proof (ch_number s Hs j l Hl). lia.
  - intros i q i' q'. rewrite E, !lookup_insert_Some. intros [[<- <-]|[_ Hq]] [[<- <-]|[_ Hq']] H1 H2 H3; [done|..].
    + specialize (Hlt i' q' Hq'). rewrite <- Ht, <- Hb in Hlt. specialize (Hlt (eq_sym H1) (eq_sym H2)). lia.
    + specialize (Hlt i q Hq). rewrite <- Ht, <- Hb in Hlt. specialize (Hlt H1 H2). lia.
    + by apply (ch_unique s Hs i q i' q').
  - intros i q. rewrite E, lookup_insert_Some. intros [[<- <-]|[_ Hq]].
    + exists (snd <$> latest_row s tenant blueprint). split; [|done]. unfold max_revision in Hn.
      destruct (latest_row s tenant blueprint) as [[j l]|] eqn:El; simpl in *; [|lia].
      apply latest_row_some in El as (Hl & ? & ? & _). exists j. split_and!; [by apply (lookup_weaken _ _ _ _ Hl)|congruence..|lia].
    + destruct (ch_links s Hs i q Hq) as (p & Hf & Hp). exists p. split; [by apply (follows_weaken s)|done].
Qed.

(** ** Every step extends the chain *)
Lemma create_revisions s ctx doc id did now : bs_revisions (create_blueprint s ctx doc id did now).2 = bs_revisions s.
Proof.
  unfold create_blueprint. destruct (draft_identity ctx doc) as [b|e]; [|done]. simpl. unfold repo_create.
  destruct (create_in _ _ _) as [[[x y] s']|e] eqn:E; [|done]. simpl.
  apply bind_ok in E as (s1 & H1 & E). apply bind_ok in E as (s2 & H2 & E). apply bind_ok in E as (? & _ & E).
  apply bind_ok in E as (? & _ & E). apply bind_ok in E as (? & _ & E). apply bind_ok in E as (? & _ & [= _ _ <-]).
  unfold insert_blueprint in H1. destruct (_ || _) in H1; [done|]. destruct (negb _) in H1; [done|]. injection H1 as <-.
  unfold insert_draft in H2. apply bind_ok in H2 as (t & _ & H2).
  destruct (_ || _) in H2; [done|]. destruct (negb _) in H2; [done|]. by injection H2 as <-.
Qed.
Lemma replace_revisions s ctx id doc now : bs_revisions (replace_draft s ctx id doc now).2 = bs_revisions s.
Proof.
  unfold replace_draft. destruct (draft_identity ctx doc) as [b|e]; [|done]. simpl. unfold repo_replace_draft.
  destruct (replace_draft_in _ _ _ _) as [[o s']|e] eqn:E; [|done]. simpl. unfold replace_draft_in in E.
  destruct (blueprint_row s _ id) as [row|]; [|by injection E as _ <-]. destruct (key_taken _ _ _ _); [done|].
  apply bind_ok in E as (t & _ & E). apply bind_ok in E as ([di d] & _ & E). apply bind_ok in E as (dr & _ & [= _ <-]). done.
Qed.
Lemma publish_step s_d s_l s ctx id rid now :
  let res := publish s_d s_l s ctx id rid now in
  chained s -> bs_revisions s_l ⊆ bs_revisions s ->
  chained res.2 /\ bs_revisions s ⊆ bs_revisions res.2.
Proof.
  cbv zeta. intros Hs Hsub.
  destruct (publish_cases s_d s_l s ctx id rid now) as [->|(draft & b & r & p & Hd & Hr & _ & Hw)]; [done|].
  apply publish_draft_ok in Hd as (_ & _ & Hv).
  apply publish_record_ok in Hr as (previous & c & h & Hprev & Hc & Hh & ->).
  destruct Hw as (d & latest & row & _ & _ & _ & Hl & Hid & Happ & _ & Hdoc & Hhash & Hcompat).
  simpl in *. split; [|destruct Happ as (? & -> & _); by apply insert_subseteq].
  apply (appended_chained s _ (ctx_tenant ctx) id rid row Hs Happ).
  exists (dr_document draft), b, h, c. split_and!; [done..| |done].
  pose proof (compared_row s_l s _ id previous b c latest Hsub Hprev Hc Hl Hid (validate_document_ok _ _ Hv)) as H.
  by destruct (latest_row s (ctx_tenant ctx) id) as [[? ?]|].
Qed.
Lemma history_chained trace : history trace ->
  match trace with
  | s :: past => chained s /\ forall s', s' ∈ s :: past -> bs_revisions s' ⊆ bs_revisions s
  | [] => False
  end.
Proof.
  assert (forall s t : BlueprintStore, bs_revisions t = bs_revisions s -> chained s -> chained t) as Hsame.
  { intros s t E [H1 H2 H3]. split; [by rewrite E|by rewrite E|]. rewrite E. intros i r Hr.
    destruct (H3 i r Hr) as (p & Hf & Hp). exists p. split; [|done]. apply (follows_weaken s); [by rewrite E|done]. }
  assert (forall s t past, bs_revisions s ⊆ bs_revisions t ->
            (forall s', s' ∈ s :: past -> bs_revisions s' ⊆ bs_revisions s) ->
            forall s', s' ∈ t :: s :: past -> bs_revisions s' ⊆ bs_revisions t) as Hgrow.
  { intros s t past H1 H2 s' [->|Hin]%elem_of_cons; [done|]. etrans; [by apply H2|done]. }
  induction 1 as [orgs|s past ctx doc id did now _ [Hc Hp]|s past ctx id doc now _ [Hc Hp]|s past sd sl ctx id rid now _ [Hc Hp] Hd Hl].
  - split; [split; by intros|]. by intros s' ->%list_elem_of_singleton.
  - pose proof (create_revisions s ctx doc id did now) as E. split; [by apply (Hsame s)|].
    apply Hgrow; [by rewrite E|done].
  - pose proof (replace_revisions s ctx id doc now) as E. split; [by apply (Hsame s)|].
    apply Hgrow; [by rewrite E|done].
  - destruct (publish_step sd sl s ctx id rid now Hc (Hp _ Hl)) as [Hc' Hs']. split; [done|]. by apply Hgrow.
Qed.

(** ** Rows of the store read back *)
Record readable (s : BlueprintStore) : Prop := {
  rd_revisions : forall id r, bs_revisions s !! id = Some r -> exists v, read_revision (id, r) = Ok v;
  rd_drafts : forall id d, bs_drafts s !! id = Some d -> exists v, read_draft (id, d) = Ok v;
  rd_owner : forall id d, bs_drafts s !! id = Some d -> bp_tenant <$> bs_blueprints s !! df_blueprint d = Some (df_tenant d);
  rd_draft : forall id b, bs_blueprints s !! id = Some b ->
    exists did d, bs_drafts s !! did = Some d /\ df_tenant d = bp_tenant b /\ df_blueprint d = id;
}.
Lemma draft_row_exists s tenant id did d :
  bs_drafts s !! did = Some d -> df_tenant d = tenant -> df_blueprint d = id -> is_Some (draft_row s tenant id).
Proof.
  intros Hd Ht Hb. unfold draft_row. destruct (List.filter _ _) as [|e l] eqn:E; [|by eexists].
  assert ((did, d) ∈ ([] : list (string * DraftRow))) as Hin.
  { rewrite <- E. apply elem_of_filterb. rewrite elem_of_map_to_list. simpl. by rewrite Ht, Hb, !String.eqb_refl. }
  by apply elem_of_nil in Hin.
Qed.
Lemma create_readable s ctx doc id did now : readable s -> readable (create_blueprint s ctx doc id did now).2.
Proof.
  intros Hs. unfold create_blueprint. destruct (draft_identity ctx doc) as [b|e]; [|done]. simpl. unfold repo_create.
  destruct (create_in _ _ _) as [[[x y] s']|e] eqn:E; [|done]. simpl.
  apply bind_ok in E as (s1 & H1 & E). apply bind_ok in E as (s2 & H2 & E). apply bind_ok in E as (? & _ & E).
  apply bind_ok in E as (? & _ & E). apply bind_ok in E as (o & Ho & E). apply bind_ok in E as (dr & ->%ok_or_ok & [= _ _ <-]).
  unfold insert_blueprint in H1. simpl in H1. destruct (_ || _) eqn:Efresh in H1; [done|].
  destruct (negb _) in H1; [done|]. injection H1 as <-. apply orb_false_iff in Efresh as [Efresh _].
  apply bool_decide_eq_false, eq_None_not_Some in Efresh.
  unfold insert_draft in H2. apply bind_ok in H2 as (t & _ & H2). simpl in H2.
  destruct (_ || _) eqn:Ed in H2; [done|]. destruct (negb _) in H2; [done|]. injection H2 as <-.
  apply orb_false_iff in Ed as [Ed1 Ed2]. apply bool_decide_eq_false, eq_None_not_Some in Ed1, Ed2.
  unfold repo_get_draft in Ho. simpl in *. 
  apply read_some_ok in Ho as [[_ ?]|([di d] & v & Hrow & Hread & [= <-])]; [done|].
  apply draft_row_some in Hrow as (Hd & Ht & Hb). simpl in Hd. apply lookup_insert_Some in Hd as [[<- <-]|[_ Hd]].
  - split; simpl; [apply (rd_revisions s Hs)|..].
    + intros i q [[<- <-]|[_ Hq]]%lookup_insert_Some; [by eexists|by apply (rd_drafts s Hs)].
    + intros i q [[<- <-]|[_ Hq]]%lookup_insert_Some; [by rewrite lookup_insert_eq|].
      pose proof (rd_owner s Hs i q Hq) as Ho. destruct (decide (id = df_blueprint q)) as [->|];
        [by rewrite Efresh in Ho|by rewrite lookup_insert_ne].
    + intros i q [[<- <-]|[_ Hq]]%lookup_insert_Some; [eexists did, _; split; [apply lookup_insert_eq|done]|].
      destruct (rd_draft s Hs i q Hq) as (j & e & He & ?). exists j, e. split; [|done].
      rewrite lookup_insert_ne; [done|]. intros ->. by rewrite Ed1 in He.
  - exfalso. pose proof (rd_owner s Hs di d Hd) as Ho. by rewrite Hb, Efresh in Ho.
Qed.
Lemma replace_readable s ctx id doc now : readable s -> readable (replace_draft s ctx id doc now).2.
Proof.
  intros Hs. unfold replace_draft. destruct (draft_identity ctx doc) as [b|e]; [|done]. simpl. unfold repo_replace_draft.
  destruct (replace_draft_in _ _ _ _) as [[o s']|e] eqn:E; [|done]. simpl. unfold replace_draft_in in E.
  destruct (blueprint_row s _ id) as [row|] eqn:Erow; [|by injection E as _ <-]. destruct (key_taken _ _ _ _); [done|].
  apply bind_ok in E as (t & _ & E). apply bind_ok in E as ([di d] & Hd%ok_or_ok & E).
  apply bind_ok in E as (dr & Hread & [= _ <-]). apply draft_row_some in Hd as (Hd & Ht & Hb). simpl in *.
  unfold blueprint_row in Erow. destruct (bs_blueprints s !! id) as [q|] eqn:Eq; [|done]. simpl in Erow.
  destruct (_ =s? _) in Erow; [|done]. injection Erow as <-. split; simpl; [apply (rd_revisions s Hs)|..].
  - intros i e [[<- <-]|[_ He]]%lookup_insert_Some; [by eexists|by apply (rd_drafts s Hs)].
  - assert (forall i e, bs_drafts s !! i = Some e ->
      bp_tenant <$> <[id := {| bp_tenant := bp_tenant q; bp_key := md_key (metadata b); bp_name := md_name (metadata b);
         bp_description := md_description (metadata b); bp_created := bp_created q;
         bp_updated := timestamp_micros now |}]> (bs_blueprints s) !! df_blueprint e = Some (df_tenant e)) as Hold.
    { intros i e He. pose proof (rd_owner s Hs i e He) as Ho. destruct (decide (id = df_blueprint e)) as [->|];
        [rewrite lookup_insert_eq; by rewrite Eq in Ho|by rewrite lookup_insert_ne]. }
    intros i e [[<- <-]|[_ He]]%lookup_insert_Some; [exact (Hold di d Hd)|by apply (Hold i)].
  - intros i e He. assert (exists b0, bs_blueprints s !! i = Some b0 /\ bp_tenant b0 = bp_tenant e) as (b0 & Hb0 & <-).
    { apply lookup_insert_Some in He as [[<- <-]|[_ He]]; eauto. }
    destruct (rd_draft s Hs i b0 Hb0) as (j & d0 & Hj & ? & ?). destruct (decide (j = di)) as [->|Hne].
    + rewrite Hd in Hj. injection Hj as ->. eexists di, _. split; [apply lookup_insert_eq|done].
    + exists j, d0. by rewrite lookup_insert_ne.
Qed.
Lemma publish_readable s_d s_l s ctx id rid now : readable s -> readable (publish s_d s_l s ctx id rid now).2.
Proof.
  intros Hs. unfold publish. destruct (_ ≫= _) as [r|e]; [|done]. simpl. unfold repo_publish.
  destruct (publish_in s (ctx_tenant ctx) id r) as [[o s']|e] eqn:E; [|done]. simpl.
  unfold publish_in in E. apply bind_ok in E as ([draft|] & _ & E); [|by injection E as _ <-].
  destruct (_ || _) in E; [by injection E as _ <-|]. apply bind_ok in E as (latest & _ & E).
  destruct (same_publication latest r); [by injection E as _ <-|]. destruct (negb _) in E; [by injection E as _ <-|].
  apply bind_ok in E as ([p q] & E & [= _ <-]). unfold append_revision in E.
  apply bind_ok in E as (n & _ & E). apply bind_ok in E as (t1 & _ & E). apply bind_ok in E as (t2 & _ & E). cbv zeta in E.
  apply bind_ok in E as (s1 & [Hid ->]%insert_revision_ok & E). apply bind_ok in E as (v & Hv & [= <- <-]).
  unfold touch_blueprint. destruct (blueprint_row _ _ _) as [row|] eqn:Erow.
  2:{ split; simpl; [|apply Hs..]. intros i e [[<- <-]|[_ He]]%lookup_insert_Some; [by eexists|by apply (rd_revisions s Hs)]. }
  unfold blueprint_row in Erow. simpl in Erow. destruct (bs_blueprints s !! id) as [b|] eqn:Eb; [|done]. simpl in Erow.
  destruct (_ =s? _) in Erow; [|done]. injection Erow as <-. split; simpl; [|apply (rd_drafts s Hs)|..].
  - intros i e [[<- <-]|[_ He]]%lookup_insert_Some; [by eexists|by apply (rd_revisions s Hs)].
  - intros i e He. pose proof (rd_owner s Hs i e He) as Ho. destruct (decide (id = df_blueprint e)) as [->|];
      [rewrite lookup_insert_eq; by rewrite Eb in Ho|by rewrite lookup_insert_ne].
  - intros i e [[<- <-]|[_ He]]%lookup_insert_Some; [apply (rd_draft s Hs _ b Eb)|by apply (rd_draft s Hs)].
Qed.
Lemma history_readable trace : history trace -> match trace with s :: _ => readable s | [] => False end.
Proof.
  induction 1; [split; by intros|by apply create_readable|by apply replace_readable|by apply publish_readable].
Qed.

(** ** Publication without interference *)
Lemma appended_latest s s' tenant blueprint id r :
  appended s s' tenant blueprint id r -> latest_row s' tenant blueprint = Some (id, r).
Proof.
  intros (Hnone & E & _ & Ht & Hb & Hn). destruct (latest_row s' tenant blueprint) as [[j q]|] eqn:El.
  - apply latest_row_some in El as (Hq & Ht' & Hb' & Hle).
    assert (rw_revision r <= rw_revision q) as Hrq by (apply (Hle id r); [by rewrite E, lookup_insert_eq|done..]).
    rewrite E in Hq. apply lookup_insert_Some in Hq as [[<- <-]|[_ Hq]]; [done|].
    pose proof (max_revision_bound s tenant blueprint j q Hq Ht' Hb'). lia.
  - destruct (latest_row_none _ _ _ El id r); [by rewrite E, lookup_insert_eq|done..].
Qed.
(** Serializing does not fail, what is written from a read document parses
    again, and a hash has 32 bytes. *)
Class PublicationLaws : Prop := {
  to_string_total v : exists t, to_string v = Ok t;
  rewritten_parses t0 v t : from_str t0 = Ok v -> to_string v = Ok t -> exists v', from_str t = Ok v';
  report_parses c t : to_string (compatibility_value c) = Ok t -> exists v, from_str t = Ok v;
  parsed_wf t v : from_str t = Ok v -> wf_value v;
  blueprint_hashes b : exists h, document_hash b = Ok h /\ length h = 32%nat /\ Forall byte_ok h;
}.
Context {laws : PublicationLaws}.

Lemma append_revision_total s tenant id r t0 c :
  from_str t0 = Ok (pb_document r) -> pb_compatibility r = compatibility_value c ->
  str_len (pb_document_hash r) = 64 -> 0 <= default 0 (max_revision s tenant id) < Int.i32_max ->
  bs_revisions s !! pb_revision_id r = None -> micros_in_range (timestamp_micros (pb_now r)) = true ->
  bp_tenant <$> bs_blueprints s !! id = Some tenant ->
  exists p s', append_revision s tenant id r = Ok (p, s').
Proof using laws.
  intros Hdoc Hc Hh Hn Hid Hnow Hfk. unfold append_revision, narrow_i32.
  destruct (Int.in_i32 _) eqn:Ei; [|exfalso; apply not_true_iff_false in Ei; apply Ei, Int.in_i32_spec; unfold Int.i32_min; lia].
  cbn [mbind result_bind]. unfold json. destruct (to_string_total (pb_document r)) as [t1 E1]. rewrite E1. cbn [map_err mbind result_bind].
  rewrite Hc. destruct (to_string_total (compatibility_value c)) as [t2 E2]. rewrite E2. cbn [map_err mbind result_bind]. cbv zeta.
  set (row := {| rw_tenant := tenant |}).
  assert (insert_revision s (pb_revision_id r) row = Ok (with_revisions s (<[pb_revision_id r := row]> (bs_revisions s)))) as ->.
  { unfold insert_revision, row. simpl. rewrite Hh. rewrite (proj2 (Z.leb_gt _ 0)) by lia. simpl.
    rewrite Hid, bool_decide_eq_false_2 by (by intros [? ?]). simpl.
    destruct (existsb _ _) eqn:Ex.
    - apply existsb_exists in Ex as ([j q] & Hin & Heq). apply Z.eqb_eq in Heq. simpl in Heq.
      apply list_elem_of_In, elem_revision_rows in Hin as (Hq & Ht & Hb).
      pose proof (max_revision_bound s tenant id j q Hq Ht Hb). lia.
    - unfold blueprint_key_exists. by rewrite bool_decide_eq_true_2. }
  cbn [mbind result_bind]. destruct (rewritten_parses _ _ _ Hdoc E1) as [v1 P1].
  destruct (report_parses c t2 E2) as [v2 P2].
  assert (exists p, read_revision (pb_revision_id r, row) = Ok p) as [p Hp].
  { unfold read_revision, row, parse_json, datetime, narrow_i32. simpl. rewrite Ei, P1, P2, Hnow. simpl. by eexists. }
  rewrite Hp. by eexists p, _.
Qed.
Lemma max_revision_nonneg s tenant id : chained s -> 0 <= default 0 (max_revision s tenant id).
Proof using.
  intros Hs. unfold max_revision. destruct (latest_row s tenant id) as [[j q]|] eqn:E; simpl; [|lia].
  apply latest_row_some in E as (Hq & _). pose proof (ch_number s Hs j q Hq). lia.
Qed.
Lemma repo_latest_total s tenant id : readable s -> exists o, repo_latest_revision s tenant id = Ok o.
Proof using.
  intros Hs. unfold repo_latest_revision. destruct (latest_row s tenant id) as [[j q]|] eqn:E; simpl; [|by eexists].
  apply latest_row_some in E as (Hq & _). destruct (rd_revisions s Hs j q Hq) as [v ->]. by eexists.
Qed.
Lemma blueprint_draft s tenant id row : readable s -> blueprint_row s tenant id = Some row ->
  bp_tenant <$> bs_blueprints s !! id = Some tenant
  /\ exists draft t0, repo_get_draft s tenant id = Ok (Some draft) /\ from_str t0 = Ok (dr_document draft).
Proof using.
  intros Hs H. unfold blueprint_row in H. destruct (bs_blueprints s !! id) as [b|] eqn:Eb; [|done]. simpl in H.
  destruct (bp_tenant b =s? tenant) eqn:Et in H; [|done]. apply String.eqb_eq in Et. injection H as <-.
  split; [simpl; by rewrite Et|]. destruct (rd_draft s Hs id b Eb) as (did & d & Hd & Ht & Hb).
  destruct (draft_row_exists s tenant id did d Hd) as [[di e] He]; [congruence|done|]. unfold repo_get_draft.
  rewrite He. apply draft_row_some in He as (He & _). destruct (rd_drafts s Hs di e He) as [v Hv]. simpl. rewrite Hv. simpl.
  exists v, (df_document e). split; [done|]. unfold read_draft in Hv. apply bind_ok in Hv as (doc & Hdoc%map_err_inv & Hv).
  apply bind_ok in Hv as (? & _ & Hv). by apply bind_ok in Hv as (? & _ & [= <-]).
Qed.
(** The transaction of a publisher that has read the current draft and latest revision. *)
Definition published (s : BlueprintStore) (tenant id : string) (h : ContractHash) (rid : string)
    (p : BlueprintRevisionRecord) (s' : BlueprintStore) : Prop :=
  repo_latest_revision s' tenant id = Ok (Some p) /\ rv_document_hash p = as_hex h
  /\ (s' = s \/ rv_id p = rid /\ rv_revision p = default 0 (max_revision s tenant id) + 1
                /\ bs_revisions s' !! rid <> None /\ bs_revisions s !! rid = None).
Lemma publish_in_total s tenant id r draft latest t0 c h :
  chained s ->
  repo_get_draft s tenant id = Ok (Some draft) -> from_str t0 = Ok (dr_document draft) ->
  repo_latest_revision s tenant id = Ok latest -> bp_tenant <$> bs_blueprints s !! id = Some tenant ->
  r = {| pb_revision_id := pb_revision_id r; pb_expected_previous := rv_id <$> latest;
         pb_expected_draft_updated_at := dr_updated_at draft; pb_document := dr_document draft;
         pb_document_hash := as_hex h; pb_compatibility := compatibility_value c; pb_now := pb_now r |} ->
  length h = 32%nat -> Forall byte_ok h ->
  bs_revisions s !! pb_revision_id r = None -> default 0 (max_revision s tenant id) < Int.i32_max ->
  micros_in_range (timestamp_micros (pb_now r)) = true ->
  exists p s', publish_in s tenant id r = Ok (Published p, s') /\ published s tenant id h (pb_revision_id r) p s'.
Proof using laws.
  intros Hs Hd Ht0 Hl Hfk Er Hlen Hbytes Hid Hn Hnow. pose proof (max_revision_nonneg s tenant id Hs) as H0.
  unfold publish_in. rewrite Hd. cbn [mbind result_bind].
  replace (pb_expected_draft_updated_at r) with (dr_updated_at draft) by (by rewrite Er).
  replace (pb_document r) with (dr_document draft) by (by rewrite Er).
  rewrite Z.eqb_refl, value_eqb_refl by (by apply (parsed_wf t0)). simpl. rewrite Hl. cbn [mbind result_bind].
  destruct (same_publication latest r) as [l|] eqn:Es.
  - exists l, s. split; [done|]. destruct latest as [l'|]; [|done]. simpl in Es. destruct (_ && _) eqn:Eh in Es; [|done].
    injection Es as <-. apply andb_true_iff in Eh as [Eh _]. apply String.eqb_eq in Eh. rewrite Er in Eh.
    split_and!; [done..|by left].
  - replace (pb_expected_previous r) with (rv_id <$> latest) by (by rewrite Er). rewrite bool_decide_eq_true_2 by done. simpl.
    destruct (append_revision_total s tenant id r t0 c) as (p & s' & Ha);
      [by rewrite Er|by rewrite Er| |done..|].
    { rewrite Er. simpl. destruct (hex_pairs_as_hex h Hbytes) as (_ & _ & ->). by rewrite Hlen. }
    rewrite Ha. simpl. exists p, s'. split; [done|]. apply append_revision_ok in Ha as (row & Happ & Hread & _ & Hh & _).
    apply read_revision_ok in Hread as Hi. destruct Hi as (Hi1 & _ & Hi3 & _ & Hi5).
    split_and!.
    + unfold repo_latest_revision. rewrite (appended_latest _ _ _ _ _ _ Happ). simpl. by rewrite Hread.
    + rewrite Hi5, Hh. by rewrite Er.
    + right. destruct Happ as (_ & E & _ & _ & _ & Hnum). split_and!; [done|lia|by rewrite E, lookup_insert_eq|done].
Qed.

(** ** Claims *)

(** C22. Whatever the interleaving of creations, draft replacements and
    publications (a publisher may have read the draft and the latest revision
    in any earlier states), the revisions of a blueprint form one chain:
    stored revisions never change or disappear, a blueprint's revisions are
    numbered 1 to n without gaps or repetitions, and each is the text and
    hash of a validated document together with its comparison with the very
    revision that precedes it, which is marked non-breaking exactly when the
    document extends that revision's. *)
Theorem publication_linear s past :
  history (s :: past) ->
  (forall s', s' ∈ past -> bs_revisions s' ⊆ bs_revisions s)
  /\ (forall id r id' r', bs_revisions s !! id = Some r -> bs_revisions s !! id' = Some r' ->
        rw_tenant r = rw_tenant r' -> rw_blueprint r = rw_blueprint r' -> rw_revision r = rw_revision r' -> id = id')
  /\ (forall id r n, bs_revisions s !! id = Some r -> 1 <= n <= rw_revision r ->
        exists id' r', bs_revisions s !! id' = Some r' /\ rw_tenant r' = rw_tenant r
          /\ rw_blueprint r' = rw_blueprint r /\ rw_revision r' = n)
  /\ (forall id r, bs_revisions s !! id = Some r -> exists previous, follows s r previous /\ revision_of previous r).
Proof using.
  intros [Hc Hp]%history_chained. split_and!.
  - intros s' Hin. apply Hp. by right.
  - apply (ch_unique s Hc).
  - intros id r n Hr. by apply (chained_gapless s Hc id).
  - apply (ch_links s Hc).
Qed.

(** C38. Publication does what it should when nobody interferes: in every
    reachable store a blueprint has a draft that can be read; if its document
    is invalid, publishing reports that and changes nothing; if it is valid
    (and so is the stored predecessor), publishing succeeds, and afterwards
    the latest revision is the returned one with the document's hash: either
    the unchanged latest revision or a new one with the next number. *)
Theorem publish_live s past ctx id row rid now :
  history (s :: past) -> require_permission ctx ManageDeviceBlueprints = Ok tt ->
  blueprint_row s (ctx_tenant ctx) id = Some row ->
  exists draft, repo_get_draft s (ctx_tenant ctx) id = Ok (Some draft)
  /\ match validate_document (dr_document draft) with
     | Err e => publish s s s ctx id rid now = (Err e, s)
     | Ok b =>
       (forall v, repo_latest_revision s (ctx_tenant ctx) id = Ok (Some v) ->
          exists b', validate_document (rv_document v) = Ok b') ->
       bs_revisions s !! rid = None -> default 0 (max_revision s (ctx_tenant ctx) id) < Int.i32_max ->
       micros_in_range (timestamp_micros now) = true ->
       exists p s' h, publish s s s ctx id rid now = (Ok p, s') /\ document_hash b = Ok h
         /\ published s (ctx_tenant ctx) id h rid p s'
     end.
Proof using laws.
  intros H Hperm Hrow. apply history_readable in H as Hr. apply history_chained in H as [Hc _].
  destruct (blueprint_draft s _ id row Hr Hrow) as (Hfk & draft & t0 & Hd & Ht0). exists draft. split; [done|].
  unfold publish, publish_draft. rewrite Hperm, Hd. cbn [mbind result_bind map_err ok_or].
  destruct (validate_document (dr_document draft)) as [b|e]; [|done]. cbn [mbind result_bind].
  intros Hprev Hid Hn Hnow. unfold publish_record.
  destruct (repo_latest_total s (ctx_tenant ctx) id Hr) as [latest Hl]. rewrite Hl. cbn [mbind result_bind map_err].
  assert (exists c, compare_with_previous latest b = Ok c) as [c Ec].
  { destruct latest as [v|]; [|by eexists]. destruct (Hprev v Hl) as [b' Hb']. simpl. rewrite Hb'. by eexists. }
  rewrite Ec. cbn [mbind result_bind]. destruct (blueprint_hashes b) as (h & Hh & Hlen & Hbytes). rewrite Hh.
  cbn [mbind result_bind map_err]. unfold repo_publish. cbv zeta.
  match goal with |- context [publish_in s _ id ?x] => set (r := x) end.
  destruct (publish_in_total s (ctx_tenant ctx) id r draft latest t0 c h) as (p & s' & -> & Hp); try done.
  by exists p, s', h.
Qed.
End histories.

(** ** Contracts compiled for devices *)
Section contracts.
Context {micros : ChronoMicros} {codec : SerdeJson} {bcodec : BlueprintCodec} {ccodec : ContractCodec}
  {total : ContractCodecTotal}.

Definition automatic_zenoh (endpoint : string) : ResolvedTransport :=
  {| rv_protocol := Zenoh; rv_endpoint := endpoint; rv_server_ca_pem := None;
     rv_credential_ref := Some "device-certificate" |}.
Lemma zenoh_bindings_elem b endpoint key r :
  (key, r) ∈ map (fun t => (tr_binding t, automatic_zenoh endpoint))
    (List.filter (fun t => bool_decide (tr_protocol t = Zenoh)) (transports (spec b)))
  <-> r = automatic_zenoh endpoint
      /\ exists t, t ∈ transports (spec b) /\ tr_protocol t = Zenoh /\ tr_binding t = key.
Proof using.
  rewrite list_elem_of_fmap. split.
  - intros (t & [= -> ->] & [Ht Hp]%elem_of_filterb). apply bool_decide_eq_true in Hp. eauto.
  - intros (-> & t & Ht & Hp & <-). exists t. split; [done|]. apply elem_of_filterb. by rewrite bool_decide_eq_true.
Qed.
Lemma zenoh_binding_ok ctx contract_id device_id endpoint config revision b t :
  t ∈ transports (spec b) ->
  binding_ok (contract_context ctx contract_id device_id endpoint config revision b) t
  <-> tr_protocol t = Zenoh /\ trim_is_empty endpoint = false.
Proof using.
  intros Ht. unfold binding_ok, contract_context, zenoh_bindings. cbn [transport_bindings]. split.
  - intros (r & Hr%bt_collect_elem & Hp & He). apply zenoh_bindings_elem in Hr as [-> _]. done.
  - intros [Hp He]. set (l := map _ _). destruct (bt_get (tr_binding t) (bt_collect l)) as [r|] eqn:E.
    + apply bt_collect_elem in E as Hin. apply zenoh_bindings_elem in Hin as [-> _]. by exists (automatic_zenoh endpoint).
    + assert (bt_contains_key (tr_binding t) (bt_collect l) = true) as Hc.
      { apply bt_collect_contains, list_elem_of_fmap. exists (tr_binding t, automatic_zenoh endpoint). split; [done|].
        apply zenoh_bindings_elem. eauto. }
      unfold bt_contains_key in Hc. by rewrite E in Hc.
Qed.

Lemma contract_blueprint_ok s ctx revision_id revision b :
  contract_blueprint s ctx revision_id = Ok (revision, b) ->
  validate_blueprint b = Ok b /\ rv_id revision = revision_id.
Proof using.
  intros Hb. unfold contract_blueprint in Hb. apply bind_ok in Hb as ([] & _ & Hb). apply bind_ok in Hb as (f & Hf%map_err_inv & Hb).
    apply bind_ok in Hb as (r & ->%ok_or_ok & Hb). apply bind_ok in Hb as (b' & Hv%map_err_inv & Hb).
    destruct (_ <? 0) in Hb; [done|]. injection Hb as -> ->. split; [by apply validate_document_ok in Hv|].
    unfold repo_get_revision in Hf. apply read_some_ok in Hf as [[_ ?]|([i q] & v & Hq & Hr & [= ->])]; [done|].
    apply read_revision_ok in Hr as [-> _]. destruct (bs_revisions s !! revision_id) as [q'|]; [|done]. simpl in Hq.
    destruct (_ =s? _) in Hq; [|done]. by injection Hq as <- _.
Qed.

(** The record of a compiled contract: its document and hash, and the configuration it desires. *)
Definition records_contract (record : NewDeviceContractRecord) (k : CompiledContract) (contract_id revision_id : string) : Prop :=
  nc_id record = contract_id /\ nc_blueprint_revision_id record = revision_id
  /\ document_value (document k) = Ok (nc_document record) /\ nc_contract_hash record = as_hex (hash k)
  /\ nc_initial_configuration record = ccf_desired <$> doc_configuration (document k).

Lemma compiled_record s ctx revision_id contract_id device_id endpoint config now :
  let answer := compile_device_contract s ctx revision_id contract_id device_id endpoint config now in
  answer <> None
  /\ (forall record, answer = Some (Ok record) ->
      exists k, contract_sound (document k) /\ verify_hash k = Ok true
        /\ records_contract record k contract_id revision_id
        /\ doc_device_id (document k) = device_id /\ doc_tenant_id (document k) = ctx_tenant ctx).
Proof using total.
  cbv zeta. unfold compile_device_contract.
  destruct (contract_blueprint s ctx revision_id) as [[revision b]|e] eqn:Hb; [|done].
  apply contract_blueprint_ok in Hb as [Hv Hid].
  set (c := contract_context ctx contract_id device_id endpoint config revision b).
  destruct (compile_succeeds b b c Hv) as [Hnp _]. rewrite <- Hid. split.
  - destruct (compile b c) eqn:E; [done..|]. by destruct (Hnp message).
  - intros record H. destruct (compile b c) as [k|e|m] eqn:E; [|done..]. injection H as H.
    apply bind_ok in H as (doc & Hd%map_err_inv & [= <-]).
    destruct (compile_closed b b c k Hv E) as (H1 & H2 & H3 & H4). by exists k.
Qed.

(** C23. Compiling a device's contract from a stored revision never panics,
    and succeeds exactly when the ids are sound, every transport of the
    blueprint is a Zenoh one (the only kind that is bound automatically) with
    a non-blank endpoint, and the given configuration conforms to the
    blueprint's.  The record then holds the document and verified hash of a
    closed contract of that very device, tenant and revision, and the desired
    configuration of it. *)
Theorem device_contract_exact s ctx revision_id contract_id device_id endpoint config now revision b :
  contract_blueprint s ctx revision_id = Ok (revision, b) ->
  let c := contract_context ctx contract_id device_id endpoint config revision b in
  let answer := compile_device_contract s ctx revision_id contract_id device_id endpoint config now in
  answer <> None
  /\ ((exists record, answer = Some (Ok record))
      <-> context_ok c /\ layers_ok b c
          /\ forall t, t ∈ transports (spec b) -> tr_protocol t = Zenoh /\ trim_is_empty endpoint = false)
  /\ (forall record, answer = Some (Ok record) ->
      exists k, contract_sound (document k) /\ verify_hash k = Ok true
        /\ records_contract record k contract_id revision_id
        /\ doc_device_id (document k) = device_id /\ doc_tenant_id (document k) = ctx_tenant ctx).
Proof using total.
  intros Hb. destruct (compiled_record s ctx revision_id contract_id device_id endpoint config now) as [Hn Hr].
  cbv zeta in *. split; [done|]. split; [|done]. clear Hn Hr. unfold compile_device_contract. rewrite Hb.
  apply contract_blueprint_ok in Hb as [Hv _].
  set (c := contract_context ctx contract_id device_id endpoint config revision b).
  destruct (compile_succeeds b b c Hv) as [_ Hiff].
  assert (forall t, t ∈ transports (spec b) -> binding_ok c t <-> tr_protocol t = Zenoh /\ trim_is_empty endpoint = false)
    as Hz by (intros t Ht; by apply zenoh_binding_ok).
  transitivity (exists k, compile b c = Return k).
  - split; [intros (record & H); destruct (compile b c) as [k|e|m]; [by eexists|done..]|].
    intros (k & ->). destruct (document_value_total (document k)) as [v ->]. by eexists.
  - rewrite Hiff. split; [intros (H1 & H2 & H3)|intros (H1 & H3 & H2)]; split_and!; try done;
      intros t Ht; by apply Hz, H2.
Qed.
End contracts.

(** ** Witnesses: two revisions of the cold room, the second one racing a stale publisher *)
Definition demo_micros : ChronoMicros := {| micros_in_range := fun _ => true |}.
Definition demo_serde : SerdeJson :=
  {| to_string := fun v => Ok (default "report" (as_str v)); from_str := fun t => Ok (VString t);
     utc_in_range := fun _ => true |}.
Definition demo_blueprints : BlueprintCodec :=
  {| blueprint_from_value := fun v =>
       if value_eqb v (VString "cold room") then Ok cold_room
       else if value_eqb v (VString "larger messages") then Ok cold_room_2 else Err "unknown document";
     blueprint_to_value := fun b => Ok (of_int (max_message_bytes (limits (runtime (spec b))))) |}.
Definition demo_contracts : ContractCodec :=
  {| document_value := fun d => Ok (VString (doc_device_id d));
     to_vec := fun v => Ok (match as_i64 v with Some n => int_to_string n | None => default "" (as_str v) end);
     sha256 := fun s => repeat (str_len s mod 256) 32 |}.
#[local] Existing Instance demo_micros.
#[local] Existing Instance demo_serde.
#[local] Existing Instance demo_blueprints.
#[local] Existing Instance demo_contracts.
Definition demo_admin : TenantContext :=
  {| ctx_tenant := "acme"; ctx_actor := System "console"; ctx_permissions := permission_set_all |}.
Definition demo_0 : BlueprintStore := {| bs_orgs := {["acme"]}; bs_blueprints := ∅; bs_drafts := ∅; bs_revisions := ∅ |}.
Definition demo_1 := (create_blueprint demo_0 demo_admin (VString "cold room") "b" "d" 1000).2.
Definition demo_2 := (publish demo_1 demo_1 demo_1 demo_admin "b" "r1" 2000).2.
Definition demo_3 := (replace_draft demo_2 demo_admin "b" (VString "larger messages") 3000).2.
Definition demo_4 := (publish demo_1 demo_2 demo_3 demo_admin "b" "stale" 4000).2.
Definition demo_5 := (publish demo_3 demo_4 demo_4 demo_admin "b" "r2" 5000).2.
Lemma demo_4_trace : history [demo_4; demo_3; demo_2; demo_1; demo_0].
Proof.
  apply history_publish; [|repeat constructor..].
  apply history_replace, history_publish; [|repeat constructor..]. apply history_create, history_start.
Qed.
Lemma demo_trace : history [demo_5; demo_4; demo_3; demo_2; demo_1; demo_0].
Proof. apply history_publish; [apply demo_4_trace|repeat constructor..]. Qed.
Lemma demo_laws : PublicationLaws.
Proof.
  split.
  - intros v. by eexists.
  - intros t0 v t _ _. by eexists.
  - intros c t _. by eexists.
  - intros t v [= <-]. constructor.
  - intros b. eexists. split; [reflexivity|]. split; [apply List.repeat_length|]. apply Forall_forall.
    intros x ->%list_elem_of_In%repeat_spec. unfold byte_ok. apply Z.mod_pos_bound. lia.
Qed.
Lemma publication_linear_witness :
  (exists r, bs_revisions demo_5 !! "r2" = Some r /\ rw_revision r = 2
     /\ exists previous, follows demo_5 r previous /\ revision_of previous r)
  /\ bs_revisions demo_2 ⊆ bs_revisions demo_5.
Proof.
  destruct (publication_linear demo_5 [demo_4; demo_3; demo_2; demo_1; demo_0] demo_trace) as (H1 & _ & _ & H4). split.
  - destruct (bs_revisions demo_5 !! "r2") as [r|] eqn:E; [|vm_compute in E; discriminate E].
    exists r. split; [done|]. split; [|by apply (H4 "r2")]. vm_compute in E. injection E as <-. done.
  - apply H1. by do 2 right; left.
Defined.
Lemma demo_documents :
  validate_document (VString "cold room") = Ok cold_room /\ validate_document (VString "larger messages") = Ok cold_room_2.
Proof. split; vm_compute; reflexivity. Qed.
Lemma demo_4_latest v : repo_latest_revision demo_4 "acme" "b" = Ok (Some v) -> exists b, validate_document (rv_document v) = Ok b.
Proof. intros H. vm_compute in H. injection H as <-. exists cold_room. apply demo_documents. Qed.
Lemma demo_4_draft draft : repo_get_draft demo_4 "acme" "b" = Ok (Some draft) -> dr_document draft = VString "larger messages".
Proof. intros H. vm_compute in H. by injection H as <-. Qed.
Lemma publish_live_witness :
  exists p s' h, publish demo_4 demo_4 demo_4 demo_admin "b" "r2" 5000 = (Ok p, s')
    /\ document_hash cold_room_2 = Ok h /\ published demo_4 "acme" "b" h "r2" p s'.
Proof.
  destruct (blueprint_row demo_4 "acme" "b") as [row|] eqn:E; [|vm_compute in E; discriminate E].
  destruct (@publish_live _ _ _ _ demo_laws demo_4 [demo_3; demo_2; demo_1; demo_0] demo_admin "b" row "r2" 5000
              demo_4_trace eq_refl E) as (draft & Hd & H).
  rewrite (demo_4_draft draft Hd), (proj2 demo_documents) in H.
  apply H; [exact demo_4_latest|vm_compute; reflexivity..].
Defined.
Lemma demo_contracts_total : ContractCodecTotal.
Proof. split; intros; by eexists. Qed.
Definition demo_answer :=
  compile_device_contract demo_5 demo_admin "r2" "contract-1" "device-1" "tls/zenoh:7447" None 6000.
Definition succeeds {A} (o : option (result ApplicationError A)) : bool :=
  match o with Some (Ok _) => true | _ => false end.
Lemma succeeds_ok {A} (o : option (result ApplicationError A)) : succeeds o = true -> exists a, o = Some (Ok a).
Proof. destruct o as [[a|]|]; [by eexists|done..]. Qed.
Lemma demo_answer_ok : succeeds demo_answer = true.
Proof. vm_compute. reflexivity. Qed.
Lemma device_contract_exact_witness :
  exists record k, demo_answer = Some (Ok record) /\ contract_sound (document k) /\ doc_device_id (document k) = "device-1".
Proof.
  destruct (contract_blueprint demo_5 demo_admin "r2") as [[revision b]|e] eqn:E; [|vm_compute in E; discriminate E].
  destruct (@device_contract_exact _ _ _ _ demo_contracts_total demo_5 demo_admin "r2" "contract-1" "device-1"
              "tls/zenoh:7447" None 6000 revision b E) as (_ & _ & H).
  destruct (succeeds_ok _ demo_answer_ok) as [record Hr].
  destruct (H record Hr) as (k & Hs & _ & _ & Hdev & _). exists record, k.
  split; [exact Hr|]. split; [exact Hs|exact Hdev].
Defined.
