(* ===== verification/ProvisionStore.v ===== *)
(** * Devices and what belongs to them: records and tables
    (crates/backend-core/src/devices.rs, fleets.rs, certificates.rs;
    crates/backend-turso/src/devices.rs, fleets.rs, certificates.rs)

    A device row has a shadow, a contract with its assignment and, where they
    apply, a configuration and certificates; rows of other components refer to
    it too.  The foreign keys and their ON DELETE actions are the schema's. *)
From Stdlib Require Import Ascii.
From stdpp Require Import sorting.
From S2P Require Import Prelude Text BTree Json Errors RuleTypes Shadows RuleSnapshot EventStore RuleAdminStore.
From S2P Require Import BlueprintStore Blueprints.

Local Open Scope Z_scope.

(** ** Records *)
Record FleetRecord := { fr_id : Z; fr_name : string }.
Record FleetSummary := { fs_fleet : FleetRecord; fs_device_count : Z }.
Record DeviceRecord := {
  de_id : string; de_name : string; de_fleet_id : option Z; de_status : string; de_firmware : string;
  de_last_seen : option NaiveDateTime; de_uptime_seconds : Z; de_declared_connections : value;
}.
Record DeviceBlueprintIdentity := {
  bi_id : string; bi_revision_id : string; bi_key : string; bi_name : string; bi_icon : option string;
  bi_color : option string;
}.
Record DeviceDetails := {
  dd_device : DeviceRecord; dd_blueprint : DeviceBlueprintIdentity; dd_fleet : option FleetRecord;
}.
Record DeviceFilter := { ft_status : option string; ft_search : option string; ft_fleet_id : option Z }.
Record CreateDeviceRecord := {
  cd_id : string; cd_name : string; cd_fleet_id : option Z; cd_firmware : string; cd_contract : NewDeviceContractRecord;
}.
Record UpdateDeviceRecord := {
  ud_name : option string; ud_fleet_id : option (option Z); ud_firmware : option string;
  ud_updated_at : option NaiveDateTime;
}.
Record CaCertificateRecord := {
  cc_id : Z; cc_private_key_pem : string; cc_certificate_pem : string; cc_created_at : NaiveDateTime;
}.
Record NewDeviceCertificateRecord := {
  nd_device_id : string; nd_private_key_pem : string; nd_certificate_pem : string; nd_fingerprint : string;
  nd_expires_at : NaiveDateTime;
}.

(** ** Tables *)
Record FleetRow := { fl_tenant : string; fl_name : string; fl_created : Z }.
Record DeviceRow := {
  pd_tenant : string; pd_name : string; pd_fleet : option Z; pd_status : string; pd_firmware : string;
  pd_last_seen : option Z; pd_uptime : Z; pd_connections : string; pd_created : Z; pd_updated : Z;
}.
Record CertificateRow := {
  ce_tenant : string; ce_device : string; ce_private_key : string; ce_certificate : string; ce_fingerprint : string;
  ce_expires : Z; ce_created : Z;
}.
Record CaRow := { ca_private_key : string; ca_certificate : string; ca_created : Z }.
(** Rows of other components with a foreign key to a device, by table and key.
    The keys of alerts and deployments have no ON DELETE action, the others cascade. *)
Inductive Dependent := Log | Command | Event | Receipt | Sample | Rollup | ZoneEntry | Alert | Deployment.
#[global] Instance Dependent_eq_dec : EqDecision Dependent.
Proof. solve_decision. Defined.
Definition dependent_code (d : Dependent) : nat :=
  match d with
  | Log => 0 | Command => 1 | Event => 2 | Receipt => 3 | Sample => 4 | Rollup => 5 | ZoneEntry => 6 | Alert => 7
  | Deployment => 8
  end%nat.
Definition dependent_of_code (n : nat) : option Dependent :=
  [Log; Command; Event; Receipt; Sample; Rollup; ZoneEntry; Alert; Deployment] !! n.
#[global] Instance Dependent_countable : Countable Dependent.
Proof. apply (inj_countable dependent_code dependent_of_code). by intros []. Defined.
Definition cascades (d : Dependent) : bool := match d with Alert | Deployment => false | _ => true end.

Record ProvisionStore := {
  ps_blueprints : BlueprintStore;
  ps_fleets : gmap Z FleetRow;
  ps_devices : gmap string DeviceRow;
  ps_shadows : ShadowTable;
  ps_certificates : gmap Z CertificateRow;
  ps_cas : gmap Z CaRow;
  ps_contracts : gmap string ContractRow;
  ps_assignments : gmap (string * string) AssignmentRow;
  ps_configs : gmap (string * string) (string * Z);
  ps_dependents : gmap (Dependent * string) (string * string);
}.
Definition set_fleets (s : ProvisionStore) (m : gmap Z FleetRow) : ProvisionStore :=
  {| ps_blueprints := ps_blueprints s; ps_fleets := m; ps_devices := ps_devices s; ps_shadows := ps_shadows s;
     ps_certificates := ps_certificates s; ps_cas := ps_cas s; ps_contracts := ps_contracts s;
     ps_assignments := ps_assignments s; ps_configs := ps_configs s; ps_dependents := ps_dependents s |}.
Definition set_devices (s : ProvisionStore) (m : gmap string DeviceRow) : ProvisionStore :=
  {| ps_blueprints := ps_blueprints s; ps_fleets := ps_fleets s; ps_devices := m; ps_shadows := ps_shadows s;
     ps_certificates := ps_certificates s; ps_cas := ps_cas s; ps_contracts := ps_contracts s;
     ps_assignments := ps_assignments s; ps_configs := ps_configs s; ps_dependents := ps_dependents s |}.
Definition set_shadows (s : ProvisionStore) (m : ShadowTable) : ProvisionStore :=
  {| ps_blueprints := ps_blueprints s; ps_fleets := ps_fleets s; ps_devices := ps_devices s; ps_shadows := m;
     ps_certificates := ps_certificates s; ps_cas := ps_cas s; ps_contracts := ps_contracts s;
     ps_assignments := ps_assignments s; ps_configs := ps_configs s; ps_dependents := ps_dependents s |}.
Definition set_certificates (s : ProvisionStore) (m : gmap Z CertificateRow) : ProvisionStore :=
  {| ps_blueprints := ps_blueprints s; ps_fleets := ps_fleets s; ps_devices := ps_devices s;
     ps_shadows := ps_shadows s; ps_certificates := m; ps_cas := ps_cas s; ps_contracts := ps_contracts s;
     ps_assignments := ps_assignments s; ps_configs := ps_configs s; ps_dependents := ps_dependents s |}.
Definition set_cas (s : ProvisionStore) (m : gmap Z CaRow) : ProvisionStore :=
  {| ps_blueprints := ps_blueprints s; ps_fleets := ps_fleets s; ps_devices := ps_devices s;
     ps_shadows := ps_shadows s; ps_certificates := ps_certificates s; ps_cas := m; ps_contracts := ps_contracts s;
     ps_assignments := ps_assignments s; ps_configs := ps_configs s; ps_dependents := ps_dependents s |}.
Definition set_contracts (s : ProvisionStore) (m : gmap string ContractRow) : ProvisionStore :=
  {| ps_blueprints := ps_blueprints s; ps_fleets := ps_fleets s; ps_devices := ps_devices s;
     ps_shadows := ps_shadows s; ps_certificates := ps_certificates s; ps_cas := ps_cas s; ps_contracts := m;
     ps_assignments := ps_assignments s; ps_configs := ps_configs s; ps_dependents := ps_dependents s |}.
Definition set_assignments (s : ProvisionStore) (m : gmap (string * string) AssignmentRow) : ProvisionStore :=
  {| ps_blueprints := ps_blueprints s; ps_fleets := ps_fleets s; ps_devices := ps_devices s;
     ps_shadows := ps_shadows s; ps_certificates := ps_certificates s; ps_cas := ps_cas s;
     ps_contracts := ps_contracts s; ps_assignments := m; ps_configs := ps_configs s;
     ps_dependents := ps_dependents s |}.
Definition set_configs (s : ProvisionStore) (m : gmap (string * string) (string * Z)) : ProvisionStore :=
  {| ps_blueprints := ps_blueprints s; ps_fleets := ps_fleets s; ps_devices := ps_devices s;
     ps_shadows := ps_shadows s; ps_certificates := ps_certificates s; ps_cas := ps_cas s;
     ps_contracts := ps_contracts s; ps_assignments := ps_assignments s; ps_configs := m;
     ps_dependents := ps_dependents s |}.
Definition set_dependents (s : ProvisionStore) (m : gmap (Dependent * string) (string * string)) : ProvisionStore :=
  {| ps_blueprints := ps_blueprints s; ps_fleets := ps_fleets s; ps_devices := ps_devices s;
     ps_shadows := ps_shadows s; ps_certificates := ps_certificates s; ps_cas := ps_cas s;
     ps_contracts := ps_contracts s; ps_assignments := ps_assignments s; ps_configs := ps_configs s;
     ps_dependents := m |}.
Definition set_blueprints (s : ProvisionStore) (b : BlueprintStore) : ProvisionStore :=
  {| ps_blueprints := b; ps_fleets := ps_fleets s; ps_devices := ps_devices s;
     ps_shadows := ps_shadows s; ps_certificates := ps_certificates s; ps_cas := ps_cas s;
     ps_contracts := ps_contracts s; ps_assignments := ps_assignments s; ps_configs := ps_configs s;
     ps_dependents := ps_dependents s |}.
Definition commit_devices {A} (s : ProvisionStore) (r : result PersistenceError (A * ProvisionStore))
    : result PersistenceError A * ProvisionStore :=
  match r with Ok (a, s') => (Ok a, s') | Err e => (Err e, s) end.

(** ** Device details: SQL's json_extract of a text member is an interface. *)
Class JsonExtract := { json_extract : string -> string -> result string (option string) }.
Definition device_row (s : ProvisionStore) (tenant id : string) : option DeviceRow :=
  d ← ps_devices s !! id; if pd_tenant d =s? tenant then Some d else None.
Record JoinedDevice := {
  jd_id : string; jd_device : DeviceRow; jd_blueprint_id : string; jd_blueprint : BlueprintRow;
  jd_revision_id : string; jd_revision : RevisionRow; jd_fleet : option (Z * FleetRow);
}.
(** [DEVICE_JOINS] of one device row. *)
Definition join_device (s : ProvisionStore) (id : string) (d : DeviceRow) : option JoinedDevice :=
  let tenant := pd_tenant d in
  a ← ps_assignments s !! (tenant, id);
  c ← ps_contracts s !! as_desired a;
  r ← bs_revisions (ps_blueprints s) !! kr_revision c;
  b ← bs_blueprints (ps_blueprints s) !! rw_blueprint r;
  if (kr_tenant c =s? tenant) && (kr_device c =s? id) && (rw_tenant r =s? tenant) && (bp_tenant b =s? tenant)
  then Some {| jd_id := id; jd_device := d; jd_blueprint_id := rw_blueprint r; jd_blueprint := b;
               jd_revision_id := kr_revision c; jd_revision := r;
               jd_fleet := f ← pd_fleet d; row ← ps_fleets s !! f;
                           if fl_tenant row =s? tenant then Some (f, row) else None |}
  else None.

Section details.
Context `{!ChronoMicros, !SerdeJson, !JsonExtract}.
Definition extract_text (document path : string) : result PersistenceError (option string) :=
  map_err PInternal (json_extract document path).
Definition decode_details (j : JoinedDevice) : result PersistenceError DeviceDetails :=
  let d := jd_device j in
  fleet_id ← read_some (fun f => narrow_i32 f "devices.fleet_id") (pd_fleet d);
  last_seen ← read_some datetime (pd_last_seen d);
  uptime ← narrow_i32 (pd_uptime d) "devices.uptime_seconds";
  connections ← map_err CorruptData (from_str (pd_connections d));
  icon ← extract_text (rw_document (jd_revision j)) "$.metadata.icon";
  color ← extract_text (rw_document (jd_revision j)) "$.metadata.color";
  fleet ← read_some (fun f : Z * FleetRow => fid ← narrow_i32 f.1 "fleets.id";
                     Ok {| fr_id := fid; fr_name := fl_name f.2 |}) (jd_fleet j);
  Ok {| dd_device := {| de_id := jd_id j; de_name := pd_name d; de_fleet_id := fleet_id; de_status := pd_status d;
                        de_firmware := pd_firmware d; de_last_seen := last_seen; de_uptime_seconds := uptime;
                        de_declared_connections := connections |};
        dd_blueprint := {| bi_id := jd_blueprint_id j; bi_revision_id := jd_revision_id j;
                           bi_key := bp_key (jd_blueprint j); bi_name := bp_name (jd_blueprint j);
                           bi_icon := icon; bi_color := color |};
        dd_fleet := fleet |}.
Definition details_from (s : ProvisionStore) (tenant id : string) : result PersistenceError (option DeviceDetails) :=
  read_some decode_details (device_row s tenant id ≫= join_device s id).
End details.

(** ** Creating a device *)
Definition fleet_key (s : ProvisionStore) (tenant : string) (fleet : option Z) : bool :=
  match fleet with
  | None => true
  | Some f => bool_decide (fl_tenant <$> ps_fleets s !! f = Some tenant)
  end.
Definition insert_device (s : ProvisionStore) (tenant : string) (r : CreateDeviceRecord) (now : Z)
    : result PersistenceError ProvisionStore :=
  if bool_decide (is_Some (ps_devices s !! cd_id r)) then Err unique_violation
  else if negb (bool_decide (tenant ∈ bs_orgs (ps_blueprints s)) && fleet_key s tenant (cd_fleet_id r))
  then Err foreign_key_violation
  else Ok (set_devices s (<[cd_id r :=
         {| pd_tenant := tenant; pd_name := cd_name r; pd_fleet := cd_fleet_id r; pd_status := "offline";
            pd_firmware := cd_firmware r; pd_last_seen := None; pd_uptime := 0; pd_connections := "[]";
            pd_created := now; pd_updated := now |}]> (ps_devices s))).
Definition insert_shadow (s : ProvisionStore) (tenant device : string) (now : Z) : result PersistenceError ProvisionStore :=
  if bool_decide (is_Some (ps_shadows s !! (tenant, device))) then Err unique_violation
  else Ok (set_shadows s (<[(tenant, device) :=
         {| row_desired := "{}"; row_reported := "{}"; row_delta := "{}"; row_version := 1; row_updated_at := now |}]>
         (ps_shadows s))).
Definition fingerprint_taken (s : ProvisionStore) (tenant fingerprint : string) : bool :=
  existsb (fun e : Z * CertificateRow => (ce_tenant e.2 =s? tenant) && (ce_fingerprint e.2 =s? fingerprint))
    (map_to_list (ps_certificates s)).
Definition insert_certificate (s : ProvisionStore) (tenant device : string) (c : NewDeviceCertificateRecord) (now : Z)
    : result PersistenceError (Z * ProvisionStore) :=
  if fingerprint_taken s tenant (nd_fingerprint c) then Err unique_violation
  else let id := next_rowid (ps_certificates s) in
       Ok (id, set_certificates s (<[id :=
         {| ce_tenant := tenant; ce_device := device; ce_private_key := nd_private_key_pem c;
            ce_certificate := nd_certificate_pem c; ce_fingerprint := nd_fingerprint c;
            ce_expires := timestamp_micros (nd_expires_at c); ce_created := now |}]> (ps_certificates s))).
Definition hash_taken (s : ProvisionStore) (tenant device hash : string) : bool :=
  existsb (fun e : string * ContractRow => (kr_tenant e.2 =s? tenant) && (kr_device e.2 =s? device)
             && (kr_hash e.2 =s? hash)) (map_to_list (ps_contracts s)).
Definition revision_key (s : ProvisionStore) (tenant revision : string) : bool :=
  bool_decide (rw_tenant <$> bs_revisions (ps_blueprints s) !! revision = Some tenant).

Section writes.
Context `{!ChronoMicros, !SerdeJson, !JsonExtract}.
Definition insert_contract (s : ProvisionStore) (tenant device : string) (c : NewDeviceContractRecord)
    : result PersistenceError ProvisionStore :=
  document ← map_err PInternal (to_string (nc_document c));
  if negb (str_len (nc_contract_hash c) =? 64) then Err (CheckViolation "check")
  else if bool_decide (is_Some (ps_contracts s !! nc_id c)) || hash_taken s tenant device (nc_contract_hash c)
  then Err unique_violation
  else if negb (revision_key s tenant (nc_blueprint_revision_id c)) then Err foreign_key_violation
  else Ok (set_contracts s (<[nc_id c :=
         {| kr_tenant := tenant; kr_device := device; kr_revision := nc_blueprint_revision_id c;
            kr_document := document; kr_hash := nc_contract_hash c;
            kr_created_at := timestamp_micros (nc_created_at c) |}]> (ps_contracts s))).
Definition insert_assignment (s : ProvisionStore) (tenant device : string) (c : NewDeviceContractRecord)
    : result PersistenceError ProvisionStore :=
  if bool_decide (is_Some (ps_assignments s !! (tenant, device))) then Err unique_violation
  else Ok (set_assignments s (<[(tenant, device) :=
         {| as_desired := nc_id c; as_active := None; as_status := "pending"; as_acknowledged_at := None;
            as_error := None; as_updated_at := timestamp_micros (nc_created_at c) |}]> (ps_assignments s))).
Definition insert_config (s : ProvisionStore) (tenant device : string) (config : option value) (now : Z)
    : result PersistenceError ProvisionStore :=
  match config with
  | None => Ok s
  | Some v =>
    text ← map_err PInternal (to_string v);
    if bool_decide (is_Some (ps_configs s !! (tenant, device))) then Err unique_violation
    else Ok (set_configs s (<[(tenant, device) := (text, now)]> (ps_configs s)))
  end.
Definition create_device_in (s : ProvisionStore) (tenant : string) (r : CreateDeviceRecord)
    (certificate : option NewDeviceCertificateRecord) (now : Z) : result PersistenceError (DeviceDetails * ProvisionStore) :=
  let device := cd_id r in
  s1 ← insert_device s tenant r now;
  s2 ← insert_shadow s1 tenant device now;
  s3 ← match certificate with
       | Some c => '(_, s') ← insert_certificate s2 tenant device c now; Ok s'
       | None => Ok s2
       end;
  s4 ← insert_contract s3 tenant device (cd_contract r);
  s5 ← insert_assignment s4 tenant device (cd_contract r);
  s6 ← insert_config s5 tenant device (nc_initial_configuration (cd_contract r)) now;
  found ← details_from s6 tenant device;
  details ← ok_or found PNotFound;
  Ok (details, s6).
Definition repo_create_device (s : ProvisionStore) (tenant : string) (r : CreateDeviceRecord)
    (certificate : option NewDeviceCertificateRecord) (now : Z) :=
  commit_devices s (create_device_in s tenant r certificate now).

(** ** Updating *)
Definition patched_row (d : DeviceRow) (u : UpdateDeviceRecord) : DeviceRow :=
  {| pd_tenant := pd_tenant d; pd_name := default (pd_name d) (ud_name u);
     pd_fleet := default (pd_fleet d) (ud_fleet_id u); pd_status := pd_status d;
     pd_firmware := default (pd_firmware d) (ud_firmware u); pd_last_seen := pd_last_seen d; pd_uptime := pd_uptime d;
     pd_connections := pd_connections d; pd_created := pd_created d;
     pd_updated := match ud_updated_at u with Some t => timestamp_micros t | None => pd_updated d end |}.
Definition update_device_in (s : ProvisionStore) (tenant id : string) (u : UpdateDeviceRecord)
    : result PersistenceError (option DeviceDetails * ProvisionStore) :=
  match device_row s tenant id with
  | None => Ok (None, s)
  | Some d =>
    if negb (fleet_key s tenant (default None (ud_fleet_id u))) then Err foreign_key_violation else
    let s' := set_devices s (<[id := patched_row d u]> (ps_devices s)) in
    details ← details_from s' tenant id; Ok (details, s')
  end.
Definition repo_update_device (s : ProvisionStore) (tenant id : string) (u : UpdateDeviceRecord) :=
  commit_devices s (update_device_in s tenant id u).
(** One UPDATE of the loop: the number of rows it changes. *)
Definition assign_fleet (tenant : string) (fleet : option Z) (updated_at : NaiveDateTime) (s : ProvisionStore) (id : string)
    : result PersistenceError (nat * ProvisionStore) :=
  match device_row s tenant id with
  | None => Ok (0%nat, s)
  | Some d =>
    if negb (fleet_key s tenant fleet) then Err foreign_key_violation else
    Ok (1%nat, set_devices s (<[id := patched_row d {| ud_name := None; ud_fleet_id := Some fleet; ud_firmware := None;
                                                      ud_updated_at := Some updated_at |}]> (ps_devices s)))
  end.
(** The loops over a [BTreeSet] of ids. *)
Fixpoint each_device (f : ProvisionStore -> string -> result PersistenceError (nat * ProvisionStore))
    (s : ProvisionStore) (ids : list string) : result PersistenceError (nat * ProvisionStore) :=
  match ids with
  | [] => Ok (0%nat, s)
  | id :: rest => '(n, s1) ← f s id; '(m, s2) ← each_device f s1 rest; Ok ((n + m)%nat, s2)
  end.
Definition repo_bulk_assign_fleet (s : ProvisionStore) (tenant : string) (ids : list string) (fleet : option Z)
    (updated_at : NaiveDateTime) :=
  commit_devices s (each_device (assign_fleet tenant fleet updated_at) s (sorted_set ids)).
End writes.

(** ** Deleting *)
Definition owned_by (tenant device : string) (o : string * string) : bool := (o.1 =s? tenant) && (o.2 =s? device).
(** DELETE FROM device_contract_assignments and FROM device_events (whose samples cascade). *)
Definition delete_children (s : ProvisionStore) (tenant id : string) : ProvisionStore :=
  let s1 := set_assignments s (delete (tenant, id) (ps_assignments s)) in
  set_dependents s1 (filter (fun e => negb (owned_by tenant id e.2 && bool_decide (e.1.1 = Event \/ e.1.1 = Sample)) = true)
                       (ps_dependents s1)).
(** DELETE FROM devices: the rows that refer to it cascade, or refuse it. *)
Definition blocked (s : ProvisionStore) (tenant id : string) : bool :=
  existsb (fun e : Dependent * string * (string * string) => negb (cascades e.1.1) && owned_by tenant id e.2)
    (map_to_list (ps_dependents s)).
Definition remove_device (s : ProvisionStore) (tenant id : string) : ProvisionStore :=
  {| ps_blueprints := ps_blueprints s; ps_fleets := ps_fleets s; ps_devices := delete id (ps_devices s);
     ps_shadows := delete (tenant, id) (ps_shadows s);
     ps_certificates := filter (fun e => negb (owned_by tenant id (ce_tenant e.2, ce_device e.2)) = true) (ps_certificates s);
     ps_cas := ps_cas s;
     ps_contracts := filter (fun e => negb (owned_by tenant id (kr_tenant e.2, kr_device e.2)) = true) (ps_contracts s);
     ps_assignments := delete (tenant, id) (ps_assignments s);
     ps_configs := delete (tenant, id) (ps_configs s);
     ps_dependents := filter (fun e => negb (owned_by tenant id e.2) = true) (ps_dependents s) |}.
Definition delete_device_in (tenant : string) (s : ProvisionStore) (id : string)
    : result PersistenceError (nat * ProvisionStore) :=
  let s1 := delete_children s tenant id in
  match device_row s1 tenant id with
  | None => Ok (0%nat, s1)
  | Some _ => if blocked s1 tenant id then Err foreign_key_violation else Ok (1%nat, remove_device s1 tenant id)
  end.
Definition repo_bulk_delete (s : ProvisionStore) (tenant : string) (ids : list string) :=
  commit_devices s (each_device (delete_device_in tenant) s (sorted_set ids)).
Definition repo_delete (s : ProvisionStore) (tenant id : string) : result PersistenceError bool * ProvisionStore :=
  let r := repo_bulk_delete s tenant [id] in ((fun n => bool_decide (n = 1%nat)) <$> r.1, r.2).

(** ** Fleets (fleets.rs) *)
Definition fleet_name_taken (s : ProvisionStore) (tenant name : string) (except : option Z) : bool :=
  existsb (fun e : Z * FleetRow => (fl_tenant e.2 =s? tenant) && (fl_name e.2 =s? name)
             && negb (bool_decide (except = Some e.1))) (map_to_list (ps_fleets s)).
Definition read_fleet (id : Z) (name : string) : result PersistenceError FleetRecord :=
  fid ← narrow_i32 id "fleets.id"; Ok {| fr_id := fid; fr_name := name |}.
(** The statements run on the writer without a transaction, so an INSERT stays
    although its row cannot be read. *)
Definition repo_create_fleet (s : ProvisionStore) (tenant name : string) (now : Z)
    : result PersistenceError FleetRecord * ProvisionStore :=
  if fleet_name_taken s tenant name None then (Err unique_violation, s)
  else if negb (bool_decide (tenant ∈ bs_orgs (ps_blueprints s))) then (Err foreign_key_violation, s)
  else let id := next_rowid (ps_fleets s) in
       (read_fleet id name, set_fleets s (<[id := {| fl_tenant := tenant; fl_name := name; fl_created := now |}]> (ps_fleets s))).
Definition fleet_row (s : ProvisionStore) (tenant : string) (id : Z) : option FleetRow :=
  f ← ps_fleets s !! id; if fl_tenant f =s? tenant then Some f else None.
Definition repo_rename_fleet (s : ProvisionStore) (tenant : string) (id : Z) (name : string)
    : result PersistenceError (option FleetRecord) * ProvisionStore :=
  match fleet_row s tenant id with
  | None => (Ok None, s)
  | Some f =>
    if fleet_name_taken s tenant name (Some id) then (Err unique_violation, s)
    else (Some <$> read_fleet id name,
          set_fleets s (<[id := {| fl_tenant := tenant; fl_name := name; fl_created := fl_created f |}]> (ps_fleets s)))
  end.
Definition fleet_used (s : ProvisionStore) (tenant : string) (id : Z) : bool :=
  existsb (fun e : string * DeviceRow => (pd_tenant e.2 =s? tenant) && bool_decide (pd_fleet e.2 = Some id))
    (map_to_list (ps_devices s)).
Definition repo_delete_fleet (s : ProvisionStore) (tenant : string) (id : Z) : result PersistenceError bool * ProvisionStore :=
  match fleet_row s tenant id with
  | None => (Ok false, s)
  | Some _ => if fleet_used s tenant id then (Err foreign_key_violation, s)
              else (Ok true, set_fleets s (delete id (ps_fleets s)))
  end.
Definition fleet_le (a b : Z * FleetRow) : Prop :=
  match String.compare (fl_name a.2) (fl_name b.2) with Lt => True | Gt => False | Eq => a.1 <= b.1 end.
#[global] Instance fleet_le_dec a b : Decision (fleet_le a b).
Proof. unfold fleet_le. case_match; apply _. Defined.
Definition device_count (s : ProvisionStore) (tenant : string) (id : Z) : Z :=
  Z.of_nat (length (List.filter (fun e : string * DeviceRow =>
    (pd_tenant e.2 =s? tenant) && bool_decide (pd_fleet e.2 = Some id)) (map_to_list (ps_devices s)))).
Definition repo_list_fleets (s : ProvisionStore) (tenant : string) (limit offset : Z)
    : result PersistenceError (list FleetSummary * Z) :=
  let own := List.filter (fun e : Z * FleetRow => fl_tenant e.2 =s? tenant) (map_to_list (ps_fleets s)) in
  records ← mapM (fun e : Z * FleetRow => f ← read_fleet e.1 (fl_name e.2);
                    Ok {| fs_fleet := f; fs_device_count := device_count s tenant e.1 |})
              (sql_page limit offset (merge_sort fleet_le own));
  Ok (records, Z.of_nat (length own)).

(** ** Selecting devices

    LIKE, without regard to the case of ASCII letters: [%] is any text, [_] one character. *)
Fixpoint skip_continuation (t : string) : string :=
  match t with String c r => if Text.between 128 191 (code c) then skip_continuation r else t | EmptyString => t end.
Fixpoint like (pattern : string) : string -> bool :=
  match pattern with
  | EmptyString => fun t => t =s? ""
  | String "%"%char p => fix any t := like p t || match t with String _ r => any r | EmptyString => false end
  | String "_"%char p => fun t => match t with String _ r => like p (skip_continuation r) | EmptyString => false end
  | String c p => fun t =>
    match t with
    | String d r => Ascii.eqb (to_ascii_lowercase c) (to_ascii_lowercase d) && like p r
    | EmptyString => false
    end
  end.
Definition optional {A} (o : option A) (test : A -> bool) : bool := match o with Some a => test a | None => true end.
Definition passes (f : DeviceFilter) (j : JoinedDevice) : bool :=
  let d := jd_device j in
  optional (ft_status f) (fun v => pd_status d =s? v)
  && optional (ft_search f) (fun v => let p := "%" +:+ str_map to_ascii_lowercase v +:+ "%" in
       like p (str_map to_ascii_lowercase (pd_name d)) || like p (str_map to_ascii_lowercase (bp_name (jd_blueprint j))))
  && optional (ft_fleet_id f) (fun v => bool_decide (pd_fleet d = Some v)).
Definition joined_devices (s : ProvisionStore) (tenant : string) : list JoinedDevice :=
  omap (fun e : string * DeviceRow => if pd_tenant e.2 =s? tenant then join_device s e.1 e.2 else None)
    (map_to_list (ps_devices s)).
Definition str_cmp_le (a b : string) : Prop := match String.compare a b with Gt => False | _ => True end.
Definition device_name_le (a b : JoinedDevice) : Prop :=
  match String.compare (pd_name (jd_device a)) (pd_name (jd_device b)) with
  | Lt => True | Gt => False | Eq => str_cmp_le (jd_id a) (jd_id b)
  end.
#[global] Instance device_name_le_dec a b : Decision (device_name_le a b).
Proof. unfold device_name_le, str_cmp_le. repeat case_match; apply _. Defined.
Definition repo_resolve_ids (s : ProvisionStore) (tenant : string) (f : DeviceFilter) : list string :=
  map jd_id (merge_sort device_name_le (List.filter (passes f) (joined_devices s tenant))).

(** ** The listing of devices *)
Record DeviceListQuery := {
  dq_filter : DeviceFilter; dq_sort_by : option string; dq_sort_dir : option string; dq_limit : Z; dq_offset : Z;
}.
Inductive SortColumn := ByName | ByStatus | ByLastSeen | ByUptime.
Definition sort_column (o : option string) : SortColumn :=
  match o with
  | Some v => if v =s? "status" then ByStatus else if v =s? "last_seen" then ByLastSeen
              else if v =s? "uptime" then ByUptime else ByName
  | None => ByName
  end.
(** Two non-NULL columns, or two NULLs; a NULL [last_seen] comes last in either direction. *)
Definition compare_column (c : SortColumn) (a b : DeviceRow) : comparison :=
  match c with
  | ByName => String.compare (pd_name a) (pd_name b)
  | ByStatus => String.compare (pd_status a) (pd_status b)
  | ByLastSeen => match pd_last_seen a, pd_last_seen b with Some x, Some y => x ?= y | _, _ => Eq end
  | ByUptime => pd_uptime a ?= pd_uptime b
  end.
Definition null_rank (c : SortColumn) (a : DeviceRow) : Z :=
  match c, pd_last_seen a with ByLastSeen, None => 1 | _, _ => 0 end.
Definition listed_le (c : SortColumn) (descending : bool) (a b : JoinedDevice) : Prop :=
  match null_rank c (jd_device a) ?= null_rank c (jd_device b) with
  | Lt => True
  | Gt => False
  | Eq => match (if descending then CompOpp (compare_column c (jd_device a) (jd_device b))
                 else compare_column c (jd_device a) (jd_device b)) with
          | Lt => True | Gt => False | Eq => str_cmp_le (jd_id a) (jd_id b)
          end
  end.
#[global] Instance listed_le_dec c d a b : Decision (listed_le c d a b).
Proof. unfold listed_le, str_cmp_le. repeat case_match; apply _. Defined.
Section listing.
Context `{!ChronoMicros, !SerdeJson, !JsonExtract}.
Definition repo_list_devices (s : ProvisionStore) (tenant : string) (q : DeviceListQuery)
    : result PersistenceError (list DeviceDetails * Z) :=
  let rows := List.filter (passes (dq_filter q)) (joined_devices s tenant) in
  let descending := bool_decide (dq_sort_dir q = Some "desc") in
  records ← mapM decode_details
    (sql_page (dq_limit q) (dq_offset q) (merge_sort (listed_le (sort_column (dq_sort_by q)) descending) rows));
  Ok (records, Z.of_nat (length rows)).
End listing.

(** ** Certificates (certificates.rs) *)
Record DeviceCertificateRecord := {
  dk_id : Z; dk_device_id : string; dk_private_key_pem : string; dk_certificate_pem : string; dk_fingerprint : string;
  dk_expires_at : NaiveDateTime; dk_created_at : NaiveDateTime;
}.
Record NewCaCertificateRecord := { nk_private_key_pem : string; nk_certificate_pem : string }.
Inductive StoredPrivateKeyRecord := StoredCa (id : Z) (value : string) | StoredDevice (tenant : string) (id : Z) (value : string).
Inductive CertificateMaterialOutcome :=
| MaterialFound (device : DeviceCertificateRecord) (ca : CaCertificateRecord)
| MaterialDeviceNotFound | CertificateNotFound | CaNotFound.
Inductive CertificateStatusOutcome := StatusFound (c : option DeviceCertificateRecord) | StatusDeviceNotFound.
Inductive ReplaceCertificateOutcome := Replaced (c : DeviceCertificateRecord) | ReplaceDeviceNotFound.

(** ORDER BY id DESC LIMIT 1. *)
Definition newest {A} (l : list (Z * A)) : option (Z * A) :=
  fold_right (fun e best => match best with Some b => if e.1 <? b.1 then Some b else Some e | None => Some e end) None l.
Definition certificate_exists (s : ProvisionStore) (tenant device : string) : bool :=
  bool_decide (is_Some (device_row s tenant device)).
Section certificates.
Context `{!ChronoMicros}.
Definition decode_ca (e : Z * CaRow) : result PersistenceError CaCertificateRecord :=
  id ← narrow_i32 e.1 "ca_certificates.id";
  created ← datetime (ca_created e.2);
  Ok {| cc_id := id; cc_private_key_pem := ca_private_key e.2; cc_certificate_pem := ca_certificate e.2;
        cc_created_at := created |}.
Definition decode_certificate (e : Z * CertificateRow) : result PersistenceError DeviceCertificateRecord :=
  id ← narrow_i32 e.1 "device_certificates.id";
  expires ← datetime (ce_expires e.2);
  created ← datetime (ce_created e.2);
  Ok {| dk_id := id; dk_device_id := ce_device e.2; dk_private_key_pem := ce_private_key e.2;
        dk_certificate_pem := ce_certificate e.2; dk_fingerprint := ce_fingerprint e.2; dk_expires_at := expires;
        dk_created_at := created |}.
Definition get_ca (s : ProvisionStore) : result PersistenceError (option CaCertificateRecord) :=
  read_some decode_ca (newest (map_to_list (ps_cas s))).
Definition device_certificates (s : ProvisionStore) (tenant device : string) : list (Z * CertificateRow) :=
  List.filter (fun e : Z * CertificateRow => owned_by tenant device (ce_tenant e.2, ce_device e.2))
    (map_to_list (ps_certificates s)).
Definition certificate_from (s : ProvisionStore) (tenant device : string)
    : result PersistenceError (option DeviceCertificateRecord) :=
  read_some decode_certificate (newest (device_certificates s tenant device)).
Definition insert_ca_if_absent (s : ProvisionStore) (r : NewCaCertificateRecord) (now : Z)
    : result PersistenceError CaCertificateRecord * ProvisionStore :=
  commit_devices s (existing ← get_ca s;
    match existing with
    | Some ca => Ok (ca, s)
    | None =>
      let row := {| ca_private_key := nk_private_key_pem r; ca_certificate := nk_certificate_pem r; ca_created := now |} in
      let id := next_rowid (ps_cas s) in
      ca ← decode_ca (id, row); Ok (ca, set_cas s (<[id := row]> (ps_cas s)))
    end).
Definition list_stored_private_keys (s : ProvisionStore) : result PersistenceError (list StoredPrivateKeyRecord) :=
  cas ← mapM (fun e : Z * CaRow => id ← narrow_i32 e.1 "ca_certificates.id"; Ok (StoredCa id (ca_private_key e.2)))
          (map_to_list (ps_cas s));
  devices ← mapM (fun e : Z * CertificateRow => id ← narrow_i32 e.1 "device_certificates.id";
                    Ok (StoredDevice (ce_tenant e.2) id (ce_private_key e.2)))
              (List.filter (fun e : Z * CertificateRow => ce_private_key e.2 !=s "") (map_to_list (ps_certificates s)));
  Ok (cas ++ devices).
Definition replace_ca_private_key_if_matches (s : ProvisionStore) (id : Z) (expected replacement : string) : bool * ProvisionStore :=
  match ps_cas s !! id with
  | Some c =>
    if ca_private_key c =s? expected
    then (true, set_cas s (<[id := {| ca_private_key := replacement; ca_certificate := ca_certificate c;
                                      ca_created := ca_created c |}]> (ps_cas s)))
    else (false, s)
  | None => (false, s)
  end.
Definition with_key (c : CertificateRow) (key : string) : CertificateRow :=
  {| ce_tenant := ce_tenant c; ce_device := ce_device c; ce_private_key := key; ce_certificate := ce_certificate c;
     ce_fingerprint := ce_fingerprint c; ce_expires := ce_expires c; ce_created := ce_created c |}.
Definition replace_device_private_key_if_matches (s : ProvisionStore) (tenant : string) (id : Z) (expected replacement : string)
    : bool * ProvisionStore :=
  match ps_certificates s !! id with
  | Some c =>
    if (ce_tenant c =s? tenant) && (ce_private_key c =s? expected)
    then (true, set_certificates s (<[id := with_key c replacement]> (ps_certificates s)))
    else (false, s)
  | None => (false, s)
  end.
Definition consume_private_key (s : ProvisionStore) (tenant : string) (id : Z) (expected : string) : bool * ProvisionStore :=
  replace_device_private_key_if_matches s tenant id expected "".
Definition get_download_material (s : ProvisionStore) (tenant device : string) : result PersistenceError CertificateMaterialOutcome :=
  if negb (certificate_exists s tenant device) then Ok MaterialDeviceNotFound else
  found ← certificate_from s tenant device;
  match found with
  | None => Ok CertificateNotFound
  | Some cert =>
    ca ← get_ca s;
    Ok (match ca with Some ca => MaterialFound cert ca | None => CaNotFound end)
  end.
Definition get_status (s : ProvisionStore) (tenant device : string) : result PersistenceError CertificateStatusOutcome :=
  if negb (certificate_exists s tenant device) then Ok StatusDeviceNotFound
  else StatusFound <$> certificate_from s tenant device.
(** The new key is consumed in the transaction that stores it. *)
Definition replace_certificate_in (s : ProvisionStore) (tenant : string) (c : NewDeviceCertificateRecord) (now : Z)
    : result PersistenceError (ReplaceCertificateOutcome * ProvisionStore) :=
  let device := nd_device_id c in
  if negb (certificate_exists s tenant device) then Ok (ReplaceDeviceNotFound, s) else
  let s1 := set_certificates s (filter (fun e => negb (owned_by tenant device (ce_tenant e.2, ce_device e.2)) = true)
                                  (ps_certificates s)) in
  '(id, s2) ← insert_certificate s1 tenant device c now;
  row ← ok_or (ps_certificates s2 !! id) PNotFound;
  record ← decode_certificate (id, row);
  Ok (Replaced record, set_certificates s2 (<[id := with_key row ""]> (ps_certificates s2))).
Definition replace_device_certificate (s : ProvisionStore) (tenant : string) (c : NewDeviceCertificateRecord) (now : Z) :=
  commit_devices s (replace_certificate_in s tenant c now).
Definition list_active_device_ids (s : ProvisionStore) (active_at : NaiveDateTime) : list string :=
  sorted_set (map (fun e : Z * CertificateRow => ce_device e.2)
    (List.filter (fun e : Z * CertificateRow => timestamp_micros active_at <? ce_expires e.2)
       (map_to_list (ps_certificates s)))).
End certificates.

(** ** Lemmas *)
Lemma insert_certificate_ok s tenant device c now id s' :
  insert_certificate s tenant device c now = Ok (id, s') ->
  exists row, ps_certificates s !! id = None /\ s' = set_certificates s (<[id := row]> (ps_certificates s))
    /\ ce_tenant row = tenant /\ ce_device row = device /\ ce_private_key row = nd_private_key_pem c
    /\ ce_fingerprint row = nd_fingerprint c.
Proof.
  unfold insert_certificate. destruct (fingerprint_taken _ _ _); [done|]. intros [= <- <-].
  eexists. split_and!; [apply next_rowid_fresh|done..].
Qed.
Lemma each_device_ind (P : ProvisionStore -> nat -> ProvisionStore -> Prop) f :
  (forall s, P s 0%nat s) ->
  (forall s id n s1 m s2, f s id = Ok (n, s1) -> P s1 m s2 -> P s (n + m)%nat s2) ->
  forall ids s n s', each_device f s ids = Ok (n, s') -> P s n s'.
Proof.
  intros H0 Hs. induction ids as [|id ids IH]; intros s n s' H; [injection H as <- <-; done|].
  simpl in H. apply bind_ok in H as ([a s1] & Ha & H). apply bind_ok in H as ([b s2] & Hb & [= <- <-]).
  apply (Hs s id a s1 b s2 Ha). by apply IH.
Qed.
(** A key is replaced only in the row that still holds the expected one. *)
Lemma replace_key_cases s tenant id expected key :
  let r := replace_device_private_key_if_matches s tenant id expected key in
  (r = (false, s))
  \/ exists row, ps_certificates s !! id = Some row /\ ce_tenant row = tenant /\ ce_private_key row = expected
       /\ r = (true, set_certificates s (<[id := with_key row key]> (ps_certificates s))).
Proof.
  cbv zeta. unfold replace_device_private_key_if_matches. destruct (ps_certificates s !! id) as [row|]; [|by left].
  destruct (_ && _) eqn:E; [|by left]. apply andb_true_iff in E as [E1%String.eqb_eq E2%String.eqb_eq]. right. by exists row.
Qed.

(** The rows a creation adds. *)
Section creation.
Context {micros : ChronoMicros} {codec : SerdeJson} {extract : JsonExtract}.
Definition new_device (tenant : string) (r : CreateDeviceRecord) (now : Z) : DeviceRow :=
  {| pd_tenant := tenant; pd_name := cd_name r; pd_fleet := cd_fleet_id r; pd_status := "offline";
     pd_firmware := cd_firmware r; pd_last_seen := None; pd_uptime := 0; pd_connections := "[]";
     pd_created := now; pd_updated := now |}.
Record created (s : ProvisionStore) (tenant : string) (r : CreateDeviceRecord)
    (certificate : option NewDeviceCertificateRecord) (now : Z) (s' : ProvisionStore) : Prop := {
  cr_blueprints : ps_blueprints s' = ps_blueprints s;
  cr_fleets : ps_fleets s' = ps_fleets s;
  cr_cas : ps_cas s' = ps_cas s;
  cr_dependents : ps_dependents s' = ps_dependents s;
  cr_fresh : ps_devices s !! cd_id r = None;
  cr_fleet : fleet_key s tenant (cd_fleet_id r) = true;
  cr_org : tenant ∈ bs_orgs (ps_blueprints s);
  cr_devices : ps_devices s' = <[cd_id r := new_device tenant r now]> (ps_devices s);
  cr_shadows : ps_shadows s' = <[(tenant, cd_id r) := {| row_desired := "{}"; row_reported := "{}"; row_delta := "{}";
                                   row_version := 1; row_updated_at := now |}]> (ps_shadows s);
  cr_certificates : match certificate with
    | None => ps_certificates s' = ps_certificates s
    | Some c => exists id row, ps_certificates s !! id = None /\ ps_certificates s' = <[id := row]> (ps_certificates s)
        /\ ce_tenant row = tenant /\ ce_device row = cd_id r /\ ce_private_key row = nd_private_key_pem c
        /\ ce_fingerprint row = nd_fingerprint c
    end;
  cr_contracts : exists document, to_string (nc_document (cd_contract r)) = Ok document
    /\ ps_contracts s !! nc_id (cd_contract r) = None
    /\ revision_key s tenant (nc_blueprint_revision_id (cd_contract r)) = true
    /\ ps_contracts s' = <[nc_id (cd_contract r) :=
         {| kr_tenant := tenant; kr_device := cd_id r; kr_revision := nc_blueprint_revision_id (cd_contract r);
            kr_document := document; kr_hash := nc_contract_hash (cd_contract r);
            kr_created_at := timestamp_micros (nc_created_at (cd_contract r)) |}]> (ps_contracts s);
  cr_assignments : ps_assignments s' = <[(tenant, cd_id r) :=
    {| as_desired := nc_id (cd_contract r); as_active := None; as_status := "pending"; as_acknowledged_at := None;
       as_error := None; as_updated_at := timestamp_micros (nc_created_at (cd_contract r)) |}]> (ps_assignments s);
  cr_configs : match nc_initial_configuration (cd_contract r) with
    | None => ps_configs s' = ps_configs s
    | Some v => exists text, to_string v = Ok text /\ ps_configs s' = <[(tenant, cd_id r) := (text, now)]> (ps_configs s)
    end;
}.
Lemma insert_certificates_ok s tenant device certificate now s' :
  match certificate with
  | Some c => '(_, s') ← insert_certificate s tenant device c now; Ok s'
  | None => Ok s
  end = Ok s' ->
  exists certs, s' = set_certificates s certs
    /\ match certificate with
       | None => certs = ps_certificates s
       | Some c => exists id row, ps_certificates s !! id = None /\ certs = <[id := row]> (ps_certificates s)
           /\ ce_tenant row = tenant /\ ce_device row = device /\ ce_private_key row = nd_private_key_pem c
           /\ ce_fingerprint row = nd_fingerprint c
       end.
Proof.
  destruct certificate as [c|]; [|intros [= <-]; exists (ps_certificates s); by destruct s].
  intros ([id sc] & (row & Hid & -> & ?)%insert_certificate_ok & [= <-])%bind_ok. eexists. split; [done|]. by exists id, row.
Qed.
Lemma insert_config_ok s tenant device config now s' :
  insert_config s tenant device config now = Ok s' ->
  exists configs, s' = set_configs s configs
    /\ match config with
       | None => configs = ps_configs s
       | Some v => exists text, to_string v = Ok text /\ configs = <[(tenant, device) := (text, now)]> (ps_configs s)
       end.
Proof.
  destruct config as [v|]; [|intros [= <-]; exists (ps_configs s); by destruct s].
  simpl. intros (text & Ht%map_err_inv & H)%bind_ok. destruct (bool_decide _) in H; [done|]. injection H as <-.
  eexists. split; [done|]. by exists text.
Qed.
Lemma create_device_ok s tenant r certificate now details s' :
  create_device_in s tenant r certificate now = Ok (details, s') ->
  created s tenant r certificate now s' /\ details_from s' tenant (cd_id r) = Ok (Some details).
Proof.
  unfold create_device_in. intros H. apply bind_ok in H as (s1 & H1 & H). apply bind_ok in H as (s2 & H2 & H).
  apply bind_ok in H as (s3 & H3 & H). apply bind_ok in H as (s4 & H4 & H). apply bind_ok in H as (s5 & H5 & H).
  apply bind_ok in H as (s6 & H6 & H). apply bind_ok in H as (found & Hf & H).
  apply bind_ok in H as (d & ->%ok_or_ok & [= -> <-]). split; [|done].
  unfold insert_device in H1. destruct (bool_decide _) eqn:E1 in H1; [done|]. apply bool_decide_eq_false, eq_None_not_Some in E1.
  destruct (negb _) eqn:E2 in H1; [done|]. injection H1 as <-. apply negb_false_iff, andb_true_iff in E2 as [E2 E3].
  apply bool_decide_eq_true in E2.
  unfold insert_shadow in H2. destruct (bool_decide _) in H2; [done|]. injection H2 as <-.
  unfold insert_contract in H4. apply bind_ok in H4 as (document & Hdoc%map_err_inv & H4).
  destruct (negb _) in H4; [done|]. destruct (_ || _) eqn:E4 in H4; [done|]. destruct (negb _) eqn:E5 in H4; [done|].
  injection H4 as <-. apply orb_false_iff in E4 as [E4 _]. apply bool_decide_eq_false, eq_None_not_Some in E4.
  apply negb_false_iff in E5.
  unfold insert_assignment in H5. destruct (bool_decide _) in H5; [done|]. injection H5 as <-.
  apply insert_certificates_ok in H3 as (certs & -> & Hcerts). apply insert_config_ok in H6 as (configs & -> & Hconfigs).
  split; simpl; try done. by exists document.
Qed.
End creation.
