(* ===== verification/Certificates.v ===== *)
(** * Device certificates (crates/backend-core/src/application/certificates.rs,
    certificate_system.rs)

    A device's private key is stored until it is downloaded once; regenerating
    a certificate returns the new key and stores none; maintenance encrypts the
    stored keys.  A download reads the key in one state of the store and
    consumes it in a later one, with any other work between. *)
From S2P Require Import Prelude Text BTree Json Errors Access RuleTypes Shadows RuleSnapshot EventStore RuleAdminStore.
From S2P Require Import BlueprintStore Blueprints ProvisionStore.
From stdpp Require Import relations.

Local Open Scope Z_scope.

Record CertBundle := { cu_device_cert : DeviceCertificateRecord; cu_ca_cert_pem : string; cu_private_key_pem : option string }.
(** [KeyProtector]; [protect] draws a nonce. *)
Class KeyProtector := {
  protector_enabled : bool;
  is_protected : string -> bool;
  protect : string -> string -> result ApplicationError string;
  unprotect : string -> result ApplicationError string;
}.
Definition device_missing (id : string) : ApplicationError := NotFound ("Device '" +:+ id +:+ "' not found").
Definition ca_missing : ApplicationError := Internal "CA certificate not found".

Section application.
Context `{!ChronoMicros, !KeyProtector}.

(** ** Tenant operations

    What the issuer generates for a device is an argument. *)
Definition prepare_device (s : ProvisionStore) (ctx : TenantContext)
    (generate : CaCertificateRecord -> result ApplicationError NewDeviceCertificateRecord)
    : result ApplicationError (option NewDeviceCertificateRecord) :=
  _ ← require_permission ctx ManageDevices;
  found ← map_err Persistence (get_ca s);
  match found with Some ca => Some <$> generate ca | None => Ok None end.
Definition download_material (s : ProvisionStore) (ctx : TenantContext) (device : string)
    : result ApplicationError (DeviceCertificateRecord * CaCertificateRecord) :=
  _ ← require_permission ctx ManageDevices;
  found ← map_err Persistence (get_download_material s (ctx_tenant ctx) device);
  match found with
  | MaterialFound cert ca => Ok (cert, ca)
  | MaterialDeviceNotFound => Err (device_missing device)
  | CertificateNotFound => Err (NotFound ("No certificate found for device '" +:+ device +:+ "'"))
  | CaNotFound => Err ca_missing
  end.
(** [get_device_certificate_bundle]: reads in [s_read], consumes in [s]. *)
Definition download (s_read s : ProvisionStore) (ctx : TenantContext) (device : string)
    : result ApplicationError CertBundle * ProvisionStore :=
  match download_material s_read ctx device with
  | Err e => (Err e, s)
  | Ok (cert, ca) =>
    let bundle key := {| cu_device_cert := cert; cu_ca_cert_pem := cc_certificate_pem ca; cu_private_key_pem := key |} in
    if dk_private_key_pem cert =s? "" then (Ok (bundle None), s)
    else match unprotect (dk_private_key_pem cert) with
         | Err e => (Err e, s)
         | Ok key =>
           let w := consume_private_key s (ctx_tenant ctx) (dk_id cert) (dk_private_key_pem cert) in
           (Ok (bundle (if w.1 : bool then Some key else None)), w.2)
         end
  end.
Definition certificate_status (s : ProvisionStore) (ctx : TenantContext) (device : string)
    : result ApplicationError (option DeviceCertificateRecord) :=
  _ ← require_permission ctx ReadDevices;
  found ← map_err Persistence (get_status s (ctx_tenant ctx) device);
  match found with StatusFound c => Ok c | StatusDeviceNotFound => Err (device_missing device) end.
Definition ca_for_request (s : ProvisionStore) (ctx : TenantContext) : result ApplicationError (option CaCertificateRecord) :=
  _ ← require_permission ctx ReadDevices; map_err Persistence (get_ca s).
Definition regenerate_material (s : ProvisionStore) (ctx : TenantContext)
    (generate : CaCertificateRecord -> result ApplicationError NewDeviceCertificateRecord)
    : result ApplicationError (CaCertificateRecord * NewDeviceCertificateRecord * string) :=
  _ ← require_permission ctx ManageDevices;
  found ← map_err Persistence (get_ca s);
  ca ← ok_or found ca_missing;
  new_cert ← generate ca;
  key ← unprotect (nd_private_key_pem new_cert);
  Ok (ca, new_cert, key).
Definition regenerate (s_ca s : ProvisionStore) (ctx : TenantContext) (device : string)
    (generate : CaCertificateRecord -> result ApplicationError NewDeviceCertificateRecord) (now : Z)
    : result ApplicationError CertBundle * ProvisionStore :=
  match regenerate_material s_ca ctx generate with
  | Err e => (Err e, s)
  | Ok (ca, new_cert, key) =>
    let w := replace_device_certificate s (ctx_tenant ctx) new_cert now in
    (outcome ← map_err Persistence w.1;
     match outcome with
     | Replaced cert => Ok {| cu_device_cert := cert; cu_ca_cert_pem := cc_certificate_pem ca; cu_private_key_pem := Some key |}
     | ReplaceDeviceNotFound => Err (device_missing device)
     end, w.2)
  end.

(** ** System operations *)
Definition initialize_ca (s : ProvisionStore) (material : result ApplicationError NewCaCertificateRecord) (now : Z)
    : result ApplicationError bool * ProvisionStore :=
  match map_err Persistence (get_ca s) with
  | Err e => (Err e, s)
  | Ok (Some _) => (Ok false, s)
  | Ok None =>
    match material with
    | Err e => (Err e, s)
    | Ok m => let w := insert_ca_if_absent s m now in (_ ← map_err Persistence w.1; Ok true, w.2)
    end
  end.
Definition active_device_ids (s : ProvisionStore) (now : NaiveDateTime) : list string := list_active_device_ids s now.
(** One iteration of the loop of [encrypt_stored_private_keys]. *)
Definition encrypt_one (s : ProvisionStore) (r : StoredPrivateKeyRecord) (nonce : string)
    : result ApplicationError unit * ProvisionStore :=
  match r with
  | StoredCa id value =>
    if is_protected value then (Ok tt, s)
    else match protect value nonce with
         | Ok p => (Ok tt, (replace_ca_private_key_if_matches s id value p).2)
         | Err e => (Err e, s)
         end
  | StoredDevice tenant id value =>
    if is_protected value then (Ok tt, s)
    else match protect value nonce with
         | Ok p => (Ok tt, (replace_device_private_key_if_matches s tenant id value p).2)
         | Err e => (Err e, s)
         end
  end.
Fixpoint encrypt_each (s : ProvisionStore) (rs : list StoredPrivateKeyRecord) (nonces : nat -> string)
    : result ApplicationError unit * ProvisionStore :=
  match rs with
  | [] => (Ok tt, s)
  | r :: rest =>
    match encrypt_one s r (nonces 0%nat) with
    | (Ok _, s') => encrypt_each s' rest (fun n => nonces (S n))
    | failed => failed
    end
  end.
Definition encrypt_stored_private_keys (s : ProvisionStore) (nonces : nat -> string) : result ApplicationError unit * ProvisionStore :=
  if negb protector_enabled then (Ok tt, s)
  else match map_err Persistence (list_stored_private_keys s) with
       | Ok rs => encrypt_each s rs nonces
       | Err e => (Err e, s)
       end.
End application.

(** ** Histories of private keys

    Ghost state: the earlier stores, the certificate every stored key text
    belongs to, the issued fingerprints, and the fingerprints whose private
    key was handed out. *)
Record KeyHistory := {
  kh_store : ProvisionStore;
  kh_past : list ProvisionStore;
  kh_owner : gmap string string;
  kh_issued : gset string;
  kh_handed : list string;
}.
Definition handed_by (r : result ApplicationError CertBundle) : list string :=
  match r with
  | Ok b => match cu_private_key_pem b with Some _ => [dk_fingerprint (cu_device_cert b)] | None => [] end
  | Err _ => []
  end.
(** The issuer's key pairs and the protector's nonces are fresh. *)
Definition fresh_certificate (h : KeyHistory) (c : NewDeviceCertificateRecord) : Prop :=
  (nd_fingerprint c ∉ kh_issued h) /\ nd_private_key_pem c <> "" /\ kh_owner h !! nd_private_key_pem c = None.
Definition advance (h : KeyHistory) (s : ProvisionStore) (owner : gmap string string) (issued : gset string)
    (handed : list string) : KeyHistory :=
  {| kh_store := s; kh_past := kh_store h :: kh_past h; kh_owner := owner; kh_issued := issued;
     kh_handed := handed ++ kh_handed h |}.
Section histories.
Context {micros : ChronoMicros} {codec : SerdeJson} {extract : JsonExtract} {protector : KeyProtector}.
Inductive key_step (h : KeyHistory) : KeyHistory -> Prop :=
| key_download s_read ctx device :
    s_read ∈ kh_store h :: kh_past h ->
    let r := download s_read (kh_store h) ctx device in
    key_step h (advance h r.2 (kh_owner h) (kh_issued h) (handed_by r.1))
| key_regenerate s_ca ctx device generate now :
    (forall ca c key, regenerate_material s_ca ctx generate = Ok (ca, c, key) -> fresh_certificate h c) ->
    let r := regenerate s_ca (kh_store h) ctx device generate now in
    key_step h (advance h r.2 (kh_owner h)
                  (match regenerate_material s_ca ctx generate with Ok (_, c, _) => {[nd_fingerprint c]} | Err _ => ∅ end
                   ∪ kh_issued h) (handed_by r.1))
| key_create tenant record certificate now :
    (forall c, certificate = Some c -> fresh_certificate h c) ->
    let r := repo_create_device (kh_store h) tenant record certificate now in
    key_step h (advance h r.2
      (match certificate with Some c => <[nd_private_key_pem c := nd_fingerprint c]> (kh_owner h) | None => kh_owner h end)
      (match certificate with Some c => {[nd_fingerprint c]} | None => ∅ end ∪ kh_issued h) [])
| key_encrypt tenant id row nonce s_list :
    s_list ∈ kh_store h :: kh_past h -> ps_certificates s_list !! id = Some row -> ce_private_key row <> "" ->
    (forall p, protect (ce_private_key row) nonce = Ok p -> p <> "" /\ kh_owner h !! p = None) ->
    let value := ce_private_key row in
    let r := encrypt_one (kh_store h) (StoredDevice tenant id value) nonce in
    key_step h (advance h r.2
      (match protect value nonce with Ok p => <[p := ce_fingerprint row]> (kh_owner h) | Err _ => kh_owner h end)
      (kh_issued h) [])
| key_delete tenant ids :
    key_step h (advance h (repo_bulk_delete (kh_store h) tenant ids).2 (kh_owner h) (kh_issued h) [])
| key_other s' :
    ps_certificates s' = ps_certificates (kh_store h) ->
    key_step h (advance h s' (kh_owner h) (kh_issued h) []).
Definition key_start (s : ProvisionStore) : KeyHistory :=
  {| kh_store := s; kh_past := []; kh_owner := ∅; kh_issued := ∅; kh_handed := [] |}.

(** ** The invariant *)
Record keys_ok (h : KeyHistory) : Prop := {
  ko_owner : forall s id row, s ∈ kh_store h :: kh_past h -> ps_certificates s !! id = Some row ->
    ce_private_key row <> "" -> kh_owner h !! ce_private_key row = Some (ce_fingerprint row);
  ko_issued : forall id row, ps_certificates (kh_store h) !! id = Some row -> ce_fingerprint row ∈ kh_issued h;
  ko_unique : forall id row id' row', ps_certificates (kh_store h) !! id = Some row ->
    ps_certificates (kh_store h) !! id' = Some row' -> ce_fingerprint row = ce_fingerprint row' -> id = id';
  ko_spent : forall id row, ps_certificates (kh_store h) !! id = Some row -> ce_fingerprint row ∈ kh_handed h ->
    ce_private_key row = "";
  ko_handed : forall f, f ∈ kh_handed h -> f ∈ kh_issued h;
  ko_once : NoDup (kh_handed h);
}.
(** Rows that survive keep their certificate; a row's key is kept or emptied. *)
Definition shrinks (m m' : gmap Z CertificateRow) : Prop :=
  forall id row, m' !! id = Some row -> exists row0, m !! id = Some row0 /\ ce_fingerprint row = ce_fingerprint row0
    /\ (ce_private_key row = ce_private_key row0 \/ ce_private_key row = "").
Lemma shrinks_refl m : shrinks m m.
Proof. intros id row H. exists row. split_and!; auto. Qed.
Lemma shrinks_trans m1 m2 m3 : shrinks m1 m2 -> shrinks m2 m3 -> shrinks m1 m3.
Proof.
  intros H1 H2 id row H. destruct (H2 id row H) as (r2 & Hr2 & E2 & K2). destruct (H1 id r2 Hr2) as (r1 & Hr1 & E1 & K1).
  exists r1. split_and!; [done|congruence|]. destruct K2 as [->|]; [|by right]. done.
Qed.
Lemma shrinks_filter m (P : Z * CertificateRow -> Prop) `{!forall x, Decision (P x)} : shrinks m (filter P m).
Proof. intros id row [Hr _]%map_lookup_filter_Some. exists row. split_and!; auto. Qed.
Lemma shrinks_with_key m id row :
  m !! id = Some row -> shrinks m (<[id := with_key row ""]> m).
Proof.
  intros H i r [[<- <-]|[_ Hr]]%lookup_insert_Some; [exists row|exists r]; simpl; split_and!; auto.
Qed.
Lemma shrink_ok h s' owner issued :
  keys_ok h -> shrinks (ps_certificates (kh_store h)) (ps_certificates s') ->
  kh_owner h ⊆ owner -> kh_issued h ⊆ issued -> keys_ok (advance h s' owner issued []).
Proof.
  intros [H1 H2 H3 H4 H5 H6] Hs Ho Hi. split; simpl; try done.
  - intros s id row Hin Hr Hk. apply (lookup_weaken (kh_owner h)); [|done].
    apply elem_of_cons in Hin as [->|Hin]; [|by apply (H1 s id)].
    destruct (Hs id row Hr) as (r0 & Hr0 & -> & [E|E]); [|done]. rewrite E in Hk |- *.
    apply (H1 (kh_store h) id); [by left|done..].
  - intros id row Hr. destruct (Hs id row Hr) as (r0 & Hr0 & -> & _). apply Hi. by apply (H2 id).
  - intros id row id' row' Hr Hr' E. destruct (Hs _ _ Hr) as (r0 & Hr0 & E0 & _), (Hs _ _ Hr') as (r1 & Hr1 & E1 & _).
    apply (H3 id r0 id' r1); [done..|congruence].
  - intros id row Hr Hf. destruct (Hs id row Hr) as (r0 & Hr0 & E0 & [E|E]); [|done]. rewrite E.
    apply (H4 id); [done|by rewrite <- E0].
  - intros f Hf. by apply Hi, H5.
Qed.
(** A new row, with its key or already spent. *)
Lemma grow_ok h s' id row owner handed :
  keys_ok h -> ps_certificates (kh_store h) !! id = None ->
  ps_certificates s' = <[id := row]> (ps_certificates (kh_store h)) ->
  ce_fingerprint row ∉ kh_issued h -> kh_owner h ⊆ owner ->
  (ce_private_key row <> "" -> owner !! ce_private_key row = Some (ce_fingerprint row)) ->
  (handed = [] \/ handed = [ce_fingerprint row] /\ ce_private_key row = "") ->
  keys_ok (advance h s' owner ({[ce_fingerprint row]} ∪ kh_issued h) handed).
Proof.
  intros [H1 H2 H3 H4 H5 H6] Hid E Hf Ho Hk Hh. split; simpl.
  - intros s i r [->|Hin]%elem_of_cons Hr Hk'.
    + rewrite E in Hr. apply lookup_insert_Some in Hr as [[_ <-]|[_ Hr]]; [by apply Hk|].
      apply (lookup_weaken (kh_owner h)); [|done]. apply (H1 (kh_store h) i); [by left|done..].
    + apply (lookup_weaken (kh_owner h)); [|done]. by apply (H1 s i).
  - intros i r. rewrite E. intros [[_ <-]|[_ Hr]]%lookup_insert_Some; [set_solver|]. pose proof (H2 i r Hr). set_solver.
  - intros i r i' r'. rewrite E. intros [[<- <-]|[_ Hr]]%lookup_insert_Some [[<- <-]|[_ Hr']]%lookup_insert_Some Ef; [done|..].
    + pose proof (H2 i' r' Hr'). congruence.
    + pose proof (H2 i r Hr). congruence.
    + by apply (H3 i r i' r').
  - intros i r. rewrite E. intros [[_ <-]|[_ Hr]]%lookup_insert_Some Hin.
    + destruct Hh as [->|[-> Hz]]; [|done]. destruct Hf. by apply H5.
    + apply (H4 i r Hr). destruct Hh as [->|[-> _]]; [done|].
      apply elem_of_cons in Hin as [Heq|Hin]; [|done]. destruct Hf. rewrite <- Heq. by apply (H2 i).
  - intros f Hin. destruct Hh as [->|[-> _]]; [pose proof (H5 f Hin); set_solver|].
    apply elem_of_cons in Hin as [->|Hin]; [set_solver|]. pose proof (H5 f Hin). set_solver.
  - destruct Hh as [->|[-> _]]; [done|]. constructor; [|done]. intros Hin. by apply Hf, H5.
Qed.
(** A stored key is replaced: by nothing when it is handed out, by its encryption otherwise. *)
Lemma rekey_ok h s' id row key owner handed :
  keys_ok h -> ps_certificates (kh_store h) !! id = Some row -> ce_private_key row <> "" ->
  ps_certificates s' = <[id := with_key row key]> (ps_certificates (kh_store h)) ->
  kh_owner h ⊆ owner -> (key <> "" -> owner !! key = Some (ce_fingerprint row)) ->
  (handed = [] \/ handed = [ce_fingerprint row] /\ key = "") ->
  keys_ok (advance h s' owner (kh_issued h) handed).
Proof.
  intros [H1 H2 H3 H4 H5 H6] Hid Hne E Ho Hk Hh.
  assert (ce_fingerprint row ∉ kh_handed h) as Hnot by (intros Hin; by apply Hne, (H4 id)).
  assert (forall i r, ps_certificates s' !! i = Some r ->
            exists r0, ps_certificates (kh_store h) !! i = Some r0 /\ ce_fingerprint r = ce_fingerprint r0
              /\ (i = id /\ ce_private_key r = key \/ i <> id /\ r = r0)) as Hold.
  { intros i r. rewrite E. intros [[<- <-]|[Hi Hr]]%lookup_insert_Some; [exists row|exists r]; naive_solver. }
  split; simpl.
  - intros s i r [->|Hin]%elem_of_cons Hr Hk'.
    + destruct (Hold i r Hr) as (r0 & Hr0 & Ef & [[-> Ek]|[_ ->]]).
      * rewrite Ek in Hk' |- *. rewrite Ef. rewrite Hid in Hr0. injection Hr0 as <-. by apply Hk.
      * apply (lookup_weaken (kh_owner h)); [|done]. apply (H1 (kh_store h) i); [by left|done..].
    + apply (lookup_weaken (kh_owner h)); [|done]. by apply (H1 s i).
  - intros i r Hr. destruct (Hold i r Hr) as (r0 & Hr0 & -> & _). by apply (H2 i).
  - intros i r i' r' Hr Hr' Ef. destruct (Hold i r Hr) as (r0 & Hr0 & E0 & _), (Hold i' r' Hr') as (r1 & Hr1 & E1 & _).
    apply (H3 i r0 i' r1); [done..|congruence].
  - intros i r Hr Hin. destruct (Hold i r Hr) as (r0 & Hr0 & E0 & [[-> Ek]|[Hi ->]]).
    + rewrite Hid in Hr0. injection Hr0 as <-. rewrite E0 in Hin. destruct Hh as [->|[-> ->]]; [by destruct Hnot|done].
    + destruct Hh as [->|[-> ->]]; [by apply (H4 i)|]. apply elem_of_cons in Hin as [Heq|Hin]; [|by apply (H4 i)].
      destruct Hi. by apply (H3 i r0 id row).
  - intros f Hin. destruct Hh as [->|[-> _]]; [by apply H5|]. apply elem_of_cons in Hin as [->|Hin]; [by apply (H2 id)|by apply H5].
  - destruct Hh as [->|[-> _]]; [done|]. by constructor.
Qed.

(** ** Every step keeps it *)
Lemma forget_ok h s1 s2 owner0 issued0 owner issued handed :
  keys_ok (advance (advance h s1 owner0 issued0 []) s2 owner issued handed) -> keys_ok (advance h s2 owner issued handed).
Proof.
  intros [H1 H2 H3 H4 H5 H6]. split; simpl in *; try done. intros s id row Hin. apply H1.
  apply elem_of_cons in Hin as [->|Hin]; [by left|by do 2 right].
Qed.
Lemma newest_elem {A} (l : list (Z * A)) e : newest l = Some e -> e ∈ l.
Proof.
  revert e. induction l as [|x l IH]; intros e; [done|].
  change (newest (x :: l)) with (match newest l with Some b => if x.1 <? b.1 then Some b else Some x | None => Some x end).
  destruct (newest l) as [b|].
  - destruct (_ <? _); intros [= <-]; [right; by apply IH|by left].
  - intros [= <-]. by left.
Qed.
Lemma decode_certificate_ok id row c :
  decode_certificate (id, row) = Ok c ->
  dk_id c = id /\ dk_private_key_pem c = ce_private_key row /\ dk_fingerprint c = ce_fingerprint row.
Proof.
  unfold decode_certificate. simpl. intros (n & Hn & H)%bind_ok. apply bind_ok in H as (? & _ & H).
  apply bind_ok in H as (? & _ & [= <-]). unfold narrow_i32 in Hn. destruct (Int.in_i32 id); [|done]. by injection Hn as <-.
Qed.
Lemma download_material_ok s ctx device cert ca :
  download_material s ctx device = Ok (cert, ca) ->
  exists row, ps_certificates s !! dk_id cert = Some row /\ ce_private_key row = dk_private_key_pem cert
    /\ ce_fingerprint row = dk_fingerprint cert /\ ce_tenant row = ctx_tenant ctx.
Proof.
  unfold download_material. intros ([] & _ & H)%bind_ok. apply bind_ok in H as (found & Hf%map_err_inv & H).
  destruct found as [c0 ca0| | |]; [|done..]. injection H as -> ->. unfold get_download_material in Hf.
  destruct (negb _) in Hf; [done|]. apply bind_ok in Hf as ([c1|] & Hc & Hf); [|done].
  apply bind_ok in Hf as ([ca1|] & _ & [= -> ->]). unfold certificate_from in Hc.
  apply read_some_ok in Hc as [[_ ?]|([id row] & c & Hn & Hd & [= ->])]; [done|].
  apply newest_elem in Hn. unfold device_certificates in Hn. apply elem_of_filterb in Hn as [Hn Ht].
  apply elem_of_map_to_list in Hn. apply decode_certificate_ok in Hd as (-> & -> & ->).
  apply andb_true_iff in Ht as [Ht%String.eqb_eq _]. by exists row.
Qed.
Lemma download_keeps h s_read ctx device :
  keys_ok h -> s_read ∈ kh_store h :: kh_past h ->
  let r := download s_read (kh_store h) ctx device in
  keys_ok (advance h r.2 (kh_owner h) (kh_issued h) (handed_by r.1)).
Proof.
  intros Hh Hin. cbv zeta. unfold download.
  assert (keys_ok (advance h (kh_store h) (kh_owner h) (kh_issued h) [])) as Hsame by (apply shrink_ok; [done|apply shrinks_refl|done..]).
  destruct (download_material s_read ctx device) as [[cert ca]|e] eqn:E; [|done].
  apply download_material_ok in E as (row & Hrow & Hkey & Hfp & _).
  destruct (String.eqb_spec (dk_private_key_pem cert) "") as [_|Hne]; [done|].
  destruct (unprotect _) as [key|e]; [|done]. cbn [fst snd]. unfold consume_private_key.
  destruct (replace_key_cases (kh_store h) (ctx_tenant ctx) (dk_id cert) (dk_private_key_pem cert) "")
    as [->|(row' & Hr' & _ & Hk' & ->)]; [done|]. cbn [fst snd handed_by cu_private_key_pem cu_device_cert].
  assert (ce_fingerprint row' = dk_fingerprint cert) as Ef.
  { pose proof (ko_owner h Hh s_read _ row Hin Hrow) as Ho. rewrite Hkey, Hfp in Ho.
    pose proof (ko_owner h Hh (kh_store h) _ row' ltac:(by left) Hr') as Ho'. rewrite Hk' in Ho'.
    specialize (Ho Hne). specialize (Ho' Hne). congruence. }
  rewrite <- Ef. apply (rekey_ok h _ (dk_id cert) row' ""); [done..|congruence|done|done|done|by right].
Qed.
Lemma regenerate_keeps h s_ca ctx device generate now :
  keys_ok h ->
  (forall ca c key, regenerate_material s_ca ctx generate = Ok (ca, c, key) -> fresh_certificate h c) ->
  let r := regenerate s_ca (kh_store h) ctx device generate now in
  keys_ok (advance h r.2 (kh_owner h)
    (match regenerate_material s_ca ctx generate with Ok (_, c, _) => {[nd_fingerprint c]} | Err _ => ∅ end ∪ kh_issued h)
    (handed_by r.1)).
Proof.
  intros Hh Hfresh. cbv zeta. unfold regenerate.
  destruct (regenerate_material s_ca ctx generate) as [[[ca c] key]|e]; [|apply shrink_ok; [done|apply shrinks_refl|done|set_solver]].
  destruct (Hfresh _ _ _ eq_refl) as (Hf & _ & _).
  assert (keys_ok (advance h (kh_store h) (kh_owner h) ({[nd_fingerprint c]} ∪ kh_issued h) [])) as Hsame
    by (apply shrink_ok; [done|apply shrinks_refl|done|set_solver]).
  unfold replace_device_certificate. destruct (replace_certificate_in _ _ _ _) as [[o s']|e] eqn:E; [|done]. cbn [commit_devices fst snd].
  unfold replace_certificate_in in E. destruct (negb _) in E; [injection E as <- <-; done|]. cbv zeta in E.
  set (s1 := set_certificates (kh_store h) _) in E.
  apply bind_ok in E as ([id s2] & (row & Hid & -> & _ & _ & _ & Ef)%insert_certificate_ok & E).
  apply bind_ok in E as (row' & Hrow'%ok_or_ok & E). simpl in Hrow'. rewrite lookup_insert_eq in Hrow'. injection Hrow' as <-.
  apply bind_ok in E as (record & Hd & [= <- <-]). apply decode_certificate_ok in Hd as (_ & _ & Hd). simpl. rewrite Hd.
  apply (forget_ok h s1 _ (kh_owner h) (kh_issued h)).
  rewrite <- Ef. apply (grow_ok (advance h s1 (kh_owner h) (kh_issued h) []) _ id (with_key row "")); simpl.
  - apply shrink_ok; [done|apply shrinks_filter|done..].
  - done.
  - by rewrite insert_insert_eq.
  - by rewrite Ef.
  - done.
  - done.
  - by right.
Qed.
Lemma create_keeps h tenant record certificate now :
  keys_ok h -> (forall c, certificate = Some c -> fresh_certificate h c) ->
  keys_ok (advance h (repo_create_device (kh_store h) tenant record certificate now).2
      (match certificate with Some c => <[nd_private_key_pem c := nd_fingerprint c]> (kh_owner h) | None => kh_owner h end)
      (match certificate with Some c => {[nd_fingerprint c]} | None => ∅ end ∪ kh_issued h) []).
Proof.
  intros Hh Hfresh. unfold repo_create_device.
  assert (kh_owner h ⊆ match certificate with Some c => <[nd_private_key_pem c := nd_fingerprint c]> (kh_owner h)
                       | None => kh_owner h end) as Ho.
  { destruct certificate as [c|]; [|done]. apply insert_subseteq. by apply (Hfresh c). }
  destruct (create_device_in _ _ _ _ _) as [[d s']|e] eqn:E; [|apply shrink_ok; [done|apply shrinks_refl|done|set_solver]].
  apply create_device_ok in E as [Hc _]. apply cr_certificates in Hc. cbn [commit_devices snd].
  destruct certificate as [c|]; [|apply shrink_ok; [done|rewrite Hc; apply shrinks_refl|done|set_solver]].
  destruct Hc as (id & row & Hid & E & _ & _ & Ek & Ef). destruct (Hfresh c eq_refl) as (Hf & _ & _).
  rewrite <- Ef. apply (grow_ok h s' id row); [done..|by rewrite Ef|by rewrite Ef| |by left].
  intros _. rewrite Ek. by rewrite lookup_insert_eq.
Qed.
Lemma encrypt_keeps h tenant id row nonce s_list :
  keys_ok h -> s_list ∈ kh_store h :: kh_past h -> ps_certificates s_list !! id = Some row -> ce_private_key row <> "" ->
  (forall p, protect (ce_private_key row) nonce = Ok p -> p <> "" /\ kh_owner h !! p = None) ->
  keys_ok (advance h (encrypt_one (kh_store h) (StoredDevice tenant id (ce_private_key row)) nonce).2
      (match protect (ce_private_key row) nonce with Ok p => <[p := ce_fingerprint row]> (kh_owner h) | Err _ => kh_owner h end)
      (kh_issued h) []).
Proof.
  intros Hh Hin Hrow Hne Hp. simpl.
  destruct (protect (ce_private_key row) nonce) as [p|e] eqn:E;
    [|destruct (is_protected _); apply shrink_ok; try done; apply shrinks_refl].
  destruct (Hp p eq_refl) as [Hpe Hpn].
  assert (kh_owner h ⊆ <[p := ce_fingerprint row]> (kh_owner h)) as Ho by by apply insert_subseteq.
  destruct (is_protected _); [apply shrink_ok; try done; apply shrinks_refl|]. simpl.
  destruct (replace_key_cases (kh_store h) tenant id (ce_private_key row) p) as [->|(row' & Hr' & _ & Hk' & ->)].
  { apply shrink_ok; try done. apply shrinks_refl. }
  apply (rekey_ok h _ id row' p); [done..|congruence|done|done| |by left].
  intros _. rewrite lookup_insert_eq. f_equal. pose proof (ko_owner h Hh s_list id row Hin Hrow Hne) as H1.
  pose proof (ko_owner h Hh (kh_store h) id row' ltac:(by left) Hr') as H2. rewrite Hk' in H2. specialize (H2 Hne). congruence.
Qed.
Lemma delete_shrinks s tenant ids : shrinks (ps_certificates s) (ps_certificates (repo_bulk_delete s tenant ids).2).
Proof.
  unfold repo_bulk_delete. destruct (each_device _ _ _) as [[n s']|e] eqn:E; [|apply shrinks_refl]. simpl.
  revert E. apply (each_device_ind (fun s _ s' => shrinks (ps_certificates s) (ps_certificates s'))); [intros; apply shrinks_refl|].
  intros s0 id n0 s1 m s2 H Hs. apply (shrinks_trans _ (ps_certificates s1)); [|done].
  unfold delete_device_in in H. destruct (device_row _ _ _); [|injection H as _ <-; apply shrinks_refl].
  destruct (blocked _ _ _); [done|]. injection H as _ <-. apply shrinks_filter.
Qed.
Lemma key_step_ok h h' : key_step h h' -> keys_ok h -> keys_ok h'.
Proof.
  intros [s_read ctx device Hin|s_ca ctx device generate now Hf|tenant record certificate now Hf
         |tenant id row nonce s_list Hin Hrow Hne Hp|tenant ids|s' E] Hh.
  - by apply download_keeps.
  - by apply regenerate_keeps.
  - by apply create_keeps.
  - by apply (encrypt_keeps h tenant id row nonce s_list).
  - apply shrink_ok; [done|apply delete_shrinks|done..].
  - apply shrink_ok; [done|rewrite E; apply shrinks_refl|done..].
Qed.
Lemma start_ok s : ps_certificates s = ∅ -> keys_ok (key_start s).
Proof.
  intros E. split; simpl.
  - intros s' id row ->%list_elem_of_singleton. by rewrite E.
  - intros id row. by rewrite E.
  - intros id row id' row'. by rewrite E.
  - intros id row. by rewrite E.
  - by intros f ?%elem_of_nil.
  - constructor.
Qed.
Lemma run_ok h h' : rtc key_step h h' -> keys_ok h -> keys_ok h'.
Proof. induction 1 as [|h1 h2 h3 Hstep _ IH]; [done|]. intros Hh. by apply IH, (key_step_ok h1). Qed.

(** C25. A device's private key leaves the store once.  Over any interleaving
    of downloads (each may have read the key in any earlier state),
    regenerations, provisioned devices, deletions, encryption of the stored
    keys and other work, the private key of a certificate is handed out at
    most once, and once it was, the store no longer holds it; and an
    undisturbed download of a key that is still stored does hand it out. *)
Theorem private_key_handed_once s h :
  ps_certificates s = ∅ -> rtc key_step (key_start s) h ->
  NoDup (kh_handed h)
  /\ (forall id row, ps_certificates (kh_store h) !! id = Some row -> ce_fingerprint row ∈ kh_handed h ->
        ce_private_key row = "")
  /\ (forall ctx device cert ca key, download_material (kh_store h) ctx device = Ok (cert, ca) ->
        dk_private_key_pem cert <> "" -> unprotect (dk_private_key_pem cert) = Ok key ->
        exists s', download (kh_store h) (kh_store h) ctx device
                   = (Ok {| cu_device_cert := cert; cu_ca_cert_pem := cc_certificate_pem ca;
                            cu_private_key_pem := Some key |}, s')).
Proof.
  intros E H. assert (keys_ok h) as [_ _ _ H4 _ H6] by (apply (run_ok (key_start s)); [done|by apply start_ok]).
  split_and!; [done..|]. intros ctx device cert ca key Hm Hne Hu. unfold download. rewrite Hm.
  apply download_material_ok in Hm as (row & Hr & Hk & _ & Ht).
  destruct (String.eqb_spec (dk_private_key_pem cert) ""); [done|]. rewrite Hu. unfold consume_private_key, replace_device_private_key_if_matches.
  rewrite Hr, Ht, Hk, !String.eqb_refl. by eexists.
Qed.
End histories.

(** ** Witness: two downloads that have read the same key *)
Definition demo_certificate : NewDeviceCertificateRecord :=
  {| nd_device_id := "device-1"; nd_private_key_pem := "key-1"; nd_certificate_pem := "cert-1"; nd_fingerprint := "fp-1";
     nd_expires_at := 9000000 |}.
Definition demo_store : ProvisionStore :=
  {| ps_blueprints := {| bs_orgs := {["acme"]};
       bs_blueprints := {["b" := {| bp_tenant := "acme"; bp_key := "cold-room"; bp_name := "Cold room";
                                    bp_description := None; bp_created := 1; bp_updated := 1 |}]};
       bs_drafts := ∅;
       bs_revisions := {["r1" := {| rw_tenant := "acme"; rw_blueprint := "b"; rw_revision := 1; rw_document := "cold room";
                                    rw_hash := ""; rw_compatibility := "report"; rw_created := 1 |}]} |};
     ps_fleets := ∅; ps_devices := ∅; ps_shadows := ∅; ps_certificates := ∅;
     ps_cas := {[1 := {| ca_private_key := "ca-key"; ca_certificate := "ca-cert"; ca_created := 1 |}]};
     ps_contracts := ∅; ps_assignments := ∅; ps_configs := ∅; ps_dependents := ∅ |}.
Definition demo_record : CreateDeviceRecord :=
  {| cd_id := "device-1"; cd_name := "Cold room 1"; cd_fleet_id := None; cd_firmware := "unknown";
     cd_contract := {| nc_id := "contract-1"; nc_blueprint_revision_id := "r1"; nc_document := VString "document";
                       nc_initial_configuration := None;
                       nc_contract_hash := "0123456789abcdef0123456789abcdef0123456789abcdef0123456789abcdef";
                       nc_created_at := 2000 |} |}.
Definition demo_extract : JsonExtract := {| json_extract := fun _ _ => Ok None |}.
Definition demo_protector : KeyProtector :=
  {| protector_enabled := false; is_protected := fun _ => false; protect := fun v nonce => Ok (nonce +:+ v);
     unprotect := fun v => Ok v |}.
Definition demo_chrono : ChronoMicros := {| micros_in_range := fun _ => true |}.
Definition demo_json : SerdeJson :=
  {| to_string := fun v => Ok (default "document" (as_str v)); from_str := fun t => Ok (VString t); utc_in_range := fun _ => true |}.
#[local] Existing Instance demo_extract.
#[local] Existing Instance demo_protector.
#[local] Existing Instance demo_chrono.
#[local] Existing Instance demo_json.
Definition demo_operator : TenantContext :=
  {| ctx_tenant := "acme"; ctx_actor := System "console"; ctx_permissions := permission_set_all |}.
Definition demo_created := (repo_create_device demo_store "acme" demo_record (Some demo_certificate) 2).2.
Definition demo_h1 : KeyHistory :=
  advance (key_start demo_store) demo_created {["key-1" := "fp-1"]} {["fp-1"]} [].
Definition demo_first := download demo_created (kh_store demo_h1) demo_operator "device-1".
Definition demo_h2 : KeyHistory :=
  advance demo_h1 demo_first.2 (kh_owner demo_h1) (kh_issued demo_h1) (handed_by demo_first.1).
Definition demo_second := download demo_created (kh_store demo_h2) demo_operator "device-1".
Definition demo_h3 : KeyHistory :=
  advance demo_h2 demo_second.2 (kh_owner demo_h2) (kh_issued demo_h2) (handed_by demo_second.1).
Example demo_race :
  (handed_by demo_first.1, handed_by demo_second.1, is_ok demo_second.1) = (["fp-1"], [], true).
Proof. vm_compute. reflexivity. Qed.
Lemma demo_keys : rtc key_step (key_start demo_store) demo_h3.
Proof.
  apply (rtc_l _ _ demo_h1).
  { pose proof (key_create (key_start demo_store) "acme" demo_record (Some demo_certificate) 2) as H.
    replace demo_h1 with (advance (key_start demo_store) (repo_create_device demo_store "acme" demo_record (Some demo_certificate) 2).2
      (<[nd_private_key_pem demo_certificate := nd_fingerprint demo_certificate]> (kh_owner (key_start demo_store)))
      ({[nd_fingerprint demo_certificate]} ∪ kh_issued (key_start demo_store)) []) by (unfold demo_h1; f_equal; set_solver).
    apply H. intros c [= <-]. split_and!; [set_solver|done|done]. }
  apply (rtc_l _ _ demo_h2).
  { apply (key_download demo_h1 demo_created demo_operator "device-1"). by left. }
  apply rtc_once. apply (key_download demo_h2 demo_created demo_operator "device-1"). right. by left.
Qed.
Lemma private_key_handed_once_witness :
  NoDup (kh_handed demo_h3) /\ kh_handed demo_h3 = ["fp-1"].
Proof.
  split; [|vm_compute; reflexivity]. exact (proj1 (private_key_handed_once demo_store demo_h3 eq_refl demo_keys)).
Defined.
