(* ===== verification/Devices.v ===== *)
(** * Devices and fleets (crates/backend-core/src/application/devices.rs,
    bulk_devices.rs, fleets.rs)

    Provisioning prepares a contract and a certificate before one transaction
    writes the device and everything that belongs to it; updates, selections,
    batches and fleets follow.  What is prepared is read in earlier states of
    the store ([s_rev], [s_ca], [s_read]). *)
From S2P Require Import Prelude Text BTree Json Errors Access RuleTypes Shadows RuleSnapshot EventStore RuleAdminStore.
From S2P Require Import ContractModel Schema Validation ContractCompiler BlueprintStore Blueprints ProvisionStore Certificates.

Local Open Scope Z_scope.

Record ProvisionDevice := {
  pr_name : string; pr_blueprint_revision_id : string; pr_fleet_id : option Z; pr_firmware : option string;
  pr_configuration : option value; pr_automatic_zenoh_endpoint : string;
}.
Record DeviceTargetSelection := {
  sel_device_ids : option (list string); sel_select_all : bool; sel_filter : DeviceFilter; sel_max_size : nat;
}.
(** [normalize_device_ids]: the first occurrences. *)
Fixpoint keep_unseen (seen ids : list string) : list string :=
  match ids with
  | [] => []
  | id :: rest => if bool_decide (id ∈ seen) then keep_unseen seen rest else id :: keep_unseen (id :: seen) rest
  end.
Definition normalize_device_ids (ids : list string) : list string := keep_unseen [] ids.
Definition map_device_write_error (e : PersistenceError) : ApplicationError :=
  match e with
  | UniqueViolation _ => Conflict "A device with this name already exists"
  | other => Persistence other
  end.
Definition blank_name : ApplicationError := InvalidInput "Device name must not be empty".

Section application.
Context `{!ChronoMicros, !SerdeJson, !JsonExtract, !BlueprintCodec, !ContractCodec}.

(** ** Provisioning *)
Definition create_device (s_ca s : ProvisionStore) (ctx : TenantContext) (record : CreateDeviceRecord)
    (generate : CaCertificateRecord -> result ApplicationError NewDeviceCertificateRecord) (now : Z)
    : result ApplicationError DeviceDetails * ProvisionStore :=
  match _ ← require_permission ctx ManageDevices; prepare_device s_ca ctx generate with
  | Err e => (Err e, s)
  | Ok certificate =>
    let w := repo_create_device s (ctx_tenant ctx) record certificate now in (map_err map_device_write_error w.1, w.2)
  end.
(** [None] is a panic of the contract compiler. *)
Definition provision (s_rev s_ca s : ProvisionStore) (ctx : TenantContext) (r : ProvisionDevice) (id contract_id : string)
    (generate : CaCertificateRecord -> result ApplicationError NewDeviceCertificateRecord) (compiled_at : NaiveDateTime) (now : Z)
    : option (result ApplicationError DeviceDetails) * ProvisionStore :=
  if trim_is_empty (pr_name r) then (Some (Err blank_name), s) else
  match require_permission ctx ManageDevices with
  | Err e => (Some (Err e), s)
  | Ok _ =>
    match compile_device_contract (ps_blueprints s_rev) ctx (pr_blueprint_revision_id r) contract_id id
            (pr_automatic_zenoh_endpoint r) (pr_configuration r) compiled_at with
    | None => (None, s)
    | Some (Err e) => (Some (Err e), s)
    | Some (Ok contract) =>
      let w := create_device s_ca s ctx {| cd_id := id; cd_name := pr_name r; cd_fleet_id := pr_fleet_id r;
                 cd_firmware := default "unknown" (pr_firmware r); cd_contract := contract |} generate now in
      (Some w.1, w.2)
    end
  end.

(** ** Reads *)
Definition list_devices (s : ProvisionStore) (ctx : TenantContext) (q : DeviceListQuery)
    : result ApplicationError (list DeviceDetails * Z) :=
  _ ← require_permission ctx ReadDevices; map_err Persistence (repo_list_devices s (ctx_tenant ctx) q).
Definition get_device (s : ProvisionStore) (ctx : TenantContext) (id : string) : result ApplicationError DeviceDetails :=
  _ ← require_permission ctx ReadDevices;
  found ← map_err Persistence (details_from s (ctx_tenant ctx) id);
  ok_or found (device_missing id).
Definition device_contract (s : ProvisionStore) (ctx : TenantContext) (id : string) : result ApplicationError DeviceContractRecord :=
  _ ← require_permission ctx ReadDevices;
  found ← map_err Persistence (assigned_from (ps_assignments s) (ps_contracts s) (ctx_tenant ctx) id);
  ok_or found (NotFound ("Device '" +:+ id +:+ "' has no assigned contract")).
Definition resolve_target_ids (s : ProvisionStore) (ctx : TenantContext) (sel : DeviceTargetSelection)
    : result ApplicationError (list string) :=
  _ ← require_permission ctx ReadDevices;
  ids ← (if sel_select_all sel then Ok (repo_resolve_ids s (ctx_tenant ctx) (sel_filter sel))
         else ok_or (sel_device_ids sel) (InvalidInput "Either device_ids or select_all with filters is required"));
  let ids := normalize_device_ids ids in
  if (sel_max_size sel <? length ids)%nat
  then Err (InvalidInput ("Too many devices (" +:+ int_to_string (Z.of_nat (length ids)) +:+ "). Maximum is "
              +:+ int_to_string (Z.of_nat (sel_max_size sel)) +:+ ". Narrow your filters."))
  else Ok ids.

(** ** Writes *)
Definition update_device (s : ProvisionStore) (ctx : TenantContext) (id : string) (u : UpdateDeviceRecord) (now : NaiveDateTime)
    : result ApplicationError DeviceDetails * ProvisionStore :=
  if match ud_name u with Some n => trim_is_empty n | None => false end then (Err blank_name, s) else
  match require_permission ctx ManageDevices with
  | Err e => (Err e, s)
  | Ok _ =>
    let w := repo_update_device s (ctx_tenant ctx) id
               {| ud_name := ud_name u; ud_fleet_id := ud_fleet_id u; ud_firmware := ud_firmware u; ud_updated_at := Some now |} in
    (found ← map_err map_device_write_error w.1; ok_or found (device_missing id), w.2)
  end.
Definition bulk_assign_fleet (s : ProvisionStore) (ctx : TenantContext) (ids : list string) (fleet : option Z)
    (now : NaiveDateTime) : result ApplicationError nat * ProvisionStore :=
  match require_permission ctx ManageDevices with
  | Err e => (Err e, s)
  | Ok _ => let w := repo_bulk_assign_fleet s (ctx_tenant ctx) (normalize_device_ids ids) fleet now in
            (map_err Persistence w.1, w.2)
  end.
Definition assign_selected_devices (s_read s : ProvisionStore) (ctx : TenantContext) (sel : DeviceTargetSelection)
    (fleet : option Z) (now : NaiveDateTime) : result ApplicationError nat * ProvisionStore :=
  match resolve_target_ids s_read ctx sel with
  | Err e => (Err e, s)
  | Ok ids => bulk_assign_fleet s ctx ids fleet now
  end.
End application.
Definition delete_device (s : ProvisionStore) (ctx : TenantContext) (id : string) : result ApplicationError unit * ProvisionStore :=
  match require_permission ctx ManageDevices with
  | Err e => (Err e, s)
  | Ok _ => let w := repo_delete s (ctx_tenant ctx) id in
            (b ← map_err Persistence w.1; if (b : bool) then Ok tt else Err (device_missing id), w.2)
  end.
Definition bulk_delete (s : ProvisionStore) (ctx : TenantContext) (ids : list string) : result ApplicationError nat * ProvisionStore :=
  match require_permission ctx ManageDevices with
  | Err e => (Err e, s)
  | Ok _ => let w := repo_bulk_delete s (ctx_tenant ctx) (normalize_device_ids ids) in (map_err Persistence w.1, w.2)
  end.
Definition delete_selected_devices (s_read s : ProvisionStore) (ctx : TenantContext) (sel : DeviceTargetSelection)
    : result ApplicationError nat * ProvisionStore :=
  match resolve_target_ids s_read ctx sel with
  | Err e => (Err e, s)
  | Ok ids => bulk_delete s ctx ids
  end.

(** ** Fleets *)
Definition fleet_missing (id : Z) : ApplicationError := NotFound ("Fleet " +:+ int_to_string id +:+ " not found").
Definition blank_fleet : ApplicationError := InvalidInput "Fleet name must not be empty".
Definition list_fleets (s : ProvisionStore) (ctx : TenantContext) (limit offset : Z)
    : result ApplicationError (list FleetSummary * Z) :=
  _ ← require_permission ctx ReadFleets; map_err Persistence (repo_list_fleets s (ctx_tenant ctx) limit offset).
Definition create_fleet (s : ProvisionStore) (ctx : TenantContext) (name : string) (now : Z)
    : result ApplicationError FleetRecord * ProvisionStore :=
  match require_permission ctx ManageFleets with
  | Err e => (Err e, s)
  | Ok _ =>
    if trim_is_empty name then (Err blank_fleet, s)
    else let w := repo_create_fleet s (ctx_tenant ctx) name now in (map_err Persistence w.1, w.2)
  end.
Definition rename_fleet (s : ProvisionStore) (ctx : TenantContext) (id : Z) (name : string)
    : result ApplicationError FleetRecord * ProvisionStore :=
  match require_permission ctx ManageFleets with
  | Err e => (Err e, s)
  | Ok _ =>
    if trim (name) =s? "" then (Err blank_fleet, s)
    else let w := repo_rename_fleet s (ctx_tenant ctx) id (trim name) in
         (found ← map_err Persistence w.1; ok_or found (fleet_missing id), w.2)
  end.
Definition delete_fleet (s : ProvisionStore) (ctx : TenantContext) (id : Z) : result ApplicationError unit * ProvisionStore :=
  match require_permission ctx ManageFleets with
  | Err e => (Err e, s)
  | Ok _ => let w := repo_delete_fleet s (ctx_tenant ctx) id in
            (b ← map_err Persistence w.1; if (b : bool) then Ok tt else Err (fleet_missing id), w.2)
  end.
