(* ===== verification/DeviceHistory.v ===== *)
(** * Histories of devices

    What the device tables hold after any history of provisioning, updates,
    batches, fleets, certificates, blueprint work and the work of other
    components: every device is complete, nothing is left without a device,
    a provisioned device has the contract it was compiled, and a batch of
    deletions removes exactly its devices or nothing. *)
From S2P Require Import Prelude Text BTree Json Errors Access RuleTypes Shadows RuleSnapshot EventStore RuleAdminStore.
From S2P Require Import ContractModel Schema Validation ColdRoom ContractCompiler Compatibility.
From S2P Require Import BlueprintStore Blueprints BlueprintHistory ProvisionStore Certificates Devices.
From stdpp Require Import relations sorting.

Local Open Scope Z_scope.

(** ** Blueprint tables only grow *)
Record blueprints_ok (b : BlueprintStore) : Prop := {
  bo_owner : forall id r, bs_revisions b !! id = Some r -> bp_tenant <$> bs_blueprints b !! rw_blueprint r = Some (rw_tenant r);
}.
Definition grows (b b' : BlueprintStore) : Prop :=
  bs_revisions b ⊆ bs_revisions b'
  /\ (forall id t, bp_tenant <$> bs_blueprints b !! id = Some t -> bp_tenant <$> bs_blueprints b' !! id = Some t)
  /\ bs_orgs b ⊆ bs_orgs b'.
Lemma grows_refl b : grows b b.
Proof. by split_and!. Qed.
Lemma unchanged_ok b : blueprints_ok b -> grows b b /\ blueprints_ok b.
Proof. intros H. by split; [apply grows_refl|]. Qed.
Lemma insert_keeps_tenant (m : gmap string BlueprintRow) id row row' :
  m !! id = Some row -> bp_tenant row' = bp_tenant row ->
  forall i, bp_tenant <$> <[id := row']> m !! i = bp_tenant <$> m !! i.
Proof. intros H E i. destruct (decide (id = i)) as [<-|]; [by rewrite lookup_insert_eq, H; simpl; rewrite E|by rewrite lookup_insert_ne]. Qed.

Section blueprints.
Context {micros : ChronoMicros} {codec : SerdeJson} {bcodec : BlueprintCodec} {ccodec : ContractCodec}.
Lemma blueprint_row_tenant s tenant id row : blueprint_row s tenant id = Some row -> bs_blueprints s !! id = Some row /\ bp_tenant row = tenant.
Proof.
  unfold blueprint_row. destruct (bs_blueprints s !! id) as [b|]; [|done]. simpl. destruct (String.eqb_spec (bp_tenant b) tenant); [|done].
  by intros [= <-].
Qed.
Lemma create_grows s ctx doc id did now : blueprints_ok s ->
  let s' := (create_blueprint s ctx doc id did now).2 in grows s s' /\ blueprints_ok s'.
Proof.
  intros [Hs]. cbv zeta. unfold create_blueprint. destruct (draft_identity ctx doc) as [b|e]; [|by apply unchanged_ok].
  simpl. unfold repo_create. destruct (create_in _ _ _) as [[[x y] s']|e] eqn:E; [|by apply unchanged_ok]. simpl.
  apply bind_ok in E as (s1 & H1 & E). apply bind_ok in E as (s2 & H2 & E). apply bind_ok in E as (? & _ & E).
  apply bind_ok in E as (? & _ & E). apply bind_ok in E as (? & _ & E). apply bind_ok in E as (? & _ & [= _ _ <-]).
  unfold insert_blueprint in H1. destruct (_ || _) eqn:Ef in H1; [done|]. destruct (negb _) in H1; [done|]. injection H1 as <-.
  unfold insert_draft in H2. apply bind_ok in H2 as (t & _ & H2).
  destruct (_ || _) in H2; [done|]. destruct (negb _) in H2; [done|]. injection H2 as <-. simpl in *.
  apply orb_false_iff in Ef as [Ef _]. apply bool_decide_eq_false, eq_None_not_Some in Ef.
  assert (forall i t, bp_tenant <$> bs_blueprints s !! i = Some t -> i <> id) as Hne by (intros i t' H ->; by rewrite Ef in H).
  split; [split_and!; [done| |done]|split].
  - intros i t' H. simpl. rewrite lookup_insert_ne; [done|]. symmetry. by apply (Hne _ _ H).
  - intros i r Hr. simpl in *. rewrite lookup_insert_ne; [by apply (Hs i)|]. symmetry. apply (Hne _ _ (Hs i r Hr)).
Qed.
Lemma replace_grows s ctx id doc now : blueprints_ok s ->
  let s' := (replace_draft s ctx id doc now).2 in grows s s' /\ blueprints_ok s'.
Proof.
  intros [Hs]. cbv zeta. unfold replace_draft. destruct (draft_identity ctx doc) as [b|e]; [|by apply unchanged_ok].
  simpl. unfold repo_replace_draft. destruct (replace_draft_in _ _ _ _) as [[o s']|e] eqn:E; [|by apply unchanged_ok]. simpl.
  unfold replace_draft_in in E. destruct (blueprint_row s _ id) as [row|] eqn:Er; [|injection E as _ <-; by apply unchanged_ok].
  destruct (key_taken _ _ _ _); [done|]. apply bind_ok in E as (t & _ & E). apply bind_ok in E as ([di d] & _ & E).
  apply bind_ok in E as (dr & _ & [= _ <-]). apply blueprint_row_tenant in Er as [Er _].
  split; [split_and!; [done| |done]|split]; simpl.
  - intros i t'. by rewrite (insert_keeps_tenant _ _ _ _ Er).
  - intros i r Hr. rewrite (insert_keeps_tenant _ _ _ _ Er); [by apply (Hs i)|done].
Qed.
Lemma publish_grows s_d s_l s ctx id rid now : blueprints_ok s ->
  let s' := (publish s_d s_l s ctx id rid now).2 in grows s s' /\ blueprints_ok s'.
Proof.
  intros [Hs]. cbv zeta. unfold publish. destruct (_ ≫= _) as [r|e]; [|by apply unchanged_ok]. simpl. unfold repo_publish.
  destruct (publish_in s (ctx_tenant ctx) id r) as [[o s']|e] eqn:E; [|by apply unchanged_ok]. simpl.
  unfold publish_in in E. apply bind_ok in E as ([draft|] & _ & E); [|injection E as _ <-; by apply unchanged_ok].
  destruct (_ || _) in E; [injection E as _ <-; by apply unchanged_ok|]. apply bind_ok in E as (latest & _ & E).
  destruct (same_publication latest r); [injection E as _ <-; by apply unchanged_ok|].
  destruct (negb _) in E; [injection E as _ <-; by apply unchanged_ok|].
  apply bind_ok in E as ([p q] & E & [= _ <-]). unfold append_revision in E.
  apply bind_ok in E as (n & _ & E). apply bind_ok in E as (t1 & _ & E). apply bind_ok in E as (t2 & _ & E). cbv zeta in E.
  apply bind_ok in E as (s1 & H1 & E). apply bind_ok in E as (v & _ & [= _ <-]).
  assert (blueprint_key_exists s (ctx_tenant ctx) id = true) as Hk.
  { unfold insert_revision in H1. destruct (_ || _) in H1; [done|]. destruct (_ || _) in H1; [done|].
    destruct (negb _) eqn:En in H1; [done|]. by apply negb_false_iff in En. }
  apply insert_revision_ok in H1 as [Hid ->]. unfold blueprint_key_exists in Hk. apply bool_decide_eq_true in Hk.
  set (row := {| rw_tenant := ctx_tenant ctx |}). set (s1 := with_revisions s _).
  assert (forall i, bp_tenant <$> bs_blueprints (touch_blueprint s1 (ctx_tenant ctx) id (timestamp_micros (pb_now r))) !! i
                    = bp_tenant <$> bs_blueprints s !! i) as Ht.
  { intros i. unfold touch_blueprint. destruct (blueprint_row s1 (ctx_tenant ctx) id) as [br|] eqn:Er; [|done].
    apply blueprint_row_tenant in Er as [Er _]. simpl. by apply (insert_keeps_tenant (bs_blueprints s) id br). }
  split; [split_and!|split].
  - rewrite touch_revisions. by apply insert_subseteq.
  - intros i t. by rewrite Ht.
  - unfold touch_blueprint. by destruct (blueprint_row _ _ _).
  - intros i q'. rewrite touch_revisions, Ht. simpl. intros [[_ <-]|[_ Hq]]%lookup_insert_Some; [done|by apply (Hs i)].
Qed.
End blueprints.

(** ** Complete devices *)
Definition owns (s : ProvisionStore) (o : string * string) : Prop := pd_tenant <$> ps_devices s !! o.2 = Some o.1.
(** A device has its shadow and an assigned contract of its own, of a revision of its tenant. *)
Definition complete (s : ProvisionStore) (tenant id : string) : Prop :=
  is_Some (ps_shadows s !! (tenant, id))
  /\ exists a c r, ps_assignments s !! (tenant, id) = Some a /\ ps_contracts s !! as_desired a = Some c
       /\ kr_tenant c = tenant /\ kr_device c = id
       /\ bs_revisions (ps_blueprints s) !! kr_revision c = Some r /\ rw_tenant r = tenant.
Record provisioned (s : ProvisionStore) : Prop := {
  pv_blueprints : blueprints_ok (ps_blueprints s);
  pv_complete : forall o, owns s o -> complete s o.1 o.2;
  pv_fleet : forall id d f, ps_devices s !! id = Some d -> pd_fleet d = Some f ->
    fl_tenant <$> ps_fleets s !! f = Some (pd_tenant d);
  pv_shadow : forall o, is_Some (ps_shadows s !! o) -> owns s o;
  pv_assignment : forall o, is_Some (ps_assignments s !! o) -> owns s o;
  pv_config : forall o, is_Some (ps_configs s !! o) -> owns s o;
  pv_contract : forall id c, ps_contracts s !! id = Some c -> owns s (kr_tenant c, kr_device c);
  pv_certificate : forall id c, ps_certificates s !! id = Some c -> owns s (ce_tenant c, ce_device c);
  pv_dependent : forall k o, ps_dependents s !! k = Some o -> owns s o;
}.
(** Work that neither adds nor removes a device: devices keep their tenants,
    assignments their contracts, and nothing is stored for a missing device. *)
Record quiet (s s' : ProvisionStore) : Prop := {
  qt_blueprints : grows (ps_blueprints s) (ps_blueprints s') /\ blueprints_ok (ps_blueprints s');
  qt_devices : forall o, owns s' o <-> owns s o;
  qt_fleet : forall id d f, ps_devices s' !! id = Some d -> pd_fleet d = Some f ->
    fl_tenant <$> ps_fleets s' !! f = Some (pd_tenant d);
  qt_shadows : forall o, is_Some (ps_shadows s' !! o) <-> is_Some (ps_shadows s !! o);
  qt_assignments : forall o, as_desired <$> ps_assignments s' !! o = as_desired <$> ps_assignments s !! o;
  qt_configs : forall o, is_Some (ps_configs s' !! o) -> owns s o;
  qt_contracts : ps_contracts s' = ps_contracts s;
  qt_certificates : forall id c, ps_certificates s' !! id = Some c -> owns s (ce_tenant c, ce_device c);
  qt_dependents : forall k o, ps_dependents s' !! k = Some o -> owns s o;
}.
Lemma quiet_keeps s s' : provisioned s -> quiet s s' -> provisioned s'.
Proof.
  intros [Hb Hc Hf Hs Ha Hg Hk Hz Hd] [[Gb Gok] Gd Gf Gs Ga Gg Gk Gz Gdep]. split.
  - done.
  - intros o Ho. destruct (Hc o ltac:(by apply Gd)) as (H1 & a & c & r & H2 & H3 & H4 & H5 & H6 & H7).
    split; [by apply Gs|]. pose proof (Ga o) as E. destruct o as [t i]. simpl in *. rewrite H2 in E. simpl in E.
    destruct (ps_assignments s' !! (t, i)) as [a'|] eqn:Ea; [|done]. injection E as E.
    exists a', c, r. rewrite Gk, E. split_and!; try done. by apply (lookup_weaken (bs_revisions (ps_blueprints s))), Gb.
  - done.
  - intros o Ho. by apply Gd, Hs, Gs.
  - intros o Ho. apply Gd, Ha. specialize (Ga o). destruct Ho as [a Ea]. rewrite Ea in Ga. simpl in Ga.
    by destruct (ps_assignments s !! o).
  - intros o Ho. by apply Gd, Gg.
  - intros id c. rewrite Gk. intros H. by apply Gd, (Hk id).
  - intros id c H. by apply Gd, (Gz id).
  - intros k o H. by apply Gd, (Gdep k).
Qed.
Lemma quiet_refl s : provisioned s -> quiet s s.
Proof. intros [Hb Hc Hf Hs Ha Hg Hk Hz Hd]. by split. Qed.

(** A device row that keeps its tenant, in a fleet of it. *)
Lemma quiet_device s id d d' :
  provisioned s -> ps_devices s !! id = Some d -> pd_tenant d' = pd_tenant d ->
  (forall f, pd_fleet d' = Some f -> fl_tenant <$> ps_fleets s !! f = Some (pd_tenant d)) ->
  quiet s (set_devices s (<[id := d']> (ps_devices s))).
Proof.
  intros H Hd Et Hf.
  assert (forall o, owns (set_devices s (<[id := d']> (ps_devices s))) o <-> owns s o) as Ho.
  { intros [t i]. unfold owns. simpl. destruct (decide (id = i)) as [<-|]; [|by rewrite lookup_insert_ne].
    rewrite lookup_insert_eq, Hd. simpl. by rewrite Et. }
  destruct H as [Hb Hc Hfl Hs Ha Hg Hk Hz Hdep].
  split; [by apply unchanged_ok|done| |done..]. simpl.
  intros i e f [[<- <-]|[_ He]]%lookup_insert_Some Ef; [rewrite Et; by apply Hf|by apply (Hfl i e)].
Qed.
Lemma quiet_fleets s m :
  provisioned s ->
  (forall id d f, ps_devices s !! id = Some d -> pd_fleet d = Some f -> fl_tenant <$> m !! f = fl_tenant <$> ps_fleets s !! f) ->
  quiet s (set_fleets s m).
Proof.
  intros H Hm. pose proof (quiet_refl s H) as [Hb Hc Hfl Hs Ha Hg Hk Hz Hdep]. split; simpl; try done.
  intros id d f Hd Ef. rewrite (Hm id d f Hd Ef). by apply (Hfl id d).
Qed.
Lemma quiet_certificates s m :
  provisioned s -> (forall id c, m !! id = Some c -> owns s (ce_tenant c, ce_device c)) -> quiet s (set_certificates s m).
Proof. intros H Hm. pose proof (quiet_refl s H) as [Hb Hc Hfl Hs Ha Hg Hk Hz Hdep]. by split. Qed.
Lemma quiet_blueprints s b :
  provisioned s -> grows (ps_blueprints s) b /\ blueprints_ok b -> quiet s (set_blueprints s b).
Proof. intros H Hm. pose proof (quiet_refl s H) as [Hb Hc Hfl Hs Ha Hg Hk Hz Hdep]. by split. Qed.

Lemma quiet_cas s m : provisioned s -> quiet s (set_cas s m).
Proof. intros H. pose proof (quiet_refl s H) as [Hb Hc Hfl Hs Ha Hg Hk Hz Hdep]. by split. Qed.
(** What other components do to these tables: device rows keep their tenant
    and fleet, shadows are rewritten, contracts acknowledged, configurations
    and dependent rows are stored for devices that exist. *)
Record other_work (s s' : ProvisionStore) : Prop := {
  ow_blueprints : ps_blueprints s' = ps_blueprints s;
  ow_fleets : ps_fleets s' = ps_fleets s;
  ow_devices : forall id, (fun d => (pd_tenant d, pd_fleet d)) <$> ps_devices s' !! id
                        = (fun d => (pd_tenant d, pd_fleet d)) <$> ps_devices s !! id;
  ow_shadows : forall o, is_Some (ps_shadows s' !! o) <-> is_Some (ps_shadows s !! o);
  ow_certificates : ps_certificates s' = ps_certificates s;
  ow_contracts : ps_contracts s' = ps_contracts s;
  ow_assignments : forall o, as_desired <$> ps_assignments s' !! o = as_desired <$> ps_assignments s !! o;
  ow_configs : forall o, is_Some (ps_configs s' !! o) -> owns s o;
  ow_dependents : forall k o, ps_dependents s' !! k = Some o -> owns s o;
}.
Lemma quiet_other s s' : provisioned s -> other_work s s' -> quiet s s'.
Proof.
  intros [Hb Hc Hfl Hs Ha Hg Hk Hz Hdep] [Gb Gf Gd Gs Gz Gk Ga Gg Gdep]. split; try done.
  - rewrite Gb. by apply unchanged_ok.
  - intros [t i]. unfold owns. simpl. specialize (Gd i).
    destruct (ps_devices s' !! i) as [d'|], (ps_devices s !! i) as [d|]; simpl in *; [|done..]. injection Gd as E _. by rewrite E.
  - intros i d' f Hd Ef. specialize (Gd i). rewrite Hd in Gd. destruct (ps_devices s !! i) as [d|] eqn:E; [|done].
    simpl in Gd. injection Gd as E1 E2. rewrite Gf, E1. apply (Hfl i d f E). by rewrite <- E2.
  - intros i c. rewrite Gz. apply Hz.
Qed.
Lemma dependents_other s m :
  provisioned s -> (forall k o, m !! k = Some o -> owns s o) -> other_work s (set_dependents s m).
Proof. intros H Hm. split; try done. apply H. Qed.

(** ** Fleets, updates and certificates are quiet *)
Lemma device_row_some s tenant id d : device_row s tenant id = Some d -> ps_devices s !! id = Some d /\ pd_tenant d = tenant.
Proof.
  unfold device_row. destruct (ps_devices s !! id) as [e|]; [|done]. simpl. destruct (String.eqb_spec (pd_tenant e) tenant); [|done].
  by intros [= <-].
Qed.
Lemma device_row_owns s tenant id : is_Some (device_row s tenant id) <-> owns s (tenant, id).
Proof.
  unfold owns. simpl. split.
  - intros [d [-> <-]%device_row_some]. done.
  - unfold device_row. destruct (ps_devices s !! id) as [d|]; [|done]. simpl. intros [= <-]. by rewrite String.eqb_refl.
Qed.
Lemma fleet_row_some s tenant id f : fleet_row s tenant id = Some f -> ps_fleets s !! id = Some f /\ fl_tenant f = tenant.
Proof.
  unfold fleet_row. destruct (ps_fleets s !! id) as [e|]; [|done]. simpl. destruct (String.eqb_spec (fl_tenant e) tenant); [|done].
  by intros [= <-].
Qed.
Section quiet_work.
Context {micros : ChronoMicros} {codec : SerdeJson} {extract : JsonExtract} {protector : KeyProtector}.
Lemma patched_quiet s tenant id d u :
  provisioned s -> device_row s tenant id = Some d -> fleet_key s tenant (default None (ud_fleet_id u)) = true ->
  quiet s (set_devices s (<[id := patched_row d u]> (ps_devices s))).
Proof.
  intros H [Hd <-]%device_row_some Hf. apply (quiet_device s id d); [done..|]. simpl. intros f Ef.
  destruct (ud_fleet_id u) as [o|]; simpl in *; [|by apply (pv_fleet s H id)].
  subst o. simpl in Hf. by apply bool_decide_eq_true in Hf.
Qed.
Lemma update_quiet s ctx id u now : provisioned s -> quiet s (update_device s ctx id u now).2.
Proof.
  intros H. unfold update_device. destruct (match ud_name u with Some _ => _ | None => _ end); [by apply quiet_refl|].
  destruct (require_permission ctx ManageDevices); [|by apply quiet_refl]. cbn [snd]. unfold repo_update_device, update_device_in.
  destruct (device_row _ _ _) as [d|] eqn:E; [|by apply quiet_refl]. cbn [ud_fleet_id].
  destruct (negb _) eqn:Ef; [by apply quiet_refl|]. apply negb_false_iff in Ef. cbv zeta.
  set (u' := {| ud_name := ud_name u |}). set (s' := set_devices _ _).
  destruct (details_from s' (ctx_tenant ctx) id); simpl; [by apply (patched_quiet s (ctx_tenant ctx) id d u')|by apply quiet_refl].
Qed.
Lemma assign_keeps s tenant ids fleet now : provisioned s -> provisioned (repo_bulk_assign_fleet s tenant ids fleet now).2.
Proof.
  unfold repo_bulk_assign_fleet. destruct (each_device _ _ _) as [[n s']|e] eqn:E; [|done]. simpl.
  revert E. apply (each_device_ind (fun s _ s' => provisioned s -> provisioned s')); [done|].
  intros s0 id n0 s1 m s2 H Hs H0. apply Hs. unfold assign_fleet in H.
  destruct (device_row _ _ _) as [d|] eqn:E; [|by injection H as _ <-].
  destruct (negb _) eqn:Ef; [done|]. apply negb_false_iff in Ef. injection H as _ <-.
  apply (quiet_keeps s0); [done|]. by apply (patched_quiet s0 tenant).
Qed.
Lemma create_fleet_quiet s ctx name now : provisioned s -> quiet s (create_fleet s ctx name now).2.
Proof.
  intros H. unfold create_fleet. destruct (require_permission _ _); [|by apply quiet_refl].
  destruct (trim_is_empty name); [by apply quiet_refl|]. cbn [snd]. unfold repo_create_fleet.
  destruct (fleet_name_taken _ _ _ _); [by apply quiet_refl|]. destruct (negb _); [by apply quiet_refl|]. cbn [snd].
  apply quiet_fleets; [done|]. intros id d f Hd Hf. rewrite lookup_insert_ne; [done|]. intros <-.
  pose proof (pv_fleet s H id d _ Hd Hf) as E. by rewrite next_rowid_fresh in E.
Qed.
Lemma rename_fleet_quiet s ctx id name : provisioned s -> quiet s (rename_fleet s ctx id name).2.
Proof.
  intros H. unfold rename_fleet. destruct (require_permission _ _); [|by apply quiet_refl].
  destruct (_ =s? _); [by apply quiet_refl|]. cbn [snd]. unfold repo_rename_fleet.
  destruct (fleet_row _ _ _) as [f|] eqn:E; [|by apply quiet_refl]. destruct (fleet_name_taken _ _ _ _); [by apply quiet_refl|].
  apply fleet_row_some in E as [E Et]. apply quiet_fleets; [done|]. intros i d g Hd Hg.
  destruct (decide (id = g)) as [<-|]; [|by rewrite lookup_insert_ne]. rewrite lookup_insert_eq, E. simpl. by rewrite Et.
Qed.
Lemma delete_fleet_quiet s ctx id : provisioned s -> quiet s (delete_fleet s ctx id).2.
Proof.
  intros H. unfold delete_fleet. destruct (require_permission _ _); [|by apply quiet_refl]. cbn [snd]. unfold repo_delete_fleet.
  destruct (fleet_row _ _ _) as [f|] eqn:E; [|by apply quiet_refl]. destruct (fleet_used _ _ _) eqn:Eu; [by apply quiet_refl|].
  apply fleet_row_some in E as [E Et]. apply quiet_fleets; [done|]. intros i d g Hd Hg.
  destruct (decide (id = g)) as [<-|]; [|by rewrite lookup_delete_ne]. exfalso. apply not_true_iff_false in Eu. apply Eu.
  unfold fleet_used. apply existsb_exists. exists (i, d). split; [by apply list_elem_of_In, elem_of_map_to_list|]. simpl.
  pose proof (pv_fleet s H i d id Hd Hg) as Ef. rewrite E in Ef. injection Ef as <-.
  rewrite Et, String.eqb_refl. by apply bool_decide_eq_true.
Qed.
End quiet_work.

Section certificate_work.
Context {micros : ChronoMicros} {codec : SerdeJson} {extract : JsonExtract} {protector : KeyProtector}.
Lemma replace_key_quiet s tenant id expected key :
  provisioned s -> quiet s (replace_device_private_key_if_matches s tenant id expected key).2.
Proof.
  intros H. destruct (replace_key_cases s tenant id expected key) as [->|(row & Hr & _ & _ & ->)]; [by apply quiet_refl|].
  apply quiet_certificates; [done|]. intros i c [[<- <-]|[_ Hc]]%lookup_insert_Some; [by apply (pv_certificate s H id row)|by apply (pv_certificate s H i)].
Qed.
Lemma download_quiet s_read s ctx device : provisioned s -> quiet s (download s_read s ctx device).2.
Proof.
  intros H. unfold download. destruct (download_material _ _ _) as [[cert ca]|e]; [|by apply quiet_refl].
  destruct (_ =s? _); [by apply quiet_refl|]. destruct (unprotect _); [|by apply quiet_refl]. by apply replace_key_quiet.
Qed.
Lemma regenerate_quiet s_ca s ctx device generate now : provisioned s -> quiet s (regenerate s_ca s ctx device generate now).2.
Proof.
  intros H. unfold regenerate. destruct (regenerate_material _ _ _) as [[[ca c] key]|e]; [|by apply quiet_refl]. cbn [snd].
  unfold replace_device_certificate. destruct (replace_certificate_in _ _ _ _) as [[o s']|e] eqn:E; [|by apply quiet_refl].
  cbn [commit_devices snd]. unfold replace_certificate_in in E.
  destruct (negb _) eqn:Ed in E; [injection E as _ <-; by apply quiet_refl|]. cbv zeta in E.
  apply negb_false_iff, bool_decide_eq_true, device_row_owns in Ed.
  apply bind_ok in E as ([id s2] & (row & Hid & -> & Et & Edv & _)%insert_certificate_ok & E).
  apply bind_ok in E as (row' & Hrow'%ok_or_ok & E). simpl in Hrow'. rewrite lookup_insert_eq in Hrow'. injection Hrow' as <-.
  apply bind_ok in E as (record & Hd & [= _ <-]). simpl. rewrite insert_insert_eq.
  match goal with |- quiet s (set_certificates _ ?m) => apply (quiet_certificates s m) end; [done|].
  intros i k [[_ <-]|[_ [Hk _]%map_lookup_filter_Some]]%lookup_insert_Some; [simpl; by rewrite Et, Edv|by apply (pv_certificate s H i)].
Qed.
Lemma encrypt_one_quiet s r nonce : provisioned s -> quiet s (encrypt_one s r nonce).2.
Proof.
  intros H. destruct r as [id v|tenant id v]; simpl; (destruct (is_protected v); [by apply quiet_refl|]);
    (destruct (protect v nonce) as [p|e]; [|by apply quiet_refl]); simpl; [|by apply replace_key_quiet].
  unfold replace_ca_private_key_if_matches. destruct (ps_cas s !! id) as [c|]; [|by apply quiet_refl].
  destruct (_ =s? _); [by apply quiet_cas|by apply quiet_refl].
Qed.
Lemma encrypt_each_keeps rs s nonces : provisioned s -> provisioned (encrypt_each s rs nonces).2.
Proof.
  revert s nonces. induction rs as [|r rs IH]; intros s nonces H; [done|]. simpl.
  pose proof (quiet_keeps s _ H (encrypt_one_quiet s r (nonces 0%nat) H)) as Hs.
  destruct (encrypt_one s r (nonces 0%nat)) as [[u|e] s']; [by apply IH|done].
Qed.
Lemma encrypt_stored_keeps s nonces : provisioned s -> provisioned (encrypt_stored_private_keys s nonces).2.
Proof.
  intros H. unfold encrypt_stored_private_keys. destruct (negb _); [done|]. destruct (map_err _ _); [by apply encrypt_each_keeps|done].
Qed.
Lemma initialize_ca_quiet s material now : provisioned s -> quiet s (initialize_ca s material now).2.
Proof.
  intros H. unfold initialize_ca. destruct (map_err _ _) as [[?|]|?]; [by apply quiet_refl| |by apply quiet_refl].
  destruct material as [m|e]; [|by apply quiet_refl]. cbn [snd]. unfold insert_ca_if_absent.
  destruct (get_ca s) as [[?|]|?]; [by apply quiet_refl| |by apply quiet_refl]. cbn [mbind result_bind].
  destruct (decode_ca _); [by apply quiet_cas|by apply quiet_refl].
Qed.
End certificate_work.

(** ** Creation keeps devices complete *)
Section create_work.
Context {micros : ChronoMicros} {codec : SerdeJson} {extract : JsonExtract}.
Lemma created_owns s tenant r certificate now s' o :
  created s tenant r certificate now s' -> owns s' o <-> o = (tenant, cd_id r) \/ owns s o.
Proof.
  intros H. destruct o as [t i]. unfold owns. rewrite (cr_devices _ _ _ _ _ _ H). simpl.
  destruct (decide (cd_id r = i)) as [<-|Hne].
  - rewrite lookup_insert_eq, (cr_fresh _ _ _ _ _ _ H). naive_solver.
  - rewrite lookup_insert_ne by done. naive_solver.
Qed.
Lemma created_provisioned s tenant r certificate now s' :
  provisioned s -> created s tenant r certificate now s' -> provisioned s'.
Proof.
  intros Hs Hc. pose proof (fun o => created_owns s tenant r certificate now s' o Hc) as Ho.
  assert (forall o, owns s o -> owns s' o) as Hin by (intros o H; apply Ho; by right).
  assert (owns s' (tenant, cd_id r)) as Hnew by (apply Ho; by left).
  assert (forall o, owns s o -> o <> (tenant, cd_id r)) as Hne
    by (intros o H ->; unfold owns in H; simpl in H; by rewrite (cr_fresh _ _ _ _ _ _ Hc) in H).
  destruct Hc as [Eb Ef Eca Edep Hfresh Hfleet Horg Ed Es Ecert (doc & Hdoc & Hkf & Hrev & Ek) Ea Eg].
  assert (forall o, is_Some (ps_shadows s' !! o) <-> (tenant, cd_id r) = o \/ is_Some (ps_shadows s !! o)) as Hsh
    by (intros o; rewrite Es; apply (lookup_insert_is_Some' (ps_shadows s))).
  split.
  - rewrite Eb. apply Hs.
  - intros o [->|H]%Ho; simpl; unfold complete; rewrite Hsh, Ea, Ek, Eb.
    + rewrite lookup_insert_eq. split; [by left|]. unfold revision_key in Hrev. apply bool_decide_eq_true in Hrev.
      destruct (bs_revisions (ps_blueprints s) !! nc_blueprint_revision_id (cd_contract r)) as [rev|] eqn:Er; [|done].
      injection Hrev as Hrev. eexists _, _, rev. split_and!; [done|simpl; by rewrite lookup_insert_eq|done..].
    + pose proof (Hne o H) as Hn. destruct (pv_complete s Hs o H) as (H1 & a & c & rev & H2 & H3 & H4).
      destruct o as [t i]. simpl in *. rewrite lookup_insert_ne by (intros E; by apply Hn). split; [by right|]. exists a, c, rev.
      rewrite lookup_insert_ne by congruence. done.
  - intros i d f. rewrite Ed, Ef. intros [[<- <-]|[_ Hd]]%lookup_insert_Some E; [|by apply (pv_fleet s Hs i)].
    simpl in *. rewrite E in Hfleet. by apply bool_decide_eq_true in Hfleet.
  - intros o [<-|H]%Hsh; [done|by apply Hin, (pv_shadow s Hs)].
  - intros o. rewrite Ea, lookup_insert_is_Some. intros [<-|[_ H]]; [done|by apply Hin, (pv_assignment s Hs)].
  - intros o H. destruct (nc_initial_configuration (cd_contract r)) as [v|]; [destruct Eg as (text & _ & Eg)|]; rewrite Eg in H.
    + apply lookup_insert_is_Some in H as [<-|[_ H]]; [done|by apply Hin, (pv_config s Hs)].
    + by apply Hin, (pv_config s Hs).
  - intros i c. rewrite Ek. intros [[_ <-]|[_ H]]%lookup_insert_Some; [done|by apply Hin, (pv_contract s Hs i)].
  - intros i c H. destruct certificate as [n|]; [destruct Ecert as (id & row & _ & Ecert & Et & Edv & _)|]; rewrite Ecert in H.
    + apply lookup_insert_Some in H as [[_ <-]|[_ H]]; [by rewrite Et, Edv|by apply Hin, (pv_certificate s Hs i)].
    + by apply Hin, (pv_certificate s Hs i).
  - intros k o. rewrite Edep. intros H. by apply Hin, (pv_dependent s Hs k).
Qed.
End create_work.

(** ** Deletion

    The rows of a tenant's selected devices, and a store without them. *)
Definition gone (tenant : string) (ids : list string) (o : string * string) : bool := (o.1 =s? tenant) && bool_decide (o.2 ∈ ids).
Definition kept {K A} `{Countable K} (owner : K -> A -> string * string) (tenant : string) (ids : list string) (m : gmap K A) : gmap K A :=
  filter (fun e => gone tenant ids (owner e.1 e.2) = false) m.
Definition without (s : ProvisionStore) (tenant : string) (ids : list string) : ProvisionStore :=
  {| ps_blueprints := ps_blueprints s; ps_fleets := ps_fleets s;
     ps_devices := kept (fun id d => (pd_tenant d, id)) tenant ids (ps_devices s);
     ps_shadows := kept (fun o _ => o) tenant ids (ps_shadows s);
     ps_certificates := kept (fun _ c => (ce_tenant c, ce_device c)) tenant ids (ps_certificates s);
     ps_cas := ps_cas s;
     ps_contracts := kept (fun _ c => (kr_tenant c, kr_device c)) tenant ids (ps_contracts s);
     ps_assignments := kept (fun o _ => o) tenant ids (ps_assignments s);
     ps_configs := kept (fun o _ => o) tenant ids (ps_configs s);
     ps_dependents := kept (fun _ o => o) tenant ids (ps_dependents s) |}.
Lemma gone_spec tenant ids o : gone tenant ids o = true <-> o.1 = tenant /\ o.2 ∈ ids.
Proof. unfold gone. by rewrite andb_true_iff, String.eqb_eq, bool_decide_eq_true. Qed.
Lemma gone_one tenant id o : gone tenant [id] o = owned_by tenant id o.
Proof. apply eq_true_iff_eq. rewrite gone_spec, list_elem_of_singleton. unfold owned_by. by rewrite andb_true_iff, !String.eqb_eq. Qed.
Lemma gone_cons tenant id ids o : gone tenant (id :: ids) o = gone tenant [id] o || gone tenant ids o.
Proof. apply eq_true_iff_eq. rewrite orb_true_iff, !gone_spec. set_solver. Qed.
Section kept.
Context {K A : Type} `{Countable K} (owner : K -> A -> string * string).
Lemma kept_lookup tenant ids m k a : kept owner tenant ids m !! k = Some a <-> m !! k = Some a /\ gone tenant ids (owner k a) = false.
Proof. unfold kept. by rewrite map_lookup_filter_Some. Qed.
Lemma kept_cons tenant id ids m : kept owner tenant ids (kept owner tenant [id] m) = kept owner tenant (id :: ids) m.
Proof.
  apply map_eq. intros k. apply option_eq. intros a. rewrite !kept_lookup, (gone_cons _ id ids), orb_false_iff. tauto.
Qed.
Lemma kept_all tenant ids m : (forall k a, m !! k = Some a -> gone tenant ids (owner k a) = false) -> kept owner tenant ids m = m.
Proof. intros Hm. apply map_filter_id. intros k a Hk. by apply Hm. Qed.
End kept.
Lemma kept_delete {A} (tenant id : string) (m : gmap (string * string) A) :
  delete (tenant, id) m = kept (fun o _ => o) tenant [id] m.
Proof.
  apply map_eq. intros o. apply option_eq. intros a. rewrite kept_lookup, lookup_delete_Some, gone_one.
  unfold owned_by. destruct o as [t i]. simpl. destruct (String.eqb_spec t tenant), (String.eqb_spec i id); simpl; naive_solver.
Qed.
Lemma without_cons s tenant id ids : without (without s tenant [id]) tenant ids = without s tenant (id :: ids).
Proof. unfold without. simpl. by rewrite !kept_cons. Qed.
Lemma without_owns s tenant ids o : owns (without s tenant ids) o <-> owns s o /\ gone tenant ids o = false.
Proof.
  destruct o as [t i]. unfold owns. simpl. rewrite !fmap_Some. setoid_rewrite kept_lookup. split.
  - intros (d & [Hd Hg] & ->). split; [by exists d|done].
  - intros [(d & Hd & ->) Hg]. by exists d.
Qed.
Lemma without_provisioned s tenant ids : provisioned s -> provisioned (without s tenant ids).
Proof.
  intros H. split.
  - apply H.
  - intros o [Ho Hg]%without_owns. destruct (pv_complete s H o Ho) as ([sh H1] & a & c & r & H2 & H3 & H4 & H5 & H6).
    destruct o as [t i]. simpl in *. split.
    + exists sh. apply kept_lookup. done.
    + exists a, c, r. destruct H6 as [H6 H7]. split_and!; [by apply kept_lookup| |done..]. apply kept_lookup. by rewrite H4, H5.
  - intros i d f [Hd _]%kept_lookup. by apply (pv_fleet s H i).
  - intros o [x [Hx Hg]%kept_lookup]. apply without_owns. split; [by apply (pv_shadow s H); exists x|done].
  - intros o [x [Hx Hg]%kept_lookup]. apply without_owns. split; [by apply (pv_assignment s H); exists x|done].
  - intros o [x [Hx Hg]%kept_lookup]. apply without_owns. split; [by apply (pv_config s H); exists x|done].
  - intros i c [Hx Hg]%kept_lookup. apply without_owns. split; [by apply (pv_contract s H i)|done].
  - intros i c [Hx Hg]%kept_lookup. apply without_owns. split; [by apply (pv_certificate s H i)|done].
  - intros k o [Hx Hg]%kept_lookup. apply without_owns. split; [by apply (pv_dependent s H k)|done].
Qed.
(** Nothing is stored for a device that the tenant does not have. *)
Lemma without_missing s tenant id : provisioned s -> ~ owns s (tenant, id) -> without s tenant [id] = s.
Proof.
  intros H Hn.
  assert (forall o, owns s o -> gone tenant [id] o = false) as Hg.
  { intros o Ho. apply not_true_iff_false. rewrite gone_spec, list_elem_of_singleton. destruct o as [t i]. simpl. intros [-> ->]. done. }
  unfold without. rewrite !kept_all; [by destruct s|..].
  - intros k o Hk. by apply Hg, (pv_dependent s H k).
  - intros o x Hk. by apply Hg, (pv_config s H); exists x.
  - intros o x Hk. by apply Hg, (pv_assignment s H); exists x.
  - intros k c Hk. by apply Hg, (pv_contract s H k).
  - intros k c Hk. by apply Hg, (pv_certificate s H k).
  - intros o x Hk. by apply Hg, (pv_shadow s H); exists x.
  - intros i d Hk. apply Hg. unfold owns. simpl. by rewrite Hk.
Qed.
Lemma without_ext s tenant ids ids' : (forall id, id ∈ ids <-> id ∈ ids') -> without s tenant ids = without s tenant ids'.
Proof.
  intros H. assert (forall o, gone tenant ids o = gone tenant ids' o) as Hg
    by (intros o; apply eq_true_iff_eq; by rewrite !gone_spec, H).
  unfold without, kept. f_equal; apply map_filter_ext; intros; by rewrite Hg.
Qed.
Lemma blocked_exists s tenant id :
  blocked s tenant id = true <-> exists k, cascades k.1 = false /\ ps_dependents s !! k = Some (tenant, id).
Proof.
  unfold blocked. rewrite existsb_elem. split.
  - intros ([k o] & Hk%elem_of_map_to_list & [Hc Ho]%andb_true_iff). apply negb_true_iff in Hc. exists k. split; [done|].
    apply andb_true_iff in Ho as [<-%String.eqb_eq <-%String.eqb_eq]. by destruct o.
  - intros (k & Hc & Hk). exists (k, (tenant, id)). split; [by apply elem_of_map_to_list|]. simpl.
    unfold owned_by. simpl. by rewrite Hc, !String.eqb_refl.
Qed.
Lemma blocked_ext s s' tenant id :
  (forall k, cascades k.1 = false -> ps_dependents s' !! k = Some (tenant, id) <-> ps_dependents s !! k = Some (tenant, id)) ->
  blocked s' tenant id = blocked s tenant id.
Proof.
  intros H. apply eq_true_iff_eq. rewrite !blocked_exists. split; intros (k & Hc & Hk); exists k; (split; [done|]); by apply H.
Qed.
Lemma delete_one s tenant id :
  provisioned s ->
  delete_device_in tenant s id
  = if bool_decide (is_Some (device_row s tenant id))
    then if blocked s tenant id then Err foreign_key_violation else Ok (1%nat, without s tenant [id])
    else Ok (0%nat, s).
Proof.
  intros H. unfold delete_device_in. cbv zeta. change (device_row (delete_children s tenant id) tenant id) with (device_row s tenant id).
  destruct (device_row s tenant id) as [d|] eqn:E.
  - rewrite bool_decide_true by (by eexists). apply device_row_some in E as [E Et].
    assert (blocked (delete_children s tenant id) tenant id = blocked s tenant id) as ->.
    { apply blocked_ext. intros k Hk. simpl. rewrite map_lookup_filter_Some. simpl. split; [naive_solver|]. intros Hs. split; [done|].
      destruct k as [[] t]; try done; by rewrite andb_false_r. }
    destruct (blocked s tenant id); [done|]. do 2 f_equal. unfold remove_device, without. simpl. rewrite !kept_delete, kept_cons.
    unfold kept. f_equal.
    + apply map_eq. intros i. apply option_eq. intros d'. rewrite lookup_delete_Some, map_lookup_filter_Some, gone_one. simpl.
      unfold owned_by. simpl. destruct (String.eqb_spec (pd_tenant d') tenant), (String.eqb_spec i id); simpl; naive_solver.
    + exact (kept_delete tenant id (ps_shadows s)).
    + apply map_filter_ext. intros i c _. rewrite gone_one. by rewrite negb_true_iff.
    + apply map_filter_ext. intros i c _. rewrite gone_one. by rewrite negb_true_iff.
    + apply map_filter_ext. intros o x _. by rewrite (gone_cons _ id [id]), orb_diag.
    + apply map_eq. intros k. apply option_eq. intros o. rewrite !map_lookup_filter_Some. simpl. rewrite gone_one, !negb_true_iff.
      destruct (owned_by tenant id o); naive_solver.
  - rewrite bool_decide_false by (intros [? ?]; congruence).
    assert (~ owns s (tenant, id)) as Hn by (rewrite <- device_row_owns, E; by intros [? ?]).
    unfold delete_children. rewrite delete_id, map_filter_id; [by destruct s|..].
    + intros k o Hk%(pv_dependent s H). unfold owned_by. destruct o as [t i]. simpl.
      destruct (String.eqb_spec t tenant) as [->|], (String.eqb_spec i id) as [->|]; done.
    + apply eq_None_not_Some. intros Hs. by apply Hn, (pv_assignment s H).
Qed.
Lemma without_device_row s tenant id id' : id' <> id -> device_row (without s tenant [id]) tenant id' = device_row s tenant id'.
Proof.
  intros Hne. apply option_eq. intros d. unfold device_row. simpl.
  destruct (kept _ tenant [id] (ps_devices s) !! id') as [e|] eqn:E.
  - apply kept_lookup in E as [-> _]. done.
  - destruct (ps_devices s !! id') as [e|] eqn:E'; [|done]. exfalso.
    assert (kept (fun id d => (pd_tenant d, id)) tenant [id] (ps_devices s) !! id' = Some e); [|congruence].
    apply kept_lookup. split; [done|]. rewrite gone_one. unfold owned_by. simpl.
    destruct (String.eqb_spec id' id); [done|]. by rewrite andb_false_r.
Qed.
Lemma without_blocked s tenant id id' : id' <> id -> blocked (without s tenant [id]) tenant id' = blocked s tenant id'.
Proof.
  intros Hne. apply blocked_ext. intros k _. simpl. rewrite kept_lookup, gone_one. unfold owned_by. simpl.
  destruct (String.eqb_spec id' id); [done|]. rewrite andb_false_r. naive_solver.
Qed.
Definition has_device (s : ProvisionStore) (tenant id : string) : bool := bool_decide (is_Some (device_row s tenant id)).
Lemma delete_each tenant ids s :
  provisioned s -> NoDup ids ->
  let chosen := List.filter (has_device s tenant) ids in
  each_device (delete_device_in tenant) s ids
  = if existsb (blocked s tenant) chosen then Err foreign_key_violation else Ok (length chosen, without s tenant ids).
Proof.
  revert s. induction ids as [|id ids IH]; intros s H Hnd.
  { simpl. do 2 f_equal. unfold without. rewrite !kept_all; [by destruct s|..]; intros k a _; unfold gone;
      rewrite bool_decide_false by set_solver; by rewrite andb_false_r. }
  apply NoDup_cons in Hnd as [Hni Hnd]. cbn [each_device List.filter]. cbv zeta. rewrite delete_one by done.
  assert (forall id', id' ∈ ids -> id' <> id) as Hne by (intros id' Hi ->; done).
  change (bool_decide (is_Some (device_row s tenant id))) with (has_device s tenant id).
  destruct (has_device s tenant id) eqn:Ed.
  - cbn [existsb length]. destruct (blocked s tenant id); [done|]. cbn [mbind result_bind orb].
    rewrite (IH (without s tenant [id])) by (try apply without_provisioned; done). cbv zeta.
    assert (List.filter (has_device (without s tenant [id]) tenant) ids = List.filter (has_device s tenant) ids) as ->.
    { apply filter_ext_in. intros i Hi%list_elem_of_In. unfold has_device. by rewrite without_device_row by auto. }
    assert (existsb (blocked (without s tenant [id]) tenant) (List.filter (has_device s tenant) ids)
            = existsb (blocked s tenant) (List.filter (has_device s tenant) ids)) as ->.
    { apply eq_true_iff_eq. rewrite !existsb_elem. split; intros (i & Hi & Hb); exists i; (split; [done|]);
        apply elem_of_filterb in Hi as [Hi _]; pose proof (without_blocked s tenant id i (Hne i Hi)); congruence. }
    destruct (existsb _ _); [done|]. simpl. by rewrite without_cons.
  - cbn [mbind result_bind]. rewrite IH by done. cbv zeta. destruct (existsb _ _); [done|]. cbn [mbind result_bind].
    rewrite <- (without_cons s tenant id ids). rewrite (without_missing s); [done..|].
    rewrite <- device_row_owns. by apply bool_decide_eq_false in Ed.
Qed.
Lemma keep_unseen_spec seen ids id : id ∈ keep_unseen seen ids <-> id ∈ ids /\ id ∉ seen.
Proof.
  revert seen. induction ids as [|x ids IH]; intros seen; simpl; [set_solver|].
  destruct (bool_decide (x ∈ seen)) eqn:E; [apply bool_decide_eq_true in E|apply bool_decide_eq_false in E].
  - rewrite IH. set_solver.
  - rewrite elem_of_cons, IH. destruct (decide (id = x)) as [->|]; set_solver.
Qed.
Lemma keep_unseen_NoDup seen ids : NoDup (keep_unseen seen ids).
Proof.
  revert seen. induction ids as [|x ids IH]; intros seen; simpl; [constructor|].
  destruct (bool_decide (x ∈ seen)); [done|]. constructor; [|done]. rewrite keep_unseen_spec. set_solver.
Qed.
Lemma elem_of_normalize ids id : id ∈ normalize_device_ids ids <-> id ∈ ids.
Proof. unfold normalize_device_ids. rewrite keep_unseen_spec. set_solver. Qed.
Lemma sorted_set_NoDup l : NoDup (sorted_set l).
Proof. apply bt_sorted_keys_NoDup, bt_collect_sorted. Qed.
Lemma repo_bulk_delete_eq s tenant ids :
  provisioned s ->
  repo_bulk_delete s tenant ids
  = if existsb (blocked s tenant) (List.filter (has_device s tenant) (sorted_set ids)) then (Err foreign_key_violation, s)
    else (Ok (length (List.filter (has_device s tenant) (sorted_set ids))), without s tenant ids).
Proof.
  intros H. unfold repo_bulk_delete. rewrite (delete_each tenant (sorted_set ids) s H (sorted_set_NoDup ids)). cbv zeta.
  destruct (existsb _ _); [done|]. simpl. f_equal. apply without_ext. intros id. apply elem_of_sorted_set.
Qed.
Lemma delete_keeps s tenant ids : provisioned s -> provisioned (repo_bulk_delete s tenant ids).2.
Proof. intros H. rewrite repo_bulk_delete_eq by done. destruct (existsb _ _); [done|]. by apply without_provisioned. Qed.
Lemma join_device_id s id d j : join_device s id d = Some j -> jd_id j = id.
Proof.
  unfold join_device. intros (a & _ & H)%bind_Some. apply bind_Some in H as (c & _ & H). apply bind_Some in H as (r & _ & H).
  apply bind_Some in H as (b & _ & H). destruct (_ && _) in H; [|done]. by injection H as <-.
Qed.
Lemma elem_of_resolve_ids s tenant f id :
  id ∈ repo_resolve_ids s tenant f
  <-> exists d j, device_row s tenant id = Some d /\ join_device s id d = Some j /\ passes f j = true.
Proof.
  unfold repo_resolve_ids, joined_devices. rewrite list_elem_of_fmap. setoid_rewrite merge_sort_Permutation.
  setoid_rewrite elem_of_filterb. setoid_rewrite list_elem_of_omap. split.
  - intros (j & -> & ([i d] & Hi%elem_of_map_to_list & Hj) & Hp). simpl in Hj.
    destruct (String.eqb_spec (pd_tenant d) tenant) as [Et|]; [|done]. pose proof (join_device_id _ _ _ _ Hj) as ->.
    exists d, j. split_and!; [|done..]. unfold device_row. rewrite Hi. simpl. by rewrite Et, String.eqb_refl.
  - intros (d & j & [Hd Et]%device_row_some & Hj & Hp). exists j. split; [by rewrite (join_device_id _ _ _ _ Hj)|].
    split; [|done]. exists (id, d). split; [by apply elem_of_map_to_list|]. simpl. by rewrite Et, String.eqb_refl.
Qed.

(** ** Histories *)
Section histories.
Context {micros : ChronoMicros} {codec : SerdeJson} {extract : JsonExtract} {bcodec : BlueprintCodec} {ccodec : ContractCodec}
  {total : ContractCodecTotal} {protector : KeyProtector}.
(** One committed operation; what it read in earlier states is any state. *)
Inductive device_step (s : ProvisionStore) : ProvisionStore -> Prop :=
| step_provision s_rev s_ca ctx r id contract_id generate compiled_at now :
    device_step s (provision s_rev s_ca s ctx r id contract_id generate compiled_at now).2
| step_update ctx id u now : device_step s (update_device s ctx id u now).2
| step_assign ctx ids fleet now : device_step s (bulk_assign_fleet s ctx ids fleet now).2
| step_assign_selected s_read ctx sel fleet now : device_step s (assign_selected_devices s_read s ctx sel fleet now).2
| step_delete ctx id : device_step s (delete_device s ctx id).2
| step_bulk_delete ctx ids : device_step s (bulk_delete s ctx ids).2
| step_delete_selected s_read ctx sel : device_step s (delete_selected_devices s_read s ctx sel).2
| step_create_fleet ctx name now : device_step s (create_fleet s ctx name now).2
| step_rename_fleet ctx id name : device_step s (rename_fleet s ctx id name).2
| step_delete_fleet ctx id : device_step s (delete_fleet s ctx id).2
| step_download s_read ctx device : device_step s (download s_read s ctx device).2
| step_regenerate s_ca ctx device generate now : device_step s (regenerate s_ca s ctx device generate now).2
| step_initialize_ca material now : device_step s (initialize_ca s material now).2
| step_encrypt nonces : device_step s (encrypt_stored_private_keys s nonces).2
| step_create_blueprint ctx doc id did now :
    device_step s (set_blueprints s (create_blueprint (ps_blueprints s) ctx doc id did now).2)
| step_replace_draft ctx id doc now : device_step s (set_blueprints s (replace_draft (ps_blueprints s) ctx id doc now).2)
| step_publish s_d s_l ctx id rid now :
    device_step s (set_blueprints s (publish s_d s_l (ps_blueprints s) ctx id rid now).2)
| step_other s' : other_work s s' -> device_step s s'.

Lemma bulk_assign_keeps s ctx ids fleet now : provisioned s -> provisioned (bulk_assign_fleet s ctx ids fleet now).2.
Proof using. intros H. unfold bulk_assign_fleet. destruct (require_permission _ _); [by apply assign_keeps|done]. Qed.
Lemma bulk_delete_keeps s ctx ids : provisioned s -> provisioned (bulk_delete s ctx ids).2.
Proof using. intros H. unfold bulk_delete. destruct (require_permission _ _); [by apply delete_keeps|done]. Qed.
Lemma provision_keeps s_rev s_ca s ctx r id contract_id generate compiled_at now :
  provisioned s -> provisioned (provision s_rev s_ca s ctx r id contract_id generate compiled_at now).2.
Proof using.
  intros H. unfold provision. destruct (trim_is_empty _); [done|]. destruct (require_permission _ _); [|done].
  destruct (compile_device_contract _ _ _ _ _ _ _ _) as [[c|e]|]; [|done..]. simpl. unfold create_device.
  destruct (_ ≫= _) as [certificate|e]; [|done]. simpl. unfold repo_create_device.
  destruct (create_device_in _ _ _ _ _) as [[d s']|e] eqn:E; [|done]. apply create_device_ok in E as [E _].
  by apply (created_provisioned _ _ _ _ _ _ H E).
Qed.
Lemma device_step_ok s s' : device_step s s' -> provisioned s -> provisioned s'.
Proof using.
  intros Hstep H. destruct Hstep; try by (apply (quiet_keeps s); [done|];
    first [apply update_quiet|apply create_fleet_quiet|apply rename_fleet_quiet|apply delete_fleet_quiet|apply download_quiet
          |apply regenerate_quiet|apply initialize_ca_quiet|apply quiet_other]).
  - by apply provision_keeps.
  - by apply bulk_assign_keeps.
  - unfold assign_selected_devices. destruct (resolve_target_ids _ _ _); [by apply bulk_assign_keeps|done].
  - unfold delete_device. destruct (require_permission _ _); [by apply delete_keeps|done].
  - by apply bulk_delete_keeps.
  - unfold delete_selected_devices. destruct (resolve_target_ids _ _ _); [by apply bulk_delete_keeps|done].
  - by apply encrypt_stored_keeps.
  - apply (quiet_keeps s); [done|]. apply quiet_blueprints; [done|]. apply create_grows, H.
  - apply (quiet_keeps s); [done|]. apply quiet_blueprints; [done|]. apply replace_grows, H.
  - apply (quiet_keeps s); [done|]. apply quiet_blueprints; [done|]. apply publish_grows, H.
Qed.
Lemma device_run_ok s s' : rtc device_step s s' -> provisioned s -> provisioned s'.
Proof using. induction 1 as [|s1 s2 s3 Hstep _ IH]; [done|]. intros H. by apply IH, (device_step_ok s1). Qed.
(** A database with organizations and blueprints, before its first device. *)
Definition empty_store (b : BlueprintStore) : ProvisionStore :=
  {| ps_blueprints := b; ps_fleets := ∅; ps_devices := ∅; ps_shadows := ∅; ps_certificates := ∅; ps_cas := ∅;
     ps_contracts := ∅; ps_assignments := ∅; ps_configs := ∅; ps_dependents := ∅ |}.
Lemma empty_is_None {K A} `{Countable K} (k : K) : ~ is_Some ((∅ : gmap K A) !! k).
Proof using. rewrite lookup_empty. by intros [? ?]. Qed.
Lemma empty_provisioned b : blueprints_ok b -> provisioned (empty_store b).
Proof using.
  intros H. split; simpl; [done|..].
  - intros o Ho. destruct (empty_is_None (A:=DeviceRow) o.2). unfold owns in Ho. simpl in Ho. by destruct (∅ !! o.2).
  - intros id d f Hd. by rewrite lookup_empty in Hd.
  - by intros o Ho%empty_is_None.
  - by intros o Ho%empty_is_None.
  - by intros o Ho%empty_is_None.
  - intros i c Hc. by rewrite lookup_empty in Hc.
  - intros i c Hc. by rewrite lookup_empty in Hc.
  - intros k o Hk. by rewrite lookup_empty in Hk.
Qed.
Lemma provisioned_joins s id d : provisioned s -> ps_devices s !! id = Some d -> is_Some (join_device s id d).
Proof using.
  intros H Hd. destruct (pv_complete s H (pd_tenant d, id)) as (_ & a & c & r & Ha & Hc & Hct & Hcd & Hr & Hrt).
  { unfold owns. simpl. by rewrite Hd. }
  simpl in *. unfold join_device. rewrite Ha. simpl. rewrite Hc. simpl. rewrite Hr. simpl.
  pose proof (bo_owner _ (pv_blueprints s H) _ r Hr) as Hb. destruct (bs_blueprints (ps_blueprints s) !! rw_blueprint r) as [b|]; [|done].
  simpl. injection Hb as Hb. rewrite Hct, Hcd, Hb, Hrt, !String.eqb_refl. by eexists.
Qed.

(** C24. Devices are always complete.  After any history of provisioning,
    updates, batches, selections, deletions, fleets, certificates, blueprint
    work and the work of other components, every device has its shadow and an
    assigned contract of its own, its fleet is one of its tenant, no shadow,
    assignment, configuration, contract, certificate or dependent row is left
    without its device, and the inner joins of the listings lose no device. *)
Theorem devices_complete b s :
  blueprints_ok b -> rtc device_step (empty_store b) s ->
  provisioned s /\ forall id d, ps_devices s !! id = Some d -> is_Some (join_device s id d).
Proof using.
  intros Hb Hrun. assert (provisioned s) as H by (apply (device_run_ok _ _ Hrun); by apply empty_provisioned).
  split; [done|]. intros id d. by apply provisioned_joins.
Qed.

(** Provisioning a device.  It never panics; when it fails nothing is
    stored; and when it succeeds exactly these rows were added: the device,
    a fresh shadow, the contract with a pending assignment, the configuration
    if the contract desires one, and a certificate if there is a certificate
    authority.  The contract is the closed contract of that device, tenant
    and revision, with its verified hash, and the answer is what a later read
    of the device returns. *)
Theorem provision_exact s_rev s_ca s ctx r id contract_id generate compiled_at now :
  let w := provision s_rev s_ca s ctx r id contract_id generate compiled_at now in
  w.1 <> None
  /\ (forall e, w.1 = Some (Err e) -> w.2 = s)
  /\ (forall details, w.1 = Some (Ok details) ->
      exists record certificate k,
        prepare_device s_ca ctx generate = Ok certificate
        /\ created s (ctx_tenant ctx) record certificate now w.2
        /\ cd_id record = id /\ cd_name record = pr_name r /\ cd_fleet_id record = pr_fleet_id r
        /\ records_contract (cd_contract record) k contract_id (pr_blueprint_revision_id r)
        /\ contract_sound (document k) /\ verify_hash k = Ok true
        /\ doc_device_id (document k) = id /\ doc_tenant_id (document k) = ctx_tenant ctx
        /\ details_from w.2 (ctx_tenant ctx) id = Ok (Some details)).
Proof using total.
  cbv zeta. unfold provision. destruct (trim_is_empty (pr_name r)); [by split_and!; try (intros ? [= <-])|].
  destruct (require_permission ctx ManageDevices) as [u|e] eqn:Ep; [|by split_and!; try (intros ? [= <-])].
  destruct (compiled_record (ps_blueprints s_rev) ctx (pr_blueprint_revision_id r) contract_id id
              (pr_automatic_zenoh_endpoint r) (pr_configuration r) compiled_at) as [Hn Hr].
  destruct (compile_device_contract _ _ _ _ _ _ _ _) as [[c|e]|]; [|by split_and!; try (intros ? [= <-])|done].
  destruct (Hr c eq_refl) as (k & Hs & Hv & Hrec & Hd & Ht). cbn [fst snd]. unfold create_device. rewrite Ep. cbn [mbind result_bind].
  destruct (prepare_device s_ca ctx generate) as [certificate|e] eqn:Ec; [|by split_and!; try (intros ? [= <-])].
  cbn [fst snd]. unfold repo_create_device. set (record := {| cd_id := id |}).
  destruct (create_device_in s (ctx_tenant ctx) record certificate now) as [[d s']|e] eqn:E;
    [|split_and!; [done|by intros|done]].
  apply create_device_ok in E as [E Hdet]. cbn [commit_devices fst snd map_err]. split_and!; [done|done|].
  intros details [= <-]. by exists record, certificate, k.
Qed.

(** A batch of deletions is all or nothing.  In a store as histories leave
    it, when one of the selected devices of the tenant has an alert or a
    firmware deployment the whole batch is refused and nothing changes;
    otherwise exactly the rows of the selected devices of that tenant are
    removed, from every table, and their number is returned. *)
Theorem bulk_delete_exact s ctx ids :
  provisioned s -> require_permission ctx ManageDevices = Ok tt ->
  let tenant := ctx_tenant ctx in
  let chosen := filter (fun id => has_device s tenant id = true) (list_to_set ids : gset string) in
  (exists id, id ∈ chosen /\ blocked s tenant id = true)
    /\ bulk_delete s ctx ids = (Err (Persistence foreign_key_violation), s)
  \/ (forall id, id ∈ chosen -> blocked s tenant id = false)
    /\ bulk_delete s ctx ids = (Ok (size chosen), without s tenant ids).
Proof using.
  intros H Hp. cbv zeta. unfold bulk_delete. rewrite Hp, repo_bulk_delete_eq by done.
  set (l := List.filter _ _). set (chosen := filter _ (list_to_set ids)).
  assert (forall id, id ∈ l <-> id ∈ chosen) as Hl.
  { intros id. unfold l, chosen. rewrite elem_of_filterb, elem_of_sorted_set, elem_of_normalize, elem_of_filter, elem_of_list_to_set. tauto. }
  destruct (existsb (blocked s (ctx_tenant ctx)) l) eqn:E; [left|right].
  - split; [|done]. apply existsb_elem in E as (id & Hid & Hb). exists id. by rewrite <- Hl.
  - split; [intros id Hid%Hl; apply not_true_iff_false; intros Hb; apply not_true_iff_false in E; apply E, existsb_elem; by exists id|].
    cbn [fst snd map_err]. f_equal.
    + f_equal. rewrite <- (size_list_to_set (C:=gset string) l) by (apply NoDup_ListNoDup, List.NoDup_filter, NoDup_ListNoDup, sorted_set_NoDup).
      f_equal. apply set_eq. intros id. by rewrite elem_of_list_to_set.
    + apply without_ext. intros id. apply elem_of_normalize.
Qed.

(** Selecting devices.  A resolved selection has no duplicates and at most
    the given number of devices; selecting all returns exactly the tenant's
    devices that pass the filter, each of them found by the joins, and every
    device of the tenant when there is no filter; an explicit list returns its
    own elements. *)
Theorem selection_exact s ctx sel ids :
  provisioned s -> resolve_target_ids s ctx sel = Ok ids ->
  NoDup ids /\ (length ids <= sel_max_size sel)%nat
  /\ (sel_select_all sel = true -> forall id,
        id ∈ ids <-> exists d j, device_row s (ctx_tenant ctx) id = Some d /\ join_device s id d = Some j
                                /\ passes (sel_filter sel) j = true)
  /\ (sel_select_all sel = true -> sel_filter sel = {| ft_status := None; ft_search := None; ft_fleet_id := None |} ->
      forall id, id ∈ ids <-> has_device s (ctx_tenant ctx) id = true)
  /\ (sel_select_all sel = false -> exists given, sel_device_ids sel = Some given /\ forall id, id ∈ ids <-> id ∈ given).
Proof using.
  intros H Hr. unfold resolve_target_ids in Hr. apply bind_ok in Hr as (u & _ & Hr). apply bind_ok in Hr as (l & Hl & Hr).
  destruct (_ <? _)%nat eqn:En in Hr; [done|]. injection Hr as <-. apply Nat.ltb_ge in En.
  assert (sel_select_all sel = true -> forall id, id ∈ normalize_device_ids l <-> exists d j,
    device_row s (ctx_tenant ctx) id = Some d /\ join_device s id d = Some j /\ passes (sel_filter sel) j = true) as Hall.
  { intros Ea id. rewrite Ea in Hl. injection Hl as <-. rewrite elem_of_normalize. apply elem_of_resolve_ids. }
  split_and!; [apply keep_unseen_NoDup|done|done|..].
  - intros Ea Ef id. rewrite (Hall Ea), Ef. unfold has_device. rewrite bool_decide_eq_true. split.
    + intros (d & j & -> & _). by eexists.
    + intros [d Hd]. pose proof (device_row_some s _ id d Hd) as [Hd' _]. destruct (provisioned_joins s id d H Hd') as [j Hj].
      by exists d, j.
  - intros Ea. rewrite Ea in Hl. apply ok_or_ok in Hl. exists l. split; [done|]. intros id. apply elem_of_normalize.
Qed.
End histories.

(** ** Witnesses: two devices of a cold room, one of them with an alert *)
#[local] Existing Instance BlueprintHistory.demo_micros.
#[local] Existing Instance BlueprintHistory.demo_serde.
#[local] Existing Instance BlueprintHistory.demo_blueprints.
#[local] Existing Instance BlueprintHistory.demo_contracts.
#[local] Existing Instance Certificates.demo_extract.
#[local] Existing Instance Certificates.demo_protector.
#[local] Existing Instance demo_contracts_total.
Lemma demo_blueprints_ok : blueprints_ok demo_5.
Proof.
  assert (blueprints_ok demo_0) as H0 by (split; intros id r; simpl; by rewrite lookup_empty).
  pose proof (proj2 (create_grows _ demo_admin (VString "cold room") "b" "d" 1000 H0)) as H1.
  pose proof (proj2 (publish_grows demo_1 demo_1 _ demo_admin "b" "r1" 2000 H1)) as H2.
  pose proof (proj2 (replace_grows _ demo_admin "b" (VString "larger messages") 3000 H2)) as H3.
  pose proof (proj2 (publish_grows demo_1 demo_2 _ demo_admin "b" "stale" 4000 H3)) as H4.
  exact (proj2 (publish_grows demo_3 demo_4 _ demo_admin "b" "r2" 5000 H4)).
Qed.
Definition demo_request (name : string) : ProvisionDevice :=
  {| pr_name := name; pr_blueprint_revision_id := "r2"; pr_fleet_id := None; pr_firmware := None;
     pr_configuration := None; pr_automatic_zenoh_endpoint := "tls/zenoh:7447" |}.
Definition demo_issue (device : string) (ca : CaCertificateRecord) : result ApplicationError NewDeviceCertificateRecord :=
  Ok {| nd_device_id := device; nd_private_key_pem := "key " +:+ device; nd_certificate_pem := cc_certificate_pem ca;
        nd_fingerprint := "fp " +:+ device; nd_expires_at := 9000000 |}.
Definition demo_empty : ProvisionStore := empty_store demo_5.
Definition demo_ca : ProvisionStore :=
  (initialize_ca demo_empty (Ok {| nk_private_key_pem := "ca key"; nk_certificate_pem := "ca" |}) 5500).2.
Definition demo_add (s : ProvisionStore) (device contract : string) :=
  provision s s s demo_admin (demo_request device) device contract (demo_issue device) 6000 6001.
Definition demo_first := demo_add demo_ca "device-1" "contract-1".
Definition demo_second := demo_add demo_first.2 "device-2" "contract-2".
Definition demo_alerted : ProvisionStore := set_dependents demo_second.2 {[(Alert, "alert-1") := ("acme", "device-2")]}.
Example demo_provisions : (succeeds demo_first.1, succeeds demo_second.1) = (true, true).
Proof. vm_compute. reflexivity. Qed.
Lemma demo_owner : owns demo_second.2 ("acme", "device-2").
Proof. vm_compute. reflexivity. Qed.
Lemma demo_devices_run : rtc device_step demo_empty demo_second.2.
Proof.
  apply (rtc_l _ _ demo_ca); [apply step_initialize_ca|]. apply (rtc_l _ _ demo_first.2); [apply step_provision|].
  apply rtc_once, step_provision.
Qed.
Lemma demo_run : rtc device_step demo_empty demo_alerted.
Proof.
  apply (rtc_r _ demo_second.2); [apply demo_devices_run|]. apply step_other, dependents_other.
  - apply (device_run_ok _ _ demo_devices_run). apply empty_provisioned, demo_blueprints_ok.
  - intros k o [_ <-]%lookup_singleton_Some. apply demo_owner.
Qed.
Lemma demo_provisioned : provisioned demo_alerted.
Proof. apply (device_run_ok _ _ demo_run). apply empty_provisioned, demo_blueprints_ok. Qed.
Lemma demo_alerted_owner : owns demo_alerted ("acme", "device-2").
Proof. vm_compute. reflexivity. Qed.
Lemma devices_complete_witness : owns demo_alerted ("acme", "device-2") /\ complete demo_alerted "acme" "device-2".
Proof.
  split; [exact demo_alerted_owner|].
  exact (pv_complete _ (proj1 (devices_complete demo_5 demo_alerted demo_blueprints_ok demo_run)) ("acme", "device-2") demo_alerted_owner).
Defined.
Lemma provision_exact_witness :
  exists record certificate, prepare_device demo_ca demo_admin (demo_issue "device-1") = Ok certificate
    /\ created demo_ca "acme" record certificate 6001 demo_first.2 /\ cd_id record = "device-1".
Proof.
  destruct (provision_exact demo_ca demo_ca demo_ca demo_admin (demo_request "device-1") "device-1" "contract-1"
              (demo_issue "device-1") 6000 6001) as (_ & _ & H).
  destruct (succeeds_ok demo_first.1 (f_equal fst demo_provisions)) as [details Hd].
  destruct (H details Hd) as (record & certificate & k & H1 & H2 & H3 & _). exists record, certificate.
  split; [exact H1|]. split; [exact H2|exact H3].
Defined.
Lemma demo_chosen :
  has_device demo_alerted "acme" "device-2" = true /\ blocked demo_alerted "acme" "device-2" = true
  /\ blocked demo_alerted "acme" "device-1" = false.
Proof. vm_compute. done. Qed.
Lemma bulk_delete_exact_witness :
  bulk_delete demo_alerted demo_admin ["device-1"; "device-2"] = (Err (Persistence foreign_key_violation), demo_alerted)
  /\ (bulk_delete demo_alerted demo_admin ["device-1"]).2 = without demo_alerted "acme" ["device-1"].
Proof.
  destruct demo_chosen as (Hhas & Hb2 & Hb1). split.
  - destruct (bulk_delete_exact demo_alerted demo_admin ["device-1"; "device-2"] demo_provisioned eq_refl) as [[_ H]|[H _]];
      [exact H|]. specialize (H "device-2"). rewrite elem_of_filter, elem_of_list_to_set in H.
    change (ctx_tenant demo_admin) with "acme" in H. rewrite Hb2 in H. discriminate H. split; [exact Hhas|]. apply elem_of_cons. right. by apply list_elem_of_singleton.
  - destruct (bulk_delete_exact demo_alerted demo_admin ["device-1"] demo_provisioned eq_refl) as [[(id & Hid & Hb) _]|[_ H]];
      [|rewrite H; reflexivity].
    rewrite elem_of_filter, elem_of_list_to_set, list_elem_of_singleton in Hid. destruct Hid as [_ ->].
    change (ctx_tenant demo_admin) with "acme" in Hb. rewrite Hb1 in Hb. discriminate Hb.
Defined.
Definition demo_selection : DeviceTargetSelection :=
  {| sel_device_ids := None; sel_select_all := true;
     sel_filter := {| ft_status := None; ft_search := None; ft_fleet_id := None |}; sel_max_size := 100 |}.
Lemma demo_selected : resolve_target_ids demo_alerted demo_admin demo_selection = Ok ["device-1"; "device-2"].
Proof. vm_compute. reflexivity. Qed.
Lemma selection_exact_witness :
  (length ["device-1"; "device-2"] <= sel_max_size demo_selection)%nat
  /\ forall id, id ∈ ["device-1"; "device-2"] <-> has_device demo_alerted "acme" id = true.
Proof.
  destruct (selection_exact demo_alerted demo_admin demo_selection _ demo_provisioned demo_selected) as (_ & H1 & _ & H2 & _).
  split; [exact H1|exact (H2 eq_refl eq_refl)].
Defined.
