(* ===== verification/DeviceBatches.v ===== *)
(** * Batches over selected devices (crates/backend-core/src/application/bulk_devices.rs)

    Restarting and updating a selection: the devices are resolved once, then
    handled one by one; a failure of one device is its outcome and does not
    stop the batch. *)
From S2P Require Import Prelude Text BTree Json Errors Access RuleTypes Shadows RuleSnapshot EventStore RuleAdminStore.
From S2P Require Import Firmware ContractModel Commands BlueprintStore Blueprints ProvisionStore Devices DeviceHistory.

Local Open Scope Z_scope.

Definition DeviceBatchOutcomes : Type := list (string * result ApplicationError unit).
Definition forget {A} (r : result ApplicationError A) : result ApplicationError unit := _ ← r; Ok tt.

Section batches.
Context {micros : ChronoMicros} {codec : SerdeJson} {host : CommandHost}.

(** Per iteration: the correlation id and the clock. *)
Fixpoint restart_each (w : CommandWorld) (ctx : TenantContext) (ids : list string) (fresh : nat -> string * Z)
    : DeviceBatchOutcomes * CommandWorld :=
  match ids with
  | [] => ([], w)
  | id :: rest =>
    let r := send w ctx id "restart" (Object []) (fresh 0%nat).1 (fresh 0%nat).2 in
    let q := restart_each r.2 ctx rest (fun n => fresh (S n)) in
    ((id, forget r.1) :: q.1, q.2)
  end.
Definition restart_selected_devices (s : ProvisionStore) (w : CommandWorld) (ctx : TenantContext) (sel : DeviceTargetSelection)
    (fresh : nat -> string * Z) : result ApplicationError DeviceBatchOutcomes * CommandWorld :=
  match require_permission ctx SendCommands with
  | Err e => (Err e, w)
  | Ok _ =>
    match resolve_target_ids s ctx sel with
    | Err e => (Err e, w)
    | Ok ids => let q := restart_each w ctx ids fresh in (Ok q.1, q.2)
    end
  end.

(** What the host's publisher is given: device, delta and version. *)
Definition Published : Type := list (string * value * Z).
Record OtaRequest := {
  or_firmware : Z; or_public_url : string; or_sign : FirmwareDownloadGrant -> result ApplicationError string;
  (** the key the database gives the inserted row *)
  or_rowid : OtaStore -> Z;
}.
(** Per iteration: the application's clock and the two readings of the repository. *)
Fixpoint deploy_each (s : OtaStore) (ctx : TenantContext) (q : OtaRequest) (ids : list string) (clock : nat -> Z * Z * Z)
    : DeviceBatchOutcomes * Published * OtaStore :=
  match ids with
  | [] => ([], [], s)
  | id :: rest =>
    let '(at_, now, now') := clock 0%nat in
    let r := app_trigger_ota s ctx id (or_firmware q) (or_public_url q) at_ (or_sign q) (or_rowid q s) now now' in
    let '(outcomes, published, s') := deploy_each r.2 ctx q rest (fun n => clock (S n)) in
    ((id, forget r.1) :: outcomes,
     match r.1 with Ok (delta, version) => (id, delta, version) :: published | Err _ => published end, s')
  end.
Definition deploy_selected_devices (s_read : ProvisionStore) (s : OtaStore) (ctx : TenantContext) (sel : DeviceTargetSelection)
    (q : OtaRequest) (clock : nat -> Z * Z * Z) : result ApplicationError DeviceBatchOutcomes * Published * OtaStore :=
  match require_permission ctx DeployFirmware with
  | Err e => (Err e, [], s)
  | Ok _ =>
    match resolve_target_ids s_read ctx sel with
    | Err e => (Err e, [], s)
    | Ok ids => let '(outcomes, published, s') := deploy_each s ctx q ids clock in (Ok outcomes, published, s')
    end
  end.

(** ** Every selected device has its outcome *)
Lemma restart_outcomes w ctx ids fresh : (restart_each w ctx ids fresh).1.*1 = ids.
Proof. revert w fresh. induction ids as [|id ids IH]; intros w fresh; [done|]. simpl. f_equal. apply IH. Qed.
(** The devices an update was published for are those that answered [Ok], in order. *)
Definition succeeded_devices (o : DeviceBatchOutcomes) : list string :=
  omap (fun e : string * result ApplicationError unit => match e.2 with Ok _ => Some e.1 | Err _ => None end) o.
Lemma deploy_outcomes s ctx q ids clock :
  let r := deploy_each s ctx q ids clock in
  r.1.1.*1 = ids /\ (fun e : string * value * Z => e.1.1) <$> r.1.2 = succeeded_devices r.1.1.
Proof.
  revert s clock. induction ids as [|id ids IH]; intros s clock; [done|]. simpl. destruct (clock 0%nat) as [[at_ now] now'].
  set (t := app_trigger_ota _ _ _ _ _ _ _ _ _ _). specialize (IH t.2 (fun n => clock (S n))). cbv zeta in IH.
  destruct (deploy_each t.2 ctx q ids _) as [[outcomes published] s']. simpl in *. destruct IH as [IH1 IH2]. split; [by f_equal|].
  destruct t.1 as [[delta version]|e]; simpl; [by f_equal|done].
Qed.
End batches.
