(* ===== verification/AnalyticsStore.v ===== *)
(** * Metric analytics: records and queries (crates/backend-core/src/analytics.rs,
    crates/backend-turso/src/analytics.rs)

    A query counts the devices of a scope, finds those a metric is compatible
    with, and groups their numbers into buckets: from the raw samples, or, for
    buckets of at least an hour, from the hourly rollups for the full hours of
    the range and from raw samples for its edges. *)
From stdpp Require Import sorting.
From S2P Require Import Prelude Text Float64 BTree Json Errors RuleTypes Shadows RuleSnapshot Outbox EventStore.
From S2P Require Import BlueprintStore ProvisionStore.

Local Open Scope Z_scope.

(** ** Records *)
Record AnalyticsMetricSelector := { an_blueprint_id : string; an_stream_key : string; an_field_path : string }.
#[global] Instance AnalyticsMetricSelector_eq_dec : EqDecision AnalyticsMetricSelector.
Proof. solve_decision. Defined.
Record AnalyticsMetric := {
  am_selector : AnalyticsMetricSelector; am_blueprint_key : string; am_blueprint_name : string; am_label : string;
  am_unit : option string; am_value_type : string; am_aggregates : list string; am_precision : option Z;
}.
Definition metric_key (m : AnalyticsMetric) : string :=
  an_stream_key (am_selector m) +:+ "." +:+ an_field_path (am_selector m).
Record AnalyticsBlueprintRevision := {
  ar_blueprint_id : string; ar_blueprint_key : string; ar_blueprint_name : string; ar_revision_id : string;
  ar_revision : Z; ar_document : value;
}.
Record AnalyticsScope := { sc_fleet_ids : list Z; sc_device_ids : list string }.
Inductive AnalyticsSeriesMode := PerDevice | FleetMean | MeanAndRange | LatestRanking.
Inductive AnalyticsWeighting := EqualDevice | WeightSample.
Inductive AnalyticsDataSource := BlueprintMetricSamples | BlueprintMetricSamplesAndRollups.
Record AnalyticsRequest := {
  rq_scope : AnalyticsScope; rq_metric : AnalyticsMetricSelector; rq_start : NaiveDateTime; rq_end : NaiveDateTime;
  rq_bucket_seconds : option Z; rq_mode : AnalyticsSeriesMode; rq_weighting : AnalyticsWeighting;
  rq_max_points : option Z;
}.
Record AnalyticsQuery := {
  qy_scope : AnalyticsScope; qy_metric : AnalyticsMetric; qy_revisions : list string; qy_start : NaiveDateTime;
  qy_end : NaiveDateTime; qy_bucket_seconds : Z; qy_max_devices : Z; qy_max_rows : Z;
}.
Record AnalyticsDevice := { ad_id : string; ad_name : string }.
Record AnalyticsBucket := {
  bk_device_id : string; bk_device_name : string; bk_start : NaiveDateTime; bk_count : Z; bk_average : f64;
  bk_minimum : f64; bk_maximum : f64; bk_latest : f64;
}.
Record AnalyticsQueryData := {
  qd_source : AnalyticsDataSource; qd_selected : Z; qd_compatible : Z; qd_devices : list AnalyticsDevice;
  qd_buckets : list AnalyticsBucket;
}.

(** ** Windows *)
Definition checked_i64 (z : Z) : option Z := if Int.in_i64 z then Some z else None.
Section windows.
Context `{!ChronoMicros}.
(** [DateTime::from_timestamp_micros]. *)
Definition from_micros (z : Z) : option NaiveDateTime := if micros_in_range z then Some (z * 1000) else None.
Definition full_hour_rollup_window (start end_ now : NaiveDateTime) : option (NaiveDateTime * NaiveDateTime) :=
  let start_us := timestamp_micros start in
  let end_us := Z.min (timestamp_micros end_) (timestamp_micros now) in
  first ← checked_i64 (start_us / HOUR_MICROS + Z.b2z (negb (start_us mod HOUR_MICROS =? 0)));
  first ← checked_i64 (first * HOUR_MICROS);
  last ← checked_i64 (end_us / HOUR_MICROS * HOUR_MICROS);
  if last <=? first then None else
  a ← from_micros first; b ← from_micros last; Some (a, b).
End windows.
Definition metric_range_retained (start end_ : NaiveDateTime) (window : option (NaiveDateTime * NaiveDateTime))
    (raw rollup : NaiveDateTime) : bool :=
  match window with
  | None => raw <=? start
  | Some (full_start, full_end) =>
    (rollup <=? start) && ((start =? full_start) || (raw <=? start)) && ((full_end =? end_) || (raw <=? full_end))
  end.

(** ** Tables: the events, the devices and the blueprints *)
Record AnalyticsTables := { at_events : EventStore; at_devices : gmap string DeviceRow; at_blueprints : BlueprintStore }.

Section catalog.
Context `{!SerdeJson}.
(** ORDER BY name, id, revision DESC. *)
Definition catalog_le (a b : string * BlueprintRow * (string * RevisionRow)) : Prop :=
  match String.compare (bp_name a.1.2) (bp_name b.1.2) with
  | Lt => True | Gt => False
  | Eq => match String.compare a.1.1 b.1.1 with
          | Lt => True | Gt => False
          | Eq => rw_revision b.2.2 <= rw_revision a.2.2
          end
  end.
#[global] Instance catalog_le_dec a b : Decision (catalog_le a b).
Proof. unfold catalog_le. repeat case_match; apply _. Defined.
Definition catalog_rows (b : BlueprintStore) (tenant : string) : list (string * BlueprintRow * (string * RevisionRow)) :=
  omap (fun e : string * RevisionRow =>
          row ← bs_blueprints b !! rw_blueprint e.2;
          if (bp_tenant row =s? tenant) && (rw_tenant e.2 =s? bp_tenant row) then Some (rw_blueprint e.2, row, e) else None)
    (map_to_list (bs_revisions b)).
(** Stored revision numbers are in the range of [i32]. *)
Definition read_catalog (e : string * BlueprintRow * (string * RevisionRow))
    : result PersistenceError AnalyticsBlueprintRevision :=
  document ← map_err (fun t => CorruptData ("stored blueprint revision document is invalid: " +:+ t))
               (from_str (rw_document e.2.2));
  Ok {| ar_blueprint_id := e.1.1; ar_blueprint_key := bp_key e.1.2; ar_blueprint_name := bp_name e.1.2;
        ar_revision_id := e.2.1; ar_revision := rw_revision e.2.2; ar_document := document |}.
Definition blueprint_catalog (b : BlueprintStore) (tenant : string)
    : result PersistenceError (list AnalyticsBlueprintRevision) :=
  mapM read_catalog (merge_sort catalog_le (catalog_rows b tenant)).
End catalog.

(** ** Scope and compatible devices *)
Definition is_empty {A} (l : list A) : bool := match l with [] => true | _ => false end.
(** [SCOPE_FILTER]. *)
Definition in_scope (tenant : string) (sc : AnalyticsScope) (id : string) (d : DeviceRow) : bool :=
  (pd_tenant d =s? tenant)
  && (is_empty (sc_fleet_ids sc)
      || match pd_fleet d with Some f => bool_decide (f ∈ sc_fleet_ids sc) | None => false end)
  && (is_empty (sc_device_ids sc) || bool_decide (id ∈ sc_device_ids sc)).
Definition assigned_compatible (s : EventStore) (tenant id : string) (revisions : list string) : bool :=
  match (a ← es_assignments s !! (tenant, id); c ← es_contracts s !! as_desired a;
         if (kr_tenant c =s? tenant) && (kr_device c =s? id) then Some c else None) with
  | Some c => bool_decide (kr_revision c ∈ revisions)
  | None => false
  end.
Definition of_metric (tenant id : string) (revisions : list string) (stream field : string) (k : RollupKey) : bool :=
  match k with
  | (t, i, r, st, f, _) => (t =s? tenant) && (i =s? id) && bool_decide (r ∈ revisions) && (st =s? stream) && (f =s? field)
  end.
Definition rollup_compatible (s : EventStore) (tenant id : string) (revisions : list string) (stream field : string) : bool :=
  existsb (fun e : RollupKey * RollupRow => of_metric tenant id revisions stream field e.1) (map_to_list (es_rollups s)).
Definition scope_devices (a : AnalyticsTables) (tenant : string) (q : AnalyticsQuery) : list (string * DeviceRow) :=
  List.filter (fun e : string * DeviceRow => in_scope tenant (qy_scope q) e.1 e.2) (map_to_list (at_devices a)).
Definition compatible_devices (a : AnalyticsTables) (tenant : string) (q : AnalyticsQuery) : list (string * DeviceRow) :=
  let m := am_selector (qy_metric q) in
  List.filter (fun e : string * DeviceRow =>
    assigned_compatible (at_events a) tenant e.1 (qy_revisions q)
    || rollup_compatible (at_events a) tenant e.1 (qy_revisions q) (an_stream_key m) (an_field_path m))
    (scope_devices a tenant q).
Definition device_le (a b : string * DeviceRow) : Prop :=
  match String.compare (pd_name a.2) (pd_name b.2) with
  | Lt => True | Gt => False | Eq => match String.compare a.1 b.1 with Gt => False | _ => True end
  end.
#[global] Instance device_le_dec a b : Decision (device_le a b).
Proof. unfold device_le. repeat case_match; apply _. Defined.

(** ** Buckets

    A row of [bucketed] or [observations]: one raw number, or the rollup of an hour. *)
Record MetricItem := {
  mi_device : string; mi_name : string; mi_bucket : Z; mi_count : Z; mi_sum : f64; mi_min : f64; mi_max : f64;
  mi_latest : f64; mi_at : Z; mi_event : string;
}.
(** t - CASE WHEN t % w < 0 THEN t % w + w ELSE t % w END *)
Definition sql_bucket (w t : Z) : Z := t - (let m := Z.rem t w in if m <? 0 then m + w else m).
(** [saturating_mul(1_000_000)]. *)
Definition bucket_micros (seconds : Z) : Z := Z.max Int.i64_min (Z.min Int.i64_max (seconds * 1000000)).
Record MetricWindow := { mw_start : Z; mw_end : Z; mw_full : option (Z * Z) }.
Definition in_full (w : MetricWindow) (t : Z) : bool :=
  match mw_full w with Some (a, b) => (a <=? t) && (t <? b) | None => false end.
(** The joins and conditions on a raw sample; only the query without rollups joins the revision. *)
Definition sample_revision (a : AnalyticsTables) (w : MetricWindow) (k : SampleKey) (r : SampleRow) : option string :=
  e ← es_events (at_events a) !! k.1.1;
  c ← es_contracts (at_events a) !! ev_contract e;
  if (ev_tenant e =s? sm_tenant r) && (ev_device e =s? sm_device r) && (kr_tenant c =s? ev_tenant e)
     && (kr_device c =s? ev_device e)
     && match mw_full w with
        | None => bool_decide (rw_tenant <$> bs_revisions (at_blueprints a) !! kr_revision c = Some (kr_tenant c))
        | Some _ => true
        end
  then Some (kr_revision c) else None.
Definition sample_item (a : AnalyticsTables) (tenant : string) (q : AnalyticsQuery) (devices : list string) (w : MetricWindow)
    (k : SampleKey) (r : SampleRow) : option MetricItem :=
  d ← at_devices a !! sm_device r;
  revision ← sample_revision a w k r;
  let m := am_selector (qy_metric q) in
  if (pd_tenant d =s? sm_tenant r) && (sm_tenant r =s? tenant) && bool_decide (sm_device r ∈ devices)
     && (mw_start w <=? sm_occurred_at r) && (sm_occurred_at r <? mw_end w) && negb (in_full w (sm_occurred_at r))
     && (k.1.2 =s? an_stream_key m) && (k.2 =s? an_field_path m)
     && ((sm_type r =s? "float64") || (sm_type r =s? "int64")) && bool_decide (revision ∈ qy_revisions q)
  then x ← rollup_number r;
       Some {| mi_device := sm_device r; mi_name := pd_name d;
               mi_bucket := sql_bucket (bucket_micros (qy_bucket_seconds q)) (sm_occurred_at r); mi_count := 1;
               mi_sum := x; mi_min := x; mi_max := x; mi_latest := x; mi_at := sm_occurred_at r; mi_event := k.1.1 |}
  else None.
Definition rollup_item (a : AnalyticsTables) (tenant : string) (q : AnalyticsQuery) (devices : list string) (w : MetricWindow)
    (k : RollupKey) (r : RollupRow) : option MetricItem :=
  let '(t, device, revision, stream, field, hour) := k in
  d ← at_devices a !! device;
  let m := am_selector (qy_metric q) in
  if (pd_tenant d =s? t) && (t =s? tenant) && bool_decide (device ∈ devices) && in_full w hour
     && (stream =s? an_stream_key m) && (field =s? an_field_path m) && bool_decide (revision ∈ qy_revisions q)
  then Some {| mi_device := device; mi_name := pd_name d;
               mi_bucket := sql_bucket (bucket_micros (qy_bucket_seconds q)) hour; mi_count := ru_count r;
               mi_sum := ru_sum r; mi_min := ru_min r; mi_max := ru_max r; mi_latest := ru_latest r;
               mi_at := ru_latest_at r; mi_event := ru_latest_event r |}
  else None.
Definition metric_items (a : AnalyticsTables) (tenant : string) (q : AnalyticsQuery) (devices : list string) (w : MetricWindow)
    : list MetricItem :=
  omap (fun e : SampleKey * SampleRow => sample_item a tenant q devices w e.1 e.2) (map_to_list (es_samples (at_events a)))
  ++ omap (fun e : RollupKey * RollupRow => rollup_item a tenant q devices w e.1 e.2) (map_to_list (es_rollups (at_events a))).
(** GROUP BY device, name, bucket. *)
Definition group_key (i : MetricItem) : string * string * Z := (mi_device i, mi_name i, mi_bucket i).
Definition group_keys (items : list MetricItem) : list (string * string * Z) := remove_dups (map group_key items).
Definition group_of (items : list MetricItem) (k : string * string * Z) : list MetricItem :=
  List.filter (fun i => bool_decide (group_key i = k)) items.
(** ORDER BY latest_at DESC, latest_event_id DESC: the row of rank 1. *)
Definition later_item (best i : MetricItem) : MetricItem :=
  if (mi_at best <? mi_at i) || ((mi_at best =? mi_at i) && str_gtb (mi_event i) (mi_event best)) then i else best.
(** The engine's floating point [sum] and [avg]. *)
Class SqlAggregates := { sql_sum : list f64 -> f64; sql_avg : list f64 -> f64 }.
Section buckets.
Context `{!SqlAggregates}.
Definition aggregate_group (w : MetricWindow) (k : string * string * Z) (g : list MetricItem) : option (string * string * Z * (Z * f64 * f64 * f64 * f64)) :=
  match g with
  | [] => None
  | i :: rest =>
    let count := fold_left Z.add (map mi_count rest) (mi_count i) in
    let average := match mw_full w with
                   | None => sql_avg (map mi_sum g)
                   | Some _ => f64_div (sql_sum (map mi_sum g)) (f64_of_Z count)
                   end in
    Some (k, (count, average, fold_left sql_min (map mi_min rest) (mi_min i),
              fold_left sql_max (map mi_max rest) (mi_max i), mi_latest (fold_left later_item rest i)))
  end.
(** ORDER BY bucket_start, device_name, device_id. *)
Definition bucket_le {A} (a b : string * string * Z * A) : Prop :=
  a.1.2 < b.1.2 \/ (a.1.2 = b.1.2 /\ match String.compare a.1.1.2 b.1.1.2 with
    | Lt => True | Gt => False | Eq => match String.compare a.1.1.1 b.1.1.1 with Gt => False | _ => True end
    end).
#[global] Instance bucket_le_dec {A} (a b : string * string * Z * A) : Decision (bucket_le a b).
Proof. unfold bucket_le. repeat case_match; apply _. Defined.
Definition bucket_rows (a : AnalyticsTables) (tenant : string) (q : AnalyticsQuery) (devices : list string) (w : MetricWindow) :=
  let items := metric_items a tenant q devices w in
  sql_limit (qy_max_rows q + 1) (merge_sort bucket_le (omap (fun k => aggregate_group w k (group_of items k)) (group_keys items))).
Context `{!ChronoMicros}.
Definition read_bucket (r : string * string * Z * (Z * f64 * f64 * f64 * f64)) : result PersistenceError AnalyticsBucket :=
  let '(device, name, bucket, (count, average, minimum, maximum, latest)) := r in
  start ← datetime bucket;
  Ok {| bk_device_id := device; bk_device_name := name; bk_start := start; bk_count := count; bk_average := average;
        bk_minimum := minimum; bk_maximum := maximum; bk_latest := latest |}.

(** ** The query *)
Definition query_window (q : AnalyticsQuery) (now : NaiveDateTime) : option (NaiveDateTime * NaiveDateTime) :=
  if 3600 <=? qy_bucket_seconds q then full_hour_rollup_window (qy_start q) (qy_end q) now else None.
Definition metric_window (q : AnalyticsQuery) (window : option (NaiveDateTime * NaiveDateTime)) : MetricWindow :=
  {| mw_start := timestamp_micros (qy_start q); mw_end := timestamp_micros (qy_end q);
     mw_full := (fun p => (timestamp_micros p.1, timestamp_micros p.2)) <$> window |}.
Definition repo_query (a : AnalyticsTables) (tenant : string) (q : AnalyticsQuery) (now : NaiveDateTime)
    : result PersistenceError AnalyticsQueryData :=
  let window := query_window q now in
  marks ← ok_or (es_retention (at_events a)) (CorruptData "metric retention state is missing");
  raw ← datetime marks.1;
  rollup ← datetime marks.2;
  if negb (metric_range_retained (qy_start q) (qy_end q) window raw rollup) then Err HistoryExpired else
  let selected := Z.of_nat (length (scope_devices a tenant q)) in
  let compatible := compatible_devices a tenant q in
  let count := Z.of_nat (length compatible) in
  let devices := map (fun e : string * DeviceRow => {| ad_id := e.1; ad_name := pd_name e.2 |})
                   (sql_limit (qy_max_devices q + 1) (merge_sort device_le compatible)) in
  if (qy_max_devices q <? count) || is_empty devices
  then Ok {| qd_source := BlueprintMetricSamples; qd_selected := selected; qd_compatible := count; qd_devices := devices;
             qd_buckets := [] |}
  else
    buckets ← mapM read_bucket (bucket_rows a tenant q (map ad_id devices) (metric_window q window));
    Ok {| qd_source := match window with Some _ => BlueprintMetricSamplesAndRollups | None => BlueprintMetricSamples end;
          qd_selected := selected; qd_compatible := count; qd_devices := devices; qd_buckets := buckets |}.
End buckets.
