(* ===== verification/Analytics.v ===== *)
(** * Metric analytics (crates/backend-core/src/application/analytics.rs)

    The application: the catalog of numeric fields, the choice of the bucket,
    and the series and statistics of a result.  Hash maps are read in the order
    of a [gmap]; the results are sorted. *)
From stdpp Require Import sorting.
From S2P Require Import Prelude Text Float64 BTree Json Errors Access RuleTypes Shadows RuleSnapshot Outbox EventStore.
From S2P Require Import ContractModel Events BlueprintStore Blueprints ProvisionStore AnalyticsStore.

Local Open Scope Z_scope.

Definition MAX_DEVICES : Z := 50.
Definition DEFAULT_MAX_POINTS_PER_SERIES : Z := 1200.
Definition MAX_POINTS_PER_SERIES : Z := 2000.
Definition MAX_TOTAL_POINTS : Z := 100000.
Definition MAX_SCOPE_VALUES : Z := 100.
Definition MAX_RANGE_SECONDS : Z := 366 * 24 * 60 * 60.
Definition ALLOWED_BUCKET_SECONDS : list Z := [60; 300; 900; 3600; 21600; 86400].

Inductive AnalyticsSeriesKind := SeriesDevice | SeriesMean | SeriesMinimum | SeriesMaximum.
Record AnalyticsPoint := { pt_timestamp : NaiveDateTime; pt_value : f64 }.
Record AnalyticsStats := {
  as_minimum : f64; as_maximum : f64; as_average : f64; as_latest : f64; as_sample_count : Z;
}.
Record AnalyticsSeries := {
  se_id : string; se_label : string; se_kind : AnalyticsSeriesKind; se_device_id : option string;
  se_points : list AnalyticsPoint; se_stats : AnalyticsStats;
}.
Record AnalyticsDeviceStats := {
  ds_device_id : string; ds_device_name : string; ds_stats : option AnalyticsStats; ds_coverage_percent : f64;
}.
Record AnalyticsCoveragePoint := { cp_timestamp : NaiveDateTime; cp_reporting : Z; cp_selected : Z }.
Record AnalyticsResult := {
  rs_metric : AnalyticsMetric; rs_start : NaiveDateTime; rs_end : NaiveDateTime; rs_bucket_seconds : Z;
  rs_source : AnalyticsDataSource; rs_weighting : AnalyticsWeighting; rs_selected : Z; rs_compatible : Z;
  rs_series : list AnalyticsSeries; rs_devices : list AnalyticsDeviceStats; rs_coverage : list AnalyticsCoveragePoint;
  rs_stats : option AnalyticsStats; rs_warnings : list string;
}.

(** ** Floating point helpers of the standard library *)
Definition rust_min (x y : f64) : f64 := if is_nan x then y else if is_nan y then x else sql_min x y.
Definition rust_max (x y : f64) : f64 := if is_nan x then y else if is_nan y then x else sql_max x y.
(** [Iterator::sum] starts from negative zero. *)
Definition rust_sum (l : list f64) : f64 := fold_left f64_add l (S754_zero true).
Definition f64_clamp (lo hi x : f64) : f64 := if f64_lt x lo then lo else if f64_lt hi x then hi else x.
Definition f64_infinity (negative : bool) : f64 := S754_infinity negative.

(** ** The catalog *)
Definition metric_value_type (t : FieldValueType) : string :=
  match t with Float64 => "float64" | Int64 => "int64" | FString => "string" | FBoolean => "boolean" | FJson => "json" end.
Definition aggregate_name (a : AggregateKind) : string :=
  match a with
  | AggMin => "minimum" | AggMax => "maximum" | AggAvg => "average" | AggSum => "sum" | AggCount => "count"
  | AggLast => "latest"
  end.
Definition field_metric (r : AnalyticsBlueprintRevision) (stream : string) (f : FieldDefinition) : option AnalyticsMetric :=
  if negb (is_numeric (fd_value_type f)) then None
  else Some {| am_selector := {| an_blueprint_id := ar_blueprint_id r; an_stream_key := stream; an_field_path := fd_path f |};
               am_blueprint_key := ar_blueprint_key r; am_blueprint_name := ar_blueprint_name r; am_label := fd_label f;
               am_unit := fd_unit f; am_value_type := metric_value_type (fd_value_type f);
               am_aggregates := map aggregate_name (fd_aggregates f);
               am_precision := fd_presentation f ≫= fp_precision |}.
(** Newer revisions replace older ones of the same blueprint. *)
Definition keep_latest (latest : gmap string AnalyticsBlueprintRevision) (r : AnalyticsBlueprintRevision)
    : gmap string AnalyticsBlueprintRevision :=
  match latest !! ar_blueprint_id r with
  | Some current => if ar_revision current <? ar_revision r then <[ar_blueprint_id r := r]> latest else latest
  | None => <[ar_blueprint_id r := r]> latest
  end.
Definition latest_revisions (rs : list AnalyticsBlueprintRevision) : gmap string AnalyticsBlueprintRevision :=
  fold_left keep_latest rs ∅.
Definition metric_le (a b : AnalyticsMetric) : Prop :=
  match String.compare (am_blueprint_name a) (am_blueprint_name b) with
  | Lt => True | Gt => False
  | Eq => match String.compare (am_label a) (am_label b) with
          | Lt => True | Gt => False
          | Eq => match String.compare (metric_key a) (metric_key b) with Gt => False | _ => True end
          end
  end.
#[global] Instance metric_le_dec a b : Decision (metric_le a b).
Proof. unfold metric_le. repeat case_match; apply _. Defined.
#[global] Instance str_cmp_le_dec a b : Decision (str_cmp_le a b).
Proof. unfold str_cmp_le. case_match; apply _. Defined.
Definition same_field (metric candidate : AnalyticsMetric) : bool :=
  bool_decide (am_selector candidate = am_selector metric) && (am_value_type candidate =s? am_value_type metric)
  && bool_decide (am_unit candidate = am_unit metric)
  && bool_decide (merge_sort str_cmp_le (am_aggregates candidate) = merge_sort str_cmp_le (am_aggregates metric)).

Section catalog.
Context `{!BlueprintCodec}.
Definition metrics_from_revision (r : AnalyticsBlueprintRevision) : result ApplicationError (list AnalyticsMetric) :=
  b ← map_err (fun e => Internal ("stored blueprint revision '" +:+ ar_revision_id r +:+ "' is invalid: " +:+ e))
        (blueprint_from_value (ar_document r));
  Ok (streams (spec b) ≫= (fun st => omap (field_metric r (st_key st)) (st_fields st))).
Definition metrics_from_blueprints (rs : list AnalyticsBlueprintRevision) : result ApplicationError (list AnalyticsMetric) :=
  metrics ← mapM (fun e : string * AnalyticsBlueprintRevision => metrics_from_revision e.2) (map_to_list (latest_revisions rs));
  Ok (merge_sort metric_le (concat metrics)).
Fixpoint compatible_revisions (metric : AnalyticsMetric) (rs : list AnalyticsBlueprintRevision)
    : result ApplicationError (list string) :=
  match rs with
  | [] => Ok []
  | r :: rest =>
    metrics ← metrics_from_revision r;
    ids ← compatible_revisions metric rest;
    Ok (if existsb (same_field metric) metrics then ar_revision_id r :: ids else ids)
  end.
Definition resolve_metric (selector : AnalyticsMetricSelector) (rs : list AnalyticsBlueprintRevision)
    : result ApplicationError (AnalyticsMetric * list string) :=
  metrics ← metrics_from_blueprints rs;
  metric ← ok_or (List.find (fun m => bool_decide (am_selector m = selector)) metrics)
             (InvalidOperation "Analytics metric is not a numeric field in the selected published blueprint");
  ids ← compatible_revisions metric rs;
  Ok (metric, merge_sort str_cmp_le ids).
End catalog.

(** ** Bounds and buckets *)
Definition saturating_i64 (z : Z) : Z := Z.max Int.i64_min (Z.min Int.i64_max z).
Definition ceil_div (value divisor : Z) : Z := Z.quot (saturating_i64 (value + saturating_i64 (divisor - 1))) divisor.
(** [TimeDelta::num_seconds]: toward zero. *)
Definition num_seconds (nanos : Z) : Z := Z.quot nanos 1000000000.
Definition validate_scope (r : AnalyticsRequest) : result ApplicationError unit :=
  if (MAX_SCOPE_VALUES <? Z.of_nat (length (sc_fleet_ids (rq_scope r))))
     || (MAX_SCOPE_VALUES <? Z.of_nat (length (sc_device_ids (rq_scope r))))
  then Err (InvalidInput "Each analytics scope filter supports at most 100 values") else Ok tt.
Definition automatic_bucket (range max_points : Z) : Z :=
  let target := ceil_div range max_points in
  default 86400 (List.find (fun b => target <=? b) ALLOWED_BUCKET_SECONDS).
Definition validate_explicit_bucket (bucket range max_points : Z) : result ApplicationError Z :=
  if negb (bool_decide (bucket ∈ ALLOWED_BUCKET_SECONDS))
  then Err (InvalidInput ("Unsupported analytics bucket " +:+ int_to_string bucket
              +:+ "; use 60, 300, 900, 3600, 21600, or 86400 seconds"))
  else if max_points <? ceil_div range bucket
  then Err (InvalidOperation ("Requested bucket exceeds the per-series point budget; use at least "
              +:+ int_to_string (automatic_bucket range max_points) +:+ " seconds"))
  else Ok bucket.
Definition point_budget (r : AnalyticsRequest) : Z :=
  Z.max 10 (Z.min MAX_POINTS_PER_SERIES (default DEFAULT_MAX_POINTS_PER_SERIES (rq_max_points r))).
Definition choose_bucket (r : AnalyticsRequest) : result ApplicationError Z :=
  let range := num_seconds (rq_end r - rq_start r) in
  if range <=? 0 then Err (InvalidInput "Analytics time range must have an end after its start")
  else if MAX_RANGE_SECONDS <? range then Err (InvalidOperation "Analytics time range cannot exceed 366 days")
  else match rq_bucket_seconds r with
       | Some bucket => validate_explicit_bucket bucket range (point_budget r)
       | None => Ok (automatic_bucket range (point_budget r))
       end.
Section bounds.
Context `{!ChronoSpans}.
(** Both ends are rounded up to a microsecond. *)
Definition storage_bound (t : NaiveDateTime) : result ApplicationError NaiveDateTime :=
  let remainder := t mod 1000 in
  if remainder =? 0 then Ok t
  else if utc_fits (t + (1000 - remainder)) then Ok (t + (1000 - remainder))
  else Err (InvalidInput "Analytics timestamp exceeds the supported range").
End bounds.

(** ** Statistics and series *)
Definition later_bucket (latest b : AnalyticsBucket) : AnalyticsBucket := if bk_start latest <? bk_start b then b else latest.
Definition stats_for_buckets (l : list AnalyticsBucket) : option AnalyticsStats :=
  match l with
  | [] => None
  | first :: _ =>
    let minimum := fold_left rust_min (map bk_minimum l) (bk_minimum first) in
    let maximum := fold_left rust_max (map bk_maximum l) (bk_maximum first) in
    let weighted := fold_left f64_add (map (fun b => f64_mul (bk_average b) (f64_of_Z (bk_count b))) l) f64_zero in
    let count := fold_left Z.add (map bk_count l) 0 in
    Some {| as_minimum := minimum; as_maximum := maximum; as_average := f64_div weighted (f64_of_Z (Z.max count 1));
            as_latest := bk_latest (fold_left later_bucket l first); as_sample_count := count |}
  end.
Definition device_buckets (l : list AnalyticsBucket) (device : string) : list AnalyticsBucket :=
  List.filter (fun b => bk_device_id b =s? device) l.
Definition coverage_percent (buckets expected : Z) : f64 :=
  f64_clamp f64_zero (f64_of_Z 100) (f64_mul (f64_div (f64_of_Z buckets) (f64_of_Z expected)) (f64_of_Z 100)).
Definition build_device_stats (data : AnalyticsQueryData) (expected : Z) : list AnalyticsDeviceStats :=
  map (fun d : AnalyticsDevice =>
         let l := device_buckets (qd_buckets data) (ad_id d) in
         {| ds_device_id := ad_id d; ds_device_name := ad_name d; ds_stats := stats_for_buckets l;
            ds_coverage_percent := coverage_percent (Z.of_nat (length l)) expected |}) (qd_devices data).
Definition bucket_start_le (a b : AnalyticsBucket) : Prop := bk_start a <= bk_start b.
#[global] Instance bucket_start_le_dec a b : Decision (bucket_start_le a b).
Proof. unfold bucket_start_le. apply _. Defined.
Definition series_le (a b : AnalyticsSeries) : Prop :=
  match String.compare (se_label a) (se_label b) with
  | Lt => True | Gt => False | Eq => match String.compare (se_id a) (se_id b) with Gt => False | _ => True end
  end.
#[global] Instance series_le_dec a b : Decision (series_le a b).
Proof. unfold series_le. repeat case_match; apply _. Defined.
Definition device_series (l : list AnalyticsBucket) (latest_only : bool) (device : string) : option AnalyticsSeries :=
  let sorted := merge_sort bucket_start_le (device_buckets l device) in
  stats ← stats_for_buckets sorted;
  first ← head sorted;
  let points := if latest_only
                then match last sorted with
                     | Some b => [{| pt_timestamp := bk_start b; pt_value := bk_latest b |}]
                     | None => []
                     end
                else map (fun b => {| pt_timestamp := bk_start b; pt_value := bk_average b |}) sorted in
  Some {| se_id := "device:" +:+ bk_device_id first; se_label := bk_device_name first; se_kind := SeriesDevice;
          se_device_id := Some (bk_device_id first); se_points := points; se_stats := stats |}.
Definition per_device_series (l : list AnalyticsBucket) (latest_only : bool) : list AnalyticsSeries :=
  merge_sort series_le (omap (device_series l latest_only) (remove_dups (map bk_device_id l))).
(** A [BTreeMap] by the start of the bucket. *)
Definition group_by_time (l : list AnalyticsBucket) : list (NaiveDateTime * list AnalyticsBucket) :=
  map (fun t => (t, List.filter (fun b => bk_start b =? t) l)) (merge_sort Z.le (remove_dups (map bk_start l))).
Definition mean_for_buckets (l : list AnalyticsBucket) (w : AnalyticsWeighting) : f64 :=
  match w with
  | EqualDevice => f64_div (rust_sum (map bk_average l)) (f64_of_Z (Z.max (Z.of_nat (length l)) 1))
  | WeightSample =>
    f64_div (rust_sum (map (fun b => f64_mul (bk_average b) (f64_of_Z (bk_count b))) l))
            (f64_of_Z (Z.max (fold_left Z.add (map bk_count l) 0) 1))
  end.
(** The arm of a device series is [unreachable!]. *)
Definition point_value (kind : AnalyticsSeriesKind) (l : list AnalyticsBucket) (w : AnalyticsWeighting) : option f64 :=
  match kind with
  | SeriesMean => Some (mean_for_buckets l w)
  | SeriesMinimum => Some (fold_left rust_min (map bk_minimum l) (f64_infinity false))
  | SeriesMaximum => Some (fold_left rust_max (map bk_maximum l) (f64_infinity true))
  | SeriesDevice => None
  end.
Definition aggregate_series (id label : string) (kind : AnalyticsSeriesKind)
    (groups : list (NaiveDateTime * list AnalyticsBucket)) (w : AnalyticsWeighting) : option AnalyticsSeries :=
  let points := omap (fun g : NaiveDateTime * list AnalyticsBucket =>
                        v ← point_value kind g.2 w; Some {| pt_timestamp := g.1; pt_value := v |}) groups in
  first ← head points;
  Some {| se_id := id; se_label := label; se_kind := kind; se_device_id := None; se_points := points;
          se_stats := {| as_minimum := fold_left rust_min (map pt_value points) (f64_infinity false);
                         as_maximum := fold_left rust_max (map pt_value points) (f64_infinity true);
                         as_average := f64_div (rust_sum (map pt_value points)) (f64_of_Z (Z.of_nat (length points)));
                         as_latest := match last points with Some p => pt_value p | None => pt_value first end;
                         as_sample_count := Z.of_nat (length groups) |} |}.
Definition fleet_stats (devices : list AnalyticsDeviceStats) (w : AnalyticsWeighting) : option AnalyticsStats :=
  let stats := omap ds_stats devices in
  first ← head stats;
  let count := fold_left Z.add (map as_sample_count stats) 0 in
  let n := f64_of_Z (Z.of_nat (length stats)) in
  let average := match w with
    | EqualDevice => f64_div (rust_sum (map as_average stats)) n
    | WeightSample => f64_div (rust_sum (map (fun s => f64_mul (as_average s) (f64_of_Z (as_sample_count s))) stats))
                              (f64_of_Z (Z.max count 1))
    end in
  Some {| as_minimum := fold_left rust_min (map as_minimum stats) (as_minimum first);
          as_maximum := fold_left rust_max (map as_maximum stats) (as_maximum first); as_average := average;
          as_latest := f64_div (rust_sum (map as_latest stats)) n; as_sample_count := count |}.
Definition some_list {A} (o : option A) : list A := match o with Some a => [a] | None => [] end.
Definition result_series (mode : AnalyticsSeriesMode) (w : AnalyticsWeighting) (l : list AnalyticsBucket) : list AnalyticsSeries :=
  let groups := group_by_time l in
  match mode with
  | PerDevice => per_device_series l false
  | LatestRanking => per_device_series l true
  | FleetMean => some_list (aggregate_series "fleet-mean" "Fleet mean" SeriesMean groups w)
  | MeanAndRange =>
    some_list (aggregate_series "fleet-minimum" "Fleet minimum" SeriesMinimum groups w)
    ++ some_list (aggregate_series "fleet-maximum" "Fleet maximum" SeriesMaximum groups w)
    ++ some_list (aggregate_series "fleet-mean" "Fleet mean" SeriesMean groups w)
  end.
Definition build_result (r : AnalyticsRequest) (metric : AnalyticsMetric) (bucket : Z) (data : AnalyticsQueryData) : AnalyticsResult :=
  let expected := Z.max 1 (ceil_div (num_seconds (rq_end r - rq_start r)) bucket) in
  let devices := build_device_stats data expected in
  {| rs_metric := metric; rs_start := rq_start r; rs_end := rq_end r; rs_bucket_seconds := bucket;
     rs_source := qd_source data; rs_weighting := rq_weighting r; rs_selected := qd_selected data;
     rs_compatible := qd_compatible data; rs_series := result_series (rq_mode r) (rq_weighting r) (qd_buckets data);
     rs_devices := devices;
     rs_coverage := map (fun g : NaiveDateTime * list AnalyticsBucket =>
       {| cp_timestamp := g.1; cp_reporting := Z.of_nat (length g.2); cp_selected := qd_compatible data |})
       (group_by_time (qd_buckets data));
     rs_stats := fleet_stats devices (rq_weighting r); rs_warnings := [] |}.

(** ** The services

    The catalog is read in an earlier state of the tables than the metrics. *)
Section application.
Context `{!ChronoMicros, !SerdeJson, !BlueprintCodec, !ChronoSpans, !SqlAggregates}.
Definition catalog (a : AnalyticsTables) (ctx : TenantContext) : result ApplicationError (list AnalyticsMetric) :=
  _ ← require_permission ctx ReadTelemetry;
  rs ← map_err Persistence (blueprint_catalog (at_blueprints a) (ctx_tenant ctx));
  metrics_from_blueprints rs.
Definition map_query_error (e : PersistenceError) : ApplicationError :=
  match e with
  | HistoryExpired => InvalidOperation "Analytics range is outside retained metric history; use a newer range or coarser complete-hour buckets"
  | other => Persistence other
  end.
Definition analytics_query (a_catalog a : AnalyticsTables) (ctx : TenantContext) (r : AnalyticsRequest) (now : NaiveDateTime)
    : result ApplicationError AnalyticsResult :=
  _ ← require_permission ctx ReadTelemetry;
  _ ← validate_scope r;
  rs ← map_err Persistence (blueprint_catalog (at_blueprints a_catalog) (ctx_tenant ctx));
  '(metric, revisions) ← resolve_metric (rq_metric r) rs;
  bucket ← choose_bucket r;
  start ← storage_bound (rq_start r);
  end_ ← storage_bound (rq_end r);
  data ← map_err map_query_error (repo_query a (ctx_tenant ctx)
           {| qy_scope := rq_scope r; qy_metric := metric; qy_revisions := revisions; qy_start := start; qy_end := end_;
              qy_bucket_seconds := bucket; qy_max_devices := MAX_DEVICES; qy_max_rows := MAX_TOTAL_POINTS |} now);
  if MAX_DEVICES <? qd_compatible data
  then Err (InvalidOperation ("Analytics metric is compatible with " +:+ int_to_string (qd_compatible data)
              +:+ " devices in this scope; narrow it to 50 or fewer"))
  else if MAX_TOTAL_POINTS <? Z.of_nat (length (qd_buckets data))
  then Err (InvalidOperation "Analytics query exceeds the point budget; use a larger bucket or narrower scope")
  else Ok (build_result r metric bucket data).
End application.

(** ** Bucket budget *)
Lemma ceil_div_le v d n : 0 < v <= MAX_RANGE_SECONDS -> 0 < d <= MAX_RANGE_SECONDS -> ceil_div v d <= n <-> v <= d * n.
Proof.
  intros Hv Hd. unfold ceil_div, saturating_i64. unfold MAX_RANGE_SECONDS in *.
  assert (Int.i64_min = -9223372036854775808 /\ Int.i64_max = 9223372036854775807) as [-> ->] by done.
  rewrite (Z.min_r _ (d - 1)), (Z.max_r _ (d - 1)), (Z.min_r _ (v + _)), (Z.max_r _ (v + _)) by lia.
  rewrite Z.quot_div_nonneg by lia. pose proof (Z.div_mod (v + (d - 1)) d ltac:(lia)).
  pose proof (Z.mod_pos_bound (v + (d - 1)) d ltac:(lia)). split; intros H1; nia.
Qed.
Lemma allowed_positive b : b ∈ ALLOWED_BUCKET_SECONDS -> 0 < b <= 86400.
Proof. unfold ALLOWED_BUCKET_SECONDS. rewrite !elem_of_cons, elem_of_nil. lia. Qed.
Lemma point_budget_bounds r : 10 <= point_budget r <= MAX_POINTS_PER_SERIES.
Proof. unfold point_budget, MAX_POINTS_PER_SERIES. lia. Qed.
(** The finest allowed bucket that fits, when one does. *)
Lemma automatic_bucket_spec range budget :
  0 < range <= MAX_RANGE_SECONDS -> 10 <= budget <= MAX_POINTS_PER_SERIES ->
  let b := automatic_bucket range budget in
  b ∈ ALLOWED_BUCKET_SECONDS
  /\ (ceil_div range b <= budget <-> range <= 86400 * budget)
  /\ forall b', b' ∈ ALLOWED_BUCKET_SECONDS -> b' < b -> budget < ceil_div range b'.
Proof.
  intros Hr Hb b. unfold MAX_POINTS_PER_SERIES in Hb.
  assert (forall x, 0 < x <= 86400 -> ceil_div range x <= budget <-> range <= x * budget) as Hc.
  { intros x Hx. apply ceil_div_le; [done|unfold MAX_RANGE_SECONDS; lia]. }
  assert (forall x, ceil_div range budget <= x <-> range <= budget * x) as Ht.
  { intros x. apply ceil_div_le; [done|unfold MAX_RANGE_SECONDS; lia]. }
  assert (b = 60 \/ b = 300 \/ b = 900 \/ b = 3600 \/ b = 21600 \/ b = 86400) as Hcase.
  { unfold b, automatic_bucket, ALLOWED_BUCKET_SECONDS. cbv zeta. simpl. repeat case_match; simpl; lia. }
  assert (b < 86400 -> range <= budget * b) as Hfit.
  { intros Hlt. apply Ht. unfold b, automatic_bucket in *. cbv zeta in *. destruct (List.find _ _) as [x|] eqn:E; [|simpl in Hlt; lia].
    simpl. by apply find_some in E as [_ ?%Z.leb_le]. }
  assert (forall b', b' ∈ ALLOWED_BUCKET_SECONDS -> b' < b -> budget * b' < range) as Hnot.
  { intros b' Hb' Hlt. destruct (Z.lt_ge_cases (budget * b') range) as [|Hge]; [done|]. apply Ht in Hge.
    unfold b, automatic_bucket, ALLOWED_BUCKET_SECONDS in *. cbv zeta in *. simpl in Hlt.
    rewrite !elem_of_cons, elem_of_nil in Hb'. repeat (case_match; simpl in *); rewrite ?Z.leb_le, ?Z.leb_gt in *; lia. }
  assert (b ∈ ALLOWED_BUCKET_SECONDS) as Hin by (unfold ALLOWED_BUCKET_SECONDS; rewrite !elem_of_cons; lia).
  split; [done|]. split; [rewrite Hc by lia; nia|]. intros b' Hb' Hlt.
  pose proof (Hnot b' Hb' Hlt). pose proof (Hc b' (allowed_positive b' Hb')). nia.
Qed.
(** The bucket of an answered query: an allowed width that keeps the estimate,
    the seconds of the range by the width, within the requested number of
    points; with no explicit width it is the finest one that does.  The only
    exception is an automatic bucket for a range of more days than points are
    allowed: it is the widest bucket.  The points of a series, in buckets
    aligned to the epoch, are counted in AnalyticsBudget. *)
Lemma choose_bucket_estimate r b :
  choose_bucket r = Ok b ->
  let range := num_seconds (rq_end r - rq_start r) in
  0 < range <= MAX_RANGE_SECONDS /\ b ∈ ALLOWED_BUCKET_SECONDS
  /\ (ceil_div range b <= point_budget r
      \/ (rq_bucket_seconds r = None /\ b = 86400 /\ 86400 * point_budget r < range /\ point_budget r < ceil_div range b))
  /\ (rq_bucket_seconds r = None -> forall b', b' ∈ ALLOWED_BUCKET_SECONDS -> b' < b -> point_budget r < ceil_div range b').
Proof.
  intros H range. unfold choose_bucket in H. cbv zeta in H. fold range in H. pose proof (point_budget_bounds r) as Hb.
  destruct (Z.leb_spec range 0); [done|]. destruct (Z.ltb_spec MAX_RANGE_SECONDS range); [done|].
  destruct (rq_bucket_seconds r) as [e|].
  - unfold validate_explicit_bucket in H. case_bool_decide as Hin; [|done]. simpl in H.
    destruct (Z.ltb_spec (point_budget r) (ceil_div range e)); [done|]. injection H as <-. split_and!; try done. by left.
  - injection H as <-. destruct (automatic_bucket_spec range (point_budget r)) as (Hin & Hle & Hfine); [done..|].
    split_and!; try done. destruct (Z.le_gt_cases range (86400 * point_budget r)) as [Hr|Hr]; [left; by apply Hle|right].
    pose proof (ceil_div_le range (automatic_bucket range (point_budget r)) (point_budget r)).
    pose proof (allowed_positive _ Hin). unfold MAX_RANGE_SECONDS in *. split_and!; try done; [|nia].
    unfold automatic_bucket. cbv zeta. destruct (List.find _ _) as [x|] eqn:E; [|done]. apply find_some in E as [Hx E%Z.leb_le].
    apply list_elem_of_In, allowed_positive in Hx. unfold MAX_POINTS_PER_SERIES in Hb. apply ceil_div_le in E;
      unfold MAX_RANGE_SECONDS in *; nia.
Qed.
(** A year in ten points: the automatic bucket exceeds the estimate; the same bucket
    asked for explicitly is refused with the advice to use it. *)
Definition demo_year (bucket : option Z) : AnalyticsRequest :=
  {| rq_scope := {| sc_fleet_ids := []; sc_device_ids := [] |};
     rq_metric := {| an_blueprint_id := "b"; an_stream_key := "environment"; an_field_path := "/temperature" |};
     rq_start := 0; rq_end := MAX_RANGE_SECONDS * 1000000000; rq_bucket_seconds := bucket; rq_mode := PerDevice;
     rq_weighting := EqualDevice; rq_max_points := Some 1 |}.
Example demo_year_explicit :
  choose_bucket (demo_year (Some 86400))
  = Err (InvalidOperation "Requested bucket exceeds the per-series point budget; use at least 86400 seconds").
Proof. vm_compute. reflexivity. Qed.
Example demo_year_automatic : choose_bucket (demo_year None) = Ok 86400 /\ 10 < ceil_div MAX_RANGE_SECONDS 86400.
Proof. vm_compute. done. Qed.
