(* ===== verification/AnalyticsHistory.v ===== *)
(** * What analytics say about the accepted events

    The statistics of a query against the events that were accepted: the
    combination of hourly rollups and raw samples counts every accepted number
    of the requested range once, with its least, greatest and latest value,
    also when raw samples have been pruned. *)
From S2P Require Import Prelude Text Float64 BTree Json Errors Access RuleTypes MetricNumber Geo RuleCache.
From S2P Require Import RuleEvaluate RuleSnapshot Shadows Outbox DeviceIngress EventStore.
From S2P Require Import ContractModel Schema Validation ColdRoom ContractCompiler Events EventHistory.
From S2P Require Import BlueprintStore Blueprints BlueprintHistory ProvisionStore AnalyticsStore Analytics.
From stdpp Require Import relations sorting.

Local Open Scope Z_scope.

(** ** Lists split by a key *)
Lemma filterb_split {A} (p : A -> bool) l : l ≡ₚ List.filter p l ++ List.filter (fun a => negb (p a)) l.
Proof.
  induction l as [|a l IH]; [done|]. simpl. destruct (p a); simpl; [by constructor|].
  rewrite <- Permutation_middle. by constructor.
Qed.
Lemma filterb_filterb {A} (p q : A -> bool) l : List.filter p (List.filter q l) = List.filter (fun a => p a && q a) l.
Proof. induction l as [|a l IH]; [done|]. simpl. destruct (q a) eqn:Eq; simpl; [|by rewrite andb_false_r]. rewrite IH, andb_true_r. done. Qed.
Section partition.
Context {A K : Type} `{EqDecision K} (f : A -> K).
Definition having_key (k : K) (l : list A) : list A := List.filter (fun a => bool_decide (f a = k)) l.
Lemma elem_of_having_key k l a : a ∈ having_key k l <-> a ∈ l /\ f a = k.
Proof. unfold having_key. by rewrite elem_of_filterb, bool_decide_eq_true. Qed.
Lemma partition_by ks l : NoDup ks -> (forall a, a ∈ l -> f a ∈ ks) -> l ≡ₚ concat (map (fun k => having_key k l) ks).
Proof.
  intros Hnd. revert l. induction Hnd as [|k ks Hk Hnd IH]; intros l Hl.
  - destruct l as [|a l]; [done|]. destruct (not_elem_of_nil (f a)). apply Hl. by left.
  - simpl. rewrite (filterb_split (fun a => bool_decide (f a = k)) l) at 1. apply Permutation_app; [done|].
    set (l' := List.filter _ l). rewrite (IH l').
    + apply Permutation_refl'. f_equal. apply map_ext_in. intros k' Hk'%list_elem_of_In. unfold l', having_key. rewrite filterb_filterb.
      apply List.filter_ext. intros a. case_bool_decide as E; [|done]. rewrite bool_decide_false; [done|]. congruence.
    + intros a [Ha Hne]%elem_of_filterb. apply negb_true_iff, bool_decide_eq_false in Hne.
      apply Hl, elem_of_cons in Ha as [|]; done.
Qed.
End partition.
Lemma NoDup_fmap_eq {A B} (f : A -> B) l x y : NoDup (f <$> l) -> x ∈ l -> y ∈ l -> f x = f y -> x = y.
Proof.
  induction l as [|a l IH]; intros Hnd Hx Hy E; [by apply elem_of_nil in Hx|]. simpl in Hnd. apply NoDup_cons in Hnd as [Ha Hnd].
  apply elem_of_cons in Hx as [->|Hx]; apply elem_of_cons in Hy as [->|Hy]; [done|..].
  - destruct Ha. apply list_elem_of_fmap. by exists y.
  - destruct Ha. apply list_elem_of_fmap. by exists x.
  - by apply IH.
Qed.
Lemma NoDup_omap_strong {A B} (f : A -> option B) l :
  (forall x y b, x ∈ l -> y ∈ l -> f x = Some b -> f y = Some b -> x = y) -> NoDup l -> NoDup (omap f l).
Proof.
  intros Hf Hnd. induction Hnd as [|a l Ha Hnd IH]; [constructor|].
  assert (NoDup (omap f l)) as H by (apply IH; intros x y b Hx Hy; apply Hf; by right).
  cbn [omap list_omap]. destruct (f a) as [b|] eqn:E; [|done]. constructor; [|done].
  intros (y & Hy & E')%list_elem_of_omap. destruct Ha. rewrite (Hf a y b); [done|by left|by right|done..].
Qed.

(** ** The order of doubles, without NaN *)
Lemma f64_not_lt_trans x y z :
  is_nan x = false -> is_nan y = false -> is_nan z = false -> f64_lt x y = false -> f64_lt y z = false -> f64_lt x z = false.
Proof.
  intros Hx Hy Hz H1 H2. apply not_true_iff_false. apply not_true_iff_false in H1, H2.
  rewrite f64_lt_key in * by done. unfold key_lt in *. lia.
Qed.
Lemma f64_lt_irrefl x : is_nan x = false -> f64_lt x x = false.
Proof. intros H. apply not_true_iff_false. rewrite f64_lt_key by done. unfold key_lt. lia. Qed.
Lemma f64_lt_asym x y : is_nan x = false -> is_nan y = false -> f64_lt x y = true -> f64_lt y x = false.
Proof. intros Hx Hy H. apply not_true_iff_false. rewrite f64_lt_key in * by done. unfold key_lt in *. lia. Qed.
Definition least (m : f64) (l : list f64) : Prop := m ∈ l /\ forall x, x ∈ l -> f64_lt x m = false.
Definition greatest (m : f64) (l : list f64) : Prop := m ∈ l /\ forall x, x ∈ l -> f64_lt m x = false.
Definition numbers (l : list f64) : Prop := forall x, x ∈ l -> is_nan x = false.
Lemma fold_min l x : numbers (x :: l) -> least (fold_left sql_min l x) (x :: l).
Proof.
  revert x. induction l as [|y l IH]; intros x Hn.
  { split; [by left|]. intros z ->%list_elem_of_singleton. apply f64_lt_irrefl, Hn. by left. }
  assert (is_nan x = false) as Hx by (apply Hn; by left). assert (is_nan y = false) as Hy by (apply Hn; right; by left).
  simpl. destruct (IH (sql_min x y)) as [H1 H2].
  { intros z [->|Hz]%elem_of_cons; [unfold sql_min; by destruct (f64_lt y x)|apply Hn; by do 2 right]. }
  set (m := fold_left sql_min l (sql_min x y)) in *.
  assert (is_nan m = false) as Hm.
  { apply elem_of_cons in H1 as [->|H1]; [unfold sql_min; by destruct (f64_lt y x)|apply Hn; by do 2 right]. }
  assert (f64_lt (sql_min x y) m = false) as Hs by (apply H2; by left).
  split.
  - apply elem_of_cons in H1 as [->|H1]; [|by do 2 right]. unfold sql_min. destruct (f64_lt y x); [right|]; by left.
  - intros z [->|[->|Hz]%elem_of_cons]%elem_of_cons; [..|apply H2; by right]; revert Hs; unfold sql_min; destruct (f64_lt y x) eqn:E; intros Hs; try done.
    + apply (f64_not_lt_trans x y m); [done..| |done]. by apply f64_lt_asym.
    + by apply (f64_not_lt_trans y x m).
Qed.
Lemma fold_max l x : numbers (x :: l) -> greatest (fold_left sql_max l x) (x :: l).
Proof.
  revert x. induction l as [|y l IH]; intros x Hn.
  { split; [by left|]. intros z ->%list_elem_of_singleton. apply f64_lt_irrefl, Hn. by left. }
  assert (is_nan x = false) as Hx by (apply Hn; by left). assert (is_nan y = false) as Hy by (apply Hn; right; by left).
  simpl. destruct (IH (sql_max x y)) as [H1 H2].
  { intros z [->|Hz]%elem_of_cons; [unfold sql_max; by destruct (f64_lt x y)|apply Hn; by do 2 right]. }
  set (m := fold_left sql_max l (sql_max x y)) in *.
  assert (is_nan m = false) as Hm.
  { apply elem_of_cons in H1 as [->|H1]; [unfold sql_max; by destruct (f64_lt x y)|apply Hn; by do 2 right]. }
  assert (f64_lt m (sql_max x y) = false) as Hs by (apply H2; by left).
  split.
  - apply elem_of_cons in H1 as [->|H1]; [|by do 2 right]. unfold sql_max. destruct (f64_lt x y); [right|]; by left.
  - intros z [->|[->|Hz]%elem_of_cons]%elem_of_cons; [..|apply H2; by right]; revert Hs; unfold sql_max; destruct (f64_lt x y) eqn:E; intros Hs; try done.
    + apply (f64_not_lt_trans m y x); [done..|]. by apply f64_lt_asym.
    + by apply (f64_not_lt_trans m x y).
Qed.

(** ** Aggregates of aggregates *)
Lemma concat_elem {A} (ls : list (list A)) x : x ∈ concat ls <-> exists l, l ∈ ls /\ x ∈ l.
Proof.
  induction ls as [|l ls IH]; simpl; [set_solver|]. rewrite elem_of_app, IH. setoid_rewrite elem_of_cons. naive_solver.
Qed.
Lemma least_concat m ms parts p :
  Forall2 least (m :: ms) (p :: parts) -> numbers (concat (p :: parts)) -> least (fold_left sql_min ms m) (concat (p :: parts)).
Proof.
  intros H Hn.
  assert (numbers (m :: ms)) as Hms.
  { intros x Hx. apply list_elem_of_lookup in Hx as [i Hi]. destruct (Forall2_lookup_l _ _ _ _ _ H Hi) as (q & Hq & [Hin _]).
    apply Hn, concat_elem. exists q. split; [by eapply list_elem_of_lookup_2|done]. }
  destruct (fold_min ms m Hms) as [H1 H2]. set (r := fold_left sql_min ms m) in *. split.
  - apply list_elem_of_lookup in H1 as [i Hi]. destruct (Forall2_lookup_l _ _ _ _ _ H Hi) as (q & Hq & [Hin _]).
    apply concat_elem. exists q. split; [by eapply list_elem_of_lookup_2|done].
  - intros x (q & Hq & Hx)%concat_elem. pose proof Hq as [i Hi]%list_elem_of_lookup.
    destruct (Forall2_lookup_r _ _ _ _ _ H Hi) as (y & Hy%list_elem_of_lookup_2 & [_ Hl]).
    apply (f64_not_lt_trans x y r); [|by apply Hms|by apply Hms|by apply Hl|by apply H2].
    apply Hn, concat_elem. by exists q.
Qed.
Lemma greatest_concat m ms parts p :
  Forall2 greatest (m :: ms) (p :: parts) -> numbers (concat (p :: parts)) -> greatest (fold_left sql_max ms m) (concat (p :: parts)).
Proof.
  intros H Hn.
  assert (numbers (m :: ms)) as Hms.
  { intros x Hx. apply list_elem_of_lookup in Hx as [i Hi]. destruct (Forall2_lookup_l _ _ _ _ _ H Hi) as (q & Hq & [Hin _]).
    apply Hn, concat_elem. exists q. split; [by eapply list_elem_of_lookup_2|done]. }
  destruct (fold_max ms m Hms) as [H1 H2]. set (r := fold_left sql_max ms m) in *. split.
  - apply list_elem_of_lookup in H1 as [i Hi]. destruct (Forall2_lookup_l _ _ _ _ _ H Hi) as (q & Hq & [Hin _]).
    apply concat_elem. exists q. split; [by eapply list_elem_of_lookup_2|done].
  - intros x (q & Hq & Hx)%concat_elem. pose proof Hq as [i Hi]%list_elem_of_lookup.
    destruct (Forall2_lookup_r _ _ _ _ _ H Hi) as (y & Hy%list_elem_of_lookup_2 & [_ Hl]).
    apply (f64_not_lt_trans r y x); [by apply Hms|by apply Hms| |by apply H2|by apply Hl].
    apply Hn, concat_elem. by exists q.
Qed.
Lemma counts_concat {A} (cs : list Z) (parts : list (list A)) c0 :
  Forall2 (fun c l => c = Z.of_nat (length l)) cs parts -> fold_left Z.add cs c0 = c0 + Z.of_nat (length (concat parts)).
Proof.
  intros H. revert c0. induction H as [|c l cs parts -> _ IH]; intros c0; simpl; [lia|]. rewrite IH, length_app. lia.
Qed.

(** What a count, least, greatest and latest value say of a list of observations. *)
Record covers (count : Z) (minimum maximum : f64) (latest : Observation) (l : list Observation) : Prop := {
  cv_count : count = Z.of_nat (length l);
  cv_min : least minimum (map ob_value l);
  cv_max : greatest maximum (map ob_value l);
  cv_latest : latest ∈ l /\ forall o, o ∈ l -> as_late (ob_at latest) (ob_event latest) (ob_at o) (ob_event o);
}.
#[global] Instance covers_Permutation count minimum maximum latest :
  Proper ((≡ₚ) ==> iff) (covers count minimum maximum latest).
Proof.
  assert (forall l l', l ≡ₚ l' -> covers count minimum maximum latest l -> covers count minimum maximum latest l') as H.
  { intros l l' E [H1 [H2 H2'] [H3 H3'] [H4 H4']]. split.
    - by rewrite <- E.
    - split; [by rewrite <- E|]. intros x. rewrite <- E. apply H2'.
    - split; [by rewrite <- E|]. intros x. rewrite <- E. apply H3'.
    - split; [by rewrite <- E|]. intros o. rewrite <- E. apply H4'. }
  intros l l' E. split; apply H; [done|by symmetry].
Qed.
Definition item_latest (i : MetricItem) : Observation := {| ob_value := mi_latest i; ob_at := mi_at i; ob_event := mi_event i |}.
Definition stands (i : MetricItem) (l : list Observation) : Prop := covers (mi_count i) (mi_min i) (mi_max i) (item_latest i) l.
Lemma summarizes_covers r l :
  summarizes r l ->
  covers (ru_count r) (ru_min r) (ru_max r) {| ob_value := ru_latest r; ob_at := ru_latest_at r; ob_event := ru_latest_event r |} l.
Proof.
  intros [H1 _ [H2 H2'] [H3 H3'] [H4 H4']]. split; [done|split; [done|]|split; [done|]|by split].
  - intros x (o & -> & Ho)%list_elem_of_fmap. by apply H2'.
  - intros x (o & -> & Ho)%list_elem_of_fmap. by apply H3'.
Qed.
Lemma as_late_refl at_ ev : as_late at_ ev at_ ev.
Proof. right. split; [done|]. by rewrite str_compare_refl. Qed.
Lemma later_item_cases best i :
  (later_item best i = i /\ as_late (mi_at i) (mi_event i) (mi_at best) (mi_event best))
  \/ (later_item best i = best /\ as_late (mi_at best) (mi_event best) (mi_at i) (mi_event i)).
Proof.
  pose proof (newer_as_late {| ru_count := 0; ru_sum := mi_sum best; ru_min := mi_min best; ru_max := mi_max best;
    ru_latest := mi_latest best; ru_latest_at := mi_at best; ru_latest_event := mi_event best |} (mi_at i) (mi_event i)) as H.
  unfold later_item. unfold newer in H. simpl in H. destruct (_ || _) in *; [left|right]; done.
Qed.
Lemma fold_later_item l i :
  let r := fold_left later_item l i in
  r ∈ i :: l /\ forall j, j ∈ i :: l -> as_late (mi_at r) (mi_event r) (mi_at j) (mi_event j).
Proof.
  revert i. induction l as [|j l IH]; intros i; cbv zeta; simpl.
  { split; [by left|]. intros j ->%list_elem_of_singleton. apply as_late_refl. }
  destruct (IH (later_item i j)) as [H1 H2]. set (r := fold_left later_item l (later_item i j)) in *.
  assert (as_late (mi_at r) (mi_event r) (mi_at (later_item i j)) (mi_event (later_item i j))) as Hr by (apply H2; by left).
  destruct (later_item_cases i j) as [[E Hl]|[E Hl]]; rewrite E in *; (split;
    [apply elem_of_cons in H1 as [->|H1]; [first [by left|right; by left]|by do 2 right]|]);
    intros k [->|[->|Hk]%elem_of_cons]%elem_of_cons; try done; try (apply H2; by right); by eapply as_late_trans.
Qed.
Lemma group_covers i g p parts :
  Forall2 stands (i :: g) (p :: parts) -> numbers (map ob_value (concat (p :: parts))) ->
  covers (fold_left Z.add (map mi_count g) (mi_count i)) (fold_left sql_min (map mi_min g) (mi_min i))
    (fold_left sql_max (map mi_max g) (mi_max i)) (item_latest (fold_left later_item g i)) (concat (p :: parts)).
Proof.
  intros H Hn. assert (map ob_value (concat (p :: parts)) = concat (map (map ob_value) (p :: parts))) as E by apply concat_map.
  split.
  - rewrite (counts_concat (map mi_count g) parts).
    + apply Forall2_cons in H as [H _]. rewrite (cv_count _ _ _ _ _ H). simpl. rewrite length_app. lia.
    + apply Forall2_fmap_l. apply Forall2_cons in H as [_ H]. eapply Forall2_impl; [exact H|]. intros j q Hq. apply (cv_count _ _ _ _ _ Hq).
  - rewrite E in *. apply (least_concat (mi_min i) (map mi_min g) (map (map ob_value) parts)); [|done].
    change (Forall2 least (mi_min <$> i :: g) (map ob_value <$> p :: parts)). apply Forall2_fmap.
    eapply Forall2_impl; [exact H|]. intros j q Hq. apply (cv_min _ _ _ _ _ Hq).
  - rewrite E in *. apply (greatest_concat (mi_max i) (map mi_max g) (map (map ob_value) parts)); [|done].
    change (Forall2 greatest (mi_max <$> i :: g) (map ob_value <$> p :: parts)). apply Forall2_fmap.
    eapply Forall2_impl; [exact H|]. intros j q Hq. apply (cv_max _ _ _ _ _ Hq).
  - destruct (fold_later_item g i) as [H1 H2]. set (r := fold_left later_item g i) in *. split.
    + apply list_elem_of_lookup in H1 as [n Hr]. destruct (Forall2_lookup_l _ _ _ _ _ H Hr) as (q & Hq & [_ _ _ [Hin _]]).
      apply concat_elem. exists q. split; [by eapply list_elem_of_lookup_2|done].
    + intros o (q & [n Hq]%list_elem_of_lookup & Ho)%concat_elem.
      destruct (Forall2_lookup_r _ _ _ _ _ H Hq) as (j & Hj%list_elem_of_lookup_2 & [_ _ _ [_ Hl]]).
      eapply as_late_trans; [by apply H2|]. by apply (Hl o).
Qed.

(** ** Every accepted number is one observation *)
Section accepted_numbers.
Context {chr : Chrono} {libm : Libm} {micros : ChronoMicros} {codec : SerdeJson} {actions_codec : ActionCodec}
  {sql : SqlText} {spans : ChronoSpans}.

Lemma insert_metric_fresh s tenant device contract event at_ m s' :
  insert_metric s tenant device contract event at_ m = Ok s' ->
  es_samples s !! (event, ms_stream m, ms_field m) = None
  /\ exists row, es_samples s' = <[(event, ms_stream m, ms_field m) := row]> (es_samples s).
Proof.
  unfold insert_metric. intros (row & _ & H)%bind_ok. case_bool_decide as Hf; [done|]. apply eq_None_not_Some in Hf.
  split; [done|]. exists row. destruct (rollup_number row); [|by injection H as <-]. unfold upsert_rollup in H.
  destruct (es_contracts _ !! _); [|by injection H as <-]. destruct (_ && _); [|by injection H as <-].
  destruct (_ || _); [done|]. by injection H as <-.
Qed.
Lemma insert_metrics_fresh s tenant device contract event at_ ms s' :
  insert_metrics s tenant device contract event at_ ms = Ok s' ->
  NoDup (map (fun m => (ms_stream m, ms_field m)) ms)
  /\ forall m, m ∈ ms -> es_samples s !! (event, ms_stream m, ms_field m) = None.
Proof.
  revert s. induction ms as [|m ms IH]; intros s H; [by split; [constructor|intros ? ?%elem_of_nil]|].
  simpl in H. apply bind_ok in H as (s1 & [Hf (row & E)]%insert_metric_fresh & H). apply IH in H as [Hnd H].
  assert (forall m', m' ∈ ms -> (ms_stream m', ms_field m') <> (ms_stream m, ms_field m)
            /\ es_samples s !! (event, ms_stream m', ms_field m') = None) as Hm.
  { intros m' Hm'. specialize (H m' Hm'). rewrite E in H. apply lookup_insert_None in H as [? Hne]. split; [|done]. congruence. }
  split.
  - simpl. constructor; [|done]. intros (m' & Heq & Hm')%list_elem_of_fmap. by destruct (Hm m' Hm').
  - intros m' [->|Hm']%elem_of_cons; [done|by apply Hm].
Qed.
Definition distinct_fields (h : EventHistory) : Prop :=
  forall x, x ∈ accepted h -> NoDup (map (fun m => (ms_stream m, ms_field m)) (re_metrics x.2)).
Lemma step_distinct h h' : distinct_fields h -> event_step h h' -> distinct_fields h'.
Proof.
  intros Hh [tenant e uuid now r s' H|raw_days rollup_days now r s' Hpos H|s' H1 H2 H3 H4 H5]; [|done..].
  intros x Hx. apply elem_of_app in Hx as [Hx|Hx]; [by apply Hh|]. simpl in Hx. unfold repo_record in H.
  destruct (record_tx (eh_store h) tenant e uuid now) as [[[n s1]|]|err] eqn:E; injection H as <- <-;
    [|by apply elem_of_nil in Hx..]. apply list_elem_of_singleton in Hx as ->. simpl.
  unfold record_tx in E. apply bind_ok in E as (ret & _ & E). destruct (_ <? _); [done|].
  apply bind_ok in E as (a & _ & E). destruct (negb _); [done|]. destruct (es_receipts _ !! _); [done|].
  destruct (negb _); [done|]. apply bind_ok in E as (payload & _ & E). case_bool_decide; [done|]. destruct (negb _); [done|].
  apply bind_ok in E as (s2 & E & _). by apply insert_metrics_fresh in E as [E _].
Qed.
Lemma history_distinct s h : rtc event_step {| eh_store := s; accepted := [] |} h -> distinct_fields h.
Proof.
  intros Hrun. assert (distinct_fields {| eh_store := s; accepted := [] |}) as H0 by (by intros x Hx%elem_of_nil).
  induction Hrun as [|h1 h2 h3 Hstep _ IH]; [done|]. by apply IH, (step_distinct h1).
Qed.

(** An entry of an accepted event. *)
Lemma elem_of_event_entries tenant revision e k o :
  (k, o) ∈ entries tenant revision e <->
  exists m v, m ∈ re_metrics e /\ number_of (ms_value m) = Some v
    /\ k = (tenant, re_device_id e, revision, ms_stream m, ms_field m, bucket_start (occurred e))
    /\ o = {| ob_value := v; ob_at := occurred e; ob_event := re_event_id e |}.
Proof.
  unfold entries. rewrite list_elem_of_omap. split.
  - intros (m & Hm & H). unfold entry_of in H. apply bind_Some in H as (v & Hv & [= <- <-]). eauto 10.
  - intros (m & v & Hm & Hv & -> & ->). exists m. split; [done|]. unfold entry_of. by rewrite Hv.
Qed.
Lemma elem_of_all_entries l k o : (k, o) ∈ all_entries l <-> exists x, x ∈ l /\ (k, o) ∈ entries x.1.1 x.1.2 x.2.
Proof. unfold all_entries. rewrite list_elem_of_bind. naive_solver. Qed.
Lemma all_entries_NoDup raw mark h : event_inv raw mark h -> distinct_fields h -> NoDup (all_entries (accepted h)).
Proof.
  intros Hinv Hd. unfold all_entries. apply NoDup_bind.
  - intros x1 x2 [k o] H1 H2 (m1 & v1 & _ & _ & _ & ->)%elem_of_event_entries (m2 & v2 & _ & _ & _ & E)%elem_of_event_entries.
    apply (NoDup_fmap_eq event_key (accepted h)); [apply (ei_once _ _ _ Hinv)|done..|].
    unfold event_key. by injection E as _ -> ->.
  - intros x Hx. unfold entries. apply NoDup_omap_strong; [|by eapply (NoDup_fmap_1 (fun m => (ms_stream m, ms_field m))), Hd].
    intros m1 m2 [k o] H1 H2 E1 E2. unfold entry_of in E1, E2. apply bind_Some in E1 as (v1 & _ & [= <- _]).
    apply bind_Some in E2 as (v2 & _ & [= E2 E3 _]).
    apply (NoDup_fmap_eq (fun m => (ms_stream m, ms_field m)) (re_metrics x.2)); [by apply Hd|done..|]. congruence.
  - apply (NoDup_fmap_1 event_key), (ei_once _ _ _ Hinv).
Qed.
End accepted_numbers.

(** ** Buckets of time *)
Lemma sql_bucket_floor w t : 0 < w -> sql_bucket w t = t / w * w.
Proof.
  intros Hw. unfold sql_bucket. cbv zeta. pose proof (Z.div_mod t w ltac:(lia)). pose proof (Z.mod_pos_bound t w Hw).
  pose proof (Z.quot_rem t w ltac:(lia)). pose proof (Z.rem_bound_abs t w ltac:(lia)). 
  assert (Z.rem t w = t mod w \/ Z.rem t w = t mod w - w) as [E|E].
  { destruct (Z.leb_spec 0 t).
    - left. apply Z.rem_mod_nonneg; lia.
    - pose proof (Z.rem_nonpos t w ltac:(lia) ltac:(lia)). assert (exists q, t mod w = Z.rem t w + q * w) as [q Hq] by (exists (Z.quot t w - t / w); nia).
      assert (q = 0 \/ q = 1) as [->| ->] by nia; lia. }
  - destruct (Z.ltb_spec (Z.rem t w) 0); lia.
  - destruct (Z.ltb_spec (Z.rem t w) 0); lia.
Qed.
Lemma bucket_of_hour w t : 0 < w -> (HOUR_MICROS | w) -> sql_bucket w t = sql_bucket w (bucket_start t).
Proof.
  intros Hw [q ->]. rewrite !sql_bucket_floor by done. f_equal. unfold bucket_start. rewrite (Z.mul_comm q).
  rewrite <- !Zdiv.Zdiv_Zdiv by (unfold HOUR_MICROS in *; lia). by rewrite Z.div_mul.
Qed.
Lemma bucket_start_bounds t : bucket_start t <= t < bucket_start t + HOUR_MICROS.
Proof. unfold bucket_start. pose proof (Z.div_mod t HOUR_MICROS). pose proof (Z.mod_pos_bound t HOUR_MICROS). unfold HOUR_MICROS in *. lia. Qed.
Lemma hour_between f l t : (HOUR_MICROS | f) -> (HOUR_MICROS | l) -> f <= t < l <-> f <= bucket_start t < l.
Proof.
  intros Hf Hl. pose proof (bucket_start_bounds t). split.
  - intros [H1 H2]. split; [by apply hour_above|lia].
  - intros [H1 H2]. split; [lia|]. destruct (Z.lt_ge_cases t l); [done|]. apply (hour_above l t) in Hl; lia.
Qed.
(** What the bounds of a query guarantee: raw samples are retained outside the
    full hours, rollups within them. *)
Record window_ok (raw mark width : Z) (w : MetricWindow) : Prop := {
  wo_width : 0 < width;
  wo_full : match mw_full w with
    | None => raw <= mw_start w
    | Some (f, l) => (HOUR_MICROS | f) /\ (HOUR_MICROS | l) /\ (HOUR_MICROS | width) /\ mw_start w <= f /\ l <= mw_end w
        /\ mark <= f /\ (mw_start w = f \/ raw <= mw_start w) /\ (l = mw_end w \/ raw <= l)
    end;
}.
Lemma in_full_spec w t : in_full w t = true <-> exists f l, mw_full w = Some (f, l) /\ f <= t < l.
Proof.
  unfold in_full. destruct (mw_full w) as [[f l]|]; [|naive_solver]. rewrite andb_true_iff, Z.leb_le, Z.ltb_lt. naive_solver.
Qed.
Lemma raw_available raw mark width w t :
  window_ok raw mark width w -> mw_start w <= t < mw_end w -> in_full w t = false -> raw <= t.
Proof.
  intros [_ H] Ht Hf. apply not_true_iff_false in Hf. rewrite in_full_spec in Hf. destruct (mw_full w) as [[f l]|]; [|lia].
  assert (~ f <= t < l) by (intros ?; apply Hf; eauto). lia.
Qed.
Lemma full_hours raw mark width w t : window_ok raw mark width w -> in_full w t = in_full w (bucket_start t).
Proof.
  intros [_ H]. apply eq_true_iff_eq. rewrite !in_full_spec. destruct (mw_full w) as [[f l]|]; [|naive_solver].
  destruct H as (Hf & Hl & _). split; intros (f' & l' & [= <- <-] & Ht); exists f, l; (split; [done|]); by apply (hour_between f l t Hf Hl).
Qed.

(** ** A group of items and the observations it stands for *)
Definition contracts_kept (a : AnalyticsTables) (h : EventHistory) : Prop :=
  forall x, x ∈ accepted h ->
  (exists payload, es_events (at_events a) !! re_event_id x.2 = Some (event_row x.1.1 payload x.2)) ->
  exists c, es_contracts (at_events a) !! re_contract_id x.2 = Some c /\ kr_tenant c = x.1.1
    /\ kr_device c = re_device_id x.2 /\ kr_revision c = x.1.2
    /\ rw_tenant <$> bs_revisions (at_blueprints a) !! x.1.2 = Some x.1.1.
(** The accepted numbers of the metric for a device in the range, and in a bucket. *)
Definition wanted (tenant device : string) (q : AnalyticsQuery) (w : MetricWindow) (e : RollupKey * Observation) : bool :=
  let m := am_selector (qy_metric q) in
  of_metric tenant device (qy_revisions q) (an_stream_key m) (an_field_path m) e.1
  && (mw_start w <=? ob_at e.2) && (ob_at e.2 <? mw_end w).
Definition in_bucket (tenant device : string) (q : AnalyticsQuery) (w : MetricWindow) (b : Z) (e : RollupKey * Observation) : bool :=
  wanted tenant device q w e && (sql_bucket (bucket_micros (qy_bucket_seconds q)) (ob_at e.2) =? b).
Lemma wanted_spec tenant device q w t i r st f hour o :
  let m := am_selector (qy_metric q) in
  wanted tenant device q w ((t, i, r, st, f, hour), o) = true
  <-> t = tenant /\ i = device /\ r ∈ qy_revisions q /\ st = an_stream_key m /\ f = an_field_path m
      /\ mw_start w <= ob_at o < mw_end w.
Proof.
  unfold wanted, of_metric. simpl. rewrite !andb_true_iff, !String.eqb_eq, bool_decide_eq_true, Z.leb_le, Z.ltb_lt. tauto.
Qed.
Lemma numeric_type v : (value_type v =s? "float64") || (value_type v =s? "int64") = true <-> is_Some (number_of v).
Proof. destruct v; simpl; split; intros H; try done; try (by eexists); by destruct H. Qed.
(** The entry a raw row of the query stands for. *)
Definition sample_entry (a : AnalyticsTables) (w : MetricWindow) (e : SampleKey * SampleRow) : option (RollupKey * Observation) :=
  r ← sample_revision a w e.1 e.2;
  x ← rollup_number e.2;
  Some ((sm_tenant e.2, sm_device e.2, r, e.1.1.2, e.1.2, bucket_start (sm_occurred_at e.2)),
        {| ob_value := x; ob_at := sm_occurred_at e.2; ob_event := e.1.1.1 |}).
Section samples.
Context {chr : Chrono} {libm : Libm} {micros : ChronoMicros} {codec : SerdeJson} {actions_codec : ActionCodec}
  {sql : SqlText} {spans : ChronoSpans}.
Implicit Types (a : AnalyticsTables) (w : MetricWindow).
(** The retained sample of an accepted number. *)
Lemma sample_of raw mark h a w x m :
  event_inv raw mark h -> at_events a = eh_store h -> contracts_kept a h ->
  x ∈ accepted h -> m ∈ re_metrics x.2 -> raw <= occurred x.2 ->
  exists row, es_samples (at_events a) !! sample_key x.2 m = Some row /\ stored_sample x.1.1 x.2 m = Ok row
    /\ sample_revision a w (sample_key x.2 m) row = Some x.1.2.
Proof.
  intros Hinv Ha Hkept Hx Hm Hr. destruct (ei_raw _ _ _ Hinv x Hx Hr) as [[p Hp] Hs]. destruct (Hs m Hm) as (row & Hrow & Hl).
  rewrite <- Ha in Hp, Hl. exists row. split_and!; [done..|].
  destruct (Hkept x Hx ltac:(by exists p)) as (c & Hc & Ht & Hcd & Hcr & Hrev).
  assert (sm_tenant row = x.1.1 /\ sm_device row = re_device_id x.2) as [E1 E2].
  { unfold stored_sample, sample_row in Hrow. destruct (ms_value m); try (by injection Hrow as <-).
    by apply bind_ok in Hrow as (t & _ & [= <-]). }
  unfold sample_revision, sample_key. simpl. rewrite Hp. simpl. rewrite Hc. simpl.
  rewrite E1, E2, Ht, Hcd, Hcr, !String.eqb_refl. simpl. destruct (mw_full w); [done|].
  by rewrite bool_decide_true.
Qed.
Lemma sample_item_iff a tenant q devices w k r i :
  let m := am_selector (qy_metric q) in
  sample_item a tenant q devices w k r = Some i <->
  exists d rev x, at_devices a !! sm_device r = Some d /\ sample_revision a w k r = Some rev /\ rollup_number r = Some x
    /\ (pd_tenant d = sm_tenant r /\ sm_tenant r = tenant /\ sm_device r ∈ devices
        /\ mw_start w <= sm_occurred_at r < mw_end w /\ in_full w (sm_occurred_at r) = false
        /\ k.1.2 = an_stream_key m /\ k.2 = an_field_path m
        /\ (sm_type r =s? "float64") || (sm_type r =s? "int64") = true /\ rev ∈ qy_revisions q)
    /\ i = {| mi_device := sm_device r; mi_name := pd_name d;
              mi_bucket := sql_bucket (bucket_micros (qy_bucket_seconds q)) (sm_occurred_at r); mi_count := 1; mi_sum := x;
              mi_min := x; mi_max := x; mi_latest := x; mi_at := sm_occurred_at r; mi_event := k.1.1 |}.
Proof.
  cbv zeta. unfold sample_item. split.
  - intros H. apply bind_Some in H as (d & Hd & H). apply bind_Some in H as (rev & Hrev & H). destruct (_ && _) eqn:E in H; [|done]. apply bind_Some in H as (x & Hx & [= <-]).
    exists d, rev, x. rewrite !andb_true_iff, !String.eqb_eq, !bool_decide_eq_true, negb_true_iff, Z.leb_le, Z.ltb_lt in E.
    split_and!; tauto.
  - intros (d & rev & x & Hd & Hrev & Hx & C & ->). rewrite Hd. simpl. rewrite Hrev. simpl.
    assert (forall c (A : Type) (u v : A), c = true -> (if c then u else v) = u) as Hif by (by intros [] A u v).
    rewrite Hif; [by rewrite Hx|]. rewrite !andb_true_iff, !String.eqb_eq, !bool_decide_eq_true, negb_true_iff, Z.leb_le, Z.ltb_lt. tauto.
Qed.
Lemma stored_row tenant e m row :
  stored_sample tenant e m = Ok row ->
  sm_tenant row = tenant /\ sm_device row = re_device_id e /\ sm_occurred_at row = occurred e
  /\ sm_type row = value_type (ms_value m) /\ rollup_number row = number_of (ms_value m).
Proof.
  intros H. pose proof (sample_row_number _ _ _ _ _ H) as Hn. unfold stored_sample, sample_row in H.
  destruct (ms_value m); try (by injection H as <-). by apply bind_ok in H as (t & _ & [= <-]).
Qed.
Definition group_entry a tenant q devices w (k : string * string * Z) (e : SampleKey * SampleRow) : option (RollupKey * Observation) :=
  i ← sample_item a tenant q devices w e.1 e.2; if bool_decide (group_key i = k) then sample_entry a w e else None.
Lemma group_entry_iff a tenant q devices w k e en :
  group_entry a tenant q devices w k e = Some en <->
  exists i, sample_item a tenant q devices w e.1 e.2 = Some i /\ group_key i = k /\ sample_entry a w e = Some en.
Proof.
  unfold group_entry. rewrite bind_Some. split.
  - intros (i & Hi & H). case_bool_decide; [|done]. by exists i.
  - intros (i & Hi & Hk & H). exists i. split; [done|]. by rewrite bool_decide_true.
Qed.
(** The raw rows of a group are the accepted numbers outside the full hours. *)
Lemma group_entry_accepted raw mark h a tenant q devices w device d b e en :
  event_inv raw mark h -> at_events a = eh_store h -> contracts_kept a h ->
  window_ok raw mark (bucket_micros (qy_bucket_seconds q)) w -> at_devices a !! device = Some d ->
  e ∈ map_to_list (es_samples (at_events a)) -> group_entry a tenant q devices w (device, pd_name d, b) e = Some en ->
  en ∈ all_entries (accepted h) /\ in_bucket tenant device q w b en = true /\ in_full w (ob_at en.2) = false.
Proof.
  intros Hinv Ha Hkept Hw Hdev He (i & Hi & Hk & Hen)%group_entry_iff. destruct e as [key row]. apply elem_of_map_to_list in He.
  apply sample_item_iff in Hi as (d' & rev & v & Hd' & Hrev & Hv & (C1 & C2 & C3 & C4 & C5 & C6 & C7 & C8 & C9) & ->).
  simpl in *. injection Hk as Ek1 Ek2 Ek3. subst device.
  rewrite Ha in He. destruct (ei_samples _ _ _ Hinv key row He) as (x & m & Hx & Hm & -> & Hst & _).
  destruct (stored_row _ _ _ _ Hst) as (R1 & R2 & R3 & R4 & R5).
  assert (raw <= occurred x.2) as Hraw by (rewrite <- R3; by apply (raw_available raw mark _ w _ Hw)).
  destruct (sample_of raw mark h a w x m Hinv Ha Hkept Hx Hm Hraw) as (row' & Hrow' & _ & Hrev').
  rewrite Ha, He in Hrow'. injection Hrow' as <-. rewrite Hrev in Hrev'. injection Hrev' as ->.
  unfold sample_entry in Hen. simpl in Hen. rewrite Hrev in Hen. simpl in Hen. rewrite Hv in Hen. injection Hen as <-.
  rewrite R1, R2, R3 in *. split_and!.
  - apply elem_of_all_entries. exists x. split; [done|]. apply elem_of_event_entries. exists m, v. by rewrite <- R5.
  - unfold in_bucket. rewrite (proj2 (wanted_spec _ _ _ _ _ _ _ _ _ _ _)); [simpl; by apply Z.eqb_eq|]. simpl. done.
  - done.
Qed.
Lemma accepted_group_entry raw mark h a tenant q devices w device d b en :
  event_inv raw mark h -> at_events a = eh_store h -> contracts_kept a h ->
  window_ok raw mark (bucket_micros (qy_bucket_seconds q)) w -> at_devices a !! device = Some d -> pd_tenant d = tenant ->
  device ∈ devices ->
  en ∈ all_entries (accepted h) -> in_bucket tenant device q w b en = true -> in_full w (ob_at en.2) = false ->
  exists e, e ∈ map_to_list (es_samples (at_events a)) /\ group_entry a tenant q devices w (device, pd_name d, b) e = Some en.
Proof.
  intros Hinv Ha Hkept Hw Hdev Hten Hin Hen Hb Hf. destruct en as [k o].
  apply elem_of_all_entries in Hen as (x & Hx & (m & v & Hm & Hv & -> & ->)%elem_of_event_entries).
  apply andb_true_iff in Hb as [Hwant Hb%Z.eqb_eq]. apply wanted_spec in Hwant as (T1 & T2 & T3 & T4 & T5 & T6). simpl in *.
  assert (raw <= occurred x.2) as Hraw by (by apply (raw_available raw mark _ w _ Hw)).
  destruct (sample_of raw mark h a w x m Hinv Ha Hkept Hx Hm Hraw) as (row & Hrow & Hst & Hrev).
  destruct (stored_row _ _ _ _ Hst) as (R1 & R2 & R3 & R4 & R5).
  exists (sample_key x.2 m, row). split; [by apply elem_of_map_to_list|]. apply group_entry_iff.
  eexists. split; [apply sample_item_iff; exists d, x.1.2, v|].
  - split_and!; simpl; [by rewrite R2, T2|done|by rewrite R5|congruence|congruence|by rewrite R2, T2|rewrite R3; lia|rewrite R3; lia
      |by rewrite R3|done|done|rewrite R4; apply numeric_type; by eexists|done|reflexivity].
  - simpl. split; [unfold group_key; simpl; by rewrite R2, R3, T2, Hb|].
    unfold sample_entry. simpl. rewrite Hrev. simpl. rewrite R5, Hv. simpl. by rewrite R1, R2, R3.
Qed.
Lemma samples_permutation raw mark h a tenant q devices w device d b :
  event_inv raw mark h -> distinct_fields h -> at_events a = eh_store h -> contracts_kept a h ->
  window_ok raw mark (bucket_micros (qy_bucket_seconds q)) w -> at_devices a !! device = Some d -> pd_tenant d = tenant ->
  device ∈ devices ->
  omap (group_entry a tenant q devices w (device, pd_name d, b)) (map_to_list (es_samples (at_events a)))
  ≡ₚ List.filter (fun e => in_bucket tenant device q w b e && negb (in_full w (ob_at e.2))) (all_entries (accepted h)).
Proof.
  intros Hinv Hdist Ha Hkept Hw Hdev Hten Hin. apply NoDup_Permutation.
  - apply NoDup_omap_strong; [|apply NoDup_map_to_list].
    intros [k1 r1] [k2 r2] en H1%elem_of_map_to_list H2%elem_of_map_to_list
      (i1 & _ & _ & E1)%group_entry_iff (i2 & _ & _ & E2)%group_entry_iff.
    unfold sample_entry in E1, E2. simpl in *. apply bind_Some in E1 as (v1 & _ & E1). apply bind_Some in E1 as (x1 & _ & [= <-]).
    apply bind_Some in E2 as (v2 & _ & E2). apply bind_Some in E2 as (x2 & _ & [= _ _ _ E4 E5 _ _ _ E6]).
    assert (k1 = k2) as <- by (destruct k1 as [[? ?] ?], k2 as [[? ?] ?]; simpl in *; congruence). congruence.
  - apply NoDup_ListNoDup, List.NoDup_filter, NoDup_ListNoDup. by eapply all_entries_NoDup.
  - intros en. rewrite elem_of_filterb, andb_true_iff, negb_true_iff, list_elem_of_omap. split.
    + intros (e & He & Hg). destruct (group_entry_accepted raw mark h a tenant q devices w device d b e en) as (H1 & H2 & H3); done.
    + intros (H1 & H2 & H3). by apply (accepted_group_entry raw mark h a tenant q devices w device d b en).
Qed.

(** The rollups of a group are the accepted numbers of the full hours. *)
Lemma rollup_item_iff a tenant q devices w t dv rev st f hour r i :
  let m := am_selector (qy_metric q) in
  rollup_item a tenant q devices w (t, dv, rev, st, f, hour) r = Some i <->
  exists d, at_devices a !! dv = Some d
    /\ (pd_tenant d = t /\ t = tenant /\ dv ∈ devices /\ in_full w hour = true /\ st = an_stream_key m /\ f = an_field_path m
        /\ rev ∈ qy_revisions q)
    /\ i = {| mi_device := dv; mi_name := pd_name d; mi_bucket := sql_bucket (bucket_micros (qy_bucket_seconds q)) hour;
              mi_count := ru_count r; mi_sum := ru_sum r; mi_min := ru_min r; mi_max := ru_max r; mi_latest := ru_latest r;
              mi_at := ru_latest_at r; mi_event := ru_latest_event r |}.
Proof.
  cbv zeta. unfold rollup_item. split.
  - intros H. apply bind_Some in H as (d & Hd & H). destruct (_ && _) eqn:E in H; [|done]. injection H as <-.
    exists d. rewrite !andb_true_iff, !String.eqb_eq, !bool_decide_eq_true in E. split_and!; tauto.
  - intros (d & Hd & C & ->). rewrite Hd. simpl.
    assert (forall c (A : Type) (u v : A), c = true -> (if c then u else v) = u) as Hif by (by intros [] A u v).
    rewrite Hif; [done|]. rewrite !andb_true_iff, !String.eqb_eq, !bool_decide_eq_true. tauto.
Qed.
Definition group_rollup a tenant q devices w (k : string * string * Z) (e : RollupKey * RollupRow) : option RollupKey :=
  i ← rollup_item a tenant q devices w e.1 e.2; if bool_decide (group_key i = k) then Some e.1 else None.
Lemma group_rollup_iff a tenant q devices w k e k' :
  group_rollup a tenant q devices w k e = Some k' <->
  k' = e.1 /\ exists i, rollup_item a tenant q devices w e.1 e.2 = Some i /\ group_key i = k.
Proof.
  unfold group_rollup. rewrite bind_Some. split.
  - intros (i & Hi & H). case_bool_decide; [|done]. injection H as <-. eauto.
  - intros (-> & i & Hi & Hk). exists i. split; [done|]. by rewrite bool_decide_true.
Qed.
Lemma aggregate_some l : l <> [] -> is_Some (aggregate l).
Proof. destruct l as [|o l _] using rev_ind; [done|]. unfold aggregate. rewrite fold_left_app. by eexists. Qed.
Lemma having_key_observations (k : RollupKey) es : map snd (having_key fst k es) = observations k es.
Proof. done. Qed.
Lemma rollup_exists raw mark h k o :
  event_inv raw mark h -> (k, o) ∈ all_entries (accepted h) -> mark <= k.2 -> is_Some (es_rollups (eh_store h) !! k).
Proof.
  intros Hinv Hin Hm. rewrite (ei_rollups _ _ _ Hinv). destruct (Z.leb_spec mark k.2); [|lia]. apply aggregate_some.
  intros E. apply (not_elem_of_nil o). rewrite <- E, <- having_key_observations. apply list_elem_of_fmap. exists (k, o).
  split; [done|]. by apply elem_of_having_key.
Qed.
Lemma rollups_permutation raw mark h a tenant q devices w device d b :
  event_inv raw mark h -> at_events a = eh_store h ->
  window_ok raw mark (bucket_micros (qy_bucket_seconds q)) w -> at_devices a !! device = Some d -> pd_tenant d = tenant ->
  device ∈ devices ->
  concat (map (fun k => having_key fst k (all_entries (accepted h)))
            (omap (group_rollup a tenant q devices w (device, pd_name d, b)) (map_to_list (es_rollups (at_events a)))))
  ≡ₚ List.filter (fun e => in_bucket tenant device q w b e && in_full w (ob_at e.2)) (all_entries (accepted h)).
Proof.
  intros Hinv Ha Hw Hdev Hten Hin. set (F := List.filter _ _). set (ks := omap _ _).
  assert (NoDup ks) as Hnd.
  { apply NoDup_omap_strong; [|apply NoDup_map_to_list]. intros [k1 r1] [k2 r2] k H1%elem_of_map_to_list H2%elem_of_map_to_list
      [E1 _]%group_rollup_iff [E2 _]%group_rollup_iff. simpl in *. subst. congruence. }
  assert (forall e, e ∈ F -> e.1 ∈ ks) as Hcover.
  { intros [k o] [He [Hb Hf]%andb_true_iff]%elem_of_filterb. simpl in Hf.
    pose proof He as (x & Hx & (m & v & Hm & Hv & -> & ->)%elem_of_event_entries)%elem_of_all_entries. simpl in *.
    apply andb_true_iff in Hb as [Hwant Hb%Z.eqb_eq]. apply wanted_spec in Hwant as (T1 & T2 & T3 & T4 & T5 & T6).
    rewrite (full_hours raw mark _ w _ Hw) in Hf. apply in_full_spec in Hf as Hf'. destruct Hf' as (f & l & Efull & Hfl).
    destruct Hw as [Hwidth Hfull]. rewrite Efull in Hfull. destruct Hfull as (D1 & D2 & D3 & B1 & B2 & B3 & _).
    destruct (rollup_exists raw mark h _ _ Hinv He) as [r Hr]; [simpl; lia|]. rewrite <- Ha in Hr.
    apply list_elem_of_omap. eexists (_, r). split; [by apply elem_of_map_to_list|]. apply group_rollup_iff. split; [done|].
    eexists. split; [apply rollup_item_iff; exists d; split_and!; [by rewrite T2|congruence|done|by rewrite T2|done..]|].
    unfold group_key. simpl. rewrite T2, <- (bucket_of_hour _ _ Hwidth D3). simpl in Hb. by rewrite Hb. }
  rewrite (partition_by fst ks F Hnd Hcover). apply Permutation_refl'. f_equal. apply map_ext_in. intros k Hk%list_elem_of_In.
  apply list_elem_of_omap in Hk as ([k0 r] & _ & [-> (i & Hi & Hgk)]%group_rollup_iff). simpl in *.
  destruct k0 as [[[[[t dv] rev] st] fd] hour]. apply rollup_item_iff in Hi as (d' & Hd' & (C1 & C2 & C3 & C4 & C5 & C6 & C7) & ->).
  injection Hgk as -> _ Hb. unfold F, having_key. rewrite filterb_filterb. apply filter_ext_in. intros [k o] He%list_elem_of_In. simpl.
  case_bool_decide as Ek; [|done]. subst k. simpl. symmetry. rewrite andb_true_iff.
  pose proof He as (x & Hx & (m & v & Hm & Hv & [= -> -> -> -> -> ->] & ->)%elem_of_event_entries)%elem_of_all_entries. simpl in *.
  assert (in_full w (occurred x.2) = true) as Hf by (by rewrite (full_hours raw mark _ w _ Hw)). split; [|done].
  apply in_full_spec in Hf as (f & l & Efull & Hfl). destruct Hw as [Hwidth Hfull]. rewrite Efull in Hfull.
  destruct Hfull as (D1 & D2 & D3 & B1 & B2 & _). unfold in_bucket. rewrite andb_true_iff, Z.eqb_eq. split.
  - apply wanted_spec. simpl. split_and!; try done; lia.
  - simpl. rewrite (bucket_of_hour _ _ Hwidth D3). done.
Qed.

(** ** What a group stands for *)
Lemma Forall2_filter_omap {X I Y Z} (R : I -> Z -> Prop) (f : X -> option I) (p : I -> bool) (f' : X -> option Y) (g : Y -> Z) l :
  (forall e, e ∈ l -> match f e with
     | Some i => if p i then exists y, f' e = Some y /\ R i (g y) else f' e = None
     | None => f' e = None
     end) ->
  Forall2 R (List.filter p (omap f l)) (map g (omap f' l)).
Proof.
  induction l as [|e l IH]; intros H; [constructor|].
  assert (Forall2 R (List.filter p (omap f l)) (map g (omap f' l))) as Hl by (apply IH; intros e' He'; apply H; by right).
  specialize (H e ltac:(by left)). cbn [omap list_omap]. destruct (f e) as [i|]; [|by rewrite H].
  simpl. destruct (p i); [|by rewrite H]. destruct H as (y & -> & Hy). simpl. by constructor.
Qed.
Lemma single_covers o : is_nan (ob_value o) = false -> covers 1 (ob_value o) (ob_value o) o [o].
Proof.
  intros Hn. split; [done|split; [by left|]|split; [by left|]|split; [by left|]].
  - intros x ->%list_elem_of_singleton. by apply f64_lt_irrefl.
  - intros x ->%list_elem_of_singleton. by apply f64_lt_irrefl.
  - intros o' ->%list_elem_of_singleton. apply as_late_refl.
Qed.
Lemma group_stands raw mark h a tenant q devices w device d b :
  event_inv raw mark h -> distinct_fields h -> at_events a = eh_store h -> contracts_kept a h ->
  window_ok raw mark (bucket_micros (qy_bucket_seconds q)) w -> at_devices a !! device = Some d -> pd_tenant d = tenant ->
  device ∈ devices ->
  exists parts, Forall2 stands (group_of (metric_items a tenant q devices w) (device, pd_name d, b)) parts
    /\ concat parts ≡ₚ map snd (List.filter (in_bucket tenant device q w b) (all_entries (accepted h))).
Proof.
  intros Hinv Hdist Ha Hkept Hw Hdev Hten Hin. pose proof (ei_numbers _ _ _ Hinv) as Hnum. rewrite Forall_forall in Hnum.
  set (samples := map_to_list (es_samples (at_events a))). set (rollups := map_to_list (es_rollups (at_events a))).
  set (k := (device, pd_name d, b)). set (E := all_entries (accepted h)).
  exists (map (fun en => [en.2]) (omap (group_entry a tenant q devices w k) samples)
     ++ map (fun k' => map snd (having_key fst k' E)) (omap (group_rollup a tenant q devices w k) rollups)). split.
  - unfold group_of, metric_items. rewrite List.filter_app. apply Forall2_app; apply Forall2_filter_omap.
    + intros [key row] He. simpl. destruct (sample_item a tenant q devices w key row) as [i|] eqn:Hi;
        [|apply eq_None_not_Some; intros [en (i & Hi' & _)%group_entry_iff]; simpl in Hi'; congruence].
      case_bool_decide as Hg; [|apply eq_None_not_Some; intros [en (i' & Hi' & Hk' & _)%group_entry_iff]; simpl in Hi'; congruence].
      pose proof Hi as (d' & rev & x & _ & Hrev & Hx & _ & Ei)%sample_item_iff.
      destruct (sample_entry a w (key, row)) as [en|] eqn:Hen; [|unfold sample_entry in Hen; simpl in Hen; rewrite Hrev in Hen; simpl in Hen; rewrite Hx in Hen; done].
      assert (group_entry a tenant q devices w k (key, row) = Some en) as Hge by (apply group_entry_iff; by exists i).
      exists en. split; [done|]. destruct (group_entry_accepted raw mark h a tenant q devices w device d b (key, row) en) as (H1 & _); try done.
      specialize (Hnum en H1). unfold sample_entry in Hen. simpl in Hen. rewrite Hrev in Hen. simpl in Hen. rewrite Hx in Hen.
      injection Hen as <-. subst i. unfold stands, item_latest. simpl. exact (single_covers {| ob_value := x |} Hnum).
    + intros [key row] He. simpl. destruct (rollup_item a tenant q devices w key row) as [i|] eqn:Hi;
        [|apply eq_None_not_Some; intros [en [_ (i & Hi' & _)]%group_rollup_iff]; simpl in Hi'; congruence].
      case_bool_decide as Hg; [|apply eq_None_not_Some; intros [en [_ (i' & Hi' & Hk')]%group_rollup_iff]; simpl in Hi'; congruence].
      exists key. split; [apply group_rollup_iff; split; [done|by exists i]|].
      apply elem_of_map_to_list in He. rewrite Ha, (ei_rollups _ _ _ Hinv) in He. destruct (_ <=? _) in He; [|done].
      destruct key as [[[[[t dv] rev] st] fd] hour]. apply rollup_item_iff in Hi as (d' & _ & _ & ->).
      unfold stands, item_latest. simpl. apply summarizes_covers, aggregate_summarizes; [|done].
      apply Forall_forall. intros o (e & -> & Ho)%list_elem_of_fmap. apply elem_of_filterb in Ho as [Ho _]. by apply Hnum.
  - rewrite concat_app.
    assert (concat (map (fun en : RollupKey * Observation => [en.2]) (omap (group_entry a tenant q devices w k) samples))
            = map snd (omap (group_entry a tenant q devices w k) samples)) as ->.
    { induction (omap (group_entry a tenant q devices w k) samples) as [|en l IH]; [done|]. simpl. by rewrite IH. }
    assert (forall ks, concat (map (fun k' => map snd (having_key fst k' E)) ks) = map snd (concat (map (fun k' => having_key fst k' E) ks))) as ->
      by (intros ks; rewrite concat_map, map_map; done).
    rewrite <- map_app. apply (fmap_Permutation snd). unfold samples, rollups, k, E.
    rewrite (samples_permutation raw mark h a tenant q devices w device d b), (rollups_permutation raw mark h a tenant q devices w device d b) by done.
    symmetry. rewrite (filterb_split (fun e => negb (in_full w (ob_at e.2))) (List.filter _ _)). rewrite !filterb_filterb.
    apply Permutation_app; apply Permutation_refl', List.filter_ext; intros e; [apply andb_comm|]. rewrite negb_involutive. apply andb_comm.
Qed.
End samples.

(** ** Statistics of a device *)
Lemma rust_min_numbers l x : numbers (x :: l) -> fold_left rust_min l x = fold_left sql_min l x.
Proof.
  revert x. induction l as [|y l IH]; intros x Hn; [done|]. simpl.
  assert (is_nan x = false) as Hx by (apply Hn; by left). assert (is_nan y = false) as Hy by (apply Hn; right; by left).
  assert (rust_min x y = sql_min x y) as -> by (unfold rust_min; by rewrite Hx, Hy). apply IH.
  intros z [->|Hz]%elem_of_cons; [unfold sql_min; by destruct (f64_lt y x)|apply Hn; by do 2 right].
Qed.
Lemma rust_max_numbers l x : numbers (x :: l) -> fold_left rust_max l x = fold_left sql_max l x.
Proof.
  revert x. induction l as [|y l IH]; intros x Hn; [done|]. simpl.
  assert (is_nan x = false) as Hx by (apply Hn; by left). assert (is_nan y = false) as Hy by (apply Hn; right; by left).
  assert (rust_max x y = sql_max x y) as -> by (unfold rust_max; by rewrite Hx, Hy). apply IH.
  intros z [->|Hz]%elem_of_cons; [unfold sql_max; by destruct (f64_lt x y)|apply Hn; by do 2 right].
Qed.
Lemma fold_later_bucket l i :
  let r := fold_left later_bucket l i in r ∈ i :: l /\ forall j, j ∈ i :: l -> bk_start j <= bk_start r.
Proof.
  revert i. induction l as [|j l IH]; intros i; cbv zeta; simpl.
  { split; [by left|]. by intros j ->%list_elem_of_singleton. }
  destruct (IH (later_bucket i j)) as [H1 H2]. set (r := fold_left later_bucket l (later_bucket i j)) in *.
  assert (bk_start (later_bucket i j) <= bk_start r) as Hr by (apply H2; by left).
  assert (bk_start i <= bk_start (later_bucket i j) /\ bk_start j <= bk_start (later_bucket i j)) as [Hi Hj]
    by (unfold later_bucket; destruct (Z.ltb_spec (bk_start i) (bk_start j)); lia).
  split.
  - apply elem_of_cons in H1 as [->|H1]; [|by do 2 right]. unfold later_bucket. destruct (_ <? _); [right|]; by left.
  - intros k [->|[->|Hk]%elem_of_cons]%elem_of_cons; [lia|lia|apply H2; by right].
Qed.
Definition start_of (width : Z) (e : RollupKey * Observation) : NaiveDateTime := sql_bucket width (ob_at e.2) * 1000.
Lemma start_of_mono width e e' : 0 < width -> start_of width e < start_of width e' -> ob_at e.2 < ob_at e'.2.
Proof.
  intros Hw. unfold start_of. rewrite !sql_bucket_floor by done. intros H. destruct (Z.lt_ge_cases (ob_at e.2) (ob_at e'.2)); [done|].
  assert (ob_at e'.2 / width <= ob_at e.2 / width) by (by apply Z.div_le_mono). nia.
Qed.
(** A bucket of a device: its count, least, greatest and latest of the entries that fall in it. *)
Definition bucket_covers (width : Z) (F : list (RollupKey * Observation)) (bk : AnalyticsBucket) : Prop :=
  exists latest, bk_latest bk = ob_value latest
    /\ covers (bk_count bk) (bk_minimum bk) (bk_maximum bk) latest (map snd (having_key (start_of width) (bk_start bk) F)).
Lemma stats_cover width F B :
  0 < width -> B <> [] -> numbers (map (fun e => ob_value e.2) F) -> NoDup (map bk_start B) ->
  (forall bk, bk ∈ B -> bucket_covers width F bk) -> (forall e, e ∈ F -> start_of width e ∈ map bk_start B) ->
  exists st latest, stats_for_buckets B = Some st /\ as_latest st = ob_value latest
    /\ covers (as_sample_count st) (as_minimum st) (as_maximum st) latest (map snd F).
Proof.
  intros Hw Hne Hnum Hnd HB HF. destruct B as [|first rest] eqn:EB; [done|]. rewrite <- EB in *. clear Hne.
  set (part := fun bk => map snd (having_key (start_of width) (bk_start bk) F)).
  assert (map snd F ≡ₚ concat (map part B)) as HP.
  { rewrite (partition_by (start_of width) (map bk_start B) F Hnd HF) at 1. rewrite concat_map, !map_map. done. }
  assert (numbers (map ob_value (concat (map part B)))) as Hn.
  { intros x Hx. rewrite <- HP in Hx. rewrite map_map in Hx. by apply Hnum. }
  assert (first ∈ B) as Hfirst by (rewrite EB; by left).
  assert (forall x, x ∈ concat (map (map ob_value) (map part (first :: B))) <-> x ∈ map ob_value (concat (map part B))) as Hdup.
  { intros x. rewrite concat_map, !concat_elem. split; intros (l & Hl & Hx); exists l; (split; [|done]).
    - simpl in Hl. apply elem_of_cons in Hl as [->|Hl]; [|done]. apply list_elem_of_fmap. exists (part first). split; [done|].
      apply list_elem_of_fmap. by exists first.
    - simpl. by right. }
  assert (numbers (concat (map (map ob_value) (map part (first :: B))))) as Hn2 by (intros x Hx; by apply Hn, Hdup).
  assert (Forall2 least (map bk_minimum (first :: B)) (map (map ob_value) (map part (first :: B)))
          /\ Forall2 greatest (map bk_maximum (first :: B)) (map (map ob_value) (map part (first :: B)))) as [Hmin Hmax].
  { rewrite !map_map. assert (forall bk, bk ∈ first :: B -> bucket_covers width F bk) as HB'
      by (intros bk [->|Hbk]%elem_of_cons; by apply HB).
    split; (apply Forall2_fmap, Forall_Forall2_diag, Forall_forall); intros bk Hbk; destruct (HB' bk Hbk) as (lat & _ & [_ C2 C3 _]); done. }
  pose proof (least_concat (bk_minimum first) (map bk_minimum B) (map (map ob_value) (map part B)) (map ob_value (part first)) Hmin Hn2) as [L1 L2].
  pose proof (greatest_concat (bk_maximum first) (map bk_maximum B) (map (map ob_value) (map part B)) (map ob_value (part first)) Hmax Hn2) as [G1 G2].
  assert (forall bk, bk ∈ first :: B -> bk ∈ B) as Hall by (by intros bk [->|]%elem_of_cons).
  assert (numbers (map bk_minimum (first :: B))) as Nmin.
  { intros x (bk & -> & Hbk)%list_elem_of_fmap. destruct (HB bk (Hall bk Hbk)) as (lat & _ & [_ [C2 _] _ _]).
    apply Hn, Hdup, concat_elem. exists (map ob_value (part bk)). split; [|exact C2]. rewrite map_map. apply list_elem_of_fmap. by exists bk. }
  assert (numbers (map bk_maximum (first :: B))) as Nmax.
  { intros x (bk & -> & Hbk)%list_elem_of_fmap. destruct (HB bk (Hall bk Hbk)) as (lat & _ & [_ _ [C2 _] _]).
    apply Hn, Hdup, concat_elem. exists (map ob_value (part bk)). split; [|exact C2]. rewrite map_map. apply list_elem_of_fmap. by exists bk. }
  destruct (fold_later_bucket B first) as [R1 R2]. set (r := fold_left later_bucket B first) in *.
  assert (r ∈ B) as Hr by (by apply Hall). destruct (HB r Hr) as (lat & Elat & [_ _ _ [C4 C4']]).
  eexists _, lat. split_and!.
  - rewrite EB at 1. unfold stats_for_buckets. rewrite <- EB. reflexivity.
  - simpl. exact Elat.
  - rewrite HP. simpl. split.
    + rewrite (counts_concat (map bk_count B) (map part B)); [lia|]. apply Forall2_fmap, Forall_Forall2_diag, Forall_forall.
      intros bk Hbk. destruct (HB bk Hbk) as (? & _ & [C1 _ _ _]). done.
    + rewrite (rust_min_numbers (map bk_minimum B) (bk_minimum first) Nmin). split; [by apply Hdup|]. intros x Hx. apply L2. by apply Hdup.
    + rewrite (rust_max_numbers (map bk_maximum B) (bk_maximum first) Nmax). split; [by apply Hdup|]. intros x Hx. apply G2. by apply Hdup.
    + split; [rewrite concat_elem; exists (part r); split; [apply list_elem_of_fmap; by exists r|done]|].
      intros o (l & (bk & -> & Hbk)%list_elem_of_fmap & Ho)%concat_elem. pose proof (R2 bk ltac:(by right)) as Hle.
      destruct (Z.eq_dec (bk_start bk) (bk_start r)) as [Es|Es]; [apply C4'; unfold part in Ho; by rewrite Es in Ho|].
      left. apply list_elem_of_fmap in Ho as (e & -> & [_ E1]%elem_of_having_key).
      apply list_elem_of_fmap in C4 as (e' & -> & [_ E2]%elem_of_having_key).
      apply (start_of_mono width); [done|lia].
Qed.

(** ** The rows of a query *)
Lemma item_device a tenant q devices w i :
  i ∈ metric_items a tenant q devices w ->
  exists d, at_devices a !! mi_device i = Some d /\ mi_name i = pd_name d /\ mi_device i ∈ devices /\ pd_tenant d = tenant.
Proof.
  unfold metric_items. intros [([k r] & _ & Hi)%list_elem_of_omap|([k r] & _ & Hi)%list_elem_of_omap]%elem_of_app; simpl in Hi.
  - apply sample_item_iff in Hi as (d & rev & x & Hd & _ & _ & (C1 & C2 & C3 & _) & ->). exists d. simpl. split_and!; try done. congruence.
  - destruct k as [[[[[t dv] rev] st] f] hour]. apply rollup_item_iff in Hi as (d & Hd & (C1 & C2 & C3 & _) & ->).
    exists d. simpl. split_and!; try done. congruence.
Qed.
Lemma elem_of_group_keys items k : k ∈ group_keys items <-> exists i, i ∈ items /\ group_key i = k.
Proof. unfold group_keys. rewrite elem_of_remove_dups, list_elem_of_fmap. naive_solver. Qed.
Section rows.
Context {aggregates : SqlAggregates}.
Lemma aggregate_group_some w k i g :
  exists v, aggregate_group w k (i :: g) = Some (k, v)
    /\ v.1.1.1.1 = fold_left Z.add (map mi_count g) (mi_count i) /\ v.1.1.2 = fold_left sql_min (map mi_min g) (mi_min i)
    /\ v.1.2 = fold_left sql_max (map mi_max g) (mi_max i) /\ v.2 = mi_latest (fold_left later_item g i).
Proof. eexists. split; [reflexivity|]. done. Qed.
Lemma rows_keys w items l :
  NoDup l -> NoDup (omap (fun k => aggregate_group w k (group_of items k)) l).*1
  /\ forall r, r ∈ omap (fun k => aggregate_group w k (group_of items k)) l -> r.1 ∈ l.
Proof.
  induction 1 as [|k l Hk Hnd [IH1 IH2]]; [by split; [constructor|intros ? ?%elem_of_nil]|]. cbn [omap list_omap].
  destruct (group_of items k) as [|i g] eqn:E; simpl; [split; [done|intros r Hr; right; by apply IH2]|]. split.
  - constructor; [|done]. intros (r & -> & Hr)%list_elem_of_fmap. by apply Hk, IH2.
  - intros r [->|Hr]%elem_of_cons; [by left|right; by apply IH2].
Qed.
Definition all_rows (a : AnalyticsTables) (tenant : string) (q : AnalyticsQuery) (devices : list string) (w : MetricWindow) :=
  let items := metric_items a tenant q devices w in
  omap (fun k => aggregate_group w k (group_of items k)) (group_keys items).
Definition row_bucket (r : string * string * Z * (Z * f64 * f64 * f64 * f64)) : AnalyticsBucket :=
  {| bk_device_id := r.1.1.1; bk_device_name := r.1.1.2; bk_start := r.1.2 * 1000; bk_count := r.2.1.1.1.1;
     bk_average := r.2.1.1.1.2; bk_minimum := r.2.1.1.2; bk_maximum := r.2.1.2; bk_latest := r.2.2 |}.
Lemma all_rows_inv a tenant q devices w r :
  r ∈ all_rows a tenant q devices w ->
  exists i g d, at_devices a !! r.1.1.1 = Some d /\ r.1.1.2 = pd_name d /\ r.1.1.1 ∈ devices /\ pd_tenant d = tenant
    /\ group_of (metric_items a tenant q devices w) r.1 = i :: g /\ aggregate_group w r.1 (i :: g) = Some r.
Proof.
  unfold all_rows. intros (k & Hk & Hr)%list_elem_of_omap. destruct (group_of _ k) as [|i g] eqn:Eg; [done|].
  destruct (aggregate_group_some w k i g) as ([[[[c av] mn] mx] la] & Ev & _). rewrite Ev in Hr. injection Hr as <-. simpl.
  assert (i ∈ group_of (metric_items a tenant q devices w) k) as Hi by (rewrite Eg; by left).
  unfold group_of in Hi. apply elem_of_filterb in Hi as [Hi Hgk%bool_decide_eq_true]. subst k.
  destruct (item_device _ _ _ _ _ _ Hi) as (d & Hd & Hn & Hin & Ht). exists i, g, d. split_and!; try done.
Qed.
Context {micros : ChronoMicros}.
Lemma read_buckets rows l : mapM read_bucket rows = Ok l -> l = map row_bucket rows.
Proof.
  intros H. rewrite <- (map_id l). apply (mapM_fmap read_bucket id row_bucket rows l); [|done].
  intros [[[dv nm] b] [[[[c av] mn] mx] la]] bk Hb. unfold read_bucket in Hb. apply bind_ok in Hb as (t & Ht & [= <-]).
  unfold datetime in Ht. destruct (micros_in_range b); [|done]. by injection Ht as <-.
Qed.
Lemma rows_unlimited a tenant q devices w l :
  0 <= qy_max_rows q -> mapM read_bucket (bucket_rows a tenant q devices w) = Ok l -> Z.of_nat (length l) <= qy_max_rows q ->
  l ≡ₚ map row_bucket (all_rows a tenant q devices w).
Proof.
  intros Hq Hl Hlen. apply read_buckets in Hl as ->. rewrite length_map in Hlen. apply (fmap_Permutation row_bucket).
  unfold bucket_rows, sql_limit in *. cbv zeta in *.
  destruct (Z.ltb_spec (qy_max_rows q + 1) 0); [lia|]. set (sorted := merge_sort _ _) in *. rewrite length_take in Hlen.
  rewrite take_ge by lia. unfold sorted. apply merge_sort_Permutation.
Qed.
End rows.

Section device_statistics.
Context {chr : Chrono} {libm : Libm} {micros : ChronoMicros} {codec : SerdeJson} {actions_codec : ActionCodec}
  {sql : SqlText} {spans : ChronoSpans} {aggregates : SqlAggregates}.
Context (raw mark : Z) (h : EventHistory) (Hinv : event_inv raw mark h) (Hdist : distinct_fields h)
  (a : AnalyticsTables) (Ha : at_events a = eh_store h) (Hkept : contracts_kept a h)
  (tenant : string) (q : AnalyticsQuery) (devices : list string) (w : MetricWindow)
  (Hw : window_ok raw mark (bucket_micros (qy_bucket_seconds q)) w)
  (l : list AnalyticsBucket) (Hl : l ≡ₚ map row_bucket (all_rows a tenant q devices w))
  (device : string) (d : DeviceRow) (Hdev : at_devices a !! device = Some d) (Hten : pd_tenant d = tenant) (Hin : device ∈ devices).
Local Abbreviation width := (bucket_micros (qy_bucket_seconds q)).
Local Abbreviation F := (List.filter (wanted tenant device q w) (all_entries (accepted h))).

Lemma with_start b : having_key (start_of width) (b * 1000) F = List.filter (in_bucket tenant device q w b) (all_entries (accepted h)).
Proof using.
  unfold having_key. rewrite filterb_filterb. apply List.filter_ext. intros e. unfold in_bucket, start_of. rewrite andb_comm.
  destruct (wanted tenant device q w e); simpl; [|done]. apply eq_true_iff_eq. rewrite bool_decide_eq_true, Z.eqb_eq. lia.
Qed.
Lemma device_rows bk :
  bk ∈ device_buckets l device <-> exists r, r ∈ all_rows a tenant q devices w /\ bk = row_bucket r /\ r.1.1.1 = device.
Proof using Hl.
  unfold device_buckets. rewrite elem_of_filterb, Hl, String.eqb_eq. split.
  - intros [(r & -> & Hr)%list_elem_of_fmap E]. by exists r.
  - intros (r & Hr & -> & E). split; [|done]. apply list_elem_of_fmap. by exists r.
Qed.
Lemma device_starts : NoDup (map bk_start (device_buckets l device)).
Proof using Hdev Hl Hten.
  assert (NoDup (all_rows a tenant q devices w).*1) as Hnd by (unfold all_rows; apply rows_keys, NoDup_remove_dups).
  assert (forall r r', r ∈ all_rows a tenant q devices w -> r' ∈ all_rows a tenant q devices w -> r.1.1.1 = device ->
            r'.1.1.1 = device -> r.1.2 = r'.1.2 -> r = r') as Hinj.
  { intros r r' Hr Hr' E E' Eb. apply (NoDup_fmap_eq fst (all_rows a tenant q devices w) r r' Hnd Hr Hr').
    pose proof (all_rows_inv _ _ _ _ _ _ Hr) as (_ & _ & d1 & D1 & N1 & _).
    pose proof (all_rows_inv _ _ _ _ _ _ Hr') as (_ & _ & d2 & D2 & N2 & _).
    destruct r as [[[? ?] ?] ?], r' as [[[? ?] ?] ?]. simpl in *. subst. congruence. }
  assert (NoDup (device_buckets l device)) as Hb.
  { apply NoDup_ListNoDup, List.NoDup_filter, NoDup_ListNoDup. rewrite Hl. apply (NoDup_fmap_2_strong row_bucket); [|by apply (NoDup_fmap_1 fst)].
    intros r r' Hr Hr' E. apply (NoDup_fmap_eq fst (all_rows a tenant q devices w) r r' Hnd Hr Hr').
    destruct r as [[[? ?] ?] ?], r' as [[[? ?] ?] ?]. unfold row_bucket in E. simpl in *. injection E as E1 E2 E3 _ _ _ _ _.
    f_equal; [congruence|lia]. }
  apply NoDup_fmap_2_strong; [|done]. intros b1 b2 (r1 & H1 & -> & E1)%device_rows (r2 & H2 & -> & E2)%device_rows E.
  f_equal. apply Hinj; try done. simpl in E. lia.
Qed.
Lemma device_bucket_covers bk : bk ∈ device_buckets l device -> bucket_covers width F bk.
Proof using Ha Hdev Hdist Hin Hinv Hkept Hl Hten Hw.
  intros (r & Hr & -> & Er)%device_rows. destruct (all_rows_inv _ _ _ _ _ _ Hr) as (i & g & d' & Hd' & Hn & _ & _ & Hg & Hagg).
  destruct (group_stands raw mark h a tenant q devices w device d r.1.2) as (parts & HF & HP); try done.
  assert (r.1 = (device, pd_name d, r.1.2)) as Ek by (destruct r as [[[? ?] ?] ?]; simpl in *; congruence).
  rewrite <- Ek, Hg in HF. destruct parts as [|p parts]; [by inversion HF|].
  assert (numbers (map ob_value (concat (p :: parts)))) as Hnum.
  { intros x Hx. rewrite HP, map_map in Hx. apply list_elem_of_fmap in Hx as (e & -> & [He _]%elem_of_filterb).
    pose proof (ei_numbers _ _ _ Hinv) as Hn'. rewrite Forall_forall in Hn'. by apply Hn'. }
  pose proof (group_covers i g p parts HF Hnum) as Hc. rewrite HP in Hc.
  destruct (aggregate_group_some w r.1 i g) as (v & Hv & V1 & V2 & V3 & V4). rewrite Hv in Hagg.
  assert (r.2 = v) as <- by (destruct r; by injection Hagg as <-).
  exists (item_latest (fold_left later_item g i)). simpl. rewrite with_start, V1, V2, V3, V4. done.
Qed.
Lemma device_buckets_complete e : e ∈ F -> start_of width e ∈ map bk_start (device_buckets l device).
Proof using Ha Hdev Hdist Hin Hinv Hkept Hl Hten Hw.
  intros [He Hwant]%elem_of_filterb. set (b := sql_bucket width (ob_at e.2)).
  destruct (group_stands raw mark h a tenant q devices w device d b) as (parts & HF & HP); try done.
  assert (e.2 ∈ concat parts) as Hp.
  { rewrite HP. apply list_elem_of_fmap. exists e. split; [done|]. apply elem_of_filterb. split; [done|].
    unfold in_bucket. rewrite Hwant. apply Z.eqb_refl. }
  destruct (group_of (metric_items a tenant q devices w) (device, pd_name d, b)) as [|i g] eqn:Eg.
  { inversion HF; subst. by apply elem_of_nil in Hp. }
  destruct (aggregate_group_some w (device, pd_name d, b) i g) as (v & Hv & _).
  apply list_elem_of_fmap. exists (row_bucket (device, pd_name d, b, v)). split; [done|]. apply device_rows.
  exists (device, pd_name d, b, v). split_and!; [|done|done]. unfold all_rows. apply list_elem_of_omap.
  exists (device, pd_name d, b). rewrite Eg. split; [|done]. apply elem_of_group_keys. exists i.
  assert (i ∈ group_of (metric_items a tenant q devices w) (device, pd_name d, b)) as Hi by (rewrite Eg; by left).
  unfold group_of in Hi. by apply elem_of_filterb in Hi as [Hi Hk%bool_decide_eq_true].
Qed.
Lemma device_stats_cover :
  match stats_for_buckets (device_buckets l device) with
  | None => F = []
  | Some st => exists latest, as_latest st = ob_value latest
      /\ covers (as_sample_count st) (as_minimum st) (as_maximum st) latest (map snd F)
  end.
Proof using Ha Hdev Hdist Hin Hinv Hkept Hl Hten Hw.
  destruct (device_buckets l device) as [|bk B] eqn:EB.
  - simpl. apply elem_of_nil_inv. intros e He%device_buckets_complete. rewrite EB in He. by apply elem_of_nil in He.
  - rewrite <- EB. destruct (stats_cover width F (device_buckets l device)) as (st & lat & -> & Hlat & Hc).
    + apply Hw.
    + by rewrite EB.
    + intros x (e & -> & [He _]%elem_of_filterb)%list_elem_of_fmap. pose proof (ei_numbers _ _ _ Hinv) as Hn'.
      rewrite Forall_forall in Hn'. by apply Hn'.
    + apply device_starts.
    + apply device_bucket_covers.
    + apply device_buckets_complete.
    + by exists lat.
Qed.
End device_statistics.

(** ** The bounds of a query *)
Lemma divide_hours a : (HOUR_MICROS | a * HOUR_MICROS).
Proof. by exists a. Qed.
Section bounds.
Context {micros : ChronoMicros} {spans : ChronoSpans}.
Lemma full_hours_between start end_ now f l :
  full_hour_rollup_window start end_ now = Some (f, l) ->
  exists f' l', f = f' * 1000 /\ l = l' * 1000 /\ (HOUR_MICROS | f') /\ (HOUR_MICROS | l') /\ timestamp_micros start <= f'
    /\ f' < l' <= timestamp_micros end_.
Proof.
  unfold full_hour_rollup_window, checked_i64, from_micros. cbv zeta. intros H.
  set (c := timestamp_micros start / HOUR_MICROS + Z.b2z (negb (timestamp_micros start mod HOUR_MICROS =? 0))) in *.
  set (e := Z.min (timestamp_micros end_) (timestamp_micros now)) in *.
  destruct (Int.in_i64 c); simpl in H; [|done]. destruct (Int.in_i64 (c * _)); simpl in H; [|done].
  destruct (Int.in_i64 _); simpl in H; [|done]. destruct (Z.leb_spec (e / HOUR_MICROS * HOUR_MICROS) (c * HOUR_MICROS)); [done|].
  destruct (micros_in_range (c * _)); simpl in H; [|done]. destruct (micros_in_range _); simpl in H; [|done]. injection H as <- <-.
  exists (c * HOUR_MICROS), (e / HOUR_MICROS * HOUR_MICROS).
  pose proof (Z.div_mod (timestamp_micros start) HOUR_MICROS). pose proof (Z.mod_pos_bound (timestamp_micros start) HOUR_MICROS).
  pose proof (Z.mul_div_le e HOUR_MICROS). split_and!; try done; try apply divide_hours.
  - unfold c. destruct (Z.eqb_spec (timestamp_micros start mod HOUR_MICROS) 0); simpl; unfold HOUR_MICROS in *; lia.
  - unfold e, HOUR_MICROS in *. lia.
Qed.
Lemma storage_bound_ok t b : storage_bound t = Ok b -> exists b', b = b' * 1000 /\ t <= b' * 1000 < t + 1000.
Proof.
  unfold storage_bound. cbv zeta. intros H. pose proof (Z.div_mod t 1000 ltac:(lia)). pose proof (Z.mod_pos_bound t 1000 ltac:(lia)).
  destruct (Z.eqb_spec (t mod 1000) 0) as [E|E].
  - injection H as <-. exists (t / 1000). lia.
  - destruct (utc_fits _); [|done]. injection H as <-. exists (t / 1000 + 1). lia.
Qed.
Lemma choose_bucket_allowed r b : choose_bucket r = Ok b -> b ∈ ALLOWED_BUCKET_SECONDS.
Proof.
  unfold choose_bucket. cbv zeta. intros H. destruct (_ <=? _); [done|]. destruct (_ <? _); [done|].
  destruct (rq_bucket_seconds r) as [e|].
  - unfold validate_explicit_bucket in H. case_bool_decide as E; [|done]. simpl in H. destruct (_ <? _); [done|]. by injection H as <-.
  - injection H as <-. unfold automatic_bucket. cbv zeta. destruct (List.find _ _) as [x|] eqn:E.
    + apply find_some in E as [E _]. by apply list_elem_of_In.
    + simpl. unfold ALLOWED_BUCKET_SECONDS. set_solver.
Qed.
(** A query that is not refused as expired satisfies [window_ok]. *)
Lemma retained_window q now raw mark s e :
  qy_bucket_seconds q ∈ ALLOWED_BUCKET_SECONDS -> mark <= raw -> qy_start q = s * 1000 -> qy_end q = e * 1000 ->
  metric_range_retained (qy_start q) (qy_end q) (query_window q now) (raw * 1000) (mark * 1000) = true ->
  window_ok raw mark (bucket_micros (qy_bucket_seconds q)) (metric_window q (query_window q now)) /\ mark <= s.
Proof.
  intros Hb Hm Hs He H.
  assert (bucket_micros (qy_bucket_seconds q) = qy_bucket_seconds q * 1000000
          /\ 0 < qy_bucket_seconds q /\ (3600 <= qy_bucket_seconds q -> (HOUR_MICROS | qy_bucket_seconds q * 1000000))) as (-> & Hw & Hh).
  { unfold ALLOWED_BUCKET_SECONDS in Hb. repeat (apply elem_of_cons in Hb as [->|Hb]);
      [..|by apply elem_of_nil in Hb]; (split_and!; [reflexivity|done|intros ?; first [lia|by apply Z.mod_divide]]). }
  assert (timestamp_micros (qy_start q) = s /\ timestamp_micros (qy_end q) = e) as [Es Ee].
  { unfold timestamp_micros. rewrite Hs, He. by rewrite !Z.div_mul by lia. }
  unfold query_window in *. destruct (Z.leb_spec 3600 (qy_bucket_seconds q)) as [Hl|Hl].
  - destruct (full_hour_rollup_window _ _ _) as [[f l]|] eqn:Ew; simpl in H.
    + destruct (full_hours_between _ _ _ _ _ Ew) as (f' & l' & -> & -> & F & L & B1 & B2). rewrite Es in B1. rewrite Ee in B2.
      rewrite Hs, He in H. apply andb_true_iff in H as [[H1%Z.leb_le H2%orb_true_iff]%andb_true_iff H3%orb_true_iff].
      rewrite !Z.eqb_eq, !Z.leb_le in *. split; [|lia]. split; [lia|]. simpl. rewrite Es, Ee. unfold timestamp_micros.
      rewrite !Z.div_mul by lia. split_and!; try done; try lia. by apply Hh.
    + apply Z.leb_le in H. split; [|lia]. split; simpl; lia.
  - simpl in H. apply Z.leb_le in H. split; [|lia]. split; simpl; lia.
Qed.
End bounds.

(** ** The claim *)
(** The accepted numbers of a metric for a device between two times (in nanoseconds). *)
Definition accepted_numbers (h : EventHistory) (tenant device : string) (revisions : list string)
    (m : AnalyticsMetricSelector) (start end_ : NaiveDateTime) : list Observation :=
  map snd (List.filter (fun e : RollupKey * Observation =>
    of_metric tenant device revisions (an_stream_key m) (an_field_path m) e.1
    && (start <=? ob_at e.2 * 1000) && (ob_at e.2 * 1000 <? end_)) (all_entries (accepted h))).
(** What the statistics of a device say. *)
Definition stats_exact (stats : option AnalyticsStats) (l : list Observation) : Prop :=
  match stats with
  | None => l = []
  | Some st => exists latest, as_latest st = ob_value latest
      /\ covers (as_sample_count st) (as_minimum st) (as_maximum st) latest l
  end.
Section exact.
Context {chr : Chrono} {libm : Libm} {micros : ChronoMicros} {codec : SerdeJson} {actions_codec : ActionCodec}
  {sql : SqlText} {spans : ChronoSpans} {aggregates : SqlAggregates}.

Lemma numbers_wanted h tenant device q window start end_ s e :
  qy_start q = s * 1000 -> qy_end q = e * 1000 -> start <= s * 1000 < start + 1000 -> end_ <= e * 1000 < end_ + 1000 ->
  accepted_numbers h tenant device (qy_revisions q) (am_selector (qy_metric q)) start end_
  = map snd (List.filter (wanted tenant device q (metric_window q window)) (all_entries (accepted h))).
Proof.
  intros Hs He Bs Be. unfold accepted_numbers. f_equal. apply List.filter_ext. intros [k o]. unfold wanted. simpl.
  unfold timestamp_micros. rewrite Hs, He, !Z.div_mul by lia. destruct (of_metric _ _ _ _ _ _); [|done]. simpl.
  apply eq_true_iff_eq. rewrite !andb_true_iff, !Z.leb_le, !Z.ltb_lt. lia.
Qed.
Lemma compatible_spec a tenant q device d :
  (device, d) ∈ compatible_devices a tenant q <->
  (at_devices a !! device = Some d /\ in_scope tenant (qy_scope q) device d = true)
  /\ (assigned_compatible (at_events a) tenant device (qy_revisions q)
      || rollup_compatible (at_events a) tenant device (qy_revisions q) (an_stream_key (am_selector (qy_metric q)))
           (an_field_path (am_selector (qy_metric q)))) = true.
Proof. unfold compatible_devices, scope_devices. cbv zeta. by rewrite !elem_of_filterb, elem_of_map_to_list. Qed.
(** An accepted number whose rollup is retained makes its device compatible. *)
Lemma number_compatible raw mark h a tenant q device w e :
  event_inv raw mark h -> at_events a = eh_store h -> mark <= mw_start w -> e ∈ all_entries (accepted h) ->
  wanted tenant device q w e = true ->
  rollup_compatible (at_events a) tenant device (qy_revisions q) (an_stream_key (am_selector (qy_metric q)))
    (an_field_path (am_selector (qy_metric q))) = true.
Proof.
  intros Hinv Ha Hm He Hw. destruct e as [k o].
  assert (mark <= k.2) as Hk.
  { apply elem_of_all_entries in He as (x & _ & (m & v & _ & _ & -> & ->)%elem_of_event_entries). apply wanted_spec in Hw. simpl in *.
    apply hour_above; [apply (ei_marks _ _ _ Hinv)|lia]. }
  destruct (rollup_exists _ _ _ _ _ Hinv He Hk) as [row Hrow]. unfold rollup_compatible. apply existsb_exists. exists (k, row).
  split; [apply list_elem_of_In, elem_of_map_to_list; by rewrite Ha|]. unfold wanted in Hw. simpl in *.
  by apply andb_true_iff in Hw as [[? _]%andb_true_iff _].
Qed.
(** The data of a query that is answered within its limits. *)
Lemma query_exact raw mark h a tenant q now data s e start end_ :
  event_inv raw mark h -> distinct_fields h -> at_events a = eh_store h -> contracts_kept a h ->
  qy_bucket_seconds q ∈ ALLOWED_BUCKET_SECONDS -> 0 <= qy_max_rows q -> 0 <= qy_max_devices q ->
  qy_start q = s * 1000 -> qy_end q = e * 1000 -> start <= s * 1000 < start + 1000 -> end_ <= e * 1000 < end_ + 1000 ->
  repo_query a tenant q now = Ok data -> qd_compatible data <= qy_max_devices q ->
  Z.of_nat (length (qd_buckets data)) <= qy_max_rows q ->
  let numbers device := accepted_numbers h tenant device (qy_revisions q) (am_selector (qy_metric q)) start end_ in
  (forall d, d ∈ qd_devices data -> (exists row, at_devices a !! ad_id d = Some row /\ in_scope tenant (qy_scope q) (ad_id d) row = true)
     /\ stats_exact (stats_for_buckets (device_buckets (qd_buckets data) (ad_id d))) (numbers (ad_id d)))
  /\ (forall device row, at_devices a !! device = Some row -> in_scope tenant (qy_scope q) device row = true ->
      numbers device <> [] -> device ∈ map ad_id (qd_devices data)).
Proof.
  intros Hinv Hdist Ha Hkept Hb Hr Hd Hs He Bs Be H Hc Hl numbers. unfold repo_query in H. cbv zeta in H.
  destruct (ei_marks _ _ _ Hinv) as (Hmarks & Hhour & Hle). rewrite Ha, Hmarks in H. simpl in H.
  apply bind_ok in H as (raw' & Hraw & H). apply bind_ok in H as (mark' & Hmark & H).
  assert (raw' = raw * 1000) as -> by (unfold datetime in Hraw; destruct (micros_in_range raw); by simplify_eq).
  assert (mark' = mark * 1000) as -> by (unfold datetime in Hmark; destruct (micros_in_range mark); by simplify_eq).
  destruct (metric_range_retained _ _ _ _ _) eqn:Hret; simpl in H; [|done].
  destruct (retained_window q now raw mark s e Hb Hle Hs He Hret) as [Hw Hms].
  set (window := query_window q now) in *. set (w := metric_window q window) in *.
  set (devices := map (fun e => {| ad_id := e.1; ad_name := pd_name e.2 |}) _) in *.
  assert (qd_devices data = devices /\ qd_compatible data = Z.of_nat (length (compatible_devices a tenant q))) as [Hdv Hcd].
  { destruct (_ || _); [by injection H as <-|]. apply bind_ok in H as (? & _ & H). by injection H as <-. }
  assert (forall device, device ∈ map ad_id devices <-> exists row, (device, row) ∈ compatible_devices a tenant q) as Hdevs.
  { intros device. unfold devices, sql_limit. destruct (Z.ltb_spec (qy_max_devices q + 1) 0); [lia|].
    rewrite map_map. simpl. rewrite take_ge by (rewrite merge_sort_Permutation; lia). rewrite merge_sort_Permutation.
    rewrite list_elem_of_fmap. split; [intros ([? row] & -> & ?); by exists row|intros [row ?]; by exists (device, row)]. }
  rewrite Hdv. assert (forall device, numbers device = map snd (List.filter (wanted tenant device q w) (all_entries (accepted h)))) as Hnum
    by (intros device; by apply (numbers_wanted _ _ _ q window start end_ s e)). split.
  - intros d Hin. destruct (proj1 (Hdevs (ad_id d))) as [row Hrow]; [apply list_elem_of_fmap; by exists d|].
    apply compatible_spec in Hrow as [[Hrow Hsc] _]. split; [by exists row|]. rewrite Hnum. rewrite Hcd in Hc.
    destruct (Z.ltb_spec (qy_max_devices q) (Z.of_nat (length (compatible_devices a tenant q)))); [lia|].
    destruct (is_empty devices) eqn:Ed; [destruct devices; [by apply elem_of_nil in Hin|done]|]. simpl in H.
    apply bind_ok in H as (buckets & Hbk & H). injection H as <-. simpl in *.
    assert (pd_tenant row = tenant) as Hten.
    { unfold in_scope in Hsc. by apply andb_true_iff in Hsc as [[?%String.eqb_eq _]%andb_true_iff _]. }
    pose proof (device_stats_cover raw mark h Hinv Hdist a Ha Hkept tenant q (map ad_id devices) w Hw buckets
      (rows_unlimited _ _ _ _ _ _ Hr Hbk Hl) (ad_id d) row Hrow Hten) as Hcov.
    unfold stats_exact. destruct (stats_for_buckets _); [apply Hcov|rewrite Hcov; [done|]];
      apply list_elem_of_fmap; by exists d.
  - intros device row Hrow Hsc Hne. apply Hdevs. exists row. apply compatible_spec. split; [done|].
    rewrite Hnum in Hne. destruct (List.filter _ _) as [|en l] eqn:El; [done|].
    assert (en ∈ List.filter (wanted tenant device q w) (all_entries (accepted h))) as [Hen Hwant]%elem_of_filterb by (rewrite El; by left).
    rewrite (number_compatible raw mark h a tenant q device w en); try done; [apply orb_true_r|].
    unfold w, metric_window, timestamp_micros. simpl. rewrite Hs, Z.div_mul by lia. done.
Qed.
Context {bcodec : BlueprintCodec}.
Lemma resolve_metric_selector selector rs metric revisions :
  resolve_metric selector rs = Ok (metric, revisions) -> am_selector metric = selector.
Proof.
  unfold resolve_metric. intros (ms & _ & H)%bind_ok. apply bind_ok in H as (m & Hm%ok_or_ok & H).
  apply bind_ok in H as (ids & _ & H). injection H as <- _. apply find_some in Hm as [_ Hm]. by apply bool_decide_eq_true in Hm.
Qed.
(** C28. An answered analytics query is exact with respect to the events that
    were accepted, whatever recordings (late, repeated, out of order) and
    prunes came before: for every listed device the count is the number of
    accepted numbers of the metric, in a compatible revision and in the
    requested half-open range, the minimum, maximum and latest value are
    theirs, and there are no statistics exactly when there are none; the
    listed devices are devices of the tenant and of the scope, and one with
    such a number is never missing. *)
Theorem analytics_exact s h a_catalog a ctx r now result :
  fresh_store s -> rtc event_step {| eh_store := s; accepted := [] |} h ->
  at_events a = eh_store h -> contracts_kept a h ->
  analytics_query a_catalog a ctx r now = Ok result ->
  exists rs revisions, blueprint_catalog (at_blueprints a_catalog) (ctx_tenant ctx) = Ok rs
    /\ resolve_metric (rq_metric r) rs = Ok (rs_metric result, revisions)
    /\ let numbers device := accepted_numbers h (ctx_tenant ctx) device revisions (rq_metric r) (rq_start r) (rq_end r) in
       (forall d, d ∈ rs_devices result ->
          (exists row, at_devices a !! ds_device_id d = Some row
             /\ in_scope (ctx_tenant ctx) (rq_scope r) (ds_device_id d) row = true)
          /\ stats_exact (ds_stats d) (numbers (ds_device_id d)))
       /\ (forall device row, at_devices a !! device = Some row -> in_scope (ctx_tenant ctx) (rq_scope r) device row = true ->
           numbers device <> [] -> device ∈ map ds_device_id (rs_devices result)).
Proof.
  intros Hfresh Hrun Ha Hkept H. destruct (history_inv s h Hfresh Hrun) as (raw & mark & Hinv).
  apply history_distinct in Hrun as Hdist. unfold analytics_query in H.
  apply bind_ok in H as (_ & _ & H). apply bind_ok in H as (_ & _ & H). apply bind_ok in H as (rs & Hrs%map_err_inv & H).
  apply bind_ok in H as ([metric revisions] & Hm & H). apply bind_ok in H as (bucket & Hb%choose_bucket_allowed & H).
  apply bind_ok in H as (start & Hs & H). apply bind_ok in H as (end_ & He & H). apply bind_ok in H as (data & Hq%map_err_inv & H).
  destruct (Z.ltb_spec MAX_DEVICES (qd_compatible data)); [done|].
  destruct (Z.ltb_spec MAX_TOTAL_POINTS (Z.of_nat (length (qd_buckets data)))); [done|]. injection H as <-. simpl.
  destruct (storage_bound_ok _ _ Hs) as (s' & Es & Bs). destruct (storage_bound_ok _ _ He) as (e' & Ee & Be).
  exists rs, revisions. split; [done|]. split; [done|].
  match type of Hq with repo_query _ _ ?q _ = _ =>
    destruct (query_exact raw mark h a (ctx_tenant ctx) q now data s' e' (rq_start r) (rq_end r)) as [Q1 Q2]; try done
  end. simpl in Q1, Q2.
  rewrite (resolve_metric_selector _ _ _ _ Hm) in Q1, Q2. unfold build_device_stats. split.
  - intros d (d' & -> & Hd')%list_elem_of_fmap. simpl. by apply Q1.
  - intros device row Hrow Hsc Hne. rewrite map_map. simpl. by apply (Q2 device row).
Qed.
End exact.

(** ** A concrete query: the temperature of the cold room *)
#[local] Existing Instance RuleEvaluate.demo_chrono.
#[local] Existing Instance RuleEvaluate.demo_libm.
#[local] Existing Instance RuleSnapshot.demo_micros.
#[local] Existing Instance Outbox.demo_json.
#[local] Existing Instance Outbox.demo_actions.
#[local] Existing Instance demo_sql.
#[local] Existing Instance demo_spans.
Definition demo_field_codec : BlueprintCodec :=
  {| blueprint_from_value := fun _ => Ok cold_room; blueprint_to_value := fun _ => Ok Null |}.
#[local] Existing Instance demo_field_codec.
Definition demo_aggregates : SqlAggregates :=
  {| sql_sum := fun l => fold_left f64_add l f64_zero;
     sql_avg := fun l => f64_div (fold_left f64_add l f64_zero) (f64_of_Z (Z.of_nat (length l))) |}.
#[local] Existing Instance demo_aggregates.
Definition demo_tables : AnalyticsTables :=
  {| at_events := cold_room_written;
     at_devices := {["device-1" := {| pd_tenant := "tenant-a"; pd_name := "Cold room"; pd_fleet := None; pd_status := "online";
       pd_firmware := "1"; pd_last_seen := None; pd_uptime := 0; pd_connections := "[]"; pd_created := 0; pd_updated := 0 |}]};
     at_blueprints :=
       {| bs_orgs := {["tenant-a"]};
          bs_blueprints := {["b" := {| bp_tenant := "tenant-a"; bp_key := "cold-room"; bp_name := "Cold room";
            bp_description := None; bp_created := 0; bp_updated := 0 |}]};
          bs_drafts := ∅;
          bs_revisions := {["dbr_1" := {| rw_tenant := "tenant-a"; rw_blueprint := "b"; rw_revision := 1;
            rw_document := "cold room"; rw_hash := "h"; rw_compatibility := "report"; rw_created := 0 |}]} |} |}.
Definition demo_reader : TenantContext :=
  {| ctx_tenant := "tenant-a"; ctx_actor := System "console"; ctx_permissions := permission_set_all |}.
(** The range starts and ends within an hour: the rollup of the full hour between
    them and the raw samples of the edges are read. *)
Definition demo_request : AnalyticsRequest :=
  {| rq_scope := {| sc_fleet_ids := []; sc_device_ids := [] |};
     rq_metric := {| an_blueprint_id := "b"; an_stream_key := "environment"; an_field_path := "/temperature" |};
     rq_start := 6000000000000; rq_end := 12000000000001; rq_bucket_seconds := Some 3600; rq_mode := PerDevice;
     rq_weighting := EqualDevice; rq_max_points := None |}.
Definition demo_answer : result ApplicationError AnalyticsResult :=
  analytics_query demo_tables demo_tables demo_reader demo_request 20000000000000.
Lemma demo_answered :
  match demo_answer with
  | Ok result => rs_source result = BlueprintMetricSamplesAndRollups /\ map ds_device_id (rs_devices result) = ["device-1"]
      /\ map (fun d => as_sample_count <$> ds_stats d) (rs_devices result) = [Some 1]
  | Err _ => False
  end.
Proof. vm_compute. done. Qed.
Lemma demo_kept : contracts_kept demo_tables cold_room_history.
Proof.
  intros x Hx _. apply list_elem_of_singleton in Hx as ->. eexists. split; [vm_compute; reflexivity|]. done.
Qed.
Lemma analytics_exact_witness :
  exists result d, demo_answer = Ok result /\ rs_devices result = [d]
    /\ stats_exact (ds_stats d) [{| ob_value := f64_of_Z 4; ob_at := 7200000000; ob_event := cold_room_event_id |}].
Proof.
  pose proof demo_answered as Hd. unfold demo_answer in *.
  pose proof (analytics_exact cold_room_store cold_room_history demo_tables demo_tables demo_reader demo_request 20000000000000) as H.
  destruct (analytics_query demo_tables demo_tables demo_reader demo_request 20000000000000) as [result|]; [|done].
  destruct (H result) as (rs & revisions & Hrs & Hm & Hdev & _); [split_and!; reflexivity|exact cold_room_run|reflexivity|exact demo_kept|reflexivity|].
  destruct Hd as (_ & Hids & _). destruct (rs_devices result) as [|d [|]] eqn:Er; [discriminate Hids| |discriminate Hids]. exists result, d.
  split; [reflexivity|]. split; [exact Er|]. destruct (Hdev d) as [_ Hst]; [by left|].
  injection Hids as Hid. rewrite Hid in Hst. vm_compute in Hrs. injection Hrs as <-. vm_compute in Hm. injection Hm as _ <-. exact Hst.
Defined.
