(* ===== verification/AnalyticsBudget.v ===== *)
(** * The number of points of an analytics series (application/analytics.rs)

    The bucket is chosen from an estimate, the requested seconds divided by
    the width; the store aligns buckets to multiples of the width since the
    epoch.  How many points a series then has. *)
From S2P Require Import Prelude Text Float64 BTree Json Errors Access RuleTypes MetricNumber Geo RuleCache.
From S2P Require Import RuleEvaluate RuleSnapshot Shadows Outbox DeviceIngress EventStore.
From S2P Require Import ContractModel Schema Validation ColdRoom ContractCompiler Events EventHistory.
From S2P Require Import BlueprintStore Blueprints BlueprintHistory ProvisionStore AnalyticsStore Analytics AnalyticsHistory.
From stdpp Require Import relations sorting.

Local Open Scope Z_scope.

(** ** Counting aligned starts *)
Lemma aligned_count (unit_ lo hi : Z) (l : list Z) :
  NoDup l -> (forall x, x ∈ l -> exists k, x = k * unit_ /\ lo <= k <= hi) -> lo <= hi + 1 ->
  Z.of_nat (length l) <= hi - lo + 1.
Proof.
  intros Hnd Hl Hle. assert (l ⊆+ map (fun k => k * unit_) (seqZ lo (hi - lo + 1))) as Hs.
  { apply NoDup_submseteq; [done|]. intros x Hx. destruct (Hl x Hx) as (k & -> & Hk).
    apply (list_elem_of_fmap_2 (fun k => k * unit_)), elem_of_seqZ. lia. }
  apply submseteq_length in Hs. rewrite length_map, length_seqZ in Hs. lia.
Qed.
(** How many aligned buckets a range of microseconds meets. *)
Lemma buckets_met (w s e n : Z) :
  0 < w -> e - s <= w * n -> s < e -> (e - 1) / w - s / w + 1 <= n + 1 /\ ((w | s) -> (e - 1) / w - s / w + 1 <= n).
Proof.
  intros Hw Hn Hse. pose proof (Z.div_mod s w ltac:(lia)). pose proof (Z.mod_pos_bound s w Hw).
  pose proof (Z.div_mod (e - 1) w ltac:(lia)). pose proof (Z.mod_pos_bound (e - 1) w Hw). split; [nia|].
  intros Ha%Z.mod_divide; [|lia]. nia.
Qed.

(** ** The points of a series *)
Lemma sorted_starts l device :
  NoDup (map (fun b => (bk_device_id b, bk_start b)) l) ->
  NoDup (map bk_start (merge_sort bucket_start_le (device_buckets l device))).
Proof.
  intros Hnd. assert (map bk_start (merge_sort bucket_start_le (device_buckets l device)) ≡ₚ map bk_start (device_buckets l device)) as ->
    by (apply (fmap_Permutation bk_start), merge_sort_Permutation).
  unfold device_buckets. induction l as [|b l IH]; [constructor|]. simpl in *. apply NoDup_cons in Hnd as [Hb Hnd].
  destruct (bk_device_id b =s? device) eqn:E; [|by apply IH]. apply String.eqb_eq in E. simpl. constructor; [|by apply IH].
  intros (b' & Es & [Hb' Ed%String.eqb_eq]%elem_of_filterb)%list_elem_of_fmap. apply Hb, list_elem_of_fmap. exists b'.
  split; [congruence|done].
Qed.
Definition points_of (l : list AnalyticsBucket) (se : AnalyticsSeries) : Prop :=
  NoDup (map pt_timestamp (se_points se)) /\ forall p, p ∈ se_points se -> pt_timestamp p ∈ map bk_start l.
Lemma device_points l latest_only device se :
  NoDup (map (fun b => (bk_device_id b, bk_start b)) l) -> device_series l latest_only device = Some se -> points_of l se.
Proof.
  intros Hnd H. apply (sorted_starts l device) in Hnd. unfold device_series in H. cbv zeta in H.
  apply bind_Some in H as (stats & _ & H). apply bind_Some in H as (first & _ & [= <-]).
  assert (forall b, b ∈ merge_sort bucket_start_le (device_buckets l device) -> bk_start b ∈ map bk_start l) as Hin.
  { intros b. rewrite merge_sort_Permutation. intros [Hb _]%elem_of_filterb. by apply list_elem_of_fmap_2. }
  unfold points_of. simpl. set (sorted := merge_sort _ _) in *. destruct latest_only.
  - destruct (last sorted) as [b|] eqn:El; [|split; [constructor|by intros p ?%elem_of_nil]]. simpl. split; [by repeat constructor; set_solver|].
    intros p ->%list_elem_of_singleton. apply Hin. by apply last_Some_elem_of in El.
  - rewrite map_map. simpl. split; [done|]. intros p (b & -> & Hb)%list_elem_of_fmap. by apply Hin.
Qed.
Lemma aggregate_points id label kind l w se :
  aggregate_series id label kind (group_by_time l) w = Some se -> points_of l se.
Proof.
  unfold aggregate_series. cbv zeta. intros (first & _ & [= <-])%bind_Some. unfold points_of, group_by_time. simpl.
  set (ts := merge_sort Z.le _).
  assert (NoDup ts) as Hnd by (unfold ts; rewrite merge_sort_Permutation; apply NoDup_remove_dups).
  assert (forall t, t ∈ ts -> t ∈ map bk_start l) as Hin
    by (intros t; unfold ts; rewrite merge_sort_Permutation; apply elem_of_remove_dups).
  clearbody ts. induction Hnd as [|t ts Ht Hnd IH]; simpl; [split; [constructor|by intros p ?%elem_of_nil]|].
  destruct IH as [IH1 IH2]; [intros; apply Hin; by right|].
  assert (forall p, p ∈ omap (fun g : NaiveDateTime * list AnalyticsBucket => v ← point_value kind g.2 w; Some {| pt_timestamp := g.1; pt_value := v |})
    (map (fun t => (t, List.filter (fun b => bk_start b =? t) l)) ts) -> pt_timestamp p ∈ ts) as Hts.
  { intros p (g & (t' & -> & Ht')%list_elem_of_fmap & Hp)%list_elem_of_omap. simpl in Hp. by apply bind_Some in Hp as (v & _ & [= <-]). }
  destruct (point_value kind _ w); simpl; [|done]. split.
  - constructor; [|done]. intros (p & -> & Hp)%list_elem_of_fmap. by apply Ht, Hts.
  - intros p [->|Hp]%elem_of_cons; [apply Hin; by left|by apply IH2].
Qed.
Lemma result_points mode w l se :
  NoDup (map (fun b => (bk_device_id b, bk_start b)) l) -> se ∈ result_series mode w l -> points_of l se.
Proof.
  intros Hnd. assert (forall latest, se ∈ per_device_series l latest -> points_of l se) as Hdev.
  { intros latest. unfold per_device_series. rewrite merge_sort_Permutation. intros (device & _ & H)%list_elem_of_omap.
    by eapply device_points. }
  assert (forall id label kind, se ∈ some_list (aggregate_series id label kind (group_by_time l) w) -> points_of l se) as Hagg.
  { intros id label kind. destruct (aggregate_series id label kind _ w) eqn:E; simpl; [|by intros ?%elem_of_nil].
    intros ->%list_elem_of_singleton. by eapply aggregate_points. }
  destruct mode; simpl; rewrite ?elem_of_app; naive_solver.
Qed.

(** ** The buckets of a query *)
Section budget.
Context {chr : Chrono} {libm : Libm} {micros : ChronoMicros} {codec : SerdeJson} {actions_codec : ActionCodec}
  {sql : SqlText} {spans : ChronoSpans} {aggregates : SqlAggregates} {bcodec : BlueprintCodec}.
Lemma item_in_range a tenant q devices w i :
  (forall f l, mw_full w = Some (f, l) -> mw_start w <= f /\ l <= mw_end w) -> i ∈ metric_items a tenant q devices w ->
  exists t, mw_start w <= t < mw_end w /\ mi_bucket i = sql_bucket (bucket_micros (qy_bucket_seconds q)) t.
Proof using.
  intros Hw [Hi|Hi]%elem_of_app; apply list_elem_of_omap in Hi as ([k r] & _ & Hi); simpl in Hi.
  - apply sample_item_iff in Hi as (d & rev & x & _ & _ & _ & C & ->). simpl. exists (sm_occurred_at r). tauto.
  - unfold rollup_item in Hi. destruct k as [[[[[t device] revision] stream] field] hour]. simpl in Hi.
    apply bind_Some in Hi as (d & _ & Hi). destruct (_ && _) eqn:E in Hi; [|done]. injection Hi as <-. simpl. exists hour.
    split; [|done]. rewrite !andb_true_iff in E. destruct E as [[[[_ Hf] _] _] _].
    apply in_full_spec in Hf as (f & l & Ef & Hf). apply Hw in Ef. lia.
Qed.
Lemma window_inside q now f l :
  mw_full (metric_window q (query_window q now)) = Some (f, l) ->
  timestamp_micros (qy_start q) <= f /\ l <= timestamp_micros (qy_end q).
Proof using.
  simpl. unfold query_window. destruct (_ <=? _); [|done]. destruct (full_hour_rollup_window _ _ _) as [[f' l']|] eqn:E; [|done].
  destruct (full_hours_between _ _ _ _ _ E) as (x & y & -> & -> & _ & _ & H1 & H2). simpl. intros [= <- <-].
  unfold timestamp_micros at 2 3. rewrite !Z.div_mul by lia. lia.
Qed.
Lemma rows_distinct a tenant q devices w :
  NoDup (map (fun b => (bk_device_id b, bk_start b)) (map row_bucket (all_rows a tenant q devices w))).
Proof using.
  rewrite map_map. simpl.
  assert (NoDup (all_rows a tenant q devices w).*1) as Hnd by (apply rows_keys, NoDup_remove_dups).
  assert (forall r, r ∈ all_rows a tenant q devices w -> exists d, at_devices a !! r.1.1.1 = Some d /\ r.1.1.2 = pd_name d) as Hn.
  { intros r (i & g & d & Hd & Hname & _)%all_rows_inv. eauto. }
  induction (all_rows a tenant q devices w) as [|r rows IH]; [constructor|]. simpl in *. apply NoDup_cons in Hnd as [Hr Hnd].
  constructor; [|apply IH; [done|intros; apply Hn; by right]].
  intros (r' & E & Hr')%list_elem_of_fmap. apply Hr, list_elem_of_fmap. exists r'. split; [|done].
  injection E as E1 E2. destruct (Hn r ltac:(by left)) as (d & Hd & N1). destruct (Hn r' ltac:(by right)) as (d' & Hd' & N2).
  destruct r as [[[dv nm] b] v], r' as [[[dv' nm'] b'] v']. simpl in *. subst dv'. rewrite Hd in Hd'. injection Hd' as <-. subst.
  f_equal. lia.
Qed.
Lemma query_buckets a tenant q now data s e :
  qy_bucket_seconds q ∈ ALLOWED_BUCKET_SECONDS -> 0 <= qy_max_rows q ->
  qy_start q = s * 1000 -> qy_end q = e * 1000 -> repo_query a tenant q now = Ok data ->
  Z.of_nat (length (qd_buckets data)) <= qy_max_rows q ->
  let w := qy_bucket_seconds q * 1000000 in
  NoDup (map (fun b => (bk_device_id b, bk_start b)) (qd_buckets data))
  /\ forall b, b ∈ qd_buckets data -> exists t, s <= t < e /\ bk_start b = t / w * w * 1000.
Proof using.
  intros Hb Hr Hs He H Hlen w. unfold repo_query in H. cbv zeta in H.
  apply bind_ok in H as (marks & _ & H). apply bind_ok in H as (raw & _ & H). apply bind_ok in H as (rollup & _ & H).
  destruct (negb _); [done|]. destruct (_ || _); [injection H as <-; simpl; split; [constructor|by intros b ?%elem_of_nil]|].
  apply bind_ok in H as (buckets & Hbk & H). injection H as <-. simpl in *.
  set (devices := map ad_id _) in Hbk. set (mw := metric_window q (query_window q now)) in Hbk.
  pose proof (rows_unlimited _ _ _ _ _ _ Hr Hbk Hlen) as Hp. split.
  { rewrite Hp. apply rows_distinct. }
  assert (bucket_micros (qy_bucket_seconds q) = w /\ 0 < w) as [Ew Hw].
  { unfold w, ALLOWED_BUCKET_SECONDS in *. repeat (apply elem_of_cons in Hb as [->|Hb]); [done..|by apply elem_of_nil in Hb]. }
  intros b. rewrite Hp. intros (r & -> & Hrow)%list_elem_of_fmap. simpl.
  apply all_rows_inv in Hrow as (i & g & d & _ & _ & _ & _ & Hg & _).
  assert (i ∈ group_of (metric_items a tenant q devices mw) r.1) as Hi by (rewrite Hg; by left).
  apply elem_of_filterb in Hi as [Hi Hk%bool_decide_eq_true].
  destruct (item_in_range a tenant q devices mw i) as (t & Ht & Hbi); [intros f l; apply window_inside|done|].
  exists t. unfold mw, timestamp_micros in Ht. simpl in Ht. unfold timestamp_micros in Ht. rewrite Hs, He, !Z.div_mul in Ht by lia.
  split; [done|]. rewrite <- Hk. simpl. rewrite Hbi, Ew, sql_bucket_floor by done. done.
Qed.

(** The requested range in stored microseconds. *)
Lemma stored_span start end_ s e :
  start <= s * 1000 < start + 1000 -> end_ <= e * 1000 < end_ + 1000 -> 0 < num_seconds (end_ - start) ->
  s < e /\ e - s <= (num_seconds (end_ - start) + 1) * 1000000
  /\ ((1000000000 | end_ - start) -> e - s = num_seconds (end_ - start) * 1000000).
Proof using.
  unfold num_seconds. intros Hs He Hr.
  assert (0 < end_ - start) as Hpos.
  { destruct (Z.lt_ge_cases 0 (end_ - start)); [done|]. rewrite <- (Z.opp_involutive (end_ - start)), Z.quot_opp_l in Hr by lia.
    pose proof (Z.quot_pos (- (end_ - start)) 1000000000). lia. }
  rewrite Z.quot_div_nonneg in * by lia. set (n := (end_ - start) / 1000000000) in *.
  pose proof (Z.div_mod (end_ - start) 1000000000 ltac:(lia)) as Hdm. fold n in Hdm.
  pose proof (Z.mod_pos_bound (end_ - start) 1000000000 ltac:(lia)) as Hmb.
  split; [lia|]. split; [lia|]. intros Hd%Z.mod_divide; [|lia]. lia.
Qed.
(** Times that are starts of buckets of a range, counted. *)
Lemma starts_counted (times : list Z) start end_ s e b :
  start <= s * 1000 < start + 1000 -> end_ <= e * 1000 < end_ + 1000 ->
  0 < num_seconds (end_ - start) <= MAX_RANGE_SECONDS -> 0 < b <= 86400 -> NoDup times ->
  (forall x, x ∈ times -> exists t, s <= t < e /\ x = t / (b * 1000000) * (b * 1000000000)) ->
  let n := ceil_div (num_seconds (end_ - start)) b in
  Z.of_nat (length times) <= n + 2
  /\ ((1000000000 | end_ - start) -> Z.of_nat (length times) <= n + 1)
  /\ ((1000000000 | end_ - start) -> (b * 1000000000 | start) -> Z.of_nat (length times) <= n).
Proof using.
  intros Hs He Hr Hb Hnd Ht n. destruct (stored_span start end_ s e Hs He ltac:(lia)) as (Hse & Hspan & Hwhole).
  set (range := num_seconds (end_ - start)) in *. set (w := b * 1000000) in *. assert (0 < w) as Hw by lia.
  assert (range <= b * n) as Hest by (apply (ceil_div_le range b n); unfold n, MAX_RANGE_SECONDS in *; lia).
  assert (Z.of_nat (length times) <= (e - 1) / w - s / w + 1) as Hcount.
  { apply (aligned_count (b * 1000000000)); [done| |pose proof (Z.div_le_mono s (e - 1) w Hw ltac:(lia)); lia].
    intros x (t & Hx & ->)%Ht. exists (t / w). split; [done|]. split; apply Z.div_le_mono; lia. }
  split_and!.
  - destruct (buckets_met w s e (n + 1) Hw) as [H _]; [nia|done|]. lia.
  - intros Hd. destruct (buckets_met w s e n Hw) as [H _]; [rewrite Hwhole by done; nia|done|]. lia.
  - intros Hd [q Hq]. destruct (buckets_met w s e n Hw) as [_ H]; [rewrite Hwhole by done; nia|done|].
    etrans; [exact Hcount|]. apply H. exists q. lia.
Qed.
(** C40. The points of every series of an answered analytics query have
    distinct times, the starts of aligned buckets that meet the requested
    range.  Their number is at most the estimate the width was chosen by, the
    seconds of the range by the width, plus two; plus one for a range of whole
    seconds; and at most the estimate when the range also starts at the start
    of a bucket.  The estimate is within the requested budget, except for an
    automatic width when the range has more days than points are allowed; and
    no finer allowed width would have been within it when none was asked for. *)
Theorem series_points_bounded a_catalog a ctx r now result se :
  analytics_query a_catalog a ctx r now = Ok result -> se ∈ rs_series result ->
  let b := rs_bucket_seconds result in
  let range := num_seconds (rq_end r - rq_start r) in
  let points := Z.of_nat (length (se_points se)) in
  b ∈ ALLOWED_BUCKET_SECONDS
  /\ NoDup (map pt_timestamp (se_points se))
  /\ (forall p, p ∈ se_points se -> (b * 1000000000 | pt_timestamp p)
        /\ pt_timestamp p < rq_end r /\ rq_start r < pt_timestamp p + b * 1000000000)
  /\ points <= ceil_div range b + 2
  /\ ((1000000000 | rq_end r - rq_start r) -> points <= ceil_div range b + 1)
  /\ ((1000000000 | rq_end r - rq_start r) -> (b * 1000000000 | rq_start r) -> points <= ceil_div range b)
  /\ (ceil_div range b <= point_budget r
      \/ (rq_bucket_seconds r = None /\ b = 86400 /\ 86400 * point_budget r < range))
  /\ (rq_bucket_seconds r = None -> forall b', b' ∈ ALLOWED_BUCKET_SECONDS -> b' < b -> point_budget r < ceil_div range b').
Proof using.
  intros H Hse. unfold analytics_query in H.
  apply bind_ok in H as (_ & _ & H). apply bind_ok in H as (_ & _ & H). apply bind_ok in H as (rs & _ & H).
  apply bind_ok in H as ([metric revisions] & _ & H). apply bind_ok in H as (b & Hb%choose_bucket_estimate & H).
  apply bind_ok in H as (start & Hs & H). apply bind_ok in H as (end_ & He & H). apply bind_ok in H as (data & Hq%map_err_inv & H).
  destruct (Z.ltb_spec MAX_DEVICES (qd_compatible data)); [done|].
  destruct (Z.ltb_spec MAX_TOTAL_POINTS (Z.of_nat (length (qd_buckets data)))) as [|Hmax]; [done|]. injection H as <-. simpl in *.
  destruct (storage_bound_ok _ _ Hs) as (s & -> & Bs). destruct (storage_bound_ok _ _ He) as (e & -> & Be).
  destruct Hb as (Hrange & Hb & Hbudget & Hfine).
  match type of Hq with repo_query _ _ ?q _ = _ =>
    destruct (query_buckets a (ctx_tenant ctx) q now data s e Hb ltac:(done) eq_refl eq_refl Hq Hmax) as [Hnd Hstarts]
  end. simpl in Hstarts.
  destruct (result_points _ _ _ _ Hnd Hse) as [Hpnd Hpin]. pose proof (allowed_positive b Hb) as Hbpos.
  assert (forall x, x ∈ map pt_timestamp (se_points se) -> exists t, s <= t < e /\ x = t / (b * 1000000) * (b * 1000000000)) as Hp.
  { intros x (p & -> & (bk & -> & (t & Ht & ->)%Hstarts)%Hpin%list_elem_of_fmap)%list_elem_of_fmap. exists t. split; [done|]. lia. }
  destruct (starts_counted _ _ _ _ _ _ Bs Be Hrange Hbpos Hpnd Hp) as (N1 & N2 & N3). rewrite length_map in N1, N2, N3.
  split_and!; try done; [|naive_solver].
  intros p (t & Ht & ->)%(list_elem_of_fmap_2 pt_timestamp)%Hp.
  pose proof (Z.div_mod t (b * 1000000) ltac:(lia)). pose proof (Z.mod_pos_bound t (b * 1000000) ltac:(lia)).
  split; [by exists (t / (b * 1000000))|]. nia.
Qed.
End budget.

(** ** A device that reports every minute *)
#[local] Existing Instance RuleEvaluate.demo_chrono.
#[local] Existing Instance RuleEvaluate.demo_libm.
#[local] Existing Instance RuleSnapshot.demo_micros.
#[local] Existing Instance Outbox.demo_json.
#[local] Existing Instance Outbox.demo_actions.
#[local] Existing Instance demo_sql.
#[local] Existing Instance demo_spans.
#[local] Existing Instance demo_field_codec.
#[local] Existing Instance demo_aggregates.
Definition demo_report (id : string) (at_ : Z) : RecordDeviceEvent :=
  {| re_event_id := id; re_device_id := re_device_id cold_room_event; re_contract_id := re_contract_id cold_room_event;
     re_route_key := re_route_key cold_room_event; re_occurred_at := at_; re_received_at := at_;
     re_payload := re_payload cold_room_event; re_metrics := re_metrics cold_room_event;
     re_rule_evaluation := re_rule_evaluation cold_room_event |}.
(** Reports at the given times, one event each. *)
Definition demo_reports (times : list Z) : EventStore :=
  fold_left (fun s t => (repo_record s "tenant-a" (demo_report (int_to_string t) t) (fun _ => "u") 0).2) times cold_room_store.
Definition demo_minutes (times : list Z) : AnalyticsTables :=
  {| at_events := demo_reports times; at_devices := at_devices demo_tables; at_blueprints := at_blueprints demo_tables |}.
Definition demo_ten_points (start end_ : NaiveDateTime) : AnalyticsRequest :=
  {| rq_scope := {| sc_fleet_ids := []; sc_device_ids := [] |};
     rq_metric := {| an_blueprint_id := "b"; an_stream_key := "environment"; an_field_path := "/temperature" |};
     rq_start := start; rq_end := end_; rq_bucket_seconds := Some 60; rq_mode := PerDevice;
     rq_weighting := EqualDevice; rq_max_points := Some 10 |}.
Definition demo_seconds (l : list Z) : list Z := map (fun s => s * 1000000000) l.
Definition demo_series (times : list Z) (start end_ : NaiveDateTime) : list nat :=
  match analytics_query (demo_minutes times) (demo_minutes times) demo_reader (demo_ten_points start end_) 20000000000000 with
  | Ok result => map (fun se => length (se_points se)) (rs_series result)
  | Err _ => []
  end.
Definition demo_times : list Z := demo_seconds [7230; 7260; 7320; 7380; 7440; 7500; 7560; 7620; 7680; 7740; 7800].
(** Ten minutes from half a minute on, with a budget of ten points: eleven. *)
Example budget_exceeded_by_one : demo_series demo_times 7230000000000 7830000000000 = [11%nat].
Proof. vm_compute. reflexivity. Qed.
(** Less than a second more, which the estimate does not count: twelve. *)
Example budget_exceeded_by_two :
  demo_series (7259500000000 :: demo_seconds [7260; 7320; 7380; 7440; 7500; 7560; 7620; 7680; 7740; 7800; 7860]) 7259500000000 7860400000000
  = [12%nat].
Proof. vm_compute. reflexivity. Qed.
Lemma series_points_bounded_witness :
  exists result se, analytics_query (demo_minutes demo_times) (demo_minutes demo_times) demo_reader
      (demo_ten_points 7230000000000 7830000000000) 20000000000000 = Ok result
    /\ rs_series result = [se] /\ NoDup (map pt_timestamp (se_points se))
    /\ Z.of_nat (length (se_points se)) <= 10 + 1.
Proof.
  destruct (analytics_query (demo_minutes demo_times) (demo_minutes demo_times) demo_reader
      (demo_ten_points 7230000000000 7830000000000) 20000000000000) as [result|e] eqn:E; [|vm_compute in E; discriminate E].
  assert (exists se, rs_series result = [se] /\ rs_bucket_seconds result = 60) as (se & Hse & Hb).
  { vm_compute in E. injection E as <-. eexists. split; reflexivity. }
  exists result, se. split; [reflexivity|]. split; [exact Hse|].
  destruct (series_points_bounded _ _ _ _ _ result se E ltac:(rewrite Hse; by left)) as (_ & H1 & _ & _ & H2 & _).
  split; [exact H1|]. rewrite Hb in H2. exact (H2 ltac:(by exists 600)).
Defined.
