(* ===== verification/FirmwareStore.v ===== *)
(** * Firmware catalogue, API keys and CI ingestion: records and queries
    (crates/backend-core/src/firmware.rs, api_keys.rs, ci_ingest.rs;
    crates/backend-turso/src/firmware.rs, api_keys.rs, ci_ingest.rs)

    The tables of firmware updates with their stored objects, of the keys that
    let a build pipeline add updates, and the transactions on them. *)
From stdpp Require Import sorting.
From S2P Require Import Prelude Text BTree Json Errors Access RuleTypes Shadows RuleSnapshot Outbox EventStore.
From S2P Require Import ContractModel Events Firmware BlueprintStore Blueprints ProvisionStore.

Local Open Scope Z_scope.

(** ** Records *)
Record FirmwareRecord := {
  fm_id : Z; fm_version : string; fm_url : string; fm_sha256 : option string; fm_description : option string;
  fm_created_at : NaiveDateTime; fm_file_size : option Z; fm_filename : option string; fm_commit_sha : option string;
  fm_branch : option string; fm_ci_run_url : option string; fm_build_timestamp : option NaiveDateTime;
  fm_changelog : option string; fm_source : string; fm_blueprint_revision_id : string; fm_compatibility : value;
  fm_update_strategy : option string;
}.
Record FirmwarePage := { fp_records : list FirmwareRecord; fp_total : Z }.
Record NewFirmwareRecord := {
  nf_version : string; nf_url : string; nf_sha256 : option string; nf_description : option string;
  nf_commit_sha : option string; nf_branch : option string; nf_ci_run_url : option string;
  nf_build_timestamp : option NaiveDateTime; nf_changelog : option string; nf_source : option string;
  nf_blueprint_revision_id : string; nf_compatibility : value; nf_update_strategy : option string;
}.
Record NewFirmwareBlobRecord := {
  nb_size : Z; (* i32 *) nb_filename : string; nb_storage_key : string; nb_storage_backend : string;
}.
Record OtaDeploymentRecord := {
  or_id : Z; or_device_id : string; or_firmware_update_id : Z; or_firmware_version : string; or_status : string;
  or_error_message : option string; or_initiated_at : NaiveDateTime; or_completed_at : option NaiveDateTime;
}.
Record OtaDeploymentPage := { op_records : list OtaDeploymentRecord; op_total : Z }.
Record GlobalOtaDeploymentRecord := {
  gr_id : Z; gr_device_id : string; gr_device_name : string; gr_device_status : string; gr_current_firmware : string;
  gr_blueprint_revision_id : string; gr_fleet_id : option Z; gr_fleet_name : option string; gr_firmware_update_id : Z;
  gr_firmware_version : string; gr_status : string; gr_error_message : option string; gr_initiated_at : NaiveDateTime;
  gr_completed_at : option NaiveDateTime;
}.
Record GlobalOtaDeploymentPage := { gp_records : list GlobalOtaDeploymentRecord; gp_total : Z }.
Record ApiKeyRecord := {
  kk_id : Z; kk_name : string; kk_key_prefix : string; kk_blueprint_id : option string; kk_created_at : NaiveDateTime;
  kk_last_used_at : option NaiveDateTime;
}.
Record ApiKeySummary := { ks_key : ApiKeyRecord; ks_blueprint_name : option string }.
Record CreateApiKeyRecord := { ck_name : string; ck_key_hash : string; ck_key_prefix : string; ck_blueprint_id : option string }.
Record CiIngestParams := {
  ci_blueprint_revision_id : string; ci_version : string; ci_artifact_url : string; ci_sha256 : option string;
  ci_commit_sha : option string; ci_branch : option string; ci_run_url : option string;
  ci_build_timestamp : option NaiveDateTime; ci_description : option string; ci_changelog : option string;
}.
Inductive CiIngestOutcome :=
| CiUnauthorized | BlueprintRevisionNotFound | UnsupportedFirmware | CiForbidden (scoped_blueprint_id : string)
| CiCreated (firmware_id : Z) (version blueprint_revision_id : string).

(** ** Tables *)
Record UpdateRow := {
  up_tenant : string; up_revision : string; up_version : string; up_url : string; up_description : option string;
  up_sha256 : option string; up_commit : option string; up_branch : option string; up_run_url : option string;
  up_build : option Z; up_changelog : option string; up_source : string; up_created : Z; up_compatibility : string;
  up_strategy : option string;
}.
Record BlobRow := {
  bl_tenant : string; bl_size : Z; bl_filename : string; bl_key : string; bl_backend : string; bl_created : Z;
}.
Record ApiKeyRow := {
  ak_tenant : string; ak_name : string; ak_hash : string; ak_prefix : string; ak_blueprint : option string;
  ak_created : Z; ak_last_used : option Z;
}.
Record CatalogStore := {
  cs_provision : ProvisionStore;
  cs_updates : gmap Z UpdateRow;
  cs_blobs : gmap Z BlobRow;
  cs_deployments : gmap Z Firmware.Deployment;
  cs_keys : gmap Z ApiKeyRow;
}.
Definition cs_blueprints (s : CatalogStore) : BlueprintStore := ps_blueprints (cs_provision s).
Definition set_updates (s : CatalogStore) (m : gmap Z UpdateRow) : CatalogStore :=
  {| cs_provision := cs_provision s; cs_updates := m; cs_blobs := cs_blobs s; cs_deployments := cs_deployments s;
     cs_keys := cs_keys s |}.
Definition set_blobs (s : CatalogStore) (m : gmap Z BlobRow) : CatalogStore :=
  {| cs_provision := cs_provision s; cs_updates := cs_updates s; cs_blobs := m; cs_deployments := cs_deployments s;
     cs_keys := cs_keys s |}.
Definition set_keys (s : CatalogStore) (m : gmap Z ApiKeyRow) : CatalogStore :=
  {| cs_provision := cs_provision s; cs_updates := cs_updates s; cs_blobs := cs_blobs s;
     cs_deployments := cs_deployments s; cs_keys := m |}.
Definition commit_catalog {A} (s : CatalogStore) (r : result PersistenceError (A * CatalogStore))
    : result PersistenceError A * CatalogStore :=
  match r with Ok (a, s') => (Ok a, s') | Err e => (Err e, s) end.
Definition update_row (s : CatalogStore) (tenant : string) (id : Z) : option UpdateRow :=
  u ← cs_updates s !! id; if up_tenant u =s? tenant then Some u else None.
Definition blob_row (s : CatalogStore) (tenant : string) (id : Z) : option BlobRow :=
  b ← cs_blobs s !! id; if bl_tenant b =s? tenant then Some b else None.
Definition owned_revision (s : CatalogStore) (tenant revision : string) : option RevisionRow :=
  r ← bs_revisions (cs_blueprints s) !! revision; if rw_tenant r =s? tenant then Some r else None.

(** ** Reading updates *)
(** ORDER BY created_at DESC, id DESC *)
Definition newest_le {A} (created : A -> Z) (a b : Z * A) : Prop :=
  created b.2 < created a.2 \/ (created b.2 = created a.2 /\ b.1 <= a.1).
#[global] Instance newest_le_dec {A} (created : A -> Z) a b : Decision (newest_le created a b).
Proof. unfold newest_le. apply _. Defined.
Definition of_revision (tenant : string) (revision : option string) (u : UpdateRow) : bool :=
  (up_tenant u =s? tenant) && match revision with Some r => up_revision u =s? r | None => true end.
Definition updates_of (s : CatalogStore) (tenant : string) (revision : option string) : list (Z * UpdateRow) :=
  List.filter (fun e : Z * UpdateRow => of_revision tenant revision e.2) (map_to_list (cs_updates s)).

Section reads.
Context `{!ChronoMicros, !SerdeJson}.
Definition blob_record (b : BlobRow) : result PersistenceError FirmwareBlobRecord :=
  size ← narrow_i32 (bl_size b) "blob.size";
  Ok {| blob_size := size; blob_filename := bl_filename b; storage_key := bl_key b; storage_backend := bl_backend b |}.
Definition firmware_record (s : CatalogStore) (id : Z) (u : UpdateRow) : result PersistenceError FirmwareRecord :=
  fid ← narrow_i32 id "firmware.id";
  created ← datetime (up_created u);
  let blob := blob_row s (up_tenant u) id in
  size ← read_some (fun b => narrow_i32 (bl_size b) "blob.size") blob;
  build ← read_some datetime (up_build u);
  compatibility ← map_err CorruptData (from_str (up_compatibility u));
  Ok {| fm_id := fid; fm_version := up_version u; fm_url := up_url u; fm_sha256 := up_sha256 u;
        fm_description := up_description u; fm_created_at := created; fm_file_size := size;
        fm_filename := bl_filename <$> blob; fm_commit_sha := up_commit u; fm_branch := up_branch u;
        fm_ci_run_url := up_run_url u; fm_build_timestamp := build; fm_changelog := up_changelog u;
        fm_source := up_source u; fm_blueprint_revision_id := up_revision u; fm_compatibility := compatibility;
        fm_update_strategy := up_strategy u |}.
Definition find_firmware (s : CatalogStore) (tenant : string) (id : Z) : result PersistenceError (option FirmwareRecord) :=
  read_some (firmware_record s id) (update_row s tenant id).
Definition repo_list_firmware (s : CatalogStore) (tenant : string) (revision : option string) (limit offset : Z)
    : result PersistenceError FirmwarePage :=
  let own := updates_of s tenant revision in
  records ← mapM (fun e => firmware_record s e.1 e.2) (sql_page limit offset (merge_sort (newest_le up_created) own));
  Ok {| fp_records := records; fp_total := Z.of_nat (length own) |}.
Definition repo_next_version (s : CatalogStore) (tenant revision : string) : string :=
  match merge_sort (newest_le up_created) (updates_of s tenant (Some revision)) with
  | [] => "1.0.0"
  | e :: _ => increment_firmware_version (up_version e.2)
  end.
Definition repo_get_blob (s : CatalogStore) (tenant : string) (id : Z) : result PersistenceError (option FirmwareBlobRecord) :=
  read_some blob_record (blob_row s tenant id).

(** ** Deployments *)
Definition status_passes (status : option string) (d : Firmware.Deployment) : bool :=
  match status with
  | None => true
  | Some v =>
    if (v =s? "in_progress") || (v =s? "active") then live d
    else if (v =s? "completed") || (v =s? "terminal") then negb (live d)
    else if negb (str_is_empty v) && (v !=s "all") then dep_status d =s? v
    else true
  end.
Definition deployments_of (s : CatalogStore) (p : Firmware.Deployment -> bool) : list (Z * Firmware.Deployment) :=
  List.filter (fun e : Z * Firmware.Deployment => p e.2) (map_to_list (cs_deployments s)).
Definition join_fleet (s : CatalogStore) (d : DeviceRow) : option (Z * FleetRow) :=
  f ← pd_fleet d; row ← ps_fleets (cs_provision s) !! f; if fl_tenant row =s? pd_tenant d then Some (f, row) else None.
Definition global_record (e : Z * Firmware.Deployment) (u : UpdateRow) (d : DeviceRow) (fleet : option (Z * FleetRow))
    : result PersistenceError GlobalOtaDeploymentRecord :=
  id ← narrow_i32 e.1 "deployment.id";
  fleet_id ← read_some (fun f : Z * FleetRow => narrow_i32 f.1 "fleet.id") fleet;
  firmware ← narrow_i32 (dep_firmware e.2) "firmware.id";
  initiated ← datetime (dep_initiated e.2);
  completed ← read_some datetime (dep_completed e.2);
  Ok {| gr_id := id; gr_device_id := dep_device e.2; gr_device_name := pd_name d; gr_device_status := pd_status d;
        gr_current_firmware := pd_firmware d; gr_blueprint_revision_id := up_revision u; gr_fleet_id := fleet_id;
        gr_fleet_name := (fun f : Z * FleetRow => fl_name f.2) <$> fleet; gr_firmware_update_id := firmware;
        gr_firmware_version := up_version u; gr_status := dep_status e.2; gr_error_message := dep_error e.2;
        gr_initiated_at := initiated; gr_completed_at := completed |}.
(** JOIN firmware_updates, JOIN devices. *)
Definition global_row (s : CatalogStore) (e : Z * Firmware.Deployment)
    : option (Z * Firmware.Deployment * (UpdateRow * DeviceRow)) :=
  u ← update_row s (dep_tenant e.2) (dep_firmware e.2);
  d ← device_row (cs_provision s) (dep_tenant e.2) (dep_device e.2);
  Some (e, (u, d)).
Definition initiated_le (a b : Z * Firmware.Deployment * (UpdateRow * DeviceRow)) : Prop := newest_le dep_initiated a.1 b.1.
#[global] Instance initiated_le_dec a b : Decision (initiated_le a b).
Proof. unfold initiated_le. apply _. Defined.
Definition repo_list_all_deployments (s : CatalogStore) (tenant : string) (status : option string) (limit offset : Z)
    : result PersistenceError GlobalOtaDeploymentPage :=
  let own := deployments_of s (fun d => (dep_tenant d =s? tenant) && status_passes status d) in
  records ← mapM (fun r : Z * Firmware.Deployment * (UpdateRow * DeviceRow) => global_record r.1 r.2.1 r.2.2 (join_fleet s r.2.2))
              (sql_page limit offset (merge_sort initiated_le (omap (global_row s) own)));
  Ok {| gp_records := records; gp_total := Z.of_nat (length own) |}.
Definition deployment_record (e : Z * Firmware.Deployment) (u : UpdateRow) : result PersistenceError OtaDeploymentRecord :=
  id ← narrow_i32 e.1 "deployment.id";
  firmware ← narrow_i32 (dep_firmware e.2) "firmware.id";
  initiated ← datetime (dep_initiated e.2);
  completed ← read_some datetime (dep_completed e.2);
  Ok {| or_id := id; or_device_id := dep_device e.2; or_firmware_update_id := firmware; or_firmware_version := up_version u;
        or_status := dep_status e.2; or_error_message := dep_error e.2; or_initiated_at := initiated;
        or_completed_at := completed |}.
(** The join is on the id alone. *)
Definition device_deployment_rows (s : CatalogStore) (own : list (Z * Firmware.Deployment))
    : list (Z * (Firmware.Deployment * UpdateRow)) :=
  omap (fun e : Z * Firmware.Deployment => u ← cs_updates s !! dep_firmware e.2; Some (e.1, (e.2, u))) own.
Definition repo_list_device_deployments (s : CatalogStore) (tenant device : string) (limit offset : Z)
    : result PersistenceError (option OtaDeploymentPage) :=
  match device_row (cs_provision s) tenant device with
  | None => Ok None
  | Some _ =>
    let own := deployments_of s (fun d => (dep_tenant d =s? tenant) && (dep_device d =s? device)) in
    records ← mapM (fun r : Z * (Firmware.Deployment * UpdateRow) => deployment_record (r.1, r.2.1) r.2.2)
                (sql_page limit offset (merge_sort (newest_le (fun r : Firmware.Deployment * UpdateRow => dep_initiated r.1))
                   (device_deployment_rows s own)));
    Ok (Some {| op_records := records; op_total := Z.of_nat (length own) |})
  end.

(** ** Adding and deleting updates *)
Definition version_taken (s : CatalogStore) (tenant revision version : string) : bool :=
  existsb (fun e : Z * UpdateRow => (up_tenant e.2 =s? tenant) && (up_revision e.2 =s? revision)
             && (up_version e.2 =s? version)) (map_to_list (cs_updates s)).
(** INSERT INTO firmware_updates and last_insert_rowid(). *)
Definition insert_update (s : CatalogStore) (u : UpdateRow) : result PersistenceError (Z * CatalogStore) :=
  if version_taken s (up_tenant u) (up_revision u) (up_version u) then Err unique_violation
  else match owned_revision s (up_tenant u) (up_revision u) with
       | None => Err foreign_key_violation
       | Some _ =>
         let id := next_rowid (cs_updates s) in
         fid ← narrow_i32 id "firmware.id"; Ok (fid, set_updates s (<[id := u]> (cs_updates s)))
       end.
Definition insert_firmware (s : CatalogStore) (tenant : string) (r : NewFirmwareRecord) (now : Z)
    : result PersistenceError (Z * CatalogStore) :=
  compatibility ← map_err PInternal (to_string (nf_compatibility r));
  insert_update s
    {| up_tenant := tenant; up_revision := nf_blueprint_revision_id r; up_version := nf_version r; up_url := nf_url r;
       up_description := nf_description r; up_sha256 := nf_sha256 r; up_commit := nf_commit_sha r;
       up_branch := nf_branch r; up_run_url := nf_ci_run_url r; up_build := timestamp_micros <$> nf_build_timestamp r;
       up_changelog := nf_changelog r; up_source := default "manual" (nf_source r); up_created := now;
       up_compatibility := compatibility; up_strategy := nf_update_strategy r |}.
Definition with_url (u : UpdateRow) (url : string) : UpdateRow :=
  {| up_tenant := up_tenant u; up_revision := up_revision u; up_version := up_version u; up_url := url;
     up_description := up_description u; up_sha256 := up_sha256 u; up_commit := up_commit u; up_branch := up_branch u;
     up_run_url := up_run_url u; up_build := up_build u; up_changelog := up_changelog u; up_source := up_source u;
     up_created := up_created u; up_compatibility := up_compatibility u; up_strategy := up_strategy u |}.
Definition insert_blob (s : CatalogStore) (tenant : string) (id : Z) (b : NewFirmwareBlobRecord) (now : Z)
    : result PersistenceError CatalogStore :=
  if (nb_size b <? 0) || (nb_storage_backend b =s? "database") then Err (CheckViolation "check")
  else if bool_decide (is_Some (cs_blobs s !! id)) then Err unique_violation
  else Ok (set_blobs s (<[id :=
         {| bl_tenant := tenant; bl_size := nb_size b; bl_filename := nb_filename b; bl_key := nb_storage_key b;
            bl_backend := nb_storage_backend b; bl_created := now |}]> (cs_blobs s))).
Definition set_url (s : CatalogStore) (tenant : string) (id : Z) (url : string) : CatalogStore :=
  match update_row s tenant id with
  | Some u => set_updates s (<[id := with_url u url]> (cs_updates s))
  | None => s
  end.
Definition download_path (id : Z) : string := "/api/v1/firmware-updates/" +:+ int_to_string id +:+ "/download".
Definition create_firmware_in (s : CatalogStore) (tenant : string) (r : NewFirmwareRecord) (b : option NewFirmwareBlobRecord)
    (now now' : Z) : result PersistenceError (option FirmwareRecord * CatalogStore) :=
  match owned_revision s tenant (nf_blueprint_revision_id r) with
  | None => Ok (None, s)
  | Some _ =>
    '(id, s1) ← insert_firmware s tenant r now;
    s2 ← match b with
         | None => Ok s1
         | Some b => s' ← insert_blob s1 tenant id b now'; Ok (set_url s' tenant id (download_path id))
         end;
    out ← find_firmware s2 tenant id;
    Ok (out, s2)
  end.
Definition repo_create_firmware (s : CatalogStore) (tenant : string) (r : NewFirmwareRecord) (b : option NewFirmwareBlobRecord)
    (now now' : Z) : result PersistenceError (option FirmwareRecord) * CatalogStore :=
  commit_catalog s (create_firmware_in s tenant r b now now').
(** Deployments refer to the update with no ON DELETE action; its blob cascades. *)
Definition deployed (s : CatalogStore) (tenant : string) (id : Z) : bool :=
  existsb (fun e : Z * Firmware.Deployment => (dep_tenant e.2 =s? tenant) && (dep_firmware e.2 =? id))
    (map_to_list (cs_deployments s)).
Definition delete_firmware_in (s : CatalogStore) (tenant : string) (id : Z)
    : result PersistenceError (option (option FirmwareBlobRecord) * CatalogStore) :=
  blob ← repo_get_blob s tenant id;
  match update_row s tenant id with
  | None => Ok (None, s)
  | Some _ =>
    if deployed s tenant id then Err foreign_key_violation
    else Ok (Some blob, set_blobs (set_updates s (delete id (cs_updates s))) (delete id (cs_blobs s)))
  end.
Definition repo_delete_firmware (s : CatalogStore) (tenant : string) (id : Z)
    : result PersistenceError (option (option FirmwareBlobRecord)) * CatalogStore :=
  commit_catalog s (delete_firmware_in s tenant id).
End reads.

(** ** API keys *)
(** ORDER BY created_at DESC, id DESC *)
Definition keys_of (s : CatalogStore) (tenant : string) : list (Z * ApiKeyRow) :=
  merge_sort (newest_le ak_created)
    (List.filter (fun e : Z * ApiKeyRow => ak_tenant e.2 =s? tenant) (map_to_list (cs_keys s))).
Definition api_key_taken (s : CatalogStore) (tenant name hash : string) : bool :=
  existsb (fun e : Z * ApiKeyRow => ((ak_tenant e.2 =s? tenant) && (ak_name e.2 =s? name)) || (ak_hash e.2 =s? hash))
    (map_to_list (cs_keys s)).
Definition owned_blueprint (s : CatalogStore) (tenant id : string) : option BlueprintRow :=
  b ← bs_blueprints (cs_blueprints s) !! id; if bp_tenant b =s? tenant then Some b else None.
Section keys.
Context `{!ChronoMicros}.
Definition decode_key (id : Z) (k : ApiKeyRow) : result PersistenceError ApiKeyRecord :=
  kid ← narrow_i32 id "api_keys.id";
  created ← datetime (ak_created k);
  used ← read_some datetime (ak_last_used k);
  Ok {| kk_id := kid; kk_name := ak_name k; kk_key_prefix := ak_prefix k; kk_blueprint_id := ak_blueprint k;
        kk_created_at := created; kk_last_used_at := used |}.
Definition create_key_in (s : CatalogStore) (tenant : string) (r : CreateApiKeyRecord) (now : Z)
    : result PersistenceError (ApiKeyRecord * CatalogStore) :=
  if match ck_blueprint_id r with
     | Some id => bool_decide (owned_blueprint s tenant id = None)
     | None => false
     end
  then Err PNotFound
  else if api_key_taken s tenant (ck_name r) (ck_key_hash r) then Err unique_violation
  else if negb (bool_decide (tenant ∈ bs_orgs (cs_blueprints s))) then Err foreign_key_violation
  else
    let id := next_rowid (cs_keys s) in
    let row := {| ak_tenant := tenant; ak_name := ck_name r; ak_hash := ck_key_hash r; ak_prefix := ck_key_prefix r;
                  ak_blueprint := ck_blueprint_id r; ak_created := now; ak_last_used := None |} in
    record ← decode_key id row;
    Ok (record, set_keys s (<[id := row]> (cs_keys s))).
Definition repo_create_key (s : CatalogStore) (tenant : string) (r : CreateApiKeyRecord) (now : Z) :=
  commit_catalog s (create_key_in s tenant r now).
Definition repo_list_keys (s : CatalogStore) (tenant : string) : result PersistenceError (list ApiKeySummary) :=
  mapM (fun e : Z * ApiKeyRow =>
          key ← decode_key e.1 e.2;
          Ok {| ks_key := key; ks_blueprint_name := id ← ak_blueprint e.2; bp_name <$> owned_blueprint s (ak_tenant e.2) id |})
    (keys_of s tenant).
Definition repo_delete_key (s : CatalogStore) (tenant : string) (id : Z) : bool * CatalogStore :=
  match cs_keys s !! id with
  | Some k => if ak_tenant k =s? tenant then (true, set_keys s (delete id (cs_keys s))) else (false, s)
  | None => (false, s)
  end.
End keys.

(** ** CI ingestion *)
Definition authorize_ci_blueprint (scope : option string) (blueprint_id : string) : result CiIngestOutcome unit :=
  match scope with
  | Some scoped => if scoped !=s blueprint_id then Err (CiForbidden scoped) else Ok tt
  | None => Ok tt
  end.
(** [serde_json::to_value] of a strategy. *)
Definition strategy_value (s : FirmwareStrategy) : value :=
  VString (match s with
           | BinaryReplacement => "binary_replacement" | PartitionSwap => "partition_swap" | Package => "package"
           | External => "external"
           end).
(** The printed form of a JSON value. *)
Class JsonDisplay := { value_text : value -> string }.
Section ci.
Context `{!SerdeJson, !BlueprintCodec, !JsonDisplay}.
Definition ci_firmware_metadata (document : value) : result PersistenceError (option (value * option string)) :=
  blueprint ← map_err CorruptData (blueprint_from_value document);
  match bp_firmware (spec blueprint) with
  | None => Ok None
  | Some f => Ok (Some (Object (fw_compatibility f), as_str (strategy_value (fw_strategy f))))
  end.
Definition key_by_hash (s : CatalogStore) (hash : string) : option (Z * ApiKeyRow) :=
  head (List.filter (fun e : Z * ApiKeyRow => ak_hash e.2 =s? hash) (map_to_list (cs_keys s))).
Definition touch_key (hash : string) (now : Z) (k : ApiKeyRow) : ApiKeyRow :=
  if ak_hash k =s? hash
  then {| ak_tenant := ak_tenant k; ak_name := ak_name k; ak_hash := ak_hash k; ak_prefix := ak_prefix k;
          ak_blueprint := ak_blueprint k; ak_created := ak_created k; ak_last_used := Some now |}
  else k.
Definition ci_row (tenant : string) (p : CiIngestParams) (compatibility : value) (strategy : option string) (now : Z) : UpdateRow :=
  {| up_tenant := tenant; up_revision := ci_blueprint_revision_id p; up_version := ci_version p; up_url := ci_artifact_url p;
     up_description := ci_description p; up_sha256 := ci_sha256 p; up_commit := ci_commit_sha p; up_branch := ci_branch p;
     up_run_url := ci_run_url p; up_build := timestamp_micros <$> ci_build_timestamp p; up_changelog := ci_changelog p;
     up_source := "ci"; up_created := now; up_compatibility := value_text compatibility; up_strategy := strategy |}.
Definition ingest_ci_in (s : CatalogStore) (hash : string) (p : CiIngestParams) (now now' : Z)
    : result PersistenceError (CiIngestOutcome * CatalogStore) :=
  match key_by_hash s hash with
  | None => Ok (CiUnauthorized, s)
  | Some (_, key) =>
    match owned_revision s (ak_tenant key) (ci_blueprint_revision_id p) with
    | None => Ok (BlueprintRevisionNotFound, s)
    | Some revision =>
      match authorize_ci_blueprint (ak_blueprint key) (rw_blueprint revision) with
      | Err outcome => Ok (outcome, s)
      | Ok _ =>
        document ← map_err CorruptData (from_str (rw_document revision));
        metadata ← ci_firmware_metadata document;
        match metadata with
        | None => Ok (UnsupportedFirmware, s)
        | Some (compatibility, strategy) =>
          '(id, s1) ← insert_update s (ci_row (ak_tenant key) p compatibility strategy now);
          Ok (CiCreated id (ci_version p) (ci_blueprint_revision_id p),
              set_keys s1 (touch_key hash now' <$> cs_keys s1))
        end
      end
    end
  end.
Definition repo_ingest_ci (s : CatalogStore) (hash : string) (p : CiIngestParams) (now now' : Z) :=
  commit_catalog s (ingest_ci_in s hash p now now').
End ci.

(** ** The deployments' view of the tables *)
Definition revision_of_assignment (p : ProvisionStore) (tenant : string) (a : AssignmentRow) : option string :=
  c ← ps_contracts p !! as_desired a; if kr_tenant c =s? tenant then Some (kr_revision c) else None.
Definition ota_view (s : CatalogStore) : OtaStore :=
  let p := cs_provision s in
  {| ota_devices := list_to_set (map (fun e : string * DeviceRow => (pd_tenant e.2, e.1)) (map_to_list (ps_devices p)));
     firmware_updates := list_to_map (map (fun e : Z * UpdateRow =>
       ((up_tenant e.2, e.1), {| fu_version := up_version e.2; fu_url := up_url e.2; fu_sha256 := up_sha256 e.2;
                                 fu_revision := up_revision e.2 |})) (map_to_list (cs_updates s)));
     assigned_revisions := map_imap (fun k a => revision_of_assignment p k.1 a) (ps_assignments p);
     ota_deployments := cs_deployments s; device_shadows := ps_shadows p |}.
Definition ota_commit (s : CatalogStore) (o : OtaStore) : CatalogStore :=
  {| cs_provision := set_shadows (cs_provision s) (device_shadows o); cs_updates := cs_updates s; cs_blobs := cs_blobs s;
     cs_deployments := ota_deployments o; cs_keys := cs_keys s |}.
