(* ===== verification/FirmwareCatalog.v ===== *)
(** * Firmware catalogue, stored objects and API keys
    (crates/backend-core/src/application/firmware.rs, api_keys.rs, ci_ingest.rs;
    crates/backend/src/domains/firmware/firmware_store.rs, firmware_creation.rs;
    crates/backend/src/domains/identity/api_key_util.rs)

    The applications on the tables of [FirmwareStore] and on the object store
    that holds the uploaded files. *)
From S2P Require Import Prelude Text BTree Json Errors Access RuleTypes Shadows RuleSnapshot Outbox EventStore.
From S2P Require Import ContractModel ContractCompiler Events Firmware BlueprintStore Blueprints ProvisionStore FirmwareStore.
From Stdlib Require Import Ascii.

Local Open Scope Z_scope.

(** ** Object keys *)
(** The loop over [chars]: a character that is not kept becomes one [_]. *)
Definition safe_char (c : ascii) : bool := is_ascii_alphanumeric c || Ascii.eqb c "-" || Ascii.eqb c "_".
Fixpoint safe_chars (s : string) : string :=
  match s with
  | EmptyString => EmptyString
  | String c r => if between 128 191 (code c) then safe_chars r
                  else String (if safe_char c then c else "_"%char) (safe_chars r)
  end.
Fixpoint str_take (n : nat) (s : string) : string :=
  match n, s with
  | O, _ | _, EmptyString => EmptyString
  | S n, String c r => String c (str_take n r)
  end.
Definition safe_segment (v fallback : string) : string :=
  let segment := str_take 160 (safe_chars v) in
  if str_is_empty segment then fallback else segment.
(** [uuid] is the text of the new UUID. *)
Definition allocate_key (tenant filename uuid : string) : string :=
  "tenants/" +:+ safe_segment tenant "tenant" +:+ "/firmware/" +:+ uuid +:+ "/" +:+ safe_segment filename "firmware.bin".

(** ** The object store

    Whether a key is a path of the store is decided by the [object_store]
    crate.  An operation on the store can fail, having had its effect or not. *)
Class ObjectPaths := { path_parses : string -> bool }.
Record Io := { io_ok : bool; io_applied : bool }.
Section objects.
Context `{!ObjectPaths}.
Definition object_path (key : string) : result string string :=
  if str_is_empty key || starts_with "/" key || contains ".." key then Err "invalid firmware object key"
  else if path_parses key then Ok key else Err "invalid firmware object key".
Definition store_put (objects : gmap string string) (key data : string) (io : Io) : result string unit * gmap string string :=
  match object_path key with
  | Err e => (Err e, objects)
  | Ok path =>
    if io_ok io then (Ok tt, <[path := data]> objects)
    else (Err ("failed to store firmware object " +:+ key), if io_applied io then <[path := data]> objects else objects)
  end.
Definition store_get (objects : gmap string string) (key : string) (io : Io) : result string string :=
  path ← object_path key;
  if io_ok io then ok_or (objects !! path) ("failed to read firmware object " +:+ key)
  else Err ("failed to read firmware object " +:+ key).
Definition store_delete (objects : gmap string string) (key : string) (io : Io) : result string unit * gmap string string :=
  match object_path key with
  | Err e => (Err e, objects)
  | Ok path =>
    if io_ok io then (Ok tt, delete path objects)
    else (Err ("failed to delete firmware object " +:+ key), if io_applied io then delete path objects else objects)
  end.
End objects.

(** ** Firmware application *)
Section application.
Context `{!ChronoMicros, !SerdeJson, !BlueprintCodec}.
Definition list_firmware (s : CatalogStore) (ctx : TenantContext) (revision : option string) (limit offset : Z)
    : result ApplicationError FirmwarePage :=
  _ ← require_permission ctx ReadFirmware;
  map_err Persistence (repo_list_firmware s (ctx_tenant ctx) revision limit offset).
Definition list_all_deployments (s : CatalogStore) (ctx : TenantContext) (status : option string) (limit offset : Z)
    : result ApplicationError GlobalOtaDeploymentPage :=
  _ ← require_permission ctx ReadFirmware;
  map_err Persistence (repo_list_all_deployments s (ctx_tenant ctx) status limit offset).
Definition create_error (e : PersistenceError) : ApplicationError :=
  match e with
  | UniqueViolation _ => Conflict "Firmware version already exists for this blueprint revision"
  | other => Persistence other
  end.
Definition create_firmware (s : CatalogStore) (ctx : TenantContext) (r : NewFirmwareRecord) (b : option NewFirmwareBlobRecord)
    (now now' : Z) : result ApplicationError FirmwareRecord * CatalogStore :=
  match require_permission ctx ManageFirmware with
  | Err e => (Err e, s)
  | Ok _ =>
    let (out, s') := repo_create_firmware s (ctx_tenant ctx) r b now now' in
    (found ← map_err create_error out; ok_or found (NotFound "Blueprint revision not found"), s')
  end.
Definition next_firmware_version (s : CatalogStore) (ctx : TenantContext) (revision : string) : result ApplicationError string :=
  _ ← require_permission ctx ReadFirmware; Ok (repo_next_version s (ctx_tenant ctx) revision).
Definition get_blob (s : CatalogStore) (ctx : TenantContext) (id : Z) : result ApplicationError FirmwareBlobRecord :=
  _ ← require_permission ctx ReadFirmware;
  found ← map_err Persistence (repo_get_blob s (ctx_tenant ctx) id);
  ok_or found (NotFound ("Firmware blob for update " +:+ int_to_string id +:+ " not found")).
Definition delete_firmware (s : CatalogStore) (ctx : TenantContext) (id : Z)
    : result ApplicationError (option FirmwareBlobRecord) * CatalogStore :=
  match require_permission ctx ManageFirmware with
  | Err e => (Err e, s)
  | Ok _ =>
    let (out, s') := repo_delete_firmware s (ctx_tenant ctx) id in
    (found ← map_err Persistence out; ok_or found (NotFound ("Firmware update " +:+ int_to_string id +:+ " not found")), s')
  end.
Definition list_device_deployments (s : CatalogStore) (ctx : TenantContext) (device : string) (limit offset : Z)
    : result ApplicationError OtaDeploymentPage :=
  _ ← require_permission ctx ReadDevices;
  found ← map_err Persistence (repo_list_device_deployments s (ctx_tenant ctx) device limit offset);
  ok_or found (NotFound ("Device '" +:+ device +:+ "' not found")).
Record PreparedBlueprintFirmware := {
  pf_blueprint_revision_id : string; pf_compatibility : value; pf_update_strategy : option string;
}.
Definition into_record (p : PreparedBlueprintFirmware) (version url : string) (sha description : option string)
    : NewFirmwareRecord :=
  {| nf_version := version; nf_url := url; nf_sha256 := sha; nf_description := description; nf_commit_sha := None;
     nf_branch := None; nf_ci_run_url := None; nf_build_timestamp := None; nf_changelog := None; nf_source := None;
     nf_blueprint_revision_id := pf_blueprint_revision_id p; nf_compatibility := pf_compatibility p;
     nf_update_strategy := pf_update_strategy p |}.
Definition prepare_blueprint (s : CatalogStore) (ctx : TenantContext) (revision_id : string)
    : result ApplicationError PreparedBlueprintFirmware :=
  _ ← require_permission ctx ManageFirmware;
  revision ← get_revision (cs_blueprints s) ctx revision_id;
  blueprint ← map_err (fun e => Internal ("Stored device blueprint revision is invalid: " +:+ e))
                (blueprint_from_value (rv_document revision));
  definition ← ok_or (bp_firmware (spec blueprint))
    (InvalidOperation "The selected blueprint does not declare firmware update behavior");
  Ok {| pf_blueprint_revision_id := revision_id; pf_compatibility := Object (fw_compatibility definition);
        pf_update_strategy := as_str (strategy_value (fw_strategy definition)) |}.
End application.

(** ** Uploads and downloads

    The tables and the object store, shared by all requests. *)
Record Shelf := { sh_store : CatalogStore; sh_objects : gmap string string }.
Definition with_store (w : Shelf) (s : CatalogStore) : Shelf := {| sh_store := s; sh_objects := sh_objects w |}.
Definition with_objects (w : Shelf) (m : gmap string string) : Shelf := {| sh_store := sh_store w; sh_objects := m |}.
(** [data.len() as i32]. *)
Definition usize_as_i32 (z : Z) : Z := (z + 2 ^ 31) mod 2 ^ 32 - 2 ^ 31.
Definition digest_text `{!ContractCodec} (data : string) : string := as_hex (sha256 data).

Section shelf.
Context `{!ChronoMicros, !SerdeJson, !ObjectPaths, !ContractCodec}.
Context (backend : string).
Definition new_blob (key filename data : string) : NewFirmwareBlobRecord :=
  {| nb_size := usize_as_i32 (str_len data); nb_filename := filename; nb_storage_key := key; nb_storage_backend := backend |}.
(** The three awaits of [upload]: the object is stored, the update is created
    with it, and the object is deleted again when that failed. *)
Definition upload_put (w : Shelf) (ctx : TenantContext) (filename data uuid : string) (io : Io)
    : result ApplicationError string * Shelf :=
  match require_permission ctx ManageFirmware with
  | Err e => (Err e, w)
  | Ok _ =>
    let key := allocate_key (ctx_tenant ctx) filename uuid in
    let (r, objects) := store_put (sh_objects w) key data io in
    (match r with Ok _ => Ok key | Err _ => Err (Internal "Firmware storage is unavailable") end, with_objects w objects)
  end.
Definition upload_record (w : Shelf) (ctx : TenantContext) (r : NewFirmwareRecord) (key filename data : string) (now now' : Z)
    : result ApplicationError FirmwareRecord * Shelf :=
  let (out, s) := create_firmware (sh_store w) ctx r (Some (new_blob key filename data)) now now' in (out, with_store w s).
Definition remove_object (w : Shelf) (key : string) (io : Io) : Shelf :=
  with_objects w (store_delete (sh_objects w) key io).2.
(** [meanwhile] is the work of other requests while one waits. *)
Definition upload (w : Shelf) (ctx : TenantContext) (r : NewFirmwareRecord) (filename data uuid : string) (io io' : Io)
    (meanwhile meanwhile' : Shelf -> Shelf) (now now' : Z) : result ApplicationError FirmwareRecord * Shelf :=
  let (put, w1) := upload_put w ctx filename data uuid io in
  match put with
  | Err e => (Err e, w1)
  | Ok key =>
    let (out, w2) := upload_record (meanwhile w1) ctx r key filename data now now' in
    match out with
    | Ok f => (Ok f, w2)
    | Err e => (Err e, remove_object (meanwhile' w2) key io')
    end
  end.
Definition with_sha (r : NewFirmwareRecord) (sha : string) : NewFirmwareRecord :=
  {| nf_version := nf_version r; nf_url := nf_url r; nf_sha256 := Some sha; nf_description := nf_description r;
     nf_commit_sha := nf_commit_sha r; nf_branch := nf_branch r; nf_ci_run_url := nf_ci_run_url r;
     nf_build_timestamp := nf_build_timestamp r; nf_changelog := nf_changelog r; nf_source := nf_source r;
     nf_blueprint_revision_id := nf_blueprint_revision_id r; nf_compatibility := nf_compatibility r;
     nf_update_strategy := nf_update_strategy r |}.
Definition upload_blueprint_firmware (w : Shelf) (ctx : TenantContext) (r : NewFirmwareRecord) (filename data uuid : string)
    (io io' : Io) (meanwhile meanwhile' : Shelf -> Shelf) (now now' : Z) :=
  upload w ctx (with_sha r (digest_text data)) filename data uuid io io' meanwhile meanwhile' now now'.
Definition delete_row (w : Shelf) (ctx : TenantContext) (id : Z) : result ApplicationError (option FirmwareBlobRecord) * Shelf :=
  let (out, s) := delete_firmware (sh_store w) ctx id in (out, with_store w s).
Definition delete_stored (w : Shelf) (ctx : TenantContext) (id : Z) (io : Io) (meanwhile : Shelf -> Shelf)
    : result ApplicationError (option string) * Shelf :=
  let (out, w1) := delete_row w ctx id in
  match out with
  | Err e => (Err e, w1)
  | Ok None => (Ok None, w1)
  | Ok (Some blob) =>
    if storage_backend blob =s? backend then (Ok None, remove_object (meanwhile w1) (storage_key blob) io)
    else (Ok (Some (storage_backend blob)), w1)
  end.
(** The blob is read before the object. *)
Definition download (w w' : Shelf) (ctx : TenantContext) (id : Z) (io : Io) : result ApplicationError FirmwareDownload :=
  blob ← get_blob (sh_store w) ctx id;
  read_download blob backend (fun key => store_get (sh_objects w') key io).
Definition download_granted (w w' : Shelf) (grant : VerifiedFirmwareDownload) (io : Io) : result ApplicationError FirmwareDownload :=
  found ← map_err Persistence (repo_get_blob (sh_store w) (vd_tenant grant) (vd_firmware_id grant));
  blob ← ok_or found (NotFound "Firmware not found");
  read_download blob backend (fun key => store_get (sh_objects w') key io).
(** A deployment, on these tables. *)
Definition deploy (w : Shelf) (ctx : TenantContext) (device : string) (id : Z) (public_url : string) (clock : Z)
    (sign : FirmwareDownloadGrant -> result ApplicationError string) (now now' : Z) : result ApplicationError (value * Z) * Shelf :=
  let s := sh_store w in
  let (out, o) := app_trigger_ota (ota_view s) ctx device id public_url clock sign (next_rowid (cs_deployments s)) now now' in
  (out, with_store w (ota_commit s o)).
Definition report (to_lowercase : string -> string) (w : Shelf) (tenant device : string) (reported : value) (now now' : Z)
    : result ApplicationError unit * Shelf :=
  let s := sh_store w in
  let (out, o) := process_report to_lowercase (ota_view s) tenant device reported now now' in
  (out, with_store w (ota_commit s o)).
End shelf.

(** ** API keys *)
Record CreateApiKey := { ik_name : string; ik_blueprint_id : option string }.
Record GeneratedApiKey := { gk_plaintext : string; gk_hash : string; gk_prefix : string }.
Record CreatedApiKey := { ca_record : ApiKeyRecord; ca_plaintext : string }.
Section api_keys.
Context `{!ChronoMicros, !ContractCodec}.
Definition hash_api_key (key : string) : string := as_hex (sha256 key).
(** The first 13 characters; a generated key is ASCII. *)
Definition key_prefix (key : string) : string := str_take 13 key.
(** [random] are the 32 random bytes. *)
Definition generate_api_key (random : list Z) : string := "extr_" +:+ as_hex random.
Definition generate (random : list Z) : GeneratedApiKey :=
  let plaintext := generate_api_key random in
  {| gk_plaintext := plaintext; gk_hash := hash_api_key plaintext; gk_prefix := key_prefix plaintext |}.
Definition create_key (s : CatalogStore) (ctx : TenantContext) (input : CreateApiKey) (generated : GeneratedApiKey) (now : Z)
    : result ApplicationError CreatedApiKey * CatalogStore :=
  if trim_is_empty (ik_name input) then (Err (InvalidInput "name is required"), s) else
  match require_permission ctx ManageApiKeys with
  | Err e => (Err e, s)
  | Ok _ =>
    if match ik_blueprint_id input with Some id => trim_is_empty id | None => false end
    then (Err (InvalidInput "blueprint_id must not be blank"), s)
    else
      let (r, s') := repo_create_key s (ctx_tenant ctx)
        {| ck_name := ik_name input; ck_key_hash := gk_hash generated; ck_key_prefix := gk_prefix generated;
           ck_blueprint_id := ik_blueprint_id input |} now in
      (record ← map_err Persistence r; Ok {| ca_record := record; ca_plaintext := gk_plaintext generated |}, s')
  end.
Definition list_keys (s : CatalogStore) (ctx : TenantContext) : result ApplicationError (list ApiKeySummary) :=
  _ ← require_permission ctx ManageApiKeys; map_err Persistence (repo_list_keys s (ctx_tenant ctx)).
Definition delete_key (s : CatalogStore) (ctx : TenantContext) (id : Z) : result ApplicationError unit * CatalogStore :=
  match require_permission ctx ManageApiKeys with
  | Err e => (Err e, s)
  | Ok _ =>
    let (deleted, s') := repo_delete_key s (ctx_tenant ctx) id in
    (if deleted then Ok tt else Err (NotFound "API key not found"), s')
  end.
End api_keys.

(** ** CI ingestion *)
Section ci.
Context `{!SerdeJson, !BlueprintCodec, !JsonDisplay}.
Definition ingest_error (p : CiIngestParams) (e : PersistenceError) : ApplicationError :=
  match e with
  | UniqueViolation _ => Conflict ("Version '" +:+ ci_version p +:+ "' already exists for blueprint revision '"
                                   +:+ ci_blueprint_revision_id p +:+ "'")
  | other => Persistence other
  end.
Definition ingest (s : CatalogStore) (hash : string) (p : CiIngestParams) (now now' : Z)
    : result ApplicationError (Z * string * string) * CatalogStore :=
  let (out, s') := repo_ingest_ci s hash p now now' in
  (outcome ← map_err (ingest_error p) out;
   match outcome with
   | UnsupportedFirmware => Err (InvalidOperation "The selected blueprint does not declare firmware update behavior")
   | CiUnauthorized => Err Unauthorized
   | BlueprintRevisionNotFound => Err (NotFound ("Blueprint revision '" +:+ ci_blueprint_revision_id p +:+ "' not found"))
   | CiForbidden scoped => Err (Forbidden ("API key is scoped to blueprint ID " +:+ scoped +:+ ", not '"
                                           +:+ ci_blueprint_revision_id p +:+ "'"))
   | CiCreated id version revision => Ok (id, version, revision)
   end, s').
(** [extract_api_key] of the Authorization header. *)
Definition extract_api_key (authorization : option string) : result ApplicationError string :=
  auth ← ok_or authorization Unauthorized;
  key ← ok_or (strip_prefix "Bearer " auth) Unauthorized;
  if starts_with "extr_" key then Ok key else Err Unauthorized.
End ci.
