(* ===== verification/FirmwareHistory.v ===== *)
(** * Uploaded firmware over time

    The tables and the object store under interleaved uploads, deletions,
    downloads, deployments and CI ingestion, with failing storage operations
    and abandoned requests: every recorded file is there, unchanged and with
    its digest, nothing is lost from sight, and what was deployed stays
    available. *)
From stdpp Require Import relations.
From S2P Require Import Prelude Text BTree Json Errors Access RuleTypes Shadows RuleSnapshot Outbox EventStore.
From S2P Require Import ContractModel ContractCompiler Events Firmware BlueprintStore Blueprints ProvisionStore.
From S2P Require Import ColdRoom BlueprintHistory FirmwareStore FirmwareCatalog.
From Stdlib Require Import Ascii.

Local Open Scope Z_scope.

(** ** Object keys *)
Definition no_slash (s : string) : bool := str_forall (fun c => negb (Ascii.eqb c "/")) s.
Lemma safe_chars_no_slash s : no_slash (safe_chars s) = true.
Proof.
  induction s as [|c r IH]; [done|]. simpl. destruct (between 128 191 (code c)); [done|]. unfold no_slash in *. simpl. rewrite IH, andb_true_r.
  destruct (safe_char c) eqn:E; [|done]. destruct (Ascii.eqb_spec c "/") as [->|]; [by vm_compute in E|done].
Qed.
Lemma str_take_no_slash n s : no_slash s = true -> no_slash (str_take n s) = true.
Proof.
  revert s. induction n as [|n IH]; intros [|c r] H; try done. unfold no_slash in *. simpl in *. apply andb_true_iff in H as [H1 H2].
  by rewrite H1, IH.
Qed.
Lemma safe_segment_no_slash v fallback : no_slash fallback = true -> no_slash (safe_segment v fallback) = true.
Proof. intros H. unfold safe_segment. cbv zeta. destruct (str_is_empty _); [done|]. apply str_take_no_slash, safe_chars_no_slash. Qed.
Lemma slash_split a b x y :
  no_slash a = true -> no_slash b = true -> a +:+ "/" +:+ x = b +:+ "/" +:+ y -> a = b /\ x = y.
Proof.
  unfold no_slash. revert b. induction a as [|c a IH]; intros [|d b] Ha Hb E; simpl in *.
  - split; [done|]. by injection E.
  - apply andb_true_iff in Hb as [Hd _]. injection E as <- _. done.
  - apply andb_true_iff in Ha as [Hc _]. injection E as -> _. done.
  - apply andb_true_iff in Ha as [_ Ha]. apply andb_true_iff in Hb as [_ Hb]. injection E as -> E.
    destruct (IH b Ha Hb E) as [-> ->]. done.
Qed.
(** The hyphenated text of a UUID. *)
Definition uuid_text (u : string) : bool :=
  (str_len u =? 36) && str_forall (fun c => is_ascii_hexdigit c || Ascii.eqb c "-") u.
Lemma uuid_no_slash u : uuid_text u = true -> no_slash u = true.
Proof.
  unfold uuid_text. intros [_ H]%andb_true_iff. unfold no_slash. induction u as [|c u IH]; [done|]. simpl in *.
  apply andb_true_iff in H as [Hc H]. rewrite (IH H), andb_true_r. destruct (Ascii.eqb_spec c "/") as [->|]; [by vm_compute in Hc|done].
Qed.
Lemma allocate_key_inj t t' f f' u u' :
  uuid_text u = true -> uuid_text u' = true -> allocate_key t f u = allocate_key t' f' u' -> u = u'.
Proof.
  intros Hu%uuid_no_slash Hu'%uuid_no_slash. unfold allocate_key. intros H.
  apply (slash_split "tenants" "tenants" (_ +:+ "/" +:+ _) (_ +:+ "/" +:+ _)) in H as [_ H]; [|done..].
  apply slash_split in H as [_ H]; [|by apply safe_segment_no_slash..].
  apply (slash_split "firmware" "firmware" (_ +:+ "/" +:+ _) (_ +:+ "/" +:+ _)) in H as [_ H]; [|done..].
  by apply slash_split in H as [-> _].
Qed.

(** ** What the transactions change *)
Lemma update_row_spec s tenant id u :
  update_row s tenant id = Some u <-> cs_updates s !! id = Some u /\ up_tenant u = tenant.
Proof.
  unfold update_row. rewrite bind_Some. split.
  - intros (v & Hv & H). destruct (String.eqb_spec (up_tenant v) tenant); [|done]. by injection H as <-.
  - intros [Hu <-]. exists u. by rewrite String.eqb_refl.
Qed.
Lemma blob_row_spec s tenant id b :
  blob_row s tenant id = Some b <-> cs_blobs s !! id = Some b /\ bl_tenant b = tenant.
Proof.
  unfold blob_row. rewrite bind_Some. split.
  - intros (v & Hv & H). destruct (String.eqb_spec (bl_tenant v) tenant); [|done]. by injection H as <-.
  - intros [Hb <-]. exists b. by rewrite String.eqb_refl.
Qed.
Lemma insert_update_ok s u id s' :
  insert_update s u = Ok (id, s') ->
  cs_updates s !! id = None /\ s' = set_updates s (<[id := u]> (cs_updates s))
  /\ version_taken s (up_tenant u) (up_revision u) (up_version u) = false.
Proof.
  unfold insert_update. destruct (version_taken _ _ _ _); [done|]. destruct (owned_revision _ _ _); [|done]. cbv zeta.
  intros (fid & Hf & [= <- <-])%bind_ok. unfold narrow_i32 in Hf. destruct (Int.in_i32 _); [|done]. injection Hf as <-.
  split; [apply next_rowid_fresh|done].
Qed.
Section transactions.
Context `{!ChronoMicros, !SerdeJson}.
(** A created update, with the blob when there is one. *)
Definition created_row (u : UpdateRow) (id : Z) (b : option NewFirmwareBlobRecord) : UpdateRow :=
  match b with Some _ => with_url u (download_path id) | None => u end.
Lemma create_firmware_ok s tenant r b now now' out s' :
  repo_create_firmware s tenant r b now now' = (Ok (Some out), s') ->
  exists id u, cs_updates s !! id = None /\ up_tenant u = tenant /\ up_sha256 u = nf_sha256 r
    /\ cs_updates s' = <[id := created_row u id b]> (cs_updates s)
    /\ cs_deployments s' = cs_deployments s
    /\ match b with
       | None => cs_blobs s' = cs_blobs s
       | Some n => 0 <= nb_size n /\ exists row, cs_blobs s' = <[id := row]> (cs_blobs s) /\ bl_tenant row = tenant /\ bl_size row = nb_size n
           /\ bl_filename row = nb_filename n /\ bl_key row = nb_storage_key n /\ bl_backend row = nb_storage_backend n
       end.
Proof.
  unfold repo_create_firmware, commit_catalog. destruct (create_firmware_in _ _ _ _ _ _) as [[o s1]|] eqn:E; [|done].
  intros [= -> <-]. unfold create_firmware_in in E. destruct (owned_revision _ _ _); [|done].
  apply bind_ok in E as ([id s2] & Hi & E). apply bind_ok in E as (s3 & Hb & E). apply bind_ok in E as (o & _ & [= -> <-]).
  unfold insert_firmware in Hi. apply bind_ok in Hi as (c & _ & Hi).
  match type of Hi with insert_update _ ?u = _ => set (row := u) in Hi end.
  apply insert_update_ok in Hi as (Hf & -> & _). exists id, row. split; [done|]. destruct b as [n|]; [|injection Hb as <-; split_and!; done].
  apply bind_ok in Hb as (s4 & Hb & [= <-]). unfold insert_blob in Hb. destruct (Z.ltb_spec (nb_size n) 0); [done|].
  destruct (_ || _); [done|]. case_bool_decide; [done|]. injection Hb as <-. unfold set_url, update_row. simpl.
  rewrite lookup_insert_eq. simpl. rewrite String.eqb_refl. simpl. rewrite insert_insert_eq.
  split_and!; try done. eexists. by split_and!.
Qed.
Lemma create_firmware_kept s tenant r b now now' out s' :
  repo_create_firmware s tenant r b now now' = (out, s') -> (forall f, out <> Ok (Some f)) -> s' = s \/ out = Ok None.
Proof.
  unfold repo_create_firmware, commit_catalog. destruct (create_firmware_in _ _ _ _ _ _) as [[o s1]|] eqn:E.
  - intros [= <- <-] Hno. destruct o as [f|]; [by destruct (Hno f)|by right].
  - intros [= <- <-] _. by left.
Qed.
Lemma create_none s tenant r b now now' s' : repo_create_firmware s tenant r b now now' = (Ok None, s') -> s' = s.
Proof.
  unfold repo_create_firmware, commit_catalog. destruct (create_firmware_in _ _ _ _ _ _) as [[o s1]|] eqn:E; [|done].
  intros [= -> <-]. unfold create_firmware_in in E. destruct (owned_revision _ _ _); [|by injection E as <-].
  apply bind_ok in E as ([id s2] & Hi & E). apply bind_ok in E as (s3 & Hb & E). apply bind_ok in E as (o & Hfind & [= -> <-]).
  exfalso. unfold insert_firmware in Hi. apply bind_ok in Hi as (c & _ & Hi). apply insert_update_ok in Hi as (_ & -> & _).
  unfold find_firmware in Hfind.
  assert (exists u, update_row s3 tenant id = Some u) as [u Hu].
  { destruct b as [n|].
    - apply bind_ok in Hb as (s4 & Hb & [= <-]). unfold insert_blob in Hb. destruct (_ || _); [done|]. case_bool_decide; [done|].
      injection Hb as <-. unfold set_url. unfold update_row at 2. simpl. rewrite lookup_insert_eq. simpl. rewrite String.eqb_refl.
      eexists. apply update_row_spec. simpl. by rewrite lookup_insert_eq.
    - injection Hb as <-. eexists. apply update_row_spec. simpl. by rewrite lookup_insert_eq. }
  rewrite Hu in Hfind. simpl in Hfind. by destruct (firmware_record _ _ _).
Qed.
Lemma create_firmware_cases s ctx r b now now' out s' :
  create_firmware s ctx r b now now' = (out, s') ->
  (exists f, out = Ok f /\ repo_create_firmware s (ctx_tenant ctx) r b now now' = (Ok (Some f), s')) \/ ((exists e, out = Err e) /\ s' = s).
Proof.
  unfold create_firmware. destruct (require_permission _ _); [|intros [= <- <-]; right; eauto].
  destruct (repo_create_firmware _ _ _ _ _ _) as [o s1] eqn:E. intros [= <- <-]. destruct o as [[f|]|e]; simpl.
  - left. eauto.
  - right. split; [eauto|]. by apply create_none in E.
  - right. split; [eauto|]. by destruct (create_firmware_kept _ _ _ _ _ _ _ _ E) as [?|?].
Qed.
Lemma delete_firmware_cases s ctx id out s' :
  delete_firmware s ctx id = (out, s') ->
  (exists u, out = match cs_blobs s !! id with
                   | Some b => if bl_tenant b =s? ctx_tenant ctx
                               then Ok (Some {| blob_size := bl_size b; blob_filename := bl_filename b; storage_key := bl_key b;
                                                storage_backend := bl_backend b |})
                               else Ok None
                   | None => Ok None
                   end
     /\ cs_updates s !! id = Some u /\ up_tenant u = ctx_tenant ctx /\ deployed s (ctx_tenant ctx) id = false
     /\ s' = set_blobs (set_updates s (delete id (cs_updates s))) (delete id (cs_blobs s)))
  \/ ((exists e, out = Err e) /\ s' = s).
Proof.
  unfold delete_firmware. destruct (require_permission _ _); [|intros [= <- <-]; right; eauto].
  unfold repo_delete_firmware, commit_catalog. destruct (delete_firmware_in _ _ _) as [[o s1]|e] eqn:E; [|intros [= <- <-]; right; eauto].
  intros [= <- <-]. unfold delete_firmware_in in E. apply bind_ok in E as (blob & Hb & E).
  destruct (update_row s (ctx_tenant ctx) id) as [u|] eqn:Hu; [|injection E as <- <-; right; eauto].
  destruct (deployed _ _ _) eqn:Hd; [done|]. injection E as <- <-. apply update_row_spec in Hu as [Hu Ht]. left. exists u. split_and!; try done.
  simpl. unfold repo_get_blob, blob_row in Hb. destruct (cs_blobs s !! id) as [b|]; simpl in Hb; [|by injection Hb as <-].
  destruct (bl_tenant b =s? ctx_tenant ctx); simpl in Hb; [|by injection Hb as <-].
  unfold blob_record, narrow_i32 in Hb. destruct (Int.in_i32 _); [|done]. by injection Hb as <-.
Qed.
End transactions.

(** ** Histories

    Besides the tables and objects, the UUIDs used so far, the files stored by
    uploads that have not recorded them yet, and the keys no row refers to any
    more: of failed, abandoned and deleted uploads. *)
Record World := {
  wd_shelf : Shelf; wd_uuids : gset string; wd_uploads : gmap string string; wd_stale : gset string;
}.
Definition with_shelf (w : World) (sh : Shelf) : World :=
  {| wd_shelf := sh; wd_uuids := wd_uuids w; wd_uploads := wd_uploads w; wd_stale := wd_stale w |}.

Section history.
Context {micros : ChronoMicros} {codec : SerdeJson} {bcodec : BlueprintCodec} {display : JsonDisplay} {paths : ObjectPaths}
  {digest : ContractCodec}.
Context (backend : string).
#[local] Abbreviation store_of w := (sh_store (wd_shelf w)).
#[local] Abbreviation objects_of w := (sh_objects (wd_shelf w)).

Inductive firmware_step (w : World) : World -> Prop :=
| step_put ctx filename data uuid io out sh' :
    uuid_text uuid = true -> uuid ∉ wd_uuids w -> upload_put (wd_shelf w) ctx filename data uuid io = (out, sh') ->
    firmware_step w
      {| wd_shelf := sh'; wd_uuids := {[uuid]} ∪ wd_uuids w;
         wd_uploads := match out with Ok key => <[key := data]> (wd_uploads w) | Err _ => wd_uploads w end;
         wd_stale := match out with
                     | Ok _ => wd_stale w | Err _ => {[allocate_key (ctx_tenant ctx) filename uuid]} ∪ wd_stale w
                     end |}
| step_record ctx r key filename data now now' out sh' :
    wd_uploads w !! key = Some data ->
    upload_record backend (wd_shelf w) ctx (with_sha r (digest_text data)) key filename data now now' = (out, sh') ->
    firmware_step w
      {| wd_shelf := sh'; wd_uuids := wd_uuids w; wd_uploads := delete key (wd_uploads w);
         wd_stale := match out with Ok _ => wd_stale w | Err _ => {[key]} ∪ wd_stale w end |}
| step_abandon key :
    is_Some (wd_uploads w !! key) ->
    firmware_step w
      {| wd_shelf := wd_shelf w; wd_uuids := wd_uuids w; wd_uploads := delete key (wd_uploads w);
         wd_stale := {[key]} ∪ wd_stale w |}
| step_delete ctx id out sh' :
    delete_row (wd_shelf w) ctx id = (out, sh') ->
    firmware_step w
      {| wd_shelf := sh'; wd_uuids := wd_uuids w; wd_uploads := wd_uploads w;
         wd_stale := match out with
                     | Ok (Some blob) => if storage_backend blob =s? backend then {[storage_key blob]} ∪ wd_stale w else wd_stale w
                     | _ => wd_stale w
                     end |}
| step_clean key io :
    key ∈ wd_stale w ->
    firmware_step w
      {| wd_shelf := remove_object (wd_shelf w) key io; wd_uuids := wd_uuids w; wd_uploads := wd_uploads w;
         wd_stale := match (store_delete (objects_of w) key io).1 with
                     | Ok _ => wd_stale w ∖ {[key]} | Err _ => wd_stale w
                     end |}
| step_create ctx r now now' out s' :
    create_firmware (store_of w) ctx r None now now' = (out, s') -> firmware_step w (with_shelf w (with_store (wd_shelf w) s'))
| step_ingest hash p now now' out s' :
    ingest (store_of w) hash p now now' = (out, s') -> firmware_step w (with_shelf w (with_store (wd_shelf w) s'))
| step_create_key ctx input generated now out s' :
    create_key (store_of w) ctx input generated now = (out, s') -> firmware_step w (with_shelf w (with_store (wd_shelf w) s'))
| step_delete_key ctx id out s' :
    delete_key (store_of w) ctx id = (out, s') -> firmware_step w (with_shelf w (with_store (wd_shelf w) s'))
| step_deploy ctx device id public_url clock sign now now' out sh' :
    deploy (wd_shelf w) ctx device id public_url clock sign now now' = (out, sh') -> firmware_step w (with_shelf w sh')
| step_report to_lowercase tenant device reported now now' out sh' :
    report to_lowercase (wd_shelf w) tenant device reported now now' = (out, sh') -> firmware_step w (with_shelf w sh')
| step_other p :
    firmware_step w (with_shelf w (with_store (wd_shelf w)
      {| cs_provision := p; cs_updates := cs_updates (store_of w); cs_blobs := cs_blobs (store_of w);
         cs_deployments := cs_deployments (store_of w); cs_keys := cs_keys (store_of w) |})).

(** ** The invariant *)
Definition ours (w : World) (id : Z) (b : BlobRow) : Prop := cs_blobs (store_of w) !! id = Some b /\ bl_backend b = backend.
Definition known (w : World) (key : string) : Prop :=
  is_Some (objects_of w !! key) \/ is_Some (wd_uploads w !! key) \/ key ∈ wd_stale w \/ exists id b, ours w id b /\ bl_key b = key.
Record shelf_inv (w : World) : Prop := {
  si_rows : forall id b, cs_blobs (store_of w) !! id = Some b ->
    exists u, cs_updates (store_of w) !! id = Some u /\ up_tenant u = bl_tenant b;
  si_blobs : forall id b, ours w id b ->
    exists data u, objects_of w !! bl_key b = Some data /\ bl_size b = usize_as_i32 (str_len data) /\ 0 <= bl_size b
      /\ cs_updates (store_of w) !! id = Some u /\ up_sha256 u = Some (digest_text data) /\ up_url u = download_path id
      /\ wd_uploads w !! bl_key b = None /\ bl_key b ∉ wd_stale w;
  si_keys : forall id id' b b', ours w id b -> ours w id' b' -> bl_key b = bl_key b' -> id = id';
  si_uploads : forall key data, wd_uploads w !! key = Some data -> objects_of w !! key = Some data /\ key ∉ wd_stale w;
  si_objects : forall key, is_Some (objects_of w !! key) ->
    object_path key = Ok key
    /\ ((exists id b, ours w id b /\ bl_key b = key) \/ is_Some (wd_uploads w !! key) \/ key ∈ wd_stale w);
  si_uuids : forall key, known w key -> exists tenant filename uuid,
    uuid ∈ wd_uuids w /\ uuid_text uuid = true /\ key = allocate_key tenant filename uuid;
}.
(** A new object store, and tables without files of it. *)
Definition start (w : World) : Prop :=
  objects_of w = ∅ /\ wd_uploads w = ∅ /\ wd_stale w = ∅
  /\ forall id b, cs_blobs (store_of w) !! id = Some b ->
       bl_backend b <> backend /\ exists u, cs_updates (store_of w) !! id = Some u /\ up_tenant u = bl_tenant b.
Lemma start_inv w : start w -> shelf_inv w.
Proof.
  intros (Ho & Hu & Hs & Hb). assert (forall id b, ~ ours w id b) as Hn by (intros id b [H1 H2]; by apply Hb in H1 as [? _]).
  split.
  - intros id b H. by apply Hb in H as [_ ?].
  - intros id b H. by apply Hn in H.
  - intros id id' b b' H. by apply Hn in H.
  - intros key data. by rewrite Hu, lookup_empty.
  - intros key [? H]. by rewrite Ho, lookup_empty in H.
  - intros key [[? H]|[[? H]|[H|(id & b & H & _)]]].
    + by rewrite Ho, lookup_empty in H.
    + by rewrite Hu, lookup_empty in H.
    + set_solver.
    + by apply Hn in H.
Qed.
(** A key made from a new UUID is not known. *)
Lemma fresh_unknown w uuid tenant filename :
  shelf_inv w -> uuid_text uuid = true -> uuid ∉ wd_uuids w -> ~ known w (allocate_key tenant filename uuid).
Proof.
  intros Hinv Ht Hf Hk. destruct (si_uuids _ Hinv _ Hk) as (t & f & u & Hu & Hut & E).
  by apply allocate_key_inj in E as <-.
Qed.
(** Work on the tables that leaves the files' rows alone. *)
Lemma tables_inv w s' :
  shelf_inv w -> cs_blobs s' = cs_blobs (store_of w) ->
  (forall id u, cs_updates (store_of w) !! id = Some u -> cs_updates s' !! id = Some u) ->
  shelf_inv (with_shelf w (with_store (wd_shelf w) s')).
Proof.
  intros [H1 H2 H3 H4 H5 H6] Hb Hu.
  assert (forall id b, ours (with_shelf w (with_store (wd_shelf w) s')) id b <-> ours w id b) as Ho
    by (intros id b; unfold ours; simpl; by rewrite Hb).
  split; unfold known; simpl.
  - intros id b. rewrite Hb. intros (u & Hu' & Ht)%H1. exists u. split; [by apply Hu|done].
  - intros id b (data & u & E1 & E2 & E3 & Hu' & Hrest)%Ho%H2. exists data, u. by split_and!; [..|apply Hu|apply Hrest|apply Hrest|apply Hrest|apply Hrest].
  - intros id id' b b' Hi%Ho Hi'%Ho. by apply H3.
  - done.
  - intros key Hk. destruct (H5 key Hk) as [Hp Hw]. split; [done|]. by setoid_rewrite Ho.
  - intros key Hk. apply H6. unfold known. by setoid_rewrite <- Ho.
Qed.
Lemma put_cases sh ctx filename data uuid io out sh' :
  upload_put sh ctx filename data uuid io = (out, sh') ->
  let key := allocate_key (ctx_tenant ctx) filename uuid in
  sh_store sh' = sh_store sh
  /\ ((out = Ok key /\ object_path key = Ok key /\ sh_objects sh' = <[key := data]> (sh_objects sh))
      \/ ((exists e, out = Err e) /\ (sh_objects sh' = sh_objects sh
           \/ (object_path key = Ok key /\ sh_objects sh' = <[key := data]> (sh_objects sh))))).
Proof.
  intros H key. unfold upload_put in H. destruct (require_permission _ _); [|injection H as <- <-; split; [done|right; eauto]].
  fold key in H. unfold store_put in H.
  assert (object_path key = Ok key \/ exists e, object_path key = Err e) as [Hp|[e Hp]].
  { unfold object_path. destruct (_ || _); [right; eauto|]. destruct (path_parses key); [by left|right; eauto]. }
  - rewrite Hp in H. destruct (io_ok io); injection H as <- <-; split; try done; [by left|right]. split; [eauto|].
    destruct (io_applied io); [by right|by left].
  - rewrite Hp in H. injection H as <- <-. split; [done|right]. split; [eauto|]. by left.
Qed.
(** An object stored under a new key, by an upload under way or a failed one. *)
Lemma store_inv w key data uuid tenant filename (uploads : gmap string string) (stale : gset string) objects :
  shelf_inv w -> uuid_text uuid = true -> uuid ∉ wd_uuids w -> key = allocate_key tenant filename uuid ->
  (objects = objects_of w \/ (object_path key = Ok key /\ objects = <[key := data]> (objects_of w))) ->
  (objects = <[key := data]> (objects_of w) /\ uploads = <[key := data]> (wd_uploads w) /\ stale = wd_stale w
   \/ uploads = wd_uploads w /\ stale = {[key]} ∪ wd_stale w) ->
  shelf_inv {| wd_shelf := with_objects (wd_shelf w) objects; wd_uuids := {[uuid]} ∪ wd_uuids w; wd_uploads := uploads;
               wd_stale := stale |}.
Proof.
  intros Hinv Ht Hf -> Hobj Hcase. pose proof (fresh_unknown w uuid tenant filename Hinv Ht Hf) as Hk.
  set (key := allocate_key tenant filename uuid) in *. set (w' := {| wd_shelf := _; wd_uuids := _; wd_uploads := _; wd_stale := _ |}).
  assert (forall k x, objects_of w !! k = Some x -> objects !! k = Some x) as Hold.
  { intros k x Hx. destruct Hobj as [->|[_ ->]]; [done|]. rewrite lookup_insert_ne; [done|]. intros <-. apply Hk. by left. }
  assert (forall k, is_Some (objects !! k) -> is_Some (objects_of w !! k) \/ (k = key /\ object_path key = Ok key)) as Hnew.
  { intros k Hx. destruct Hobj as [->|[Hp ->]]; [by left|]. destruct (decide (k = key)) as [->|]; [by right|].
    rewrite lookup_insert_ne in Hx by done. by left. }
  assert (forall k, is_Some (uploads !! k) -> is_Some (wd_uploads w !! k) \/ k = key) as Hup.
  { intros k Hx. destruct Hcase as [(_ & -> & _)|[-> _]]; [|by left]. destruct (decide (k = key)) as [->|]; [by right|].
    rewrite lookup_insert_ne in Hx by done. by left. }
  assert (forall k, k ∈ stale -> k ∈ wd_stale w \/ k = key) as Hst by (destruct Hcase as [(_ & _ & ->)|[_ ->]]; set_solver).
  split; simpl.
  - apply (si_rows _ Hinv).
  - intros id b Hi. destruct (si_blobs _ Hinv id b Hi) as (x & u & E1 & E2 & E3 & E4 & E5 & E6 & E7 & E8).
    assert (bl_key b <> key) as Hne by (intros E; apply Hk; right; right; right; by exists id, b).
    exists x, u. split_and!; try done; [by apply Hold| |intros [?|?]%Hst; done].
    apply eq_None_not_Some. intros [[? E]|?]%Hup; [by rewrite E7 in E|done].
  - apply (si_keys _ Hinv).
  - intros k x Hx. destruct Hcase as [(-> & -> & ->)|[-> ->]].
    + apply lookup_insert_Some in Hx as [[<- <-]|[Hne Hx]].
      * rewrite lookup_insert_eq. split; [done|]. intros H. apply Hk. by right; right; left.
      * destruct (si_uploads _ Hinv k x Hx). by rewrite lookup_insert_ne.
    + destruct (si_uploads _ Hinv k x Hx) as [E1 E2]. split; [by apply Hold|]. rewrite not_elem_of_union, not_elem_of_singleton.
      split; [|done]. intros ->. apply Hk. right; left. by eexists.
  - intros k Hx. destruct (Hnew k Hx) as [Ho|[-> Hp]].
    + destruct (si_objects _ Hinv k Ho) as [Hp Hw]. split; [done|].
      destruct Hw as [Hw|[[x Hw]|Hw]]; [by left|right; left|right; right].
      * destruct Hcase as [(_ & -> & _)|[-> _]]; [|by eexists]. destruct (decide (k = key)) as [->|]; [rewrite lookup_insert_eq|rewrite lookup_insert_ne by done]; by eexists.
      * destruct Hcase as [(_ & _ & ->)|[_ ->]]; set_solver.
    + split; [done|]. destruct Hcase as [(_ & -> & _)|[_ ->]]; [right; left; rewrite lookup_insert_eq; by eexists|right; right; set_solver].
  - assert (forall k, known w' k -> known w k \/ k = key) as Hkn.
    { intros k [Hx|[Hx|[Hx|Hx]]]; simpl in Hx.
      - destruct (Hnew k Hx) as [?|[? _]]; [left; by left|by right].
      - destruct (Hup k Hx); [left; by right; left|by right].
      - destruct (Hst k Hx); [left; by right; right; left|by right].
      - left. by right; right; right. }
    intros k [Hx| ->]%Hkn.
    + destruct (si_uuids _ Hinv k Hx) as (t & f & u & Hu & Hut & ->). exists t, f, u. split; [set_solver|done].
    + exists tenant, filename, uuid. split; [set_solver|done].
Qed.
(** An upload that will not be recorded. *)
Lemma abandon_inv w key :
  shelf_inv w -> is_Some (wd_uploads w !! key) ->
  shelf_inv {| wd_shelf := wd_shelf w; wd_uuids := wd_uuids w; wd_uploads := delete key (wd_uploads w); wd_stale := {[key]} ∪ wd_stale w |}.
Proof.
  intros Hinv [data Hkey]. set (w' := {| wd_shelf := _; wd_uuids := _; wd_uploads := _; wd_stale := _ |}).
  assert (forall k, is_Some (delete key (wd_uploads w) !! k) -> is_Some (wd_uploads w !! k)) as Hd.
  { intros k [x Hx]. apply lookup_delete_Some in Hx as [_ Hx]. by eexists. }
  split; simpl.
  - apply (si_rows _ Hinv).
  - intros id b Hi. destruct (si_blobs _ Hinv id b Hi) as (x & u & E1 & E2 & E3 & E4 & E5 & E6 & E7 & E8).
    exists x, u. split_and!; try done.
    + apply eq_None_not_Some. intros [? H]%Hd. by rewrite E7 in H.
    + rewrite not_elem_of_union, not_elem_of_singleton. split; [congruence|done].
  - apply (si_keys _ Hinv).
  - intros k x [Hne Hx]%lookup_delete_Some. destruct (si_uploads _ Hinv k x Hx). split; [done|set_solver].
  - intros k Hx. destruct (si_objects _ Hinv k Hx) as [Hp [Hw|[[x Hw]|Hw]]]; (split; [done|]); [by left| |set_solver].
    destruct (decide (k = key)) as [->|Hne]; [set_solver|]. right; left. rewrite lookup_delete_ne by done. by eexists.
  - intros k Hx. apply (si_uuids _ Hinv). destruct Hx as [Hx|[Hx|[Hx|Hx]]]; simpl in Hx; [by left|right; left; by apply Hd| |by right; right; right].
    apply elem_of_union in Hx as [->%elem_of_singleton|Hx]; [right; left; by eexists|by right; right; left].
Qed.
(** An upload that is recorded. *)
Lemma recorded_inv w key data id row u sh' :
  shelf_inv w -> wd_uploads w !! key = Some data -> sh_objects sh' = objects_of w ->
  cs_updates (store_of w) !! id = None ->
  cs_updates (sh_store sh') = <[id := u]> (cs_updates (store_of w)) -> cs_blobs (sh_store sh') = <[id := row]> (cs_blobs (store_of w)) ->
  up_tenant u = bl_tenant row -> up_sha256 u = Some (digest_text data) -> up_url u = download_path id ->
  bl_key row = key -> bl_backend row = backend -> bl_size row = usize_as_i32 (str_len data) -> 0 <= bl_size row ->
  shelf_inv {| wd_shelf := sh'; wd_uuids := wd_uuids w; wd_uploads := delete key (wd_uploads w); wd_stale := wd_stale w |}.
Proof.
  intros Hinv Hkey Ho Hfresh Hu Hb Htn Hsha Hurl <- Hbk Hsz Hpos. destruct (si_uploads _ Hinv _ _ Hkey) as [Hobj Hns].
  set (w' := {| wd_shelf := _; wd_uuids := _; wd_uploads := _; wd_stale := _ |}).
  assert (forall i b, ours w' i b <-> (i = id /\ b = row) \/ (i <> id /\ ours w i b)) as Hours.
  { intros i b. unfold ours. simpl. rewrite Hb, lookup_insert_Some. naive_solver. }
  assert (forall i b, ours w i b -> i <> id) as Hold.
  { intros i b [Hi _] ->. destruct (si_rows _ Hinv id b Hi) as (v & Hv & _). by rewrite Hfresh in Hv. }
  split; simpl.
  - intros i b. rewrite Hb, Hu, lookup_insert_Some. intros [[<- <-]|[Hne Hi]]; [exists u; by rewrite lookup_insert_eq|].
    destruct (si_rows _ Hinv i b Hi) as (v & Hv & Hvt). exists v. by rewrite lookup_insert_ne.
  - intros i b [[-> ->]|[Hne Hi]]%Hours.
    + exists data, u. rewrite Ho, Hu, lookup_insert_eq, lookup_delete_eq. by split_and!.
    + destruct (si_blobs _ Hinv i b Hi) as (x & v & E1 & E2 & E3 & E4 & E5 & E6 & E7 & E8).
      exists x, v. rewrite Ho, Hu, lookup_insert_ne by done. split_and!; try done. apply lookup_delete_None. by right.
  - intros i i' b b' [[-> ->]|[Hne Hi]]%Hours [[-> ->]|[Hne' Hi']]%Hours E; [done|..].
    + destruct (si_blobs _ Hinv i' b' Hi') as (x & v & _ & _ & _ & _ & _ & _ & E7 & _). rewrite <- E in E7. congruence.
    + destruct (si_blobs _ Hinv i b Hi) as (x & v & _ & _ & _ & _ & _ & _ & E7 & _). rewrite E in E7. congruence.
    + by apply (si_keys _ Hinv _ _ b b').
  - intros k x [Hne Hx]%lookup_delete_Some. rewrite Ho. by apply (si_uploads _ Hinv).
  - intros k. rewrite Ho. intros Hx. destruct (si_objects _ Hinv k Hx) as [Hp Hw]. split; [done|].
    destruct (decide (k = bl_key row)) as [->|Hne]; [left; exists id, row; split; [apply Hours; by left|done]|].
    destruct Hw as [(i & b & Hi & E)|[[y Hw]|Hw]]; [left; exists i, b|right; left|by right; right].
    + split; [apply Hours; right; split; [by apply (Hold i b)|done]|done].
    + rewrite lookup_delete_ne by done. by eexists.
  - intros k Hx. apply (si_uuids _ Hinv). destruct Hx as [Hx|[[y Hx]|[Hx|(i & b & Hi & E)]]]; try simpl in Hx.
    + rewrite Ho in Hx. by left.
    + apply lookup_delete_Some in Hx as [_ Hx]. right; left. by eexists.
    + by right; right; left.
    + apply Hours in Hi as [[-> ->]|[_ Hi]]; [right; left; rewrite <- E; by eexists|]. right; right; right. by exists i, b.
Qed.
(** A row that is deleted. *)
Lemma delete_inv w id sh' (stale : gset string) :
  shelf_inv w -> sh_objects sh' = objects_of w ->
  cs_updates (sh_store sh') = delete id (cs_updates (store_of w)) -> cs_blobs (sh_store sh') = delete id (cs_blobs (store_of w)) ->
  (forall b, ours w id b -> stale = {[bl_key b]} ∪ wd_stale w) -> ((forall b, ~ ours w id b) -> stale = wd_stale w) ->
  shelf_inv {| wd_shelf := sh'; wd_uuids := wd_uuids w; wd_uploads := wd_uploads w; wd_stale := stale |}.
Proof.
  intros Hinv Ho Hu Hb Hst Hst'. set (w' := {| wd_shelf := _; wd_uuids := _; wd_uploads := _; wd_stale := _ |}).
  assert (forall i b, ours w' i b <-> i <> id /\ ours w i b) as Hours.
  { intros i b. unfold ours. simpl. rewrite Hb, lookup_delete_Some. naive_solver. }
  assert ((exists b, ours w id b /\ stale = {[bl_key b]} ∪ wd_stale w) \/ ((forall b, ~ ours w id b) /\ stale = wd_stale w)) as Hcase.
  { destruct (cs_blobs (store_of w) !! id) as [b|] eqn:E; [destruct (decide (bl_backend b = backend))|].
    - left. exists b. split; [done|]. by apply Hst.
    - right. assert (forall c, ~ ours w id c) as Hn by (intros c [Hc Hbk]; congruence). split; [done|]. by apply Hst'.
    - right. assert (forall c, ~ ours w id c) as Hn by (intros c [Hc Hbk]; congruence). split; [done|]. by apply Hst'. }
  assert (forall k, k ∈ stale -> k ∈ wd_stale w \/ exists b, ours w id b /\ bl_key b = k) as Hin.
  { intros k Hk. destruct Hcase as [(b & Hi & ->)|[_ ->]]; [|by left]. apply elem_of_union in Hk as [->%elem_of_singleton|?]; [right; by exists b|by left]. }
  assert (wd_stale w ⊆ stale) as Hsub by (destruct Hcase as [(b & _ & ->)|[_ ->]]; set_solver).
  split; simpl.
  - intros i b. rewrite Hb, Hu, lookup_delete_Some. intros [Hne Hi]. rewrite lookup_delete_ne by done. by apply (si_rows _ Hinv).
  - intros i b [Hne Hi]%Hours. destruct (si_blobs _ Hinv i b Hi) as (x & v & E1 & E2 & E3 & E4 & E5 & E6 & E7 & E8).
    exists x, v. rewrite Ho, Hu, lookup_delete_ne by done. split_and!; try done. intros [?|(c & Hc & E)]%Hin; [done|].
    apply Hne. by apply (si_keys _ Hinv _ _ b c).
  - intros i i' b b' [_ Hi]%Hours [_ Hi']%Hours. by apply (si_keys _ Hinv).
  - intros k x Hx. rewrite Ho. destruct (si_uploads _ Hinv k x Hx) as [E1 E2]. split; [done|]. intros [?|(c & Hc & <-)]%Hin; [done|].
    destruct (si_blobs _ Hinv id c Hc) as (? & ? & _ & _ & _ & _ & _ & _ & E7 & _). congruence.
  - intros k. rewrite Ho. intros Hx. destruct (si_objects _ Hinv k Hx) as [Hp Hw]. split; [done|].
    destruct Hw as [(i & b & Hi & E)|[Hw|Hw]]; [|by right; left|right; right; by apply Hsub].
    destruct (decide (i = id)) as [->|]; [|left; exists i, b; split; [by apply Hours|done]].
    right; right. rewrite (Hst b Hi). set_solver.
  - intros k Hx. apply (si_uuids _ Hinv). destruct Hx as [Hx|[Hx|[Hx|(i & b & Hi & E)]]]; try simpl in Hx.
    + rewrite Ho in Hx. by left.
    + by right; left.
    + apply Hin in Hx as [?|(b & Hi & E)]; [by right; right; left|]. right; right; right. by exists id, b.
    + apply Hours in Hi as [_ Hi]. right; right; right. by exists i, b.
Qed.
(** An object that is removed, or not. *)
Lemma clean_inv w key io :
  shelf_inv w -> key ∈ wd_stale w ->
  shelf_inv {| wd_shelf := remove_object (wd_shelf w) key io; wd_uuids := wd_uuids w; wd_uploads := wd_uploads w;
               wd_stale := match (store_delete (objects_of w) key io).1 with Ok _ => wd_stale w ∖ {[key]} | Err _ => wd_stale w end |}.
Proof.
  intros Hinv Hkey. set (w' := {| wd_shelf := _; wd_uuids := _; wd_uploads := _; wd_stale := _ |}).
  assert (forall k, k <> key -> (store_delete (objects_of w) key io).2 !! k = objects_of w !! k) as Hother.
  { intros k Hne. unfold store_delete, object_path. repeat case_match; simplify_eq/=; rewrite ?lookup_delete_ne by done; done. }
  assert (forall k, is_Some ((store_delete (objects_of w) key io).2 !! k) -> is_Some (objects_of w !! k)) as Hless.
  { intros k [x Hx]. unfold store_delete, object_path in Hx. repeat case_match; simplify_eq/=; try (by eexists);
      apply lookup_delete_Some in Hx as [_ Hx]; by eexists. }
  assert (wd_stale w' ⊆ wd_stale w) as Hsub by (unfold w'; simpl; case_match; set_solver).
  split; simpl.
  - apply (si_rows _ Hinv).
  - intros id b Hi. destruct (si_blobs _ Hinv id b Hi) as (x & v & E1 & E2 & E3 & E4 & E5 & E6 & E7 & E8).
    exists x, v. split_and!; try done; [|by intros ?%Hsub]. rewrite Hother; [done|]. congruence.
  - apply (si_keys _ Hinv).
  - intros k x Hx. destruct (si_uploads _ Hinv k x Hx) as [E1 E2]. split; [|by intros ?%Hsub]. rewrite Hother; [done|]. congruence.
  - intros k Hx. destruct (si_objects _ Hinv k (Hless k Hx)) as [Hp [Hw|[Hw|Hw]]]; (split; [done|]); [by left|by right; left|].
    right; right. destruct (store_delete (objects_of w) key io) as [[[]|] objs] eqn:E; simpl; [|done].
    apply elem_of_difference. split; [done|]. intros ->%elem_of_singleton. destruct Hx as [x Hx]. simpl in Hx.
    unfold store_delete in E. destruct (object_path key) as [p|] eqn:Ep; [|done].
    assert (p = key) as -> by (unfold object_path in Ep; destruct (_ || _); [done|]; destruct (path_parses key); by simplify_eq).
    destruct (io_ok io); [|done]. injection E as <-. by rewrite lookup_delete_eq in Hx.
  - intros k Hx. apply (si_uuids _ Hinv). destruct Hx as [Hx|[Hx|[Hx|Hx]]]; [left; by apply Hless|by right; left|right; right; left; by apply Hsub|by right; right; right].
Qed.
Lemma with_store_same sh : with_store sh (sh_store sh) = sh.
Proof. by destruct sh. Qed.
(** CI ingestion. *)
Lemma ingest_cases s hash p now now' out s' :
  ingest s hash p now now' = (out, s') ->
  ((exists e, out = Err e) /\ s' = s)
  \/ exists kid key revision blueprint document f id,
       cs_keys s !! kid = Some key /\ ak_hash key = hash /\ owned_revision s (ak_tenant key) (ci_blueprint_revision_id p) = Some revision
       /\ (forall scoped, ak_blueprint key = Some scoped -> rw_blueprint revision = scoped)
       /\ from_str (rw_document revision) = Ok document /\ blueprint_from_value document = Ok blueprint
       /\ bp_firmware (spec blueprint) = Some f
       /\ version_taken s (ak_tenant key) (ci_blueprint_revision_id p) (ci_version p) = false
       /\ cs_updates s !! id = None /\ out = Ok (id, ci_version p, ci_blueprint_revision_id p)
       /\ s' = set_keys (set_updates s
            (<[id := ci_row (ak_tenant key) p (Object (fw_compatibility f)) (as_str (strategy_value (fw_strategy f))) now]> (cs_updates s)))
            (touch_key hash now' <$> cs_keys s).
Proof.
  unfold ingest, repo_ingest_ci, commit_catalog. destruct (ingest_ci_in s hash p now now') as [[o s1]|e] eqn:E; intros [= <- <-]; [|left; eauto].
  unfold ingest_ci_in in E. destruct (key_by_hash s hash) as [[kid key]|] eqn:Hk; [|injection E as <- <-; left; eauto].
  unfold key_by_hash in Hk. apply head_Some_elem_of, elem_of_filterb in Hk as [Hk Hh%String.eqb_eq]. apply elem_of_map_to_list in Hk.
  destruct (owned_revision _ _ _) as [revision|] eqn:Hr; [|injection E as <- <-; left; eauto].
  destruct (authorize_ci_blueprint _ _) as [[]|o'] eqn:Ha.
  2: { injection E as <- <-. left. split; [|done]. unfold authorize_ci_blueprint in Ha. destruct (ak_blueprint key); [|done].
       destruct (_ !=s _); [|done]. injection Ha as <-. simpl. eauto. }
  apply bind_ok in E as (document & Hd%map_err_inv & E). apply bind_ok in E as (metadata & Hm & E).
  unfold ci_firmware_metadata in Hm. apply bind_ok in Hm as (blueprint & Hb%map_err_inv & Hm).
  destruct (bp_firmware (spec blueprint)) as [f|] eqn:Hf; injection Hm as <-; [|injection E as <- <-; left; eauto].
  apply bind_ok in E as ([id s2] & Hi & [= <- <-]). apply insert_update_ok in Hi as (Hid & -> & Hv). right.
  exists kid, key, revision, blueprint, document, f, id. split_and!; try done.
  intros scoped Hs. unfold authorize_ci_blueprint in Ha. rewrite Hs in Ha. destruct (String.eqb_spec scoped (rw_blueprint revision)); done.
Qed.
Lemma firmware_step_inv w w' : shelf_inv w -> firmware_step w w' -> shelf_inv w'.
Proof.
  intros Hinv. destruct 1 as [ctx filename data uuid io out sh' Ht Hf H|ctx r key filename data now now' out sh' Hk H|key Hk|ctx id out sh' H
    |key io Hk|ctx r now now' out s' H|hash p now now' out s' H|ctx input generated now out s' H|ctx id out s' H
    |ctx device id url clock sign now now' out sh' H|lower tenant device reported now now' out sh' H|p].
  - destruct (put_cases _ _ _ _ _ _ _ _ H) as [Hs Hc]. destruct sh' as [s' objects]. simpl in *. subst s'.
    apply (store_inv w (allocate_key (ctx_tenant ctx) filename uuid) data uuid (ctx_tenant ctx) filename); try done.
    + destruct Hc as [(_ & Hp & ->)|[_ [->|[Hp ->]]]]; [by right|by left|by right].
    + destruct Hc as [(-> & _ & ->)|[[e ->] _]]; [by left|by right].
  - unfold upload_record in H. destruct (create_firmware _ _ _ _ _ _) as [o s1] eqn:E. injection H as <- <-.
    destruct (create_firmware_cases _ _ _ _ _ _ _ _ E) as [(f & -> & Hc)|[[e ->] ->]].
    + destruct (create_firmware_ok _ _ _ _ _ _ _ _ Hc) as (id & u & Hid & Hut & Hsha & Hu & _ & Hpos & row & Hb & B1 & B2 & _ & B4 & B5).
      apply (recorded_inv w key data id row (with_url u (download_path id))); try done; simpl; [congruence|by rewrite B2].
    + rewrite with_store_same. apply abandon_inv; [done|by eexists].
  - by apply abandon_inv.
  - unfold delete_row in H. destruct (delete_firmware _ _ _) as [o s1] eqn:E. injection H as <- <-.
    destruct (delete_firmware_cases _ _ _ _ _ E) as [(u & -> & Hu & Htn & _ & ->)|[[e ->] ->]].
    + apply (delete_inv w id); try done.
      * intros b [Hb Hbk]. rewrite Hb. destruct (si_rows _ Hinv id b Hb) as (v & Hv & Hvt).
        assert (bl_tenant b = ctx_tenant ctx) as -> by congruence. rewrite String.eqb_refl. simpl. by rewrite Hbk, String.eqb_refl.
      * intros Hn. destruct (cs_blobs (store_of w) !! id) as [b|] eqn:Hb; [|done]. destruct (_ =s? _); [|done]. simpl.
        destruct (String.eqb_spec (bl_backend b) backend) as [Hbk|]; [by destruct (Hn b)|done].
    + rewrite with_store_same. by destruct w.
  - by apply clean_inv.
  - destruct (create_firmware_cases _ _ _ _ _ _ _ _ H) as [(f & -> & Hc)|[_ ->]]; [|by apply tables_inv].
    destruct (create_firmware_ok _ _ _ _ _ _ _ _ Hc) as (id & u & Hid & _ & _ & Hu & _ & Hb).
    apply tables_inv; [done..|]. intros i v Hv. rewrite Hu, lookup_insert_ne; [done|congruence].
  - destruct (ingest_cases _ _ _ _ _ _ _ H) as [[_ ->]|(? & ? & ? & ? & ? & ? & id & _ & _ & _ & _ & _ & _ & _ & _ & Hid & _ & ->)];
      [by apply tables_inv|].
    apply tables_inv; [done..|]. intros i v Hv. simpl. rewrite lookup_insert_ne; [done|congruence].
  - apply tables_inv; [done|..]; unfold create_key, repo_create_key, commit_catalog, create_key_in in H; repeat case_match; simplify_eq; try done;
      match goal with E : _ ≫= _ = Ok _ |- _ => apply bind_ok in E as (? & _ & [= <- <-]) end; done.
  - apply tables_inv; [done|..]; unfold delete_key, repo_delete_key in H; repeat case_match; simplify_eq; done.
  - unfold deploy in H. destruct (app_trigger_ota _ _ _ _ _ _ _ _ _ _) as [o' t]. injection H as <- <-. by apply tables_inv.
  - unfold report in H. destruct (process_report _ _ _ _ _ _ _) as [o' t]. injection H as <- <-. by apply tables_inv.
  - by apply tables_inv.
Qed.
Lemma history_shelf w w' : shelf_inv w -> rtc firmware_step w w' -> shelf_inv w'.
Proof. intros Hw. induction 1 as [|w1 w2 w3 Hstep _ IH]; [done|]. by apply IH, (firmware_step_inv w1). Qed.
(** ** What was deployed stays *)
Lemma deployed_spec s tenant id :
  deployed s tenant id = true <-> exists k d, cs_deployments s !! k = Some d /\ dep_tenant d = tenant /\ dep_firmware d = id.
Proof.
  unfold deployed. rewrite existsb_elem. split.
  - intros ([k d] & Hk%elem_of_map_to_list & H). simpl in H. apply andb_true_iff in H as [Ht%String.eqb_eq Hi%Z.eqb_eq]. by exists k, d.
  - intros (k & d & Hk & <- & <-). exists (k, d). split; [by apply elem_of_map_to_list|]. simpl. by rewrite String.eqb_refl, Z.eqb_refl.
Qed.
(** Deployments keep their tenant and firmware. *)
Definition deployments_kept (m m' : gmap Z Firmware.Deployment) : Prop :=
  forall k d, m !! k = Some d -> exists d', m' !! k = Some d' /\ dep_tenant d' = dep_tenant d /\ dep_firmware d' = dep_firmware d.
Lemma deployed_kept s s' tenant id :
  deployments_kept (cs_deployments s) (cs_deployments s') -> deployed s tenant id = true -> deployed s' tenant id = true.
Proof.
  intros Hk (k & d & Hd & <- & <-)%deployed_spec. apply deployed_spec. destruct (Hk k d Hd) as (d' & ? & ? & ?). by exists k, d'.
Qed.
Lemma trigger_kept o ctx device id url clock sign rowid now now' out o' :
  ota_deployments o !! rowid = None -> app_trigger_ota o ctx device id url clock sign rowid now now' = (out, o') ->
  deployments_kept (ota_deployments o) (ota_deployments o').
Proof.
  intros Hf H. unfold app_trigger_ota in H. destruct (require_permission _ _); [|injection H as _ <-; intros k d ?; by exists d].
  destruct (grant_new _ _ _ ≫= _); [|injection H as _ <-; intros k d ?; by exists d].
  destruct (trigger_ota _ _ _ _ _ _ _ _) as [r o1] eqn:E. injection H as _ <-.
  assert ((exists dl v, r = Ok (Ready dl v)) \/ forall dl v, r <> Ok (Ready dl v)) as [(dl & v & ->)|Hn] by (destruct r as [[]|]; naive_solver).
  - apply trigger_ready in E as (? & ? & ? & ? & ? & _ & _ & _ & _ & _ & _ & _ & _ & _ & ->). simpl. intros k d Hd.
    exists (supersede (ctx_tenant ctx) device now d). rewrite lookup_insert_ne by congruence. rewrite lookup_fmap, Hd.
    split; [done|]. unfold supersede. by destruct (_ && _).
  - apply trigger_refused in E as ->; [|done]. intros k d ?. by exists d.
Qed.
Lemma report_kept lower o tenant device reported now now' out o' :
  process_report lower o tenant device reported now now' = (out, o') -> deployments_kept (ota_deployments o) (ota_deployments o').
Proof.
  intros [->|(u & r & H)]%process_report_apply; [intros k d ?; by exists d|].
  apply apply_true in H as [->|(d & t & Hd & _ & _ & _ & -> & _)]; [intros k d ?; by exists d|]. simpl. intros k e He.
  destruct (decide (k = ou_deployment_id u)) as [->|]; [|exists e; by rewrite lookup_insert_ne].
  exists (with_status d u). rewrite lookup_insert_eq. replace e with d by congruence. done.
Qed.
(** A deployed update with its file and its deployments. *)
Definition available (w : World) (tenant : string) (id : Z) (b : BlobRow) (data : string) : Prop :=
  deployed (store_of w) tenant id = true /\ blob_row (store_of w) tenant id = Some b /\ bl_backend b = backend
  /\ objects_of w !! bl_key b = Some data.
Lemma available_tables w s' tenant id b data :
  available w tenant id b data -> deployments_kept (cs_deployments (store_of w)) (cs_deployments s') ->
  cs_blobs s' = cs_blobs (store_of w) -> available (with_shelf w (with_store (wd_shelf w) s')) tenant id b data.
Proof.
  intros (H1 & H2 & H3 & H4) Hd Hb. split_and!; try done; simpl; [by apply (deployed_kept (store_of w))|].
  apply blob_row_spec in H2. apply blob_row_spec. by rewrite Hb.
Qed.
Lemma kept_same (m : gmap Z Firmware.Deployment) : deployments_kept m m.
Proof. intros k d ?. by exists d. Qed.
Lemma step_available w w' tenant id b data :
  shelf_inv w -> firmware_step w w' -> available w tenant id b data -> available w' tenant id b data.
Proof.
  intros Hinv Hstep Hav. pose proof Hav as (H1 & H2 & H3 & H4). apply blob_row_spec in H2 as [H2 Htn].
  assert (ours w id b) as Hours by done. destruct (si_blobs _ Hinv id b Hours) as (x & u & E1 & _ & _ & E4 & _ & _ & E7 & E8).
  destruct Hstep as [ctx filename y uuid io out sh' Ht Hf H|ctx r key filename y now now' out sh' Hk H|key Hk|ctx id' out sh' H
    |key io Hk|ctx r now now' out s' H|hash p now now' out s' H|ctx input generated now out s' H|ctx id' out s' H
    |ctx device id' url clock sign now now' out sh' H|lower t device reported now now' out sh' H|p].
  - destruct (put_cases _ _ _ _ _ _ _ _ H) as [Hs Hc]. split_and!; simpl; rewrite ?Hs; try apply Hav.
    assert (bl_key b <> allocate_key (ctx_tenant ctx) filename uuid) as Hne.
    { intros E. apply (fresh_unknown w uuid (ctx_tenant ctx) filename Hinv Ht Hf). rewrite <- E. left. by eexists. }
    destruct Hc as [(_ & _ & ->)|[_ [->|[_ ->]]]]; rewrite ?lookup_insert_ne by done; done.
  - unfold upload_record in H. destruct (create_firmware _ _ _ _ _ _) as [o s1] eqn:E. injection H as <- <-.
    destruct (create_firmware_cases _ _ _ _ _ _ _ _ E) as [(f & -> & Hc)|[[e ->] ->]]; [|by rewrite with_store_same].
    destruct (create_firmware_ok _ _ _ _ _ _ _ _ Hc) as (i & v & Hid & _ & _ & _ & Hd & _ & row & Hb & _).
    split_and!; simpl; try done; [unfold deployed; by rewrite Hd|]. apply blob_row_spec. rewrite Hb, lookup_insert_ne; [done|congruence].
  - done.
  - unfold delete_row in H. destruct (delete_firmware _ _ _) as [o s1] eqn:E. injection H as <- <-.
    destruct (delete_firmware_cases _ _ _ _ _ E) as [(v & -> & Hv & Hvt & Hd & ->)|[[e ->] ->]]; [|by rewrite with_store_same].
    assert (id <> id') as Hne.
    { intros <-. destruct (si_rows _ Hinv id b H2) as (v' & Hv' & Hvt'). assert (tenant = ctx_tenant ctx) as E' by congruence. congruence. }
    split_and!; simpl; try done. apply blob_row_spec. simpl. rewrite lookup_delete_ne; done.
  - split_and!; simpl; try apply Hav. unfold store_delete, object_path. assert (bl_key b <> key) by congruence.
    repeat case_match; simplify_eq/=; rewrite ?lookup_delete_ne by done; done.
  - destruct (create_firmware_cases _ _ _ _ _ _ _ _ H) as [(f & -> & Hc)|[_ ->]]; [|by apply available_tables; [|apply kept_same|]].
    destruct (create_firmware_ok _ _ _ _ _ _ _ _ Hc) as (i & v & _ & _ & _ & _ & Hd & Hb).
    apply available_tables; [done|rewrite Hd; apply kept_same|done].
  - destruct (ingest_cases _ _ _ _ _ _ _ H) as [[_ ->]|(? & ? & ? & ? & ? & ? & i & _ & _ & _ & _ & _ & _ & _ & _ & _ & _ & ->)];
      by apply available_tables; [|apply kept_same|].
  - apply available_tables; [done|..]; unfold create_key, repo_create_key, commit_catalog, create_key_in in H; repeat case_match; simplify_eq;
      try match goal with E : _ ≫= _ = Ok _ |- _ => apply bind_ok in E as (? & _ & [= <- <-]) end; first [done|apply kept_same].
  - apply available_tables; [done|..]; unfold delete_key, repo_delete_key in H; repeat case_match; simplify_eq; first [done|apply kept_same].
  - unfold deploy in H. destruct (app_trigger_ota _ _ _ _ _ _ _ _ _ _) as [o' t] eqn:E. injection H as <- <-.
    apply available_tables; [done| |done]. apply trigger_kept in E; [done|apply next_rowid_fresh].
  - unfold report in H. destruct (process_report _ _ _ _ _ _ _) as [o' t'] eqn:E. injection H as <- <-.
    apply available_tables; [done| |done]. by apply report_kept in E.
  - by apply available_tables; [|apply kept_same|].
Qed.
Lemma history_available w w' tenant id b data :
  shelf_inv w -> rtc firmware_step w w' -> available w tenant id b data -> available w' tenant id b data.
Proof.
  intros Hinv Hrun. revert Hinv. induction Hrun as [|w1 w2 w3 Hstep _ IH]; [done|]. intros Hinv Hav.
  apply IH; [by apply (firmware_step_inv w1)|by apply (step_available w1)].
Qed.
(** ** Downloads *)
Lemma usize_as_i32_small z : 0 <= z < 2 ^ 31 -> usize_as_i32 z = z.
Proof. intros Hz. unfold usize_as_i32. rewrite Z.mod_small; lia. Qed.
Lemma granted_reads sh sh' tenant id b data io :
  blob_row (sh_store sh) tenant id = Some b -> bl_backend b = backend -> sh_objects sh' !! bl_key b = Some data ->
  object_path (bl_key b) = Ok (bl_key b) -> bl_size b = usize_as_i32 (str_len data) -> str_len data < 2 ^ 31 -> io_ok io = true ->
  download_granted backend sh sh' {| vd_tenant := tenant; vd_firmware_id := id |} io
  = Ok {| dl_data := data; dl_filename := bl_filename b; dl_size := str_len data |}.
Proof.
  intros Hb Hk Ho Hp Hs Hlen Hio. unfold download_granted, repo_get_blob. simpl. rewrite Hb. simpl.
  assert (0 <= str_len data) as Hpos by (unfold str_len; lia). rewrite usize_as_i32_small in Hs by lia.
  unfold blob_record, narrow_i32. rewrite Hs. replace (Int.in_i32 (str_len data)) with true.
  2: { symmetry. apply Int.in_i32_spec. unfold Int.i32_min, Int.i32_max. lia. }
  simpl. unfold read_download. simpl. rewrite Hk, String.eqb_refl. simpl. unfold store_get. rewrite Hp. simpl. rewrite Hio, Ho. simpl.
  unfold as_usize. rewrite Z.mod_small by lia. by rewrite Z.eqb_refl.
Qed.
Lemma ota_view_update s tenant id f :
  firmware_updates (ota_view s) !! (tenant, id) = Some f ->
  exists u, update_row s tenant id = Some u /\ fu_sha256 f = up_sha256 u /\ fu_url f = up_url u.
Proof.
  simpl. intros H%elem_of_list_to_map_2. apply list_elem_of_fmap in H as ([i u] & E & Hu%elem_of_map_to_list). simpl in E.
  injection E as -> -> ->. exists u. split; [by apply update_row_spec|done].
Qed.
Lemma deploy_ready w ctx device id url clock sign now now' dl v sh' :
  deploy (wd_shelf w) ctx device id url clock sign now now' = (Ok (dl, v), sh') ->
  exists token grant u artifact shadow updated,
    grant_new (ctx_tenant ctx) id clock = Ok grant /\ sign grant = Ok token /\ update_row (store_of w) (ctx_tenant ctx) id = Some u
    /\ prepare (up_version u) (up_sha256 u) (up_url u) (trim_end_matches "/" url +:+ "/api/v1/ota-downloads/" +:+ token) = Some artifact
    /\ apply_desired_patch shadow (desired_patch artifact id (next_rowid (cs_deployments (store_of w)))) now' = Ok updated
    /\ dl = delta updated /\ deployed (sh_store sh') (ctx_tenant ctx) id = true /\ sh_objects sh' = objects_of w
    /\ cs_blobs (sh_store sh') = cs_blobs (store_of w).
Proof.
  unfold deploy, app_trigger_ota. destruct (require_permission _ _); [|done].
  destruct (grant_new _ _ _) as [grant|] eqn:Eg; [|done]. simpl. destruct (sign grant) as [token|] eqn:Es; [|done].
  destruct (trigger_ota _ _ _ _ _ _ _ _) as [r o] eqn:E. intros [= Hr <-]. destruct r as [[]|]; simplify_eq.
  apply trigger_ready in E as (f & artifact & shadow & updated & t & _ & Hf & _ & Hp & _ & Ha & _ & -> & -> & ->).
  apply elem_of_list_to_map_2 in Hf as Hf'. apply list_elem_of_fmap in Hf' as ([i u] & E & Hu%elem_of_map_to_list). simpl in E.
  injection E as Et <- ->. exists token, grant, u, artifact, shadow, updated. split_and!; try done.
  - by apply update_row_spec.
  - apply deployed_spec. simpl. eexists _, _. by rewrite lookup_insert_eq.
Qed.

(** What was deployed stays available.  After a deployment of uploaded
    firmware was answered, the command given to the device carries the SHA-256
    of the stored file and the signed download URL, and whatever happens
    afterwards (deletions, other uploads and deployments, failing storage
    operations) a granted download, reading the row and the object at
    different times, returns exactly that file. *)
Theorem deployed_firmware_stable w0 w w1 w2 ctx device id url clock sign now now' dl v sh' b data io :
  start w0 -> rtc firmware_step w0 w ->
  deploy (wd_shelf w) ctx device id url clock sign now now' = (Ok (dl, v), sh') ->
  blob_row (store_of w) (ctx_tenant ctx) id = Some b -> bl_backend b = backend -> objects_of w !! bl_key b = Some data ->
  rtc firmware_step (with_shelf w sh') w1 -> rtc firmware_step w1 w2 ->
  (exists grant token artifact shadow updated,
     grant_new (ctx_tenant ctx) id clock = Ok grant /\ sign grant = Ok token /\ po_sha256 artifact = digest_text data
     /\ po_url artifact = trim_end_matches "/" url +:+ "/api/v1/ota-downloads/" +:+ token
     /\ apply_desired_patch shadow (desired_patch artifact id (next_rowid (cs_deployments (store_of w)))) now' = Ok updated
     /\ dl = delta updated)
  /\ (str_len data < 2 ^ 31 -> io_ok io = true ->
      download_granted backend (wd_shelf w1) (wd_shelf w2) {| vd_tenant := ctx_tenant ctx; vd_firmware_id := id |} io
      = Ok {| dl_data := data; dl_filename := bl_filename b; dl_size := str_len data |}).
Proof.
  intros Hs Hrun Hd Hb Hk Ho Hrun1 Hrun2. pose proof (history_shelf w0 w (start_inv w0 Hs) Hrun) as Hinv.
  assert (shelf_inv (with_shelf w sh')) as Hinv' by (apply (firmware_step_inv w); [done|by eapply step_deploy]).
  apply deploy_ready in Hd as (token & grant & u & artifact & shadow & updated & Hg & Hsign & Hu & Hp & Ha & -> & Hdep & Hobj & Hblobs).
  apply update_row_spec in Hu as [Hu Hut]. apply blob_row_spec in Hb as Hb'. destruct Hb' as [Hb' _].
  destruct (si_blobs _ Hinv id b (conj Hb' Hk)) as (data' & u' & Ho' & Hsz & _ & Hu' & Hsha & Hurl & _).
  assert (data' = data) as -> by congruence. assert (u' = u) as -> by congruence. split.
  - exists grant, token, artifact, shadow, updated. unfold prepare in Hp. rewrite Hurl, Hsha in Hp.
    replace (starts_with "https://" (download_path id)) with false in Hp by reflexivity.
    destruct (negb (valid_ota_artifact _ _ _)); [done|]. simpl in Hp. by injection Hp as <-.
  - intros Hlen Hio. assert (available (with_shelf w sh') (ctx_tenant ctx) id b data) as Hav.
    { split_and!; simpl; try done; [|by rewrite Hobj]. apply blob_row_spec in Hb. apply blob_row_spec. by rewrite Hblobs. }
    apply (history_available _ w1) in Hav; [|done..]. pose proof (history_shelf _ w1 Hinv' Hrun1) as Hinv1.
    destruct Hav as (D1 & D2 & D3 & D4). apply granted_reads; try done; [|apply (si_objects _ Hinv1); by eexists].
    by destruct (history_available w1 w2 (ctx_tenant ctx) id b data Hinv1 Hrun2) as (_ & _ & _ & ?).
Qed.
(** An upload and a deletion, undisturbed, are runs of these steps. *)
Lemma upload_run w ctx r filename data uuid io io' now now' :
  uuid_text uuid = true -> uuid ∉ wd_uuids w ->
  exists w', rtc firmware_step w w'
    /\ wd_shelf w' = (upload_blueprint_firmware backend (wd_shelf w) ctx r filename data uuid io io' id id now now').2.
Proof.
  intros Ht Hf. unfold upload_blueprint_firmware, upload. destruct (upload_put _ _ _ _ _ _) as [out sh1] eqn:E1.
  pose proof (step_put w ctx filename data uuid io out sh1 Ht Hf E1) as S1. destruct out as [key|e]; [|eexists; split; [by apply rtc_once|done]].
  simpl. destruct (upload_record _ _ _ _ _ _ _ _ _) as [out sh2] eqn:E2.
  match type of S1 with firmware_step _ ?x => set (w1 := x) in * end.
  assert (wd_uploads w1 !! key = Some data) as Hk by (simpl; apply lookup_insert_eq).
  pose proof (step_record w1 ctx r key filename data now now' out sh2 Hk E2) as S2.
  destruct out as [f|e]; [eexists; split; [by eapply rtc_l, rtc_once|done]|].
  match type of S2 with firmware_step _ ?x => set (w2 := x) in * end.
  assert (key ∈ wd_stale w2) as Hs by (simpl; set_solver).
  pose proof (step_clean w2 key io' Hs) as S3. eexists. split; [by eapply rtc_l, rtc_l, rtc_once|]. done.
Qed.
Lemma delete_run w ctx id io :
  exists w', rtc firmware_step w w' /\ wd_shelf w' = (delete_stored backend (wd_shelf w) ctx id io Datatypes.id).2.
Proof.
  unfold delete_stored. destruct (delete_row _ _ _) as [out sh1] eqn:E1. pose proof (step_delete w ctx id out sh1 E1) as S1.
  destruct out as [[blob|]|e]; [|eexists; split; [by apply rtc_once|done]..].
  destruct (storage_backend blob =s? backend) eqn:Eb; [|eexists; split; [by apply rtc_once|done]].
  match type of S1 with firmware_step _ ?x => set (w1 := x) in * end.
  assert (storage_key blob ∈ wd_stale w1) as Hs by (simpl; set_solver).
  pose proof (step_clean w1 (storage_key blob) io Hs) as S2. eexists. split; [by eapply rtc_l, rtc_once|]. done.
Qed.

(** ** CI ingestion *)
Lemma unknown_key s hash :
  key_by_hash s hash = None <-> forall kid key, cs_keys s !! kid = Some key -> ak_hash key <> hash.
Proof.
  unfold key_by_hash. destruct (List.filter _ _) as [|e l] eqn:E; simpl.
  - split; [|done]. intros _ kid key Hk Hh. apply (not_elem_of_nil (kid, key)). rewrite <- E. apply elem_of_filterb. split; [by apply elem_of_map_to_list|].
    simpl. by apply String.eqb_eq.
  - split; [done|]. intros H. exfalso. assert (e ∈ List.filter (fun e : Z * ApiKeyRow => ak_hash e.2 =s? hash) (map_to_list (cs_keys s))) as He by (rewrite E; by left).
    apply elem_of_filterb in He as [He Hh%String.eqb_eq]. destruct e as [kid key]. apply elem_of_map_to_list in He. by apply (H kid key).
Qed.
Lemma ingest_unauthorized s hash p now now' :
  (ingest s hash p now now').1 = Err Unauthorized <-> forall kid key, cs_keys s !! kid = Some key -> ak_hash key <> hash.
Proof.
  rewrite <- unknown_key. unfold ingest, repo_ingest_ci, commit_catalog, ingest_ci_in. destruct (key_by_hash s hash) as [[kid key]|]; [|done].
  split; [|done]. destruct (owned_revision _ _ _); [|done]. destruct (authorize_ci_blueprint _ _) as [[]|o] eqn:Ea.
  - destruct (map_err _ _ ≫= _) as [[o s']|e] eqn:E; simpl; [|destruct e; done].
    apply bind_ok in E as (document & _ & E). apply bind_ok in E as ([[c st]|] & _ & E); [|by injection E as <- _].
    apply bind_ok in E as ([i s2] & _ & E). by injection E as <- _.
  - unfold authorize_ci_blueprint in Ea. destruct (ak_blueprint key); [|done]. destruct (_ !=s _); [|done]. by injection Ea as <-.
Qed.
(** CI ingestion is confined to its API key.  It adds an update only for
    the tenant of a stored key with the given hash, to a published revision of
    that tenant, of the blueprint the key is scoped to when it has one, that
    declares firmware updates, with its compatibility and strategy taken from
    the published document, and under a version that is new for the revision;
    it then changes nothing but the last use of that key.  A refusal changes
    nothing, and is an authentication failure exactly when no key has the hash. *)
Theorem ci_ingest_exact s hash p now now' :
  let (out, s') := ingest s hash p now now' in
  match out with
  | Err e => s' = s /\ (e = Unauthorized <-> forall kid key, cs_keys s !! kid = Some key -> ak_hash key <> hash)
  | Ok (id, version, revision_id) =>
    exists kid key revision document blueprint f,
      cs_keys s !! kid = Some key /\ ak_hash key = hash
      /\ bs_revisions (cs_blueprints s) !! revision_id = Some revision /\ rw_tenant revision = ak_tenant key
      /\ (forall scoped, ak_blueprint key = Some scoped -> rw_blueprint revision = scoped)
      /\ from_str (rw_document revision) = Ok document /\ blueprint_from_value document = Ok blueprint
      /\ bp_firmware (spec blueprint) = Some f
      /\ (forall i u, cs_updates s !! i = Some u -> up_tenant u = ak_tenant key -> up_revision u = revision_id -> up_version u <> version)
      /\ cs_updates s !! id = None
      /\ s' = set_keys (set_updates s
           (<[id := ci_row (ak_tenant key) p (Object (fw_compatibility f)) (as_str (strategy_value (fw_strategy f))) now]> (cs_updates s)))
           (touch_key hash now' <$> cs_keys s)
  end.
Proof.
  pose proof (ingest_unauthorized s hash p now now') as Hun. destruct (ingest s hash p now now') as [out s'] eqn:E. simpl in Hun.
  destruct (ingest_cases _ _ _ _ _ _ _ E) as [[[e ->] ->]|(kid & key & revision & blueprint & document & f & id & H1 & H2 & H3 & H4 & H5 & H6 & H7 & H8 & H9 & -> & ->)].
  - split; [done|]. rewrite <- Hun. split; [by intros ->|by injection 1].
  - unfold owned_revision in H3. apply bind_Some in H3 as (r & Hr & H3). destruct (String.eqb_spec (rw_tenant r) (ak_tenant key)); [|done].
    injection H3 as <-. exists kid, key, r, document, blueprint, f. split_and!; try done.
    intros i u Hu Ht Hrev Hv. unfold version_taken in H8. apply not_true_iff_false in H8. apply H8, existsb_elem. exists (i, u).
    split; [by apply elem_of_map_to_list|]. simpl. by rewrite Ht, Hrev, Hv, !String.eqb_refl.
Qed.
End history.

(** ** A concrete history: an upload, its deployment, and a refused deletion *)
#[local] Existing Instance RuleSnapshot.demo_micros.
#[local] Existing Instance Outbox.demo_json.
#[local] Existing Instance BlueprintHistory.demo_contracts.
Definition demo_paths : ObjectPaths := {| path_parses := fun _ => true |}.
Definition demo_display : JsonDisplay := {| value_text := fun _ => "{}" |}.
Definition demo_any : BlueprintCodec := {| blueprint_from_value := fun _ => Ok cold_room; blueprint_to_value := fun _ => Ok Null |}.
#[local] Existing Instance demo_paths.
#[local] Existing Instance demo_display.
#[local] Existing Instance demo_any.
Definition demo_fleet : ProvisionStore :=
  {| ps_blueprints :=
       {| bs_orgs := {["acme"]};
          bs_blueprints := {["b" := {| bp_tenant := "acme"; bp_key := "cold-room"; bp_name := "Cold room"; bp_description := None;
            bp_created := 0; bp_updated := 0 |}]};
          bs_drafts := ∅;
          bs_revisions := {["r1" := {| rw_tenant := "acme"; rw_blueprint := "b"; rw_revision := 1; rw_document := "cold room";
            rw_hash := "h"; rw_compatibility := "report"; rw_created := 0 |}]} |};
     ps_fleets := ∅;
     ps_devices := {["device-1" := {| pd_tenant := "acme"; pd_name := "Cold room"; pd_fleet := None; pd_status := "online";
       pd_firmware := "1.0.0"; pd_last_seen := None; pd_uptime := 0; pd_connections := "[]"; pd_created := 0; pd_updated := 0 |}]};
     ps_shadows := {[("acme", "device-1") := {| row_desired := "{}"; row_reported := "{}"; row_delta := "{}"; row_version := 1;
       row_updated_at := 0 |}]};
     ps_certificates := ∅; ps_cas := ∅;
     ps_contracts := {["dc_1" := {| kr_tenant := "acme"; kr_device := "device-1"; kr_revision := "r1"; kr_document := "null";
       kr_hash := "h"; kr_created_at := 0 |}]};
     ps_assignments := {[("acme", "device-1") := {| as_desired := "dc_1"; as_active := None; as_status := "pending";
       as_acknowledged_at := None; as_error := None; as_updated_at := 0 |}]};
     ps_configs := ∅; ps_dependents := ∅ |}.
Definition demo_world : World :=
  {| wd_shelf := {| sh_store := {| cs_provision := demo_fleet; cs_updates := ∅; cs_blobs := ∅; cs_deployments := ∅; cs_keys := ∅ |};
                    sh_objects := ∅ |};
     wd_uuids := ∅; wd_uploads := ∅; wd_stale := ∅ |}.
Definition demo_works : Io := {| io_ok := true; io_applied := true |}.
Definition demo_new : NewFirmwareRecord :=
  {| nf_version := "1.0.1"; nf_url := ""; nf_sha256 := None; nf_description := None; nf_commit_sha := None; nf_branch := None;
     nf_ci_run_url := None; nf_build_timestamp := None; nf_changelog := None; nf_source := None; nf_blueprint_revision_id := "r1";
     nf_compatibility := Object []; nf_update_strategy := Some "partition_swap" |}.
Definition demo_uuid : string := "00000000-0000-4000-8000-000000000001".
Definition demo_key : string := allocate_key "acme" "../fw.bin" demo_uuid.
Definition demo_put := upload_put (wd_shelf demo_world) demo_admin "../fw.bin" "new firmware" demo_uuid demo_works.
Definition demo_stored : World :=
  {| wd_shelf := demo_put.2; wd_uuids := {[demo_uuid]} ∪ wd_uuids demo_world;
     wd_uploads := match demo_put.1 with Ok key => <[key := "new firmware"]> (wd_uploads demo_world) | Err _ => wd_uploads demo_world end;
     wd_stale := match demo_put.1 with
                 | Ok _ => wd_stale demo_world | Err _ => {[allocate_key (ctx_tenant demo_admin) "../fw.bin" demo_uuid]} ∪ wd_stale demo_world
                 end |}.
Definition demo_recorded := upload_record "local" (wd_shelf demo_stored) demo_admin (with_sha demo_new (digest_text "new firmware"))
  demo_key "../fw.bin" "new firmware" 1 2.
Definition demo_uploaded : World :=
  {| wd_shelf := demo_recorded.2; wd_uuids := wd_uuids demo_stored; wd_uploads := delete demo_key (wd_uploads demo_stored);
     wd_stale := match demo_recorded.1 with Ok _ => wd_stale demo_stored | Err _ => {[demo_key]} ∪ wd_stale demo_stored end |}.
Definition demo_sign (g : FirmwareDownloadGrant) : result ApplicationError string := Ok "token".
Definition demo_deploy := deploy (wd_shelf demo_uploaded) demo_admin "device-1" 1 "https://hub.test/" 0 demo_sign 3 4.
Definition demo_deployed : World := with_shelf demo_uploaded demo_deploy.2.
Definition demo_delete := delete_row (wd_shelf demo_deployed) demo_admin 1.
Definition demo_refused : World :=
  {| wd_shelf := demo_delete.2; wd_uuids := wd_uuids demo_deployed; wd_uploads := wd_uploads demo_deployed;
     wd_stale := match demo_delete.1 with
                 | Ok (Some blob) => if storage_backend blob =s? "local" then {[storage_key blob]} ∪ wd_stale demo_deployed else wd_stale demo_deployed
                 | _ => wd_stale demo_deployed
                 end |}.
Example demo_delete_refused : demo_delete.1 = Err (Persistence foreign_key_violation).
Proof. vm_compute. reflexivity. Qed.
Lemma demo_start : start "local" demo_world.
Proof. split_and!; [done..|]. intros id b H. by apply (lookup_empty_Some id b) in H. Qed.
Lemma demo_upload_run : rtc (firmware_step "local") demo_world demo_uploaded.
Proof.
  eapply rtc_l; [|apply rtc_once].
  - apply (step_put "local" demo_world demo_admin "../fw.bin" "new firmware" demo_uuid demo_works demo_put.1 demo_put.2); [reflexivity|set_solver|apply surjective_pairing].
  - apply (step_record "local" demo_stored demo_admin demo_new demo_key "../fw.bin" "new firmware" 1 2 demo_recorded.1 demo_recorded.2);
      [vm_compute; reflexivity|apply surjective_pairing].
Qed.
Lemma demo_refused_run : rtc (firmware_step "local") demo_deployed demo_refused.
Proof. apply rtc_once, (step_delete "local" demo_deployed demo_admin 1 demo_delete.1 demo_delete.2), surjective_pairing. Qed.
Lemma demo_blob :
  exists b, blob_row (sh_store (wd_shelf demo_uploaded)) "acme" 1 = Some b /\ bl_backend b = "local"
    /\ sh_objects (wd_shelf demo_uploaded) !! bl_key b = Some "new firmware" /\ bl_filename b = "../fw.bin".
Proof. eexists. split; [vm_compute; reflexivity|]. split_and!; vm_compute; reflexivity. Qed.
Lemma demo_answer : exists dl v, demo_deploy = (Ok (dl, v), demo_deploy.2).
Proof. eexists _, _. vm_compute. reflexivity. Qed.
Lemma deployed_firmware_stable_witness :
  download_granted "local" (wd_shelf demo_deployed) (wd_shelf demo_refused) {| vd_tenant := "acme"; vd_firmware_id := 1 |} demo_works
  = Ok {| dl_data := "new firmware"; dl_filename := "../fw.bin"; dl_size := 12 |}.
Proof.
  destruct demo_blob as (b & Hb & Hk & Ho & Hf). destruct demo_answer as (dl & v & Hd).
  destruct (deployed_firmware_stable "local" demo_world demo_uploaded demo_deployed demo_refused demo_admin "device-1" 1 "https://hub.test/" 0
    demo_sign 3 4 dl v demo_deploy.2 b "new firmware" demo_works demo_start demo_upload_run Hd Hb Hk Ho (rtc_refl _ _) demo_refused_run) as [_ H].
  rewrite Hf in H. apply H; reflexivity.
Defined.
