(* ===== verification/UrlPolicy.v ===== *)
(** * Public targets and HTTP errors (crates/backend/src/security.rs, error.rs,
    outbound/webhook.rs)

    Which addresses a server-side request may reach: the policy on URLs and
    resolved addresses, the webhook sender that pins what it validated, and the
    error responses of the HTTP host. *)
From S2P Require Import Prelude Text Json Errors RateLimit.
From Stdlib Require Import Ascii.

Local Open Scope Z_scope.
Import Net.

(** ** Errors of the HTTP host *)
Inductive AppError :=
| HNotFound (message : string) | HConflict (message : string) | BadRequest (message : string)
| UnprocessableEntity (message : string) | HUnauthorized | HForbidden (message : string) | TooManyRequests
| Auth (message : string) | HPersistence (error : PersistenceError) | Application (error : ApplicationError)
| Serialization (message : string) | ZenohError (message : string) | HInternal (message : string).
Definition app_error_text (e : AppError) : string :=
  match e with
  | HNotFound m => "Resource not found: " +:+ m
  | HConflict m => "Conflict: " +:+ m
  | BadRequest m => "Bad request: " +:+ m
  | UnprocessableEntity m => "Unprocessable entity: " +:+ m
  | HUnauthorized => "Unauthorized"
  | HForbidden m => "Forbidden: " +:+ m
  | TooManyRequests => "Too many requests"
  | Auth m => "Authentication error: " +:+ m
  | HPersistence p => "Persistence error: " +:+ persistence_text p
  | Application a => "Application error: " +:+ application_text a
  | Serialization m => "Serialization error: " +:+ m
  | ZenohError m => "Zenoh error: " +:+ m
  | HInternal m => "Internal error: " +:+ m
  end.
Record ErrorBody := { eb_code : string; eb_message : string; eb_error : string; eb_request_id : string; eb_details : option value }.
Definition persistence_response (e : PersistenceError) : Z * string * string :=
  match e with
  | PNotFound => (404, "not_found", "Resource not found")
  | UniqueViolation _ | ForeignKeyViolation _ | CheckViolation _ => (409, "conflict", "The request conflicts with existing data")
  | Busy _ | Unavailable _ => (503, "service_unavailable", "Service temporarily unavailable")
  | _ => (500, "database_error", "Internal server error")
  end.
Definition response_parts (e : AppError) : Z * string * string :=
  match e with
  | HNotFound m | Application (NotFound m) => (404, "not_found", m)
  | HConflict m | Application (Conflict m) => (409, "conflict", m)
  | BadRequest m | Application (InvalidInput m) => (400, "bad_request", m)
  | UnprocessableEntity m | Application (InvalidOperation m) => (422, "unprocessable_entity", m)
  | HUnauthorized | Application Unauthorized => (401, "unauthorized", "Unauthorized")
  | HForbidden m | Application (Forbidden m) => (403, "forbidden", m)
  | TooManyRequests => (429, "too_many_requests", "Too many requests")
  | Auth _ | Application (Authentication _) => (500, "authentication_error", "Authentication error")
  | HPersistence p | Application (Persistence p) => persistence_response p
  | Application (Internal _) | HInternal _ => (500, "internal_error", "Internal server error")
  | Serialization _ => (500, "serialization_error", "Internal server error")
  | ZenohError _ | Application (DeviceCommunication _) => (502, "device_communication_error", "Device communication failed")
  end.
Definition into_response (request_id : string) (e : AppError) : Z * ErrorBody :=
  let '(status, code, message) := response_parts e in
  (status, {| eb_code := code; eb_message := message; eb_error := message; eb_request_id := request_id; eb_details := None |}).
(** The text of an error that is not meant for the client. *)
Definition erase_persistence (e : PersistenceError) : PersistenceError :=
  match e with
  | UniqueViolation _ => UniqueViolation "" | ForeignKeyViolation _ => ForeignKeyViolation "" | CheckViolation _ => CheckViolation ""
  | Busy _ => Busy None | Unavailable _ => Unavailable "" | CorruptData _ => CorruptData "" | PInternal _ => PInternal ""
  | other => other
  end.
Definition erase (e : AppError) : AppError :=
  match e with
  | Auth _ => Auth "" | HPersistence p => HPersistence (erase_persistence p) | Serialization _ => Serialization ""
  | ZenohError _ => ZenohError "" | HInternal _ => HInternal ""
  | Application (Authentication _) => Application (Authentication "")
  | Application (Persistence p) => Application (Persistence (erase_persistence p))
  | Application (Internal _) => Application (Internal "")
  | Application (DeviceCommunication _) => Application (DeviceCommunication "")
  | other => other
  end.
(** Responses do not depend on internal texts. *)
Theorem responses_disclose_nothing request_id e e' : erase e = erase e' -> into_response request_id e = into_response request_id e'.
Proof.
  assert (forall x, into_response request_id x = into_response request_id (erase x)) as H
    by (by intros [| | | | | | | |[]|[| | | | | | | |[]|]| | |]).
  intros E. by rewrite H, E, <- H.
Qed.

(** ** Addresses *)
Definition octet (a i : Z) : Z := Z.land (Z.shiftr a (8 * (3 - i))) 255.
Definition segment (a i : Z) : Z := Z.land (Z.shiftr a (16 * (7 - i))) 65535.
Definition within (lo hi z : Z) : bool := (lo <=? z) && (z <=? hi).
(** [Ipv4Addr] of the standard library. *)
Definition is_private (a : Z) : bool :=
  (octet a 0 =? 10) || ((octet a 0 =? 172) && within 16 31 (octet a 1)) || ((octet a 0 =? 192) && (octet a 1 =? 168)).
Definition is_loopback_v4 (a : Z) : bool := octet a 0 =? 127.
Definition is_link_local_v4 (a : Z) : bool := (octet a 0 =? 169) && (octet a 1 =? 254).
Definition is_multicast_v4 (a : Z) : bool := within 224 239 (octet a 0).
Definition is_blocked_ipv4 (a : Z) : bool :=
  is_private a || is_loopback_v4 a || is_link_local_v4 a || (a =? 0) || (a =? 2 ^ 32 - 1) || is_multicast_v4 a
  || (octet a 0 =? 0) || (octet a 0 =? 10) || ((octet a 0 =? 100) && within 64 127 (octet a 1))
  || ((octet a 0 =? 169) && (octet a 1 =? 254)) || ((octet a 0 =? 172) && within 16 31 (octet a 1))
  || ((octet a 0 =? 192) && (octet a 1 =? 168)) || ((octet a 0 =? 192) && (octet a 1 =? 0) && (octet a 2 =? 0))
  || ((octet a 0 =? 198) && within 18 19 (octet a 1)) || (224 <=? octet a 0).
Definition is_blocked_ipv6 (a : Z) : bool :=
  (a =? 1) || (a =? 0) || (Z.land (segment a 0) 65280 =? 65280) || (Z.land (segment a 0) 65024 =? 64512)
  || (Z.land (segment a 0) 65472 =? 65152).
(** Mapped and compatible IPv6 addresses are the IPv4 address in them. *)
Definition normalize_ip (ip : IpAddr) : IpAddr :=
  match ip with
  | V4 _ => ip
  | V6 a =>
    if forallb (fun i => segment a i =? 0) [0; 1; 2; 3; 4] && ((segment a 5 =? 0) || (segment a 5 =? 65535))
    then V4 (((segment a 6 / 256 * 256 + segment a 6 mod 256) * 256 + segment a 7 / 256) * 256 + segment a 7 mod 256)
    else V6 a
  end.
Definition is_blocked_ip (ip : IpAddr) : bool :=
  match normalize_ip ip with V4 a => is_blocked_ipv4 a | V6 a => is_blocked_ipv6 a end.
Record SocketAddr := { sa_ip : IpAddr; sa_port : Z }.
#[global] Instance SocketAddr_eq_dec : EqDecision SocketAddr.
Proof. solve_decision. Defined.
Definition normalize_socket_addr (a : SocketAddr) : SocketAddr := {| sa_ip := normalize_ip (sa_ip a); sa_port := sa_port a |}.
Fixpoint collect_addrs (host : string) (acc resolved : list SocketAddr) : result string (list SocketAddr) :=
  match resolved with
  | [] => Ok acc
  | a :: rest =>
    let a := normalize_socket_addr a in
    if is_blocked_ip (sa_ip a)
    then Err ("webhook host " +:+ host +:+ " resolves to a private, loopback, or link-local address")
    else collect_addrs host (if bool_decide (a ∈ acc) then acc else acc ++ [a]) rest
  end.
Definition validate_resolved_addrs (host : string) (resolved : list SocketAddr) : result string (list SocketAddr) :=
  addrs ← collect_addrs host [] resolved;
  match addrs with
  | [] => Err ("webhook host " +:+ host +:+ " did not resolve to any address")
  | _ => Ok addrs
  end.

(** ** URLs

    Parsing a URL is the [url] crate's, name resolution and the request
    itself the host's.  [url_port] is the port with the scheme's default for
    none, and a resolution that fails gives its error text. *)
Record Url := { url_scheme : string; url_host : option string; url_port : option Z }.
Class WebHost := {
  url_parse : string -> option Url;
  lookup_host : string -> Z -> result string (list SocketAddr);
}.
Record PinnedRequest := {
  pr_url : string; pr_host : string; pr_addrs : list SocketAddr; pr_headers : list (string * string); pr_payload : value;
}.
Section urls.
Context `{!WebHost}.
Definition validate_public_https_url (raw_url field_name : string) : result AppError Url :=
  url ← ok_or (url_parse raw_url) (BadRequest (field_name +:+ " must be a valid HTTPS URL"));
  if url_scheme url !=s "https" then Err (BadRequest (field_name +:+ " must use https://")) else
  host ← ok_or (url_host url) (BadRequest (field_name +:+ " must include a host"));
  match parse (trim_end_matches "]" (trim_start_matches "[" host)) with
  | Some ip => if is_blocked_ip ip
               then Err (BadRequest (field_name +:+ " must not target private, loopback, or link-local addresses"))
               else Ok url
  | None => Ok url
  end.
Definition validate_resolved_public_target (url : Url) : result string (list SocketAddr) :=
  host ← ok_or (url_host url) "webhook URL must include a host";
  resolved ← map_err (fun e => "failed to resolve webhook host " +:+ host +:+ ": " +:+ e)
               (lookup_host host (default 443 (url_port url)));
  validate_resolved_addrs host resolved.
(** [HttpWebhookSender::send]: the request it gives to an HTTP client, if any,
    with the addresses the client is pinned to and no redirects.  [transport] is
    that client, all of reqwest: building it, its checks of the headers and the
    exchange; the status of the response and its text, or the error of the first
    of these that fails, which [send] passes on as its text. *)
Definition webhook_request (url : string) (headers : list (string * string)) (payload : value) (delivery_id : string)
    : result string PinnedRequest :=
  parsed ← map_err app_error_text (validate_public_https_url url "webhook url");
  addrs ← validate_resolved_public_target parsed;
  host ← ok_or (url_host parsed) "webhook url must include a host";
  Ok {| pr_url := url; pr_host := host; pr_addrs := addrs;
        pr_headers := headers ++ [("Idempotency-Key", delivery_id); ("X-Extrittio-Event-ID", delivery_id)]; pr_payload := payload |}.
Definition send_webhook (transport : PinnedRequest -> result string (Z * string)) (url : string) (headers : list (string * string)) (payload : value)
    (delivery_id : string) : result string unit * list PinnedRequest :=
  match webhook_request url headers payload delivery_id with
  | Err e => (Err e, [])
  | Ok r =>
    ('(status, text) ← transport r;
     if within 200 299 status then Ok tt else Err ("webhook to " +:+ url +:+ " returned status " +:+ text), [r])
  end.
(** [PublicWebhookUrlPolicy::validate]. *)
Definition webhook_policy (url : string) : result ApplicationError unit :=
  match validate_public_https_url url "webhook url" with
  | Ok _ => Ok tt
  | Err (BadRequest m) => Err (InvalidInput m)
  | Err other => Err (Internal (app_error_text other))
  end.
End urls.

(** ** Blocked networks *)
(** 0/8, 10/8, 100.64/10, 127/8, 169.254/16, 172.16/12, 192.0.0/24, 192.168/16, 198.18/15, 224/4 and 240/4. *)
Definition BLOCKED_V4 : list (Z * Z) :=
  [(0, 8); (10 * 2 ^ 24, 8); (100 * 2 ^ 24 + 64 * 2 ^ 16, 10); (127 * 2 ^ 24, 8); (169 * 2 ^ 24 + 254 * 2 ^ 16, 16);
   (172 * 2 ^ 24 + 16 * 2 ^ 16, 12); (192 * 2 ^ 24, 24); (192 * 2 ^ 24 + 168 * 2 ^ 16, 16);
   (198 * 2 ^ 24 + 18 * 2 ^ 16, 15); (224 * 2 ^ 24, 4); (240 * 2 ^ 24, 4)].
(** ff00::/8, fc00::/7 and fe80::/10. *)
Definition BLOCKED_V6 : list (Z * Z) := [(65280 * 2 ^ 112, 8); (64512 * 2 ^ 112, 7); (65152 * 2 ^ 112, 10)].
(** The leading bits of an address are those of the network. *)
Definition in_prefix (w a : Z) (n : Z * Z) : Prop := a / 2 ^ (w - n.2) = n.1 / 2 ^ (w - n.2).
(** An address the policy is meant to refuse, also as the IPv4 address in an
    IPv6 address of ::/96 or ::ffff:0:0/96. *)
Inductive internal_address : IpAddr -> Prop :=
| internal_v4 a n : n ∈ BLOCKED_V4 -> in_prefix 32 a n -> internal_address (V4 a)
| internal_mapped a n : a / 2 ^ 32 = 0 \/ a / 2 ^ 32 = 65535 -> n ∈ BLOCKED_V4 -> in_prefix 32 (a mod 2 ^ 32) n -> internal_address (V6 a)
| internal_v6 a n : n ∈ BLOCKED_V6 -> in_prefix 128 a n -> internal_address (V6 a).

Lemma octet_div a i : 0 <= i <= 3 -> octet a i = a / 2 ^ (8 * (3 - i)) mod 256.
Proof. intros Hi. unfold octet. rewrite Z.shiftr_div_pow2 by lia. change 255 with (Z.ones 8). by rewrite Z.land_ones by lia. Qed.
Lemma segment_div a i : 0 <= i <= 7 -> segment a i = a / 2 ^ (16 * (7 - i)) mod 65536.
Proof. intros Hi. unfold segment. rewrite Z.shiftr_div_pow2 by lia. change 65535 with (Z.ones 16). by rewrite Z.land_ones by lia. Qed.
Lemma div_interval a d c : 0 < d -> a / d = c <-> c * d <= a < (c + 1) * d.
Proof. intros Hd. pose proof (Z.div_mod a d ltac:(lia)). pose proof (Z.mod_pos_bound a d Hd). split; intros H1; nia. Qed.
(** An IPv4 address by its octets. *)
Lemma octets_of a : 0 <= a < 2 ^ 32 ->
  exists o0 o1 o2 o3, a = o0 * 2 ^ 24 + o1 * 2 ^ 16 + o2 * 2 ^ 8 + o3 /\ 0 <= o0 < 256 /\ 0 <= o1 < 256 /\ 0 <= o2 < 256 /\ 0 <= o3 < 256
    /\ octet a 0 = o0 /\ octet a 1 = o1 /\ octet a 2 = o2.
Proof.
  intros Ha. rewrite !octet_div by lia. change (8 * (3 - 0)) with 24. change (8 * (3 - 1)) with 16. change (8 * (3 - 2)) with 8.
  replace (a / 2 ^ 24) with (a / 256 / 256 / 256) by (by rewrite !Z.div_div).
  replace (a / 2 ^ 16) with (a / 256 / 256) by (by rewrite !Z.div_div). change (2 ^ 8) with 256.
  set (x := a / 256). set (y := x / 256). set (z := y / 256).
  pose proof (Z.div_mod a 256 ltac:(lia)) as E1. pose proof (Z.div_mod x 256 ltac:(lia)) as E2. pose proof (Z.div_mod y 256 ltac:(lia)) as E3.
  pose proof (Z.mod_pos_bound a 256 ltac:(lia)). pose proof (Z.mod_pos_bound x 256 ltac:(lia)). pose proof (Z.mod_pos_bound y 256 ltac:(lia)).
  fold x in E1. fold y in E2. fold z in E3. exists z, (y mod 256), (x mod 256), (a mod 256).
  assert (0 <= z < 256) by lia. rewrite (Z.mod_small z) by lia. split_and!; lia.
Qed.
(** The refused IPv4 addresses, as ranges of octets. *)
Lemma blocked_v4_octets o0 o1 o2 o3 a :
  a = o0 * 2 ^ 24 + o1 * 2 ^ 16 + o2 * 2 ^ 8 + o3 -> 0 <= o0 < 256 -> 0 <= o1 < 256 -> 0 <= o2 < 256 -> 0 <= o3 < 256 ->
  octet a 0 = o0 -> octet a 1 = o1 -> octet a 2 = o2 ->
  is_blocked_ipv4 a = true
  <-> o0 = 0 \/ o0 = 10 \/ (o0 = 100 /\ 64 <= o1 <= 127) \/ o0 = 127 \/ (o0 = 169 /\ o1 = 254) \/ (o0 = 172 /\ 16 <= o1 <= 31)
      \/ (o0 = 192 /\ o1 = 0 /\ o2 = 0) \/ (o0 = 192 /\ o1 = 168) \/ (o0 = 198 /\ 18 <= o1 <= 19) \/ 224 <= o0.
Proof.
  intros Ea H0 H1 H2 H3 E0 E1 E2. unfold is_blocked_ipv4, is_private, is_loopback_v4, is_link_local_v4, is_multicast_v4, within.
  rewrite E0, E1, E2. rewrite !orb_true_iff, !andb_true_iff, !Z.eqb_eq, !Z.leb_le. split.
  - intros H. repeat destruct H as [H|H]; lia.
  - intros H. repeat destruct H as [H|H]; tauto.
Qed.
Lemma blocked_v4_ranges a :
  (exists n, n ∈ BLOCKED_V4 /\ in_prefix 32 a n)
  <-> 0 <= a < 16777216 \/ 167772160 <= a < 184549376 \/ 1681915904 <= a < 1686110208 \/ 2130706432 <= a < 2147483648
      \/ 2851995648 <= a < 2852061184 \/ 2886729728 <= a < 2887778304 \/ 3221225472 <= a < 3221225728
      \/ 3232235520 <= a < 3232301056 \/ 3323068416 <= a < 3323199488 \/ 3758096384 <= a < 4026531840
      \/ 4026531840 <= a < 4294967296 \/ False.
Proof.
  transitivity (Exists (in_prefix 32 a) BLOCKED_V4); [by rewrite Exists_exists|].
  unfold BLOCKED_V4. rewrite !Exists_cons, Exists_nil. unfold in_prefix. cbn [fst snd].
  rewrite !div_interval by reflexivity. reflexivity.
Qed.
(** The disjunct that holds. *)
Ltac pick := first [left; lia | right; pick | lia].
Lemma blocked_v4_exact a : 0 <= a < 2 ^ 32 -> is_blocked_ipv4 a = true <-> exists n, n ∈ BLOCKED_V4 /\ in_prefix 32 a n.
Proof.
  intros Ha. destruct (octets_of a Ha) as (o0 & o1 & o2 & o3 & Ea & H0 & H1 & H2 & H3 & E0 & E1 & E2).
  rewrite (blocked_v4_octets o0 o1 o2 o3 a Ea H0 H1 H2 H3 E0 E1 E2), blocked_v4_ranges. clear E0 E1 E2. split.
  - intros H. repeat destruct H as [H|H]; pick.
  - intros H. repeat destruct H as [H|H]; try pick; done.
Qed.
(** IPv6 addresses. *)
Lemma land_high w k x : 0 <= k <= w -> 0 <= x < 2 ^ w -> Z.land x (Z.shiftl (Z.ones (w - k)) k) = x / 2 ^ k * 2 ^ k.
Proof.
  intros Hk Hx. rewrite <- Z.shiftr_div_pow2, <- Z.shiftl_mul_pow2 by lia. apply Z.bits_inj'. intros n Hn.
  rewrite Z.land_spec, !Z.shiftl_spec by done. destruct (Z.lt_ge_cases n k).
  - rewrite !(Z.testbit_neg_r _ (n - k)) by lia. apply andb_false_r.
  - rewrite Z.shiftr_spec by lia. replace (n - k + k) with n by lia. rewrite Z.testbit_ones by lia.
    destruct (Z.ltb_spec (n - k) (w - k)) as [Hlt|Hge].
    + replace (0 <=? n - k) with true by (symmetry; apply Z.leb_le; lia). by rewrite andb_true_r.
    + rewrite !andb_false_r. symmetry. rewrite <- (Z.mod_small x (2 ^ w)) by done. apply Z.mod_pow2_bits_high. lia.
Qed.
Lemma blocked_v6_ranges a : 0 <= a < 2 ^ 128 -> 65536 <= a / 2 ^ 32 \/ 0 < a / 2 ^ 32 < 65535 ->
  is_blocked_ipv6 a = true <-> exists n, n ∈ BLOCKED_V6 /\ in_prefix 128 a n.
Proof.
  intros Ha Hhi. transitivity (Exists (in_prefix 128 a) BLOCKED_V6); [|by rewrite Exists_exists].
  unfold BLOCKED_V6. rewrite !Exists_cons, Exists_nil. unfold in_prefix, is_blocked_ipv6. cbn [fst snd].
  rewrite segment_div by lia. change (16 * (7 - 0)) with 112. set (x := a / 2 ^ 112).
  assert (0 <= x < 2 ^ 16) as Hx by (split; [apply Z.div_pos; lia|apply Z.div_lt_upper_bound; lia]).
  change 65536 with (2 ^ 16). rewrite (Z.mod_small x) by done.
  change 65280 with (Z.shiftl (Z.ones (16 - 8)) 8) at 1. change 65024 with (Z.shiftl (Z.ones (16 - 9)) 9).
  change 65472 with (Z.shiftl (Z.ones (16 - 6)) 6). rewrite !land_high by (done || lia).
  replace (a / 2 ^ (128 - 8)) with (x / 2 ^ 8) by (unfold x; by rewrite Z.div_div).
  replace (a / 2 ^ (128 - 7)) with (x / 2 ^ 9) by (unfold x; by rewrite Z.div_div).
  replace (a / 2 ^ (128 - 10)) with (x / 2 ^ 6) by (unfold x; by rewrite Z.div_div).
  change (65280 * 2 ^ 112 / 2 ^ (128 - 8)) with 255. change (64512 * 2 ^ 112 / 2 ^ (128 - 7)) with 126.
  change (65152 * 2 ^ 112 / 2 ^ (128 - 10)) with 1018.
  assert (a <> 1 /\ a <> 0) as [H1 H0] by (split; intros ->; vm_compute in Hhi; destruct Hhi as [Hh|[Hh Hh']]; done || by destruct Hh).
  rewrite !orb_true_iff, !Z.eqb_eq. split.
  - intros [[[[?|?]|E]|E]|E]; [done|done|left|right; left|right; right; left]; nia.
  - intros [E|[E|[E|[]]]]; [left; left; right|left; right|right]; by rewrite E.
Qed.
Lemma normalized_v6 a : 0 <= a < 2 ^ 128 ->
  normalize_ip (V6 a) = if (a / 2 ^ 32 =? 0) || (a / 2 ^ 32 =? 65535) then V4 (a mod 2 ^ 32) else V6 a.
Proof.
  intros Ha. unfold normalize_ip. cbn [forallb]. rewrite !segment_div by lia.
  change (16 * (7 - 0)) with 112. change (16 * (7 - 1)) with 96. change (16 * (7 - 2)) with 80. change (16 * (7 - 3)) with 64.
  change (16 * (7 - 4)) with 48. change (16 * (7 - 5)) with 32. change (16 * (7 - 6)) with 16. change (2 ^ (16 * (7 - 7))) with 1.
  rewrite Z.div_1_r. set (h := a / 2 ^ 32).
  replace (a / 2 ^ 48) with (h / 65536) by (unfold h; by rewrite Z.div_div). set (h1 := h / 65536).
  replace (a / 2 ^ 64) with (h1 / 65536) by (unfold h1, h; by rewrite !Z.div_div). set (h2 := h1 / 65536).
  replace (a / 2 ^ 80) with (h2 / 65536) by (unfold h2, h1, h; by rewrite !Z.div_div). set (h3 := h2 / 65536).
  replace (a / 2 ^ 96) with (h3 / 65536) by (unfold h3, h2, h1, h; by rewrite !Z.div_div). set (h4 := h3 / 65536).
  replace (a / 2 ^ 112) with (h4 / 65536) by (unfold h4, h3, h2, h1, h; by rewrite !Z.div_div). set (h5 := h4 / 65536).
  assert (0 <= h5 < 65536) as H5.
  { unfold h5, h4, h3, h2, h1, h. rewrite !Z.div_div by lia. split; [apply Z.div_pos; lia|apply Z.div_lt_upper_bound; lia]. }
  pose proof (Z.div_mod h 65536 ltac:(lia)) as D0. pose proof (Z.div_mod h1 65536 ltac:(lia)) as D1.
  pose proof (Z.div_mod h2 65536 ltac:(lia)) as D2. pose proof (Z.div_mod h3 65536 ltac:(lia)) as D3.
  pose proof (Z.div_mod h4 65536 ltac:(lia)) as D4. fold h1 in D0. fold h2 in D1. fold h3 in D2. fold h4 in D3. fold h5 in D4.
  rewrite (Z.mod_small h5) by done. pose proof (Z.mod_pos_bound h 65536 ltac:(lia)). pose proof (Z.mod_pos_bound h1 65536 ltac:(lia)).
  pose proof (Z.mod_pos_bound h2 65536 ltac:(lia)). pose proof (Z.mod_pos_bound h3 65536 ltac:(lia)). pose proof (Z.mod_pos_bound h4 65536 ltac:(lia)).
  match goal with |- (if ?x then _ else _) = (if ?y then _ else _) => assert (x = y) as -> end.
  { apply eq_true_iff_eq. rewrite !andb_true_iff, !orb_true_iff, !Z.eqb_eq. split; [intros ((E5 & E4 & E3 & E2 & E1 & _) & E); lia|].
    intros E. assert (h5 = 0 /\ h4 = 0 /\ h3 = 0 /\ h2 = 0 /\ h1 = 0) as (E5 & E4 & E3 & E2 & E1) by lia.
    rewrite E1, E2, E3, E4, E5. split_and!; try done. lia. }
  destruct (_ || _); [|done]. f_equal.
  assert (forall y, y / 256 * 256 + y mod 256 = y) as H256 by (intros y; pose proof (Z.div_mod y 256); lia).
  set (s6 := a / 2 ^ 16 mod 65536). set (s7 := a mod 65536). rewrite H256.
  replace ((s6 * 256 + s7 / 256) * 256 + s7 mod 256) with (s6 * 65536 + (s7 / 256 * 256 + s7 mod 256)) by lia. rewrite H256. unfold s6, s7.
  change (2 ^ 32) with (65536 * 65536). rewrite Z.rem_mul_r by lia. change (2 ^ 16) with 65536. lia.
Qed.
Lemma blocked_exact ip : wf ip -> is_blocked_ip ip = true <-> internal_address ip.
Proof.
  unfold is_blocked_ip. destruct ip as [a|a]; unfold wf; cbn [bits width]; intros Ha.
  - simpl. rewrite (blocked_v4_exact a Ha). split; [intros (n & Hn & H); by econstructor|]. inversion 1; subst; eauto.
  - rewrite (normalized_v6 a Ha). assert (0 <= a mod 2 ^ 32 < 2 ^ 32) as Hm by (apply Z.mod_pos_bound; lia).
    assert (0 <= a / 2 ^ 32) as Hd by (apply Z.div_pos; lia).
    destruct ((a / 2 ^ 32 =? 0) || (a / 2 ^ 32 =? 65535)) eqn:E.
    + apply orb_true_iff in E. rewrite !Z.eqb_eq in E. rewrite (blocked_v4_exact _ Hm). split.
      * intros (n & Hn & H). by eapply internal_mapped.
      * inversion 1 as [| |? n Hn Hp]; subst; [eauto|]. exfalso. unfold BLOCKED_V6, in_prefix in *.
        assert (a < 2 ^ 48) by (pose proof (Z.div_mod a (2 ^ 32) ltac:(lia)); lia).
        assert (a / 2 ^ (128 - n.2) = 0) as E0.
        { apply Z.div_small. split; [lia|]. rewrite !elem_of_cons, elem_of_nil in Hn. destruct Hn as [->|[->|[->|[]]]]; simpl in *; lia. }
        rewrite E0 in Hp. rewrite !elem_of_cons, elem_of_nil in Hn. destruct Hn as [->|[->|[->|[]]]]; vm_compute in Hp; done.
    + apply orb_false_iff in E. rewrite !Z.eqb_neq in E. rewrite (blocked_v6_ranges a Ha) by lia. split.
      * intros (n & Hn & H). by eapply internal_v6.
      * inversion 1; subst; [lia|eauto].
Qed.

(** ** Targets *)
Lemma normalize_idem ip : normalize_ip (normalize_ip ip) = normalize_ip ip.
Proof. destruct ip as [a|a]; [done|]. unfold normalize_ip at 2 3. destruct (forallb _ _ && _) eqn:E; [done|]. unfold normalize_ip. by rewrite E. Qed.
Lemma normalize_wf ip : wf ip -> wf (normalize_ip ip).
Proof.
  destruct ip as [a|a]; [done|]. intros Ha. rewrite (normalized_v6 a Ha). destruct (_ || _); [|done].
  unfold wf. cbn [bits width]. apply Z.mod_pos_bound. lia.
Qed.
Lemma blocked_normalized ip : is_blocked_ip (normalize_ip ip) = is_blocked_ip ip.
Proof. unfold is_blocked_ip. by rewrite normalize_idem. Qed.
Lemma not_blocked ip : wf ip -> is_blocked_ip ip = false <-> ~ internal_address ip.
Proof. intros H. rewrite <- (blocked_exact ip H). by rewrite not_true_iff_false. Qed.
(** What the loop over the resolved addresses collects. *)
Lemma collect_addrs_ok host resolved : forall acc addrs, NoDup acc -> collect_addrs host acc resolved = Ok addrs ->
  NoDup addrs /\ Forall (fun a => is_blocked_ip (sa_ip a) = false) resolved
  /\ forall a, a ∈ addrs <-> a ∈ acc \/ a ∈ map normalize_socket_addr resolved.
Proof.
  induction resolved as [|a rest IH]; intros acc addrs Hn; cbn [collect_addrs].
  - intros [= <-]. split_and!; [done|constructor|]. intros a. cbn [map]. rewrite elem_of_nil. tauto.
  - destruct (is_blocked_ip _) eqn:E; [done|]. intros H. cbn [normalize_socket_addr sa_ip] in E. rewrite blocked_normalized in E.
    set (n := normalize_socket_addr a) in *. cbn [map]. fold n.
    assert (NoDup (if bool_decide (n ∈ acc) then acc else acc ++ [n])
            /\ forall b, b ∈ (if bool_decide (n ∈ acc) then acc else acc ++ [n]) <-> b ∈ acc \/ b = n) as [Hn' Hm].
    { case_bool_decide as Ha; [split; [done|naive_solver]|]. split.
      - apply NoDup_app. split_and!; [done| |apply NoDup_singleton]. intros b Hb ->%list_elem_of_singleton. done.
      - intros b. by rewrite elem_of_app, list_elem_of_singleton. }
    apply IH in H as (? & ? & H); [|done]. split_and!; [done|by constructor|]. intros b. rewrite H, Hm, elem_of_cons. tauto.
Qed.
Lemma collect_addrs_err host resolved e : forall acc, collect_addrs host acc resolved = Err e ->
  Exists (fun a => is_blocked_ip (sa_ip a) = true) resolved.
Proof.
  induction resolved as [|a rest IH]; intros acc; cbn [collect_addrs]; [done|].
  cbn [normalize_socket_addr sa_ip]. rewrite blocked_normalized. destruct (is_blocked_ip (sa_ip a)) eqn:E; [by left|].
  intros H. right. by apply IH in H.
Qed.
Lemma resolved_addrs_exact host resolved : Forall (fun a => wf (sa_ip a)) resolved ->
  match validate_resolved_addrs host resolved with
  | Ok addrs => resolved <> [] /\ Forall (fun a => ~ internal_address (sa_ip a)) resolved /\ NoDup addrs
                /\ forall a, a ∈ addrs <-> a ∈ map normalize_socket_addr resolved
  | Err _ => resolved = [] \/ Exists (fun a => internal_address (sa_ip a)) resolved
  end.
Proof.
  intros Hw. unfold validate_resolved_addrs. destruct (collect_addrs host [] resolved) as [addrs|e] eqn:E; cbn.
  - apply collect_addrs_ok in E as (Hn & Hb & Ha); [|constructor].
    assert (forall a, a ∈ addrs <-> a ∈ map normalize_socket_addr resolved) as Ha' by (intros a; rewrite Ha, elem_of_nil; tauto).
    destruct addrs as [|a addrs].
    + left. destruct resolved as [|r resolved]; [done|]. destruct (elem_of_nil (normalize_socket_addr r)) as [[] _].
      apply Ha'. apply list_elem_of_here.
    + split_and!; [|by rewrite Forall_forall in Hw, Hb |- *; intros x Hx; apply not_blocked; auto|done|done].
      intros ->. destruct (elem_of_nil a) as [[] _]. apply Ha', list_elem_of_here.
  - right. apply collect_addrs_err in E. rewrite Exists_exists in E |- *. destruct E as (a & Ha & E). exists a. split; [done|].
    rewrite Forall_forall in Hw. by apply blocked_exact; [apply Hw|].
Qed.

Section targets.
Context `{!WebHost}.
(** The literal address of a URL's host, if it is one. *)
Definition literal_ip (host : string) : option IpAddr := parse (trim_end_matches "]" (trim_start_matches "[" host)).
(** A target outside the internal networks, with the addresses it resolves to. *)
Record public_target (url host : string) (resolved : list SocketAddr) : Prop := {
  pt_url : exists u, url_parse url = Some u /\ url_scheme u = "https" /\ url_host u = Some host
                     /\ lookup_host host (default 443 (url_port u)) = Ok resolved;
  pt_literal : forall ip, literal_ip host = Some ip -> ~ internal_address ip;
  pt_some : resolved <> [];
  pt_public : Forall (fun a => ~ internal_address (sa_ip a)) resolved;
}.
(** A request pinned to a target. *)
Record pinned_to (host : string) (resolved : list SocketAddr) (r : PinnedRequest) : Prop := {
  pin_host : pr_host r = host;
  pin_nodup : NoDup (pr_addrs r);
  pin_addrs : forall a, a ∈ pr_addrs r <-> a ∈ map normalize_socket_addr resolved;
  pin_public : Forall (fun a => ~ internal_address (sa_ip a)) (pr_addrs r);
}.
(** Name resolution gives addresses of the standard library's types. *)
Definition resolves_wf : Prop := forall host port l, lookup_host host port = Ok l -> Forall (fun a => wf (sa_ip a)) l.
Lemma https_url_exact raw field : match validate_public_https_url raw field with
  | Ok u => exists host, url_parse raw = Some u /\ url_scheme u = "https" /\ url_host u = Some host
                         /\ forall ip, literal_ip host = Some ip -> ~ internal_address ip
  | Err _ => forall u host, url_parse raw = Some u -> url_scheme u = "https" -> url_host u = Some host ->
                            exists ip, literal_ip host = Some ip /\ internal_address ip
  end.
Proof.
  unfold validate_public_https_url. destruct (url_parse raw) as [u|] eqn:Eu; cbn; [|naive_solver].
  destruct (String.eqb_spec (url_scheme u) "https") as [Es|Es]; cbn; [|naive_solver].
  destruct (url_host u) as [host|] eqn:Eh; cbn; [|naive_solver]. fold (literal_ip host).
  destruct (literal_ip host) as [ip|] eqn:Ei; [|exists host; naive_solver].
  pose proof (parse_wf _ _ Ei) as Hw. destruct (is_blocked_ip ip) eqn:Eb.
  - intros ?? [= <-] _ Hh. rewrite Eh in Hh. injection Hh as <-. exists ip. split; [done|]. by apply blocked_exact.
  - exists host. split_and!; try done. intros ip' Hi. rewrite Ei in Hi. injection Hi as <-. by apply not_blocked.
Qed.
Lemma pinned_public host resolved r : Forall (fun a => wf (sa_ip a)) resolved -> Forall (fun a => ~ internal_address (sa_ip a)) resolved ->
  (forall a, a ∈ pr_addrs r <-> a ∈ map normalize_socket_addr resolved) -> pr_host r = host -> NoDup (pr_addrs r) -> pinned_to host resolved r.
Proof using.
  intros Hw Hp Ha Hh Hn. split; try done. rewrite Forall_forall in Hw, Hp |- *. intros a (b & -> & Hb)%Ha%list_elem_of_fmap.
  cbn [normalize_socket_addr sa_ip]. apply not_blocked; [by apply normalize_wf, Hw|].
  rewrite blocked_normalized. apply not_blocked; auto.
Qed.
(** C11. A webhook leaves for public targets only: the sender gives a request to
    the HTTP client exactly for an HTTPS URL with a host that is not the literal of an internal
    address and resolves to at least one address and to no internal one; the
    request carries the delivery id twice, and its connection is pinned to the
    resolved addresses, none of them internal, each once. *)
Theorem webhook_targets_public transport url headers payload delivery_id answer requests :
  resolves_wf -> send_webhook transport url headers payload delivery_id = (answer, requests) ->
  (requests <> [] <-> exists host resolved, public_target url host resolved)
  /\ (answer = Ok tt -> requests <> [])
  /\ forall r, r ∈ requests -> requests = [r] /\ pr_url r = url /\ pr_payload r = payload
       /\ pr_headers r = headers ++ [("Idempotency-Key", delivery_id); ("X-Extrittio-Event-ID", delivery_id)]
       /\ exists host resolved, public_target url host resolved /\ pinned_to host resolved r.
Proof.
  intros Hwf. unfold send_webhook, webhook_request, validate_resolved_public_target. pose proof (https_url_exact url "webhook url") as Hu.
  destruct (validate_public_https_url url "webhook url") as [u|e]; cbn.
  2: { intros [= <- <-]. split_and!; [|done|by intros ? ?%elem_of_nil]. split; [done|]. intros (host & resolved & [(u & ? & ? & ? & ?) Hl _ _]).
       destruct (Hu u host) as (ip & ? & ?); try done. by destruct (Hl ip). }
  destruct Hu as (host & Eu & Es & Eh & Hl). rewrite Eh. cbn.
  destruct (lookup_host host (default 443 (url_port u))) as [resolved|e] eqn:El; cbn.
  2: { intros [= <- <-]. split_and!; [|done|by intros ? ?%elem_of_nil]. split; [done|]. intros (host' & resolved & [(u' & ? & ? & ? & ?) _ _ _]).
       congruence. }
  pose proof (Hwf _ _ _ El) as Hw. pose proof (resolved_addrs_exact host resolved Hw) as Hr.
  destruct (validate_resolved_addrs host resolved) as [addrs|e]; cbn.
  2: { intros [= <- <-]. split_and!; [|done|by intros ? ?%elem_of_nil]. split; [done|]. intros (host' & resolved' & [(u' & ? & ? & ? & ?) _ Hs Hp]).
       assert (resolved' = resolved) as -> by congruence. destruct Hr as [?|Hr]; [done|].
       apply Exists_exists in Hr as (a & Ha & Hi). rewrite Forall_forall in Hp. by destruct (Hp a Ha). }
  destruct Hr as (Hs & Hp & Hn & Ha). intros [= <- <-].
  assert (public_target url host resolved) as Ht by (split; eauto 10). split_and!; [split; [eauto|done]|done|].
  intros r ->%list_elem_of_singleton. split_and!; try done. exists host, resolved. split; [done|]. by apply pinned_public.
Qed.
End targets.

(** ** A host of two names *)
Definition v4 (a b c d : Z) : IpAddr := V4 (((a * 256 + b) * 256 + c) * 256 + d).
Definition demo_web : WebHost := {|
  url_parse s := if String.eqb s "https://hooks.example/a" then Some {| url_scheme := "https"; url_host := Some "hooks.example"; url_port := Some 443 |}
                 else if String.eqb s "https://intranet.example/a"
                 then Some {| url_scheme := "https"; url_host := Some "intranet.example"; url_port := Some 443 |} else None;
  lookup_host host port :=
    if String.eqb host "hooks.example" then Ok [{| sa_ip := v4 93 184 216 34; sa_port := port |};
                                                {| sa_ip := V6 (65535 * 2 ^ 32 + 93 * 2 ^ 24 + 184 * 2 ^ 16 + 216 * 2 ^ 8 + 34); sa_port := port |}]
    else Ok [{| sa_ip := v4 93 184 216 34; sa_port := port |}; {| sa_ip := V6 (65535 * 2 ^ 32 + 10 * 2 ^ 24 + 1); sa_port := port |}];
|}.
Lemma demo_resolves_wf : @resolves_wf demo_web.
Proof.
  intros host port l. cbn. destruct (String.eqb host "hooks.example"); intros [= <-];
    repeat constructor; vm_compute; done.
Qed.
Lemma webhook_targets_public_witness :
  (exists r, @send_webhook demo_web (fun _ => Ok (204, "204 No Content")) "https://hooks.example/a" [] Null "d-1" = (Ok tt, [r])
    /\ pr_addrs r = [{| sa_ip := v4 93 184 216 34; sa_port := 443 |}]
    /\ exists host resolved, @public_target demo_web "https://hooks.example/a" host resolved /\ pinned_to host resolved r)
  /\ (forall transport, (@send_webhook demo_web transport "https://intranet.example/a" [] Null "d-2").2 = []
       /\ ~ exists host resolved, @public_target demo_web "https://intranet.example/a" host resolved).
Proof.
  split.
  - eexists. split; [vm_compute; reflexivity|]. split; [reflexivity|].
    refine (proj2 (proj2 (proj2 (proj2 (proj2 (proj2 (@webhook_targets_public demo_web (fun _ => Ok (204, "204 No Content"))
      "https://hooks.example/a" [] Null "d-1" _ _ demo_resolves_wf _)) _ _))))); [vm_compute; reflexivity|apply list_elem_of_here].
  - intros transport. split; [reflexivity|]. intros H.
    refine (proj2 (proj1 (@webhook_targets_public demo_web transport "https://intranet.example/a" [] Null "d-2" _ [] demo_resolves_wf _)) H _);
      [vm_compute; reflexivity|reflexivity].
Defined.
