(* ===== verification/ThreadDataset.v ===== *)
(** * Thread operational datasets (crates/openthread-runtime/src/dataset.rs,
    error.rs and the credentials of types.rs)

    The configuration of a Thread network is a sequence of type-length-value
    entries, exchanged as hexadecimal text.  This file models its decoding, the
    validation of an imported dataset and of the parameters of a new network. *)
From S2P Require Import Prelude Text.
From Stdlib Require Import Ascii.

Local Open Scope Z_scope.

(** ** Errors

    A D-Bus error carries the name of the method error it is, if any. *)
Inductive OpenThreadError :=
| TUnavailable (message : string) | TInvalidConfiguration (message : string) | TInvalidDataset (message : string)
| TDiscovery (message : string) | TProcess (message : string) | TControl (message : string)
| TInvalidResponse (message : string) | NetworkChanged
| FileSystem (operation path source : string) | Http (source : string)
| Dbus (method_error : option string) (source : string) | DbusProperty (source : string).
Definition openthread_text (e : OpenThreadError) : string :=
  match e with
  | TUnavailable m => "The local OpenThread border router is unavailable: " +:+ m
  | TInvalidConfiguration m => "Invalid OpenThread configuration: " +:+ m
  | TInvalidDataset m => "Invalid Thread operational dataset: " +:+ m
  | TDiscovery m => "Unable to discover OpenThread runtime components: " +:+ m
  | TProcess m => "OpenThread process failure: " +:+ m
  | TControl m => "OpenThread control request failed: " +:+ m
  | TInvalidResponse m => "OpenThread returned an invalid response: " +:+ m
  | NetworkChanged => "The Thread network changed while the operation was running"
  | FileSystem operation path source => operation +:+ " at " +:+ path +:+ ": " +:+ source
  | Http source => "OpenThread HTTP request failed: " +:+ source
  | Dbus _ source => "OpenThread D-Bus request failed: " +:+ source
  | DbusProperty source => "OpenThread D-Bus property request failed: " +:+ source
  end.
#[local] Abbreviation R := (result OpenThreadError).

(** ** Hexadecimal text *)
(** A byte is a number below 256. *)
Definition is_byte (b : Z) : Prop := 0 <= b < 256.
Definition byte_char (b : Z) : ascii := ascii_of_N (Z.to_N b).
Definition hex_value (c : ascii) : option Z :=
  if is_ascii_digit c then Some (code c - 48)
  else if between 97 102 (code c) then Some (code c - 87)
  else if between 65 70 (code c) then Some (code c - 55)
  else None.
Fixpoint hex_number (hi acc : Z) (s : string) : option Z :=
  match s with
  | EmptyString => Some acc
  | String c r => d ← hex_value c; if hi <? acc * 16 + d then None else hex_number hi (acc * 16 + d) r
  end.
(** [u16::from_str_radix(_, 16)] and its siblings: one plus sign before digits. *)
Definition from_str_radix16 (hi : Z) (s : string) : option Z :=
  match s with
  | EmptyString => None
  | String c EmptyString => hex_number hi 0 s
  | String c r => if code c =? 43 then hex_number hi 0 r else hex_number hi 0 s
  end.
Definition strip_hex_prefix (value : string) : string :=
  let value := trim value in
  match strip_prefix "0x" value with
  | Some r => r
  | None => default value (strip_prefix "0X" value)
  end.
(** [chunks_exact(2)]. *)
Fixpoint hex_bytes (s : string) : option (list Z) :=
  match s with
  | String a (String b r) => v ← from_str_radix16 255 (String a (String b "")); vs ← hex_bytes r; Some (v :: vs)
  | _ => Some []
  end.
Definition decode_hex (value : string) : option (list Z) :=
  if negb (str_len value mod 2 =? 0) || negb (str_forall is_ascii_hexdigit value) then None else hex_bytes value.
Definition hex_char (d : Z) : ascii := ascii_of_N (Z.to_N (if d <? 10 then 48 + d else 87 + d)).
Fixpoint encode_hex (bytes : list Z) : string :=
  match bytes with [] => "" | b :: r => String (hex_char (b / 16)) (String (hex_char (b mod 16)) (encode_hex r)) end.
Definition normalize_hex (label value : string) (length : Z) : R string :=
  let value := strip_hex_prefix value in
  if negb (str_len value =? length) || negb (str_forall is_ascii_hexdigit value)
  then Err (TInvalidConfiguration (label +:+ " must be " +:+ int_to_string length +:+ " hexadecimal characters"))
  else Ok (str_map to_ascii_lowercase value).
(** The secret variant differs in zeroizing its argument. *)
Definition normalize_optional_hex (label : string) (value : option string) (length : Z) : R (option string) :=
  match value with None => Ok None | Some v => Some <$> normalize_hex label v length end.

(** ** New networks *)
Definition is_ascii_control (c : ascii) : bool := (code c <? 32) || (code c =? 127).
Definition str_is_ascii (s : string) : bool := str_forall (fun c => code c <? 128) s.
Record ValidatedCreateNetwork := {
  cn_network_name : string; cn_channel : option Z; cn_pan_id : option string; cn_extended_pan_id : option string;
  cn_network_key : option string;
}.
Definition normalize_create_network (network_name : string) (channel : option Z) (pan_id extended_pan_id network_key : option string)
    : R ValidatedCreateNetwork :=
  if trim network_name !=s network_name
  then Err (TInvalidConfiguration "Thread network name must not have leading or trailing whitespace") else
  if str_is_empty network_name || (16 <? str_len network_name) || negb (str_is_ascii network_name)
  then Err (TInvalidConfiguration "Thread network name must be 1 to 16 ASCII characters") else
  if negb (str_forall (fun c => negb (is_ascii_control c)) network_name)
  then Err (TInvalidConfiguration "Thread network name must not contain control characters") else
  if match channel with Some c => negb (between 11 26 c) | None => false end
  then Err (TInvalidConfiguration "Thread channel must be between 11 and 26") else
  pan_id ← normalize_optional_hex "Thread PAN ID" pan_id 4;
  if bool_decide (pan_id = Some "ffff")
  then Err (TInvalidConfiguration "Thread PAN ID must not use the reserved broadcast value ffff") else
  extended_pan_id ← normalize_optional_hex "Thread extended PAN ID" extended_pan_id 16;
  if match extended_pan_id with Some v => (v =s? "0000000000000000") || (v =s? "ffffffffffffffff") | None => false end
  then Err (TInvalidConfiguration "Thread extended PAN ID must not be all-zero or all-ones") else
  network_key ← normalize_optional_hex "Thread network key" network_key 32;
  Ok {| cn_network_name := network_name; cn_channel := channel; cn_pan_id := pan_id; cn_extended_pan_id := extended_pan_id;
        cn_network_key := network_key |}.
Definition parse_pan_id (value : string) : R Z :=
  ok_or (from_str_radix16 (2 ^ 16 - 1) (strip_hex_prefix value)) (TInvalidConfiguration "Thread PAN ID must be hexadecimal").
Definition parse_extended_pan_id (value : string) : R Z :=
  ok_or (from_str_radix16 (2 ^ 64 - 1) (strip_hex_prefix value)) (TInvalidConfiguration "Thread extended PAN ID must be hexadecimal").
Definition parse_network_key (value : string) : R (list Z) :=
  ok_or (decode_hex (strip_hex_prefix value)) (TInvalidConfiguration "Thread network key must be 32 hexadecimal characters").

(** ** Entries *)
Definition MAX_OPERATIONAL_DATASET_BYTES : Z := 254.
Definition CHANNEL_TLV : Z := 0.
Definition PAN_ID_TLV : Z := 1.
Definition EXTENDED_PAN_ID_TLV : Z := 2.
Definition NETWORK_NAME_TLV : Z := 3.
Definition PSKC_TLV : Z := 4.
Definition NETWORK_KEY_TLV : Z := 5.
Definition MESH_LOCAL_PREFIX_TLV : Z := 7.
Definition SECURITY_POLICY_TLV : Z := 12.
Definition CHANNEL_MASK_TLV : Z := 53.
Definition REQUIRED_ACTIVE_DATASET_TLVS : list Z := [0; 1; 2; 3; 4; 5; 7; 12; 14; 53].
Definition zlen {A} (l : list A) : Z := Z.of_nat (length l).
Record DatasetTlv := { tlv_kind : Z; tlv_value : list Z }.
(** The loop of [parse_tlvs] from a cursor on; each turn takes at least two
    bytes, so the number of bytes is enough fuel. *)
Fixpoint tlvs_from (fuel : nat) (rest : list Z) : R (list DatasetTlv) :=
  match rest with
  | [] => Ok []
  | [_] => Err (TInvalidDataset "the dataset contains a truncated TLV header")
  | k :: n :: rest =>
    if zlen rest <? n then Err (TInvalidDataset ("TLV type " +:+ int_to_string k +:+ " is truncated"))
    else match fuel with
         | O => Err (TInvalidDataset "unreachable")
         | S fuel => tlvs ← tlvs_from fuel (drop (Z.to_nat n) rest); Ok ({| tlv_kind := k; tlv_value := take (Z.to_nat n) rest |} :: tlvs)
         end
  end.
Definition parse_tlvs (bytes : list Z) : R (list DatasetTlv) := tlvs_from (length bytes) bytes.
Definition parse_dataset_bytes (dataset_tlvs : string) : R (list Z) :=
  let dataset_tlvs := trim dataset_tlvs in
  if str_is_empty dataset_tlvs then Err (TInvalidDataset "the dataset must not be empty") else
  bytes ← ok_or (decode_hex dataset_tlvs) (TInvalidDataset "the dataset must be an even-length hexadecimal value");
  if MAX_OPERATIONAL_DATASET_BYTES <? zlen bytes then Err (TInvalidDataset "the dataset exceeds OpenThread's maximum size") else
  _ ← parse_tlvs bytes;
  Ok bytes.

(** ** Validation *)
Definition be16 (hi lo : Z) : Z := hi * 256 + lo.
Definition parse_dataset_channel (v : list Z) : R (Z * Z) :=
  match v with
  | [page; hi; lo] =>
    if negb (page =? 0) || negb (between 11 26 (be16 hi lo))
    then Err (TInvalidDataset "the active dataset must select an IEEE 802.15.4 channel from 11 to 26 on channel page 0")
    else Ok (page, be16 hi lo)
  | _ => Err (TInvalidDataset "the Thread channel TLV must contain a channel page and channel")
  end.
(** A slice that is ASCII is UTF-8. *)
Definition valid_network_name (v : list Z) : bool :=
  let s := String.string_of_list_ascii (map byte_char v) in
  negb (str_is_empty s) && (str_len s <=? 16) && str_is_ascii s && (trim s =s? s) && str_forall (fun c => negb (is_ascii_control c)) s.
Fixpoint mask_entries_from (fuel : nat) (entries : Z) (rest : list Z) : bool :=
  match rest with
  | [] => 0 <? entries
  | [_] => false
  | _ :: n :: rest =>
    if (n =? 0) || (zlen rest <? n) then false
    else match fuel with O => false | S fuel => mask_entries_from fuel (entries + 1) (drop (Z.to_nat n) rest) end
  end.
Definition valid_channel_mask (v : list Z) : bool := mask_entries_from (length v) 0 v.
(** [None] is an index out of range.  The shift is by [31 - channel], at its
    width and modulo the width of the mask. *)
Fixpoint mask_contains_from (fuel : nat) (rest : list Z) (selected_page channel : Z) : option bool :=
  match rest with
  | [] => Some false
  | [_] => None
  | page :: n :: rest =>
    if zlen rest <? n then None
    else match fuel, take (Z.to_nat n) rest with
         | O, _ => None
         | S fuel, mask =>
           if (page =? selected_page) && (zlen mask =? 4)
           then match mask with
                | [a; b; c; d] =>
                  let bit := (31 - channel) mod 2 ^ 16 mod 32 in
                  Some (negb (Z.land (((a * 256 + b) * 256 + c) * 256 + d) (Z.shiftl 1 bit mod 2 ^ 32) =? 0))
                | _ => None
                end
           else mask_contains_from fuel (drop (Z.to_nat n) rest) selected_page channel
         end
  end.
Definition channel_mask_contains (v : list Z) (selected_page channel : Z) : option bool :=
  mask_contains_from (length v) v selected_page channel.
Definition valid_tlv (t : DatasetTlv) : bool :=
  let v := tlv_value t in
  if tlv_kind t =? CHANNEL_TLV then is_ok (parse_dataset_channel v)
  else if tlv_kind t =? PAN_ID_TLV then (zlen v =? 2) && negb (bool_decide (v = [255; 255]))
  else if tlv_kind t =? EXTENDED_PAN_ID_TLV
       then (zlen v =? 8) && existsb (fun b => negb (b =? 0)) v && existsb (fun b => negb (b =? 255)) v
  else if tlv_kind t =? NETWORK_NAME_TLV then valid_network_name v
  else if (tlv_kind t =? 4) || (tlv_kind t =? 5) then zlen v =? 16
  else if tlv_kind t =? MESH_LOCAL_PREFIX_TLV then (zlen v =? 8) && bool_decide (v !! 0%nat = Some 253)
  else if tlv_kind t =? SECURITY_POLICY_TLV
       then between 3 4 (zlen v) && match v with hi :: lo :: _ => negb (be16 hi lo =? 0) | _ => false end
  else if tlv_kind t =? 14 then zlen v =? 8
  else if tlv_kind t =? CHANNEL_MASK_TLV then valid_channel_mask v
  else if (tlv_kind t =? 51) || (tlv_kind t =? 52) then false
  else true.
Definition validate_operational_tlv (t : DatasetTlv) : R unit :=
  if valid_tlv t then Ok tt
  else Err (TInvalidDataset ("TLV type " +:+ int_to_string (tlv_kind t) +:+ " has an invalid value for an Active Operational Dataset")).
(** The loop of [parse_imported_dataset]: kinds seen, channel, channel mask. *)
Record ImportScan := { im_seen : list Z; im_channel : option (Z * Z); im_channel_mask : option (list Z) }.
Definition import_tlv (s : ImportScan) (t : DatasetTlv) : R ImportScan :=
  if bool_decide (tlv_kind t ∈ im_seen s)
  then Err (TInvalidDataset ("the Active Operational Dataset contains duplicate TLV type " +:+ int_to_string (tlv_kind t))) else
  _ ← validate_operational_tlv t;
  if tlv_kind t =? CHANNEL_TLV
  then c ← parse_dataset_channel (tlv_value t); Ok {| im_seen := tlv_kind t :: im_seen s; im_channel := Some c; im_channel_mask := im_channel_mask s |}
  else Ok {| im_seen := tlv_kind t :: im_seen s; im_channel := im_channel s;
             im_channel_mask := if tlv_kind t =? CHANNEL_MASK_TLV then Some (tlv_value t) else im_channel_mask s |}.
Fixpoint import_tlvs (s : ImportScan) (tlvs : list DatasetTlv) : R ImportScan :=
  match tlvs with [] => Ok s | t :: rest => s ← import_tlv s t; import_tlvs s rest end.
Definition debug_kinds (l : list Z) : string := "[" +:+ join ", " (map int_to_string l) +:+ "]".
(** [None] is a panic: the channel is expected, and the mask is indexed. *)
Definition parse_imported_dataset (dataset_tlvs : string) : option (R (list Z)) :=
  match bytes ← parse_dataset_bytes dataset_tlvs; tlvs ← parse_tlvs bytes;
        s ← import_tlvs {| im_seen := []; im_channel := None; im_channel_mask := None |} tlvs; Ok (bytes, s) with
  | Err e => Some (Err e)
  | Ok (bytes, s) =>
    let missing := List.filter (fun k => negb (bool_decide (k ∈ im_seen s))) REQUIRED_ACTIVE_DATASET_TLVS in
    if negb (bool_decide (missing = []))
    then Some (Err (TInvalidDataset ("the Active Operational Dataset is incomplete; missing TLV types " +:+ debug_kinds missing)))
    else match im_channel s with
         | None => None
         | Some (page, c) =>
           enabled ← match im_channel_mask s with Some mask => channel_mask_contains mask page c | None => Some false end;
           Some (if negb enabled
                 then Err (TInvalidDataset ("the selected Thread channel " +:+ int_to_string c +:+ " is not enabled by the channel mask"))
                 else Ok bytes)
         end
  end.

(** ** Credentials *)
Record ThreadActiveDataset := { active_dataset_tlvs : string; network_key : option string; pskc : option string }.
Definition credential (k : Z) (old : option string) (t : DatasetTlv) : option string :=
  if (tlv_kind t =? k) && (zlen (tlv_value t) =? 16) then Some (encode_hex (tlv_value t)) else old.
Definition parse_active_dataset_bytes (bytes : list Z) : R ThreadActiveDataset :=
  match bytes with
  | [] => Err (TInvalidDataset "the local Thread network has no Active Operational Dataset")
  | _ =>
    if MAX_OPERATIONAL_DATASET_BYTES <? zlen bytes
    then Err (TInvalidDataset "the Active Operational Dataset exceeds OpenThread's maximum size") else
    tlvs ← parse_tlvs bytes;
    Ok {| active_dataset_tlvs := encode_hex bytes;
          network_key := fold_left (credential NETWORK_KEY_TLV) tlvs None;
          pskc := fold_left (credential PSKC_TLV) tlvs None |}
  end.
Definition parse_mesh_local_prefix (bytes : list Z) : R (option (list Z)) :=
  tlvs ← parse_tlvs bytes;
  match List.find (fun t => tlv_kind t =? MESH_LOCAL_PREFIX_TLV) tlvs with
  | None => Ok None
  | Some t => if zlen (tlv_value t) =? 8 then Ok (Some (tlv_value t))
              else Err (TInvalidDataset "the Active Operational Dataset contains an invalid mesh-local prefix")
  end.
Definition DEFAULT_DEVELOPMENT_DATASET_TLVS : string :=
  "4a0300000c0e08000000000001000035060004001fffe00708fd35344133d1d73e04105e9b9b360f80b88be2603fb0135c8d650c0402a0f7f800030000190208a6c9c979b7f141590510b7fd07e5ce003cbe047f62c0b8bd7349031065787472697474696f2d63362d64657601027880".
(** The bundled dataset and its credentials. *)
Lemma bundled_dataset : exists bytes,
  parse_imported_dataset DEFAULT_DEVELOPMENT_DATASET_TLVS = Some (Ok bytes)
  /\ parse_active_dataset_bytes bytes
     = Ok {| active_dataset_tlvs := DEFAULT_DEVELOPMENT_DATASET_TLVS; network_key := Some "b7fd07e5ce003cbe047f62c0b8bd7349";
             pskc := Some "5e9b9b360f80b88be2603fb0135c8d65" |}
  /\ parse_mesh_local_prefix bytes = Ok (Some [253; 53; 52; 65; 51; 209; 215; 62]).
Proof. eexists. split; [vm_compute; reflexivity|]. split; vm_compute; reflexivity. Qed.

(** ** Hexadecimal text is what it encodes *)
Lemma hex_value_lower c : hex_value (to_ascii_lowercase c) = hex_value c.
Proof. destruct c as [[] [] [] [] [] [] [] []]; reflexivity. Qed.
Lemma hex_digit_spec c d : hex_value c = Some d -> 0 <= d < 16 /\ to_ascii_lowercase c = hex_char d.
Proof. destruct c as [[] [] [] [] [] [] [] []]; vm_compute; intros H; try done; injection H as <-; done. Qed.
Lemma hex_value_char d : 0 <= d < 16 -> hex_value (hex_char d) = Some d.
Proof.
  intros H. assert (d ∈ [0; 1; 2; 3; 4; 5; 6; 7; 8; 9; 10; 11; 12; 13; 14; 15]) as Hd by (rewrite !elem_of_cons; lia).
  repeat (apply elem_of_cons in Hd as [->|Hd]; [reflexivity|]). by apply elem_of_nil in Hd.
Qed.
Lemma hexdigit_value c : is_ascii_hexdigit c = true <-> is_Some (hex_value c).
Proof.
  unfold is_ascii_hexdigit, hex_value. destruct (is_ascii_digit c), (between 97 102 (code c)), (between 65 70 (code c)); simpl;
    split; intros H; try done; by (eexists || destruct H).
Qed.
Lemma hex_plus : hex_value "+" = None.
Proof. reflexivity. Qed.
Lemma from_str_radix16_pair a b x y : hex_value a = Some x -> hex_value b = Some y ->
  from_str_radix16 255 (String a (String b "")) = Some (x * 16 + y).
Proof.
  intros Ha Hb. pose proof (hex_digit_spec _ _ Ha) as [Hx _]. pose proof (hex_digit_spec _ _ Hb) as [Hy _]. unfold from_str_radix16.
  destruct (Z.eqb_spec (code a) 43) as [E|_].
  - assert (a = "+"%char) as -> by (unfold code in E; rewrite <- (ascii_N_embedding a); replace (N_of_ascii a) with 43%N by lia; reflexivity). rewrite hex_plus in Ha. done.
  - cbn [hex_number]. rewrite Ha, Hb. cbn [option_bind mbind]. replace (0 * 16 + x) with x by lia.
    by rewrite (proj2 (Z.ltb_ge 255 x)), (proj2 (Z.ltb_ge 255 (x * 16 + y))) by lia.
Qed.
Lemma str_ind2 (P : string -> Prop) :
  P "" -> (forall a, P (String a "")) -> (forall a b r, P r -> P (String a (String b r))) -> forall s, P s.
Proof.
  intros H0 H1 H2. assert (forall s, P s /\ forall a, P (String a s)) as H; [|intros s; apply H].
  induction s as [|b s [IH1 IH2]]; split; auto.
Qed.
Lemma str_len_cons2 a b r : str_len (String a (String b r)) mod 2 = str_len r mod 2.
Proof. unfold str_len. cbn [String.length]. rewrite !Nat2Z.inj_succ. replace (Z.succ (Z.succ (Z.of_nat (String.length r)))) with (Z.of_nat (String.length r) + 1 * 2) by lia. apply Z.mod_add. done. Qed.
Lemma decode_hex_cons a b r : decode_hex (String a (String b r))
  = x ← hex_value a; y ← hex_value b; vs ← decode_hex r; Some (x * 16 + y :: vs).
Proof.
  unfold decode_hex. rewrite str_len_cons2. cbn [str_forall hex_bytes].
  destruct (hex_value a) as [x|] eqn:Ha.
  2: { assert (is_ascii_hexdigit a = false) as -> by (apply not_true_iff_false; rewrite hexdigit_value, Ha; by intros []). by rewrite orb_true_r. }
  destruct (hex_value b) as [y|] eqn:Hb.
  2: { assert (is_ascii_hexdigit b = false) as -> by (apply not_true_iff_false; rewrite hexdigit_value, Hb; by intros []).
       cbn [andb]. rewrite andb_false_r. by rewrite orb_true_r. }
  rewrite (proj2 (hexdigit_value a)), (proj2 (hexdigit_value b)) by (by eexists). cbn [andb].
  destruct (negb (str_len r mod 2 =? 0) || negb (str_forall is_ascii_hexdigit r)); [done|].
  by rewrite (from_str_radix16_pair a b x y Ha Hb).
Qed.
(** Decoding accepts the encodings, up to the case of the digits. *)
Lemma decode_hex_exact s : forall bytes,
  decode_hex s = Some bytes <-> Forall is_byte bytes /\ str_map to_ascii_lowercase s = encode_hex bytes.
Proof.
  induction s as [|a|a b r IH] using str_ind2; intros bytes.
  - split; [intros [= <-]; split; [constructor|done]|]. destruct bytes; [done|]. by intros [_ H].
  - split; [done|]. destruct bytes; intros [_ H]; discriminate H.
  - rewrite decode_hex_cons. split.
    + intros H. apply bind_Some in H as (x & Ha & H). apply bind_Some in H as (y & Hb & H). apply bind_Some in H as (vs & Hr & H).
      injection H as <-. apply hex_digit_spec in Ha as [Hx Ea], Hb as [Hy Eb]. apply IH in Hr as [Hv Er].
      split; [constructor; [unfold is_byte; lia|done]|]. cbn [str_map encode_hex]. rewrite Ea, Eb, Er.
      replace ((x * 16 + y) / 16) with x by (apply Z.div_unique with y; lia).
      by replace ((x * 16 + y) mod 16) with y by (apply Z.mod_unique with x; lia).
    + destruct bytes as [|v vs]; [by intros [_ H]|]. cbn [str_map encode_hex]. intros [[Hv Hvs]%Forall_cons H]. injection H as Ea Eb Er.
      unfold is_byte in Hv. assert (0 <= v / 16 < 16) by (pose proof (Z.div_mod v 16); pose proof (Z.mod_pos_bound v 16); lia).
      rewrite <- (hex_value_lower a), Ea, hex_value_char by done. cbn.
      rewrite <- (hex_value_lower b), Eb, hex_value_char by (apply Z.mod_pos_bound; lia). cbn.
      rewrite (proj2 (IH vs) (conj Hvs Er)). cbn. do 2 f_equal. pose proof (Z.div_mod v 16). lia.
Qed.
Lemma encode_hex_lower bytes : Forall is_byte bytes -> str_map to_ascii_lowercase (encode_hex bytes) = encode_hex bytes.
Proof.
  assert (forall d, 0 <= d < 16 -> to_ascii_lowercase (hex_char d) = hex_char d) as Hd by (intros d Hd; by apply hex_digit_spec, hex_value_char).
  induction 1 as [|v vs Hv _ IH]; [done|]. cbn [encode_hex str_map]. unfold is_byte in Hv. rewrite IH, !Hd; [done|..].
  - apply Z.mod_pos_bound. lia.
  - pose proof (Z.div_mod v 16). pose proof (Z.mod_pos_bound v 16). lia.
Qed.

(** ** Entries are what they encode *)
Definition encode_tlv (t : DatasetTlv) : list Z := tlv_kind t :: zlen (tlv_value t) :: tlv_value t.
Lemma zlen_nonneg {A} (l : list A) : 0 <= zlen l.
Proof. unfold zlen. lia. Qed.
Lemma zlen_take {A} (l : list A) n : 0 <= n <= zlen l -> zlen (take (Z.to_nat n) l) = n.
Proof. unfold zlen. intros H. rewrite length_take. lia. Qed.
Lemma take_zlen {A} (a b : list A) : take (Z.to_nat (zlen a)) (a ++ b) = a.
Proof. unfold zlen. rewrite Nat2Z.id. apply take_app_length. Qed.
Lemma drop_zlen {A} (a b : list A) : drop (Z.to_nat (zlen a)) (a ++ b) = b.
Proof. unfold zlen. rewrite Nat2Z.id. apply drop_app_length. Qed.
Lemma zlen_app {A} (a b : list A) : zlen (a ++ b) = zlen a + zlen b.
Proof. unfold zlen. rewrite length_app. lia. Qed.
Lemma tlvs_from_sound fuel : forall rest tlvs, Forall is_byte rest -> tlvs_from fuel rest = Ok tlvs -> rest = concat (map encode_tlv tlvs).
Proof.
  induction fuel as [|fuel IH]; intros [|k [|n rest]] tlvs Hb; cbn [tlvs_from]; try (intros [= <-]; done); try done.
  all: destruct (Z.ltb_spec (zlen rest) n) as [_|Hn]; [done|]; try done.
  apply Forall_cons in Hb as [_ [Hn' Hb]%Forall_cons]. intros H. apply bind_ok in H as (ts & H & [= <-]).
  apply IH in H; [|by apply Forall_drop]. cbn [map concat]. unfold encode_tlv at 1. cbn [tlv_kind tlv_value]. unfold is_byte in Hn'. rewrite zlen_take by lia.
  simpl. f_equal. f_equal. rewrite <- H. by rewrite take_drop.
Qed.
Lemma tlvs_from_complete tlvs : forall fuel, (length (concat (map encode_tlv tlvs)) <= fuel)%nat ->
  tlvs_from fuel (concat (map encode_tlv tlvs)) = Ok tlvs.
Proof.
  induction tlvs as [|[k v] tlvs IH]; intros fuel Hf; [by destruct fuel|].
  cbn [map concat] in *. unfold encode_tlv at 1. cbn [tlv_kind tlv_value] in *. rewrite length_app in Hf. cbn in Hf.
  destruct fuel as [|fuel]; [lia|]. cbn [tlvs_from app].
  destruct (Z.ltb_spec (zlen (v ++ concat (map encode_tlv tlvs))) (zlen v)) as [H|_].
  { rewrite zlen_app in H. pose proof (zlen_nonneg (concat (map encode_tlv tlvs))). lia. }
  rewrite drop_zlen, take_zlen, IH by lia. done.
Qed.
Lemma parse_tlvs_exact bytes tlvs : Forall is_byte bytes -> parse_tlvs bytes = Ok tlvs <-> bytes = concat (map encode_tlv tlvs).
Proof. intros Hb. split; [by apply tlvs_from_sound|]. intros ->. by apply tlvs_from_complete. Qed.

(** ** Channel masks *)
Definition mask_entry : Type := Z * list Z.
Definition encode_mask (e : mask_entry) : list Z := e.1 :: zlen e.2 :: e.2.
Lemma mask_entries_sound fuel : forall n rest, Forall is_byte rest -> 0 <= n -> mask_entries_from fuel n rest = true ->
  exists es, rest = concat (map encode_mask es) /\ Forall (fun e => e.2 <> []) es /\ 0 < n + zlen es.
Proof.
  induction fuel as [|fuel IH]; intros n [|p [|l rest]] Hb Hn; cbn [mask_entries_from]; try done.
  1, 3: intros H%Z.ltb_lt; exists []; split_and!; [done|by apply Forall_nil|unfold zlen; simpl; lia].
  all: destruct (Z.eqb_spec l 0) as [_|Hl]; [done|]; destruct (Z.ltb_spec (zlen rest) l) as [_|Hn']; [done|]; cbn [orb]; try done.
  apply Forall_cons in Hb as [_ [Hl' Hb]%Forall_cons]. unfold is_byte in Hl'.
  intros H. apply IH in H as (es & E & He & Hz); [|by apply Forall_drop|lia].
  exists ((p, take (Z.to_nat l) rest) :: es). cbn [map concat]. unfold encode_mask at 1. cbn [fst snd]. rewrite zlen_take by lia. split_and!.
  - simpl. do 2 f_equal. rewrite <- E. by rewrite take_drop.
  - constructor; [|done]. simpl. intros E0. pose proof (zlen_take rest l ltac:(lia)) as H0. rewrite E0 in H0. unfold zlen in H0. simpl in H0. lia.
  - unfold zlen in *. simpl length. lia.
Qed.
Lemma mask_entries_complete es : Forall (fun e => e.2 <> []) es -> forall fuel n, (length (concat (map encode_mask es)) <= fuel)%nat -> 0 <= n ->
  mask_entries_from fuel n (concat (map encode_mask es)) = (0 <? n + zlen es).
Proof.
  induction 1 as [|[p m] es Hm _ IH]; intros fuel n Hf Hn.
  { unfold zlen. simpl. rewrite Z.add_0_r. by destruct fuel. }
  cbn [map concat] in *. unfold encode_mask at 1. cbn [fst snd] in *. rewrite length_app in Hf. cbn in Hf.
  destruct fuel as [|fuel]; [lia|]. cbn [mask_entries_from app].
  assert (0 < zlen m) as Hz by (destruct m; [done|unfold zlen; simpl; lia]).
  destruct (Z.eqb_spec (zlen m) 0) as [|_]; [lia|].
  destruct (Z.ltb_spec (zlen (m ++ concat (map encode_mask es))) (zlen m)) as [H|_].
  { rewrite zlen_app in H. pose proof (zlen_nonneg (concat (map encode_mask es))). lia. }
  cbn [orb]. rewrite drop_zlen, IH by lia. f_equal. unfold zlen. simpl length. lia.
Qed.
Lemma valid_channel_mask_exact v : Forall is_byte v ->
  valid_channel_mask v = true <-> exists es, es <> [] /\ v = concat (map encode_mask es) /\ Forall (fun e => e.2 <> []) es.
Proof.
  intros Hb. split.
  - intros H. apply mask_entries_sound in H as (es & ? & ? & H); [|done|done]. exists es. split_and!; try done. by intros ->.
  - intros (es & He & -> & Hm). unfold valid_channel_mask. rewrite mask_entries_complete by done. apply Z.ltb_lt.
    destruct es; [done|]. unfold zlen. simpl. lia.
Qed.
(** The first entry of the page with a 32-bit mask decides. *)
Definition page_mask (page : Z) (e : mask_entry) : bool := (e.1 =? page) && (zlen e.2 =? 4).
Definition mask_bits (m : list Z) : Z := fold_left (fun acc b => acc * 256 + b) m 0.
Definition channel_enabled (es : list mask_entry) (page channel : Z) : Prop :=
  exists e, List.find (page_mask page) es = Some e /\ Z.testbit (mask_bits e.2) (31 - channel) = true.
Lemma land_bit x n : 0 <= n < 32 -> 0 <= x -> negb (Z.land x (Z.shiftl 1 n mod 2 ^ 32) =? 0) = Z.testbit x n.
Proof.
  intros Hn Hx. rewrite Z.shiftl_1_l, Z.mod_small by (split; [lia|apply Z.pow_lt_mono_r; lia]).
  destruct (Z.testbit x n) eqn:E.
  - apply negb_true_iff, Z.eqb_neq. intros H. assert (Z.testbit (Z.land x (2 ^ n)) n = false) as H' by (by rewrite H, Z.bits_0).
    rewrite Z.land_spec, E, Z.pow2_bits_true in H' by lia. done.
  - apply negb_false_iff, Z.eqb_eq, Z.bits_inj'. intros m Hm. rewrite Z.land_spec, Z.bits_0.
    destruct (Z.eq_dec m n) as [->|]; [by rewrite E|]. by rewrite Z.pow2_bits_false, andb_false_r by lia.
Qed.
Lemma mask_contains_complete es page channel : 11 <= channel <= 26 -> Forall (fun e => Forall is_byte e.2) es ->
  forall fuel, (length (concat (map encode_mask es)) <= fuel)%nat ->
  exists b, mask_contains_from fuel (concat (map encode_mask es)) page channel = Some b /\ (b = true <-> channel_enabled es page channel).
Proof.
  intros Hc. unfold channel_enabled. induction 1 as [|[p m] es Hm _ IH]; intros fuel Hf.
  { exists false. split; [by destruct fuel|]. split; [done|]. by intros (? & ? & _). }
  cbn [map concat] in *. unfold encode_mask at 1. cbn [fst snd] in *. rewrite length_app in Hf. cbn in Hf.
  destruct fuel as [|fuel]; [lia|]. cbn [mask_contains_from app].
  destruct (Z.ltb_spec (zlen (m ++ concat (map encode_mask es))) (zlen m)) as [H|_].
  { rewrite zlen_app in H. pose proof (zlen_nonneg (concat (map encode_mask es))). lia. }
  rewrite drop_zlen, take_zlen. cbn [List.find]. unfold page_mask at 1. cbn [fst snd].
  destruct ((p =? page) && (zlen m =? 4)) eqn:E; [|by apply IH; lia].
  apply andb_true_iff in E as [_ E%Z.eqb_eq]. destruct m as [|a [|b [|c [|d [|]]]]]; try (unfold zlen in E; simpl length in E; lia).
  eexists. split; [done|]. rewrite (Z.mod_small (31 - channel) (2 ^ 16)), (Z.mod_small (31 - channel) 32) by lia.
  rewrite !Forall_cons in Hm. unfold is_byte in Hm. rewrite land_bit by lia. split.
  - intros H. eexists. split; [done|]. exact H.
  - intros (e & [= <-] & H). exact H.
Qed.

(** ** Conformant datasets *)
(** What the code requires of an entry, by its type. *)
Record tlv_conforms (t : DatasetTlv) : Prop := {
  tc_channel : tlv_kind t = CHANNEL_TLV -> exists hi lo, tlv_value t = [0; hi; lo] /\ 11 <= be16 hi lo <= 26;
  tc_pan : tlv_kind t = PAN_ID_TLV -> length (tlv_value t) = 2%nat /\ tlv_value t <> [255; 255];
  tc_extended : tlv_kind t = EXTENDED_PAN_ID_TLV ->
    length (tlv_value t) = 8%nat /\ tlv_value t <> replicate 8 0 /\ tlv_value t <> replicate 8 255;
  tc_name : tlv_kind t = NETWORK_NAME_TLV ->
    exists s, tlv_value t = map code (String.list_ascii_of_string s) /\ 1 <= str_len s <= 16 /\ trim s = s
              /\ Forall (fun b => 32 <= b <= 126) (tlv_value t);
  tc_secret : tlv_kind t = PSKC_TLV \/ tlv_kind t = NETWORK_KEY_TLV -> length (tlv_value t) = 16%nat;
  tc_prefix : tlv_kind t = MESH_LOCAL_PREFIX_TLV -> exists rest, tlv_value t = 253 :: rest /\ length rest = 7%nat;
  tc_policy : tlv_kind t = SECURITY_POLICY_TLV ->
    exists hi lo rest, tlv_value t = hi :: lo :: rest /\ be16 hi lo <> 0 /\ (length rest = 1%nat \/ length rest = 2%nat);
  tc_timestamp : tlv_kind t = 14 -> length (tlv_value t) = 8%nat;
  tc_mask : tlv_kind t = CHANNEL_MASK_TLV ->
    exists es, es <> [] /\ tlv_value t = concat (map encode_mask es) /\ Forall (fun e => e.2 <> []) es;
  tc_active : tlv_kind t <> 51 /\ tlv_kind t <> 52;
}.
Record dataset_conforms (tlvs : list DatasetTlv) : Prop := {
  dc_nodup : NoDup (map tlv_kind tlvs);
  dc_tlvs : Forall tlv_conforms tlvs;
  dc_required : forall k, k ∈ REQUIRED_ACTIVE_DATASET_TLVS -> k ∈ map tlv_kind tlvs;
  dc_channel : exists hi lo es,
    {| tlv_kind := CHANNEL_TLV; tlv_value := [0; hi; lo] |} ∈ tlvs
    /\ {| tlv_kind := CHANNEL_MASK_TLV; tlv_value := concat (map encode_mask es) |} ∈ tlvs
    /\ Forall (fun e => e.2 <> []) es /\ channel_enabled es 0 (be16 hi lo);
}.
Lemma exists_not_all x n v : length v = n -> existsb (fun b => negb (b =? x)) v = true <-> v <> replicate n x.
Proof.
  intros <-. induction v as [|b v IH]; simpl; [done|]. rewrite orb_true_iff, IH, negb_true_iff, Z.eqb_neq.
  destruct (Z.eq_dec b x) as [->|Hb].
  - split; [intros [?|H]; [done|congruence]|]. intros H. right. congruence.
  - split; [congruence|]. by left.
Qed.
Lemma code_byte_char b : is_byte b -> code (byte_char b) = b.
Proof. unfold is_byte, code, byte_char. intros H. rewrite N_ascii_embedding; lia. Qed.
Lemma byte_char_code c : byte_char (code c) = c.
Proof. unfold byte_char, code. rewrite N2Z.id. apply ascii_N_embedding. Qed.
Lemma str_forall_list p s : str_forall p s = true <-> Forall (fun c => p c = true) (String.list_ascii_of_string s).
Proof.
  induction s as [|c s IH]; simpl; [split; [constructor|done]|]. by rewrite andb_true_iff, IH, Forall_cons.
Qed.
Lemma str_len_list s : str_len s = zlen (String.list_ascii_of_string s).
Proof. unfold str_len, zlen. f_equal. induction s; simpl; congruence. Qed.
Lemma valid_network_name_exact v : Forall is_byte v -> valid_network_name v = true <->
  exists s, v = map code (String.list_ascii_of_string s) /\ 1 <= str_len s <= 16 /\ trim s = s /\ Forall (fun b => 32 <= b <= 126) v.
Proof.
  intros Hb. unfold valid_network_name. set (s := String.string_of_list_ascii (map byte_char v)).
  assert (v = map code (String.list_ascii_of_string s)) as Ev.
  { unfold s. rewrite String.list_ascii_of_string_of_list_ascii, map_map. induction Hb as [|b v Hb' _ IH]; [done|]. simpl. by rewrite code_byte_char, <- IH. }
  assert (forall s', v = map code (String.list_ascii_of_string s') -> s' = s) as Hs.
  { intros s' ->. unfold s. rewrite map_map. rewrite (map_ext _ id) by apply byte_char_code. by rewrite map_id, String.string_of_list_ascii_of_string. }
  rewrite !andb_true_iff, negb_true_iff, Z.leb_le, String.eqb_eq.
  assert (str_is_empty s = false <-> 1 <= str_len s) as -> by (unfold str_len; destruct s; simpl; split; (done || lia)).
  assert (Forall (fun b => 32 <= b <= 126) v <-> str_is_ascii s = true /\ str_forall (fun c => negb (is_ascii_control c)) s = true) as Hf.
  { unfold str_is_ascii. rewrite !str_forall_list, Ev, Forall_map, <- Forall_and. apply Forall_iff. intros c.
    unfold is_ascii_control. rewrite negb_true_iff, orb_false_iff, !Z.ltb_lt, Z.ltb_ge, Z.eqb_neq. lia. }
  split.
  - intros [[[[H1 H2] H3] H4] H5]. exists s. split_and!; try done; try lia. by apply Hf.
  - intros (s' & E & H1 & H2 & H3). apply Hs in E as ->. apply Hf in H3 as [? ?]. split_and!; try done; lia.
Qed.
Lemma parse_dataset_channel_exact v c :
  parse_dataset_channel v = Ok c <-> exists hi lo, v = [0; hi; lo] /\ c = (0, be16 hi lo) /\ 11 <= be16 hi lo <= 26.
Proof.
  destruct v as [|p [|hi [|lo [|]]]]; cbn [parse_dataset_channel]; try (split; [done|]; intros (? & ? & ? & _); done).
  unfold between. destruct (Z.eqb_spec p 0) as [->|Hp]; cbn [negb orb].
  - destruct (Z.leb_spec 11 (be16 hi lo)), (Z.leb_spec (be16 hi lo) 26); cbn [andb negb]; split; try done;
      try (intros (? & ? & [= <- <-] & _ & ?); lia).
    + intros [= <-]. by exists hi, lo.
    + by intros (? & ? & [= <- <-] & -> & _).
  - split; [done|]. intros (? & ? & [= -> _ _] & _). done.
Qed.
Lemma zlen_eqb {A} (v : list A) n : (zlen v =? Z.of_nat n) = true <-> length v = n.
Proof. unfold zlen. rewrite Z.eqb_eq. lia. Qed.
(** An entry of a known type conforms when the clause of its type holds. *)
Ltac other_kinds := constructor; cbn [tlv_kind tlv_value];
  try (intros E; vm_compute in E; first [discriminate E|destruct E as [E|E]; discriminate E]); try (split; discriminate); intros _.
Lemma valid_tlv_exact t : Forall is_byte (tlv_value t) -> valid_tlv t = true <-> tlv_conforms t.
Proof.
  destruct t as [k v]. cbn [tlv_value]. intros Hb. unfold valid_tlv. cbn [tlv_kind tlv_value].
  unfold CHANNEL_TLV, PAN_ID_TLV, EXTENDED_PAN_ID_TLV, NETWORK_NAME_TLV, MESH_LOCAL_PREFIX_TLV, SECURITY_POLICY_TLV, CHANNEL_MASK_TLV.
  destruct (Z.eqb_spec k 0) as [->|H0].
  { transitivity (exists c, parse_dataset_channel v = Ok c); [destruct (parse_dataset_channel v); simpl; naive_solver|].
    split; [intros (c & (hi & lo & -> & -> & ?)%parse_dataset_channel_exact); other_kinds; by exists hi, lo|].
    intros H. destruct (tc_channel _ H eq_refl) as (hi & lo & E & ?). cbn [tlv_value] in E. subst v. eexists. apply parse_dataset_channel_exact.
    by exists hi, lo. }
  destruct (Z.eqb_spec k 1) as [->|H1].
  { rewrite andb_true_iff, (zlen_eqb v 2), negb_true_iff, bool_decide_eq_false. split; [intros H; by other_kinds|]. intros H. apply (tc_pan _ H eq_refl). }
  destruct (Z.eqb_spec k 2) as [->|H2].
  { rewrite !andb_true_iff, (zlen_eqb v 8). split.
    - intros [[H8 Ha] Hz]. apply (exists_not_all 0 8 v H8) in Ha. apply (exists_not_all 255 8 v H8) in Hz. by other_kinds.
    - intros H. destruct (tc_extended _ H eq_refl) as (H8 & ? & ?). by rewrite (exists_not_all 0 8 v H8), (exists_not_all 255 8 v H8). }
  destruct (Z.eqb_spec k 3) as [->|H3].
  { rewrite (valid_network_name_exact v Hb). split; [intros H; by other_kinds|]. intros H. apply (tc_name _ H eq_refl). }
  destruct (Z.eqb_spec k 4) as [->|H4]; cbn [orb].
  { rewrite (zlen_eqb v 16). split; [intros H; by other_kinds|]. intros H. apply (tc_secret _ H). by left. }
  destruct (Z.eqb_spec k 5) as [->|H5]; cbn [orb].
  { rewrite (zlen_eqb v 16). split; [intros H; by other_kinds|]. intros H. apply (tc_secret _ H). by right. }
  destruct (Z.eqb_spec k 7) as [->|H7].
  { rewrite andb_true_iff, (zlen_eqb v 8), bool_decide_eq_true. split.
    - intros [H8 Hh]. destruct v as [|b v]; [done|]. injection Hh as ->. other_kinds. exists v. split; [done|]. simpl in H8. lia.
    - intros H. destruct (tc_prefix _ H eq_refl) as (r & E & Hr). cbn [tlv_value] in E. subst v. simpl. by rewrite Hr. }
  destruct (Z.eqb_spec k 12) as [->|H12].
  { split.
    - intros [Hl Hv]%andb_true_iff. destruct v as [|hi [|lo r]]; [done..|]. apply negb_true_iff, Z.eqb_neq in Hv.
      apply andb_true_iff in Hl as [Hl1%Z.leb_le Hl2%Z.leb_le]. unfold zlen in Hl1, Hl2. simpl length in Hl1, Hl2.
      other_kinds. exists hi, lo, r. split_and!; [done|done|lia].
    - intros H. destruct (tc_policy _ H eq_refl) as (hi & lo & r & E & Hn & Hl). cbn [tlv_value] in E. subst v.
      apply Z.eqb_neq in Hn. rewrite Hn. destruct Hl as [Hl|Hl]; unfold between, zlen; simpl length; by rewrite Hl. }
  destruct (Z.eqb_spec k 14) as [->|H14].
  { rewrite (zlen_eqb v 8). split; [intros H; by other_kinds|]. intros H. apply (tc_timestamp _ H eq_refl). }
  destruct (Z.eqb_spec k 53) as [->|H53].
  { rewrite (valid_channel_mask_exact v Hb). split; [intros H; by other_kinds|]. intros H. apply (tc_mask _ H eq_refl). }
  destruct (Z.eqb_spec k 51) as [->|H51]; cbn [orb]; [split; [done|]; intros H; by destruct (tc_active _ H)|].
  destruct (Z.eqb_spec k 52) as [->|H52]; [split; [done|]; intros H; by destruct (tc_active _ H)|].
  split; [intros _|done]. constructor; cbn [tlv_kind tlv_value]; try done. by intros [E|E].
Qed.
(** What the loop over the entries has seen. *)
Record scanned (s s' : ImportScan) (tlvs : list DatasetTlv) : Prop := {
  sc_nodup : NoDup (map tlv_kind tlvs);
  sc_new : forall k, k ∈ map tlv_kind tlvs -> k ∉ im_seen s;
  sc_valid : Forall (fun t => valid_tlv t = true) tlvs;
  sc_seen : forall k, k ∈ im_seen s' <-> k ∈ im_seen s \/ k ∈ map tlv_kind tlvs;
  sc_channel : forall t, t ∈ tlvs -> tlv_kind t = CHANNEL_TLV ->
    exists c, parse_dataset_channel (tlv_value t) = Ok c /\ im_channel s' = Some c;
  sc_no_channel : CHANNEL_TLV ∉ map tlv_kind tlvs -> im_channel s' = im_channel s;
  sc_mask : forall t, t ∈ tlvs -> tlv_kind t = CHANNEL_MASK_TLV -> im_channel_mask s' = Some (tlv_value t);
  sc_no_mask : CHANNEL_MASK_TLV ∉ map tlv_kind tlvs -> im_channel_mask s' = im_channel_mask s;
}.
Lemma import_tlv_ok s t s' : import_tlv s t = Ok s' -> scanned s s' [t].
Proof.
  unfold import_tlv, validate_operational_tlv. case_bool_decide as Hn; [done|]. destruct (valid_tlv t) eqn:Hv; [|done]. cbn.
  destruct (Z.eqb_spec (tlv_kind t) CHANNEL_TLV) as [Hk|Hk].
  - intros (c & Hc & [= <-])%bind_ok. split; cbn [map im_seen im_channel im_channel_mask].
    1: by apply NoDup_singleton. 1: set_solver. 1: by repeat constructor. 1: set_solver.
    + intros t' ->%list_elem_of_singleton _. by exists c.
    + set_solver.
    + intros t' ->%list_elem_of_singleton Hk'. rewrite Hk in Hk'. discriminate Hk'.
    + done.
  - intros [= <-]. split; cbn [map im_seen im_channel im_channel_mask].
    1: by apply NoDup_singleton. 1: set_solver. 1: by repeat constructor. 1: set_solver.
    + by intros t' ->%list_elem_of_singleton Hk'.
    + done.
    + intros t' ->%list_elem_of_singleton Hk'. by rewrite Hk'.
    + intros Hm. destruct (Z.eqb_spec (tlv_kind t) CHANNEL_MASK_TLV); [|done]. set_solver.
Qed.
Lemma scanned_trans s s1 s2 a b : scanned s s1 a -> scanned s1 s2 b -> scanned s s2 (a ++ b).
Proof.
  intros [A1 A2 A3 A4 A5 A6 A7 A8] [B1 B2 B3 B4 B5 B6 B7 B8]. split; rewrite ?map_app.
  - apply NoDup_app. split_and!; try done. intros k Ha Hb. apply (B2 k Hb), A4. by right.
  - intros k [Hk|Hk]%elem_of_app; [by apply A2|]. intros Hs. apply (B2 k Hk), A4. by left.
  - by apply Forall_app.
  - intros k. rewrite B4, A4, elem_of_app. tauto.
  - intros t [Ht|Ht]%elem_of_app Hk; [|by apply B5]. destruct (A5 t Ht Hk) as (c & Hc & Es). exists c. split; [done|]. rewrite B6; [done|].
    intros Hb. apply (B2 _ Hb), A4. right. rewrite <- Hk. by apply list_elem_of_fmap_2.
  - intros Hn. rewrite B6, A6; [done|..]; intros H; apply Hn, elem_of_app; auto.
  - intros t [Ht|Ht]%elem_of_app Hk; [|by apply B7]. rewrite B8; [by apply A7|].
    intros Hb. apply (B2 _ Hb), A4. right. rewrite <- Hk. by apply list_elem_of_fmap_2.
  - intros Hn. rewrite B8, A8; [done|..]; intros H; apply Hn, elem_of_app; auto.
Qed.
Lemma import_tlvs_ok tlvs : forall s s', import_tlvs s tlvs = Ok s' -> scanned s s' tlvs.
Proof.
  induction tlvs as [|t tlvs IH]; intros s s'; cbn [import_tlvs].
  - intros [= <-]. split; cbn; try set_solver; constructor.
  - intros (s1 & H1%import_tlv_ok & H2%IH)%bind_ok. apply (scanned_trans s s1 s' [t] tlvs H1 H2).
Qed.
Lemma import_tlvs_some tlvs : forall s, NoDup (map tlv_kind tlvs) -> (forall k, k ∈ map tlv_kind tlvs -> k ∉ im_seen s) ->
  Forall (fun t => valid_tlv t = true) tlvs -> exists s', import_tlvs s tlvs = Ok s'.
Proof.
  induction tlvs as [|t tlvs IH]; intros s Hd Hn Hv; cbn [import_tlvs]; [eauto|].
  cbn [map] in Hd. apply NoDup_cons in Hd as [Ht Hd]. apply Forall_cons in Hv as [Hv Hvs].
  assert (exists s1, import_tlv s t = Ok s1) as (s1 & H1).
  { unfold import_tlv, validate_operational_tlv. rewrite bool_decide_false by (apply Hn; cbn [map]; set_solver). rewrite Hv. cbn.
    destruct (Z.eqb_spec (tlv_kind t) CHANNEL_TLV) as [Hk|Hk]; [|eauto].
    unfold valid_tlv in Hv. rewrite Hk in Hv. cbn in Hv. destruct (parse_dataset_channel (tlv_value t)); [|done]. cbn. eauto. }
  rewrite H1. cbn. apply IH; [done| |done]. intros k Hk. rewrite (sc_seen _ _ _ (import_tlv_ok _ _ _ H1)). cbn [map] in Hn |- *. set_solver.
Qed.
Lemma tlv_bytes tlvs t : Forall is_byte (concat (map encode_tlv tlvs)) -> t ∈ tlvs -> Forall is_byte (tlv_value t).
Proof.
  intros Hb Ht. rewrite Forall_forall in Hb |- *. intros b Hb'. apply Hb, elem_of_concat_map. exists t. split; [done|]. unfold encode_tlv. set_solver.
Qed.
Lemma mask_bytes es : Forall is_byte (concat (map encode_mask es)) -> Forall (fun e => Forall is_byte e.2) es.
Proof.
  intros Hb. rewrite Forall_forall in Hb. apply Forall_forall. intros e He. apply Forall_forall. intros b Hb'. apply Hb, elem_of_concat_map. exists e. split; [done|]. unfold encode_mask. set_solver.
Qed.
Lemma parse_dataset_bytes_exact text bytes : parse_dataset_bytes text = Ok bytes <->
  trim text <> "" /\ decode_hex (trim text) = Some bytes /\ zlen bytes <= MAX_OPERATIONAL_DATASET_BYTES /\ exists tlvs, parse_tlvs bytes = Ok tlvs.
Proof.
  unfold parse_dataset_bytes. destruct (trim text) as [|c s] eqn:E; cbn [str_is_empty]; [naive_solver|].
  destruct (decode_hex (String c s)) as [bs|]; cbn; [|naive_solver].
  destruct (Z.ltb_spec MAX_OPERATIONAL_DATASET_BYTES (zlen bs)); [split; [done|]; intros (_ & [= <-] & ? & _); lia|].
  destruct (parse_tlvs bs) as [tlvs|e] eqn:Et; cbn.
  - split; [intros [= <-]; eauto 10|]. by intros (_ & [= <-] & _).
  - split; [done|]. intros (_ & [= <-] & _ & tlvs & ?). congruence.
Qed.
Definition empty_scan : ImportScan := {| im_seen := []; im_channel := None; im_channel_mask := None |}.
Lemma missing_none (seen : ImportScan) :
  List.filter (fun k => negb (bool_decide (k ∈ im_seen seen))) REQUIRED_ACTIVE_DATASET_TLVS = []
  <-> forall k, k ∈ REQUIRED_ACTIVE_DATASET_TLVS -> k ∈ im_seen seen.
Proof.
  generalize REQUIRED_ACTIVE_DATASET_TLVS as l. induction l as [|x l IH]; [split; [by intros _ k ?%elem_of_nil|done]|].
  cbn [List.filter]. case_bool_decide as Hx; cbn [negb]; [rewrite IH|]; (split; [intros H|intros H; try done]).
  - intros k [->|Hk]%elem_of_cons; auto.
  - intros k Hk. apply H. by right.
  - done.
  - destruct Hx. apply H, list_elem_of_here.
Qed.
(** The end of the import, for scanned entries. *)
Lemma import_end tlvs s : Forall is_byte (concat (map encode_tlv tlvs)) -> scanned empty_scan s tlvs ->
  (forall k, k ∈ REQUIRED_ACTIVE_DATASET_TLVS -> k ∈ im_seen s) ->
  exists c b mask, im_channel s = Some (0, c) /\ im_channel_mask s = Some mask /\ channel_mask_contains mask 0 c = Some b
    /\ (b = true <-> dataset_conforms tlvs).
Proof.
  intros Hb Hs Hr. assert (forall k, k ∈ REQUIRED_ACTIVE_DATASET_TLVS -> k ∈ map tlv_kind tlvs) as Hk.
  { intros k [H|H]%Hr%(sc_seen _ _ _ Hs); [by apply elem_of_nil in H|done]. }
  assert (Forall tlv_conforms tlvs) as Hc.
  { pose proof (sc_valid _ _ _ Hs) as Hv. rewrite Forall_forall in Hv |- *. intros t Ht. apply valid_tlv_exact; [by eapply tlv_bytes|auto]. }
  destruct (list_elem_of_fmap_1 tlv_kind tlvs CHANNEL_TLV) as (t0 & E0 & H0); [apply Hk; set_solver|].
  destruct (list_elem_of_fmap_1 tlv_kind tlvs CHANNEL_MASK_TLV) as (t1 & E1 & H1); [apply Hk; set_solver|].
  destruct (sc_channel _ _ _ Hs t0 H0 (eq_sym E0)) as ([p c] & (hi & lo & Ev & [= -> ->] & Hrange)%parse_dataset_channel_exact & Ec).
  pose proof (sc_mask _ _ _ Hs t1 H1 (eq_sym E1)) as Em.
  pose proof Hc as Hc'. rewrite Forall_forall in Hc'. destruct (tc_mask _ (Hc' t1 H1) (eq_sym E1)) as (es & _ & Ees & Hne).
  pose proof (tlv_bytes tlvs t1 Hb H1) as Hb1. rewrite Ees in Hb1.
  destruct (mask_contains_complete es 0 (be16 hi lo) Hrange (mask_bytes es Hb1) (length (concat (map encode_mask es))) ltac:(lia)) as (b & Eb & Hbit).
  exists (be16 hi lo), b, (tlv_value t1). split_and!; [done|done|by rewrite Ees|]. rewrite Hbit. split.
  - intros Hen. split; [apply (sc_nodup _ _ _ Hs)|done|done|]. exists hi, lo, es. split_and!; [|by rewrite <- Ees, E1; destruct t1|done|done].
    by rewrite <- Ev, E0; destruct t0.
  - intros [_ _ _ (hi' & lo' & es' & Hi & Hm & Hne' & Hen)].
    destruct (sc_channel _ _ _ Hs _ Hi eq_refl) as (c' & (? & ? & [= <- <-] & -> & _)%parse_dataset_channel_exact & Ec').
    rewrite Ec in Ec'. injection Ec' as Ec'.
    pose proof (sc_mask _ _ _ Hs _ Hm eq_refl) as Em'. cbn [tlv_value] in Em'. rewrite Em, Ees in Em'. injection Em' as Em'.
    destruct (mask_contains_complete es' 0 (be16 hi lo) Hrange (mask_bytes es' ltac:(by rewrite <- Em')) (length (concat (map encode_mask es'))) ltac:(lia)) as (b' & Eb' & Hbit').
    rewrite <- Em' in Eb'. apply Hbit. rewrite Eb in Eb'. injection Eb' as ->. apply Hbit'. by rewrite Ec'.
Qed.
Lemma import_spec text : exists answer,
  parse_imported_dataset text = Some answer
  /\ forall bytes, answer = Ok bytes <->
       Forall is_byte bytes /\ encode_hex bytes = str_map to_ascii_lowercase (trim text)
       /\ zlen bytes <= MAX_OPERATIONAL_DATASET_BYTES
       /\ exists tlvs, bytes = concat (map encode_tlv tlvs) /\ dataset_conforms tlvs.
Proof.
  assert (forall bytes, (Forall is_byte bytes /\ encode_hex bytes = str_map to_ascii_lowercase (trim text)
            /\ zlen bytes <= MAX_OPERATIONAL_DATASET_BYTES /\ exists tlvs, bytes = concat (map encode_tlv tlvs) /\ dataset_conforms tlvs)
          <-> exists tlvs, parse_dataset_bytes text = Ok bytes /\ parse_tlvs bytes = Ok tlvs /\ dataset_conforms tlvs) as Hspec.
  { intros bytes. split.
    - intros (Hb & Ht & Hl & tlvs & E & Hc). apply (parse_tlvs_exact _ tlvs) in E as Ep; [|done]. exists tlvs. split_and!; [|done|done].
      apply parse_dataset_bytes_exact. split_and!; [|by apply decode_hex_exact|done|eauto].
      intros E0. rewrite E0 in Ht. assert (CHANNEL_TLV ∈ map tlv_kind tlvs) as H0 by (apply (dc_required _ Hc); set_solver).
      destruct tlvs; [by apply elem_of_nil in H0|]. by subst bytes.
    - intros (tlvs & Hp & Ep & Hc). apply parse_dataset_bytes_exact in Hp as (_ & [Hb Ht]%decode_hex_exact & Hl & _).
      split_and!; try done. exists tlvs. split; [|done]. by apply parse_tlvs_exact. }
  unfold parse_imported_dataset. fold empty_scan. destruct (parse_dataset_bytes text) as [bytes|e] eqn:Ep; cbn [mbind result_bind].
  2: { eexists. split; [done|]. intros bytes. rewrite Hspec. split; [done|]. by intros (? & ? & _). }
  assert (Forall is_byte bytes) as Hb by (by apply parse_dataset_bytes_exact in Ep as (_ & [? _]%decode_hex_exact & _)).
  destruct (parse_tlvs bytes) as [tlvs|e] eqn:Et; cbn [mbind result_bind].
  2: { eexists. split; [done|]. intros bytes'. rewrite Hspec. split; [done|]. intros (? & [= <-] & ? & _). congruence. }
  apply parse_tlvs_exact in Et as Ec; [|done]. rewrite Ec in Hb.
  destruct (import_tlvs empty_scan tlvs) as [s|e] eqn:Ei; cbn [mbind result_bind].
  2: { eexists. split; [done|]. intros bytes'. rewrite Hspec. split; [done|]. intros (tlvs' & [= <-] & Et' & Hc). rewrite Et in Et'. injection Et' as <-.
       destruct (import_tlvs_some tlvs empty_scan) as (s' & ?); [apply (dc_nodup _ Hc)|by intros ?? ?%elem_of_nil| |congruence].
       pose proof (dc_tlvs _ Hc) as Hv. rewrite Forall_forall in Hv |- *. intros t Ht. apply valid_tlv_exact; [by eapply tlv_bytes|auto]. }
  apply import_tlvs_ok in Ei. case_bool_decide as Hm; cbn [negb].
  - pose proof (proj1 (missing_none s) Hm) as Hreq. destruct (import_end tlvs s Hb Ei Hreq) as (c & b & mask & -> & -> & Hcm & Hbit). rewrite Hcm. cbn [mbind option_bind].
    eexists. split; [done|]. intros bytes'. rewrite Hspec. split.
    + destruct b; cbn; [|done]. intros [= <-]. exists tlvs. split_and!; [done|done|]. by apply Hbit.
    + intros (tlvs' & [= <-] & Et' & Hc). rewrite Et in Et'. injection Et' as <-. apply Hbit in Hc as ->. done.
  - eexists. split; [done|]. intros bytes'. rewrite Hspec. split; [done|]. intros (tlvs' & [= <-] & Et' & Hc). rewrite Et in Et'. injection Et' as <-.
    destruct Hm. apply (proj2 (missing_none s)). intros k Hk. apply (sc_seen _ _ _ Ei). right. by apply (dc_required _ Hc).
Qed.

(** ** Credentials of an imported dataset *)
Lemma hex_char_not_space d r : 0 <= d < 16 -> strip_space (String (hex_char d) r) = None.
Proof.
  intros H. assert (d ∈ [0; 1; 2; 3; 4; 5; 6; 7; 8; 9; 10; 11; 12; 13; 14; 15]) as Hd by (rewrite !elem_of_cons; lia).
  repeat (apply elem_of_cons in Hd as [->|Hd]; [destruct r as [|? []]; reflexivity|]). by apply elem_of_nil in Hd.
Qed.
Lemma trim_end_hex bytes : Forall is_byte bytes -> trim_end (encode_hex bytes) = encode_hex bytes.
Proof.
  assert (forall d r, 0 <= d < 16 -> trim_is_empty (String (hex_char d) r) = false) as Hd
    by (intros d r Hd; by rewrite trim_is_empty_step, hex_char_not_space).
  induction 1 as [|v vs Hv _ IH]; [done|]. cbn [encode_hex trim_end]. unfold is_byte in Hv.
  rewrite !Hd, IH; [done|..]; [apply Z.mod_pos_bound; lia|]. pose proof (Z.div_mod v 16). pose proof (Z.mod_pos_bound v 16). lia.
Qed.
Lemma trim_hex bytes : Forall is_byte bytes -> trim (encode_hex bytes) = encode_hex bytes.
Proof.
  intros Hb. unfold trim. rewrite trim_start_none; [by apply trim_end_hex|]. destruct Hb as [|v vs Hv _]; [done|].
  cbn [encode_hex]. apply hex_char_not_space. unfold is_byte in Hv. pose proof (Z.div_mod v 16). pose proof (Z.mod_pos_bound v 16). lia.
Qed.
(** A type that occurs once determines the credential. *)
Lemma credential_other k tlvs : k ∉ map tlv_kind tlvs -> forall old, fold_left (credential k) tlvs old = old.
Proof.
  induction tlvs as [|t tlvs IH]; intros Hk old; [done|]. cbn [map] in Hk. cbn [fold_left]. rewrite IH by set_solver.
  unfold credential. destruct (Z.eqb_spec (tlv_kind t) k); [set_solver|done].
Qed.
Lemma credential_once k tlvs t : NoDup (map tlv_kind tlvs) -> t ∈ tlvs -> tlv_kind t = k -> length (tlv_value t) = 16%nat ->
  forall old, fold_left (credential k) tlvs old = Some (encode_hex (tlv_value t)).
Proof.
  intros Hd Ht Hk Hl. induction Ht as [t tlvs|t u tlvs Ht IH]; cbn [map] in Hd; apply NoDup_cons in Hd as [Hn Hd]; intros old; cbn [fold_left].
  - rewrite Hk in Hn. rewrite credential_other by done. unfold credential. rewrite Hk, Z.eqb_refl. cbn [andb].
    replace (zlen (tlv_value t) =? 16) with true; [done|]. symmetry. by apply (zlen_eqb _ 16).
  - by apply IH.
Qed.
Lemma find_kind k tlvs t : NoDup (map tlv_kind tlvs) -> t ∈ tlvs -> tlv_kind t = k -> List.find (fun t => tlv_kind t =? k) tlvs = Some t.
Proof.
  intros Hd Ht Hk. induction Ht as [t tlvs|t u tlvs Ht IH]; cbn [map] in Hd; apply NoDup_cons in Hd as [Hn Hd]; cbn [List.find].
  - by rewrite Hk, Z.eqb_refl.
  - destruct (Z.eqb_spec (tlv_kind u) k) as [E|_]; [|by apply IH]. destruct Hn. rewrite E, <- Hk. by apply list_elem_of_fmap_2.
Qed.

(** C34. Importing a dataset never panics, and it is accepted exactly when its
    text is the hexadecimal encoding (in any case of the digits, and with white
    space around it) of at most 254 bytes that are a sequence of entries, each
    type once and well-formed, all required types present, and the selected
    channel enabled by the channel mask; the bytes are then those encoded. *)
Theorem import_dataset_exact text : exists answer,
  parse_imported_dataset text = Some answer
  /\ forall bytes, answer = Ok bytes <->
       Forall is_byte bytes /\ encode_hex bytes = str_map to_ascii_lowercase (trim text)
       /\ zlen bytes <= MAX_OPERATIONAL_DATASET_BYTES
       /\ exists tlvs, bytes = concat (map encode_tlv tlvs) /\ dataset_conforms tlvs.
Proof. apply import_spec. Qed.
(** C36. An accepted dataset survives the round trip: the text exposed for it
    imports to the same bytes, its network key and PSKc are the hexadecimal
    values of their only entries, and its mesh-local prefix is that of the
    entry, which begins with fd. *)
Theorem imported_dataset_roundtrip text bytes : parse_imported_dataset text = Some (Ok bytes) ->
  exists dataset key secret prefix,
    parse_active_dataset_bytes bytes = Ok dataset
    /\ parse_imported_dataset (active_dataset_tlvs dataset) = Some (Ok bytes)
    /\ network_key dataset = Some (encode_hex key) /\ pskc dataset = Some (encode_hex secret)
    /\ parse_mesh_local_prefix bytes = Ok (Some (253 :: prefix))
    /\ exists tlvs, bytes = concat (map encode_tlv tlvs)
       /\ {| tlv_kind := NETWORK_KEY_TLV; tlv_value := key |} ∈ tlvs
       /\ {| tlv_kind := PSKC_TLV; tlv_value := secret |} ∈ tlvs
       /\ {| tlv_kind := MESH_LOCAL_PREFIX_TLV; tlv_value := 253 :: prefix |} ∈ tlvs.
Proof.
  intros H. destruct (import_spec text) as (answer & E & Hspec). rewrite H in E. injection E as <-.
  destruct (proj1 (Hspec bytes) eq_refl) as (Hb & Ht & Hl & tlvs & Et & Hc). pose proof (dc_nodup _ Hc) as Hn.
  pose proof (dc_tlvs _ Hc) as Hv. rewrite Forall_forall in Hv.
  assert (forall k, k ∈ REQUIRED_ACTIVE_DATASET_TLVS -> exists v, {| tlv_kind := k; tlv_value := v |} ∈ tlvs) as Hk.
  { intros k Hk%(dc_required _ Hc). apply list_elem_of_fmap_1 in Hk as ([k' v] & -> & ?). by exists v. }
  destruct (Hk NETWORK_KEY_TLV) as (key & H5); [set_solver|]. destruct (Hk PSKC_TLV) as (secret & H4); [set_solver|].
  destruct (Hk MESH_LOCAL_PREFIX_TLV) as (prefix & H7); [set_solver|].
  destruct (tc_prefix _ (Hv _ H7) eq_refl) as (rest & Ep & Hrest). cbn [tlv_value] in Ep. subst prefix.
  pose proof (proj2 (parse_tlvs_exact bytes tlvs Hb) Et) as Eb.
  assert (parse_active_dataset_bytes bytes = Ok {| active_dataset_tlvs := encode_hex bytes;
            network_key := fold_left (credential NETWORK_KEY_TLV) tlvs None; pskc := fold_left (credential PSKC_TLV) tlvs None |}) as Ea.
  { unfold parse_active_dataset_bytes. rewrite Eb, (proj2 (Z.ltb_ge _ _) Hl). destruct bytes; [|done].
    destruct tlvs; [by apply elem_of_nil in H5|discriminate Et]. }
  eexists _, key, secret, rest. split; [exact Ea|]. cbn [active_dataset_tlvs network_key pskc].
  rewrite (credential_once _ _ _ Hn H5 eq_refl (tc_secret _ (Hv _ H5) (or_intror eq_refl))).
  rewrite (credential_once _ _ _ Hn H4 eq_refl (tc_secret _ (Hv _ H4) (or_introl eq_refl))).
  split_and!; [|done|done| |by exists tlvs].
  - destruct (import_spec (encode_hex bytes)) as (answer & -> & Hs). f_equal. apply Hs. rewrite trim_hex, encode_hex_lower by done. split_and!; try done. by exists tlvs.
  - unfold parse_mesh_local_prefix. rewrite Eb. cbn [mbind result_bind]. rewrite (find_kind MESH_LOCAL_PREFIX_TLV _ _ Hn H7 eq_refl). cbn [tlv_value].
    replace (zlen (253 :: rest) =? 8) with true; [done|]. symmetry. apply (zlen_eqb _ 8). simpl. by rewrite Hrest.
Qed.
Lemma imported_dataset_roundtrip_witness : exists bytes,
  parse_imported_dataset DEFAULT_DEVELOPMENT_DATASET_TLVS = Some (Ok bytes)
  /\ exists dataset, parse_active_dataset_bytes bytes = Ok dataset
     /\ parse_imported_dataset (active_dataset_tlvs dataset) = Some (Ok bytes).
Proof.
  eexists. split; [vm_compute; reflexivity|].
  destruct (imported_dataset_roundtrip DEFAULT_DEVELOPMENT_DATASET_TLVS _ ltac:(vm_compute; reflexivity)) as (dataset & _ & _ & _ & H1 & H2 & _).
  exists dataset. split; [exact H1|exact H2].
Defined.
