(* ===== verification/ThreadBus.v ===== *)
(** * The border router on D-Bus (crates/openthread-runtime/src/dbus.rs and the
    observations of types.rs)

    The OpenThread border router is a separate process.  [OtbrBus] is what it
    offers on D-Bus, an operation on its state that may fail; the definitions
    here are the typed operations the controller uses, translated from
    [OtbrDbus]. *)
From S2P Require Import Prelude Text ThreadDataset.
From Stdlib Require Import Ascii.

Local Open Scope Z_scope.
Local Abbreviation R := (result OpenThreadError).

(** ** Operations on a process

    An operation may change the process and fail: a state and error monad. *)
Definition action (S A : Type) : Type := S -> R A * S.
#[export] Instance action_ret S : MRet (action S) := fun _ a s => (Ok a, s).
#[export] Instance action_bind S : MBind (action S) := fun _ _ k m s =>
  match m s with (Ok a, s') => k a s' | (Err e, s') => (Err e, s') end.
(** A value or failure that is already there; the outcome of an operation, as a value. *)
Definition outcome {S A} (r : R A) : action S A := fun s => (r, s).
Definition attempt {S A} (m : action S A) : action S (R A) := fun s => let (r, s') := m s in (Ok r, s').
Lemma action_bind_ok {S A B} (m : action S A) (k : A -> action S B) s b s' :
  (m ≫= k) s = (Ok b, s') <-> exists a s1, m s = (Ok a, s1) /\ k a s1 = (Ok b, s').
Proof. unfold mbind, action_bind. destruct (m s) as [[a|e] s1]; [naive_solver|]. split; [done|]. by intros (? & ? & ? & _). Qed.
Lemma action_bind_err {S A B} (m : action S A) (k : A -> action S B) s e s' :
  (m ≫= k) s = (Err e, s') <-> m s = (Err e, s') \/ exists a s1, m s = (Ok a, s1) /\ k a s1 = (Err e, s').
Proof. unfold mbind, action_bind. destruct (m s) as [[a|e'] s1]; naive_solver. Qed.

(** ** Observations *)
Inductive ThreadRole := Disabled | Detached | Child | Router | Leader | Unknown (value : string).
#[export] Instance ThreadRole_eq_dec : EqDecision ThreadRole.
Proof. solve_decision. Defined.
Definition from_otbr (value : string) : ThreadRole :=
  if value =s? "disabled" then Disabled else if value =s? "detached" then Detached else if value =s? "child" then Child
  else if value =s? "router" then Router else if value =s? "leader" then Leader else Unknown value.
Definition role_as_str (r : ThreadRole) : string :=
  match r with
  | Disabled => "disabled" | Detached => "detached" | Child => "child" | Router => "router" | Leader => "leader" | Unknown v => v
  end.
Definition is_attached (r : ThreadRole) : bool := match r with Child | Router | Leader => true | _ => false end.
Record ThreadStatus := {
  ts_role : ThreadRole; ts_network_name : option string; ts_channel : option Z; ts_pan_id : option string;
  ts_extended_pan_id : option string; ts_mesh_local_prefix : option string; ts_addresses : list string;
}.
Record ThreadNetwork := {
  tn_network_name : option string; tn_pan_id : string; tn_extended_address : string; tn_extended_pan_id : option string;
  tn_channel : Z; tn_rssi : Z; tn_lqi : Z;
}.
Record ThreadRadioStatistics := {
  rs_cca_failure_rate : option Z; rs_latest_rssi : option Z; rs_monitor_sample_count : option Z; rs_tx_total : option Z;
  rs_rx_total : option Z; rs_tx_retries : option Z; rs_tx_errors : option Z; rs_rx_errors : option Z;
}.
Definition no_statistics : ThreadRadioStatistics :=
  {| rs_cca_failure_rate := None; rs_latest_rssi := None; rs_monitor_sample_count := None; rs_tx_total := None;
     rs_rx_total := None; rs_tx_retries := None; rs_tx_errors := None; rs_rx_errors := None |}.
(** What the router answers, with the fields the code reads. *)
Record ActiveScanResult := {
  as_extended_address : Z; as_network_name : string; as_extended_pan_id : Z; as_pan_id : Z; as_channel : Z; as_rssi : Z; as_lqi : Z;
}.
Record MacCounters := {
  mc_tx_total : Z; mc_tx_retry : Z; mc_tx_err_cca : Z; mc_tx_err_abort : Z; mc_tx_err_busy_channel : Z; mc_rx_total : Z;
  mc_rx_err_no_frame : Z; mc_rx_err_unknown_neighbor : Z; mc_rx_err_invalid_src_addr : Z; mc_rx_err_sec : Z; mc_rx_err_fcs : Z;
  mc_rx_err_other : Z;
}.
(** The arguments of [Attach]: network key, PAN id, name, extended PAN id, PSKc, channel mask. *)
Record AttachArguments := {
  aa_network_key : list Z; aa_pan_id : Z; aa_network_name : string; aa_extended_pan_id : Z; aa_pskc : list Z; aa_channel_mask : Z;
}.
(** The process on D-Bus: properties by name and type, and methods. *)
Class OtbrBus (S : Type) := {
  get_string : string -> action S string;
  get_integer : string -> action S Z;
  get_bytes : string -> action S (list Z);
  get_qualities : string -> action S (list (Z * Z));
  get_counters : string -> action S MacCounters;
  set_bytes : string -> list Z -> action S unit;
  call_unit : string -> action S unit;
  call_attach : AttachArguments -> action S unit;
  call_scan : action S (list ActiveScanResult);
  call_energy_scan : Z -> action S (list (Z * Z));
  introspect : action S string;
}.

(** ** Text of numbers and addresses *)
(** The [n] bytes of a number, most significant first, and [{:04x}], [{:016x}]. *)
Fixpoint be_bytes (n : nat) (v : Z) : list Z :=
  match n with O => [] | S n => be_bytes n (v / 256) ++ [v mod 256] end.
Definition hex4 (v : Z) : string := encode_hex (be_bytes 2 v).
Definition hex16 (v : Z) : string := encode_hex (be_bytes 8 v).
(** [{:x}] of a 16-bit number: no leading zeros. *)
Fixpoint drop_zeros (s : string) : string :=
  match s with String c (String _ _ as r) => if Ascii.eqb c "0" then drop_zeros r else s | _ => s end.
(** [Display] of an [Ipv6Addr]: its first longest run of at least two zero
    segments is abbreviated, and a mapped address ends in dotted form. *)
Fixpoint zero_run (l : list Z) : nat := match l with 0 :: r => S (zero_run r) | _ => 0%nat end.
Fixpoint longest_zeros (i : nat) (l : list Z) : nat * nat :=
  match l with
  | [] => (i, 0%nat)
  | _ :: r => let (j, n) := longest_zeros (S i) r in if (n <=? zero_run l)%nat then (i, zero_run l) else (j, n)
  end.
Definition segments_text (l : list Z) : string := join ":" (map (fun s => drop_zeros (hex4 s)) l).
Fixpoint segments_of (bytes : list Z) : list Z :=
  match bytes with hi :: lo :: r => be16 hi lo :: segments_of r | _ => [] end.
Definition ipv6_text (bytes : list Z) : string :=
  match segments_of bytes with
  | [0; 0; 0; 0; 0; 65535; a; b] =>
    "::ffff:" +:+ join "." (map int_to_string [a / 256; a mod 256; b / 256; b mod 256])
  | segments =>
    let (start, len) := longest_zeros 0 segments in
    if (1 <? len)%nat then segments_text (take start segments) +:+ "::" +:+ segments_text (drop (start + len) segments)
    else segments_text segments
  end.
Definition format_mesh_local_prefix (bytes : list Z) : option string :=
  if negb (zlen bytes =? 8) then None else Some (ipv6_text (bytes ++ replicate 8 0) +:+ "/64").
Definition mesh_local_prefix_from_dataset (dataset : list Z) : R (option string) :=
  prefix ← parse_mesh_local_prefix dataset; Ok (prefix ≫= format_mesh_local_prefix).
Definition saturating_add_u32 (a b : Z) : Z := Z.min Int.u32_max (a + b).
(** [i16::from(i8::from_ne_bytes([v]))]. *)
Definition signed_byte (v : Z) : Z := if v <? 128 then v else v - 256.
Example prefix_text : format_mesh_local_prefix [253; 53; 52; 65; 51; 209; 215; 62] = Some "fd35:3441:33d1:d73e::/64".
Proof. vm_compute. reflexivity. Qed.

(** ** The typed operations *)
(** [is_openthread_not_found]: a property the router does not have yet. *)
Definition is_openthread_not_found (e : OpenThreadError) : bool :=
  match e with Dbus (Some name) _ => name =s? "io.openthread.Error.NotFound" | _ => false end.
Definition if_present {A} (r : R A) : R (option A) :=
  match r with Ok v => Ok (Some v) | Err e => if is_openthread_not_found e then Ok None else Err e end.
Definition optional_property {A} (r : R A) (property : string) (warnings : list string) : option A * list string :=
  match r with
  | Ok v => (Some v, warnings)
  | Err e => (None, warnings ++ [property +:+ " is unavailable: " +:+ openthread_text e])
  end.
Definition nonempty (v : string) : option string := if str_is_empty v then None else Some v.
Definition nonzero (v : Z) : option Z := if v =? 0 then None else Some v.
Definition REQUIRED_CONTRACT : list string :=
  let q := String (ascii_of_N 34) "" in
  map (fun e => e.1 +:+ " name=" +:+ q +:+ e.2 +:+ q)
    [("method", "Attach"); ("method", "Detach"); ("method", "FactoryReset"); ("method", "Scan"); ("method", "EnergyScan");
     ("property", "DeviceRole"); ("property", "ActiveDatasetTlvs")].
Section bus.
Context {St : Type} `{!OtbrBus St}.
Definition bus_health_check : action St unit := _ ← get_string "DeviceRole"; mret tt.
Definition verify_capabilities : action St unit :=
  text ← introspect;
  match List.filter (fun c => negb (contains c text)) REQUIRED_CONTRACT with
  | [] => mret tt
  | missing => outcome (Err (TInvalidConfiguration
      ("otbr-agent does not provide the required D-Bus contract entries: " +:+ join ", " missing)))
  end.
Definition bus_dataset_if_present : action St (option (list Z)) :=
  r ← attempt (get_bytes "ActiveDatasetTlvs");
  outcome (match r with
           | Ok [] => Ok None
           | Ok dataset => Ok (Some dataset)
           | Err e => if is_openthread_not_found e then Ok None else Err e
           end).
Definition bus_dataset : action St (list Z) :=
  d ← bus_dataset_if_present;
  outcome (ok_or d (TInvalidDataset "the local Thread network has no Active Operational Dataset")).
(** The six properties are read by threads that are all joined. *)
Definition bus_status (addresses : list string) : action St ThreadStatus :=
  role ← attempt (get_string "DeviceRole");
  name ← attempt (get_string "NetworkName");
  channel ← attempt (get_integer "Channel");
  pan_id ← attempt (get_integer "PanId");
  extended_pan_id ← attempt (get_integer "ExtPanId");
  prefix ← attempt (get_bytes "MeshLocalPrefix");
  role ← outcome role;
  name ← outcome (if_present name);
  channel ← outcome (if_present channel);
  pan_id ← outcome (if_present pan_id);
  extended_pan_id ← outcome (if_present extended_pan_id);
  prefix ← outcome (if_present prefix);
  if str_is_empty role then outcome (Err (TInvalidResponse "OTBR returned an empty device role")) else
  prefix ← outcome (match prefix with
                    | Some (_ :: _ as bytes) =>
                      Some <$> ok_or (format_mesh_local_prefix bytes) (TInvalidResponse "OTBR returned a mesh-local prefix with an invalid length")
                    | _ => Ok None
                    end);
  prefix ← match prefix with
           | Some p => mret (Some p)
           | None => d ← bus_dataset_if_present;
                     match d with Some d => outcome (mesh_local_prefix_from_dataset d) | None => mret None end
           end;
  mret {| ts_role := from_otbr role; ts_network_name := name ≫= nonempty; ts_channel := channel ≫= nonzero;
          ts_pan_id := v ← pan_id; if (v =? 0) || (v =? 2 ^ 16 - 1) then None else Some (hex4 v);
          ts_extended_pan_id := v ← extended_pan_id; if (v =? 0) || (v =? 2 ^ 64 - 1) then None else Some (hex16 v);
          ts_mesh_local_prefix := prefix; ts_addresses := addresses |}.
Definition scan_result (r : ActiveScanResult) : ThreadNetwork :=
  {| tn_network_name := nonempty (as_network_name r); tn_pan_id := hex4 (as_pan_id r);
     tn_extended_address := hex16 (as_extended_address r); tn_extended_pan_id := Some (hex16 (as_extended_pan_id r));
     tn_channel := as_channel r; tn_rssi := as_rssi r; tn_lqi := as_lqi r |}.
Definition bus_scan_networks : action St (list ThreadNetwork) := rs ← call_scan; mret (map scan_result rs).
Definition bus_energy_scan (duration_ms : Z) : action St (list (Z * Z)) :=
  rs ← call_energy_scan duration_ms; mret (map (fun r => (r.1, signed_byte r.2)) rs).
Definition bus_channel_qualities : action St (list (Z * Z)) := get_qualities "ChannelMonitorAllChannelQualities".
(** The fallback property answers for the primary one, whose error is kept. *)
Definition mac_counters : action St MacCounters :=
  r ← attempt (get_counters "MacCounters");
  match r with
  | Ok c => mret c
  | Err e => r' ← attempt (get_counters "LinkCounters"); outcome (match r' with Ok c => Ok c | Err _ => Err e end)
  end.
Definition statistics_of (cca rssi samples : option Z) (counters : option MacCounters) : ThreadRadioStatistics :=
  {| rs_cca_failure_rate := cca; rs_latest_rssi := signed_byte <$> rssi; rs_monitor_sample_count := samples;
     rs_tx_total := mc_tx_total <$> counters; rs_rx_total := mc_rx_total <$> counters; rs_tx_retries := mc_tx_retry <$> counters;
     rs_tx_errors := (fun c => fold_left saturating_add_u32 [mc_tx_err_abort c; mc_tx_err_busy_channel c] (mc_tx_err_cca c)) <$> counters;
     rs_rx_errors := (fun c => fold_left saturating_add_u32
                       [mc_rx_err_unknown_neighbor c; mc_rx_err_invalid_src_addr c; mc_rx_err_sec c; mc_rx_err_fcs c; mc_rx_err_other c]
                       (mc_rx_err_no_frame c)) <$> counters |}.
Definition is_some {A} (o : option A) : bool := match o with Some _ => true | None => false end.
Definition bus_radio_statistics : action St (ThreadRadioStatistics * list string * bool) :=
  cca ← attempt (get_integer "CcaFailureRate");
  rssi ← attempt (get_integer "InstantRssi");
  samples ← attempt (get_integer "ChannelMonitorSampleCount");
  counters ← attempt mac_counters;
  let '(cca, w) := optional_property cca "CcaFailureRate" [] in
  let '(rssi, w) := optional_property rssi "InstantRssi" w in
  let '(samples, w) := optional_property samples "ChannelMonitorSampleCount" w in
  let '(counters, w) := optional_property counters "MAC counters" w in
  mret (statistics_of cca rssi samples counters, w, is_some cca || is_some rssi || is_some samples || is_some counters).
Definition bus_set_dataset (dataset : list Z) : action St unit := set_bytes "ActiveDatasetTlvs" dataset.
Definition bus_attach_current : action St unit := call_unit "Attach".
Definition bus_detach : action St unit := call_unit "Detach".
Definition bus_factory_reset : action St unit := call_unit "FactoryReset".
(** [Option::map(f).transpose()?.unwrap_or(d)]. *)
Definition parse_or {A} (f : string -> R A) (o : option string) (d : A) : R A := match o with Some v => f v | None => Ok d end.
(** [1_u32 << channel] at its width; the shift amount is taken modulo 32. *)
Definition bus_create_network (n : ValidatedCreateNetwork) : action St unit :=
  mask ← match cn_channel n with
         | Some c => mret (Z.shiftl 1 (c mod 32) mod 2 ^ 32)
         | None => get_integer "LinkSupportedChannelMask"
         end;
  key ← outcome (parse_or parse_network_key (cn_network_key n) []);
  pan_id ← outcome (parse_or parse_pan_id (cn_pan_id n) (2 ^ 16 - 1));
  extended_pan_id ← outcome (parse_or parse_extended_pan_id (cn_extended_pan_id n) (2 ^ 64 - 1));
  call_attach {| aa_network_key := key; aa_pan_id := pan_id; aa_network_name := cn_network_name n;
                 aa_extended_pan_id := extended_pan_id; aa_pskc := []; aa_channel_mask := mask |}.
End bus.

(** ** The interface of the controller *)
Class OtbrDbusControl (S : Type) := {
  health_check : action S unit;
  capabilities : action S unit;
  status : list string -> action S ThreadStatus;
  scan_networks : action S (list ThreadNetwork);
  energy_scan : Z -> action S (list (Z * Z));
  channel_qualities : action S (list (Z * Z));
  radio_statistics : action S (ThreadRadioStatistics * list string * bool);
  dataset_tlvs : action S (list Z);
  dataset_tlvs_if_present : action S (option (list Z));
  set_dataset_tlvs : list Z -> action S unit;
  attach_current_dataset : action S unit;
  detach : action S unit;
  factory_reset : action S unit;
  form_network : ValidatedCreateNetwork -> action S unit;
}.
#[export] Instance OtbrDbus {S} `{!OtbrBus S} : OtbrDbusControl S := {|
  health_check := bus_health_check; capabilities := verify_capabilities; status := bus_status; scan_networks := bus_scan_networks;
  energy_scan := bus_energy_scan; channel_qualities := bus_channel_qualities; radio_statistics := bus_radio_statistics;
  dataset_tlvs := bus_dataset; dataset_tlvs_if_present := bus_dataset_if_present; set_dataset_tlvs := bus_set_dataset;
  attach_current_dataset := bus_attach_current; detach := bus_detach; factory_reset := bus_factory_reset;
  form_network := bus_create_network;
|}.

(** ** What the router keeps

    The stored dataset, if any, and whether Thread is enabled.  Reads keep both;
    writes that succeed do what they say, and of those that fail only what is
    stated is known. *)
Class OtbrModel (S : Type) := { stored : S -> option (list Z); enabled : S -> bool }.
Definition keeps {S} `{!OtbrModel S} (s s' : S) : Prop := stored s' = stored s /\ enabled s' = enabled s.
Class OtbrControlLaws (S : Type) `{!OtbrDbusControl S, !OtbrModel S} : Prop := {
  law_nonempty s : stored s <> Some [];
  law_status addresses s r s' : status addresses s = (r, s') ->
    keeps s s' /\ forall st, r = Ok st -> (ts_role st = Disabled <-> enabled s = false);
  law_tlvs s r s' : dataset_tlvs s = (r, s') -> keeps s s' /\ forall d, r = Ok d -> stored s = Some d;
  law_present s r s' : dataset_tlvs_if_present s = (r, s') -> keeps s s' /\ forall d, r = Ok d -> stored s = d;
  law_set d s s' : d <> [] -> set_dataset_tlvs d s = (Ok tt, s') -> stored s' = Some d /\ enabled s' = enabled s;
  law_attach s r s' : attach_current_dataset s = (r, s') -> stored s' = stored s /\ (r = Ok tt -> enabled s' = true);
  law_detach s r s' : detach s = (r, s') -> stored s' = stored s /\ (r = Ok tt -> enabled s' = false);
  law_reset s s' : factory_reset s = (Ok tt, s') -> stored s' = None /\ enabled s' = false;
}.
(** The same of the process on D-Bus. *)
Class OtbrBusLaws (S : Type) `{!OtbrBus S, !OtbrModel S} : Prop := {
  bus_nonempty s : stored s <> Some [];
  bus_get_string p s r s' : get_string p s = (r, s') -> keeps s s';
  bus_get_integer p s r s' : get_integer p s = (r, s') -> keeps s s';
  bus_get_bytes p s r s' : get_bytes p s = (r, s') -> keeps s s';
  bus_role s v s' : get_string "DeviceRole" s = (Ok v, s') -> (v = "disabled" <-> enabled s = false);
  bus_tlvs s v s' : get_bytes "ActiveDatasetTlvs" s = (Ok v, s') -> v = default [] (stored s);
  bus_no_tlvs s e s' : get_bytes "ActiveDatasetTlvs" s = (Err e, s') -> is_openthread_not_found e = true -> stored s = None;
  bus_set_tlvs d s s' : d <> [] -> set_bytes "ActiveDatasetTlvs" d s = (Ok tt, s') -> stored s' = Some d /\ enabled s' = enabled s;
  bus_call_attach s r s' : call_unit "Attach" s = (r, s') -> stored s' = stored s /\ (r = Ok tt -> enabled s' = true);
  bus_call_detach s r s' : call_unit "Detach" s = (r, s') -> stored s' = stored s /\ (r = Ok tt -> enabled s' = false);
  bus_call_reset s s' : call_unit "FactoryReset" s = (Ok tt, s') -> stored s' = None /\ enabled s' = false;
}.
Section frames.
Context {S : Type} `{!OtbrModel S}.
#[export] Instance keeps_preorder : PreOrder keeps.
Proof. split; [by split|]. intros s1 s2 s3 [H1 H2] [H3 H4]. split; congruence. Qed.
(** An operation that keeps the dataset and the enabled state, whatever its outcome. *)
Definition reads {A} (m : action S A) : Prop := forall s r s', m s = (r, s') -> keeps s s'.
Lemma reads_ret {A} (a : A) : reads (mret a).
Proof. intros s r s' [= _ <-]. reflexivity. Qed.
Lemma reads_outcome {A} (r : R A) : reads (outcome r).
Proof. intros s r' s' [= _ <-]. reflexivity. Qed.
Lemma reads_attempt {A} (m : action S A) : reads m -> reads (attempt m).
Proof. intros H s r s'. unfold attempt. destruct (m s) as [r1 s1] eqn:E. intros [= _ <-]. by eapply H. Qed.
Lemma reads_bind {A B} (m : action S A) (k : A -> action S B) : reads m -> (forall a, reads (k a)) -> reads (m ≫= k).
Proof.
  intros H Hk s r s'. unfold mbind, action_bind. destruct (m s) as [[a|e] s1] eqn:E; intros E'.
  - etrans; [by eapply H|by eapply Hk].
  - injection E' as _ <-. by eapply H.
Qed.
End frames.
Create HintDb bus.
#[export] Hint Resolve reads_ret reads_outcome reads_attempt reads_bind : bus.

(** The typed operations meet the laws of the interface. *)
Section laws.
Context {S : Type} `{!OtbrBus S, !OtbrModel S} {Hlaws : OtbrBusLaws S}.
Lemma reads_string p : reads (get_string p).
Proof using Hlaws. intros s r s' E. by eapply bus_get_string. Qed.
Lemma reads_integer p : reads (get_integer p).
Proof using Hlaws. intros s r s' E. by eapply bus_get_integer. Qed.
Lemma reads_bytes p : reads (get_bytes p).
Proof using Hlaws. intros s r s' E. by eapply bus_get_bytes. Qed.
#[local] Hint Resolve reads_string reads_integer reads_bytes : bus.
Lemma reads_dataset_if_present : reads bus_dataset_if_present.
Proof using Hlaws. unfold bus_dataset_if_present. auto with bus. Qed.
#[local] Hint Resolve reads_dataset_if_present : bus.
Lemma reads_dataset : reads bus_dataset.
Proof using Hlaws. unfold bus_dataset. auto with bus. Qed.
Lemma reads_status addresses : reads (bus_status addresses).
Proof using Hlaws.
  unfold bus_status. repeat (apply reads_bind; [auto with bus|intros ?]). destruct (str_is_empty _); [auto with bus|].
  apply reads_bind; [auto with bus|intros p]. apply reads_bind; [|auto with bus]. destruct p; [auto with bus|].
  apply reads_bind; [auto with bus|intros []; auto with bus].
Qed.
Lemma dataset_if_present_ok s d s' : bus_dataset_if_present s = (Ok d, s') -> stored s = d.
Proof using Hlaws.
  unfold bus_dataset_if_present. intros (r & s1 & E & E')%action_bind_ok. unfold attempt in E.
  destruct (get_bytes "ActiveDatasetTlvs" s) as [r0 s0] eqn:Eg. injection E as -> ->. injection E' as E' _. destruct r as [v|e].
  - apply bus_tlvs in Eg as ->. pose proof (bus_nonempty s) as Hn. destruct (stored s) as [[|b v]|]; cbn in E'; by simplify_eq.
  - destruct (is_openthread_not_found e) eqn:En; [|done]. injection E' as <-. by eapply bus_no_tlvs.
Qed.
Lemma from_otbr_disabled v : from_otbr v = Disabled <-> v = "disabled".
Proof.
  unfold from_otbr. destruct (String.eqb_spec v "disabled") as [->|Hv]; [done|]. split; [|done].
  repeat (destruct (String.eqb _ _); [done|]). done.
Qed.
Lemma status_role addresses s st s' : bus_status addresses s = (Ok st, s') ->
  exists v s1, get_string "DeviceRole" s = (Ok v, s1) /\ ts_role st = from_otbr v.
Proof.
  unfold bus_status. intros (r & s1 & E & H)%action_bind_ok. unfold attempt in E.
  destruct (get_string "DeviceRole" s) as [r0 s0] eqn:Eg. injection E as -> ->.
  do 5 (apply action_bind_ok in H as (? & ? & _ & H)). apply action_bind_ok in H as (v & s2 & E & H). injection E as -> _.
  exists v, s1. split; [done|]. do 5 (apply action_bind_ok in H as (? & ? & _ & H)).
  destruct (str_is_empty v); [done|]. do 2 (apply action_bind_ok in H as (? & ? & _ & H)). injection H as <- _. done.
Qed.
#[export] Instance OtbrDbus_laws : OtbrControlLaws S.
Proof using Hlaws.
  split; cbn [status dataset_tlvs dataset_tlvs_if_present set_dataset_tlvs attach_current_dataset detach factory_reset OtbrDbus].
  - apply bus_nonempty.
  - intros addresses s r s' E. split; [by eapply reads_status|]. intros st ->. apply status_role in E as (v & s1 & E & ->).
    rewrite from_otbr_disabled. by eapply bus_role.
  - intros s r s' E. split; [by eapply reads_dataset|].
    intros d ->. apply action_bind_ok in E as (o & s1 & E%dataset_if_present_ok & E'). injection E' as E' _. apply ok_or_ok in E'. congruence.
  - intros s r s' E. split; [by eapply reads_dataset_if_present|]. intros d ->. by eapply dataset_if_present_ok.
  - apply bus_set_tlvs.
  - apply bus_call_attach.
  - apply bus_call_detach.
  - apply bus_call_reset.
Qed.
End laws.
