(* ===== verification/ThreadController.v ===== *)
(** * The Thread controller (crates/openthread-runtime/src/controller.rs)

    Observation of the border router and changes of its network: a change that
    is not observed afterwards is rolled back to the previous dataset.  Each
    operation runs under the lock its code takes: changes of the dataset
    exclude one another and every read. *)
From S2P Require Import Prelude Text BTree ThreadDataset ThreadBus.

Local Open Scope Z_scope.
Local Abbreviation R := (result OpenThreadError).

(** ** Scans *)
Inductive ThreadScanSource := NearbyNetworks | ChannelEnergy | ChannelUtilization | RadioStatistics | MeshDevices.
Inductive ThreadObservationState := Fresh | Stale | Unavailable.
#[export] Instance ThreadScanSource_eq_dec : EqDecision ThreadScanSource.
Proof. solve_decision. Defined.
#[export] Instance ThreadObservationState_eq_dec : EqDecision ThreadObservationState.
Proof. solve_decision. Defined.
Definition source_as_str (s : ThreadScanSource) : string :=
  match s with
  | NearbyNetworks => "nearby_networks" | ChannelEnergy => "channel_energy" | ChannelUtilization => "channel_utilization"
  | RadioStatistics => "radio_statistics" | MeshDevices => "mesh_devices"
  end.
Definition observation_as_str (s : ThreadObservationState) : string :=
  match s with Fresh => "fresh" | Stale => "stale" | Unavailable => "unavailable" end.
Record ThreadScanSourceStatus := {
  ss_source : ThreadScanSource; ss_state : ThreadObservationState; ss_observed_at : option Z; ss_error : option string;
}.
Record ThreadChannelDiagnostics := {
  cd_channel : Z; cd_max_rssi : option Z; cd_occupancy : option Z; cd_network_count : nat; cd_strongest_network_rssi : option Z;
}.
Record ThreadMeshDevice := {
  md_id : string; md_is_border_router : bool; md_extended_address : option string; md_mesh_local_eid_iid : option string;
  md_omr_ipv6_addresses : list string; md_hostname : option string; md_eui64 : option string; md_role : option string;
  md_full_thread_device : option bool; md_rx_on_when_idle : option bool; md_full_network_data : option bool;
  md_rloc16 : option string; md_rloc_address : option string; md_router_id : option Z; md_router_count : option Z;
  md_network_name : option string; md_extended_pan_id : option string; md_border_agent_id : option string;
  md_border_agent_state : option string; md_partition_id : option Z; md_leader_router_id : option Z; md_data_version : option Z;
  md_stable_data_version : option Z; md_created_at : option string; md_updated_at : option string;
}.
Record ThreadScan := {
  sn_channels : list ThreadChannelDiagnostics; sn_networks : list ThreadNetwork; sn_devices : list ThreadMeshDevice;
  sn_statistics : ThreadRadioStatistics; sn_sources : list ThreadScanSourceStatus; sn_warnings : list string;
}.
Definition fresh_source (source : ThreadScanSource) (now : Z) : ThreadScanSourceStatus :=
  {| ss_source := source; ss_state := Fresh; ss_observed_at := Some now; ss_error := None |}.
Definition unavailable_source (source : ThreadScanSource) (error : string) : ThreadScanSourceStatus :=
  {| ss_source := source; ss_state := Unavailable; ss_observed_at := None; ss_error := Some error |}.
Definition network_key_of (n : ThreadNetwork) : string :=
  match tn_extended_pan_id n with
  | Some id => id
  | None => tn_extended_address n +:+ ":" +:+ tn_pan_id n +:+ ":" +:+ int_to_string (tn_channel n)
  end.
Definition with_network_name (n : ThreadNetwork) (name : option string) : ThreadNetwork :=
  {| tn_network_name := name; tn_pan_id := tn_pan_id n; tn_extended_address := tn_extended_address n;
     tn_extended_pan_id := tn_extended_pan_id n; tn_channel := tn_channel n; tn_rssi := tn_rssi n; tn_lqi := tn_lqi n |}.
Definition merge_network (current network : ThreadNetwork) : ThreadNetwork :=
  if tn_rssi current <? tn_rssi network then network
  else match tn_network_name current, tn_network_name network with
       | None, Some name => with_network_name current (Some name)
       | _, _ => current
       end.
Definition add_network (unique : list (string * ThreadNetwork)) (n : ThreadNetwork) : list (string * ThreadNetwork) :=
  bt_insert (network_key_of n) (match bt_get (network_key_of n) unique with Some c => merge_network c n | None => n end) unique.
Definition deduplicate_networks (networks : list ThreadNetwork) : list ThreadNetwork := bt_values (fold_left add_network networks []).
Definition DIAGNOSTICS_DEADLINE : Z := 60 * 10 ^ 9.
Definition max_rssi_of (l : list Z) : option Z := match l with [] => None | r :: rest => Some (fold_left Z.max rest r) end.
Definition channel_diagnostics (energy occupancy : list (Z * Z)) (networks : list ThreadNetwork) (c : Z) : ThreadChannelDiagnostics :=
  let on := List.filter (fun n => tn_channel n =? c) networks in
  {| cd_channel := c; cd_max_rssi := snd <$> List.find (fun r => r.1 =? c) energy;
     cd_occupancy := snd <$> List.find (fun r => r.1 =? c) occupancy; cd_network_count := length on;
     cd_strongest_network_rssi := max_rssi_of (map tn_rssi on) |}.

(** ** The controller *)
Class OtbrRestControl (S : Type) := {
  rest_health_check : action S unit;
  verify_authentication : action S unit;
  scan_mesh_devices : action S (list ThreadMeshDevice);
}.
(** Clocks, in nanoseconds, and the addresses of the Thread interface. *)
Class ThreadHost (S : Type) := {
  instant_now : S -> Z * S;
  system_now : S -> Z * S;
  interface_addresses : action S (list string);
}.
Section controller.
Context {St : Type} `{!OtbrDbusControl St, !OtbrRestControl St, !ThreadHost St}.
Definition now_instant : action St Z := fun s => let (t, s') := instant_now s in (Ok t, s').
Definition now_system : action St Z := fun s => let (t, s') := system_now s in (Ok t, s').
Definition thread_health_check : action St unit := _ ← health_check; rest_health_check.
Definition startup_health_check : action St unit := _ ← thread_health_check; _ ← capabilities; verify_authentication.
Definition thread_status : action St ThreadStatus :=
  addresses ← attempt interface_addresses; status (match addresses with Ok l => l | Err _ => [] end).
Definition before_diagnostics_deadline {A} (started : Z) (source : string) (m : action St A) : action St A :=
  now ← now_instant;
  if DIAGNOSTICS_DEADLINE <=? now - started
  then outcome (Err (TControl ("the overall diagnostics deadline elapsed before " +:+ source))) else m.
(** One source: its value, with the statuses and warnings so far. *)
Definition observe_source {A} (started : Z) (source : ThreadScanSource) (deadline_name label : string) (m : action St (list A))
    (acc : list ThreadScanSourceStatus * list string) : action St (list A * (list ThreadScanSourceStatus * list string)) :=
  r ← attempt (before_diagnostics_deadline started deadline_name m);
  match r with
  | Ok v => now ← now_system; mret (v, (acc.1 ++ [fresh_source source now], acc.2))
  | Err e =>
    let error := label +:+ " is unavailable: " +:+ openthread_text e in
    mret ([], (acc.1 ++ [unavailable_source source error], acc.2 ++ [error]))
  end.
Definition observe_statistics (started : Z) (acc : list ThreadScanSourceStatus * list string)
    : action St (ThreadRadioStatistics * (list ThreadScanSourceStatus * list string)) :=
  now ← now_instant;
  '(statistics, warnings, available) ←
    (if DIAGNOSTICS_DEADLINE <=? now - started
     then mret (no_statistics, ["The overall diagnostics deadline elapsed before radio statistics"], false)
     else radio_statistics);
  if (available : bool)
  then at_ ← now_system; mret (statistics, (acc.1 ++ [fresh_source RadioStatistics at_], acc.2 ++ warnings))
  else let error := match warnings with [] => "Radio statistics are unavailable" | _ => join "; " warnings end in
       mret (statistics, (acc.1 ++ [unavailable_source RadioStatistics error], acc.2 ++ warnings)).
Definition scan_all : action St ThreadScan :=
  started ← now_instant;
  '(networks, acc) ← observe_source started NearbyNetworks "nearby-network discovery" "Nearby-network discovery" scan_networks ([], []);
  let networks := deduplicate_networks networks in
  '(energy, acc) ← observe_source started ChannelEnergy "channel energy scan" "Channel energy scan" (energy_scan 100) acc;
  '(occupancy, acc) ← observe_source started ChannelUtilization "channel utilization" "Channel utilization" channel_qualities acc;
  '(statistics, acc) ← observe_statistics started acc;
  '(devices, acc) ← observe_source started MeshDevices "mesh discovery" "Mesh discovery" scan_mesh_devices acc;
  mret {| sn_channels := map (channel_diagnostics energy occupancy networks) (seqZ 11 16); sn_networks := networks;
          sn_devices := devices; sn_statistics := statistics; sn_sources := acc.1; sn_warnings := acc.2 |}.
Definition active_dataset : action St ThreadActiveDataset := d ← dataset_tlvs; outcome (parse_active_dataset_bytes d).

(** *** Changes of the network *)
Definition was_enabled : action St bool := st ← status []; mret (negb (bool_decide (ts_role st = Disabled))).
Definition restore_dataset (previous : option (list Z)) (was_enabled : bool) : action St unit :=
  _ ← detach;
  match previous with
  | Some ((_ :: _) as dataset) =>
    _ ← set_dataset_tlvs dataset;
    if was_enabled then attach_current_dataset else mret tt
  | _ => factory_reset
  end.
Definition rollback_error (original : OpenThreadError) (previous : option (list Z)) (was_enabled : bool) : action St OpenThreadError :=
  r ← attempt (restore_dataset previous was_enabled);
  mret (match r with
        | Ok _ => TControl (openthread_text original +:+ "; the previous Thread network was restored")
        | Err rollback => TControl (openthread_text original +:+ "; restoring the previous Thread network also failed: " +:+ openthread_text rollback)
        end).
(** A change with its rollback. *)
Definition guarded_change (change : action St unit) : action St unit :=
  previous ← dataset_tlvs_if_present;
  enabled ← was_enabled;
  r ← attempt change;
  match r with
  | Ok _ => mret tt
  | Err e => e' ← rollback_error e previous enabled; outcome (Err e')
  end.
Definition verify_created_network (n : ValidatedCreateNetwork) : action St unit :=
  st ← status [];
  if negb (bool_decide (ts_network_name st = Some (cn_network_name n)))
  then outcome (Err (TInvalidResponse "OTBR created a network with an unexpected name")) else
  if is_some (cn_channel n) && negb (bool_decide (ts_channel st = cn_channel n))
  then outcome (Err (TInvalidResponse "OTBR created a network on an unexpected channel")) else
  if is_some (cn_pan_id n) && negb (bool_decide (ts_pan_id st = cn_pan_id n))
  then outcome (Err (TInvalidResponse "OTBR created a network with an unexpected PAN ID")) else
  if is_some (cn_extended_pan_id n) && negb (bool_decide (ts_extended_pan_id st = cn_extended_pan_id n))
  then outcome (Err (TInvalidResponse "OTBR created a network with an unexpected Extended PAN ID")) else
  d ← dataset_tlvs;
  dataset ← outcome (parse_active_dataset_bytes d);
  if is_some (cn_network_key n) && negb (bool_decide (network_key dataset = cn_network_key n))
  then outcome (Err (TInvalidResponse "OTBR created a network with an unexpected network key")) else mret tt.
Definition create_network (n : ValidatedCreateNetwork) : action St unit :=
  guarded_change (_ ← form_network n; verify_created_network n).
Definition import_active_dataset (dataset : list Z) : action St unit :=
  guarded_change (_ ← detach;
    _ ← set_dataset_tlvs dataset;
    _ ← attach_current_dataset;
    active ← dataset_tlvs;
    if negb (bool_decide (active = dataset))
    then outcome (Err (TInvalidResponse "OTBR did not activate the imported operational dataset")) else mret tt).
(** [None] of the bundled dataset would be a panic. *)
Definition ensure_default_development_network : action St bool :=
  d ← dataset_tlvs_if_present;
  match d with
  | Some _ => mret false
  | None =>
    match parse_imported_dataset DEFAULT_DEVELOPMENT_DATASET_TLVS with
    | Some r => dataset ← outcome r; _ ← import_active_dataset dataset; mret true
    | None => outcome (Err (TProcess "panic"))
    end
  end.
End controller.

(** ** Changes settle *)
Section changes.
Context {St : Type} `{!OtbrDbusControl St, !OtbrModel St} {Hlaws : OtbrControlLaws St}.
Implicit Types (s : St).
(** The previous network is back: its dataset and whether it was enabled;
    without a dataset, the router is reset. *)
Definition restored s s' : Prop :=
  stored s' = stored s /\ enabled s' = match stored s with Some _ => enabled s | None => false end.
Lemma restore_ok previous en s s' : previous <> Some [] -> restore_dataset previous en s = (Ok tt, s') ->
  stored s' = previous /\ enabled s' = match previous with Some _ => en | None => false end.
Proof using Hlaws.
  intros Hp. unfold restore_dataset. intros ([] & s1 & [_ Hd]%law_detach & E)%action_bind_ok. destruct previous as [[|b d]|]; [done| |by apply law_reset in E].
  apply action_bind_ok in E as ([] & s2 & E2 & E). apply law_set in E2 as [E2 E3]; [|done]. destruct en.
  - apply law_attach in E as [E4 E5]. split; [congruence|auto].
  - injection E as <-. split; [done|]. rewrite E3. by apply Hd.
Qed.
(** How a change with its rollback ends. *)
Inductive settled (change : action St unit) s : R unit -> St -> Prop :=
| settled_done s0 s' : keeps s s0 -> change s0 = (Ok tt, s') -> settled change s (Ok tt) s'
| settled_not_begun e s' : keeps s s' -> settled change s (Err e) s'
| settled_restored s0 s1 e s' : keeps s s0 -> change s0 = (Err e, s1) -> restored s s' ->
    settled change s (Err (TControl (openthread_text e +:+ "; the previous Thread network was restored"))) s'
| settled_failed s0 s1 e rollback s' : keeps s s0 -> change s0 = (Err e, s1) ->
    (restore_dataset (stored s) (enabled s) s1 = (Err rollback, s')) ->
    settled change s (Err (TControl (openthread_text e +:+ "; restoring the previous Thread network also failed: "
                                     +:+ openthread_text rollback))) s'.
Lemma was_enabled_ok s en s' : was_enabled s = (Ok en, s') -> keeps s s' /\ en = enabled s.
Proof using Hlaws.
  unfold was_enabled. intros (st & s1 & E & [= <- <-])%action_bind_ok. apply law_status in E as [Hk Hr]. split; [done|].
  specialize (Hr st eq_refl). case_bool_decide as Hd; cbn; [symmetry; tauto|]. destruct (enabled s); [done|]. tauto.
Qed.
Lemma was_enabled_reads : reads was_enabled.
Proof using Hlaws. apply reads_bind; [|intros ?; apply reads_ret]. intros s r s' E. by apply law_status in E as [? _]. Qed.
Lemma guarded_change_settles change s r s' : guarded_change change s = (r, s') -> settled change s r s'.
Proof using Hlaws.
  unfold guarded_change. intros E. unfold mbind at 1, action_bind at 1 in E.
  destruct (dataset_tlvs_if_present s) as [r1 s1] eqn:E1. apply law_present in E1 as [K1 H1]. destruct r1 as [previous|e]; [|injection E as <- <-; by constructor].
  specialize (H1 previous eq_refl). unfold mbind at 1, action_bind at 1 in E.
  destruct (was_enabled s1) as [[en|e] s2] eqn:E2; [|injection E as <- <-; constructor; etrans; [done|]; by eapply was_enabled_reads].
  apply was_enabled_ok in E2 as [K2 ->]. unfold mbind at 1, action_bind at 1, attempt in E.
  destruct (change s2) as [[[]|e] s3] eqn:E3; [injection E as <- <-; eapply settled_done; [|done]; by etrans|].
  assert (keeps s s2) as K by (by etrans). destruct K1 as [_ Ke].
  unfold rollback_error, mbind, action_bind, attempt in E. cbn in E. rewrite Ke, <- H1 in E.
  destruct (restore_dataset (stored s) (enabled s) s3) as [[[]|rb] s4] eqn:E4; injection E as <- <-.
  - eapply settled_restored; [done|done|]. by apply restore_ok in E4; [|apply law_nonempty].
  - by eapply settled_failed.
Qed.
(** The network the router reports after a creation. *)
Record created (n : ValidatedCreateNetwork) s : Prop := {
  cr_status : exists s0 st s1, status [] s0 = (Ok st, s1) /\ stored s0 = stored s /\ enabled s0 = enabled s
    /\ ts_network_name st = Some (cn_network_name n)
    /\ (cn_channel n <> None -> ts_channel st = cn_channel n) /\ (cn_pan_id n <> None -> ts_pan_id st = cn_pan_id n)
    /\ (cn_extended_pan_id n <> None -> ts_extended_pan_id st = cn_extended_pan_id n);
  cr_dataset : exists d dataset, stored s = Some d /\ parse_active_dataset_bytes d = Ok dataset
    /\ (cn_network_key n <> None -> network_key dataset = cn_network_key n);
}.
Lemma given_check {A} `{!EqDecision A} (o seen : option A) : is_some o && negb (bool_decide (seen = o)) = false -> o <> None -> seen = o.
Proof. destruct o; [|done]. cbn. intros H%negb_false_iff _. by apply bool_decide_eq_true in H. Qed.
Lemma verify_created n s s' : verify_created_network n s = (Ok tt, s') -> created n s'.
Proof using Hlaws.
  unfold verify_created_network. intros (st & s1 & E1 & E)%action_bind_ok. pose proof (law_status _ _ _ _ E1) as [[K1 K2] _].
  case_bool_decide as Hn; cbn [negb] in E; [|done].
  destruct (is_some (cn_channel n) && _) eqn:Hc in E; [done|]. destruct (is_some (cn_pan_id n) && _) eqn:Hp in E; [done|].
  destruct (is_some (cn_extended_pan_id n) && _) eqn:Hx in E; [done|].
  apply action_bind_ok in E as (d & s2 & E2 & E). pose proof (law_tlvs _ _ _ E2) as [[K3 K4] Hd]. specialize (Hd d eq_refl).
  apply action_bind_ok in E as (dataset & s3 & [= Ed <-] & E). destruct (is_some (cn_network_key n) && _) eqn:Hk in E; [done|]. injection E as <-.
  split; [|exists d, dataset; split_and!; [congruence|done|by apply given_check]].
  exists s, st, s1. split_and!; try done; try congruence; by apply given_check.
Qed.
(** The end of an import that activates its dataset. *)
Lemma activated dataset s s' : dataset <> [] ->
  (_ ← detach; _ ← set_dataset_tlvs dataset; _ ← attach_current_dataset; active ← dataset_tlvs;
   if negb (bool_decide (active = dataset))
   then outcome (Err (TInvalidResponse "OTBR did not activate the imported operational dataset")) else mret tt) s = (Ok tt, s') ->
  stored s' = Some dataset /\ enabled s' = true.
Proof using Hlaws.
  intros Hd. intros (? & s1 & _ & E)%action_bind_ok. apply action_bind_ok in E as ([] & s2 & _ & E).
  apply action_bind_ok in E as ([] & s3 & [_ H3]%law_attach & E). apply action_bind_ok in E as (active & s4 & [[K1 K2] K3]%law_tlvs & E).
  case_bool_decide as Ha; [|done]. injection E as <-. specialize (K3 active eq_refl). rewrite K1, K2, K3, Ha. auto.
Qed.
End changes.

(** ** Claims *)
Section atomic.
Context {St : Type} `{!OtbrDbusControl St, !OtbrModel St} {Hlaws : OtbrControlLaws St}.
Implicit Types (s : St).
(** A change succeeded as [done] says, was not begun, was rolled back, or its
    rollback failed too, and the error tells which. *)
Definition settles s (done : Prop) (r : R unit) s' : Prop :=
  match r with
  | Ok _ => done
  | Err e => keeps s s'
             \/ (restored s s' /\ exists t, e = TControl (t +:+ "; the previous Thread network was restored"))
             \/ exists t rollback s1, e = TControl (t +:+ "; restoring the previous Thread network also failed: " +:+ openthread_text rollback)
                  /\ restore_dataset (stored s) (enabled s) s1 = (Err rollback, s')
  end.
Lemma settled_settles change s r s' (done : Prop) :
  (forall s0 s1, change s0 = (Ok tt, s1) -> s1 = s' -> done) -> settled change s r s' -> settles s done r s'.
Proof using Type.
  intros Hd Hs. revert Hd. destruct Hs as [s0 s1 K E|e s1 K|s0 s1 e s2 K E Hr|s0 s1 e rb s2 K E Hr]; intros Hd; cbn.
  - by eapply Hd.
  - by left.
  - right. left. split; [done|]. by eexists.
  - right. right. by eexists _, _, _.
Qed.
Lemma bundled_dataset_nonempty : exists d, d <> [] /\ parse_imported_dataset DEFAULT_DEVELOPMENT_DATASET_TLVS = Some (Ok d).
Proof using Type.
  destruct bundled_dataset as (d & Eb & Ea & _). exists d. split; [|exact Eb]. intros ->. discriminate Ea.
Qed.
(** C12. Changing the Thread network is all or nothing as far as the router
    obeys: when creating a network succeeds, the router reports the requested
    name, channel, identifiers and key; when an import succeeds, the router
    stores exactly that dataset and is enabled; when either fails, nothing was
    changed, or the previous dataset and enabled state are back and the error
    says so, or the rollback itself failed and the error says so.  The
    development network is seeded only into a router without a dataset. *)
Theorem network_change_atomic s :
  (forall n r s', create_network n s = (r, s') -> settles s (created n s') r s')
  /\ (forall d r s', d <> [] -> import_active_dataset d s = (r, s') -> settles s (stored s' = Some d /\ enabled s' = true) r s')
  /\ (forall r s', ensure_default_development_network s = (r, s') ->
        match r with
        | Ok false => keeps s s' /\ stored s <> None
        | Ok true => stored s = None /\ enabled s' = true
                     /\ exists d, parse_imported_dataset DEFAULT_DEVELOPMENT_DATASET_TLVS = Some (Ok d) /\ stored s' = Some d
        | Err e => exists s0, keeps s s0 /\ settles s0 False (Err e) s'
        end).
Proof using Hlaws.
  assert (forall d r s s', d <> [] -> import_active_dataset d s = (r, s') -> settles s (stored s' = Some d /\ enabled s' = true) r s') as Himport.
  { intros d r s0 s' Hd E%guarded_change_settles. eapply settled_settles; [|done]. intros s1 s2 E' <-. by eapply activated. }
  split_and!; [|by intros; eapply Himport|].
  - intros n r s' E%guarded_change_settles. eapply settled_settles; [|done]. intros s0 s1 (? & s2 & _ & E')%action_bind_ok <-.
    by eapply verify_created.
  - intros r s' E. unfold ensure_default_development_network, mbind, action_bind in E.
    destruct (dataset_tlvs_if_present s) as [[[d|]|e] s1] eqn:E1; apply law_present in E1 as [K H1].
    + injection E as <- <-. split; [done|]. by rewrite (H1 _ eq_refl).
    + destruct bundled_dataset_nonempty as (d & Hd & Eb). rewrite Eb in E. cbn [outcome] in E. cbv beta iota in E.
      destruct (import_active_dataset d s1) as [r2 s2] eqn:E2. apply Himport in E2; [|exact Hd]. destruct r2 as [[]|e]; injection E as <- <-.
      * destruct E2 as [E2 E3]. split; [exact (H1 _ eq_refl)|]. split; [exact E3|]. exists d. split; [exact Eb|exact E2].
      * exists s1. split; [exact K|exact E2].
    + injection E as <- <-. exists s1. split; [done|]. left. reflexivity.
Qed.
End atomic.


(** ** PAN id zero *)
Lemma attempt_ok {S A} (m : action S A) (s : S) r s' : attempt m s = (Ok r, s') -> m s = (r, s').
Proof. unfold attempt. destruct (m s). by intros [= -> ->]. Qed.
Lemma status_pan {S} `{!OtbrBus S} addresses (s : S) st s' p : bus_status addresses s = (Ok st, s') -> ts_pan_id st = Some p ->
  exists s1 v s2, get_integer "PanId" s1 = (Ok v, s2) /\ v <> 0 /\ p = hex4 v.
Proof.
  unfold bus_status. intros H Hp. do 2 (apply action_bind_ok in H as (? & ? & _ & H)). apply action_bind_ok in H as (? & s0 & _ & H).
  apply action_bind_ok in H as (r & s1 & E%attempt_ok & H). do 5 (apply action_bind_ok in H as (? & ? & _ & H)).
  apply action_bind_ok in H as (pan & ? & Epan & H). injection Epan as Epan _. do 2 (apply action_bind_ok in H as (? & ? & _ & H)).
  destruct (str_is_empty _); [done|]. do 2 (apply action_bind_ok in H as (? & ? & _ & H)). injection H as <- _. cbn [ts_pan_id] in Hp.
  apply bind_Some in Hp as (v & -> & Hv). exists s0, v, s1. destruct r as [v'|e]; cbn in Epan.
  - injection Epan as ->. split; [done|]. destruct (Z.eqb_spec v 0); [done|]. split; [done|]. cbn [orb] in Hv. destruct (v =? _); [done|]. by injection Hv as <-.
  - by destruct (is_openthread_not_found e).
Qed.
Lemma hex4_zero v : 0 <= v < 2 ^ 16 -> hex4 v = "0000" -> v = 0.
Proof.
  intros Hv H. assert (be_bytes 2 v = [0; 0]) as E.
  { assert (decode_hex "0000" = Some (be_bytes 2 v)) as E.
    { apply decode_hex_exact. split; [cbn [be_bytes app]; repeat constructor; apply Z.mod_pos_bound; lia|]. change (str_map to_ascii_lowercase "0000") with "0000". by rewrite <- H. }
    assert (decode_hex "0000" = Some [0; 0]) as E0 by reflexivity. rewrite E0 in E. symmetry. by apply (inj Some) in E. }
  cbn in E. injection E as E1 E2. pose proof (Z.div_mod v 256). pose proof (Z.div_mod (v / 256) 256).
  assert (v / 256 / 256 = 0) as E3 by (rewrite Z.div_div by lia; apply Z.div_small; lia). lia.
Qed.
(** The PAN id 0000 is accepted for a new network, but the status never reports
    it, so such a network is never verified and always rolled back. *)
Lemma pan_zero_never_created {S} `{!OtbrBus S, !OtbrModel S, !OtbrBusLaws S} name channel ext key n (s : S) :
  (forall s v s', get_integer "PanId" s = (Ok v, s') -> 0 <= v < 2 ^ 16) ->
  normalize_create_network name channel (Some "0000") ext key = Ok n -> (create_network n s).1 <> Ok tt.
Proof.
  intros Hr Hn. assert (cn_pan_id n = Some "0000") as Hp.
  { unfold normalize_create_network in Hn. destruct (trim name !=s name); [discriminate Hn|].
    destruct (str_is_empty name || (16 <? str_len name) || negb (str_is_ascii name)); [discriminate Hn|].
    destruct (negb (str_forall (fun c => negb (is_ascii_control c)) name)); [discriminate Hn|].
    destruct (match channel with Some c => negb (between 11 26 c) | None => false end); [discriminate Hn|].
    change (normalize_optional_hex "Thread PAN ID" (Some "0000") 4) with (Ok (E := OpenThreadError) (Some "0000")) in Hn.
    cbn [mbind result_bind] in Hn. destruct (bool_decide (Some "0000" = Some "ffff")); [discriminate Hn|].
    apply bind_ok in Hn as (x & _ & Hn). destruct (match x with Some _ => _ | None => _ end); [discriminate Hn|].
    apply bind_ok in Hn as (k & _ & Hn). by injection Hn as <-. }
  destruct (create_network n s) as [r s'] eqn:E. cbn. intros ->. apply guarded_change_settles in E. inversion E as [s0 s1 K E'| | |]; subst.
  apply action_bind_ok in E' as (? & s2 & _ & E'). apply verify_created in E' as [(s3 & st & s4 & Es & _ & _ & _ & _ & Hpan & _) _].
  rewrite Hp in Hpan. destruct (status_pan _ _ _ _ _ Es (Hpan ltac:(done))) as (? & v & ? & Ev & Hv & Et). apply Hr in Ev.
  symmetry in Et. by apply hex4_zero in Et.
Qed.

(** ** A router *)
(** It keeps a dataset, refuses one given dataset and has no other properties. *)
Record DemoRouter := { dr_dataset : option (list Z); dr_enabled : bool; dr_refused : list Z }.
Definition demo_not_found : OpenThreadError := Dbus (Some "io.openthread.Error.NotFound") "NotFound".
Definition demo_set (d : list Z) (s : DemoRouter) : R unit * DemoRouter :=
  if bool_decide (d = dr_refused s) || bool_decide (d = []) then (Err (TProcess "refused"), s)
  else (Ok tt, {| dr_dataset := Some d; dr_enabled := dr_enabled s; dr_refused := dr_refused s |}).
#[export] Instance demo_bus : OtbrBus DemoRouter := {|
  get_string p s := if p =s? "DeviceRole" then (Ok (if dr_enabled s then "leader" else "disabled"), s) else (Err demo_not_found, s);
  get_integer p s := (Err demo_not_found, s);
  get_bytes p s :=
    if p =s? "ActiveDatasetTlvs" then (Ok (match dr_dataset s with Some (b :: d) => b :: d | _ => [] end), s) else (Err demo_not_found, s);
  get_qualities p s := (Err demo_not_found, s);
  get_counters p s := (Err demo_not_found, s);
  set_bytes p d s := if p =s? "ActiveDatasetTlvs" then demo_set d s else (Err demo_not_found, s);
  call_unit m s :=
    if m =s? "Attach" then (Ok tt, {| dr_dataset := dr_dataset s; dr_enabled := true; dr_refused := dr_refused s |})
    else if m =s? "Detach" then (Ok tt, {| dr_dataset := dr_dataset s; dr_enabled := false; dr_refused := dr_refused s |})
    else if m =s? "FactoryReset" then (Ok tt, {| dr_dataset := None; dr_enabled := false; dr_refused := dr_refused s |})
    else (Err demo_not_found, s);
  call_attach a s := (Err demo_not_found, s);
  call_scan s := (Ok [], s);
  call_energy_scan d s := (Ok [], s);
  introspect s := (Err demo_not_found, s);
|}.
#[export] Instance demo_model : OtbrModel DemoRouter := {|
  stored s := match dr_dataset s with Some (b :: d) => Some (b :: d) | _ => None end; enabled := dr_enabled |}.
#[export] Instance demo_bus_laws : OtbrBusLaws DemoRouter.
Proof.
  split; unfold keeps; cbn.
  - intros [[[|? ?]|] ? ?]; cbn; done.
  - intros p s r s'. destruct (p =s? _); by intros [= _ <-].
  - by intros p s r s' [= _ <-].
  - intros p s r s'. destruct (p =s? _); by intros [= _ <-].
  - intros [d [] x] v s' [= <- _]; cbn; by split.
  - intros [[[|? ?]|] ? ?] v s' [= <- _]; done.
  - done.
  - intros d s s' Hd. unfold demo_set. destruct (bool_decide (d = dr_refused s) || bool_decide (d = [])); [done|].
    intros [= <-]. cbn. by destruct d.
  - by intros s r s' [= <- <-].
  - by intros s r s' [= <- <-].
  - by intros s s' [= <-].
Qed.
Definition demo_router : DemoRouter := {| dr_dataset := Some [1; 0]; dr_enabled := true; dr_refused := [9] |}.
Lemma network_change_atomic_witness :
  (exists s', import_active_dataset [7; 7] demo_router = (Ok tt, s') /\ stored s' = Some [7; 7] /\ enabled s' = true)
  /\ (exists e s', import_active_dataset [9] demo_router = (Err e, s') /\ s' = demo_router
       /\ settles demo_router (stored s' = Some [9] /\ enabled s' = true) (Err e) s').
Proof.
  split.
  - eexists. split; [vm_compute; reflexivity|].
    refine (proj1 (proj2 (network_change_atomic demo_router)) [7; 7] (Ok tt) _ _ _); [discriminate|vm_compute; reflexivity].
  - eexists _, _. split; [vm_compute; reflexivity|]. split; [reflexivity|].
    refine (proj1 (proj2 (network_change_atomic demo_router)) [9] (Err _) _ _ _); [discriminate|vm_compute; reflexivity].
Defined.

(** ** Scans *)
Lemma merge_network_key c n : network_key_of c = network_key_of n -> network_key_of (merge_network c n) = network_key_of n.
Proof. intros E. unfold merge_network. destruct (tn_rssi c <? tn_rssi n); [done|]. by destruct (tn_network_name c), (tn_network_name n). Qed.
Lemma merge_network_rssi c n : tn_rssi (merge_network c n) = Z.max (tn_rssi c) (tn_rssi n).
Proof.
  unfold merge_network. destruct (Z.ltb_spec (tn_rssi c) (tn_rssi n)); [lia|]. destruct (tn_network_name c), (tn_network_name n); simpl; lia.
Qed.
(** The networks merged so far, by key: the strongest signal of each. *)
Record merged (networks : list ThreadNetwork) (u : list (string * ThreadNetwork)) : Prop := {
  mg_sorted : bt_sorted u;
  mg_keys : forall k m, bt_get k u = Some m -> network_key_of m = k;
  mg_strongest : forall k m, bt_get k u = Some m ->
    (exists n, n ∈ networks /\ network_key_of n = k /\ tn_rssi n = tn_rssi m)
    /\ forall n, n ∈ networks -> network_key_of n = k -> tn_rssi n <= tn_rssi m;
  mg_all : forall n, n ∈ networks -> is_Some (bt_get (network_key_of n) u);
}.
Lemma merged_step networks u n : merged networks u -> merged (networks ++ [n]) (add_network u n).
Proof.
  intros [Hs Hk Hm Ha]. unfold add_network. set (k := network_key_of n). split.
  - by apply bt_insert_sorted.
  - intros k' m. rewrite bt_get_insert. destruct (String.eqb_spec k k') as [<-|]; [|by apply Hk].
    intros [= <-]. destruct (bt_get k u) as [c|] eqn:E; [|done]. apply merge_network_key. by rewrite (Hk _ _ E).
  - intros k' m. rewrite bt_get_insert. destruct (String.eqb_spec k k') as [<-|Hne].
    + intros [= <-]. destruct (bt_get k u) as [c|] eqn:E.
      * destruct (Hm _ _ E) as [(n' & Hn' & Ek & Er) Hmax]. rewrite merge_network_rssi. split.
        -- destruct (Z.max_spec (tn_rssi c) (tn_rssi n)) as [[_ ->]|[_ ->]]; [exists n; set_solver|exists n'; set_solver].
        -- intros n'' [H| ->%list_elem_of_singleton]%elem_of_app Hk'; [|lia]. specialize (Hmax n'' H Hk'). lia.
      * split; [exists n; set_solver|]. intros n' [H| ->%list_elem_of_singleton]%elem_of_app Hk'; [|done].
        apply Ha in H as [? H]. rewrite Hk' in H. congruence.
    + intros E. destruct (Hm _ _ E) as [(n' & Hn' & Ek & Er) Hmax]. split; [exists n'; set_solver|].
      intros n'' [H| ->%list_elem_of_singleton]%elem_of_app Hk'; [auto|]. by destruct Hne.
  - intros n' H. rewrite bt_get_insert. destruct (String.eqb_spec k (network_key_of n')) as [|Hne]; [by eexists|].
    apply elem_of_app in H as [H| ->%list_elem_of_singleton]; [by apply Ha|by destruct Hne].
Qed.
Lemma merged_all networks : merged networks (fold_left add_network networks []).
Proof.
  induction networks as [|n networks IH] using rev_ind; [split; try done; [apply bt_sorted_nil|by intros ? ?%elem_of_nil]|].
  rewrite fold_left_app. by apply merged_step.
Qed.
(** A nearby mesh is reported once, with the strongest signal of its beacons. *)
Theorem networks_deduplicated networks :
  NoDup (map network_key_of (deduplicate_networks networks))
  /\ (forall n, n ∈ networks -> exists m, m ∈ deduplicate_networks networks /\ network_key_of m = network_key_of n /\ tn_rssi n <= tn_rssi m)
  /\ (forall m, m ∈ deduplicate_networks networks -> exists n, n ∈ networks /\ network_key_of n = network_key_of m /\ tn_rssi n = tn_rssi m).
Proof.
  destruct (merged_all networks) as [Hs Hk Hm Ha]. unfold deduplicate_networks. set (u := fold_left add_network networks []) in *.
  assert (forall k m, (k, m) ∈ u -> bt_get k u = Some m) as Hg by (intros; by apply bt_get_elem).
  split_and!.
  - assert (map network_key_of (bt_values u) = bt_keys u) as ->; [|by apply bt_sorted_keys_NoDup].
    assert (forall e, e ∈ u -> network_key_of e.2 = e.1) as He by (intros [k m] H; by apply Hk, Hg).
    clear -He. unfold bt_values, bt_keys. induction u as [|[k m] u IH]; [done|]. cbn. f_equal; [apply (He (k, m)); set_solver|]. apply IH. set_solver.
  - intros n Hn. destruct (Ha n Hn) as [m E]. exists m. split_and!; [|by apply Hk|by apply (Hm _ _ E)].
    unfold bt_values. apply list_elem_of_fmap. exists (network_key_of n, m). split; [done|]. by apply bt_get_Some_elem.
  - intros m ([k m'] & -> & H)%list_elem_of_fmap. apply Hg in H. destruct (Hm _ _ H) as [(n & ? & ? & ?) _]. exists n. cbn. by rewrite (Hk _ _ H).
Qed.
