(* ===== verification/ThreadScans.v ===== *)
(** * The shared scan of the Thread runtime (crates/openthread-runtime/src/runtime.rs,
    [refresh_scan_with] and its helpers)

    Requests for diagnostics share one running scan and one cached result.  The
    state is guarded by a mutex, a scan runs outside of it, and changes of the
    network invalidate what was observed before them. *)
From stdpp Require Import relations.
From S2P Require Import Prelude Text BTree ThreadDataset ThreadBus ThreadController.

Local Open Scope Z_scope.
Local Abbreviation R := (result OpenThreadError).

(** ** Merging observations *)
Definition with_channel (c : ThreadChannelDiagnostics) (max_rssi occupancy : option Z) (count : nat) (strongest : option Z)
    : ThreadChannelDiagnostics :=
  {| cd_channel := cd_channel c; cd_max_rssi := max_rssi; cd_occupancy := occupancy; cd_network_count := count;
     cd_strongest_network_rssi := strongest |}.
Definition with_sources (s : ThreadScan) (sources : list ThreadScanSourceStatus) : ThreadScan :=
  {| sn_channels := sn_channels s; sn_networks := sn_networks s; sn_devices := sn_devices s; sn_statistics := sn_statistics s;
     sn_sources := sources; sn_warnings := sn_warnings s |}.
(** The last entry of a channel, as collecting into a map keeps it. *)
Definition previous_channel (previous : ThreadScan) (c : Z) : option ThreadChannelDiagnostics :=
  List.find (fun d => cd_channel d =? c) (rev (sn_channels previous)).
Definition map_channels (previous current : ThreadScan) (f : ThreadChannelDiagnostics -> ThreadChannelDiagnostics -> ThreadChannelDiagnostics)
    : list ThreadChannelDiagnostics :=
  map (fun c => match previous_channel previous (cd_channel c) with Some p => f c p | None => c end) (sn_channels current).
(** The observations of a source, taken from the previous scan. *)
Definition take_source (source : ThreadScanSource) (previous current : ThreadScan) : ThreadScan :=
  let set := fun channels networks devices statistics =>
    {| sn_channels := channels; sn_networks := networks; sn_devices := devices; sn_statistics := statistics;
       sn_sources := sn_sources current; sn_warnings := sn_warnings current |} in
  match source with
  | NearbyNetworks =>
    set (map_channels previous current (fun c p => with_channel c (cd_max_rssi c) (cd_occupancy c) (cd_network_count p) (cd_strongest_network_rssi p)))
        (sn_networks previous) (sn_devices current) (sn_statistics current)
  | ChannelEnergy =>
    set (map_channels previous current (fun c p => with_channel c (cd_max_rssi p) (cd_occupancy c) (cd_network_count c) (cd_strongest_network_rssi c)))
        (sn_networks current) (sn_devices current) (sn_statistics current)
  | ChannelUtilization =>
    set (map_channels previous current (fun c p => with_channel c (cd_max_rssi c) (cd_occupancy p) (cd_network_count c) (cd_strongest_network_rssi c)))
        (sn_networks current) (sn_devices current) (sn_statistics current)
  | RadioStatistics => set (sn_channels current) (sn_networks current) (sn_devices current) (sn_statistics previous)
  | MeshDevices => set (sn_channels current) (sn_networks current) (sn_devices previous) (sn_statistics current)
  end.
Definition previous_status (previous : ThreadScan) (source : ThreadScanSource) : option ThreadScanSourceStatus :=
  List.find (fun st => bool_decide (ss_source st = source) && is_some (ss_observed_at st)) (sn_sources previous).
(** One turn of the loop over the sources of the current scan. *)
Definition merge_source (previous current : ThreadScan) (i : nat) : ThreadScan :=
  match sn_sources current !! i with
  | Some st =>
    if bool_decide (ss_state st = Unavailable)
    then match previous_status previous (ss_source st) with
         | Some p =>
           let st' := {| ss_source := ss_source st; ss_state := Stale; ss_observed_at := ss_observed_at p; ss_error := ss_error st |} in
           take_source (ss_source st) previous (with_sources current (<[i := st']> (sn_sources current)))
         | None => current
         end
    else current
  | None => current
  end.
Definition merge_scan_sources (current : ThreadScan) (previous : option ThreadScan) : ThreadScan :=
  match previous with
  | None => current
  | Some previous => fold_left (merge_source previous) (seq 0 (length (sn_sources current))) current
  end.
Definition mark_source_stale (error : string) (st : ThreadScanSourceStatus) : ThreadScanSourceStatus :=
  if is_some (ss_observed_at st)
  then {| ss_source := ss_source st; ss_state := Stale; ss_observed_at := ss_observed_at st;
          ss_error := match ss_error st with Some e => Some e | None => Some error end |}
  else st.
Definition mark_scan_stale (scan : ThreadScan) (error : string) : ThreadScan :=
  with_sources scan (map (mark_source_stale error) (sn_sources scan)).
Definition all_scan_sources_failed (scan : ThreadScan) : string :=
  match omap ss_error (sn_sources scan) with
  | [] => "all OpenThread diagnostics sources were unavailable"
  | failures => "all OpenThread diagnostics sources were unavailable: " +:+ join "; " failures
  end.

(** ** The cache *)
Record ThreadScanState := {
  sc_scan : option ThreadScan; sc_scanning : bool; sc_generation : Z; sc_completed_at : option Z;
  sc_completed_at_instant : option Z; sc_last_attempt_at : option Z; sc_error : option string;
}.
Record ThreadScanSnapshot := { sp_scan : option ThreadScan; sp_scanning : bool; sp_completed_at : option Z; sp_error : option string }.
Definition new_scan_state : ThreadScanState :=
  {| sc_scan := None; sc_scanning := false; sc_generation := 0; sc_completed_at := None; sc_completed_at_instant := None;
     sc_last_attempt_at := None; sc_error := None |}.
Definition scan_snapshot_from_state (s : ThreadScanState) : ThreadScanSnapshot :=
  {| sp_scan := sc_scan s; sp_scanning := sc_scanning s; sp_completed_at := sc_completed_at s; sp_error := sc_error s |}.
Definition scan_result_from_state (s : ThreadScanState) : R ThreadScanSnapshot :=
  match sc_scan s, sc_error s with
  | None, Some error => Err (TControl error)
  | _, _ => Ok (scan_snapshot_from_state s)
  end.
Definition invalidate_scan (s : ThreadScanState) : ThreadScanState :=
  {| sc_scan := None; sc_scanning := sc_scanning s; sc_generation := Int.wrapping_add_u64 (sc_generation s) 1; sc_completed_at := None;
     sc_completed_at_instant := None; sc_last_attempt_at := sc_last_attempt_at s; sc_error := None |}.
(** A turn of the loop of [refresh_scan_with] under the mutex: an answer, a
    scan to run for the generation, or waiting. *)
Inductive Turn := Answer (r : R ThreadScanSnapshot) | RunScan (generation : Z) | Wait.
Definition refresh_turn (requested_at max_age now : Z) (force : bool) (s : ThreadScanState) : Turn * ThreadScanState :=
  if match sc_last_attempt_at s with Some t => requested_at <=? t | None => false end then (Answer (scan_result_from_state s), s) else
  let fresh := match sc_completed_at_instant s with Some t => now - t <? max_age | None => false end in
  if negb force && fresh then (Answer (Ok (scan_snapshot_from_state s)), s) else
  if negb (sc_scanning s)
  then (RunScan (sc_generation s),
        {| sc_scan := sc_scan s; sc_scanning := true; sc_generation := sc_generation s; sc_completed_at := sc_completed_at s;
           sc_completed_at_instant := sc_completed_at_instant s; sc_last_attempt_at := sc_last_attempt_at s; sc_error := None |})
  else (Wait, s).
Definition attempted (s : ThreadScanState) (now : Z) : ThreadScanState :=
  {| sc_scan := sc_scan s; sc_scanning := false; sc_generation := sc_generation s; sc_completed_at := sc_completed_at s;
     sc_completed_at_instant := sc_completed_at_instant s; sc_last_attempt_at := Some now; sc_error := sc_error s |}.
Definition with_scan_error (s : ThreadScanState) (scan : option ThreadScan) (error : string) : ThreadScanState :=
  {| sc_scan := scan; sc_scanning := sc_scanning s; sc_generation := sc_generation s; sc_completed_at := sc_completed_at s;
     sc_completed_at_instant := sc_completed_at_instant s; sc_last_attempt_at := sc_last_attempt_at s; sc_error := Some error |}.
(** The end of a scan under the mutex; [None] is a scan that panicked, which is resumed. *)
Definition finish_scan (scan_generation now system_now : Z) (result : option (R ThreadScan)) (s : ThreadScanState)
    : option (R ThreadScanSnapshot) * ThreadScanState :=
  let s := attempted s now in
  match result with
  | None => (None, with_scan_error s (sc_scan s) "The OpenThread scan task panicked")
  | Some r =>
    let s' :=
      if sc_generation s =? scan_generation
      then match r with
           | Ok scan =>
             let fresh := List.filter (fun st => bool_decide (ss_state st = Fresh)) (sn_sources scan) in
             let merged := merge_scan_sources scan (sc_scan s) in
             match fresh with
             | [] => with_scan_error s (if is_some (sc_scan s) then Some merged else sc_scan s) (all_scan_sources_failed merged)
             | _ => {| sc_scan := Some merged; sc_scanning := sc_scanning s; sc_generation := sc_generation s;
                       sc_completed_at := Some system_now; sc_completed_at_instant := Some now;
                       sc_last_attempt_at := sc_last_attempt_at s; sc_error := None |}
             end
           | Err e =>
             let error := openthread_text e in
             with_scan_error s ((fun scan => mark_scan_stale scan error) <$> sc_scan s) error
           end
      else with_scan_error s (sc_scan s) (openthread_text NetworkChanged) in
    (Some (scan_result_from_state s'), s')
  end.

(** ** What a merged scan is made of *)
(** Every part of the scan was observed by a scan of [P]. *)
Record channel_made_of (P : ThreadScan -> Prop) (c : ThreadChannelDiagnostics) : Prop := {
  cm_energy : exists o d, P o /\ d ∈ sn_channels o /\ cd_channel d = cd_channel c /\ cd_max_rssi c = cd_max_rssi d;
  cm_occupancy : exists o d, P o /\ d ∈ sn_channels o /\ cd_channel d = cd_channel c /\ cd_occupancy c = cd_occupancy d;
  cm_networks : exists o d, P o /\ d ∈ sn_channels o /\ cd_channel d = cd_channel c /\ cd_network_count c = cd_network_count d
                            /\ cd_strongest_network_rssi c = cd_strongest_network_rssi d;
}.
Record made_of (P : ThreadScan -> Prop) (s : ThreadScan) : Prop := {
  mo_networks : exists o, P o /\ sn_networks s = sn_networks o;
  mo_devices : exists o, P o /\ sn_devices s = sn_devices o;
  mo_statistics : exists o, P o /\ sn_statistics s = sn_statistics o;
  mo_channels : Forall (channel_made_of P) (sn_channels s);
}.
Lemma made_of_self (P : ThreadScan -> Prop) s : P s -> made_of P s.
Proof. intros H. split; eauto. apply Forall_forall. intros c Hc. split; eauto 10. Qed.
Lemma channel_made_of_mono (P Q : ThreadScan -> Prop) c : (forall o, P o -> Q o) -> channel_made_of P c -> channel_made_of Q c.
Proof. intros H [(o1 & d1 & ? & ?) (o2 & d2 & ? & ?) (o3 & d3 & ? & ?)]. split; eauto 10. Qed.
Lemma made_of_mono (P Q : ThreadScan -> Prop) s : (forall o, P o -> Q o) -> made_of P s -> made_of Q s.
Proof.
  intros H [(o1 & ? & ?) (o2 & ? & ?) (o3 & ? & ?) Hc]. split; eauto. eapply Forall_impl; [done|]. intros c. by apply channel_made_of_mono.
Qed.
Lemma previous_channel_elem p c d : previous_channel p c = Some d -> d ∈ sn_channels p /\ cd_channel d = c.
Proof.
  unfold previous_channel. intros [H E]%find_some. split; [|by apply Z.eqb_eq]. by apply in_rev, list_elem_of_In in H.
Qed.
Lemma map_channels_made_of P previous current f :
  made_of P previous -> made_of P current ->
  (forall c p, channel_made_of P c -> channel_made_of P p -> cd_channel p = cd_channel c -> channel_made_of P (f c p)) ->
  Forall (channel_made_of P) (map_channels previous current f).
Proof.
  intros Hp Hc Hf. unfold map_channels. apply Forall_map. eapply Forall_impl; [apply (mo_channels _ _ Hc)|]. intros c H. cbn.
  destruct (previous_channel previous (cd_channel c)) as [p|] eqn:E; [|done]. apply previous_channel_elem in E as [E1 E2].
  apply Hf; [done| |done]. pose proof (mo_channels _ _ Hp) as Hp'. rewrite Forall_forall in Hp'. by apply Hp'.
Qed.
Lemma take_source_made_of P source previous current : made_of P previous -> made_of P current -> made_of P (take_source source previous current).
Proof.
  intros Hp Hc. pose proof Hp as [Hp1 Hp2 Hp3 Hp4]. pose proof Hc as [Hc1 Hc2 Hc3 Hc4].
  destruct source; cbn [take_source]; split; cbn [sn_networks sn_devices sn_statistics sn_channels]; try done;
    (apply map_channels_made_of; [done|done|]); intros c p [C1 C2 C3] [P1 P2 P3] E; split; cbn [with_channel cd_channel cd_max_rssi
      cd_occupancy cd_network_count cd_strongest_network_rssi]; try done; rewrite <- E; done.
Qed.
Lemma merge_source_made_of P previous current i : made_of P previous -> made_of P current -> made_of P (merge_source previous current i).
Proof.
  intros Hp Hc. unfold merge_source. destruct (sn_sources current !! i) as [st|]; [|done]. case_bool_decide; [|done].
  destruct (previous_status previous (ss_source st)) as [p|]; [|done]. apply take_source_made_of; [done|]. by destruct Hc.
Qed.
Lemma merge_made_of P current previous : (forall p, previous = Some p -> made_of P p) -> made_of P current ->
  made_of P (merge_scan_sources current previous).
Proof.
  destruct previous as [p|]; [|done]. intros Hp Hc. specialize (Hp p eq_refl). cbn [merge_scan_sources].
  generalize (seq 0 (length (sn_sources current))) as l. intros l. revert current Hc.
  induction l as [|i l IH]; intros current Hc; [done|]. cbn [fold_left]. apply IH. by apply merge_source_made_of.
Qed.
Lemma mark_scan_stale_made_of P s e : made_of P s -> made_of P (mark_scan_stale s e).
Proof. by intros []. Qed.

(** ** Requests and changes in parallel

    Requests take turns under the mutex; a scan observes the network under the
    read lock of the controller and a change is applied under its write lock.
    [w_epoch] counts the changes applied, [w_log] are the observations made. *)
Inductive Thread :=
| Asking (requested_at max_age : Z) (force : bool)
| Scanning (requested_at generation : Z) (force : bool)
| Observed (requested_at generation : Z) (force : bool) (epoch : nat) (outcome : option (R ThreadScan))
| Answered (requested_at : Z) (force : bool) (r : R ThreadScanSnapshot)
| Panicked
| Changing | Changed | ChangeDone.
Record World := {
  w_cache : ThreadScanState; w_clock : Z; w_epoch : nat; w_log : list (nat * ThreadScan); w_invalidations : Z; w_threads : gmap nat Thread;
}.
Definition start_world : World :=
  {| w_cache := new_scan_state; w_clock := 0; w_epoch := 0; w_log := []; w_invalidations := 0; w_threads := ∅ |}.
Definition set_thread (w : World) (t : nat) (p : Thread) : World :=
  {| w_cache := w_cache w; w_clock := w_clock w; w_epoch := w_epoch w; w_log := w_log w; w_invalidations := w_invalidations w;
     w_threads := <[t := p]> (w_threads w) |}.
Definition set_cache (w : World) (c : ThreadScanState) : World :=
  {| w_cache := c; w_clock := w_clock w; w_epoch := w_epoch w; w_log := w_log w; w_invalidations := w_invalidations w; w_threads := w_threads w |}.
Definition invalidate (w : World) : World :=
  {| w_cache := invalidate_scan (w_cache w); w_clock := w_clock w; w_epoch := w_epoch w; w_log := w_log w;
     w_invalidations := w_invalidations w + 1; w_threads := w_threads w |}.
Definition advance (w : World) (clock : Z) : World :=
  {| w_cache := w_cache w; w_clock := clock; w_epoch := w_epoch w; w_log := w_log w; w_invalidations := w_invalidations w; w_threads := w_threads w |}.
Definition change_network (w : World) : World :=
  {| w_cache := w_cache w; w_clock := w_clock w; w_epoch := S (w_epoch w); w_log := w_log w; w_invalidations := w_invalidations w;
     w_threads := w_threads w |}.
Definition observed (w : World) (o : option (R ThreadScan)) : World :=
  {| w_cache := w_cache w; w_clock := w_clock w; w_epoch := w_epoch w;
     w_log := match o with Some (Ok scan) => (w_epoch w, scan) :: w_log w | _ => w_log w end;
     w_invalidations := w_invalidations w; w_threads := w_threads w |}.
Definition after_turn (requested_at max_age : Z) (force : bool) (turn : Turn) : Thread :=
  match turn with
  | Answer r => Answered requested_at force r
  | RunScan generation => Scanning requested_at generation force
  | Wait => Asking requested_at max_age force
  end.
Inductive scan_step : World -> World -> Prop :=
| step_clock w clock : w_clock w <= clock -> scan_step w (advance w clock)
| step_request w t max_age force : w_threads w !! t = None -> scan_step w (set_thread w t (Asking (w_clock w) max_age force))
| step_turn w t requested_at max_age force turn c : w_threads w !! t = Some (Asking requested_at max_age force) ->
    refresh_turn requested_at max_age (w_clock w) force (w_cache w) = (turn, c) ->
    scan_step w (set_thread (set_cache w c) t (after_turn requested_at max_age force turn))
| step_observe w t requested_at generation force o : w_threads w !! t = Some (Scanning requested_at generation force) ->
    scan_step w (set_thread (observed w o) t (Observed requested_at generation force (w_epoch w) o))
| step_finish w t requested_at generation force epoch o system_now r c :
    w_threads w !! t = Some (Observed requested_at generation force epoch o) ->
    finish_scan generation (w_clock w) system_now o (w_cache w) = (r, c) ->
    scan_step w (set_thread (set_cache w c) t (match r with Some r => Answered requested_at force r | None => Panicked end))
(** A creation or an import invalidates before it changes the network; seeding
    the development network and restarts of the router do not. *)
| step_change w t : w_threads w !! t = None -> scan_step w (set_thread (invalidate w) t Changing)
| step_change_directly w t : w_threads w !! t = None -> scan_step w (set_thread w t Changing)
| step_apply w t : w_threads w !! t = Some Changing -> scan_step w (set_thread (change_network w) t Changed)
| step_mark_network_changed w t : w_threads w !! t = Some Changed -> scan_step w (set_thread (invalidate w) t ChangeDone).

(** The generation a running scan was started in. *)
Definition running (p : Thread) : option Z :=
  match p with Scanning _ g _ | Observed _ g _ _ _ => Some g | _ => None end.
Definition quiet (w : World) : Prop := forall t, w_threads w !! t <> Some Changed.
(** Observations of the present network. *)
Definition observed_now (w : World) (o : ThreadScan) : Prop := (w_epoch w, o) ∈ w_log w.
Definition attempt_since (w : World) (t : Z) : Prop := exists at_, sc_last_attempt_at (w_cache w) = Some at_ /\ t <= at_.
Record scans_ok (w : World) : Prop := {
  so_generation : sc_generation (w_cache w) = w_invalidations w mod 2 ^ 64;
  so_invalidations : 0 <= w_invalidations w;
  so_running : forall t p g, w_threads w !! t = Some p -> running p = Some g ->
    sc_scanning (w_cache w) = true /\ exists n, 0 <= n <= w_invalidations w /\ g = n mod 2 ^ 64;
  so_single : forall t t' p p', w_threads w !! t = Some p -> w_threads w !! t' = Some p' -> running p <> None -> running p' <> None -> t = t';
  so_scanning : sc_scanning (w_cache w) = true -> exists t p, w_threads w !! t = Some p /\ running p <> None;
  so_cache : w_invalidations w < 2 ^ 64 -> quiet w -> forall scan, sc_scan (w_cache w) = Some scan -> made_of (observed_now w) scan;
  so_observed : w_invalidations w < 2 ^ 64 -> quiet w -> forall t q g f e scan,
    w_threads w !! t = Some (Observed q g f e (Some (Ok scan))) -> g = sc_generation (w_cache w) -> observed_now w scan;
  so_clock : forall at_, sc_last_attempt_at (w_cache w) = Some at_ -> at_ <= w_clock w;
  so_requests : forall t p q, w_threads w !! t = Some p ->
    match p with Asking q' _ _ | Scanning q' _ _ | Observed q' _ _ _ _ => q = q' | _ => False end -> q <= w_clock w;
  so_answers : forall t q r, w_threads w !! t = Some (Answered q true r) -> attempt_since w q;
}.

Lemma lookup_set w t p t' p' : w_threads (set_thread w t p) !! t' = Some p' ->
  (t' = t /\ p' = p) \/ (t' <> t /\ w_threads w !! t' = Some p').
Proof. cbn. intros [[<- ->]|[? ?]]%lookup_insert_Some; [by left|]. by right. Qed.
Lemma scans_start_ok : scans_ok start_world.
Proof. split; cbn; try done; intros *; by rewrite ?lookup_empty. Qed.
Lemma clock_ok w clock : w_clock w <= clock -> scans_ok w -> scans_ok (advance w clock).
Proof.
  intros Hc [H1 H2 H3 H4 H5 H6 H7 H8 H9 H10]. split; try done; cbn.
  - intros at_ E. specialize (H8 at_ E). lia.
  - intros t p q E Hq. specialize (H9 t p q E Hq). lia.
Qed.
(** A thread that neither ran a scan nor runs one now. *)
Lemma idle_thread_ok w t p :
  scans_ok w -> (forall old, w_threads w !! t = Some old -> running old = None /\ old <> Changed) -> running p = None ->
  (forall q m f, p = Asking q m f -> q <= w_clock w) -> (forall q r, p = Answered q true r -> attempt_since w q) ->
  scans_ok (set_thread w t p).
Proof.
  intros [H1 H2 H3 H4 H5 H6 H7 H8 H9 H10] Hold Hp Hq Ha.
  assert (quiet (set_thread w t p) -> quiet w) as Hquiet.
  { intros H t' E. destruct (decide (t' = t)) as [->|Hne]; [by destruct (Hold _ E)|]. apply (H t'). cbn. by rewrite lookup_insert_ne. }
  split; try done.
  - intros t' p' g [[-> ->]|[_ E]]%lookup_set Hg; [congruence|]. by eapply H3.
  - intros t1 t2 p1 p2 [[-> ->]|[_ E1]]%lookup_set [[-> ->]|[_ E2]]%lookup_set; try done. by eapply H4.
  - intros Hs. destruct (H5 Hs) as (t' & p' & E & Hr). exists t', p'. split; [|done]. cbn. rewrite lookup_insert_ne; [done|].
    intros <-. by destruct (Hold _ E).
  - intros Hi Hqt. by apply H6, Hquiet.
  - intros Hi Hqt t' q g f e scan [[-> <-]|[_ E]]%lookup_set Hg; [done|]. by eapply H7; [..|apply Hquiet| |].
  - intros t' p' q [[-> ->]|[_ E]]%lookup_set Hm; [|by eapply H9]. destruct p; try done. subst. by eapply Hq.
  - intros t' q r [[_ E]|[_ E]]%lookup_set; [by eapply Ha|by eapply H10].
Qed.
Lemma invalidated_generation w : scans_ok w -> sc_generation (w_cache (invalidate w)) = w_invalidations (invalidate w) mod 2 ^ 64.
Proof. intros H. cbn. unfold Int.wrapping_add_u64. rewrite (so_generation w H). by rewrite Zplus_mod_idemp_l. Qed.
(** After an invalidation no running scan has the present generation. *)
Lemma invalidated_stale w t p g : scans_ok w -> w_invalidations (invalidate w) < 2 ^ 64 -> w_threads w !! t = Some p -> running p = Some g ->
  g <> sc_generation (w_cache (invalidate w)).
Proof.
  intros H Hi Ht Hg. rewrite (invalidated_generation w H). cbn in *. destruct (so_running w H t p g Ht Hg) as (_ & n & Hn & ->).
  rewrite !Z.mod_small by lia. lia.
Qed.
Lemma invalidate_ok w : scans_ok w -> scans_ok (invalidate w).
Proof.
  intros H. pose proof (invalidated_generation w H) as Hg. pose proof (invalidated_stale w) as Hst. pose proof H as [H1 H2 H3 H4 H5 H6 H7 H8 H9 H10].
  split; try done.
  - cbn. lia.
  - intros t p g E Hr. destruct (H3 t p g E Hr) as (? & n & ? & ?). split; [done|]. exists n. cbn. split; [lia|done].
  - intros Hi _ t q g f e scan E Eg. by destruct (Hst t _ g H Hi E).
Qed.
Lemma set_cache_same w : set_cache w (w_cache w) = w.
Proof. by destruct w. Qed.
Lemma turn_ok w t q max_age force turn c : scans_ok w -> w_threads w !! t = Some (Asking q max_age force) ->
  refresh_turn q max_age (w_clock w) force (w_cache w) = (turn, c) ->
  scans_ok (set_thread (set_cache w c) t (after_turn q max_age force turn)).
Proof.
  intros H Ht. unfold refresh_turn.
  assert (q <= w_clock w) as Hq by (by eapply (so_requests w H)).
  assert (forall old, w_threads w !! t = Some old -> running old = None /\ old <> Changed) as Hold
    by (intros old; rewrite Ht; by intros [= <-]).
  destruct (match sc_last_attempt_at (w_cache w) with Some t => q <=? t | None => false end) eqn:E1.
  { intros [= <- <-]. rewrite set_cache_same. apply idle_thread_ok; try done. intros q' r [= <- _ _]. unfold attempt_since.
    destruct (sc_last_attempt_at (w_cache w)) as [at_|]; [|done]. exists at_. split; [done|]. by apply Z.leb_le. }
  destruct (negb force && _) eqn:E2.
  { intros [= <- <-]. rewrite set_cache_same. apply idle_thread_ok; try done. intros q' r [= <- E _]. by rewrite E in E2. }
  destruct (sc_scanning (w_cache w)) eqn:E3; cbn [negb]; intros [= <- <-].
  - rewrite set_cache_same. apply idle_thread_ok; try done. by intros ??? [= <- _ _].
  - assert (forall t' p, w_threads w !! t' = Some p -> running p = None) as Hnone.
    { intros t' p E. destruct (running p) as [g|] eqn:Eg; [|done]. destruct (so_running w H t' p g E Eg). congruence. }
    pose proof H as [H1 H2 H3 H4 H5 H6 H7 H8 H9 H10]. split; try done.
    + intros t' p' g [[-> ->]|[_ E]]%lookup_set; [|by intros Hg; rewrite (Hnone _ _ E) in Hg]. intros [= <-]. split; [done|].
      exists (w_invalidations w). split; [cbn; lia|]. by rewrite H1.
    + intros t1 t2 p1 p2 [[-> ->]|[_ A1]]%lookup_set [[-> ->]|[_ A2]]%lookup_set Hr1 Hr2; try done; by rewrite (Hnone _ _ A1) in * || rewrite (Hnone _ _ A2) in *.
    + intros _. exists t, (Scanning q (sc_generation (w_cache w)) force). split; [by apply lookup_insert_eq|done].
    + intros Hi Hqt. apply H6; [done|]. intros t' E. apply (Hqt t'). cbn. rewrite lookup_insert_ne; [done|]. intros <-. by destruct (Hold _ E).
    + intros Hi Hqt t' q' g f e scan [[-> [=]]|[_ E]]%lookup_set Hg. specialize (Hnone _ _ E). done.
    + intros t' p' q' [[-> ->]|[_ E]]%lookup_set Hm; [by cbn in Hm; subst|by eapply H9].
    + intros t' q' r [[-> [=]]|[_ E]]%lookup_set. by eapply H10.
Qed.
Lemma observe_ok w t q g force o : scans_ok w -> w_threads w !! t = Some (Scanning q g force) ->
  scans_ok (set_thread (observed w o) t (Observed q g force (w_epoch w) o)).
Proof.
  intros H Ht. pose proof H as [H1 H2 H3 H4 H5 H6 H7 H8 H9 H10].
  assert (forall s, observed_now w s -> observed_now (observed w o) s) as Hmono by (intros s Hs; unfold observed_now; cbn; destruct o as [[|]|]; set_solver).
  assert (quiet (set_thread (observed w o) t (Observed q g force (w_epoch w) o)) -> quiet w) as Hquiet.
  { intros Hq t' E. destruct (decide (t' = t)) as [->|Hne]; [congruence|]. apply (Hq t'). cbn. by rewrite lookup_insert_ne. }
  split; try done.
  - intros t' p' g' [[-> ->]|[_ E]]%lookup_set; [|by eapply H3]. intros [= <-]. by eapply (H3 t).
  - assert (forall t' p, w_threads (set_thread (observed w o) t (Observed q g force (w_epoch w) o)) !! t' = Some p -> running p <> None ->
              exists p0, w_threads w !! t' = Some p0 /\ running p0 <> None) as Hw.
    { intros t' p [[-> ->]|[_ E]]%lookup_set Hr; eauto. }
    intros t1 t2 p1 p2 E1 E2 R1 R2. destruct (Hw _ _ E1 R1) as (? & ? & ?), (Hw _ _ E2 R2) as (? & ? & ?). by eapply H4.
  - intros _. exists t, (Observed q g force (w_epoch w) o). split; [by apply lookup_insert_eq|done].
  - intros Hi Hqt scan Es. eapply made_of_mono; [apply Hmono|]. by apply H6; [|apply Hquiet|].
  - intros Hi Hqt t' q' g' f e scan [[-> [= -> -> -> -> <-]]|[_ E]]%lookup_set Hg; [unfold observed_now; cbn; set_solver|].
    apply Hmono. by eapply H7; [|apply Hquiet| |].
  - intros t' p' q' [[-> ->]|[_ E]]%lookup_set Hm; [|by eapply H9]. cbn in Hm. subst. by eapply (H9 t).
  - intros t' q' r [[_ [=]]|[_ E]]%lookup_set. by eapply H10.
Qed.
(** What the end of a scan does to the cache. *)
Lemma finish_frame g now system_now o c0 r c : finish_scan g now system_now o c0 = (r, c) ->
  sc_generation c = sc_generation c0 /\ sc_scanning c = false /\ sc_last_attempt_at c = Some now.
Proof.
  unfold finish_scan. cbn [sc_generation sc_scan attempted]. destruct o as [[scan|e]|]; [| |by intros [= _ <-]]; (destruct (_ =? g); [|by intros [= _ <-]]).
  - destruct (List.filter _ _); by intros [= _ <-].
  - by intros [= _ <-].
Qed.
Lemma finish_made_of g now system_now o c0 r c P : finish_scan g now system_now o c0 = (r, c) ->
  (forall scan, sc_scan c0 = Some scan -> made_of P scan) ->
  (forall scan, o = Some (Ok scan) -> g = sc_generation c0 -> P scan) ->
  forall scan, sc_scan c = Some scan -> made_of P scan.
Proof.
  intros E Hc Ho. unfold finish_scan in E. cbn [sc_generation sc_scan attempted] in E. destruct o as [[scan|e]|]; [| |injection E as _ <-; done].
  - destruct (Z.eqb_spec (sc_generation c0) g) as [Eg|_]; [|injection E as _ <-; done].
    assert (made_of P (merge_scan_sources scan (sc_scan c0))) as Hm by (apply merge_made_of; [done|]; by apply made_of_self, Ho).
    destruct (List.filter _ _); injection E as _ <-; cbn.
    + destruct (sc_scan c0); cbn; [by intros ? [= <-]|done].
    + by intros ? [= <-].
  - destruct (Z.eqb_spec (sc_generation c0) g) as [_|_]; injection E as _ <-; try done; cbn.
    intros scan Es. destruct (sc_scan c0) as [old|]; [|done]. cbn in Es. injection Es as <-. by apply mark_scan_stale_made_of, Hc.
Qed.
Lemma finish_ok w t q g force e o system_now r c : scans_ok w -> w_threads w !! t = Some (Observed q g force e o) ->
  finish_scan g (w_clock w) system_now o (w_cache w) = (r, c) ->
  scans_ok (set_thread (set_cache w c) t (match r with Some r => Answered q force r | None => Panicked end)).
Proof.
  intros H Ht E. pose proof H as [H1 H2 H3 H4 H5 H6 H7 H8 H9 H10]. set (p := match r with Some r => Answered q force r | None => Panicked end).
  assert (running p = None) as Hp by (unfold p; by destruct r).
  assert (quiet (set_thread (set_cache w c) t p) -> quiet w) as Hquiet.
  { intros Hq t' E'. destruct (decide (t' = t)) as [->|Hne]; [congruence|]. apply (Hq t'). cbn. by rewrite lookup_insert_ne. }
  destruct (finish_frame _ _ _ _ _ _ _ E) as (Eg & Es & El).
  assert (forall t' p', w_threads (set_thread (set_cache w c) t p) !! t' = Some p' -> running p' = None) as Hnone.
  { intros t' p' [[-> ->]|[Hne E']]%lookup_set; [done|]. destruct (running p') as [g'|] eqn:Er; [|done]. destruct Hne. eapply H4; [done..| |done]. by rewrite Er. }
  assert (q <= w_clock w) as Hq by (by eapply (H9 t)).
  assert (forall q', q' <= w_clock w -> attempt_since (set_thread (set_cache w c) t p) q') as Ha by (intros q' Hq'; exists (w_clock w); by rewrite <- El).
  split.
  - cbn. by rewrite Eg.
  - done.
  - intros t' p' g' E' Hg. by rewrite (Hnone _ _ E') in Hg.
  - intros t1 t2 p1 p2 E1 E2 R1. by rewrite (Hnone _ _ E1) in R1.
  - cbn. by rewrite Es.
  - intros Hi Hqt. apply (finish_made_of _ _ _ _ _ _ _ _ E); [by apply H6; [|apply Hquiet]|].
    intros scan -> Hg. by eapply H7; [|apply Hquiet| |].
  - intros Hi Hqt t' q' g' f' e' scan E' Hg. by apply Hnone in E'.
  - cbn. rewrite El. by intros at_ [= <-].
  - intros t' p' q' [[-> ->]|[_ E']]%lookup_set Hm; [|by eapply H9]. unfold p in Hm. by destruct r.
  - intros t' q' r' [[-> E']|[_ E']]%lookup_set.
    + unfold p in E'. destruct r; [|done]. injection E' as -> _ _. by apply Ha.
    + apply Ha. destruct (H10 _ _ _ E') as (at_ & Hl & ?). specialize (H8 _ Hl). lia.
Qed.
Lemma apply_ok w t : scans_ok w -> w_threads w !! t = Some Changing -> scans_ok (set_thread (change_network w) t Changed).
Proof.
  intros H Ht. pose proof H as [H1 H2 H3 H4 H5 H6 H7 H8 H9 H10].
  assert (~ quiet (set_thread (change_network w) t Changed)) as Hn by (intros Hq; apply (Hq t); cbn; by rewrite lookup_insert_eq).
  split; try done.
  - intros t' p' g [[-> ->]|[_ E]]%lookup_set; [done|]. by eapply H3.
  - intros t1 t2 p1 p2 [[-> ->]|[_ E1]]%lookup_set [[-> ->]|[_ E2]]%lookup_set; try done. by eapply H4.
  - intros Hs. destruct (H5 Hs) as (t' & p' & E & Hr). exists t', p'. split; [|done]. cbn. rewrite lookup_insert_ne; [done|]. intros <-. rewrite Ht in E. by injection E as <-.
  - intros t' p' q [[-> ->]|[_ E]]%lookup_set Hm; [done|by eapply H9].
  - intros t' q r [[_ [=]]|[_ E]]%lookup_set. by eapply H10.
Qed.
Lemma mark_ok w t : scans_ok w -> w_threads w !! t = Some Changed -> scans_ok (set_thread (invalidate w) t ChangeDone).
Proof.
  intros H Ht. pose proof (invalidate_ok w H) as [H1 H2 H3 H4 H5 H6 H7 H8 H9 H10]. pose proof (invalidated_stale w) as Hst. split; try done.
  - intros t' p' g [[-> ->]|[_ E]]%lookup_set; [done|]. by eapply H3.
  - intros t1 t2 p1 p2 [[-> ->]|[_ E1]]%lookup_set [[-> ->]|[_ E2]]%lookup_set; try done. by eapply H4.
  - intros Hs. destruct (H5 Hs) as (t' & p' & E & Hr). exists t', p'. split; [|done]. cbn. rewrite lookup_insert_ne; [done|]. intros <-. cbn in E. rewrite Ht in E. by injection E as <-.
  - intros Hi _ t' q g f e scan [[_ [=]]|[_ E]]%lookup_set Hg. by destruct (Hst t' _ g H Hi E).
  - intros t' p' q [[-> ->]|[_ E]]%lookup_set Hm; [done|by eapply H9].
  - intros t' q r [[_ [=]]|[_ E]]%lookup_set. by eapply H10.
Qed.
Lemma scan_step_ok w w' : scan_step w w' -> scans_ok w -> scans_ok w'.
Proof.
  intros [w1 clock Hc|w1 t m f Ht|w1 t q m f turn c Ht E|w1 t q g f o Ht|w1 t q g f e o sn r c Ht E|w1 t Ht|w1 t Ht|w1 t Ht|w1 t Ht] H.
  - by apply clock_ok.
  - apply idle_thread_ok; try done; [by rewrite Ht|]. by intros ??? [= <- _ _].
  - by eapply turn_ok.
  - by apply observe_ok.
  - by eapply finish_ok.
  - apply idle_thread_ok; try done; [by apply invalidate_ok|]. cbn. by rewrite Ht.
  - apply idle_thread_ok; try done. by rewrite Ht.
  - by apply apply_ok.
  - by apply mark_ok.
Qed.
Lemma reachable_ok w : rtc scan_step start_world w -> scans_ok w.
Proof.
  assert (forall w1 w2, rtc scan_step w1 w2 -> scans_ok w1 -> scans_ok w2) as H.
  { intros w1 w2. induction 1 as [|w1 w2 w3 Hs _ IH]; [done|]. intros H1. by eapply IH, scan_step_ok. }
  intros Hw. by eapply H, scans_start_ok.
Qed.

(** C13. However requests and changes of the network interleave: at most one scan
    runs at a time; a request waits only while one runs; a forced request is
    answered only after an attempt that ended at or after the request; and as
    long as no change has been applied without being announced, every part of
    the cached scan, the stale ones included, was observed in the present
    network (for fewer than 2^64 invalidations, the width of the generation). *)
Theorem scan_cache_coherent w : rtc scan_step start_world w ->
  (forall t t' p p', w_threads w !! t = Some p -> w_threads w !! t' = Some p' -> running p <> None -> running p' <> None -> t = t')
  /\ (forall t q max_age force c, w_threads w !! t = Some (Asking q max_age force) ->
        refresh_turn q max_age (w_clock w) force (w_cache w) = (Wait, c) ->
        exists t' p, w_threads w !! t' = Some p /\ running p <> None)
  /\ (forall t q r, w_threads w !! t = Some (Answered q true r) -> attempt_since w q)
  /\ (w_invalidations w < 2 ^ 64 -> quiet w -> forall scan, sc_scan (w_cache w) = Some scan -> made_of (observed_now w) scan).
Proof.
  intros H%reachable_ok. split_and!; [apply (so_single w H)| |apply (so_answers w H)|apply (so_cache w H)].
  intros t q max_age force c _ E. apply (so_scanning w H). unfold refresh_turn in E.
  destruct (match sc_last_attempt_at (w_cache w) with Some t => q <=? t | None => false end); [done|].
  destruct (negb force && _); [done|]. by destruct (sc_scanning (w_cache w)).
Qed.

(** ** A run *)
Definition demo_scan : ThreadScan :=
  {| sn_channels := [channel_diagnostics [(11, -40)] [] [] 11]; sn_networks := []; sn_devices := []; sn_statistics := no_statistics;
     sn_sources := [fresh_source NearbyNetworks 1; unavailable_source MeshDevices "none"]; sn_warnings := [] |}.
(** A scan overtaken by a change is dropped; the next one is kept. *)
Definition demo_1 : World := set_thread start_world 1 (Asking 0 10 true).
Definition demo_2 : World := set_thread (set_cache demo_1 (refresh_turn 0 10 0 true (w_cache demo_1)).2) 1 (Scanning 0 0 true).
Definition demo_3 : World := set_thread (observed demo_2 (Some (Ok demo_scan))) 1 (Observed 0 0 true 0 (Some (Ok demo_scan))).
Definition demo_4 : World := set_thread (invalidate demo_3) 2 Changing.
Definition demo_5 : World := set_thread (change_network demo_4) 2 Changed.
Definition demo_ended : option (R ThreadScanSnapshot) * ThreadScanState := finish_scan 0 0 5 (Some (Ok demo_scan)) (w_cache demo_5).
Definition demo_6 : World :=
  set_thread (set_cache demo_5 demo_ended.2) 1 (match demo_ended.1 with Some r => Answered 0 true r | None => Panicked end).
Definition demo_7 : World := set_thread (invalidate demo_6) 2 ChangeDone.
Definition demo_8 : World := advance demo_7 7.
Definition demo_9 : World := set_thread demo_8 3 (Asking 7 10 false).
Definition demo_10 : World := set_thread (set_cache demo_9 (refresh_turn 7 10 7 false (w_cache demo_9)).2) 3 (Scanning 7 2 false).
Definition demo_11 : World := set_thread (observed demo_10 (Some (Ok demo_scan))) 3 (Observed 7 2 false 1 (Some (Ok demo_scan))).
Definition demo_kept : option (R ThreadScanSnapshot) * ThreadScanState := finish_scan 2 7 9 (Some (Ok demo_scan)) (w_cache demo_11).
Definition demo_world : World :=
  set_thread (set_cache demo_11 demo_kept.2) 3 (match demo_kept.1 with Some r => Answered 7 false r | None => Panicked end).
Lemma demo_scan_run : rtc scan_step start_world demo_world.
Proof.
  apply (rtc_l _ _ demo_1). { apply step_request. reflexivity. }
  apply (rtc_l _ _ demo_2). { apply (step_turn demo_1 1%nat 0 10 true (RunScan 0)); vm_compute; reflexivity. }
  apply (rtc_l _ _ demo_3). { apply (step_observe demo_2 1%nat 0 0 true (Some (Ok demo_scan))). vm_compute. reflexivity. }
  apply (rtc_l _ _ demo_4). { apply step_change. vm_compute. reflexivity. }
  apply (rtc_l _ _ demo_5). { apply step_apply. vm_compute. reflexivity. }
  apply (rtc_l _ _ demo_6). { apply (step_finish demo_5 1%nat 0 0 true 0%nat (Some (Ok demo_scan)) 5); vm_compute; reflexivity. }
  apply (rtc_l _ _ demo_7). { apply step_mark_network_changed. vm_compute. reflexivity. }
  apply (rtc_l _ _ demo_8). { apply step_clock. vm_compute. discriminate. }
  apply (rtc_l _ _ demo_9). { apply (step_request demo_8 3%nat 10 false). vm_compute. reflexivity. }
  apply (rtc_l _ _ demo_10). { apply (step_turn demo_9 3%nat 7 10 false (RunScan 2)); vm_compute; reflexivity. }
  apply (rtc_l _ _ demo_11). { apply (step_observe demo_10 3%nat 7 2 false (Some (Ok demo_scan))). vm_compute. reflexivity. }
  apply (rtc_l _ _ demo_world). { apply (step_finish demo_11 3%nat 7 2 false 1%nat (Some (Ok demo_scan)) 9); vm_compute; reflexivity. }
  apply rtc_refl.
Qed.
Lemma demo_quiet : quiet demo_world.
Proof.
  intros t E.
  assert (map_Forall (fun _ p => match p with Changed => true | _ => false end = false) (w_threads demo_world)) as H.
  { apply (bool_decide_unpack _). vm_compute. exact I. }
  discriminate (H t _ E).
Qed.
Lemma scan_cache_coherent_witness : exists scan, sc_scan (w_cache demo_world) = Some scan /\ made_of (observed_now demo_world) scan
  /\ w_epoch demo_world = 1%nat.
Proof.
  eexists. split; [vm_compute; reflexivity|]. split; [|reflexivity].
  refine (proj2 (proj2 (proj2 (scan_cache_coherent demo_world demo_scan_run))) _ demo_quiet _ _); vm_compute; reflexivity.
Defined.
