(* ===== verification/ThreadRuntime.v ===== *)
(** * Supervision of the border router (crates/openthread-runtime/src/runtime.rs)

    The runtime owns at most one border router process.  [refresh] checks it,
    tolerates a few failed health checks, replaces it when it is gone or stays
    unhealthy, and backs off between failed starts.  [refresh] and [shutdown]
    hold the lifecycle lock exclusively. *)
From stdpp Require Import relations.
From S2P Require Import Prelude Text ThreadDataset ThreadBus ThreadController ThreadScans.

Local Open Scope Z_scope.
Local Abbreviation R := (result OpenThreadError).

Record ThreadRuntimeConfig := {
  cf_rcp_device : option string; cf_agent_path : option string; cf_baud_rate : Z; cf_thread_interface : string;
  cf_infrastructure_interface : string; cf_data_path : string;
}.
Inductive ThreadRcpConfidence := Verified | Plausible.
Definition confidence_as_str (c : ThreadRcpConfidence) : string := match c with Verified => "verified" | Plausible => "plausible" end.
Record ThreadRcpCandidate := {
  ca_path : string; ca_confidence : ThreadRcpConfidence; ca_match_reason : string; ca_usb_vendor_id : option Z; ca_usb_product_id : option Z;
  ca_manufacturer : option string; ca_product : option string; ca_serial_number : option string;
}.
Inductive ThreadRuntimePhase := Pending | WaitingForRcp | Starting | Ready | Degraded | Backoff | Stopped.
Definition phase_as_str (p : ThreadRuntimePhase) : string :=
  match p with
  | Pending => "pending" | WaitingForRcp => "waiting_for_rcp" | Starting => "starting" | Ready => "ready" | Degraded => "degraded"
  | Backoff => "backoff" | Stopped => "stopped"
  end.
Record ThreadRuntimeSnapshot := {
  sh_available : bool; sh_rcp_device : option string; sh_message : option string; sh_phase : ThreadRuntimePhase;
  sh_consecutive_failures : Z; sh_restart_count : Z; sh_next_retry_at : option Z; sh_last_exit : option string;
}.
(** A started border router: its handle, its serial device and its interface. *)
Record ManagedRouter := { mr_handle : Z; mr_rcp_device : string; mr_thread_interface : string }.
Record BorderRouterConfig := {
  br_agent_path : string; br_rcp_device : string; br_baud_rate : Z; br_thread_interface : string; br_infrastructure_interface : string;
  br_data_path : string;
}.
Record SupervisorPolicy := { po_health_failure_threshold : Z; po_initial_backoff : Z; po_max_backoff : Z; po_jitter : bool }.
(** Durations are in nanoseconds. *)
Definition default_policy : SupervisorPolicy :=
  {| po_health_failure_threshold := 3; po_initial_backoff := 5 * 10 ^ 9; po_max_backoff := 300 * 10 ^ 9; po_jitter := true |}.
Record ThreadRuntimeState := {
  rs_active : option ManagedRouter; rs_snapshot : ThreadRuntimeSnapshot; rs_health_failures : Z; rs_startup_failures : Z;
  rs_retry_not_before : option Z; rs_next_retry_at : option Z; rs_restart_count : Z; rs_ever_started : bool; rs_last_exit : option string;
}.
Record Runtime := { rt_config : ThreadRuntimeConfig; rt_state : ThreadRuntimeState; rt_scans : ThreadScanState; rt_network_generation : Z }.
(** The host: discovery, processes, the file system and clocks.  [jitter] is
    [base.mul_f64(0.2 * fraction)] for a random fraction, or [None] without
    random bytes; [secs_text] prints a duration in seconds. *)
Class RuntimeBackend (H : Type) := {
  backend_discover_rcp : action H (option string);
  backend_serial_candidates : action H (list ThreadRcpCandidate);
  backend_discover_agent : option string -> action H (option string);
  backend_start : BorderRouterConfig -> action H ManagedRouter;
  router_poll_exit : ManagedRouter -> action H (option string);
  router_diagnostic_tail : ManagedRouter -> H -> string * H;
  router_health_check : ManagedRouter -> action H unit;
  router_shutdown : ManagedRouter -> action H unit;
  path_exists : string -> H -> bool * H;
  canonicalize : string -> action H string;
  persist_settings : string -> option string -> action H unit;
  clock_instant : H -> Z * H;
  clock_system : H -> Z * H;
  jitter : Z -> H -> option Z * H;
  secs_text : Z -> string;
}.

(** ** State updates *)
Definition make_snapshot (s : ThreadRuntimeState) (available : bool) (device message : option string) (phase : ThreadRuntimePhase)
    : ThreadRuntimeSnapshot :=
  {| sh_available := available; sh_rcp_device := device; sh_message := message; sh_phase := phase;
     sh_consecutive_failures := rs_health_failures s; sh_restart_count := rs_restart_count s; sh_next_retry_at := rs_next_retry_at s;
     sh_last_exit := rs_last_exit s |}.
Definition with_snapshot (s : ThreadRuntimeState) (available : bool) (device message : option string) (phase : ThreadRuntimePhase)
    : ThreadRuntimeState :=
  {| rs_active := rs_active s; rs_snapshot := make_snapshot s available device message phase; rs_health_failures := rs_health_failures s;
     rs_startup_failures := rs_startup_failures s; rs_retry_not_before := rs_retry_not_before s; rs_next_retry_at := rs_next_retry_at s;
     rs_restart_count := rs_restart_count s; rs_ever_started := rs_ever_started s; rs_last_exit := rs_last_exit s |}.
Definition with_active (s : ThreadRuntimeState) (active : option ManagedRouter) : ThreadRuntimeState :=
  {| rs_active := active; rs_snapshot := rs_snapshot s; rs_health_failures := rs_health_failures s; rs_startup_failures := rs_startup_failures s;
     rs_retry_not_before := rs_retry_not_before s; rs_next_retry_at := rs_next_retry_at s; rs_restart_count := rs_restart_count s;
     rs_ever_started := rs_ever_started s; rs_last_exit := rs_last_exit s |}.
Definition with_failures (s : ThreadRuntimeState) (health startup : Z) : ThreadRuntimeState :=
  {| rs_active := rs_active s; rs_snapshot := rs_snapshot s; rs_health_failures := health; rs_startup_failures := startup;
     rs_retry_not_before := rs_retry_not_before s; rs_next_retry_at := rs_next_retry_at s; rs_restart_count := rs_restart_count s;
     rs_ever_started := rs_ever_started s; rs_last_exit := rs_last_exit s |}.
Definition with_retry (s : ThreadRuntimeState) (not_before next : option Z) : ThreadRuntimeState :=
  {| rs_active := rs_active s; rs_snapshot := rs_snapshot s; rs_health_failures := rs_health_failures s;
     rs_startup_failures := rs_startup_failures s; rs_retry_not_before := not_before; rs_next_retry_at := next;
     rs_restart_count := rs_restart_count s; rs_ever_started := rs_ever_started s; rs_last_exit := rs_last_exit s |}.
Definition with_last_exit (s : ThreadRuntimeState) (reason : option string) : ThreadRuntimeState :=
  {| rs_active := rs_active s; rs_snapshot := rs_snapshot s; rs_health_failures := rs_health_failures s;
     rs_startup_failures := rs_startup_failures s; rs_retry_not_before := rs_retry_not_before s; rs_next_retry_at := rs_next_retry_at s;
     rs_restart_count := rs_restart_count s; rs_ever_started := rs_ever_started s; rs_last_exit := reason |}.
Definition saturating_add_u64 (a b : Z) : Z := Z.min Int.u64_max (a + b).
Definition count_start (s : ThreadRuntimeState) : ThreadRuntimeState :=
  {| rs_active := rs_active s; rs_snapshot := rs_snapshot s; rs_health_failures := rs_health_failures s;
     rs_startup_failures := rs_startup_failures s; rs_retry_not_before := rs_retry_not_before s; rs_next_retry_at := rs_next_retry_at s;
     rs_restart_count := if rs_ever_started s then saturating_add_u64 (rs_restart_count s) 1 else rs_restart_count s;
     rs_ever_started := true; rs_last_exit := rs_last_exit s |}.
Definition new_runtime (config : ThreadRuntimeConfig) : Runtime :=
  let s := {| rs_active := None;
              rs_snapshot := {| sh_available := false; sh_rcp_device := cf_rcp_device config;
                                sh_message := Some "Thread runtime has not checked for an RCP yet"; sh_phase := Pending;
                                sh_consecutive_failures := 0; sh_restart_count := 0; sh_next_retry_at := None; sh_last_exit := None |};
              rs_health_failures := 0; rs_startup_failures := 0; rs_retry_not_before := None; rs_next_retry_at := None;
              rs_restart_count := 0; rs_ever_started := false; rs_last_exit := None |} in
  {| rt_config := config; rt_state := s; rt_scans := new_scan_state; rt_network_generation := 0 |}.
Definition with_state (r : Runtime) (s : ThreadRuntimeState) : Runtime :=
  {| rt_config := rt_config r; rt_state := s; rt_scans := rt_scans r; rt_network_generation := rt_network_generation r |}.
Definition mark_network_changed (r : Runtime) : Runtime :=
  {| rt_config := rt_config r; rt_state := rt_state r; rt_scans := invalidate_scan (rt_scans r);
     rt_network_generation := Int.wrapping_add_u64 (rt_network_generation r) 1 |}.
(** The delay before the next start: doubled with each failure up to the limit,
    plus jitter. *)
Definition base_delay (p : SupervisorPolicy) (failures : Z) : Z :=
  let factor := 2 ^ Z.min (Z.max 0 (failures - 1)) 16 in
  Z.min (po_initial_backoff p * factor) (po_max_backoff p).

(** ** Operations *)
Section runtime.
Context {H : Type} `{!RuntimeBackend H} (policy : SupervisorPolicy).
#[local] Abbreviation run := (action (Runtime * H)).
Definition host {A} (m : action H A) : run A := fun w => let (r, h) := m w.2 in (r, (w.1, h)).
Definition host_total {A} (f : H -> A * H) : run A := fun w => let (a, h) := f w.2 in (Ok a, (w.1, h)).
Definition get_runtime : run Runtime := fun w => (Ok w.1, w).
Definition update (f : Runtime -> Runtime) : run unit := fun w => (Ok tt, (f w.1, w.2)).
Definition update_state (f : ThreadRuntimeState -> ThreadRuntimeState) : run unit := update (fun r => with_state r (f (rt_state r))).
(** The snapshot of the state, stored and returned. *)
Definition publish (available : bool) (device message : option string) (phase : ThreadRuntimePhase) : run ThreadRuntimeSnapshot :=
  _ ← update_state (fun s => with_snapshot s available device message phase);
  r ← get_runtime; mret (rs_snapshot (rt_state r)).
Definition paths_refer_to_same_device (left right : string) : run bool :=
  if left =s? right then mret true else
  a ← attempt (host (canonicalize left));
  b ← attempt (host (canonicalize right));
  mret (match a, b with Ok a, Ok b => a =s? b | _, _ => false end).
Definition restart_delay (failures : Z) : run Z :=
  let base := base_delay policy failures in
  if negb (po_jitter policy) || (base =? 0) then mret base else
  extra ← host_total (jitter base);
  mret (match extra with None => base | Some extra => Z.min (base + extra) (po_max_backoff policy) end).
Definition store_unavailable (device : option string) (message : string) (phase : ThreadRuntimePhase) : run ThreadRuntimeSnapshot :=
  _ ← update_state (fun s => with_retry (with_failures (with_active s None) 0 0) None None);
  publish false device (Some message) phase.
Definition schedule_retry (device : option string) (message : string) : run ThreadRuntimeSnapshot :=
  _ ← update_state (fun s => with_failures (with_active s None) (rs_health_failures s) (saturating_add_u32 (rs_startup_failures s) 1));
  r ← get_runtime;
  delay ← restart_delay (rs_startup_failures (rt_state r));
  now ← host_total clock_instant;
  system ← host_total clock_system;
  _ ← update_state (fun s => with_retry s (Some (now + delay)) (Some (system + delay)));
  publish false device (Some (message +:+ "; retrying in " +:+ secs_text delay +:+ " seconds")) Backoff.
(** Why the active router has to be replaced, if it has to. *)
Definition failure_reason (config : ThreadRuntimeConfig) (active : ManagedRouter) : run (option string) :=
  let device := mr_rcp_device active in
  changed ← match cf_rcp_device config with
            | Some selected => same ← paths_refer_to_same_device selected device; mret (negb same)
            | None => mret false
            end;
  if (changed : bool) then mret (Some ("The configured Thread RCP changed from " +:+ device)) else
  exists_ ← host_total (path_exists device);
  if negb exists_ then mret (Some ("The configured Thread RCP was removed: " +:+ device)) else
  r ← attempt (host (router_poll_exit active));
  match r with
  | Ok (Some status) =>
    tail ← host_total (router_diagnostic_tail active);
    mret (Some ("otbr-agent exited with status " +:+ status +:+ ": " +:+ tail))
  | Ok None => mret None
  | Err e => mret (Some ("Unable to inspect otbr-agent: " +:+ openthread_text e))
  end.
(** The check of the active router: a snapshot when it is kept. *)
Definition check_active (config : ThreadRuntimeConfig) (active : ManagedRouter) : run (option ThreadRuntimeSnapshot) :=
  let device := Some (mr_rcp_device active) in
  reason ← failure_reason config active;
  checked ← match reason with
    | Some reason => mret (inr reason)
    | None =>
      health ← attempt (host (router_health_check active));
      match health with
      | Ok _ =>
        _ ← update_state (fun s => with_active (with_failures s 0 0) (Some active));
        snapshot ← publish true device None Ready; mret (inl snapshot)
      | Err e =>
        _ ← update_state (fun s => with_failures s (saturating_add_u32 (rs_health_failures s) 1) (rs_startup_failures s));
        r ← get_runtime;
        let failures := rs_health_failures (rt_state r) in
        if failures <? po_health_failure_threshold policy
        then _ ← update_state (fun s => with_active s (Some active));
             snapshot ← publish true device (Some ("OpenThread control endpoints are temporarily degraded: " +:+ openthread_text e)) Degraded;
             mret (inl snapshot)
        else mret (inr ("OpenThread control endpoints failed " +:+ int_to_string failures +:+ " consecutive health checks: " +:+ openthread_text e))
      end
    end;
  match (checked : ThreadRuntimeSnapshot + string) with
  | inl snapshot => mret (Some snapshot)
  | inr reason =>
    _ ← update mark_network_changed;
    stopped ← attempt (host (router_shutdown active));
    match stopped with
    | Err e =>
      _ ← update_state (fun s => with_active s (Some active));
      snapshot ← publish false device (Some ("Unable to stop the unhealthy OpenThread border router: " +:+ openthread_text e)) Degraded;
      mret (Some snapshot)
    | Ok _ => _ ← update_state (fun s => with_active (with_last_exit s (Some reason)) None); mret None
    end
  end.
Definition start_config (config : ThreadRuntimeConfig) (agent device : string) : BorderRouterConfig :=
  {| br_agent_path := agent; br_rcp_device := device; br_baud_rate := cf_baud_rate config;
     br_thread_interface := cf_thread_interface config; br_infrastructure_interface := cf_infrastructure_interface config;
     br_data_path := cf_data_path config |}.
Definition no_device_message (candidates : list ThreadRcpCandidate) : string :=
  if (1 <? length candidates)%nat
  then "Multiple Thread RCP serial devices were detected: "
       +:+ join ", " (map (fun c => ca_path c +:+ " (" +:+ confidence_as_str (ca_confidence c) +:+ ")") candidates) +:+ ". Select one explicitly."
  else "No Thread RCP serial device was detected. Connect an RCP or select its serial port explicitly.".
Definition start_router (config : ThreadRuntimeConfig) (device : string) : run ThreadRuntimeSnapshot :=
  agent ← attempt (host (backend_discover_agent (cf_agent_path config)));
  match agent with
  | Ok None => schedule_retry (Some device) "The OpenThread border-router executable is unavailable"
  | Err e => schedule_retry (Some device) (openthread_text e)
  | Ok (Some agent) =>
    _ ← publish false (Some device) (Some "Starting the OpenThread border router") Starting;
    started ← attempt (host (backend_start (start_config config agent device)));
    match started with
    | Ok router =>
      _ ← update mark_network_changed;
      _ ← update_state (fun s => with_retry (with_failures (with_active (count_start s) (Some router)) 0 0) None None);
      publish true (Some device) None Ready
    | Err e => schedule_retry (Some device) ("Unable to start the OpenThread border router: " +:+ openthread_text e)
    end
  end.
Definition refresh : run ThreadRuntimeSnapshot :=
  r ← get_runtime;
  let config := rt_config r in
  now ← host_total clock_instant;
  if negb (is_some (rs_active (rt_state r))) && match rs_retry_not_before (rt_state r) with Some t => now <? t | None => false end
  then mret (rs_snapshot (rt_state r)) else
  _ ← update_state (fun s => with_active (with_retry s None None) None);
  kept ← match rs_active (rt_state r) with Some active => check_active config active | None => mret None end;
  match kept with
  | Some snapshot => mret snapshot
  | None =>
    device ← attempt (match cf_rcp_device config with Some device => mret (Some device) | None => host backend_discover_rcp end);
    match device with
    | Ok (Some device) => start_router config device
    | Ok None =>
      candidates ← attempt (host backend_serial_candidates);
      store_unavailable None (no_device_message (match candidates with Ok l => l | Err _ => [] end)) WaitingForRcp
    | Err e => schedule_retry None ("Unable to discover a Thread RCP: " +:+ openthread_text e)
    end
  end.
Fixpoint find_same (requested : string) (candidates : list ThreadRcpCandidate) : run (option string) :=
  match candidates with
  | [] => mret None
  | c :: rest => same ← paths_refer_to_same_device (ca_path c) requested;
                 if (same : bool) then mret (Some (ca_path c)) else find_same requested rest
  end.
Definition set_rcp_device (requested : option string) : run ThreadRuntimeSnapshot :=
  selected ← match requested with
    | Some requested =>
      candidates ← host backend_serial_candidates;
      found ← find_same requested candidates;
      match found with
      | Some path => mret (Some path)
      | None => outcome (Err (TInvalidConfiguration
          ("Thread RCP is not one of the currently detected serial devices: " +:+ requested)))
      end
    | None => mret None
    end;
  r ← get_runtime;
  _ ← host (persist_settings (cf_data_path (rt_config r)) selected);
  _ ← update (fun r => let c := rt_config r in
        {| rt_config := {| cf_rcp_device := selected; cf_agent_path := cf_agent_path c; cf_baud_rate := cf_baud_rate c;
                           cf_thread_interface := cf_thread_interface c; cf_infrastructure_interface := cf_infrastructure_interface c;
                           cf_data_path := cf_data_path c |};
           rt_state := rt_state r; rt_scans := rt_scans r; rt_network_generation := rt_network_generation r |});
  _ ← update_state (fun s => with_retry s None None);
  refresh.
Definition shutdown : run unit :=
  r ← get_runtime;
  let active := rs_active (rt_state r) in
  _ ← update_state (fun s => with_active s None);
  result ← match active with Some a => attempt (host (router_shutdown a)) | None => mret (Ok tt) end;
  let '(remaining, device, message, phase) :=
    match active, result with
    | Some a, Err e => (Some a, Some (mr_rcp_device a), "OpenThread runtime shutdown is incomplete: " +:+ openthread_text e, Degraded)
    | _, _ => (None, None, "Thread runtime is shut down", Stopped)
    end in
  _ ← update_state (fun s => with_retry (with_active s remaining) None None);
  _ ← publish false device (Some message) phase;
  _ ← update mark_network_changed;
  outcome result.
End runtime.

(** ** Operations on the active router

    They run beside each other and beside scans, and exclude [refresh] and
    [shutdown]; the state [St] is that of the border router and its interface. *)
Section active.
Context {St : Type} `{!OtbrDbusControl St, !OtbrRestControl St, !ThreadHost St}.
#[local] Abbreviation run := (action (Runtime * St)).
Definition controller : run unit :=
  r ← get_runtime;
  if is_some (rs_active (rt_state r)) then mret tt else outcome (Err (TUnavailable "no active OTBR controller")).
Definition invalidate_scans (r : Runtime) : Runtime :=
  {| rt_config := rt_config r; rt_state := rt_state r; rt_scans := invalidate_scan (rt_scans r); rt_network_generation := rt_network_generation r |}.
Definition runtime_status : run ThreadStatus := _ ← controller; host thread_status.
Definition runtime_active_dataset : run ThreadActiveDataset := _ ← controller; host active_dataset.
Definition runtime_change (change : action St unit) : run ThreadStatus :=
  _ ← update invalidate_scans;
  result ← attempt (host change);
  _ ← update mark_network_changed;
  _ ← outcome result;
  host thread_status.
Definition runtime_create_network (n : ValidatedCreateNetwork) : run ThreadStatus := _ ← controller; runtime_change (create_network n).
(** An import that panics would not return; it does not. *)
Definition runtime_import_active_dataset (dataset_tlvs : string) : run ThreadStatus :=
  _ ← controller;
  match parse_imported_dataset dataset_tlvs with
  | None => outcome (Err (TProcess "panic"))
  | Some parsed => dataset ← outcome parsed; runtime_change (import_active_dataset dataset)
  end.
Definition runtime_ensure_default : run bool :=
  _ ← controller;
  seeded ← attempt (host ensure_default_development_network);
  match seeded with
  | Err e => _ ← update mark_network_changed; outcome (Err e)
  | Ok seeded => _ ← (if (seeded : bool) then update mark_network_changed else mret tt); mret seeded
  end.
(** After a change, whatever its outcome, nothing observed before it is cached
    and the network generation has advanced. *)
Lemma change_announced change (w w' : Runtime * St) r : runtime_change change w = (r, w') ->
  sc_scan (rt_scans w'.1) = None /\ rt_network_generation w'.1 = Int.wrapping_add_u64 (rt_network_generation w.1) 1
  /\ sc_generation (rt_scans w'.1) = Int.wrapping_add_u64 (Int.wrapping_add_u64 (sc_generation (rt_scans w.1)) 1) 1.
Proof using Type.
  unfold runtime_change, mbind, action_bind, update, attempt, host, outcome. cbn. destruct (change w.2) as [[[]|e] s1]; cbn.
  - destruct (thread_status s1) as [r1 s2]. by intros [= _ <-].
  - by intros [= _ <-].
Qed.
End active.

(** ** What the host keeps

    The routers started and not stopped, and how many were started.  A start
    that fails leaves no router, a stop that fails leaves it. *)
Class RuntimeModel (H : Type) := { owned : H -> list Z; starts : H -> Z }.
Definition host_keeps {H} `{!RuntimeModel H} (h h' : H) : Prop := owned h' = owned h /\ starts h' = starts h.
Class RuntimeLaws (H : Type) `{!RuntimeBackend H, !RuntimeModel H} : Prop := {
  host_starts h : 0 <= starts h;
  host_discover_rcp h r h' : backend_discover_rcp h = (r, h') -> host_keeps h h';
  host_candidates h r h' : backend_serial_candidates h = (r, h') -> host_keeps h h';
  host_agent p h r h' : backend_discover_agent p h = (r, h') -> host_keeps h h';
  host_start c h r h' : backend_start c h = (Ok r, h') -> owned h' = mr_handle r :: owned h /\ starts h' = starts h + 1;
  host_start_err c h e h' : backend_start c h = (Err e, h') -> host_keeps h h';
  host_poll a h r h' : router_poll_exit a h = (r, h') -> host_keeps h h';
  host_tail a h r h' : router_diagnostic_tail a h = (r, h') -> host_keeps h h';
  host_health a h r h' : router_health_check a h = (r, h') -> host_keeps h h';
  host_stop a h h' : router_shutdown a h = (Ok tt, h') -> owned h' = List.filter (fun x => negb (x =? mr_handle a)) (owned h) /\ starts h' = starts h;
  host_stop_err a h e h' : router_shutdown a h = (Err e, h') -> host_keeps h h';
  host_exists p h r h' : path_exists p h = (r, h') -> host_keeps h h';
  host_canonicalize p h r h' : canonicalize p h = (r, h') -> host_keeps h h';
  host_persist p d h r h' : persist_settings p d h = (r, h') -> host_keeps h h';
  host_instant h r h' : clock_instant h = (r, h') -> host_keeps h h';
  host_system h r h' : clock_system h = (r, h') -> host_keeps h h';
  host_jitter b h r h' : jitter b h = (r, h') -> host_keeps h h' /\ forall x, r = Some x -> 0 <= x;
}.

(** ** Reasoning about runs *)
Section wp.
Context {W : Type}.
Implicit Types (w : W).
(** Every end of the operation satisfies [Q]. *)
Definition wp {A} (m : action W A) (Q : R A -> W -> Prop) w : Prop := forall r w', m w = (r, w') -> Q r w'.
Lemma wp_ret {A} (a : A) (Q : R A -> W -> Prop) w : Q (Ok a) w -> wp (mret a) Q w.
Proof. by intros H r w' [= <- <-]. Qed.
Lemma wp_outcome {A} (r : R A) (Q : R A -> W -> Prop) w : Q r w -> wp (outcome r) Q w.
Proof. by intros H r' w' [= <- <-]. Qed.
Lemma wp_bind {A B} (m : action W A) (k : A -> action W B) (Q : R B -> W -> Prop) w :
  wp m (fun r w1 => match r with Ok a => wp (k a) Q w1 | Err e => Q (Err e) w1 end) w -> wp (m ≫= k) Q w.
Proof.
  intros H r w'. unfold mbind, action_bind. destruct (m w) as [[a|e] w1] eqn:E; specialize (H _ _ E); cbn in H; [by apply H|]. by intros [= <- <-].
Qed.
Lemma wp_attempt {A} (m : action W A) (Q : R (R A) -> W -> Prop) w : wp m (fun r w1 => Q (Ok r) w1) w -> wp (attempt m) Q w.
Proof. intros H r w'. unfold attempt. destruct (m w) as [r1 w1] eqn:E. intros [= <- <-]. by apply H. Qed.
Lemma wp_mono {A} (m : action W A) (P Q : R A -> W -> Prop) w : wp m P w -> (forall r w', P r w' -> Q r w') -> wp m Q w.
Proof. intros H HPQ r w' E. by apply HPQ, H. Qed.
End wp.

(** ** One border router *)
Definition handles (o : option ManagedRouter) : list Z := match o with Some a => [mr_handle a] | None => [] end.
(** The counters of the state agree with the starts. *)
Definition counted (s : ThreadRuntimeState) (n : Z) : Prop :=
  rs_ever_started s = (0 <? n) /\ rs_restart_count s = Z.min Int.u64_max (Z.max 0 (n - 1)).
(** A snapshot tells of the active router: available and ready only with one,
    and none when the phase says so. *)
Definition snapshot_ok (s : ThreadRuntimeState) : Prop :=
  (sh_available (rs_snapshot s) = true -> rs_active s <> None)
  /\ match sh_phase (rs_snapshot s) with
     | Ready => sh_available (rs_snapshot s) = true
     | Degraded => rs_active s <> None
     | Starting => False
     | _ => rs_active s = None
     end.
Section supervised.
Context {H : Type} `{!RuntimeBackend H, !RuntimeModel H} {Hlaws : RuntimeLaws H} (policy : SupervisorPolicy).
Implicit Types (w : Runtime * H).
Record core (o : option ManagedRouter) w : Prop := {
  co_owned : owned w.2 = handles o;
  co_counted : counted (rt_state w.1) (starts w.2);
}.
Record supervised w : Prop := {
  sv_core : core (rs_active (rt_state w.1)) w;
  sv_snapshot : snapshot_ok (rt_state w.1);
}.
(** An operation of the host that keeps the routers keeps the rest. *)
Lemma wp_host {A} (m : action H A) (Q : R A -> Runtime * H -> Prop) w :
  (forall h r h', m h = (r, h') -> host_keeps h h') ->
  (forall r h', host_keeps w.2 h' -> Q r (w.1, h')) -> wp (host m) Q w.
Proof. intros Hm HQ r w'. unfold host. destruct (m w.2) as [r1 h1] eqn:E. intros [= <- <-]. by eapply HQ, Hm. Qed.
Lemma wp_total {A} (f : H -> A * H) (Q : R A -> Runtime * H -> Prop) w :
  (forall h a h', f h = (a, h') -> host_keeps h h') ->
  (forall a h', host_keeps w.2 h' -> Q (Ok a) (w.1, h')) -> wp (host_total f) Q w.
Proof. intros Hm HQ r w'. unfold host_total. destruct (f w.2) as [a h1] eqn:E. intros [= <- <-]. by eapply HQ, Hm. Qed.
Lemma wp_get (Q : R Runtime -> Runtime * H -> Prop) w : Q (Ok w.1) w -> wp get_runtime Q w.
Proof. by intros HQ r w' [= <- <-]. Qed.
Lemma wp_update f (Q : R unit -> Runtime * H -> Prop) w : Q (Ok tt) (f w.1, w.2) -> wp (update f) Q w.
Proof. by intros HQ r w' [= <- <-]. Qed.
Lemma wp_update_state f (Q : R unit -> Runtime * H -> Prop) w : Q (Ok tt) (with_state w.1 (f (rt_state w.1)), w.2) -> wp (update_state f) Q w.
Proof. by intros HQ r w' [= <- <-]. Qed.
Lemma wp_publish available device message phase (Q : R ThreadRuntimeSnapshot -> Runtime * H -> Prop) w :
  (let s := with_snapshot (rt_state w.1) available device message phase in Q (Ok (rs_snapshot s)) (with_state w.1 s, w.2)) ->
  wp (publish available device message phase) Q w.
Proof. intros HQ. apply wp_bind, wp_update_state, wp_bind, wp_get, wp_ret. apply HQ. Qed.
Lemma core_host o w h : core o w -> host_keeps w.2 h -> core o (w.1, h).
Proof. intros [Ho Hc] [E1 E2]. split; cbn; [congruence|]. by rewrite E2. Qed.
Lemma core_runtime o w r : core o w -> rs_ever_started (rt_state r) = rs_ever_started (rt_state w.1) ->
  rs_restart_count (rt_state r) = rs_restart_count (rt_state w.1) -> core o (r, w.2).
Proof. intros [Ho [Hc1 Hc2]] E1 E2. split; [done|]. split; cbn; congruence. Qed.
(** The end of an operation: the snapshot is returned. *)
Definition settled_refresh (r : R ThreadRuntimeSnapshot) w : Prop := supervised w /\ r = Ok (rs_snapshot (rt_state w.1)).
Lemma restart_delay_bounds failures (Q : R Z -> Runtime * H -> Prop) w : 0 <= po_initial_backoff policy -> 0 <= po_max_backoff policy ->
  (forall d h, base_delay policy failures <= d <= po_max_backoff policy -> host_keeps w.2 h -> Q (Ok d) (w.1, h)) ->
  wp (restart_delay policy failures) Q w.
Proof using Hlaws.
  intros Hi Hm HQ. unfold restart_delay. assert (0 <= base_delay policy failures <= po_max_backoff policy) as Hb.
  { unfold base_delay. assert (0 < 2 ^ Z.min (Z.max 0 (failures - 1)) 16) by (apply Z.pow_pos_nonneg; lia). nia. }
  destruct (negb _ || _).
  - apply wp_ret. destruct w as [r h]. apply HQ; [lia|done].
  - apply wp_bind. intros r w'. unfold host_total. destruct (jitter _ w.2) as [x h1] eqn:E. intros [= <- <-].
    apply host_jitter in E as [Hk Hx]. apply wp_ret, HQ; [|done]. destruct x as [x|]; [|lia]. specialize (Hx x eq_refl). lia.
Qed.
Context {Hpolicy : 0 <= po_initial_backoff policy /\ 0 <= po_max_backoff policy}.
Lemma store_unavailable_ok device message w : core None w -> wp (store_unavailable device message WaitingForRcp) settled_refresh w.
Proof using Type.
  intros Hc. apply wp_bind, wp_update_state, wp_publish. split; [|done]. split; [|done]. by apply (core_runtime None w).
Qed.
Lemma schedule_retry_ok device message w : core None w -> wp (schedule_retry policy device message) settled_refresh w.
Proof using Hlaws Hpolicy.
  intros Hc. destruct Hpolicy as [Hi Hm]. apply wp_bind, wp_update_state, wp_bind, wp_get, wp_bind, restart_delay_bounds; [done|done|]. intros d h1 _ K1.
  apply wp_bind, wp_total; [apply host_instant|]. intros now h2 K2. apply wp_bind, wp_total; [apply host_system|]. intros sys h3 K3.
  apply wp_bind, wp_update_state, wp_publish. split; [|done]. split; [|done]. cbn in *.
  apply (core_runtime None (w.1, h3)); [|done..]. apply core_host; [done|].
  destruct K1, K2, K3. cbn in *. split; congruence.
Qed.
Lemma start_router_ok config device w : core None w -> wp (start_router policy config device) settled_refresh w.
Proof using Hlaws Hpolicy.
  intros Hc. apply wp_bind, wp_attempt, wp_host; [apply host_agent|]. intros agent h1 K1. pose proof (core_host _ _ _ Hc K1) as Hc1.
  destruct agent as [[agent|]|e]; [|by apply schedule_retry_ok..].
  apply wp_bind, wp_publish. cbn. apply wp_bind, wp_attempt. intros r w' E. unfold host in E. cbn in E.
  destruct (backend_start _ h1) as [r1 h2] eqn:Es. injection E as <- <-. destruct r1 as [router|e].
  - apply host_start in Es as [Eo En]. apply wp_bind, wp_update, wp_bind, wp_update_state, wp_publish.
    split; [|done]. split; [|by split]. destruct Hc1 as [Ho [Hc1 Hc2]]. cbn in *. split; cbn; [by rewrite Eo, Ho|]. rewrite En. pose proof (host_starts h1).
    split; cbn; [symmetry; apply Z.ltb_lt; lia|]. rewrite Hc1, Hc2. unfold saturating_add_u64. destruct (Z.ltb_spec 0 (starts h1)); unfold Int.u64_max; lia.
  - apply host_start_err in Es. apply schedule_retry_ok. apply (core_runtime None (w.1, h2)); [|done..]. by apply (core_host None (w.1, h1)).
Qed.
(** The check of the active router: kept, or stopped. *)
Definition checked (r : R (option ThreadRuntimeSnapshot)) w : Prop :=
  match r with Ok (Some s) => settled_refresh (Ok s) w | Ok None => core None w | Err _ => False end.
Lemma same_device_ok l r (Q : R bool -> Runtime * H -> Prop) w :
  (forall b h, host_keeps w.2 h -> Q (Ok b) (w.1, h)) -> wp (paths_refer_to_same_device l r) Q w.
Proof using Hlaws.
  intros HQ. unfold paths_refer_to_same_device. destruct (l =s? r).
  - apply wp_ret. destruct w. by apply HQ.
  - apply wp_bind, wp_attempt, wp_host; [apply host_canonicalize|]. intros a h1 K1.
    apply wp_bind, wp_attempt, wp_host; [apply host_canonicalize|]. intros b h2 K2. apply wp_ret, HQ. destruct K1, K2; cbn in *; split; congruence.
Qed.
Lemma failure_reason_ok config active (Q : R (option string) -> Runtime * H -> Prop) w :
  (forall o h, host_keeps w.2 h -> Q (Ok o) (w.1, h)) -> wp (failure_reason config active) Q w.
Proof using Hlaws.
  intros HQ. unfold failure_reason. apply wp_bind.
  assert (forall (b : bool) h, host_keeps w.2 h -> wp (if b then mret (Some ("The configured Thread RCP changed from " +:+ mr_rcp_device active)) else
    exists_ ← host_total (path_exists (mr_rcp_device active));
    if negb exists_ then mret (Some ("The configured Thread RCP was removed: " +:+ mr_rcp_device active)) else
    r ← attempt (host (router_poll_exit active));
    match r with
    | Ok (Some status) => tail ← host_total (router_diagnostic_tail active); mret (Some ("otbr-agent exited with status " +:+ status +:+ ": " +:+ tail))
    | Ok None => mret None
    | Err e => mret (Some ("Unable to inspect otbr-agent: " +:+ openthread_text e))
    end) Q (w.1, h)) as Hrest.
  { intros b h K. destruct b; [by apply wp_ret, HQ|]. apply wp_bind, wp_total; [apply host_exists|]. intros ex h1 K1.
    assert (host_keeps w.2 h1) as K01 by (destruct K, K1; cbn in *; split; congruence).
    destruct ex; cbn [negb]; [|by apply wp_ret, HQ]. apply wp_bind, wp_attempt, wp_host; [apply host_poll|]. intros p h2 K2.
    assert (host_keeps w.2 h2) as K02 by (destruct K01, K2; cbn in *; split; congruence).
    destruct p as [[status|]|e]; [|by apply wp_ret, HQ..]. apply wp_bind, wp_total; [apply host_tail|]. intros t h3 K3. apply wp_ret, HQ.
    destruct K02, K3; cbn in *; split; congruence. }
  destruct (cf_rcp_device config) as [selected|].
  - apply wp_bind, same_device_ok. intros b h K. apply wp_ret. exact (Hrest (negb b) h K).
  - apply wp_ret. destruct w as [r h]. exact (Hrest false h (conj eq_refl eq_refl)).
Qed.
Lemma check_active_ok config active w : core (Some active) w -> wp (check_active policy config active) checked w.
Proof using Hlaws Hpolicy.
  intros Hc. unfold check_active. apply wp_bind, failure_reason_ok. intros reason h1 K1. pose proof (core_host _ _ _ Hc K1) as Hc1.
  apply wp_bind.
  (** The router is kept with its snapshot, or has to be stopped. *)
  assert (forall reason w1, core (Some active) w1 -> wp
    (_ ← update mark_network_changed;
     stopped ← attempt (host (router_shutdown active));
     match stopped with
     | Err e =>
       _ ← update_state (fun s => with_active s (Some active));
       snapshot ← publish false (Some (mr_rcp_device active))
                    (Some ("Unable to stop the unhealthy OpenThread border router: " +:+ openthread_text e)) Degraded;
       mret (Some snapshot)
     | Ok _ => _ ← update_state (fun s => with_active (with_last_exit s (Some reason)) None); mret None
     end) checked w1) as Hstop.
  { clear -Hlaws. intros reason w1 Hc. apply wp_bind, wp_update, wp_bind, wp_attempt. intros r w' E. unfold host in E. cbn in E.
    destruct (router_shutdown active w1.2) as [r1 h2] eqn:Es. injection E as <- <-. destruct r1 as [[]|e].
    - apply host_stop in Es as [Eo En]. apply wp_bind, wp_update_state, wp_ret. destruct Hc as [Ho Hn]. split; cbn.
      + rewrite Eo, Ho. cbn. by rewrite Z.eqb_refl.
      + by rewrite En.
    - apply host_stop_err in Es. apply wp_bind, wp_update_state, wp_bind, wp_publish, wp_ret. split; [|done]. split; [|done].
      apply (core_runtime (Some active) (w1.1, h2)); [|done..]. by apply core_host. }
  destruct reason as [reason|]; [by apply wp_ret, Hstop|].
  apply wp_bind, wp_attempt, wp_host; [apply host_health|]. intros health h2 K2. pose proof (core_host _ _ _ Hc1 K2) as Hc2. destruct health as [[]|e].
  - apply wp_bind, wp_update_state, wp_bind, wp_publish, wp_ret, wp_ret. split; [|done]. split; [|done]. by apply (core_runtime (Some active) (w.1, h2)).
  - apply wp_bind, wp_update_state, wp_bind, wp_get. cbv beta iota zeta. destruct (_ <? _).
    + apply wp_bind, wp_update_state, wp_bind, wp_publish, wp_ret, wp_ret. split; [|done]. split; [|done]. by apply (core_runtime (Some active) (w.1, h2)).
    + apply wp_ret, Hstop. by apply (core_runtime (Some active) (w.1, h2)).
Qed.
Lemma refresh_ok w : supervised w -> wp (refresh policy) settled_refresh w.
Proof using Hlaws Hpolicy.
  intros [Hc Hs]. unfold refresh. apply wp_bind, wp_get, wp_bind, wp_total; [apply host_instant|]. intros now h K. pose proof (core_host _ _ _ Hc K) as Hc1.
  destruct (negb _ && _); [apply wp_ret; split; [by split|done]|]. apply wp_bind, wp_update_state, wp_bind.
  set (w1 := (with_state (w.1, h).1 (with_active (with_retry (rt_state (w.1, h).1) None None) None), (w.1, h).2)).
  assert (core (rs_active (rt_state w.1)) w1) as Hw1 by (by apply (core_runtime _ (w.1, h))).
  assert (wp (match rs_active (rt_state w.1) with Some active => check_active policy (rt_config w.1) active | None => mret None end) checked w1) as Hk.
  { destruct (rs_active (rt_state w.1)); [by apply check_active_ok|]. by apply wp_ret. }
  eapply wp_mono; [exact Hk|]. intros [[snapshot|]|e] w2 Hw2; [by apply wp_ret| |done]. cbn in Hw2.
  apply wp_bind, wp_attempt. destruct (cf_rcp_device (rt_config w.1)) as [device|].
  - apply wp_ret. by apply start_router_ok.
  - apply wp_host; [apply host_discover_rcp|]. intros r h2 K2. pose proof (core_host _ _ _ Hw2 K2) as Hc2. destruct r as [[device|]|e].
    + by apply start_router_ok.
    + apply wp_bind, wp_attempt, wp_host; [apply host_candidates|]. intros cs h3 K3. apply store_unavailable_ok. by apply (core_host None (w2.1, h2)).
    + by apply schedule_retry_ok.
Qed.
Lemma find_same_ok requested candidates (Q : R (option string) -> Runtime * H -> Prop) : forall w,
  (forall o h, host_keeps w.2 h -> Q (Ok o) (w.1, h)) -> wp (find_same requested candidates) Q w.
Proof using Hlaws.
  induction candidates as [|c rest IH]; intros w HQ; [apply wp_ret; destruct w; by apply HQ|].
  cbn [find_same]. apply wp_bind, same_device_ok. intros b h K. destruct b; [by apply wp_ret, HQ|]. apply IH. intros o h' K'. apply HQ.
  destruct K, K'; cbn in *; split; congruence.
Qed.
Lemma supervised_host w h : supervised w -> host_keeps w.2 h -> supervised (w.1, h).
Proof using Type. intros [Hc Hs] K. split; [by apply core_host|done]. Qed.
Lemma set_rcp_device_ok requested w : supervised w ->
  wp (set_rcp_device policy requested) (fun r w' => supervised w' /\ forall s, r = Ok s -> s = rs_snapshot (rt_state w'.1)) w.
Proof using Hlaws Hpolicy.
  intros Hs. unfold set_rcp_device. apply wp_bind.
  set (Q := fun (r : R ThreadRuntimeSnapshot) (w' : Runtime * H) => supervised w' /\ forall s, r = Ok s -> s = rs_snapshot (rt_state w'.1)).
  assert (forall selected h, host_keeps w.2 h -> wp (r ← get_runtime;
    _ ← host (persist_settings (cf_data_path (rt_config r)) selected);
    _ ← update (fun r => let c := rt_config r in
          {| rt_config := {| cf_rcp_device := selected; cf_agent_path := cf_agent_path c; cf_baud_rate := cf_baud_rate c;
                             cf_thread_interface := cf_thread_interface c; cf_infrastructure_interface := cf_infrastructure_interface c;
                             cf_data_path := cf_data_path c |};
             rt_state := rt_state r; rt_scans := rt_scans r; rt_network_generation := rt_network_generation r |});
    _ ← update_state (fun s => with_retry s None None); refresh policy) Q (w.1, h)) as Hrest.
  { intros selected h K. apply wp_bind, wp_get, wp_bind, wp_host; [apply host_persist|]. intros [[]|e] h1 K1.
    2: { split; [|done]. apply (supervised_host (w.1, h)); [by apply supervised_host|done]. }
    assert (supervised (w.1, h1)) as [Hc1 Hs1] by (apply (supervised_host (w.1, h)); [by apply supervised_host|done]).
    apply wp_bind, wp_update, wp_bind, wp_update_state. eapply wp_mono; [apply refresh_ok; split; [by apply (core_runtime _ (w.1, h1))|done]|].
    intros r w' [? ->]. split; [done|]. by intros ? [= <-]. }
  destruct requested as [requested|].
  - apply wp_bind, wp_host; [apply host_candidates|]. intros [cs|e] h K; [|split; [by apply supervised_host|done]].
    apply wp_bind, find_same_ok. intros o h' K'. assert (host_keeps w.2 h') as K2 by (destruct K, K'; cbn in *; split; congruence).
    destruct o; [apply wp_ret; exact (Hrest (Some s) h' K2)|]. apply wp_outcome. split; [by apply (supervised_host w)|done].
  - apply wp_ret. destruct w as [r h]. exact (Hrest None h (conj eq_refl eq_refl)).
Qed.
Lemma shutdown_ok w : supervised w ->
  wp shutdown (fun r w' => supervised w' /\ (r = Ok tt -> owned w'.2 = [] /\ sh_phase (rs_snapshot (rt_state w'.1)) = Stopped)) w.
Proof using Hlaws.
  intros [Hc Hs]. unfold shutdown. apply wp_bind, wp_get, wp_bind, wp_update_state, wp_bind.
  destruct (rs_active (rt_state w.1)) as [a|] eqn:Ea.
  - apply wp_attempt. intros r w' E. unfold host in E. cbn in E. destruct (router_shutdown a w.2) as [r1 h1] eqn:Es. injection E as <- <-.
    destruct r1 as [[]|e].
    + apply host_stop in Es as [Eo En]. apply wp_bind, wp_update_state, wp_bind, wp_publish, wp_bind, wp_update, wp_outcome. cbn.
      destruct Hc as [Ho Hn]. assert (owned h1 = []) as E0 by (rewrite Eo, Ho; cbn; by rewrite Z.eqb_refl).
      split; [|by intros _]. split; [|done]. split; cbn; [done|]. by rewrite En.
    + apply host_stop_err in Es. apply wp_bind, wp_update_state, wp_bind, wp_publish, wp_bind, wp_update, wp_outcome. cbn.
      split; [|done]. split; [|done]. apply (core_runtime (Some a) (w.1, h1)); [|done..]. by apply core_host.
  - apply wp_ret. apply wp_bind, wp_update_state, wp_bind, wp_publish, wp_bind, wp_update, wp_outcome. cbn. destruct Hc as [Ho Hn].
    split; [|done]. split; [|done]. by split.
Qed.

(** ** Histories *)
Inductive runtime_step : Runtime * H -> Runtime * H -> Prop :=
| step_refresh w r w' : refresh policy w = (r, w') -> runtime_step w w'
| step_set_rcp requested w r w' : set_rcp_device policy requested w = (r, w') -> runtime_step w w'
| step_shutdown w r w' : shutdown w = (r, w') -> runtime_step w w'
| step_host w h : host_keeps w.2 h -> runtime_step w (w.1, h).
Lemma runtime_step_ok w w' : runtime_step w w' -> supervised w -> supervised w'.
Proof using Hlaws Hpolicy.
  intros [w1 r w2 E|req w1 r w2 E|w1 r w2 E|w1 h K] Hs.
  - by apply refresh_ok in E as [? _].
  - by apply set_rcp_device_ok in E as [? _].
  - by apply shutdown_ok in E as [? _].
  - by apply supervised_host.
Qed.
Lemma start_supervised config h : owned h = [] -> starts h = 0 -> supervised (new_runtime config, h).
Proof using Type. intros Ho Hn. split; [|by split]. split; [done|]. cbn. rewrite Hn. by split. Qed.
Lemma history_supervised w w' : rtc runtime_step w w' -> supervised w -> supervised w'.
Proof using Hlaws Hpolicy. induction 1 as [|w1 w2 w3 Hs _ IH]; [done|]. intros Hw. by eapply IH, runtime_step_ok. Qed.
End supervised.

(** C14. Over any history of refreshes, selections of a serial device, shutdowns
    and changes on the host, at most one border router exists that was started
    and not stopped, and it is the one the runtime holds; the restarts counted
    are the starts after the first; the snapshot says available or ready only
    with a router and waiting, backing off or stopped only without one.  From
    there a refresh always returns a snapshot, and a shutdown that succeeds
    leaves no router. *)
Theorem one_border_router {H} `{!RuntimeBackend H, !RuntimeModel H, !RuntimeLaws H} policy config (h0 : H) w :
  0 <= po_initial_backoff policy -> 0 <= po_max_backoff policy -> owned h0 = [] -> starts h0 = 0 ->
  rtc (runtime_step policy) (new_runtime config, h0) w ->
  owned w.2 = handles (rs_active (rt_state w.1))
  /\ rs_restart_count (rt_state w.1) = Z.min Int.u64_max (Z.max 0 (starts w.2 - 1))
  /\ snapshot_ok (rt_state w.1)
  /\ (exists s w', refresh policy w = (Ok s, w') /\ s = rs_snapshot (rt_state w'.1))
  /\ (forall w', shutdown w = (Ok tt, w') -> owned w'.2 = []).
Proof.
  intros Hi Hm Ho Hn Hr. assert (supervised w) as Hs by (eapply history_supervised; [by split|done|by apply start_supervised]).
  split_and!; [apply Hs|apply Hs|apply Hs| |].
  - destruct (refresh policy w) as [r w'] eqn:E. apply refresh_ok in E as [_ ->]; [by eexists _, _|by split|done].
  - intros w' E. apply shutdown_ok in E as [_ E]; [|done]. by apply E.
Qed.

(** Before the retry time a refresh only reads the clock. *)
Theorem backoff_waits {H} `{!RuntimeBackend H} policy (w : Runtime * H) t now h :
  rs_active (rt_state w.1) = None -> rs_retry_not_before (rt_state w.1) = Some t -> clock_instant w.2 = (now, h) -> now < t ->
  refresh policy w = (Ok (rs_snapshot (rt_state w.1)), (w.1, h)).
Proof.
  intros Ha Hr Hc Hn. unfold refresh, mbind, action_bind, get_runtime, host_total. rewrite Ha, Hr, Hc. cbn. by rewrite (proj2 (Z.ltb_lt now t) Hn).
Qed.
(** A failed health check below the threshold keeps the router. *)
Theorem failures_tolerated {H} `{!RuntimeBackend H} policy (w : Runtime * H) a e :
  rs_active (rt_state w.1) = Some a -> cf_rcp_device (rt_config w.1) = None ->
  (forall h, exists h', path_exists (mr_rcp_device a) h = (true, h')) -> (forall h, exists h', router_poll_exit a h = (Ok None, h')) ->
  (forall h, exists h', router_health_check a h = (Err e, h')) ->
  rs_health_failures (rt_state w.1) + 1 < po_health_failure_threshold policy -> po_health_failure_threshold policy <= Int.u32_max ->
  exists s w', refresh policy w = (Ok s, w') /\ rs_active (rt_state w'.1) = Some a /\ sh_available s = true /\ sh_phase s = Degraded
    /\ rs_health_failures (rt_state w'.1) = rs_health_failures (rt_state w.1) + 1.
Proof.
  intros Ha Hd Hx Hp Hh Hf Hu. unfold refresh, mbind, action_bind, get_runtime, host_total at 1. destruct (clock_instant w.2) as [now h]. cbn. rewrite Ha. cbn.
  unfold check_active, failure_reason. rewrite Hd. unfold mbind, action_bind, host_total, host, attempt. cbn.
  destruct (Hx h) as [h1 ->]. cbn. destruct (Hp h1) as [h2 ->]. cbn. destruct (Hh h2) as [h3 ->]. cbn.
  unfold saturating_add_u32. rewrite Z.min_r by lia. rewrite (proj2 (Z.ltb_lt _ _) Hf). cbn. by eexists _, _.
Qed.

(** ** A host *)
Record DemoHost := { dh_owned : list Z; dh_starts : nat; dh_faulty : bool }.
Definition demo_start (c : BorderRouterConfig) (h : DemoHost) : R ManagedRouter * DemoHost :=
  let n := S (dh_starts h) in
  (Ok {| mr_handle := Z.of_nat n; mr_rcp_device := br_rcp_device c; mr_thread_interface := br_thread_interface c |},
   {| dh_owned := Z.of_nat n :: dh_owned h; dh_starts := n; dh_faulty := false |}).
#[export] Instance demo_backend : RuntimeBackend DemoHost := {|
  backend_discover_rcp h := (Ok (Some "/dev/ttyACM0"), h);
  backend_serial_candidates h := (Ok [], h);
  backend_discover_agent p h := (Ok (Some "otbr-agent"), h);
  backend_start := demo_start;
  router_poll_exit a h := (Ok None, h);
  router_diagnostic_tail a h := ("", h);
  router_health_check a h := (if dh_faulty h then Err (TControl "timeout") else Ok tt, h);
  router_shutdown a h :=
    (Ok tt, {| dh_owned := List.filter (fun x => negb (x =? mr_handle a)) (dh_owned h); dh_starts := dh_starts h; dh_faulty := dh_faulty h |});
  path_exists p h := (true, h);
  canonicalize p h := (Ok p, h);
  persist_settings p d h := (Ok tt, h);
  clock_instant h := (0, h);
  clock_system h := (0, h);
  jitter b h := (None, h);
  secs_text d := "";
|}.
#[export] Instance demo_host_model : RuntimeModel DemoHost := {| owned := dh_owned; starts h := Z.of_nat (dh_starts h) |}.
Definition demo_config : ThreadRuntimeConfig :=
  {| cf_rcp_device := None; cf_agent_path := None; cf_baud_rate := 460800; cf_thread_interface := "wpan0";
     cf_infrastructure_interface := "eth0"; cf_data_path := "/var/lib/thread" |}.
#[export] Instance demo_host_laws : RuntimeLaws DemoHost.
Proof.
  split; unfold host_keeps; cbn; unfold demo_start; intros; simplify_eq/=; try (split_and!; try done; lia); try lia.
Qed.
Definition demo_host : DemoHost := {| dh_owned := []; dh_starts := 0; dh_faulty := false |}.
Definition refreshed (w : Runtime * DemoHost) : Runtime * DemoHost := (refresh default_policy w).2.
Definition demo_started : Runtime * DemoHost := refreshed (new_runtime demo_config, demo_host).
Definition demo_faulty : Runtime * DemoHost := (demo_started.1, {| dh_owned := dh_owned demo_started.2; dh_starts := dh_starts demo_started.2; dh_faulty := true |}).
Definition demo_replaced : Runtime * DemoHost := refreshed (refreshed (refreshed demo_faulty)).
Lemma demo_supervision : rtc (runtime_step default_policy) (new_runtime demo_config, demo_host) demo_replaced.
Proof.
  apply (rtc_l _ _ demo_started). { eapply step_refresh, surjective_pairing. }
  apply (rtc_l _ _ demo_faulty). { apply (step_host default_policy demo_started). by split. }
  apply (rtc_l _ _ (refreshed demo_faulty)). { eapply step_refresh, surjective_pairing. }
  apply (rtc_l _ _ (refreshed (refreshed demo_faulty))). { eapply step_refresh, surjective_pairing. }
  apply (rtc_l _ _ demo_replaced). { eapply step_refresh, surjective_pairing. }
  apply rtc_refl.
Qed.
(** The third failed check replaces the router. *)
Lemma one_border_router_witness :
  dh_owned demo_faulty.2 = [1] /\ dh_owned demo_replaced.2 = [2] /\ owned demo_replaced.2 = handles (rs_active (rt_state demo_replaced.1))
  /\ rs_restart_count (rt_state demo_replaced.1) = 1.
Proof.
  split; [vm_compute; reflexivity|]. split; [vm_compute; reflexivity|].
  destruct (one_border_router default_policy demo_config demo_host demo_replaced ltac:(vm_compute; discriminate) ltac:(vm_compute; discriminate)
    eq_refl eq_refl demo_supervision) as (H1 & H2 & _). split; [exact H1|]. rewrite H2. vm_compute. reflexivity.
Defined.
