(* ===== verification/NativeUpdate.v ===== *)
(** * Updates of a native device client (clients/rust/sdk/src/ota.rs,
    native_ota.rs)

    A client replaces its own executable and keeps a journal beside it.  The
    journal, the previous image and a watchdog process decide what becomes of
    an update: the new image confirms itself once it has run for a while, or
    the watchdog puts the previous one back.

    The disk is the files by path.  A system call works, fails, or is where
    the process stops (a crash, a kill or a power loss); what happens is a list
    of outcomes the operations consume, so the theorems hold for every one.  A
    completed rename is durable. *)
From S2P Require Import Prelude Text BTree Json Shadows ContractModel ContractCompiler Firmware.
From Stdlib Require Import Ascii.
From stdpp Require Import gmap strings.

Local Open Scope Z_scope.

(** ** Payloads *)
Record OtaPayload := {
  op_deployment_id : Z; op_firmware_version : string; op_firmware_url : string;
  op_firmware_update_id : option Z; op_sha256 : option string;
}.
Definition member_str (k : string) (v : value) : option string := get k v ≫= as_str.
Definition member_i64 (k : string) (v : value) : option Z := get k v ≫= as_i64.
Definition payload_from_json (v : value) : option OtaPayload :=
  hash ← member_str "sha256" v;
  version ← member_str "firmware_version" v;
  url ← member_str "firmware_url" v;
  if negb (str_len hash =? 64) || negb (str_forall is_ascii_hexdigit hash) || str_is_empty version
     || (63 <? str_len version) || (1023 <? str_len url)
     || negb (starts_with "https://" url || starts_with "http://" url)
  then None else
  deployment ← member_i64 "deployment_id" v;
  if deployment <=? 0 then None else
  update ← member_i64 "firmware_update_id" v;
  if update <=? 0 then None else
  Some {| op_deployment_id := deployment; op_firmware_version := version; op_firmware_url := url;
          op_firmware_update_id := member_i64 "firmware_update_id" v; op_sha256 := member_str "sha256" v |}.
Definition build_status_json (status version : string) (update : option Z) (deployment : Z) (error : option string) : value :=
  let obj := [("status", VString status); ("firmware_version", VString version); ("deployment_id", of_int deployment)] in
  let obj := obj ++ match update with Some id => [("firmware_update_id", of_int id)] | None => [] end in
  object (obj ++ match error with Some e => [("error", VString e)] | None => [] end).

(** ** System calls *)
Inductive IoError := IoNotFound | IoOther (message : string).
(** A call works, fails having done part of a write, or stops the process there. *)
Inductive Fault := Works | Fails (written : nat) (message : string) | Stops (written : nat).
Record World := {
  w_files : gmap string string; w_faults : list Fault;
  w_watchdogs : list Z; (* the attempts of the watchdog processes that are waiting *)
}.
Definition with_files (w : World) (f : gmap string string) : World :=
  {| w_files := f; w_faults := w_faults w; w_watchdogs := w_watchdogs w |}.
Inductive IoResult (A : Type) := Done (a : A) | Failed (e : IoError) | Stopped.
Arguments Done {A} a.
Arguments Failed {A} e.
Arguments Stopped {A}.
Definition io (A : Type) : Type := World -> IoResult A * World.
#[export] Instance io_ret : MRet io := fun _ a w => (Done a, w).
#[export] Instance io_bind : MBind io := fun _ _ k m w =>
  match m w with (Done a, w') => k a w' | (Failed e, w') => (Failed e, w') | (Stopped, w') => (Stopped, w') end.
Definition io_of {A} (r : IoResult A) : io A := fun w => (r, w).
Definition io_fail {A} (e : IoError) : io A := io_of (Failed e).
(** [Err] as a value, for [match] and [let _ =]; a stop stays a stop. *)
Definition io_try {A} (m : io A) : io (result IoError A) := fun w =>
  match m w with (Done a, w') => (Done (Ok a), w') | (Failed e, w') => (Done (Err e), w') | (Stopped, w') => (Stopped, w') end.
(** A call: [effect] if it works, [partial n] what is left if it fails or stops. *)
Definition syscall {A} (effect : World -> IoResult A * World) (partial : nat -> World -> World) : io A := fun w =>
  match w_faults w with
  | [] => effect w
  | fault :: rest =>
    let w := {| w_files := w_files w; w_faults := rest; w_watchdogs := w_watchdogs w |} in
    match fault with
    | Works => effect w
    | Fails n message => (Failed (IoOther message), partial n w)
    | Stops n => (Stopped, partial n w)
    end
  end.
Definition unchanged (_ : nat) (w : World) : World := w.
Definition fs_read (path : string) : io string :=
  syscall (fun w => match w_files w !! path with Some b => (Done b, w) | None => (Failed IoNotFound, w) end) unchanged.
(** [Path::exists] is false on an error. *)
Definition fs_exists (path : string) : io bool :=
  r ← io_try (syscall (fun w => (Done (bool_decide (is_Some (w_files w !! path))), w)) unchanged);
  mret (match r with Ok b => b | Err _ => false end).
Definition open_new (path : string) : io unit :=
  syscall (fun w => match w_files w !! path with
                    | Some _ => (Failed (IoOther "File exists"), w)
                    | None => (Done tt, with_files w (<[path := ""]> (w_files w))) end) unchanged.
Definition write_all (path bytes : string) : io unit :=
  syscall (fun w => (Done tt, with_files w (<[path := bytes]> (w_files w))))
          (fun n w => with_files w (<[path := String.substring 0 n bytes]> (w_files w))).
(** [File::sync_all] can fail, and otherwise changes nothing: the disk keeps what
    was written when the process stops; data lost by a power failure before a
    sync is not modelled. *)
Definition sync_all : io unit := syscall (fun w => (Done tt, w)) unchanged.
(** [File::open] of a directory, [File::lock]: nothing of the files changes. *)
Definition open_dir : io unit := syscall (fun w => (Done tt, w)) unchanged.
Definition flock : io unit := syscall (fun w => (Done tt, w)) unchanged.
Definition fs_rename (from to : string) : io unit :=
  syscall (fun w => match w_files w !! from with
                    | Some bytes => (Done tt, with_files w (<[to := bytes]> (delete from (w_files w))))
                    | None => (Failed IoNotFound, w) end) unchanged.
Definition remove_file (path : string) : io unit :=
  syscall (fun w => (Done tt, with_files w (delete path (w_files w)))) unchanged.
Definition spawn_watchdog (attempt : Z) : io unit :=
  syscall (fun w => (Done tt, {| w_files := w_files w; w_faults := w_faults w; w_watchdogs := attempt :: w_watchdogs w |}))
          unchanged.

(** ** The journal *)
Class ImageDigest := { image_sha256 : string -> list Z }.
(** [state["a"]] is null where there is no such member; comparing it with a string compares [as_str]. *)
Definition index (k : string) (v : value) : value := default Null (get k v).
Definition phase_is (v : value) (phase : string) : bool := bool_decide (as_str (index "phase" v) = Some phase).
(** [state[k] = x]; only objects reach it, a phase having been read from them. *)
Definition set_member (k : string) (x v : value) : value :=
  match v with Object m => Object (bt_insert k x m) | other => other end.
Definition unfinished (v : value) : bool := phase_is v "pending" || phase_is v "booting".
Definition attempt_of (v : value) : option Z := as_i64 (index "deployment_id" (index "payload" v)).

Section native.
Context `{!SerdeJson, !ImageDigest}.
Definition digest (bytes : string) : string := as_hex (image_sha256 bytes).

Definition sidecar (path suffix : string) : string := path +:+ suffix.
Definition lock (exe : string) : io unit :=
  _ ← syscall (fun w => (Done tt, with_files w (match w_files w !! sidecar exe ".ota-lock" with
                                                | Some _ => w_files w
                                                | None => <[sidecar exe ".ota-lock" := ""]> (w_files w) end))) unchanged;
  flock.
Definition read (exe : string) : io value :=
  r ← io_try (fs_read (sidecar exe ".ota-state"));
  match r with
  | Ok bytes => match from_str bytes with Ok v => mret v | Err e => io_fail (IoOther e) end
  | Err IoNotFound => mret Null
  | Err e => io_fail e
  end.
Definition temporary (path : string) (pid : Z) : string := sidecar path (".tmp-" +:+ int_to_string pid).
Definition atomic_write (pid : Z) (path bytes : string) : io unit :=
  let tmp := temporary path pid in
  _ ← open_new tmp;
  r ← io_try (_ ← write_all tmp bytes; _ ← sync_all; _ ← fs_rename tmp path; _ ← open_dir; sync_all);
  match r with
  | Ok _ => mret tt
  | Err e => _ ← io_try (remove_file tmp); io_fail e
  end.
Definition save (pid : Z) (exe : string) (state : value) : io unit :=
  match to_string state with
  | Ok text => atomic_write pid (sidecar exe ".ota-state") text
  | Err e => io_fail (IoOther e)
  end.
Definition pending_state (bytes : string) (payload : value) (previous previous_version version : string) : value :=
  object [("phase", VString "pending"); ("payload", payload); ("digest", VString (digest bytes));
          ("previous_digest", VString (digest previous)); ("previous_version", VString previous_version);
          ("version", VString ("v" +:+ trim_start_matches "v" version))].
Definition install (pid : Z) (exe bytes : string) (payload : value) (previous_version : string) : io unit :=
  _ ← lock exe;
  match payload_from_json payload with
  | None => io_fail (IoOther "Invalid OTA manifest")
  | Some parsed =>
    previous ← fs_read exe;
    _ ← atomic_write pid (sidecar exe ".ota-previous") previous;
    _ ← save pid exe (pending_state bytes payload previous previous_version (op_firmware_version parsed));
    _ ← spawn_watchdog (op_deployment_id parsed);
    atomic_write pid exe bytes
  end.
Definition rollback (pid : Z) (exe : string) (attempt : option Z) : io unit :=
  _ ← lock exe;
  state ← read exe;
  if bool_decide (attempt = None) || negb (bool_decide (attempt_of state = attempt)) || negb (unfinished state)
  then mret tt else
  previous ← fs_read (sidecar exe ".ota-previous");
  if negb (bool_decide (as_str (index "previous_digest" state) = Some (digest previous)))
  then io_fail (IoOther "Rollback image integrity failure") else
  _ ← atomic_write pid exe previous;
  save pid exe (set_member "phase" (VString "rolled_back") state).
(** The version that runs, and the attempt the started process watches. *)
Definition boot (pid : Z) (exe : string) : io (option string * option value) :=
  there ← fs_exists (sidecar exe ".ota-state");
  if negb there then mret (None, None) else
  _ ← lock exe;
  state ← read exe;
  image ← fs_read exe;
  if phase_is state "rolled_back" && bool_decide (as_str (index "previous_digest" state) = Some (digest image))
  then mret (as_str (index "previous_version" state), None) else
  if negb (bool_decide (as_str (index "digest" state) = Some (digest image))) then mret (None, None) else
  if unfinished state
  then let state := set_member "phase" (VString "booting") state in
       _ ← save pid exe state;
       mret (as_str (index "version" state), Some (index "deployment_id" (index "payload" state)))
  else mret (as_str (index "version" state), None).
(** A round of the thread that [boot] starts: go on, end, or exit the process. *)
Inductive MonitorVerdict := Watch | Leave | ExitProcess.
Definition monitor (exe : string) (attempt : value) : io MonitorVerdict :=
  r ← io_try (read exe);
  mret (match r with
        | Err _ => Watch
        | Ok state =>
          if negb (value_eqb (index "deployment_id" (index "payload" state)) attempt) || phase_is state "confirmed" then Leave
          else if phase_is state "rolled_back" then ExitProcess else Watch
        end).
Definition is_installed_attempt (exe : string) (deployment : Z) : io bool :=
  r ← io_try (read exe);
  match r with
  | Err _ => mret false
  | Ok state =>
    if negb (bool_decide (attempt_of state = Some deployment)) then mret false else
    image ← io_try (fs_read exe);
    mret (match image with
          | Ok bytes => bool_decide (as_str (index "digest" state) = Some (digest bytes))
          | Err _ => false end)
  end.
Definition needs_confirmation (exe : string) : io bool :=
  r ← io_try (read exe); mret (match r with Ok state => phase_is state "booting" | Err _ => false end).
Definition health_check_failed : string := "Startup health check failed; previous image restored".
Definition terminal_report (state : value) : IoResult (option value) :=
  match (if phase_is state "confirmed" then Some ("success", None)
         else if phase_is state "rolled_back" then Some ("failed", Some health_check_failed) else None) with
  | None => Done None
  | Some (status, error) =>
    match payload_from_json (index "payload" state) with
    | None => Failed (IoOther "Invalid installation journal")
    | Some p => Done (Some (build_status_json status (op_firmware_version p) (op_firmware_update_id p) (op_deployment_id p) error))
    end
  end.
Definition confirm (pid : Z) (exe : string) : io (option value) :=
  there ← fs_exists (sidecar exe ".ota-state");
  if negb there then mret None else
  _ ← lock exe;
  state ← read exe;
  stale ← (if phase_is state "confirmed"
           then image ← fs_read exe; mret (negb (bool_decide (as_str (index "digest" state) = Some (digest image))))
           else mret false);
  if (stale : bool) then mret None else
  state ← (if phase_is state "booting"
           then image ← fs_read exe;
                if negb (bool_decide (as_str (index "digest" state) = Some (digest image)))
                then io_fail (IoOther "Installed image changed")
                else let state := set_member "phase" (VString "confirmed") state in
                     _ ← save pid exe state; mret state
           else mret state);
  io_of (terminal_report state).
End native.

(** ** Reading a journal

    What is read of a journal is strings and integers at fixed places, so it
    survives being written and read back as far as these do. *)
Class SerdeTextLaws `{!SerdeJson} := {
  strings_survive v t v' path :
    wf_value v -> to_string v = Ok t -> from_str t = Ok v' -> (get_path path v' ≫= as_str) = (get_path path v ≫= as_str);
  printed_parses v t : wf_value v -> to_string v = Ok t -> exists v', from_str t = Ok v';
}.
Record JournalView := {
  jv_phase : option string; jv_digest : option string; jv_previous_digest : option string;
  jv_previous_version : option string; jv_version : option string; jv_payload : option OtaPayload; jv_attempt : option Z;
}.
Definition view (v : value) : JournalView :=
  {| jv_phase := as_str (index "phase" v); jv_digest := as_str (index "digest" v);
     jv_previous_digest := as_str (index "previous_digest" v); jv_previous_version := as_str (index "previous_version" v);
     jv_version := as_str (index "version" v); jv_payload := payload_from_json (index "payload" v);
     jv_attempt := attempt_of v |}.
Definition with_phase (j : JournalView) (phase : string) : JournalView :=
  {| jv_phase := Some phase; jv_digest := jv_digest j; jv_previous_digest := jv_previous_digest j;
     jv_previous_version := jv_previous_version j; jv_version := jv_version j; jv_payload := jv_payload j; jv_attempt := jv_attempt j |}.

Lemma index_str k v : as_str (index k v) = get_path [k] v ≫= as_str.
Proof. unfold index. simpl. by destruct (get k v). Qed.
Lemma nested_member {A} (f : value -> option A) k k' v :
  f Null = None -> get k' (index k v) ≫= f = get_path [k; k'] v ≫= f.
Proof. unfold index. simpl. destruct (get k v) as [x|]; simpl; [by destruct (get k' x)|done]. Qed.
Lemma attempt_path v : attempt_of v = get_path ["payload"; "deployment_id"] v ≫= as_i64.
Proof. unfold attempt_of. rewrite <- (nested_member as_i64) by done. unfold index at 1. by destruct (get _ (index _ v)). Qed.
Lemma payload_from_json_ext v v' :
  (forall k, member_str k v = member_str k v') -> (forall k, member_i64 k v = member_i64 k v') ->
  payload_from_json v = payload_from_json v'.
Proof. intros Hs Hi. unfold payload_from_json. by rewrite !Hs, !Hi. Qed.
Lemma view_survives `{!SerdeJson, !SerdeJsonLaws, !SerdeTextLaws} v t :
  wf_value v -> to_string v = Ok t -> exists v', from_str t = Ok v' /\ wf_value v' /\ view v' = view v.
Proof.
  intros Hw Ht. destruct (printed_parses v t Hw Ht) as [v' Hv']. exists v'.
  split; [done|]. split; [by eapply from_str_wf|].
  assert (forall path, get_path path v' ≫= as_str = get_path path v ≫= as_str) as Hs by (intros; by eapply strings_survive).
  assert (forall path, get_path path v' ≫= as_i64 = get_path path v ≫= as_i64) as Hi by (intros; by eapply integers_survive).
  unfold view. rewrite !index_str, !attempt_path, !Hs, Hi. f_equal.
  apply payload_from_json_ext; intros k; [unfold member_str|unfold member_i64]; by rewrite !nested_member.
Qed.
Lemma view_set_phase v phase p :
  as_str (index "phase" v) = Some p -> view (set_member "phase" (VString phase) v) = with_phase (view v) phase.
Proof.
  intros Hp. assert (forall k, k <> "phase" -> get k (set_member "phase" (VString phase) v) = get k v) as Hk.
  { intros k Hne. destruct v; try done. simpl. rewrite bt_get_insert. case_match; [|done].
    exfalso. apply Hne. symmetry. by apply String.eqb_eq. }
  assert (get "phase" (set_member "phase" (VString phase) v) = Some (VString phase)) as Hphase.
  { destruct v; try by vm_compute in Hp. simpl. by rewrite bt_get_insert. }
  unfold view, with_phase, attempt_of, index. rewrite Hphase, !Hk by done. reflexivity.
Qed.
Lemma set_member_wf k x v : wf_value x -> wf_value v -> wf_value (set_member k x v).
Proof.
  intros Hx Hv. destruct v as [| | | | |m]; try done. simpl. inversion Hv as [| | | | |? Hs Hm]; subst.
  constructor; [by apply bt_insert_sorted|]. rewrite Forall_forall in Hm |- *.
  intros e [->|He]%bt_insert_keys; [done|by apply Hm].
Qed.

(** ** Outcomes of an operation

    [safe m w Q F]: run in [w], [m] ends with [Q] or, when it fails or stops,
    with [F]. *)
Definition safe {A} (m : io A) (w : World) (Q : A -> World -> Prop) (F : World -> Prop) : Prop :=
  match m w with (Done a, w') => Q a w' | (_, w') => F w' end.
Lemma safe_ret {A} (a : A) w (Q : A -> World -> Prop) F : Q a w -> safe (mret a) w Q F.
Proof. done. Qed.
Lemma safe_fail {A} e w (Q : A -> World -> Prop) (F : World -> Prop) : F w -> safe (io_fail e) w Q F.
Proof. done. Qed.
Lemma safe_bind {A B} (m : io A) (k : A -> io B) w Q F :
  safe m w (fun a w' => safe (k a) w' Q F) F -> safe (m ≫= k) w Q F.
Proof. unfold safe, mbind, io_bind. by destruct (m w) as [[a|e|] w']. Qed.
Lemma safe_mono {A} (m : io A) w (Q Q' : A -> World -> Prop) (F F' : World -> Prop) :
  safe m w Q F -> (forall a w', Q a w' -> Q' a w') -> (forall w', F w' -> F' w') -> safe m w Q' F'.
Proof. unfold safe. destruct (m w) as [[a|e|] w']; auto. Qed.
Lemma safe_try {A} (m : io A) w (Q : result IoError A -> World -> Prop) F :
  safe m w (fun a w' => Q (Ok a) w') (fun w' => F w' /\ forall e, Q (Err e) w') -> safe (io_try m) w Q F.
Proof. unfold safe, io_try. destruct (m w) as [[a|e|] w']; naive_solver. Qed.
Lemma safe_run {A} (m : io A) w (Q : A -> World -> Prop) F r w' :
  safe m w Q F -> m w = (r, w') -> match r with Done a => Q a w' | _ => F w' end.
Proof. unfold safe. intros H E. rewrite E in H. by destruct r. Qed.
(** A call: what it does, and what is left of it. *)
Lemma safe_syscall {A} (effect : World -> IoResult A * World) partial w (Q : A -> World -> Prop) F :
  (forall w', w_files w' = w_files w -> w_watchdogs w' = w_watchdogs w ->
     match effect w' with (Done a, w'') => Q a w'' | (_, w'') => F w'' end /\ forall n, F (partial n w')) ->
  safe (syscall effect partial) w Q F.
Proof.
  intros H. unfold safe, syscall. destruct (w_faults w) as [|[|n m|n] rest]; [by apply H| | |]; cbv zeta.
  - by apply H.
  - by apply H.
  - by apply H.
Qed.

(** The three files that matter: the executable, the journal, the previous image. *)
Section keys.
Context (exe : string).
Definition keys (w : World) : option string * option string * option string :=
  (w_files w !! exe, w_files w !! sidecar exe ".ota-state", w_files w !! sidecar exe ".ota-previous").
Definition same (w w' : World) : Prop := keys w' = keys w /\ w_watchdogs w' = w_watchdogs w.
Lemma same_refl w w' : w_files w' = w_files w -> w_watchdogs w' = w_watchdogs w -> same w w'.
Proof. intros Hf Hd. split; [|done]. unfold keys. by rewrite Hf. Qed.
Lemma same_trans w1 w2 w3 : same w1 w2 -> same w2 w3 -> same w1 w3.
Proof. intros [H1 H2] [H3 H4]. split; congruence. Qed.
Lemma suffix_neq a b : a <> b -> sidecar exe a <> sidecar exe b.
Proof. intros Hne H. apply Hne. unfold sidecar in H. clear Hne. induction exe as [|c s IH]; [done|]. simpl in H. injection H. done. Qed.
Lemma sidecar_nil : sidecar exe "" = exe.
Proof. unfold sidecar. induction exe as [|c s IH]; [done|]. apply (f_equal (String c)), IH. Qed.
Lemma temporary_neq a b pid :
  a ∈ [""; ".ota-state"; ".ota-previous"] -> b ∈ [""; ".ota-state"; ".ota-previous"] ->
  temporary (sidecar exe a) pid <> sidecar exe b.
Proof.
  intros Ha Hb. unfold temporary. unfold sidecar at 1 2. rewrite str_app_assoc.
  change (exe +:+ ?x) with (sidecar exe x). apply suffix_neq.
  set_unfold in Ha. set_unfold in Hb. by destruct Ha as [->|[->|[->|[]]]], Hb as [->|[->|[->|[]]]].
Qed.
Lemma exe_neq a : a <> "" -> exe <> sidecar exe a.
Proof. intros Hne. rewrite <- sidecar_nil at 1. by apply suffix_neq. Qed.

(** Replacing a file: it stays, or is replaced as a whole; nothing else changes. *)
Definition file (w : World) (a : string) : option string := w_files w !! sidecar exe a.
Definition replaced (a bytes : string) (w w' : World) : Prop :=
  (forall b, b ∈ [""; ".ota-state"; ".ota-previous"] -> file w' b = if bool_decide (b = a) then Some bytes else file w b)
  /\ w_watchdogs w' = w_watchdogs w.
Lemma same_file w w' : same w w' <->
  (forall b, b ∈ [""; ".ota-state"; ".ota-previous"] -> file w' b = file w b) /\ w_watchdogs w' = w_watchdogs w.
Proof.
  unfold same, keys, file. split.
  - intros [[= H1 H2 H3] Hd]. split; [|done]. intros b Hb. set_unfold in Hb.
    destruct Hb as [->|[->|[->|[]]]]; rewrite ?sidecar_nil; done.
  - intros [H Hd]. split; [|done]. rewrite <- sidecar_nil at 1 4. rewrite !H by set_solver. done.
Qed.
Lemma replaced_temporary a bytes w w' pid : a ∈ [""; ".ota-state"; ".ota-previous"] ->
  replaced a bytes w w' -> replaced a bytes w (with_files w' (delete (temporary (sidecar exe a) pid) (w_files w'))).
Proof.
  intros Ha [Hf Hd]. split; [|done]. intros b Hb. rewrite <- Hf by done. unfold file. simpl.
  apply lookup_delete_ne. by apply temporary_neq.
Qed.
Lemma same_put w0 w w' path x pid a : a ∈ [""; ".ota-state"; ".ota-previous"] -> path = temporary (sidecar exe a) pid ->
  same w0 w -> w_watchdogs w' = w_watchdogs w -> w_files w' = partial_alter (fun _ => x) path (w_files w) -> same w0 w'.
Proof.
  intros Ha -> Hs Hd Hf. apply (same_trans _ _ _ Hs), same_file. split; [|done]. intros b Hb. unfold file. rewrite Hf.
  apply lookup_partial_alter_ne. by apply temporary_neq.
Qed.
Definition untouched_or (a bytes : string) (w w' : World) : Prop := same w w' \/ replaced a bytes w w'.
Lemma untouched_or_files a bytes w w1 w2 :
  w_files w2 = w_files w1 -> w_watchdogs w2 = w_watchdogs w1 -> untouched_or a bytes w w1 -> untouched_or a bytes w w2.
Proof.
  intros Hf Hd [H|[H1 H2]]; [left; apply (same_trans _ _ _ H); by apply same_refl|right].
  split; [|congruence]. intros b Hb. unfold file. rewrite Hf. by apply H1.
Qed.
Lemma safe_replace pid a bytes w0 w : a ∈ [""; ".ota-state"; ".ota-previous"] -> same w0 w ->
  let tmp := temporary (sidecar exe a) pid in
  safe (_ ← write_all tmp bytes; _ ← sync_all; _ ← fs_rename tmp (sidecar exe a); _ ← open_dir; sync_all) w
    (fun _ => replaced a bytes w0) (untouched_or a bytes w0).
Proof.
  intros Ha Hs tmp. apply safe_bind, safe_syscall. intros w1 Hf1 Hd1. cbn.
  split; [|intros n; left; by eapply (same_put _ w _ tmp (Some _) pid a); [..|cbn; rewrite Hf1]].
  apply safe_bind, safe_syscall. cbn. intros w2 Hf2 Hd2.
  assert (same w0 w2) as Hs2 by (eapply (same_put _ w _ tmp (Some bytes) pid a); [done|done|done|congruence|by rewrite Hf2, Hf1]).
  split; [|intros ?; by left].
  apply safe_bind, safe_syscall. cbn. intros w3 Hf3 Hd3. split; [|intros ?; left; apply (same_trans _ _ _ Hs2); by apply same_refl].
  rewrite Hf3, Hf2, lookup_insert_eq. cbn.
  assert (forall w', w_files w' = <[sidecar exe a := bytes]> (delete tmp (<[tmp := bytes]> (w_files w1))) ->
    w_watchdogs w' = w_watchdogs w -> replaced a bytes w0 w') as Hr.
  { intros w' Hf Hd. apply same_file in Hs as [Hs Hsd]. split; [|congruence]. intros b Hb. unfold file. rewrite Hf.
    case_bool_decide as E; [subst; by rewrite lookup_insert_eq|]. rewrite lookup_insert_ne by (by apply suffix_neq).
    rewrite lookup_delete_ne, lookup_insert_ne by (by apply temporary_neq). rewrite Hf1. by apply Hs. }
  apply safe_bind, safe_syscall. cbn. intros w4 Hf4 Hd4.
  assert (replaced a bytes w0 w4) as H4 by (apply Hr; congruence). split; [|intros ?; by right].
  apply safe_syscall. intros w5 Hf5 Hd5. cbn. assert (replaced a bytes w0 w5) by (apply Hr; congruence).
  split; [done|intros ?; by right].
Qed.
Lemma safe_atomic_write pid a bytes w (Q : unit -> World -> Prop) (F : World -> Prop) :
  a ∈ [""; ".ota-state"; ".ota-previous"] ->
  (forall w', same w w' -> F w') -> (forall w', replaced a bytes w w' -> Q tt w' /\ F w') ->
  safe (atomic_write pid (sidecar exe a) bytes) w Q F.
Proof.
  intros Ha HF HQ. assert (forall w', untouched_or a bytes w w' -> F w') as HF' by (intros w' [H|H]; [by apply HF|by apply HQ]).
  unfold atomic_write. cbv zeta. apply safe_bind, safe_syscall. intros w1 Hf1 Hd1.
  split; [|intros ?; by apply HF, same_refl]. destruct (w_files w1 !! temporary (sidecar exe a) pid); cbn; [by apply HF, same_refl|].
  apply safe_bind, safe_try. eapply safe_mono.
  { apply (safe_replace pid a bytes w); [done|].
    by eapply (same_put w w _ _ (Some "") pid a); [..|cbn; rewrite Hf1]. }
  - intros [] w' H'. by apply HQ.
  - intros w' H'. split; [by apply HF'|]. intros e. apply safe_bind, safe_try, safe_syscall.
    intros w2 Hf2 Hd2. pose proof (untouched_or_files _ _ _ _ _ Hf2 Hd2 H') as H2. cbn.
    assert (F w2) by by apply HF'.
    split; [|by split]. apply HF'. destruct H2 as [H2|H2].
    + left. by eapply (same_put _ w2 _ _ None pid a).
    + right. by apply replaced_temporary.
Qed.
End keys.

(** ** The invariant of an installation *)
Section invariant.
Context {codec : SerdeJson} {hasher : ImageDigest} {Hints : SerdeJsonLaws} {Htexts : SerdeTextLaws}.
Context (exe : string).
Local Abbreviation same := (same exe).
Local Abbreviation file := (file exe).
Local Abbreviation replaced := (replaced exe).
Local Abbreviation STATE := ".ota-state".
Local Abbreviation PREVIOUS := ".ota-previous".

Lemma same_self w : same w w.
Proof. by split. Qed.
Lemma same_lookup w w' a : a ∈ [""; STATE; PREVIOUS] -> same w w' -> file w' a = file w a.
Proof. intros Ha [H _]%same_file. by apply H. Qed.
Lemma safe_lock w (Q : unit -> World -> Prop) (F : World -> Prop) :
  (forall w', same w w' -> Q tt w' /\ F w') -> safe (lock exe) w Q F.
Proof.
  intros H. apply safe_bind, safe_syscall. intros w1 Hf1 Hd1. cbn.
  split; [|intros ?; by apply H, same_refl]. apply safe_syscall. cbn. intros w2 Hf2 Hd2.
  assert (same w w2); [|by split; [|intros ?]; apply H].
  apply same_file. split; [|congruence]. intros b Hb. unfold NativeUpdate.file. rewrite Hf2, Hf1.
  destruct (w_files w !! _); [done|]. apply lookup_insert_ne, suffix_neq. set_unfold in Hb. naive_solver.
Qed.
Lemma safe_fs_read a w (Q : string -> World -> Prop) (F : World -> Prop) :
  (forall w' b, same w w' -> file w a = Some b -> Q b w') -> (forall w', same w w' -> F w') ->
  safe (fs_read (sidecar exe a)) w Q F.
Proof.
  intros HQ HF. apply safe_syscall. intros w1 Hf Hd. split; [|intros ?; by apply HF, same_refl]. cbv beta.
  destruct (w_files w1 !! sidecar exe a) eqn:E; [|by apply HF, same_refl].
  apply HQ; [by apply same_refl|]. unfold NativeUpdate.file. congruence.
Qed.
Lemma safe_read w (Q : value -> World -> Prop) (F : World -> Prop) :
  (forall w', same w w' -> file w STATE = None -> Q Null w') ->
  (forall w' t v, same w w' -> file w STATE = Some t -> from_str t = Ok v -> Q v w') ->
  (forall w', same w w' -> F w') ->
  safe (read exe) w Q F.
Proof.
  intros HN HQ HF. unfold safe, read, mbind, io_bind, io_try, fs_read, syscall.
  assert (forall rest, safe (fun w => match w_files w !! sidecar exe STATE with Some b => (Done b, w) | None => (Failed IoNotFound, w) end)
    {| w_files := w_files w; w_faults := rest; w_watchdogs := w_watchdogs w |}
    (fun b w' => same w w' /\ file w STATE = Some b) (fun w' => same w w' /\ file w STATE = None)) as Hr.
  { intros rest. unfold safe, NativeUpdate.file. cbn. by destruct (w_files w !! sidecar exe STATE); cbn. }
  destruct (w_faults w) as [|[|n m|n] rest] eqn:Ef; cbn.
  - specialize (Hr []). unfold safe in Hr. cbn in Hr. destruct (w_files w !! sidecar exe STATE) as [b|]; cbn.
    + destruct (from_str b) eqn:Eb; cbn; [|apply HF, same_self]. eapply HQ; [apply same_self|apply Hr|done].
    + apply HN; [apply same_self|apply Hr].
  - specialize (Hr rest). unfold safe in Hr. cbn in Hr. destruct (w_files w !! sidecar exe STATE) as [b|]; cbn.
    + destruct (from_str b) eqn:Eb; cbn; [|apply HF, Hr]. eapply HQ; [apply Hr..|done].
    + apply HN; apply Hr.
  - by apply HF, same_refl.
  - by apply HF, same_refl.
Qed.
Lemma safe_exists a w (Q : bool -> World -> Prop) (F : World -> Prop) :
  (forall w' b, same w w' -> Q b w') -> (forall w', same w w' -> F w') -> safe (fs_exists (sidecar exe a)) w Q F.
Proof.
  intros HQ HF. apply safe_bind, safe_try, safe_syscall. intros w1 Hf Hd. cbn.
  split; [by apply HQ, same_refl|]. intros ?. split; [by apply HF, same_refl|]. intros e. by apply HQ, same_refl.
Qed.
Lemma safe_save pid v w (Q : unit -> World -> Prop) (F : World -> Prop) :
  wf_value v -> (forall w', same w w' -> F w') ->
  (forall w' t v', replaced STATE t w w' -> from_str t = Ok v' -> wf_value v' -> view v' = view v -> Q tt w' /\ F w') ->
  safe (save pid exe v) w Q F.
Proof using Hints Htexts.
  intros Hw HF HQ. unfold save. destruct (to_string v) as [t|e] eqn:Et; [|by apply safe_fail, HF, same_self].
  destruct (view_survives _ _ Hw Et) as (v' & Hv' & Hw' & Hview).
  apply safe_atomic_write; [set_solver|done|]. intros w' Hr. by eapply HQ.
Qed.

(** What the journal says of the executable. *)
Definition journal_ok (image : string) (j : JournalView) : Prop :=
  is_Some (jv_payload j)
  /\ ((jv_phase j = Some "pending" \/ jv_phase j = Some "booting")
       /\ (jv_digest j = Some (digest image) \/ jv_previous_digest j = Some (digest image))
      \/ jv_phase j = Some "confirmed" /\ jv_digest j = Some (digest image)
      \/ jv_phase j = Some "rolled_back" /\ jv_previous_digest j = Some (digest image)).
Record update_inv (images : list string) (tidy : bool) (w : World) : Prop := {
  ui_image : exists image, file w "" = Some image /\ image ∈ images;
  ui_previous : forall q, file w PREVIOUS = Some q -> q ∈ images;
  ui_journal : forall t, file w STATE = Some t -> exists v, from_str t = Ok v /\ wf_value v
    /\ (forall image, file w "" = Some image -> journal_ok image (view v))
    /\ (tidy = true -> unfinished v = true ->
        exists q, file w PREVIOUS = Some q /\ jv_previous_digest (view v) = Some (digest q));
}.
Lemma inv_same images tidy w w' : update_inv images tidy w -> same w w' -> update_inv images tidy w'.
Proof using.
  intros [H1 H2 H3] [[= Ee Es Ep] _]. unfold NativeUpdate.file in *. rewrite sidecar_nil in *.
  split; unfold NativeUpdate.file; rewrite ?sidecar_nil, ?Ee, ?Ep; [done|done|].
  intros t. rewrite Es. intros (v & ? & ? & ? & ?)%H3. exists v. done.
Qed.
Lemma phase_is_view v p : phase_is v p = true <-> jv_phase (view v) = Some p.
Proof. unfold phase_is. by rewrite bool_decide_eq_true. Qed.
Lemma unfinished_view v : unfinished v = true <-> jv_phase (view v) = Some "pending" \/ jv_phase (view v) = Some "booting".
Proof. unfold unfinished. by rewrite orb_true_iff, !phase_is_view. Qed.
Lemma safe_read_exe w (Q : string -> World -> Prop) (F : World -> Prop) :
  (forall w' b, same w w' -> file w "" = Some b -> Q b w') -> (forall w', same w w' -> F w') -> safe (fs_read exe) w Q F.
Proof. intros HQ HF. pose proof (safe_fs_read "" w Q F HQ HF) as H. by rewrite sidecar_nil in H. Qed.
Lemma safe_write_exe pid bytes w (Q : unit -> World -> Prop) (F : World -> Prop) :
  (forall w', same w w' -> F w') -> (forall w', replaced "" bytes w w' -> Q tt w' /\ F w') ->
  safe (atomic_write pid exe bytes) w Q F.
Proof. intros HF HQ. pose proof (safe_atomic_write exe pid "" bytes w Q F ltac:(by left) HF HQ) as H. by rewrite sidecar_nil in H. Qed.
Lemma replaced_files a bytes w w' : replaced a bytes w w' ->
  file w' "" = (if bool_decide ("" = a) then Some bytes else file w "")
  /\ file w' STATE = (if bool_decide (STATE = a) then Some bytes else file w STATE)
  /\ file w' PREVIOUS = (if bool_decide (PREVIOUS = a) then Some bytes else file w PREVIOUS).
Proof using. intros [H _]. split; [|split]; apply H; [by left|by right; left|by right; right; left]. Qed.
Lemma inv_image images tidy w w' bytes :
  update_inv images tidy w -> replaced "" bytes w w' -> bytes ∈ images ->
  (forall t v, file w STATE = Some t -> from_str t = Ok v -> journal_ok bytes (view v)) -> update_inv images tidy w'.
Proof using.
  intros [H1 H2 H3] (He & Hs & Hp)%replaced_files Hb Hj. cbn in He, Hs, Hp. split; [by exists bytes|by rewrite Hp|].
  rewrite Hs, He, Hp. intros t Ht. destruct (H3 t Ht) as (v & Hv & Hw & _ & Hq). exists v. split_and!; [done|done| |done].
  intros image [= <-]. by eapply Hj.
Qed.
Lemma inv_previous images tidy tidy' w w' bytes :
  update_inv images tidy w -> replaced PREVIOUS bytes w w' -> bytes ∈ images ->
  (tidy' = true -> tidy = true /\ forall t v, file w STATE = Some t -> from_str t = Ok v -> unfinished v = true -> file w PREVIOUS = Some bytes) ->
  update_inv images tidy' w'.
Proof using.
  intros [H1 H2 H3] (He & Hs & Hp)%replaced_files Hb Ht'. cbn in He, Hs, Hp. split; rewrite ?He, ?Hp; [done|naive_solver|].
  rewrite Hs. intros t Ht. destruct (H3 t Ht) as (v & Hv & Hw & Hj & Hq). exists v. split_and!; [done|done|done|].
  intros Htidy Hu. destruct (Ht' Htidy) as [-> Hk]. rewrite (Hk _ _ Ht Hv Hu) in Hq. by apply Hq.
Qed.
Lemma inv_state images tidy w w' t v :
  update_inv images tidy w -> replaced STATE t w w' -> from_str t = Ok v -> wf_value v ->
  (forall image, file w "" = Some image -> journal_ok image (view v)) ->
  (tidy = true -> unfinished v = true -> exists q, file w PREVIOUS = Some q /\ jv_previous_digest (view v) = Some (digest q)) ->
  update_inv images tidy w'.
Proof using.
  intros [H1 H2 H3] (He & Hs & Hp)%replaced_files Hv Hw Hj Hq. cbn in He, Hs, Hp. split; rewrite ?He, ?Hp; [done|done|].
  rewrite Hs. intros ? [= <-]. by exists v.
Qed.
Lemma inv_more images tidy tidy' w image : update_inv images tidy w -> (tidy' = true -> tidy = true) -> update_inv (image :: images) tidy' w.
Proof using.
  intros [(i & Hi & Hin) H2 H3] Ht. split; [exists i; split; [done|by right]|intros; right; eauto|].
  intros t (v & ? & ? & ? & ?)%H3. exists v. naive_solver.
Qed.
(** An installation may start: no earlier one is undecided, or its previous image is the running one. *)
Definition may_install (w : World) : bool :=
  match file w STATE ≫= (fun t => match from_str t with Ok v => Some v | Err _ => None end) with
  | Some v => negb (unfinished v) || bool_decide (file w PREVIOUS = file w "")
  | None => true
  end.
Lemma pending_state_wf bytes payload previous pv version :
  wf_value payload -> wf_value (pending_state bytes payload previous pv version).
Proof using.
  intros Hp. unfold pending_state, object. constructor; [apply bt_collect_sorted|].
  rewrite Forall_forall. intros [k x] Hx. apply (bt_get_elem _ _ _ (bt_collect_sorted _)), bt_collect_elem in Hx. cbn.
  set_unfold in Hx. naive_solver eauto with rust.
Qed.
Lemma pending_view bytes payload previous pv version :
  let j := view (pending_state bytes payload previous pv version) in
  jv_phase j = Some "pending" /\ jv_digest j = Some (digest bytes) /\ jv_previous_digest j = Some (digest previous)
  /\ jv_payload j = payload_from_json payload /\ jv_version j = Some ("v" +:+ trim_start_matches "v" version)
  /\ jv_attempt j = as_i64 (index "deployment_id" payload).
Proof using. done. Qed.
Lemma install_inv images tidy pid bytes payload pv w :
  update_inv images tidy w -> wf_value payload ->
  let after := update_inv (bytes :: images) (tidy && may_install w) in
  safe (install pid exe bytes payload pv) w (fun _ => after) after.
Proof using Hints Htexts.
  intros Hi Hw after.
  assert (forall w', same w w' -> after w') as Hs.
  { intros w' Hs. eapply inv_same; [|done]. apply (inv_more _ tidy); [done|]. by intros [? _]%andb_true_iff. }
  apply safe_bind, safe_lock. intros w1 Hs1. split; [|by apply Hs].
  destruct (payload_from_json payload) as [parsed|] eqn:Ep; [|by apply safe_fail, Hs].
  apply safe_bind, safe_read_exe; [|intros w' H'; by apply Hs, (same_trans _ _ _ _ Hs1)].
  intros w2 previous Hs2 Hprev. pose proof (same_trans _ _ _ _ Hs1 Hs2) as Hs12.
  rewrite (same_lookup w w1 "" ltac:(by left) Hs1) in Hprev.
  apply safe_bind, safe_atomic_write; [by right; right; left|intros w' H'; by apply Hs, (same_trans _ _ _ _ Hs12)|].
  intros w3 Hr3. pose proof Hr3 as (He3 & Hst3 & Hp3)%replaced_files. cbn in He3, Hst3, Hp3.
  rewrite (same_lookup w w2 "" ltac:(by left) Hs12), Hprev in He3.
  assert (after w3) as H3.
  { apply (inv_previous _ tidy _ w2 w3 previous); [eapply inv_same; [by apply (inv_more _ tidy)|done]|done| |].
    - destruct (ui_image _ _ _ Hi) as (i & Hi1 & Hi2). right. congruence.
    - intros [Ht Hm]%andb_true_iff. split; [done|]. intros t v. rewrite !(same_lookup w w2) by (done || by repeat constructor).
      intros Ht' Hv Hu. unfold may_install in Hm. rewrite Ht' in Hm. simpl in Hm. rewrite Hv, Hu in Hm.
      apply bool_decide_eq_true in Hm. congruence. }
  split; [|done].
  apply safe_bind, safe_save; [by apply pending_state_wf|intros w' H'; by eapply inv_same|].
  intros w4 t v' Hr4 Hv' Hw' Hview. destruct (pending_view bytes payload previous pv (op_firmware_version parsed)) as (P1 & P2 & P3 & P4 & _).
  assert (after w4) as H4.
  { eapply inv_state; [done..| |]; rewrite Hview.
    - intros image E. rewrite He3 in E. injection E as <-. split; [by rewrite P4, Ep|]. left. split; [by left|by right].
    - intros _ _. exists previous. by rewrite Hp3. }
  split; [|done]. pose proof Hr4 as (He4 & Hst4 & Hp4)%replaced_files. cbn in He4, Hst4, Hp4.
  apply safe_bind, safe_syscall. intros w5 Hf5 Hd5. cbn.
  assert (forall w', w_files w' = w_files w4 -> after w') as Hf by
    (intros w' E; destruct H4 as [G1 G2 G3]; split; unfold NativeUpdate.file in *; rewrite E; done).
  split; [|intros ?; by apply Hf].
  match goal with |- safe _ ?x _ _ => assert (after x) as H5 by by apply Hf end.
  apply safe_write_exe; [intros w' H'; exact (inv_same _ _ _ _ H5 H')|].
  intros w6 Hr6. assert (after w6); [|done].
  apply (inv_image _ _ _ _ _ H5 Hr6); [by left|]. intros t' v. unfold NativeUpdate.file. cbn. rewrite Hf5.
  change (w_files w4 !! sidecar exe STATE) with (file w4 STATE). rewrite Hst4. intros [= <-]. rewrite Hv'. intros [= <-].
  rewrite Hview. split; [by rewrite P4, Ep|]. left. split; [by left|by left].
Qed.
(** Reading the journal under the invariant. *)
Lemma inv_read images tidy w (Q : value -> World -> Prop) (F : World -> Prop) :
  update_inv images tidy w ->
  (forall w', same w w' -> file w STATE = None -> Q Null w') ->
  (forall w' t v image, same w w' -> file w STATE = Some t -> from_str t = Ok v -> wf_value v -> file w "" = Some image ->
     journal_ok image (view v) -> Q v w') ->
  (forall w', same w w' -> F w') -> safe (read exe) w Q F.
Proof using.
  intros Hi HN HQ HF. apply safe_read; [done| |done]. intros w' t v Hs Ht Hv.
  destruct (ui_journal _ _ _ Hi t Ht) as (v' & Hv' & Hw & Hj & _). destruct (ui_image _ _ _ Hi) as (image & Hm & _).
  rewrite Hv in Hv'. injection Hv' as <-. by eapply HQ; eauto.
Qed.
(** The journal's phase is advanced: nothing else of it changes. *)
Lemma inv_advance images tidy pid w t v phase (Q : unit -> World -> Prop) (F : World -> Prop) :
  update_inv images tidy w -> file w STATE = Some t -> from_str t = Ok v -> wf_value v -> is_Some (jv_phase (view v)) ->
  (forall image, file w "" = Some image -> journal_ok image (view v) -> journal_ok image (with_phase (view v) phase)) ->
  (phase = "booting" -> unfinished v = true) -> phase <> "pending" ->
  (forall w', update_inv images tidy w' -> F w') ->
  (forall w' t' v', replaced STATE t' w w' -> from_str t' = Ok v' -> view v' = with_phase (view v) phase -> update_inv images tidy w' -> Q tt w') ->
  safe (save pid exe (set_member "phase" (VString phase) v)) w Q F.
Proof using Hints Htexts.
  intros Hi Ht Hv Hw [ph Hph] Hj Hu Hp HF HQ. pose proof (view_set_phase v phase ph Hph) as Hview.
  apply safe_save; [by apply set_member_wf; [constructor|]|intros w' Hs; by eapply HF, inv_same|].
  intros w' t' v' Hr Hv' Hw' Hv''. rewrite Hview in Hv''.
  destruct (ui_journal _ _ _ Hi t Ht) as (v0 & Hv0 & _ & Hj0 & Hq0). rewrite Hv in Hv0. injection Hv0 as <-.
  assert (update_inv images tidy w') as Hi'; [|split; [by eapply HQ|by apply HF]].
  eapply inv_state; [done..| |]; rewrite Hv''.
  - intros image E. apply Hj; [done|by apply Hj0].
  - intros Htidy [E|E]%unfinished_view; rewrite Hv'' in E; injection E as E; [done|]. by apply Hq0, Hu.
Qed.
Lemma rollback_inv images tidy pid attempt w :
  update_inv images tidy w -> safe (rollback pid exe attempt) w (fun _ => update_inv images tidy) (update_inv images tidy).
Proof using Hints Htexts.
  intros Hi. assert (forall w', same w w' -> update_inv images tidy w') as Hs by (intros; by eapply inv_same).
  apply safe_bind, safe_lock. intros w1 Hs1. split; [|by apply Hs]. apply Hs in Hs1 as Hi1.
  apply safe_bind, (inv_read _ _ _ _ _ Hi1).
  { intros w' H' _. cbn. rewrite !orb_true_r. by eapply inv_same. }
  2: { intros; by eapply inv_same. }
  intros w2 t v image Hs2 Ht Hv Hw Hm Hj. assert (update_inv images tidy w2) as Hi2 by by eapply inv_same.
  case_match eqn:Ec; [done|]. apply orb_false_iff in Ec as [_ Hu%negb_false_iff].
  assert (forall w', same w2 w' -> update_inv images tidy w') as Hs2' by (intros; by eapply inv_same).
  apply safe_bind, safe_fs_read; [|done].
  intros w3 previous Hs3 Hprev. case_match eqn:Ed; [by apply safe_fail, Hs2'|].
  apply negb_false_iff, bool_decide_eq_true in Ed. assert (update_inv images tidy w3) as Hi3 by by apply Hs2'.
  apply safe_bind, safe_write_exe; [intros; by eapply inv_same|]. intros w4 Hr4.
  pose proof Hr4 as (He4 & Hst4 & _)%replaced_files. cbn in He4, Hst4.
  assert (file w3 STATE = Some t) as Ht3.
  { rewrite (same_lookup w2 w3), (same_lookup w1 w2) by (done || by repeat constructor). done. }
  assert (update_inv images tidy w4) as Hi4.
  { apply (inv_image _ _ _ _ _ Hi3 Hr4); [by apply (ui_previous _ _ _ Hi2)|].
    intros t' v' Ht'. rewrite Ht3 in Ht'. injection Ht' as <-. rewrite Hv. intros [= <-].
    split; [apply Hj|]. left. split; [by apply unfinished_view|by right]. }
  split; [|done]. eapply inv_advance; [done|by rewrite Hst4|done|done| |  |done|done|done|done].
  - apply unfinished_view in Hu as [->| ->]; eauto.
  - rewrite He4. intros image' [= <-] [Hp _]. split; [done|]. right. right. done.
Qed.
Lemma boot_inv images tidy pid w :
  update_inv images tidy w -> safe (boot pid exe) w (fun _ => update_inv images tidy) (update_inv images tidy).
Proof using Hints Htexts.
  intros Hi. assert (forall w', same w w' -> update_inv images tidy w') as Hs by (intros; by eapply inv_same).
  apply safe_bind, safe_exists; [|done]. intros w0 [|] Hs0; [|by apply safe_ret, Hs]. cbn [negb].
  apply safe_bind, safe_lock. intros w1 Hs1. pose proof (same_trans _ _ _ _ Hs0 Hs1) as Hs01. split; [|by apply Hs].
  apply Hs in Hs01 as Hi1. apply safe_bind, (inv_read _ _ _ _ _ Hi1); [| |intros; by eapply inv_same].
  { intros w2 Hs2 _. apply safe_bind, safe_read_exe; [|intros w3 Hs3; exact (inv_same _ _ _ _ Hi1 (same_trans _ _ _ _ Hs2 Hs3))].
    intros w3 b Hs3 _. cbn. exact (inv_same _ _ _ _ Hi1 (same_trans _ _ _ _ Hs2 Hs3)). }
  intros w2 t v image Hs2 Ht Hv Hw Hm Hj. assert (update_inv images tidy w2) as Hi2 by by eapply inv_same.
  apply safe_bind, safe_read_exe; [|intros; by eapply inv_same]. intros w3 b Hs3 Hb.
  assert (update_inv images tidy w3) as Hi3 by by eapply inv_same.
  case_match; [done|]. case_match eqn:Ed; [done|]. apply negb_false_iff, bool_decide_eq_true in Ed.
  destruct (unfinished v) eqn:Hu; [|done]. cbv zeta. apply safe_bind.
  rewrite (same_lookup w1 w2), Hm in Hb by (done || by left). injection Hb as <-.
  eapply inv_advance; [done| |done|done| | |done|done|done|done].
  - rewrite (same_lookup w2 w3), (same_lookup w1 w2) by (done || by right; left). done.
  - apply unfinished_view in Hu as [->| ->]; eauto.
  - intros image' E [Hp _]. rewrite (same_lookup w2 w3), (same_lookup w1 w2), Hm in E by (done || by left). injection E as <-.
    split; [done|]. left. split; [by right|by left].
Qed.

(** What a report says is true of the disk. *)
Definition truthful (w : World) (report : value) : Prop :=
  exists image t v p, file w "" = Some image /\ file w STATE = Some t /\ from_str t = Ok v /\ jv_payload (view v) = Some p
    /\ let says status := build_status_json status (op_firmware_version p) (op_firmware_update_id p) (op_deployment_id p) in
       (report = says "success" None /\ jv_phase (view v) = Some "confirmed" /\ jv_digest (view v) = Some (digest image)
        \/ report = says "failed" (Some health_check_failed) /\ jv_phase (view v) = Some "rolled_back"
           /\ jv_previous_digest (view v) = Some (digest image)).
Lemma terminal_report_true w image t v v' report :
  file w "" = Some image -> file w STATE = Some t -> from_str t = Ok v -> view v = view v' -> journal_ok image (view v) ->
  terminal_report v' = Done (Some report) -> truthful w report.
Proof using.
  intros He Ht Hv Hview [[p Hp] Hph]. unfold terminal_report.
  assert (forall ph, phase_is v' ph = phase_is v ph) as Hi.
  { intros ph. unfold phase_is. apply bool_decide_ext. pose proof (f_equal jv_phase Hview) as E. cbn in E. by rewrite E. }
  pose proof (f_equal jv_payload Hview) as Ep. cbn in Ep. rewrite !Hi, <- Ep. cbn in Hp. rewrite Hp.
  intros H. exists image, t, v, p. split_and!; [done..|]. cbv zeta.
  destruct (phase_is v "confirmed") eqn:E1; [|destruct (phase_is v "rolled_back") eqn:E2; [|done]].
  - apply phase_is_view in E1. injection H as <-. left. split_and!; [done..|]. rewrite E1 in Hph. naive_solver.
  - apply phase_is_view in E2. injection H as <-. right. split_and!; [done..|]. rewrite E2 in Hph. naive_solver.
Qed.
Lemma safe_of {A} (r : IoResult A) w (Q : A -> World -> Prop) (F : World -> Prop) :
  (forall a, r = Done a -> Q a w) -> F w -> safe (io_of r) w Q F.
Proof using. intros HQ HF. unfold safe, io_of. destruct r; auto. Qed.
Lemma confirm_inv images tidy pid w :
  update_inv images tidy w ->
  safe (confirm pid exe) w
    (fun r w' => update_inv images tidy w' /\ forall report, r = Some report -> truthful w' report) (update_inv images tidy).
Proof using Hints Htexts.
  intros Hi. assert (forall w', same w w' -> update_inv images tidy w') as Hs by (intros; by eapply inv_same).
  apply safe_bind, safe_exists; [|done]. intros w0 [|] Hs0; [|apply safe_ret; split; [by apply Hs|done]]. cbn [negb].
  apply safe_bind, safe_lock. intros w1 Hs1. pose proof (same_trans _ _ _ _ Hs0 Hs1) as Hs01. split; [|by apply Hs].
  apply Hs in Hs01 as Hi1. apply safe_bind, (inv_read _ _ _ _ _ Hi1); [| |intros; by eapply inv_same].
  { intros w2 Hs2 _. cbn. split; [by eapply inv_same|done]. }
  intros w2 t v image Hs2 Ht Hv Hw Hm Hj. assert (update_inv images tidy w2) as Hi2 by by eapply inv_same.
  assert (forall w3, same w2 w3 -> update_inv images tidy w3 /\ file w3 "" = Some image /\ file w3 STATE = Some t) as Hk.
  { intros w3 Hs3. split; [by eapply inv_same|].
    rewrite !(same_lookup w2 w3), !(same_lookup w1 w2) by (done || by left || by right; left). done. }
  apply safe_bind. apply (safe_mono _ _ (fun _ w' => same w2 w') _ (update_inv images tidy)); [| |done].
  { case_match; [|by apply safe_ret, same_self]. apply safe_bind, safe_read_exe; [|intros w3 H3; apply (Hk w3 H3)]. done. }
  intros stale w3 Hs3. destruct (Hk w3 Hs3) as (Hi3 & Hm3 & Ht3). destruct stale; [by apply safe_ret|].
  destruct (phase_is v "booting") eqn:Eb.
  2: { apply safe_bind, safe_ret, safe_of; [|done]. intros r Hr. split; [done|]. intros report ->. by eapply terminal_report_true. }
  apply safe_bind, safe_bind, safe_read_exe; [|intros; by eapply inv_same]. intros w4 b Hs4 Hb.
  rewrite Hm3 in Hb. injection Hb as <-. assert (same w2 w4) as Hs24 by by eapply same_trans.
  destruct (Hk w4 Hs24) as (Hi4 & Hm4 & Ht4).
  case_match eqn:Ed; [by apply safe_fail|]. apply negb_false_iff, bool_decide_eq_true in Ed. cbv zeta.
  apply phase_is_view in Eb. apply safe_bind.
  assert (forall image', file w4 "" = Some image' -> journal_ok image' (view v) -> journal_ok image' (with_phase (view v) "confirmed")) as Hc.
  { intros image' E [Hp _]. rewrite Hm4 in E. injection E as <-. split; [done|]. right. left. done. }
  eapply inv_advance; [exact Hi4|exact Ht4|exact Hv|exact Hw|rewrite Eb; eauto|exact Hc|discriminate|discriminate|done|].
  intros w5 t' v' Hr5 Hv' Hview Hi5. apply safe_ret, safe_of; [|done]. intros r Hr. split; [done|]. intros report ->.
  pose proof Hr5 as (He5 & Hst5 & _)%replaced_files. rewrite Hm4 in He5.
  change (file w5 "" = Some image) in He5. change (file w5 STATE = Some t') in Hst5.
  apply (terminal_report_true _ image t' v' (set_member "phase" (VString "confirmed") v) _ He5 Hst5 Hv'); [| |exact Hr].
  - rewrite Hview. symmetry. by eapply view_set_phase.
  - rewrite Hview. by apply Hc.
Qed.
(** A decided installation stays as it is: only another one changes the disk. *)
Definition decided (w : World) : Prop := exists t v, file w STATE = Some t /\ from_str t = Ok v /\ unfinished v = false.
Lemma read_decided w (Q : value -> World -> Prop) (F : World -> Prop) :
  decided w -> (forall w' v, same w w' -> unfinished v = false -> Q v w') -> (forall w', same w w' -> F w') -> safe (read exe) w Q F.
Proof using.
  intros (t & v & Ht & Hv & Hu) HQ HF. apply safe_read; [congruence| |done]. intros w' t' v' Hs Ht' Hv'. apply HQ; [done|congruence].
Qed.
Lemma decided_same w w' : decided w -> same w w' -> decided w'.
Proof using. intros (t & v & Ht & Hv) Hs. exists t, v. by rewrite (same_lookup w w') by (done || by right; left). Qed.
Lemma rollback_decided pid attempt w : decided w -> safe (rollback pid exe attempt) w (fun _ => same w) (same w).
Proof using.
  intros Hd. apply safe_bind, safe_lock. intros w1 Hs1. split; [|done].
  apply safe_bind, read_decided; [by eapply decided_same| |intros; by eapply same_trans].
  intros w2 v Hs2 ->. rewrite orb_true_r. apply safe_ret. by eapply same_trans.
Qed.
Lemma boot_decided pid w : decided w -> safe (boot pid exe) w (fun _ => same w) (same w).
Proof using.
  intros Hd. apply safe_bind, safe_exists; [|done]. intros w0 [|] Hs0; [|done]. cbn [negb].
  apply safe_bind, safe_lock. intros w1 Hs1. pose proof (same_trans _ _ _ _ Hs0 Hs1) as Hs01. split; [|done].
  apply safe_bind, read_decided; [by eapply decided_same| |intros; by eapply same_trans].
  intros w2 v Hs2 Hu. pose proof (same_trans _ _ _ _ Hs01 Hs2) as Hs02.
  apply safe_bind, safe_read_exe; [|intros; by eapply same_trans]. intros w3 b Hs3 _.
  pose proof (same_trans _ _ _ _ Hs02 Hs3). rewrite Hu. repeat case_match; by apply safe_ret.
Qed.
Lemma confirm_decided pid w : decided w -> safe (confirm pid exe) w (fun _ => same w) (same w).
Proof using.
  intros Hd. apply safe_bind, safe_exists; [|done]. intros w0 [|] Hs0; [|done]. cbn [negb].
  apply safe_bind, safe_lock. intros w1 Hs1. pose proof (same_trans _ _ _ _ Hs0 Hs1) as Hs01. split; [|done].
  apply safe_bind, read_decided; [by eapply decided_same| |intros; by eapply same_trans].
  intros w2 v Hs2 Hu. pose proof (same_trans _ _ _ _ Hs01 Hs2) as Hs02.
  apply orb_false_iff in Hu as [_ Hb]. rewrite Hb. apply safe_bind. apply (safe_mono _ _ (fun _ => same w) _ (same w)); [| |done].
  { case_match; [|done]. apply safe_bind, safe_read_exe; [|intros; by eapply same_trans]. intros w3 b Hs3 _. by eapply same_trans. }
  intros [|] w3 Hs3; [done|]. by apply safe_bind, safe_ret, safe_of.
Qed.

(** Without faults a file is replaced, unless a temporary of the same process id was left behind. *)
Lemma atomic_write_works pid a bytes w : a ∈ [""; STATE; PREVIOUS] -> w_faults w = [] ->
  w_files w !! temporary (sidecar exe a) pid = None ->
  atomic_write pid (sidecar exe a) bytes w = (Done tt, with_files w (<[sidecar exe a := bytes]> (w_files w))).
Proof using.
  intros Ha Hf Ht. destruct w as [f fs ws]. cbn in Hf, Ht. subst fs.
  unfold atomic_write, open_new, write_all, sync_all, open_dir, fs_rename, mbind, io_bind, io_try, syscall, with_files.
  cbn. rewrite Ht. cbn. rewrite lookup_insert_eq. cbn.
  by rewrite insert_insert_eq, delete_insert_eq, delete_id.
Qed.
(** A temporary file left by a process that stopped makes every later write of
    that file by a process with the same id fail: it is never removed. *)
Lemma stale_temporary_blocks pid a bytes w b :
  w_files w !! temporary (sidecar exe a) pid = Some b ->
  exists e w', atomic_write pid (sidecar exe a) bytes w = (e, w') /\ e <> Done tt /\ w_files w' = w_files w.
Proof using.
  intros Hb. unfold atomic_write, open_new, mbind, io_bind, syscall. cbv zeta.
  destruct (w_faults w) as [|[|n m|n] rest]; cbn; rewrite ?Hb; cbn; eauto.
Qed.
Lemma lock_works w : w_faults w = [] ->
  exists f, lock exe w = (Done tt, with_files w f) /\ forall q, q <> sidecar exe ".ota-lock" -> f !! q = w_files w !! q.
Proof using.
  intros Hf. destruct w as [f fs ws]. cbn in Hf. subst fs. unfold lock, flock, mbind, io_bind, syscall, with_files. cbn.
  eexists. split; [done|]. intros q Hq. case_match; [done|]. by apply lookup_insert_ne.
Qed.
Lemma temporary_not_lock a pid : a ∈ [""; STATE; PREVIOUS] -> temporary (sidecar exe a) pid <> sidecar exe ".ota-lock".
Proof using.
  intros Ha. unfold temporary. unfold sidecar at 1 2. rewrite str_app_assoc. change (exe +:+ ?x) with (sidecar exe x).
  apply suffix_neq. set_unfold in Ha. by destruct Ha as [->|[->|[->|[]]]].
Qed.
Lemma payload_attempt v p : payload_from_json (index "payload" v) = Some p -> attempt_of v = Some (op_deployment_id p).
Proof using.
  unfold payload_from_json, attempt_of, member_i64. generalize (index "payload" v) as x. intros x. unfold index.
  destruct (get "deployment_id" x) as [y|]; simpl.
  - destruct (member_str _ _), (member_str _ _), (member_str _ _); simpl; try done. case_match; [done|].
    destruct (as_i64 y); simpl; [|done]. case_match; [done|]. destruct (get "firmware_update_id" x ≫= as_i64); simpl; [|done].
    case_match; [done|]. by intros [= <-].
  - destruct (member_str _ _), (member_str _ _), (member_str _ _); simpl; try done. by case_match.
Qed.
(** A rollback that meets no fault puts the recorded image back. *)
Lemma rollback_restores images w t v pid :
  update_inv images true w -> w_faults w = [] ->
  (forall a, a ∈ [""; STATE; PREVIOUS] -> w_files w !! temporary (sidecar exe a) pid = None) ->
  file w STATE = Some t -> from_str t = Ok v -> unfinished v = true ->
  exists q, jv_previous_digest (view v) = Some (digest q) /\ file (rollback pid exe (attempt_of v) w).2 "" = Some q.
Proof using.
  intros Hi Hf Htmp Ht Hv Hu. destruct (ui_journal _ _ _ Hi t Ht) as (v0 & Hv0 & _ & Hj & Hq). rewrite Hv in Hv0. injection Hv0 as <-.
  destruct (Hq eq_refl Hu) as (q & Hp & Hd). exists q. split; [done|].
  destruct (ui_image _ _ _ Hi) as (image & Hm & _). destruct (Hj _ Hm) as [[p Hpay] _].
  destruct (lock_works w Hf) as (f & Hl & Hf').
  assert (f !! sidecar exe STATE = Some t) as E1 by (rewrite Hf' by (by apply suffix_neq); done).
  assert (f !! sidecar exe PREVIOUS = Some q) as E2 by (rewrite Hf' by (by apply suffix_neq); done).
  unfold rollback. unfold mbind at 1, io_bind at 1. rewrite Hl. unfold mbind at 1, io_bind at 1, read, fs_read, mbind at 1, io_bind at 1, io_try, syscall.
  cbn. rewrite Hf, E1, Hv. cbn. rewrite (payload_attempt v p Hpay).
  rewrite (bool_decide_eq_false_2 (Some (op_deployment_id p) = None)), (bool_decide_eq_true_2 (Some (op_deployment_id p) = _)), Hu by done. cbn.
  unfold mbind, io_bind, fs_read, syscall. cbn. rewrite Hf, E2. cbn. rewrite bool_decide_eq_true_2 by exact Hd. cbn.
  rewrite <- (sidecar_nil exe) at 2. rewrite atomic_write_works; [|by left|done|].
  2: { cbn. rewrite Hf' by (apply temporary_not_lock; by left). apply Htmp. by left. }
  match goal with |- context [save pid exe ?x ?w'] =>
    assert (safe (save pid exe x) w' (fun _ w'' => file w'' "" = Some q) (fun w'' => file w'' "" = Some q)) as Hs end.
  { assert (forall f0, <[sidecar exe "" := q]> f0 !! sidecar exe "" = Some q) as Hl' by (intros; apply lookup_insert_eq).
    unfold save. destruct (to_string _); [|by apply safe_fail, Hl'].
    apply safe_atomic_write; [by right; left| |].
    - intros w'' Hs. rewrite (same_lookup _ w'') by (done || by left). apply Hl'.
    - intros w'' (He & _)%replaced_files. rewrite He. split; apply Hl'. }
  unfold safe in Hs. by destruct (save _ _ _ _) as [[]].
Qed.
End invariant.

(** ** Histories

    Processes of the device run the operations one at a time, the lock being
    held; each may meet any faults.  [uh_tidy] is lost when an installation
    starts while an earlier one is undecided and its previous image is another
    than the running one. *)
Record UpdateHistory := {
  uh_files : gmap string string; uh_watchdogs : list Z; uh_images : list string; uh_tidy : bool;
}.
Definition world_of (h : UpdateHistory) (faults : list Fault) : World :=
  {| w_files := uh_files h; w_faults := faults; w_watchdogs := uh_watchdogs h |}.
Definition update_start (files : gmap string string) (image : string) : UpdateHistory :=
  {| uh_files := files; uh_watchdogs := []; uh_images := [image]; uh_tidy := true |}.
Section histories.
Context {codec : SerdeJson} {hasher : ImageDigest} {Hints : SerdeJsonLaws} {Htexts : SerdeTextLaws}.
Context (exe : string).
Definition ended {A} (h : UpdateHistory) (out : IoResult A * World) : UpdateHistory :=
  {| uh_files := w_files out.2; uh_watchdogs := w_watchdogs out.2; uh_images := uh_images h; uh_tidy := uh_tidy h |}.
Inductive update_step (h : UpdateHistory) : UpdateHistory -> Prop :=
| step_install pid bytes payload version faults :
    wf_value payload ->
    let out := install pid exe bytes payload version (world_of h faults) in
    update_step h {| uh_files := w_files out.2; uh_watchdogs := w_watchdogs out.2; uh_images := bytes :: uh_images h;
                     uh_tidy := uh_tidy h && may_install exe (world_of h faults) |}
| step_watchdog pid attempt before after faults :
    uh_watchdogs h = before ++ attempt :: after ->
    update_step h (ended h (rollback pid exe (Some attempt)
      {| w_files := uh_files h; w_faults := faults; w_watchdogs := before ++ after |}))
| step_lost before attempt after :
    uh_watchdogs h = before ++ attempt :: after ->
    update_step h {| uh_files := uh_files h; uh_watchdogs := before ++ after; uh_images := uh_images h; uh_tidy := uh_tidy h |}
| step_boot pid faults : update_step h (ended h (boot pid exe (world_of h faults)))
| step_confirm pid faults : update_step h (ended h (confirm pid exe (world_of h faults))).

Definition history_inv (h : UpdateHistory) : Prop :=
  forall faults watchdogs, update_inv exe (uh_images h) (uh_tidy h)
    {| w_files := uh_files h; w_faults := faults; w_watchdogs := watchdogs |}.
Lemma inv_files images tidy w faults watchdogs : update_inv exe images tidy w ->
  update_inv exe images tidy {| w_files := w_files w; w_faults := faults; w_watchdogs := watchdogs |}.
Proof using. intros [H1 H2 H3]. by split. Qed.
Lemma ended_inv {A} h (m : io A) w : safe m w (fun _ => update_inv exe (uh_images h) (uh_tidy h)) (update_inv exe (uh_images h) (uh_tidy h)) ->
  history_inv (ended h (m w)).
Proof using. unfold safe. intros H f ws. cbn. apply inv_files. by destruct (m w) as [[]]. Qed.
Lemma update_step_inv h h' : update_step h h' -> history_inv h -> history_inv h'.
Proof using Hints Htexts.
  intros [pid bytes payload version faults Hp out|pid attempt before after faults E|before attempt after E|pid faults|pid faults] Hi.
  - intros f ws. cbn. apply inv_files. pose proof (install_inv exe _ _ pid bytes payload version _ (Hi faults (uh_watchdogs h)) Hp) as Hs.
    unfold safe in Hs. fold (world_of h faults) in Hs. unfold out. by destruct (install _ _ _ _ _ _) as [[]].
  - apply ended_inv, rollback_inv, Hi.
  - intros f ws. apply Hi.
  - apply ended_inv, boot_inv, Hi.
  - apply ended_inv. eapply safe_mono; [apply confirm_inv, Hi|by intros r w' [? _]|done].
Qed.
Lemma update_history_inv files image h :
  files !! exe = Some image -> files !! sidecar exe ".ota-state" = None -> files !! sidecar exe ".ota-previous" = None ->
  rtc update_step (update_start files image) h -> history_inv h.
Proof using Hints Htexts.
  intros He Hs Hp Hr. assert (history_inv (update_start files image)) as H0.
  { intros f ws. cbn. split; unfold file; cbn; rewrite ?sidecar_nil.
    - exists image. split; [done|by left].
    - congruence.
    - congruence. }
  revert H0. induction Hr as [h|h1 h2 h3 Hst _ IH]; [done|]. intros H1. by apply IH, (update_step_inv h1).
Qed.

(** C16. An update of a device is safe whatever calls fail and wherever the
    processes stop.  After any history of installations, watchdogs, starts and
    confirmations: the executable is a complete image, the first one or one
    that was installed; the journal, when there is one, can be read and tells
    which image runs; every report of success or failure is true of the disk;
    while an update is undecided a rollback that meets no fault puts the
    recorded previous image back (unless an installation was started over
    another undecided one); and once it is decided no rollback, start or
    confirmation changes the executable or the journal. *)
Theorem native_update_safe files image h :
  files !! exe = Some image -> files !! sidecar exe ".ota-state" = None -> files !! sidecar exe ".ota-previous" = None ->
  rtc update_step (update_start files image) h ->
  let w := world_of h in
  (exists running, uh_files h !! exe = Some running /\ running ∈ uh_images h
     /\ forall t, uh_files h !! sidecar exe ".ota-state" = Some t -> exists v, from_str t = Ok v /\ journal_ok running (view v))
  /\ (forall pid faults report w', confirm pid exe (w faults) = (Done (Some report), w') -> truthful exe w' report)
  /\ (forall pid t v, uh_tidy h = true ->
       (forall a, a ∈ [""; ".ota-state"; ".ota-previous"] -> uh_files h !! temporary (sidecar exe a) pid = None) ->
       uh_files h !! sidecar exe ".ota-state" = Some t -> from_str t = Ok v -> unfinished v = true ->
       exists q, jv_previous_digest (view v) = Some (digest q)
         /\ w_files (rollback pid exe (attempt_of v) (w [])).2 !! exe = Some q)
  /\ (decided exe (w []) -> forall pid attempt faults,
       same exe (w faults) (rollback pid exe attempt (w faults)).2 /\ same exe (w faults) (boot pid exe (w faults)).2
       /\ same exe (w faults) (confirm pid exe (w faults)).2).
Proof using Hints Htexts.
  intros He Hs Hp Hr w. pose proof (update_history_inv _ _ _ He Hs Hp Hr) as Hi. split_and!.
  - destruct (Hi [] []) as [(i & H1 & H2) _ H3]. unfold file in *. cbn in *. rewrite sidecar_nil in *.
    exists i. split_and!; [done..|]. intros t (v & Hv & _ & Hj & _)%H3. eauto.
  - intros pid faults report w' Hc. pose proof (confirm_inv exe _ _ pid _ (Hi faults (uh_watchdogs h))) as Hsafe.
    apply (safe_run _ _ _ _ _ _ Hsafe) in Hc as [_ Hc]. by apply Hc.
  - intros pid t v Ht Hst Hf Hv Hu. specialize (Hi [] (uh_watchdogs h)). rewrite Ht in Hi.
    destruct (rollback_restores exe _ _ t v pid Hi eq_refl Hst Hf Hv Hu) as (q & Hq & Hfile). exists q. split; [done|].
    unfold file in Hfile. by rewrite sidecar_nil in Hfile.
  - intros Hd pid attempt faults. assert (decided exe (w faults)) as Hd' by done.
    pose proof (rollback_decided exe pid attempt _ Hd') as A. pose proof (boot_decided exe pid _ Hd') as B.
    pose proof (confirm_decided exe pid _ Hd') as C. unfold safe in A, B, C.
    destruct (rollback _ _ _ _) as [[]], (boot _ _ _) as [[]], (confirm _ _ _) as [[]]; done.
Qed.
End histories.

(** ** Witness: power is lost while the new image is written; the watchdog decides *)
Lemma get_path_str_eqb path a b :
  value_eqb a b = true -> (get_path path a ≫= as_str) = (get_path path b ≫= as_str).
Proof.
  revert a b. induction path as [|k path IH]; intros a b Hab; simpl.
  - destruct a as [| |[]| | |], b as [| |[]| | |]; try done; simpl in *. apply String.eqb_eq in Hab. by subst.
  - assert (Hk := get_eqb k _ _ Hab). destruct (get k a), (get k b); simpl in *; try done. by apply IH.
Qed.
Lemma table_codec_texts table : NoDup table.*1 -> @SerdeTextLaws (table_codec table).
Proof.
  intros Hnd. assert (forall t w, (t, w) ∈ table -> bt_get t table = Some w) as Hget.
  { clear -Hnd. induction table as [|[t0 w0] table IH]; intros t w Hin; [by apply not_elem_of_nil in Hin|].
    inversion Hnd as [|? ? Hn Hnd']; subst. simpl. destruct (String.eqb_spec t t0) as [->|Hne].
    - apply elem_of_cons in Hin as [[= ->]|Hin]; [done|]. exfalso. apply Hn. apply list_elem_of_fmap. by exists (t0, w).
    - apply elem_of_cons in Hin as [[= -> ->]|Hin]; [done|by apply IH]. }
  assert (forall v t, @to_string (table_codec table) v = Ok t -> exists w, bt_get t table = Some w /\ value_eqb v w = true) as Hto.
  { intros v t Ht%ok_or_ok. destruct (List.find _ table) as [[t0 w]|] eqn:E; simplify_eq/=.
    apply List.find_some in E as [Hin%list_elem_of_In Heq]. exists w. split; [by apply Hget|done]. }
  split.
  - intros v t v' path _ (w & Hw & Heq)%Hto Hv%ok_or_ok. rewrite Hw in Hv. injection Hv as <-. symmetry. by apply get_path_str_eqb.
  - intros v t _ (w & Hw & _)%Hto. exists w. simpl. by rewrite Hw.
Qed.
Definition demo_image_digest : ImageDigest := {| image_sha256 := fun s => [str_len s] |}.
Definition demo_payload : value :=
  object [("firmware_version", VString "2.0.0"); ("firmware_url", VString "https://example.test/image");
          ("firmware_update_id", of_int 42); ("deployment_id", of_int 7); ("sha256", VString demo_hash)].
Definition demo_pending : value := @pending_state demo_image_digest "second" demo_payload "one" "v1.0.0" "2.0.0".
Definition demo_journals : list (string * value) :=
  [("pending", demo_pending); ("booting", set_member "phase" (VString "booting") demo_pending);
   ("confirmed", set_member "phase" (VString "confirmed") demo_pending);
   ("rolled back", set_member "phase" (VString "rolled_back") demo_pending)].
Definition journal_codec : SerdeJson := table_codec demo_journals.
#[local] Existing Instance journal_codec.
#[local] Existing Instance demo_image_digest.
Lemma demo_journals_nodup : NoDup demo_journals.*1.
Proof. apply (bool_decide_unpack _). vm_compute. exact I. Qed.
Lemma journal_codec_laws : SerdeJsonLaws.
Proof.
  apply table_codec_laws; [|apply demo_journals_nodup].
  repeat apply Forall_cons_2; [| | | |apply Forall_nil_2]; by apply wf_valueb_sound.
Qed.
Lemma journal_codec_texts : SerdeTextLaws.
Proof. apply table_codec_texts, demo_journals_nodup. Qed.
Definition demo_files : gmap string string := {["device" := "one"]}.
Definition demo_broken : UpdateHistory :=
  let faults := repeat Works 17 ++ [Stops 3] in
  let out := install 1 "device" "second" demo_payload "v1.0.0" (world_of (update_start demo_files "one") faults) in
  {| uh_files := w_files out.2; uh_watchdogs := w_watchdogs out.2; uh_images := ["second"; "one"]; uh_tidy := true |}.
Definition demo_restored : UpdateHistory :=
  ended demo_broken (rollback 2 "device" (Some 7) {| w_files := uh_files demo_broken; w_faults := []; w_watchdogs := [] |}).
Lemma demo_update_steps : rtc (update_step "device") (update_start demo_files "one") demo_restored.
Proof.
  apply (rtc_l _ _ demo_broken).
  - apply (step_install "device" (update_start demo_files "one") 1 "second" demo_payload "v1.0.0" (repeat Works 17 ++ [Stops 3])).
    by apply wf_valueb_sound.
  - apply rtc_once. by apply (step_watchdog "device" demo_broken 2 7 [] []).
Qed.
Lemma native_update_safe_witness :
  uh_files demo_broken !! "device.tmp-1" = Some "sec" /\ uh_files demo_restored !! "device" = Some "one"
  /\ exists report w', confirm 3 "device" (world_of demo_restored []) = (Done (Some report), w')
       /\ member_str "status" report = Some "failed" /\ truthful "device" w' report.
Proof.
  split; [vm_compute; reflexivity|]. split; [vm_compute; reflexivity|].
  destruct (@native_update_safe journal_codec demo_image_digest journal_codec_laws journal_codec_texts "device" demo_files "one" demo_restored
              ltac:(vm_compute; reflexivity) ltac:(vm_compute; reflexivity) ltac:(vm_compute; reflexivity) demo_update_steps)
    as (_ & Hc & _).
  destruct (confirm 3 "device" (world_of demo_restored [])) as [[[report|]|e|] w'] eqn:E;
    [|exfalso; vm_compute in E; discriminate E..].
  exists report, w'. split; [reflexivity|]. split; [|exact (Hc _ _ _ _ E)].
  vm_compute in E. injection E as <- _. reflexivity.
Defined.
