(* ===== verification/ClientContract.v ===== *)
(** * Contracts on a device and their ingress (clients/rust/contract/src/lib.rs,
    crates/backend/src/zenoh_handler)

    A device verifies the contract it was provisioned with and encodes the
    events of its streams under it; the server routes a message by matching its
    address against the contract of the device and admits it.  The two sides
    read the same document independently: the theorems say that they agree. *)
From S2P Require Import Prelude Text Float64 BTree Json Errors Access Topics RuleTypes MetricNumber Geo RuleCache RuleEvaluate RuleSnapshot.
From S2P Require Import Shadows Outbox.
From S2P Require Import DeviceIngress EventStore ContractModel Schema Validation ContractCompiler Commands ColdRoom Events EventHistory.

Local Open Scope Z_scope.

(** ** Messages

    Their bytes are strings; their formats are serde's and prost's. *)
Record DeviceEventEnvelope := {
  de_api_version : Z; de_event_id : string; de_contract_hash : string; de_occurred_at : NaiveDateTime; de_payload : value;
}.
Record DeviceCommandResponse := {
  dr_correlation_id : string; dr_device_id : string; dr_status : string; dr_payload : string; dr_timestamp : Z;
}.
Class MessageCodec := {
  envelope_to_vec : DeviceEventEnvelope -> result string string;
  envelope_from_slice : string -> result string DeviceEventEnvelope;
  response_decode : string -> result string DeviceCommandResponse;
}.

(** ** The device's view of its contract *)
Inductive ProvisionedContractError :=
| JsonError (message : string) | MissingDocument | MissingHash | UnsupportedApi (version : Z) | HashMismatch
| DeviceMismatch (expected actual : string) | MissingZenohTransport | UnknownStream (key : string) | UnknownRoute (key : string)
| Canonicalization (message : string) | UnsupportedEventStream (key : string) | InvalidPayload (message : string)
| EventSerialization (message : string) | EventTooLarge (actual maximum : Z).
Record ContractEvent := { ce_stream_key : string; ce_payload : value }.
Record EncodedContractEvent := { ee_address : string; ee_payload : string }.
Record ProvisionedContract := { pc_document : CompiledContractDocument; pc_hash : ContractHash }.
Definition location_max_age (p : ProvisionedContract) : option Z := max_age_ms <$> doc_location (pc_document p).
Definition heartbeat_interval (p : ProvisionedContract) : Z := heartbeat_interval_ms (doc_runtime (pc_document p)).
Definition validate_device_id (p : ProvisionedContract) (device : string) : result ProvisionedContractError unit :=
  if doc_device_id (pc_document p) =s? device then Ok tt else Err (DeviceMismatch device (doc_device_id (pc_document p))).
Definition zenoh_endpoint (p : ProvisionedContract) : result ProvisionedContractError string :=
  ok_or (ct_endpoint <$> List.find (fun t => bool_decide (ct_protocol t = Zenoh)) (bt_values (doc_transports (pc_document p))))
    MissingZenohTransport.
Definition route (p : ProvisionedContract) (key : string) : result ProvisionedContractError CompiledRoute :=
  ok_or (bt_get key (doc_routes (pc_document p))) (UnknownRoute key).
Definition route_for_stream (p : ProvisionedContract) (key : string) : result ProvisionedContractError CompiledRoute :=
  stream ← ok_or (bt_get key (doc_streams (pc_document p))) (UnknownStream key);
  route p (cst_route stream).

Section client.
Context `{!SerdeJson, !ContractCodec, !EventHost, !MessageCodec}.
Definition verify (document : CompiledContractDocument) (expected_hash : string) : result ProvisionedContractError ProvisionedContract :=
  if (contract_api document =? 0) || (CONTRACT_API_VERSION <? contract_api document)
  then Err (UnsupportedApi (contract_api document)) else
  hash ← map_err (fun e => Canonicalization (validation_text e)) (contract_hash document);
  if as_hex hash !=s expected_hash then Err HashMismatch else
  Ok {| pc_document := document; pc_hash := hash |}.
Definition from_api_response (bytes : string) : result ProvisionedContractError ProvisionedContract :=
  envelope ← map_err JsonError (from_str bytes);
  document ← ok_or (get "document" envelope) MissingDocument;
  expected_hash ← ok_or (match get "contract_hash" envelope with Some h => Some h | None => get "contractHash" envelope end ≫= as_str)
                    MissingHash;
  document ← map_err JsonError (document_from_value document);
  verify document expected_hash.
(** [event_id] is the fresh UUID. *)
Definition event_envelope (p : ProvisionedContract) (payload : value) (occurred_at : NaiveDateTime) (event_id : string) : DeviceEventEnvelope :=
  {| de_api_version := CONTRACT_API_VERSION; de_event_id := event_id; de_contract_hash := as_hex (pc_hash p);
     de_occurred_at := occurred_at; de_payload := payload |}.
Definition encode_event (p : ProvisionedContract) (event : ContractEvent) (occurred_at : NaiveDateTime) (event_id : string)
    : result ProvisionedContractError EncodedContractEvent :=
  let unsupported := UnsupportedEventStream (ce_stream_key event) in
  route ← route_for_stream p (ce_stream_key event);
  if negb (bool_decide (cr_direction route = DeviceToCloud)) || negb (bool_decide (cr_encoding route = EncJson))
  then Err unsupported else
  schema ← ok_or
    (sc ← bt_get (cr_message_schema route) (doc_schemas (pc_document p));
     if bool_decide (cs_format sc = JsonSchema) then Some sc else None) unsupported;
  _ ← map_err (fun e => InvalidPayload (validation_text e)) (validate_instance (cs_schema schema) (ce_payload event));
  payload ← map_err EventSerialization (envelope_to_vec (event_envelope p (ce_payload event) occurred_at event_id));
  let maximum := cr_max_message_bytes (doc_runtime (pc_document p)) in
  if maximum <? str_len payload then Err (EventTooLarge (str_len payload) maximum) else
  Ok {| ee_address := cr_address route; ee_payload := payload |}.
End client.

(** ** The server's ingress *)
Record IngressWorld := { iw_events : EventStore; iw_commands : CommandWorld }.
Definition with_events (w : IngressWorld) (s : EventStore) : IngressWorld := {| iw_events := s; iw_commands := iw_commands w |}.
Definition with_commands (w : IngressWorld) (s : CommandWorld) : IngressWorld := {| iw_events := iw_events w; iw_commands := s |}.
Definition validate_topic_device (topic_device payload_device : string) : bool := topic_device =s? payload_device.
Definition accept_contract_sample (topic payload : string) (max_payload_size_bytes : Z) : option (string * string * string) :=
  device ← contract_device_id topic;
  if max_payload_size_bytes <? str_len payload then None else Some (device, topic, payload).
(** The other topics name their device by their own pattern. *)
Definition accept_sample (topic_device_id : string -> option string) (topic payload : string) (max_payload_size_bytes : Z)
    : option (string * string) :=
  device ← topic_device_id topic;
  if max_payload_size_bytes <? str_len payload then None else Some (device, payload).
Definition event_input (e : DeviceEventEnvelope) (encoded_size : Z) : EventInput :=
  {| ei_api_version := de_api_version e; ei_event_id := de_event_id e; ei_contract_hash := de_contract_hash e;
     ei_occurred_at := de_occurred_at e; ei_payload := de_payload e; ei_encoded_size := encoded_size |}.

Section server.
Context `{!Chrono, !Libm, !ChronoMicros, !SerdeJson, !ActionCodec, !SqlText, !EventHost, !ChronoSpans, !MessageCodec}.
Definition resolve_ingress_identity (s : EventStore) (device : string) : option DeviceIdentity :=
  match app_resolve_identity (es_device s) device with Ok ident => ident | Err _ => None end.
(** The number of metrics recorded. *)
Definition handle_event (s : EventStore) (ident : DeviceIdentity) (route_key bytes : string) (snapshot : result string RuleCache)
    (now : NaiveDateTime) (uuid : nat -> string) (written : Z) : nat * EventStore :=
  match envelope_from_slice bytes, snapshot with
  | Err _, _ | _, Err _ => (0%nat, s)
  | Ok envelope, Ok snapshot =>
    match Events.record s (id_tenant ident) (id_device ident) route_key (event_input envelope (str_len bytes)) snapshot now uuid written with
    | (Ok outcome, s') => ((if ro_recorded outcome then metrics_recorded outcome else 0%nat), s')
    | (Err _, s') => (0%nat, s')
    end
  end.
Definition handle_command_response (w : CommandWorld) (ident : DeviceIdentity) (topic_device bytes : string) (now : NaiveDateTime)
    : CommandWorld :=
  match response_decode bytes with
  | Err _ => w
  | Ok r =>
    if negb (validate_topic_device topic_device (dr_device_id r)) then w else
    if str_is_empty (dr_correlation_id r) then w else
    (handle_response w (id_tenant ident) (id_device ident) (dr_correlation_id r) (dr_status r)
       (if str_is_empty (dr_payload r) then None else Some (dr_payload r)) now).2
  end.
Definition handle_contract_ingress (w : IngressWorld) (ident : DeviceIdentity) (topic payload : string) (snapshot : result string RuleCache)
    (now : NaiveDateTime) (uuid : nat -> string) (written : Z) : bool * IngressWorld :=
  match resolve (iw_events w) ident topic with
  | Err _ | Ok None => (false, w)
  | Ok (Some CommandResponseRoute) =>
    (true, with_commands w (handle_command_response (iw_commands w) ident (id_device ident) payload now))
  | Ok (Some (JsonEventRoute route_key)) =>
    (true, with_events w (handle_event (iw_events w) ident route_key payload snapshot now uuid written).2)
  | Ok (Some (UnsupportedRoute _)) => (true, w)
  end.
(** A round of the contract subscriber: whether the message counts as handled. *)
Definition contract_message (w : IngressWorld) (topic payload : string) (max_payload_size_bytes : Z) (snapshot : result string RuleCache)
    (now : NaiveDateTime) (uuid : nat -> string) (written : Z) : bool * IngressWorld :=
  match accept_contract_sample topic payload max_payload_size_bytes with
  | None => (false, w)
  | Some (device, topic, payload) =>
    match resolve_ingress_identity (iw_events w) device with
    | None => (false, w)
    | Some ident => handle_contract_ingress w ident topic payload snapshot now uuid written
    end
  end.
End server.

(** ** Both sides agree *)
Section agreement.
Context {chr : Chrono} {libm : Libm} {micros : ChronoMicros} {codec : SerdeJson} {actions_codec : ActionCodec}
  {sql : SqlText} {host : EventHost} {spans : ChronoSpans} {contracts : ContractCodec} {messages : MessageCodec}.
(** The contract [k] is the one assigned to the device. *)
Record assigned_to (k : CompiledContract) (s : EventStore) (tenant device : string) (a : DeviceContractRecord) : Prop := {
  at_assigned : assigned_contract s tenant device = Ok (Some a);
  at_hash : dc_contract_hash a = as_hex (hash k);
  at_document : document_from_value (dc_document a) = Ok (document k);
  at_device : doc_device_id (document k) = device;
}.
(** What a payload must meet, on either side. *)
Definition allowed (d : CompiledContractDocument) (r : CompiledRoute) (payload : value) : Prop :=
  cr_direction r = DeviceToCloud /\ cr_encoding r = EncJson
  /\ exists sc, bt_get (cr_message_schema r) (doc_schemas d) = Some sc /\ cs_format sc = JsonSchema
       /\ validate_instance (cs_schema sc) payload = Ok tt.
Lemma encode_event_exact p event at_ id enc :
  encode_event p event at_ id = Ok enc
  <-> exists st r t, bt_get (ce_stream_key event) (doc_streams (pc_document p)) = Some st
      /\ bt_get (cst_route st) (doc_routes (pc_document p)) = Some r /\ allowed (pc_document p) r (ce_payload event)
      /\ envelope_to_vec (event_envelope p (ce_payload event) at_ id) = Ok t
      /\ str_len t <= cr_max_message_bytes (doc_runtime (pc_document p))
      /\ enc = {| ee_address := cr_address r; ee_payload := t |}.
Proof.
  unfold encode_event, route_for_stream, route, allowed. cbv zeta. split.
  - intros (r & (st & Hst%ok_or_ok & Hr%ok_or_ok)%bind_ok & H)%bind_ok.
    destruct (_ || _) eqn:E in H; [done|]. apply orb_false_iff in E as [Hd%negb_false_iff%bool_decide_eq_true He%negb_false_iff%bool_decide_eq_true].
    apply bind_ok in H as (sc & Hsc%ok_or_ok & H). apply bind_Some in Hsc as (sc' & Hsc & Hf). case_bool_decide; simplify_eq.
    apply bind_ok in H as ([] & Hv%map_err_inv & H). apply bind_ok in H as (t & Ht%map_err_inv & H).
    destruct (_ <? _) eqn:El in H; [done|]. apply Z.ltb_ge in El. injection H as <-. exists st, r, t.
    repeat (split; [assumption|]). split; [split; [assumption|split; [assumption|]]|split; [assumption|split; [assumption|reflexivity]]].
    exists sc. split; [assumption|]. split; assumption.
  - intros (st & r & t & Hst & Hr & (Hd & He & sc & Hsc & Hf & Hv) & Ht & Hl & ->).
    apply bind_ok. exists r. split; [apply bind_ok; exists st; by rewrite Hst, Hr|].
    rewrite Hd, He, !bool_decide_eq_true_2 by done. cbn [negb orb].
    apply bind_ok. exists sc. split; [rewrite Hsc; cbn; rewrite Hf, bool_decide_eq_true_2 by done; reflexivity|].
    apply bind_ok. exists tt. split; [rewrite Hv; reflexivity|].
    apply bind_ok. exists t. split; [rewrite Ht; reflexivity|]. rewrite (proj2 (Z.ltb_ge _ _) Hl). reflexivity.
Qed.
Lemma accept_event_exact k s tenant device a rk e :
  assigned_to k s tenant device a -> ei_api_version e = 1 -> uuid_valid (ei_event_id e) = true -> ei_contract_hash e = as_hex (hash k) ->
  (accept_event s tenant device rk e = Ok (a, document k)
   <-> exists r, bt_get rk (doc_routes (document k)) = Some r /\ allowed (document k) r (ei_payload e)
        /\ ei_encoded_size e <= cr_max_message_bytes (doc_runtime (document k))).
Proof.
  intros [Ha Hh Hd Hdev] Hv Hu Hhash. unfold accept_event, allowed, stored_document. rewrite Hv, Hu, Ha, Hhash. cbn.
  rewrite Hh, String.eqb_refl. cbn. rewrite Hd. cbn. rewrite Hdev, String.eqb_refl. cbn. destruct (_ <? _) eqn:El.
  { apply Z.ltb_lt in El. split; [done|]. intros (r & _ & _ & ?). lia. }
  apply Z.ltb_ge in El. split.
  - intros (r & Hr%ok_or_ok & H)%bind_ok. apply bind_Some in Hr as (r' & Hr & Hroute).
    destruct (_ && _) eqn:Hb in Hroute; simplify_eq. apply andb_true_iff in Hb as [Hdir%bool_decide_eq_true Henc%bool_decide_eq_true].
    apply bind_ok in H as (sc & Hsc%ok_or_ok & H). apply bind_Some in Hsc as (sc' & Hsc & Hfmt).
    case_bool_decide; simplify_eq. apply bind_ok in H as ([] & Hval%map_err_inv & H).
    exists r. split; [assumption|]. split; [|assumption]. split; [assumption|]. split; [assumption|]. exists sc. split; [assumption|]. split; assumption.
  - intros (r & Hr & (Hdir & He & sc & Hsc & Hf & Hval) & _).
    apply bind_ok. exists r. split; [rewrite Hr; cbn; rewrite Hdir, He, !bool_decide_eq_true_2 by done; reflexivity|].
    apply bind_ok. exists sc. split; [rewrite Hsc; cbn; rewrite Hf, bool_decide_eq_true_2 by done; reflexivity|].
    apply bind_ok. exists tt. split; [rewrite Hval; reflexivity|reflexivity].
Qed.
Lemma compiled_routes_sorted b c d : compile_document b c = Return d -> bt_sorted (doc_routes d).
Proof. intros (_ & es & cmds & config & i & o & loc & _ & _ & _ & _ & _ & _ & _ & ->)%compile_document_inv. apply bt_collect_sorted. Qed.
(** No other device-to-cloud route has the address of this one, and no command is answered on it. *)
Definition unshared (d : CompiledContractDocument) (rk address : string) : Prop :=
  (forall rk' r', (rk', r') ∈ doc_routes d -> cr_direction r' = DeviceToCloud -> cr_address r' = address -> rk' = rk)
  /\ forall key m, (key, m) ∈ doc_commands d -> cc_response_route m <> rk.
Lemma resolve_unshared k s tenant device a rk r :
  assigned_to k s tenant device a -> bt_sorted (doc_routes (document k)) -> bt_get rk (doc_routes (document k)) = Some r ->
  cr_direction r = DeviceToCloud -> cr_encoding r = EncJson -> unshared (document k) rk (cr_address r) ->
  resolve s {| id_tenant := tenant; id_device := device |} (cr_address r) = Ok (Some (JsonEventRoute rk)).
Proof.
  intros [Ha _ Hd _] Hs Hr Hdir Henc [Hu Hc]. unfold resolve, stored_document. cbn [id_tenant id_device].
  apply bind_ok. exists (Some a). split; [by rewrite Ha|]. apply bind_ok. exists (document k). split; [by rewrite Hd|].
  destruct (List.find _ _) as [[rk' r']|] eqn:Ef.
  - apply List.find_some in Ef as [Hin%list_elem_of_In E]. unfold ingress_address in E. cbn [snd] in E.
    apply andb_true_iff in E as [Hdir'%bool_decide_eq_true Haddr%String.eqb_eq].
    pose proof (Hu _ _ Hin Hdir' Haddr) as ->. apply (bt_get_elem _ _ _ Hs) in Hin. rewrite Hr in Hin. injection Hin as <-.
    replace (existsb _ _) with false; [by rewrite Henc|]. symmetry. apply not_true_iff_false.
    intros (m & Hm & Em%String.eqb_eq)%existsb_exists. apply list_elem_of_In, list_elem_of_fmap in Hm as ([key m'] & -> & Hm).
    exact (Hc _ _ Hm Em).
  - exfalso. apply bt_get_Some_elem, list_elem_of_In in Hr. pose proof (List.find_none _ _ Ef _ Hr) as E.
    unfold ingress_address in E. cbn [snd] in E. rewrite Hdir, String.eqb_refl, bool_decide_eq_true_2 in E by done. discriminate E.
Qed.
Lemma verify_compiled b0 b c k :
  validate_blueprint b0 = Ok b -> compile b c = Return k ->
  verify (document k) (as_hex (hash k)) = Ok {| pc_document := document k; pc_hash := hash k |}.
Proof.
  intros _ [(_ & es & cmds & config & i & o & loc & _ & _ & _ & _ & _ & _ & _ & Hd)%compile_document_inv Hh]%compile_return.
  unfold verify. replace (contract_api (document k)) with 1 by (by rewrite Hd). cbn [Z.eqb orb].
  apply bind_ok. exists (hash k). split; [by rewrite Hh|]. by rewrite String.eqb_refl.
Qed.

(** C15. A device and its server agree about the contract.  The device accepts the
    contract compiled for it; it encodes an event of a stream exactly when the
    server admits that event on the stream's route; the message then goes to an
    address that names the device; and if the address is not shared, a server
    that reads the message back and takes its size runs it through the
    recording of that very event on that very route. *)
Theorem client_events_admitted b0 b c k s tenant device a event st at_ id t :
  validate_blueprint b0 = Ok b -> compile b c = Return k -> assigned_to k s tenant device a ->
  uuid_valid id = true -> bt_get (ce_stream_key event) (doc_streams (document k)) = Some st ->
  let p := {| pc_document := document k; pc_hash := hash k |} in
  let envelope := event_envelope p (ce_payload event) at_ id in
  let rk := cst_route st in
  envelope_to_vec envelope = Ok t ->
  verify (document k) (as_hex (hash k)) = Ok p
  /\ ((exists enc, encode_event p event at_ id = Ok enc)
      <-> accept_event s tenant device rk (event_input envelope (str_len t)) = Ok (a, document k))
  /\ forall enc, encode_event p event at_ id = Ok enc ->
     ee_payload enc = t
     /\ exists r, bt_get rk (doc_routes (document k)) = Some r /\ ee_address enc = cr_address r
     /\ ((exists tr, bt_get (cr_transport r) (doc_transports (document k)) = Some tr /\ ct_protocol tr = Zenoh) ->
         contract_device_id (ee_address enc) = Some device
         /\ forall commands max snap now uuid written,
              unshared (document k) rk (ee_address enc) ->
              resolve_ingress_identity s device = Some {| id_tenant := tenant; id_device := device |} ->
              envelope_from_slice t = Ok envelope -> str_len t <= max ->
              let w := {| iw_events := s; iw_commands := commands |} in
              contract_message w (ee_address enc) t max (Ok snap) now uuid written
              = (true, with_events w (Events.record s tenant device rk (event_input envelope (str_len t)) snap now uuid written).2)).
Proof.
  intros Hb Hk Ha Hu Hst p envelope rk Ht. split; [by eapply verify_compiled|].
  pose proof Hk as [Hdoc _]%compile_return. pose proof Hb as [Hok ->]%validate_blueprint_ok.
  pose proof (document_sound _ _ _ Hok Hdoc) as Hsound.
  pose proof (accept_event_exact k s tenant device a rk (event_input envelope (str_len t)) Ha eq_refl Hu eq_refl) as Hacc.
  split.
  - rewrite Hacc. split.
    + intros [enc (st' & r & t' & Hst' & Hr & Hal & Ht' & Hl & ->)%encode_event_exact]. change (pc_document p) with (document k) in *.
      rewrite Hst in Hst'. injection Hst' as <-. fold envelope in Ht'. rewrite Ht in Ht'. injection Ht' as <-.
      exists r. split_and!; assumption.
    + intros (r & Hr & Hal & Hl). exists {| ee_address := cr_address r; ee_payload := t |}. apply encode_event_exact.
      exists st, r, t. split_and!; assumption || reflexivity.
  - intros enc (st' & r & t' & Hst' & Hr & Hal & Ht' & Hl & ->)%encode_event_exact. change (pc_document p) with (document k) in *. cbn [ee_payload ee_address].
    rewrite Hst in Hst'. injection Hst' as <-. fold envelope in Ht'. rewrite Ht in Ht'. injection Ht' as <-.
    split; [reflexivity|]. exists r. split; [assumption|]. split; [reflexivity|]. intros (tr & Htr & Hz).
    destruct (cs_routes _ Hsound _ _ Hr) as (tr' & Htr' & _ & Hdev). rewrite Htr in Htr'. injection Htr' as <-.
    specialize (Hdev Hz). rewrite (at_device _ _ _ _ _ Ha) in Hdev. split; [assumption|].
    intros commands max snap now uuid written Hun Hid Hread Hmax. unfold contract_message, accept_contract_sample.
    rewrite Hdev. cbn [mbind option_bind]. rewrite (proj2 (Z.ltb_ge _ _) Hmax). cbn [iw_events]. rewrite Hid.
    unfold handle_contract_ingress. cbn [iw_events].
    rewrite (resolve_unshared _ _ _ _ _ _ _ Ha (compiled_routes_sorted _ _ _ Hdoc) Hr (proj1 Hal) (proj1 (proj2 Hal)) Hun).
    f_equal. f_equal. unfold handle_event. rewrite Hread. cbn [id_tenant id_device].
    by destruct (Events.record _ _ _ _ _ _ _ _ _) as [[o|e] s'].
Qed.
End agreement.

(** ** Witness: an event of the cold room, from the device to the store *)
#[local] Existing Instance RuleEvaluate.demo_chrono.
#[local] Existing Instance demo_libm.
#[local] Existing Instance RuleSnapshot.demo_micros.
#[local] Existing Instance Outbox.demo_json.
#[local] Existing Instance demo_actions.
#[local] Existing Instance demo_sql.
#[local] Existing Instance demo_spans.
#[local] Existing Instance demo_event_host.
#[local] Existing Instance sample_codec.
Definition compiled_or (b : DeviceBlueprint) (d : CompiledContractDocument) : CompiledContract :=
  match compile b cold_room_context with Return k => k | _ => {| hash := []; document := d |} end.
Definition room_contract : CompiledContract := compiled_or cold_room cold_room_document.
Definition room_device : ProvisionedContract := {| pc_document := document room_contract; pc_hash := hash room_contract |}.
Definition room_event : ContractEvent := {| ce_stream_key := "environment"; ce_payload := cold_room_payload |}.
Definition room_envelope : DeviceEventEnvelope := event_envelope room_device cold_room_payload 7200000000000 cold_room_event_id.
Definition room_messages : MessageCodec :=
  {| envelope_to_vec := fun _ => Ok "event"; envelope_from_slice := fun _ => Ok room_envelope; response_decode := fun _ => Err "none" |}.
#[local] Existing Instance room_messages.
Definition room_store (hash : string) : EventStore :=
  {| es_device := es_device cold_room_store;
     es_contracts := {["dc_1" := {| kr_tenant := "tenant-a"; kr_device := "device-1"; kr_revision := "dbr_1";
       kr_document := "null"; kr_hash := hash; kr_created_at := 0 |}]};
     es_assignments := es_assignments cold_room_store; es_retention := es_retention cold_room_store;
     es_receipts := ∅; es_events := ∅; es_samples := ∅; es_rollups := ∅ |}.
Definition room_before : EventStore := room_store (as_hex (hash room_contract)).
Definition room_assigned : DeviceContractRecord :=
  {| dc_id := "dc_1"; dc_device_id := "device-1"; dc_blueprint_revision_id := "dbr_1"; dc_document := Object [];
     dc_contract_hash := as_hex (hash room_contract); dc_assignment_status := "pending"; dc_acknowledged_at := None;
     dc_error := None; dc_created_at := 0 |}.
Lemma room_assigned_to : assigned_to room_contract room_before "tenant-a" "device-1" room_assigned.
Proof. split; vm_compute; reflexivity. Qed.
Lemma room_compiled : compile cold_room cold_room_context = Return room_contract.
Proof. vm_compute. reflexivity. Qed.
Definition room_address : string := "extrittio/devices/device-1/events/environment".
Lemma room_unshared : unshared (document room_contract) "environment" room_address.
Proof.
  split.
  - intros rk r Hin Hd Ha. apply list_elem_of_In in Hin. vm_compute in Hin.
    repeat (destruct Hin as [[= <- <-]|Hin]; [first [reflexivity|discriminate Hd|discriminate Ha]|]). destruct Hin.
  - intros key m Hin E. apply list_elem_of_In in Hin. vm_compute in Hin.
    repeat (destruct Hin as [[= <- <-]|Hin]; [discriminate E|]). destruct Hin.
Qed.
Definition room_world : IngressWorld :=
  {| iw_events := room_before; iw_commands := {| history := ∅; cw_devices := ∅; cw_contracts := ∅; published := [] |} |}.
Definition room_after : bool * IngressWorld :=
  contract_message room_world room_address "event" 65536 (Ok demo_cache) 7201000000000 (fun _ => "u") 0.
Lemma client_events_admitted_witness :
  accept_event room_before "tenant-a" "device-1" "environment" (event_input room_envelope 5) = Ok (room_assigned, document room_contract)
  /\ contract_device_id room_address = Some "device-1"
  /\ room_after = (true, with_events room_world
       (Events.record room_before "tenant-a" "device-1" "environment" (event_input room_envelope 5) demo_cache 7201000000000 (fun _ => "u") 0).2)
  /\ es_events (iw_events room_after.2) !! cold_room_event_id <> None.
Proof.
  destruct (bt_get "environment" (doc_streams (document room_contract))) as [st|] eqn:Est; [|vm_compute in Est; discriminate Est].
  assert (cst_route st = "environment") as Hrk by (vm_compute in Est; injection Est as <-; reflexivity).
  destruct (encode_event room_device room_event 7200000000000 cold_room_event_id) as [enc|e] eqn:Eenc; [|vm_compute in Eenc; discriminate Eenc].
  assert (ee_address enc = room_address) as Haddr by (vm_compute in Eenc; injection Eenc as <-; reflexivity).
  destruct (client_events_admitted cold_room cold_room cold_room_context room_contract room_before "tenant-a" "device-1" room_assigned
              room_event st 7200000000000 cold_room_event_id "event" cold_room_valid room_compiled room_assigned_to
              ltac:(vm_compute; reflexivity) Est ltac:(reflexivity)) as (_ & Hiff & Henc).
  rewrite Hrk in Hiff, Henc. destruct (Henc enc Eenc) as (_ & r & Hr & _ & Hz). rewrite Haddr in Hz.
  assert (exists tr, bt_get (cr_transport r) (doc_transports (document room_contract)) = Some tr /\ ct_protocol tr = Zenoh) as Htr.
  { vm_compute in Hr. injection Hr as <-. vm_compute. eexists. split; reflexivity. }
  destruct (Hz Htr) as [Hdev Hmsg]. split; [apply Hiff; exists enc; exact Eenc|]. split; [exact Hdev|]. split.
  - apply Hmsg; [exact room_unshared|vm_compute; reflexivity|reflexivity|vm_compute; discriminate].
  - vm_compute. discriminate.
Defined.

(** Blueprints may give two routes one address; then the events of a stream are
    routed to whichever route comes first, where none of their fields is read. *)
Definition shared_room : DeviceBlueprint :=
  let s := cold_room_spec in
  {| api_version := api_version cold_room; bp_kind := bp_kind cold_room; metadata := metadata cold_room;
     spec := {| runtime := runtime s; transports := transports s;
       routes := environment_route "archive" "events/environment" "environment@1" DeviceToCloud EncJson :: routes s;
       schemas := schemas s; streams := streams s; location := location s; bp_commands := bp_commands s;
       configuration := configuration s; reported_state := reported_state s; health := health s; bp_firmware := bp_firmware s;
       relationships := relationships s; presentation := presentation s |} |}.
Definition shared_contract : CompiledContract := compiled_or shared_room cold_room_document.
Lemma shared_address_misroutes :
  validate_blueprint shared_room = Ok shared_room
  /\ compile shared_room cold_room_context = Return shared_contract
  /\ (exists enc, encode_event {| pc_document := document shared_contract; pc_hash := hash shared_contract |} room_event
                    7200000000000 cold_room_event_id = Ok enc /\ ee_address enc = room_address)
  /\ fst <$> List.find (ingress_address room_address) (doc_routes (document shared_contract)) = Some "archive"
  /\ extract_streams "archive" cold_room_payload (doc_streams (document shared_contract)) ([], []) = Ok ([], []).
Proof.
  split; [vm_compute; reflexivity|]. split; [vm_compute; reflexivity|]. split; [|split; vm_compute; reflexivity].
  eexists. split; vm_compute; reflexivity.
Qed.
