(* ===== verification/DeviceClient.v ===== *)
(** * The native device client (clients/rust/runtime/src/lib.rs) and the reports
    it sends (crates/backend/src/zenoh_handler/handlers/shadow.rs,
    DeviceReportApplication)

    The client carries its device id in its own binary, applies the shadow
    deltas it is sent, reports its state, and runs one update at a time.  The
    server merges each report into the shadow and advances the deployment the
    report speaks of. *)
From S2P Require Import Prelude Text BTree Json Errors Access Topics Shadows ContractModel ContractCompiler DeviceIngress Firmware.
From S2P Require Import ClientContract NativeUpdate.
From Stdlib Require Import Ascii.
From stdpp Require Import gmap strings.

Local Open Scope Z_scope.

(** ** The embedded device id *)
Definition EMBED_MARKER_LEN : nat := 23.
Definition EMBED_ID_CAPACITY : nat := 64.
Definition EMBED_SLOT_LEN : nat := 88.
(** Bytes are lists here: the positions of slices matter. *)
Definition bytes_of (s : string) : list ascii := String.list_ascii_of_string s.
Definition string_of (l : list ascii) : string := String.string_of_list_ascii l.
Definition byte_in (lo hi : Z) (c : ascii) : bool := (lo <=? Z.of_N (N_of_ascii c)) && (Z.of_N (N_of_ascii c) <=? hi).
Definition continuation (c : ascii) : bool := byte_in 128 191 c.
(** [String::from_utf8] checks the encoding. *)
Fixpoint utf8_valid (l : list ascii) : bool :=
  match l with
  | [] => true
  | a :: l1 =>
    if byte_in 0 127 a then utf8_valid l1 else
    match l1 with
    | [] => false
    | b :: l2 =>
      if byte_in 194 223 a then continuation b && utf8_valid l2 else
      match l2 with
      | [] => false
      | c :: l3 =>
        if byte_in 224 239 a
        then (if byte_in 224 224 a then byte_in 160 191 b else if byte_in 237 237 a then byte_in 128 159 b else continuation b)
             && continuation c && utf8_valid l3
        else match l3 with
             | [] => false
             | d :: l4 =>
               byte_in 240 244 a
               && (if byte_in 240 240 a then byte_in 144 191 b else if byte_in 244 244 a then byte_in 128 143 b else continuation b)
               && continuation c && continuation d && utf8_valid l4
             end
      end
    end
  end.
Definition NUL : ascii := Ascii.zero.
Fixpoint position_nul (l : list ascii) : nat :=
  match l with [] => 0 | c :: l => if Ascii.eqb c NUL then 0 else S (position_nul l) end.
Definition read_embedded_device_id (slot : list ascii) : option string :=
  if (length slot <? EMBED_MARKER_LEN + EMBED_ID_CAPACITY)%nat then None else
  let id_bytes := take EMBED_ID_CAPACITY (drop EMBED_MARKER_LEN slot) in
  let end_ := position_nul id_bytes in
  if (end_ =? 0)%nat then None else
  if utf8_valid (take end_ id_bytes) then Some (string_of (take end_ id_bytes)) else None.
Definition marker : list ascii := bytes_of "<<EXTRITTIO_" ++ bytes_of "DEVICE_ID>>".
Definition needle : list ascii := marker ++ repeat NUL 8.
(** [windows(n).position(|w| w == needle)]. *)
Fixpoint find_needle (binary : list ascii) : option nat :=
  if bool_decide (take (length needle) binary = needle) then Some 0%nat
  else match binary with [] => None | _ :: rest => S <$> find_needle rest end.
(** [None] is a panic: the slot reaches past the end of the binary. *)
Definition patch_device_id_in_binary (binary : list ascii) (device : string) : option (bool * list ascii) :=
  match find_needle binary with
  | None => Some (false, binary)
  | Some pos =>
    let id_start := (pos + EMBED_MARKER_LEN)%nat in
    let id_bytes := bytes_of device in
    let copy_len := Nat.min (length id_bytes) EMBED_ID_CAPACITY in
    if (length binary <? id_start + EMBED_ID_CAPACITY)%nat then None else
    Some (true, take id_start binary ++ take copy_len id_bytes ++ repeat NUL (EMBED_ID_CAPACITY - copy_len)
                ++ drop (id_start + EMBED_ID_CAPACITY) binary)
  end.

(** The identity a client starts with: configured, embedded, or the contract's; it must be the contract's. *)
Definition start_identity (configured : option string) (slot : list ascii) (p : ProvisionedContract) : result ProvisionedContractError string :=
  let device := match configured with
                | Some d => d
                | None => default (doc_device_id (pc_document p)) (read_embedded_device_id slot) end in
  _ ← validate_device_id p device; Ok device.

(** ** State and reports of the client *)
Record ShadowReport := { sr_device_id : string; sr_timestamp : Z; sr_state : Map; sr_state_json : string; sr_version : Z }.
Record ClientState := {
  cl_reported : Map; cl_ota_in_progress : bool;
  cl_sent : list ShadowReport; (* in order *)
}.
Inductive Download := HttpStatus (status : string) | ReadError (e : string) | RequestError (e : string) | Body (bytes : list ascii).
(** What an update meets: the executable's path, the answer to the download, the process id. *)
Record OtaEnvironment := { oe_current_exe : result string string; oe_download : Download; oe_pid : Z; oe_now : nat -> Z }.
Inductive OtaEnd := OtaReturned | OtaExited | OtaPanicked | OtaStopped.

Section runtime.
Context `{!SerdeJson, !ImageDigest}.
(** The state as an object, beside its text. *)
Definition send_shadow_report (now : nat -> Z) (device : string) (version : Z) (st : ClientState) : ClientState :=
  let json := match to_string (Object (cl_reported st)) with Ok t => t | Err _ => "{}" end in
  {| cl_reported := cl_reported st; cl_ota_in_progress := cl_ota_in_progress st;
     cl_sent := cl_sent st ++ [{| sr_device_id := device; sr_timestamp := now (length (cl_sent st)); sr_state := cl_reported st;
                                  sr_state_json := json; sr_version := version |}] |}.
Definition with_reported (st : ClientState) (m : Map) : ClientState :=
  {| cl_reported := m; cl_ota_in_progress := cl_ota_in_progress st; cl_sent := cl_sent st |}.
Definition with_ota_flag (st : ClientState) (b : bool) : ClientState :=
  {| cl_reported := cl_reported st; cl_ota_in_progress := b; cl_sent := cl_sent st |}.
Definition report_ota_status (now : nat -> Z) (device : string) (version : Z) (p : OtaPayload) (status : string) (error : option string)
    (st : ClientState) : ClientState :=
  let ota := build_status_json status (op_firmware_version p) (op_firmware_update_id p) (op_deployment_id p) error in
  send_shadow_report now device version (with_reported st (bt_insert "ota" ota (cl_reported st))).
Definition apply_delta (delta state : Map) : Map := fold_left (fun m e => bt_insert e.1 e.2 m) (bt_remove "ota" delta) state.
(** A delta that arrived: its text is parsed, everything but the update merged
    and reported; the update to start, if no other runs. *)
Definition handle_delta (now : nat -> Z) (device : string) (delta_json : string) (version : Z) (st : ClientState)
    : option value * ClientState :=
  match from_str delta_json with
  | Ok (Object delta) =>
    let st := with_reported st (apply_delta delta (cl_reported st)) in
    let st := send_shadow_report now device version st in
    match bt_get "ota" delta with
    | None => (None, st)
    | Some ota => if cl_ota_in_progress st then (None, st) else (Some ota, with_ota_flag st true)
    end
  | _ => (None, st)
  end.
Definition io_text (e : IoError) : string := match e with IoNotFound => "entity not found" | IoOther m => m end.
(** Both hashes are hexadecimal, so lowercase is ASCII's. *)
Definition hash_matches (expected : string) (bytes : list ascii) : bool :=
  str_map to_ascii_lowercase (digest (string_of bytes)) =s? str_map to_ascii_lowercase expected.
Definition handle_ota (env : OtaEnvironment) (device : string) (payload : value) (version : Z) (previous_version : string)
    (st : ClientState) (w : World) : OtaEnd * ClientState * World :=
  match payload_from_json payload with
  | None => (OtaReturned, st, w)
  | Some p =>
    let report status error st := report_ota_status (oe_now env) device version p status error st in
    let failed error st w := (OtaReturned, report "failed" (Some error) st, w) in
    match (match oe_current_exe env with Ok exe => is_installed_attempt exe (op_deployment_id p) w | Err _ => (Done false, w) end) with
    | (Stopped, w) => (OtaStopped, st, w)
    | (Done true, w) => (OtaReturned, st, w)
    | (_, w) =>
      let st := report "downloading" None st in
      match oe_download env with
      | HttpStatus s => failed ("HTTP " +:+ s) st w
      | ReadError e => failed ("download read error: " +:+ e) st w
      | RequestError e => failed ("download error: " +:+ e) st w
      | Body bytes =>
        let checked := match op_sha256 p with
                       | Some expected =>
                         (report "verifying" None st,
                          if hash_matches expected bytes then None
                          else Some ("hash mismatch: expected=" +:+ expected +:+ " got=" +:+ digest (string_of bytes)))
                       | None => (st, None) end in
        let st := checked.1 in
        match checked.2 with
        | Some mismatch => failed mismatch st w
        | None =>
          match patch_device_id_in_binary bytes device with
          | None => (OtaPanicked, st, w)
          | Some (_, firmware) =>
            let st := report "installing" None st in
            match oe_current_exe env with
            | Err e => failed ("cannot resolve current executable path: " +:+ e) st w
            | Ok exe =>
              match install (oe_pid env) exe (string_of firmware) payload previous_version w with
              | (Failed e, w) => failed (io_text e) st w
              | (Stopped, w) => (OtaStopped, st, w)
              | (Done _, w) => (OtaExited, report "rebooting" None st, w)
              end
            end
          end
        end
      end
    end
  end.
(** The spawned task: the flag is cleared when [handle_ota] returns. *)
Definition ota_task (env : OtaEnvironment) (device : string) (payload : value) (version : Z) (previous_version : string)
    (st : ClientState) (w : World) : OtaEnd * ClientState * World :=
  match handle_ota env device payload version previous_version st w with
  | (OtaReturned, st, w) => (OtaReturned, with_ota_flag st false, w)
  | other => other
  end.

(** ** The server's side of a report *)
Definition device_report (to_lowercase : string -> string) (s : OtaStore) (ident : DeviceIdentity) (patch : Map) (now now' now'' : Z)
    : result ApplicationError (ShadowRecord * option ApplicationError) * OtaStore :=
  match device_update_reported (device_shadows s) (id_tenant ident) (id_device ident) patch now with
  | (Err e, _) => (Err e, s)
  | (Ok shadow, shadows) =>
    let s := set_ota s (ota_deployments s) shadows in
    match process_report to_lowercase s (id_tenant ident) (id_device ident) (Object patch) now' now'' with
    | (Ok _, s) => (Ok (shadow, None), s)
    | (Err e, s) => (Ok (shadow, Some e), s)
    end
  end.
Definition handle_shadow_report (to_lowercase : string -> string) (resolve : string -> option DeviceIdentity) (topic_device : string)
    (r : ShadowReport) (s : OtaStore) (now now' now'' : Z) : OtaStore :=
  if topic_device !=s sr_device_id r then s else
  match resolve (sr_device_id r) with
  | None => s
  | Some ident =>
    match from_str (sr_state_json r) with
    | Ok (Object patch) => (device_report to_lowercase s ident patch now now' now'').2
    | _ => s
    end
  end.
Record ShadowDelta := { sd_device_id : string; sd_delta_json : string; sd_version : Z }.
(** The message that is put on a topic, if any. *)
Definition publish_delta_if_nonempty (device : string) (delta : value) (version : Z) : option (string * ShadowDelta) :=
  match as_object delta with
  | Some (_ :: _) =>
    match to_string delta with
    | Ok json => Some (shadow_delta device, {| sd_device_id := device; sd_delta_json := json; sd_version := version |})
    | Err _ => None
    end
  | _ => None
  end.
Definition handle_shadow_get (resolve : string -> option DeviceIdentity) (topic_device device : string) (s : OtaStore)
    : option (string * ShadowDelta) :=
  if topic_device !=s device then None else
  ident ← resolve device;
  match device_get (device_shadows s) (id_tenant ident) (id_device ident) with
  | Err _ => None
  | Ok shadow =>
    if match as_object (delta shadow) with Some [] => true | _ => false end then None
    else publish_delta_if_nonempty device (delta shadow) (sh_version shadow)
  end.
End runtime.

(** ** The embedded id *)
Definition blank_slot : list ascii := marker ++ repeat NUL 65.
Lemma position_nul_app l rest : NUL ∉ l -> position_nul (l ++ NUL :: rest) = length l.
Proof.
  induction l as [|c l IH]; intros Hn; [done|]. simpl. destruct (Ascii.eqb_spec c NUL) as [->|]; [exfalso; apply Hn; by left|].
  f_equal. apply IH. intros H. apply Hn. by right.
Qed.
Lemma position_nul_none l : NUL ∉ l -> position_nul l = length l.
Proof.
  induction l as [|c l IH]; intros Hn; [done|]. simpl. destruct (Ascii.eqb_spec c NUL) as [->|]; [exfalso; apply Hn; by left|].
  f_equal. apply IH. intros H. apply Hn. by right.
Qed.
Lemma string_of_bytes s : string_of (bytes_of s) = s.
Proof. apply String.string_of_list_ascii_of_string. Qed.
(** The device id survives an update up to the capacity of the slot: patched
    into the blank slot of the new binary, its first 64 bytes are what the new
    binary reads, and nothing else of the binary changes.  A longer id, which
    the server accepts up to 128 bytes, is read back as another one. *)
Theorem embedded_id_roundtrip pre post device :
  find_needle (pre ++ blank_slot ++ post) = Some (length pre) ->
  let kept := take EMBED_ID_CAPACITY (bytes_of device) in
  device <> "" -> NUL ∉ bytes_of device -> utf8_valid kept = true ->
  exists slot, patch_device_id_in_binary (pre ++ blank_slot ++ post) device = Some (true, pre ++ slot ++ post)
    /\ length slot = EMBED_SLOT_LEN /\ read_embedded_device_id slot = Some (string_of kept)
    /\ (string_of kept = device <-> (length (bytes_of device) <= EMBED_ID_CAPACITY)%nat).
Proof.
  intros Hf id Hne Hn Hu.
  assert (0 < length id <= 64)%nat as [Hpos Hlen].
  { unfold id, EMBED_ID_CAPACITY. rewrite length_take. destruct device as [|ch dev]; [done|].
    change (length (bytes_of (String ch dev))) with (S (length (bytes_of dev))). lia. }
  assert (NUL ∉ id) as Hn' by (intros H; apply Hn; by eapply (subseteq_take EMBED_ID_CAPACITY)).
  exists (marker ++ id ++ repeat NUL (EMBED_ID_CAPACITY - length id) ++ [NUL]).
  unfold patch_device_id_in_binary. rewrite Hf. cbv zeta.
  replace (take (Nat.min (length (bytes_of device)) EMBED_ID_CAPACITY) (bytes_of device)) with id
    by (unfold id; rewrite <- (firstn_all (bytes_of device)) at 1; rewrite take_take, Nat.min_comm; reflexivity).
  replace (Nat.min (length (bytes_of device)) EMBED_ID_CAPACITY) with (length id) by (unfold id; rewrite length_take; apply Nat.min_comm).
  assert (length marker = 23%nat) as Hm by reflexivity.
  unfold EMBED_MARKER_LEN, EMBED_SLOT_LEN. change EMBED_ID_CAPACITY with 64%nat in *.
  replace (length (pre ++ blank_slot ++ post) <? _)%nat with false
    by (symmetry; apply Nat.ltb_ge; rewrite !length_app; change (length blank_slot) with 88%nat; lia).
  split_and!.
  - do 2 f_equal. unfold blank_slot.
    rewrite <- (app_assoc marker), (app_assoc pre marker), take_app_length' by (rewrite length_app; lia).
    rewrite <- !app_assoc. do 4 f_equal. rewrite (app_assoc pre marker).
    change (repeat NUL 65) with (repeat NUL 64 ++ [NUL]). rewrite <- (app_assoc (repeat NUL 64)), (app_assoc (pre ++ marker) (repeat NUL 64)).
    apply drop_app_length'. rewrite !length_app, repeat_length. lia.
  - rewrite !length_app, repeat_length, Hm. simpl. lia.
  - unfold read_embedded_device_id, EMBED_MARKER_LEN. change EMBED_ID_CAPACITY with 64%nat. rewrite !length_app, repeat_length, Hm.
    replace (_ <? _)%nat with false by (symmetry; apply Nat.ltb_ge; simpl; lia). cbv zeta.
    rewrite drop_app_length' by done.
    rewrite (app_assoc id), take_app_length' by (rewrite length_app, repeat_length; lia).
    assert (position_nul (id ++ repeat NUL (64 - length id)) = length id) as Hp.
    { destruct (64 - length id)%nat; [rewrite app_nil_r; by apply position_nul_none|by apply position_nul_app]. }
    rewrite Hp, take_app_length. destruct (Nat.eqb_spec (length id) 0); [lia|]. by rewrite Hu.
  - split.
    + intros E. apply (f_equal bytes_of), (f_equal length) in E. unfold bytes_of, string_of in E.
      rewrite String.list_ascii_of_string_of_list_ascii in E. fold (bytes_of device) in E. lia.
    + intros H. unfold id. rewrite take_ge by lia. apply string_of_bytes.
Qed.
(** So a client whose id is longer does not start from the binary it was updated to. *)
Lemma long_id_refused p slot device :
  doc_device_id (pc_document p) = device -> (EMBED_ID_CAPACITY < length (bytes_of device))%nat ->
  read_embedded_device_id slot = Some (string_of (take EMBED_ID_CAPACITY (bytes_of device))) ->
  exists actual, start_identity None slot p = Err (DeviceMismatch actual device) /\ actual <> device.
Proof.
  intros Hd Hl Hr. unfold start_identity, validate_device_id. rewrite Hr, Hd. cbv beta zeta delta [default from_option id]. cbv iota.
  assert (string_of (take EMBED_ID_CAPACITY (bytes_of device)) <> device) as Hne.
  { intros E. apply (f_equal bytes_of), (f_equal length) in E. unfold bytes_of, string_of in E.
    rewrite String.list_ascii_of_string_of_list_ascii, length_take in E. fold (bytes_of device) in E. lia. }
  exists (string_of (take EMBED_ID_CAPACITY (bytes_of device))). split; [|done].
  destruct (String.eqb_spec device (string_of (take EMBED_ID_CAPACITY (bytes_of device)))) as [E|]; [by destruct Hne|done].
Qed.
(** A binary that ends within the slot makes the patch panic; the update task
    then never clears its flag, and no later delta starts an update. *)
Lemma truncated_slot_panics `{!SerdeJson, !ImageDigest} pre device env payload version previous st w p sha :
  find_needle (pre ++ needle) = Some (length pre) -> payload_from_json payload = Some p -> op_sha256 p = Some sha ->
  oe_current_exe env = Err "unknown" -> oe_download env = Body (pre ++ needle) -> hash_matches sha (pre ++ needle) = true ->
  cl_ota_in_progress st = true ->
  exists st', ota_task env device payload version previous st w = (OtaPanicked, st', w) /\ cl_ota_in_progress st' = true
    /\ forall now json v, (handle_delta now device json v st').1 = None.
Proof.
  intros Hf Hp Hs He Hd Hh Hflag. unfold ota_task, handle_ota. rewrite Hp, He, Hd, Hs, Hh. cbv zeta. cbn [fst snd].
  assert (patch_device_id_in_binary (pre ++ needle) device = None) as ->.
  { unfold patch_device_id_in_binary. rewrite Hf. cbv zeta. rewrite length_app. change (length needle) with 31%nat.
    unfold EMBED_MARKER_LEN, EMBED_ID_CAPACITY. by rewrite (proj2 (Nat.ltb_lt _ _)) by lia. }
  eexists. split; [reflexivity|]. split; [done|]. intros now json v. unfold handle_delta.
  destruct (from_str json) as [[| | | | |m]|]; try done. cbn. rewrite Hflag. by destruct (bt_get "ota" m).
Qed.

(** ** Applying deltas *)
Lemma insert_fold_get (rest m : Map) k :
  bt_sorted rest ->
  bt_get k (fold_left (fun m e => bt_insert e.1 e.2 m) rest m)
  = match bt_get k rest with Some v => Some v | None => bt_get k m end.
Proof.
  revert m. induction rest as [|[k0 v0] rest IH]; intros m Hs; [done|]. simpl.
  rewrite IH by (by eapply bt_sorted_tail). rewrite bt_get_insert. destruct (String.eqb_spec k k0) as [->|Hne].
  - by rewrite (sorted_tail_get _ _ _ Hs), String.eqb_refl.
  - by rewrite (proj2 (String.eqb_neq k0 k)) by done.
Qed.
Lemma insert_fold_wf (rest m : Map) :
  wf_value (Object rest) -> wf_value (Object m) -> wf_value (Object (fold_left (fun m e => bt_insert e.1 e.2 m) rest m)).
Proof.
  intros Hr. inversion_clear Hr as [| | | | |? _ Hw]. revert m. induction rest as [|[k v] rest IH]; intros m Hm; [done|].
  inversion_clear Hw. simpl. apply IH; [done|]. by apply (set_member_wf k v (Object m)).
Qed.
Lemma apply_delta_get delta state k : bt_sorted delta ->
  bt_get k (apply_delta delta state)
  = if "ota" =s? k then bt_get k state else match bt_get k delta with Some v => Some v | None => bt_get k state end.
Proof.
  intros Hs. unfold apply_delta. rewrite insert_fold_get by (by apply bt_remove_sorted). rewrite bt_get_remove.
  by destruct ("ota" =s? k).
Qed.
Lemma bt_remove_wf k (m : Map) : wf_value (Object m) -> wf_value (Object (bt_remove k m)).
Proof.
  intros Hw. inversion_clear Hw as [| | | | |? Hs Hm]. constructor; [by apply bt_remove_sorted|].
  rewrite Forall_forall in Hm |- *. intros e He. apply Hm. unfold bt_remove in He. apply list_elem_of_In, filter_In in He as [He _].
  by apply list_elem_of_In.
Qed.
(** What the server owes the client. *)
Lemma delta_members d r : state_ok (Object d) ->
  let owed := members (compute_delta (Object d) (Object r)) in
  wf_value (Object owed)
  /\ forall k, bt_get k owed = match bt_get k d with Some v => if settled r k v then None else Some v | None => None end.
Proof.
  intros Hd owed. destruct (state_ok_cases _ Hd) as (d' & [= <-] & Hs & Hw).
  assert (forall k, bt_get k owed = match bt_get k d with Some v => if settled r k v then None else Some v | None => None end) as Hget.
  { intros k. pose proof (delta_get d r k Hs) as E. by rewrite get_members in E. }
  split; [|exact Hget]. assert (bt_sorted owed) as Hso by (apply delta_fold_sorted, bt_sorted_nil).
  constructor; [done|]. rewrite Forall_forall. intros [k v] Hkv. apply (bt_get_elem _ _ _ Hso) in Hkv. rewrite Hget in Hkv.
  destruct (bt_get k d) as [x|] eqn:Ex; [|done]. destruct (settled r k x); [done|]. injection Hkv as <-. by eapply (wf_members_get d k).
Qed.
(** What the client reports is what the server has, up to the update. *)
Definition in_step (state : Map) (reported : value) : Prop :=
  wf_value (Object state)
  /\ forall k v, bt_get k state = Some v -> is_null v = false /\ (k <> "ota" -> get k reported = Some v).
Lemma converge_merge d r state :
  state_ok (Object d) -> in_step state (Object r) ->
  let state' := apply_delta (members (compute_delta (Object d) (Object r))) state in
  let merged := merge_json (Object r) state' in
  (forall k v, get k (compute_delta (Object d) merged) = Some v -> k = "ota" /\ bt_get k d = Some v) /\ in_step state' merged.
Proof.
  intros Hd [Hw Hstep] state' merged. destruct (delta_members d r Hd) as [Hwo Howed].
  destruct (state_ok_cases _ Hd) as (d' & [= <-] & Hsd & Hwd). assert (bt_sorted (members (compute_delta (Object d) (Object r)))) as Hso by by inversion Hwo.
  assert (forall k v, bt_get k d = Some v -> is_null v = false) as Hnn.
  { intros k v Hk. pose proof (state_no_null _ Hd k) as Hn. simpl in Hn. rewrite Hk in Hn. by destruct v. }
  assert (wf_value (Object state')) as Hw' by (apply insert_fold_wf; [by apply bt_remove_wf|done]).
  assert (forall k v, bt_get k state' = Some v -> is_null v = false) as Hnull.
  { intros k v. unfold state'. rewrite apply_delta_get, Howed by done. destruct ("ota" =s? k); [intros Hk; by eapply Hstep|].
    destruct (bt_get k d) as [x|] eqn:Ex; [destruct (settled r k x)|]; [intros Hk; by eapply Hstep| |intros Hk; by eapply Hstep].
    intros [= <-]. by eapply Hnn. }
  assert (forall k, get k merged = match bt_get k state' with Some v => Some v | None => bt_get k r end) as Hmg.
  { intros k. unfold merged. rewrite merge_get by (by inversion Hw'). destruct (bt_get k state') as [x|] eqn:Ex; [|done].
    by rewrite (Hnull _ _ Ex). }
  split; [|split; [done|]; intros k x Hx; split; [by eapply Hnull|]; intros _; by rewrite Hmg, Hx].
  intros k x. unfold merged, merge_json. rewrite delta_get by done. destruct (bt_get k d) as [y|] eqn:Ey; [|done].
  destruct (settled _ k y) eqn:Es; [done|]. intros [= <-]. split; [|done].
  destruct (String.eqb_spec "ota" k) as [->|Hne]; [done|]. exfalso. unfold settled in Es.
  specialize (Hmg k). unfold merged, merge_json in Hmg. cbn [get] in Hmg.
  rewrite Hmg in Es. unfold state' in Es. rewrite apply_delta_get, (proj2 (String.eqb_neq _ _) Hne), Howed, Ey in Es by done.
  destruct (settled r k y) eqn:Er'; [|by rewrite value_eqb_refl in Es by (by eapply wf_members_get)].
  unfold settled in Er'. destruct (bt_get k state) as [z|] eqn:Ez; [|by rewrite Er' in Es].
  destruct (Hstep _ _ Ez) as [_ Hz]. cbn [get] in Hz. rewrite Hz in Er' by done. by rewrite Er' in Es.
Qed.

Section deltas.
Context {codec : SerdeJson}.
(** C18. A device converges.  When the client is sent the delta of its shadow, the
    report it answers with settles everything that was owed except a pending
    update: once the server has merged it the delta holds at most that, the
    desired state stands, and the client and the server agree again.  No update
    is started while one runs, and the client answers every delta. *)
Theorem client_converges now device json version st sh at_ sh' :
  shadow_ok sh -> from_str json = Ok (delta sh) -> in_step (cl_reported st) (reported sh) ->
  let (update, st') := handle_delta now device json version st in
  apply_reported_patch sh (cl_reported st') at_ = Ok sh' ->
  (forall k v, get k (delta sh') = Some v -> k = "ota" /\ get k (desired sh) = Some v)
  /\ desired sh' = desired sh /\ in_step (cl_reported st') (reported sh')
  /\ (exists r, cl_sent st' = cl_sent st ++ [r] /\ sr_state r = cl_reported st' /\ sr_version r = version)
  /\ (forall ota, update = Some ota <-> get "ota" (delta sh) = Some ota /\ cl_ota_in_progress st = false)
  /\ (cl_ota_in_progress st = true -> cl_ota_in_progress st' = true).
Proof.
  intros [Hd Hr Hdelta _] Hjson Hstep. unfold handle_delta. rewrite Hjson.
  destruct (state_ok_cases _ Hd) as (d & Ed & _), (state_ok_cases _ Hr) as (r & Er & _). rewrite Ed, Er in *.
  destruct (converge_merge d r (cl_reported st) Hd Hstep) as [M1 M2]. rewrite Hdelta.
  destruct (compute_delta (Object d) (Object r)) as [| | | | |dm] eqn:Edm; try (by simpl in Edm). cbn [members] in *.
  assert (forall x, cl_reported x = apply_delta dm (cl_reported st) -> apply_reported_patch sh (cl_reported x) at_ = Ok sh' ->
    (forall k v, get k (delta sh') = Some v -> k = "ota" /\ get k (Object d) = Some v)
    /\ desired sh' = Object d /\ in_step (cl_reported x) (reported sh')) as Hmain.
  { intros x -> (v & _ & [= <-])%bind_ok. cbn [delta desired reported]. rewrite Ed, Er. done. }
  cbn [get]. destruct (bt_get "ota" dm) as [ota|] eqn:Eota; [destruct (cl_ota_in_progress st) eqn:Ef|];
    cbn [send_shadow_report with_reported with_ota_flag cl_reported cl_ota_in_progress cl_sent]; rewrite ?Ef;
    cbn [cl_reported cl_ota_in_progress cl_sent]; intros Hp;
    (match type of Hp with apply_reported_patch _ ?m _ = _ =>
       destruct (Hmain {| cl_reported := m; cl_ota_in_progress := true; cl_sent := [] |} eq_refl Hp) as (M3 & M4 & M5) end;
     split_and!; [exact M3|exact M4|exact M5|eexists; split_and!; reflexivity|naive_solver|try done]).
Qed.
End deltas.

(** ** Updates, from the device to the deployment *)
Section updates.
Context {codec : SerdeJson} {hasher : ImageDigest}.
(** The runs of an update: how it ends and the statuses reported. *)
Definition ota_stories : list (OtaEnd * list string) :=
  [(OtaReturned, []); (OtaStopped, []);
   (OtaReturned, ["downloading"; "failed"]); (OtaReturned, ["downloading"; "verifying"; "failed"]);
   (OtaPanicked, ["downloading"; "verifying"]); (OtaReturned, ["downloading"; "verifying"; "installing"; "failed"]);
   (OtaStopped, ["downloading"; "verifying"; "installing"]); (OtaExited, ["downloading"; "verifying"; "installing"; "rebooting"])].
Definition report_all (now : nat -> Z) (device : string) (version : Z) (p : OtaPayload) (l : list (string * option string))
    (st : ClientState) : ClientState :=
  fold_left (fun st e => report_ota_status now device version p e.1 e.2 st) l st.
(** What is on disk afterwards: the old executable, or the verified image with the device id in it. *)
Definition verified_install (env : OtaEnvironment) (device : string) (p : OtaPayload) (w w' : World) : Prop :=
  forall exe, oe_current_exe env = Ok exe ->
  w_files w' !! exe = w_files w !! exe
  \/ exists bytes found firmware, oe_download env = Body bytes /\ (exists h, op_sha256 p = Some h /\ hash_matches h bytes = true)
     /\ patch_device_id_in_binary bytes device = Some (found, firmware) /\ w_files w' !! exe = Some (string_of firmware).
Lemma install_exe pid exe bytes payload version w :
  let out := install pid exe bytes payload version w in
  w_files out.2 !! exe = w_files w !! exe \/ w_files out.2 !! exe = Some bytes.
Proof.
  intros out. assert (safe (install pid exe bytes payload version) w
    (fun _ w' => file exe w' "" = file exe w "" \/ file exe w' "" = Some bytes)
    (fun w' => file exe w' "" = file exe w "" \/ file exe w' "" = Some bytes)) as Hs.
  2: { unfold safe, file in Hs. rewrite sidecar_nil in Hs. unfold out. by destruct (install _ _ _ _ _ _) as [[]]. }
  assert (forall w', same exe w w' -> file exe w' "" = file exe w "" \/ file exe w' "" = Some bytes) as Hs
    by (intros w' H'; left; apply (same_lookup exe w w' "" ltac:(by left) H')).
  apply safe_bind, safe_lock. intros w1 Hs1. split; [|by apply Hs].
  destruct (payload_from_json payload); [|by apply safe_fail, Hs].
  apply safe_bind, safe_read_exe; [|intros w2 Hs2; by eapply Hs, same_trans]. intros w2 b Hs2 _.
  pose proof (same_trans _ _ _ _ Hs1 Hs2) as Hs12. pose proof (same_lookup exe w w2 "" ltac:(by left) Hs12) as E2.
  apply safe_bind, safe_atomic_write; [by right; right; left|intros; by eapply Hs, same_trans|].
  intros w3 (E3 & _)%replaced_files. change (file exe w3 "" = file exe w2 "") in E3. rewrite E2 in E3. split; [|by left].
  apply safe_bind. unfold save. destruct (to_string _); [|by apply safe_fail; left].
  apply safe_atomic_write; [by right; left| |].
  { intros w4 H4. left. rewrite <- E3. apply (same_lookup exe w3 w4 "" ltac:(by left) H4). }
  intros w4 (E4 & _)%replaced_files. change (file exe w4 "" = file exe w3 "") in E4. rewrite E3 in E4. split; [|by left].
  apply safe_bind, safe_syscall. intros w5 Hf5 _. cbn.
  assert (forall w', w_files w' = w_files w4 -> file exe w' "" = file exe w "") as Hf by (intros w' E; unfold file in *; by rewrite E).
  split; [|intros ?; left; by apply Hf].
  match goal with |- safe _ ?x _ _ => assert (file exe x "" = file exe w "") as E5 by by apply Hf end.
  apply safe_write_exe; [intros w' H'; left; rewrite <- E5; apply (same_lookup exe _ w' "" ltac:(by left) H')|].
  intros w6 (E6 & _)%replaced_files. change (file exe w6 "" = Some bytes) in E6. split; by right.
Qed.
Lemma is_installed_files exe deployment w :
  let out := is_installed_attempt exe deployment w in w_files out.2 = w_files w /\ forall e, out.1 <> Failed e.
Proof.
  destruct w as [f fs ws]. unfold is_installed_attempt, read, fs_read, mbind, io_bind, io_try, syscall.
  destruct fs as [|[|n m|n] rest]; cbn; [| |by split|by split];
    (destruct (f !! sidecar exe ".ota-state") as [b|]; cbn; [|by split]);
    (destruct (from_str b); cbn; [|by split]); (case_match; cbn; [by split|]).
  - destruct (f !! exe); by split.
  - destruct rest as [|[] ?]; cbn; try (by split); destruct (f !! exe); by split.
Qed.
Lemma payload_sha payload p : payload_from_json payload = Some p -> is_Some (op_sha256 p).
Proof.
  unfold payload_from_json. destruct (member_str "sha256" payload); simpl; [|done].
  destruct (member_str _ _), (member_str _ _); simpl; try done. case_match; [done|].
  destruct (member_i64 "deployment_id" payload); simpl; [|done]. case_match; [done|].
  destruct (member_i64 _ _); simpl; [|done]. case_match; [done|]. intros [= <-]. by eexists.
Qed.
Lemma handle_ota_story env device payload version previous st w fin st' w' p :
  payload_from_json payload = Some p ->
  handle_ota env device payload version previous st w = (fin, st', w') ->
  exists l, st' = report_all (oe_now env) device version p l st /\ (fin, l.*1) ∈ ota_stories /\ verified_install env device p w w'.
Proof.
  intros Hp. destruct (payload_sha _ _ Hp) as [sha Hsha]. unfold handle_ota. rewrite Hp. cbv zeta.
  assert (exists r w1, (match oe_current_exe env with Ok exe => is_installed_attempt exe (op_deployment_id p) w | Err _ => (Done false, w) end)
    = (r, w1) /\ w_files w1 = w_files w /\ forall e, r <> Failed e) as (r & w1 & -> & Hw1 & Hr).
  { destruct (oe_current_exe env) as [exe|e]; [|by exists (Done false), w].
    pose proof (is_installed_files exe (op_deployment_id p) w) as [H1 H2]. destruct (is_installed_attempt _ _ _) as [r w1]. eauto. }
  assert (forall l fin' , (fin', l.*1) ∈ ota_stories -> forall st1 w2, w_files w2 = w_files w ->
    st1 = report_all (oe_now env) device version p l st -> (fin', st1, w2) = (fin, st', w') ->
    exists l, st' = report_all (oe_now env) device version p l st /\ (fin, l.*1) ∈ ota_stories /\ verified_install env device p w w') as Hend.
  { intros l fin' Hin st1 w2 Hw2 -> [= <- <- <-]. exists l. split_and!; [done..|]. intros exe _. left. by rewrite Hw2. }
  destruct r as [[|]|e|]; [..|by destruct (Hr e)|].
  1: by apply (Hend [] OtaReturned); [left|..].
  2: by apply (Hend [] OtaStopped); [right; left|..].
  destruct (oe_download env) as [s|s|s|bytes] eqn:Edl.
  1-3: eapply (Hend [("downloading", None); ("failed", Some _)] OtaReturned); [by do 2 right; left|done|reflexivity].
  rewrite Hsha. cbn [fst snd]. destruct (hash_matches sha bytes) eqn:Eh.
  2: eapply (Hend [("downloading", None); ("verifying", None); ("failed", Some _)] OtaReturned); [by do 3 right; left|done|reflexivity].
  destruct (patch_device_id_in_binary bytes device) as [[found firmware]|] eqn:Epatch.
  2: by apply (Hend [("downloading", None); ("verifying", None)] OtaPanicked); [do 4 right; left|..].
  destruct (oe_current_exe env) as [exe|e] eqn:Eexe.
  2: eapply (Hend [("downloading", None); ("verifying", None); ("installing", None); ("failed", Some _)] OtaReturned);
       [by do 5 right; left|done|reflexivity].
  assert (verified_install env device p w (install (oe_pid env) exe (string_of firmware) payload previous w1).2) as Hv.
  { intros exe' He. rewrite Eexe in He. injection He as <-. destruct (install_exe (oe_pid env) exe (string_of firmware) payload previous w1) as [E|E];
      [left; by rewrite E, Hw1|right; exists bytes, found, firmware; eauto 10]. }
  destruct (install _ _ _ _ _ _) as [[[]|e|] w2]; cbn [snd] in Hv; intros [= <- <- <-].
  - exists [("downloading", None); ("verifying", None); ("installing", None); ("rebooting", None)].
    split; [reflexivity|]. split; [by do 7 right; left|done].
  - exists [("downloading", None); ("verifying", None); ("installing", None); ("failed", Some (io_text e))].
    split; [reflexivity|]. split; [by do 5 right; left|done].
  - exists [("downloading", None); ("verifying", None); ("installing", None)].
    split; [reflexivity|]. split; [by do 6 right; left|done].
Qed.

(** The reports of a run carry their statuses. *)
Definition says (p : OtaPayload) (e : string * option string) : value :=
  build_status_json e.1 (op_firmware_version p) (op_firmware_update_id p) (op_deployment_id p) e.2.
Lemma says_get p e k : get k (says p e) =
  if k =s? "status" then Some (VString e.1) else if k =s? "firmware_version" then Some (VString (op_firmware_version p))
  else if k =s? "deployment_id" then Some (of_int (op_deployment_id p))
  else if k =s? "firmware_update_id" then of_int <$> op_firmware_update_id p
  else if k =s? "error" then VString <$> e.2 else None.
Proof.
  destruct e as [status error]. unfold says, build_status_json, object, get, bt_collect.
  destruct (op_firmware_update_id p), error; cbn [app fold_left fst snd]; rewrite !bt_get_insert;
    repeat match goal with |- context [k =s? ?w] => destruct (String.eqb_spec k w) as [->|?]; [reflexivity|];
      rewrite ?(proj2 (String.eqb_neq w k)) by congruence end; reflexivity.
Qed.
Lemma reports_of now device version p l st :
  wf_value (Object (cl_reported st)) -> (forall e, wf_value (says p e)) ->
  exists rs, cl_sent (report_all now device version p l st) = cl_sent st ++ rs
    /\ Forall2 (fun e r => bt_get "ota" (sr_state r) = Some (says p e) /\ wf_value (Object (sr_state r)) /\ sr_device_id r = device) l rs.
Proof.
  intros Hw Hs. revert st Hw. induction l as [|e l IH]; intros st Hw; [exists []; by rewrite app_nil_r|]. cbn [report_all fold_left].
  set (st1 := report_ota_status now device version p e.1 e.2 st).
  assert (wf_value (Object (cl_reported st1))) as Hw1 by (by apply (set_member_wf "ota" (says p e) (Object (cl_reported st)))).
  destruct (IH st1 Hw1) as (rs & Hrs & HF). fold (report_all now device version p l st1). rewrite Hrs. cbn. rewrite <- app_assoc.
  eexists. split; [reflexivity|]. constructor; [|done]. cbn. split_and!; [|done|done]. by rewrite bt_get_insert.
Qed.
(** What the server reads of a report is strings and integers at fixed places. *)
Lemma report_update_paths lower v now :
  report_update lower v now =
  (status ← get_path ["ota"; "status"] v ≫= as_str;
   id ← get_path ["ota"; "deployment_id"] v ≫= as_i64;
   if Int.in_i32 id && (0 <? id) then
     Some {| ou_deployment_id := id;
             ou_firmware_update_id :=
               (f ← get_path ["ota"; "firmware_update_id"] v ≫= as_i64; if Int.in_i32 f then Some f else None);
             ou_status := lower status; ou_error_message := get_path ["ota"; "error"] v ≫= as_str;
             ou_completed_at := if ota_status_is_terminal (lower status) then Some now else None |}
   else None).
Proof.
  assert (forall k v, get_path [k] v = get k v) as Hk by (intros k x; simpl; by destruct (get k x)).
  unfold report_update. change (get_path ("ota" :: ?p) v) with (get "ota" v ≫= get_path p).
  destruct (get "ota" v) as [[| | | | |m]|]; try reflexivity. cbn [mbind option_bind as_object]. rewrite !Hk. reflexivity.
Qed.
Context {Hints : SerdeJsonLaws} {Htexts : SerdeTextLaws}.
Lemma report_read lower p e m t v now f :
  wf_value (Object m) -> bt_get "ota" m = Some (says p e) -> to_string (Object m) = Ok t -> from_str t = Ok v ->
  Int.in_i32 (op_deployment_id p) = true -> 0 < op_deployment_id p -> op_firmware_update_id p = Some f -> Int.in_i32 f = true -> 0 < f ->
  lower e.1 = e.1 ->
  exists at_, report_update lower v now
  = Some {| ou_deployment_id := op_deployment_id p; ou_firmware_update_id := Some f; ou_status := e.1; ou_error_message := e.2;
            ou_completed_at := at_ |}.
Proof using Hints Htexts.
  intros Hw Hota Ht Hv Hi Hpos Hf Hfi Hfpos Hl. rewrite report_update_paths.
  assert (forall path, get_path path v ≫= as_str = get_path path (Object m) ≫= as_str) as Hs by (intros; by eapply strings_survive).
  assert (forall path, get_path path v ≫= as_i64 = get_path path (Object m) ≫= as_i64) as Hz by (intros; by eapply integers_survive).
  assert (forall k, get_path ["ota"; k] (Object m) = get k (says p e)) as Hk.
  { intros k. cbn [get_path get]. rewrite Hota. cbn [mbind option_bind]. by destruct (get k (says p e)). }
  assert (forall z, Int.in_i32 z = true -> 0 < z -> as_i64 (of_int z) = Some z) as Hint.
  { intros z Hb Hp. unfold of_int. rewrite (proj2 (Z.leb_le 0 z)) by lia. cbn. unfold Int.in_i32, Int.i32_max, Int.i64_max in *.
    rewrite (proj2 (Z.leb_le _ _)) by (apply andb_true_iff in Hb as [_ ?%Z.leb_le]; lia). done. }
  assert (get "status" (says p e) = Some (VString e.1)) as E1 by (by rewrite says_get).
  assert (get "deployment_id" (says p e) = Some (of_int (op_deployment_id p))) as E2 by (by rewrite says_get).
  assert (get "firmware_update_id" (says p e) = Some (of_int f)) as E3 by (by rewrite says_get, Hf).
  assert (get "error" (says p e) = VString <$> e.2) as E4 by (by rewrite says_get).
  rewrite !Hs, !Hz, !Hk, E1, E2, E3, E4. cbn [mbind option_bind as_str]. rewrite !Hint by done. cbn [mbind option_bind]. rewrite Hi, Hfi, (proj2 (Z.ltb_lt _ _) Hpos), Hl. cbn [andb].
  eexists. do 2 f_equal. by destruct e.2.
Qed.
(** The firmware bookkeeping of the server, report after report:
    [FirmwareReportApplication::process_report] on each, the second half of
    [device_report]; the shadow the first half merges into is left alone. *)
Definition read_report (r : ShadowReport) : value := match from_str (sr_state_json r) with Ok v => v | Err _ => Null end.
Definition bookkeeping_after (lower : string -> string) (tenant device : string) (now now' : Z) (s : OtaStore) (rs : list ShadowReport) : OtaStore :=
  fold_left (fun s r => (process_report lower s tenant device (read_report r) now now').2) rs s.
Fixpoint advances (status : string) (l : list string) : bool :=
  match l with [] => true | next :: l => ota_transition_allowed status next && advances next l end.
Definition final_status (status : string) (l : list string) : string := fold_left (fun _ next => next) l status.
Lemma stories_advance fin l : (fin, l) ∈ ota_stories -> advances "pending" l = true.
Proof using. intros Hin. apply list_elem_of_In in Hin. repeat (destruct Hin as [[= <- <-]|Hin]; [reflexivity|]). destruct Hin. Qed.
Lemma stories_words fin l : (fin, l) ∈ ota_stories -> Forall (fun s => str_forall is_ascii_lowercase s = true) l.
Proof using.
  intros Hin. apply list_elem_of_In in Hin.
  repeat (destruct Hin as [[= <- <-]|Hin]; [repeat constructor|]). destruct Hin.
Qed.
Lemma stories_open fin l : (fin, l) ∈ ota_stories -> fin <> OtaReturned -> forall outcome, outcome ∈ ["success"; "failed"] ->
  ota_transition_allowed (final_status "pending" l) outcome = true.
Proof using.
  intros Hin Hne outcome Ho. apply list_elem_of_In in Hin. apply list_elem_of_In in Ho.
  destruct Ho as [<-|[<-|[]]]; repeat (destruct Hin as [[= <- <-]|Hin]; [done || reflexivity|]); destruct Hin.
Qed.
Lemma payload_positive payload p f : payload_from_json payload = Some p -> op_firmware_update_id p = Some f -> 0 < op_deployment_id p /\ 0 < f.
Proof using.
  unfold payload_from_json. destruct (member_str "sha256" payload); simpl; [|done].
  destruct (member_str _ _), (member_str _ _); simpl; try done. case_match; [done|].
  destruct (member_i64 "deployment_id" payload) as [id|]; simpl; [|done]. destruct (Z.leb_spec id 0); [done|].
  destruct (member_i64 _ _) as [u|]; simpl; [|done]. destruct (Z.leb_spec u 0); [done|]. intros [= <-] [= <-]. done.
Qed.
(** A deployment of the device, its command clearable. *)
Definition deployment_at (s : OtaStore) (tenant device : string) (id f : Z) (status : string) : Prop :=
  exists d, ota_deployments s !! id = Some d /\ dep_tenant d = tenant /\ dep_device d = device /\ dep_firmware d = f /\ dep_status d = status.
Lemma server_step lower tenant device now now' s v id f status next error at_ :
  deployment_at s tenant device id f status ->
  report_update lower v now = Some {| ou_deployment_id := id; ou_firmware_update_id := Some f; ou_status := next; ou_error_message := error; ou_completed_at := at_ |} ->
  ota_transition_allowed status next = true -> (exists t, clear_command (device_shadows s) tenant device id now' = Ok t) ->
  let s' := (process_report lower s tenant device v now now').2 in
  deployment_at s' tenant device id f next
  /\ (ota_status_is_terminal next = false -> device_shadows s' = device_shadows s).
Proof using.
  intros (d & Hd & <- & <- & <- & <-) Hu Ha [t Ht] s'. unfold s', process_report. rewrite Hu. unfold apply_ota_status.
  cbn [ou_deployment_id ou_firmware_update_id ou_status]. rewrite Hd, !String.eqb_refl, bool_decide_eq_false_2 by tauto.
  rewrite Ha. cbn [negb andb orb]. destruct (ota_status_is_terminal next); [rewrite Ht|]; cbn; (split; [|done]);
    (eexists; split; [apply lookup_insert_eq|done]).
Qed.
Lemma server_advances lower tenant device now now' p f shadows l rs s status :
  Forall2 (fun e r => bt_get "ota" (sr_state r) = Some (says p e) /\ wf_value (Object (sr_state r)) /\ sr_device_id r = device) l rs ->
  Forall (fun r => to_string (Object (sr_state r)) = Ok (sr_state_json r)) rs ->
  Forall (fun e => lower e.1 = e.1) l -> advances status l.*1 = true ->
  Int.in_i32 (op_deployment_id p) = true -> 0 < op_deployment_id p -> op_firmware_update_id p = Some f -> Int.in_i32 f = true -> 0 < f ->
  deployment_at s tenant device (op_deployment_id p) f status -> (l = [] \/ device_shadows s = shadows) ->
  (exists t, clear_command shadows tenant device (op_deployment_id p) now' = Ok t) ->
  deployment_at (bookkeeping_after lower tenant device now now' s rs) tenant device (op_deployment_id p) f (final_status status l.*1).
Proof using Hints Htexts.
  intros HF. revert s status. induction HF as [|e r l rs (Hota & Hw & _) HF IH]; intros s status Hp Hl Ha Hi Hpos Hf Hfi Hfpos Hd Hsh Hc; [done|].
  inversion_clear Hp as [|? ? Hp0 Hp']. inversion_clear Hl as [|? ? Hl0 Hl']. cbn [fmap list_fmap advances] in Ha.
  apply andb_true_iff in Ha as [Ha Hrest]. destruct (printed_parses _ _ Hw Hp0) as [v Hv]. destruct Hsh as [|Hsh]; [done|].
  destruct (report_read lower p e _ _ v now f Hw Hota Hp0 Hv Hi Hpos Hf Hfi Hfpos Hl0) as [at_ Hu].
  unfold bookkeeping_after. cbn [fold_left]. unfold read_report at 2. rewrite Hv.
  destruct (server_step lower tenant device now now' s v _ f status e.1 e.2 at_ Hd Hu Ha ltac:(by rewrite Hsh)) as [Hd' Hs'].
  apply (IH _ e.1); try assumption. destruct (ota_status_is_terminal e.1) eqn:Et; [left|right; by rewrite Hs'].
  destruct l as [|e' l]; [done|]. cbn [fmap list_fmap advances] in Hrest. unfold ota_transition_allowed in Hrest. by rewrite Et in Hrest.
Qed.

Lemma says_wf p f e : Int.in_i32 (op_deployment_id p) = true -> 0 < op_deployment_id p -> op_firmware_update_id p = Some f ->
  Int.in_i32 f = true -> 0 < f -> wf_value (says p e).
Proof using.
  intros Hi Hpos Hf Hfi Hfpos. assert (forall z, Int.in_i32 z = true -> 0 < z -> wf_value (of_int z)) as Hz.
  { intros z [Hb1 Hb2]%andb_true_iff Hp. apply Z.leb_le in Hb2. unfold of_int. rewrite (proj2 (Z.leb_le 0 z)) by lia. constructor.
    cbn [number_ok]. apply Int.in_u64_spec. unfold Int.i32_max, Int.u64_max in *. lia. }
  unfold says, build_status_json, object. rewrite Hf. constructor; [apply bt_collect_sorted|].
  rewrite Forall_forall. intros [k x] Hx. apply (bt_get_elem _ _ _ (bt_collect_sorted _)), bt_collect_elem in Hx. cbn.
  rewrite !elem_of_app in Hx. set_unfold in Hx. destruct e.2; set_unfold in Hx; naive_solver eauto with rust.
Qed.

(** C17. An update run by a device is told to the server step by step.  However the
    run goes, the executable is the old one or the image whose hash the command
    names, with the device id patched in; the reported statuses are one of the
    listed sequences; when the firmware bookkeeping of the server processes them
    in order, a pending deployment of that device and firmware follows them and
    ends at the last one; and unless the run ended with a failure that
    is final, the outcome the device reports after its restart is still
    accepted. *)
Theorem ota_reports_accepted env device payload version previous st w fin st' w' p f lower tenant now now' s :
  payload_from_json payload = Some p -> op_firmware_update_id p = Some f -> Int.in_i32 f = true -> Int.in_i32 (op_deployment_id p) = true ->
  wf_value (Object (cl_reported st)) -> (forall status, str_forall is_ascii_lowercase status = true -> lower status = status) ->
  deployment_at s tenant device (op_deployment_id p) f "pending" ->
  (exists t, clear_command (device_shadows s) tenant device (op_deployment_id p) now' = Ok t) ->
  handle_ota env device payload version previous st w = (fin, st', w') ->
  exists rs statuses, cl_sent st' = cl_sent st ++ rs /\ (fin, statuses) ∈ ota_stories /\ verified_install env device p w w'
    /\ map (fun r => bt_get "ota" (sr_state r) ≫= member_str "status") rs = map Some statuses
    /\ (Forall (fun r => to_string (Object (sr_state r)) = Ok (sr_state_json r)) rs ->
        deployment_at (bookkeeping_after lower tenant device now now' s rs) tenant device (op_deployment_id p) f (final_status "pending" statuses)
        /\ (fin <> OtaReturned -> forall outcome, outcome ∈ ["success"; "failed"] ->
             ota_transition_allowed (final_status "pending" statuses) outcome = true)).
Proof using Hints Htexts.
  intros Hp Hf Hfi Hi Hw Hlow Hd Hc Hrun. destruct (handle_ota_story _ _ _ _ _ _ _ _ _ _ _ Hp Hrun) as (l & -> & Hin & Hv).
  assert (0 < op_deployment_id p /\ 0 < f) as [Hpos Hfpos] by by eapply payload_positive.
  destruct (reports_of (oe_now env) device version p l st Hw (fun e => says_wf p f e Hi Hpos Hf Hfi Hfpos)) as (rs & Hrs & HF).
  exists rs, l.*1. split_and!; [done|done|done| |].
  - clear -HF. induction HF as [|e r l rs (Hota & _) HF IH]; [done|]. cbn [map fmap list_fmap]. rewrite IH, Hota. cbn [mbind option_bind].
    unfold member_str. by rewrite says_get.
  - intros Hprint. split.
    + eapply server_advances; [done|done| |by eapply stories_advance|done..|by right|done].
      pose proof (stories_words _ _ Hin) as Hwords. rewrite Forall_fmap in Hwords. eapply Forall_impl; [exact Hwords|]. intros e. apply Hlow.
    + by eapply stories_open.
Qed.
End updates.

(** ** Witnesses *)
Definition demo_delta_codec : SerdeJson := table_codec [("delta", delta demo_shadow)].
Definition idle_client : ClientState := {| cl_reported := []; cl_ota_in_progress := false; cl_sent := [] |}.
Definition demo_answer : option value * ClientState :=
  @handle_delta demo_delta_codec (fun _ => 0) "dev-1" "delta" 3 idle_client.
Lemma client_converges_witness :
  exists sh', apply_reported_patch demo_shadow (cl_reported demo_answer.2) 9 = Ok sh'
    /\ (forall k v, get k (delta sh') = Some v -> k = "ota" /\ get k (desired demo_shadow) = Some v)
    /\ length (cl_sent demo_answer.2) = 1%nat.
Proof.
  pose proof (fun sh' => @client_converges demo_delta_codec (fun _ => 0) "dev-1" "delta" 3 idle_client demo_shadow 9 sh' demo_shadow_ok
    ltac:(vm_compute; reflexivity) (conj (wf_object [] bt_sorted_nil (Forall_nil_2 _)) (fun k v (E : None = Some v) => False_ind _ ltac:(discriminate E)))) as H.
  fold demo_answer in H. destruct demo_answer as [update st'] eqn:E. cbn [snd].
  destruct (apply_reported_patch demo_shadow (cl_reported st') 9) as [sh'|e] eqn:Ep.
  - exists sh'. split; [reflexivity|]. destruct (H sh' eq_refl) as (M1 & _ & _ & (r & Hr & _) & _). split; [exact M1|]. rewrite Hr. reflexivity.
  - exfalso. vm_compute in E. injection E as <- <-. vm_compute in Ep. discriminate Ep.
Defined.

Definition demo_update_payload : value := default Null (get "ota" (demo_command 7)).
Definition demo_parsed : OtaPayload :=
  {| op_deployment_id := 7; op_firmware_version := "1.0.1"; op_firmware_url := "https://example.test/fw.bin";
     op_firmware_update_id := Some 3; op_sha256 := Some demo_hash |}.
Definition client_texts : list (string * value) :=
  demo_texts ++ [("downloading", Object [("ota", says demo_parsed ("downloading", None))]);
                 ("failed", Object [("ota", says demo_parsed ("failed", Some "HTTP 404"))])].
Definition client_codec : SerdeJson := table_codec client_texts.
#[local] Existing Instance client_codec.
#[local] Existing Instance demo_image_digest.
Lemma client_texts_nodup : NoDup client_texts.*1.
Proof. apply (bool_decide_unpack _). vm_compute. exact I. Qed.
Lemma client_codec_laws : SerdeJsonLaws.
Proof.
  apply table_codec_laws; [|apply client_texts_nodup].
  repeat apply Forall_cons_2; [| | | |apply Forall_nil_2]; by apply wf_valueb_sound.
Qed.
Lemma client_codec_texts : SerdeTextLaws.
Proof. apply table_codec_texts, client_texts_nodup. Qed.
Definition demo_environment : OtaEnvironment :=
  {| oe_current_exe := Ok "device"; oe_download := HttpStatus "404"; oe_pid := 1; oe_now := fun _ => 0 |}.
Definition demo_disk : World := {| w_files := demo_files; w_faults := []; w_watchdogs := [] |}.
Definition demo_run_ota : OtaEnd * ClientState * World :=
  handle_ota demo_environment "dev-1" demo_update_payload 4 "v1.0.0" idle_client demo_disk.
Lemma demo_command_clears : exists t, clear_command (device_shadows demo_triggered) "default" "dev-1" 7 9 = Ok t.
Proof.
  assert (match clear_command (device_shadows demo_triggered) "default" "dev-1" 7 9 with Ok _ => true | Err _ => false end = true) as H
    by (vm_compute; reflexivity).
  destruct (clear_command _ _ _ _ _) as [t|e]; [by exists t|discriminate H].
Qed.
Lemma ota_reports_accepted_witness :
  deployment_at demo_triggered "default" "dev-1" 7 3 "pending"
  /\ deployment_at (bookkeeping_after (fun s => s) "default" "dev-1" 8 9 demo_triggered (cl_sent demo_run_ota.1.2)) "default" "dev-1" 7 3 "failed".
Proof.
  assert (deployment_at demo_triggered "default" "dev-1" 7 3 "pending") as Hd
    by (eexists; split; [vm_compute; reflexivity|vm_compute; split_and!; reflexivity]).
  split; [exact Hd|]. destruct demo_run_ota as [[fin st'] w'] eqn:E.
  destruct (@ota_reports_accepted client_codec demo_image_digest client_codec_laws client_codec_texts demo_environment "dev-1"
    demo_update_payload 4 "v1.0.0" idle_client demo_disk fin st' w' demo_parsed 3 (fun s => s) "default" 8 9 demo_triggered
    ltac:(vm_compute; reflexivity) eq_refl eq_refl eq_refl (wf_object [] bt_sorted_nil (Forall_nil_2 _)) (fun _ _ => eq_refl) Hd
    demo_command_clears E) as (rs & statuses & Hs & _ & _ & Hst & Hserver).
  cbn [fst snd]. rewrite Hs. cbn [cl_sent idle_client app]. vm_compute in E. injection E as <- <- <-. cbn in Hs. subst rs.
  assert (statuses = ["downloading"; "failed"]) as -> by
    (vm_compute in Hst; destruct statuses as [|a [|b [|c l]]]; try discriminate Hst; injection Hst as <- <-; reflexivity).
  exact (proj1 (Hserver ltac:(repeat constructor))).
Defined.
Lemma embedded_id_roundtrip_witness :
  exists slot, patch_device_id_in_binary (bytes_of "prefix" ++ blank_slot ++ bytes_of "suffix") "factory-sensor-42"
               = Some (true, bytes_of "prefix" ++ slot ++ bytes_of "suffix")
    /\ read_embedded_device_id slot = Some "factory-sensor-42".
Proof.
  destruct (embedded_id_roundtrip (bytes_of "prefix") (bytes_of "suffix") "factory-sensor-42") as (slot & H1 & _ & H2 & _);
    [vm_compute; reflexivity|discriminate|apply (bool_decide_unpack _); vm_compute; exact I|vm_compute; reflexivity|].
  exists slot. split; [exact H1|]. rewrite H2. reflexivity.
Defined.
